(* ===== verification/_CoqProject ===== *)
-Q . S2P
Prelude.v
Types.v
Wire.v
WireFacts.v
Crypto.v
Workflow.v
State.v
Schedule.v
Steering.v
Hoare.v
Dns.v
Request.v
Client.v
WorkflowOps.v
Frame.v
Runtime.v
DnsFacts.v
RequestFacts.v
CryptoFacts.v
KeyFacts.v
RuntimeFacts.v
RuntimeSockets.v
RuntimeHost.v
Ids.v
PacketFacts.v
ExtractFacts.v
Responder.v
ResponderFacts.v
ResponderQuota.v
ResponderAnswers.v
ResponderSeal.v
ResponderSafety.v
ResponderStart.v
ResponderRequest.v
Lifecycle.v
Completion.v
Datagram.v
ResponderExchange.v
ResponderSpoiled.v
Admission.v
WorkflowFacts.v
Api.v
Teardown.v
Create.v
RuntimeConfig.v
RuntimeReceive.v
RuntimeLife.v
RuntimeWork.v
PerfLatency.v
PerfPacer.v
Perf.v
PerfFacts.v
PerfNet.v
PerfDns.v
PerfWorker.v
PerfNetFacts.v
PerfDnsFacts.v
PerfHost.v
PerfWait.v
PerfEnds.v
PerfRun.v
PerfThread.v
PerfMain.v
PerfMainFacts.v
ResponderMain.v
ResponderLines.v
ResponderEvents.v
ResponderArgs.v
ResponderProgram.v
Demo.v
RuntimeDemo.v
PerfDemo.v
ClientTheorems.v
ProtocolTheorems.v
WorkflowTheorems.v
ResponderTheorems.v
RuntimeTheorems.v
PerfTheorems.v
PerfWorkerTheorems.v
ResponderProgramTheorems.v
