(* ===== verification/Prelude.v ===== *)
(** * Verification of the Ratelimitly C client (rl-c-client)

    The client asks a rate-limit service for admission over UDP.  An
    application creates a client with an API key; the client discovers the
    servers by DNS (SRV, then addresses), sends each admission request to every
    server it knows, repeats it on a published schedule, authenticates what
    comes back and calls the application once with the answer of the oldest
    server that replied.  It owns no socket, clock or thread: a host program
    supplies them as hooks (r_io_ops_t, r_resolver_ops_t) and calls the entry
    points when datagrams and deadlines arrive.  The repository also holds a
    portable host (the socket runtime), a test responder that plays the
    service, and a load generator.  All four are modelled here, and composed.

    ** How the C code is modelled

    A computation is a [run] ([UB | Ok]), where [UB] is an access outside a
    block, the use of a dead pointer or a division by zero; status codes are
    ordinary values.  Client code runs in the state monad [M W] of State.v over
    [sys W]: the client, a heap of requests and DNS refresh objects addressed
    by pointers, the application's admission storages, a trace, and a host
    world [W] that only the operations of the class [Host] touch.  Callbacks
    are host operations on the whole state, so they may call back into the
    client.  Integers are [Z] with their wrap-around ([u8] ... [u64]) written
    out; buffers are byte lists read and written with checked accesses; loops
    are structural or carry fuel (below).  OpenSSL is the class [OpenSSL], with
    [AesGcmLaws], [DigestLaws] and [GcmTagLaw] as its documented behaviour; the
    operating system is the class [Os] (Runtime.v), with [OsLaws] and [Kernel],
    extended by [ServerOs] and [PerfOs] for the two programs.
    Demo.v, RuntimeDemo.v, PerfDemo.v and
    ResponderProgramTheorems.v give an instance of every one of these classes, on
    which each theorem with hypotheses is applied once.

    ** The parts, the sources, and the files

    - Data: Types.v (include/r_client.h, r_client_io.h, src/r_protocol.h).
    - Wire protocol: Wire.v (src/r_protocol.c; same function names), facts in
      WireFacts.v, PacketFacts.v and ExtractFacts.v.
    - Credentials and cryptography: Crypto.v (src/r_crypto.c: Bech32 key
      decoder, content ids, AES-GCM wrappers), facts in CryptoFacts.v, KeyFacts.v
      (the reference decoder [key_decode]) and Ids.v.
    - Retry policy: Schedule.v (src/r_policy.c and r_client.c 222-328).
    - Steering port scan: Steering.v (src/r_client_steering.c).
    - State and host: State.v (the structures of r_client.c; a [free] removes
      the pointer from the heap), Hoare.v (the weakest precondition [wp]).
    - DNS discovery: Dns.v (r_client.c 537-943; [refresh] objects counted by
      hand), invariant [dns_inv] in DnsFacts.v.
    - Requests: Request.v (r_client.c 330-535, 945-1516), RequestFacts.v.
    - Client API: Client.v (r_client.c 1518-2321).  Lifecycle.v holds the
      invariant [client_inv]; Completion.v, Datagram.v, Admission.v, Create.v
      and Teardown.v treat one entry point each; Api.v makes the client a state
      machine ([api], [exec], reachability) with nested callbacks.
    - Admission workflow: Workflow.v and WorkflowOps.v (src/r_client_workflow.c),
      WorkflowFacts.v.
    - Socket runtime: Runtime.v (src/r_client_runtime.c, the POSIX branches).
      [runtime_host] makes the runtime over any [Os] a [Host] of the client.
      RuntimeFacts.v discharges [HostLaws] for it; Frame.v proves that the
      client reaches its host through the hooks only, so that a relation the
      hooks respect, with the trace they leave, is respected by every call; RuntimeSockets.v,
      RuntimeHost.v, RuntimeReceive.v, RuntimeLife.v, RuntimeWork.v and
      RuntimeConfig.v treat descriptors, the hooks, the receive loop, init to
      destroy, protected work and the settings.
    - Test responder: Responder.v (tools/r_test_responder_protocol.c);
      ResponderFacts.v, ResponderQuota.v, ResponderAnswers.v, ResponderSeal.v,
      ResponderSafety.v and ResponderRequest.v treat it alone,
      ResponderStart.v and ResponderExchange.v, ResponderSpoiled.v its start and
      its exchange with the client.
    - The responder's program: ResponderMain.v (tools/r_test_responder.c:
      arguments, listen address, event lines and the receive loop, over any
      [ServerOs]); ResponderLines.v (a reader for the lines), ResponderEvents.v
      (every event can be printed), ResponderArgs.v (the arguments by a
      reference reading), ResponderProgram.v (a run from start to end).
    - Load generator (bin/perf_*.h, bin/perf_client.c): PerfLatency.v,
      PerfPacer.v and Perf.v (histogram, pacer, names, traffic counters,
      arguments; PerfFacts.v), PerfNet.v (clocks, socket, datagrams;
      PerfNetFacts.v), PerfDns.v (resolver and cache; PerfDnsFacts.v),
      PerfWorker.v (a worker thread: [perf_host] makes its socket and the cache
      a [Host] of the client) and PerfMain.v ([main] before and after the
      workers).  PerfHost.v shows that this host meets the client's interfaces
      and what the client leaves of the thread, PerfWait.v and PerfEnds.v treat
      the wait for a request (what it leaves, that it ends), PerfRun.v one
      request and the worker's loop, PerfThread.v the thread from socket to
      close and that it returns, PerfMainFacts.v the program.

    The interfaces: [HostLaws] (DnsFacts.v) and [Reentrant] (Completion.v) are
    what the client asks of its host.  The runtime's instance meets the first
    over every [Os] with [OsLaws], the load generator's worker both; [nest]
    (Api.v) meets both for callbacks that call the client to any depth.  What
    the client leaves of a host is stated with [Steps], [Tracks] and [Frame]
    (Frame.v): relations the hooks respect hold across every call.

    ** The theorems

    - ClientTheorems.v: no interleaving of legal calls, callbacks, datagrams and
      resolver answers reaches [UB]; every callback is called once; requests
      complete if the host serves deadlines, at times on the schedule; only
      authentic answers count, and they get through; creation, destruction, and
      resolver answers that arrive after it.
    - ProtocolTheorems.v: the key decoder refines its reference and its checksum
      detects errors; packets have the stated image, round-trip and are
      rejected when not authentic; the response parser accepts exactly the
      well-formed responses; TTL and schedule without overflow; server ids,
      jitter and content ids.
    - WorkflowTheorems.v: decisions, starting, completion, cancellation and
      reporting of the caller-owned admission storage.
    - ResponderTheorems.v: the responder survives any packet, answers a client's
      request by its scenario, counts quotas exactly, and the client takes what
      it answers and ignores what it spoils.
    - ResponderProgramTheorems.v: the responder's arguments are read exactly,
      its lines can be read back, and a run prints one line per packet and ends
      with its socket closed and its key wiped.
    - PerfTheorems.v: percentiles by nearest rank, the schedule shared by the
      workers without a slot handed out twice, traffic totals, bucket names.
    - PerfWorkerTheorems.v: the clients see the tenant's DNS zone; a worker
      never reaches [UB], closes its socket and counts exactly its requests; a
      run of a given number of requests returns; the report is that of the
      requests made.
    - RuntimeTheorems.v: the runtime owns exactly its sockets from init to
      destroy, whatever the client does in between; steering moves all sockets
      or none; draining ends; settings are read exactly; protected work runs
      once, is timed and reported.

    ** Fuel and bounds

    Most loops recurse on a list or a count of the source.  [drain_bits] has
    one turn per bit held and uses at most one per byte, [dec_digits] 20 turns
    for a 64-bit number, the number parsers one turn per byte of the text.  The
    steering scan has the source's 16384 turns.  [sendto_retry] repeats while
    the system reports EINTR, at most [os_patience] times: [OsLaws] makes each
    interruption use some of it up, and [runtime_hooks_defined] shows the retry
    never stops at one.  [drain] takes any number of turns; [readable_drains]
    shows that more turns than datagrams and interruptions waiting end it.  The
    worker's loops take two numbers: rounds of the outer loop, one more than the
    requests being enough, and turns of the waits, of which
    [worker_returns] gives a number that suffices on a network that falls
    silent ([Network]).  Application
    callbacks are programs of any length and depth, given as such to [nest].
    Memory failure is always possible: [h_alloc] may answer no at each
    allocation.

    ** Not modelled

    - The Winsock branches of the runtime and include/r_win32_udp.h: glue to
      another system with the same calls.
    - Usage texts and diagnostics on standard error; of bin/perf_client.c
      also the progress thread, the calls that start and join threads (seen in
      [worker_end]) and the printing of the report, which uses floating point.
      A worker is one sequential run: the process's other sockets stay as they
      are while it runs, and the counters it shares it only adds to
      ([shared_stats]).
    - examples/ (glue between third-party servers and event loops and the client
      API) and tests/.
    - OpenSSL, the resolver library and the kernel, which are parameters; the
      secrecy of AES-GCM and the collision resistance of BLAKE2s, about which
      nothing is claimed. *)

From stdpp Require Export base numbers list option sets gmap.
From Stdlib Require Export ZArith Lia.

#[export] Set Default Goal Selector "!".
#[global] Open Scope Z_scope.

(** ** Runs of C code: a value, or undefined behaviour

    [UB] is an access outside a memory block, a dereference of a null or freed
    pointer, or a division by zero.  Error codes are ordinary returned values,
    as in the source. *)
Inductive run (A : Type) : Type :=
| UB : run A
| Ok (a : A) : run A.
Arguments UB {A}.
Arguments Ok {A} a.

#[export] Instance run_ret : MRet run := fun A a => Ok a.
#[export] Instance run_bind : MBind run := fun A B k m =>
  match m with UB => UB | Ok a => k a end.

Definition defined {A} (m : run A) : Prop := exists a, m = Ok a.

Definition of_option {A} (o : option A) : run A :=
  match o with Some a => Ok a | None => UB end.

Lemma run_bind_Ok {A B} (a : A) (k : A -> run B) : (Ok a ≫= k) = k a.
Proof. reflexivity. Qed.

Lemma run_bind_UB {A B} (k : A -> run B) : ((UB : run A) ≫= k) = UB.
Proof. reflexivity. Qed.

Lemma run_bind_inv {A B} (m : run A) (k : A -> run B) b :
  (m ≫= k) = Ok b -> exists a, m = Ok a /\ k a = Ok b.
Proof. destruct m; simpl; [discriminate | eauto]. Qed.

(** Rewriting inside the continuation of a bind. *)
#[export] Instance run_bind_proper A B :
  Proper (pointwise_relation A eq ==> eq ==> eq) (@mbind run _ A B).
Proof. intros k k' Hk m m' <-. destruct m; simpl; [done | apply Hk]. Qed.

(** ** Machine integers

    An unsigned w-bit integer is a [Z]; the casts and the arithmetic of the
    source wrap explicitly.  [size_t] is 64 bits wide. *)
Definition u8 (z : Z) : Z := z mod 2 ^ 8.
Definition u16 (z : Z) : Z := z mod 2 ^ 16.
Definition u32 (z : Z) : Z := z mod 2 ^ 32.
Definition u64 (z : Z) : Z := z mod 2 ^ 64.

Abbreviation UINT16_MAX := 65535.
Abbreviation UINT32_MAX := 4294967295.
Abbreviation UINT64_MAX := 18446744073709551615.

Declare Scope cint_scope.
Delimit Scope cint_scope with cint.
Notation "a +64 b" := (u64 (a + b)) (at level 50, left associativity) : cint_scope.
Notation "a -64 b" := (u64 (a - b)) (at level 50, left associativity) : cint_scope.
Notation "a *64 b" := (u64 (a * b)) (at level 40, left associativity) : cint_scope.
Notation "a +32 b" := (u32 (a + b)) (at level 50, left associativity) : cint_scope.
Notation "a -32 b" := (u32 (a - b)) (at level 50, left associativity) : cint_scope.
Notation "a *32 b" := (u32 (a * b)) (at level 40, left associativity) : cint_scope.
#[global] Open Scope cint_scope.

Definition is_u8 (z : Z) : Prop := 0 <= z < 2 ^ 8.
Definition is_u16 (z : Z) : Prop := 0 <= z < 2 ^ 16.
Definition is_u32 (z : Z) : Prop := 0 <= z < 2 ^ 32.
Definition is_u64 (z : Z) : Prop := 0 <= z < 2 ^ 64.

Create HintDb cint.

Lemma u8_small z : is_u8 z -> u8 z = z.
Proof. apply Z.mod_small. Qed.
Lemma u16_small z : is_u16 z -> u16 z = z.
Proof. apply Z.mod_small. Qed.
Lemma u32_small z : is_u32 z -> u32 z = z.
Proof. apply Z.mod_small. Qed.
Lemma u64_small z : is_u64 z -> u64 z = z.
Proof. apply Z.mod_small. Qed.
Lemma u8_range z : is_u8 (u8 z).
Proof. unfold is_u8, u8. apply Z.mod_pos_bound. lia. Qed.
Lemma u16_range z : is_u16 (u16 z).
Proof. unfold is_u16, u16. apply Z.mod_pos_bound. lia. Qed.
Lemma u32_range z : is_u32 (u32 z).
Proof. unfold is_u32, u32. apply Z.mod_pos_bound. lia. Qed.
Lemma u64_range z : is_u64 (u64 z).
Proof. unfold is_u64, u64. apply Z.mod_pos_bound. lia. Qed.
#[export] Hint Resolve u8_range u16_range u32_range u64_range : cint.

(** [wrap_lia] removes the casts whose argument provably fits, then [lia]. *)
Ltac unfold_ranges :=
  unfold is_u8, is_u16, is_u32, is_u64 in *;
  change (2 ^ 8) with 256 in *; change (2 ^ 16) with 65536 in *;
  change (2 ^ 32) with 4294967296 in *;
  change (2 ^ 64) with 18446744073709551616 in *.
Ltac rlia := unfold_ranges; lia.
Ltac unwrap :=
  repeat match goal with
  | |- context [u8 ?z] => rewrite (u8_small z) by rlia
  | |- context [u16 ?z] => rewrite (u16_small z) by rlia
  | |- context [u32 ?z] => rewrite (u32_small z) by rlia
  | |- context [u64 ?z] => rewrite (u64_small z) by rlia
  | H : context [u8 ?z] |- _ => rewrite (u8_small z) in H by rlia
  | H : context [u16 ?z] |- _ => rewrite (u16_small z) in H by rlia
  | H : context [u32 ?z] |- _ => rewrite (u32_small z) in H by rlia
  | H : context [u64 ?z] |- _ => rewrite (u64_small z) in H by rlia
  end.

(** Boolean tests of the code to propositions. *)
Ltac case_if :=
  match goal with
  | |- context [if ?b then _ else _] =>
      let E := fresh "E" in destruct b eqn:E
  end.
Ltac breflect :=
  repeat match goal with
  | H : (_ && _) = true |- _ => apply andb_true_iff in H; destruct H
  | H : (_ || _) = false |- _ => apply orb_false_iff in H; destruct H
  | H : negb _ = true |- _ => apply negb_true_iff in H
  | H : negb _ = false |- _ => apply negb_false_iff in H
  | H : (_ <? _) = true |- _ => apply Z.ltb_lt in H
  | H : (_ <? _) = false |- _ => apply Z.ltb_ge in H
  | H : (_ <=? _) = true |- _ => apply Z.leb_le in H
  | H : (_ <=? _) = false |- _ => apply Z.leb_gt in H
  | H : (_ =? _) = true |- _ => apply Z.eqb_eq in H
  | H : (_ =? _) = false |- _ => apply Z.eqb_neq in H
  end.

(** ** Memory blocks

    A block is the list of its bytes.  [zlen] is its size; reads and writes
    outside it are undefined. *)
Abbreviation zlen l := (Z.of_nat (length l)).

Definition is_bytes (l : list Z) : Prop := Forall is_u8 l.

Definition in_block (size off n : Z) : bool := (0 <=? off) && (0 <=? n) && (off + n <=? size).

(** [buf[off]]. *)
Definition rd (buf : list Z) (off : Z) : run Z :=
  if 0 <=? off then of_option (buf !! Z.to_nat off) else UB.

(** Source side of [memcpy (_, buf + off, n)]. *)
Definition rd_bytes (buf : list Z) (off n : Z) : run (list Z) :=
  if in_block (zlen buf) off n
  then Ok (take (Z.to_nat n) (drop (Z.to_nat off) buf)) else UB.

(** [memcpy (buf + off, bs, |bs|)]. *)
Definition wr (buf : list Z) (off : Z) (bs : list Z) : run (list Z) :=
  if in_block (zlen buf) off (zlen bs)
  then Ok (take (Z.to_nat off) buf ++ bs ++ drop (Z.to_nat off + length bs) buf)
  else UB.

(** [arr[i]] for an array of structures. *)
Definition elem {A} (arr : list A) (i : Z) : run A :=
  if 0 <=? i then of_option (arr !! Z.to_nat i) else UB.

(** [memset (buf + off, c, n)]. *)
Definition fill (buf : list Z) (off c n : Z) : run (list Z) :=
  if 0 <=? n then wr buf off (replicate (Z.to_nat n) c) else UB.

(** [strlen]: the bytes before the first NUL, undefined without one. *)
Fixpoint strlen (s : list Z) : run Z :=
  match s with
  | [] => UB
  | c :: s' => if c =? 0 then Ok 0 else n ← strlen s'; Ok (n + 1)
  end.

(** *** Reads and writes of sub-blocks *)
Lemma in_block_spec size off n :
  in_block size off n = true <-> 0 <= off /\ 0 <= n /\ off + n <= size.
Proof. unfold in_block. rewrite !andb_true_iff, !Z.leb_le. lia. Qed.

Lemma block_split (buf : list Z) off n :
  0 <= off -> 0 <= n -> off + n <= zlen buf ->
  exists pre mid post, buf = pre ++ mid ++ post /\ zlen pre = off /\ zlen mid = n.
Proof.
  intros H1 H2 H3.
  exists (take (Z.to_nat off) buf), (take (Z.to_nat n) (drop (Z.to_nat off) buf)),
    (drop (Z.to_nat n) (drop (Z.to_nat off) buf)).
  rewrite !take_drop, length_take, length_take, length_drop. repeat split; lia.
Qed.

Lemma rd_bytes_app (pre mid post : list Z) off n :
  off = zlen pre -> n = zlen mid -> rd_bytes (pre ++ mid ++ post) off n = Ok mid.
Proof.
  intros -> ->. unfold rd_bytes.
  replace (in_block _ _ _) with true
    by (symmetry; apply in_block_spec; rewrite !length_app; lia).
  rewrite !Nat2Z.id, drop_app_length, take_app_length. reflexivity.
Qed.

Lemma wr_app (pre mid post bs : list Z) off :
  off = zlen pre -> length mid = length bs ->
  wr (pre ++ mid ++ post) off bs = Ok (pre ++ bs ++ post).
Proof.
  intros -> Hl. unfold wr.
  replace (in_block _ _ _) with true
    by (symmetry; apply in_block_spec; rewrite !length_app; lia).
  rewrite Nat2Z.id, take_app_length. do 3 f_equal.
  rewrite <- Hl, <- length_app, app_assoc, drop_app_length. reflexivity.
Qed.

Lemma rd_app (pre mid post : list Z) off i b :
  off = zlen pre -> 0 <= i -> mid !! Z.to_nat i = Some b ->
  rd (pre ++ mid ++ post) (off + i) = Ok b.
Proof.
  intros -> Hi Hb. unfold rd. rewrite (proj2 (Z.leb_le _ _)) by lia.
  replace (Z.to_nat _) with (length pre + Z.to_nat i)%nat by lia.
  rewrite lookup_app_r by lia. replace (_ - _)%nat with (Z.to_nat i) by lia.
  rewrite lookup_app_l; [by rewrite Hb | by eapply lookup_lt_Some].
Qed.

Lemma rd_bytes_Ok buf off n bs :
  rd_bytes buf off n = Ok bs ->
  0 <= off /\ 0 <= n /\ off + n <= zlen buf /\ zlen bs = n.
Proof.
  unfold rd_bytes. case_if; [|done]. apply in_block_spec in E. intros [= <-].
  rewrite length_take, length_drop. lia.
Qed.

Lemma rd_bytes_defined buf off n :
  0 <= off -> 0 <= n -> off + n <= zlen buf ->
  exists bs, rd_bytes buf off n = Ok bs /\ zlen bs = n.
Proof.
  intros H1 H2 H3. destruct (block_split buf off n) as (a & b & c & -> & <- & <-); [done..|].
  exists b. split; [by apply rd_bytes_app | done].
Qed.

Lemma rd_bytes_UB buf off n : ~ (0 <= off /\ 0 <= n /\ off + n <= zlen buf) -> rd_bytes buf off n = UB.
Proof. intros H. unfold rd_bytes. case_if; [|done]. by apply in_block_spec in E. Qed.

Lemma rd_bytes_is_bytes buf off n bs :
  is_bytes buf -> rd_bytes buf off n = Ok bs -> is_bytes bs.
Proof.
  intros H. unfold rd_bytes. case_if; [|done]. intros [= <-]. by apply Forall_take, Forall_drop.
Qed.

Lemma wr_Ok buf off bs buf' :
  wr buf off bs = Ok buf' ->
  0 <= off /\ off + zlen bs <= zlen buf /\ length buf' = length buf.
Proof.
  unfold wr. case_if; [|done]. apply in_block_spec in E. intros [= <-].
  rewrite !length_app, length_take, length_drop. lia.
Qed.

Lemma wr_is_bytes buf off bs buf' :
  is_bytes buf -> is_bytes bs -> wr buf off bs = Ok buf' -> is_bytes buf'.
Proof.
  unfold wr, is_bytes. intros Hb Hs. case_if; [|done]. intros [= <-].
  rewrite !Forall_app. auto using Forall_take, Forall_drop.
Qed.

Lemma land_ff_u8 x : is_u8 (Z.land x 0xff).
Proof.
  change 0xff with (Z.ones 8). rewrite Z.land_ones by lia.
  unfold is_u8. apply Z.mod_pos_bound. lia.
Qed.

Lemma wr_defined buf off bs :
  0 <= off -> off + zlen bs <= zlen buf -> exists buf', wr buf off bs = Ok buf'.
Proof.
  intros. unfold wr. case_if; [eauto|].
  apply not_true_iff_false in E. destruct E. apply in_block_spec. lia.
Qed.

(** Two adjacent writes are one write of the concatenation. *)
Lemma wr_wr buf off b1 b2 :
  (buf' ← wr buf off b1; wr buf' (off + zlen b1) b2) = wr buf off (b1 ++ b2).
Proof.
  destruct (decide (0 <= off /\ off + zlen b1 + zlen b2 <= zlen buf)) as [[H1 H2]|H].
  - destruct (block_split buf off (zlen b1 + zlen b2)) as (a & m & c & -> & <- & Hm); [lia..|].
    destruct (block_split m (zlen b1) (zlen b2)) as (m0 & m1 & m2 & -> & Hm0 & Hm1); [lia..|].
    rewrite !length_app in Hm. assert (m2 = []) as -> by (destruct m2; [done|simpl in Hm; lia]).
    rewrite app_nil_r in *.
    rewrite (wr_app a (m0 ++ m1) c (b1 ++ b2)) by (rewrite ?length_app; lia).
    rewrite <- (app_assoc m0), (wr_app a m0 (m1 ++ c) b1) by lia. simpl.
    rewrite <- app_assoc, !(app_assoc a). apply wr_app; rewrite ?length_app; lia.
  - unfold wr at 3. rewrite length_app.
    replace (in_block _ _ _) with false.
    2:{ symmetry; apply not_true_iff_false. rewrite in_block_spec. lia. }
    destruct (wr buf off b1) as [|buf'] eqn:E; [done|]. simpl.
    apply wr_Ok in E as (? & ? & Hl). unfold wr. rewrite Hl.
    case_if; [|done]. apply in_block_spec in E. lia.
Qed.

Lemma wr_wr_at buf buf' off off2 b1 b2 :
  wr buf off b1 = Ok buf' -> off2 = off + zlen b1 -> wr buf' off2 b2 = wr buf off (b1 ++ b2).
Proof. intros H ->. by rewrite <- wr_wr, H. Qed.

(** What a write leaves readable. *)
Lemma rd_bytes_wr buf off bs buf' i n :
  wr buf off bs = Ok buf' -> 0 <= i -> 0 <= n -> i + n <= zlen bs ->
  rd_bytes buf' (off + i) n = rd_bytes bs i n.
Proof.
  intros H Hi Hn Hb. pose proof (wr_Ok _ _ _ _ H) as (Ho & Hr & _).
  destruct (block_split buf off (zlen bs)) as (a & m & c & -> & <- & Hm); [lia..|].
  rewrite (wr_app a m c bs) in H by lia. injection H as <-.
  destruct (block_split bs i n) as (b0 & b1 & b2 & -> & <- & <-); [lia..|].
  rewrite (rd_bytes_app b0 b1 b2) by done.
  rewrite <- !app_assoc, app_assoc. apply rd_bytes_app; [rewrite length_app; lia|done].
Qed.

(** *** Little-endian integers *)
Fixpoint le (n : nat) (v : Z) : list Z :=
  match n with
  | O => []
  | S n' => v mod 256 :: le n' (v / 256)
  end.

Fixpoint unle (bs : list Z) : Z :=
  match bs with
  | [] => 0
  | b :: bs' => b + 256 * unle bs'
  end.

Lemma le_length n v : length (le n v) = n.
Proof. revert v; induction n; simpl; congruence. Qed.

Lemma le_bytes n v : is_bytes (le n v).
Proof.
  revert v; induction n as [|n IH]; intros v; simpl; constructor; [|apply IH].
  unfold is_u8. apply Z.mod_pos_bound. lia.
Qed.

Lemma unle_le n v : unle (le n v) = v mod 2 ^ (8 * Z.of_nat n).
Proof.
  revert v; induction n as [|n IH]; intros v; cbn [le unle].
  - by rewrite Z.mod_1_r.
  - rewrite IH. replace (8 * Z.of_nat (S n)) with (8 + 8 * Z.of_nat n) by lia.
    rewrite Z.pow_add_r by lia. change (2 ^ 8) with 256.
    rewrite Z.rem_mul_r by lia. lia.
Qed.

Lemma unle_bound bs : is_bytes bs -> 0 <= unle bs < 2 ^ (8 * zlen bs).
Proof.
  induction 1 as [|b bs Hb _ IH]; cbn [unle length]; [done|].
  replace (8 * Z.of_nat (S (length bs))) with (8 + 8 * zlen bs) by lia.
  rewrite Z.pow_add_r by lia. unfold is_u8 in Hb. lia.
Qed.

Lemma le_unle bs : is_bytes bs -> le (length bs) (unle bs) = bs.
Proof.
  induction 1 as [|b bs Hb Hbs IH]; cbn [le unle length]; [done|].
  unfold is_u8 in Hb. change (2 ^ 8) with 256 in Hb. f_equal.
  - rewrite Z.mul_comm, Z_mod_plus_full. by apply Z.mod_small.
  - rewrite Z.mul_comm, Z_div_plus_full, Z.div_small, Z.add_0_l by lia. done.
Qed.

Lemma lor_shiftl_add a b n : 0 <= n -> 0 <= a < 2 ^ n -> Z.lor a (Z.shiftl b n) = a + b * 2 ^ n.
Proof.
  intros Hn Ha. rewrite <- Z.shiftl_mul_pow2 by done.
  symmetry. rewrite <- Z.lxor_lor; [apply Z.add_nocarry_lxor|]; (apply Z.bits_inj'; intros i Hi;
    rewrite Z.land_spec, Z.bits_0, Z.shiftl_spec by done;
    destruct (Z.ltb_spec i n);
    [rewrite (Z.testbit_neg_r b) by lia; by rewrite andb_false_r|];
    rewrite <- (Z.mod_small a (2 ^ n)) by done; by rewrite Z.mod_pow2_bits_high by lia).
Qed.

(** ** Loops *)

(** [for (i = i0; n more times; i++) s = body(i, s)]. *)
Fixpoint for_range {S} (n : nat) (i : Z) (body : Z -> S -> run S) (s : S) : run S :=
  match n with
  | O => Ok s
  | Datatypes.S n' => s' ← body i s; for_range n' (i + 1) body s'
  end.

(** The same with [return r] out of the loop. *)
Inductive flow (S R : Type) : Type :=
| Next (s : S) : flow S R
| Return (r : R) : flow S R.
Arguments Next {S R} s.
Arguments Return {S R} r.

Fixpoint for_flow {S R} (n : nat) (i : Z) (body : Z -> S -> run (flow S R)) (s : S)
  : run (flow S R) :=
  match n with
  | O => Ok (Next s)
  | Datatypes.S n' =>
      f ← body i s;
      match f with
      | Next s' => for_flow n' (i + 1) body s'
      | Return r => Ok (Return r)
      end
  end.

(** A loop whose body appends the bytes [ser x] of the [i]-th array element at
    the write position writes the concatenation. *)
Lemma for_range_serialize {A} (arr : list A) (ser : A -> list Z) (w L : Z)
    (body : Z -> list Z * Z -> run (list Z * Z)) :
  (forall i x buf pos, elem arr i = Ok x -> zlen buf = L -> 0 <= pos -> pos + w <= L ->
     body i (buf, pos) = (buf' ← wr buf pos (ser x); Ok (buf', pos + w))) ->
  (forall x, x ∈ arr -> zlen (ser x) = w) ->
  0 <= w ->
  forall n k buf pos, (k + n <= length arr)%nat -> zlen buf = L -> 0 <= pos ->
  pos + Z.of_nat n * w <= L ->
  for_range n (Z.of_nat k) body (buf, pos) =
  (buf' ← wr buf pos (concat (map ser (take n (drop k arr)))); Ok (buf', pos + Z.of_nat n * w)).
Proof.
  intros Hbody Hw Hw0. induction n as [|n IH]; intros k buf pos Hk HL Hp Hl; simpl for_range.
  { rewrite Z.add_0_r. unfold wr. simpl. rewrite Nat.add_0_r.
    replace (in_block _ _ _) with true by (symmetry; apply in_block_spec; lia).
    simpl. by rewrite take_drop. }
  destruct (lookup_lt_is_Some_2 arr k) as [x Hx]; [lia|].
  assert (elem arr (Z.of_nat k) = Ok x) as Hel.
  { unfold elem. by rewrite (proj2 (Z.leb_le _ _)), Nat2Z.id, Hx by lia. }
  rewrite (Hbody _ x) by (done || lia).
  pose proof (Hw x ltac:(by eapply list_elem_of_lookup_2)) as Hwx.
  destruct (wr_defined buf pos (ser x)) as [buf1 H1]; [lia..|]. rewrite H1. simpl.
  pose proof (wr_Ok _ _ _ _ H1) as (_ & _ & Hlen).
  replace (Z.of_nat k + 1) with (Z.of_nat (S k)) by lia.
  rewrite IH by lia. erewrite (drop_S arr _ k) by done. simpl.
  erewrite (wr_wr_at buf buf1) by (done || lia).
  by replace (pos + w + Z.of_nat n * w) with (pos + Z.of_nat (S n) * w) by lia.
Qed.

Lemma elem_of_elem {A} (arr : list A) i x : elem arr i = Ok x -> x ∈ arr.
Proof.
  unfold elem. case_if; [|done]. destruct (arr !! Z.to_nat i) eqn:El; [|done].
  intros [= <-]. by eapply list_elem_of_lookup_2.
Qed.

Lemma concat_map_length {A} (ser : A -> list Z) w (l : list A) :
  (forall x, x ∈ l -> zlen (ser x) = w) -> zlen (concat (map ser l)) = zlen l * w.
Proof.
  induction l as [|x l IH]; simpl; intros H; [done|].
  rewrite length_app, Nat2Z.inj_add, IH, (H x) by set_solver. lia.
Qed.

(** ** Pointers

    A pointer parameter is an [option]: [None] is NULL, [Some v] points to [v].
    An out-parameter is passed with its old pointee and returned with the new
    one; [store] writes through a pointer the source first tests for NULL. *)
Definition store {A} (p : option A) (v : A) : option A := (fun _ => v) <$> p.

Definition is_null {A} (p : option A) : bool := match p with None => true | Some _ => false end.

(** Dereference of a pointer the source does not test. *)
Definition deref {A} (p : option A) : run A := of_option p.

(** An array argument: NULL stands for the empty array. *)
Definition array_arg {A} (p : option (list A)) (l : list A) : Prop :=
  p = Some l \/ (p = None /\ l = []).

(** ... with a separate count. *)
Definition array_count {A} (p : option (list A)) (n : Z) : Prop := exists l, array_arg p l /\ n = zlen l.

(** [arr[i] = x] for an array of structures. *)
Definition set_elem {A} (arr : list A) (i : Z) (x : A) : run (list A) :=
  if (0 <=? i) && (i <? zlen arr) then Ok (<[Z.to_nat i := x]> arr) else UB.

(** One-field updates: the record rebuilt from its fields with one replaced. *)
Ltac setter eta proj :=
  let v := fresh "v" in let r := fresh "r" in
  intros v r;
  let b := eval cbv beta delta [eta] in (eta r) in
  match b with context C [proj r] => let b' := context C [v] in exact b' end.

(** ** Fusing writes and reading back *)
Lemma wr_fuse {B} (p : list Z) off off2 a b (k : list Z -> run B) :
  off2 = off + zlen a ->
  (p1 ← wr p off a; p2 ← wr p1 off2 b; k p2) = (p2 ← wr p off (a ++ b); k p2).
Proof. intros ->. rewrite <- wr_wr. destruct (wr p off a); done. Qed.

Lemma wr_fuse_end (p : list Z) off off2 a b :
  off2 = off + zlen a -> (p1 ← wr p off a; wr p1 off2 b) = wr p off (a ++ b).
Proof. intros ->. apply wr_wr. Qed.

Lemma wr_nil p off : 0 <= off <= zlen p -> wr p off [] = Ok p.
Proof.
  intros H. unfold wr. simpl. rewrite (proj2 (in_block_spec _ _ _)) by lia.
  by rewrite Nat.add_0_r, take_drop.
Qed.

Lemma rd_bytes_all (bs : list Z) n : n = zlen bs -> rd_bytes bs 0 n = Ok bs.
Proof. intros ->. pose proof (rd_bytes_app [] bs [] 0 (zlen bs)) as H.
  rewrite app_nil_r in H. by apply H. Qed.

Lemma rd_bytes_prefix (bs rest : list Z) off n :
  off = 0 -> n = zlen bs -> rd_bytes (bs ++ rest) off n = Ok bs.
Proof. intros -> ->. exact (rd_bytes_app [] bs rest 0 (zlen bs) eq_refl eq_refl). Qed.

Lemma rd_bytes_skip (pre rest : list Z) off n :
  zlen pre <= off -> rd_bytes (pre ++ rest) off n = rd_bytes rest (off - zlen pre) n.
Proof.
  intros H. unfold rd_bytes, in_block. rewrite length_app.
  rewrite (proj2 (Z.leb_le 0 off)), (proj2 (Z.leb_le 0 (off - zlen pre))) by lia.
  replace (off - zlen pre + n <=? zlen rest)
    with (off + n <=? Z.of_nat (length pre + length rest))
    by (destruct (Z.leb_spec (off + n) (Z.of_nat (length pre + length rest))),
          (Z.leb_spec (off - zlen pre + n) (zlen rest)); lia || done).
  case_if; [|done]. do 2 f_equal.
  rewrite drop_app_ge by lia. f_equal. lia.
Qed.

(** All reads of a byte agree with [rd_bytes]. *)
Lemma rd_as_bytes p off : rd p off = (bs ← rd_bytes p off 1; of_option (bs !! 0%nat)).
Proof.
  destruct (decide (0 <= off /\ off + 1 <= zlen p)) as [[H1 H2]|H].
  - destruct (block_split p off 1) as (a & m & c & -> & <- & Hm); [lia..|].
    rewrite (rd_bytes_app a m c) by lia. simpl.
    destruct m as [|b [|]]; simpl in Hm; try lia.
    rewrite <- (Z.add_0_r (zlen a)). by apply rd_app with (b := b).
  - rewrite rd_bytes_UB by lia. unfold rd. case_if; [|done]. breflect.
    rewrite lookup_ge_None_2 by lia. done.
Qed.

Lemma rd_bytes_split p off n m :
  0 <= n -> 0 <= m ->
  rd_bytes p off (n + m) = (a ← rd_bytes p off n; b ← rd_bytes p (off + n) m; Ok (a ++ b)).
Proof.
  intros Hn Hm. destruct (decide (0 <= off /\ off + n + m <= zlen p)) as [[H1 H2]|H].
  - destruct (block_split p off (n + m)) as (x & y & z & -> & <- & Hy); [lia..|].
    rewrite (rd_bytes_app x y z) by lia.
    destruct (block_split y n m) as (y0 & y1 & y2 & -> & Hy0 & Hy1); [lia..|].
    rewrite !length_app in Hy. assert (y2 = []) as -> by (destruct y2; [done|simpl in Hy; lia]).
    rewrite app_nil_r, <- app_assoc. rewrite (rd_bytes_app x y0 _ (zlen x) n) by lia. simpl.
    rewrite app_assoc, (rd_bytes_app (x ++ y0) y1 z) by (rewrite ?length_app; lia). done.
  - rewrite (rd_bytes_UB p off (n + m)) by lia.
    destruct (rd_bytes p off n) as [|a] eqn:E; [done|]. apply rd_bytes_Ok in E as (?&?&?&?).
    simpl. by rewrite rd_bytes_UB by lia.
Qed.

Lemma wr0_eq b bs b' : wr b 0 bs = Ok b' -> b' = bs ++ drop (length bs) b.
Proof. unfold wr. case_if; [|done]. intros [= <-]. done. Qed.

Lemma rd_bytes_take b n : 0 <= n <= zlen b -> rd_bytes b 0 n = Ok (take (Z.to_nat n) b).
Proof. intros H. unfold rd_bytes. by rewrite (proj2 (in_block_spec _ _ _)) by lia. Qed.

(** Cut one field off a read. *)
Lemma rd_bytes_cut p off n k :
  0 <= k <= n ->
  rd_bytes p off n = (a ← rd_bytes p off k; b ← rd_bytes p (off + k) (n - k); Ok (a ++ b)).
Proof. intros H. rewrite <- rd_bytes_split by lia. f_equal. lia. Qed.

Lemma le_unle_n n bs : is_bytes bs -> zlen bs = Z.of_nat n -> le n (unle bs) = bs.
Proof. intros H Hl. replace n with (length bs) by lia. by apply le_unle. Qed.

Lemma unle_le2 v : is_u16 v -> unle (le 2 v) = v.
Proof. intros H. rewrite unle_le. by apply Z.mod_small. Qed.
Lemma unle_le4 v : is_u32 v -> unle (le 4 v) = v.
Proof. intros H. rewrite unle_le. by apply Z.mod_small. Qed.
Lemma unle_le8 v : is_u64 v -> unle (le 8 v) = v.
Proof. intros H. rewrite unle_le. by apply Z.mod_small. Qed.

Lemma zltb_true a b : a < b -> (a <? b) = true.
Proof. apply Z.ltb_lt. Qed.
Lemma zltb_false a b : b <= a -> (a <? b) = false.
Proof. apply Z.ltb_ge. Qed.

(** C objects are at most PTRDIFF_MAX bytes. *)
Definition is_object {A} (b : list A) : Prop := zlen b < 2 ^ 63.

(** Concrete blocks, decided by evaluation. *)
Definition byteb (z : Z) : bool := (0 <=? z) && (z <? 256).
Lemma bytes_decided l : forallb byteb l = true -> is_bytes l.
Proof.
  induction l as [|z l IH]; intros E; [by constructor|]. simpl in E. apply andb_true_iff in E as [E1 E2].
  unfold byteb in E1. breflect. constructor; [rlia|by apply IH].
Qed.

(** A decidable fact of every number below [n], by evaluation. *)
Lemma all_below (n : nat) (f : Z -> bool) b :
  forallb f (map Z.of_nat (seq 0 n)) = true -> 0 <= b < Z.of_nat n -> f b = true.
Proof.
  intros Hf Hb. rewrite forallb_forall in Hf. apply Hf, in_map_iff. exists (Z.to_nat b).
  split; [lia|]. apply in_seq. lia.
Qed.

Lemma for_range_S {S} n i body (s : S) :
  for_range (Datatypes.S n) i body s = (s' ← body i s; for_range n (i + 1) body s').
Proof. done. Qed.
Lemma for_flow_S {S R} n i (body : Z -> S -> run (flow S R)) s :
  for_flow (Datatypes.S n) i body s =
  (f ← body i s; match f with Next s' => for_flow n (i + 1) body s' | Return r => Ok (Return r) end).
Proof. done. Qed.
Lemma for_range_0 {S} (i : Z) body (s : S) : for_range 0 i body s = Ok s.
Proof. done. Qed.

Lemma drop_wr_beyond buf off bs buf' n :
  wr buf off bs = Ok buf' -> off + zlen bs <= n -> drop (Z.to_nat n) buf' = drop (Z.to_nat n) buf.
Proof.
  intros H Hn. pose proof (wr_Ok _ _ _ _ H) as (H1 & H2 & H3).
  destruct (block_split buf off (zlen bs)) as (a & m & c & -> & <- & Hm); [lia..|].
  rewrite (wr_app a m c bs) in H by lia. injection H as <-.
  rewrite !(app_assoc a). rewrite !drop_app_ge by (rewrite length_app; lia).
  by rewrite !length_app, (Nat2Z.inj _ _ Hm).
Qed.

(** ** What a run ends in *)
Definition ensures {A} (m : run A) (Q : A -> Prop) : Prop :=
  match m with UB => False | Ok a => Q a end.

Lemma ensures_bind {A B} (m : run A) (k : A -> run B) Q :
  ensures m (fun a => ensures (k a) Q) -> ensures (m ≫= k) Q.
Proof. by destruct m. Qed.

Lemma ensures_Ok {A} (m : run A) Q a : m = Ok a -> Q a -> ensures m Q.
Proof. by intros ->. Qed.

Lemma ensures_mono {A} (m : run A) (P Q : A -> Prop) :
  ensures m P -> (forall a, P a -> Q a) -> ensures m Q.
Proof. destruct m; simpl; auto. Qed.

Lemma ensures_inv {A} (m : run A) Q : ensures m Q -> exists a, m = Ok a /\ Q a.
Proof. destruct m; simpl; [done|eauto]. Qed.

Lemma ensures_if {A} (b : bool) (m1 m2 : run A) Q :
  (b = true -> ensures m1 Q) -> (b = false -> ensures m2 Q) -> ensures (if b then m1 else m2) Q.
Proof. destruct b; auto. Qed.

(** A loop keeps what its body keeps. *)
Lemma ensures_for_range {S} n i body (I : Z -> S -> Prop) s :
  I i s ->
  (forall j s, i <= j < i + Z.of_nat n -> I j s -> ensures (body j s) (I (j + 1))) ->
  ensures (for_range n i body s) (I (i + Z.of_nat n)).
Proof.
  revert i s; induction n as [|n IH]; intros i s HI Hb; [by rewrite Z.add_0_r|].
  rewrite for_range_S. apply ensures_bind. eapply ensures_mono; [apply Hb; [lia|done]|]. intros s' Hs'.
  replace (i + Z.of_nat (Datatypes.S n)) with (i + 1 + Z.of_nat n) by lia. apply IH; [done|].
  intros j s2 Hj. apply Hb. lia.
Qed.

Lemma ensures_for_flow {S R} n i body (I : Z -> S -> Prop) (E : R -> Prop) s :
  I i s ->
  (forall j s, i <= j < i + Z.of_nat n -> I j s ->
     ensures (body j s) (fun f => match f with Next s' => I (j + 1) s' | Return r => E r end)) ->
  ensures (for_flow n i body s)
    (fun f => match f with Next s' => I (i + Z.of_nat n) s' | Return r => E r end).
Proof.
  revert i s; induction n as [|n IH]; intros i s HI Hb; [by cbn; rewrite Z.add_0_r|].
  rewrite for_flow_S. apply ensures_bind. eapply ensures_mono; [apply Hb; [lia|done]|].
  intros [s'|r] Hs'; [|done].
  replace (i + Z.of_nat (Datatypes.S n)) with (i + 1 + Z.of_nat n) by lia. apply IH; [done|].
  intros j s2 Hj. apply Hb. lia.
Qed.
