(* ===== verification/Types.v ===== *)
(** * Public data types and constants

    The declarations of include/r_client.h, include/r_client_io.h and
    src/r_protocol.h: status codes, configuration, request and result
    structures, socket addresses and wire constants.  Unsigned fields are [Z]
    at the width of the C member; the [wf_*] predicates say so.  Arrays of 16
    bytes are byte lists of that length. *)

From S2P Require Import Prelude.

(** ** Status codes *)
Definition RCLIENT_OK : Z := 0.
Definition RCLIENT_ERR_IO : Z := -1.
Definition RCLIENT_ERR_TIMEOUT : Z := -2.
Definition RCLIENT_ERR_PROTOCOL : Z := -3.
Definition RCLIENT_ERR_AUTH : Z := -4.
Definition RCLIENT_ERR_DNS : Z := -5.
Definition RCLIENT_ERR_CONFIG : Z := -6.
Definition RCLIENT_ERR_NOMEM : Z := -7.

(** ** Credentials *)
Definition R_AUTH_COOKIE : Z := 1.
Definition R_AUTH_AES_GCM : Z := 2.

(** [r_auth_key_info_t]. *)
Record r_auth_key_info := mk_key_info {
  ki_format_version : Z;
  ki_type : Z;
  ki_key_id : Z;
  ki_secret : list Z;
  ki_secret_len : Z;
  ki_rate_buckets_max : Z;
  ki_latency_services_max : Z;
  ki_metrics_labels_max : Z;
  ki_latency_buffer_size_max : Z;
  ki_dedup_ttl_ms_max : Z;
  ki_rate_window_size_ms_max : Z;
}.

(** [memset(out_info, 0, sizeof( *out_info))]. *)
Definition key_info_zero : r_auth_key_info :=
  mk_key_info 0 0 0 (replicate 32 0) 0 0 0 0 0 0 0.

(** ** Request policy *)
Definition R_HA_SCHEDULE_FIXED : Z := 0.
Definition R_HA_SCHEDULE_LINEAR : Z := 1.
Definition R_HA_SCHEDULE_EXPONENTIAL : Z := 2.
Definition R_CLIENT_HA_MAX_REPLAY_COUNT : Z := 65535.

(** [r_ha_schedule_t]; the growth union has one 32-bit word, read as the linear
    step or as the exponential factor. *)
Record r_ha_schedule := mk_schedule {
  hs_kind : Z;
  hs_initial_units : Z;
  hs_max_units : Z;
  hs_growth : Z;
}.

Record r_request_policy := mk_policy {
  rp_unit_ms : Z;
  rp_replay_count : Z;
  rp_replay_gap : r_ha_schedule;
  rp_final_receive_units : Z;
  rp_completion_delivery : bool;
}.

Definition wf_schedule (h : r_ha_schedule) : Prop :=
  is_u32 (hs_initial_units h) /\ is_u32 (hs_max_units h) /\ is_u32 (hs_growth h).

Definition wf_policy (p : r_request_policy) : Prop :=
  is_u64 (rp_unit_ms p) /\ is_u32 (rp_replay_count p) /\ wf_schedule (rp_replay_gap p) /\
  is_u32 (rp_final_receive_units p).

Inductive r_request_completion_phase : Type :=
| R_REQUEST_COMPLETION_ROUND
| R_REQUEST_COMPLETION_FINAL_RECEIVE.

Record r_request_profile := mk_profile {
  pf_wait_ms : Z;
  pf_round : Z;
  pf_phase : r_request_completion_phase;
  pf_status : Z;
  pf_response_selected : bool;
}.

Record r_dns_refresh_policy := mk_dns_policy {
  dp_refresh_interval_ms : Z;
  dp_forced_refresh_min_interval_ms : Z;
  dp_forced_refresh_jitter_ms : Z;
}.

(** ** Request inputs and results *)
Record r_resource_request := mk_resource_request {
  rr_bucket_id : list Z;
  rr_window_size_ms : Z;
  rr_rate_limit : Z;
  rr_tokens_requested : Z;
}.

Record r_latency_guard := mk_latency_guard {
  lg_latency_tracker_id : list Z;
  lg_threshold_ms : Z;
  lg_ttl_ms : Z;
  lg_max_samples : Z;
  lg_min_sample_threshold : Z;
}.

Record r_service_latency_report := mk_latency_report {
  lr_latency_tracker_id : list Z;
  lr_observed_latency : Z;
  lr_ttl_ms : Z;
  lr_max_samples : Z;
  lr_min_sample_threshold : Z;
}.

Definition is_id16 (bs : list Z) : Prop := length bs = 16%nat /\ is_bytes bs.

Definition wf_resource_request (r : r_resource_request) : Prop :=
  is_id16 (rr_bucket_id r) /\ is_u32 (rr_window_size_ms r) /\ is_u32 (rr_rate_limit r) /\
  is_u16 (rr_tokens_requested r).

Definition wf_latency_guard (g : r_latency_guard) : Prop :=
  is_id16 (lg_latency_tracker_id g) /\ is_u32 (lg_threshold_ms g) /\ is_u32 (lg_ttl_ms g) /\
  is_u32 (lg_max_samples g) /\ is_u32 (lg_min_sample_threshold g).

Definition wf_latency_report (r : r_service_latency_report) : Prop :=
  is_id16 (lr_latency_tracker_id r) /\ is_u32 (lr_observed_latency r) /\ is_u32 (lr_ttl_ms r) /\
  is_u32 (lr_max_samples r) /\ is_u32 (lr_min_sample_threshold r).

Record r_guard_result := mk_guard_result {
  gr_latency_tracker_id : list Z;
  gr_threshold_ms : Z;
  gr_current_latency_ms : Z;
  gr_passed : bool;
}.

Record r_resource_result := mk_resource_result {
  rs_bucket_id : list Z;
  rs_tokens_deficit : Z;
  rs_actual_rate : Z;
}.

(** A [calloc]ed array element. *)
Definition guard_result_zero : r_guard_result := mk_guard_result (replicate 16 0) 0 0 false.
Definition resource_result_zero : r_resource_result := mk_resource_result (replicate 16 0) 0 0.

(** [r_rate_limit_result_t]: the two result arrays are pointers with separate
    counts. *)
Record r_rate_limit_result := mk_result {
  rl_success : bool;
  rl_server_id : Z;
  rl_steering_feedback : bool;
  rl_guards : option (list r_guard_result);
  rl_guard_count : Z;
  rl_resources : option (list r_resource_result);
  rl_resource_count : Z;
}.

Definition result_zero : r_rate_limit_result := mk_result false 0 false None 0 None 0.

(** ** Socket addresses

    [struct sockaddr_storage] is a block of 128 bytes in the Linux x86-64
    layout: the family in bytes 0-1 (little endian), the port of an IPv4 or
    IPv6 address in bytes 2-3 (network order). *)
Record r_addr := mk_addr {
  ad_sa : list Z;
  ad_len : Z;
}.

Definition SOCKADDR_STORAGE_SIZE : Z := 128.
Definition SOCKADDR_IN_SIZE : Z := 16.
Definition SOCKADDR_IN6_SIZE : Z := 28.
Definition AF_INET : Z := 2.
Definition AF_INET6 : Z := 10.

Definition wf_addr (a : r_addr) : Prop :=
  zlen (ad_sa a) = SOCKADDR_STORAGE_SIZE /\ is_bytes (ad_sa a) /\
  0 <= ad_len a <= SOCKADDR_STORAGE_SIZE.

(** [r_srv_record_t]; the target is a NUL-terminated block. *)
Record r_srv_record := mk_srv {
  sv_target : option (list Z);
  sv_port : Z;
  sv_priority : Z;
  sv_weight : Z;
  sv_ttl_ms : Z;
}.

(** ** Wire constants *)
Definition R_TENANT_TLV_LEN : Z := 40.
Definition R_PDU_HEADER_LEN : Z := 8.
Definition R_MAX_PACKET_SIZE : Z := 1200.
Definition R_GUARD_BLOCK_WIRE_LEN : Z := 36.
Definition R_RESOURCE_BLOCK_WIRE_LEN : Z := 28.
Definition R_SERVICE_LATENCY_BLOCK_WIRE_LEN : Z := 32.

Definition R_TLV_TENANT : Z := 0x4C52.
Definition R_TLV_AUTH_COOKIE : Z := 0x4143.
Definition R_TLV_AUTH_AES : Z := 0x4541.
Definition R_TLV_METRICS_LABEL : Z := 0x4C4D.

Definition R_PDU_RATE_REQUEST : Z := 0x5452.
Definition R_PDU_RATE_RESPONSE : Z := 0x5252.
Definition R_PDU_LATENCY_REPORT : Z := 0x524C.

(** [r_tenant_header_t]. *)
Record r_tenant_header := mk_tenant {
  th_tlv_type : Z;
  th_tlv_size : Z;
  th_key_id : Z;
  th_unique_id : list Z;
  th_time_stamp : Z;
  th_steering_feedback : Z;
  th_tenant_mgmt_flag : Z;
  th_padding0 : Z;
  th_padding1 : Z;
}.

Definition wf_tenant (h : r_tenant_header) : Prop :=
  is_u16 (th_tlv_type h) /\ is_u16 (th_tlv_size h) /\ is_u64 (th_key_id h) /\
  is_id16 (th_unique_id h) /\ is_u64 (th_time_stamp h) /\ is_u8 (th_steering_feedback h) /\
  is_u8 (th_tenant_mgmt_flag h) /\ is_u8 (th_padding0 h) /\ is_u8 (th_padding1 h).

(** [memset(&tenant, 0, sizeof(tenant))]. *)
Definition tenant_zero : r_tenant_header := mk_tenant 0 0 0 (replicate 16 0) 0 0 0 0 0.

(** [lia] modulo the named constants and the integer widths. *)
Ltac csts :=
  unfold R_TENANT_TLV_LEN, R_PDU_HEADER_LEN, R_MAX_PACKET_SIZE, R_GUARD_BLOCK_WIRE_LEN,
    R_RESOURCE_BLOCK_WIRE_LEN, R_SERVICE_LATENCY_BLOCK_WIRE_LEN, R_TLV_TENANT, R_TLV_AUTH_COOKIE,
    R_TLV_AUTH_AES, R_TLV_METRICS_LABEL, R_PDU_RATE_REQUEST, R_PDU_RATE_RESPONSE,
    R_PDU_LATENCY_REPORT, SOCKADDR_STORAGE_SIZE, SOCKADDR_IN_SIZE, SOCKADDR_IN6_SIZE,
    R_CLIENT_HA_MAX_REPLAY_COUNT, RCLIENT_OK, RCLIENT_ERR_IO, RCLIENT_ERR_TIMEOUT,
    RCLIENT_ERR_PROTOCOL, RCLIENT_ERR_AUTH, RCLIENT_ERR_DNS, RCLIENT_ERR_CONFIG,
    RCLIENT_ERR_NOMEM in *.
Ltac clia := csts; rlia.

(** Decide a test of the success code. *)
Ltac rc_ok := cbv iota beta; change (negb (RCLIENT_OK =? RCLIENT_OK)) with false; cbv iota beta.
