(* ===== verification/Wire.v ===== *)
(** * Wire protocol (src/r_protocol.c)

    Little-endian field access, the tenant header, the authentication TLV
    header, request and report bodies, PDU framing and the rate-response
    parser.  Every access goes through [rd], [rd_bytes] or [wr], so a theorem
    that the result is [Ok] is a proof that the code stays inside its
    buffers. *)

From S2P Require Import Prelude.
From S2P Require Import Types.

(** ** Integer fields *)
Definition r_le16 (p : list Z) (off : Z) : run Z :=
  b0 ← rd p off; b1 ← rd p (off + 1);
  Ok (u16 (Z.lor b0 (Z.shiftl b1 8))).

Definition r_le32 (p : list Z) (off : Z) : run Z :=
  b0 ← rd p off; b1 ← rd p (off + 1); b2 ← rd p (off + 2); b3 ← rd p (off + 3);
  Ok (u32 (Z.lor (Z.lor (Z.lor b0 (Z.shiftl b1 8)) (Z.shiftl b2 16)) (Z.shiftl b3 24))).

Definition r_le64 (p : list Z) (off : Z) : run Z :=
  b0 ← rd p off; b1 ← rd p (off + 1); b2 ← rd p (off + 2); b3 ← rd p (off + 3);
  b4 ← rd p (off + 4); b5 ← rd p (off + 5); b6 ← rd p (off + 6); b7 ← rd p (off + 7);
  Ok (u64 (Z.lor (Z.lor (Z.lor (Z.lor (Z.lor (Z.lor (Z.lor b0 (Z.shiftl b1 8)) (Z.shiftl b2 16))
    (Z.shiftl b3 24)) (Z.shiftl b4 32)) (Z.shiftl b5 40)) (Z.shiftl b6 48)) (Z.shiftl b7 56))).

(** [p[i] = (uint8_t)((v >> sh) & 0xff)]. *)
Definition byte_at (v sh : Z) : Z := u8 (Z.land (Z.shiftr v sh) 0xff).

Definition r_write_le16 (p : list Z) (off v : Z) : run (list Z) :=
  p ← wr p off [byte_at v 0];
  wr p (off + 1) [byte_at v 8].

Definition r_write_le32 (p : list Z) (off v : Z) : run (list Z) :=
  p ← wr p off [byte_at v 0];
  p ← wr p (off + 1) [byte_at v 8];
  p ← wr p (off + 2) [byte_at v 16];
  wr p (off + 3) [byte_at v 24].

Definition r_write_le64 (p : list Z) (off v : Z) : run (list Z) :=
  p ← wr p off [byte_at v 0];
  p ← wr p (off + 1) [byte_at v 8];
  p ← wr p (off + 2) [byte_at v 16];
  p ← wr p (off + 3) [byte_at v 24];
  p ← wr p (off + 4) [byte_at v 32];
  p ← wr p (off + 5) [byte_at v 40];
  p ← wr p (off + 6) [byte_at v 48];
  wr p (off + 7) [byte_at v 56].

(** ** Tenant header *)
Definition r_tenant_header_write (header : option r_tenant_header) (buf : option (list Z)) (len : Z)
  : run (option (list Z)) :=
  match header, buf with
  | Some h, Some b =>
      if len <? R_TENANT_TLV_LEN then Ok (Some b) else
      b ← r_write_le16 b 0 (th_tlv_type h);
      b ← r_write_le16 b 2 (th_tlv_size h);
      b ← r_write_le64 b 4 (th_key_id h);
      id ← rd_bytes (th_unique_id h) 0 16;
      b ← wr b 12 id;
      b ← r_write_le64 b 28 (th_time_stamp h);
      b ← wr b 36 [th_steering_feedback h];
      b ← wr b 37 [th_tenant_mgmt_flag h];
      b ← wr b 38 [th_padding0 h];
      b ← wr b 39 [th_padding1 h];
      Ok (Some b)
  | _, _ => Ok buf
  end.

Definition r_tenant_header_read (buf : option (list Z)) (len : Z) (out : option r_tenant_header)
  : run (Z * option r_tenant_header) :=
  match buf, out with
  | Some b, Some _ =>
      if len <? R_TENANT_TLV_LEN then Ok (RCLIENT_ERR_PROTOCOL, out) else
      ty ← r_le16 b 0;
      sz ← r_le16 b 2;
      key ← r_le64 b 4;
      id ← rd_bytes b 12 16;
      ts ← r_le64 b 28;
      sf ← rd b 36;
      mf ← rd b 37;
      p0 ← rd b 38;
      p1 ← rd b 39;
      Ok (RCLIENT_OK, Some (mk_tenant ty sz key id ts sf mf p0 p1))
  | _, _ => Ok (RCLIENT_ERR_PROTOCOL, out)
  end.

Definition r_parse_tenant_header (buf : option (list Z)) (len : Z) (out : option r_tenant_header)
    (out_pos : option Z) : run (Z * option r_tenant_header * option Z) :=
  match buf with
  | None => Ok (RCLIENT_ERR_PROTOCOL, out, out_pos)
  | Some b =>
      if len <? 4 then Ok (RCLIENT_ERR_PROTOCOL, out, out_pos) else
      tlv_type ← r_le16 b 0;
      if negb (tlv_type =? R_TLV_TENANT) then Ok (RCLIENT_ERR_PROTOCOL, out, out_pos) else
      tlv_size ← r_le16 b 2;
      if (tlv_size <? R_TENANT_TLV_LEN) || (len <? tlv_size)
      then Ok (RCLIENT_ERR_PROTOCOL, out, out_pos) else
      out ← (if is_null out then Ok out
             else ro ← r_tenant_header_read buf len out; Ok (snd ro));
      Ok (RCLIENT_OK, out, store out_pos tlv_size)
  end.

(** The out-parameters of [r_parse_auth_tlv_header]; the body pointer is an
    offset into [buf]. *)
Record auth_tlv_out := mk_auth_out {
  ao_type : option Z;
  ao_size : option Z;
  ao_body : option Z;
  ao_body_len : option Z;
  ao_pdu_pos : option Z;
}.

Definition r_parse_auth_tlv_header (buf : option (list Z)) (len pos : Z) (o : auth_tlv_out)
  : run (Z * auth_tlv_out) :=
  match buf with
  | None => Ok (RCLIENT_ERR_PROTOCOL, o)
  | Some b =>
      if len <? pos +64 4 then Ok (RCLIENT_ERR_PROTOCOL, o) else
      tlv_type ← r_le16 b pos;
      tlv_size ← r_le16 b (pos + 2);
      if (tlv_size <? 4) || (len <? pos +64 tlv_size) then Ok (RCLIENT_ERR_PROTOCOL, o) else
      Ok (RCLIENT_OK,
          mk_auth_out (store (ao_type o) tlv_type) (store (ao_size o) tlv_size)
            (store (ao_body o) (pos + 4)) (store (ao_body_len o) (tlv_size -64 4))
            (store (ao_pdu_pos o) (pos +64 tlv_size)))
  end.

Definition r_peek_server_id (buf : option (list Z)) (len : Z) (ok : option bool)
  : run (Z * option bool) :=
  let ok := store ok false in
  match buf with
  | None => Ok (0, ok)
  | Some b =>
      if len <? 12 then Ok (0, ok) else
      tlv_type ← r_le16 b 0;
      tlv_size ← r_le16 b 2;
      if negb (tlv_type =? R_TLV_TENANT) || (tlv_size <? R_TENANT_TLV_LEN) || (len <? tlv_size)
      then Ok (0, ok) else
      id ← r_le64 b 4;
      Ok (id, store ok true)
  end.

Definition r_peek_request_id (buf : option (list Z)) (len : Z) (out_id : option (list Z))
  : run (Z * option (list Z)) :=
  match buf, out_id with
  | Some b, Some o =>
      if len <? 28 then Ok (RCLIENT_ERR_PROTOCOL, out_id) else
      tlv_type ← r_le16 b 0;
      tlv_size ← r_le16 b 2;
      if negb (tlv_type =? R_TLV_TENANT) || (tlv_size <? R_TENANT_TLV_LEN) || (len <? tlv_size)
      then Ok (RCLIENT_ERR_PROTOCOL, out_id) else
      id ← rd_bytes b 12 16;
      o ← wr o 0 id;
      Ok (RCLIENT_OK, Some o)
  | _, _ => Ok (RCLIENT_ERR_PROTOCOL, out_id)
  end.

(** ** Request and report bodies *)
Definition r_append_metrics_label_tlv (buf : option (list Z)) (buf_cap : Z) (inout_len : option Z)
    (label : option (list Z)) (label_len : Z) : run (Z * option (list Z) * option Z) :=
  match buf, inout_len, label with
  | Some b, Some len, Some lab =>
      label_len ← (if label_len =? 0 then strlen lab else Ok label_len);
      if 0xffff <? label_len then Ok (RCLIENT_ERR_PROTOCOL, buf, inout_len) else
      let body_len := 2 +64 label_len in
      let padding := (4 - (body_len mod 4)) mod 4 in
      let tlv_size := (4 +64 body_len) +64 padding in
      if 0xffff <? tlv_size then Ok (RCLIENT_ERR_PROTOCOL, buf, inout_len) else
      if buf_cap <? len +64 tlv_size then Ok (RCLIENT_ERR_PROTOCOL, buf, inout_len) else
      b ← r_write_le16 b len R_TLV_METRICS_LABEL;
      b ← r_write_le16 b (len + 2) (u16 tlv_size);
      b ← r_write_le16 b (len + 4) (u16 label_len);
      src ← rd_bytes lab 0 label_len;
      b ← wr b (len + 6) src;
      b ← (if 0 <? padding then fill b (len + 6 + label_len) 0 padding else Ok b);
      Ok (RCLIENT_OK, Some b, Some (len +64 tlv_size))
  | _, _, _ => Ok (RCLIENT_ERR_PROTOCOL, buf, inout_len)
  end.

(** One iteration of the guard loop: [st] is the output block and [pos]. *)
Definition write_guard_block (guards : option (list r_latency_guard)) (i : Z) (st : list Z * Z)
  : run (list Z * Z) :=
  let '(out, pos) := st in
  gs ← deref guards; g ← elem gs i;
  id ← rd_bytes (lg_latency_tracker_id g) 0 16;
  out ← wr out pos id;
  out ← r_write_le32 out (pos + 16) (lg_ttl_ms g);
  out ← r_write_le32 out (pos + 20) (lg_max_samples g);
  out ← r_write_le32 out (pos + 24) (lg_min_sample_threshold g);
  out ← r_write_le32 out (pos + 28) (lg_threshold_ms g);
  out ← r_write_le32 out (pos + 32) 0;
  Ok (out, pos +64 R_GUARD_BLOCK_WIRE_LEN).

(** One iteration of the resource loop. *)
Definition write_resource_block (resources : option (list r_resource_request)) (i : Z)
    (st : list Z * Z) : run (list Z * Z) :=
  let '(out, pos) := st in
  rs ← deref resources; r ← elem rs i;
  id ← rd_bytes (rr_bucket_id r) 0 16;
  out ← wr out pos id;
  out ← r_write_le32 out (pos + 16) (rr_window_size_ms r);
  out ← r_write_le32 out (pos + 20) (rr_rate_limit r);
  out ← r_write_le16 out (pos + 24) (rr_tokens_requested r);
  out ← r_write_le16 out (pos + 26) 0;
  Ok (out, pos +64 R_RESOURCE_BLOCK_WIRE_LEN).

Definition r_build_rate_request_body (resources : option (list r_resource_request))
    (resource_count : Z) (guards : option (list r_latency_guard)) (guard_count : Z)
    (metrics_label : option (list Z)) (metrics_label_len : Z)
    (out : option (list Z)) (out_cap : Z) (out_len : option Z)
  : run (Z * option (list Z) * option Z) :=
  match out, out_len with
  | Some o, Some _ =>
      if (0xffff <? resource_count) || (0xffff <? guard_count)
      then Ok (RCLIENT_ERR_PROTOCOL, out, out_len) else
      let needed := (4 +64 (guard_count *64 R_GUARD_BLOCK_WIRE_LEN))
                    +64 (resource_count *64 R_RESOURCE_BLOCK_WIRE_LEN) in
      if out_cap <? needed then Ok (RCLIENT_ERR_PROTOCOL, out, out_len) else
      o ← r_write_le16 o 0 (u16 guard_count);
      o ← r_write_le16 o 2 (u16 resource_count);
      st ← for_range (Z.to_nat guard_count) 0 (write_guard_block guards) (o, 4);
      st ← for_range (Z.to_nat resource_count) 0 (write_resource_block resources) st;
      let '(o, pos) := st in
      has_label ← match metrics_label with
                  | None => Ok false
                  | Some lab => c ← rd lab 0; Ok (negb (c =? 0))
                  end;
      if (has_label : bool) then
        r ← r_append_metrics_label_tlv (Some o) out_cap (Some pos) metrics_label metrics_label_len;
        let '(rc, o', pos') := r in
        if negb (rc =? RCLIENT_OK) then Ok (rc, o', out_len) else Ok (RCLIENT_OK, o', pos')
      else Ok (RCLIENT_OK, Some o, Some pos)
  | _, _ => Ok (RCLIENT_ERR_PROTOCOL, out, out_len)
  end.

(** One iteration of the report loop. *)
Definition write_report_block (reports : option (list r_service_latency_report)) (i : Z)
    (st : list Z * Z) : run (list Z * Z) :=
  let '(out, pos) := st in
  rs ← deref reports; r ← elem rs i;
  id ← rd_bytes (lr_latency_tracker_id r) 0 16;
  out ← wr out pos id;
  out ← r_write_le32 out (pos + 16) (lr_ttl_ms r);
  out ← r_write_le32 out (pos + 20) (lr_max_samples r);
  out ← r_write_le32 out (pos + 24) (lr_min_sample_threshold r);
  out ← r_write_le32 out (pos + 28) (lr_observed_latency r);
  Ok (out, pos +64 R_SERVICE_LATENCY_BLOCK_WIRE_LEN).

Definition r_build_latency_report_body (reports : option (list r_service_latency_report))
    (report_count : Z) (out : option (list Z)) (out_cap : Z) (out_len : option Z)
  : run (Z * option (list Z) * option Z) :=
  match out, out_len with
  | Some o, Some _ =>
      if 0xffff <? report_count then Ok (RCLIENT_ERR_PROTOCOL, out, out_len) else
      let needed := 4 +64 (report_count *64 R_SERVICE_LATENCY_BLOCK_WIRE_LEN) in
      if out_cap <? needed then Ok (RCLIENT_ERR_PROTOCOL, out, out_len) else
      o ← r_write_le16 o 0 (u16 report_count);
      o ← r_write_le16 o 2 0;
      st ← for_range (Z.to_nat report_count) 0 (write_report_block reports) (o, 4);
      let '(o, pos) := st in
      Ok (RCLIENT_OK, Some o, Some pos)
  | _, _ => Ok (RCLIENT_ERR_PROTOCOL, out, out_len)
  end.

(** ** PDU framing *)
Definition r_build_pdu (pdu_type : Z) (body : option (list Z)) (body_len : Z)
    (out : option (list Z)) (out_cap : Z) (out_len : option Z)
  : run (Z * option (list Z) * option Z) :=
  match out, out_len, body with
  | Some o, Some _, Some bd =>
      let pdu_size := R_PDU_HEADER_LEN +64 body_len in
      if (0xffff <? pdu_size) || (out_cap <? pdu_size)
      then Ok (RCLIENT_ERR_PROTOCOL, out, out_len) else
      o ← r_write_le16 o 0 pdu_type;
      o ← r_write_le16 o 2 (u16 pdu_size);
      o ← r_write_le16 o 4 0;
      o ← r_write_le16 o 6 0;
      src ← rd_bytes bd 0 body_len;
      o ← wr o R_PDU_HEADER_LEN src;
      Ok (RCLIENT_OK, Some o, Some pdu_size)
  | _, _, _ => Ok (RCLIENT_ERR_PROTOCOL, out, out_len)
  end.

Definition r_build_rate_request_pdu (dedup_ttl_ms : Z) (body : option (list Z)) (body_len : Z)
    (out : option (list Z)) (out_cap : Z) (out_len : option Z)
  : run (Z * option (list Z) * option Z) :=
  match out, out_len, body with
  | Some o, Some _, Some bd =>
      let pdu_size := R_PDU_HEADER_LEN +64 body_len in
      if (0xffff <? pdu_size) || (out_cap <? pdu_size)
      then Ok (RCLIENT_ERR_PROTOCOL, out, out_len) else
      o ← r_write_le16 o 0 R_PDU_RATE_REQUEST;
      o ← r_write_le16 o 2 (u16 pdu_size);
      o ← r_write_le32 o 4 dedup_ttl_ms;
      src ← rd_bytes bd 0 body_len;
      o ← wr o R_PDU_HEADER_LEN src;
      Ok (RCLIENT_OK, Some o, Some pdu_size)
  | _, _, _ => Ok (RCLIENT_ERR_PROTOCOL, out, out_len)
  end.

(** ** Rate-response parser

    The in/out parameters of [r_parse_rate_response_pdu]. *)
Record rate_response_out := mk_response_out {
  ro_guards : option (list r_guard_result);
  ro_guard_count : option Z;
  ro_resources : option (list r_resource_result);
  ro_res_count : option Z;
  ro_success : option bool;
}.

(** One iteration of the guard loop; [body] starts at offset [R_PDU_HEADER_LEN]
    of the PDU.  The state is the guard array, [pos] and [success]. *)
Definition parse_guard_block (pdu : list Z) (body_len : Z) (i : Z)
    (st : option (list r_guard_result) * Z * bool)
  : run (flow (option (list r_guard_result) * Z * bool) (option (list r_guard_result))) :=
  let '(guards, pos, success) := st in
  if body_len <? pos +64 R_GUARD_BLOCK_WIRE_LEN then Ok (Return guards) else
  let p := R_PDU_HEADER_LEN + pos in
  id ← rd_bytes pdu p 16;
  latency_threshold ← r_le32 pdu (p + 28);
  current_latency ← r_le32 pdu (p + 32);
  gs ← deref guards;
  let passed := current_latency <? latency_threshold in
  gs ← set_elem gs i (mk_guard_result id latency_threshold current_latency passed);
  Ok (Next (Some gs, pos +64 R_GUARD_BLOCK_WIRE_LEN, if negb passed then false else success)).

(** One iteration of the resource loop. *)
Definition parse_resource_block (pdu : list Z) (body_len : Z) (i : Z)
    (st : option (list r_resource_result) * Z * bool)
  : run (flow (option (list r_resource_result) * Z * bool) (option (list r_resource_result))) :=
  let '(resources, pos, success) := st in
  if body_len <? pos +64 R_RESOURCE_BLOCK_WIRE_LEN then Ok (Return resources) else
  let p := R_PDU_HEADER_LEN + pos in
  id ← rd_bytes pdu p 16;
  actual_rate ← r_le32 pdu (p + 20);
  tokens_deficit ← r_le16 pdu (p + 24);
  rs ← deref resources;
  rs ← set_elem rs i (mk_resource_result id tokens_deficit actual_rate);
  Ok (Next (Some rs, pos +64 R_RESOURCE_BLOCK_WIRE_LEN,
            if negb (tokens_deficit =? 0) then false else success)).

Definition r_parse_rate_response_pdu (pdu : option (list Z)) (pdu_len guard_cap res_cap : Z)
    (o : rate_response_out) : run (Z * rate_response_out) :=
  let fail o := Ok (RCLIENT_ERR_PROTOCOL, o) in
  match pdu with
  | None => fail o
  | Some b =>
      if pdu_len <? R_PDU_HEADER_LEN then fail o else
      pdu_type ← r_le16 b 0;
      if negb (pdu_type =? R_PDU_RATE_RESPONSE) then fail o else
      pdu_size ← r_le16 b 2;
      if (pdu_size <? R_PDU_HEADER_LEN) || (pdu_len <? pdu_size) then fail o else
      let body_len := pdu_size -64 R_PDU_HEADER_LEN in
      if body_len <? 4 then fail o else
      guard_count ← r_le16 b R_PDU_HEADER_LEN;
      resource_count ← r_le16 b (R_PDU_HEADER_LEN + 2);
      if (guard_cap <? guard_count) || (res_cap <? resource_count) then fail o else
      fg ← for_flow (Z.to_nat guard_count) 0 (parse_guard_block b body_len)
             (ro_guards o, 4, true);
      match fg with
      | Return gs => fail (mk_response_out gs (ro_guard_count o) (ro_resources o)
                            (ro_res_count o) (ro_success o))
      | Next (gs, pos, success) =>
          fr ← for_flow (Z.to_nat resource_count) 0 (parse_resource_block b body_len)
                 (ro_resources o, pos, success);
          match fr with
          | Return rs => fail (mk_response_out gs (ro_guard_count o) rs
                                (ro_res_count o) (ro_success o))
          | Next (rs, _, success) =>
              Ok (RCLIENT_OK,
                  mk_response_out gs (store (ro_guard_count o) guard_count) rs
                    (store (ro_res_count o) resource_count) (store (ro_success o) success))
          end
      end
  end.

#[global] Arguments r_le16 : simpl never.
#[global] Arguments r_le32 : simpl never.
#[global] Arguments r_le64 : simpl never.
#[global] Arguments r_write_le16 : simpl never.
#[global] Arguments r_write_le32 : simpl never.
#[global] Arguments r_write_le64 : simpl never.
#[global] Arguments r_tenant_header_write : simpl never.
#[global] Arguments r_tenant_header_read : simpl never.
#[global] Arguments r_parse_tenant_header : simpl never.
#[global] Arguments r_parse_auth_tlv_header : simpl never.
#[global] Arguments r_append_metrics_label_tlv : simpl never.
#[global] Arguments r_build_rate_request_body : simpl never.
#[global] Arguments r_build_latency_report_body : simpl never.
#[global] Arguments r_build_pdu : simpl never.
#[global] Arguments r_build_rate_request_pdu : simpl never.
#[global] Arguments r_parse_rate_response_pdu : simpl never.
