(* ===== verification/WireFacts.v ===== *)
(** * Wire protocol: correctness of src/r_protocol.c *)

From S2P Require Import Prelude.
From S2P Require Import Types.
From S2P Require Import Wire.

(** ** Field access is little-endian access to a sub-block *)
Lemma byte_at_div v sh : 0 <= sh -> byte_at v sh = (v / 2 ^ sh) mod 256.
Proof.
  intros H. unfold byte_at, u8. rewrite Z.shiftr_div_pow2 by done.
  change 255 with (Z.ones 8). rewrite Z.land_ones, Z.mod_mod by lia. done.
Qed.

Lemma le_bytes_at2 v : le 2 v = [byte_at v 0; byte_at v 8].
Proof. rewrite !byte_at_div by lia. cbn [le]. by rewrite Z.pow_0_r, Z.div_1_r. Qed.

Lemma le_bytes_at4 v : le 4 v = [byte_at v 0; byte_at v 8; byte_at v 16; byte_at v 24].
Proof.
  rewrite !byte_at_div by lia. cbn [le]. rewrite Z.pow_0_r, Z.div_1_r, !Z.div_div by lia. done.
Qed.

Lemma le_bytes_at8 v :
  le 8 v = [byte_at v 0; byte_at v 8; byte_at v 16; byte_at v 24;
            byte_at v 32; byte_at v 40; byte_at v 48; byte_at v 56].
Proof.
  rewrite !byte_at_div by lia. cbn [le]. rewrite Z.pow_0_r, Z.div_1_r, !Z.div_div by lia. done.
Qed.

Ltac fuse := repeat (rewrite wr_fuse by (simpl; rewrite ?length_app, ?le_length; simpl; lia)).
Ltac fuse_end := rewrite wr_fuse_end by (simpl; rewrite ?length_app, ?le_length; simpl; lia).

Lemma r_write_le16_wr p off v : r_write_le16 p off v = wr p off (le 2 v).
Proof. rewrite le_bytes_at2. unfold r_write_le16. fuse_end. done. Qed.

Lemma r_write_le32_wr p off v : r_write_le32 p off v = wr p off (le 4 v).
Proof. rewrite le_bytes_at4. unfold r_write_le32. fuse. fuse_end. done. Qed.

Lemma r_write_le64_wr p off v : r_write_le64 p off v = wr p off (le 8 v).
Proof. rewrite le_bytes_at8. unfold r_write_le64. fuse. fuse_end. done. Qed.

Lemma rd_bytes_byte p off n bs :
  rd_bytes p off n = Ok bs -> forall i, 0 <= i < n -> exists b, bs !! Z.to_nat i = Some b /\
    rd p (off + i) = Ok b.
Proof.
  intros H i Hi. pose proof (rd_bytes_Ok _ _ _ _ H) as (H1 & H2 & H3 & H4).
  destruct (block_split p off n) as (a & m & c & -> & <- & <-); [done..|].
  rewrite (rd_bytes_app a m c) in H by done. injection H as <-.
  destruct (lookup_lt_is_Some_2 m (Z.to_nat i)) as [b Hb]; [lia|].
  exists b. split; [done|]. apply rd_app; [done|lia|done].
Qed.

Lemma rd_bytes_none p off n :
  rd_bytes p off n = UB -> 0 < n -> rd p off = UB \/ rd p (off + (n - 1)) = UB.
Proof.
  intros H Hn. rewrite !rd_as_bytes.
  destruct (rd_bytes p off 1) as [|x] eqn:E1; [by left|].
  destruct (rd_bytes p (off + (n - 1)) 1) as [|y] eqn:E2; [by right|].
  apply rd_bytes_Ok in E1 as (?&?&?&?), E2 as (?&?&?&?).
  destruct (rd_bytes_defined p off n) as (z & E & _); [lia..|]. congruence.
Qed.

(** Reads the bytes of [p] at [off], [off + 1], ... out of [rd_bytes]. *)
Ltac get_bytes H n :=
  lazymatch n with
  | 0 => idtac
  | _ => let m := eval compute in (n - 1) in
         get_bytes H m;
         let b := fresh "b" in let E := fresh "E" in let F := fresh "F" in
         destruct (rd_bytes_byte _ _ _ _ H m ltac:(lia)) as (b & F & E)
  end.

(** [a | b << n] as a sum, innermost first. *)
Ltac lor_add :=
  repeat match goal with
  | |- context [Z.lor ?a (Z.shiftl ?b ?n)] =>
      lazymatch a with
      | context [Z.lor _ _] => fail
      | _ => rewrite (lor_shiftl_add a b n) by rlia
      end
  end.

Lemma r_le16_bytes p off :
  is_bytes p -> r_le16 p off = (bs ← rd_bytes p off 2; Ok (unle bs)).
Proof.
  intros Hb. unfold r_le16. destruct (rd_bytes p off 2) as [|bs] eqn:H.
  - destruct (rd_bytes_none _ _ _ H ltac:(lia)) as [-> | E]; [done|].
    change (2 - 1) with 1 in E. rewrite E. by destruct (rd p off).
  - pose proof (rd_bytes_is_bytes _ _ _ _ Hb H) as Hbs.
    pose proof (rd_bytes_Ok _ _ _ _ H) as (_ & _ & _ & Hl).
    get_bytes H 2. rewrite Z.add_0_r in E. rewrite E, E0. simpl.
    destruct bs as [|x0 [|x1 [|]]]; simpl in Hl; try lia.
    simpl in F, F0; simplify_eq. apply Forall_cons_1 in Hbs as [? [? _]%Forall_cons_1].
    lor_add. simpl. unwrap. f_equal. lia.
Qed.

Lemma r_le32_bytes p off :
  is_bytes p -> r_le32 p off = (bs ← rd_bytes p off 4; Ok (unle bs)).
Proof.
  intros Hb. unfold r_le32. destruct (rd_bytes p off 4) as [|bs] eqn:H.
  - destruct (rd_bytes_none _ _ _ H ltac:(lia)) as [-> | E]; [done|].
    change (4 - 1) with 3 in E. rewrite E. by destruct (rd p off), (rd p (off + 1)), (rd p (off + 2)).
  - pose proof (rd_bytes_is_bytes _ _ _ _ Hb H) as Hbs.
    pose proof (rd_bytes_Ok _ _ _ _ H) as (_ & _ & _ & Hl).
    get_bytes H 4. rewrite Z.add_0_r in E. rewrite E, E0, E1, E2. simpl.
    destruct bs as [|x0 [|x1 [|x2 [|x3 [|]]]]]; simpl in Hl; try lia.
    simpl in *; simplify_eq. repeat (apply Forall_cons_1 in Hbs as [? Hbs]).
    lor_add. unwrap. f_equal. lia.
Qed.

Lemma r_le64_bytes p off :
  is_bytes p -> r_le64 p off = (bs ← rd_bytes p off 8; Ok (unle bs)).
Proof.
  intros Hb. unfold r_le64. destruct (rd_bytes p off 8) as [|bs] eqn:H.
  - destruct (rd_bytes_none _ _ _ H ltac:(lia)) as [-> | E]; [done|].
    change (8 - 1) with 7 in E. rewrite E. by destruct (rd p off), (rd p (off + 1)), (rd p (off + 2)),
      (rd p (off + 3)), (rd p (off + 4)), (rd p (off + 5)), (rd p (off + 6)).
  - pose proof (rd_bytes_is_bytes _ _ _ _ Hb H) as Hbs.
    pose proof (rd_bytes_Ok _ _ _ _ H) as (_ & _ & _ & Hl).
    get_bytes H 8. rewrite Z.add_0_r in E. rewrite E, E0, E1, E2, E3, E4, E5, E6. simpl.
    destruct bs as [|x0 [|x1 [|x2 [|x3 [|x4 [|x5 [|x6 [|x7 [|]]]]]]]]]; simpl in Hl; try lia.
    simpl in *; simplify_eq. repeat (apply Forall_cons_1 in Hbs as [? Hbs]).
    lor_add. unwrap. f_equal. lia.
Qed.

#[global] Opaque le unle.

(** ** Reading fields of a concatenation *)
Ltac lens := rewrite ?length_app, ?le_length, ?length_replicate in *; simpl length in *; rlia.

(** Reads one field out of [f1 ++ f2 ++ ... ++ rest]. *)
Ltac field :=
  repeat (rewrite rd_bytes_skip by lens);
  first [rewrite rd_bytes_prefix by lens | rewrite rd_bytes_all by lens].

(** ** Tenant header *)
Definition ser_tenant (h : r_tenant_header) : list Z :=
  le 2 (th_tlv_type h) ++ le 2 (th_tlv_size h) ++ le 8 (th_key_id h) ++ th_unique_id h ++
  le 8 (th_time_stamp h) ++
  [th_steering_feedback h] ++ [th_tenant_mgmt_flag h] ++ [th_padding0 h] ++ [th_padding1 h].

Lemma ser_tenant_length h : wf_tenant h -> zlen (ser_tenant h) = 40.
Proof. intros (_ & _ & _ & [Hl _] & _). unfold ser_tenant. lens. Qed.

Lemma ser_tenant_bytes h : wf_tenant h -> is_bytes (ser_tenant h).
Proof.
  intros (H1 & H2 & H3 & [_ H4] & H5 & H6 & H7 & H8 & H9). unfold ser_tenant, is_bytes.
  rewrite !Forall_app, !Forall_singleton. split_and!; first [apply le_bytes | done].
Qed.

Lemma tenant_header_write_wr h b len :
  wf_tenant h -> R_TENANT_TLV_LEN <= len ->
  r_tenant_header_write (Some h) (Some b) len =
  (b' ← wr b 0 (ser_tenant h); Ok (Some b')).
Proof.
  intros (_ & _ & _ & [Hl _] & _) Hlen. unfold r_tenant_header_write.
  rewrite (proj2 (Z.ltb_ge _ _)) by done.
  rewrite rd_bytes_all by lia.
  setoid_rewrite r_write_le16_wr. setoid_rewrite r_write_le64_wr. simpl mbind.
  fuse. unfold ser_tenant. rewrite <- !app_assoc. done.
Qed.

(** Fetches [n] bytes at [off] of the block [b] as a fresh [x]. *)
Ltac fetch b off n x :=
  let H := fresh "R" x in let L := fresh "L" x in let B := fresh "B" x in
  destruct (rd_bytes_defined b off n ltac:(lia) ltac:(lia) ltac:(lia)) as (x & H & L);
  pose proof (rd_bytes_is_bytes b off n x ltac:(assumption) H) as B.

Lemma unle_width n bs : is_bytes bs -> zlen bs = n -> 0 <= unle bs < 2 ^ (8 * n).
Proof. intros H <-. by apply unle_bound. Qed.

Lemma unle_u16 bs : is_bytes bs -> zlen bs = 2 -> is_u16 (unle bs).
Proof. exact (unle_width 2 bs). Qed.
Lemma unle_u32 bs : is_bytes bs -> zlen bs = 4 -> is_u32 (unle bs).
Proof. exact (unle_width 4 bs). Qed.
Lemma unle_u64 bs : is_bytes bs -> zlen bs = 8 -> is_u64 (unle bs).
Proof. exact (unle_width 8 bs). Qed.

Lemma rd_1 p off x b : rd_bytes p off 1 = Ok x -> x = [b] -> rd p off = Ok b.
Proof. intros H ->. by rewrite rd_as_bytes, H. Qed.

Lemma rd_bytes_1 p off :
  is_bytes p -> 0 <= off -> off + 1 <= zlen p ->
  exists b, rd p off = Ok b /\ rd_bytes p off 1 = Ok [b] /\ is_u8 b.
Proof.
  intros Hb H1 H2. fetch p off 1 x. destruct x as [|b [|]]; simpl in Lx; try lia.
  exists b. split_and!; [by eapply rd_1 | done | by apply (Forall_singleton is_u8 b)].
Qed.

(** Splits the field of [k] bytes off the read [H] of [n] bytes at [off]. *)
Ltac cut_field H b off n k R :=
  rewrite (rd_bytes_cut b off n k), R in H by lia; simpl in H;
  let m := eval compute in (n - k) in let o := eval compute in (off + k) in
  change (n - k) with m in H; change (off + k) with o in H.

(** The read inverts the write: it never leaves the block, and the header it
    returns is the one whose image the first 40 bytes are. *)
Lemma tenant_header_read_spec b len o :
  is_bytes b -> R_TENANT_TLV_LEN <= len <= zlen b ->
  exists h, r_tenant_header_read (Some b) len (Some o) = Ok (RCLIENT_OK, Some h) /\
    wf_tenant h /\ take 40 b = ser_tenant h.
Proof.
  unfold R_TENANT_TLV_LEN. intros Hb Hl. unfold r_tenant_header_read, R_TENANT_TLV_LEN.
  rewrite (proj2 (Z.ltb_ge _ _)) by lia.
  rewrite !r_le16_bytes, !r_le64_bytes by done.
  fetch b 0 2 a. fetch b 2 2 c. fetch b 4 8 d. fetch b 12 16 e. fetch b 28 8 f.
  destruct (rd_bytes_1 b 36) as (g & Eg & Rg & Bg); [done|lia..|].
  destruct (rd_bytes_1 b 37) as (i & Ei & Ri & Bi); [done|lia..|].
  destruct (rd_bytes_1 b 38) as (j & Ej & Rj & Bj); [done|lia..|].
  destruct (rd_bytes_1 b 39) as (k & Ek & Rk & Bk); [done|lia..|].
  rewrite Ra, Rc, Rd, Re, Rf, Eg, Ei, Ej, Ek. simpl. eexists. split; [reflexivity|]. split.
  - unfold wf_tenant; simpl. split_and!;
      try done; first [by apply unle_u16 | by apply unle_u64 | split; [lia|done]].
  - assert (rd_bytes b 0 40 = Ok (take 40 b)) as Hr by (apply rd_bytes_take; lia).
    cut_field Hr b 0 40 2 Ra.
    cut_field Hr b 2 38 2 Rc.
    cut_field Hr b 4 36 8 Rd.
    cut_field Hr b 12 28 16 Re.
    cut_field Hr b 28 12 8 Rf.
    cut_field Hr b 36 4 1 Rg.
    cut_field Hr b 37 3 1 Ri.
    cut_field Hr b 38 2 1 Rj.
    rewrite Rk in Hr. simpl in Hr. injection Hr as <-.
    unfold ser_tenant; simpl th_tlv_type; simpl th_tlv_size; simpl th_key_id;
      simpl th_time_stamp; simpl th_unique_id.
    rewrite !le_unle_n by (done || lia). done.
Qed.

(** Asserts the value [v] of the field at [off] of the serialised block. *)
Ltac has_field B off n v ser :=
  assert (rd_bytes B off n = Ok v) by (unfold ser; rewrite <- !app_assoc; field; reflexivity).
Ltac use_fields := repeat match goal with H : rd_bytes _ _ _ = Ok _ |- _ => rewrite H; clear H end.

Lemma tenant_header_read_ser h rest len o :
  wf_tenant h -> is_bytes rest -> R_TENANT_TLV_LEN <= len ->
  r_tenant_header_read (Some (ser_tenant h ++ rest)) len (Some o) = Ok (RCLIENT_OK, Some h).
Proof.
  intros Hw Hr Hl. pose proof (ser_tenant_bytes h Hw) as Hb.
  assert (is_bytes (ser_tenant h ++ rest)) as Hbb by by apply Forall_app.
  unfold r_tenant_header_read. rewrite zltb_false by done.
  rewrite !r_le16_bytes, !r_le64_bytes, !rd_as_bytes by done.
  destruct Hw as (H1 & H2 & H3 & [H4 _] & H5 & H6 & H7 & H8 & H9).
  has_field (ser_tenant h ++ rest) 0 2 (le 2 (th_tlv_type h)) ser_tenant.
  has_field (ser_tenant h ++ rest) 2 2 (le 2 (th_tlv_size h)) ser_tenant.
  has_field (ser_tenant h ++ rest) 4 8 (le 8 (th_key_id h)) ser_tenant.
  has_field (ser_tenant h ++ rest) 12 16 (th_unique_id h) ser_tenant.
  has_field (ser_tenant h ++ rest) 28 8 (le 8 (th_time_stamp h)) ser_tenant.
  has_field (ser_tenant h ++ rest) 36 1 [th_steering_feedback h] ser_tenant.
  has_field (ser_tenant h ++ rest) 37 1 [th_tenant_mgmt_flag h] ser_tenant.
  has_field (ser_tenant h ++ rest) 38 1 [th_padding0 h] ser_tenant.
  has_field (ser_tenant h ++ rest) 39 1 [th_padding1 h] ser_tenant.
  use_fields. simpl. rewrite !unle_le2, !unle_le8 by done. by destruct h.
Qed.

(** [r_parse_tenant_header] reads inside the packet, accepts exactly a tenant
    TLV of at least 40 bytes that fits, and returns its header and size. *)
Definition tenant_tlv_ok (h : r_tenant_header) (len : Z) : Prop :=
  th_tlv_type h = R_TLV_TENANT /\ R_TENANT_TLV_LEN <= th_tlv_size h <= len.

Lemma le16_ser_tenant h rest off :
  wf_tenant h -> is_bytes rest -> (off = 0 \/ off = 2) ->
  r_le16 (ser_tenant h ++ rest) off = Ok (if off =? 0 then th_tlv_type h else th_tlv_size h).
Proof.
  intros Hw Hr Ho. pose proof (ser_tenant_bytes h Hw) as Hb.
  rewrite r_le16_bytes by by apply Forall_app.
  destruct Hw as (H1 & H2 & _). unfold ser_tenant. rewrite <- !app_assoc.
  destruct Ho as [-> | ->]; field; simpl; by rewrite unle_le2.
Qed.

Lemma parse_tenant_header_ser h rest len o p :
  wf_tenant h -> is_bytes rest -> 40 <= len ->
  (tenant_tlv_ok h len ->
   r_parse_tenant_header (Some (ser_tenant h ++ rest)) len (Some o) (Some p) =
   Ok (RCLIENT_OK, Some h, Some (th_tlv_size h))) /\
  (~ tenant_tlv_ok h len ->
   r_parse_tenant_header (Some (ser_tenant h ++ rest)) len (Some o) (Some p) =
   Ok (RCLIENT_ERR_PROTOCOL, Some o, Some p)).
Proof.
  intros Hw Hr Hl. unfold tenant_tlv_ok, r_parse_tenant_header.
  rewrite zltb_false by lia. rewrite !le16_ser_tenant by auto. simpl.
  rewrite tenant_header_read_ser by (done || unfold R_TENANT_TLV_LEN; lia). simpl.
  split; intros H; repeat case_if; breflect; try done; unfold R_TENANT_TLV_LEN in *; exfalso.
  - by destruct H.
  - apply orb_true_iff in E0 as [?%Z.ltb_lt | ?%Z.ltb_lt]; lia.
  - apply H. lia.
Qed.

Lemma parse_tenant_header_spec b len o p :
  is_bytes b -> 0 <= len <= zlen b ->
  (exists h, wf_tenant h /\ take 40 b = ser_tenant h /\ tenant_tlv_ok h len /\
     r_parse_tenant_header (Some b) len (Some o) (Some p) =
     Ok (RCLIENT_OK, Some h, Some (th_tlv_size h))) \/
  r_parse_tenant_header (Some b) len (Some o) (Some p) =
  Ok (RCLIENT_ERR_PROTOCOL, Some o, Some p).
Proof.
  intros Hb Hl. destruct (decide (40 <= len)).
  - destruct (tenant_header_read_spec b len o Hb) as (h & _ & Hw & Hs); [clia|].
    assert (b = ser_tenant h ++ drop 40 b) as Eb by by rewrite <- Hs, take_drop.
    assert (is_bytes (drop 40 b)) as Hd by by apply Forall_drop.
    destruct (parse_tenant_header_ser h (drop 40 b) len o p Hw Hd) as [P1 P2]; [done|].
    rewrite <- Eb in P1, P2. unfold tenant_tlv_ok in *.
    destruct (decide (th_tlv_type h = R_TLV_TENANT /\ R_TENANT_TLV_LEN <= th_tlv_size h <= len));
      [left; exists h | right]; auto.
  - right. unfold r_parse_tenant_header. destruct (Z.ltb_spec len 4); [done|].
    rewrite !r_le16_bytes by done. fetch b 0 2 x. fetch b 2 2 y. rewrite Rx, Ry. simpl.
    case_if; [done|]. replace (_ || _) with true; [done|].
    symmetry. apply orb_true_iff. unfold R_TENANT_TLV_LEN. rewrite !Z.ltb_lt. lia.
Qed.

(** ** Request and report bodies *)
Definition ser_guard (g : r_latency_guard) : list Z :=
  lg_latency_tracker_id g ++ le 4 (lg_ttl_ms g) ++ le 4 (lg_max_samples g) ++
  le 4 (lg_min_sample_threshold g) ++ le 4 (lg_threshold_ms g) ++ le 4 0.

Definition ser_resource (r : r_resource_request) : list Z :=
  rr_bucket_id r ++ le 4 (rr_window_size_ms r) ++ le 4 (rr_rate_limit r) ++
  le 2 (rr_tokens_requested r) ++ le 2 0.

Definition ser_report (r : r_service_latency_report) : list Z :=
  lr_latency_tracker_id r ++ le 4 (lr_ttl_ms r) ++ le 4 (lr_max_samples r) ++
  le 4 (lr_min_sample_threshold r) ++ le 4 (lr_observed_latency r).

(** Label TLV: type, total size, label length, label, zero padding to a
    multiple of four. *)
Definition label_padding (n : Z) : Z := (4 - (2 + n) mod 4) mod 4.
Definition label_tlv_size (n : Z) : Z := 4 + (2 + n) + label_padding n.

Definition ser_label (l : list Z) : list Z :=
  le 2 R_TLV_METRICS_LABEL ++ le 2 (label_tlv_size (zlen l)) ++ le 2 (zlen l) ++ l ++
  replicate (Z.to_nat (label_padding (zlen l))) 0.

Definition ser_opt_label (ol : option (list Z)) : list Z :=
  match ol with None => [] | Some l => ser_label l end.

Definition ser_request_body (gs : list r_latency_guard) (rs : list r_resource_request)
    (ol : option (list Z)) : list Z :=
  le 2 (zlen gs) ++ le 2 (zlen rs) ++ concat (map ser_guard gs) ++ concat (map ser_resource rs) ++
  ser_opt_label ol.

Definition ser_report_body (rs : list r_service_latency_report) : list Z :=
  le 2 (zlen rs) ++ le 2 0 ++ concat (map ser_report rs).

Lemma ser_guard_length g : wf_latency_guard g -> zlen (ser_guard g) = R_GUARD_BLOCK_WIRE_LEN.
Proof. intros [[Hl _] _]. unfold ser_guard, R_GUARD_BLOCK_WIRE_LEN. lens. Qed.
Lemma ser_resource_length r :
  wf_resource_request r -> zlen (ser_resource r) = R_RESOURCE_BLOCK_WIRE_LEN.
Proof. intros [[Hl _] _]. unfold ser_resource, R_RESOURCE_BLOCK_WIRE_LEN. lens. Qed.
Lemma ser_report_length r :
  wf_latency_report r -> zlen (ser_report r) = R_SERVICE_LATENCY_BLOCK_WIRE_LEN.
Proof. intros [[Hl _] _]. unfold ser_report, R_SERVICE_LATENCY_BLOCK_WIRE_LEN. lens. Qed.

Lemma label_padding_range n : 0 <= label_padding n < 4.
Proof. unfold label_padding. apply Z.mod_pos_bound. lia. Qed.
Lemma ser_label_length l : zlen (ser_label l) = label_tlv_size (zlen l).
Proof.
  pose proof (label_padding_range (zlen l)). unfold ser_label, label_tlv_size. lens.
Qed.

(** The label TLV keeps the packet four-byte aligned. *)
Lemma label_tlv_size_aligned n : label_tlv_size n mod 4 = 0.
Proof. unfold label_tlv_size, label_padding. Z.div_mod_to_equations. lia. Qed.

Lemma write_guard_block_wr gs i g out pos :
  Forall wf_latency_guard gs -> elem gs i = Ok g -> 0 <= pos ->
  pos + R_GUARD_BLOCK_WIRE_LEN < 2 ^ 64 ->
  write_guard_block (Some gs) i (out, pos) =
  (out' ← wr out pos (ser_guard g); Ok (out', pos + R_GUARD_BLOCK_WIRE_LEN)).
Proof.
  intros Hf He Hp Hr. pose proof (elem_of_elem _ _ _ He) as Hin.
  pose proof (proj1 (Forall_forall _ _) Hf g Hin) as [[Hl _] _].
  unfold write_guard_block. simpl. rewrite He. simpl. rewrite rd_bytes_all by lia. simpl.
  setoid_rewrite r_write_le32_wr. fuse.
  unfold ser_guard. rewrite <- !app_assoc. by rewrite u64_small by clia.
Qed.

Lemma write_resource_block_wr rs i r out pos :
  Forall wf_resource_request rs -> elem rs i = Ok r -> 0 <= pos ->
  pos + R_RESOURCE_BLOCK_WIRE_LEN < 2 ^ 64 ->
  write_resource_block (Some rs) i (out, pos) =
  (out' ← wr out pos (ser_resource r); Ok (out', pos + R_RESOURCE_BLOCK_WIRE_LEN)).
Proof.
  intros Hf He Hp Hr. pose proof (elem_of_elem _ _ _ He) as Hin.
  pose proof (proj1 (Forall_forall _ _) Hf r Hin) as [[Hl _] _].
  unfold write_resource_block. simpl. rewrite He. simpl. rewrite rd_bytes_all by lia. simpl.
  setoid_rewrite r_write_le32_wr. setoid_rewrite r_write_le16_wr. fuse.
  unfold ser_resource. rewrite <- !app_assoc. by rewrite u64_small by clia.
Qed.

Lemma write_report_block_wr rs i r out pos :
  Forall wf_latency_report rs -> elem rs i = Ok r -> 0 <= pos ->
  pos + R_SERVICE_LATENCY_BLOCK_WIRE_LEN < 2 ^ 64 ->
  write_report_block (Some rs) i (out, pos) =
  (out' ← wr out pos (ser_report r); Ok (out', pos + R_SERVICE_LATENCY_BLOCK_WIRE_LEN)).
Proof.
  intros Hf He Hp Hr. pose proof (elem_of_elem _ _ _ He) as Hin.
  pose proof (proj1 (Forall_forall _ _) Hf r Hin) as [[Hl _] _].
  unfold write_report_block. simpl. rewrite He. simpl. rewrite rd_bytes_all by lia. simpl.
  setoid_rewrite r_write_le32_wr. fuse.
  unfold ser_report. rewrite <- !app_assoc. by rewrite u64_small by clia.
Qed.

(** The label bytes the body builder sends: none without a label or for an
    empty string, otherwise the given length or the string length. *)
Definition effective_label (metrics_label : option (list Z)) (metrics_label_len : Z)
  : run (option (list Z)) :=
  match metrics_label with
  | None => Ok None
  | Some lab =>
      c ← rd lab 0;
      if c =? 0 then Ok None else
      n ← (if metrics_label_len =? 0 then strlen lab else Ok metrics_label_len);
      l ← rd_bytes lab 0 n; Ok (Some l)
  end.

Definition label_fits (ol : option (list Z)) : bool :=
  match ol with None => true | Some l => label_tlv_size (zlen l) <=? 0xffff end.

Lemma append_label_spec b cap pos lab n m l :
  is_object b -> 0 <= pos <= cap -> cap <= zlen b ->
  (if n =? 0 then strlen lab else Ok n) = Ok m -> rd_bytes lab 0 m = Ok l ->
  r_append_metrics_label_tlv (Some b) cap (Some pos) (Some lab) n =
  if label_fits (Some l) && (pos + zlen (ser_label l) <=? cap)
  then b' ← wr b pos (ser_label l); Ok (RCLIENT_OK, Some b', Some (pos + zlen (ser_label l)))
  else Ok (RCLIENT_ERR_PROTOCOL, Some b, Some pos).
Proof.
  unfold is_object. intros Hb Hp Hc Hm Hl.
  pose proof (rd_bytes_Ok _ _ _ _ Hl) as (_ & Hm0 & _ & <-).
  pose proof (label_padding_range (zlen l)) as Hpad.
  unfold r_append_metrics_label_tlv. rewrite Hm. simpl mbind. rewrite ser_label_length. simpl.
  destruct (Z.ltb_spec 65535 (zlen l)).
  { unfold label_tlv_size. rewrite (proj2 (Z.leb_gt _ _)) by lia. done. }
  rewrite (u64_small (2 + zlen l)), (u64_small (4 + _)) by rlia.
  fold (label_padding (zlen l)).
  rewrite (u64_small (4 + _ + _)) by rlia. fold (label_tlv_size (zlen l)).
  assert (0 <= label_tlv_size (zlen l) < 65600) by (unfold label_tlv_size; lia).
  rewrite (u64_small (pos + _)) by rlia.
  rewrite (Z.leb_antisym 65535). destruct (Z.ltb_spec 65535 (label_tlv_size (zlen l)));
    simpl; [done|].
  rewrite (Z.leb_antisym cap). destruct (Z.ltb_spec cap (pos + label_tlv_size (zlen l)));
    simpl; [done|].
  rewrite Hl. simpl.
  assert (forall x, (if 0 <? label_padding (zlen l)
             then fill x (pos + 6 + zlen l) 0 (label_padding (zlen l)) else Ok x) =
          if 0 <? label_padding (zlen l)
             then wr x (pos + 6 + zlen l) (replicate (Z.to_nat (label_padding (zlen l))) 0)
             else Ok x) as Hfill.
  { intros x. case_if; [|done]. unfold fill. by rewrite (proj2 (Z.leb_le _ _)) by lia. }
  setoid_rewrite Hfill. rewrite !u16_small by rlia. setoid_rewrite r_write_le16_wr. fuse.
  unfold ser_label. rewrite <- !app_assoc.
  destruct (Z.ltb_spec 0 (label_padding (zlen l))).
  - fuse. by rewrite <- !app_assoc.
  - replace (label_padding (zlen l)) with 0 by lia. simpl. rewrite !app_nil_r. done.
Qed.

Lemma serialize_array {A} (p : option (list A)) (l : list A) ser w L
    (body : option (list A) -> Z -> list Z * Z -> run (list Z * Z)) out pos :
  array_arg p l ->
  (forall i x o q, elem l i = Ok x -> 0 <= q -> q + w <= L ->
     body (Some l) i (o, q) = (o' ← wr o q (ser x); Ok (o', q + w))) ->
  (forall x, x ∈ l -> zlen (ser x) = w) -> 0 <= w ->
  zlen out = L -> 0 <= pos -> pos + zlen l * w <= L ->
  for_range (Z.to_nat (zlen l)) 0 (body p) (out, pos) =
  (out' ← wr out pos (concat (map ser l)); Ok (out', pos + zlen l * w)).
Proof.
  intros Hp Hbody Hser Hw HL Hpos Hfit. rewrite Nat2Z.id. destruct Hp as [-> | [-> ->]].
  - change 0 with (Z.of_nat 0) at 1.
    rewrite (for_range_serialize l ser w L) by (eauto || lia).
    by rewrite drop_0, firstn_all.
  - simpl in *. rewrite wr_nil by lia. simpl. by rewrite Z.add_0_r.
Qed.

Definition request_fits (gs : list r_latency_guard) (rs : list r_resource_request)
    (ol : option (list Z)) (cap : Z) : bool :=
  (zlen gs <=? 0xffff) && (zlen rs <=? 0xffff) && label_fits ol &&
  (zlen (ser_request_body gs rs ol) <=? cap).

Lemma request_body_length gs rs ol :
  Forall wf_latency_guard gs -> Forall wf_resource_request rs ->
  zlen (ser_request_body gs rs ol) =
  4 + zlen gs * R_GUARD_BLOCK_WIRE_LEN + zlen rs * R_RESOURCE_BLOCK_WIRE_LEN +
  zlen (ser_opt_label ol).
Proof.
  intros Hg Hr. unfold ser_request_body. rewrite !length_app, !le_length, !Nat2Z.inj_add.
  rewrite (concat_map_length ser_guard R_GUARD_BLOCK_WIRE_LEN),
    (concat_map_length ser_resource R_RESOURCE_BLOCK_WIRE_LEN); [lia|..];
    intros x Hx; [apply ser_resource_length | apply ser_guard_length];
    by eapply (proj1 (Forall_forall _ _)).
Qed.

(** What a builder promises of its output parameters: on success the block
    starts with [bytes] and the length is theirs, on failure the length is
    untouched; the block keeps its size and nothing past [cap] changes. *)
Definition built (out : list Z) (cap oldlen : Z) (fits : bool) (bytes : list Z)
    (r : run (Z * option (list Z) * option Z)) : Prop :=
  exists out', r = Ok (if fits then RCLIENT_OK else RCLIENT_ERR_PROTOCOL, Some out',
                       Some (if fits then zlen bytes else oldlen)) /\
    length out' = length out /\ drop (Z.to_nat cap) out' = drop (Z.to_nat cap) out /\
    (fits = true -> take (length bytes) out' = bytes).

Lemma built_fail out cap oldlen bytes :
  built out cap oldlen false bytes (Ok (RCLIENT_ERR_PROTOCOL, Some out, Some oldlen)).
Proof. exists out. done. Qed.

Lemma built_wr out cap oldlen bytes out' (bs : list Z) n :
  wr out 0 bs = Ok out' -> bs = bytes -> zlen bytes <= cap -> n = zlen bytes ->
  built out cap oldlen true bytes (Ok (RCLIENT_OK, Some out', Some n)).
Proof.
  intros H -> Hc ->. exists out'. split_and!; [done|..].
  - by apply wr_Ok in H as (_ & _ & ?).
  - eapply drop_wr_beyond; [done | lia].
  - intros _. apply wr0_eq in H as ->. by rewrite take_app_length.
Qed.

Definition ser_request_head (gs : list r_latency_guard) (rs : list r_resource_request) : list Z :=
  le 2 (zlen gs) ++ le 2 (zlen rs) ++ concat (map ser_guard gs) ++ concat (map ser_resource rs).

Lemma request_head_length gs rs :
  Forall wf_latency_guard gs -> Forall wf_resource_request rs ->
  zlen (ser_request_head gs rs) =
  4 + zlen gs * R_GUARD_BLOCK_WIRE_LEN + zlen rs * R_RESOURCE_BLOCK_WIRE_LEN.
Proof.
  intros Hg Hr. pose proof (request_body_length gs rs None Hg Hr) as H.
  unfold ser_request_body in H. simpl in H. rewrite app_nil_r in H.
  unfold ser_request_head. lia.
Qed.

(** The counts and the two block loops write the head of the body. *)
Lemma request_head_wr rsp gsp gs rs out :
  array_arg gsp gs -> array_arg rsp rs ->
  Forall wf_latency_guard gs -> Forall wf_resource_request rs ->
  is_object out -> zlen (ser_request_head gs rs) <= zlen out ->
  (o ← wr out 0 (le 2 (zlen gs) ++ le 2 (zlen rs));
   st ← for_range (Z.to_nat (zlen gs)) 0 (write_guard_block gsp) (o, 4);
   for_range (Z.to_nat (zlen rs)) 0 (write_resource_block rsp) st) =
  (o ← wr out 0 (ser_request_head gs rs); Ok (o, zlen (ser_request_head gs rs))).
Proof.
  unfold is_object. intros Hgp Hrp Hgw Hrw Ho Hfit.
  rewrite request_head_length in Hfit |- * by done.
  destruct (wr_defined out 0 (le 2 (zlen gs) ++ le 2 (zlen rs))) as [o1 W1]; [lia|csts; lens|].
  rewrite W1, run_bind_Ok. pose proof (wr_Ok _ _ _ _ W1) as (_ & _ & L1).
  rewrite (serialize_array gsp gs ser_guard R_GUARD_BLOCK_WIRE_LEN (zlen out));
    [|done|intros; apply write_guard_block_wr; first [done | clia]
     |intros x Hx; apply ser_guard_length; by eapply (proj1 (Forall_forall _ _))|clia..].
  rewrite (wr_wr_at _ _ _ _ _ _ W1) by (rewrite length_app, !le_length; lia).
  destruct (wr_defined out 0 ((le 2 (zlen gs) ++ le 2 (zlen rs)) ++ concat (map ser_guard gs)))
    as [o2 W2]; [lia|..].
  { rewrite !length_app, !le_length, !Nat2Z.inj_add, (concat_map_length ser_guard 36); [clia|].
    intros x Hx; apply ser_guard_length; by eapply (proj1 (Forall_forall _ _)). }
  rewrite W2, !run_bind_Ok. pose proof (wr_Ok _ _ _ _ W2) as (_ & _ & L2).
  rewrite (serialize_array rsp rs ser_resource R_RESOURCE_BLOCK_WIRE_LEN (zlen out));
    [|done|intros; apply write_resource_block_wr; first [done | clia]
     |intros x Hx; apply ser_resource_length; by eapply (proj1 (Forall_forall _ _))|clia..].
  rewrite (wr_wr_at _ _ _ _ _ _ W2), <- !app_assoc; [done|].
  rewrite !length_app, !le_length, !Nat2Z.inj_add,
    (concat_map_length ser_guard R_GUARD_BLOCK_WIRE_LEN); [lia|].
  intros x Hx; apply ser_guard_length; by eapply (proj1 (Forall_forall _ _)).
Qed.

Lemma request_body_head_label gs rs ol :
  ser_request_body gs rs ol = ser_request_head gs rs ++ ser_opt_label ol.
Proof. unfold ser_request_body, ser_request_head. by rewrite <- !app_assoc. Qed.

(** For every well-formed request and every output block, the builder stays
    inside the first [out_cap] bytes, succeeds exactly when the counts, the
    label TLV and the whole body fit, and then the block starts with the wire
    image: counts, 36-byte guards, 28-byte resources, padded label TLV. *)
Lemma rate_request_body_built rsp gsp gs rs ml n ol out cap oldlen :
  array_arg gsp gs -> array_arg rsp rs ->
  Forall wf_latency_guard gs -> Forall wf_resource_request rs ->
  is_object gs -> is_object rs ->
  is_object out -> 0 <= cap <= zlen out -> effective_label ml n = Ok ol ->
  built out cap oldlen (request_fits gs rs ol cap) (ser_request_body gs rs ol)
    (r_build_rate_request_body rsp (zlen rs) gsp (zlen gs) ml n (Some out) cap (Some oldlen)).
Proof.
  unfold is_object. intros Hgp Hrp Hgw Hrw Hgo Hro Ho Hcap Hlab.
  pose proof (request_head_length gs rs Hgw Hrw) as Hlen.
  unfold r_build_rate_request_body, request_fits.
  rewrite (Z.leb_antisym 65535 (zlen gs)), (Z.leb_antisym 65535 (zlen rs)).
  rewrite request_body_head_label, length_app, Nat2Z.inj_add.
  destruct (Z.ltb_spec 65535 (zlen rs)); simpl; [rewrite andb_false_r; apply built_fail|].
  destruct (Z.ltb_spec 65535 (zlen gs)); simpl; [apply built_fail|].
  rewrite (u64_small (zlen gs * _)), (u64_small (zlen rs * _)), (u64_small (4 + _)),
    (u64_small (4 + _ + _)), <- Hlen by clia.
  destruct (Z.ltb_spec cap (zlen (ser_request_head gs rs))).
  { rewrite (proj2 (Z.leb_gt _ _)), andb_false_r by lia. apply built_fail. }
  rewrite !u16_small, !r_write_le16_wr by rlia.
  setoid_rewrite r_write_le16_wr. fuse.
  pose proof (request_head_wr rsp gsp gs rs out Hgp Hrp Hgw Hrw Ho ltac:(lia)) as Hw.
  destruct (wr_defined out 0 (ser_request_head gs rs)) as [o W]; [lia..|]. rewrite W in Hw.
  apply run_bind_inv in Hw as (o1 & W1 & Hw). rewrite W1, run_bind_Ok.
  apply run_bind_inv in Hw as (st & Hg & Hr). rewrite Hg, run_bind_Ok, Hr, run_bind_Ok.
  assert (built out cap oldlen (label_fits None && (zlen (ser_request_head gs rs) + 0 <=? cap))
    (ser_request_head gs rs ++ []) (Ok (RCLIENT_OK, Some o, Some (zlen (ser_request_head gs rs)))))
    as Hnone.
  { rewrite app_nil_r. simpl. rewrite (proj2 (Z.leb_le _ _)) by lia. by eapply built_wr. }
  unfold effective_label in Hlab. destruct ml as [lab|]; [|by injection Hlab as <-].
  apply run_bind_inv in Hlab as (c & -> & Hlab). simpl.
  destruct (c =? 0); [by injection Hlab as <-|]. simpl.
  apply run_bind_inv in Hlab as (m & Hm & Hlab).
  apply run_bind_inv in Hlab as (l & Hl & [= <-]).
  pose proof (wr_Ok _ _ _ _ W) as (_ & _ & Lo).
  rewrite (append_label_spec o cap _ lab n m l) by (done || unfold is_object; lia).
  change (ser_opt_label (Some l)) with (ser_label l).
  destruct (label_fits (Some l) && _) eqn:Ef.
  - breflect. rewrite (wr_wr_at _ _ _ _ _ _ W) by lia.
    destruct (wr_defined out 0 (ser_request_head gs rs ++ ser_label l)) as [o2 W2];
      [lia | rewrite length_app; lia|].
    rewrite W2. simpl. eapply built_wr; [done..| |]; rewrite length_app; lia.
  - simpl. eexists. split; [done|]. split; [done|]. split; [|done].
    eapply drop_wr_beyond; [done|lia].
Qed.

Definition report_fits (rs : list r_service_latency_report) (cap : Z) : bool :=
  (zlen rs <=? 0xffff) && (zlen (ser_report_body rs) <=? cap).

Lemma report_body_length rs :
  Forall wf_latency_report rs ->
  zlen (ser_report_body rs) = 4 + zlen rs * R_SERVICE_LATENCY_BLOCK_WIRE_LEN.
Proof.
  intros Hr. unfold ser_report_body. rewrite !length_app, !le_length, !Nat2Z.inj_add.
  rewrite (concat_map_length ser_report R_SERVICE_LATENCY_BLOCK_WIRE_LEN); [lia|].
  intros x Hx; apply ser_report_length; by eapply (proj1 (Forall_forall _ _)).
Qed.

(** The latency-report body builder: same contract as the request body, for
    a count, a reserved word and 32-byte report blocks. *)
Lemma latency_report_body_built rsp rs out cap oldlen :
  array_arg rsp rs -> Forall wf_latency_report rs -> is_object rs ->
  is_object out -> 0 <= cap <= zlen out ->
  built out cap oldlen (report_fits rs cap) (ser_report_body rs)
    (r_build_latency_report_body rsp (zlen rs) (Some out) cap (Some oldlen)).
Proof.
  unfold is_object. intros Hp Hw Hro Ho Hcap. pose proof (report_body_length rs Hw) as Hlen.
  unfold r_build_latency_report_body, report_fits. rewrite (Z.leb_antisym 65535 (zlen rs)).
  destruct (Z.ltb_spec 65535 (zlen rs)); simpl; [apply built_fail|].
  rewrite (u64_small (zlen rs * _)), (u64_small (4 + _)), <- Hlen by clia.
  destruct (Z.ltb_spec cap (zlen (ser_report_body rs))).
  { rewrite (proj2 (Z.leb_gt _ _)) by lia. apply built_fail. }
  rewrite (proj2 (Z.leb_le _ _)) by lia.
  rewrite u16_small, r_write_le16_wr by rlia. setoid_rewrite r_write_le16_wr. fuse.
  destruct (wr_defined out 0 (le 2 (zlen rs) ++ le 2 0)) as [o1 W1]; [lia|csts; lens|].
  rewrite W1, run_bind_Ok. pose proof (wr_Ok _ _ _ _ W1) as (_ & _ & L1).
  rewrite (serialize_array rsp rs ser_report R_SERVICE_LATENCY_BLOCK_WIRE_LEN (zlen out));
    [|done|intros; apply write_report_block_wr; first [done | clia]
     |intros x Hx; apply ser_report_length; by eapply (proj1 (Forall_forall _ _))|clia..].
  rewrite (wr_wr_at _ _ _ _ _ _ W1), <- app_assoc by (rewrite length_app, !le_length; lia).
  fold (ser_report_body rs).
  destruct (wr_defined out 0 (ser_report_body rs)) as [o2 W2]; [lia..|]. rewrite W2. simpl.
  eapply built_wr; [done..|lia|lia].
Qed.

(** ** PDU framing *)
Definition ser_request_pdu (ttl : Z) (body : list Z) : list Z :=
  le 2 R_PDU_RATE_REQUEST ++ le 2 (8 + zlen body) ++ le 4 ttl ++ body.

Definition ser_pdu (ty : Z) (body : list Z) : list Z :=
  le 2 ty ++ le 2 (8 + zlen body) ++ le 2 0 ++ le 2 0 ++ body.

Definition pdu_fits (body : list Z) (cap : Z) : bool :=
  (8 + zlen body <=? 0xffff) && (8 + zlen body <=? cap).

Lemma pdu_fits_test n cap :
  (0xffff <? n) || (cap <? n) = negb ((n <=? 0xffff) && (n <=? cap)).
Proof. rewrite !(Z.leb_antisym _ n). by destruct (65535 <? n), (cap <? n). Qed.

Lemma request_pdu_built ttl bodyblk body out cap oldlen :
  rd_bytes bodyblk 0 (zlen body) = Ok body -> is_object bodyblk ->
  is_object out -> 0 <= cap <= zlen out ->
  built out cap oldlen (pdu_fits body cap) (ser_request_pdu ttl body)
    (r_build_rate_request_pdu ttl (Some bodyblk) (zlen body) (Some out) cap (Some oldlen)).
Proof.
  unfold is_object. intros Hb Hbo Ho Hcap. pose proof (rd_bytes_Ok _ _ _ _ Hb) as (_ & _ & Hl & _).
  unfold r_build_rate_request_pdu. rewrite u64_small by clia.
  change (R_PDU_HEADER_LEN + zlen body) with (8 + zlen body). rewrite pdu_fits_test.
  unfold pdu_fits. destruct (_ && _) eqn:E; simpl; [|apply built_fail]. breflect.
  rewrite u16_small, Hb, r_write_le16_wr by rlia. setoid_rewrite r_write_le16_wr.
  setoid_rewrite r_write_le32_wr. simpl.
  fuse. unfold R_PDU_HEADER_LEN. fuse.
  rewrite <- !app_assoc. fold (ser_request_pdu ttl body).
  assert (zlen (ser_request_pdu ttl body) = 8 + zlen body) as Hlen by (unfold ser_request_pdu; lens).
  destruct (wr_defined out 0 (ser_request_pdu ttl body)) as [o W]; [lia..|]. rewrite W. simpl.
  eapply built_wr; [done..|lia|lia].
Qed.

Lemma pdu_built ty bodyblk body out cap oldlen :
  rd_bytes bodyblk 0 (zlen body) = Ok body -> is_object bodyblk ->
  is_object out -> 0 <= cap <= zlen out ->
  built out cap oldlen (pdu_fits body cap) (ser_pdu ty body)
    (r_build_pdu ty (Some bodyblk) (zlen body) (Some out) cap (Some oldlen)).
Proof.
  unfold is_object. intros Hb Hbo Ho Hcap. pose proof (rd_bytes_Ok _ _ _ _ Hb) as (_ & _ & Hl & _).
  unfold r_build_pdu. rewrite u64_small by clia.
  change (R_PDU_HEADER_LEN + zlen body) with (8 + zlen body). rewrite pdu_fits_test.
  unfold pdu_fits. destruct (_ && _) eqn:E; simpl; [|apply built_fail]. breflect.
  rewrite u16_small, Hb, r_write_le16_wr by rlia. setoid_rewrite r_write_le16_wr. simpl.
  fuse. unfold R_PDU_HEADER_LEN. fuse. rewrite <- !app_assoc. fold (ser_pdu ty body).
  assert (zlen (ser_pdu ty body) = 8 + zlen body) as Hlen by (unfold ser_pdu; lens).
  destruct (wr_defined out 0 (ser_pdu ty body)) as [o W]; [lia..|]. rewrite W. simpl.
  eapply built_wr; [done..|lia|lia].
Qed.

(** ** Rate-response parser *)
Definition guard_at (b : list Z) (off : Z) : r_guard_result :=
  let p := drop (Z.to_nat off) b in
  let thr := unle (take 4 (drop 28 p)) in
  let cur := unle (take 4 (drop 32 p)) in
  mk_guard_result (take 16 p) thr cur (cur <? thr).

Definition resource_at (b : list Z) (off : Z) : r_resource_result :=
  let p := drop (Z.to_nat off) b in
  mk_resource_result (take 16 p) (unle (take 2 (drop 24 p))) (unle (take 4 (drop 20 p))).

Fixpoint blocks_at {A} (at_ : Z -> A) (w : Z) (n : nat) (off : Z) : list A :=
  match n with O => [] | S n' => at_ off :: blocks_at at_ w n' (off + w) end.

Lemma blocks_at_length {A} (at_ : Z -> A) w n off : length (blocks_at at_ w n off) = n.
Proof. revert off; induction n; simpl; auto. Qed.

(** Both parser loops: each iteration fails when the block does not fit the
    body and otherwise stores element [i] and moves on by [w]. *)
Section BlockLoop.
Context {A : Type} (at_ : Z -> A) (good : A -> bool) (w blen : Z).
Context (body : Z -> option (list A) * Z * bool ->
                run (flow (option (list A) * Z * bool) (option (list A)))).
Hypothesis w_pos : 0 <= w.
Hypothesis body_short : forall i arr pos s,
  0 <= pos <= blen -> blen < pos + w -> body i (arr, pos, s) = Ok (Return arr).
Hypothesis body_step : forall i l pos s,
  0 <= pos -> pos + w <= blen -> 0 <= i < zlen l ->
  body i (Some l, pos, s) =
  Ok (Next (Some (<[Z.to_nat i := at_ pos]> l), pos + w, s && good (at_ pos))).

Lemma block_loop_fits n i l pos s :
  0 <= pos -> pos + Z.of_nat n * w <= blen -> (i + n <= length l)%nat ->
  for_flow n (Z.of_nat i) body (Some l, pos, s) =
  Ok (Next (Some (take i l ++ blocks_at at_ w n pos ++ drop (i + n) l),
            pos + Z.of_nat n * w, s && forallb good (blocks_at at_ w n pos))).
Proof using All.
  revert i l pos s. induction n as [|n IH]; intros i l pos s Hp Hf Hl; simpl.
  { by rewrite Nat.add_0_r, take_drop, andb_true_r, Z.add_0_r. }
  rewrite body_step by lia. rewrite Nat2Z.id, run_bind_Ok.
  replace (Z.of_nat i + 1) with (Z.of_nat (S i)) by lia.
  rewrite IH by (rewrite ?length_insert; lia).
  do 2 f_equal. rewrite andb_assoc. do 2 f_equal; [|lia]. f_equal.
  rewrite (take_S_r _ _ (at_ pos)) by (apply list_lookup_insert_eq; lia).
  rewrite take_insert_ge, drop_insert_lt by lia.
  rewrite <- app_assoc. simpl. do 4 f_equal. lia.
Qed.

Lemma block_loop_short n i l pos s :
  0 <= pos <= blen -> blen < pos + Z.of_nat n * w -> (i + n <= length l)%nat ->
  exists l', for_flow n (Z.of_nat i) body (Some l, pos, s) = Ok (Return (Some l')) /\
    length l' = length l.
Proof using All.
  revert i l pos s. induction n as [|n IH]; intros i l pos s Hp Hf Hl; simpl; [lia|].
  destruct (Z.lt_ge_cases blen (pos + w)).
  - exists l. by rewrite body_short by lia.
  - rewrite body_step by lia. rewrite Nat2Z.id, run_bind_Ok.
    replace (Z.of_nat i + 1) with (Z.of_nat (S i)) by lia.
    destruct (IH (S i) (<[i:=at_ pos]> l) (pos + w) (s && good (at_ pos))) as (l' & -> & Hl');
      [lia|lia|rewrite length_insert; lia|]. exists l'. by rewrite Hl', length_insert.
Qed.
End BlockLoop.

Lemma rd_bytes_drop b off n :
  0 <= off -> 0 <= n -> off + n <= zlen b ->
  rd_bytes b off n = Ok (take (Z.to_nat n) (drop (Z.to_nat off) b)).
Proof. intros. unfold rd_bytes. by rewrite (proj2 (in_block_spec _ _ _)) by lia. Qed.

Lemma parse_guard_block_step b blen i l pos s :
  is_bytes b -> 8 + blen <= zlen b -> blen < 2 ^ 32 ->
  0 <= pos -> pos + R_GUARD_BLOCK_WIRE_LEN <= blen -> 0 <= i < zlen l ->
  parse_guard_block b blen i (Some l, pos, s) =
  Ok (Next (Some (<[Z.to_nat i := guard_at b (8 + pos)]> l), pos + R_GUARD_BLOCK_WIRE_LEN,
            s && gr_passed (guard_at b (8 + pos)))).
Proof.
  intros Hb Hl Hs Hp Hf Hi. unfold parse_guard_block. csts.
  rewrite !(u64_small (pos + 36)) by rlia. rewrite zltb_false by lia.
  rewrite !r_le32_bytes by done. rewrite !rd_bytes_drop by lia. simpl.
  unfold set_elem. rewrite (proj2 (Z.leb_le _ _)), (zltb_true i) by lia. simpl.
  unfold guard_at. rewrite !drop_drop.
  replace (Z.to_nat (8 + pos + 28)) with (Z.to_nat (8 + pos) + 28)%nat by lia.
  replace (Z.to_nat (8 + pos + 32)) with (Z.to_nat (8 + pos) + 32)%nat by lia. simpl.
  destruct (_ <? _); simpl; by rewrite ?andb_true_r, ?andb_false_r.
Qed.

Lemma parse_resource_block_step b blen i l pos s :
  is_bytes b -> 8 + blen <= zlen b -> blen < 2 ^ 32 ->
  0 <= pos -> pos + R_RESOURCE_BLOCK_WIRE_LEN <= blen -> 0 <= i < zlen l ->
  parse_resource_block b blen i (Some l, pos, s) =
  Ok (Next (Some (<[Z.to_nat i := resource_at b (8 + pos)]> l), pos + R_RESOURCE_BLOCK_WIRE_LEN,
            s && (rs_tokens_deficit (resource_at b (8 + pos)) =? 0))).
Proof.
  intros Hb Hl Hs Hp Hf Hi. unfold parse_resource_block. csts.
  rewrite !(u64_small (pos + 28)) by rlia. rewrite zltb_false by lia.
  rewrite !r_le32_bytes, !r_le16_bytes by done. rewrite !rd_bytes_drop by lia. simpl.
  unfold set_elem. rewrite (proj2 (Z.leb_le _ _)), (zltb_true i) by lia. simpl.
  unfold resource_at. rewrite !drop_drop.
  replace (Z.to_nat (8 + pos + 20)) with (Z.to_nat (8 + pos) + 20)%nat by lia.
  replace (Z.to_nat (8 + pos + 24)) with (Z.to_nat (8 + pos) + 24)%nat by lia. simpl.
  destruct (_ =? _); simpl; by rewrite ?andb_true_r, ?andb_false_r.
Qed.

(** What a response PDU says, independently of the parser. *)
Definition resp_type (b : list Z) : Z := unle (take 2 b).
Definition resp_size (b : list Z) : Z := unle (take 2 (drop 2 b)).
Definition resp_guard_count (b : list Z) : Z := unle (take 2 (drop 8 b)).
Definition resp_resource_count (b : list Z) : Z := unle (take 2 (drop 10 b)).
Definition resp_guards (b : list Z) : list r_guard_result :=
  blocks_at (fun p => guard_at b (8 + p)) R_GUARD_BLOCK_WIRE_LEN
    (Z.to_nat (resp_guard_count b)) 4.
Definition resp_resources (b : list Z) : list r_resource_result :=
  blocks_at (fun p => resource_at b (8 + p)) R_RESOURCE_BLOCK_WIRE_LEN
    (Z.to_nat (resp_resource_count b)) (4 + resp_guard_count b * R_GUARD_BLOCK_WIRE_LEN).
Definition resp_success (b : list Z) : bool :=
  forallb gr_passed (resp_guards b) &&
  forallb (fun r => rs_tokens_deficit r =? 0) (resp_resources b).

Definition resp_valid (b : list Z) (len : Z) : bool :=
  (8 <=? len) && (resp_type b =? R_PDU_RATE_RESPONSE) && (12 <=? resp_size b) &&
  (resp_size b <=? len) &&
  (12 + resp_guard_count b * 36 + resp_resource_count b * 28 <=? resp_size b).

Definition resp_fits_caps (b : list Z) (gcap rcap : Z) : bool :=
  (resp_guard_count b <=? gcap) && (resp_resource_count b <=? rcap).

(** A valid response says the same whatever follows it in memory. *)
Lemma take_drop_app n off (p q : list Z) :
  (off + n <= length p)%nat -> take n (drop off (p ++ q)) = take n (drop off p).
Proof.
  intros H. rewrite drop_app_le by lia. apply take_app_le. rewrite length_drop. lia.
Qed.

Lemma blocks_at_ext {A} (f g : Z -> A) w n off :
  0 <= w -> (forall i, off <= i -> i + w <= off + Z.of_nat n * w -> f i = g i) ->
  blocks_at f w n off = blocks_at g w n off.
Proof.
  intros Hw. revert off; induction n as [|n IH]; intros off H; simpl; [done|].
  f_equal; [apply H; nia|]. apply IH. intros i Hi1 Hi2. apply H; nia.
Qed.

Lemma guard_at_app p q off :
  0 <= off -> off + 36 <= zlen p -> guard_at (p ++ q) off = guard_at p off.
Proof.
  intros H1 H2. unfold guard_at. rewrite !drop_drop, !take_drop_app by lia. done.
Qed.

Lemma resource_at_app p q off :
  0 <= off -> off + 28 <= zlen p -> resource_at (p ++ q) off = resource_at p off.
Proof.
  intros H1 H2. unfold resource_at. rewrite !drop_drop, !take_drop_app by lia. done.
Qed.

Lemma resp_valid_app p q :
  12 <= zlen p -> resp_valid (p ++ q) (zlen p) = resp_valid p (zlen p).
Proof.
  intros Hlen. unfold resp_valid, resp_type, resp_size, resp_guard_count, resp_resource_count.
  rewrite (take_app_le p q) by lia. rewrite !take_drop_app by lia. done.
Qed.

Lemma resp_prefix p q :
  is_bytes p -> resp_valid (p ++ q) (zlen p) = true ->
  resp_valid p (zlen p) = true /\ resp_guards (p ++ q) = resp_guards p /\
  resp_resources (p ++ q) = resp_resources p /\ resp_guard_count (p ++ q) = resp_guard_count p /\
  resp_resource_count (p ++ q) = resp_resource_count p /\ resp_success (p ++ q) = resp_success p.
Proof.
  intros Hb Hv. assert (Hlen : 12 <= zlen p) by (unfold resp_valid in Hv; breflect; lia).
  assert (E0 : resp_type (p ++ q) = resp_type p).
  { unfold resp_type. by rewrite take_app_le by lia. }
  assert (E1 : resp_size (p ++ q) = resp_size p) by (unfold resp_size; by rewrite take_drop_app by lia).
  assert (E2 : resp_guard_count (p ++ q) = resp_guard_count p)
    by (unfold resp_guard_count; by rewrite take_drop_app by lia).
  assert (E3 : resp_resource_count (p ++ q) = resp_resource_count p)
    by (unfold resp_resource_count; by rewrite take_drop_app by lia).
  unfold resp_valid in *. rewrite E0, E1, E2, E3 in Hv. split; [done|]. breflect.
  assert (Hp2 : forall k, is_bytes (take 2 (drop k p))) by (intros k; by apply Forall_take, Forall_drop).
  pose proof (unle_bound _ (Hp2 8%nat)). pose proof (unle_bound _ (Hp2 10%nat)).
  assert (0 <= resp_guard_count p /\ 0 <= resp_resource_count p) as [] by (split; unfold resp_guard_count, resp_resource_count; lia).
  assert (E4 : resp_guards (p ++ q) = resp_guards p).
  { unfold resp_guards. rewrite E2. apply blocks_at_ext; [clia|]. csts. intros i ? ?.
    apply guard_at_app; lia. }
  assert (E5 : resp_resources (p ++ q) = resp_resources p).
  { unfold resp_resources. rewrite E2, E3. apply blocks_at_ext; [clia|]. csts. intros i ? ?.
    apply resource_at_app; lia. }
  unfold resp_success. by rewrite E4, E5.
Qed.

(** A caller's result array of capacity [cap]. *)
Definition array_cap {A} (p : option (list A)) (cap : Z) : Prop :=
  match p with Some l => cap <= zlen l | None => cap <= 0 end.
Definition overlay {A} (p : option (list A)) (new : list A) : option (list A) :=
  (fun l => new ++ drop (length new) l) <$> p.

Lemma block_loop_cap {A} (at_ : Z -> A) good w blen body n p cap pos s :
  0 <= w ->
  (forall i arr pos s, 0 <= pos <= blen -> blen < pos + w ->
     body i (arr, pos, s) = Ok (Return arr)) ->
  (forall i l pos s, 0 <= pos -> pos + w <= blen -> 0 <= i < zlen l ->
     body i (Some l, pos, s) =
     Ok (Next (Some (<[Z.to_nat i := at_ pos]> l), pos + w, s && good (at_ pos)))) ->
  array_cap p cap -> Z.of_nat n <= cap -> 0 <= pos <= blen ->
  (pos + Z.of_nat n * w <= blen ->
   for_flow n 0 body (p, pos, s) =
   Ok (Next (overlay p (blocks_at at_ w n pos), pos + Z.of_nat n * w,
             s && forallb good (blocks_at at_ w n pos)))) /\
  (blen < pos + Z.of_nat n * w ->
   exists p', for_flow n 0 body (p, pos, s) = Ok (Return p')).
Proof.
  intros Hw Hshort Hstep Hp Hn Hpos. destruct p as [l|]; simpl in Hp.
  - split; intros Hf.
    + change 0 with (Z.of_nat 0) at 1.
      rewrite (block_loop_fits at_ good w blen body Hw Hshort Hstep n 0 l pos s) by lia.
      simpl. by rewrite blocks_at_length.
    + destruct (block_loop_short at_ good w blen body Hw Hshort Hstep n 0 l pos s)
        as (l' & E & _); [lia..|]. exists (Some l'). exact E.
  - replace n with 0%nat by lia. simpl. rewrite andb_true_r, Z.add_0_r. split; [done|lia].
Qed.

(** The parser after its header checks. *)
Lemma parse_guard_block_short b blen i arr pos s :
  blen < 2 ^ 32 -> 0 <= pos <= blen -> blen < pos + R_GUARD_BLOCK_WIRE_LEN ->
  parse_guard_block b blen i (arr, pos, s) = Ok (Return arr).
Proof.
  intros Hs Hp Hf. unfold parse_guard_block. csts. rewrite u64_small by rlia.
  by rewrite zltb_true by lia.
Qed.
Lemma parse_resource_block_short b blen i arr pos s :
  blen < 2 ^ 32 -> 0 <= pos <= blen -> blen < pos + R_RESOURCE_BLOCK_WIRE_LEN ->
  parse_resource_block b blen i (arr, pos, s) = Ok (Return arr).
Proof.
  intros Hs Hp Hf. unfold parse_resource_block. csts. rewrite u64_small by rlia.
  by rewrite zltb_true by lia.
Qed.

Lemma unle_take_drop b off n :
  is_bytes b -> 0 <= off -> 0 <= n -> off + n <= zlen b ->
  0 <= unle (take (Z.to_nat n) (drop (Z.to_nat off) b)) < 2 ^ (8 * n).
Proof.
  intros Hb Ho Hn Hl. apply unle_width; [by apply Forall_take, Forall_drop|].
  rewrite length_take, length_drop. lia.
Qed.

Lemma r_le16_at b off :
  is_bytes b -> 0 <= off -> off + 2 <= zlen b ->
  r_le16 b off = Ok (unle (take 2 (drop (Z.to_nat off) b))) /\
  is_u16 (unle (take 2 (drop (Z.to_nat off) b))).
Proof.
  intros Hb Ho Hl. split; [|exact (unle_take_drop b off 2 Hb Ho ltac:(lia) Hl)].
  by rewrite r_le16_bytes, rd_bytes_drop by (done || lia).
Qed.

Ltac untouched := eexists; split; [reflexivity | simpl; repeat split; reflexivity].

(** The response parser never reads outside the PDU, whatever the bytes: it
    accepts exactly the well-formed responses that fit the caller's arrays,
    then returns every guard and resource block and [success] iff all guards
    passed and no deficit is left; on rejection the counts and the flag are
    untouched. *)
Lemma parse_rate_response_spec b pdu_len gcap rcap o :
  is_bytes b -> 0 <= pdu_len <= zlen b ->
  array_cap (ro_guards o) gcap -> array_cap (ro_resources o) rcap ->
  exists o', r_parse_rate_response_pdu (Some b) pdu_len gcap rcap o =
    Ok (if resp_valid b pdu_len && resp_fits_caps b gcap rcap
        then RCLIENT_OK else RCLIENT_ERR_PROTOCOL, o') /\
    if resp_valid b pdu_len && resp_fits_caps b gcap rcap then
      o' = mk_response_out (overlay (ro_guards o) (resp_guards b))
             (store (ro_guard_count o) (resp_guard_count b))
             (overlay (ro_resources o) (resp_resources b))
             (store (ro_res_count o) (resp_resource_count b))
             (store (ro_success o) (resp_success b))
    else ro_guard_count o' = ro_guard_count o /\ ro_res_count o' = ro_res_count o /\
         ro_success o' = ro_success o.
Proof.
  intros Hb Hlen Hgc Hrc. unfold r_parse_rate_response_pdu, resp_valid, resp_fits_caps.
  destruct (Z.ltb_spec pdu_len R_PDU_HEADER_LEN).
  { rewrite (proj2 (Z.leb_gt 8 _)) by clia. simpl. untouched. }
  rewrite (proj2 (Z.leb_le 8 _)) by clia. simpl.
  destruct (r_le16_at b 0) as [-> B0]; [done|clia..|].
  destruct (r_le16_at b 2) as [-> B2]; [done|clia..|]. simpl.
  change (unle (take 2 (drop (Z.to_nat 0) b))) with (resp_type b) in *.
  change (unle (take 2 (drop (Z.to_nat 2) b))) with (resp_size b) in *.
  destruct (resp_type b =? R_PDU_RATE_RESPONSE); simpl; [|untouched].
  destruct (_ || _) eqn:Esz.
  { replace ((12 <=? resp_size b) && (resp_size b <=? pdu_len)) with false; [simpl; untouched|].
    symmetry. apply andb_false_iff. rewrite !Z.leb_gt.
    apply orb_true_iff in Esz as [E%Z.ltb_lt | E%Z.ltb_lt]; clia. }
  breflect. change R_PDU_HEADER_LEN with 8 in *. rewrite u64_small by rlia.
  destruct (Z.ltb_spec (resp_size b - 8) 4).
  { rewrite (proj2 (Z.leb_gt 12 _)) by lia. simpl. untouched. }
  rewrite (proj2 (Z.leb_le 12 _)), (proj2 (Z.leb_le (resp_size b) _)) by lia. simpl.
  destruct (r_le16_at b 8) as [-> B8]; [done|lia..|].
  destruct (r_le16_at b (8 + 2)) as [-> B10]; [done|lia..|]. simpl.
  change (unle (take 2 (drop (Z.to_nat 8) b))) with (resp_guard_count b) in *.
  change (unle (take 2 (drop (Z.to_nat (8 + 2)) b))) with (resp_resource_count b) in *.
  rewrite (Z.leb_antisym gcap), (Z.leb_antisym rcap).
  destruct (Z.ltb_spec gcap (resp_guard_count b)); simpl; [rewrite andb_false_r; untouched|].
  destruct (Z.ltb_spec rcap (resp_resource_count b)); simpl; [rewrite andb_false_r; untouched|].
  rewrite andb_true_r.
  destruct (block_loop_cap (fun p => guard_at b (8 + p)) gr_passed R_GUARD_BLOCK_WIRE_LEN
    (resp_size b - 8) (parse_guard_block b (resp_size b - 8)) (Z.to_nat (resp_guard_count b))
    (ro_guards o) gcap 4 true) as [G1 G2];
    [clia|intros; apply parse_guard_block_short; rlia
     |intros; apply parse_guard_block_step; first [done | rlia]|done|rlia|lia|].
  rewrite Z2Nat.id in G1, G2 by rlia. csts.
  destruct (Z.le_gt_cases (4 + resp_guard_count b * 36) (resp_size b - 8)) as [Hg|Hg].
  2:{ destruct (G2 Hg) as (p' & ->). rewrite (proj2 (Z.leb_gt _ _)) by rlia. simpl. untouched. }
  rewrite (G1 Hg). simpl. clear G1 G2.
  change (blocks_at _ 36 (Z.to_nat (resp_guard_count b)) 4) with (resp_guards b).
  destruct (block_loop_cap (fun p => resource_at b (8 + p))
    (fun r => rs_tokens_deficit r =? 0) R_RESOURCE_BLOCK_WIRE_LEN
    (resp_size b - 8) (parse_resource_block b (resp_size b - 8))
    (Z.to_nat (resp_resource_count b)) (ro_resources o) rcap
    (4 + resp_guard_count b * 36) (forallb gr_passed (resp_guards b))) as [G1 G2];
    [clia|intros; apply parse_resource_block_short; rlia
     |intros; apply parse_resource_block_step; first [done | rlia]|done|rlia|rlia|].
  rewrite Z2Nat.id in G1, G2 by rlia. csts.
  destruct (Z.leb_spec (12 + resp_guard_count b * 36 + resp_resource_count b * 28) (resp_size b)).
  - rewrite G1 by lia. simpl. eexists. split; reflexivity.
  - destruct G2 as (p' & ->); [lia|]. simpl. untouched.
Qed.
