(* ===== verification/Crypto.v ===== *)
(** * Credentials and cryptographic wrappers (src/r_crypto.c)

    Bech32 decoding of API keys with their quota word, the content identifiers
    and the AES-GCM wrappers.  OpenSSL is a parameter ([OpenSSL] below).  The
    outcome of the [n]-th allocation of a call is [mem n]. *)

From Stdlib Require Import String Ascii.
From S2P Require Import Prelude.
From S2P Require Import Types.
From S2P Require Import Wire.

(** String literals as byte blocks, without and with the final NUL. *)
Definition cbytes (s : string) : list Z :=
  map (fun a => Z.of_N (N_of_ascii a)) (list_ascii_of_string s).
Definition cstr (s : string) : list Z := cbytes s ++ [0].
Definition chr (a : ascii) : Z := Z.of_N (N_of_ascii a).

(** Allocation outcomes, by position of the call. *)
Definition allocs : Type := nat -> bool.

Record r_bech32_quotas := mk_quotas {
  bq_format_version : Z;
  bq_rate_buckets_max : Z;
  bq_latency_services_max : Z;
  bq_metrics_labels_max : Z;
  bq_latency_buffer_size_max : Z;
  bq_dedup_ttl_ms_max : Z;
  bq_rate_window_size_ms_max : Z;
}.
Definition quotas_zero : r_bech32_quotas := mk_quotas 0 0 0 0 0 0 0.

(** ** Bech32 *)
Definition k_bech32_gen : list Z := [0x3B6A57B2; 0x26508E6D; 0x1EA119FA; 0x3D4233DD; 0x2A1462B3].

(** The [switch] of [r_bech32_char_value], case by case. *)
Definition bech32_cases : list (Z * Z) :=
  [(chr "q", 0); (chr "p", 1); (chr "z", 2); (chr "r", 3); (chr "y", 4); (chr "9", 5);
   (chr "x", 6); (chr "8", 7); (chr "g", 8); (chr "f", 9); (chr "2", 10); (chr "t", 11);
   (chr "v", 12); (chr "d", 13); (chr "w", 14); (chr "0", 15); (chr "s", 16); (chr "3", 17);
   (chr "j", 18); (chr "n", 19); (chr "5", 20); (chr "4", 21); (chr "k", 22); (chr "h", 23);
   (chr "c", 24); (chr "e", 25); (chr "6", 26); (chr "m", 27); (chr "u", 28); (chr "a", 29);
   (chr "7", 30); (chr "l", 31)].

Fixpoint switch (c : Z) (cases : list (Z * Z)) : option Z :=
  match cases with
  | [] => None
  | (k, v) :: rest => if c =? k then Some v else switch c rest
  end.

Definition r_bech32_char_value (c : Z) (out : option Z) : Z * option Z :=
  match out with
  | None => (-1, out)
  | Some _ => match switch c bech32_cases with
              | Some v => (0, Some v)
              | None => (-1, out)
              end
  end.

Definition r_bech32_polymod (values : list Z) (len : Z) : run Z :=
  for_range (Z.to_nat len) 0 (fun i chk =>
    v ← rd values i;
    let b := Z.shiftr chk 25 in
    let chk := Z.lxor (u32 (Z.shiftl (Z.land chk 0x1FFFFFF) 5)) v in
    for_range 5 0 (fun j chk =>
      if negb (Z.land (Z.shiftr b j) 1 =? 0)
      then g ← elem k_bech32_gen j; Ok (Z.lxor chk g)
      else Ok chk) chk) 1.

(** [mem 0] is the allocation of the value array. *)
Definition r_bech32_verify_checksum (mem : allocs) (hrp : option (list Z)) (data : option (list Z))
    (data_len : Z) : run Z :=
  match hrp, data with
  | Some h, Some d =>
      hrp_len ← strlen h;
      let values_len := ((hrp_len *64 2) +64 1) +64 data_len in
      if negb (mem 0%nat) then Ok 0 else
      let values := replicate (Z.to_nat values_len) 0 in
      st ← for_range (Z.to_nat hrp_len) 0 (fun i '(values, pos) =>
             c ← rd h i; values ← wr values pos [u8 (Z.shiftr c 5)]; Ok (values, pos + 1)) (values, 0);
      let '(values, pos) := st in
      values ← wr values pos [0];
      st ← for_range (Z.to_nat hrp_len) 0 (fun i '(values, pos) =>
             c ← rd h i; values ← wr values pos [u8 (Z.land c 31)]; Ok (values, pos + 1))
             (values, pos + 1);
      let '(values, pos) := st in
      src ← rd_bytes d 0 data_len;
      values ← wr values pos src;
      chk ← r_bech32_polymod values values_len;
      Ok (if chk =? 1 then 1 else 0)
  | _, _ => Ok 0
  end.

(** The [while (bits >= 8)] loop; [fuel] bounds its iterations and [Return]
    is the [-1] exit, with what was written. *)
Fixpoint drain_bits (fuel : nat) (acc bits out_cap : Z) (out : list Z) (pos : Z)
  : run (flow (Z * list Z * Z) (list Z)) :=
  if 8 <=? bits then
    match fuel with
    | O => UB
    | S fuel' =>
        let bits := bits - 8 in
        if out_cap <=? pos then Ok (Return out) else
        out ← wr out pos [u8 (Z.land (Z.shiftr acc bits) 0xFF)];
        drain_bits fuel' acc bits out_cap out (pos + 1)
    end
  else Ok (Next (bits, out, pos)).

(** One iteration of the outer loop; the state is [acc, bits, out, pos]. *)
Definition convert_step (inp : list Z) (out_cap : Z) (i : Z) (st : Z * Z * list Z * Z)
  : run (flow (Z * Z * list Z * Z) (list Z)) :=
  let '(acc, bits, out, pos) := st in
  value ← rd inp i;
  if negb (Z.shiftr value 5 =? 0) then Ok (Return out) else
  let acc := Z.land (Z.lor (u32 (Z.shiftl acc 5)) value) 0x0FFF in
  let bits := bits + 5 in
  f ← drain_bits (Z.to_nat bits) acc bits out_cap out pos;
  match f with
  | Next (bits, out, pos) => Ok (Next (acc, bits, out, pos))
  | Return r => Ok (Return r)
  end.

(** Returns the status, the output block and the output length. *)
Definition r_convert_bits_5_to_8_no_pad (inp : option (list Z)) (in_len : Z) (out : option (list Z))
    (out_cap : Z) (out_len : option Z) : run (Z * option (list Z) * option Z) :=
  match inp, out, out_len with
  | Some d, Some o, Some _ =>
      f ← for_flow (Z.to_nat in_len) 0 (convert_step d out_cap) (0, 0, o, 0);
      match f with
      | Return o => Ok (-1, Some o, out_len)
      | Next (acc, bits, o, pos) =>
          if 5 <=? bits then Ok (-1, Some o, out_len) else
          if negb (Z.land (u32 (Z.shiftl acc (8 - bits))) 0xFF =? 0) then Ok (-1, Some o, out_len) else
          Ok (0, Some o, Some pos)
      end
  | _, _, _ => Ok (-1, out, out_len)
  end.

(** ** Credential payload *)
Definition r_read_le64_local (p : list Z) (off : Z) : run Z := r_le64 p off.
Definition r_read_le32_local (p : list Z) (off : Z) : run Z := r_le32 p off.

Definition R_CREDENTIAL_FORMAT_VERSION : Z := 1.
Definition R_CREDENTIAL_KEY_ID_OFFSET : Z := 1.
Definition R_CREDENTIAL_SECRET_LEN : Z := 32.
Definition R_CREDENTIAL_SECRET_OFFSET : Z := 9.
Definition R_CREDENTIAL_QUOTA_OFFSET : Z := 41.
Definition R_CREDENTIAL_QUOTA_LEN : Z := 4.
Definition R_CREDENTIAL_PAYLOAD_LEN : Z := 45.

Definition r_decode_quota_word (word : Z) (out : option r_bech32_quotas)
  : Z * option r_bech32_quotas :=
  let rate_exp := Z.land word 0x1f in
  let latency_exp := Z.land (Z.shiftr word 5) 0x1f in
  let labels_exp := Z.land (Z.shiftr word 10) 0x1f in
  let buffer_exp := Z.land (Z.shiftr word 15) 0x0f in
  let dedup_units := Z.land (Z.shiftr word 19) 0xff in
  let window_exp := Z.land (Z.shiftr word 27) 0x1f in
  if is_null out || (24 <? rate_exp) || (24 <? latency_exp) || (dedup_units <? 1) ||
     (200 <? dedup_units)
  then (-1, out)
  else (0, Some (mk_quotas R_CREDENTIAL_FORMAT_VERSION
         (u32 (Z.shiftl 1 rate_exp)) (u32 (Z.shiftl 1 latency_exp)) (u32 (Z.shiftl 1 labels_exp))
         (u32 (Z.shiftl 1 buffer_exp)) (dedup_units *32 10)
         (if window_exp =? 31 then UINT32_MAX else u32 (Z.shiftl 1 window_exp)))).

(** ** API keys *)

(** The <ctype.h> classes of the C locale. *)
Definition islower (c : Z) : bool := (97 <=? c) && (c <=? 122).
Definition isupper (c : Z) : bool := (65 <=? c) && (c <=? 90).
Definition tolower (c : Z) : Z := if isupper c then c + 32 else c.

(** The range and case scan: [Return] is the [-1] exit, the state is
    [has_lower, has_upper]. *)
Definition scan_case (enc : list Z) (i : Z) (st : bool * bool) : run (flow (bool * bool) unit) :=
  let '(has_lower, has_upper) := st in
  c ← rd enc i;
  if (c <? 33) || (126 <? c) then Ok (Return tt) else
  Ok (Next (if islower c then true else has_lower, if isupper c then true else has_upper)).

(** [strrchr (s, c)] as an offset; the NUL ends the string. *)
Fixpoint strrchr (s : list Z) (c i : Z) : option Z :=
  match s with
  | [] => None
  | x :: s' => if x =? 0 then None
               else match strrchr s' c (i + 1) with
                    | Some j => Some j
                    | None => if x =? c then Some i else None
                    end
  end.

(** [strcmp (s, lit) == 0] for a literal. *)
Fixpoint str_eq (s lit : list Z) : run bool :=
  match s, lit with
  | x :: s', y :: lit' => if x =? y then if x =? 0 then Ok true else str_eq s' lit' else Ok false
  | _, _ => UB
  end.

(** The out-parameters of the decoder. *)
Record key_out := mk_key_out {
  ko_type : option Z;
  ko_key_id : option Z;
  ko_secret : option (list Z);
  ko_secret_len : option Z;
  ko_quotas : option r_bech32_quotas;
}.

(** Lines 404-452: the payload of a decoded key with prefix [s]. *)
Definition decode_payload (s : list Z) (payload : list Z) (payload_len out_secret_cap : Z)
    (secret : list Z) (o : key_out) : run (Z * key_out) :=
  is_cookie ← str_eq s (cstr "rl-cookie");
  is_aes ← (if (is_cookie : bool) then Ok false else str_eq s (cstr "rl-aes"));
  if negb (is_cookie || is_aes) then Ok (-1, o) else
  let auth_type := if (is_cookie : bool) then R_AUTH_COOKIE else R_AUTH_AES_GCM in
  if negb (payload_len =? R_CREDENTIAL_PAYLOAD_LEN) then Ok (-1, o) else
  version ← rd payload 0;
  if negb (version =? R_CREDENTIAL_FORMAT_VERSION) then Ok (-1, o) else
  key_id ← r_read_le64_local payload R_CREDENTIAL_KEY_ID_OFFSET;
  if out_secret_cap <? R_CREDENTIAL_SECRET_LEN then Ok (-1, o) else
  src ← rd_bytes payload R_CREDENTIAL_SECRET_OFFSET R_CREDENTIAL_SECRET_LEN;
  secret ← wr secret 0 src;
  let o := mk_key_out (store (ko_type o) auth_type) (store (ko_key_id o) key_id) (Some secret)
             (store (ko_secret_len o) R_CREDENTIAL_SECRET_LEN) (ko_quotas o) in
  if payload_len <? R_CREDENTIAL_QUOTA_OFFSET + R_CREDENTIAL_QUOTA_LEN then Ok (-1, o) else
  word ← r_read_le32_local payload R_CREDENTIAL_QUOTA_OFFSET;
  let '(rc, quotas) := r_decode_quota_word word (Some quotas_zero) in
  if negb (rc =? 0) then Ok (-1, o) else
  q ← deref quotas;
  Ok (0, mk_key_out (ko_type o) (ko_key_id o) (ko_secret o) (ko_secret_len o)
           (store (ko_quotas o) q)).

(** The data characters after the separator at [hrp_len] as 5-bit values. *)
Definition decode_chars (s : list Z) (hrp_len : Z) (i : Z) (data : list Z)
  : run (flow (list Z) unit) :=
  c ← rd s (hrp_len + 1 + i);
  let '(rc, v) := r_bech32_char_value c (Some 0) in
  if negb (rc =? 0) then Ok (Return tt) else
  v ← deref v;
  data ← wr data i [v];
  Ok (Next data).

(** [mem 0] is [s], [mem 1] is [data], [mem 2] the checksum buffer and
    [mem 3] the payload. *)
Definition r_decode_api_key_bech32_with_quotas (mem : allocs) (encoded : option (list Z))
    (out_secret_cap : Z) (o : key_out) : run (Z * key_out) :=
  match encoded, ko_type o, ko_key_id o, ko_secret o, ko_secret_len o with
  | Some enc, Some _, Some _, Some secret, Some _ =>
      enc_len ← strlen enc;
      if enc_len =? 0 then Ok (-1, o) else
      scan ← for_flow (Z.to_nat enc_len) 0 (scan_case enc) (false, false);
      match scan with
      | Return _ => Ok (-1, o)
      | Next (has_lower, has_upper) =>
          if has_lower && has_upper then Ok (-1, o) else
          if negb (mem 0%nat) then Ok (-1, o) else
          let s0 := replicate (Z.to_nat (enc_len +64 1)) 0 in
          s ← for_range (Z.to_nat enc_len) 0 (fun i s => c ← rd enc i; wr s i [tolower c]) s0;
          s ← wr s enc_len [0];
          match strrchr s (chr "1") 0 with
          | None => Ok (-1, o)
          | Some hrp_len =>
              if hrp_len <? 1 then Ok (-1, o) else
              let data_chars_len := (enc_len -64 hrp_len) -64 1 in
              if data_chars_len <? 6 then Ok (-1, o) else
              s ← wr s hrp_len [0];
              if negb (mem 1%nat) then Ok (-1, o) else
              let data := replicate (Z.to_nat data_chars_len) 0 in
              chars ← for_flow (Z.to_nat data_chars_len) 0 (decode_chars s hrp_len) data;
              match chars with
              | Return _ => Ok (-1, o)
              | Next data =>
                  ok ← r_bech32_verify_checksum (fun _ => mem 2%nat) (Some s) (Some data) data_chars_len;
                  if ok =? 0 then Ok (-1, o) else
                  let payload5_len := data_chars_len -64 6 in
                  let payload_cap := (payload5_len *64 5) / 8 +64 2 in
                  if negb (mem 3%nat) then Ok (-1, o) else
                  let payload := replicate (Z.to_nat payload_cap) 0 in
                  r ← r_convert_bits_5_to_8_no_pad (Some data) payload5_len (Some payload)
                        payload_cap (Some 0);
                  let '(rc, payload, payload_len) := r in
                  if negb (rc =? 0) then Ok (-1, o) else
                  payload ← deref payload; payload_len ← deref payload_len;
                  decode_payload s payload payload_len out_secret_cap secret o
              end
          end
      end
  | _, _, _, _, _ => Ok (-1, o)
  end.

Definition r_decode_api_key_bech32 (mem : allocs) (encoded : option (list Z)) (out_secret_cap : Z)
    (o : key_out) : run (Z * key_out) :=
  r_decode_api_key_bech32_with_quotas mem encoded out_secret_cap
    (mk_key_out (ko_type o) (ko_key_id o) (ko_secret o) (ko_secret_len o) None).

(** ** OpenSSL

    A digest context run: init, the updates in order, final; [None] when any
    call of the run fails.  AES-256-GCM seal and open likewise, with the
    additional data as the chunks of the calls that feed it. *)
Class OpenSSL : Type := {
  EVP_blake2s256 : list (list Z) -> option (list Z);
  EVP_aes_256_gcm_seal : forall (key nonce : list Z) (aad : list (list Z)) (plain : list Z),
    option (list Z * list Z);
  EVP_aes_256_gcm_open : forall (key nonce : list Z) (aad : list (list Z)) (cipher tag : list Z),
    option (list Z);
}.

(** Documented behaviour of AES-GCM: streaming additional data concatenates,
    the ciphertext is as long as the plaintext, the tag has 16 bytes, and
    opening what was sealed under the same key, nonce and data returns the
    plaintext. *)
Class AesGcmLaws (O : OpenSSL) : Prop := {
  gcm_open_aad : forall key nonce a a' c t, concat a = concat a' ->
    EVP_aes_256_gcm_open key nonce a c t = EVP_aes_256_gcm_open key nonce a' c t;
  gcm_seal_lengths : forall key nonce a p c t,
    EVP_aes_256_gcm_seal key nonce a p = Some (c, t) ->
    length c = length p /\ length t = 16%nat /\ (is_bytes p -> is_bytes c) /\ is_bytes t;
  gcm_open_lengths : forall key nonce a c t p,
    EVP_aes_256_gcm_open key nonce a c t = Some p ->
    length p = length c /\ (is_bytes c -> is_bytes p);
  gcm_open_seal : forall key nonce a p c t,
    EVP_aes_256_gcm_seal key nonce a p = Some (c, t) ->
    EVP_aes_256_gcm_open key nonce a c t = Some p;
}.

Section WithOpenSSL.
Context {ssl : OpenSSL}.

(** The four bytes the source spells out for a 32-bit field. *)
Definition le32_chunk (v : Z) : list Z :=
  [byte_at v 0; byte_at v 8; byte_at v 16; byte_at v 24].

Definition r_hash_content_id_blake2s_128 (domain : option (list Z)) (domain_len : Z)
    (name : option (list Z)) (name_len : Z) (fields : option (list Z)) (field_count : Z)
    (out_id : option (list Z)) : run (Z * option (list Z)) :=
  match domain, out_id with
  | Some dom, Some out =>
      if (domain_len =? 0) || (is_null name && (0 <? name_len)) || (UINT32_MAX <? name_len) ||
         (is_null fields && (0 <? field_count))
      then Ok (-1, out_id) else
      d ← rd_bytes dom 0 domain_len;
      let wire_name_len := u32 name_len in
      nm ← (if 0 <? name_len then n ← deref name; b ← rd_bytes n 0 name_len; Ok [b] else Ok []);
      fs ← for_range (Z.to_nat field_count) 0 (fun i acc =>
             f ← deref fields; field ← elem f i; Ok (acc ++ [le32_chunk field])) [];
      match EVP_blake2s256 ([d; le32_chunk wire_name_len] ++ nm ++ fs) with
      | None => Ok (-1, out_id)
      | Some digest =>
          if zlen digest <? 16 then Ok (-1, out_id) else
          src ← rd_bytes digest 0 16;
          out ← wr out 0 src;
          Ok (0, Some out)
      end
  | _, _ => Ok (-1, out_id)
  end.

(** The out-parameters of the encryption wrapper. *)
Record enc_out := mk_enc_out {
  eo_cipher : option (list Z);
  eo_cipher_len : option Z;
  eo_nonce : option (list Z);
  eo_tag : option (list Z);
}.

(** [rand] is what [RAND_bytes (nonce, 12)] delivers, [None] on failure, and
    [ctx_ok] whether the cipher context is allocated.  The source casts the
    lengths to [int]; every caller passes at most [R_MAX_PACKET_SIZE]. *)
Definition r_encrypt_pdu_aes_gcm (rand : option (list Z)) (ctx_ok : bool) (pdu : option (list Z))
    (pdu_len : Z) (key : option (list Z)) (aad_prefix : option (list Z)) (aad_prefix_len : Z)
    (cipher_cap : Z) (o : enc_out) : run (Z * enc_out) :=
  match pdu, key, eo_cipher o, eo_cipher_len o, eo_nonce o, eo_tag o with
  | Some p, Some k, Some cipher, Some _, Some nonce, Some tag =>
      if is_null aad_prefix && (0 <? aad_prefix_len) then Ok (-1, o) else
      if cipher_cap <? pdu_len then Ok (-1, o) else
      match rand with
      | None => Ok (-1, o)
      | Some r =>
          nonce ← wr nonce 0 r;
          let o := mk_enc_out (Some cipher) (eo_cipher_len o) (Some nonce) (Some tag) in
          if negb ctx_ok then Ok (-1, o) else
          kb ← rd_bytes k 0 32;
          nb ← rd_bytes nonce 0 12;
          aad ← (if 0 <? aad_prefix_len
                 then a ← deref aad_prefix; b ← rd_bytes a 0 aad_prefix_len; Ok [b]
                 else Ok []);
          pt ← rd_bytes p 0 pdu_len;
          match EVP_aes_256_gcm_seal kb nb (aad ++ [nb]) pt with
          | None => Ok (-1, o)
          | Some (c, t) =>
              cipher ← wr cipher 0 c;
              tag ← wr tag 0 t;
              Ok (0, mk_enc_out (Some cipher) (Some (zlen c)) (Some nonce) (Some tag))
          end
      end
  | _, _, _, _, _, _ => Ok (-1, o)
  end.

(** Pointers into a packet are the block and an offset. *)
Definition r_decrypt_pdu_aes_gcm (ctx_ok : bool) (cipher : option (list Z)) (cipher_off cipher_len : Z)
    (key : option (list Z)) (nonce : option (list Z)) (nonce_off : Z) (tag : option (list Z))
    (tag_off : Z) (aad : option (list Z)) (aad_len : Z) (out : option (list Z)) (out_cap : Z)
    (out_len : option Z) : run (Z * option (list Z) * option Z) :=
  match cipher, key, nonce, tag, out, out_len with
  | Some c, Some k, Some n, Some t, Some o, Some _ =>
      if is_null aad && (0 <? aad_len) then Ok (-1, out, out_len) else
      if out_cap <? cipher_len then Ok (-1, out, out_len) else
      if negb ctx_ok then Ok (-1, out, out_len) else
      kb ← rd_bytes k 0 32;
      nb ← rd_bytes n nonce_off 12;
      ad ← (if 0 <? aad_len then a ← deref aad; b ← rd_bytes a 0 aad_len; Ok [b] else Ok []);
      ct ← rd_bytes c cipher_off cipher_len;
      tb ← rd_bytes t tag_off 16;
      match EVP_aes_256_gcm_open kb nb ad ct tb with
      | None => Ok (-1, out, out_len)
      | Some pt =>
          o ← wr o 0 pt;
          Ok (0, Some o, Some (zlen pt))
      end
  | _, _, _, _, _, _ => Ok (-1, out, out_len)
  end.

End WithOpenSSL.

#[global] Arguments r_bech32_polymod : simpl never.
#[global] Arguments r_bech32_verify_checksum : simpl never.
#[global] Arguments r_convert_bits_5_to_8_no_pad : simpl never.
#[global] Arguments r_decode_api_key_bech32_with_quotas : simpl never.
#[global] Arguments r_hash_content_id_blake2s_128 : simpl never.
#[global] Arguments r_encrypt_pdu_aes_gcm : simpl never.
#[global] Arguments r_decrypt_pdu_aes_gcm : simpl never.
