(* ===== verification/Workflow.v ===== *)
(** * Admission outcomes

    The data of include/r_client_workflow.h and the pure half of
    src/r_client_workflow.c: the default configuration, its validation and the
    classification of a callback's result into an application decision.  The
    storage operations, which call the client, are in WorkflowOps.v. *)

From Stdlib Require Import String Ascii.
From S2P Require Import Prelude.
From S2P Require Import Types.
From S2P Require Import Crypto.

Inductive r_admission_decision : Type :=
| R_ADMISSION_ALLOWED
| R_ADMISSION_RATE_LIMITED
| R_ADMISSION_LATENCY_LIMITED
| R_ADMISSION_RATE_AND_LATENCY_LIMITED
| R_ADMISSION_ERROR.

#[export] Instance r_admission_decision_eq : EqDecision r_admission_decision.
Proof. solve_decision. Defined.

(** Strings are blocks with their NUL, [None] is NULL. *)
Record r_admission_config := mk_admission_config {
  ac_bucket_name : option (list Z);
  ac_window_size_ms : Z;
  ac_rate_limit : Z;
  ac_tokens_requested : Z;
  ac_latency_tracker_name : option (list Z);
  ac_latency_threshold_ms : Z;
  ac_latency_ttl_ms : Z;
  ac_latency_max_samples : Z;
  ac_latency_min_sample_threshold : Z;
  ac_metrics_label : option (list Z);
}.

Record r_admission_outcome := mk_outcome {
  oc_decision : r_admission_decision;
  oc_allowed : bool;
  oc_rate_limited : bool;
  oc_latency_limited : bool;
  oc_tokens_deficit : Z;
  oc_current_latency_ms : Z;
  oc_latency_threshold_ms : Z;
}.

(** [{.decision = R_ADMISSION_ERROR}]. *)
Definition outcome_error : r_admission_outcome :=
  mk_outcome R_ADMISSION_ERROR false false false 0 0 0.
(** All bytes zero: [R_ADMISSION_ALLOWED] is enumerator 0. *)
Definition outcome_zero : r_admission_outcome :=
  mk_outcome R_ADMISSION_ALLOWED false false false 0 0 0.

(** Caller-owned storage of one admission check: [handle] is the client's
    request, [callback] and [user] the application's function pointer (zero is
    NULL) and its argument. *)
Record r_admission_request := mk_admission {
  ad_handle : option nat;
  ad_resource : r_resource_request;
  ad_guard : r_latency_guard;
  ad_metrics_label : option (list Z);
  ad_callback : Z;
  ad_user : Z;
  ad_outcome : r_admission_outcome;
  ad_active : bool;
  ad_admitted : bool;
  ad_work_executed : bool;
  ad_latency_reported : bool;
}.

Definition ad_eta (r : r_admission_request) : r_admission_request :=
  mk_admission (ad_handle r) (ad_resource r) (ad_guard r) (ad_metrics_label r) (ad_callback r)
    (ad_user r) (ad_outcome r) (ad_active r) (ad_admitted r) (ad_work_executed r)
    (ad_latency_reported r).
Definition set_ad_handle : option nat -> r_admission_request -> r_admission_request := ltac:(setter ad_eta ad_handle).
Definition set_ad_resource : r_resource_request -> r_admission_request -> r_admission_request := ltac:(setter ad_eta ad_resource).
Definition set_ad_guard : r_latency_guard -> r_admission_request -> r_admission_request := ltac:(setter ad_eta ad_guard).
Definition set_ad_metrics_label : option (list Z) -> r_admission_request -> r_admission_request := ltac:(setter ad_eta ad_metrics_label).
Definition set_ad_callback : Z -> r_admission_request -> r_admission_request := ltac:(setter ad_eta ad_callback).
Definition set_ad_user : Z -> r_admission_request -> r_admission_request := ltac:(setter ad_eta ad_user).
Definition set_ad_outcome : r_admission_outcome -> r_admission_request -> r_admission_request := ltac:(setter ad_eta ad_outcome).
Definition set_ad_active : bool -> r_admission_request -> r_admission_request := ltac:(setter ad_eta ad_active).
Definition set_ad_admitted : bool -> r_admission_request -> r_admission_request := ltac:(setter ad_eta ad_admitted).
Definition set_ad_work_executed : bool -> r_admission_request -> r_admission_request := ltac:(setter ad_eta ad_work_executed).
Definition set_ad_latency_reported : bool -> r_admission_request -> r_admission_request := ltac:(setter ad_eta ad_latency_reported).

(** [memset (request, 0, sizeof ( *request))]. *)
Definition admission_zero : r_admission_request :=
  mk_admission None (mk_resource_request (replicate 16 0) 0 0 0)
    (mk_latency_guard (replicate 16 0) 0 0 0 0) None 0 0 outcome_zero false false false false.

(** The function pointer [r_admission_complete], a static function of the
    library: no application callback has this address. *)
Definition r_admission_complete_ptr : Z := 4096.

Definition R_DEFAULT_METRICS_LABEL : list Z := cstr "rl-c-client-example".

Definition r_client_admission_config_defaults (out_config : option r_admission_config)
    : option r_admission_config :=
  match out_config with
  | None => None
  | Some _ => Some (mk_admission_config None 1000 100 1 None 100 10000 100 5
                      (Some R_DEFAULT_METRICS_LABEL))
  end.

(** [name && name[0] != '\0']. *)
Definition nonempty (name : option (list Z)) : run bool :=
  match name with
  | None => Ok false
  | Some s => c ← rd s 0; Ok (negb (c =? 0))
  end.

Definition r_admission_config_valid (config : option r_admission_config) : run bool :=
  match config with
  | None => Ok false
  | Some c =>
      bucket ← nonempty (ac_bucket_name c);
      if negb bucket then Ok false else
      tracker ← nonempty (ac_latency_tracker_name c);
      if negb tracker then Ok false else
      Ok ((0 <? ac_window_size_ms c) && (0 <? ac_rate_limit c) && (0 <? ac_tokens_requested c) &&
          (0 <? ac_latency_threshold_ms c) && (0 <? ac_latency_ttl_ms c) &&
          (0 <? ac_latency_max_samples c) && (0 <? ac_latency_min_sample_threshold c))
  end.

(** ** Classification *)

(** The first resource with a deficit, and the first guard that failed; [n] is
    the number of elements still to visit. *)
Fixpoint first_deficit (n : nat) (i : Z) (resources : option (list r_resource_result)) : run (option Z) :=
  match n with
  | O => Ok None
  | S n' =>
      arr ← deref resources; x ← elem arr i;
      if 0 <? rs_tokens_deficit x then Ok (Some (rs_tokens_deficit x))
      else first_deficit n' (i + 1) resources
  end.
Fixpoint first_failed (n : nat) (i : Z) (guards : option (list r_guard_result)) : run (option r_guard_result) :=
  match n with
  | O => Ok None
  | S n' =>
      arr ← deref guards; x ← elem arr i;
      if negb (gr_passed x) then Ok (Some x) else first_failed n' (i + 1) guards
  end.

Definition r_client_admission_classify (status : Z) (result : option r_rate_limit_result)
    : run r_admission_outcome :=
  match result with
  | None => Ok outcome_error
  | Some result =>
      if negb (status =? RCLIENT_OK) then Ok outcome_error else
      if ((0 <? rl_resource_count result) && is_null (rl_resources result)) ||
         ((0 <? rl_guard_count result) && is_null (rl_guards result)) then Ok outcome_error else
      if rl_success result then
        if 0 <? rl_guard_count result then
          arr ← deref (rl_guards result); g ← elem arr 0;
          Ok (mk_outcome R_ADMISSION_ALLOWED true false false 0 (gr_current_latency_ms g)
                (gr_threshold_ms g))
        else Ok (mk_outcome R_ADMISSION_ALLOWED true false false 0 0 0)
      else
      deficit ← first_deficit (Z.to_nat (rl_resource_count result)) 0 (rl_resources result);
      failed ← first_failed (Z.to_nat (rl_guard_count result)) 0 (rl_guards result);
      let latency_limited := bool_decide (is_Some failed) in
      let rate_limited := bool_decide (is_Some deficit) || negb latency_limited in
      Ok (mk_outcome
            (if rate_limited && latency_limited then R_ADMISSION_RATE_AND_LATENCY_LIMITED
             else if latency_limited then R_ADMISSION_LATENCY_LIMITED
             else R_ADMISSION_RATE_LIMITED)
            false rate_limited latency_limited (default 0 deficit)
            (from_option gr_current_latency_ms 0 failed) (from_option gr_threshold_ms 0 failed))
  end.

(** ** What the classification means *)

(** What the client promises a completion callback of its result: arrays of the
    stated lengths. *)
Definition result_ok (res : option r_rate_limit_result) : Prop :=
  match res with
  | None => True
  | Some r => array_count (rl_guards r) (rl_guard_count r) /\
              array_count (rl_resources r) (rl_resource_count r)
  end.

Definition deficits (rs : list r_resource_result) : list Z :=
  filter (fun d => 0 < d) (map rs_tokens_deficit rs).
Definition failures (gs : list r_guard_result) : list r_guard_result :=
  filter (fun g => gr_passed g = false) gs.

(** The decision as a function of the verdict and what was exceeded. *)
Definition classified (success : bool) (gs : list r_guard_result) (rs : list r_resource_result)
    : r_admission_outcome :=
  if success then
    mk_outcome R_ADMISSION_ALLOWED true false false 0
      (from_option gr_current_latency_ms 0 (head gs)) (from_option gr_threshold_ms 0 (head gs))
  else
    let dec := match deficits rs, failures gs with
               | _ :: _, _ :: _ => R_ADMISSION_RATE_AND_LATENCY_LIMITED
               | [], _ :: _ => R_ADMISSION_LATENCY_LIMITED
               | _, [] => R_ADMISSION_RATE_LIMITED
               end in
    mk_outcome dec false (bool_decide (dec <> R_ADMISSION_LATENCY_LIMITED))
      (bool_decide (failures gs <> [])) (default 0 (head (deficits rs)))
      (from_option gr_current_latency_ms 0 (head (failures gs)))
      (from_option gr_threshold_ms 0 (head (failures gs))).

Lemma first_deficit_spec pre rs :
  first_deficit (length rs) (zlen pre) (Some (pre ++ rs)) = Ok (head (deficits rs)).
Proof.
  revert pre; induction rs as [|x rs IH]; intros pre; [done|]. cbn [first_deficit length].
  simpl. unfold elem. rewrite (proj2 (Z.leb_le 0 _)) by lia. rewrite Nat2Z.id, list_lookup_middle by done.
  simpl. unfold deficits. cbn [map]. rewrite filter_cons. destruct (Z.ltb_spec 0 (rs_tokens_deficit x)).
  - by rewrite decide_True.
  - rewrite decide_False by lia. specialize (IH (pre ++ [x])).
    rewrite <- app_assoc, length_app in IH. simpl in IH.
    by replace (zlen pre + 1) with (Z.of_nat (length pre + 1)) by lia.
Qed.

Lemma first_failed_spec pre gs :
  first_failed (length gs) (zlen pre) (Some (pre ++ gs)) = Ok (head (failures gs)).
Proof.
  revert pre; induction gs as [|x gs IH]; intros pre; [done|]. cbn [first_failed length].
  simpl. unfold elem. rewrite (proj2 (Z.leb_le 0 _)) by lia. rewrite Nat2Z.id, list_lookup_middle by done.
  simpl. unfold failures. rewrite filter_cons. destruct (gr_passed x) eqn:E; cbn [negb].
  - rewrite decide_False by done. specialize (IH (pre ++ [x])).
    rewrite <- app_assoc, length_app in IH. simpl in IH.
    by replace (zlen pre + 1) with (Z.of_nat (length pre + 1)) by lia.
  - by rewrite decide_True.
Qed.

Lemma array_count_inv {A} (p : option (list A)) n :
  array_count p n ->
  n = zlen (default [] p) /\ (0 <? n) && is_null p = false /\ (p = None -> n = 0).
Proof. intros (l & [->|[-> ->]] & ->); simpl; [by rewrite andb_false_r|done]. Qed.

Lemma scan_deficits p n :
  array_count p n -> first_deficit (Z.to_nat n) 0 p = Ok (head (deficits (default [] p))).
Proof.
  intros (l & [->|[-> ->]] & ->); [|done]. rewrite Nat2Z.id. apply (first_deficit_spec []).
Qed.

Lemma scan_failures p n :
  array_count p n -> first_failed (Z.to_nat n) 0 p = Ok (head (failures (default [] p))).
Proof.
  intros (l & [->|[-> ->]] & ->); [|done]. rewrite Nat2Z.id. apply (first_failed_spec []).
Qed.

(** On a well-formed result the classification is defined and is [classified]. *)
Lemma classify_spec status res :
  result_ok res ->
  r_client_admission_classify status res =
  Ok (match res with
      | Some r => if status =? RCLIENT_OK
                  then classified (rl_success r) (default [] (rl_guards r)) (default [] (rl_resources r))
                  else outcome_error
      | None => outcome_error
      end).
Proof.
  destruct res as [r|]; [|done]. intros [Hg Hr].
  unfold r_client_admission_classify. destruct (status =? RCLIENT_OK); [|done]. cbn [negb].
  destruct (array_count_inv _ _ Hg) as (En & Eg & _), (array_count_inv _ _ Hr) as (_ & Er & _).
  rewrite Eg, Er. cbn [orb]. destruct (rl_success r).
  - rewrite En. destruct (rl_guards r) as [[|g gs]|]; done.
  - rewrite (scan_deficits _ _ Hr), (scan_failures _ _ Hg). cbn [mbind run_bind].
    unfold classified.
    by destruct (deficits _) as [|d ds], (failures _) as [|f fs].
Qed.

Lemma classified_allowed success gs rs :
  oc_allowed (classified success gs rs) = success /\
  (oc_decision (classified success gs rs) = R_ADMISSION_ALLOWED <-> success = true).
Proof.
  unfold classified. destruct success; [done|]. simpl.
  destruct (deficits rs), (failures gs); simpl; split; done.
Qed.
