(* ===== verification/State.v ===== *)
(** * Client state and the host interface

    The structures of src/r_client.c (lines 18-162) and the machine they live
    in: a client, a heap of requests and DNS refresh objects reached by
    pointers, the caller's admission storage, the host program behind [r_io_ops_t] and [r_resolver_ops_t], and
    the trace of what the client did to it.  A dereference of a pointer that is
    not in the heap (NULL, or freed) is [UB].

    Conventions.  A block owned by exactly one structure is a field of it, and
    [free] of the structure frees it.  A linked list is the list of its
    pointers: [next] fields are the order.  Array counts that always equal the
    array's length are that length; separate capacities are kept. *)

From S2P Require Import Prelude.
From S2P Require Import Types.
From S2P Require Import Crypto.
From S2P Require Import Workflow.

Abbreviation ptr := nat (only parsing).

(** ** Structures *)
Record r_server_endpoint := mk_endpoint {
  se_addr : r_addr;
  se_server_id : Z;
  se_has_server_id : bool;
}.

Record r_candidate := mk_candidate {
  cd_has : bool;
  cd_result : r_rate_limit_result;
  cd_guards : option (list r_guard_result);
  cd_resources : option (list r_resource_result);
}.

Definition candidate_zero : r_candidate := mk_candidate false result_zero None None.

Inductive r_request_phase : Type :=
| R_REQUEST_PHASE_ROUND
| R_REQUEST_PHASE_FINAL.

(** [struct r_client_req]; the callback and its user pointer are opaque values
    handed back to the host. *)
Record r_client_req := mk_req {
  rq_request_id : list Z;
  rq_cb : Z;
  rq_user : Z;
  rq_resources : option (list r_resource_request);
  rq_resource_count : Z;
  rq_guards : option (list r_latency_guard);
  rq_guard_count : Z;
  rq_metrics_label : option (list Z);
  rq_metrics_label_len : Z;
  rq_owns_resources : bool;
  rq_owns_guards : bool;
  rq_owns_metrics_label : bool;
  rq_targets : list r_server_endpoint;
  rq_allowed_ids : list Z;
  rq_start_ms : Z;
  rq_attempt_deadline_ms : Z;
  rq_dedup_deadline_ms : Z;
  rq_dedup_ttl_ms : Z;
  rq_phase : r_request_phase;
  rq_ha_round : Z;
  rq_ha_round_start_ms : Z;
  rq_ha_preference_deadline_ms : Z;
  rq_ha_round_deadline_ms : Z;
  rq_seen_addrs : list r_addr;
  rq_seen_addr_cap : Z;
  rq_seen_server_ids : list Z;
  rq_seen_server_id_cap : Z;
  rq_steering_rebind : bool;
  rq_packet : list Z;
  rq_packet_len : Z;
  rq_best : r_candidate;
}.

Definition rq_eta (r : r_client_req) : r_client_req :=
  mk_req (rq_request_id r) (rq_cb r) (rq_user r) (rq_resources r) (rq_resource_count r)
    (rq_guards r) (rq_guard_count r) (rq_metrics_label r) (rq_metrics_label_len r)
    (rq_owns_resources r) (rq_owns_guards r) (rq_owns_metrics_label r) (rq_targets r)
    (rq_allowed_ids r) (rq_start_ms r) (rq_attempt_deadline_ms r) (rq_dedup_deadline_ms r)
    (rq_dedup_ttl_ms r) (rq_phase r) (rq_ha_round r) (rq_ha_round_start_ms r)
    (rq_ha_preference_deadline_ms r) (rq_ha_round_deadline_ms r) (rq_seen_addrs r)
    (rq_seen_addr_cap r) (rq_seen_server_ids r) (rq_seen_server_id_cap r) (rq_steering_rebind r)
    (rq_packet r) (rq_packet_len r) (rq_best r).

Definition set_rq_request_id : list Z -> r_client_req -> r_client_req := ltac:(setter rq_eta rq_request_id).
Definition set_rq_cb : Z -> r_client_req -> r_client_req := ltac:(setter rq_eta rq_cb).
Definition set_rq_user : Z -> r_client_req -> r_client_req := ltac:(setter rq_eta rq_user).
Definition set_rq_resources : option (list r_resource_request) -> r_client_req -> r_client_req := ltac:(setter rq_eta rq_resources).
Definition set_rq_resource_count : Z -> r_client_req -> r_client_req := ltac:(setter rq_eta rq_resource_count).
Definition set_rq_guards : option (list r_latency_guard) -> r_client_req -> r_client_req := ltac:(setter rq_eta rq_guards).
Definition set_rq_guard_count : Z -> r_client_req -> r_client_req := ltac:(setter rq_eta rq_guard_count).
Definition set_rq_metrics_label : option (list Z) -> r_client_req -> r_client_req := ltac:(setter rq_eta rq_metrics_label).
Definition set_rq_metrics_label_len : Z -> r_client_req -> r_client_req := ltac:(setter rq_eta rq_metrics_label_len).
Definition set_rq_owns_resources : bool -> r_client_req -> r_client_req := ltac:(setter rq_eta rq_owns_resources).
Definition set_rq_owns_guards : bool -> r_client_req -> r_client_req := ltac:(setter rq_eta rq_owns_guards).
Definition set_rq_owns_metrics_label : bool -> r_client_req -> r_client_req := ltac:(setter rq_eta rq_owns_metrics_label).
Definition set_rq_targets : list r_server_endpoint -> r_client_req -> r_client_req := ltac:(setter rq_eta rq_targets).
Definition set_rq_allowed_ids : list Z -> r_client_req -> r_client_req := ltac:(setter rq_eta rq_allowed_ids).
Definition set_rq_start_ms : Z -> r_client_req -> r_client_req := ltac:(setter rq_eta rq_start_ms).
Definition set_rq_attempt_deadline_ms : Z -> r_client_req -> r_client_req := ltac:(setter rq_eta rq_attempt_deadline_ms).
Definition set_rq_dedup_deadline_ms : Z -> r_client_req -> r_client_req := ltac:(setter rq_eta rq_dedup_deadline_ms).
Definition set_rq_dedup_ttl_ms : Z -> r_client_req -> r_client_req := ltac:(setter rq_eta rq_dedup_ttl_ms).
Definition set_rq_phase : r_request_phase -> r_client_req -> r_client_req := ltac:(setter rq_eta rq_phase).
Definition set_rq_ha_round : Z -> r_client_req -> r_client_req := ltac:(setter rq_eta rq_ha_round).
Definition set_rq_ha_round_start_ms : Z -> r_client_req -> r_client_req := ltac:(setter rq_eta rq_ha_round_start_ms).
Definition set_rq_ha_preference_deadline_ms : Z -> r_client_req -> r_client_req := ltac:(setter rq_eta rq_ha_preference_deadline_ms).
Definition set_rq_ha_round_deadline_ms : Z -> r_client_req -> r_client_req := ltac:(setter rq_eta rq_ha_round_deadline_ms).
Definition set_rq_seen_addrs : list r_addr -> r_client_req -> r_client_req := ltac:(setter rq_eta rq_seen_addrs).
Definition set_rq_seen_addr_cap : Z -> r_client_req -> r_client_req := ltac:(setter rq_eta rq_seen_addr_cap).
Definition set_rq_seen_server_ids : list Z -> r_client_req -> r_client_req := ltac:(setter rq_eta rq_seen_server_ids).
Definition set_rq_seen_server_id_cap : Z -> r_client_req -> r_client_req := ltac:(setter rq_eta rq_seen_server_id_cap).
Definition set_rq_steering_rebind : bool -> r_client_req -> r_client_req := ltac:(setter rq_eta rq_steering_rebind).
Definition set_rq_packet : list Z -> r_client_req -> r_client_req := ltac:(setter rq_eta rq_packet).
Definition set_rq_packet_len : Z -> r_client_req -> r_client_req := ltac:(setter rq_eta rq_packet_len).
Definition set_rq_best : r_candidate -> r_client_req -> r_client_req := ltac:(setter rq_eta rq_best).

(** [calloc (1, sizeof (r_client_req_t))]. *)
Definition req_zero : r_client_req :=
  mk_req (replicate 16 0) 0 0 None 0 None 0 None 0 false false false [] [] 0 0 0 0
    R_REQUEST_PHASE_ROUND 0 0 0 0 [] 0 [] 0 false
    (replicate (Z.to_nat R_MAX_PACKET_SIZE) 0) 0 candidate_zero.

(** The members of [struct r_client] that [r_client_create] fixes: the tenant
    configuration, the policy, which optional hooks are non-null, the DNS name,
    the credential and its quotas. *)
Record client_fixed := mk_fixed {
  cf_key_id : Z;
  cf_auth_type : Z;
  cf_request_profile_cb : bool;
  cf_dns_policy : r_dns_refresh_policy;
  cf_policy : r_request_policy;
  cf_io_udp_send : bool;
  cf_io_now_ms : bool;
  cf_io_on_steering_feedback : bool;
  cf_resolver_cancel : bool;
  cf_dns_name : option (list Z);
  cf_auth_secret : option (list Z);
  cf_auth_secret_len : Z;
  cf_has_quotas : bool;
  cf_quotas : r_bech32_quotas;
  cf_cookie : list Z;
  cf_has_cookie : bool;
  cf_aes_key : list Z;
  cf_has_aes_key : bool;
}.

Definition cf_eta (r : client_fixed) : client_fixed :=
  mk_fixed (cf_key_id r) (cf_auth_type r) (cf_request_profile_cb r) (cf_dns_policy r)
    (cf_policy r) (cf_io_udp_send r) (cf_io_now_ms r) (cf_io_on_steering_feedback r)
    (cf_resolver_cancel r) (cf_dns_name r) (cf_auth_secret r) (cf_auth_secret_len r)
    (cf_has_quotas r) (cf_quotas r) (cf_cookie r) (cf_has_cookie r) (cf_aes_key r)
    (cf_has_aes_key r).

Definition set_cf_key_id : Z -> client_fixed -> client_fixed := ltac:(setter cf_eta cf_key_id).
Definition set_cf_auth_type : Z -> client_fixed -> client_fixed := ltac:(setter cf_eta cf_auth_type).
Definition set_cf_policy : r_request_policy -> client_fixed -> client_fixed := ltac:(setter cf_eta cf_policy).
Definition set_cf_dns_name : option (list Z) -> client_fixed -> client_fixed := ltac:(setter cf_eta cf_dns_name).
Definition set_cf_auth_secret : option (list Z) -> client_fixed -> client_fixed := ltac:(setter cf_eta cf_auth_secret).
Definition set_cf_auth_secret_len : Z -> client_fixed -> client_fixed := ltac:(setter cf_eta cf_auth_secret_len).
Definition set_cf_has_quotas : bool -> client_fixed -> client_fixed := ltac:(setter cf_eta cf_has_quotas).
Definition set_cf_quotas : r_bech32_quotas -> client_fixed -> client_fixed := ltac:(setter cf_eta cf_quotas).
Definition set_cf_cookie : list Z -> client_fixed -> client_fixed := ltac:(setter cf_eta cf_cookie).
Definition set_cf_has_cookie : bool -> client_fixed -> client_fixed := ltac:(setter cf_eta cf_has_cookie).
Definition set_cf_aes_key : list Z -> client_fixed -> client_fixed := ltac:(setter cf_eta cf_aes_key).
Definition set_cf_has_aes_key : bool -> client_fixed -> client_fixed := ltac:(setter cf_eta cf_has_aes_key).

(** [struct r_client]. *)
Record r_client := mk_client {
  cl_fixed : client_fixed;
  cl_servers : list r_server_endpoint;
  cl_send_failure_count : Z;
  cl_server_cap : Z;
  cl_last_dns_refresh_ms : Z;
  cl_dns_refresh_ttl_ms : Z;
  cl_dns_refresh_inflight : bool;
  cl_inflight : list ptr;
  cl_steering_rebind_pending : bool;
  cl_dns_refresh : option ptr;
}.

Definition cl_eta (r : r_client) : r_client :=
  mk_client (cl_fixed r) (cl_servers r) (cl_send_failure_count r) (cl_server_cap r)
    (cl_last_dns_refresh_ms r) (cl_dns_refresh_ttl_ms r) (cl_dns_refresh_inflight r)
    (cl_inflight r) (cl_steering_rebind_pending r) (cl_dns_refresh r).

Definition set_cl_fixed : client_fixed -> r_client -> r_client := ltac:(setter cl_eta cl_fixed).
Definition set_cl_servers : list r_server_endpoint -> r_client -> r_client := ltac:(setter cl_eta cl_servers).
Definition set_cl_send_failure_count : Z -> r_client -> r_client := ltac:(setter cl_eta cl_send_failure_count).
Definition set_cl_server_cap : Z -> r_client -> r_client := ltac:(setter cl_eta cl_server_cap).
Definition set_cl_last_dns_refresh_ms : Z -> r_client -> r_client := ltac:(setter cl_eta cl_last_dns_refresh_ms).
Definition set_cl_dns_refresh_ttl_ms : Z -> r_client -> r_client := ltac:(setter cl_eta cl_dns_refresh_ttl_ms).
Definition set_cl_dns_refresh_inflight : bool -> r_client -> r_client := ltac:(setter cl_eta cl_dns_refresh_inflight).
Definition set_cl_inflight : list ptr -> r_client -> r_client := ltac:(setter cl_eta cl_inflight).
Definition set_cl_steering_rebind_pending : bool -> r_client -> r_client := ltac:(setter cl_eta cl_steering_rebind_pending).
Definition set_cl_dns_refresh : option ptr -> r_client -> r_client := ltac:(setter cl_eta cl_dns_refresh).

Record r_dns_refresh := mk_refresh {
  rf_client : bool;
  rf_detached : bool;
  rf_pending : Z;
  rf_scheduling : Z;
  rf_lookups : list ptr;
  rf_endpoints : list r_server_endpoint;
  rf_endpoint_cap : Z;
  rf_min_ttl_ms : Z;
}.

Definition rf_eta (r : r_dns_refresh) : r_dns_refresh :=
  mk_refresh (rf_client r) (rf_detached r) (rf_pending r) (rf_scheduling r) (rf_lookups r)
    (rf_endpoints r) (rf_endpoint_cap r) (rf_min_ttl_ms r).

Definition set_rf_client : bool -> r_dns_refresh -> r_dns_refresh := ltac:(setter rf_eta rf_client).
Definition set_rf_detached : bool -> r_dns_refresh -> r_dns_refresh := ltac:(setter rf_eta rf_detached).
Definition set_rf_pending : Z -> r_dns_refresh -> r_dns_refresh := ltac:(setter rf_eta rf_pending).
Definition set_rf_scheduling : Z -> r_dns_refresh -> r_dns_refresh := ltac:(setter rf_eta rf_scheduling).
Definition set_rf_lookups : list ptr -> r_dns_refresh -> r_dns_refresh := ltac:(setter rf_eta rf_lookups).
Definition set_rf_endpoints : list r_server_endpoint -> r_dns_refresh -> r_dns_refresh := ltac:(setter rf_eta rf_endpoints).
Definition set_rf_endpoint_cap : Z -> r_dns_refresh -> r_dns_refresh := ltac:(setter rf_eta rf_endpoint_cap).
Definition set_rf_min_ttl_ms : Z -> r_dns_refresh -> r_dns_refresh := ltac:(setter rf_eta rf_min_ttl_ms).

Record r_dns_lookup_ctx := mk_lookup {
  lk_refresh : option ptr;
  lk_req_id : Z;
  lk_has_req_id : bool;
  lk_completed : bool;
  lk_in_resolver_call : bool;
  lk_port : Z;
  lk_server_id : Z;
  lk_has_server_id : bool;
}.

Definition lk_eta (r : r_dns_lookup_ctx) : r_dns_lookup_ctx :=
  mk_lookup (lk_refresh r) (lk_req_id r) (lk_has_req_id r) (lk_completed r)
    (lk_in_resolver_call r) (lk_port r) (lk_server_id r) (lk_has_server_id r).

Definition set_lk_refresh : option ptr -> r_dns_lookup_ctx -> r_dns_lookup_ctx := ltac:(setter lk_eta lk_refresh).
Definition set_lk_req_id : Z -> r_dns_lookup_ctx -> r_dns_lookup_ctx := ltac:(setter lk_eta lk_req_id).
Definition set_lk_has_req_id : bool -> r_dns_lookup_ctx -> r_dns_lookup_ctx := ltac:(setter lk_eta lk_has_req_id).
Definition set_lk_completed : bool -> r_dns_lookup_ctx -> r_dns_lookup_ctx := ltac:(setter lk_eta lk_completed).
Definition set_lk_in_resolver_call : bool -> r_dns_lookup_ctx -> r_dns_lookup_ctx := ltac:(setter lk_eta lk_in_resolver_call).

(** ** The machine *)

(** The blocks a client owns besides its requests, refreshes and lookups. *)
Inductive client_block : Set := BLOCK_SERVERS | BLOCK_DNS_NAME | BLOCK_AUTH_SECRET | BLOCK_CLIENT.

(** [EvFree]: [r_client_destroy] gave the block back; the array of servers a
    refresh replaces is not recorded.  [EvRead]: a worker of the load generator
    read the monotonic clock. *)
Inductive event : Type :=
| EvSend (to : r_addr) (packet : list Z) (rc : Z)
| EvComplete (req : option ptr) (cb user status : Z) (result : option r_rate_limit_result)
| EvCompleteReturn (req : option ptr)
| EvAdmission (storage cb user status : Z) (outcome : r_admission_outcome)
| EvProfile (p : r_request_profile)
| EvSteering (keep_port : bool)
| EvDnsCancel (req_id : Z)
| EvFreeReq (req : ptr)
| EvFree (block : client_block)
| EvRead (ns : Z).

Record sys (W : Type) := mk_sys {
  s_client : r_client;
  s_reqs : gmap ptr r_client_req;
  s_refreshes : gmap ptr r_dns_refresh;
  s_lookups : gmap ptr r_dns_lookup_ctx;
  s_adms : gmap Z r_admission_request;
  s_next : ptr;
  s_world : W;
  s_trace : list event;
}.
Arguments mk_sys {W}.
Arguments s_client {W}.
Arguments s_reqs {W}.
Arguments s_refreshes {W}.
Arguments s_lookups {W}.
Arguments s_adms {W}.
Arguments s_next {W}.
Arguments s_world {W}.
Arguments s_trace {W}.

(** What a resolver call does: its return code, the request id it stores and,
    when it calls back before returning, the callback's arguments. *)
Record srv_answer := mk_srv_answer {
  sa_rc : Z;
  sa_req_id : Z;
  sa_sync : option (Z * option (list r_srv_record));
}.
Record addr_answer := mk_addr_answer {
  aa_rc : Z;
  aa_req_id : Z;
  aa_sync : option (Z * option (list r_addr));
}.

(** The host program: the functions of [r_io_ops_t] and [r_resolver_ops_t], the
    random source, the allocator and the application callbacks.  The
    completion callbacks (of plain requests and of admission requests) may call
    back into the client, so they act on the whole machine; the other hooks only
    on the host's own state. *)
Class Host (W : Type) : Type := {
  h_now_ms : W -> Z * W;
  h_udp_send : r_addr -> list Z -> W -> Z * W;
  h_rand_bytes : Z -> W -> option (list Z) * W;
  h_alloc : W -> bool * W;
  h_resolve_srv : list Z -> W -> srv_answer * W;
  h_resolve_addrs : list Z -> W -> addr_answer * W;
  h_cancel : Z -> W -> bool * W;
  h_profile : r_request_profile -> W -> W;
  h_steering : bool -> W -> W;
  h_complete : Z -> Z -> option ptr -> Z -> option r_rate_limit_result -> sys W -> run (sys W);
  h_admission : Z -> Z -> Z -> r_admission_outcome -> sys W -> run (sys W);
}.

(** ** The state monad *)
Definition M (W A : Type) : Type := sys W -> run (A * sys W).

#[export] Instance M_ret W : MRet (M W) := fun A a s => Ok (a, s).
#[export] Instance M_bind W : MBind (M W) := fun A B k m s =>
  match m s with UB => UB | Ok (a, s') => k a s' end.

Section Monad.
Context {W : Type}.

Definition lift {A} (r : run A) : M W A := fun s => a ← r; Ok (a, s).
Definition gets {A} (f : sys W -> A) : M W A := fun s => Ok (f s, s).
Definition modify (f : sys W -> sys W) : M W unit := fun s => Ok (tt, f s).

Definition set_client (c : r_client) (s : sys W) : sys W :=
  mk_sys c (s_reqs s) (s_refreshes s) (s_lookups s) (s_adms s) (s_next s) (s_world s) (s_trace s).
Definition set_reqs (m : gmap ptr r_client_req) (s : sys W) : sys W :=
  mk_sys (s_client s) m (s_refreshes s) (s_lookups s) (s_adms s) (s_next s) (s_world s) (s_trace s).
Definition set_refreshes (m : gmap ptr r_dns_refresh) (s : sys W) : sys W :=
  mk_sys (s_client s) (s_reqs s) m (s_lookups s) (s_adms s) (s_next s) (s_world s) (s_trace s).
Definition set_lookups (m : gmap ptr r_dns_lookup_ctx) (s : sys W) : sys W :=
  mk_sys (s_client s) (s_reqs s) (s_refreshes s) m (s_adms s) (s_next s) (s_world s) (s_trace s).
Definition set_adms (m : gmap Z r_admission_request) (s : sys W) : sys W :=
  mk_sys (s_client s) (s_reqs s) (s_refreshes s) (s_lookups s) m (s_next s) (s_world s) (s_trace s).
Definition set_next (n : ptr) (s : sys W) : sys W :=
  mk_sys (s_client s) (s_reqs s) (s_refreshes s) (s_lookups s) (s_adms s) n (s_world s) (s_trace s).
Definition set_world (w : W) (s : sys W) : sys W :=
  mk_sys (s_client s) (s_reqs s) (s_refreshes s) (s_lookups s) (s_adms s) (s_next s) w (s_trace s).
Definition set_trace (t : list event) (s : sys W) : sys W :=
  mk_sys (s_client s) (s_reqs s) (s_refreshes s) (s_lookups s) (s_adms s) (s_next s) (s_world s) t.

(** Client fields. *)
Definition client : M W r_client := gets s_client.
Definition cfg : M W client_fixed := gets (fun s => cl_fixed (s_client s)).
Definition upd_client (f : r_client -> r_client) : M W unit :=
  modify (fun s => set_client (f (s_client s)) s).

(** Heap cells. *)
Definition get_req (p : ptr) : M W r_client_req := fun s =>
  match s_reqs s !! p with Some r => Ok (r, s) | None => UB end.
Definition upd_req (p : ptr) (f : r_client_req -> r_client_req) : M W unit := fun s =>
  match s_reqs s !! p with
  | Some r => Ok (tt, set_reqs (<[p := f r]> (s_reqs s)) s)
  | None => UB
  end.
Definition get_refresh (p : ptr) : M W r_dns_refresh := fun s =>
  match s_refreshes s !! p with Some r => Ok (r, s) | None => UB end.
Definition upd_refresh (p : ptr) (f : r_dns_refresh -> r_dns_refresh) : M W unit := fun s =>
  match s_refreshes s !! p with
  | Some r => Ok (tt, set_refreshes (<[p := f r]> (s_refreshes s)) s)
  | None => UB
  end.
Definition get_lookup (p : ptr) : M W r_dns_lookup_ctx := fun s =>
  match s_lookups s !! p with Some r => Ok (r, s) | None => UB end.
Definition upd_lookup (p : ptr) (f : r_dns_lookup_ctx -> r_dns_lookup_ctx) : M W unit := fun s =>
  match s_lookups s !! p with
  | Some r => Ok (tt, set_lookups (<[p := f r]> (s_lookups s)) s)
  | None => UB
  end.

(** The caller's admission storage, by its address. *)
Definition get_adm (u : Z) : M W r_admission_request := fun s =>
  match s_adms s !! u with Some a => Ok (a, s) | None => UB end.
Definition upd_adm (u : Z) (f : r_admission_request -> r_admission_request) : M W unit := fun s =>
  match s_adms s !! u with
  | Some a => Ok (tt, set_adms (<[u := f a]> (s_adms s)) s)
  | None => UB
  end.

(** Fresh cells. *)
Definition new_req (r : r_client_req) : M W ptr := fun s =>
  Ok (s_next s, set_next (S (s_next s)) (set_reqs (<[s_next s := r]> (s_reqs s)) s)).
Definition new_refresh (r : r_dns_refresh) : M W ptr := fun s =>
  Ok (s_next s, set_next (S (s_next s)) (set_refreshes (<[s_next s := r]> (s_refreshes s)) s)).

(** [free]: undefined on a pointer that is not allocated. *)
Definition free_lookup (p : ptr) : M W unit := fun s =>
  match s_lookups s !! p with
  | Some _ => Ok (tt, set_lookups (delete p (s_lookups s)) s)
  | None => UB
  end.
Definition free_refresh (p : ptr) : M W unit := fun s =>
  match s_refreshes s !! p with
  | Some _ => Ok (tt, set_refreshes (delete p (s_refreshes s)) s)
  | None => UB
  end.

Definition emit (e : event) : M W unit := modify (fun s => set_trace (s_trace s ++ [e]) s).

(** Sequencing over a list of pointers. *)
Fixpoint for_each {A} (l : list A) (f : A -> M W unit) : M W unit :=
  match l with
  | [] => mret tt
  | x :: l' => _ ← f x; for_each l' f
  end.

Context `{Host W}.

Definition world_op {A} (f : W -> A * W) : M W A := fun s =>
  let '(a, w) := f (s_world s) in Ok (a, set_world w s).

Definition run_hook (f : sys W -> run (sys W)) : M W unit := fun s => s' ← f s; Ok (tt, s').

Definition alloc_ok : M W bool := world_op h_alloc.
(** [calloc (1, sizeof ( *lookup))]: may fail at any time, and does when the
    address space is full (it holds fewer than 2^60 blocks of 48 bytes). *)
Definition calloc_lookup (r : r_dns_lookup_ctx) : M W (option ptr) :=
  ok ← alloc_ok;
  room ← gets (fun s => Z.of_nat (size (s_lookups s)) <? 2 ^ 60);
  p ← gets s_next;
  if negb (ok && room) then mret None else
  _ ← modify (fun s => set_next (S p) (set_lookups (<[p := r]> (s_lookups s)) s));
  mret (Some p).

Definition rand_bytes (n : Z) : M W (option (list Z)) := world_op (h_rand_bytes n).

(** [r_now_ms]: zero without a clock. *)
Definition r_now_ms : M W Z :=
  c ← cfg; if negb (cf_io_now_ms c) then mret 0 else world_op h_now_ms.

Definition udp_send (to : r_addr) (packet : list Z) : M W Z :=
  rc ← world_op (h_udp_send to packet); _ ← emit (EvSend to packet rc); mret rc.

(** The completion callback of admission requests; [user] is the storage.
    Calling through a NULL pointer is undefined. *)
Definition r_admission_complete (user : Z) (status : Z) (result : option r_rate_limit_result) : M W unit :=
  _ ← upd_adm user (fun a => set_ad_active false (set_ad_handle None a));
  outcome ← lift (r_client_admission_classify status result);
  _ ← upd_adm user (fun a => set_ad_admitted (oc_allowed outcome) (set_ad_outcome outcome a));
  a ← get_adm user;
  if ad_callback a =? 0 then lift UB else
  _ ← emit (EvAdmission user (ad_callback a) (ad_user a) status outcome);
  run_hook (h_admission (ad_callback a) (ad_user a) status outcome).

(** Calls through a request's [cb]: the library's own callback, or the
    application's. *)
Definition call_complete (cb user : Z) (req : option ptr) (status : Z)
    (result : option r_rate_limit_result) : M W unit :=
  _ ← emit (EvComplete req cb user status result);
  _ ← (if cb =? r_admission_complete_ptr then r_admission_complete user status result
       else run_hook (h_complete cb user req status result));
  emit (EvCompleteReturn req).

Definition call_profile (p : r_request_profile) : M W unit :=
  _ ← emit (EvProfile p); modify (fun s => set_world (h_profile p (s_world s)) s).

Definition call_steering (keep : bool) : M W unit :=
  _ ← emit (EvSteering keep); modify (fun s => set_world (h_steering keep (s_world s)) s).
End Monad.
