(* ===== verification/Schedule.v ===== *)
(** * Request schedule and policy (src/r_client.c 222-328, src/r_policy.c)

    The replay-gap schedule B(k), the deduplication TTL a policy derives, and
    the default policy. *)

From S2P Require Import Prelude.
From S2P Require Import Types.
From S2P Require Import Crypto.
From S2P Require Import Workflow.
From S2P Require Import State.

Definition r_client_default_request_policy (out_policy : option r_request_policy)
  : option r_request_policy :=
  store out_policy (mk_policy 20 1 (mk_schedule R_HA_SCHEDULE_FIXED 1 1 0) 1 true).

(** [while (round > 0 && value < max)]: one unit of [round] per iteration. *)
Fixpoint ha_exponential (round : nat) (value max factor : Z) : Z :=
  match round with
  | O => value
  | S round' =>
      if value <? max
      then ha_exponential round' (if max / factor <? value then max else value *32 factor) max factor
      else value
  end.

Definition r_ha_schedule_units (schedule : option r_ha_schedule) (round : Z) (allow_zero : bool)
    (out_units : option Z) : Z * option Z :=
  match schedule, out_units with
  | Some h, Some _ =>
      if (negb allow_zero && (hs_initial_units h =? 0)) || (hs_max_units h <? hs_initial_units h)
      then (RCLIENT_ERR_CONFIG, out_units) else
      let value := hs_initial_units h in
      if hs_kind h =? R_HA_SCHEDULE_FIXED then (RCLIENT_OK, Some value)
      else if hs_kind h =? R_HA_SCHEDULE_LINEAR then
        let step := hs_growth h in
        if step =? 0 then (RCLIENT_ERR_CONFIG, out_units) else
        let room := hs_max_units h -32 value in
        (RCLIENT_OK, Some (if room / step <? round then hs_max_units h
                           else value +32 (round *32 step)))
      else if hs_kind h =? R_HA_SCHEDULE_EXPONENTIAL then
        let factor := hs_growth h in
        if factor <? 2 then (RCLIENT_ERR_CONFIG, out_units) else
        (RCLIENT_OK, Some (ha_exponential (Z.to_nat round) value (hs_max_units h) factor))
      else (RCLIENT_ERR_CONFIG, out_units)
  | _, _ => (RCLIENT_ERR_CONFIG, out_units)
  end.

(** One iteration of the sum over rounds; [Return] is [RCLIENT_ERR_CONFIG]. *)
Definition ttl_round (policy : r_request_policy) (max_ttl_ms round total_units : Z)
  : run (flow Z unit) :=
  let '(rc, gap) := r_ha_schedule_units (Some (rp_replay_gap policy)) round false (Some 0) in
  if negb (rc =? RCLIENT_OK) then Ok (Return tt) else
  gap_units ← deref gap;
  if UINT64_MAX - gap_units <? total_units then Ok (Return tt) else
  let total_units := total_units +64 gap_units in
  if max_ttl_ms / rp_unit_ms policy <? total_units then Ok (Return tt) else
  Ok (Next total_units).

Definition r_request_policy_ttl_ms (client : option client_fixed) (out_ttl_ms : option Z)
  : run (Z * option Z) :=
  match client, out_ttl_ms with
  | Some c, Some _ =>
      let policy := cf_policy c in
      if (rp_unit_ms policy =? 0) || (R_CLIENT_HA_MAX_REPLAY_COUNT <? rp_replay_count policy)
      then Ok (RCLIENT_ERR_CONFIG, out_ttl_ms) else
      let max_ttl_ms :=
        if cf_has_quotas c && (0 <? bq_dedup_ttl_ms_max (cf_quotas c))
        then bq_dedup_ttl_ms_max (cf_quotas c) else UINT32_MAX in
      if max_ttl_ms <? rp_unit_ms policy then Ok (RCLIENT_ERR_CONFIG, out_ttl_ms) else
      f ← for_flow (Z.to_nat (rp_replay_count policy + 1)) 0 (ttl_round policy max_ttl_ms) 0;
      match f with
      | Return _ => Ok (RCLIENT_ERR_CONFIG, out_ttl_ms)
      | Next total_units =>
          if UINT64_MAX - rp_final_receive_units policy <? total_units
          then Ok (RCLIENT_ERR_CONFIG, out_ttl_ms) else
          let total_units := total_units +64 rp_final_receive_units policy in
          if (total_units =? 0) || (UINT32_MAX / rp_unit_ms policy <? total_units)
             || (max_ttl_ms / rp_unit_ms policy <? total_units)
          then Ok (RCLIENT_ERR_CONFIG, out_ttl_ms) else
          Ok (RCLIENT_OK, Some (u32 (total_units *64 rp_unit_ms policy)))
      end
  | _, _ => Ok (RCLIENT_ERR_CONFIG, out_ttl_ms)
  end.

#[global] Arguments r_ha_schedule_units : simpl never.
#[global] Arguments r_request_policy_ttl_ms : simpl never.

(** ** The schedule in closed form

    A valid schedule grows from [initial] to [max] and stays there: constant,
    linear, or geometric, always cut at [max]. *)
Definition schedule_valid (h : r_ha_schedule) : bool :=
  (0 <? hs_initial_units h) && (hs_initial_units h <=? hs_max_units h) &&
  ((hs_kind h =? R_HA_SCHEDULE_FIXED) ||
   ((hs_kind h =? R_HA_SCHEDULE_LINEAR) && negb (hs_growth h =? 0)) ||
   ((hs_kind h =? R_HA_SCHEDULE_EXPONENTIAL) && (2 <=? hs_growth h))).

Definition schedule_units (h : r_ha_schedule) (round : Z) : Z :=
  if hs_kind h =? R_HA_SCHEDULE_LINEAR
  then Z.min (hs_max_units h) (hs_initial_units h + round * hs_growth h)
  else if hs_kind h =? R_HA_SCHEDULE_EXPONENTIAL
  then Z.min (hs_max_units h) (hs_initial_units h * hs_growth h ^ round)
  else hs_initial_units h.

Lemma ha_exponential_min n v max f :
  0 < v <= max -> 2 <= f -> max < 2 ^ 32 ->
  ha_exponential n v max f = Z.min max (v * f ^ Z.of_nat n).
Proof.
  revert v; induction n as [|n IH]; intros v Hv Hf Hm; cbn [ha_exponential].
  { rewrite Z.pow_0_r. lia. }
  replace (Z.of_nat (S n)) with (1 + Z.of_nat n) by lia.
  rewrite Z.pow_add_r, Z.pow_1_r, Z.mul_assoc by lia.
  assert (0 < f ^ Z.of_nat n) by (apply Z.pow_pos_nonneg; lia).
  assert (1 <= f * f ^ Z.of_nat n) by nia. rewrite <- Z.mul_assoc.
  destruct (Z.ltb_spec v max); [|rewrite Z.min_l; nia]. rewrite Z.mul_assoc.
  destruct (Z.ltb_spec (max / f) v) as [Hd|Hd].
  - assert (max < v * f) by (Z.div_mod_to_equations; nia).
    rewrite IH by lia. rewrite !Z.min_l by nia. done.
  - assert (v * f <= max) by (Z.div_mod_to_equations; nia).
    rewrite u32_small by rlia. apply IH; nia.
Qed.

(** Every round duration the scheduler computes: an invalid schedule is
    [RCLIENT_ERR_CONFIG] with the output untouched, and a valid one gives
    min(max, initial), min(max, initial + k*step) or min(max, initial*factor^k)
    without 32-bit overflow. *)
Lemma ha_schedule_units_spec h round old :
  wf_schedule h -> is_u32 round ->
  r_ha_schedule_units (Some h) round false (Some old) =
  if schedule_valid h then (RCLIENT_OK, Some (schedule_units h round))
  else (RCLIENT_ERR_CONFIG, Some old).
Proof.
  intros (Hi & Hm & Hg) Hr. unfold r_ha_schedule_units, schedule_valid, schedule_units. simpl.
  destruct (Z.eqb_spec (hs_initial_units h) 0) as [E|E]; simpl.
  { rewrite (zltb_false 0) by lia. done. }
  rewrite (zltb_true 0) by rlia. simpl.
  rewrite (Z.leb_antisym (hs_max_units h)).
  destruct (Z.ltb_spec (hs_max_units h) (hs_initial_units h)); simpl; [done|].
  unfold R_HA_SCHEDULE_FIXED, R_HA_SCHEDULE_LINEAR, R_HA_SCHEDULE_EXPONENTIAL.
  destruct (Z.eqb_spec (hs_kind h) 0) as [->|]; simpl; [done|].
  destruct (Z.eqb_spec (hs_kind h) 1) as [->|]; simpl.
  { destruct (Z.eqb_spec (hs_growth h) 0); simpl; [done|]. do 2 f_equal.
    rewrite u32_small by rlia.
    destruct (Z.ltb_spec ((hs_max_units h - hs_initial_units h) / hs_growth h) round).
    - rewrite Z.min_l; [done|]. Z.div_mod_to_equations; unfold is_u32 in *; nia.
    - assert (round * hs_growth h <= hs_max_units h - hs_initial_units h)
        by (Z.div_mod_to_equations; unfold is_u32 in *; nia).
      assert (0 <= round * hs_growth h) by (unfold is_u32 in *; nia).
      rewrite (u32_small (round * _)), u32_small by rlia. lia. }
  destruct (Z.eqb_spec (hs_kind h) 2); simpl; [|done].
  rewrite (Z.leb_antisym (hs_growth h)). destruct (Z.ltb_spec (hs_growth h) 2); simpl; [done|].
  do 2 f_equal. rewrite ha_exponential_min, Z2Nat.id by rlia. done.
Qed.

(** A valid exponential or linear schedule has positive growth. *)
Lemma schedule_growth_pos h :
  wf_schedule h -> schedule_valid h = true -> hs_kind h <> R_HA_SCHEDULE_FIXED -> 0 < hs_growth h.
Proof.
  intros (Hi & Hm & Hg) Hv Hk. unfold schedule_valid in Hv. unfold is_u32 in *. breflect.
  rewrite !orb_true_iff, !andb_true_iff, negb_true_iff in *. breflect. lia.
Qed.

Lemma schedule_units_range h round :
  wf_schedule h -> schedule_valid h = true -> 0 <= round ->
  hs_initial_units h <= schedule_units h round <= hs_max_units h.
Proof.
  intros Hw Hv Hr. assert (Hg := schedule_growth_pos h Hw Hv). destruct Hw as (? & ? & ?).
  unfold schedule_valid in Hv. breflect. unfold schedule_units, is_u32 in *.
  unfold R_HA_SCHEDULE_FIXED, R_HA_SCHEDULE_LINEAR, R_HA_SCHEDULE_EXPONENTIAL in *.
  case_if; breflect; [nia|]. case_if; breflect; [|lia].
  assert (0 < hs_growth h ^ round) by (apply Z.pow_pos_nonneg; lia). nia.
Qed.

(** Gaps never shrink: B(k) <= B(k') for k <= k'. *)
Lemma schedule_units_mono h k k' :
  wf_schedule h -> schedule_valid h = true -> 0 <= k <= k' ->
  schedule_units h k <= schedule_units h k'.
Proof.
  intros Hw Hv Hk. assert (Hg := schedule_growth_pos h Hw Hv). destruct Hw as (? & ? & ?).
  unfold schedule_units, is_u32 in *.
  unfold R_HA_SCHEDULE_FIXED, R_HA_SCHEDULE_LINEAR, R_HA_SCHEDULE_EXPONENTIAL in *.
  case_if; breflect; [nia|]. case_if; breflect; [|lia].
  assert (hs_growth h ^ k <= hs_growth h ^ k') by (apply Z.pow_le_mono_r; lia).
  apply Z.min_le_compat_l. nia.
Qed.

(** ** The deduplication TTL

    The lifetime of a request id on the servers: every round of the schedule,
    then the final receive window, in milliseconds. *)
Fixpoint gap_sum (h : r_ha_schedule) (rounds : nat) : Z :=
  match rounds with
  | O => 0
  | S k => gap_sum h k + schedule_units h (Z.of_nat k)
  end.

Definition ttl_units (p : r_request_policy) : Z :=
  gap_sum (rp_replay_gap p) (Z.to_nat (rp_replay_count p + 1)) + rp_final_receive_units p.

Definition ttl_limit (c : client_fixed) : Z :=
  if cf_has_quotas c && (0 <? bq_dedup_ttl_ms_max (cf_quotas c))
  then bq_dedup_ttl_ms_max (cf_quotas c) else UINT32_MAX.

Definition policy_valid (c : client_fixed) : bool :=
  let p := cf_policy c in
  (0 <? rp_unit_ms p) && (rp_replay_count p <=? R_CLIENT_HA_MAX_REPLAY_COUNT) &&
  schedule_valid (rp_replay_gap p) && (ttl_units p * rp_unit_ms p <=? ttl_limit c).

Lemma gap_sum_mono h j k :
  wf_schedule h -> schedule_valid h = true -> (j <= k)%nat -> gap_sum h j <= gap_sum h k.
Proof.
  intros Hw Hv. induction 1 as [|k Hk IH]; [lia|]. simpl.
  assert (Hr := schedule_units_range h (Z.of_nat k) Hw Hv ltac:(lia)).
  destruct Hw as (? & ? & ?). unfold is_u32 in *. lia.
Qed.

Lemma gap_sum_bounds h k :
  wf_schedule h -> schedule_valid h = true ->
  Z.of_nat k <= gap_sum h k <= Z.of_nat k * UINT32_MAX.
Proof.
  intros Hw Hv. induction k as [|k IH]; [simpl; lia|]. cbn [gap_sum].
  assert (Hr := schedule_units_range h (Z.of_nat k) Hw Hv ltac:(lia)).
  destruct Hw as (? & ? & ?). unfold schedule_valid in Hv. breflect.
  unfold is_u32 in *. lia.
Qed.

Lemma ttl_units_pos c :
  wf_policy (cf_policy c) -> policy_valid c = true -> 1 <= ttl_units (cf_policy c).
Proof.
  intros (Hu & Hc & Hg & Hf) Hv. unfold policy_valid in Hv. breflect. unfold ttl_units.
  pose proof (gap_sum_bounds (rp_replay_gap (cf_policy c))
    (Z.to_nat (rp_replay_count (cf_policy c) + 1)) Hg ltac:(done)). rlia.
Qed.

(** One iteration adds B(round), and stops when the sum no longer fits. *)
Lemma ttl_round_spec p max_ttl_ms k :
  wf_policy p -> schedule_valid (rp_replay_gap p) = true -> Z.of_nat k <= 65535 ->
  ttl_round p max_ttl_ms (Z.of_nat k) (gap_sum (rp_replay_gap p) k) =
  Ok (if max_ttl_ms / rp_unit_ms p <? gap_sum (rp_replay_gap p) (S k) then Return tt
      else Next (gap_sum (rp_replay_gap p) (S k))).
Proof.
  intros (Hu & Hc & Hg & Hf) Hv Hk. unfold ttl_round.
  rewrite (ha_schedule_units_spec _ _ _ Hg), Hv by rlia. simpl.
  assert (Hb := gap_sum_bounds _ k Hg Hv). assert (Hb' := gap_sum_bounds _ (S k) Hg Hv).
  assert (Hr := schedule_units_range _ (Z.of_nat k) Hg Hv ltac:(lia)).
  destruct Hg as (? & ? & ?). cbn [gap_sum] in *.
  rewrite zltb_false by rlia. rewrite u64_small by rlia. by case_if.
Qed.

Lemma ttl_loop_spec p max_ttl_ms n k :
  wf_policy p -> schedule_valid (rp_replay_gap p) = true -> Z.of_nat (k + n) <= 65536 ->
  for_flow n (Z.of_nat k) (ttl_round p max_ttl_ms) (gap_sum (rp_replay_gap p) k) =
  Ok (if (max_ttl_ms / rp_unit_ms p <? gap_sum (rp_replay_gap p) (k + n)) && (0 <? Z.of_nat n)
      then Return tt else Next (gap_sum (rp_replay_gap p) (k + n))).
Proof.
  intros Hp Hv. revert k; induction n as [|n IH]; intros k Hk; cbn [for_flow].
  { rewrite Nat.add_0_r, andb_false_r. done. }
  rewrite ttl_round_spec, run_bind_Ok, (zltb_true 0), andb_true_r by (done || lia).
  replace (k + S n)%nat with (S k + n)%nat by lia.
  assert (Hm := gap_sum_mono (rp_replay_gap p) (S k) (S k + n) (proj1 (proj2 (proj2 Hp))) Hv
                  ltac:(lia)).
  destruct (Z.ltb_spec (max_ttl_ms / rp_unit_ms p) (gap_sum (rp_replay_gap p) (S k))).
  { rewrite zltb_true by lia. done. }
  replace (Z.of_nat k + 1) with (Z.of_nat (S k)) by lia. rewrite IH by lia.
  destruct n as [|n]; [|rewrite (zltb_true 0), andb_true_r by lia; done].
  rewrite Nat.add_0_r in *. rewrite zltb_false by lia. done.
Qed.

(** An invalid schedule is caught in the first round. *)
Lemma ttl_loop_invalid p max_ttl_ms n :
  wf_policy p -> schedule_valid (rp_replay_gap p) = false -> (0 < n)%nat ->
  for_flow n 0 (ttl_round p max_ttl_ms) 0 = Ok (Return tt).
Proof.
  intros (Hu & Hc & Hg & Hf) Hv Hn. destruct n as [|n]; [lia|]. cbn [for_flow].
  unfold ttl_round. rewrite (ha_schedule_units_spec _ _ _ Hg), Hv by rlia. done.
Qed.

(** The TTL a request carries is exactly unit * (B(0) + ... + B(R) + F),
    computed without 32- or 64-bit wrap-around, never above the credential's
    quota, and the policy is refused with [RCLIENT_ERR_CONFIG] precisely when
    its unit is zero, it has too many replays, its schedule is malformed or the
    TTL would exceed that limit; the computation always terminates. *)
Lemma request_policy_ttl_spec c old :
  wf_policy (cf_policy c) -> is_u32 (bq_dedup_ttl_ms_max (cf_quotas c)) ->
  r_request_policy_ttl_ms (Some c) (Some old) =
  Ok (if policy_valid c
      then (RCLIENT_OK, Some (ttl_units (cf_policy c) * rp_unit_ms (cf_policy c)))
      else (RCLIENT_ERR_CONFIG, Some old)).
Proof.
  intros Hp Hq. unfold r_request_policy_ttl_ms, policy_valid. fold (ttl_limit c).
  assert (Hl : 0 <= ttl_limit c <= UINT32_MAX).
  { unfold ttl_limit. case_if; [|lia]. rlia. }
  set (p := cf_policy c) in *. set (L := ttl_limit c) in *.
  destruct (Hp) as (Hu & Hc & Hg & Hf). unfold R_CLIENT_HA_MAX_REPLAY_COUNT.
  destruct (Z.eqb_spec (rp_unit_ms p) 0) as [E|E]; simpl.
  { rewrite (zltb_false 0) by lia. done. }
  rewrite (zltb_true 0) by rlia. rewrite (Z.leb_antisym 65535). simpl.
  destruct (Z.ltb_spec 65535 (rp_replay_count p)); simpl; [done|].
  destruct (schedule_valid (rp_replay_gap p)) eqn:Hv; simpl.
  2:{ case_if; [done|]. rewrite ttl_loop_invalid by (done || rlia). done. }
  set (n := Z.to_nat (rp_replay_count p + 1)).
  assert (Hb := gap_sum_bounds _ n Hg Hv). unfold ttl_units. fold n.
  set (T := gap_sum (rp_replay_gap p) n) in *. assert (1 <= Z.of_nat n <= 65536) by rlia.
  destruct (Z.ltb_spec L (rp_unit_ms p)).
  { rewrite (proj2 (Z.leb_gt _ _)); [done|]. unfold_ranges. nia. }
  assert (Hloop := ttl_loop_spec p L n 0 Hp Hv ltac:(lia)). change (Z.of_nat 0) with 0 in Hloop.
  simpl in Hloop. rewrite Hloop.
  clear Hloop. simpl. fold T.
  rewrite (zltb_true 0), andb_true_r by lia. rewrite Z.leb_antisym.
  assert (Hdiv : forall x, (L / rp_unit_ms p <? x) = (L <? x * rp_unit_ms p)).
  { intros x. apply eq_true_iff_eq. rewrite !Z.ltb_lt. Z.div_mod_to_equations. unfold_ranges. nia. }
  rewrite Hdiv. destruct (Z.ltb_spec L (T * rp_unit_ms p)).
  { rewrite zltb_true by (unfold_ranges; nia). done. }
  rewrite zltb_false by rlia. rewrite u64_small by rlia.
  rewrite (proj2 (Z.eqb_neq _ 0)) by rlia. rewrite Hdiv. simpl.
  destruct (Z.ltb_spec L ((T + rp_final_receive_units p) * rp_unit_ms p)); simpl.
  { rewrite orb_true_r. done. }
  rewrite orb_false_r, zltb_false; [|Z.div_mod_to_equations; unfold_ranges; nia].
  rewrite u64_small, u32_small; [done|unfold_ranges; nia..].
Qed.
