(* ===== verification/Steering.v ===== *)
(** * Steering port selection (src/r_client_steering.c)

    The scan of the dynamic port range for a port the host can bind. *)

From S2P Require Import Prelude.
From S2P Require Import Types.

Definition R_STEERING_PORT_MIN : Z := 49152.
Definition R_STEERING_PORT_COUNT : Z := 16384.
Definition R_STEERING_BIND_ERROR : Z := -1.
Definition R_STEERING_BIND_OK : Z := 0.
Definition R_STEERING_BIND_OCCUPIED : Z := 1.

Definition r_client_next_steering_port (port : Z) : Z :=
  if (port <? R_STEERING_PORT_MIN) || (port =? UINT16_MAX) then R_STEERING_PORT_MIN
  else u16 (port + 1).

(** The callback acts on the host's state [W]. *)
Section Select.
Context {W : Type}.

Fixpoint scan_loop (n : nat) (try_bind : Z -> W -> Z * W) (candidate : Z)
    (out_selected_port out_next_port : option Z) (w : W)
  : Z * option Z * option Z * W :=
  match n with
  | O => (RCLIENT_ERR_IO, out_selected_port, out_next_port, w)
  | S n' =>
      let '(result, w) := try_bind candidate w in
      if result =? R_STEERING_BIND_OK then
        (RCLIENT_OK, store out_selected_port candidate,
         store out_next_port (r_client_next_steering_port candidate), w)
      else if negb (result =? R_STEERING_BIND_OCCUPIED) then
        (RCLIENT_ERR_IO, out_selected_port, out_next_port, w)
      else scan_loop n' try_bind (r_client_next_steering_port candidate)
             out_selected_port out_next_port w
  end.

Definition r_client_select_steering_port (first_port : Z) (try_bind : option (Z -> W -> Z * W))
    (out_selected_port out_next_port : option Z) (w : W) : Z * option Z * option Z * W :=
  match try_bind, out_selected_port, out_next_port with
  | Some f, Some _, Some _ =>
      let candidate :=
        if first_port <? R_STEERING_PORT_MIN then R_STEERING_PORT_MIN else first_port in
      scan_loop (Z.to_nat R_STEERING_PORT_COUNT) f candidate out_selected_port out_next_port w
  | _, _, _ => (RCLIENT_ERR_CONFIG, out_selected_port, out_next_port, w)
  end.

(** ** Specification

    The first port of a list the callback accepts, and the host's state
    after the attempts made; an error stops the search. *)
Fixpoint first_bind (try_bind : Z -> W -> Z * W) (ports : list Z) (w : W) : option Z * W :=
  match ports with
  | [] => (None, w)
  | p :: ps =>
      let '(result, w) := try_bind p w in
      if result =? R_STEERING_BIND_OK then (Some p, w)
      else if result =? R_STEERING_BIND_OCCUPIED then first_bind try_bind ps w
      else (None, w)
  end.
End Select.

(** The ports in scan order: from the first one up, then round from 49152. *)
Definition scan_start (first_port : Z) : Z := Z.max R_STEERING_PORT_MIN first_port.
Definition steering_ports (first_port : Z) : list Z :=
  seqZ (scan_start first_port) (65536 - scan_start first_port) ++
  seqZ R_STEERING_PORT_MIN (scan_start first_port - R_STEERING_PORT_MIN).

Fixpoint port_walk (n : nat) (p : Z) : list Z :=
  match n with O => [] | S n' => p :: port_walk n' (r_client_next_steering_port p) end.

Lemma scan_loop_walk {W} (f : Z -> W -> Z * W) n p a b w :
  scan_loop n f p (Some a) (Some b) w =
  match first_bind f (port_walk n p) w with
  | (Some q, w') => (RCLIENT_OK, Some q, Some (r_client_next_steering_port q), w')
  | (None, w') => (RCLIENT_ERR_IO, Some a, Some b, w')
  end.
Proof.
  revert p w; induction n as [|n IH]; intros p w; simpl; [done|].
  destruct (f p w) as [r w']. case_if; [done|].
  destruct (r =? R_STEERING_BIND_OCCUPIED); simpl; [apply IH | done].
Qed.

(** Up to the top of the range the walk counts; at the top it wraps. *)
Lemma port_walk_up n p :
  R_STEERING_PORT_MIN <= p -> p + Z.of_nat n <= 65536 -> port_walk n p = seqZ p (Z.of_nat n).
Proof.
  revert p; induction n as [|n IH]; intros p Hp Hn; [done|].
  rewrite seqZ_cons by lia. simpl. f_equal. unfold r_client_next_steering_port.
  unfold R_STEERING_PORT_MIN in *. rewrite zltb_false by lia. simpl.
  destruct (Z.eqb_spec p UINT16_MAX) as [->|].
  { destruct n; [done | lia]. }
  rewrite u16_small, IH by rlia. f_equal; lia.
Qed.

Lemma port_walk_wrap n m p :
  R_STEERING_PORT_MIN <= p -> p + Z.of_nat n = 65536 -> (0 < n)%nat ->
  port_walk (n + m) p = seqZ p (Z.of_nat n) ++ port_walk m R_STEERING_PORT_MIN.
Proof.
  revert p; induction n as [|n IH]; intros p Hp Hn Hpos; [lia|].
  rewrite (seqZ_cons p) by lia. simpl. f_equal. unfold r_client_next_steering_port.
  unfold R_STEERING_PORT_MIN in *. rewrite zltb_false by lia. simpl.
  destruct (Z.eqb_spec p UINT16_MAX) as [->|].
  { replace n with 0%nat by lia. done. }
  rewrite u16_small, IH by rlia. do 2 f_equal; lia.
Qed.

Lemma port_walk_all first_port :
  is_u16 first_port ->
  port_walk (Z.to_nat R_STEERING_PORT_COUNT) (scan_start first_port) = steering_ports first_port.
Proof.
  intros Hp. unfold steering_ports. set (s := scan_start first_port).
  assert (R_STEERING_PORT_MIN <= s < 65536)
    by (unfold s, scan_start, R_STEERING_PORT_MIN; rlia).
  unfold R_STEERING_PORT_COUNT, R_STEERING_PORT_MIN in *.
  replace (Z.to_nat 16384) with (Z.to_nat (65536 - s) + Z.to_nat (s - 49152))%nat by lia.
  rewrite port_walk_wrap by (unfold R_STEERING_PORT_MIN; lia). rewrite Z2Nat.id by lia. f_equal.
  rewrite port_walk_up by (unfold R_STEERING_PORT_MIN; lia). f_equal. lia.
Qed.

Lemma steering_ports_perm first_port :
  is_u16 first_port ->
  Permutation (steering_ports first_port) (seqZ R_STEERING_PORT_MIN R_STEERING_PORT_COUNT).
Proof.
  intros Hp. unfold steering_ports. set (s := scan_start first_port).
  assert (R_STEERING_PORT_MIN <= s < 65536)
    by (unfold s, scan_start, R_STEERING_PORT_MIN; rlia).
  rewrite Permutation_app_comm. unfold R_STEERING_PORT_COUNT, R_STEERING_PORT_MIN in *.
  replace 16384 with ((s - 49152) + (65536 - s)) by lia.
  rewrite (seqZ_app 49152 (s - 49152)) by lia.
  replace (49152 + (s - 49152)) with s by lia. done.
Qed.

Lemma first_bind_mem {W} (f : Z -> W -> Z * W) ports w q w' :
  first_bind f ports w = (Some q, w') -> q ∈ ports.
Proof.
  revert w; induction ports as [|p ps IH]; intros w; simpl; [discriminate|].
  destruct (f p w) as [r w1]. case_if; [intros [= -> _]; left|].
  case_if; [|discriminate]. intros Hb. right. eauto.
Qed.

(** The scan offers the host every dynamic port (49152 to 65535) exactly
    once, in cyclic order from the requested one, stops at the first that binds
    or at the first error, and reports the chosen port and its successor, both
    in the dynamic range; otherwise both outputs are untouched and the result
    is [RCLIENT_ERR_IO].  It makes at most 16384 attempts. *)
Theorem select_steering_port_spec {W} (f : Z -> W -> Z * W) first_port a b w :
  is_u16 first_port ->
  Permutation (steering_ports first_port) (seqZ R_STEERING_PORT_MIN R_STEERING_PORT_COUNT) /\
  match first_bind f (steering_ports first_port) w with
  | (Some q, w') =>
      R_STEERING_PORT_MIN <= q <= UINT16_MAX /\
      R_STEERING_PORT_MIN <= r_client_next_steering_port q <= UINT16_MAX /\
      r_client_select_steering_port first_port (Some f) (Some a) (Some b) w =
      (RCLIENT_OK, Some q, Some (r_client_next_steering_port q), w')
  | (None, w') =>
      r_client_select_steering_port first_port (Some f) (Some a) (Some b) w =
      (RCLIENT_ERR_IO, Some a, Some b, w')
  end.
Proof.
  intros Hp. assert (Hperm := steering_ports_perm _ Hp). split; [done|].
  unfold r_client_select_steering_port.
  replace (if first_port <? R_STEERING_PORT_MIN then R_STEERING_PORT_MIN else first_port)
    with (scan_start first_port)
    by (unfold scan_start, R_STEERING_PORT_MIN; case_if; breflect; lia).
  rewrite scan_loop_walk, port_walk_all by done.
  destruct (first_bind f (steering_ports first_port) w) as [[q|] w'] eqn:Hb; [|done].
  apply first_bind_mem in Hb. rewrite Hperm, elem_of_seqZ in Hb.
  unfold R_STEERING_PORT_COUNT, R_STEERING_PORT_MIN in *. split; [lia|]. split; [|done].
  unfold r_client_next_steering_port, R_STEERING_PORT_MIN. case_if; breflect; [lia|].
  rewrite u16_small by rlia. lia.
Qed.

(** A host on which ports up to 65533 are taken and the rest are free. *)
Lemma select_steering_port_spec_witness :
  is_u16 65532 /\
  r_client_select_steering_port 65532 (Some (fun p n => (if p <? 65534 then 1 else 0, n + 1)))
    (Some 0) (Some 0) 0 = (RCLIENT_OK, Some 65534, Some 65535, 3).
Proof.
  split; [rlia|].
  exact (proj2 (proj2 (proj2 (select_steering_port_spec
    (fun p n => (if p <? 65534 then 1 else 0, n + 1)) 65532 0 0 0 ltac:(rlia))))).
Defined.
