(* ===== verification/Hoare.v ===== *)
(** * A weakest precondition for the client's state monad

    [wp m Q s]: run from [s], the computation [m] does not reach undefined
    behaviour and its result and final state satisfy [Q]. *)

From S2P Require Import Prelude.
From S2P Require Import Types.
From S2P Require Import Crypto.
From S2P Require Import Workflow.
From S2P Require Import State.

(** An allocator that never fails. *)
Definition never_fails (W : Type) `{Host W} : Prop := forall w : W, fst (h_alloc w) = true.

Section Wp.
Context {W : Type}.

Definition wp {A} (m : M W A) (Q : A -> sys W -> Prop) (s : sys W) : Prop :=
  match m s with Ok (a, s') => Q a s' | UB => False end.

Lemma wp_Ok {A} (m : M W A) (Q : A -> sys W -> Prop) s :
  wp m Q s -> exists a s', m s = Ok (a, s') /\ Q a s'.
Proof. unfold wp. destruct (m s) as [|[a s']]; [done | eauto]. Qed.

Lemma wp_eq {A} (m : M W A) (Q : A -> sys W -> Prop) s a s' :
  m s = Ok (a, s') -> Q a s' -> wp m Q s.
Proof. intros E HQ. unfold wp. by rewrite E. Qed.

Lemma wp_mono {A} (m : M W A) (Q Q' : A -> sys W -> Prop) s :
  wp m Q s -> (forall a s', Q a s' -> Q' a s') -> wp m Q' s.
Proof. unfold wp. destruct (m s) as [|[a s']]; [done | auto]. Qed.

Lemma wp_and {A} (m : M W A) (Q Q' : A -> sys W -> Prop) s :
  wp m Q s -> wp m Q' s -> wp m (fun a s' => Q a s' /\ Q' a s') s.
Proof. unfold wp. destruct (m s) as [|[a s']]; [done | auto]. Qed.

Lemma wp_bind {A B} (m : M W A) (k : A -> M W B) Q s :
  wp m (fun a s' => wp (k a) Q s') s -> wp (m ≫= k) Q s.
Proof. unfold wp, mbind, M_bind. by destruct (m s) as [|[a s']]. Qed.

Lemma wp_unbind {A B} (m : M W A) (k : A -> M W B) Q s :
  wp (m ≫= k) Q s -> wp m (fun a s' => wp (k a) Q s') s.
Proof. unfold wp, mbind, M_bind. by destruct (m s) as [|[a s']]. Qed.

(** Sequencing after a specification already proved for the first part. *)
Lemma wp_seq {A B} (m : M W A) (k : A -> M W B) R Q s :
  wp m R s -> (forall a s', R a s' -> wp (k a) Q s') -> wp (m ≫= k) Q s.
Proof. intros Hm Hk. apply wp_bind. eapply wp_mono; eauto. Qed.

Lemma wp_assoc {A B C} (m : M W A) (k : A -> M W B) (k' : B -> M W C) Q s :
  wp ((m ≫= k) ≫= k') Q s -> wp (m ≫= (fun a => k a ≫= k')) Q s.
Proof. unfold wp, mbind, M_bind. by destruct (m s) as [|[a s']]. Qed.

Lemma wp_mret {A} (a : A) (Q : A -> sys W -> Prop) s : Q a s -> wp (mret a) Q s.
Proof. done. Qed.

Lemma wp_lift {A} (r : run A) a (Q : A -> sys W -> Prop) s :
  r = Ok a -> Q a s -> wp (lift r) Q s.
Proof. intros -> HQ. exact HQ. Qed.

Lemma wp_gets {A} (f : sys W -> A) (Q : A -> sys W -> Prop) s : Q (f s) s -> wp (gets f) Q s.
Proof. done. Qed.

Lemma wp_modify f (Q : unit -> sys W -> Prop) s : Q tt (f s) -> wp (modify f) Q s.
Proof. done. Qed.

Lemma wp_client (Q : r_client -> sys W -> Prop) s : Q (s_client s) s -> wp client Q s.
Proof. done. Qed.

Lemma wp_cfg (Q : client_fixed -> sys W -> Prop) s : Q (cl_fixed (s_client s)) s -> wp cfg Q s.
Proof. done. Qed.

Lemma wp_upd_client f (Q : unit -> sys W -> Prop) s :
  Q tt (set_client (f (s_client s)) s) -> wp (upd_client f) Q s.
Proof. done. Qed.

Lemma wp_emit e (Q : unit -> sys W -> Prop) s :
  Q tt (set_trace (s_trace s ++ [e]) s) -> wp (emit e) Q s.
Proof. done. Qed.

Lemma wp_get_req p r (Q : r_client_req -> sys W -> Prop) s :
  s_reqs s !! p = Some r -> Q r s -> wp (get_req p) Q s.
Proof. intros E HQ. unfold wp, get_req. by rewrite E. Qed.

Lemma wp_upd_req p r f (Q : unit -> sys W -> Prop) s :
  s_reqs s !! p = Some r -> Q tt (set_reqs (<[p := f r]> (s_reqs s)) s) -> wp (upd_req p f) Q s.
Proof. intros E HQ. unfold wp, upd_req. by rewrite E. Qed.

Lemma wp_get_refresh p r (Q : r_dns_refresh -> sys W -> Prop) s :
  s_refreshes s !! p = Some r -> Q r s -> wp (get_refresh p) Q s.
Proof. intros E HQ. unfold wp, get_refresh. by rewrite E. Qed.

Lemma wp_upd_refresh p r f (Q : unit -> sys W -> Prop) s :
  s_refreshes s !! p = Some r ->
  Q tt (set_refreshes (<[p := f r]> (s_refreshes s)) s) -> wp (upd_refresh p f) Q s.
Proof. intros E HQ. unfold wp, upd_refresh. by rewrite E. Qed.

Lemma wp_get_lookup p r (Q : r_dns_lookup_ctx -> sys W -> Prop) s :
  s_lookups s !! p = Some r -> Q r s -> wp (get_lookup p) Q s.
Proof. intros E HQ. unfold wp, get_lookup. by rewrite E. Qed.

Lemma wp_upd_lookup p r f (Q : unit -> sys W -> Prop) s :
  s_lookups s !! p = Some r ->
  Q tt (set_lookups (<[p := f r]> (s_lookups s)) s) -> wp (upd_lookup p f) Q s.
Proof. intros E HQ. unfold wp, upd_lookup. by rewrite E. Qed.

Lemma wp_get_adm u a (Q : r_admission_request -> sys W -> Prop) s :
  s_adms s !! u = Some a -> Q a s -> wp (get_adm u) Q s.
Proof. intros E HQ. unfold wp, get_adm. by rewrite E. Qed.

Lemma wp_upd_adm u a f (Q : unit -> sys W -> Prop) s :
  s_adms s !! u = Some a -> Q tt (set_adms (<[u := f a]> (s_adms s)) s) -> wp (upd_adm u f) Q s.
Proof. intros E HQ. unfold wp, upd_adm. by rewrite E. Qed.

Lemma wp_free_lookup p r (Q : unit -> sys W -> Prop) s :
  s_lookups s !! p = Some r -> Q tt (set_lookups (delete p (s_lookups s)) s) ->
  wp (free_lookup p) Q s.
Proof. intros E HQ. unfold wp, free_lookup. by rewrite E. Qed.

Lemma wp_free_refresh p r (Q : unit -> sys W -> Prop) s :
  s_refreshes s !! p = Some r -> Q tt (set_refreshes (delete p (s_refreshes s)) s) ->
  wp (free_refresh p) Q s.
Proof. intros E HQ. unfold wp, free_refresh. by rewrite E. Qed.

(** A loop whose body preserves [I]. *)
Lemma wp_for_each {A} (l : list A) (f : A -> M W unit) (I : sys W -> Prop) s :
  I s -> (forall x s', x ∈ l -> I s' -> wp (f x) (fun _ => I) s') ->
  wp (for_each l f) (fun _ => I) s.
Proof.
  revert s; induction l as [|x l IH]; intros s Hs Hf; [exact Hs|].
  simpl. eapply wp_seq; [apply Hf; [left | exact Hs]|].
  intros [] s' Hs'. apply IH; [done|]. intros y s'' Hy. apply Hf. by right.
Qed.

Lemma wp_if {A} (b : bool) (m1 m2 : M W A) Q s :
  (b = true -> wp m1 Q s) -> (b = false -> wp m2 Q s) -> wp (if b then m1 else m2) Q s.
Proof. destruct b; auto. Qed.

Lemma wp_run_hook f s' (Q : unit -> sys W -> Prop) s :
  f s = Ok s' -> Q tt s' -> wp (run_hook f) Q s.
Proof. intros E HQ. unfold wp, run_hook. by rewrite E. Qed.

Context `{Host W}.

Lemma wp_world_op {A} (f : W -> A * W) (Q : A -> sys W -> Prop) s :
  (forall a w, f (s_world s) = (a, w) -> Q a (set_world w s)) -> wp (world_op f) Q s.
Proof. unfold wp, world_op. destruct (f (s_world s)) as [a w]. auto. Qed.

(** An allocation, and what is known of it when the allocator never fails. *)
Lemma wp_alloc (Q : bool -> sys W -> Prop) s :
  (forall b w, (never_fails W -> b = true) -> Q b (set_world w s)) -> wp alloc_ok Q s.
Proof.
  intros HQ. apply wp_world_op. intros b w E. apply HQ. intros Hn. specialize (Hn (s_world s)).
  by rewrite E in Hn.
Qed.

Lemma wp_alloc_ok (Q : bool -> sys W -> Prop) s :
  (forall b w, Q b (set_world w s)) -> wp alloc_ok Q s.
Proof. intros HQ. apply wp_alloc. auto. Qed.

Lemma wp_calloc_lookup x (Q : option ptr -> sys W -> Prop) s :
  (forall w, Q None (set_world w s)) ->
  (forall w, Z.of_nat (size (s_lookups s)) < 2 ^ 60 ->
     Q (Some (s_next s))
       (set_next (S (s_next s)) (set_lookups (<[s_next s := x]> (s_lookups s)) (set_world w s)))) ->
  wp (calloc_lookup x) Q s.
Proof.
  intros HN HS. unfold calloc_lookup. apply wp_bind, wp_alloc_ok. intros b w. unfold wp. simpl.
  unfold mbind, M_bind, gets. simpl.
  destruct (b && (Z.of_nat (size (s_lookups s)) <? 2 ^ 60)) eqn:E; simpl; [|apply HN].
  breflect. by apply HS.
Qed.
Lemma wp_new_refresh x (Q : ptr -> sys W -> Prop) s :
  Q (s_next s) (set_next (S (s_next s)) (set_refreshes (<[s_next s := x]> (s_refreshes s)) s)) ->
  wp (new_refresh x) Q s.
Proof. done. Qed.
Lemma wp_new_req x (Q : ptr -> sys W -> Prop) s :
  Q (s_next s) (set_next (S (s_next s)) (set_reqs (<[s_next s := x]> (s_reqs s)) s)) ->
  wp (new_req x) Q s.
Proof. done. Qed.
End Wp.

#[global] Arguments wp : simpl never.

(** One symbolic step: reassociate to the head command and apply its rule. *)
Ltac wp_step :=
  lazymatch goal with
  | |- wp (mbind _ _) _ _ => apply wp_bind
  | |- wp (mret _) _ _ => apply wp_mret
  | |- wp client _ _ => apply wp_client
  | |- wp cfg _ _ => apply wp_cfg
  | |- wp (upd_client _) _ _ => apply wp_upd_client
  | |- wp (modify _) _ _ => apply wp_modify
  | |- wp (emit _) _ _ => apply wp_emit
  | |- wp (get_req _) _ _ => eapply wp_get_req; [eassumption|]
  | |- wp (upd_req _ _) _ _ => eapply wp_upd_req; [eassumption|]
  | |- wp (get_refresh _) _ _ => eapply wp_get_refresh; [eassumption|]
  | |- wp (upd_refresh _ _) _ _ => eapply wp_upd_refresh; [eassumption|]
  | |- wp (get_lookup _) _ _ => eapply wp_get_lookup; [eassumption|]
  | |- wp (upd_lookup _ _) _ _ => eapply wp_upd_lookup; [eassumption|]
  | |- wp (get_adm _) _ _ => eapply wp_get_adm; [eassumption|]
  | |- wp (upd_adm _ _) _ _ => eapply wp_upd_adm; [eassumption|]
  | |- wp alloc_ok _ _ => apply wp_alloc_ok; intros ? ?
  | |- wp (if ?b then _ else _) _ _ => apply wp_if; intros ?
  end.
