(* ===== verification/Dns.v ===== *)
(** * DNS discovery (src/r_client.c 537-943, 1394-1404)

    The refresh object, its lookups and their resolver callbacks.  A resolver
    may call back before [resolve_srv] or [resolve_addrs] returns, later, or
    from [cancel]; a lookup's memory is freed exactly once on each of these
    paths, which [DnsFacts] proves.

    A pointer argument that every caller passes non-null is a [ptr]; the
    source's NULL test on it is then vacuous. *)

From Stdlib Require Import String Ascii.
From S2P Require Import Prelude.
From S2P Require Import Types.
From S2P Require Import Wire.
From S2P Require Import Crypto.
From S2P Require Import Workflow.
From S2P Require Import State.

(** [strchr]: the index of the first [c] before the end of the string. *)
Fixpoint strchr (s : list Z) (c : Z) : run (option Z) :=
  match s with
  | [] => UB
  | b :: s' =>
      if b =? c then Ok (Some 0) else if b =? 0 then Ok None
      else r ← strchr s' c; Ok (option_map Z.succ r)
  end.

(** One digit of the label [s-<decimal>]; [Return] leaves with 0. *)
Definition server_id_digit (target : list Z) (i value : Z) : run (flow Z unit) :=
  c ← rd target i;
  if (c <? chr "0") || (chr "9" <? c) then Ok (Return tt)
  else Ok (Next ((value *64 10) +64 (c - chr "0"))).

Definition r_parse_server_id_from_target (target : option (list Z)) (ok : option bool)
  : run (Z * option bool) :=
  let ok := store ok false in
  match target with
  | None => Ok (0, ok)
  | Some t =>
      dot ← strchr t (chr ".");
      len ← match dot with Some d => Ok d | None => strlen t end;
      if len <? 3 then Ok (0, ok) else
      c0 ← rd t 0; c1 ← rd t 1;
      if negb (c0 =? chr "s") || negb (c1 =? chr "-") then Ok (0, ok) else
      f ← for_flow (Z.to_nat (len - 2)) 2 (server_id_digit t) 0;
      match f with
      | Return _ => Ok (0, ok)
      | Next value => Ok (value, store ok true)
      end
  end.

(** [sizeof (r_addr_t)] and [sizeof (r_server_endpoint_t)]. *)
Definition ADDR_SIZE : Z := 136.
Definition SERVER_ENDPOINT_SIZE : Z := 152.

(** [htons (port)] in memory. *)
Definition htons_bytes (port : Z) : list Z := [Z.land (Z.shiftr port 8) 0xff; Z.land port 0xff].

Definition r_addr_set_port (addr : r_addr) (port : Z) : run r_addr :=
  family ← r_le16 (ad_sa addr) 0;
  if family =? AF_INET then
    sa ← wr (ad_sa addr) 2 (htons_bytes port); Ok (mk_addr sa SOCKADDR_IN_SIZE)
  else if family =? AF_INET6 then
    sa ← wr (ad_sa addr) 2 (htons_bytes port); Ok (mk_addr sa SOCKADDR_IN6_SIZE)
  else Ok addr.

Section Dns.
Context {W : Type} `{Host W}.

(** A growable array of elements of [size] bytes: doubled from 4 with
    [realloc] when full; [None] when that fails, as every allocation of more
    than PTRDIFF_MAX bytes does.  A store past the capacity is undefined. *)
Definition grow (size count cap : Z) : M W (option Z) :=
  if count =? cap then
    let next_cap := if cap =? 0 then 4 else cap *64 2 in
    ok ← alloc_ok;
    mret (if (ok : bool) && (next_cap *64 size <? 2 ^ 63) then Some next_cap else None)
  else mret (Some cap).
Definition push {A} (l : list A) (cap : Z) (x : A) : M W (list A) :=
  lift (if zlen l <? cap then Ok (l ++ [x]) else UB).

Definition r_rand_range (max : Z) : M W Z :=
  if max =? 0 then mret 0 else
  r ← rand_bytes 8;
  match r with
  | None => mret 0
  | Some bs =>
      if max +64 1 =? 0 then lift UB else mret (unle bs mod (max +64 1))
  end.

Definition r_dns_refresh_add_endpoint (refresh : ptr) (addr : r_addr) (server_id : Z)
    (has_server_id : bool) : M W Z :=
  rf ← get_refresh refresh;
  cap ← grow SERVER_ENDPOINT_SIZE (zlen (rf_endpoints rf)) (rf_endpoint_cap rf);
  match cap with
  | None => mret (-1)
  | Some cap =>
      es ← push (rf_endpoints rf) cap (mk_endpoint addr server_id has_server_id);
      _ ← upd_refresh refresh (fun rf => set_rf_endpoints es (set_rf_endpoint_cap cap rf));
      mret 0
  end.

Definition r_dns_lookup_free_all (lookups : list ptr) : M W unit :=
  for_each lookups free_lookup.

Definition r_dns_lookup_link (refresh lookup : ptr) : M W unit :=
  upd_refresh refresh (fun rf => set_rf_lookups (lookup :: rf_lookups rf) rf).

(** The first occurrence of the pointer is unlinked. *)
Fixpoint list_unlink (p : ptr) (l : list ptr) : list ptr :=
  match l with
  | [] => []
  | q :: l' => if Nat.eqb q p then l' else q :: list_unlink p l'
  end.

Definition r_dns_lookup_unlink (lookup : ptr) : M W unit :=
  lk ← get_lookup lookup;
  match lk_refresh lk with
  | None => mret tt
  | Some refresh =>
      upd_refresh refresh (fun rf => set_rf_lookups (list_unlink lookup (rf_lookups rf)) rf)
  end.

Definition r_dns_refresh_free (refresh : ptr) : M W unit :=
  rf ← get_refresh refresh;
  _ ← r_dns_lookup_free_all (rf_lookups rf);
  free_refresh refresh.

Definition r_dns_refresh_finish (refresh : ptr) : M W unit :=
  rf ← get_refresh refresh;
  if negb (rf_client rf) || rf_detached rf then r_dns_refresh_free refresh else
  _ ← (if 0 <? zlen (rf_endpoints rf) then
         _ ← upd_client (fun c => set_cl_server_cap (rf_endpoint_cap rf)
                                    (set_cl_servers (rf_endpoints rf) c));
         now ← r_now_ms;
         _ ← upd_client (fun c => set_cl_dns_refresh_ttl_ms (rf_min_ttl_ms rf)
                                    (set_cl_last_dns_refresh_ms now c));
         upd_refresh refresh (fun rf => set_rf_endpoint_cap 0 (set_rf_endpoints [] rf))
       else mret tt);
  _ ← upd_client (set_cl_dns_refresh_inflight false);
  c ← client;
  _ ← (if decide (cl_dns_refresh c = Some refresh)
       then upd_client (set_cl_dns_refresh None) else mret tt);
  r_dns_refresh_free refresh.

Definition r_dns_refresh_maybe_complete (refresh : option ptr) : M W unit :=
  match refresh with
  | None => mret tt
  | Some refresh =>
      rf ← get_refresh refresh;
      if negb (rf_pending rf =? 0) || negb (rf_scheduling rf =? 0) then mret tt else
      if rf_detached rf || negb (rf_client rf) then r_dns_refresh_free refresh else
      r_dns_refresh_finish refresh
  end.

Definition dec_pending (refresh : ptr) : M W unit :=
  rf ← get_refresh refresh;
  if 0 <? rf_pending rf then upd_refresh refresh (set_rf_pending (rf_pending rf -64 1))
  else mret tt.
Definition dec_scheduling (refresh : ptr) : M W unit :=
  rf ← get_refresh refresh;
  if 0 <? rf_scheduling rf then upd_refresh refresh (set_rf_scheduling (rf_scheduling rf -64 1))
  else mret tt.

(** [unlink; lookup->refresh = NULL; free (lookup)]. *)
Definition drop_lookup (lookup : ptr) : M W unit :=
  _ ← r_dns_lookup_unlink lookup;
  _ ← upd_lookup lookup (set_lk_refresh None);
  free_lookup lookup.

Definition r_dns_lookup_finish (lookup : ptr) : M W unit :=
  lk ← get_lookup lookup;
  let refresh := lk_refresh lk in
  _ ← upd_lookup lookup (set_lk_completed true);
  _ ← match refresh with Some r => dec_pending r | None => mret tt end;
  lk ← get_lookup lookup;
  _ ← (if negb (lk_in_resolver_call lk) then drop_lookup lookup else mret tt);
  r_dns_refresh_maybe_complete refresh.

Definition r_dns_addr_cb_fn (lookup : ptr) (status : Z) (addrs : option (list r_addr))
  : M W unit :=
  lk ← get_lookup lookup;
  match lk_refresh lk with
  | None => mret tt
  | Some refresh =>
      rf ← get_refresh refresh;
      _ ← (match addrs with
           | Some ads =>
               if negb (rf_detached rf) && rf_client rf && (status =? 0) && (0 <? zlen ads) then
                 for_each ads (fun addr =>
                   addr ← lift (r_addr_set_port addr (lk_port lk));
                   _ ← r_dns_refresh_add_endpoint refresh addr (lk_server_id lk)
                         (lk_has_server_id lk);
                   mret tt)
               else mret tt
           | None => mret tt
           end);
      r_dns_lookup_finish lookup
  end.

(** A resolver's [cancel] may deliver the cancelled lookup's callback.  The
    refresh is detached by then, and both callbacks only finish the lookup. *)
Definition resolver_cancel (lookup : ptr) (req_id : Z) : M W unit :=
  _ ← emit (EvDnsCancel req_id);
  called ← world_op (h_cancel req_id);
  if (called : bool) then r_dns_addr_cb_fn lookup RCLIENT_ERR_DNS None else mret tt.

Definition r_dns_refresh_cancel_lookups (refresh : ptr) (has_client : bool) : M W unit :=
  c ← cfg;
  if negb has_client || negb (cf_resolver_cancel c) then mret tt else
  rf ← get_refresh refresh;
  for_each (rf_lookups rf) (fun lookup =>
    lk ← get_lookup lookup;
    if negb (lk_completed lk) && lk_has_req_id lk
    then resolver_cancel lookup (lk_req_id lk) else mret tt).

Definition r_dns_refresh_detach (refresh : ptr) : M W unit :=
  rf ← get_refresh refresh;
  let has_client := rf_client rf in
  _ ← (if has_client then
         c ← client;
         _ ← (if decide (cl_dns_refresh c = Some refresh)
              then upd_client (set_cl_dns_refresh None) else mret tt);
         upd_client (set_cl_dns_refresh_inflight false)
       else mret tt);
  _ ← upd_refresh refresh (fun rf => set_rf_scheduling (rf_scheduling rf +64 1)
                                       (set_rf_detached true rf));
  _ ← r_dns_refresh_cancel_lookups refresh has_client;
  _ ← dec_scheduling refresh;
  _ ← upd_refresh refresh (set_rf_client false);
  r_dns_refresh_maybe_complete (Some refresh).

(** The bookkeeping both schedulers share: before the resolver call, and
    after it with the resolver's return code and request id. *)
Definition lookup_begin (refresh lookup : ptr) : M W unit :=
  _ ← r_dns_lookup_link refresh lookup;
  upd_refresh refresh (fun rf => set_rf_scheduling (rf_scheduling rf +64 1)
                                   (set_rf_pending (rf_pending rf +64 1) rf)).

Definition lookup_end (refresh lookup : ptr) (rc req_id : Z) : M W Z :=
  lk ← get_lookup lookup;
  _ ← (if (rc =? 0) && negb (lk_completed lk) && negb (req_id =? 0)
       then upd_lookup lookup (fun lk => set_lk_has_req_id true (set_lk_req_id req_id lk))
       else mret tt);
  _ ← (if negb (rc =? 0) && negb (lk_completed lk) then
         _ ← upd_lookup lookup (set_lk_completed true); dec_pending refresh
       else mret tt);
  _ ← upd_lookup lookup (set_lk_in_resolver_call false);
  lk ← get_lookup lookup;
  _ ← (if negb (rc =? 0) || lk_completed lk then drop_lookup lookup else mret tt);
  _ ← dec_scheduling refresh;
  _ ← r_dns_refresh_maybe_complete (Some refresh);
  mret (if rc =? 0 then RCLIENT_OK else RCLIENT_ERR_DNS).

Definition r_dns_schedule_addr_lookup (refresh : ptr) (name : option (list Z)) (port server_id : Z)
    (has_server_id : bool) : M W Z :=
  match name with
  | None => mret RCLIENT_ERR_DNS
  | Some name =>
      rf ← get_refresh refresh;
      if rf_detached rf then mret RCLIENT_ERR_DNS else
      lookup ← calloc_lookup
                 (mk_lookup (Some refresh) 0 false false true port server_id has_server_id);
      match lookup with
      | None => mret RCLIENT_ERR_NOMEM
      | Some lookup =>
          _ ← lookup_begin refresh lookup;
          a ← world_op (h_resolve_addrs name);
          _ ← match aa_sync a with
              | Some (status, addrs) => r_dns_addr_cb_fn lookup status addrs
              | None => mret tt
              end;
          lookup_end refresh lookup (aa_rc a) (aa_req_id a)
      end
  end.

(** One SRV record: the running minimum of the TTLs, and an address lookup
    for a target that names a server id. *)
Fixpoint srv_records (refresh : ptr) (records : list r_srv_record) (min_ttl_ms : Z) : M W Z :=
  match records with
  | [] => mret min_ttl_ms
  | r :: rest =>
      p ← lift (r_parse_server_id_from_target (sv_target r) (Some false));
      ok ← lift (deref (snd p));
      if negb ok then srv_records refresh rest min_ttl_ms else
      let min_ttl_ms :=
        if (0 <? sv_ttl_ms r) && ((min_ttl_ms =? 0) || (sv_ttl_ms r <? min_ttl_ms))
        then sv_ttl_ms r else min_ttl_ms in
      _ ← r_dns_schedule_addr_lookup refresh (sv_target r) (sv_port r) (fst p) true;
      srv_records refresh rest min_ttl_ms
  end.

Definition r_dns_srv_cb_fn (lookup : ptr) (status : Z) (records : option (list r_srv_record))
  : M W unit :=
  lk ← get_lookup lookup;
  match lk_refresh lk with
  | None => mret tt
  | Some refresh =>
      rf ← get_refresh refresh;
      if rf_detached rf || negb (rf_client rf) then r_dns_lookup_finish lookup else
      _ ← (match records with
           | Some rs =>
               if (status =? 0) && (0 <? zlen rs) then
                 min_ttl_ms ← srv_records refresh rs 0;
                 upd_refresh refresh (set_rf_min_ttl_ms min_ttl_ms)
               else mret tt
           | None => mret tt
           end);
      r_dns_lookup_finish lookup
  end.

Definition r_dns_schedule_srv_lookup (refresh : ptr) (name : list Z) : M W Z :=
  rf ← get_refresh refresh;
  if rf_detached rf then mret RCLIENT_ERR_DNS else
  lookup ← calloc_lookup (mk_lookup (Some refresh) 0 false false true 0 0 false);
  match lookup with
  | None => mret RCLIENT_ERR_NOMEM
  | Some lookup =>
      _ ← lookup_begin refresh lookup;
      a ← world_op (h_resolve_srv name);
      _ ← match sa_sync a with
          | Some (status, records) => r_dns_srv_cb_fn lookup status records
          | None => mret tt
          end;
      lookup_end refresh lookup (sa_rc a) (sa_req_id a)
  end.

(** [snprintf (name_buf, 512, "_ratelimitly._udp.%s", dns_name)]: [None] when
    the name does not fit. *)
Definition srv_name (dns_name : option (list Z)) : run (option (list Z)) :=
  name ← deref dns_name;
  n ← strlen name;
  suffix ← rd_bytes name 0 n;
  let out := cbytes "_ratelimitly._udp." ++ suffix in
  Ok (if 512 <=? zlen out then None else Some (out ++ [0])).

Definition r_dns_start_refresh : M W Z :=
  c ← client;
  if cl_dns_refresh_inflight c then mret RCLIENT_OK else
  ok ← alloc_ok;
  if negb ok then mret RCLIENT_ERR_NOMEM else
  refresh ← new_refresh (mk_refresh true false 0 0 [] [] 0 0);
  _ ← upd_client (fun c => set_cl_dns_refresh (Some refresh) (set_cl_dns_refresh_inflight true c));
  f ← cfg;
  name ← lift (srv_name (cf_dns_name f));
  match name with
  | None =>
      _ ← upd_client (fun c => set_cl_dns_refresh None (set_cl_dns_refresh_inflight false c));
      _ ← r_dns_refresh_free refresh;
      mret RCLIENT_ERR_CONFIG
  | Some name =>
      rc ← r_dns_schedule_srv_lookup refresh name;
      c ← client;
      _ ← (if negb (rc =? RCLIENT_OK) && bool_decide (cl_dns_refresh c = Some refresh) then
             rf ← get_refresh refresh;
             if (rf_pending rf =? 0) && (rf_scheduling rf =? 0) then
               _ ← upd_client (fun c => set_cl_dns_refresh None
                                          (set_cl_dns_refresh_inflight false c));
               r_dns_refresh_free refresh
             else mret tt
           else mret tt);
      mret rc
  end.

Definition r_dns_maybe_refresh (force : bool) : M W Z :=
  now_ms ← r_now_ms;
  c ← client;
  let policy := cf_dns_policy (cl_fixed c) in
  let refresh_interval :=
    if dp_refresh_interval_ms policy =? 0 then 300000 else dp_refresh_interval_ms policy in
  let refresh_interval :=
    if (0 <? cl_dns_refresh_ttl_ms c) && (cl_dns_refresh_ttl_ms c <? refresh_interval)
    then cl_dns_refresh_ttl_ms c else refresh_interval in
  if negb force then
    if (cl_last_dns_refresh_ms c =? 0)
       || (refresh_interval <=? now_ms -64 cl_last_dns_refresh_ms c)
    then r_dns_start_refresh else mret RCLIENT_OK
  else
  let min_interval :=
    if dp_forced_refresh_min_interval_ms policy =? 0 then 1000
    else dp_forced_refresh_min_interval_ms policy in
  min_interval ←
    (if 0 <? dp_forced_refresh_jitter_ms policy then
       j ← r_rand_range (dp_forced_refresh_jitter_ms policy); mret (min_interval +64 j)
     else mret min_interval);
  if negb (cl_last_dns_refresh_ms c =? 0)
     && (now_ms -64 cl_last_dns_refresh_ms c <? min_interval)
  then mret RCLIENT_OK else r_dns_start_refresh.
End Dns.
