(* ===== verification/Request.v ===== *)
(** * Requests (src/r_client.c 164-221, 330-535, 945-1516)

    The life of one admission request inside the client: windows and ids, the
    set of servers it may hear from, its packet, sending, the best candidate
    answer, the rounds of its schedule, and completion. *)

From Stdlib Require Import String Ascii.
From S2P Require Import Prelude.
From S2P Require Import Types.
From S2P Require Import Wire.
From S2P Require Import Crypto.
From S2P Require Import Workflow.
From S2P Require Import State.
From S2P Require Import Schedule.
From S2P Require Import Dns.

(** ** Pure helpers *)
Definition R_SERVER_ID_EPOCH_S_2025 : Z := 1735689600.

(** [memcpy] of the first [n] elements of an array. *)
Definition arr_take {A} (l : list A) (n : Z) : run (list A) :=
  if (0 <=? n) && (n <=? zlen l) then Ok (take (Z.to_nat n) l) else UB.

Definition r_addr_equal (a b : r_addr) : run bool :=
  if negb (ad_len a =? ad_len b) then Ok false else
  x ← rd_bytes (ad_sa a) 0 (ad_len a);
  y ← rd_bytes (ad_sa b) 0 (ad_len a);
  Ok (bool_decide (x = y)).

Definition r_server_start_s_from_id (server_id : Z) : Z :=
  R_SERVER_ID_EPOCH_S_2025 +64 Z.shiftr server_id 23.

Definition r_server_is_older (candidate_id current_id : Z) : bool :=
  let candidate_start_s := r_server_start_s_from_id candidate_id in
  let current_start_s := r_server_start_s_from_id current_id in
  (candidate_start_s <? current_start_s)
  || ((candidate_start_s =? current_start_s) && (candidate_id <? current_id)).

Fixpoint oldest_loop (allowed_ids : list Z) (server_id : Z) : bool :=
  match allowed_ids with
  | [] => true
  | candidate :: rest =>
      if candidate =? server_id then oldest_loop rest server_id else
      let candidate_start := r_server_start_s_from_id candidate in
      let server_start := r_server_start_s_from_id server_id in
      if (candidate_start <? server_start)
         || ((candidate_start =? server_start) && (candidate <? server_id))
      then false else oldest_loop rest server_id
  end.
Definition r_is_oldest_known_server (req : r_client_req) (server_id : Z) : bool :=
  oldest_loop (rq_allowed_ids req) server_id.

Definition r_allowed_server_id (req : r_client_req) (server_id : Z) : bool :=
  if zlen (rq_allowed_ids req) =? 0 then true
  else existsb (fun id => id =? server_id) (rq_allowed_ids req).

Definition r_candidate_set (server_id : Z) (steering_feedback success : bool)
    (guards : option (list r_guard_result)) (guard_count : Z)
    (resources : option (list r_resource_result)) (resource_count : Z) : r_candidate :=
  mk_candidate true
    (mk_result success server_id steering_feedback guards guard_count resources resource_count)
    guards resources.

(** The new best candidate and whether the arrays were kept. *)
Definition r_candidate_try_update_best (best : r_candidate) (result : r_rate_limit_result)
    (guards : option (list r_guard_result)) (guard_count : Z)
    (resources : option (list r_resource_result)) (resource_count : Z) : r_candidate * bool :=
  let keep := r_candidate_set (rl_server_id result) (rl_steering_feedback result)
                (rl_success result) guards guard_count resources resource_count in
  if negb (cd_has best) then (keep, true)
  else if r_server_is_older (rl_server_id result) (rl_server_id (cd_result best))
  then (keep, true) else (best, false).

Definition r_rate_window_size_quota (c : client_fixed) : option Z :=
  if negb (cf_has_quotas c) then None else Some (bq_rate_window_size_ms_max (cf_quotas c)).

Definition r_validate_resource_windows (c : client_fixed)
    (resources : option (list r_resource_request)) (resource_count : Z) : run Z :=
  match r_rate_window_size_quota c with
  | None => Ok RCLIENT_OK
  | Some limit =>
      f ← for_flow (Z.to_nat resource_count) 0 (fun i (_ : unit) =>
            rs ← deref resources; r ← elem rs i;
            if limit <? rr_window_size_ms r then Ok (Return RCLIENT_ERR_PROTOCOL)
            else Ok (Next tt)) tt;
      match f with Return rc => Ok rc | Next _ => Ok RCLIENT_OK end
  end.

(** [for (j = 0; j < count; j++)] over the ids kept so far. *)
Definition allowed_ids_add (ids : list Z) (id : Z) : list Z :=
  if existsb (fun x => x =? id) ids then ids else ids ++ [id].

Fixpoint addr_mem (l : list r_addr) (a : r_addr) : run bool :=
  match l with
  | [] => Ok false
  | x :: l' => e ← r_addr_equal x a; if (e : bool) then Ok true else addr_mem l' a
  end.

Definition r_request_target_responded (req : r_client_req) (target : r_server_endpoint) : run bool :=
  if se_has_server_id target
  then Ok (existsb (fun id => id =? se_server_id target) (rq_seen_server_ids req))
  else addr_mem (rq_seen_addrs req) (se_addr target).

(** A packet buffer on the stack; every byte that leaves it is written first. *)
Definition stack_buffer : list Z := replicate (Z.to_nat R_MAX_PACKET_SIZE) 0.

Section Requests.
Context {W : Type} `{Host W} {ssl : OpenSSL}.

(** [r_strdup_n]: [None] when [malloc] fails. *)
Definition r_strdup_n (src : option (list Z)) (len : Z) : M W (option (list Z)) :=
  match src with
  | None => mret None
  | Some s =>
      len ← (if len =? 0 then lift (strlen s) else mret len);
      ok ← alloc_ok;
      if negb ok then mret None else
      bs ← lift (rd_bytes s 0 len);
      mret (Some (bs ++ [0]))
  end.

Definition r_seen_addr_add (req : ptr) (addr : r_addr) : M W Z :=
  r ← get_req req;
  seen ← lift (addr_mem (rq_seen_addrs r) addr);
  if (seen : bool) then mret 0 else
  cap ← grow ADDR_SIZE (zlen (rq_seen_addrs r)) (rq_seen_addr_cap r);
  match cap with
  | None => mret (-1)
  | Some cap =>
      l ← push (rq_seen_addrs r) cap addr;
      _ ← upd_req req (fun r => set_rq_seen_addrs l (set_rq_seen_addr_cap cap r));
      mret 0
  end.

Definition r_seen_server_add (req : ptr) (server_id : Z) : M W Z :=
  r ← get_req req;
  if existsb (fun id => id =? server_id) (rq_seen_server_ids r) then mret 0 else
  cap ← grow 8 (zlen (rq_seen_server_ids r)) (rq_seen_server_id_cap r);
  match cap with
  | None => mret (-1)
  | Some cap =>
      l ← push (rq_seen_server_ids r) cap server_id;
      _ ← upd_req req (fun r => set_rq_seen_server_ids l (set_rq_seen_server_id_cap cap r));
      mret 0
  end.

(** The walk reads every node up to [req]; [None] when [req] is not linked. *)
Fixpoint unlink_walk (l : list ptr) (req : ptr) : M W (option (list ptr)) :=
  match l with
  | [] => mret None
  | q :: l' =>
      _ ← get_req q;
      if decide (q = req) then mret (Some l') else
      r ← unlink_walk l' req;
      mret (option_map (cons q) r)
  end.

Definition r_request_remove (req : ptr) : M W bool :=
  c ← client;
  r ← unlink_walk (cl_inflight c) req;
  match r with
  | None => mret false
  | Some l => _ ← upd_client (set_cl_inflight l); mret true
  end.

(** [r_request_free]: the request and every block it owns. *)
Definition r_request_free (req : ptr) : M W unit :=
  _ ← get_req req;
  _ ← emit (EvFreeReq req);
  modify (fun s => set_reqs (delete req (s_reqs s)) s).

(** The id, or the zeroed output and [RCLIENT_ERR_AUTH]. *)
Definition r_generate_request_id : M W (Z * list Z) :=
  r ← rand_bytes 16;
  match r with
  | None => mret (RCLIENT_ERR_AUTH, replicate 16 0)
  | Some id =>
      b6 ← lift (rd id 6);
      id ← lift (wr id 6 [u8 (Z.lor (Z.land b6 0x0F) 0x40)]);
      b8 ← lift (rd id 8);
      id ← lift (wr id 8 [u8 (Z.lor (Z.land b8 0x3F) 0x80)]);
      mret (RCLIENT_OK, id)
  end.

Definition r_request_snapshot_targets (req : ptr) : M W Z :=
  c ← client;
  if zlen (cl_servers c) =? 0 then mret RCLIENT_ERR_DNS else
  ok ← alloc_ok;
  if negb ok then mret RCLIENT_ERR_NOMEM else
  _ ← upd_req req (set_rq_targets (cl_servers c));
  let has_unknown := existsb (fun e => negb (se_has_server_id e)) (cl_servers c) in
  if negb has_unknown then
    ok ← alloc_ok;
    if negb ok then mret RCLIENT_ERR_NOMEM else
    _ ← upd_req req (set_rq_allowed_ids
          (foldl (fun ids e => allowed_ids_add ids (se_server_id e)) [] (cl_servers c)));
    mret RCLIENT_OK
  else
    _ ← upd_req req (set_rq_allowed_ids []);
    mret RCLIENT_OK.

(** ** Packets *)

(** The authentication block and the PDU behind the tenant header: the part
    of the packet builders after [pos = R_TENANT_TLV_LEN]. *)
Definition seal_packet (c : client_fixed) (out : list Z) (out_cap : Z) (pdu : list Z)
    (pdu_len : Z) : M W (Z * list Z * Z) :=
  let pos := R_TENANT_TLV_LEN in
  if cf_auth_type c =? R_AUTH_COOKIE then
    if negb (cf_has_cookie c) then mret (RCLIENT_ERR_AUTH, out, 0) else
    if out_cap <? (((pos +64 4) +64 32) +64 pdu_len) then mret (RCLIENT_ERR_PROTOCOL, out, 0) else
    out ← lift (r_write_le16 out pos R_TLV_AUTH_COOKIE);
    out ← lift (r_write_le16 out (pos + 2) 36);
    let pos := pos +64 4 in
    cookie ← lift (rd_bytes (cf_cookie c) 0 32);
    out ← lift (wr out pos cookie);
    let pos := pos +64 32 in
    body ← lift (rd_bytes pdu 0 pdu_len);
    out ← lift (wr out pos body);
    let pos := pos +64 pdu_len in
    if R_MAX_PACKET_SIZE <? pos then mret (RCLIENT_ERR_PROTOCOL, out, 0)
    else mret (RCLIENT_OK, out, pos)
  else if cf_auth_type c =? R_AUTH_AES_GCM then
    if negb (cf_has_aes_key c) then mret (RCLIENT_ERR_AUTH, out, 0) else
    if out_cap <? ((((pos +64 4) +64 12) +64 16) +64 pdu_len)
    then mret (RCLIENT_ERR_PROTOCOL, out, 0) else
    out ← lift (r_write_le16 out pos R_TLV_AUTH_AES);
    out ← lift (r_write_le16 out (pos + 2) 32);
    rand ← rand_bytes 12;
    ctx_ok ← (if is_null rand then mret false else alloc_ok);
    e ← lift (r_encrypt_pdu_aes_gcm rand ctx_ok (Some pdu) pdu_len (Some (cf_aes_key c))
                (Some out) (pos +64 4) (zlen stack_buffer)
                (mk_enc_out (Some stack_buffer) (Some 0) (Some (replicate 12 0))
                            (Some (replicate 16 0))));
    let '(rc, o) := e in
    if negb (rc =? 0) then mret (RCLIENT_ERR_AUTH, out, 0) else
    let pos := pos +64 4 in
    cipher_len ← lift (deref (eo_cipher_len o));
    if out_cap <? (((pos +64 12) +64 16) +64 cipher_len)
    then mret (RCLIENT_ERR_PROTOCOL, out, 0) else
    nonce ← lift (deref (eo_nonce o)); nonce ← lift (rd_bytes nonce 0 12);
    out ← lift (wr out pos nonce);
    let pos := pos +64 12 in
    tag ← lift (deref (eo_tag o)); tag ← lift (rd_bytes tag 0 16);
    out ← lift (wr out pos tag);
    let pos := pos +64 16 in
    cipher ← lift (deref (eo_cipher o)); cipher ← lift (rd_bytes cipher 0 cipher_len);
    out ← lift (wr out pos cipher);
    let pos := pos +64 cipher_len in
    if R_MAX_PACKET_SIZE <? pos then mret (RCLIENT_ERR_PROTOCOL, out, 0)
    else mret (RCLIENT_OK, out, pos)
  else mret (RCLIENT_ERR_CONFIG, out, 0).

(** The return code, the output buffer and the length stored on success. *)
Definition r_build_rate_request_packet (req : ptr) (out : list Z) (out_cap : Z)
  : M W (Z * list Z * Z) :=
  c ← cfg;
  r ← get_req req;
  b ← lift (r_build_rate_request_body (rq_resources r) (rq_resource_count r) (rq_guards r)
              (rq_guard_count r) (rq_metrics_label r) (rq_metrics_label_len r)
              (Some stack_buffer) (zlen stack_buffer) (Some 0));
  let '(rc, body, body_len) := b in
  if negb (rc =? RCLIENT_OK) then mret (rc, out, 0) else
  body_len ← lift (deref body_len);
  p ← lift (r_build_rate_request_pdu (rq_dedup_ttl_ms r) body body_len
              (Some stack_buffer) (zlen stack_buffer) (Some 0));
  let '(rc, pdu, pdu_len) := p in
  if negb (rc =? RCLIENT_OK) then mret (rc, out, 0) else
  pdu ← lift (deref pdu); pdu_len ← lift (deref pdu_len);
  unique_id ← lift (rd_bytes (rq_request_id r) 0 16);
  time_stamp ← (if negb (rq_start_ms r =? 0) then mret (rq_start_ms r) else r_now_ms);
  let tenant := mk_tenant R_TLV_TENANT R_TENANT_TLV_LEN (cf_key_id c) unique_id time_stamp
                  0 0 0 0 in
  if out_cap <? R_TENANT_TLV_LEN then mret (RCLIENT_ERR_PROTOCOL, out, 0) else
  w ← lift (r_tenant_header_write (Some tenant) (Some out) R_TENANT_TLV_LEN);
  out ← lift (deref w);
  seal_packet c out out_cap pdu pdu_len.

(** ** Sending *)
Definition r_record_send_failures (failures : Z) : M W unit :=
  if failures =? 0 then mret tt else
  upd_client (fun c =>
    if UINT64_MAX - failures <? cl_send_failure_count c
    then set_cl_send_failure_count UINT64_MAX c
    else set_cl_send_failure_count (cl_send_failure_count c +64 failures) c).

Fixpoint send_loop (targets : list r_server_endpoint) (req : r_client_req) (packet : list Z)
    (missing_only : bool) (attempted delivered : Z) : M W (Z * Z) :=
  match targets with
  | [] => mret (attempted, delivered)
  | t :: rest =>
      skip ← (if missing_only then lift (r_request_target_responded req t) else mret false);
      if (skip : bool) then send_loop rest req packet missing_only attempted delivered else
      rc ← udp_send (se_addr t) packet;
      send_loop rest req packet missing_only (attempted +64 1)
        (if rc =? 0 then delivered +64 1 else delivered)
  end.

Definition r_send_packet_to_targets (req : ptr) (packet : list Z) (packet_len : Z)
    (missing_only best_effort : bool) : M W Z :=
  if packet_len =? 0 then mret RCLIENT_ERR_PROTOCOL else
  c ← cfg;
  if negb (cf_io_udp_send c) then mret RCLIENT_ERR_IO else
  r ← get_req req;
  bytes ← lift (rd_bytes packet 0 packet_len);
  n ← send_loop (rq_targets r) r bytes missing_only 0 0;
  let '(attempted, delivered) := n in
  if negb best_effort && (0 <? attempted) && (delivered =? 0) then mret RCLIENT_ERR_IO else
  _ ← (if negb best_effort && (0 <? delivered) && (delivered <? attempted)
       then r_record_send_failures (attempted -64 delivered) else mret tt);
  mret RCLIENT_OK.

Definition r_send_rate_request (req : ptr) (missing_only best_effort : bool) : M W Z :=
  r ← get_req req;
  if rq_packet_len r =? 0 then mret RCLIENT_ERR_PROTOCOL else
  r_send_packet_to_targets req (rq_packet r) (rq_packet_len r) missing_only best_effort.

Definition r_completion_delivery (req : ptr) : M W unit :=
  c ← cfg;
  if negb (rp_completion_delivery (cf_policy c)) then mret tt else
  now ← r_now_ms;
  r ← get_req req;
  if rq_dedup_deadline_ms r <=? now then mret tt else
  _ ← r_send_rate_request req true true;
  mret tt.

(** ** Receiving *)

(** On success the PDU is the block, an offset into it and a length: either
    the datagram itself or the decryption buffer. *)
Definition r_extract_pdu_data (c : client_fixed) (buf : list Z) (len pos : Z) (pdu_cap : Z)
  : M W (Z * option (list Z * Z * Z)) :=
  a ← lift (r_parse_auth_tlv_header (Some buf) len pos
              (mk_auth_out (Some 0) (Some 0) (Some 0) (Some 0) (Some 0)));
  let '(rc, o) := a in
  if negb (rc =? RCLIENT_OK) then mret (rc, None) else
  auth_type ← lift (deref (ao_type o)); auth_size ← lift (deref (ao_size o));
  auth_body ← lift (deref (ao_body o)); auth_body_len ← lift (deref (ao_body_len o));
  pdu_pos ← lift (deref (ao_pdu_pos o));
  if negb ((cf_auth_type c =? R_AUTH_COOKIE) || (cf_auth_type c =? R_AUTH_AES_GCM))
  then mret (RCLIENT_ERR_CONFIG, None) else
  let expected_type :=
    if cf_auth_type c =? R_AUTH_COOKIE then R_TLV_AUTH_COOKIE else R_TLV_AUTH_AES in
  if negb (auth_type =? expected_type) then mret (RCLIENT_ERR_AUTH, None) else
  if auth_type =? R_TLV_AUTH_COOKIE then
    if negb (auth_size =? 36) || negb (auth_body_len =? 32)
    then mret (RCLIENT_ERR_PROTOCOL, None) else
    if negb (cf_has_cookie c) then mret (RCLIENT_ERR_AUTH, None) else
    got ← lift (rd_bytes buf auth_body 32);
    want ← lift (rd_bytes (cf_cookie c) 0 32);
    if negb (bool_decide (got = want)) then mret (RCLIENT_ERR_AUTH, None) else
    mret (RCLIENT_OK, Some (buf, pdu_pos, len -64 pdu_pos))
  else if auth_type =? R_TLV_AUTH_AES then
    if negb (auth_size =? 32) || negb (auth_body_len =? 28)
    then mret (RCLIENT_ERR_PROTOCOL, None) else
    if negb (cf_has_aes_key c) then mret (RCLIENT_ERR_AUTH, None) else
    if pdu_cap =? 0 then mret (RCLIENT_ERR_PROTOCOL, None) else
    let cipher_len := len -64 pdu_pos in
    if cipher_len =? 0 then mret (RCLIENT_ERR_PROTOCOL, None) else
    ctx_ok ← (if pdu_cap <? cipher_len then mret false else alloc_ok);
    d ← lift (r_decrypt_pdu_aes_gcm ctx_ok (Some buf) pdu_pos cipher_len (Some (cf_aes_key c))
                (Some buf) auth_body (Some buf) (auth_body + 12) (Some buf)
                ((pos +64 4) +64 12) (Some (replicate (Z.to_nat pdu_cap) 0)) pdu_cap (Some 0));
    let '(rc, plain, out_len) := d in
    if negb (rc =? 0) then mret (RCLIENT_ERR_PROTOCOL, None) else
    plain ← lift (deref plain); out_len ← lift (deref out_len);
    mret (RCLIENT_OK, Some (plain, 0, out_len))
  else mret (RCLIENT_ERR_PROTOCOL, None).

(** The PDU as a block of its own: the bytes from the offset on. *)
Definition r_parse_rate_response_alloc (pdu : list Z) (pdu_len : Z)
  : M W (Z * rate_response_out) :=
  let none := mk_response_out None (Some 0) None (Some 0) (Some false) in
  if pdu_len <? R_PDU_HEADER_LEN then mret (RCLIENT_ERR_PROTOCOL, none) else
  pdu_type ← lift (r_le16 pdu 0);
  if negb (pdu_type =? R_PDU_RATE_RESPONSE) then mret (RCLIENT_ERR_PROTOCOL, none) else
  pdu_size ← lift (r_le16 pdu 2);
  if (pdu_size <? R_PDU_HEADER_LEN) || (pdu_len <? pdu_size)
  then mret (RCLIENT_ERR_PROTOCOL, none) else
  let body_len := pdu_size -64 R_PDU_HEADER_LEN in
  if body_len <? 4 then mret (RCLIENT_ERR_PROTOCOL, none) else
  guard_count ← lift (r_le16 pdu R_PDU_HEADER_LEN);
  res_count ← lift (r_le16 pdu (R_PDU_HEADER_LEN + 2));
  g ← (if 0 <? guard_count then
         ok ← alloc_ok;
         mret (if (ok : bool)
               then Some (Some (replicate (Z.to_nat guard_count) guard_result_zero)) else None)
       else mret (Some None));
  match g with
  | None => mret (RCLIENT_ERR_NOMEM, none)
  | Some guards =>
      r ← (if 0 <? res_count then
             ok ← alloc_ok;
             mret (if (ok : bool)
                   then Some (Some (replicate (Z.to_nat res_count) resource_result_zero)) else None)
           else mret (Some None));
      match r with
      | None => mret (RCLIENT_ERR_NOMEM, none)
      | Some resources =>
          p ← lift (r_parse_rate_response_pdu (Some pdu) pdu_size guard_count res_count
                      (mk_response_out guards (Some 0) resources (Some 0) (Some false)));
          let '(rc, o) := p in
          if negb (rc =? RCLIENT_OK) then mret (rc, none) else mret (RCLIENT_OK, o)
      end
  end.

(** ** Rounds *)
Definition r_start_round (req : ptr) (round : Z) : M W Z :=
  c ← cfg;
  let policy := cf_policy c in
  if rp_replay_count policy <? round then mret RCLIENT_ERR_TIMEOUT else
  now ← r_now_ms;
  r ← get_req req;
  if rq_dedup_deadline_ms r <=? now then mret RCLIENT_ERR_TIMEOUT else
  let '(rc, gap) := r_ha_schedule_units (Some (rp_replay_gap policy)) round false (Some 0) in
  if negb (rc =? RCLIENT_OK) then mret rc else
  gap_units ← lift (deref gap);
  let start := if round =? 0 then rq_start_ms r else rq_ha_round_deadline_ms r in
  let deadline := start +64 (rp_unit_ms policy *64 gap_units) in
  _ ← upd_req req (fun r =>
        set_rq_attempt_deadline_ms deadline
        (set_rq_ha_preference_deadline_ms (if round =? 0 then deadline else start)
        (set_rq_ha_round_deadline_ms deadline
        (set_rq_ha_round_start_ms start
        (set_rq_ha_round round
        (set_rq_phase R_REQUEST_PHASE_ROUND r))))));
  r_send_rate_request req (0 <? round) false.

Definition r_enter_final (req : ptr) : M W Z :=
  c ← cfg;
  let policy := cf_policy c in
  if rp_final_receive_units policy =? 0 then mret RCLIENT_ERR_TIMEOUT else
  _ ← upd_req req (fun r =>
        let start := rq_ha_round_deadline_ms r in
        let deadline := start +64 (rp_unit_ms policy *64 rp_final_receive_units policy) in
        set_rq_attempt_deadline_ms deadline
        (set_rq_ha_round_deadline_ms deadline
        (set_rq_ha_preference_deadline_ms start
        (set_rq_ha_round_start_ms start
        (set_rq_phase R_REQUEST_PHASE_FINAL r)))));
  mret RCLIENT_OK.

(** ** Completion *)
Definition r_notify_steering_when_drained : M W unit :=
  c ← client;
  if cl_steering_rebind_pending c && bool_decide (cl_inflight c = [])
     && cf_io_on_steering_feedback (cl_fixed c) then
    _ ← upd_client (set_cl_steering_rebind_pending false);
    call_steering false
  else mret tt.

Definition profile_completion (req : ptr) (status : Z) (selected : bool) : M W unit :=
  c ← cfg;
  if cf_request_profile_cb c then
    completed_ms ← r_now_ms;
    r ← get_req req;
    call_profile (mk_profile
      (if rq_start_ms r <=? completed_ms then completed_ms -64 rq_start_ms r else 0)
      (rq_ha_round r)
      (match rq_phase r with
       | R_REQUEST_PHASE_FINAL => R_REQUEST_COMPLETION_FINAL_RECEIVE
       | R_REQUEST_PHASE_ROUND => R_REQUEST_COMPLETION_ROUND
       end)
      status (selected && cd_has (rq_best r)))
  else mret tt.

(** What follows once the request is unlinked. *)
Definition finish_request (req : ptr) (r : r_client_req) (status : Z) (selected : bool) : M W unit :=
  _ ← upd_client (fun c => set_cl_steering_rebind_pending
                             (cl_steering_rebind_pending c || rq_steering_rebind r) c);
  _ ← (if negb (rq_cb r =? 0)
       then call_complete (rq_cb r) (rq_user r) (Some req) status
              (if selected then Some (cd_result (rq_best r)) else None)
       else mret tt);
  _ ← r_notify_steering_when_drained;
  r_request_free req.

(** [selected] is [&req->best] or NULL. *)
Definition r_request_complete (req : ptr) (status : Z) (selected : bool) : M W unit :=
  _ ← profile_completion req status selected;
  r ← get_req req;
  _ ← (if (status =? RCLIENT_OK) && selected && cd_has (rq_best r)
       then r_completion_delivery req else mret tt);
  _ ← r_request_remove req;
  r ← get_req req;
  finish_request req r status selected.
End Requests.

#[global] Arguments r_server_start_s_from_id : simpl never.
#[global] Arguments r_server_is_older : simpl never.
#[global] Arguments r_addr_equal : simpl never.
#[global] Arguments stack_buffer : simpl never.
#[global] Arguments seal_packet : simpl never.
#[global] Arguments r_build_rate_request_packet : simpl never.
#[global] Arguments r_extract_pdu_data : simpl never.
#[global] Arguments r_parse_rate_response_alloc : simpl never.
