(* ===== verification/Client.v ===== *)
(** * The client API (src/r_client.c 24-51, 1518-2321)

    Creation and destruction, admission requests, latency reports, datagrams,
    timeouts, cancellation, and the identifier and key helpers. *)

From Stdlib Require Import String Ascii.
From S2P Require Import Prelude.
From S2P Require Import Types.
From S2P Require Import Wire.
From S2P Require Import Crypto.
From S2P Require Import Workflow.
From S2P Require Import State.
From S2P Require Import Schedule.
From S2P Require Import Dns.
From S2P Require Import Request.

Definition R_CLIENT_DEFAULT_TENANT_DNS_CAPACITY : Z := 42.

(** [r_client_config_t] with its [r_tenant_config_t]. *)
Record r_client_config := mk_config {
  cc_key_id : Z;
  cc_auth_type : Z;
  cc_auth_secret : option (list Z);
  cc_auth_secret_len : Z;
  cc_dns_name : option (list Z);
  cc_request_policy : option r_request_policy;
  cc_request_profile_cb : bool;
  cc_dns_refresh : r_dns_refresh_policy;
}.

(** Which optional members of [r_io_ops_t] and [r_resolver_ops_t] are set. *)
Record r_ops := mk_ops {
  op_udp_send : bool;
  op_now_ms : bool;
  op_on_steering_feedback : bool;
  op_cancel : bool;
}.

(** ["%" PRIu64]: at most 20 digits. *)
Fixpoint dec_digits (fuel : nat) (n : Z) (acc : list Z) : list Z :=
  match fuel with
  | O => acc
  | S fuel' =>
      let acc := (chr "0" + n mod 10) :: acc in
      if n / 10 =? 0 then acc else dec_digits fuel' (n / 10) acc
  end.
Definition dec_u64 (n : Z) : list Z := dec_digits 20 n [].

Definition default_tenant_dns (key_id : Z) : list Z :=
  cbytes "c-" ++ dec_u64 key_id ++ cbytes ".p0.ratelimitly.com".

(** [snprintf] stores at most [out_capacity - 1] characters and a NUL. *)
Definition r_client_format_default_tenant_dns (key_id : Z) (out : option (list Z))
    (out_capacity : Z) : run (Z * option (list Z)) :=
  match out with
  | None => Ok (RCLIENT_ERR_CONFIG, out)
  | Some o =>
      if out_capacity =? 0 then Ok (RCLIENT_ERR_CONFIG, out) else
      o ← wr o 0 [0];
      let text := default_tenant_dns key_id in
      let written := zlen text in
      o ← wr o 0 (take (Z.to_nat (out_capacity - 1)) text ++ [0]);
      if out_capacity <=? written then
        o ← wr o 0 [0]; Ok (RCLIENT_ERR_CONFIG, Some o)
      else Ok (RCLIENT_OK, Some o)
  end.

(** A client as [calloc] and the copies of the caller's tables leave it. *)
Definition client_blank (config : r_client_config) (ops : r_ops) : r_client :=
  mk_client
    (mk_fixed (cc_key_id config) (cc_auth_type config) (cc_request_profile_cb config)
       (cc_dns_refresh config) (mk_policy 0 0 (mk_schedule 0 0 0 0) 0 false)
       (op_udp_send ops) (op_now_ms ops) (op_on_steering_feedback ops) (op_cancel ops)
       None None 0 false quotas_zero (replicate 32 0) false (replicate 32 0) false)
    [] 0 0 0 0 false [] false None.

Inductive out_ref : Type := OutNull | OutVar (v : option ptr) | OutHandle (u : Z).

Section Client.
Context {W : Type} `{Host W} {ssl : OpenSSL}.

Definition upd_fixed (f : client_fixed -> client_fixed) : M W unit :=
  upd_client (fun c => set_cl_fixed (f (cl_fixed c)) c).

(** The outcomes of the decoder's four allocations. *)
Definition decoder_allocs : M W allocs :=
  a ← alloc_ok; b ← alloc_ok; c ← alloc_ok; d ← alloc_ok;
  mret (fun n => match n with 0%nat => a | 1%nat => b | 2%nat => c | _ => d end).

Definition r_client_configure_auth (tenant : r_client_config) : M W Z :=
  match cc_auth_secret tenant with
  | None => mret RCLIENT_ERR_CONFIG
  | Some secret =>
      auth_secret_len ← (if cc_auth_secret_len tenant =? 0 then lift (strlen secret)
                         else mret (cc_auth_secret_len tenant));
      dup ← r_strdup_n (Some secret) (cc_auth_secret_len tenant);
      if is_null dup then mret RCLIENT_ERR_NOMEM else
      _ ← upd_fixed (fun f => set_cf_auth_secret_len auth_secret_len (set_cf_auth_secret dup f));
      mem ← decoder_allocs;
      f ← cfg;
      d ← lift (r_decode_api_key_bech32_with_quotas mem dup 64
                  (mk_key_out (Some 0) (Some 0) (Some (replicate 64 0)) (Some 0)
                              (Some (cf_quotas f))));
      let '(decode_rc, o) := d in
      quotas ← lift (deref (ko_quotas o));
      _ ← upd_fixed (set_cf_quotas quotas);
      decoded_secret_len ← lift (deref (ko_secret_len o));
      decoded_type ← lift (deref (ko_type o));
      decoded_key_id ← lift (deref (ko_key_id o));
      decoded_secret ← lift (deref (ko_secret o));
      status ←
        (if negb (decode_rc =? 0) || negb (decoded_secret_len =? 32) then mret RCLIENT_ERR_CONFIG
         else if negb (cc_auth_type tenant =? 0) && negb (decoded_type =? cc_auth_type tenant)
         then mret RCLIENT_ERR_CONFIG
         else if negb (cc_key_id tenant =? 0) && negb (decoded_key_id =? cc_key_id tenant)
         then mret RCLIENT_ERR_CONFIG
         else if decoded_type =? R_AUTH_COOKIE then
           bs ← lift (rd_bytes decoded_secret 0 32);
           _ ← upd_fixed (fun f => set_cf_has_cookie true (set_cf_cookie bs f));
           mret RCLIENT_OK
         else if decoded_type =? R_AUTH_AES_GCM then
           bs ← lift (rd_bytes decoded_secret 0 32);
           _ ← upd_fixed (fun f => set_cf_has_aes_key true (set_cf_aes_key bs f));
           mret RCLIENT_OK
         else mret RCLIENT_ERR_CONFIG);
      if negb (status =? RCLIENT_OK) then mret status else
      _ ← upd_fixed (fun f => set_cf_auth_type decoded_type
                                (set_cf_key_id decoded_key_id (set_cf_has_quotas true f)));
      mret RCLIENT_OK
  end.

Definition r_client_configure_dns (dns_override : option (list Z)) : M W Z :=
  empty ← (match dns_override with
           | None => mret true
           | Some n => c ← lift (rd n 0); mret (c =? 0)
           end);
  f ← cfg;
  name ← (if (empty : bool) then
            lift (r_client_format_default_tenant_dns (cf_key_id f)
                    (Some (replicate (Z.to_nat R_CLIENT_DEFAULT_TENANT_DNS_CAPACITY) 0))
                    R_CLIENT_DEFAULT_TENANT_DNS_CAPACITY)
          else mret (RCLIENT_OK, dns_override));
  let '(status, dns_name) := name in
  if negb (status =? RCLIENT_OK) then mret status else
  dup ← r_strdup_n dns_name 0;
  if is_null dup then mret RCLIENT_ERR_NOMEM else
  _ ← upd_fixed (set_cf_dns_name dup);
  mret RCLIENT_OK.

(** [OPENSSL_cleanse (block, n)]. *)
Definition cleanse (block : list Z) (n : Z) : run (list Z) := fill block 0 0 n.

Definition wipe_credential : M W unit :=
  f ← cfg;
  _ ← match cf_auth_secret f with
      | Some s => s' ← lift (cleanse s (cf_auth_secret_len f));
                  _ ← upd_fixed (set_cf_auth_secret (Some s'));
                  emit (EvFree BLOCK_AUTH_SECRET)
      | None => mret tt
      end;
  cookie ← lift (cleanse (cf_cookie f) 32);
  aes_key ← lift (cleanse (cf_aes_key f) 32);
  upd_fixed (fun f => set_cf_aes_key aes_key (set_cf_cookie cookie f)).

(** Freeing a NULL pointer does nothing; the servers are NULL until their array
    has a capacity.  The last block is the client itself: nothing refers to it
    any more. *)
Definition r_client_destroy : M W unit :=
  c ← client;
  _ ← for_each (cl_inflight c) r_request_free;
  c ← client;
  _ ← match cl_dns_refresh c with Some r => r_dns_refresh_detach r | None => mret tt end;
  c ← client;
  _ ← (if cl_server_cap c =? 0 then mret tt else emit (EvFree BLOCK_SERVERS));
  _ ← (if is_null (cf_dns_name (cl_fixed c)) then mret tt else emit (EvFree BLOCK_DNS_NAME));
  _ ← wipe_credential;
  emit (EvFree BLOCK_CLIENT).

(** The status and whether [*out_client] was set. *)
Definition r_client_create (config : option r_client_config) (ops : option r_ops)
    (out_client : bool) : M W (Z * bool) :=
  match config, ops with
  | Some config, Some ops =>
      if negb out_client then mret (RCLIENT_ERR_CONFIG, false) else
      if is_null (cc_auth_secret config) then mret (RCLIENT_ERR_CONFIG, false) else
      ok ← alloc_ok;
      if negb ok then mret (RCLIENT_ERR_NOMEM, false) else
      _ ← upd_client (fun _ => client_blank config ops);
      status ← r_client_configure_auth config;
      if negb (status =? RCLIENT_OK) then _ ← r_client_destroy; mret (status, false) else
      status ← r_client_configure_dns (cc_dns_name config);
      if negb (status =? RCLIENT_OK) then _ ← r_client_destroy; mret (status, false) else
      policy ← (match cc_request_policy config with
                | Some p => mret p
                | None => f ← cfg;
                          lift (deref (r_client_default_request_policy (Some (cf_policy f))))
                end);
      _ ← upd_fixed (set_cf_policy policy);
      _ ← upd_client (fun c => set_cl_inflight [] (set_cl_server_cap 0 (set_cl_servers []
             (set_cl_dns_refresh_inflight false (set_cl_last_dns_refresh_ms 0 c)))));
      _ ← r_dns_maybe_refresh true;
      mret (RCLIENT_OK, true)
  | _, _ => mret (RCLIENT_ERR_CONFIG, false)
  end.

(** ** Admission requests *)

(** The [out_req] argument: NULL, a variable of the caller, or the [handle] of
    an admission request. *)
Definition store_req (out : out_ref) (p : option ptr) : M W out_ref :=
  match out with
  | OutNull => mret OutNull
  | OutVar _ => mret (OutVar p)
  | OutHandle u => _ ← upd_adm u (set_ad_handle p); mret out
  end.

(** No resources and no guards: admitted at once. *)
Definition admit_empty (cb user : Z) : M W unit :=
  c ← cfg;
  _ ← (if cf_request_profile_cb c
       then call_profile (mk_profile 0 0 R_REQUEST_COMPLETION_ROUND RCLIENT_OK false)
       else mret tt);
  call_complete cb user None RCLIENT_OK (Some (mk_result true 0 false None 0 None 0)).

(** The caller's arrays: borrowed, or copied to blocks of the request. *)
Definition copy_resources (req : ptr) (resources : option (list r_resource_request))
    (resource_count : Z) (borrowed : bool) : M W Z :=
  if negb (0 <? resource_count) then mret RCLIENT_OK else
  if borrowed then
    _ ← upd_req req (fun r => set_rq_owns_resources false
          (set_rq_resource_count resource_count (set_rq_resources resources r)));
    mret RCLIENT_OK
  else
    ok ← alloc_ok;
    if negb ok then mret RCLIENT_ERR_NOMEM else
    rs ← lift (deref resources); rs ← lift (arr_take rs resource_count);
    _ ← upd_req req (fun r => set_rq_owns_resources true
          (set_rq_resource_count resource_count (set_rq_resources (Some rs) r)));
    mret RCLIENT_OK.

Definition copy_guards (req : ptr) (guards : option (list r_latency_guard))
    (guard_count : Z) (borrowed : bool) : M W Z :=
  if negb (0 <? guard_count) then mret RCLIENT_OK else
  if borrowed then
    _ ← upd_req req (fun r => set_rq_owns_guards false
          (set_rq_guard_count guard_count (set_rq_guards guards r)));
    mret RCLIENT_OK
  else
    ok ← alloc_ok;
    if negb ok then mret RCLIENT_ERR_NOMEM else
    gs ← lift (deref guards); gs ← lift (arr_take gs guard_count);
    _ ← upd_req req (fun r => set_rq_owns_guards true
          (set_rq_guard_count guard_count (set_rq_guards (Some gs) r)));
    mret RCLIENT_OK.

Definition copy_label (req : ptr) (metrics_label : option (list Z)) (metrics_label_len : Z)
    (borrowed : bool) : M W Z :=
  match metrics_label with
  | None => mret RCLIENT_OK
  | Some l =>
      c0 ← lift (rd l 0);
      if c0 =? 0 then mret RCLIENT_OK else
      label_len ← (if metrics_label_len =? 0 then lift (strlen l) else mret metrics_label_len);
      if borrowed then
        _ ← upd_req req (fun r => set_rq_owns_metrics_label false
              (set_rq_metrics_label_len label_len (set_rq_metrics_label (Some l) r)));
        mret RCLIENT_OK
      else
        dup ← r_strdup_n (Some l) label_len;
        if is_null dup then mret RCLIENT_ERR_NOMEM else
        _ ← upd_req req (fun r => set_rq_owns_metrics_label true
              (set_rq_metrics_label_len label_len (set_rq_metrics_label dup r)));
        mret RCLIENT_OK
  end.

(** Identity and lifetime. *)
Definition begin_lifetime (req : ptr) : M W Z :=
  g ← r_generate_request_id;
  let '(rc, id) := g in
  _ ← upd_req req (set_rq_request_id id);
  if negb (rc =? RCLIENT_OK) then mret rc else
  start ← r_now_ms;
  _ ← upd_req req (set_rq_start_ms start);
  c ← cfg;
  t ← lift (r_request_policy_ttl_ms (Some c) (Some 0));
  let '(rc, ttl) := t in
  ttl ← lift (deref ttl);
  _ ← upd_req req (set_rq_dedup_ttl_ms ttl);
  if negb (rc =? RCLIENT_OK) || (ttl =? 0)
  then mret (if negb (rc =? RCLIENT_OK) then rc else RCLIENT_ERR_CONFIG) else
  if UINT64_MAX - ttl <? start then mret RCLIENT_ERR_CONFIG else
  _ ← upd_req req (fun r => set_rq_phase R_REQUEST_PHASE_ROUND
                              (set_rq_dedup_deadline_ms (start +64 ttl) r));
  mret RCLIENT_OK.

(** [r_build_rate_request_packet (req, req->packet, ..., &req->packet_len)]. *)
Definition store_packet (req : ptr) : M W Z :=
  r ← get_req req;
  p ← r_build_rate_request_packet req (rq_packet r) (zlen (rq_packet r));
  let '(rc, packet, packet_len) := p in
  _ ← upd_req req (fun r => set_rq_packet_len (if rc =? RCLIENT_OK then packet_len
                                                else rq_packet_len r) (set_rq_packet packet r));
  mret rc.

(** Identity, lifetime, packet, targets and the first round. *)
Definition launch_request (req : ptr) : M W Z :=
  rc ← begin_lifetime req;
  if negb (rc =? RCLIENT_OK) then mret rc else
  rc ← store_packet req;
  if negb (rc =? RCLIENT_OK) then mret rc else
  rc ← r_request_snapshot_targets req;
  if negb (rc =? RCLIENT_OK) then mret rc else
  r_start_round req 0.

(** Every failure after the allocation frees the request. *)
Definition request_setup (req : ptr) (resources : option (list r_resource_request))
    (resource_count : Z) (guards : option (list r_latency_guard)) (guard_count : Z)
    (metrics_label : option (list Z)) (metrics_label_len : Z) (borrowed : bool) : M W Z :=
  rc ← copy_resources req resources resource_count borrowed;
  if negb (rc =? RCLIENT_OK) then mret rc else
  rc ← copy_guards req guards guard_count borrowed;
  if negb (rc =? RCLIENT_OK) then mret rc else
  rc ← copy_label req metrics_label metrics_label_len borrowed;
  if negb (rc =? RCLIENT_OK) then mret rc else
  launch_request req.

(** Allocate, set up, and link or free. *)
Definition admit_request (resources : option (list r_resource_request)) (resource_count : Z)
    (guards : option (list r_latency_guard)) (guard_count : Z)
    (metrics_label : option (list Z)) (metrics_label_len : Z) (cb user : Z)
    (out_req : out_ref) (borrowed : bool) : M W (Z * out_ref) :=
  ok ← alloc_ok;
  if negb ok then mret (RCLIENT_ERR_NOMEM, out_req) else
  req ← new_req (set_rq_user user (set_rq_cb cb req_zero));
  rc ← request_setup req resources resource_count guards guard_count metrics_label
         metrics_label_len borrowed;
  if negb (rc =? RCLIENT_OK) then _ ← r_request_free req; mret (rc, out_req) else
  _ ← upd_client (fun c => set_cl_inflight (req :: cl_inflight c) c);
  out_req ← store_req out_req (Some req);
  mret (RCLIENT_OK, out_req).

(** The status and [out_req] after the call. *)
Definition r_client_check_rate_limit_async_impl
    (resources : option (list r_resource_request)) (resource_count : Z)
    (guards : option (list r_latency_guard)) (guard_count : Z)
    (metrics_label : option (list Z)) (metrics_label_len : Z) (cb user : Z)
    (out_req : out_ref) (borrowed : bool) : M W (Z * out_ref) :=
  if cb =? 0 then mret (RCLIENT_ERR_CONFIG, out_req) else
  if (0 <? resource_count) && is_null resources then mret (RCLIENT_ERR_CONFIG, out_req) else
  if (0 <? guard_count) && is_null guards then mret (RCLIENT_ERR_CONFIG, out_req) else
  if (resource_count =? 0) && (guard_count =? 0) then
    out_req ← store_req out_req None;
    _ ← admit_empty cb user;
    mret (RCLIENT_OK, out_req)
  else
  f ← cfg;
  rc ← lift (r_validate_resource_windows f resources resource_count);
  if negb (rc =? RCLIENT_OK) then mret (rc, out_req) else
  _ ← r_dns_maybe_refresh false;
  c ← client;
  if zlen (cl_servers c) =? 0 then
    _ ← r_dns_maybe_refresh true; mret (RCLIENT_ERR_DNS, out_req)
  else
  admit_request resources resource_count guards guard_count metrics_label metrics_label_len cb user
    out_req borrowed.

Definition r_client_check_rate_limit_async resources resource_count guards guard_count
    metrics_label metrics_label_len cb user out_req : M W (Z * out_ref) :=
  r_client_check_rate_limit_async_impl resources resource_count guards guard_count
    metrics_label metrics_label_len cb user out_req false.

Definition r_client_check_rate_limit_async_borrowed resources resource_count guards guard_count
    metrics_label metrics_label_len cb user out_req : M W (Z * out_ref) :=
  r_client_check_rate_limit_async_impl resources resource_count guards guard_count
    metrics_label metrics_label_len cb user out_req true.

(** ** Latency reports *)
Fixpoint report_loop (servers : list r_server_endpoint) (packet : list Z) (delivered : Z)
  : M W Z :=
  match servers with
  | [] => mret delivered
  | s :: rest =>
      rc ← udp_send (se_addr s) packet;
      report_loop rest packet (if rc =? 0 then delivered +64 1 else delivered)
  end.

(** The report packet: status, buffer and length. *)
Definition report_packet (f : client_fixed) (reports : option (list r_service_latency_report))
    (report_count : Z) : M W (Z * list Z * Z) :=
  b ← lift (r_build_latency_report_body reports report_count (Some stack_buffer)
              (zlen stack_buffer) (Some 0));
  let '(rc, body, body_len) := b in
  if negb (rc =? RCLIENT_OK) then mret (rc, stack_buffer, 0) else
  body_len ← lift (deref body_len);
  p ← lift (r_build_pdu R_PDU_LATENCY_REPORT body body_len (Some stack_buffer)
              (zlen stack_buffer) (Some 0));
  let '(rc, pdu, pdu_len) := p in
  if negb (rc =? RCLIENT_OK) then mret (rc, stack_buffer, 0) else
  pdu ← lift (deref pdu); pdu_len ← lift (deref pdu_len);
  g ← r_generate_request_id;
  let '(rc, unique_id) := g in
  if negb (rc =? RCLIENT_OK) then mret (rc, stack_buffer, 0) else
  time_stamp ← r_now_ms;
  let tenant := mk_tenant R_TLV_TENANT R_TENANT_TLV_LEN (cf_key_id f) unique_id time_stamp
                  0 0 0 0 in
  w ← lift (r_tenant_header_write (Some tenant) (Some stack_buffer) R_TENANT_TLV_LEN);
  packet ← lift (deref w);
  seal_packet f packet (zlen stack_buffer) pdu pdu_len.

Definition r_client_report_latency (reports : option (list r_service_latency_report))
    (report_count : Z) : M W Z :=
  if is_null reports || (report_count =? 0) then mret RCLIENT_ERR_CONFIG else
  f ← cfg;
  if negb (cf_io_udp_send f) then mret RCLIENT_ERR_IO else
  _ ← r_dns_maybe_refresh false;
  c ← client;
  if zlen (cl_servers c) =? 0 then _ ← r_dns_maybe_refresh true; mret RCLIENT_ERR_DNS else
  s ← report_packet f reports report_count;
  let '(rc, packet, pos) := s in
  if negb (rc =? RCLIENT_OK) then mret rc else
  bytes ← lift (rd_bytes packet 0 pos);
  c ← client;
  delivered ← report_loop (cl_servers c) bytes 0;
  let server_count := zlen (cl_servers c) in
  if (0 <? server_count) && (delivered =? 0) then mret RCLIENT_ERR_IO else
  _ ← (if (0 <? delivered) && (delivered <? server_count)
       then r_record_send_failures (server_count -64 delivered) else mret tt);
  mret RCLIENT_OK.

(** ** Datagrams *)
Fixpoint find_request (l : list ptr) (id : list Z) : M W (option ptr) :=
  match l with
  | [] => mret None
  | p :: l' =>
      r ← get_req p;
      if bool_decide (rq_request_id r = id) then mret (Some p) else find_request l' id
  end.

(** Complete once the preferred server has answered or its window is over. *)
Definition settle_request (req : ptr) (now_ms : Z) : M W unit :=
  r ← get_req req;
  if cd_has (rq_best r)
     && (r_is_oldest_known_server r (rl_server_id (cd_result (rq_best r)))
         || (rq_ha_preference_deadline_ms r <=? now_ms))
  then r_request_complete req RCLIENT_OK true
  else if cd_has (rq_best r)
          && (rq_ha_preference_deadline_ms r <? rq_attempt_deadline_ms r)
  then upd_req req (set_rq_attempt_deadline_ms (rq_ha_preference_deadline_ms r))
  else mret tt.

(** A verified response: steering, the seen sets, the best candidate. *)
Definition accept_response (req : ptr) (tenant : r_tenant_header) (from : r_addr)
    (o : rate_response_out) : M W Z :=
  _ ← (if th_steering_feedback tenant =? 0 then upd_req req (set_rq_steering_rebind true)
       else mret tt);
  now_ms ← r_now_ms;
  _ ← r_seen_addr_add req from;
  _ ← r_seen_server_add req (th_key_id tenant);
  success ← lift (deref (ro_success o));
  guard_count ← lift (deref (ro_guard_count o));
  resource_count ← lift (deref (ro_res_count o));
  let result := mk_result success (th_key_id tenant)
                  (negb (th_steering_feedback tenant =? 0)) None 0 None 0 in
  _ ← upd_req req (fun r => set_rq_best
        (fst (r_candidate_try_update_best (rq_best r) result (ro_guards o) guard_count
                (ro_resources o) resource_count)) r);
  _ ← settle_request req now_ms;
  mret RCLIENT_OK.

Definition r_client_on_datagram (buf : option (list Z)) (len : Z) (from : option r_addr)
  : M W Z :=
  match buf, from with
  | Some buf, Some from =>
      if len =? 0 then mret RCLIENT_ERR_PROTOCOL else
      t ← lift (r_parse_tenant_header (Some buf) len (Some tenant_zero) (Some 0));
      let '(rc, tenant, pos) := t in
      if negb (rc =? RCLIENT_OK) then mret rc else
      tenant ← lift (deref tenant); pos ← lift (deref pos);
      c ← client;
      found ← find_request (cl_inflight c) (th_unique_id tenant);
      match found with
      | None => mret RCLIENT_OK
      | Some req =>
          now ← r_now_ms;
          r ← get_req req;
          if rq_dedup_deadline_ms r <? now then mret RCLIENT_OK else
          if negb (r_allowed_server_id r (th_key_id tenant)) then mret RCLIENT_OK else
          e ← r_extract_pdu_data (cl_fixed c) buf len pos R_MAX_PACKET_SIZE;
          let '(rc, pdu) := e in
          if negb (rc =? RCLIENT_OK) then mret rc else
          pdu ← lift (deref pdu);
          let '(block, off, pdu_len) := pdu in
          a ← r_parse_rate_response_alloc (drop (Z.to_nat off) block) pdu_len;
          let '(rc, o) := a in
          if negb (rc =? RCLIENT_OK) then mret rc else
          accept_response req tenant from o
      end
  | _, _ => mret RCLIENT_ERR_PROTOCOL
  end.

(** ** Timeouts *)
Definition r_client_request_deadline_ms (req : option ptr) (out_deadline_ms : option Z)
  : M W (Z * option Z) :=
  match req, out_deadline_ms with
  | Some p, Some _ => r ← get_req p; mret (RCLIENT_OK, Some (rq_attempt_deadline_ms r))
  | _, _ => mret (RCLIENT_ERR_CONFIG, out_deadline_ms)
  end.

Definition r_request_policy_on_timeout (req : ptr) (now_ms : Z) : M W Z :=
  r ← get_req req;
  if cd_has (rq_best r) then
    _ ← (if rq_ha_preference_deadline_ms r <=? now_ms
         then r_request_complete req RCLIENT_OK true
         else upd_req req (set_rq_attempt_deadline_ms (rq_ha_preference_deadline_ms r)));
    mret RCLIENT_OK
  else if now_ms <? rq_ha_round_deadline_ms r then
    _ ← upd_req req (set_rq_attempt_deadline_ms (rq_ha_round_deadline_ms r));
    mret RCLIENT_OK
  else
  match rq_phase r with
  | R_REQUEST_PHASE_ROUND =>
      c ← cfg;
      if rq_ha_round r <? rp_replay_count (cf_policy c) then
        rc ← r_start_round req (rq_ha_round r +32 1);
        _ ← (if negb (rc =? RCLIENT_OK) then r_request_complete req rc false else mret tt);
        mret RCLIENT_OK
      else
        rc ← r_enter_final req;
        _ ← (if negb (rc =? RCLIENT_OK) then r_request_complete req rc false else mret tt);
        mret RCLIENT_OK
  | R_REQUEST_PHASE_FINAL =>
      _ ← r_request_complete req RCLIENT_ERR_TIMEOUT false;
      mret RCLIENT_OK
  end.

Definition r_client_on_timeout (req : option ptr) (now_ms : Z) : M W Z :=
  match req with
  | None => mret RCLIENT_ERR_CONFIG
  | Some req =>
      r ← get_req req;
      if now_ms <? rq_attempt_deadline_ms r then mret RCLIENT_OK else
      r_request_policy_on_timeout req now_ms
  end.

Definition r_client_send_failure_count : M W Z := c ← client; mret (cl_send_failure_count c).

Definition r_client_cancel_request (req : option ptr) : M W unit :=
  match req with
  | None => mret tt
  | Some req =>
      removed ← r_request_remove req;
      if negb removed then mret tt else
      _ ← r_request_free req;
      r_notify_steering_when_drained
  end.

(** ** Identifiers and keys *)
Definition r_client_derive_bucket_id (bucket_name : option (list Z)) (bucket_name_len : Z)
    (window_size_ms rate_limit : Z) (out_id : option (list Z)) : run (Z * option (list Z)) :=
  let domain := cstr "ratelimitly.resource.v1" in
  r ← r_hash_content_id_blake2s_128 (Some domain) (zlen domain) bucket_name bucket_name_len
        (Some [window_size_ms; rate_limit]) 2 out_id;
  let '(rc, out) := r in
  Ok (if negb (rc =? 0) then RCLIENT_ERR_CONFIG else RCLIENT_OK, out).

Definition r_client_derive_latency_tracker_id (latency_tracker_name : option (list Z))
    (latency_tracker_name_len : Z) (ttl_ms max_samples min_sample_threshold : Z)
    (out_id : option (list Z)) : run (Z * option (list Z)) :=
  let domain := cstr "ratelimitly.latency-tracker.v2" in
  r ← r_hash_content_id_blake2s_128 (Some domain) (zlen domain) latency_tracker_name
        latency_tracker_name_len (Some [ttl_ms; max_samples; min_sample_threshold]) 3 out_id;
  let '(rc, out) := r in
  Ok (if negb (rc =? 0) then RCLIENT_ERR_CONFIG else RCLIENT_OK, out).
End Client.

Definition r_client_parse_auth_key (mem : allocs) (encoded : option (list Z))
    (out_info : option r_auth_key_info) : run (Z * option r_auth_key_info) :=
  match encoded, out_info with
  | Some _, Some _ =>
      let cleared := Some key_info_zero in
      d ← r_decode_api_key_bech32_with_quotas mem encoded 32
            (mk_key_out (Some 0) (Some 0) (Some (ki_secret key_info_zero)) (Some 0)
                        (Some quotas_zero));
      let '(rc, o) := d in
      if negb (rc =? 0) then Ok (RCLIENT_ERR_CONFIG, cleared) else
      type ← deref (ko_type o); secret_len ← deref (ko_secret_len o);
      if (negb (type =? R_AUTH_COOKIE) && negb (type =? R_AUTH_AES_GCM)) || negb (secret_len =? 32)
      then Ok (RCLIENT_ERR_CONFIG, cleared) else
      key_id ← deref (ko_key_id o); secret ← deref (ko_secret o); q ← deref (ko_quotas o);
      Ok (RCLIENT_OK, Some (mk_key_info (bq_format_version q) type key_id secret secret_len
            (bq_rate_buckets_max q) (bq_latency_services_max q) (bq_metrics_labels_max q)
            (bq_latency_buffer_size_max q) (bq_dedup_ttl_ms_max q)
            (bq_rate_window_size_ms_max q)))
  | _, _ => Ok (RCLIENT_ERR_CONFIG, out_info)
  end.
