(* ===== verification/WorkflowOps.v ===== *)
(** * Admission requests

    The storage operations of src/r_client_workflow.c: preparation, start,
    deadline, timeout, cancellation and the latency report.  A storage is
    caller-owned memory at an address; using an address that is not a storage
    is undefined.  The completion callback is in State.v, with the other
    callbacks. *)

From Stdlib Require Import String Ascii.
From S2P Require Import Prelude.
From S2P Require Import Types.
From S2P Require Import Wire.
From S2P Require Import Crypto.
From S2P Require Import Workflow.
From S2P Require Import State.
From S2P Require Import Schedule.
From S2P Require Import Dns.
From S2P Require Import Request.
From S2P Require Import Client.

Section WorkflowOps.
Context {W : Type} `{Host W} {ssl : OpenSSL}.

(** The id of the resource, written into the storage. *)
Definition prepare_resource (u : Z) (c : r_admission_config) : M W Z :=
  a ← get_adm u;
  name ← lift (deref (ac_bucket_name c));
  name_len ← lift (strlen name);
  '(rc, id) ← lift (r_client_derive_bucket_id (Some name) name_len (ac_window_size_ms c)
                      (ac_rate_limit c) (Some (rr_bucket_id (ad_resource a))));
  id ← lift (deref id);
  if negb (rc =? RCLIENT_OK) then mret RCLIENT_ERR_CONFIG else
  _ ← upd_adm u (set_ad_resource
        (mk_resource_request id (ac_window_size_ms c) (ac_rate_limit c) (ac_tokens_requested c)));
  mret RCLIENT_OK.

Definition prepare_guard (u : Z) (c : r_admission_config) : M W Z :=
  a ← get_adm u;
  name ← lift (deref (ac_latency_tracker_name c));
  name_len ← lift (strlen name);
  '(rc, id) ← lift (r_client_derive_latency_tracker_id (Some name) name_len (ac_latency_ttl_ms c)
                      (ac_latency_max_samples c) (ac_latency_min_sample_threshold c)
                      (Some (lg_latency_tracker_id (ad_guard a))));
  id ← lift (deref id);
  if negb (rc =? RCLIENT_OK) then mret RCLIENT_ERR_CONFIG else
  _ ← upd_adm u (set_ad_guard
        (mk_latency_guard id (ac_latency_threshold_ms c) (ac_latency_ttl_ms c)
           (ac_latency_max_samples c) (ac_latency_min_sample_threshold c)));
  mret RCLIENT_OK.

Definition r_client_admission_prepare (request : option Z) (config : option r_admission_config)
    (callback user : Z) : M W Z :=
  match request with
  | None => mret RCLIENT_ERR_CONFIG
  | Some u =>
      if callback =? 0 then mret RCLIENT_ERR_CONFIG else
      valid ← lift (r_admission_config_valid config);
      if negb valid then mret RCLIENT_ERR_CONFIG else
      c ← lift (deref config);
      _ ← upd_adm u (fun _ => admission_zero);
      rc ← prepare_resource u c;
      if negb (rc =? RCLIENT_OK) then mret RCLIENT_ERR_CONFIG else
      rc ← prepare_guard u c;
      if negb (rc =? RCLIENT_OK) then mret RCLIENT_ERR_CONFIG else
      _ ← upd_adm u (fun a =>
            set_ad_outcome (mk_outcome R_ADMISSION_ERROR (oc_allowed (ad_outcome a))
              (oc_rate_limited (ad_outcome a)) (oc_latency_limited (ad_outcome a))
              (oc_tokens_deficit (ad_outcome a)) (oc_current_latency_ms (ad_outcome a))
              (oc_latency_threshold_ms (ad_outcome a)))
            (set_ad_user user (set_ad_callback callback
            (set_ad_metrics_label (Some (default R_DEFAULT_METRICS_LABEL (ac_metrics_label c))) a))));
      mret RCLIENT_OK
  end.

Definition r_client_admission_start (request : option Z) (config : option r_admission_config)
    (callback user : Z) : M W Z :=
  status ← r_client_admission_prepare request config callback user;
  if negb (status =? RCLIENT_OK) then mret status else
  u ← lift (deref request);
  _ ← upd_adm u (set_ad_active true);
  a ← get_adm u;
  '(status, _) ← r_client_check_rate_limit_async_borrowed (Some [ad_resource a]) 1
      (Some [ad_guard a]) 1 (ad_metrics_label a) 0 r_admission_complete_ptr u (OutHandle u);
  _ ← (if negb (status =? RCLIENT_OK)
       then upd_adm u (fun a => set_ad_active false (set_ad_handle None a)) else mret tt);
  mret status.

(** [!request->active || !request->handle] is false: the handle. *)
Definition active_handle (u : Z) : M W (option ptr) :=
  a ← get_adm u; mret (if ad_active a then ad_handle a else None).

Definition r_client_admission_deadline_ms (request : option Z) (out_deadline_ms : option Z)
    : M W (Z * option Z) :=
  match request with
  | None => mret (RCLIENT_ERR_CONFIG, out_deadline_ms)
  | Some u =>
      h ← active_handle u;
      if is_null h || is_null out_deadline_ms then mret (RCLIENT_ERR_CONFIG, out_deadline_ms) else
      r_client_request_deadline_ms h out_deadline_ms
  end.

Definition r_client_admission_on_timeout (request : option Z) (now_ms : Z) : M W Z :=
  match request with
  | None => mret RCLIENT_ERR_CONFIG
  | Some u =>
      h ← active_handle u;
      if is_null h then mret RCLIENT_ERR_CONFIG else r_client_on_timeout h now_ms
  end.

Definition r_client_admission_cancel (request : option Z) : M W unit :=
  match request with
  | None => mret tt
  | Some u =>
      h ← active_handle u;
      if is_null h then mret tt else
      _ ← r_client_cancel_request h;
      upd_adm u (fun a => set_ad_admitted false (set_ad_active false (set_ad_handle None a)))
  end.

Definition r_client_admission_report_latency (request : option Z) (observed_latency_ms : Z) : M W Z :=
  match request with
  | None => mret RCLIENT_ERR_CONFIG
  | Some u =>
      a ← get_adm u;
      if ad_active a || negb (ad_admitted a) || ad_latency_reported a then mret RCLIENT_ERR_CONFIG else
      let g := ad_guard a in
      let report := mk_latency_report (lg_latency_tracker_id g) observed_latency_ms (lg_ttl_ms g)
                      (lg_max_samples g) (lg_min_sample_threshold g) in
      status ← r_client_report_latency (Some [report]) 1;
      _ ← (if status =? RCLIENT_OK then upd_adm u (set_ad_latency_reported true) else mret tt);
      mret status
  end.
End WorkflowOps.
