(* ===== verification/Frame.v ===== *)
(** * What the client may do to its host

    The client touches the host's state and the trace only through the host's
    operations and its events.  So a relation on states that is reflexive,
    transitive and respected by each of them holds between the states before
    and after any entry point, however it branches.  The results are about runs
    that do not reach undefined behaviour; the theorems of Api.v say that none
    does. *)

From S2P Require Import Prelude.
From S2P Require Import Types.
From S2P Require Import Wire.
From S2P Require Import Crypto.
From S2P Require Import Workflow.
From S2P Require Import State.
From S2P Require Import Schedule.
From S2P Require Import Dns.
From S2P Require Import Request.
From S2P Require Import Client.
From S2P Require Import WorkflowOps.

(** A relation on worlds every operation of the host respects. *)
Class Frame {W : Type} `{Host W} (R : W -> W -> Prop) : Prop := {
  fr_preorder :: PreOrder R;
  fr_now_ms : forall w a w', h_now_ms w = (a, w') -> R w w';
  fr_udp_send : forall to packet w a w', h_udp_send to packet w = (a, w') -> R w w';
  fr_rand_bytes : forall n w a w', h_rand_bytes n w = (a, w') -> R w w';
  fr_alloc : forall w a w', h_alloc w = (a, w') -> R w w';
  fr_resolve_srv : forall name w a w', h_resolve_srv name w = (a, w') -> R w w';
  fr_resolve_addrs : forall name w a w', h_resolve_addrs name w = (a, w') -> R w w';
  fr_cancel : forall id w a w', h_cancel id w = (a, w') -> R w w';
  fr_profile : forall p w, R w (h_profile p w);
  fr_steering : forall keep w, R w (h_steering keep w);
  fr_complete : forall cb user req status res s s',
    h_complete cb user req status res s = Ok s' -> R (s_world s) (s_world s');
  fr_admission : forall cb user status outcome s s',
    h_admission cb user status outcome s = Ok s' -> R (s_world s) (s_world s');
}.

(** A relation on states, for what also depends on the trace: the operations
    may change only the world and emit only events of their own; a
    completion callback runs after its event. *)
Definition silent (e : event) : bool := match e with EvComplete _ _ _ _ _ | EvRead _ => false | _ => true end.

Class Steps {W : Type} `{Host W} (R : sys W -> sys W -> Prop) : Prop := {
  st_preorder :: PreOrder R;
  st_still : forall s s', s_world s' = s_world s -> s_trace s' = s_trace s -> s_next s' = s_next s -> R s s';
  st_event : forall e s, silent e = true -> R s (set_trace (s_trace s ++ [e]) s);
  st_now_ms : forall s a w', h_now_ms (s_world s) = (a, w') -> R s (set_world w' s);
  st_udp_send : forall to packet s a w', h_udp_send to packet (s_world s) = (a, w') -> R s (set_world w' s);
  st_rand_bytes : forall n s a w', h_rand_bytes n (s_world s) = (a, w') -> R s (set_world w' s);
  st_alloc : forall s a w', h_alloc (s_world s) = (a, w') -> R s (set_world w' s);
  st_profile : forall p s, R s (set_world (h_profile p (s_world s)) s);
  st_steering : forall keep s, R s (set_world (h_steering keep (s_world s)) s);
  st_complete : forall cb user req status res s s', cb <> r_admission_complete_ptr ->
    h_complete cb user (Some req) status res (set_trace (s_trace s ++ [EvComplete (Some req) cb user status res]) s) = Ok s' ->
    R s s';
  st_workflow : forall req user status res s,
    R s (set_trace (s_trace s ++ [EvComplete (Some req) r_admission_complete_ptr user status res]) s);
  st_admission : forall cb user status outcome s s',
    h_admission cb user status outcome s = Ok s' -> R s s';
}.

(** The rest of what the entry points do: they allocate, resolve names, and
    complete an admission that needs no request. *)
Class Tracks {W : Type} `{Host W} (R : sys W -> sys W -> Prop) : Prop := {
  tr_steps :: Steps R;
  tr_still : forall s s', s_world s' = s_world s -> s_trace s' = s_trace s -> R s s';
  tr_resolve_srv : forall name s a w', h_resolve_srv name (s_world s) = (a, w') -> R s (set_world w' s);
  tr_resolve_addrs : forall name s a w', h_resolve_addrs name (s_world s) = (a, w') -> R s (set_world w' s);
  tr_cancel : forall id s a w', h_cancel id (s_world s) = (a, w') -> R s (set_world w' s);
  tr_complete : forall cb user status res s s', cb <> r_admission_complete_ptr ->
    h_complete cb user None status res (set_trace (s_trace s ++ [EvComplete None cb user status res]) s) = Ok s' ->
    R s s';
  tr_workflow : forall user status res s,
    R s (set_trace (s_trace s ++ [EvComplete None r_admission_complete_ptr user status res]) s);
}.

(** A relation on worlds, as one on states. *)
Definition on_worlds {W : Type} (R : W -> W -> Prop) (s s' : sys W) : Prop := R (s_world s) (s_world s').

#[export] Instance frame_tracks {W} `{HW : Host W} (R : W -> W -> Prop) {HF : Frame R} : Tracks (on_worlds R).
Proof.
  pose proof (fr_preorder (R := R)) as HP.
  split; [split|..]; unfold on_worlds; cbn.
  - split; [intros s; reflexivity|intros s1 s2 s3 ? ?; by etransitivity].
  - intros s s' -> _ _. reflexivity.
  - reflexivity.
  - intros s a w'. apply fr_now_ms.
  - intros to packet s a w'. apply fr_udp_send.
  - intros n s a w'. apply fr_rand_bytes.
  - intros s a w'. apply fr_alloc.
  - intros p s. apply fr_profile.
  - intros keep s. apply fr_steering.
  - intros cb user req status res s s' _ E. exact (fr_complete _ _ _ _ _ _ _ E).
  - reflexivity.
  - intros cb user status outcome s s'. apply fr_admission.
  - intros s s' -> _. reflexivity.
  - intros name s a w'. apply fr_resolve_srv.
  - intros name s a w'. apply fr_resolve_addrs.
  - intros id s a w'. apply fr_cancel.
  - intros cb user status res s s' _ E. exact (fr_complete _ _ _ _ _ _ _ E).
  - reflexivity.
Qed.

Create HintDb keeps discriminated.
#[export] Hint Constants Opaque : keeps.
#[export] Hint Variables Opaque : keeps.

(** Every run of [m] that ends relates the states at its ends. *)
Definition keeps {W : Type} {HW : Host W} (R : sys W -> sys W -> Prop) {A} (m : M W A) : Prop :=
  forall s a s', m s = Ok (a, s') -> R s s'.

(** ** The monad *)
Section Monad.
Context {W : Type} `{HW : Host W} (R : sys W -> sys W -> Prop) {HS : Steps R}.
Abbreviation keeps := (keeps R).

Lemma keeps_bind {A B} (m : M W A) (k : A -> M W B) :
  keeps m -> (forall a, keeps (k a)) -> keeps (m ≫= k).
Proof.
  intros Hm Hk s b s' E. unfold mbind, M_bind in E. destruct (m s) as [|[a s1]] eqn:Em; [done|].
  etransitivity; [by eapply Hm|by eapply Hk].
Qed.
(** An operation that leaves the world, the trace and the heap's end alone. *)
Lemma keeps_still {A} (m : M W A) :
  (forall s a s', m s = Ok (a, s') ->
     s_world s' = s_world s /\ s_trace s' = s_trace s /\ s_next s' = s_next s) -> keeps m.
Proof. intros Hm s a s' E. destruct (Hm _ _ _ E) as (? & ? & ?). by apply st_still. Qed.
Lemma keeps_mret {A} (a : A) : keeps (mret a).
Proof. apply keeps_still. by intros s b s' [= _ <-]. Qed.
Lemma keeps_lift {A} (r : run A) : keeps (lift r).
Proof. apply keeps_still. intros s a s'. unfold lift. destruct r; [done|]. by intros [= _ <-]. Qed.
Lemma keeps_gets {A} (f : sys W -> A) : keeps (gets f).
Proof. apply keeps_still. by intros s b s' [= _ <-]. Qed.
Lemma keeps_modify f :
  (forall s, s_world (f s) = s_world s /\ s_trace (f s) = s_trace s /\ s_next (f s) = s_next s) -> keeps (modify f).
Proof. intros Hf. apply keeps_still. by intros s b s' [= _ <-]. Qed.
Lemma keeps_world_op {A} (f : W -> A * W) :
  (forall s a w', f (s_world s) = (a, w') -> R s (set_world w' s)) -> keeps (world_op f).
Proof.
  intros Hf s a s'. unfold world_op. destruct (f (s_world s)) as [b w] eqn:E. intros [= _ <-]. by eapply Hf.
Qed.
Lemma keeps_run_hook f : (forall s s', f s = Ok s' -> R s s') -> keeps (run_hook f).
Proof.
  intros Hf s a s'. unfold run_hook. destruct (f s) as [|s1] eqn:E; [done|]. intros [= _ <-]. by apply Hf.
Qed.
Lemma keeps_step f :
  (forall s, R s (set_world (f (s_world s)) s)) -> keeps (modify (fun s => set_world (f (s_world s)) s)).
Proof. intros Hf s a s' [= _ <-]. apply Hf. Qed.
(** A heap operation: what it does when the cell is there leaves the world. *)
Ltac heap := apply keeps_still; intros s ? s' E; cbv beta delta
  [get_req upd_req get_refresh upd_refresh get_lookup upd_lookup get_adm upd_adm  free_lookup free_refresh upd_client emit client cfg modify gets] in E;
  repeat (case_match || simplify_eq); done.
Lemma keeps_client : keeps client. Proof. heap. Qed.
Lemma keeps_cfg : keeps cfg. Proof. heap. Qed.
Lemma keeps_upd_client f : keeps (upd_client f). Proof. heap. Qed.
Lemma keeps_get_req p : keeps (get_req p). Proof. heap. Qed.
Lemma keeps_upd_req p f : keeps (upd_req p f). Proof. heap. Qed.
Lemma keeps_get_refresh p : keeps (get_refresh p). Proof. heap. Qed.
Lemma keeps_upd_refresh p f : keeps (upd_refresh p f). Proof. heap. Qed.
Lemma keeps_get_lookup p : keeps (get_lookup p). Proof. heap. Qed.
Lemma keeps_upd_lookup p f : keeps (upd_lookup p f). Proof. heap. Qed.
Lemma keeps_get_adm u : keeps (get_adm u). Proof. heap. Qed.
Lemma keeps_upd_adm u f : keeps (upd_adm u f). Proof. heap. Qed.
Lemma keeps_free_lookup p : keeps (free_lookup p). Proof. heap. Qed.
Lemma keeps_free_refresh p : keeps (free_refresh p). Proof. heap. Qed.
Lemma keeps_emit e : silent e = true -> keeps (emit e).
Proof. intros He s a s' [= _ <-]. by apply st_event. Qed.
End Monad.

(** One step along the syntax of a computation. *)
Ltac keep :=
  repeat (intros; cbv beta zeta;
    first [ solve [auto 3 with keeps nocore] | solve [apply keeps_emit; (reflexivity || typeclasses eauto)] | apply keeps_bind
          | solve [apply keeps_modify; (done || typeclasses eauto)]
          | match goal with
            | |- keeps _ (match ?x with _ => _ end) => destruct x
            end ]); intros; cbv beta zeta.

(** ** Requests in flight *)
Section Steps.
Context {W : Type} `{HW : Host W} {ssl : OpenSSL} (R : sys W -> sys W -> Prop) {HS : Steps R}.
Abbreviation keeps := (keeps R).

#[local] Hint Resolve keeps_mret keeps_lift keeps_gets keeps_client keeps_cfg keeps_upd_client
  keeps_get_req keeps_upd_req keeps_get_refresh keeps_upd_refresh keeps_get_lookup keeps_upd_lookup
  keeps_get_adm keeps_upd_adm keeps_free_lookup keeps_free_refresh : keeps.

Lemma keeps_for_each {A} (l : list A) (f : A -> M W unit) : (forall x, keeps (f x)) -> keeps (for_each l f).
Proof. intros Hf. induction l as [|x l IH]; cbn [for_each]; keep. Qed.
Lemma keeps_alloc_ok : keeps (alloc_ok).
Proof. apply keeps_world_op, st_alloc. Qed.
#[local] Hint Resolve keeps_alloc_ok : keeps.
Lemma keeps_rand_bytes n : keeps (rand_bytes n).
Proof. apply keeps_world_op, st_rand_bytes. Qed.
#[local] Hint Resolve keeps_rand_bytes : keeps.
Lemma keeps_now_ms : keeps (r_now_ms).
Proof. unfold r_now_ms. keep. apply keeps_world_op, st_now_ms. Qed.
#[local] Hint Resolve keeps_now_ms : keeps.
Lemma keeps_udp_send to packet : keeps (udp_send to packet).
Proof. unfold udp_send. keep. apply keeps_world_op, st_udp_send. Qed.
#[local] Hint Resolve keeps_udp_send : keeps.
Lemma keeps_admission_complete user status result : keeps (r_admission_complete user status result).
Proof. unfold r_admission_complete. keep. apply keeps_run_hook, st_admission. Qed.
#[local] Hint Resolve keeps_admission_complete : keeps.
Lemma keeps_call_complete cb user req status result : keeps (call_complete cb user (Some req) status result).
Proof.
  intros s a s' E. cbv beta iota delta [call_complete emit modify mbind M_bind] in E.
  match type of E with context [match ?m with _ => _ end] => destruct m as [|[b s1]] eqn:E1; [done|] end.
  injection E as _ <-. transitivity s1; [|by apply st_event].
  destruct (Z.eqb_spec cb r_admission_complete_ptr) as [->|Hcb].
  - etransitivity; [apply (st_workflow req user status result)|]. exact (keeps_admission_complete _ _ _ _ _ _ E1).
  - unfold run_hook in E1. destruct (h_complete _ _ _ _ _ _) as [|s2] eqn:E2; [done|]. injection E1 as _ <-.
    exact (st_complete _ _ _ _ _ _ _ Hcb E2).
Qed.
#[local] Hint Resolve keeps_call_complete : keeps.
Lemma keeps_call_profile p : keeps (call_profile p).
Proof. unfold call_profile. keep. apply (keeps_step _ (h_profile p)), st_profile. Qed.
#[local] Hint Resolve keeps_call_profile : keeps.
Lemma keeps_call_steering b : keeps (call_steering b).
Proof. unfold call_steering. keep. apply (keeps_step _ (h_steering b)), st_steering. Qed.
#[local] Hint Resolve keeps_call_steering : keeps.
Lemma keeps_grow size count cap : keeps (grow size count cap).
Proof. unfold grow. keep. Qed.
#[local] Hint Resolve keeps_grow : keeps.
Lemma keeps_push {A} (l : list A) cap x : keeps (push l cap x).
Proof. unfold push. keep. Qed.
#[local] Hint Resolve keeps_push : keeps.
Lemma keeps_r_rand_range max : keeps (r_rand_range max).
Proof. unfold r_rand_range. keep. Qed.
#[local] Hint Resolve keeps_r_rand_range : keeps.
Lemma keeps_r_strdup_n src len : keeps (r_strdup_n src len).
Proof. unfold r_strdup_n. keep. Qed.
#[local] Hint Resolve keeps_r_strdup_n : keeps.
Lemma keeps_r_seen_addr_add p a : keeps (r_seen_addr_add p a).
Proof. unfold r_seen_addr_add. keep. Qed.
#[local] Hint Resolve keeps_r_seen_addr_add : keeps.
Lemma keeps_r_seen_server_add p id : keeps (r_seen_server_add p id).
Proof. unfold r_seen_server_add. keep. Qed.
#[local] Hint Resolve keeps_r_seen_server_add : keeps.
Lemma keeps_unlink_walk l p : keeps (unlink_walk l p).
Proof. induction l as [|q l IH]; cbn [unlink_walk]; keep. Qed.
#[local] Hint Resolve keeps_unlink_walk : keeps.
Lemma keeps_r_request_remove p : keeps (r_request_remove p).
Proof. unfold r_request_remove. keep. Qed.
#[local] Hint Resolve keeps_r_request_remove : keeps.
Lemma keeps_r_request_free p : keeps (r_request_free p).
Proof. unfold r_request_free. keep. Qed.
#[local] Hint Resolve keeps_r_request_free : keeps.
Lemma keeps_r_generate_request_id : keeps (r_generate_request_id).
Proof. unfold r_generate_request_id. keep. Qed.
#[local] Hint Resolve keeps_r_generate_request_id : keeps.
Lemma keeps_r_request_snapshot_targets p : keeps (r_request_snapshot_targets p).
Proof. unfold r_request_snapshot_targets. keep. Qed.
#[local] Hint Resolve keeps_r_request_snapshot_targets : keeps.
Lemma keeps_seal_packet c out cap pdu n : keeps (seal_packet c out cap pdu n).
Proof. unfold seal_packet. keep. Qed.
#[local] Hint Resolve keeps_seal_packet : keeps.
Lemma keeps_r_build_rate_request_packet p out cap : keeps (r_build_rate_request_packet p out cap).
Proof. unfold r_build_rate_request_packet. keep. Qed.
#[local] Hint Resolve keeps_r_build_rate_request_packet : keeps.
Lemma keeps_r_record_send_failures n : keeps (r_record_send_failures n).
Proof. unfold r_record_send_failures. keep. Qed.
#[local] Hint Resolve keeps_r_record_send_failures : keeps.
Lemma keeps_send_loop l r packet mo att del : keeps (send_loop l r packet mo att del).
Proof. revert att del. induction l as [|t l IH]; cbn [send_loop]; keep. Qed.
#[local] Hint Resolve keeps_send_loop : keeps.
Lemma keeps_r_send_packet_to_targets p packet n mo be : keeps (r_send_packet_to_targets p packet n mo be).
Proof. unfold r_send_packet_to_targets. keep. Qed.
#[local] Hint Resolve keeps_r_send_packet_to_targets : keeps.
Lemma keeps_r_send_rate_request p mo be : keeps (r_send_rate_request p mo be).
Proof. unfold r_send_rate_request. keep. Qed.
#[local] Hint Resolve keeps_r_send_rate_request : keeps.
Lemma keeps_r_completion_delivery p : keeps (r_completion_delivery p).
Proof. unfold r_completion_delivery. keep. Qed.
#[local] Hint Resolve keeps_r_completion_delivery : keeps.
Lemma keeps_r_extract_pdu_data c buf len pos cap : keeps (r_extract_pdu_data c buf len pos cap).
Proof. unfold r_extract_pdu_data. keep. Qed.
#[local] Hint Resolve keeps_r_extract_pdu_data : keeps.
Lemma keeps_r_parse_rate_response_alloc pdu n : keeps (r_parse_rate_response_alloc pdu n).
Proof. unfold r_parse_rate_response_alloc. keep. Qed.
#[local] Hint Resolve keeps_r_parse_rate_response_alloc : keeps.
Lemma keeps_r_start_round p round : keeps (r_start_round p round).
Proof. unfold r_start_round. keep. Qed.
#[local] Hint Resolve keeps_r_start_round : keeps.
Lemma keeps_r_enter_final p : keeps (r_enter_final p).
Proof. unfold r_enter_final. keep. Qed.
#[local] Hint Resolve keeps_r_enter_final : keeps.
Lemma keeps_r_notify_steering_when_drained : keeps (r_notify_steering_when_drained).
Proof. unfold r_notify_steering_when_drained. keep. Qed.
#[local] Hint Resolve keeps_r_notify_steering_when_drained : keeps.
Lemma keeps_profile_completion p status sel : keeps (profile_completion p status sel).
Proof. unfold profile_completion. keep. Qed.
#[local] Hint Resolve keeps_profile_completion : keeps.
Lemma keeps_finish_request p r status sel : keeps (finish_request p r status sel).
Proof. unfold finish_request. keep. Qed.
#[local] Hint Resolve keeps_finish_request : keeps.
Lemma keeps_r_request_complete p status sel : keeps (r_request_complete p status sel).
Proof. unfold r_request_complete. keep. Qed.
#[local] Hint Resolve keeps_r_request_complete : keeps.
Lemma keeps_find_request l id : keeps (find_request l id).
Proof. induction l as [|p l IH]; cbn [find_request]; keep. Qed.
#[local] Hint Resolve keeps_find_request : keeps.
Lemma keeps_settle_request p now : keeps (settle_request p now).
Proof. unfold settle_request. keep. Qed.
#[local] Hint Resolve keeps_settle_request : keeps.
Lemma keeps_accept_response p t from o : keeps (accept_response p t from o).
Proof. unfold accept_response. keep. Qed.
#[local] Hint Resolve keeps_accept_response : keeps.
Lemma keeps_r_client_on_datagram buf len from : keeps (r_client_on_datagram buf len from).
Proof. unfold r_client_on_datagram. keep. Qed.
#[local] Hint Resolve keeps_r_client_on_datagram : keeps.
Lemma keeps_r_client_request_deadline_ms p o : keeps (r_client_request_deadline_ms p o).
Proof. unfold r_client_request_deadline_ms. keep. Qed.
#[local] Hint Resolve keeps_r_client_request_deadline_ms : keeps.
Lemma keeps_r_request_policy_on_timeout p now : keeps (r_request_policy_on_timeout p now).
Proof. unfold r_request_policy_on_timeout. keep. Qed.
#[local] Hint Resolve keeps_r_request_policy_on_timeout : keeps.
Lemma keeps_r_client_on_timeout p now : keeps (r_client_on_timeout p now).
Proof. unfold r_client_on_timeout. keep. Qed.
#[local] Hint Resolve keeps_r_client_on_timeout : keeps.
End Steps.

(** ** Every entry point *)
Section Frame.
Context {W : Type} `{HW : Host W} {ssl : OpenSSL} (R : sys W -> sys W -> Prop) {HF : Tracks R}.
Abbreviation keeps := (keeps R).

#[local] Hint Resolve tr_steps keeps_mret keeps_lift keeps_gets keeps_client keeps_cfg keeps_upd_client
  keeps_get_req keeps_upd_req keeps_get_refresh keeps_upd_refresh keeps_get_lookup keeps_upd_lookup
  keeps_get_adm keeps_upd_adm keeps_free_lookup keeps_free_refresh keeps_alloc_ok keeps_rand_bytes
  keeps_now_ms keeps_udp_send keeps_admission_complete keeps_call_complete keeps_call_profile
  keeps_call_steering keeps_grow keeps_push keeps_r_rand_range keeps_r_strdup_n keeps_r_seen_addr_add
  keeps_r_seen_server_add keeps_unlink_walk keeps_r_request_remove keeps_r_request_free
  keeps_r_generate_request_id keeps_r_request_snapshot_targets keeps_seal_packet
  keeps_r_build_rate_request_packet keeps_r_record_send_failures keeps_send_loop
  keeps_r_send_packet_to_targets keeps_r_send_rate_request keeps_r_completion_delivery
  keeps_r_extract_pdu_data keeps_r_parse_rate_response_alloc keeps_r_start_round keeps_r_enter_final
  keeps_r_notify_steering_when_drained keeps_profile_completion keeps_finish_request
  keeps_r_request_complete keeps_find_request keeps_settle_request keeps_accept_response
  keeps_r_client_on_datagram keeps_r_client_request_deadline_ms keeps_r_request_policy_on_timeout
  keeps_r_client_on_timeout : keeps.


(** An operation that allocates. *)
Lemma keeps_fresh {A} (m : M W A) :
  (forall s a s', m s = Ok (a, s') -> s_world s' = s_world s /\ s_trace s' = s_trace s) -> keeps m.
Proof. intros Hm s a s' E. destruct (Hm _ _ _ E). by apply tr_still. Qed.
Lemma keeps_new_req r : keeps (new_req r).
Proof. apply keeps_fresh. unfold new_req. by intros s a s' [= _ <-]. Qed.
#[local] Hint Resolve keeps_new_req : keeps.
Lemma keeps_new_refresh r : keeps (new_refresh r).
Proof. apply keeps_fresh. unfold new_refresh. by intros s a s' [= _ <-]. Qed.
#[local] Hint Resolve keeps_new_refresh : keeps.
Lemma keeps_calloc_lookup r : keeps (calloc_lookup r).
Proof. unfold calloc_lookup. keep. apply keeps_fresh. by intros s b s' [= _ <-]. Qed.
#[local] Hint Resolve keeps_calloc_lookup : keeps.

(** ** Discovery *)
Lemma keeps_r_dns_refresh_add_endpoint rf addr id has : keeps (r_dns_refresh_add_endpoint rf addr id has).
Proof. unfold r_dns_refresh_add_endpoint. keep. Qed.
#[local] Hint Resolve keeps_r_dns_refresh_add_endpoint : keeps.
Lemma keeps_free_all l : keeps (r_dns_lookup_free_all l).
Proof. apply (keeps_for_each _). keep. Qed.
#[local] Hint Resolve keeps_free_all : keeps.
Lemma keeps_r_dns_lookup_link rf l : keeps (r_dns_lookup_link rf l).
Proof. unfold r_dns_lookup_link. keep. Qed.
#[local] Hint Resolve keeps_r_dns_lookup_link : keeps.
Lemma keeps_r_dns_lookup_unlink l : keeps (r_dns_lookup_unlink l).
Proof. unfold r_dns_lookup_unlink. keep. Qed.
#[local] Hint Resolve keeps_r_dns_lookup_unlink : keeps.
Lemma keeps_r_dns_refresh_free rf : keeps (r_dns_refresh_free rf).
Proof. unfold r_dns_refresh_free. keep. Qed.
#[local] Hint Resolve keeps_r_dns_refresh_free : keeps.
Lemma keeps_r_dns_refresh_finish rf : keeps (r_dns_refresh_finish rf).
Proof. unfold r_dns_refresh_finish. keep. Qed.
#[local] Hint Resolve keeps_r_dns_refresh_finish : keeps.
Lemma keeps_r_dns_refresh_maybe_complete rf : keeps (r_dns_refresh_maybe_complete rf).
Proof. unfold r_dns_refresh_maybe_complete. keep. Qed.
#[local] Hint Resolve keeps_r_dns_refresh_maybe_complete : keeps.
Lemma keeps_dec_pending rf : keeps (dec_pending rf).
Proof. unfold dec_pending. keep. Qed.
#[local] Hint Resolve keeps_dec_pending : keeps.
Lemma keeps_dec_scheduling rf : keeps (dec_scheduling rf).
Proof. unfold dec_scheduling. keep. Qed.
#[local] Hint Resolve keeps_dec_scheduling : keeps.
Lemma keeps_drop_lookup l : keeps (drop_lookup l).
Proof. unfold drop_lookup. keep. Qed.
#[local] Hint Resolve keeps_drop_lookup : keeps.
Lemma keeps_r_dns_lookup_finish l : keeps (r_dns_lookup_finish l).
Proof. unfold r_dns_lookup_finish. keep. Qed.
#[local] Hint Resolve keeps_r_dns_lookup_finish : keeps.
Lemma keeps_addr_cb l status addrs : keeps (r_dns_addr_cb_fn l status addrs).
Proof. unfold r_dns_addr_cb_fn. keep. apply (keeps_for_each _). keep. Qed.
#[local] Hint Resolve keeps_addr_cb : keeps.
Lemma keeps_resolver_cancel l id : keeps (resolver_cancel l id).
Proof. unfold resolver_cancel. keep. apply (keeps_world_op _), tr_cancel. Qed.
#[local] Hint Resolve keeps_resolver_cancel : keeps.
Lemma keeps_cancel_lookups rf c : keeps (r_dns_refresh_cancel_lookups rf c).
Proof. unfold r_dns_refresh_cancel_lookups. keep. apply (keeps_for_each _). keep. Qed.
#[local] Hint Resolve keeps_cancel_lookups : keeps.
Lemma keeps_r_dns_refresh_detach rf : keeps (r_dns_refresh_detach rf).
Proof. unfold r_dns_refresh_detach. keep. Qed.
#[local] Hint Resolve keeps_r_dns_refresh_detach : keeps.
Lemma keeps_lookup_begin rf l : keeps (lookup_begin rf l).
Proof. unfold lookup_begin. keep. Qed.
#[local] Hint Resolve keeps_lookup_begin : keeps.
Lemma keeps_lookup_end rf l rc id : keeps (lookup_end rf l rc id).
Proof. unfold lookup_end. keep. Qed.
#[local] Hint Resolve keeps_lookup_end : keeps.
Lemma keeps_schedule_addr rf name port id has : keeps (r_dns_schedule_addr_lookup rf name port id has).
Proof. unfold r_dns_schedule_addr_lookup. keep. apply (keeps_world_op _), tr_resolve_addrs. Qed.
#[local] Hint Resolve keeps_schedule_addr : keeps.
Lemma keeps_srv_records rf l ttl : keeps (srv_records rf l ttl).
Proof. revert ttl. induction l as [|r l IH]; cbn [srv_records]; keep. Qed.
#[local] Hint Resolve keeps_srv_records : keeps.
Lemma keeps_r_dns_srv_cb_fn l status records : keeps (r_dns_srv_cb_fn l status records).
Proof. unfold r_dns_srv_cb_fn. keep. Qed.
#[local] Hint Resolve keeps_r_dns_srv_cb_fn : keeps.
Lemma keeps_schedule_srv rf name : keeps (r_dns_schedule_srv_lookup rf name).
Proof. unfold r_dns_schedule_srv_lookup. keep. apply (keeps_world_op _), tr_resolve_srv. Qed.
#[local] Hint Resolve keeps_schedule_srv : keeps.
Lemma keeps_r_dns_start_refresh : keeps (r_dns_start_refresh).
Proof. unfold r_dns_start_refresh. keep. Qed.
#[local] Hint Resolve keeps_r_dns_start_refresh : keeps.
Lemma keeps_r_dns_maybe_refresh force : keeps (r_dns_maybe_refresh force).
Proof. unfold r_dns_maybe_refresh. keep. Qed.
#[local] Hint Resolve keeps_r_dns_maybe_refresh : keeps.

(** ** The client *)
Lemma keeps_upd_fixed f : keeps (upd_fixed f).
Proof. unfold upd_fixed. keep. Qed.
#[local] Hint Resolve keeps_upd_fixed : keeps.
Lemma keeps_decoder_allocs : keeps (decoder_allocs).
Proof. unfold decoder_allocs. keep. Qed.
#[local] Hint Resolve keeps_decoder_allocs : keeps.
Lemma keeps_r_client_configure_auth c : keeps (r_client_configure_auth c).
Proof. unfold r_client_configure_auth. keep. Qed.
#[local] Hint Resolve keeps_r_client_configure_auth : keeps.
Lemma keeps_r_client_configure_dns n : keeps (r_client_configure_dns n).
Proof. unfold r_client_configure_dns. keep. Qed.
#[local] Hint Resolve keeps_r_client_configure_dns : keeps.
Lemma keeps_wipe_credential : keeps (wipe_credential).
Proof. unfold wipe_credential. keep. Qed.
#[local] Hint Resolve keeps_wipe_credential : keeps.
Lemma keeps_destroy : keeps (r_client_destroy).
Proof. unfold r_client_destroy. keep. apply (keeps_for_each _). keep. Qed.
#[local] Hint Resolve keeps_destroy : keeps.
Lemma keeps_r_client_create config ops out : keeps (r_client_create config ops out).
Proof. unfold r_client_create. keep. Qed.
#[local] Hint Resolve keeps_r_client_create : keeps.
Lemma keeps_store_req out p : keeps (store_req out p).
Proof. unfold store_req. keep. Qed.
#[local] Hint Resolve keeps_store_req : keeps.
Lemma keeps_complete_empty cb user status result : keeps (call_complete cb user None status result).
Proof.
  intros s a s' E. cbv beta iota delta [call_complete emit modify mbind M_bind] in E.
  match type of E with context [match ?m with _ => _ end] => destruct m as [|[b s1]] eqn:E1; [done|] end.
  injection E as _ <-. transitivity s1; [|by apply st_event].
  destruct (Z.eqb_spec cb r_admission_complete_ptr) as [->|Hcb].
  - etransitivity; [apply (tr_workflow user status result)|]. exact (keeps_admission_complete _ _ _ _ _ _ _ E1).
  - unfold run_hook in E1. destruct (h_complete _ _ _ _ _ _) as [|s2] eqn:E2; [done|]. injection E1 as _ <-.
    exact (tr_complete _ _ _ _ _ _ Hcb E2).
Qed.
#[local] Hint Resolve keeps_complete_empty : keeps.
Lemma keeps_admit_empty cb user : keeps (admit_empty cb user).
Proof. unfold admit_empty. keep. Qed.
#[local] Hint Resolve keeps_admit_empty : keeps.
Lemma keeps_copy_resources p rs n b : keeps (copy_resources p rs n b).
Proof. unfold copy_resources. keep. Qed.
#[local] Hint Resolve keeps_copy_resources : keeps.
Lemma keeps_copy_guards p gs n b : keeps (copy_guards p gs n b).
Proof. unfold copy_guards. keep. Qed.
#[local] Hint Resolve keeps_copy_guards : keeps.
Lemma keeps_copy_label p l n b : keeps (copy_label p l n b).
Proof. unfold copy_label. keep. Qed.
#[local] Hint Resolve keeps_copy_label : keeps.
Lemma keeps_begin_lifetime p : keeps (begin_lifetime p).
Proof. unfold begin_lifetime. keep. Qed.
#[local] Hint Resolve keeps_begin_lifetime : keeps.
Lemma keeps_store_packet p : keeps (store_packet p).
Proof. unfold store_packet. keep. Qed.
#[local] Hint Resolve keeps_store_packet : keeps.
Lemma keeps_launch_request p : keeps (launch_request p).
Proof. unfold launch_request. keep. Qed.
#[local] Hint Resolve keeps_launch_request : keeps.
Lemma keeps_request_setup p rs rn gs gn l n b : keeps (request_setup p rs rn gs gn l n b).
Proof. unfold request_setup. keep. Qed.
#[local] Hint Resolve keeps_request_setup : keeps.
Lemma keeps_admit_request rs rn gs gn l n cb user out b : keeps (admit_request rs rn gs gn l n cb user out b).
Proof. unfold admit_request. keep. Qed.
#[local] Hint Resolve keeps_admit_request : keeps.
Lemma keeps_r_client_check_rate_limit_async_impl rs rn gs gn l n cb user out b : keeps (r_client_check_rate_limit_async_impl rs rn gs gn l n cb user out b).
Proof. unfold r_client_check_rate_limit_async_impl. keep. Qed.
#[local] Hint Resolve keeps_r_client_check_rate_limit_async_impl : keeps.
Lemma keeps_r_client_check_rate_limit_async rs rn gs gn l n cb user out : keeps (r_client_check_rate_limit_async rs rn gs gn l n cb user out).
Proof. unfold r_client_check_rate_limit_async. keep. Qed.
#[local] Hint Resolve keeps_r_client_check_rate_limit_async : keeps.
Lemma keeps_r_client_check_rate_limit_async_borrowed rs rn gs gn l n cb user out : keeps (r_client_check_rate_limit_async_borrowed rs rn gs gn l n cb user out).
Proof. unfold r_client_check_rate_limit_async_borrowed. keep. Qed.
#[local] Hint Resolve keeps_r_client_check_rate_limit_async_borrowed : keeps.
Lemma keeps_report_loop l packet n : keeps (report_loop l packet n).
Proof. revert n. induction l as [|x l IH]; cbn [report_loop]; keep. Qed.
#[local] Hint Resolve keeps_report_loop : keeps.
Lemma keeps_report_packet f rs n : keeps (report_packet f rs n).
Proof. unfold report_packet. keep. Qed.
#[local] Hint Resolve keeps_report_packet : keeps.
Lemma keeps_r_client_report_latency rs n : keeps (r_client_report_latency rs n).
Proof. unfold r_client_report_latency. keep. Qed.
#[local] Hint Resolve keeps_r_client_report_latency : keeps.
Lemma keeps_r_client_send_failure_count : keeps (r_client_send_failure_count).
Proof. unfold r_client_send_failure_count. keep. Qed.
#[local] Hint Resolve keeps_r_client_send_failure_count : keeps.
Lemma keeps_r_client_cancel_request p : keeps (r_client_cancel_request p).
Proof. unfold r_client_cancel_request. keep. Qed.
#[local] Hint Resolve keeps_r_client_cancel_request : keeps.

(** ** The admission workflow *)
Lemma keeps_prepare_resource u c : keeps (prepare_resource u c).
Proof. unfold prepare_resource. keep. Qed.
#[local] Hint Resolve keeps_prepare_resource : keeps.
Lemma keeps_prepare_guard u c : keeps (prepare_guard u c).
Proof. unfold prepare_guard. keep. Qed.
#[local] Hint Resolve keeps_prepare_guard : keeps.
Lemma keeps_r_client_admission_prepare u c cb user : keeps (r_client_admission_prepare u c cb user).
Proof. unfold r_client_admission_prepare. keep. Qed.
#[local] Hint Resolve keeps_r_client_admission_prepare : keeps.
Lemma keeps_r_client_admission_start u c cb user : keeps (r_client_admission_start u c cb user).
Proof. unfold r_client_admission_start. keep. Qed.
#[local] Hint Resolve keeps_r_client_admission_start : keeps.
Lemma keeps_active_handle u : keeps (active_handle u).
Proof. unfold active_handle. keep. Qed.
#[local] Hint Resolve keeps_active_handle : keeps.
Lemma keeps_r_client_admission_deadline_ms u o : keeps (r_client_admission_deadline_ms u o).
Proof. unfold r_client_admission_deadline_ms. keep. Qed.
#[local] Hint Resolve keeps_r_client_admission_deadline_ms : keeps.
Lemma keeps_r_client_admission_on_timeout u now : keeps (r_client_admission_on_timeout u now).
Proof. unfold r_client_admission_on_timeout. keep. Qed.
#[local] Hint Resolve keeps_r_client_admission_on_timeout : keeps.
Lemma keeps_r_client_admission_cancel u : keeps (r_client_admission_cancel u).
Proof. unfold r_client_admission_cancel. keep. Qed.
#[local] Hint Resolve keeps_r_client_admission_cancel : keeps.
Lemma keeps_r_client_admission_report_latency u o : keeps (r_client_admission_report_latency u o).
Proof. unfold r_client_admission_report_latency. keep. Qed.
#[local] Hint Resolve keeps_r_client_admission_report_latency : keeps.
End Frame.

(** The entry points. *)
#[export] Hint Resolve tr_steps keeps_mret keeps_bind keeps_r_client_check_rate_limit_async
  keeps_r_client_check_rate_limit_async_borrowed keeps_r_client_report_latency keeps_r_client_on_datagram
  keeps_r_client_on_timeout keeps_r_client_request_deadline_ms keeps_r_client_cancel_request
  keeps_r_client_send_failure_count keeps_r_dns_srv_cb_fn keeps_addr_cb keeps_r_client_admission_prepare
  keeps_r_client_admission_start keeps_r_client_admission_deadline_ms keeps_r_client_admission_on_timeout
  keeps_r_client_admission_cancel keeps_r_client_admission_report_latency : keeps.
