(* ===== verification/Runtime.v ===== *)
(** * The socket runtime (src/r_client_runtime.c)

    The portable host of the client: nonblocking UDP sockets, blocking DNS, the
    environment's configuration and the admission workflow's loop helpers.  It
    follows the POSIX branches.  The operating system is the class [Os], with
    the conventions of its calls: -1 and [errno], file descriptors, wildcard
    addresses.  The runtime over any such system is a [Host] of the client. *)

From Stdlib Require Import String Ascii.
From S2P Require Import Prelude.
From S2P Require Import Types.
From S2P Require Import Wire.
From S2P Require Import Crypto.
From S2P Require Import Workflow.
From S2P Require Import State.
From S2P Require Import Schedule.
From S2P Require Import Steering.
From S2P Require Import Dns.
From S2P Require Import Request.
From S2P Require Import Client.
From S2P Require Import WorkflowOps.

Definition R_RUNTIME_MAX_SRV_RECORDS : Z := 32.
Definition R_RUNTIME_DNS_PACKET_SIZE : Z := 65536.
Definition R_RUNTIME_INVALID_SOCKET : Z := -1.
Definition R_RUNTIME_FIXED_TARGET : list Z := cstr "s-1.ratelimitly-example.invalid".

(** Linux values of what the source takes from the system's headers. *)
Definition EINTR : Z := 4.
Definition EAGAIN : Z := 11.
Definition EADDRINUSE : Z := 98.
Definition ERANGE : Z := 34.
Definition O_NONBLOCK : Z := 2048.
Definition CLOCK_REALTIME : Z := 0.
Definition CLOCK_MONOTONIC : Z := 1.
Definition ULONG_MAX : Z := UINT64_MAX.

(** ** Status names *)
Definition r_runtime_status_name (status : Z) : list Z :=
  if status =? RCLIENT_OK then cstr "ok" else
  if status =? RCLIENT_ERR_IO then cstr "I/O error" else
  if status =? RCLIENT_ERR_TIMEOUT then cstr "timeout" else
  if status =? RCLIENT_ERR_PROTOCOL then cstr "protocol error" else
  if status =? RCLIENT_ERR_AUTH then cstr "authentication error" else
  if status =? RCLIENT_ERR_DNS then cstr "DNS error" else
  if status =? RCLIENT_ERR_CONFIG then cstr "configuration error" else
  if status =? RCLIENT_ERR_NOMEM then cstr "out of memory" else
  cstr "unknown error".

(** ** State *)

(** [r_runtime_options_t]; the strings are borrowed. *)
Record r_runtime_options := mk_options {
  op_tenant_dns_name : option (list Z);
  op_auth_key : option (list Z);
  op_server_host : option (list Z);
  op_server_port : Z;
  op_request_policy : r_request_policy;
  op_has_request_policy : bool;
  op_profile_requests : bool;
}.
Definition options_zero : r_runtime_options :=
  mk_options None None None 0 (mk_policy 0 0 (mk_schedule 0 0 0 0) 0 false) false false.

(** [r_runtime_client_t]: the first [socket_count] elements of [sockets] as a
    list, [server_host] as its block of 256 bytes. *)
Record r_runtime_client := mk_runtime {
  rn_handle : bool;
  rn_sockets : list Z;
  rn_server_host : list Z;
  rn_server_port : Z;
  rn_request_unit_ms : Z;
  rn_request_replay_count : Z;
}.
Definition R_RUNTIME_HOST_CAP : Z := 256.
Definition runtime_zero : r_runtime_client :=
  mk_runtime false [] (replicate (Z.to_nat R_RUNTIME_HOST_CAP) 0) 0 0 0.

Definition rn_eta (r : r_runtime_client) : r_runtime_client :=
  mk_runtime (rn_handle r) (rn_sockets r) (rn_server_host r) (rn_server_port r) (rn_request_unit_ms r)
    (rn_request_replay_count r).
Definition set_rn_handle : bool -> r_runtime_client -> r_runtime_client := ltac:(setter rn_eta rn_handle).
Definition set_rn_sockets : list Z -> r_runtime_client -> r_runtime_client := ltac:(setter rn_eta rn_sockets).
Definition set_rn_server_host : list Z -> r_runtime_client -> r_runtime_client :=
  ltac:(setter rn_eta rn_server_host).
Definition set_rn_server_port : Z -> r_runtime_client -> r_runtime_client :=
  ltac:(setter rn_eta rn_server_port).
Definition set_rn_request_unit_ms : Z -> r_runtime_client -> r_runtime_client :=
  ltac:(setter rn_eta rn_request_unit_ms).
Definition set_rn_request_replay_count : Z -> r_runtime_client -> r_runtime_client :=
  ltac:(setter rn_eta rn_request_replay_count).

(** ** The operating system *)

(** An element of [getaddrinfo]'s list: family, length and bytes of the address. *)
Record addrinfo := mk_addrinfo { ai_family : Z; ai_addrlen : Z; ai_addr : list Z }.

(** An answer record of a DNS message, as [ns_parserr] and [dn_expand] present
    it: whether it is an SRV record, the length of its data, its TTL, the three
    numbers and the expanded target, when expansion succeeds. *)
Record srv_rr := mk_rr {
  rr_is_srv : bool;
  rr_rdlen : Z;
  rr_ttl : Z;
  rr_priority : Z;
  rr_weight : Z;
  rr_port : Z;
  rr_target : option (list Z);
}.

Class Os (O : Type) : Type := {
  os_errno : O -> Z;
  os_clock_gettime : Z -> O -> option (Z * Z) * O;
  os_socket : Z -> O -> Z * O;
  os_getfl : Z -> O -> Z * O;
  os_setfl : Z -> Z -> O -> Z * O;
  os_ipv6_only : Z -> O -> O;
  os_bind : Z -> Z -> Z -> O -> Z * O;
  os_close : Z -> O -> O;
  os_getsockname : Z -> O -> option (Z * Z) * O;
  os_sendto : Z -> list Z -> r_addr -> O -> Z * O;
  os_recvfrom : Z -> O -> (Z * list Z * r_addr) * O;
  os_getaddrinfo : list Z -> O -> option (list addrinfo) * O;
  os_query_srv : list Z -> O -> option (list (option srv_rr)) * O;
  os_stderr : list Z -> O -> O;
  os_alloc : O -> bool * O;
  os_rand_bytes : Z -> O -> option (list Z) * O;
  os_patience : O -> nat;
}.

Section Runtime.
Context {O : Type} `{OS : Os O}.

(** ** Clocks and messages *)
Definition timespec_ms (t : Z * Z) : Z := (u64 (fst t) *64 1000) +64 (u64 (snd t) / 1000000).

Definition r_runtime_wall_time_ms (o : O) : Z * O :=
  let '(now, o) := os_clock_gettime CLOCK_REALTIME o in
  (from_option timespec_ms 0 now, o).

Definition r_runtime_monotonic_time_ms (out_milliseconds : option Z) (o : O) : Z * option Z * O :=
  match out_milliseconds with
  | None => (RCLIENT_ERR_CONFIG, None, o)
  | Some _ =>
      let '(now, o) := os_clock_gettime CLOCK_MONOTONIC o in
      match now with
      | None => (RCLIENT_ERR_IO, out_milliseconds, o)
      | Some t => (RCLIENT_OK, Some (timespec_ms t), o)
      end
  end.

(** [fprintf (stderr, "rl-c-client[%s]: %s\n", ...)]; the message without its
    NUL. *)
Definition runtime_log (level : Z) (message : list Z) (o : O) : O :=
  let name :=
    if level =? 0 then cbytes "error" else if level =? 1 then cbytes "warn" else
    if level =? 2 then cbytes "info" else if level =? 3 then cbytes "debug" else cbytes "unknown" in
  os_stderr (cbytes "rl-c-client[" ++ name ++ cbytes "]: " ++ message ++ [10]) o.
Definition R_LOG_WARN : Z := 1.

(** A status as [%d] prints it. *)
Definition dec_int (n : Z) : list Z := if n <? 0 then cbytes "-" ++ dec_u64 (- n) else dec_u64 n.

Definition runtime_request_profile (r : r_runtime_client) (p : r_request_profile) (o : O) : O :=
  let phase := match pf_phase p with
               | R_REQUEST_COMPLETION_FINAL_RECEIVE => cbytes "final"
               | R_REQUEST_COMPLETION_ROUND => cbytes "round"
               end in
  os_stderr (cbytes "rl-c-client[profile]: wait_ms=" ++ dec_u64 (pf_wait_ms p) ++
             cbytes " unit_ms=" ++ dec_u64 (rn_request_unit_ms r) ++
             cbytes " replay_count=" ++ dec_u64 (rn_request_replay_count r) ++
             cbytes " round=" ++ dec_u64 (pf_round p) ++
             cbytes " phase=" ++ phase ++ cbytes " status=" ++ dec_int (pf_status p) ++
             cbytes " response=" ++ (if pf_response_selected p then cbytes "selected" else cbytes "none") ++ [10]) o.

(** ** Sockets *)
Definition socket_error_is_address_in_use (error : Z) : bool := error =? EADDRINUSE.

Definition set_nonblocking (fd : Z) (o : O) : Z * O :=
  let '(flags, o) := os_getfl fd o in
  if flags <? 0 then (-1, o) else
  let '(rc, o) := os_setfl fd (Z.lor flags O_NONBLOCK) o in
  if negb (rc =? 0) then (-1, o) else (0, o).

(** The socket, or -1, and [*out_error]. *)
Definition open_udp_socket (family port : Z) (o : O) : Z * Z * O :=
  let '(fd, o) := os_socket family o in
  if fd =? R_RUNTIME_INVALID_SOCKET then (R_RUNTIME_INVALID_SOCKET, os_errno o, o) else
  let '(rc, o) := set_nonblocking fd o in
  if negb (rc =? 0) then
    let error := os_errno o in (R_RUNTIME_INVALID_SOCKET, error, os_close fd o)
  else
  let o := if family =? AF_INET then o else os_ipv6_only fd o in
  let '(rc, o) := os_bind fd family port o in
  if negb (rc =? 0) then
    let error := os_errno o in (R_RUNTIME_INVALID_SOCKET, error, os_close fd o)
  else (fd, 0, o).

(** [runtime_try_steering_port] on the binding's socket and the system. *)
Definition runtime_try_steering_port (family : Z) (port : Z) (st : Z * O) : Z * (Z * O) :=
  let '(fd, error, o) := open_udp_socket family port (snd st) in
  if negb (fd =? R_RUNTIME_INVALID_SOCKET) then (R_STEERING_BIND_OK, (fd, o)) else
  (if socket_error_is_address_in_use error then R_STEERING_BIND_OCCUPIED else R_STEERING_BIND_ERROR,
   (fd, o)).

Definition runtime_socket_family_and_port (fd : Z) (o : O) : Z * option (Z * Z) * O :=
  let '(name, o) := os_getsockname fd o in
  match name with
  | None => (RCLIENT_ERR_IO, None, o)
  | Some (family, port) =>
      if (family =? AF_INET) || (family =? AF_INET6) then (RCLIENT_OK, Some (family, port), o)
      else (RCLIENT_ERR_IO, None, o)
  end.

(** The replacement of one socket: the new one, or none. *)
Definition replace_socket (fd : Z) (o : O) : option Z * O :=
  let '(rc, name, o) := runtime_socket_family_and_port fd o in
  match name with
  | Some (family, current_port) =>
      let '(rc, _, _, st) :=
        r_client_select_steering_port (r_client_next_steering_port current_port)
          (Some (runtime_try_steering_port family)) (Some 0) (Some 0) (R_RUNTIME_INVALID_SOCKET, o) in
      if rc =? RCLIENT_OK then (Some (fst st), snd st) else (None, snd st)
  | None => (None, o)
  end.

(** The replacements acquired so far, in order, and whether all of them were. *)
Fixpoint acquire (sockets acquired : list Z) (o : O) : bool * list Z * O :=
  match sockets with
  | [] => (true, acquired, o)
  | fd :: rest =>
      let '(new, o) := replace_socket fd o in
      match new with
      | None => (false, acquired, o)
      | Some fd' => acquire rest (acquired ++ [fd']) o
      end
  end.

Definition close_all (fds : list Z) (o : O) : O := foldl (fun o fd => os_close fd o) o fds.

Definition runtime_on_steering_feedback (keep_port : bool) (r : r_runtime_client) (o : O)
  : r_runtime_client * O :=
  if keep_port || (zlen (rn_sockets r) =? 0) then (r, o) else
  let '(ok, replacements, o) := acquire (rn_sockets r) [] o in
  if (ok : bool) then (set_rn_sockets replacements r, close_all (rn_sockets r) o)
  else
    (r, runtime_log R_LOG_WARN (cbytes "source-port steering could not acquire replacement sockets")
          (close_all replacements o)).

(** ** Sending *)
Definition SA_FAMILY (a : r_addr) : run Z := b0 ← rd (ad_sa a) 0; b1 ← rd (ad_sa a) 1; Ok (b0 + 256 * b1).

(** The first socket of the address's family. *)
Fixpoint socket_for (sockets : list Z) (family : Z) (o : O) : option Z * O :=
  match sockets with
  | [] => (None, o)
  | fd :: rest =>
      let '(name, o) := os_getsockname fd o in
      if from_option (fun n => fst n =? family) false name then (Some fd, o) else socket_for rest family o
  end.

(** [do ... while (sent < 0 && errno == EINTR)]. *)
Fixpoint sendto_retry (fuel : nat) (fd : Z) (buffer : list Z) (to : r_addr) (o : O) : Z * O :=
  let '(sent, o) := os_sendto fd buffer to o in
  match fuel with
  | S fuel' => if (sent <? 0) && (os_errno o =? EINTR) then sendto_retry fuel' fd buffer to o else (sent, o)
  | Datatypes.O => (sent, o)
  end.

(** The context and the buffers are there; an address is a block. *)
Definition runtime_udp_send (r : r_runtime_client) (to : r_addr) (buffer : list Z) (o : O) : run (Z * O) :=
  if zlen buffer =? 0 then Ok (-1, o) else
  family ← SA_FAMILY to;
  let '(fd, o) := socket_for (rn_sockets r) family o in
  match fd with
  | None => Ok (-1, o)
  | Some fd =>
      let '(sent, o) := sendto_retry (os_patience o) fd buffer to o in
      Ok (if sent =? zlen buffer then 0 else -1, o)
  end.

(** ** Resolution *)
Definition copy_fixed_host (r : r_runtime_client) (options : r_runtime_options) : run (Z * r_runtime_client) :=
  match op_server_host options with
  | None => if op_server_port options =? 0 then Ok (RCLIENT_OK, r) else Ok (RCLIENT_ERR_CONFIG, r)
  | Some host =>
      if op_server_port options =? 0 then Ok (RCLIENT_ERR_CONFIG, r) else
      length ← strlen host;
      if (length =? 0) || (R_RUNTIME_HOST_CAP <=? length) then Ok (RCLIENT_ERR_CONFIG, r) else
      src ← rd_bytes host 0 (length + 1);
      block ← wr (rn_server_host r) 0 src;
      Ok (RCLIENT_OK, set_rn_server_port (op_server_port options) (set_rn_server_host block r))
  end.

(** The addresses kept of [getaddrinfo]'s list. *)
Definition usable (a : addrinfo) : bool :=
  ((ai_family a =? AF_INET) || (ai_family a =? AF_INET6)) && (ai_addrlen a <=? SOCKADDR_STORAGE_SIZE).

Definition copy_address (a : addrinfo) : run r_addr :=
  src ← rd_bytes (ai_addr a) 0 (ai_addrlen a);
  sa ← wr (replicate (Z.to_nat SOCKADDR_STORAGE_SIZE) 0) 0 src;
  Ok (mk_addr sa (ai_addrlen a)).

Fixpoint copy_addresses (l : list addrinfo) : run (list r_addr) :=
  match l with
  | [] => Ok []
  | a :: l' =>
      if negb (usable a) then copy_addresses l' else
      x ← copy_address a; xs ← copy_addresses l'; Ok (x :: xs)
  end.

(** The arguments of the one call of the callback. *)
Definition resolve_addresses (host : list Z) (o : O) : run (Z * option (list r_addr) * O) :=
  let '(addresses, o) := os_getaddrinfo host o in
  match addresses with
  | None => Ok (RCLIENT_ERR_DNS, None, o)
  | Some l =>
      let count := zlen (filter (fun a => usable a = true) l) in
      let '(ok, o) := if 0 <? count then os_alloc o else (true, o) in
      if negb ok then Ok (RCLIENT_ERR_NOMEM, None, o) else
      result ← copy_addresses l;
      Ok (if 0 <? count then RCLIENT_OK else RCLIENT_ERR_DNS,
          if 0 <? count then Some result else None, o)
  end.

Definition runtime_resolve_addresses (r : r_runtime_client) (name : list Z) (o : O)
  : run (addr_answer * O) :=
  c ← rd (rn_server_host r) 0;
  fixed ← (if negb (c =? 0) then str_eq name R_RUNTIME_FIXED_TARGET else Ok false);
  a ← resolve_addresses (if (fixed : bool) then rn_server_host r else name) o;
  let '(status, addrs, o) := a in
  Ok (mk_addr_answer 0 0 (Some (status, addrs)), o).

(** The records kept of a DNS answer. *)
Definition keep_rr (rr : option srv_rr) : option r_srv_record :=
  match rr with
  | None => None
  | Some x =>
      if negb (rr_is_srv x) || (rr_rdlen x <? 7) then None else
      match rr_target x with
      | None => None
      | Some target =>
          let ttl_ms := u64 (rr_ttl x) *64 1000 in
          Some (mk_srv (Some target) (rr_port x) (rr_priority x) (rr_weight x)
                  (if UINT32_MAX <? ttl_ms then UINT32_MAX else u32 ttl_ms))
      end
  end.

Definition resolve_srv_records (name : list Z) (o : O) : Z * option (list r_srv_record) * O :=
  let '(ok, o) := os_alloc o in
  if negb ok then (RCLIENT_ERR_NOMEM, None, o) else
  let '(answers, o) := os_query_srv name o in
  match answers with
  | None => (RCLIENT_ERR_DNS, None, o)
  | Some l =>
      let records := omap keep_rr (take (Z.to_nat R_RUNTIME_MAX_SRV_RECORDS) l) in
      (if 0 <? zlen records then RCLIENT_OK else RCLIENT_ERR_DNS, Some records, o)
  end.

Definition fixed_record (r : r_runtime_client) : r_srv_record :=
  mk_srv (Some R_RUNTIME_FIXED_TARGET) (u16 (rn_server_port r)) 0 0 60000.

Definition runtime_resolve_srv (r : r_runtime_client) (name : list Z) (o : O) : run (srv_answer * O) :=
  c ← rd (rn_server_host r) 0;
  if negb (c =? 0) then Ok (mk_srv_answer 0 0 (Some (RCLIENT_OK, Some [fixed_record r])), o)
  else
    let '(status, records, o) := resolve_srv_records name o in
    Ok (mk_srv_answer 0 0 (Some (status, records)), o).
End Runtime.

(** ** Configuration from the environment *)

(** [strlen (text) > 0], for a string that is set. *)
Definition env_nonempty (text : option (list Z)) : run bool :=
  match text with
  | None => Ok false
  | Some t => c ← rd t 0; Ok (negb (c =? 0))
  end.

(** The characters from [pos] on; [Return] is the verdict. *)
Fixpoint parse_u64_loop (fuel : nat) (text : list Z) (pos maximum parsed : Z) : run (option Z) :=
  match fuel with
  | Datatypes.O => UB
  | S fuel' =>
      c ← rd text pos;
      if c =? 0 then Ok (Some parsed) else
      if (c <? chr "0") || (chr "9" <? c) then Ok None else
      let digit := c - chr "0" in
      if (maximum / 10 <? parsed) || ((parsed =? maximum / 10) && (maximum mod 10 <? digit)) then Ok None
      else parse_u64_loop fuel' text (pos + 1) maximum ((parsed *64 10) +64 digit)
  end.

Definition runtime_parse_u64 (text : option (list Z)) (maximum : Z) (out_value : option Z)
  : run (Z * option Z) :=
  match text, out_value with
  | Some t, Some _ =>
      c ← rd t 0;
      if c =? 0 then Ok (RCLIENT_ERR_CONFIG, out_value) else
      v ← parse_u64_loop (length t) t 0 maximum 0;
      Ok (match v with
          | Some parsed => (RCLIENT_OK, Some parsed)
          | None => (RCLIENT_ERR_CONFIG, out_value)
          end)
  | _, _ => Ok (RCLIENT_ERR_CONFIG, out_value)
  end.

(** *** [strtoul (text, &end, 10)] of the C library *)
Definition is_space (c : Z) : bool := (c =? 32) || ((9 <=? c) && (c <=? 13)).

(** The first character from [pos] on that is not white space. *)
Fixpoint skip_space (fuel : nat) (text : list Z) (pos : Z) : run Z :=
  match fuel with
  | Datatypes.O => UB
  | S fuel' => c ← rd text pos; if is_space c then skip_space fuel' text (pos + 1) else Ok pos
  end.

(** The unbounded value of the digits from [pos] on, and where they end. *)
Fixpoint scan_digits (fuel : nat) (text : list Z) (pos value : Z) : run (Z * Z) :=
  match fuel with
  | Datatypes.O => UB
  | S fuel' =>
      c ← rd text pos;
      if (c <? chr "0") || (chr "9" <? c) then Ok (value, pos)
      else scan_digits fuel' text (pos + 1) (value * 10 + (c - chr "0"))
  end.

(** The value, [*end] and [errno], given the sign and where the digits start: a
    minus sign negates in the unsigned type; no digits is 0 with the end at the
    start of the text. *)
Definition strtoul_digits (negative : bool) (text : list Z) (digits : Z) : run (Z * Z * Z) :=
  d ← scan_digits (length text) text digits 0;
  let '(value, stop) := d in
  if stop =? digits then Ok (0, 0, 0)
  else if ULONG_MAX <? value then Ok (ULONG_MAX, stop, ERANGE)
  else Ok (if negative then u64 (- value) else value, stop, 0).

Definition strtoul10 (text : list Z) : run (Z * Z * Z) :=
  start ← skip_space (length text) text 0;
  sign ← rd text start;
  strtoul_digits (sign =? chr "-") text
    (if (sign =? chr "-") || (sign =? chr "+") then start + 1 else start).

(** The port setting; [None] is a configuration error. *)
Definition port_setting (text : list Z) (p : Z * Z * Z) : run (option Z) :=
  let '(port, stop, errno) := p in
  c ← rd text stop;
  Ok (if negb (errno =? 0) || negb (c =? 0) || (port =? 0) || (UINT16_MAX <? port) then None
      else Some (u16 port)).

Definition parse_port (text : list Z) : run (option Z) := p ← strtoul10 text; port_setting text p.

(** One field of the options replaced. *)
Definition with_policy (p : r_request_policy) (o : r_runtime_options) : r_runtime_options :=
  mk_options (op_tenant_dns_name o) (op_auth_key o) (op_server_host o) (op_server_port o) p
    (op_has_request_policy o) (op_profile_requests o).
Definition with_has_policy (o : r_runtime_options) : r_runtime_options :=
  mk_options (op_tenant_dns_name o) (op_auth_key o) (op_server_host o) (op_server_port o)
    (op_request_policy o) true (op_profile_requests o).
Definition with_profile (o : r_runtime_options) : r_runtime_options :=
  mk_options (op_tenant_dns_name o) (op_auth_key o) (op_server_host o) (op_server_port o)
    (op_request_policy o) (op_has_request_policy o) true.
Definition with_port (port : Z) (o : r_runtime_options) : r_runtime_options :=
  mk_options (op_tenant_dns_name o) (op_auth_key o) (op_server_host o) port
    (op_request_policy o) (op_has_request_policy o) (op_profile_requests o).

(** A step of the configuration: the options so far, or those an error leaves. *)
Definition config_flow : Type := flow r_runtime_options r_runtime_options.

Definition env_unit (text : option (list Z)) (o : r_runtime_options) : run config_flow :=
  has ← env_nonempty text;
  if negb has then Ok (Next o) else
  v ← runtime_parse_u64 text UINT64_MAX (Some 0);
  let '(rc, unit_ms) := v in
  unit_ms ← deref unit_ms;
  if negb (rc =? RCLIENT_OK) || (unit_ms =? 0) then Ok (Return o) else
  let p := op_request_policy o in
  Ok (Next (with_policy (mk_policy unit_ms (rp_replay_count p) (rp_replay_gap p)
                           (rp_final_receive_units p) (rp_completion_delivery p)) o)).

Definition env_replay (text : option (list Z)) (o : r_runtime_options) : run config_flow :=
  has ← env_nonempty text;
  if negb has then Ok (Next o) else
  v ← runtime_parse_u64 text R_CLIENT_HA_MAX_REPLAY_COUNT (Some 0);
  let '(rc, replay_count) := v in
  replay_count ← deref replay_count;
  if negb (rc =? RCLIENT_OK) then Ok (Return o) else
  let p := op_request_policy o in
  Ok (Next (with_policy (mk_policy (rp_unit_ms p) (u32 replay_count) (rp_replay_gap p)
                           (rp_final_receive_units p) (rp_completion_delivery p)) o)).

(** One step after the other. *)
Definition then_config (m : run config_flow) (k : r_runtime_options -> run config_flow) : run config_flow :=
  f ← m; match f with Next o => k o | Return o => Ok (Return o) end.

Definition env_policy (unit_text replay_text : option (list Z)) (o : r_runtime_options) : run config_flow :=
  has_unit ← env_nonempty unit_text;
  has_replay ← env_nonempty replay_text;
  if negb (has_unit || has_replay) then Ok (Next o) else
  policy ← deref (r_client_default_request_policy (Some (op_request_policy o)));
  then_config (env_unit unit_text (with_policy policy o)) (fun o =>
  then_config (env_replay replay_text o) (fun o => Ok (Next (with_has_policy o)))).

Definition env_profile (text : option (list Z)) (o : r_runtime_options) : run config_flow :=
  has ← env_nonempty text;
  if negb has then Ok (Next o) else
  t ← deref text;
  one ← str_eq t (cstr "1");
  Ok (if (one : bool) then Next (with_profile o) else Return o).

Definition env_port (text : option (list Z)) (o : r_runtime_options) : run config_flow :=
  has ← env_nonempty text;
  if negb has then Ok (Next o) else
  t ← deref text;
  port ← parse_port t;
  Ok (match port with Some p => Next (with_port p o) | None => Return o end).

(** The key is required, the fixed host and its port go together. *)
Definition env_required (o : r_runtime_options) : run config_flow :=
  has_key ← env_nonempty (op_auth_key o);
  if negb has_key then Ok (Return o) else
  Ok (if eqb (is_null (op_server_host o)) (op_server_port o =? 0) then Next o else Return o).

(** [getenv]: the block of each variable's value. *)
Definition environment : Type := list Z -> option (list Z).

Definition r_runtime_options_from_env (env : environment) (out_options : option r_runtime_options)
  : run (Z * option r_runtime_options) :=
  match out_options with
  | None => Ok (RCLIENT_ERR_CONFIG, None)
  | Some _ =>
      let tenant := env (cbytes "RATELIMITLY_TENANT") in
      has_tenant ← env_nonempty tenant;
      let options :=
        mk_options (if (has_tenant : bool) then tenant else None)
          (env (cbytes "RATELIMITLY_AUTH_KEY")) (env (cbytes "RATELIMITLY_EXAMPLE_SERVER_HOST")) 0
          (op_request_policy options_zero) false false in
      f ← then_config (env_policy (env (cbytes "RATELIMITLY_REQUEST_UNIT_MS"))
                         (env (cbytes "RATELIMITLY_REQUEST_REPLAY_COUNT")) options) (fun o =>
          then_config (env_profile (env (cbytes "RATELIMITLY_REQUEST_PROFILE")) o) (fun o =>
          then_config (env_port (env (cbytes "RATELIMITLY_EXAMPLE_SERVER_PORT")) o) env_required));
      Ok (match f with
          | Next o => (RCLIENT_OK, Some o)
          | Return o => (RCLIENT_ERR_CONFIG, Some o)
          end)
  end.

(** ** The runtime as the client's host *)

(** The host's state: the runtime and the system it runs on. *)
Record rworld (O : Type) := mk_rworld { rw_runtime : r_runtime_client; rw_os : O }.
Arguments mk_rworld {O}.
Arguments rw_runtime {O}.
Arguments rw_os {O}.

(** The application's completion callbacks. *)
Class App (O : Type) : Type := {
  app_complete : Z -> Z -> option ptr -> Z -> option r_rate_limit_result -> sys (rworld O) ->
                 run (sys (rworld O));
  app_admission : Z -> Z -> Z -> r_admission_outcome -> sys (rworld O) -> run (sys (rworld O));
}.

Section AsHost.
Context {O : Type} `{OS : Os O} {APP : App O}.

(** A system call of the host. *)
Definition on_os {A} (f : O -> A * O) (w : rworld O) : A * rworld O :=
  let '(a, o) := f (rw_os w) in (a, mk_rworld (rw_runtime w) o).

(** A hook of the runtime; [bad] stands for undefined behaviour, which
    [runtime_hooks_defined] excludes. *)
Definition on_runtime {A} (bad : A) (f : r_runtime_client -> O -> run (A * O)) (w : rworld O) : A * rworld O :=
  match f (rw_runtime w) (rw_os w) with
  | Ok (a, o) => (a, mk_rworld (rw_runtime w) o)
  | UB => (bad, w)
  end.

#[export] Instance runtime_host : Host (rworld O) := {|
  h_now_ms := on_os r_runtime_wall_time_ms;
  h_udp_send := fun to buffer => on_runtime (-1) (fun r => runtime_udp_send r to buffer);
  h_rand_bytes := fun n => on_os (os_rand_bytes n);
  h_alloc := on_os os_alloc;
  h_resolve_srv := fun name => on_runtime (mk_srv_answer (-1) 0 None) (fun r => runtime_resolve_srv r name);
  h_resolve_addrs := fun name =>
    on_runtime (mk_addr_answer (-1) 0 None) (fun r => runtime_resolve_addresses r name);
  h_cancel := fun _ w => (false, w);
  h_profile := fun p w => mk_rworld (rw_runtime w) (runtime_request_profile (rw_runtime w) p (rw_os w));
  h_steering := fun keep_port w =>
    let '(r, o) := runtime_on_steering_feedback keep_port (rw_runtime w) (rw_os w) in mk_rworld r o;
  h_complete := app_complete;
  h_admission := app_admission;
|}.

(** [*runtime] as the caller holds it. *)
Definition runtime : M (rworld O) r_runtime_client := gets (fun s => rw_runtime (s_world s)).
Definition upd_runtime (f : r_runtime_client -> r_runtime_client) : M (rworld O) unit :=
  modify (fun s => set_world (mk_rworld (f (rw_runtime (s_world s))) (rw_os (s_world s))) s).

Context {ssl : OpenSSL}.

(** *** Life *)
Definition r_runtime_client_destroy (present : bool) : M (rworld O) unit :=
  if negb present then mret tt else
  r ← runtime;
  _ ← (if rn_handle r
       then _ ← r_client_destroy; upd_runtime (set_rn_handle false)
       else mret tt);
  r ← runtime;
  _ ← world_op (on_os (fun o => (tt, close_all (rn_sockets r) o)));
  upd_runtime (set_rn_sockets []).

(** One of the two sockets, kept when it opens. *)
Definition open_socket (family : Z) : M (rworld O) unit :=
  s ← world_op (on_os (fun o => let '(fd, _, o) := open_udp_socket family 0 o in (fd, o)));
  if s =? R_RUNTIME_INVALID_SOCKET then mret tt
  else upd_runtime (fun r => set_rn_sockets (rn_sockets r ++ [s]) r).

Definition runtime_ops : r_ops := mk_ops true true true true.

Definition r_runtime_client_init (present : bool) (options : option r_runtime_options) : M (rworld O) Z :=
  if negb present then mret RCLIENT_ERR_CONFIG else
  match options with
  | None => mret RCLIENT_ERR_CONFIG
  | Some options =>
      has_key ← lift (env_nonempty (op_auth_key options));
      if negb has_key then mret RCLIENT_ERR_CONFIG else
      _ ← upd_runtime (fun _ => runtime_zero);
      r ← runtime;
      c ← lift (copy_fixed_host r options);
      let '(status, r) := c in
      _ ← upd_runtime (fun _ => r);
      if negb (status =? RCLIENT_OK) then _ ← r_runtime_client_destroy true; mret status else
      _ ← open_socket AF_INET;
      _ ← open_socket AF_INET6;
      r ← runtime;
      if zlen (rn_sockets r) =? 0 then _ ← r_runtime_client_destroy true; mret RCLIENT_ERR_IO else
      policy ← lift (deref (r_client_default_request_policy (Some (op_request_policy options_zero))));
      let policy := if op_has_request_policy options then op_request_policy options else policy in
      _ ← upd_runtime (fun r => set_rn_request_replay_count (rp_replay_count policy)
                                  (set_rn_request_unit_ms (rp_unit_ms policy) r));
      let config :=
        mk_config 0 0 (op_auth_key options) 0 (op_tenant_dns_name options) (Some policy)
          (op_profile_requests options) (mk_dns_policy 0 0 0) in
      c ← r_client_create (Some config) (Some runtime_ops) true;
      let '(status, created) := c in
      _ ← upd_runtime (set_rn_handle created);
      if negb (status =? RCLIENT_OK) then _ ← r_runtime_client_destroy true; mret status else
      mret status
  end.

Definition r_runtime_socket_count (r : option r_runtime_client) : Z :=
  from_option (fun r => zlen (rn_sockets r)) 0 r.

Definition r_runtime_socket_at (r : option r_runtime_client) (index : Z) : Z :=
  match r with
  | Some r => default R_RUNTIME_INVALID_SOCKET (rn_sockets r !! Z.to_nat index)
  | None => R_RUNTIME_INVALID_SOCKET
  end.

(** *** Receiving *)

(** The turns of the loop; [None] when more of them are needed. *)
Fixpoint drain (turns : nat) (fd : Z) : M (rworld O) (option Z) :=
  match turns with
  | Datatypes.O => mret None
  | S turns' =>
      d ← world_op (on_os (os_recvfrom fd));
      let '(length, buffer, from) := d in
      errno ← gets (fun s => os_errno (rw_os (s_world s)));
      if (length <? 0) && (errno =? EINTR) then drain turns' fd else
      if (length <? 0) && (errno =? EAGAIN) then mret (Some RCLIENT_OK) else
      if length <? 0 then mret (Some RCLIENT_ERR_IO) else
      status ← r_client_on_datagram (Some buffer) (u64 length) (Some from);
      if (status =? RCLIENT_ERR_PROTOCOL) || (status =? RCLIENT_ERR_AUTH) then drain turns' fd else
      if negb (status =? RCLIENT_OK) then mret (Some status) else
      r ← runtime;
      if negb (existsb (fun s => s =? fd) (rn_sockets r)) then mret (Some RCLIENT_OK) else
      drain turns' fd
  end.

Definition r_runtime_client_on_readable (turns : nat) (present : bool) (fd : Z) : M (rworld O) (option Z) :=
  r ← runtime;
  if negb present || negb (rn_handle r) || (fd =? R_RUNTIME_INVALID_SOCKET)
  then mret (Some RCLIENT_ERR_CONFIG) else drain turns fd.

(** *** Admission workflow *)
Definition r_runtime_admission_delay_ms (request : option Z) (out_delay_ms : option Z)
  : M (rworld O) (Z * option Z) :=
  match out_delay_ms with
  | None => mret (RCLIENT_ERR_CONFIG, None)
  | Some _ =>
      d ← r_client_admission_deadline_ms request (Some 0);
      let '(status, deadline_ms) := d in
      if negb (status =? RCLIENT_OK) then mret (status, out_delay_ms) else
      deadline_ms ← lift (deref deadline_ms);
      now_ms ← world_op (on_os r_runtime_wall_time_ms);
      mret (RCLIENT_OK, Some (if now_ms <? deadline_ms then deadline_ms -64 now_ms else 0))
  end.

Definition r_runtime_admission_on_timeout (present : bool) (request : option Z) : M (rworld O) Z :=
  r ← runtime;
  if negb present || negb (rn_handle r) then mret RCLIENT_ERR_CONFIG else
  now_ms ← world_op (on_os r_runtime_wall_time_ms);
  r_client_admission_on_timeout request now_ms.

Definition r_runtime_admission_cancel (present : bool) (request : option Z) : M (rworld O) unit :=
  r ← runtime;
  if negb present || negb (rn_handle r) then mret tt else r_client_admission_cancel request.

(** [work] is the protected operation, when there is one. *)
Definition r_runtime_admission_run_and_report (present : bool) (request : option Z)
    (work : option (M (rworld O) Z)) (out_observed_latency_ms : option Z)
  : M (rworld O) (Z * option Z) :=
  r ← runtime;
  if negb present || negb (rn_handle r) then mret (RCLIENT_ERR_CONFIG, out_observed_latency_ms) else
  match request with
  | None => mret (RCLIENT_ERR_CONFIG, out_observed_latency_ms)
  | Some u =>
      a ← get_adm u;
      match work with
      | None => mret (RCLIENT_ERR_CONFIG, out_observed_latency_ms)
      | Some work =>
          if negb (ad_admitted a) || ad_work_executed a
          then mret (RCLIENT_ERR_CONFIG, out_observed_latency_ms) else
          t ← world_op (on_os (fun o =>
                let '(rc, v, o) := r_runtime_monotonic_time_ms (Some 0) o in ((rc, v), o)));
          let '(status, started_ms) := t in
          if negb (status =? RCLIENT_OK) then mret (status, out_observed_latency_ms) else
          started_ms ← lift (deref started_ms);
          _ ← upd_adm u (set_ad_work_executed true);
          status ← work;
          if negb (status =? RCLIENT_OK) then mret (status, out_observed_latency_ms) else
          t ← world_op (on_os (fun o =>
                let '(rc, v, o) := r_runtime_monotonic_time_ms (Some 0) o in ((rc, v), o)));
          let '(status, finished_ms) := t in
          finished_ms ← lift (deref finished_ms);
          if negb (status =? RCLIENT_OK) || (finished_ms <? started_ms)
          then mret (RCLIENT_ERR_IO, out_observed_latency_ms) else
          let elapsed_ms := finished_ms -64 started_ms in
          let observed_ms := if UINT32_MAX <? elapsed_ms then UINT32_MAX else u32 elapsed_ms in
          let out := store out_observed_latency_ms observed_ms in
          rc ← r_client_admission_report_latency request observed_ms;
          mret (rc, out)
      end
  end.
End AsHost.
