(* ===== verification/DnsFacts.v ===== *)
(** * DNS discovery: memory safety and functional facts

    The refresh object is reference counted by hand: [pending] counts its
    uncompleted lookups, [scheduling] the resolver calls (and the detach) that
    are on the stack.  [dns_inv] states what the counters mean; every operation
    is shown to be free of undefined behaviour and to preserve it, whichever
    way the resolver answers. *)

From Stdlib Require Import String Ascii.
From S2P Require Import Prelude.
From S2P Require Import Types.
From S2P Require Import Wire.
From S2P Require Import WireFacts.
From S2P Require Import Crypto.
From S2P Require Import Workflow.
From S2P Require Import State.
From S2P Require Import Hoare.
From S2P Require Import Dns.

(** ** The host's contract *)

(** A NUL-terminated string. *)
Definition is_cstring (s : list Z) : Prop := is_bytes s /\ 0 ∈ s.

Definition wf_srv (r : r_srv_record) : Prop :=
  from_option is_cstring True (sv_target r) /\ is_u16 (sv_port r) /\ is_u32 (sv_ttl_ms r).

Definition wf_srv_answer (o : option (list r_srv_record)) : Prop := from_option (Forall wf_srv) True o.
Definition wf_addr_answer (o : option (list r_addr)) : Prop := from_option (Forall wf_addr) True o.

Class HostLaws (W : Type) `{Host W} : Prop := {
  now_u64 : forall w t w', h_now_ms w = (t, w') -> is_u64 t;
  rand_bytes_len : forall n w bs w', h_rand_bytes n w = (Some bs, w') -> zlen bs = n /\ is_bytes bs;
  resolve_addrs_wf : forall name w a w' st l, h_resolve_addrs name w = (a, w') ->
    aa_sync a = Some (st, l) -> wf_addr_answer l;
  resolve_srv_wf : forall name w a w' st l, h_resolve_srv name w = (a, w') ->
    sa_sync a = Some (st, l) -> wf_srv_answer l;
}.

(** ** Server ids in SRV targets *)

(** The first DNS label of a target. *)
Fixpoint first_label (s : list Z) : list Z :=
  match s with
  | [] => []
  | c :: s' => if (c =? chr ".") || (c =? 0) then [] else c :: first_label s'
  end.

Definition is_digit (c : Z) : bool := (chr "0" <=? c) && (c <=? chr "9").
Definition dec_value (ds : list Z) : Z := foldl (fun v c => v * 10 + (c - chr "0")) 0 ds.

(** [s-<decimal>] as the first label. *)
Definition server_label (t : list Z) : option Z :=
  match first_label t with
  | s :: d :: ((_ :: _) as ds) =>
      if (s =? chr "s") && (d =? chr "-") && forallb is_digit ds
      then Some (dec_value ds) else None
  | _ => None
  end.

Lemma label_len t :
  0 ∈ t ->
  strchr t (chr ".") = Ok (Some (zlen (first_label t))) \/
  (strchr t (chr ".") = Ok None /\ strlen t = Ok (zlen (first_label t))).
Proof.
  induction t as [|c t IH]; intros Hin; [set_solver|]. simpl.
  destruct (Z.eqb_spec c (chr ".")) as [->|Hd]; simpl; [by left|].
  destruct (Z.eqb_spec c 0) as [->|H0]; simpl; [by right|].
  destruct IH as [->|[-> ->]]; [set_solver|left|right]; simpl; [|split; [done|]]; repeat f_equal; lia.
Qed.

Lemma first_label_prefix t : first_label t `prefix_of` t.
Proof.
  induction t as [|c t IH]; simpl; [done|]. case_if; [apply prefix_nil | by apply prefix_cons].
Qed.

(** The digit loop over the label behind [pre]. *)
Lemma digit_loop t pre ds post v :
  t = pre ++ ds ++ post ->
  for_flow (length ds) (zlen pre) (server_id_digit t) v =
  Ok (if forallb is_digit ds
      then Next (foldl (fun v c => (v *64 10) +64 (c - chr "0")) v ds) else Return tt).
Proof.
  revert pre v; induction ds as [|c ds IH]; intros pre v Ht; simpl; [done|].
  assert (server_id_digit t (zlen pre) v =
          Ok (if is_digit c then Next ((v *64 10) +64 (c - chr "0")) else Return tt)) as ->.
  { unfold server_id_digit, rd. rewrite (proj2 (Z.leb_le _ _)), Ht by lia.
    rewrite Nat2Z.id, lookup_app_r, Nat.sub_diag by lia. simpl. unfold is_digit.
    rewrite !Z.leb_antisym. by destruct (c <? chr "0"), (chr "9" <? c). }
  simpl. destruct (is_digit c); simpl; [|done].
  rewrite <- (IH (pre ++ [c])) by (by rewrite <- app_assoc, Ht).
  rewrite length_app, Nat2Z.inj_add. done.
Qed.

Lemma dec_value_wraps ds v v' :
  v' = v mod 2 ^ 64 ->
  foldl (fun v c => (v *64 10) +64 (c - chr "0")) v' ds =
  foldl (fun v c => v * 10 + (c - chr "0")) v ds mod 2 ^ 64.
Proof.
  revert v v'; induction ds as [|c ds IH]; intros v v' ->; simpl; [done|].
  apply IH. unfold u64. rewrite Z.mul_mod_idemp_l, Z.add_mod_idemp_l by lia. done.
Qed.

(** The server id of an SRV target is the decimal number of its first
    label [s-<digits>], modulo 2^64 for one with too many digits; every other
    target is skipped.  No target string makes the parser read past its end. *)
Lemma parse_server_id_spec t b :
  is_cstring t ->
  r_parse_server_id_from_target (Some t) (Some b) =
  Ok (match server_label t with
      | Some v => (v mod 2 ^ 64, Some true)
      | None => (0, Some false)
      end).
Proof.
  intros [Hb Hin]. unfold r_parse_server_id_from_target, server_label.
  destruct (first_label_prefix t) as [post Ht].
  assert (Hlen : (dot ← strchr t (chr "."); len ← match dot with Some d => Ok d | None => strlen t end;
                  Ok len) = Ok (zlen (first_label t))).
  { by destruct (label_len t Hin) as [->|[-> ->]]. }
  destruct (strchr t (chr ".")) as [|dot]; [done|]. simpl in Hlen |- *.
  destruct (match dot with Some d => Ok d | None => strlen t end) as [|len]; [done|].
  simpl in Hlen |- *. injection Hlen as ->.
  destruct (first_label t) as [|c0 [|c1 [|c2 ds]]] eqn:El; try done.
  rewrite zltb_false by (simpl; lia).
  assert (rd t 0 = Ok c0) as -> by by rewrite Ht. assert (rd t 1 = Ok c1) as -> by by rewrite Ht.
  simpl. destruct (c0 =? chr "s"); simpl; [|done]. destruct (c1 =? chr "-"); simpl; [|done].
  replace (Z.to_nat _) with (length (c2 :: ds)) by (simpl; lia).
  change 2 with (zlen [c0; c1]) at 1. rewrite (digit_loop t [c0; c1] (c2 :: ds) post 0) by done.
  rewrite run_bind_Ok. change (is_digit c2 && forallb is_digit ds) with (forallb is_digit (c2 :: ds)).
  destruct (forallb is_digit (c2 :: ds)); [|done].
  rewrite (dec_value_wraps _ 0) by done. done.
Qed.

(** ** Counting lookups *)
Definition b2z (b : bool) : Z := if b then 1 else 0.

Lemma b2z_range b : 0 <= b2z b <= 1.
Proof. destruct b; simpl; lia. Qed.

Fixpoint count (f : r_dns_lookup_ctx -> bool) (m : gmap ptr r_dns_lookup_ctx) (ls : list ptr) : Z :=
  match ls with
  | [] => 0
  | l :: ls' => from_option (fun lk => b2z (f lk)) 0 (m !! l) + count f m ls'
  end.

Lemma count_ge0 f m ls : 0 <= count f m ls <= zlen ls.
Proof.
  induction ls as [|l ls IH]; simpl; [lia|].
  destruct (m !! l) as [lk|]; simpl; [destruct (f lk)|]; simpl; lia.
Qed.

Lemma count_insert_ne f m ls l x : l ∉ ls -> count f (<[l := x]> m) ls = count f m ls.
Proof.
  induction ls as [|k ls IH]; intros Hl; simpl; [done|].
  rewrite lookup_insert_ne, IH by set_solver. done.
Qed.

Lemma count_insert f m ls l old x :
  NoDup ls -> l ∈ ls -> m !! l = Some old ->
  count f (<[l := x]> m) ls = count f m ls - b2z (f old) + b2z (f x).
Proof.
  induction ls as [|k ls IH]; intros Hnd Hl Hm; [set_solver|].
  apply NoDup_cons in Hnd as [Hk Hnd]. simpl. destruct (decide (k = l)) as [->|Hne].
  - rewrite lookup_insert_eq, Hm, count_insert_ne by done. simpl. lia.
  - rewrite lookup_insert_ne, IH by set_solver. lia.
Qed.

Lemma count_delete f m ls l : l ∉ ls -> count f (delete l m) ls = count f m ls.
Proof.
  induction ls as [|k ls IH]; intros Hl; simpl; [done|].
  rewrite lookup_delete_ne, IH by set_solver. done.
Qed.

Lemma list_unlink_not_in p l : p ∉ l -> list_unlink p l = l.
Proof.
  induction l as [|q l IH]; intros Hp; simpl; [done|].
  rewrite (proj2 (Nat.eqb_neq q p)) by set_solver. rewrite IH by set_solver. done.
Qed.

Lemma elem_of_list_unlink p q l : NoDup l -> q ∈ list_unlink p l <-> q ∈ l /\ q <> p.
Proof.
  induction l as [|x l IH]; intros Hnd; simpl; [set_solver|].
  apply NoDup_cons in Hnd as [Hx Hnd]. destruct (Nat.eqb_spec x p) as [->|Hne].
  - set_solver.
  - rewrite elem_of_cons, IH by done. set_solver.
Qed.

Lemma NoDup_list_unlink p l : NoDup l -> NoDup (list_unlink p l).
Proof.
  induction l as [|x l IH]; intros Hnd; simpl; [done|].
  apply NoDup_cons in Hnd as [Hx Hnd]. destruct (Nat.eqb x p); [done|].
  apply NoDup_cons. rewrite elem_of_list_unlink by done. tauto.
Qed.

Lemma count_unlink f m ls l old :
  NoDup ls -> l ∈ ls -> m !! l = Some old ->
  count f m (list_unlink l ls) = count f m ls - b2z (f old).
Proof.
  induction ls as [|k ls IH]; intros Hnd Hl Hm; [set_solver|].
  apply NoDup_cons in Hnd as [Hk Hnd]. simpl. destruct (Nat.eqb_spec k l) as [->|Hne].
  - rewrite Hm. simpl. lia.
  - simpl. rewrite IH by set_solver. lia.
Qed.

Lemma count_pos f m ls l lk : l ∈ ls -> m !! l = Some lk -> f lk = true -> 0 < count f m ls.
Proof.
  induction ls as [|k ls IH]; intros Hl Hm Hf; [set_solver|]. simpl.
  pose proof (count_ge0 f m ls). destruct (decide (k = l)) as [->|Hne].
  - rewrite Hm. simpl. rewrite Hf. simpl. lia.
  - assert (0 < count f m ls) by (apply IH; set_solver).
    destruct (m !! k) as [x|]; simpl; [destruct (f x)|]; simpl; lia.
Qed.

(** ** The invariant *)
Definition arr_ok (size count cap : Z) : Prop := 0 <= count <= cap /\ cap * size < 2 ^ 63.

Definition uncompleted (lk : r_dns_lookup_ctx) : bool := negb (lk_completed lk).

Section Inv.
Context {W : Type}.

Definition wf_endpoint (e : r_server_endpoint) : Prop :=
  wf_addr (se_addr e) /\ is_u64 (se_server_id e).

(** [X] is the refresh being detached, if any: it holds one more
    [scheduling] count.  [Y] is a refresh that may be idle, about to be
    completed. *)
Record refresh_ok (X Y : option ptr) (s : sys W) (p : ptr) (rf : r_dns_refresh) : Prop := {
  ro_nodup : NoDup (rf_lookups rf);
  ro_lookups : forall l, l ∈ rf_lookups rf ->
    exists lk, s_lookups s !! l = Some lk /\ lk_refresh lk = Some p;
  ro_pending : rf_pending rf = count uncompleted (s_lookups s) (rf_lookups rf);
  ro_scheduling : rf_scheduling rf =
    count lk_in_resolver_call (s_lookups s) (rf_lookups rf) + b2z (bool_decide (X = Some p));
  ro_cap : arr_ok SERVER_ENDPOINT_SIZE (zlen (rf_endpoints rf)) (rf_endpoint_cap rf);
  ro_addrs : Forall wf_endpoint (rf_endpoints rf);
  ro_owner : (rf_client rf = true /\ rf_detached rf = false /\
              cl_dns_refresh (s_client s) = Some p /\ X <> Some p) \/
             (rf_detached rf = true /\ cl_dns_refresh (s_client s) <> Some p /\
              (rf_client rf = false \/ X = Some p));
  ro_busy : Y = Some p \/ 0 < rf_pending rf + rf_scheduling rf;
}.

Record lookup_ok (s : sys W) (l : ptr) (lk : r_dns_lookup_ctx) : Prop := {
  lo_owner : exists p rf, lk_refresh lk = Some p /\ s_refreshes s !! p = Some rf /\
                          l ∈ rf_lookups rf;
  lo_state : (lk_completed lk = true -> lk_in_resolver_call lk = true) /\
             is_u64 (lk_server_id lk);
  lo_fresh : (l < s_next s)%nat;
}.

Record dns_inv (X Y : option ptr) (s : sys W) : Prop := {
  di_lookups : forall l lk, s_lookups s !! l = Some lk -> lookup_ok s l lk;
  di_refreshes : forall p rf, s_refreshes s !! p = Some rf ->
    refresh_ok X Y s p rf /\ (p < s_next s)%nat;
  di_current : forall p, cl_dns_refresh (s_client s) = Some p -> is_Some (s_refreshes s !! p);
  di_detaching : forall p, X = Some p -> is_Some (s_refreshes s !! p);
  di_flag : cl_dns_refresh_inflight (s_client s) = bool_decide (is_Some (cl_dns_refresh (s_client s)));
  di_small : Z.of_nat (size (s_lookups s)) <= 2 ^ 60;
  di_servers : arr_ok SERVER_ENDPOINT_SIZE (zlen (cl_servers (s_client s)))
                 (cl_server_cap (s_client s));
  di_addrs : Forall wf_endpoint (cl_servers (s_client s));
}.

(** What DNS operations leave alone. *)
Definition is_cancel (e : event) : Prop := match e with EvDnsCancel _ => True | _ => False end.

Record dns_frame (s s' : sys W) : Prop := {
  df_reqs : s_reqs s' = s_reqs s;
  df_fixed : cl_fixed (s_client s') = cl_fixed (s_client s);
  df_inflight : cl_inflight (s_client s') = cl_inflight (s_client s);
  df_steering : cl_steering_rebind_pending (s_client s') = cl_steering_rebind_pending (s_client s);
  df_failures : cl_send_failure_count (s_client s') = cl_send_failure_count (s_client s);
  df_next : (s_next s <= s_next s')%nat;
  df_trace : exists tr, s_trace s' = s_trace s ++ tr /\ Forall is_cancel tr;
  df_adms : s_adms s' = s_adms s;
}.

#[export] Instance dns_frame_preorder : PreOrder dns_frame.
Proof.
  split.
  - intros s. split; try done. exists []. by rewrite app_nil_r.
  - intros s1 s2 s3 [] []. split; try congruence; try lia.
    destruct df_trace0 as (t1 & E1 & F1), df_trace1 as (t2 & E2 & F2).
    exists (t1 ++ t2). rewrite E2, E1, app_assoc. split; [done|]. by apply Forall_app.
Qed.
End Inv.

Section InvLemmas.
Context {W : Type}.
Implicit Types s : sys W.

Lemma dns_frame_world s w : dns_frame s (set_world w s).
Proof. split; try done. exists []. by rewrite app_nil_r. Qed.

(** The invariant only depends on the DNS part of the state. *)
Lemma dns_inv_ext X Y s s' :
  dns_inv X Y s -> s_lookups s' = s_lookups s -> s_refreshes s' = s_refreshes s ->
  (s_next s <= s_next s')%nat ->
  cl_dns_refresh (s_client s') = cl_dns_refresh (s_client s) ->
  cl_dns_refresh_inflight (s_client s') = cl_dns_refresh_inflight (s_client s) ->
  cl_servers (s_client s') = cl_servers (s_client s) ->
  cl_server_cap (s_client s') = cl_server_cap (s_client s) -> dns_inv X Y s'.
Proof.
  intros [HL HR HC HD HF HZ HS HA] EL ER EN E1 E2 E3 E4.
  split; rewrite ?E1, ?E2, ?E3, ?E4, ?EL, ?ER; try done.
  - intros l lk Hl. destruct (HL l lk Hl) as [HO HK HN]. split; [|done|lia].
    by rewrite ER.
  - intros p rf Hp. destruct (HR p rf Hp) as [[] Hn]. split; [|lia].
    split; rewrite ?EL, ?E1; done.
Qed.

Lemma dns_inv_world X Y s w : dns_inv X Y s -> dns_inv X Y (set_world w s).
Proof. intros HI. by eapply dns_inv_ext. Qed.

(** A refresh that is not idle needs no exemption. *)
Lemma dns_inv_busy X Y s :
  dns_inv X Y s ->
  (forall p rf, Y = Some p -> s_refreshes s !! p = Some rf -> 0 < rf_pending rf + rf_scheduling rf) ->
  dns_inv X None s.
Proof.
  intros [HL HR HC HD HF HZ HS HA] HB. split; try done. intros p rf Hp.
  destruct (HR p rf Hp) as [[] Hn]. split; [|done]. split; try done. right.
  destruct ro_busy0; eauto.
Qed.
Lemma dns_inv_weaken X Y s : dns_inv X None s -> dns_inv X Y s.
Proof.
  intros [HL HR HC HD HF HZ HS HA]. split; try done. intros p rf Hp.
  destruct (HR p rf Hp) as [[] Hn]. split; [|done]. split; try done. right.
  by destruct ro_busy0.
Qed.

(** Only the discovered endpoints or the TTL of a refresh change. *)
Lemma dns_inv_data X Y s s' p rf rf' :
  dns_inv X Y s -> s_refreshes s !! p = Some rf ->
  s_lookups s' = s_lookups s -> s_refreshes s' = <[p := rf']> (s_refreshes s) ->
  s_next s' = s_next s -> s_client s' = s_client s ->
  rf_client rf' = rf_client rf -> rf_detached rf' = rf_detached rf ->
  rf_pending rf' = rf_pending rf -> rf_scheduling rf' = rf_scheduling rf ->
  rf_lookups rf' = rf_lookups rf ->
  arr_ok SERVER_ENDPOINT_SIZE (zlen (rf_endpoints rf')) (rf_endpoint_cap rf') ->
  Forall wf_endpoint (rf_endpoints rf') -> dns_inv X Y s'.
Proof.
  intros [HL HR HC HD HF HZ HS HA] Hp EL ER EN EC E1 E2 E3 E4 E5 Hcap Hwf.
  split; rewrite ?EC, ?EL, ?ER; try done.
  - intros l lk Hl. destruct (HL l lk Hl) as [(q & rfq & Hq & Hrq & Hin) HK HN].
    split; [|done|by rewrite EN]. rewrite ER. destruct (decide (q = p)) as [->|Hne].
    + exists p, rf'. rewrite lookup_insert_eq, E5. simplify_eq. done.
    + exists q, rfq. by rewrite lookup_insert_ne.
  - intros q rfq Hq. rewrite EN. destruct (decide (q = p)) as [->|Hne].
    + rewrite lookup_insert_eq in Hq. simplify_eq. destruct (HR p rf Hp) as [[] Hn].
      split; [|done]. split; rewrite ?EC, ?EL, ?E1, ?E2, ?E3, ?E4, ?E5; done.
    + rewrite lookup_insert_ne in Hq by done. destruct (HR q rfq Hq) as [[] Hn].
      split; [|done]. split; rewrite ?EC, ?EL; done.
  - intros q Hq. rewrite lookup_insert_is_Some'. right. by apply HC.
  - intros q Hq. rewrite lookup_insert_is_Some'. right. by apply HD.
Qed.

(** A lookup of [p] is updated, or removed and unlinked, with the counters
    of [p] adjusted accordingly. *)
Lemma dns_inv_lookup X Y s s' p rf rf' l old new :
  dns_inv X Y s -> Y = None \/ Y = Some p ->
  s_refreshes s !! p = Some rf -> s_lookups s !! l = Some old -> lk_refresh old = Some p ->
  s_lookups s' = from_option (fun n => <[l := n]>) (delete l) new (s_lookups s) ->
  s_refreshes s' = <[p := rf']> (s_refreshes s) -> s_next s' = s_next s ->
  s_client s' = s_client s ->
  rf_client rf' = rf_client rf -> rf_detached rf' = rf_detached rf ->
  rf_endpoints rf' = rf_endpoints rf -> rf_endpoint_cap rf' = rf_endpoint_cap rf ->
  rf_pending rf' = rf_pending rf - b2z (uncompleted old)
                   + from_option (fun n => b2z (uncompleted n)) 0 new ->
  rf_scheduling rf' = rf_scheduling rf - b2z (lk_in_resolver_call old)
                      + from_option (fun n => b2z (lk_in_resolver_call n)) 0 new ->
  rf_lookups rf' = from_option (fun _ => rf_lookups rf) (list_unlink l (rf_lookups rf)) new ->
  from_option (fun n => lk_refresh n = Some p /\
                        (lk_completed n = true -> lk_in_resolver_call n = true) /\
                        is_u64 (lk_server_id n)) True new ->
  dns_inv X (Some p) s'.
Proof.
  intros [HL HR HC HD HF HZ HS HA] HY Hp Hl Ho EL ER EN EC E1 E2 E3 E4 E5 E6 E7 Hnew.
  destruct (HR p rf Hp) as [Hrf Hpn]. destruct (HL l old Hl) as [(p0 & rf0 & Hp0 & Hr0 & Hin) _ Hln].
  rewrite Ho in Hp0. injection Hp0 as <-. rewrite Hp in Hr0. injection Hr0 as <-.
  assert (Hother : forall k, k <> l -> s_lookups s' !! k = s_lookups s !! k).
  { intros k Hk. rewrite EL. destruct new; simpl; [by rewrite lookup_insert_ne|].
    by rewrite lookup_delete_ne. }
  assert (Hmem : forall k, k ∈ rf_lookups rf' -> k ∈ rf_lookups rf).
  { intros k. rewrite E7. destruct new; simpl; [done|].
    rewrite elem_of_list_unlink by apply Hrf. tauto. }
  split; rewrite ?EC; try done.
  - intros k lk Hk. destruct (decide (k = l)) as [->|Hne].
    + rewrite EL in Hk. destruct new as [n|]; simpl in *;
        [|rewrite lookup_delete_eq in Hk; discriminate].
      rewrite lookup_insert_eq in Hk. injection Hk as <-. destruct Hnew as [Hn1 Hn2].
      split; [|done|by rewrite EN]. exists p, rf'. by rewrite ER, lookup_insert_eq, E7.
    + rewrite Hother in Hk by done. destruct (HL k lk Hk) as [(q & rfq & Hq & Hrq & Hki) HK HN].
      split; [|done|by rewrite EN]. destruct (decide (q = p)) as [->|Hqp].
      * exists p, rf'. rewrite ER, lookup_insert_eq. simplify_eq. do 2 (split; [done|]).
        rewrite E7. destruct new; simpl; [done|]. rewrite elem_of_list_unlink by apply Hrf. done.
      * exists q, rfq. by rewrite ER, lookup_insert_ne.
  - intros q rfq Hq. rewrite EN. rewrite ER in Hq. destruct (decide (q = p)) as [->|Hqp].
    + rewrite lookup_insert_eq in Hq. injection Hq as <-. split; [|done].
      destruct Hrf as [R1 R2 R3 R4 R6 R7 R8 R9]. split.
      * rewrite E7. destruct new; simpl; [done | by apply NoDup_list_unlink].
      * intros k Hk. destruct (decide (k = l)) as [->|Hne].
        { rewrite EL. rewrite E7 in Hk. destruct new as [n|]; simpl in *.
          - exists n. rewrite lookup_insert_eq. split; [done | apply Hnew].
          - apply elem_of_list_unlink in Hk as [_ Hk]; done. }
        rewrite Hother by done. apply R2, Hmem, Hk.
      * rewrite E5, E7, R3, EL. destruct new as [n|]; simpl.
        { rewrite (count_insert _ _ _ _ old) by done. done. }
        rewrite count_delete by (rewrite elem_of_list_unlink by done; tauto).
        rewrite (count_unlink _ _ _ _ old) by done. lia.
      * rewrite E6, E7, R4, EL. destruct new as [n|]; simpl.
        { rewrite (count_insert _ _ _ _ old) by done. lia. }
        rewrite count_delete by (rewrite elem_of_list_unlink by done; tauto).
        rewrite (count_unlink _ _ _ _ old) by done. lia.
      * by rewrite E3, E4.
      * by rewrite E3.
      * by rewrite EC, E1, E2.
      * by left.
    + rewrite lookup_insert_ne in Hq by done. destruct (HR q rfq Hq) as [[R1 R2 R3 R4 R6 R7 R8 R9] Hn].
      assert (Hlq : l ∉ rfq.(rf_lookups)).
      { intros Hlq. destruct (R2 l Hlq) as (lk & Hlk & Hlr). congruence. }
      split; [|done]. split; rewrite ?EC; try done.
      * intros k Hk. rewrite Hother by set_solver. by apply R2.
      * rewrite R3, EL. destruct new; simpl; [by rewrite count_insert_ne | by rewrite count_delete].
      * rewrite R4, EL. destruct new; simpl; [by rewrite count_insert_ne | by rewrite count_delete].
      * right. destruct R9 as [HYq|]; [|done]. destruct HY; congruence.
  - intros q Hq. rewrite ER, lookup_insert_is_Some'. right. by apply HC.
  - intros q Hq. rewrite ER, lookup_insert_is_Some'. right. by apply HD.
  - rewrite EL. destruct new; simpl.
    + rewrite map_size_insert_Some by eauto. done.
    + rewrite (map_size_delete_Some l) by eauto. lia.
Qed.

(** A fresh lookup, inside its resolver call, is linked to [p]. *)
Lemma dns_inv_begin X Y s s' p rf rf' lk :
  dns_inv X Y s -> Y = None \/ Y = Some p ->
  s_refreshes s !! p = Some rf -> Z.of_nat (size (s_lookups s)) < 2 ^ 60 ->
  lk_refresh lk = Some p -> lk_completed lk = false -> lk_in_resolver_call lk = true ->
  is_u64 (lk_server_id lk) ->
  s_lookups s' = <[s_next s := lk]> (s_lookups s) ->
  s_refreshes s' = <[p := rf']> (s_refreshes s) -> s_next s' = S (s_next s) ->
  s_client s' = s_client s ->
  rf_client rf' = rf_client rf -> rf_detached rf' = rf_detached rf ->
  rf_endpoints rf' = rf_endpoints rf -> rf_endpoint_cap rf' = rf_endpoint_cap rf ->
  rf_pending rf' = rf_pending rf + 1 -> rf_scheduling rf' = rf_scheduling rf + 1 ->
  rf_lookups rf' = s_next s :: rf_lookups rf ->
  dns_inv X None s'.
Proof.
  intros [HL HR HC HD HF HZ HS HA] HY Hp Hsz K1 K2 K3 K4 EL ER EN EC E1 E2 E3 E4 E5 E6 E7.
  destruct (HR p rf Hp) as [Hrf Hpn].
  assert (Hfresh : s_lookups s !! s_next s = None).
  { apply eq_None_not_Some. intros [x Hx]. destruct (HL _ _ Hx). lia. }
  assert (Hnot : forall q rfq, s_refreshes s !! q = Some rfq -> s_next s ∉ rf_lookups rfq).
  { intros q rfq Hq Hin. destruct (HR q rfq Hq) as [[_ R2 _ _ _ _ _ _] _].
    destruct (R2 _ Hin) as (x & Hx & _). congruence. }
  split; rewrite ?EC; try done.
  - intros k lk' Hk. rewrite EL in Hk. destruct (decide (k = s_next s)) as [->|Hne].
    + rewrite lookup_insert_eq in Hk. injection Hk as <-. split; [|by rewrite K2; split | lia].
      exists p, rf'. rewrite ER, lookup_insert_eq, E7. repeat split; [done|left].
    + rewrite lookup_insert_ne in Hk by done.
      destruct (HL k lk' Hk) as [(q & rfq & Hq & Hrq & Hki) HK HN]. split; [|done|lia].
      destruct (decide (q = p)) as [->|Hqp].
      * exists p, rf'. rewrite ER, lookup_insert_eq, E7. simplify_eq. repeat split; [done|by right].
      * exists q, rfq. by rewrite ER, lookup_insert_ne.
  - intros q rfq Hq. rewrite EN. rewrite ER in Hq. destruct (decide (q = p)) as [->|Hqp].
    + rewrite lookup_insert_eq in Hq. injection Hq as <-. split; [|lia].
      destruct Hrf as [R1 R2 R3 R4 R6 R7 R8 R9].
      assert (Hp' := Hnot p rf Hp). split; rewrite ?E3, ?E4, ?EC, ?E1, ?E2; try done.
      * rewrite E7. by apply NoDup_cons.
      * intros k Hk. rewrite EL. rewrite E7 in Hk. apply elem_of_cons in Hk as [->|Hk].
        { exists lk. by rewrite lookup_insert_eq. }
        rewrite lookup_insert_ne by set_solver. by apply R2.
      * rewrite E5, E7, EL. simpl. rewrite lookup_insert_eq, count_insert_ne by done.
        simpl. unfold uncompleted at 1. rewrite K2. simpl. lia.
      * rewrite E6, E7, EL. simpl. rewrite lookup_insert_eq, count_insert_ne by done.
        simpl. rewrite K3. simpl. lia.
      * right. rewrite E5, E6, R3, R4. pose proof (count_ge0 uncompleted (s_lookups s) (rf_lookups rf)).
        pose proof (count_ge0 lk_in_resolver_call (s_lookups s) (rf_lookups rf)).
        pose proof (b2z_range (bool_decide (X = Some p))). lia.
    + rewrite lookup_insert_ne in Hq by done.
      destruct (HR q rfq Hq) as [[R1 R2 R3 R4 R6 R7 R8 R9] Hn]. assert (Hq' := Hnot q rfq Hq).
      split; [|lia]. split; rewrite ?EC; try done.
      * intros k Hk. rewrite EL, lookup_insert_ne by set_solver. by apply R2.
      * by rewrite R3, EL, count_insert_ne.
      * by rewrite R4, EL, count_insert_ne.
      * right. destruct R9 as [HYq|]; [|done]. destruct HY; congruence.
  - intros q Hq. rewrite ER, lookup_insert_is_Some'. right. by apply HC.
  - intros q Hq. rewrite ER, lookup_insert_is_Some'. right. by apply HD.
  - rewrite EL, map_size_insert_None by done. lia.
Qed.

(** An idle refresh has no lookups left. *)
Lemma idle_no_lookups X Y s p rf :
  dns_inv X Y s -> s_refreshes s !! p = Some rf -> rf_pending rf = 0 -> rf_scheduling rf = 0 ->
  rf_lookups rf = [] /\ X <> Some p.
Proof.
  intros [HL HR _ _ _ _ _ _] Hp E1 E2. destruct (HR p rf Hp) as [[R1 R2 R3 R4 R6 R7 R8 R9] _].
  pose proof (count_ge0 uncompleted (s_lookups s) (rf_lookups rf)).
  pose proof (count_ge0 lk_in_resolver_call (s_lookups s) (rf_lookups rf)).
  rewrite R4 in E2. split; [|intros ->; rewrite bool_decide_true in E2 by done; simpl in E2; lia].
  destruct (rf_lookups rf) as [|l ls] eqn:El; [done|exfalso].
  destruct (R2 l ltac:(left)) as (lk & Hlk & _). destruct (HL l lk Hlk) as [_ [HK _] _].
  destruct (lk_completed lk) eqn:Ec.
  - assert (0 < count lk_in_resolver_call (s_lookups s) (l :: ls))
      by (eapply count_pos; [left | done | by apply HK]).
    pose proof (b2z_range (bool_decide (X = Some p))). lia.
  - assert (0 < count uncompleted (s_lookups s) (l :: ls)); [|lia].
    eapply count_pos; [left | done | unfold uncompleted; by rewrite Ec].
Qed.

(** Freeing an idle refresh, whether or not it was the client's current one. *)
Lemma dns_inv_free X Y s s' p rf :
  dns_inv X Y s -> Y = None \/ Y = Some p ->
  s_refreshes s !! p = Some rf -> rf_lookups rf = [] -> X <> Some p ->
  s_lookups s' = s_lookups s -> s_refreshes s' = delete p (s_refreshes s) ->
  s_next s' = s_next s ->
  cl_dns_refresh (s_client s') =
    (if decide (cl_dns_refresh (s_client s) = Some p) then None
     else cl_dns_refresh (s_client s)) ->
  cl_dns_refresh_inflight (s_client s') =
    bool_decide (is_Some (cl_dns_refresh (s_client s'))) ->
  arr_ok SERVER_ENDPOINT_SIZE (zlen (cl_servers (s_client s'))) (cl_server_cap (s_client s')) ->
  Forall wf_endpoint (cl_servers (s_client s')) ->
  dns_inv X None s'.
Proof.
  intros [HL HR HC HD HF HZ HS HA] HY Hp Hnil HX EL ER EN ED EF EA EW.
  split; rewrite ?EL, ?EN; try done.
  - intros l lk Hl. destruct (HL l lk Hl) as [(q & rfq & Hq & Hrq & Hin) HK HN].
    split; [|done|by rewrite EN]. exists q, rfq. rewrite ER.
    rewrite lookup_delete_ne; [done|]. intros ->. simplify_eq. rewrite Hnil in Hin. set_solver.
  - intros q rfq Hq. rewrite ER in Hq. apply lookup_delete_Some in Hq as [Hqp Hq].
    destruct (HR q rfq Hq) as [[R1 R2 R3 R4 R6 R7 R8 R9] Hn]. split; [|done].
    split; rewrite ?EL; try done.
    + rewrite ED. destruct (decide _) as [E|E]; [|done]. rewrite E in R8.
      destruct R8 as [(_ & _ & ? & _)|(? & ? & ?)]; [congruence|]. right. done.
    + right. destruct R9 as [HYq|]; [|done]. destruct HY; congruence.
  - intros q Hq. rewrite ED in Hq. destruct (decide _) as [E|E]; [done|].
    rewrite ER, lookup_delete_is_Some. split; [congruence|]. by apply HC.
  - intros q Hq. rewrite ER, lookup_delete_is_Some. split; [congruence|]. by apply HD.
Qed.
End InvLemmas.

(** A step is invisible outside the host when only the world changes. *)
Definition only_world {W} (s s' : sys W) : Prop := exists w, s' = set_world w s.

Section Ops.
Context {W : Type} `{HL : HostLaws W}.
Implicit Types s : sys W.

Lemma now_ms_wp Q s :
  (forall t s', is_u64 t -> only_world s s' -> Q t s') -> wp r_now_ms Q s.
Proof.
  intros HQ. unfold r_now_ms. wp_step. wp_step. wp_step.
  - wp_step. apply HQ; [rlia|]. exists (s_world s). by destruct s.
  - apply wp_world_op. intros t w E. apply HQ; [by eapply now_u64 | by exists w].
Qed.

Definition endpoints_kept (rf : r_dns_refresh) s s' : Prop :=
  cl_servers (s_client s') =
    (if decide (rf_endpoints rf = []) then cl_servers (s_client s) else rf_endpoints rf).

Lemma refresh_free_wp p rf s (Q : unit -> sys W -> Prop) :
  s_refreshes s !! p = Some rf -> rf_lookups rf = [] ->
  Q tt (set_refreshes (delete p (s_refreshes s)) s) -> wp (r_dns_refresh_free p) Q s.
Proof.
  intros Hp Hn HQ. unfold r_dns_refresh_free. wp_step. wp_step. rewrite Hn.
  unfold r_dns_lookup_free_all. simpl. wp_step. wp_step. by eapply wp_free_refresh.
Qed.

(** Completion of the client's current refresh. *)
Lemma refresh_finish_wp X p rf s :
  dns_inv X (Some p) s -> s_refreshes s !! p = Some rf ->
  rf_pending rf = 0 -> rf_scheduling rf = 0 -> rf_client rf = true -> rf_detached rf = false ->
  wp (r_dns_refresh_finish p) (fun _ s' =>
    dns_inv X None s' /\ dns_frame s s' /\ s_lookups s' = s_lookups s /\
    s_refreshes s' = delete p (s_refreshes s) /\ cl_dns_refresh (s_client s') = None /\
    endpoints_kept rf s s') s.
Proof.
  intros HI Hp E1 E2 Hc Hd. destruct (idle_no_lookups _ _ _ _ _ HI Hp E1 E2) as [Hnil HX].
  destruct (di_refreshes _ _ _ HI p rf Hp) as [[R1 R2 R3 R4 R6 R7 R8 R9] _].
  destruct R8 as [(_ & _ & Hcur & _)|(? & _)]; [|congruence].
  assert (Hfin : forall s1, s_adms s1 = s_adms s -> s_reqs s1 = s_reqs s -> s_trace s1 = s_trace s ->
    s_lookups s1 = s_lookups s -> s_next s1 = s_next s ->
    (exists rf', s_refreshes s1 = <[p := rf']> (s_refreshes s) /\ rf_lookups rf' = []) ->
    cl_fixed (s_client s1) = cl_fixed (s_client s) ->
    cl_inflight (s_client s1) = cl_inflight (s_client s) ->
    cl_steering_rebind_pending (s_client s1) = cl_steering_rebind_pending (s_client s) ->
    cl_send_failure_count (s_client s1) = cl_send_failure_count (s_client s) ->
    cl_dns_refresh (s_client s1) = Some p ->
    arr_ok SERVER_ENDPOINT_SIZE (zlen (cl_servers (s_client s1))) (cl_server_cap (s_client s1)) ->
    Forall wf_endpoint (cl_servers (s_client s1)) -> endpoints_kept rf s s1 ->
    wp (_ ← upd_client (set_cl_dns_refresh_inflight false);
        c ← client;
        _ ← (if decide (cl_dns_refresh c = Some p)
             then upd_client (set_cl_dns_refresh None) else mret tt);
        r_dns_refresh_free p)
      (fun _ s' => dns_inv X None s' /\ dns_frame s s' /\ s_lookups s' = s_lookups s /\
         s_refreshes s' = delete p (s_refreshes s) /\ cl_dns_refresh (s_client s') = None /\
         endpoints_kept rf s s') s1).
  { intros s1 Fa F1 F2 F3 F4 (rf' & F5 & F6) F7 F8 F9 F10 F11 F12 F13 F14.
    wp_step. wp_step. wp_step. wp_step. simpl. rewrite F11, decide_True by done.
    wp_step. wp_step. eapply refresh_free_wp; [simpl; by rewrite F5, lookup_insert_eq|done|].
    simpl. rewrite F5, delete_insert_eq. split; [|split]; [| |done].
    - eapply (dns_inv_free X _ s); simpl; try done; [by right|].
      rewrite Hcur, decide_True by done. done.
    - split; simpl; try done; [lia|]. exists []. by rewrite app_nil_r, F2. }
  unfold r_dns_refresh_finish. wp_step. wp_step. rewrite Hc, Hd. simpl. wp_step.
  destruct (Z.ltb_spec 0 (zlen (rf_endpoints rf))) as [Hlt|Hge].
  - wp_step. wp_step. wp_step. apply now_ms_wp. intros t s1 Ht [w ->]. wp_step. wp_step.
    wp_step. apply Hfin; simpl; try done.
    + eexists; split; [reflexivity | done].
    + unfold endpoints_kept. simpl. rewrite decide_False; [done|].
      intros E. rewrite E in Hlt. simpl in Hlt. lia.
  - wp_step. destruct HI. apply Hfin; try done.
    + exists rf. by rewrite insert_id.
    + unfold endpoints_kept. destruct (rf_endpoints rf); [done | simpl in Hge; lia].
Qed.

Definition idle (rf : r_dns_refresh) : bool := (rf_pending rf =? 0) && (rf_scheduling rf =? 0).

Lemma not_idle_busy X s p rf :
  dns_inv X (Some p) s -> s_refreshes s !! p = Some rf -> idle rf = false -> dns_inv X None s.
Proof.
  intros HI Hp Hid. eapply dns_inv_busy; [done|]. intros q rfq [= <-] Hq.
  rewrite Hp in Hq. injection Hq as <-.
  destruct (di_refreshes _ _ _ HI p rf Hp) as [[_ _ R3 R4 _ _ _ _] _].
  pose proof (count_ge0 uncompleted (s_lookups s) (rf_lookups rf)).
  pose proof (count_ge0 lk_in_resolver_call (s_lookups s) (rf_lookups rf)).
  pose proof (b2z_range (bool_decide (X = Some p))).
  unfold idle in Hid. apply andb_false_iff in Hid as [?%Z.eqb_neq|?%Z.eqb_neq]; lia.
Qed.

Lemma maybe_complete_wp X p rf s :
  dns_inv X (Some p) s -> s_refreshes s !! p = Some rf ->
  wp (r_dns_refresh_maybe_complete (Some p)) (fun _ s' =>
    dns_inv X None s' /\ dns_frame s s' /\ s_lookups s' = s_lookups s /\
    s_refreshes s' = (if idle rf then delete p (s_refreshes s) else s_refreshes s) /\
    if idle rf && negb (rf_detached rf)
    then cl_dns_refresh (s_client s') = None /\ endpoints_kept rf s s'
    else s_client s' = s_client s) s.
Proof.
  intros HI Hp. unfold r_dns_refresh_maybe_complete. wp_step. wp_step.
  rewrite <- negb_andb. fold (idle rf). destruct (idle rf) eqn:Eid; simpl.
  2:{ wp_step. split; [by eapply not_idle_busy | done]. }
  apply andb_true_iff in Eid as [E1%Z.eqb_eq E2%Z.eqb_eq].
  destruct (idle_no_lookups _ _ _ _ _ HI Hp E1 E2) as [Hnil HX].
  destruct (di_refreshes _ _ _ HI p rf Hp) as [[_ _ _ _ _ _ R8 _] _].
  destruct R8 as [(Hc & Hd & _)|(Hd & Hne & [Hc|?])]; [| |congruence].
  - rewrite Hc, Hd. simpl. eapply wp_mono; [by eapply refresh_finish_wp|]. simpl. tauto.
  - rewrite Hd. simpl. eapply refresh_free_wp; [done..|]. split; [|split]; [| |done].
    + eapply (dns_inv_free X _ s); simpl; try done; [by right|..].
      * by rewrite decide_False.
      * by apply HI.
      * apply HI.
      * apply HI.
    + split; simpl; try done. exists []. by rewrite app_nil_r.
Qed.

Lemma NoDup_length_le_size {A} (m : gmap ptr A) (ls : list ptr) :
  NoDup ls -> (forall l, l ∈ ls -> is_Some (m !! l)) -> (length ls <= size m)%nat.
Proof.
  intros Hnd Hin. rewrite <- size_dom, <- (size_list_to_set (C := gset ptr) ls) by done.
  apply subseteq_size. intros l Hl. rewrite elem_of_list_to_set in Hl.
  by apply elem_of_dom, Hin.
Qed.

Lemma refresh_bounds X Y s p rf :
  dns_inv X Y s -> s_refreshes s !! p = Some rf ->
  0 <= rf_pending rf <= 2 ^ 60 /\ 0 <= rf_scheduling rf <= 2 ^ 60 + 1.
Proof.
  intros [_ HR _ _ _ HZ _ _] Hp. destruct (HR p rf Hp) as [[R1 R2 R3 R4 _ _ _ _] _].
  assert (length (rf_lookups rf) <= size (s_lookups s))%nat.
  { apply NoDup_length_le_size; [done|]. intros l Hl. destruct (R2 l Hl) as (lk & -> & _). eauto. }
  pose proof (count_ge0 uncompleted (s_lookups s) (rf_lookups rf)).
  pose proof (count_ge0 lk_in_resolver_call (s_lookups s) (rf_lookups rf)).
  pose proof (b2z_range (bool_decide (X = Some p))). lia.
Qed.

(** A lookup of [p] and its refresh, from the invariant. *)
Lemma lookup_refresh X Y s l lk p :
  dns_inv X Y s -> s_lookups s !! l = Some lk -> lk_refresh lk = Some p ->
  exists rf, s_refreshes s !! p = Some rf /\ l ∈ rf_lookups rf.
Proof.
  intros [HLo _ _ _ _ _ _ _] Hl Hr. destruct (HLo l lk Hl) as [(q & rf & Hq & Hrf & Hin) _ _].
  simplify_eq. eauto.
Qed.

Lemma lookup_id X Y s l lk :
  dns_inv X Y s -> s_lookups s !! l = Some lk -> is_u64 (lk_server_id lk).
Proof. intros HI Hl. apply (lo_state _ _ _ (di_lookups _ _ _ HI l lk Hl)). Qed.

Lemma uncompleted_pending X Y s l lk p rf :
  dns_inv X Y s -> s_lookups s !! l = Some lk -> lk_refresh lk = Some p ->
  s_refreshes s !! p = Some rf -> lk_completed lk = false -> 0 < rf_pending rf.
Proof.
  intros HI Hl Hr Hp Hc. destruct (lookup_refresh _ _ _ _ _ _ HI Hl Hr) as (rf' & Hp' & Hin).
  simplify_eq. destruct (di_refreshes _ _ _ HI p rf Hp) as [[_ _ -> _ _ _ _ _] _].
  eapply count_pos; [done..|]. unfold uncompleted. by rewrite Hc.
Qed.

Lemma in_call_scheduling X Y s l lk p rf :
  dns_inv X Y s -> s_lookups s !! l = Some lk -> lk_refresh lk = Some p ->
  s_refreshes s !! p = Some rf -> lk_in_resolver_call lk = true -> 0 < rf_scheduling rf.
Proof.
  intros HI Hl Hr Hp Hc. destruct (lookup_refresh _ _ _ _ _ _ HI Hl Hr) as (rf' & Hp' & Hin).
  simplify_eq. destruct (di_refreshes _ _ _ HI p rf Hp) as [[_ _ _ -> _ _ _ _] _].
  assert (0 < count lk_in_resolver_call (s_lookups s) (rf_lookups rf)) by by eapply count_pos.
  pose proof (b2z_range (bool_decide (X = Some p))). lia.
Qed.

Lemma dec_pending_wp p rf s (Q : unit -> sys W -> Prop) :
  s_refreshes s !! p = Some rf -> 0 < rf_pending rf <= 2 ^ 60 ->
  Q tt (set_refreshes (<[p := set_rf_pending (rf_pending rf - 1) rf]> (s_refreshes s)) s) ->
  wp (dec_pending p) Q s.
Proof.
  intros Hp Hb HQ. unfold dec_pending. wp_step. wp_step. rewrite zltb_true by lia. wp_step.
  rewrite u64_small by rlia. done.
Qed.

Lemma dec_scheduling_wp p rf s (Q : unit -> sys W -> Prop) :
  s_refreshes s !! p = Some rf -> 0 < rf_scheduling rf <= 2 ^ 60 + 1 ->
  Q tt (set_refreshes (<[p := set_rf_scheduling (rf_scheduling rf - 1) rf]> (s_refreshes s)) s) ->
  wp (dec_scheduling p) Q s.
Proof.
  intros Hp Hb HQ. unfold dec_scheduling. wp_step. wp_step. rewrite zltb_true by lia. wp_step.
  rewrite u64_small by rlia. done.
Qed.

Lemma drop_lookup_wp l lk p rf s (Q : unit -> sys W -> Prop) :
  s_lookups s !! l = Some lk -> lk_refresh lk = Some p -> s_refreshes s !! p = Some rf ->
  Q tt (set_lookups (delete l (s_lookups s))
          (set_refreshes (<[p := set_rf_lookups (list_unlink l (rf_lookups rf)) rf]>
                            (s_refreshes s)) s)) ->
  wp (drop_lookup l) Q s.
Proof.
  intros Hl Hr Hp HQ. unfold drop_lookup, r_dns_lookup_unlink. wp_step. wp_step. wp_step.
  rewrite Hr. wp_step. wp_step. wp_step.
  eapply wp_free_lookup; [apply lookup_insert_eq|]. simpl. by rewrite delete_insert_eq.
Qed.

(** The client never points to another refresh afterwards. *)
Definition same_current s s' : Prop :=
  cl_dns_refresh (s_client s') = None \/
  cl_dns_refresh (s_client s') = cl_dns_refresh (s_client s).

Lemma maybe_complete_current X p rf s :
  dns_inv X (Some p) s -> s_refreshes s !! p = Some rf ->
  wp (r_dns_refresh_maybe_complete (Some p)) (fun _ s' =>
    dns_inv X None s' /\ dns_frame s s' /\ s_lookups s' = s_lookups s /\ same_current s s') s.
Proof.
  intros HI Hp. eapply wp_mono; [by eapply maybe_complete_wp|].
  simpl. intros _ s' (H1 & H2 & H3 & _ & H4). do 3 (split; [done|]). unfold same_current.
  destruct (idle rf && _); [left; tauto | right; by rewrite H4].
Qed.

Lemma lookup_finish_wp X l lk p s :
  dns_inv X None s -> s_lookups s !! l = Some lk -> lk_completed lk = false ->
  lk_refresh lk = Some p ->
  wp (r_dns_lookup_finish l) (fun _ s' =>
    dns_inv X None s' /\ dns_frame s s' /\ same_current s s' /\
    s_lookups s' = (if lk_in_resolver_call lk then <[l := set_lk_completed true lk]> else delete l)
                     (s_lookups s)) s.
Proof.
  intros HI Hl Hc Hr. destruct (lookup_refresh _ _ _ _ _ _ HI Hl Hr) as (rf & Hp & Hin).
  pose proof (lookup_id _ _ _ _ _ HI Hl) as Hid.
  pose proof (uncompleted_pending _ _ _ _ _ _ _ HI Hl Hr Hp Hc) as Hpos.
  destruct (refresh_bounds _ _ _ _ _ HI Hp) as [Hb _].
  unfold r_dns_lookup_finish. do 2 wp_step. rewrite Hr. do 3 wp_step.
  eapply dec_pending_wp; [done | lia|]. wp_step.
  eapply wp_get_lookup; [apply lookup_insert_eq|]. simpl. wp_step.
  destruct (lk_in_resolver_call lk) eqn:Ecall; simpl.
  - wp_step. eapply wp_mono; [eapply (maybe_complete_current X)|].
    + eapply (dns_inv_lookup X None s _ p rf _ l lk (Some (set_lk_completed true lk)));
        simpl; try done; [by left|..].
      * unfold uncompleted. rewrite Hc. simpl. lia.
      * rewrite Ecall. simpl. lia.
    + apply lookup_insert_eq.
    + simpl. intros _ s' (H1 & H2 & H3 & H4). split; [done|]. split; [|done].
      etransitivity; [|exact H2]. split; simpl; try done. exists []. by rewrite app_nil_r.
  - eapply drop_lookup_wp; [apply lookup_insert_eq | done | apply lookup_insert_eq|]. simpl.
    rewrite delete_insert_eq, insert_insert_eq.
    eapply wp_mono; [eapply (maybe_complete_current X)|].
    + eapply (dns_inv_lookup X None s _ p rf _ l lk None); simpl; try done; [by left|..].
      * unfold uncompleted. rewrite Hc. simpl. lia.
      * rewrite Ecall. simpl. lia.
    + apply lookup_insert_eq.
    + simpl. intros _ s' (H1 & H2 & H3 & H4). split; [done|]. split; [|done].
      etransitivity; [|exact H2]. split; simpl; try done. exists []. by rewrite app_nil_r.
Qed.

Lemma grow_wp size n cap (Q : option Z -> sys W -> Prop) s :
  8 <= size <= 1024 -> arr_ok size n cap ->
  (forall r s', only_world s s' ->
     from_option (fun cap' => arr_ok size (n + 1) cap') True r -> Q r s') ->
  wp (grow size n cap) Q s.
Proof.
  intros Hs [Hn Hc] HQ. unfold grow. destruct (Z.eqb_spec n cap) as [->|Hne].
  - assert (cap < 2 ^ 60) by (change (2 ^ 63) with (8 * 2 ^ 60) in Hc; nia).
    wp_step. wp_step. wp_step. apply HQ; [by eexists|].
    destruct (Z.eqb_spec cap 0) as [->|Hnz].
    + rewrite u64_small by rlia. destruct (_ && _) eqn:E; [|done]. breflect. simpl. split; lia.
    + rewrite (u64_small (cap * 2)) by rlia. rewrite u64_small by (unfold_ranges; nia).
      destruct (_ && _) eqn:E; [|done]. breflect. simpl. split; lia.
  - wp_step. apply HQ; [exists (s_world s); by destruct s|]. simpl. split; [lia|done].
Qed.

Lemma push_wp {A} size (l : list A) cap x (Q : list A -> sys W -> Prop) s :
  arr_ok size (zlen l + 1) cap -> Q (l ++ [x]) s -> wp (push l cap x) Q s.
Proof.
  intros [Hn _] HQ. unfold push. rewrite zltb_true by lia. by eapply wp_lift.
Qed.

Lemma addr_set_port_ok a port :
  wf_addr a -> exists a', r_addr_set_port a port = Ok a' /\ wf_addr a'.
Proof.
  intros (Hl & Hb & Hn). csts. unfold r_addr_set_port.
  rewrite r_le16_bytes by done.
  destruct (rd_bytes_defined (ad_sa a) 0 2) as (bs & -> & _); [lia..|]. simpl.
  destruct (wr_defined (ad_sa a) 2 (htons_bytes port)) as [sa Hsa]; [lia | simpl; lia|].
  pose proof (wr_Ok _ _ _ _ Hsa) as (_ & _ & Hlen). rewrite Hsa. simpl.
  assert (is_bytes sa).
  { eapply wr_is_bytes; [done| |done]. unfold htons_bytes. repeat constructor; apply land_ff_u8. }
  case_if; [eexists; split; [done|]; repeat split; csts; simpl; try done; lia|].
  case_if; [eexists; split; [done|]; repeat split; csts; simpl; try done; lia|].
  eexists; split; [done|]. repeat split; csts; try done; lia.
Qed.

(** Address callbacks only ever append endpoints to [p]. *)
Definition same_but_data s s' : Prop :=
  s_lookups s' = s_lookups s /\ dns_frame s s' /\ s_client s' = s_client s.

Lemma add_endpoint_wp X p a id has s :
  dns_inv X None s -> is_Some (s_refreshes s !! p) -> wf_addr a -> is_u64 id ->
  wp (r_dns_refresh_add_endpoint p a id has) (fun _ s' =>
    dns_inv X None s' /\ same_but_data s s') s.
Proof.
  intros HI [rf Hp] Ha Hid. destruct (di_refreshes _ _ _ HI p rf Hp) as [HR _].
  unfold r_dns_refresh_add_endpoint. wp_step. wp_step. wp_step.
  apply grow_wp; [unfold SERVER_ENDPOINT_SIZE; lia | apply HR|].
  intros [cap|] s1 [w ->] Hcap; simpl in Hcap.
  - wp_step. eapply push_wp; [done|]. wp_step. wp_step. wp_step. split.
    + eapply (dns_inv_data X None s _ p rf); simpl; try done.
      * simpl. by rewrite length_app, Nat2Z.inj_add.
      * simpl. apply Forall_app. split; [apply HR | by constructor].
    + split; [done|]. split; [|done]. split; try done. exists []. by rewrite app_nil_r.
  - wp_step. split; [by apply dns_inv_world|]. split; [done|]. split; [|done].
    apply dns_frame_world.
Qed.

Lemma addr_cb_wp X l lk s status addrs :
  dns_inv X None s -> s_lookups s !! l = Some lk -> lk_completed lk = false ->
  wf_addr_answer addrs ->
  wp (r_dns_addr_cb_fn l status addrs) (fun _ s' =>
    dns_inv X None s' /\ dns_frame s s' /\ same_current s s' /\
    s_lookups s' = (if lk_in_resolver_call lk then <[l := set_lk_completed true lk]> else delete l)
                     (s_lookups s)) s.
Proof.
  intros HI Hl Hc Hads. unfold r_dns_addr_cb_fn. wp_step. wp_step.
  destruct (lo_owner _ _ _ (di_lookups _ _ _ HI l lk Hl)) as (p & rf & Hr & Hp & Hin).
  rewrite Hr. wp_step. wp_step.
  apply (wp_seq _ _ (fun _ s1 => dns_inv X None s1 /\ same_but_data s s1)).
  - destruct addrs as [ads|]; [|wp_step; done]. simpl in Hads.
    wp_step; [|wp_step; done].
    apply wp_for_each; [done|]. intros a s1 Ha [HI1 (EL & HF & EC)].
    destruct (addr_set_port_ok a (lk_port lk)) as (a' & Ea & Ha').
    { rewrite Forall_forall in Hads. by apply Hads. }
    wp_step. eapply wp_lift; [exact Ea|]. eapply wp_seq; [eapply (add_endpoint_wp X)|].
    + done.
    + destruct (lookup_refresh X None s1 l lk p HI1) as (rf1 & ? & _); [by rewrite EL|done|eauto].
    + done.
    + exact (lookup_id _ _ _ _ _ HI Hl).
    + simpl. intros _ s2 [HI2 (EL2 & HF2 & EC2)]. wp_step. split; [done|].
      split; [by rewrite EL2|]. split; [by etransitivity | by rewrite EC2].
  - intros _ s1 [HI1 (EL & HF & EC)]. eapply wp_mono; [eapply (lookup_finish_wp X)|];
      [done | by rewrite EL | done | done|].
    simpl. intros _ s2 (HI2 & HF2 & HS2 & EL2). rewrite EL in EL2.
    split; [done|]. split; [by etransitivity|]. split; [|done].
    unfold same_current in *. by rewrite EC in HS2.
Qed.

(** *** The tail of both schedulers, after the resolver returned *)
Definition end_post X l s (c r : Z) s' : Prop :=
  dns_inv X None s' /\ dns_frame s s' /\
  (forall k, k <> l -> s_lookups s' !! k = s_lookups s !! k) /\
  (forall lk', s_lookups s' !! l = Some lk' -> lk_in_resolver_call lk' = false) /\ r = c.

Lemma complete_end_wp X l p rf1 c s s1 :
  dns_inv X (Some p) s1 -> s_refreshes s1 !! p = Some rf1 -> dns_frame s s1 ->
  (forall k, k <> l -> s_lookups s1 !! k = s_lookups s !! k) ->
  (forall lk', s_lookups s1 !! l = Some lk' -> lk_in_resolver_call lk' = false) ->
  wp (_ ← r_dns_refresh_maybe_complete (Some p); mret c) (end_post X l s c) s1.
Proof.
  intros HI1 Hp1 HF1 HL1 HC1. eapply wp_seq; [by eapply (maybe_complete_wp X)|].
  simpl. intros _ s2 (HI2 & HF2 & EL2 & _). wp_step. split; [done|].
  split; [by etransitivity|]. by rewrite EL2.
Qed.

(** The lookup is over: unlink it, free it, leave the call. *)
Lemma drop_end_wp X l lk lk1 p rf rf1 c s s1 :
  dns_inv X None s -> s_lookups s !! l = Some lk -> lk_refresh lk = Some p ->
  lk_in_resolver_call lk = true -> s_refreshes s !! p = Some rf ->
  s1 = set_lookups (<[l := lk1]> (s_lookups s)) (set_refreshes (<[p := rf1]> (s_refreshes s)) s) ->
  lk_refresh lk1 = Some p ->
  rf1 = set_rf_pending (rf_pending rf - b2z (uncompleted lk)) rf ->
  wp (_ ← drop_lookup l; _ ← dec_scheduling p;
      _ ← r_dns_refresh_maybe_complete (Some p); mret c) (end_post X l s c) s1.
Proof.
  intros HI Hl Hr Hcall Hp -> Hr1 ->.
  pose proof (in_call_scheduling _ _ _ _ _ _ _ HI Hl Hr Hp Hcall) as Hsp.
  destruct (refresh_bounds _ _ _ _ _ HI Hp) as [Hb1 Hb2]. wp_step.
  eapply drop_lookup_wp; [apply lookup_insert_eq | done | apply lookup_insert_eq|]. simpl.
  rewrite delete_insert_eq, insert_insert_eq. wp_step.
  eapply dec_scheduling_wp; [apply lookup_insert_eq | simpl; lia|]. simpl.
  rewrite insert_insert_eq. eapply complete_end_wp; [| apply lookup_insert_eq | | |].
  - eapply (dns_inv_lookup X None s _ p rf _ l lk None); simpl; try done; [by left|..].
    + simpl; lia.
    + rewrite Hcall. simpl. lia.
  - split; simpl; try done. exists []. by rewrite app_nil_r.
  - intros k Hk. simpl. by rewrite lookup_delete_ne.
  - simpl. intros lk'. by rewrite lookup_delete_eq.
Qed.

(** The answer comes later: the lookup stays linked. *)
Lemma stay_end_wp X l lk lk1 p rf c s s1 :
  dns_inv X None s -> s_lookups s !! l = Some lk -> lk_refresh lk = Some p ->
  lk_in_resolver_call lk = true -> lk_completed lk = false -> s_refreshes s !! p = Some rf ->
  s1 = set_lookups (<[l := lk1]> (s_lookups s)) s ->
  lk_refresh lk1 = Some p -> lk_completed lk1 = false -> lk_in_resolver_call lk1 = false ->
  lk_server_id lk1 = lk_server_id lk ->
  wp (_ ← dec_scheduling p; _ ← r_dns_refresh_maybe_complete (Some p); mret c)
    (end_post X l s c) s1.
Proof.
  intros HI Hl Hr Hcall Hc Hp -> Hr1 Hc1 Hcall1 Hid1. pose proof (lookup_id _ _ _ _ _ HI Hl) as Hid.
  pose proof (in_call_scheduling _ _ _ _ _ _ _ HI Hl Hr Hp Hcall) as Hsp.
  destruct (refresh_bounds _ _ _ _ _ HI Hp) as [Hb1 Hb2]. wp_step.
  eapply dec_scheduling_wp; [done | lia|]. simpl.
  eapply complete_end_wp; [| apply lookup_insert_eq | | |].
  - eapply (dns_inv_lookup X None s _ p rf _ l lk (Some lk1)); simpl; try done; [by left|..].
    + unfold uncompleted. rewrite Hc, Hc1. simpl. lia.
    + rewrite Hcall, Hcall1. simpl. lia.
    + by rewrite Hc1, Hid1.
  - split; simpl; try done. exists []. by rewrite app_nil_r.
  - intros k Hk. simpl. by rewrite lookup_insert_ne.
  - simpl. intros lk'. rewrite lookup_insert_eq. by intros [= <-].
Qed.

Lemma lookup_end_wp X l lk p rc req_id s :
  dns_inv X None s -> s_lookups s !! l = Some lk -> lk_refresh lk = Some p ->
  lk_in_resolver_call lk = true ->
  wp (lookup_end p l rc req_id)
    (end_post X l s (if rc =? 0 then RCLIENT_OK else RCLIENT_ERR_DNS)) s.
Proof.
  intros HI Hl Hr Hcall. destruct (lookup_refresh _ _ _ _ _ _ HI Hl Hr) as (rf & Hp & Hin).
  destruct (refresh_bounds _ _ _ _ _ HI Hp) as [Hb1 Hb2]. unfold lookup_end. wp_step. wp_step.
  destruct (Z.eqb_spec rc 0) as [Erc|Erc]; simpl; destruct (lk_completed lk) eqn:Ec; simpl.
  - do 7 wp_step. eapply wp_get_lookup; [apply lookup_insert_eq|]. simpl. rewrite Ec.
    eapply (drop_end_wp X l lk (set_lk_in_resolver_call false lk) p rf rf); try done.
    + by rewrite (insert_id (s_refreshes s)).
    + unfold uncompleted. rewrite Ec. simpl. rewrite Z.sub_0_r. by destruct rf.
  - apply (wp_seq _ _ (fun _ s1 => exists lk1, s1 = set_lookups (<[l := lk1]> (s_lookups s)) s /\
      lk_refresh lk1 = Some p /\ lk_completed lk1 = false /\ lk_server_id lk1 = lk_server_id lk)).
    { wp_step; wp_step; [by eexists|]. exists lk. rewrite insert_id by done.
      split; [by destruct s|done]. }
    intros _ s1 (lk1 & -> & Hr1 & Hc1 & Hid1). do 3 wp_step.
    eapply wp_upd_lookup; [apply lookup_insert_eq|]. wp_step.
    eapply wp_get_lookup; [apply lookup_insert_eq|]. simpl. rewrite Hc1. simpl. wp_step. wp_step.
    rewrite insert_insert_eq. by eapply (stay_end_wp X l lk (set_lk_in_resolver_call false lk1)).
  - do 7 wp_step. eapply wp_get_lookup; [apply lookup_insert_eq|]. simpl.
    eapply (drop_end_wp X l lk (set_lk_in_resolver_call false lk) p rf rf); try done.
    + by rewrite (insert_id (s_refreshes s)).
    + unfold uncompleted. rewrite Ec. simpl. rewrite Z.sub_0_r. by destruct rf.
  - pose proof (uncompleted_pending _ _ _ _ _ _ _ HI Hl Hr Hp Ec) as Hpos.
    do 5 wp_step. eapply dec_pending_wp; [done|lia|].
    wp_step. eapply wp_upd_lookup; [apply lookup_insert_eq|]. wp_step.
    eapply wp_get_lookup; [apply lookup_insert_eq|]. simpl. rewrite insert_insert_eq.
    eapply (drop_end_wp X l lk); try done. unfold uncompleted. by rewrite Ec.
Qed.

Lemma lookup_begin_wp X Y l p rf lk s (Q : unit -> sys W -> Prop) :
  dns_inv X Y s -> Y = None \/ Y = Some p -> s_refreshes s !! p = Some rf ->
  Z.of_nat (size (s_lookups s)) < 2 ^ 60 ->
  l = s_next s -> lk_refresh lk = Some p -> lk_completed lk = false ->
  lk_in_resolver_call lk = true -> is_u64 (lk_server_id lk) ->
  (forall s', dns_inv X None s' -> dns_frame s s' ->
     s_lookups s' = <[l := lk]> (s_lookups s) -> s_next s' = S l -> Q tt s') ->
  wp (lookup_begin p l) Q (set_next (S l) (set_lookups (<[l := lk]> (s_lookups s)) s)).
Proof.
  intros HI HY Hp Hsz -> Hr Hc Hcall Hid HQ. destruct (refresh_bounds _ _ _ _ _ HI Hp) as [Hb1 Hb2].
  unfold lookup_begin, r_dns_lookup_link. wp_step. wp_step.
  eapply wp_upd_refresh; [apply lookup_insert_eq|]. simpl. rewrite insert_insert_eq.
  rewrite (u64_small (rf_pending rf + 1)), (u64_small (rf_scheduling rf + 1)) by rlia.
  apply HQ; [|split; simpl; try done; [lia|exists []; by rewrite app_nil_r]|done|done].
  eapply (dns_inv_begin X Y s _ p rf); simpl; done.
Qed.

(** What the nested callback of a scheduler leaves: the invariant, the other
    lookups, and this one still in its call. *)
Definition called l lk s s' : Prop :=
  dns_frame s s' /\ (forall k, k <> l -> s_lookups s' !! k = s_lookups s !! k) /\
  exists lk', s_lookups s' !! l = Some lk' /\ lk_refresh lk' = lk_refresh lk /\
              lk_in_resolver_call lk' = true.

(** Older lookups are kept, and no newer one is still in its call. *)
Definition lookups_step s s' : Prop :=
  (forall k, (k < s_next s)%nat -> s_lookups s' !! k = s_lookups s !! k) /\
  (forall k lk, (s_next s <= k)%nat -> s_lookups s' !! k = Some lk ->
     lk_in_resolver_call lk = false).

Lemma lookups_step_refl X Y s : dns_inv X Y s -> lookups_step s s.
Proof.
  intros HI. split; [done|]. intros k lk Hk Hlk. destruct (di_lookups _ _ _ HI k lk Hlk). lia.
Qed.

Lemma lookups_step_trans s1 s2 s3 :
  (s_next s1 <= s_next s2)%nat -> lookups_step s1 s2 -> lookups_step s2 s3 -> lookups_step s1 s3.
Proof.
  intros Hn [K1 C1] [K2 C2]. split.
  - intros k Hk. rewrite K2, K1 by lia. done.
  - intros k lk Hk Hlk. destruct (decide (k < s_next s2)%nat); [|apply (C2 k); [lia|done]].
    rewrite K2 in Hlk by lia. by apply (C1 k).
Qed.

Lemma schedule_addr_wp X p name port id has s :
  dns_inv X None s -> is_Some (s_refreshes s !! p) -> is_u64 id ->
  wp (r_dns_schedule_addr_lookup p name port id has) (fun _ s' =>
    dns_inv X None s' /\ dns_frame s s' /\ lookups_step s s') s.
Proof.
  intros HI [rf Hp] Hid. unfold r_dns_schedule_addr_lookup.
  pose proof (lookups_step_refl _ _ _ HI) as Hrefl.
  destruct name as [name|]; [|wp_step; done]. wp_step. wp_step. wp_step; [wp_step; done|].
  wp_step. apply wp_calloc_lookup.
  { intros w. wp_step. split; [by apply dns_inv_world|]. split; [apply dns_frame_world|].
    by apply (lookups_step_refl X None (set_world w s)), dns_inv_world. }
  intros w Hsz. wp_step.
  eapply (lookup_begin_wp X None _ p rf _ (set_world w s)); try done;
    [by apply dns_inv_world | by left|].
  intros s1 HI1 HF1 EL1 Hn1. wp_step. apply wp_world_op. intros a w1 Ea. simpl in EL1.
  set (l := s_next s) in *. set (lk := mk_lookup _ _ _ _ _ _ _ _) in *.
  assert (Hl1 : s_lookups s1 !! l = Some lk) by (rewrite EL1; apply lookup_insert_eq).
  apply (wp_seq _ _ (fun _ s2 => dns_inv X None s2 /\ called l lk s1 s2)).
  - destruct (aa_sync a) as [[st ads]|] eqn:Es.
    + eapply wp_mono; [eapply (addr_cb_wp X l lk)|]; try done.
      * by apply dns_inv_world.
      * by eapply resolve_addrs_wf.
      * simpl. intros _ s2 (HI2 & HF2 & _ & EL2). split; [done|].
        split; [by etransitivity; [apply dns_frame_world|]|]. rewrite EL2. simpl. split; [intros k Hk; by rewrite lookup_insert_ne|]. eexists.
        rewrite lookup_insert_eq. done.
    + wp_step. split; [by apply dns_inv_world|]. split; [apply dns_frame_world|]. eauto.
  - intros _ s2 (HI2 & HF2 & Hk2 & lk2 & Hl2 & Hr2 & Hc2).
    eapply wp_mono; [eapply (lookup_end_wp X l lk2 p)|]; [done..|].
    simpl. intros _ s3 (HI3 & HF3 & Hk3 & Hc3 & _). split; [done|]. split.
    + etransitivity; [apply (dns_frame_world s w)|]. do 2 (etransitivity; [eassumption|]). done.
    + split; [intros k Hk; by rewrite Hk3, Hk2, EL1, lookup_insert_ne by lia|].
      intros k lk' Hk Hlk'. destruct (decide (k = l)) as [->|Hne]; [by apply Hc3|].
      rewrite Hk3, Hk2, EL1, lookup_insert_ne in Hlk' by done. by apply (proj2 Hrefl k).
Qed.

(** [l0] is the SRV lookup whose callback walks the records. *)
Lemma srv_records_wp X l0 lk0 p records t s :
  dns_inv X None s -> s_lookups s !! l0 = Some lk0 -> lk_refresh lk0 = Some p ->
  Forall wf_srv records ->
  wp (srv_records p records t) (fun _ s' =>
    dns_inv X None s' /\ dns_frame s s' /\ lookups_step s s') s.
Proof.
  revert t s; induction records as [|r records IH]; intros t s HI Hl Hr Hwf; simpl.
  { wp_step. split; [done|]. split; [done|]. by eapply lookups_step_refl. }
  apply Forall_cons in Hwf as [(Ht & Hport & Httl) Hwf].
  assert (exists v b, r_parse_server_id_from_target (sv_target r) (Some false) = Ok (v, Some b) /\
                      is_u64 v) as (v & b & E & Hv).
  { destruct (sv_target r) as [t0|]; [|by exists 0, false].
    rewrite parse_server_id_spec by done. destruct (server_label t0); do 2 eexists; (split; [done|]).
    - unfold is_u64. apply Z.mod_pos_bound. lia.
    - rlia. }
  wp_step. eapply wp_lift; [exact E|]. wp_step. eapply wp_lift; [done|]. simpl.
  wp_step; [by eapply IH|]. eapply wp_seq.
  - eapply (schedule_addr_wp X); [done| |done].
    destruct (lookup_refresh _ _ _ _ _ _ HI Hl Hr) as (rf & ? & _). eauto.
  - simpl. intros _ s1 (HI1 & HF1 & HK1). eapply wp_mono; [eapply IH; [done| |done|done]|].
    + rewrite (proj1 HK1); [done|]. exact (lo_fresh _ _ _ (di_lookups _ _ _ HI l0 lk0 Hl)).
    + simpl. intros _ s2 (HI2 & HF2 & HK2). split; [done|]. split; [by etransitivity|].
      eapply lookups_step_trans; [apply HF1 | done | done].
Qed.

Definition srv_cb_lookups l lk s s' : Prop :=
  (forall k, (k < s_next s)%nat -> k <> l -> s_lookups s' !! k = s_lookups s !! k) /\
  (forall k lk, (s_next s <= k)%nat -> s_lookups s' !! k = Some lk ->
     lk_in_resolver_call lk = false) /\
  s_lookups s' !! l = if lk_in_resolver_call lk then Some (set_lk_completed true lk) else None.

Lemma srv_cb_wp X l lk s status records :
  dns_inv X None s -> s_lookups s !! l = Some lk -> lk_completed lk = false ->
  wf_srv_answer records ->
  wp (r_dns_srv_cb_fn l status records) (fun _ s' =>
    dns_inv X None s' /\ dns_frame s s' /\
    srv_cb_lookups l lk s s') s.
Proof.
  intros HI Hl Hc Hrs. unfold r_dns_srv_cb_fn. wp_step. wp_step.
  destruct (lo_owner _ _ _ (di_lookups _ _ _ HI l lk Hl)) as (p & rf & Hr & Hp & Hin).
  pose proof (lo_fresh _ _ _ (di_lookups _ _ _ HI l lk Hl)) as Hln.
  rewrite Hr. wp_step. wp_step.
  assert (Hfin : forall s1, dns_inv X None s1 -> dns_frame s s1 -> lookups_step s s1 ->
    wp (r_dns_lookup_finish l) (fun _ s' =>
      dns_inv X None s' /\ dns_frame s s' /\
      srv_cb_lookups l lk s s') s1).
  { intros s1 HI1 HF1 [HK1 HC1].
    eapply wp_mono; [eapply (lookup_finish_wp X); [done| |done|done]; by rewrite HK1|].
    simpl. intros _ s2 (HI2 & HF2 & _ & EL2). split; [done|]. split; [by etransitivity|].
    unfold srv_cb_lookups. rewrite EL2. destruct (lk_in_resolver_call lk); split.
    - intros k Hk Hne. rewrite lookup_insert_ne by done. by apply HK1.
    - rewrite lookup_insert_eq. split; [|done].
      intros k lk' Hk. rewrite lookup_insert_ne by lia. by apply HC1.
    - intros k Hk Hne. rewrite lookup_delete_ne by done. by apply HK1.
    - rewrite lookup_delete_eq. split; [|done].
      intros k lk' Hk. rewrite lookup_delete_ne by lia. by apply HC1. }
  pose proof (lookups_step_refl _ _ _ HI) as Hrefl.
  wp_step; [by apply Hfin|].
  apply (wp_seq _ _ (fun _ s1 => dns_inv X None s1 /\ dns_frame s s1 /\ lookups_step s s1));
    [|intros ? s1 (HI1 & HF1 & HK1); by apply Hfin].
  destruct records as [rs|]; [|wp_step; done]. wp_step; [|wp_step; done].
  eapply wp_seq; [by eapply (srv_records_wp X l lk)|].
  simpl. intros t s1 (HI1 & HF1 & HK1).
  destruct (lookup_refresh X None s1 l lk p HI1) as (rf1 & Hp1 & _);
    [by rewrite (proj1 HK1)|done|].
  wp_step. destruct (di_refreshes _ _ _ HI1 p rf1 Hp1) as [HR1 _]. split.
  - eapply (dns_inv_data X None s1 _ p rf1); simpl; try done; apply HR1.
  - split; [|done]. etransitivity; [exact HF1|]. split; try done. exists []. by rewrite app_nil_r.
Qed.

(** An idle, current refresh: its first lookup is scheduled, or could not be
    allocated and nothing happened. *)
Lemma schedule_srv_wp p rf name s :
  dns_inv None (Some p) s -> s_refreshes s !! p = Some rf -> rf_detached rf = false ->
  wp (r_dns_schedule_srv_lookup p name) (fun rc s' =>
    (dns_inv None None s' /\ dns_frame s s' /\ lookups_step s s') \/
    (only_world s s' /\ rc = RCLIENT_ERR_NOMEM)) s.
Proof.
  intros HI Hp Hd. unfold r_dns_schedule_srv_lookup. wp_step. wp_step. rewrite Hd.
  wp_step. apply wp_calloc_lookup.
  { intros w. wp_step. right. split; [by eexists|done]. }
  intros w Hsz. wp_step.
  eapply (lookup_begin_wp None (Some p) _ p rf _ (set_world w s)); try done;
    [by apply dns_inv_world | by right|].
  intros s1 HI1 HF1 EL1 Hn1. wp_step. apply wp_world_op. intros a w1 Ea. simpl in EL1.
  set (l := s_next s) in *. set (lk := mk_lookup _ _ _ _ _ _ _ _) in *.
  assert (Hl1 : s_lookups s1 !! l = Some lk) by (rewrite EL1; apply lookup_insert_eq).
  apply (wp_seq _ _ (fun _ s2 => dns_inv None None s2 /\ dns_frame s1 s2 /\
    (forall k, (k < s_next s1)%nat -> k <> l -> s_lookups s2 !! k = s_lookups s1 !! k) /\
    (forall k lk, (s_next s1 <= k)%nat -> s_lookups s2 !! k = Some lk ->
       lk_in_resolver_call lk = false) /\
    exists lk', s_lookups s2 !! l = Some lk' /\ lk_refresh lk' = Some p /\
                lk_in_resolver_call lk' = true)).
  - destruct (sa_sync a) as [[st rs]|] eqn:Es.
    + eapply wp_mono; [eapply (srv_cb_wp None l lk)|]; try done.
      * by apply dns_inv_world.
      * by eapply resolve_srv_wf.
      * simpl. intros _ s2 (HI2 & HF2 & HK2 & HC2 & Hl2). split; [done|].
        split; [by etransitivity; [apply dns_frame_world|]|]. do 2 (split; [done|]).
        simpl in Hl2. eauto.
    + wp_step. split; [by apply dns_inv_world|]. split; [apply dns_frame_world|].
      split; [done|]. split; [|eauto]. apply (lookups_step_refl _ _ _ HI1).
  - intros _ s2 (HI2 & HF2 & Hk2 & Hm2 & lk2 & Hl2 & Hr2 & Hc2).
    eapply wp_mono; [eapply (lookup_end_wp None l lk2 p)|]; [done..|].
    simpl. intros rc s3 (HI3 & HF3 & Hk3 & Hc3 & _). left. split; [done|]. split.
    + etransitivity; [apply (dns_frame_world s w)|]. do 2 (etransitivity; [eassumption|]). done.
    + split; [intros k Hk; by rewrite Hk3, Hk2, EL1, lookup_insert_ne by lia|].
      intros k lk' Hk Hlk'. destruct (decide (k = l)) as [->|Hne]; [by apply Hc3|].
      rewrite Hk3 in Hlk' by done. apply (Hm2 k); [lia | done].
Qed.

(** *** Starting a refresh *)
Definition dns_named s : Prop :=
  exists n, cf_dns_name (cl_fixed (s_client s)) = Some n /\ is_cstring n.

Lemma strlen_cstring t : 0 ∈ t -> exists n, strlen t = Ok n /\ 0 <= n < zlen t.
Proof.
  induction t as [|c t IH]; intros Hin; [set_solver|]. simpl.
  destruct (Z.eqb_spec c 0) as [->|Hc]; [exists 0; split; [done|lia]|].
  destruct IH as (n & -> & Hn); [set_solver|]. exists (n + 1). split; [done|lia].
Qed.

Lemma srv_name_ok n : is_cstring n -> exists o, srv_name (Some n) = Ok o.
Proof.
  intros [_ Hin]. destruct (strlen_cstring n Hin) as (k & Ek & Hk). unfold srv_name. simpl.
  rewrite Ek. simpl. destruct (rd_bytes_defined n 0 k) as (bs & -> & _); [lia..|]. simpl. eauto.
Qed.

(** A refresh changes hands: only its owner, its [scheduling] count and the
    client's pointer to it change. *)
Lemma dns_inv_owner X X' s s' p rf rf' :
  dns_inv X None s -> s_refreshes s !! p = Some rf ->
  (X = None \/ X = Some p) -> (X' = None \/ X' = Some p) ->
  s_lookups s' = s_lookups s -> s_refreshes s' = <[p := rf']> (s_refreshes s) ->
  s_next s' = s_next s ->
  (forall q, q <> p -> cl_dns_refresh (s_client s') = Some q <->
                       cl_dns_refresh (s_client s) = Some q) ->
  cl_dns_refresh_inflight (s_client s') = bool_decide (is_Some (cl_dns_refresh (s_client s'))) ->
  cl_servers (s_client s') = cl_servers (s_client s) ->
  cl_server_cap (s_client s') = cl_server_cap (s_client s) ->
  rf_lookups rf' = rf_lookups rf -> rf_pending rf' = rf_pending rf ->
  rf_endpoints rf' = rf_endpoints rf -> rf_endpoint_cap rf' = rf_endpoint_cap rf ->
  rf_scheduling rf' = rf_scheduling rf - b2z (bool_decide (X = Some p))
                      + b2z (bool_decide (X' = Some p)) ->
  (rf_detached rf' = true /\ cl_dns_refresh (s_client s') <> Some p /\
   (rf_client rf' = false \/ X' = Some p)) ->
  dns_inv X' (Some p) s'.
Proof.
  intros [HLo HR HC HD HF HZ HS HA] Hp HX HX' EL ER EN EC EI E1 E2 E3 E4 E5 E6 E7 HO.
  split; rewrite ?EL, ?EN, ?E1, ?E2; try done.
  - intros l lk Hl. destruct (HLo l lk Hl) as [(q & rfq & Hq & Hrq & Hin) HK HN].
    split; [|done|by rewrite EN]. rewrite ER. destruct (decide (q = p)) as [->|Hne].
    + exists p, rf'. rewrite lookup_insert_eq, E3. simplify_eq. done.
    + exists q, rfq. by rewrite lookup_insert_ne.
  - intros q rfq Hq. rewrite ER in Hq. destruct (decide (q = p)) as [->|Hne].
    + rewrite lookup_insert_eq in Hq. injection Hq as <-. destruct (HR p rf Hp) as [[] Hn].
      split; [|done]. split; rewrite ?EL, ?E3, ?E4, ?E5, ?E6; try done.
      * rewrite E7, ro_scheduling0. lia.
      * by right.
      * by left.
    + rewrite lookup_insert_ne in Hq by done. destruct (HR q rfq Hq) as [[] Hn].
      assert (X <> Some q /\ X' <> Some q) as [HXq HX'q] by (destruct HX, HX'; split; congruence).
      split; [|done]. split; rewrite ?EL; try done.
      * rewrite ro_scheduling0, !bool_decide_false by done. done.
      * rewrite EC by done. destruct ro_owner0 as [?|(? & ? & [?|?])]; [left; tauto|right; tauto|done].
      * right. by destruct ro_busy0.
  - intros q Hq. rewrite ER, lookup_insert_is_Some'. destruct (decide (q = p)) as [->|Hne]; [by left|].
    right. apply HC. by apply EC.
  - intros q Hq. rewrite ER, lookup_insert_is_Some'. left. destruct HX'; congruence.
Qed.

(** A new, idle refresh becomes the client's current one. *)
Lemma dns_inv_new s s' p rf :
  dns_inv None None s -> cl_dns_refresh (s_client s) = None -> p = s_next s ->
  rf = mk_refresh true false 0 0 [] [] 0 0 ->
  s_lookups s' = s_lookups s -> s_refreshes s' = <[p := rf]> (s_refreshes s) ->
  s_next s' = S p -> cl_dns_refresh (s_client s') = Some p ->
  cl_dns_refresh_inflight (s_client s') = true ->
  cl_servers (s_client s') = cl_servers (s_client s) ->
  cl_server_cap (s_client s') = cl_server_cap (s_client s) ->
  dns_inv None (Some p) s'.
Proof.
  intros [HLo HR HC HD HF HZ HS HA] Hcur -> -> EL ER EN ED EI E1 E2.
  assert (Hnot : forall q rfq, s_refreshes s !! q = Some rfq -> q <> s_next s).
  { intros q rfq Hq. destruct (HR q rfq Hq). lia. }
  split; rewrite ?EL, ?EN, ?E1, ?E2, ?ED; try done.
  - intros l lk Hl. destruct (HLo l lk Hl) as [(q & rfq & Hq & Hrq & Hin) HK HN].
    split; [|done|lia]. exists q, rfq. rewrite ER, lookup_insert_ne by (intros <-; by eapply Hnot).
    done.
  - intros q rfq Hq. rewrite ER in Hq. destruct (decide (q = s_next s)) as [->|Hne].
    + rewrite lookup_insert_eq in Hq. injection Hq as <-. split; [|lia].
      split; rewrite ?EL; simpl; try done; [apply NoDup_nil_2|set_solver| |by left].
      left. by rewrite ED.
    + rewrite lookup_insert_ne in Hq by done. destruct (HR q rfq Hq) as [[] Hn].
      split; [|lia]. split; rewrite ?EL; try done; [|by right; destruct ro_busy0].
      rewrite ED. destruct ro_owner0 as [(? & ? & ? & _)|(? & ? & ?)]; [congruence|right].
      repeat split; [done|congruence|done].
  - intros q [= <-]. rewrite ER, lookup_insert_eq. eauto.
Qed.

(** Dropping the client's current, idle refresh. *)
Lemma abandon_wp X p rf s s0 :
  dns_inv X (Some p) s -> s_refreshes s !! p = Some rf -> rf_lookups rf = [] -> X <> Some p ->
  cl_dns_refresh (s_client s) = Some p -> dns_frame s0 s -> lookups_step s0 s ->
  wp (_ ← upd_client (fun c => set_cl_dns_refresh None (set_cl_dns_refresh_inflight false c));
      r_dns_refresh_free p)
    (fun _ s' => dns_inv X None s' /\ dns_frame s0 s' /\ lookups_step s0 s') s.
Proof.
  intros HI Hp Hnil HX Hcur HF HK. wp_step. wp_step. eapply refresh_free_wp; [done..|].
  simpl. split.
  - eapply (dns_inv_free X (Some p) s); simpl; try done; [by right|..].
    + by rewrite Hcur, decide_True.
    + apply HI.
    + apply HI.
  - split; [|done]. etransitivity; [exact HF|]. split; simpl; try done. exists [].
    by rewrite app_nil_r.
Qed.

(** What remains of [r_dns_start_refresh] once the lookup was scheduled. *)
Lemma start_tail_wp p rf rc s s1 s2 :
  dns_inv None (Some p) s1 -> dns_frame s s1 -> lookups_step s s1 ->
  s_refreshes s1 !! p = Some rf -> rf_lookups rf = [] -> rf_pending rf = 0 ->
  rf_scheduling rf = 0 -> cl_dns_refresh (s_client s1) = Some p ->
  (dns_inv None None s2 /\ dns_frame s1 s2 /\ lookups_step s1 s2) \/
  (only_world s1 s2 /\ rc = RCLIENT_ERR_NOMEM) ->
  wp (c ← client;
      _ ← (if negb (rc =? RCLIENT_OK) && bool_decide (cl_dns_refresh c = Some p) then
             rf ← get_refresh p;
             if (rf_pending rf =? 0) && (rf_scheduling rf =? 0) then
               _ ← upd_client (fun c => set_cl_dns_refresh None
                                          (set_cl_dns_refresh_inflight false c));
               r_dns_refresh_free p
             else mret tt
           else mret tt);
      mret rc)
    (fun _ s' => dns_inv None None s' /\ dns_frame s s' /\ lookups_step s s') s2.
Proof.
  intros HI1 HF1 HK1 Hp1 Hl1 E1 E2 Hcur1 Hs2. wp_step. wp_step.
  apply (wp_seq _ _ (fun _ s' => dns_inv None None s' /\ dns_frame s s' /\ lookups_step s s'));
    [|intros _ s3 ?; wp_step; done].
  destruct Hs2 as [(HI2 & HF2 & HK2)|[[w2 ->] ->]].
  - assert (Hdone : dns_inv None None s2 /\ dns_frame s s2 /\ lookups_step s s2).
    { split; [done|]. split; [by etransitivity|].
      eapply lookups_step_trans; [apply HF1 | done | done]. }
    wp_step; [|by wp_step]. apply andb_true_iff in H0 as [_ Hcur%bool_decide_eq_true].
    destruct (di_current _ _ _ HI2 p Hcur) as [rf2 Hp2]. wp_step. wp_step.
    destruct (di_refreshes _ _ _ HI2 p rf2 Hp2) as [[] _].
    wp_step; [|by wp_step]. breflect. destruct ro_busy0; [done|lia].
  - simpl. rewrite bool_decide_true by done. simpl. wp_step.
    eapply wp_get_refresh; [exact Hp1|]. rewrite E1, E2. simpl.
    eapply (abandon_wp None); [by apply dns_inv_world|exact Hp1|done|done|done| |done].
    etransitivity; [exact HF1 | apply dns_frame_world].
Qed.

Lemma start_refresh_wp s :
  dns_inv None None s -> dns_named s ->
  wp r_dns_start_refresh (fun _ s' =>
    dns_inv None None s' /\ dns_frame s s' /\ lookups_step s s') s.
Proof.
  intros HI (n & Hn & Hcs). pose proof (lookups_step_refl _ _ _ HI) as Hrefl.
  unfold r_dns_start_refresh. wp_step. wp_step.
  wp_step; [wp_step; done|]. wp_step. wp_step. wp_step; [wp_step|].
  { split; [by apply dns_inv_world|]. split; [apply dns_frame_world | done]. }
  wp_step. apply wp_new_refresh. wp_step. wp_step. wp_step. wp_step.
  destruct (srv_name_ok n Hcs) as [o Ho]. wp_step. eapply wp_lift; [simpl; rewrite Hn; exact Ho|].
  set (p := s_next s). match goal with |- wp _ _ ?st => set (s1 := st) end.
  assert (Hcur0 : cl_dns_refresh (s_client s) = None).
  { pose proof (di_flag _ _ _ HI) as E. rewrite H0 in E. symmetry in E.
    apply bool_decide_eq_false in E. by apply eq_None_not_Some. }
  assert (HI1 : dns_inv None (Some p) s1) by (by eapply (dns_inv_new s)).
  assert (HF1 : dns_frame s s1).
  { split; simpl; try done; [lia|]. exists []. by rewrite app_nil_r. }
  assert (Hp1 : s_refreshes s1 !! p = Some (mk_refresh true false 0 0 [] [] 0 0))
    by apply lookup_insert_eq.
  destruct o as [name|].
  - eapply wp_seq; [by eapply schedule_srv_wp|]. simpl. intros rc s2 Hs2.
    by eapply (start_tail_wp p).
  - apply (wp_assoc _ (fun _ => r_dns_refresh_free p)).
    eapply wp_seq; [by eapply (abandon_wp None)|]. simpl. intros _ s3 Hs3. by wp_step.
Qed.

Lemma rand_range_wp max s :
  is_u64 max -> max < UINT64_MAX ->
  wp (r_rand_range max) (fun r s' => 0 <= r <= max /\ only_world s s') s.
Proof.
  intros Hm Hlt. unfold r_rand_range. destruct (Z.eqb_spec max 0) as [->|Hnz].
  { wp_step. split; [lia|]. exists (s_world s). by destruct s. }
  wp_step. apply wp_world_op. intros [bs|] w E; [|wp_step; split; [rlia | by eexists]].
  rewrite u64_small by rlia. rewrite (proj2 (Z.eqb_neq _ 0)) by rlia. wp_step.
  split; [|by eexists]. assert (0 <= unle bs mod (max + 1) < max + 1)
    by (apply Z.mod_pos_bound; rlia). lia.
Qed.

Definition dns_config_ok s : Prop :=
  dns_named s /\
  is_u64 (dp_forced_refresh_jitter_ms (cf_dns_policy (cl_fixed (s_client s)))) /\
  dp_forced_refresh_jitter_ms (cf_dns_policy (cl_fixed (s_client s))) < UINT64_MAX.

Lemma maybe_refresh_wp force s :
  dns_inv None None s -> dns_config_ok s ->
  wp (r_dns_maybe_refresh force) (fun _ s' =>
    dns_inv None None s' /\ dns_frame s s' /\ lookups_step s s') s.
Proof.
  intros HI (Hn & Hj & Hlt).
  pose proof (lookups_step_refl _ _ _ HI) as Hrefl.
  assert (Hstart : forall s1, only_world s s1 ->
    wp r_dns_start_refresh (fun _ s' =>
      dns_inv None None s' /\ dns_frame s s' /\ lookups_step s s') s1).
  { intros s1 [w ->]. eapply wp_mono; [apply start_refresh_wp; [by apply dns_inv_world | done]|].
    simpl. intros _ s2 (HI2 & HF2 & HK2). split; [done|]. split; [|done].
    etransitivity; [apply dns_frame_world | done]. }
  assert (Hskip : forall s1, only_world s s1 ->
    dns_inv None None s1 /\ dns_frame s s1 /\ lookups_step s s1).
  { intros s1 [w ->]. split; [by apply dns_inv_world|]. split; [apply dns_frame_world | done]. }
  unfold r_dns_maybe_refresh. wp_step. apply now_ms_wp. intros now s1 Hnow [w ->]. wp_step. wp_step.
  assert (Hw : only_world s (set_world w s)) by by eexists.
  wp_step. { wp_step; [by apply Hstart | wp_step; by apply Hskip]. }
  apply (wp_seq _ _ (fun _ s2 => only_world s s2)).
  - wp_step; [|by wp_step]. eapply wp_seq; [by apply rand_range_wp|].
    simpl. intros j s2 [_ [w2 ->]]. wp_step. by eexists.
  - simpl. intros mi s2 Hs2. wp_step; [wp_step; by apply Hskip | by apply Hstart].
Qed.

(** *** Detaching on destruction *)

(** No lookup is inside its resolver call. *)
Definition at_rest s : Prop :=
  forall l lk, s_lookups s !! l = Some lk -> lk_in_resolver_call lk = false.

(** Code that adds nothing to the trace. *)
Definition mute {A} (m : M W A) : Prop := forall s a s', m s = Ok (a, s') -> s_trace s' = s_trace s.

Lemma mute_bind {A B} (m : M W A) (k : A -> M W B) : mute m -> (forall a, mute (k a)) -> mute (m ≫= k).
Proof.
  intros Hm Hk s b s' E. unfold mbind, M_bind in E. destruct (m s) as [|[a s1]] eqn:Em; [done|].
  rewrite (Hk _ _ _ _ E). by eapply Hm.
Qed.
Lemma mute_mret {A} (a : A) : mute (mret a).
Proof. by intros s b s' [= _ <-]. Qed.
Lemma mute_lift {A} (r : run A) : mute (lift r).
Proof. intros s a s'. unfold lift. destruct r; [done|]. by intros [= _ <-]. Qed.
Lemma mute_gets {A} (f : sys W -> A) : mute (gets f).
Proof. by intros s b s' [= _ <-]. Qed.
Lemma mute_modify f : (forall s, s_trace (f s) = s_trace s) -> mute (modify f).
Proof. intros Hf s b s' [= _ <-]. apply Hf. Qed.
Lemma mute_world_op {A} (f : W -> A * W) : mute (world_op f).
Proof. intros s a s'. unfold world_op. destruct (f (s_world s)). by intros [= _ <-]. Qed.
Lemma mute_for_each {A} (l : list A) (f : A -> M W unit) : (forall x, mute (f x)) -> mute (for_each l f).
Proof. intros Hf. induction l; cbn [for_each]; [apply mute_mret|]. apply mute_bind; auto. Qed.

Ltac muted :=
  lazymatch goal with
  | |- mute (_ ≫= _) => apply mute_bind; [muted|intros; muted]
  | |- mute (mret _) => apply mute_mret
  | |- mute (lift _) => apply mute_lift
  | |- mute (gets _) => apply mute_gets
  | |- mute (modify _) => by apply mute_modify
  | |- mute (world_op _) => apply mute_world_op
  | |- mute (for_each _ _) => apply mute_for_each; intros; muted
  | |- mute (match ?x with _ => _ end) => destruct x; muted
  | |- mute (let _ := _ in _) => cbv zeta; muted
  | |- mute (fun _ => _) => intros ? ? ? ?; repeat case_match; by simplify_eq
  | |- mute ?m => let h := get_head m in unfold h; muted
  end.

Lemma mute_maybe_complete p : mute (r_dns_refresh_maybe_complete p).
Proof. muted. Qed.
Lemma mute_addr_cb l status addrs : mute (r_dns_addr_cb_fn l status addrs).
Proof. muted. Qed.
Lemma mute_detach_tail p :
  mute (_ ← dec_scheduling p; _ ← upd_refresh p (set_rf_client false); r_dns_refresh_maybe_complete (Some p)).
Proof. muted. Qed.

Lemma wp_mute {A} (m : M W A) (Q : A -> sys W -> Prop) s :
  mute m -> wp m Q s -> wp m (fun a s' => s_trace s' = s_trace s /\ Q a s') s.
Proof. unfold wp. intros Hm HQ. destruct (m s) as [|[a s']] eqn:E; [done|]. split; [by eapply Hm|done]. Qed.

(** The cancellations of the lookups still under way. *)
Definition cancels_of (m : gmap ptr r_dns_lookup_ctx) (ls : list ptr) : list event :=
  omap (fun l => lk ← m !! l;
          if negb (lk_completed lk) && lk_has_req_id lk then Some (EvDnsCancel (lk_req_id lk)) else None) ls.

Lemma cancels_of_ext m m' ls : (forall l, l ∈ ls -> m' !! l = m !! l) -> cancels_of m' ls = cancels_of m ls.
Proof.
  induction ls as [|l ls IH]; intros He; [done|]. unfold cancels_of in *. cbn [omap list_omap].
  rewrite (He l), IH; [done|set_solver|set_solver].
Qed.

Lemma cancel_loop_wp p ls s s0 :
  dns_inv (Some p) None s -> NoDup ls -> dns_frame s0 s -> cl_dns_refresh (s_client s) = None ->
  (forall l, l ∈ ls -> is_Some (s_lookups s !! l)) -> at_rest s ->
  wp (for_each ls (fun lookup =>
        lk ← get_lookup lookup;
        if negb (lk_completed lk) && lk_has_req_id lk
        then resolver_cancel lookup (lk_req_id lk) else mret tt))
    (fun _ s' => s_trace s' = s_trace s ++ cancels_of (s_lookups s) ls /\
                 dns_inv (Some p) None s' /\ dns_frame s0 s' /\
                 cl_dns_refresh (s_client s') = None /\ at_rest s') s.
Proof.
  revert s; induction ls as [|l ls IH]; intros s HI Hnd HF Hcur Hls Hrest; cbn [for_each].
  { wp_step. rewrite app_nil_r. done. }
  apply NoDup_cons in Hnd as [Hl Hnd]. destruct (Hls l ltac:(left)) as (lk & Hlk).
  pose proof (Hrest l lk Hlk) as Hcall.
  apply (wp_seq _ _ (fun _ s1 => s_trace s1 = s_trace s ++ cancels_of (s_lookups s) [l] /\
                        dns_inv (Some p) None s1 /\ dns_frame s0 s1 /\
                        cl_dns_refresh (s_client s1) = None /\
                        (forall k, k <> l -> s_lookups s1 !! k = s_lookups s !! k) /\ at_rest s1)).
  - wp_step. wp_step. unfold cancels_of. cbn [omap list_omap]. rewrite Hlk. cbn [mbind option_bind].
    apply wp_if; intros H0; rewrite H0; [|by wp_step; rewrite app_nil_r].
    apply andb_true_iff in H0 as [Hc%negb_true_iff _].
    unfold resolver_cancel. wp_step. wp_step. wp_step. apply wp_world_op. intros called w Ew.
    match goal with |- wp _ _ ?st => set (s1 := st) end.
    assert (HI1 : dns_inv (Some p) None s1) by by eapply dns_inv_ext.
    assert (HF1 : dns_frame s0 s1).
    { etransitivity; [exact HF|]. split; simpl; try done. eexists; split; [done|]. by constructor. }
    wp_step; [|by wp_step].
    eapply wp_mono; [eapply wp_mute; [apply mute_addr_cb|by eapply (addr_cb_wp (Some p) l lk)]|].
    simpl. intros _ s2 (Et2 & HI2 & HF2 & HS2 & EL2). split; [done|]. split; [done|]. split; [by etransitivity|].
    split; [unfold same_current in HS2; simpl in HS2; destruct HS2; congruence|].
    rewrite Hcall in EL2.
    split; [intros k Hk; rewrite EL2, lookup_delete_ne by done; done|].
    intros k lk' Hk. rewrite EL2 in Hk. apply lookup_delete_Some in Hk as [_ Hk]. by eapply Hrest.
  - intros _ s1 (Et1 & HI1 & HF1 & HS1 & HK1 & HR1). eapply wp_mono; [apply IH; [done..| |done]|].
    + intros k Hk. rewrite HK1 by set_solver. apply Hls. by right.
    + cbv beta. intros _ s2 (Et2 & H2). split; [|done]. rewrite Et2, Et1, <- app_assoc. f_equal.
      rewrite (cancels_of_ext (s_lookups s) (s_lookups s1) ls) by (intros k Hk; apply HK1; by intros ->).
      change (l :: ls) with ([l] ++ ls). unfold cancels_of. by rewrite omap_app.
Qed.

(** Between API calls no lookup is inside its resolver call. *)
Definition dns_rest s : Prop :=
  dns_inv None None s /\ at_rest s.

Lemma dns_rest_step s s' :
  dns_rest s -> dns_inv None None s' -> lookups_step s s' -> dns_rest s'.
Proof.
  intros [HI HC] HI' [HK1 HK2]. split; [done|]. intros l lk Hl.
  destruct (decide (l < s_next s)%nat); [|apply (HK2 l); [lia|done]].
  rewrite HK1 in Hl by done. by eapply HC.
Qed.

(** The end of a detach: the count it held is released, the client forgotten. *)
Lemma detach_tail_wp p s s2 :
  dns_inv (Some p) None s2 -> dns_frame s s2 -> cl_dns_refresh (s_client s2) = None ->
  is_Some (s_refreshes s2 !! p) -> at_rest s2 ->
  wp (_ ← dec_scheduling p; _ ← upd_refresh p (set_rf_client false);
      r_dns_refresh_maybe_complete (Some p)) (fun _ s' =>
    dns_rest s' /\ dns_frame s s' /\ cl_dns_refresh (s_client s') = None) s2.
Proof.
  intros HI Hfr Hcur [rf Hp] Hrest. destruct (refresh_bounds _ _ _ _ _ HI Hp) as [Hb1 Hb2].
  destruct (di_refreshes _ _ _ HI p rf Hp) as [HR Hpn].
  assert (0 < rf_scheduling rf).
  { rewrite (ro_scheduling _ _ _ _ _ HR), bool_decide_true by done. simpl.
    pose proof (count_ge0 lk_in_resolver_call (s_lookups s2) (rf_lookups rf)). lia. }
  wp_step. eapply dec_scheduling_wp; [done|lia|]. wp_step.
  eapply wp_upd_refresh; [apply lookup_insert_eq|]. simpl. rewrite insert_insert_eq.
  eapply wp_mono; [eapply (maybe_complete_current None)|].
  - eapply (dns_inv_owner (Some p) None s2 _ p rf); simpl; try done; [by right|by left|..].
    + apply HI.
    + simpl. rewrite bool_decide_true by done. simpl. lia.
    + simpl. split; [|split; [congruence | by left]].
      destruct (ro_owner _ _ _ _ _ HR) as [(_ & _ & ? & _)|(? & _)]; congruence.
  - apply lookup_insert_eq.
  - simpl. intros _ s3 (HI3 & HF3 & EL3 & HS3).
    split; [split; [done|]; intros k lk; rewrite EL3; apply Hrest|].
    split; [|unfold same_current in HS3; simpl in HS3; destruct HS3; congruence].
    etransitivity; [exact Hfr|]. etransitivity; [|exact HF3].
    split; simpl; try done. exists []. by rewrite app_nil_r.
Qed.

(** The cancellations of a detached refresh, when the resolver can cancel. *)
Definition detach_cancels (p : ptr) s : list event :=
  match s_refreshes s !! p with
  | Some rf => if cf_resolver_cancel (cl_fixed (s_client s)) then cancels_of (s_lookups s) (rf_lookups rf) else []
  | None => []
  end.

Lemma detach_wp p s :
  dns_rest s -> cl_dns_refresh (s_client s) = Some p ->
  wp (r_dns_refresh_detach p) (fun _ s' =>
    s_trace s' = s_trace s ++ detach_cancels p s /\
    dns_rest s' /\ dns_frame s s' /\ cl_dns_refresh (s_client s') = None) s.
Proof.
  intros [HI HC] Hcur. destruct (di_current _ _ _ HI p Hcur) as [rf Hp].
  destruct (refresh_bounds _ _ _ _ _ HI Hp) as [Hb1 Hb2].
  destruct (di_refreshes _ _ _ HI p rf Hp) as [HR Hpn].
  destruct (ro_owner _ _ _ _ _ HR) as [(Hc & Hd & _ & _)|(_ & ? & _)]; [|done].
  unfold r_dns_refresh_detach. wp_step. wp_step. rewrite Hc. do 4 wp_step.
  rewrite Hcur, decide_True by done. do 4 wp_step.
  simpl. match goal with |- wp _ _ ?st => set (s1 := st) end.
  assert (HI1 : dns_inv (Some p) None s1).
  { eapply dns_inv_busy.
    - eapply (dns_inv_owner None (Some p) s s1 p rf); simpl; try done; [by left|by right|..].
      + intros q Hq. rewrite Hcur. split; congruence.
      + simpl. rewrite u64_small by rlia. rewrite bool_decide_true by done. simpl. lia.
      + simpl. split; [done|]. split; [done|by right].
    - intros q rfq [= <-]. unfold s1. simpl. rewrite lookup_insert_eq. intros [= <-]. simpl.
      rewrite u64_small by rlia. lia. }
  assert (HF1 : dns_frame s s1).
  { split; simpl; try done. exists []. by rewrite app_nil_r. }
  assert (Hp1 : exists rf1, s_refreshes s1 !! p = Some rf1 /\ rf_lookups rf1 = rf_lookups rf)
    by (eexists; split; [apply lookup_insert_eq|done]).
  destruct Hp1 as (rf1 & Hp1 & Hl1).
  apply (wp_seq _ _ (fun _ s2 => s_trace s2 = s_trace s ++ detach_cancels p s /\
                                 dns_inv (Some p) None s2 /\ dns_frame s s2 /\
                                 cl_dns_refresh (s_client s2) = None /\ at_rest s2)).
  - unfold r_dns_refresh_cancel_lookups, detach_cancels. rewrite Hp. wp_step. wp_step. cbn [negb orb].
    change (cl_fixed (s_client s1)) with (cl_fixed (s_client s)).
    destruct (cf_resolver_cancel (cl_fixed (s_client s))); cbn [negb]; [|by wp_step; rewrite app_nil_r].
    wp_step. wp_step. rewrite Hl1. apply (cancel_loop_wp p (rf_lookups rf) s1 s); try done; [apply HR|].
    intros l Hl. destruct (ro_lookups _ _ _ _ _ HR l Hl) as (lk & Hlk & _). eauto.
  - intros _ s2 (Et2 & HI2 & HF2 & Hcur2 & Hrest2).
    eapply wp_mono; [eapply wp_mute; [apply mute_detach_tail|eapply detach_tail_wp; [done..| |done]]|].
    + by apply (di_detaching _ _ _ HI2).
    + cbv beta. intros _ s3 (-> & H3). by split.
Qed.
End Ops.
