(* ===== verification/RequestFacts.v ===== *)
(** * Requests: selection, sending, packets *)

From Stdlib Require Import String Ascii.
From S2P Require Import Prelude.
From S2P Require Import Types.
From S2P Require Import Wire.
From S2P Require Import WireFacts.
From S2P Require Import Crypto.
From S2P Require Import Workflow.
From S2P Require Import State.
From S2P Require Import Hoare.
From S2P Require Import Schedule.
From S2P Require Import Dns.
From S2P Require Import DnsFacts.
From S2P Require Import Request.

(** ** Server age

    A server id carries its start time in its upper 41 bits, so the older of
    two servers is the one with the smaller id. *)
Lemma server_start_no_wrap id :
  is_u64 id -> r_server_start_s_from_id id = R_SERVER_ID_EPOCH_S_2025 + id / 2 ^ 23.
Proof.
  intros Hid. unfold r_server_start_s_from_id. rewrite Z.shiftr_div_pow2 by lia.
  apply u64_small. unfold R_SERVER_ID_EPOCH_S_2025. unfold_ranges.
  assert (0 <= id / 2 ^ 23 < 2 ^ 41)
    by (split; [apply Z.div_pos; lia | apply Z.div_lt_upper_bound; lia]). lia.
Qed.

Lemma start_time_order a b :
  is_u64 a -> is_u64 b ->
  (r_server_start_s_from_id a <? r_server_start_s_from_id b)
  || ((r_server_start_s_from_id a =? r_server_start_s_from_id b) && (a <? b)) = (a <? b).
Proof.
  intros Ha Hb. rewrite !server_start_no_wrap by done.
  destruct (Z.ltb_spec a b) as [Hlt|Hge].
  - assert (a / 2 ^ 23 <= b / 2 ^ 23) by (apply Z.div_le_mono; lia).
    rewrite andb_true_r. apply orb_true_iff.
    destruct (Z.ltb_spec (R_SERVER_ID_EPOCH_S_2025 + a / 2 ^ 23)
                (R_SERVER_ID_EPOCH_S_2025 + b / 2 ^ 23)); [by left | right; apply Z.eqb_eq; lia].
  - assert (b / 2 ^ 23 <= a / 2 ^ 23) by (apply Z.div_le_mono; lia).
    rewrite andb_false_r, orb_false_r. apply Z.ltb_ge. lia.
Qed.

(** The preference order between two servers (earlier start time, then
    smaller id) is exactly the order of their 64-bit ids, without overflow in
    the start-time computation. *)
Lemma server_is_older_spec a b :
  is_u64 a -> is_u64 b -> r_server_is_older a b = (a <? b).
Proof. intros Ha Hb. unfold r_server_is_older. by apply start_time_order. Qed.

Lemma server_is_older_spec_witness :
  is_u64 5 /\ is_u64 8388608 /\ r_server_is_older 5 8388608 = (5 <? 8388608).
Proof. split; [rlia|]. split; [rlia|]. apply server_is_older_spec; rlia. Defined.

(** A server is the oldest known one when its id is a lower bound of the ids
    the request may hear from. *)
Lemma oldest_known_spec r id :
  is_u64 id -> Forall is_u64 (rq_allowed_ids r) ->
  r_is_oldest_known_server r id = forallb (fun x => id <=? x) (rq_allowed_ids r).
Proof.
  intros Hid. unfold r_is_oldest_known_server.
  induction 1 as [|x l Hx Hl IH]; cbn [oldest_loop forallb]; [done|].
  destruct (Z.eqb_spec x id) as [->|Hne].
  { rewrite IH, (proj2 (Z.leb_le id id)) by lia. done. }
  rewrite start_time_order, Z.leb_antisym by done. by destruct (x <? id).
Qed.

(** The ids a request accepts, deduplicated in order of first appearance. *)
Lemma allowed_ids_fold es acc :
  NoDup acc ->
  NoDup (foldl (fun ids e => allowed_ids_add ids (se_server_id e)) acc es) /\
  forall id, id ∈ foldl (fun ids e => allowed_ids_add ids (se_server_id e)) acc es <->
             id ∈ acc \/ exists e, e ∈ es /\ se_server_id e = id.
Proof.
  revert acc; induction es as [|e es IH]; intros acc Hnd; simpl; [split; [done|set_solver]|].
  assert (Hadd : NoDup (allowed_ids_add acc (se_server_id e)) /\
    forall id, id ∈ allowed_ids_add acc (se_server_id e) <-> id ∈ acc \/ id = se_server_id e).
  { unfold allowed_ids_add. destruct (existsb _ acc) eqn:E.
    - apply existsb_exists in E as (x & Hx & Hxe%Z.eqb_eq). rewrite <- list_elem_of_In in Hx.
      split; [done|]. set_solver.
    - assert (se_server_id e ∉ acc).
      { intros Hin. rewrite <- not_true_iff_false, existsb_exists in E. apply E.
        exists (se_server_id e). rewrite <- list_elem_of_In, Z.eqb_refl. done. }
      split; [|set_solver]. apply NoDup_app. repeat split; [done|set_solver|].
      apply NoDup_singleton. }
  destruct Hadd as [Hnd' Hin']. destruct (IH _ Hnd') as [HA HB]. split; [done|].
  intros id. rewrite HB, Hin'. set_solver.
Qed.

(** ** Sending *)
Lemma addr_equal_ok a b : wf_addr a -> wf_addr b -> exists e, r_addr_equal a b = Ok e.
Proof.
  intros (Ha & _ & Hla) (Hb & _ & Hlb). unfold r_addr_equal. csts.
  destruct (Z.eqb_spec (ad_len a) (ad_len b)) as [E|E]; simpl; [|eauto].
  destruct (rd_bytes_defined (ad_sa a) 0 (ad_len a)) as (x & -> & _); [lia..|].
  destruct (rd_bytes_defined (ad_sa b) 0 (ad_len a)) as (y & -> & _); [lia..|]. simpl. eauto.
Qed.

Lemma addr_mem_ok l a : Forall wf_addr l -> wf_addr a -> exists e, addr_mem l a = Ok e.
Proof.
  intros Hl Ha. induction Hl as [|x l Hx Hl [e IH]]; simpl; [eauto|].
  destruct (addr_equal_ok x a Hx Ha) as [[] ->]; simpl; eauto.
Qed.

(** Whether an endpoint is known to have answered. *)
Definition responded (r : r_client_req) (t : r_server_endpoint) : bool :=
  match r_request_target_responded r t with Ok b => b | UB => false end.

Lemma responded_ok r t :
  Forall wf_addr (rq_seen_addrs r) -> wf_endpoint t ->
  r_request_target_responded r t = Ok (responded r t).
Proof.
  intros Hs Ht. unfold responded, r_request_target_responded.
  destruct (se_has_server_id t); [done|].
  by destruct (addr_mem_ok (rq_seen_addrs r) (se_addr t) Hs (proj1 Ht)) as [e ->].
Qed.

(** The endpoints a send addresses, in order. *)
Definition send_targets (r : r_client_req) (missing_only : bool) : list r_server_endpoint :=
  if missing_only then filter (fun t => responded r t = false) (rq_targets r) else rq_targets r.

Definition is_send_to (packet : list Z) (t : r_server_endpoint) (e : event) : Prop :=
  exists rc, e = EvSend (se_addr t) packet rc.
Definition delivered_event (e : event) : bool :=
  match e with EvSend _ _ rc => rc =? 0 | _ => false end.
Definition delivered_count (tr : list event) : Z := zlen (filter (fun e => delivered_event e = true) tr).

Lemma delivered_count_cons e tr :
  delivered_count (e :: tr) = b2z (delivered_event e) + delivered_count tr.
Proof.
  unfold delivered_count. rewrite filter_cons. destruct (decide (delivered_event e = true)) as [->|E].
  - simpl. lia.
  - destruct (delivered_event e); [done|]. simpl. lia.
Qed.

Lemma delivered_count_le tr : 0 <= delivered_count tr <= zlen tr.
Proof. unfold delivered_count. pose proof (length_filter (fun e => delivered_event e = true) tr). lia. Qed.

Section Sending.
Context {W : Type} `{HL : HostLaws W}.
Implicit Types s : sys W.

(** Only datagrams to [ts] left the client, one each. *)
Definition sent (packet : list Z) (ts : list r_server_endpoint) (tr : list event) s s' : Prop :=
  Forall2 (is_send_to packet) ts tr /\ exists w, s' = set_trace (s_trace s ++ tr) (set_world w s).

Lemma sent_nil packet s : sent packet [] [] s s.
Proof. split; [constructor|]. exists (s_world s). rewrite app_nil_r. by destruct s. Qed.

Lemma udp_send_wp a packet (Q : Z -> sys W -> Prop) s :
  (forall rc w, Q rc (set_trace (s_trace s ++ [EvSend a packet rc]) (set_world w s))) ->
  wp (udp_send a packet) Q s.
Proof.
  intros HQ. unfold udp_send. wp_step. apply wp_world_op. intros rc w E. wp_step. wp_step. wp_step.
  apply HQ.
Qed.

Lemma send_loop_wp ts r packet mo a d s :
  Forall wf_endpoint ts -> Forall wf_addr (rq_seen_addrs r) ->
  0 <= d -> 0 <= a -> d + zlen ts < 2 ^ 63 -> a + zlen ts < 2 ^ 63 ->
  wp (send_loop ts r packet mo a d) (fun n s' =>
    exists tr, let ts' := if mo then filter (fun t => responded r t = false) ts else ts in
      sent packet ts' tr s s' /\ n = (a + zlen ts', d + delivered_count tr)) s.
Proof.
  intros Hts Hseen. revert a d s; induction Hts as [|t ts Ht Hts IH]; intros a d s Hd Ha Hbd Hba.
  { simpl. wp_step. exists []. split; [|by destruct mo; rewrite !Z.add_0_r].
    destruct mo; apply sent_nil. }
  cbn [send_loop]. cbn [length] in *.
  apply (wp_seq _ _ (fun skip s' => s' = s /\ skip = mo && responded r t)).
  { destruct mo; [|wp_step; done]. eapply wp_lift; [by apply responded_ok|]. done. }
  intros skip _ [-> ->]. rewrite filter_cons. destruct (mo && responded r t) eqn:Eskip.
  { apply andb_true_iff in Eskip as [-> Er]. rewrite decide_False by (by rewrite Er).
    eapply wp_mono; [apply (IH a d); lia|]. done. }
  wp_step. apply udp_send_wp. intros rc w.
  assert (b2z (rc =? 0) <= 1) by (destruct (rc =? 0); simpl; lia).
  rewrite u64_small by (unfold_ranges; lia).
  assert ((if rc =? 0 then d +64 1 else d) = d + b2z (rc =? 0)) as ->.
  { destruct (rc =? 0); simpl; [rewrite u64_small by (unfold_ranges; lia)|]; lia. }
  pose proof (b2z_range (rc =? 0)). eapply wp_mono; [apply IH; lia|].
  simpl. intros n s' (tr & [Htr [w' ->]] & ->).
  exists (EvSend (se_addr t) packet rc :: tr). simpl. rewrite delivered_count_cons. simpl.
  assert (Heq : (if mo then if decide (responded r t = false)
                            then t :: filter (fun t => responded r t = false) ts
                            else filter (fun t => responded r t = false) ts
                 else t :: ts)
                = t :: (if mo then filter (fun t => responded r t = false) ts else ts)).
  { destruct mo; [|done]. simpl in Eskip. by rewrite decide_True. }
  rewrite Heq. split; [split|].
  - constructor; [by eexists | done].
  - exists w'. by rewrite <- app_assoc.
  - cbn [length]. f_equal; lia.
Qed.

(** Delivered to [d] of [a] endpoints: the saturating failure counter. *)
Definition count_failures (best_effort : bool) (a d : Z) (c : r_client) : r_client :=
  if negb best_effort && (0 <? d) && (d <? a)
  then set_cl_send_failure_count (Z.min UINT64_MAX (cl_send_failure_count c + (a - d))) c else c.

Lemma record_send_failures_wp n (Q : unit -> sys W -> Prop) s :
  0 < n < 2 ^ 63 -> is_u64 (cl_send_failure_count (s_client s)) ->
  Q tt (set_client (set_cl_send_failure_count
          (Z.min UINT64_MAX (cl_send_failure_count (s_client s) + n)) (s_client s)) s) ->
  wp (r_record_send_failures n) Q s.
Proof.
  intros Hn Hc HQ. unfold r_record_send_failures. rewrite (proj2 (Z.eqb_neq n 0)) by lia.
  wp_step. destruct (Z.ltb_spec (UINT64_MAX - n) (cl_send_failure_count (s_client s))).
  - rewrite Z.min_l in HQ by lia. done.
  - rewrite Z.min_r in HQ by lia. rewrite u64_small by rlia. done.
Qed.

(** One datagram goes to each addressed endpoint, in order: all of them,
    or only those that have not answered yet.  The result is an error only
    when there was someone to send to and nothing was delivered; a partial
    delivery adds the missed endpoints to the saturating failure counter,
    except on best-effort sends. *)
Lemma send_packet_wp p r packet len missing_only best_effort s :
  s_reqs s !! p = Some r -> Forall wf_endpoint (rq_targets r) ->
  Forall wf_addr (rq_seen_addrs r) -> zlen (rq_targets r) < 2 ^ 63 ->
  cf_io_udp_send (cl_fixed (s_client s)) = true -> 0 < len <= zlen packet ->
  is_u64 (cl_send_failure_count (s_client s)) ->
  wp (r_send_packet_to_targets p packet len missing_only best_effort) (fun rc s' =>
    exists tr w,
      Forall2 (is_send_to (take (Z.to_nat len) packet)) (send_targets r missing_only) tr /\
      let a := zlen (send_targets r missing_only) in
      let d := delivered_count tr in
      rc = (if negb best_effort && (0 <? a) && (d =? 0) then RCLIENT_ERR_IO else RCLIENT_OK) /\
      s' = set_client (count_failures best_effort a d (s_client s))
             (set_trace (s_trace s ++ tr) (set_world w s))) s.
Proof.
  intros Hp Ht Hs Hlen Hio Hl Hc. unfold r_send_packet_to_targets.
  rewrite (proj2 (Z.eqb_neq len 0)) by lia. wp_step. wp_step. rewrite Hio. simpl. wp_step. wp_step.
  wp_step. eapply wp_lift.
  { unfold rd_bytes. rewrite (proj2 (in_block_spec _ _ _)) by lia. simpl. by rewrite drop_0. }
  eapply wp_seq; [by apply (send_loop_wp (rq_targets r) r _ missing_only 0 0)|].
  simpl. intros [a d] s1 (tr & [Htr [w ->]] & [= -> ->]). fold (send_targets r missing_only) in *.
  set (ts := send_targets r missing_only) in *. rewrite !Z.add_0_l.
  pose proof (delivered_count_le tr). apply Forall2_length in Htr as Hlt.
  assert (zlen ts <= zlen (rq_targets r)).
  { unfold ts, send_targets. destruct missing_only; [|lia].
    pose proof (length_filter (fun t => responded r t = false) (rq_targets r)). lia. }
  apply wp_if; intros E1.
  { wp_step. exists tr, w. split; [done|]. split; [by rewrite E1|].
    unfold count_failures. breflect. rewrite (zltb_false 0 (delivered_count tr)) by lia.
    by rewrite andb_false_r. }
  apply (wp_seq _ _ (fun _ s' => s' = set_client (count_failures best_effort (zlen ts)
      (delivered_count tr) (s_client s)) (set_trace (s_trace s ++ tr) (set_world w s)))).
  - unfold count_failures. apply wp_if; intros E2; rewrite E2; [|by wp_step]. breflect.
    rewrite u64_small by rlia. apply record_send_failures_wp; [lia|done|]. done.
  - intros _ s1 ->. wp_step. exists tr, w. rewrite E1. done.
Qed.
End Sending.
