(* ===== verification/CryptoFacts.v ===== *)
(** * Credentials and cryptographic wrappers: facts *)

From Stdlib Require Import String Ascii.
From S2P Require Import Prelude.
From S2P Require Import Types.
From S2P Require Import Wire.
From S2P Require Import WireFacts.
From S2P Require Import Crypto.

(** ** AES-GCM wrappers *)
Section Gcm.
Context {ssl : OpenSSL} {laws : AesGcmLaws ssl}.

(** What a successful encryption leaves in its outputs. *)
Definition encrypted (rand : option (list Z)) (key ab pb : list Z) (o : enc_out) : Prop :=
  exists r c t cb, rand = Some r /\ EVP_aes_256_gcm_seal key r [ab; r] pb = Some (c, t) /\
    eo_cipher_len o = Some (zlen c) /\ eo_nonce o = Some r /\ eo_tag o = Some t /\
    eo_cipher o = Some cb /\ rd_bytes cb 0 (zlen c) = Ok c.

Lemma wr_whole (b bs : list Z) : zlen b = zlen bs -> wr b 0 bs = Ok bs.
Proof.
  intros H. unfold wr. rewrite (proj2 (in_block_spec _ _ _)) by lia. simpl.
  rewrite drop_ge, app_nil_r by lia. done.
Qed.

Lemma rd_bytes_whole (b : list Z) n : n = zlen b -> rd_bytes b 0 n = Ok b.
Proof.
  intros ->. unfold rd_bytes. rewrite (proj2 (in_block_spec _ _ _)) by lia.
  rewrite Nat2Z.id. simpl. by rewrite drop_0, firstn_all.
Qed.

Lemma rd_bytes_wr0 (b bs b' : list Z) : wr b 0 bs = Ok b' -> rd_bytes b' 0 (zlen bs) = Ok bs.
Proof.
  intros H. rewrite (rd_bytes_wr b 0 bs b' 0) by (done || lia). by apply rd_bytes_whole.
Qed.

Lemma encrypt_spec rand ctx_ok p pb key a ab cap cb :
  rd_bytes p 0 (zlen pb) = Ok pb -> zlen key = 32 -> rd_bytes a 0 (zlen ab) = Ok ab -> 0 < zlen ab ->
  zlen pb <= cap <= zlen cb -> (forall r, rand = Some r -> zlen r = 12) ->
  exists rc o,
    r_encrypt_pdu_aes_gcm rand ctx_ok (Some p) (zlen pb) (Some key) (Some a) (zlen ab) cap
      (mk_enc_out (Some cb) (Some 0) (Some (replicate 12 0)) (Some (replicate 16 0))) = Ok (rc, o) /\
    ((rc = 0 /\ encrypted rand key ab pb o) \/
     (rc = -1 /\ forall r, rand = Some r -> ctx_ok = true ->
                 EVP_aes_256_gcm_seal key r [ab; r] pb = None)).
Proof.
  intros Hp Hk Ha Hab Hcap Hr. unfold r_encrypt_pdu_aes_gcm. cbn [eo_cipher eo_cipher_len eo_nonce
    eo_tag is_null andb]. rewrite zltb_false by lia.
  destruct rand as [r|]; [|do 2 eexists; split; [done | right; by split]].
  specialize (Hr r eq_refl). rewrite wr_whole by (rewrite length_replicate; lia).
  rewrite run_bind_Ok. destruct ctx_ok; cbn [negb]; [|do 2 eexists; split; [done | right; by split]].
  rewrite (rd_bytes_whole key), run_bind_Ok by lia. rewrite (rd_bytes_whole r), run_bind_Ok by lia.
  rewrite zltb_true by lia. cbn [deref of_option]. rewrite run_bind_Ok, Ha, !run_bind_Ok, Hp.
  rewrite run_bind_Ok. cbn [app].
  destruct (EVP_aes_256_gcm_seal key r [ab; r] pb) as [[c t]|] eqn:Es;
    [|do 2 eexists; split; [done | right; split; [done|congruence]]].
  destruct (gcm_seal_lengths _ _ _ _ _ _ Es) as (Hc & Ht & _).
  destruct (wr_defined cb 0 c) as [cb' Hcb]; [lia..|]. rewrite Hcb, run_bind_Ok.
  rewrite wr_whole, run_bind_Ok by (rewrite length_replicate; lia).
  do 2 eexists. split; [done|]. left. split; [done|].
  exists r, c, t, cb'. repeat split; [done..|]. by eapply rd_bytes_wr0.
Qed.

(** Opening a packet in place: ciphertext, nonce, tag and additional data are
    parts of the same block [b]. *)
Lemma decrypt_spec ctx_ok b coff ct key noff nonce toff tag ad cap out :
  rd_bytes b coff (zlen ct) = Ok ct -> zlen key = 32 -> rd_bytes b noff 12 = Ok nonce ->
  rd_bytes b toff 16 = Ok tag -> rd_bytes b 0 (zlen ad) = Ok ad -> 0 < zlen ad ->
  cap <= zlen out -> is_bytes ct -> is_bytes out ->
  exists rc out' n,
    r_decrypt_pdu_aes_gcm ctx_ok (Some b) coff (zlen ct) (Some key) (Some b) noff (Some b) toff
      (Some b) (zlen ad) (Some out) cap (Some 0) = Ok (rc, Some out', Some n) /\
    ((rc = 0 /\ ctx_ok = true /\ zlen ct <= cap /\ exists pt,
        EVP_aes_256_gcm_open key nonce [ad] ct tag = Some pt /\ n = zlen pt /\
        rd_bytes out' 0 n = Ok pt /\ is_bytes out' /\ zlen out' = zlen out) \/
     (rc = -1 /\ (ctx_ok = true -> zlen ct <= cap ->
                  EVP_aes_256_gcm_open key nonce [ad] ct tag = None))).
Proof.
  intros Hc Hk Hn Ht Ha Had Hcap Hcb Hob. unfold r_decrypt_pdu_aes_gcm. cbn [is_null andb].
  destruct (Z.ltb_spec cap (zlen ct)).
  { do 3 eexists. split; [done|]. right. split; [done|]. intros _ ?. lia. }
  destruct ctx_ok; cbn [negb]; [|do 3 eexists; split; [done|]; by right].
  rewrite (rd_bytes_whole key), run_bind_Ok, Hn, run_bind_Ok, zltb_true by lia.
  cbn [deref of_option]. rewrite run_bind_Ok, Ha, !run_bind_Ok, Hc, run_bind_Ok, Ht, run_bind_Ok.
  destruct (EVP_aes_256_gcm_open key nonce [ad] ct tag) as [pt|] eqn:Eo;
    [|do 3 eexists; split; [done|]; by right].
  destruct (gcm_open_lengths _ _ _ _ _ _ Eo) as [Hl Hb].
  destruct (wr_defined out 0 pt) as [out' Hw]; [lia..|]. rewrite Hw, run_bind_Ok.
  pose proof (wr_Ok _ _ _ _ Hw) as (_ & _ & Hlen).
  do 3 eexists. split; [done|]. left. do 3 (split; [done|]). exists pt. do 2 (split; [done|]).
  split; [by eapply rd_bytes_wr0|]. split; [|lia]. eapply wr_is_bytes; [done| |done]. by apply Hb.
Qed.
End Gcm.
