(* ===== verification/KeyFacts.v ===== *)
(** * API keys: what the Bech32 decoder accepts

    A reference decoder on lists and numbers, the proof that
    [r_decode_api_key_bech32_with_quotas] computes it on every C string without
    leaving its buffers, and the error detection of its checksum. *)

From Stdlib Require Import String Ascii.
From S2P Require Import Prelude.
From S2P Require Import Types.
From S2P Require Import Wire.
From S2P Require Import WireFacts.
From S2P Require Import Crypto.

Lemma rd_at pre c post : rd (pre ++ c :: post) (zlen pre) = Ok c.
Proof.
  unfold rd. rewrite (proj2 (Z.leb_le _ _)), Nat2Z.id, lookup_app_r, Nat.sub_diag by lia. done.
Qed.

(** ** The checksum polynomial over GF(2) *)
Definition gen_mix (b : Z) : Z :=
  foldr (fun '(j, g) acc => Z.lxor (if Z.testbit b j then g else 0) acc) 0
    (combine [0; 1; 2; 3; 4] k_bech32_gen).

Definition pm_step (chk v : Z) : Z :=
  Z.lxor (Z.lxor (Z.shiftl (Z.land chk 0x1FFFFFF) 5) v) (gen_mix (Z.shiftr chk 25)).

Definition polymod (values : list Z) : Z := foldl pm_step 1 values.

Definition hrp_expand (hrp : list Z) : list Z :=
  map (fun c => Z.shiftr c 5) hrp ++ [0] ++ map (fun c => Z.land c 31) hrp.

Lemma land_1_testbit b j : 0 <= j -> negb (Z.land (Z.shiftr b j) 1 =? 0) = Z.testbit b j.
Proof.
  intros Hj. change 1 with (Z.ones 1). rewrite Z.land_ones, Z.shiftr_div_pow2 by lia.
  change (2 ^ 1) with 2. rewrite <- Z.bit0_mod, Z.div_pow2_bits, Z.add_0_l by lia.
  by destruct (Z.testbit b j).
Qed.

Lemma gen_pick b j g chk :
  0 <= j -> elem k_bech32_gen j = Ok g ->
  (if negb (Z.land (Z.shiftr b j) 1 =? 0)
   then g ← elem k_bech32_gen j; Ok (Z.lxor chk g) else Ok chk) =
  Ok (Z.lxor chk (if Z.testbit b j then g else 0)).
Proof.
  intros Hj Hg. rewrite land_1_testbit, Hg by done. destruct (Z.testbit b j); [done|].
  by rewrite Z.lxor_0_r.
Qed.

Lemma gen_loop b chk :
  for_range 5 0 (fun j chk =>
      if negb (Z.land (Z.shiftr b j) 1 =? 0)
      then g ← elem k_bech32_gen j; Ok (Z.lxor chk g) else Ok chk) chk =
  Ok (Z.lxor chk (gen_mix b)).
Proof.
  cbn [for_range].
  rewrite (gen_pick b 0 0x3B6A57B2), run_bind_Ok by (done || lia).
  rewrite (gen_pick b (0 + 1) 0x26508E6D), run_bind_Ok by (done || lia).
  rewrite (gen_pick b (0 + 1 + 1) 0x1EA119FA), run_bind_Ok by (done || lia).
  rewrite (gen_pick b (0 + 1 + 1 + 1) 0x3D4233DD), run_bind_Ok by (done || lia).
  rewrite (gen_pick b (0 + 1 + 1 + 1 + 1) 0x2A1462B3), run_bind_Ok by (done || lia).
  f_equal. unfold gen_mix, k_bech32_gen. cbn [combine foldr]. rewrite Z.lxor_0_r, <- !Z.lxor_assoc. done.
Qed.

(** The register stays within 30 bits. *)
Lemma lxor_bound n a b : 0 < n -> 0 <= a < 2 ^ n -> 0 <= b < 2 ^ n -> 0 <= Z.lxor a b < 2 ^ n.
Proof.
  intros Hn Ha Hb. assert (Hnn : 0 <= Z.lxor a b) by (apply Z.lxor_nonneg; lia). split; [done|].
  destruct (Z.eq_dec (Z.lxor a b) 0) as [->|Hne]; [lia|]. apply Z.log2_lt_pow2; [lia|].
  pose proof (Z.log2_lxor a b ltac:(lia) ltac:(lia)).
  assert (Hlog : forall x, 0 <= x < 2 ^ n -> Z.log2 x < n).
  { intros x Hx. destruct (Z.eq_dec x 0) as [->|]; [simpl; lia|]. apply Z.log2_lt_pow2; lia. }
  specialize (Hlog a Ha) as Hla. specialize (Hlog b Hb). lia.
Qed.

Lemma gen_mix_bound b : 0 <= gen_mix b < 2 ^ 30.
Proof.
  unfold gen_mix, k_bech32_gen. cbn [combine foldr].
  repeat (apply lxor_bound; [lia|case_if; lia|]). lia.
Qed.

Lemma pm_step_bound chk v : 0 <= v < 2 ^ 30 -> 0 <= pm_step chk v < 2 ^ 30.
Proof.
  intros Hv. unfold pm_step. apply lxor_bound; [lia| |apply gen_mix_bound].
  apply lxor_bound; [lia| |done]. change 0x1FFFFFF with (Z.ones 25). rewrite Z.land_ones by lia.
  rewrite Z.shiftl_mul_pow2 by lia. pose proof (Z.mod_pos_bound chk (2 ^ 25)). lia.
Qed.

Definition five_bit (v : Z) : Prop := 0 <= v < 32.

Lemma polymod_loop pre vs chk :
  Forall (fun v => 0 <= v < 2 ^ 30) vs ->
  for_range (length vs) (zlen pre) (fun i chk =>
    v ← rd (pre ++ vs) i;
    let b := Z.shiftr chk 25 in
    let chk := Z.lxor (u32 (Z.shiftl (Z.land chk 0x1FFFFFF) 5)) v in
    for_range 5 0 (fun j chk =>
      if negb (Z.land (Z.shiftr b j) 1 =? 0)
      then g ← elem k_bech32_gen j; Ok (Z.lxor chk g)
      else Ok chk) chk) chk = Ok (foldl pm_step chk vs).
Proof.
  intros Hvs. revert pre chk; induction Hvs as [|v vs Hv Hvs IH]; intros pre chk; [done|].
  cbn [length]. rewrite for_range_S.
  rewrite rd_at, run_bind_Ok. cbv zeta. rewrite gen_loop, run_bind_Ok.
  assert (u32 (Z.shiftl (Z.land chk 33554431) 5) = Z.shiftl (Z.land chk 33554431) 5) as ->.
  { apply u32_small. change 33554431 with (Z.ones 25). rewrite Z.land_ones, Z.shiftl_mul_pow2 by lia.
    pose proof (Z.mod_pos_bound chk (2 ^ 25)). unfold_ranges. lia. }
  fold (pm_step chk v). cbn [foldl].
  replace (zlen pre + 1) with (zlen (pre ++ [v])) by (rewrite length_app; simpl; lia).
  rewrite <- (IH (pre ++ [v])), <- app_assoc. done.
Qed.

Lemma polymod_spec values :
  Forall (fun v => 0 <= v < 2 ^ 30) values ->
  r_bech32_polymod values (zlen values) = Ok (polymod values).
Proof.
  intros Hv. unfold r_bech32_polymod. rewrite Nat2Z.id. apply (polymod_loop [] values 1 Hv).
Qed.

(** *** Linearity and error detection *)
Lemma lxor_swap a b c d : Z.lxor (Z.lxor a b) (Z.lxor c d) = Z.lxor (Z.lxor a c) (Z.lxor b d).
Proof.
  apply Z.bits_inj'. intros n _. rewrite !Z.lxor_spec.
  by destruct (Z.testbit a n), (Z.testbit b n), (Z.testbit c n), (Z.testbit d n).
Qed.

Lemma gen_mix_lxor a b : gen_mix (Z.lxor a b) = Z.lxor (gen_mix a) (gen_mix b).
Proof.
  unfold gen_mix. induction (combine [0; 1; 2; 3; 4] k_bech32_gen) as [|[j g] l IH]; [done|].
  cbn [foldr]. rewrite IH, lxor_swap, Z.lxor_spec. f_equal.
  destruct (Z.testbit a j), (Z.testbit b j); simpl; rewrite ?Z.lxor_nilpotent, ?Z.lxor_0_r; done.
Qed.

Lemma pm_step_lxor a b v w :
  pm_step (Z.lxor a b) (Z.lxor v w) = Z.lxor (pm_step a v) (pm_step b w).
Proof.
  unfold pm_step. rewrite Z.shiftr_lxor, gen_mix_lxor.
  assert (Z.land (Z.lxor a b) 33554431 = Z.lxor (Z.land a 33554431) (Z.land b 33554431)) as ->.
  { apply Z.bits_inj'. intros n _. rewrite Z.lxor_spec, !Z.land_spec, Z.lxor_spec.
    by destruct (Z.testbit a n), (Z.testbit b n), (Z.testbit 33554431 n). }
  rewrite Z.shiftl_lxor, (lxor_swap (Z.shiftl _ _)), (lxor_swap (Z.lxor (Z.shiftl _ _) _)). done.
Qed.

(** No nonzero register is mapped to zero: the generator's low symbols name
    the symbol that was shifted out. *)
Lemma gen_mix_low t : 0 <= t < 32 -> gen_mix t mod 32 = 0 -> t = 0.
Proof.
  intros Ht E. pose proof (all_below 32 (fun t => (t =? 0) || negb (gen_mix t mod 32 =? 0)) t
    ltac:(reflexivity) Ht) as Hf. cbv beta in Hf. rewrite E in Hf. simpl in Hf.
  rewrite orb_false_r in Hf. by apply Z.eqb_eq.
Qed.

Lemma pm_step_zero x : 0 <= x < 2 ^ 30 -> pm_step x 0 = 0 -> x = 0.
Proof.
  intros Hx E. unfold pm_step in E. rewrite Z.lxor_0_r in E. apply Z.lxor_eq in E.
  change 33554431 with (Z.ones 25) in E. rewrite Z.land_ones, Z.shiftl_mul_pow2, Z.shiftr_div_pow2 in E by lia.
  assert (Ht : 0 <= x / 2 ^ 25 < 32)
    by (split; [apply Z.div_pos; lia|apply Z.div_lt_upper_bound; lia]).
  assert (x / 2 ^ 25 = 0) as E0.
  { apply gen_mix_low; [done|]. rewrite <- E. change (2 ^ 5) with 32. apply Z.mod_mul. lia. }
  rewrite E0 in E. change (gen_mix 0) with 0 in E.
  pose proof (Z.div_mod x (2 ^ 25) ltac:(lia)). lia.
Qed.

Lemma pm_step_inj a b v :
  0 <= a < 2 ^ 30 -> 0 <= b < 2 ^ 30 -> pm_step a v = pm_step b v -> a = b.
Proof.
  intros Ha Hb E. apply Z.lxor_eq, pm_step_zero; [by apply lxor_bound|].
  rewrite <- (Z.lxor_nilpotent v) at 1. rewrite pm_step_lxor, E. apply Z.lxor_nilpotent.
Qed.

Lemma foldl_pm_inj vs a b :
  Forall (fun v => 0 <= v < 2 ^ 30) vs -> 0 <= a < 2 ^ 30 -> 0 <= b < 2 ^ 30 ->
  foldl pm_step a vs = foldl pm_step b vs -> a = b.
Proof.
  intros Hvs. revert a b; induction Hvs as [|v vs Hv Hvs IH]; intros a b Ha Hb E; [done|].
  simpl in E. apply IH in E; [|by apply pm_step_bound..]. by eapply pm_step_inj.
Qed.

Lemma polymod_bound vs c :
  Forall (fun v => 0 <= v < 2 ^ 30) vs -> 0 <= c < 2 ^ 30 -> 0 <= foldl pm_step c vs < 2 ^ 30.
Proof.
  intros Hvs. revert c; induction Hvs as [|v vs Hv Hvs IH]; intros c Hc; [done|].
  simpl. apply IH. by apply pm_step_bound.
Qed.

(** One wrong symbol. *)
Lemma polymod_substitution pre v w post :
  Forall (fun v => 0 <= v < 2 ^ 30) (pre ++ v :: w :: post) ->
  v <> w -> polymod (pre ++ v :: post) <> polymod (pre ++ w :: post).
Proof.
  intros Hall Hne E. unfold polymod in E. rewrite !foldl_app in E. simpl in E.
  apply Forall_app in Hall as [Hpre Hall]. apply Forall_cons in Hall as [Hv Hall].
  apply Forall_cons in Hall as [Hw Hpost].
  apply foldl_pm_inj in E; [|done|by apply pm_step_bound..].
  apply Hne, Z.lxor_eq. set (c := foldl pm_step 1 pre) in *.
  assert (Z.lxor (pm_step c v) (pm_step c w) = 0) as E' by (rewrite E; apply Z.lxor_nilpotent).
  rewrite <- pm_step_lxor, Z.lxor_nilpotent in E'. unfold pm_step in E'. simpl in E'.
  by rewrite Z.lxor_0_r in E'.
Qed.

(** Two neighbouring symbols swapped. *)
Lemma polymod_transposition pre v w post :
  Forall five_bit (v :: w :: pre ++ post) ->
  v <> w -> polymod (pre ++ v :: w :: post) <> polymod (pre ++ w :: v :: post).
Proof.
  intros Hall Hne E. unfold polymod in E. rewrite !foldl_app in E. simpl in E.
  apply Forall_cons in Hall as [Hv Hall]. apply Forall_cons in Hall as [Hw Hall].
  apply Forall_app in Hall as [Hpre Hpost]. unfold five_bit in *.
  assert (Hpost' : Forall (fun v => 0 <= v < 2 ^ 30) post) by (eapply Forall_impl; [done|]; simpl; lia).
  apply foldl_pm_inj in E; [|done|apply pm_step_bound; lia..].
  set (c := foldl pm_step 1 pre) in *.
  assert (Z.lxor (pm_step (pm_step c v) w) (pm_step (pm_step c w) v) = 0) as E'
    by (rewrite E; apply Z.lxor_nilpotent).
  rewrite <- pm_step_lxor, <- pm_step_lxor, Z.lxor_nilpotent, (Z.lxor_comm w v) in E'.
  assert (Hd : 0 <= Z.lxor v w < 2 ^ 5) by (apply lxor_bound; lia).
  set (d := Z.lxor v w) in *. assert (d <> 0) by (intros Hd0; apply Hne, Z.lxor_eq, Hd0).
  assert (pm_step 0 d = d) as Es by (unfold pm_step; simpl; by rewrite Z.lxor_0_r).
  rewrite Es in E'. unfold pm_step in E'.
  assert (Z.shiftr d 25 = 0) as E2 by (rewrite Z.shiftr_div_pow2 by lia; apply Z.div_small; lia).
  rewrite E2 in E'. change (gen_mix 0) with 0 in E'. rewrite Z.lxor_0_r in E'. apply Z.lxor_eq in E'.
  change 33554431 with (Z.ones 25) in E'. rewrite Z.land_ones, Z.mod_small, Z.shiftl_mul_pow2 in E' by lia.
  lia.
Qed.

(** ** Regrouping 5-bit symbols into bytes

    The symbols are the base-32 digits of one number; the bytes are its base-256
    digits, without the trailing padding, which must be shorter than a symbol
    and zero. *)
Definition be32 (vs : list Z) : Z := foldl (fun n v => n * 32 + v) 0 vs.

Fixpoint be_bytes (n : nat) (x : Z) : list Z :=
  match n with O => [] | S n' => be_bytes n' (x / 256) ++ [x mod 256] end.

Definition pad_bits (k : Z) : Z := (5 * k) mod 8.

Definition regroup (vs : list Z) : option (list Z) :=
  let r := pad_bits (zlen vs) in
  if (5 <=? r) || negb (be32 vs mod 2 ^ r =? 0) then None
  else Some (be_bytes (Z.to_nat (5 * zlen vs / 8)) (be32 vs / 2 ^ r)).

Lemma be_bytes_length n x : length (be_bytes n x) = n.
Proof. revert x; induction n as [|n IH]; intros x; simpl; [done|]. rewrite length_app, IH. simpl. lia. Qed.

Lemma be_bytes_bytes n x : is_bytes (be_bytes n x).
Proof.
  revert x; induction n as [|n IH]; intros x; simpl; [constructor|].
  apply Forall_app. split; [apply IH|]. constructor; [|constructor].
  pose proof (Z.mod_pos_bound x 256). rlia.
Qed.

Lemma be32_app vs v : be32 (vs ++ [v]) = be32 vs * 32 + v.
Proof. unfold be32. by rewrite foldl_app. Qed.

Lemma be32_nonneg vs : Forall five_bit vs -> 0 <= be32 vs.
Proof.
  intros Hv. induction vs as [|v vs IH] using rev_ind; [done|]. apply Forall_app in Hv as [Hv Hv'].
  apply Forall_cons in Hv' as [Hv' _]. rewrite be32_app. specialize (IH Hv). unfold five_bit in *. lia.
Qed.

(** The loop state after the symbols [pre]. *)
Definition converted (pre : list Z) (o : list Z) : Z * Z * list Z * Z :=
  let k := zlen pre in
  (be32 pre mod 4096, pad_bits k,
   be_bytes (Z.to_nat (5 * k / 8)) (be32 pre / 2 ^ pad_bits k) ++ drop (Z.to_nat (5 * k / 8)) o,
   5 * k / 8).

Lemma acc_step acc v :
  0 <= acc < 4096 -> five_bit v ->
  Z.land (Z.lor (u32 (Z.shiftl acc 5)) v) 0x0FFF = (acc * 32 + v) mod 4096.
Proof.
  intros Ha Hv. unfold five_bit in Hv. rewrite u32_small by (rewrite Z.shiftl_mul_pow2 by lia; rlia).
  change 4095 with (Z.ones 12). rewrite Z.land_ones by lia. rewrite Z.lor_comm, lor_shiftl_add by lia.
  change (2 ^ 12) with 4096. f_equal. lia.
Qed.

Lemma out_byte a n :
  0 <= n <= 4 -> u8 (Z.land (Z.shiftr (a mod 4096) n) 0xFF) = (a / 2 ^ n) mod 256.
Proof.
  intros Hn. change 0xFF with (Z.ones 8). rewrite Z.land_ones, Z.shiftr_div_pow2 by lia.
  change (2 ^ 8) with 256. rewrite u8_small.
  2:{ pose proof (Z.mod_pos_bound (a mod 4096 / 2 ^ n) 256). rlia. }
  assert (n = 0 \/ n = 1 \/ n = 2 \/ n = 3 \/ n = 4) as Hc by lia.
  destruct Hc as [->|[->|[->|[->| ->]]]]; cbn [Z.pow Z.pow_pos Pos.iter Z.mul Pos.mul];
    Z.div_mod_to_equations; lia.
Qed.

Lemma convert_step_ok pre v post o cap :
  Forall five_bit (pre ++ [v]) -> 5 * (zlen pre + 1) / 8 <= cap -> cap <= zlen o ->
  convert_step (pre ++ v :: post) cap (zlen pre) (converted pre o) =
  Ok (Next (converted (pre ++ [v]) o)).
Proof.
  intros Hall Hcap Hlen. pose proof (be32_nonneg _ Hall) as Hnn.
  apply Forall_app in Hall as [Hpre Hv]. apply Forall_cons in Hv as [Hv _].
  pose proof (be32_nonneg _ Hpre) as Hnn0.
  unfold converted. unfold convert_step.
  rewrite rd_at, run_bind_Ok.
  assert (Z.shiftr v 5 = 0) as ->.
  { rewrite Z.shiftr_div_pow2 by lia. apply Z.div_small. exact Hv. }
  cbn [negb Z.eqb]. rewrite acc_step by (done || apply Z.mod_pos_bound; lia).
  set (k := zlen pre) in *. rewrite be32_app in *. set (V := be32 pre) in *.
  assert (Eacc : (V mod 4096 * 32 + v) mod 4096 = (V * 32 + v) mod 4096)
    by (rewrite <- Z.add_mod_idemp_l, Z.mul_mod_idemp_l, Z.add_mod_idemp_l by lia; done).
  rewrite Eacc. rewrite length_app. cbn [length].
  replace (Z.of_nat (length pre + 1)) with (k + 1) by lia.
  unfold pad_bits. set (bits := (5 * k) mod 8). set (pos := 5 * k / 8).
  assert (Hb : 0 <= bits < 8) by (apply Z.mod_pos_bound; lia).
  assert (Ek : 5 * k = 8 * pos + bits) by (unfold pos, bits; apply Z.div_mod; lia).
  assert (0 <= pos) by (apply Z.div_pos; lia).
  assert (Hdiv : forall c, 0 <= c -> (V * 32 + v) / 2 ^ (c + 5) = V / 2 ^ c).
  { intros c Hc. rewrite Z.pow_add_r, (Z.mul_comm (2 ^ c)), <- Z.div_div by lia. f_equal.
    change (2 ^ 5) with 32. unfold five_bit in Hv. Z.div_mod_to_equations. lia. }
  destruct (Z.le_gt_cases 8 (bits + 5)) as [Hge|Hlt].
  - assert ((5 * (k + 1)) mod 8 = bits - 3 /\ 5 * (k + 1) / 8 = pos + 1) as [-> Epos].
    { assert (5 * (k + 1) = 8 * (pos + 1) + (bits - 3)) as -> by lia.
      split; [rewrite (Z.mul_comm 8), Z.add_comm, Z.mod_add, Z.mod_small by lia; lia|].
      rewrite (Z.mul_comm 8), Z.div_add_l, Z.div_small by lia. lia. }
    rewrite Epos in *.
    destruct (Z.to_nat (bits + 5)) as [|fuel] eqn:Ef; [lia|]. cbn [drain_bits].
    rewrite (proj2 (Z.leb_le 8 (bits + 5))), (proj2 (Z.leb_gt cap pos)) by lia.
    replace (bits + 5 - 8) with (bits - 3) by lia. rewrite out_byte by lia.
    destruct (drop (Z.to_nat pos) o) as [|x rest] eqn:Ed.
    { apply (f_equal length) in Ed. rewrite length_drop in Ed. simpl in Ed. lia. }
    rewrite (wr_app (be_bytes (Z.to_nat pos) (V / 2 ^ bits)) [x] rest)
      by (rewrite ?be_bytes_length; simpl; lia || done).
    rewrite run_bind_Ok. assert (Hdr : drain_bits fuel ((V * 32 + v) mod 4096) (bits - 3) cap
      (be_bytes (Z.to_nat pos) (V / 2 ^ bits) ++ [((V * 32 + v) / 2 ^ (bits - 3)) mod 256] ++ rest)
      (pos + 1) = Ok (Next (bits - 3, be_bytes (Z.to_nat pos) (V / 2 ^ bits) ++
         [((V * 32 + v) / 2 ^ (bits - 3)) mod 256] ++ rest, pos + 1))).
    { destruct fuel; cbn [drain_bits]; by rewrite (proj2 (Z.leb_gt 8 (bits - 3))) by lia. }
    rewrite Hdr, run_bind_Ok.
    enough (be_bytes (Z.to_nat (pos + 1)) ((V * 32 + v) / 2 ^ (bits - 3)) ++ drop (Z.to_nat (pos + 1)) o =
            be_bytes (Z.to_nat pos) (V / 2 ^ bits) ++
              [((V * 32 + v) / 2 ^ (bits - 3)) mod 256] ++ rest) as -> by done.
    assert (drop (Z.to_nat (pos + 1)) o = rest) as ->.
    { replace (Z.to_nat (pos + 1)) with (Z.to_nat pos + 1)%nat by lia.
      by rewrite <- drop_drop, Ed. }
    replace (Z.to_nat (pos + 1)) with (S (Z.to_nat pos)) by lia. cbn [be_bytes].
    rewrite <- app_assoc. f_equal. f_equal.
    rewrite Z.div_div, <- (Hdiv bits) by lia. change 256 with (2 ^ 8).
    rewrite <- Z.pow_add_r by lia. do 2 f_equal. lia.
  - assert ((5 * (k + 1)) mod 8 = bits + 5 /\ 5 * (k + 1) / 8 = pos) as [-> Epos].
    { assert (5 * (k + 1) = 8 * pos + (bits + 5)) as -> by lia.
      split; [rewrite (Z.mul_comm 8), Z.add_comm, Z.mod_add, Z.mod_small by lia; lia|].
      rewrite (Z.mul_comm 8), Z.div_add_l, Z.div_small by lia. lia. }
    rewrite Epos in *. rewrite Hdiv by lia.
    assert (Hdr : forall fuel o', drain_bits fuel ((V * 32 + v) mod 4096) (bits + 5) cap o' pos =
              Ok (Next (bits + 5, o', pos))).
    { intros fuel o'. destruct fuel; cbn [drain_bits]; by rewrite (proj2 (Z.leb_gt 8 (bits + 5))) by lia. }
    rewrite Hdr, run_bind_Ok. done.
Qed.

Lemma convert_loop pre vs post o cap :
  Forall five_bit (pre ++ vs) -> 5 * zlen (pre ++ vs) / 8 <= cap -> cap <= zlen o ->
  for_flow (length vs) (zlen pre) (convert_step (pre ++ vs ++ post) cap) (converted pre o) =
  Ok (Next (converted (pre ++ vs) o)).
Proof.
  revert pre; induction vs as [|v vs IH]; intros pre Hall Hcap Hlen; [by rewrite app_nil_r|].
  cbn [length]. rewrite for_flow_S.
  assert (Hpre : Forall five_bit (pre ++ [v])).
  { apply Forall_app in Hall as [? Hall]. apply Forall_cons in Hall as [? _].
    apply Forall_app. split; [done|]. by constructor. }
  change ((v :: vs) ++ post) with (v :: vs ++ post).
  rewrite convert_step_ok, run_bind_Ok; [|done| |done].
  - replace (zlen pre + 1) with (zlen (pre ++ [v])) by (rewrite length_app; simpl; lia).
    replace (pre ++ v :: vs ++ post) with ((pre ++ [v]) ++ vs ++ post) by (by rewrite <- app_assoc).
    replace (pre ++ v :: vs) with ((pre ++ [v]) ++ vs) in * by (by rewrite <- app_assoc).
    by apply IH.
  - etransitivity; [|exact Hcap]. apply Z.div_le_mono; [lia|]. rewrite length_app. simpl. lia.
Qed.

Lemma tail_zero V b :
  0 <= b < 5 -> negb (Z.land (u32 (Z.shiftl (V mod 4096) (8 - b))) 0xFF =? 0) = negb (V mod 2 ^ b =? 0).
Proof.
  intros Hb. f_equal. change 0xFF with (Z.ones 8). rewrite Z.land_ones by lia.
  pose proof (Z.mod_pos_bound V 4096 ltac:(lia)).
  assert (b = 0 \/ b = 1 \/ b = 2 \/ b = 3 \/ b = 4) as Hc by lia.
  assert (Hs : u32 (Z.shiftl (V mod 4096) (8 - b)) = V mod 4096 * 2 ^ (8 - b)).
  { rewrite Z.shiftl_mul_pow2 by lia. apply u32_small.
    destruct Hc as [->|[->|[->|[->| ->]]]]; cbn [Z.sub Z.add Z.opp Z.pos_sub Pos.pred_double Z.pow
      Z.pow_pos Pos.iter Z.mul Pos.mul]; rlia. }
  rewrite Hs. apply eq_true_iff_eq. rewrite !Z.eqb_eq.
  destruct Hc as [->|[->|[->|[->| ->]]]];
    cbn [Z.sub Z.add Z.opp Z.pos_sub Pos.pred_double Z.pow Z.pow_pos Pos.iter Z.mul Pos.mul];
    Z.div_mod_to_equations; lia.
Qed.

Lemma convert_spec vs post o cap n0 :
  Forall five_bit vs -> 5 * zlen vs / 8 <= cap -> cap <= zlen o ->
  match regroup vs with
  | Some bytes =>
      r_convert_bits_5_to_8_no_pad (Some (vs ++ post)) (zlen vs) (Some o) cap (Some n0) =
      Ok (0, Some (bytes ++ drop (length bytes) o), Some (zlen bytes))
  | None => exists o',
      r_convert_bits_5_to_8_no_pad (Some (vs ++ post)) (zlen vs) (Some o) cap (Some n0) =
      Ok (-1, Some o', Some n0)
  end.
Proof.
  intros Hv Hcap Hlen. unfold r_convert_bits_5_to_8_no_pad, regroup. rewrite Nat2Z.id.
  pose proof (convert_loop [] vs post o cap Hv Hcap Hlen) as Hl. cbn [app] in Hl.
  change (zlen []) with 0 in Hl. change (converted [] o) with (0, 0, o, 0) in Hl.
  rewrite Hl, run_bind_Ok. unfold converted. cbv zeta beta iota.
  assert (Hb : 0 <= pad_bits (zlen vs) < 8) by (apply Z.mod_pos_bound; lia).
  destruct (Z.leb_spec 5 (pad_bits (zlen vs))) as [H5|H5]; [cbn [orb]; eauto|].
  rewrite tail_zero by lia. cbn [orb]. destruct (negb (be32 vs mod 2 ^ pad_bits (zlen vs) =? 0)); [eauto|].
  rewrite be_bytes_length. rewrite Z2Nat.id by (apply Z.div_pos; lia). done.
Qed.

(** ** The reference decoder *)
Definition printable (c : Z) : bool := (33 <=? c) && (c <=? 126).
Definition char_value (c : Z) : option Z := switch c bech32_cases.

(** The text before and after the last [sep]. *)
Fixpoint split_last (sep : Z) (l : list Z) : option (list Z * list Z) :=
  match l with
  | [] => None
  | x :: l' => match split_last sep l' with
               | Some (a, b) => Some (x :: a, b)
               | None => if x =? sep then Some ([], l') else None
               end
  end.

Fixpoint values_of (cs : list Z) : option (list Z) :=
  match cs with
  | [] => Some []
  | c :: cs' => v ← char_value c; vs ← values_of cs'; Some (v :: vs)
  end.

(** Human-readable part and payload of a Bech32 text. *)
Definition bech32_decode (text : list Z) : option (list Z * list Z) :=
  if bool_decide (text = []) || negb (forallb printable text)
     || (existsb islower text && existsb isupper text) then None else
  '(hrp, data) ← split_last (chr "1") (map tolower text);
  if bool_decide (hrp = []) || (zlen data <? 6) then None else
  vs ← values_of data;
  if negb (polymod (hrp_expand hrp ++ vs) =? 1) then None else
  payload ← regroup (take (length vs - 6) vs);
  Some (hrp, payload).

Definition quota_field (word sh w : Z) : Z := (word / 2 ^ sh) mod 2 ^ w.

Definition quotas_of (word : Z) : option r_bech32_quotas :=
  let rate := quota_field word 0 5 in
  let latency := quota_field word 5 5 in
  let labels := quota_field word 10 5 in
  let buffer := quota_field word 15 4 in
  let dedup := quota_field word 19 8 in
  let window := quota_field word 27 5 in
  if (24 <? rate) || (24 <? latency) || (dedup <? 1) || (200 <? dedup) then None
  else Some (mk_quotas 1 (2 ^ rate) (2 ^ latency) (2 ^ labels) (2 ^ buffer) (dedup * 10)
               (if window =? 31 then UINT32_MAX else 2 ^ window)).

Record api_key := mk_api_key {
  ak_type : Z;
  ak_key_id : Z;
  ak_secret : list Z;
  ak_quotas : r_bech32_quotas;
}.

(** What the decoded payload holds for a prefix. *)
Definition payload_key (hrp payload : list Z) : option api_key :=
  type ← (if bool_decide (hrp = cbytes "rl-cookie") then Some R_AUTH_COOKIE
          else if bool_decide (hrp = cbytes "rl-aes") then Some R_AUTH_AES_GCM else None);
  if negb (zlen payload =? 45) || negb (bool_decide (payload !! 0%nat = Some 1)) then None else
  q ← quotas_of (unle (take 4 (drop 41 payload)));
  Some (mk_api_key type (unle (take 8 (drop 1 payload))) (take 32 (drop 9 payload)) q).

Definition key_decode (text : list Z) : option api_key :=
  '(hrp, payload) ← bech32_decode text; payload_key hrp payload.

(** ** The pieces of the decoder *)
Lemma land_field word sh w m :
  0 <= sh -> 0 <= w -> m = Z.ones w -> Z.land (Z.shiftr word sh) m = quota_field word sh w.
Proof. intros Hs Hw ->. unfold quota_field. by rewrite Z.land_ones, Z.shiftr_div_pow2 by done. Qed.

Lemma quota_field_range word sh w : 0 <= w -> 0 <= quota_field word sh w < 2 ^ w.
Proof. intros Hw. apply Z.mod_pos_bound, Z.pow_pos_nonneg; lia. Qed.

Lemma shl_one e : 0 <= e < 32 -> u32 (Z.shiftl 1 e) = 2 ^ e.
Proof.
  intros He. rewrite Z.shiftl_1_l. apply u32_small. split; [apply Z.pow_nonneg; lia|].
  apply Z.pow_lt_mono_r; lia.
Qed.

Lemma quota_word_spec word o :
  r_decode_quota_word word (Some o) =
  match quotas_of word with Some q => (0, Some q) | None => (-1, Some o) end.
Proof.
  unfold r_decode_quota_word, quotas_of.
  assert (Z.land word 31 = quota_field word 0 5) as ->
    by (rewrite <- (land_field word 0 5 31) by (done || lia); by rewrite Z.shiftr_0_r).
  rewrite (land_field word 5 5), (land_field word 10 5), (land_field word 15 4),
    (land_field word 19 8), (land_field word 27 5) by (done || lia).
  pose proof (quota_field_range word 0 5 ltac:(lia)). pose proof (quota_field_range word 5 5 ltac:(lia)).
  pose proof (quota_field_range word 10 5 ltac:(lia)). pose proof (quota_field_range word 15 4 ltac:(lia)).
  pose proof (quota_field_range word 19 8 ltac:(lia)). pose proof (quota_field_range word 27 5 ltac:(lia)).
  cbn [is_null orb]. destruct (_ || _); [done|]. rewrite !shl_one by lia.
  rewrite u32_small by rlia. done.
Qed.

(** Quotas are powers of two within 32 bits and a TTL of 10 to 2000 ms. *)
Lemma quotas_range word q :
  quotas_of word = Some q ->
  1 <= bq_rate_buckets_max q <= 2 ^ 24 /\ 1 <= bq_latency_services_max q <= 2 ^ 24 /\
  1 <= bq_metrics_labels_max q <= 2 ^ 31 /\ 1 <= bq_latency_buffer_size_max q <= 2 ^ 15 /\
  10 <= bq_dedup_ttl_ms_max q <= 2000 /\ 1 <= bq_rate_window_size_ms_max q <= UINT32_MAX.
Proof.
  unfold quotas_of.
  pose proof (quota_field_range word 0 5 ltac:(lia)). pose proof (quota_field_range word 5 5 ltac:(lia)).
  pose proof (quota_field_range word 10 5 ltac:(lia)). pose proof (quota_field_range word 15 4 ltac:(lia)).
  pose proof (quota_field_range word 19 8 ltac:(lia)). pose proof (quota_field_range word 27 5 ltac:(lia)).
  case_if; [done|]. intros [= <-].
  cbn [bq_rate_buckets_max bq_latency_services_max bq_metrics_labels_max bq_latency_buffer_size_max
       bq_dedup_ttl_ms_max bq_rate_window_size_ms_max].
  rewrite !orb_false_iff in E. breflect.
  assert (Hp : forall e n, 0 <= e <= n -> 1 <= 2 ^ e <= 2 ^ n).
  { intros e n He. split; [|apply Z.pow_le_mono_r; lia]. change 1 with (2 ^ 0) at 1.
    apply Z.pow_le_mono_r; lia. }
  destruct E as [[[E1%Z.ltb_ge E2%Z.ltb_ge] E3%Z.ltb_ge] E4%Z.ltb_ge].
  do 4 (split; [apply Hp; lia|]). split; [lia|].
  case_if; [lia|]. breflect. pose proof (Hp (quota_field word 27 5) 31 ltac:(lia)). lia.
Qed.

Lemma cstring_split enc :
  0 ∈ enc -> exists text rest, enc = (text ++ 0 :: rest) /\ (0 ∉ text) /\ strlen enc = Ok (zlen text).
Proof.
  induction enc as [|c enc IH]; intros Hin; [set_solver|]. simpl.
  destruct (Z.eqb_spec c 0) as [->|Hc].
  - exists [], enc. split; [done|]. split; [set_solver|done].
  - destruct IH as (text & rest & -> & Hn & Hs); [set_solver|].
    exists (c :: text), rest. rewrite Hs. split; [done|]. split; [set_solver|].
    simpl. f_equal. lia.
Qed.

(** Range and case scan. *)
Lemma scan_loop pre t post a b :
  for_flow (length t) (zlen pre) (scan_case (pre ++ t ++ post)) (a, b) =
  Ok (if forallb printable t then Next (a || existsb islower t, b || existsb isupper t)
      else Return tt).
Proof.
  revert pre a b; induction t as [|c t IH]; intros pre a b.
  { simpl. by rewrite !orb_false_r. }
  cbn [length app forallb existsb]. rewrite for_flow_S.
  assert (scan_case (pre ++ c :: t ++ post) (zlen pre) (a, b) =
    if (c <? 33) || (126 <? c) then Ok (Return tt) else
    Ok (Next (if islower c then true else a, if isupper c then true else b))) as ->
    by (unfold scan_case; by rewrite rd_at).
  unfold printable at 1. rewrite (Z.leb_antisym c 33), (Z.leb_antisym 126 c).
  destruct (c <? 33), (126 <? c); cbn [orb negb andb]; try done.
  rewrite run_bind_Ok.
  replace (zlen pre + 1) with (zlen (pre ++ [c])) by (rewrite length_app; simpl; lia).
  replace (pre ++ c :: t ++ post) with ((pre ++ [c]) ++ t ++ post) by (by rewrite <- app_assoc).
  rewrite IH. destruct (forallb printable t); [|done]. do 3 f_equal.
  - destruct (islower c); simpl; [by rewrite orb_true_r|by rewrite ?orb_false_l].
  - destruct (isupper c); simpl; [by rewrite orb_true_r|by rewrite ?orb_false_l].
Qed.

(** A loop that stores [f] of each source byte. *)
Lemma map_loop (f : Z -> Z) pre t post s :
  zlen pre + zlen t <= zlen s ->
  for_range (length t) (zlen pre) (fun i s => c ← rd (pre ++ t ++ post) i; wr s i [f c]) s =
  wr s (zlen pre) (map f t).
Proof.
  revert pre s; induction t as [|c t IH]; intros pre s Hl.
  { simpl. rewrite wr_nil by (simpl in Hl; lia). done. }
  cbn [length app map] in *. rewrite for_range_S, rd_at, run_bind_Ok.
  replace (zlen pre + 1) with (zlen (pre ++ [c])) by (rewrite length_app; simpl; lia).
  replace (pre ++ c :: t ++ post) with ((pre ++ [c]) ++ t ++ post) by (by rewrite <- app_assoc).
  destruct (wr_defined s (zlen pre) [f c]) as [s1 H1]; [lia|simpl; lia|].
  rewrite H1, run_bind_Ok. pose proof (wr_Ok _ _ _ _ H1) as (_ & _ & Hs1).
  rewrite IH by (rewrite length_app; simpl; lia).
  rewrite (wr_wr_at s s1 (zlen pre) _ [f c]) by (done || rewrite length_app; simpl; lia). done.
Qed.

Lemma strrchr_spec sep l post i :
  0 ∉ l -> sep <> 0 ->
  strrchr (l ++ 0 :: post) sep i =
  match split_last sep l with Some (a, _) => Some (i + zlen a) | None => None end.
Proof.
  intros Hn Hs. revert i; induction l as [|x l IH]; intros i; simpl; [done|].
  rewrite (proj2 (Z.eqb_neq x 0)) by set_solver. rewrite IH by set_solver.
  destruct (split_last sep l) as [[a b]|]; [f_equal; simpl; lia|].
  destruct (x =? sep); [|done]. f_equal. simpl. lia.
Qed.

Lemma split_last_eq sep l a b : split_last sep l = Some (a, b) -> l = a ++ sep :: b.
Proof.
  revert a b; induction l as [|x l IH]; intros a b; simpl; [done|].
  destruct (split_last sep l) as [[a' b']|].
  - intros [= <- <-]. by rewrite (IH a' b' eq_refl).
  - destruct (Z.eqb_spec x sep) as [->|]; [|done]. by intros [= <- <-].
Qed.

Lemma switch_range c v : char_value c = Some v -> five_bit v.
Proof.
  unfold char_value. intros H. assert (Hall : Forall (fun '(_, v) => five_bit v) bech32_cases).
  { unfold bech32_cases, five_bit. repeat constructor; lia. }
  revert H. induction Hall as [|[k w] l Hw _ IH]; simpl; [done|].
  case_if; [by intros [= <-]|done].
Qed.

(** Data characters. *)
Lemma char_step hrp pre c d vpre x rest :
  zlen vpre = zlen pre ->
  decode_chars (hrp ++ 0 :: pre ++ c :: d) (zlen hrp) (zlen pre) (vpre ++ x :: rest) =
  Ok (match char_value c with Some v => Next (vpre ++ v :: rest) | None => Return tt end).
Proof.
  intros Hp. unfold decode_chars.
  replace (hrp ++ 0 :: pre ++ c :: d) with ((hrp ++ 0 :: pre) ++ c :: d) by (by rewrite <- app_assoc).
  replace (zlen hrp + 1 + zlen pre) with (zlen (hrp ++ 0 :: pre)) by (rewrite length_app; simpl; lia).
  rewrite rd_at, run_bind_Ok. unfold r_bech32_char_value, char_value.
  destruct (switch c bech32_cases) as [v|]; [|done]. cbn [Z.eqb negb]. unfold deref, of_option.
  rewrite run_bind_Ok, (wr_app vpre [x] rest [v]) by done. done.
Qed.

Lemma chars_loop hrp pre d post vpre rest :
  zlen vpre = zlen pre -> zlen rest = zlen d ->
  for_flow (length d) (zlen pre) (decode_chars (hrp ++ 0 :: pre ++ d ++ post) (zlen hrp)) (vpre ++ rest) =
  Ok (match values_of d with Some vs => Next (vpre ++ vs) | None => Return tt end).
Proof.
  revert pre vpre rest; induction d as [|c d IH]; intros pre vpre rest Hp Hr.
  { destruct rest; [done|simpl in Hr; lia]. }
  destruct rest as [|x rest]; [simpl in Hr; lia|].
  cbn [length app]. rewrite for_flow_S, char_step by done.
  cbn [values_of]. destruct (char_value c) as [v|]; [|done]. rewrite run_bind_Ok.
  replace (zlen pre + 1) with (zlen (pre ++ [c])) by (rewrite length_app; simpl; lia).
  replace (hrp ++ 0 :: pre ++ c :: d ++ post) with (hrp ++ 0 :: (pre ++ [c]) ++ d ++ post)
    by (by rewrite <- app_assoc).
  replace (vpre ++ v :: rest) with ((vpre ++ [v]) ++ rest) by (by rewrite <- app_assoc).
  rewrite IH by (rewrite ?length_app; simpl in *; lia).
  simpl. destruct (values_of d); simpl; [|done]. by rewrite <- app_assoc.
Qed.

Lemma values_of_facts d vs : values_of d = Some vs -> length vs = length d /\ Forall five_bit vs.
Proof.
  revert vs; induction d as [|c d IH]; intros vs; simpl; [by intros [= <-]|].
  destruct (char_value c) as [v|] eqn:Ec; [|done]. simpl.
  destruct (values_of d) as [vs'|]; [|done]. intros [= <-].
  destruct (IH vs' eq_refl) as [Hl Hf]. simpl. split; [lia|]. constructor; [|done].
  by eapply switch_range.
Qed.

(** ** The checksum *)
Lemma expand_loop (f : Z -> Z) pre t post buf pos :
  0 <= pos -> pos + zlen t <= zlen buf ->
  for_range (length t) (zlen pre) (fun i '(values, pos) =>
    c ← rd (pre ++ t ++ post) i; values ← wr values pos [f c]; Ok (values, pos + 1)) (buf, pos) =
  (buf' ← wr buf pos (map f t); Ok (buf', pos + zlen t)).
Proof.
  revert pre buf pos; induction t as [|c t IH]; intros pre buf pos Hp Hl.
  { simpl. rewrite wr_nil by (simpl in Hl; lia). simpl. by rewrite Z.add_0_r. }
  cbn [length app map] in *. rewrite for_range_S, rd_at, run_bind_Ok.
  replace (zlen pre + 1) with (zlen (pre ++ [c])) by (rewrite length_app; simpl; lia).
  replace (pre ++ c :: t ++ post) with ((pre ++ [c]) ++ t ++ post) by (by rewrite <- app_assoc).
  destruct (wr_defined buf pos [f c]) as [b1 H1]; [lia|simpl; lia|].
  rewrite H1, !run_bind_Ok. pose proof (wr_Ok _ _ _ _ H1) as (_ & _ & Hb1).
  rewrite IH by lia. rewrite (wr_wr_at buf b1 pos _ [f c]) by (done || simpl; lia).
  cbn [app]. by replace (pos + 1 + zlen t) with (pos + Z.of_nat (S (length t))) by lia.
Qed.

Lemma strlen_text text rest : 0 ∉ text -> strlen (text ++ 0 :: rest) = Ok (zlen text).
Proof.
  induction text as [|c text IH]; intros Hn; [done|]. simpl.
  rewrite (proj2 (Z.eqb_neq c 0)) by set_solver. rewrite IH by set_solver. simpl. f_equal. lia.
Qed.

Definition ascii7 (c : Z) : Prop := 0 <= c < 128.

Lemma hrp_expand_length hrp : zlen (hrp_expand hrp) = zlen hrp * 2 + 1.
Proof. unfold hrp_expand. rewrite !length_app, !length_map. simpl. lia. Qed.

Lemma hrp_expand_small hrp :
  Forall ascii7 hrp ->
  map (fun c => u8 (Z.shiftr c 5)) hrp = map (fun c => Z.shiftr c 5) hrp /\
  map (fun c => u8 (Z.land c 31)) hrp = map (fun c => Z.land c 31) hrp /\
  Forall five_bit (hrp_expand hrp).
Proof.
  intros Hh. assert (Hs : Forall (fun c => five_bit (Z.shiftr c 5) /\ five_bit (Z.land c 31)) hrp).
  { eapply Forall_impl; [exact Hh|]. intros c Hc. unfold ascii7, five_bit in *.
    change 31 with (Z.ones 5). rewrite Z.land_ones, Z.shiftr_div_pow2 by lia.
    split; [|apply Z.mod_pos_bound; lia].
    split; [apply Z.div_pos; lia|apply Z.div_lt_upper_bound; lia]. }
  unfold five_bit in *.
  split; [|split]; [induction Hs as [|c l [? ?] _ IH]; [done|]; inversion Hh; subst;
    simpl; rewrite IH, u8_small by (done || rlia); done..|].
  unfold hrp_expand. apply Forall_app. split; [|constructor; [lia|]];
    apply Forall_map; (eapply Forall_impl; [exact Hs|]; intros c [? ?]; unfold compose; done).
Qed.

Lemma checksum_spec (mem : allocs) hrp rest vs :
  0 ∉ hrp -> Forall ascii7 hrp -> Forall five_bit vs -> zlen hrp <= 2 ^ 60 -> zlen vs <= 2 ^ 60 ->
  r_bech32_verify_checksum mem (Some (hrp ++ 0 :: rest)) (Some vs) (zlen vs) =
  Ok (if mem 0%nat && (polymod (hrp_expand hrp ++ vs) =? 1) then 1 else 0).
Proof.
  intros Hn Hh Hv Hl1 Hl2. unfold r_bech32_verify_checksum. rewrite strlen_text, run_bind_Ok by done.
  destruct (mem 0%nat); [|done]. cbn [negb andb]. unwrap.
  destruct (hrp_expand_small hrp Hh) as (E1 & E2 & H5). rewrite Nat2Z.id.
  set (buf := replicate (Z.to_nat (zlen hrp * 2 + 1 + zlen vs)) 0).
  assert (Hbuf : zlen buf = zlen hrp * 2 + 1 + zlen vs) by (unfold buf; rewrite length_replicate; lia).
  pose proof (expand_loop (fun c => u8 (Z.shiftr c 5)) [] hrp (0 :: rest) buf 0 ltac:(lia) ltac:(lia)) as L1.
  cbn [app] in L1. change (zlen []) with 0 in L1. rewrite L1, E1. clear L1.
  destruct (wr_defined buf 0 (map (fun c => Z.shiftr c 5) hrp)) as [b1 H1]; [lia|rewrite length_map; lia|].
  pose proof (wr_Ok _ _ _ _ H1) as (_ & _ & Hb1). rewrite H1, !run_bind_Ok.
  rewrite (wr_wr_at _ _ _ _ _ [0] H1) by (rewrite length_map; lia).
  destruct (wr_defined buf 0 (map (fun c => Z.shiftr c 5) hrp ++ [0])) as [b2 H2];
    [lia|rewrite length_app, length_map; simpl; lia|].
  pose proof (wr_Ok _ _ _ _ H2) as (_ & _ & Hb2). rewrite H2, !run_bind_Ok.
  pose proof (expand_loop (fun c => u8 (Z.land c 31)) [] hrp (0 :: rest) b2 (0 + zlen hrp + 1)
    ltac:(lia) ltac:(lia)) as L2.
  cbn [app] in L2. change (zlen []) with 0 in L2. rewrite L2, E2. clear L2.
  rewrite (wr_wr_at _ _ _ _ _ _ H2) by (rewrite length_app, length_map; simpl; lia).
  rewrite <- app_assoc. fold (hrp_expand hrp). pose proof (hrp_expand_length hrp) as Hx.
  destruct (wr_defined buf 0 (hrp_expand hrp)) as [b3 H3]; [lia..|].
  rewrite H3, !run_bind_Ok, rd_bytes_all, run_bind_Ok by done.
  rewrite (wr_wr_at _ _ _ _ _ _ H3) by lia.
  pose proof (wr_app [] buf [] (hrp_expand hrp ++ vs) 0 eq_refl) as Hw. cbn [app] in Hw.
  rewrite !app_nil_r in Hw. rewrite Hw, run_bind_Ok by (rewrite length_app; lia).
  replace (zlen hrp * 2 + 1 + zlen vs) with (zlen (hrp_expand hrp ++ vs)) by (rewrite length_app; lia).
  rewrite polymod_spec, run_bind_Ok; [done|].
  apply Forall_app. unfold five_bit in *. split; (eapply Forall_impl; [done|]; simpl; lia).
Qed.

(** ** The payload *)
Lemma str_eq_spec a b ra rb :
  0 ∉ a -> 0 ∉ b -> str_eq (a ++ 0 :: ra) (b ++ 0 :: rb) = Ok (bool_decide (a = b)).
Proof.
  revert b; induction a as [|x a IH]; intros [|y b] Ha Hb; cbn [app str_eq].
  - by rewrite bool_decide_true.
  - rewrite (proj2 (Z.eqb_neq 0 y)) by set_solver. by rewrite bool_decide_false.
  - rewrite (proj2 (Z.eqb_neq x 0)) by set_solver. by rewrite bool_decide_false.
  - destruct (Z.eqb_spec x y) as [->|Hne].
    + rewrite (proj2 (Z.eqb_neq y 0)) by set_solver. rewrite IH by set_solver. f_equal.
      apply bool_decide_ext. split; [by intros ->|by intros [=]].
    + rewrite bool_decide_false; [done|]. by intros [=].
Qed.

Lemma rd_bytes_take_drop p off n :
  0 <= off -> 0 <= n -> off + n <= zlen p ->
  rd_bytes p off n = Ok (take (Z.to_nat n) (drop (Z.to_nat off) p)).
Proof. intros H1 H2 H3. unfold rd_bytes. by rewrite (proj2 (in_block_spec _ _ _)) by lia. Qed.

(** No output pointer but that of the quotas is NULL. *)
Definition outs_ok (o : key_out) : Prop :=
  is_Some (ko_type o) /\ is_Some (ko_key_id o) /\ is_Some (ko_secret o) /\ is_Some (ko_secret_len o).

(** A decoder's result: the key stored, or [-1] with the quotas untouched. *)
Definition decoded (secret : list Z) (quotas : option r_bech32_quotas) (k : option api_key)
    (r : run (Z * key_out)) : Prop :=
  match k with
  | Some k => r = Ok (0, mk_key_out (Some (ak_type k)) (Some (ak_key_id k))
                           (Some (ak_secret k ++ drop 32 secret)) (Some 32) (store quotas (ak_quotas k)))
  | None => exists o, r = Ok (-1, o) /\ ko_quotas o = quotas /\ outs_ok o
  end.

Lemma decoded_fail secret quotas o :
  ko_quotas o = quotas -> outs_ok o -> decoded secret quotas None (Ok (-1, o)).
Proof. exists o. done. Qed.

Lemma payload_spec hrp rest payload junk cap t0 i0 l0 secret quotas :
  0 ∉ hrp -> is_bytes (payload ++ junk) -> 32 <= cap -> cap <= zlen secret ->
  decoded secret quotas (payload_key hrp payload)
    (decode_payload (hrp ++ 0 :: rest) (payload ++ junk) (zlen payload) cap secret
       (mk_key_out (Some t0) (Some i0) (Some secret) (Some l0) quotas)).
Proof.
  intros Hn Hb Hc Hcap. unfold decode_payload, payload_key, cstr.
  assert (H0 : forall n, 0 ∉ cbytes n -> str_eq (hrp ++ 0 :: rest) (cbytes n ++ [0]) =
    Ok (bool_decide (hrp = cbytes n))) by (intros n H0; by apply str_eq_spec).
  rewrite !H0 by (unfold cbytes; cbn; set_solver by lia). rewrite run_bind_Ok.
  set (ty := if bool_decide (hrp = cbytes "rl-cookie") then _ else _).
  set (b1 := bool_decide (hrp = cbytes "rl-cookie")) in *.
  set (b2 := bool_decide (hrp = cbytes "rl-aes")) in *.
  assert (Ety : ty = if b1 || b2 then Some (if b1 then R_AUTH_COOKIE else R_AUTH_AES_GCM) else None)
    by (unfold ty; by destruct b1, b2).
  assert ((if b1 then Ok false else Ok b2) = Ok (negb b1 && b2)) as -> by (by destruct b1).
  rewrite run_bind_Ok. rewrite Ety.
  replace (b1 || (negb b1 && b2)) with (b1 || b2) by (by destruct b1).
  destruct (b1 || b2); [|by apply decoded_fail]. cbn [negb mbind option_bind].
  unfold R_CREDENTIAL_PAYLOAD_LEN. destruct (Z.eqb_spec (zlen payload) 45) as [Hp|Hp]; [|by apply decoded_fail].
  cbn [negb orb]. destruct payload as [|v payload]; [done|]. cbn [lookup list_lookup].
  unfold R_CREDENTIAL_FORMAT_VERSION.
  assert (rd ((v :: payload) ++ junk) 0 = Ok v) as -> by done. rewrite run_bind_Ok.
  destruct (Z.eqb_spec v 1) as [->|Hv]; [|rewrite bool_decide_false by congruence; by apply decoded_fail].
  rewrite bool_decide_true by done. cbn [negb].
  set (pl := 1 :: payload) in *. rewrite (proj2 (Z.ltb_ge cap R_CREDENTIAL_SECRET_LEN)) by exact Hc.
  assert (Hrd : forall off n, 0 <= off -> 0 <= n -> off + n <= 45 ->
    rd_bytes (pl ++ junk) off n = Ok (take (Z.to_nat n) (drop (Z.to_nat off) pl))).
  { intros off n ? ? ?. rewrite rd_bytes_take_drop by (rewrite ?length_app; lia).
    rewrite drop_app_le, take_app_le; [done|rewrite length_drop; lia|lia]. }
  unfold r_read_le64_local, r_read_le32_local. rewrite r_le64_bytes, r_le32_bytes by done.
  unfold R_CREDENTIAL_KEY_ID_OFFSET, R_CREDENTIAL_SECRET_OFFSET, R_CREDENTIAL_SECRET_LEN,
    R_CREDENTIAL_QUOTA_OFFSET, R_CREDENTIAL_QUOTA_LEN.
  rewrite !Hrd, !run_bind_Ok by lia.
  assert (Hs : length (take 32 (drop 9 pl)) = 32%nat) by (rewrite length_take, length_drop; lia).
  destruct (block_split secret 0 32) as (a & m & c & -> & Ha & Hm); [lia..|].
  destruct a; [|done]. cbn [app].
  pose proof (wr_app [] m c (take 32 (drop 9 pl)) 0 eq_refl ltac:(lia)) as Hw. cbn [app] in Hw.
  change (Z.to_nat 32) with 32%nat. change (Z.to_nat 9) with 9%nat.
  rewrite Hw, run_bind_Ok. cbn [ko_type ko_key_id ko_secret ko_secret_len ko_quotas].
  rewrite (proj2 (Z.ltb_ge (zlen pl) _)) by lia. rewrite run_bind_Ok, quota_word_spec.
  change (Z.to_nat 41) with 41%nat. change (Z.to_nat 4) with 4%nat.
  change (Z.to_nat 1) with 1%nat. change (Z.to_nat 8) with 8%nat.
  destruct (quotas_of _) as [q|]; [|by apply decoded_fail]. cbn. do 4 f_equal.
  replace 32%nat with (length m) by lia. by rewrite drop_app_length.
Qed.

(** ** The whole decoder *)
Lemma printable_lower text :
  forallb printable text = true ->
  Forall ascii7 (map tolower text) /\ 0 ∉ map tolower text.
Proof.
  intros Hp. assert (Ha : Forall (fun c => 0 < c < 128) (map tolower text)).
  { apply Forall_map. induction text as [|c text IH]; [constructor|].
    simpl in Hp. apply andb_true_iff in Hp as [Hc Hp]. constructor; [|by apply IH].
    unfold printable in Hc. breflect. unfold compose, tolower, isupper. case_if; breflect; lia. }
  split; [eapply Forall_impl; [done|]; unfold ascii7; simpl; lia|].
  intros Hin. rewrite Forall_forall in Ha. specialize (Ha 0 Hin). lia.
Qed.

(** From the lower-cased copy on: the part of the decoder after the separator
    was found. *)
Lemma data_spec (mem : allocs) hrp data cap secret quotas t0 i0 l0 :
  0 ∉ hrp -> Forall ascii7 hrp -> zlen hrp + zlen data <= 2 ^ 59 -> 32 <= cap <= zlen secret ->
  6 <= zlen data ->
  let s := hrp ++ 0 :: data ++ [0] in
  let o := mk_key_out (Some t0) (Some i0) (Some secret) (Some l0) quotas in
  decoded secret quotas
    (if mem 2%nat && mem 3%nat then
       vs ← values_of data;
       if negb (polymod (hrp_expand hrp ++ vs) =? 1) then None else
       payload ← regroup (take (length vs - 6) vs); payload_key hrp payload
     else None)
    (chars ← for_flow (length data) 0 (decode_chars s (zlen hrp)) (replicate (length data) 0);
     match chars with
     | Return _ => Ok (-1, o)
     | Next data' =>
         ok ← r_bech32_verify_checksum (fun _ => mem 2%nat) (Some s) (Some data') (zlen data);
         if ok =? 0 then Ok (-1, o) else
         let payload5_len := zlen data -64 6 in
         let payload_cap := (payload5_len *64 5) / 8 +64 2 in
         if negb (mem 3%nat) then Ok (-1, o) else
         let payload := replicate (Z.to_nat payload_cap) 0 in
         r ← r_convert_bits_5_to_8_no_pad (Some data') payload5_len (Some payload) payload_cap (Some 0);
         let '(rc, payload, payload_len) := r in
         if negb (rc =? 0) then Ok (-1, o) else
         payload ← deref payload; payload_len ← deref payload_len;
         decode_payload s payload payload_len cap secret o
     end).
Proof.
  intros Hn Ha Hlen Hcap H6 s o.
  pose proof (chars_loop hrp [] data [0] [] (replicate (length data) 0) eq_refl
    ltac:(rewrite length_replicate; done)) as Hl. cbn [app] in Hl. change (zlen []) with 0 in Hl.
  subst s. rewrite Hl, run_bind_Ok. clear Hl.
  assert (Hfail : decoded secret quotas None (Ok (-1, o))) by (by apply decoded_fail).
  destruct (values_of data) as [vs|] eqn:Ev; [|by destruct (mem 2%nat), (mem 3%nat)].
  apply values_of_facts in Ev as [Hvl Hv5]. cbn [mbind option_bind app].
  replace (zlen data) with (zlen vs) by lia.
  rewrite checksum_spec, run_bind_Ok by (done || lia).
  destruct (mem 2%nat); [|done]. cbn [andb].
  destruct (polymod (hrp_expand hrp ++ vs) =? 1); [|by destruct (mem 3%nat)].
  cbn [Z.eqb negb]. cbv zeta. destruct (mem 3%nat); [|done]. cbn [negb].
  unwrap. set (k := (length vs - 6)%nat).
  assert (Hk : zlen (take k vs) = zlen vs - 6) by (rewrite length_take; lia).
  assert (Hdiv : 0 <= (zlen vs - 6) * 5 / 8 <= 2 ^ 62)
    by (split; [apply Z.div_pos; lia|apply Z.div_le_upper_bound; lia]).
  rewrite u64_small by rlia.
  set (cap' := (zlen vs - 6) * 5 / 8 + 2) in *.
  pose proof (convert_spec (take k vs) (drop k vs) (replicate (Z.to_nat cap') 0) cap' 0
    (Forall_take _ _ _ Hv5) ltac:(rewrite Hk; unfold cap'; rewrite (Z.mul_comm 5); lia)
    ltac:(rewrite length_replicate; lia)) as Hc.
  rewrite take_drop, Hk in Hc.
  destruct (regroup (take k vs)) as [payload|] eqn:Er.
  - rewrite Hc, run_bind_Ok. cbn [Z.eqb negb deref of_option mbind option_bind]. rewrite !run_bind_Ok.
    apply payload_spec; [done| |lia..]. apply Forall_app. split.
    + unfold regroup in Er. destruct (_ || _); [done|]. injection Er as <-. apply be_bytes_bytes.
    + apply Forall_drop, Forall_replicate. rlia.
  - destruct Hc as [o' Hc]. rewrite Hc, run_bind_Ok. done.
Qed.

Lemma lower_loop {B} text rest (k : list Z -> run B) :
  let s0 := replicate (Z.to_nat (zlen text + 1)) 0 in
  (s ← for_range (length text) 0 (fun i s => c ← rd (text ++ 0 :: rest) i; wr s i [tolower c]) s0;
   s ← wr s (zlen text) [0]; k s) = k (map tolower text ++ [0]).
Proof.
  intros s0. assert (Hs0 : zlen s0 = zlen text + 1) by (unfold s0; rewrite length_replicate; lia).
  pose proof (map_loop tolower [] text (0 :: rest) s0) as Hm. cbn [app] in Hm.
  change (zlen []) with 0 in Hm. rewrite Hm by lia.
  rewrite wr_fuse by (rewrite length_map; lia).
  pose proof (wr_app [] s0 [] (map tolower text ++ [0]) 0 eq_refl) as Hw. cbn [app] in Hw.
  rewrite !app_nil_r in Hw. rewrite Hw; [done|]. rewrite length_app, length_map. simpl. lia.
Qed.

(** For every NUL-terminated text the decoder stays inside its buffers; it
    returns 0 and the key exactly when the reference decoder finds one and no
    allocation failed. *)
Lemma decode_spec (mem : allocs) text rest cap secret quotas t0 i0 l0 :
  0 ∉ text -> zlen text <= 2 ^ 59 -> 32 <= cap <= zlen secret ->
  decoded secret quotas
    (if mem 0%nat && mem 1%nat && mem 2%nat && mem 3%nat then key_decode text else None)
    (r_decode_api_key_bech32_with_quotas mem (Some (text ++ 0 :: rest)) cap
       (mk_key_out (Some t0) (Some i0) (Some secret) (Some l0) quotas)).
Proof.
  intros Hn Hl Hcap. unfold r_decode_api_key_bech32_with_quotas.
  set (o := mk_key_out _ _ _ _ _). cbn [ko_type ko_key_id ko_secret ko_secret_len o].
  assert (Hfail : decoded secret quotas None (Ok (-1, o))) by (by apply decoded_fail).
  rewrite strlen_text, run_bind_Ok by done. unfold key_decode, bech32_decode.
  destruct text as [|c0 text0]; [by repeat case_match|]. set (text := c0 :: text0) in *.
  rewrite (proj2 (Z.eqb_neq (zlen text) 0)), (bool_decide_false (text = [])) by (done || simpl; lia).
  rewrite Nat2Z.id. pose proof (scan_loop [] text (0 :: rest) false false) as Hs. cbn [app] in Hs.
  change (zlen []) with 0 in Hs. rewrite Hs, run_bind_Ok. clear Hs.
  destruct (forallb printable text) eqn:Hp; [|by repeat case_match]. cbn [orb negb].
  destruct (existsb islower text && existsb isupper text); [by repeat case_match|].
  destruct (mem 0%nat); [|done]. cbn [negb andb]. unwrap.
  rewrite lower_loop. destruct (printable_lower text Hp) as [Ha Hn'].
  rewrite strrchr_spec by done. set (low := map tolower text) in *.
  assert (Hll : zlen low = zlen text) by (unfold low; by rewrite length_map).
  destruct (split_last (chr "1") low) as [[hrp data]|] eqn:Esp; [|by repeat case_match].
  apply split_last_eq in Esp. cbn [mbind option_bind]. rewrite Z.add_0_l.
  rewrite Esp in Ha, Hn', Hll |- *. rewrite length_app in Hll. cbn [length] in Hll.
  unwrap.
  destruct hrp as [|h0 hrp0]; [by repeat case_match|]. set (hrp := h0 :: hrp0) in *.
  rewrite (proj2 (Z.ltb_ge (zlen hrp) 1)), (bool_decide_false (hrp = [])) by (done || simpl; lia).
  replace (zlen text - zlen hrp - 1) with (zlen data) by lia. cbn [orb].
  destruct (zlen data <? 6) eqn:E6; [by repeat case_match|]. breflect.
  rewrite <- app_assoc. cbn [app].
  pose proof (wr_app hrp [chr "1"] (data ++ [0]) [0] (zlen hrp) eq_refl eq_refl) as Hw. cbn [app] in Hw.
  change (h0 :: hrp0 ++ chr "1" :: data ++ [0]) with (hrp ++ chr "1" :: data ++ [0]).
  rewrite Hw, run_bind_Ok. destruct (mem 1%nat); [|done]. cbn [negb andb]. rewrite !Nat2Z.id.
  apply Forall_app in Ha as [Ha _].
  pose proof (data_spec mem hrp data cap secret quotas t0 i0 l0 ltac:(set_solver) Ha ltac:(lia) Hcap E6) as Hd.
  cbv zeta in Hd. revert Hd. generalize (hrp ++ 0 :: data ++ [0]). intros s Hd.
  destruct (values_of data) as [vs|]; [|exact Hd]. cbn [mbind option_bind] in Hd |- *.
  destruct (negb _); [exact Hd|]. destruct (regroup _); exact Hd.
Qed.
