(* ===== verification/RuntimeFacts.v ===== *)
(** * The socket runtime: facts

    The laws of the operating system the runtime relies on, and that over such
    a system it is a host the client's theorems apply to. *)

From Stdlib Require Import String Ascii.
From S2P Require Import Prelude.
From S2P Require Import Types.
From S2P Require Import Wire.
From S2P Require Import Crypto.
From S2P Require Import CryptoFacts.
From S2P Require Import KeyFacts.
From S2P Require Import Workflow.
From S2P Require Import State.
From S2P Require Import Schedule.
From S2P Require Import Steering.
From S2P Require Import Hoare.
From S2P Require Import Dns.
From S2P Require Import DnsFacts.
From S2P Require Import Request.
From S2P Require Import Client.
From S2P Require Import WorkflowOps.
From S2P Require Import Runtime.

(** An address of the resolver and a record of the name server. *)
Definition wf_addrinfo (a : addrinfo) : Prop := ai_addrlen a = zlen (ai_addr a) /\ is_bytes (ai_addr a).
Definition wf_rr (x : srv_rr) : Prop :=
  from_option is_cstring True (rr_target x) /\ is_u16 (rr_port x) /\ is_u32 (rr_ttl x).

Definition RECV_BUFFER : Z := 65536.

(** Documented behaviour of the system calls: sizes and ranges of what they
    deliver, and that a call is interrupted by finitely many signals. *)
Class OsLaws (O : Type) `{Os O} : Prop := {
  os_rand_len : forall n o bs o', os_rand_bytes n o = (Some bs, o') -> zlen bs = n /\ is_bytes bs;
  os_addrinfo_wf : forall host o l o', os_getaddrinfo host o = (Some l, o') -> Forall wf_addrinfo l;
  os_srv_wf : forall name o l o', os_query_srv name o = (Some l, o') -> Forall (from_option wf_rr True) l;
  os_recv_wf : forall fd o len buffer from o', os_recvfrom fd o = ((len, buffer, from), o') -> 0 <= len ->
    len <= RECV_BUFFER /\ zlen buffer = RECV_BUFFER /\ is_bytes buffer /\ wf_addr from;
  os_send_patience : forall fd b to o r o', os_sendto fd b to o = (r, o') -> r < 0 ->
    os_errno o' = EINTR -> (os_patience o' < os_patience o)%nat;
  os_recv_patience : forall fd o len b from o', os_recvfrom fd o = ((len, b, from), o') -> len < 0 ->
    os_errno o' = EINTR -> (os_patience o' < os_patience o)%nat;
}.

(** Comparison with a literal. *)
Lemma str_eq_defined s lit : 0 ∈ s -> 0 ∈ lit -> exists b, str_eq s lit = Ok b.
Proof.
  revert lit; induction s as [|x s IH]; intros lit Hs Hl; [by apply not_elem_of_nil in Hs|].
  destruct lit as [|y lit]; [by apply not_elem_of_nil in Hl|]. cbn [str_eq].
  destruct (Z.eqb_spec x y) as [->|]; [|by eexists]. destruct (Z.eqb_spec y 0); [by eexists|].
  apply IH; set_solver.
Qed.

Section Facts.
Context {O : Type} `{OS : Os O} {laws : OsLaws O}.

(** ** Sending *)

(** The loop ends with the answer of the last call: never an interruption. *)
Lemma sendto_retry_settles fuel fd b to o r o' :
  (os_patience o <= fuel)%nat -> sendto_retry fuel fd b to o = (r, o') -> ~ (r < 0 /\ os_errno o' = EINTR).
Proof.
  revert o; induction fuel as [|fuel IH]; intros o Hp E [Hr He]; cbn [sendto_retry] in E;
    destruct (os_sendto fd b to o) as [r0 o0] eqn:Es.
  - injection E as -> ->. pose proof (os_send_patience _ _ _ _ _ _ Es Hr He). lia.
  - destruct ((r0 <? 0) && (os_errno o0 =? EINTR)) eqn:Ei.
    + breflect. pose proof (os_send_patience _ _ _ _ _ _ Es ltac:(lia) ltac:(done)). apply (IH o0); [lia|done|done].
    + injection E as -> ->. apply andb_false_iff in Ei as [Ei|Ei]; breflect; [lia|done].
Qed.

Lemma sa_family_defined a : wf_addr a -> exists v, SA_FAMILY a = Ok v.
Proof.
  intros (Hl & _ & _). unfold SOCKADDR_STORAGE_SIZE in Hl. unfold SA_FAMILY.
  destruct (ad_sa a) as [|x [|y l]]; [done|done|]. by eexists.
Qed.

(** ** Resolution *)
Lemma copy_address_wf a :
  wf_addrinfo a -> usable a = true -> exists x, copy_address a = Ok x /\ wf_addr x.
Proof.
  intros [Hl Hb] Hu. unfold usable in Hu. apply andb_true_iff in Hu as [_ Hu]. breflect.
  unfold SOCKADDR_STORAGE_SIZE in Hu. unfold copy_address. rewrite rd_bytes_whole, run_bind_Ok by done.
  set (z := replicate (Z.to_nat SOCKADDR_STORAGE_SIZE) 0).
  assert (Hz : zlen z = 128 /\ is_bytes z) by (split; [done|apply Forall_replicate; rlia]).
  destruct Hz as [Hz Hzb]. destruct (wr_defined z 0 (ai_addr a)) as [sa E]; [lia|lia|].
  rewrite E, run_bind_Ok. eexists. split; [reflexivity|]. pose proof (wr_Ok _ _ _ _ E) as (_ & _ & Hsl).
  split; [unfold SOCKADDR_STORAGE_SIZE; simpl; lia|]. split; [exact (wr_is_bytes z 0 _ sa Hzb Hb E)|].
  simpl. unfold SOCKADDR_STORAGE_SIZE. lia.
Qed.

Lemma copy_addresses_wf l :
  Forall wf_addrinfo l -> exists xs, copy_addresses l = Ok xs /\ Forall wf_addr xs /\
    length xs = length (filter (fun a => usable a = true) l).
Proof.
  induction 1 as [|a l Ha _ (xs & E & Hx & Hl)]; [by exists []|]. cbn [copy_addresses].
  rewrite filter_cons. destruct (usable a) eqn:Eu; cbn [negb].
  - destruct (copy_address_wf a Ha Eu) as (x & -> & Hw). rewrite run_bind_Ok, E, run_bind_Ok.
    exists (x :: xs). split; [done|]. split; [by constructor|]. rewrite decide_True by done. simpl. by f_equal.
  - exists xs. split; [done|]. split; [done|]. by rewrite decide_False by done.
Qed.

Lemma resolve_addresses_wf host o :
  exists st l o', resolve_addresses host o = Ok (st, l, o') /\ wf_addr_answer l.
Proof.
  unfold resolve_addresses. destruct (os_getaddrinfo host o) as [[l|] o1] eqn:E; [|by do 3 eexists].
  pose proof (os_addrinfo_wf _ _ _ _ E) as Hl. destruct (copy_addresses_wf l Hl) as (xs & Ex & Hx & _).
  set (count := zlen _). destruct (if 0 <? count then os_alloc o1 else (true, o1)) as [ok o2].
  destruct ok; cbn [negb]; [|by do 3 eexists]. rewrite Ex, run_bind_Ok. do 3 eexists. split; [reflexivity|].
  by destruct (0 <? count).
Qed.

Lemma keep_rr_wf rr r : from_option wf_rr True rr -> keep_rr rr = Some r -> wf_srv r.
Proof.
  destruct rr as [x|]; [|done]. cbn [from_option keep_rr]. intros (Ht & Hp & Httl). case_if; [done|].
  destruct (rr_target x) as [t|]; [|done]. intros [= <-]. split; [done|]. split; [done|]. cbn [sv_ttl_ms].
  case_if; [rlia|apply u32_range].
Qed.

Lemma resolve_srv_records_wf name o st l o' :
  resolve_srv_records name o = (st, l, o') -> wf_srv_answer l.
Proof.
  unfold resolve_srv_records. destruct (os_alloc o) as [[] o1]; cbn [negb]; [|by intros [= <- <- <-]].
  destruct (os_query_srv name o1) as [[rrs|] o2] eqn:E; [|by intros [= <- <- <-]]. intros [= <- <- <-].
  pose proof (Forall_take _ (Z.to_nat R_RUNTIME_MAX_SRV_RECORDS) _ (os_srv_wf _ _ _ _ E)) as Hr.
  cbn [wf_srv_answer from_option]. apply Forall_forall. intros x Hx. apply list_elem_of_omap in Hx as (rr & Hin & Hk).
  eapply keep_rr_wf; [|exact Hk]. by eapply Forall_forall in Hr.
Qed.

Lemma fixed_target_string : is_cstring R_RUNTIME_FIXED_TARGET.
Proof.
  split; [apply bytes_decided; vm_compute; reflexivity|]. apply (bool_decide_unpack _). vm_compute. exact I.
Qed.

(** ** The runtime's state *)

(** The host's block holds a string, the port fits, two sockets at most. *)
Record runtime_wf (r : r_runtime_client) : Prop := {
  rn_host : zlen (rn_server_host r) = R_RUNTIME_HOST_CAP /\ is_cstring (rn_server_host r);
  rn_port : is_u16 (rn_server_port r);
  rn_few : zlen (rn_sockets r) <= 2;
}.

Lemma runtime_zero_wf : runtime_wf runtime_zero.
Proof.
  split; [split; [done|split; [apply Forall_replicate; rlia|]]|done|done].
  apply (bool_decide_unpack _). vm_compute. exact I.
Qed.

Lemma host_byte r : runtime_wf r -> exists c, rd (rn_server_host r) 0 = Ok c.
Proof.
  intros [[Hl _] _ _]. unfold R_RUNTIME_HOST_CAP in Hl. destruct (rn_server_host r) as [|c l]; [done|]. by exists c.
Qed.

Lemma resolve_srv_defined r name o :
  runtime_wf r -> exists a o', runtime_resolve_srv r name o = Ok (a, o').
Proof.
  intros Hr. unfold runtime_resolve_srv. destruct (host_byte r Hr) as [c ->]. rewrite run_bind_Ok.
  case_if; [by do 2 eexists|]. destruct (resolve_srv_records name o) as [[st l] o']. by do 2 eexists.
Qed.

(** [strcmp] of a string with a literal. *)
Lemma resolve_addresses_defined r name o :
  runtime_wf r -> 0 ∈ name -> exists a o', runtime_resolve_addresses r name o = Ok (a, o').
Proof.
  intros Hr Hn. unfold runtime_resolve_addresses. destruct (host_byte r Hr) as [c ->]. rewrite run_bind_Ok.
  assert (Hf : exists b, (if negb (c =? 0) then str_eq name R_RUNTIME_FIXED_TARGET else Ok false) = Ok b).
  { case_if; [|by eexists]. apply str_eq_defined; [done|apply fixed_target_string]. }
  destruct Hf as [b ->]. rewrite run_bind_Ok.
  destruct (resolve_addresses_wf (if b then rn_server_host r else name) o) as (st & l & o' & -> & _).
  rewrite run_bind_Ok. by do 2 eexists.
Qed.

Lemma udp_send_defined r to buffer o :
  wf_addr to -> exists v o', runtime_udp_send r to buffer o = Ok (v, o') /\ (v = 0 \/ v = -1).
Proof.
  intros Ht. unfold runtime_udp_send. case_if; [do 2 eexists; split; [done|by right]|].
  destruct (sa_family_defined to Ht) as [f ->]. rewrite run_bind_Ok.
  destruct (socket_for (rn_sockets r) f o) as [[fd|] o1]; [|do 2 eexists; split; [done|by right]].
  destruct (sendto_retry _ _ _ _ _) as [sent o2]. do 2 eexists. split; [done|]. case_if; auto.
Qed.
End Facts.

(** ** The runtime is a host *)
Section AsHost.
Context {O : Type} `{OS : Os O} {APP : App O} {laws : OsLaws O}.

(** The client's theorems hold for a client on this runtime. *)
#[export] Instance runtime_host_laws : HostLaws (rworld O).
Proof.
  split.
  - intros w t w'. cbn. unfold on_os, r_runtime_wall_time_ms.
    destruct (os_clock_gettime CLOCK_REALTIME (rw_os w)) as [[now|] o]; intros [= <- _]; [apply u64_range|done].
  - intros n w bs w'. cbn. unfold on_os. destruct (os_rand_bytes n (rw_os w)) as [x o] eqn:E.
    intros [= -> _]. by eapply os_rand_len.
  - intros name w a w' st l. cbn. unfold on_runtime, runtime_resolve_addresses.
    destruct (rd (rn_server_host (rw_runtime w)) 0) as [|c]; [by intros [= <- _]|]. rewrite run_bind_Ok.
    destruct (if negb (c =? 0) then _ else _) as [|b]; [by intros [= <- _]|]. rewrite run_bind_Ok.
    destruct (resolve_addresses_wf (if b then rn_server_host (rw_runtime w) else name) (rw_os w))
      as (st' & l' & o' & -> & Hl). rewrite run_bind_Ok. intros [= <- _] [= _ <-]. done.
  - intros name w a w' st l. cbn. unfold on_runtime, runtime_resolve_srv.
    destruct (rd (rn_server_host (rw_runtime w)) 0) as [|c]; [by intros [= <- _]|]. rewrite run_bind_Ok.
    case_if.
    + intros [= <- _] [= _ <-]. constructor; [|constructor]. split; [exact fixed_target_string|].
      split; [apply u16_range|done].
    + destruct (resolve_srv_records name (rw_os w)) as [[st2 l2] o2] eqn:Er. intros [= <- _] [= _ <-].
      by eapply resolve_srv_records_wf.
Qed.
End AsHost.
