(* ===== verification/RuntimeSockets.v ===== *)
(** * The socket runtime: whose descriptors are open

    The laws of the system's descriptors, and what the runtime does with them:
    a socket that cannot be set up is closed again, steering replaces every
    socket or none, and no other hook opens or closes one. *)

From S2P Require Import Prelude.
From S2P Require Import Types.
From S2P Require Import Wire.
From S2P Require Import Crypto.
From S2P Require Import Workflow.
From S2P Require Import State.
From S2P Require Import Steering.
From S2P Require Import Dns.
From S2P Require Import Request.
From S2P Require Import Client.
From S2P Require Import WorkflowOps.
From S2P Require Import Runtime.
From S2P Require Import RuntimeFacts.

(** A relation every call respects that neither opens, binds nor closes. *)
Class Respects {O : Type} `{Os O} (R : O -> O -> Prop) : Prop := {
  re_preorder :: PreOrder R;
  re_clock : forall c o a o', os_clock_gettime c o = (a, o') -> R o o';
  re_getfl : forall fd o a o', os_getfl fd o = (a, o') -> R o o';
  re_setfl : forall fd f o a o', os_setfl fd f o = (a, o') -> R o o';
  re_ipv6_only : forall fd o, R o (os_ipv6_only fd o);
  re_getsockname : forall fd o a o', os_getsockname fd o = (a, o') -> R o o';
  re_sendto : forall fd b to o a o', os_sendto fd b to o = (a, o') -> R o o';
  re_recvfrom : forall fd o a o', os_recvfrom fd o = (a, o') -> R o o';
  re_getaddrinfo : forall h o a o', os_getaddrinfo h o = (a, o') -> R o o';
  re_query_srv : forall n o a o', os_query_srv n o = (a, o') -> R o o';
  re_stderr : forall t o, R o (os_stderr t o);
  re_alloc : forall o a o', os_alloc o = (a, o') -> R o o';
  re_rand_bytes : forall n o a o', os_rand_bytes n o = (a, o') -> R o o';
}.

Lemma Forall2_mono_in {A B} (P Q : A -> B -> Prop) l k :
  (forall x y, x ∈ l -> y ∈ k -> P x y -> Q x y) -> Forall2 P l k -> Forall2 Q l k.
Proof.
  intros HPQ Hl. induction Hl as [|x y l k Hxy Hl IH]; constructor; [apply HPQ; [by left|by left|done]|].
  apply IH. set_solver.
Qed.

(** ** Hooks that respect what the calls respect *)
Section Respects.
Context {O : Type} `{OS : Os O} (R : O -> O -> Prop) {HR : Respects R}.

Lemma wall_time_respects o a o' : r_runtime_wall_time_ms o = (a, o') -> R o o'.
Proof.
  unfold r_runtime_wall_time_ms. destruct (os_clock_gettime _ o) as [x o1] eqn:E. intros [= _ <-]. by eapply re_clock.
Qed.

Lemma monotonic_respects v o rc v' o' : r_runtime_monotonic_time_ms v o = ((rc, v'), o') -> R o o'.
Proof.
  unfold r_runtime_monotonic_time_ms. destruct v; [|by intros [= _ _ <-]].
  destruct (os_clock_gettime _ o) as [x o1] eqn:E. destruct x; intros [= _ _ <-]; by eapply re_clock.
Qed.

Lemma socket_for_respects sockets family o a o' : socket_for sockets family o = (a, o') -> R o o'.
Proof.
  revert o; induction sockets as [|fd l IH]; intros o; cbn [socket_for]; [by intros [= _ <-]|].
  destruct (os_getsockname fd o) as [name o1] eqn:E. pose proof (re_getsockname _ _ _ _ E).
  case_match; [by intros [= _ <-]|]. intros Ho. etransitivity; [done|by eapply IH].
Qed.

Lemma sendto_respects fuel fd b to o a o' : sendto_retry fuel fd b to o = (a, o') -> R o o'.
Proof.
  revert o; induction fuel as [|n IH]; intros o; cbn [sendto_retry];
    destruct (os_sendto fd b to o) as [s o1] eqn:E; pose proof (re_sendto _ _ _ _ _ _ E); [by intros [= _ <-]|].
  case_if; [|by intros [= _ <-]]. intros Ho. etransitivity; [done|by eapply IH].
Qed.

Lemma udp_send_respects r to b o v o' : runtime_udp_send r to b o = Ok (v, o') -> R o o'.
Proof.
  unfold runtime_udp_send. case_if; [by intros [= _ <-]|]. destruct (SA_FAMILY to) as [|f]; [done|].
  rewrite run_bind_Ok. destruct (socket_for _ _ o) as [fd o1] eqn:Ef. apply socket_for_respects in Ef.
  destruct fd as [fd|]; [|by intros [= _ <-]]. destruct (sendto_retry _ _ _ _ o1) as [s o2] eqn:Es.
  apply sendto_respects in Es. intros [= _ <-]. by etransitivity.
Qed.

Lemma resolve_addresses_respects host o st l o' : resolve_addresses host o = Ok ((st, l), o') -> R o o'.
Proof.
  unfold resolve_addresses. destruct (os_getaddrinfo host o) as [x o1] eqn:E. apply re_getaddrinfo in E.
  destruct x as [ads|]; [|by intros [= _ _ <-]].
  set (m := if _ <? _ then os_alloc o1 else _). destruct m as [ok o2] eqn:Em.
  assert (H12 : R o1 o2). { unfold m in Em. destruct (0 <? _); [by eapply re_alloc|]. by injection Em as _ <-. }
  destruct ok; cbn [negb]; [|intros [= _ _ <-]; by etransitivity].
  destruct (copy_addresses ads); [done|]. intros [= _ _ <-]. by etransitivity.
Qed.

Lemma runtime_addresses_respects r name o a o' : runtime_resolve_addresses r name o = Ok (a, o') -> R o o'.
Proof.
  unfold runtime_resolve_addresses. destruct (rd _ 0); [done|]. rewrite run_bind_Ok.
  destruct (if negb _ then _ else _); [done|]. rewrite run_bind_Ok.
  destruct (resolve_addresses _ o) as [|[[st l] o1]] eqn:E; [done|]. rewrite run_bind_Ok. intros [= _ <-].
  by eapply resolve_addresses_respects.
Qed.

Lemma resolve_srv_respects name o st l o' : resolve_srv_records name o = ((st, l), o') -> R o o'.
Proof.
  unfold resolve_srv_records. destruct (os_alloc o) as [ok o1] eqn:E. apply re_alloc in E.
  destruct ok; cbn [negb]; [|by intros [= _ _ <-]].
  destruct (os_query_srv name o1) as [x o2] eqn:E2. apply re_query_srv in E2.
  destruct x; intros [= _ _ <-]; by etransitivity.
Qed.

Lemma runtime_srv_respects r name o a o' : runtime_resolve_srv r name o = Ok (a, o') -> R o o'.
Proof.
  unfold runtime_resolve_srv. destruct (rd _ 0); [done|]. rewrite run_bind_Ok. case_if; [by intros [= _ <-]|].
  destruct (resolve_srv_records name o) as [[st l] o1] eqn:Er. intros [= _ <-]. by eapply resolve_srv_respects.
Qed.
End Respects.

(** ** The descriptor table *)

(** The kernel as its user knows it: the open descriptors, and the family and
    port each socket is bound to.  Sockets are opened and closed by the calls
    that do so, a fresh descriptor is not an open one, a port named in [bind]
    is the port of the socket, and two sockets of a family do not share one. *)
Class Kernel (O : Type) `{Os O} : Type := {
  k_open : O -> gset Z;
  k_name : Z -> O -> option (Z * Z);
  k_passive :: Respects (fun o o' => (k_open o' = k_open o) /\ (forall fd, k_name fd o' = k_name fd o));
  k_getsockname : forall fd o, fst (os_getsockname fd o) = k_name fd o;
  k_port : forall fd o family port, k_name fd o = Some (family, port) -> is_u16 port;
  k_socket : forall family o fd o', os_socket family o = (fd, o') ->
    (forall fd', fd' ∈ k_open o -> k_name fd' o' = k_name fd' o) /\
    ((fd = -1 /\ k_open o' = k_open o) \/
     (0 <= fd /\ (fd ∉ k_open o) /\ k_open o' = ({[fd]} ∪ k_open o)));
  k_bind : forall fd family port o rc o', os_bind fd family port o = (rc, o') ->
    k_open o' = k_open o /\ (forall fd', fd' <> fd -> k_name fd' o' = k_name fd' o) /\
    (rc = 0 -> exists q, k_name fd o' = Some (family, q) /\
      (port <> 0 -> q = port /\ forall fd', fd' ∈ k_open o -> fd' <> fd -> k_name fd' o <> Some (family, port)));
  k_close : forall fd o, k_open (os_close fd o) = k_open o ∖ {[fd]} /\
    forall fd', fd' <> fd -> k_name fd' (os_close fd o) = k_name fd' o;
}.

Section Sockets.
Context {O : Type} `{K : Kernel O}.
Implicit Types o : O.

Definition still o o' : Prop := k_open o' = k_open o /\ forall fd, k_name fd o' = k_name fd o.

(** [new] are the descriptors opened on the way: none was open, none was there
    twice, and the sockets that were open are what they were. *)
Record opens (new : list Z) o o' : Prop := {
  op_open : k_open o' = list_to_set new ∪ k_open o;
  op_new : NoDup new;
  op_fresh : forall fd, fd ∈ new -> 0 <= fd /\ fd ∉ k_open o;
  op_names : forall fd, fd ∈ k_open o -> k_name fd o' = k_name fd o;
}.

Lemma opens_refl o : opens [] o o.
Proof. split; [set_solver|constructor|set_solver|done]. Qed.

Lemma still_opens o o' : still o o' -> opens [] o o'.
Proof. intros [Ho Hn]. split; [set_solver|constructor|set_solver|by intros]. Qed.

Lemma opens_trans l1 l2 o o1 o2 : opens l1 o o1 -> opens l2 o1 o2 -> opens (l1 ++ l2) o o2.
Proof.
  intros [A1 A2 A3 A4] [B1 B2 B3 B4]. split.
  - rewrite B1, A1, list_to_set_app_L. set_solver.
  - apply NoDup_app. split; [done|]. split; [|done]. intros fd H1 H2. destruct (B3 fd H2) as [_ Hn]. set_solver.
  - intros fd [Hi|Hi]%elem_of_app; [by apply A3|]. destruct (B3 fd Hi). split; [done|]. set_solver.
  - intros fd Hi. rewrite B4, A4; set_solver.
Qed.

(** The descriptors of [l] are closed. *)
Lemma close_all_spec l o :
  k_open (close_all l o) = k_open o ∖ list_to_set l /\
  forall fd, fd ∉ l -> k_name fd (close_all l o) = k_name fd o.
Proof.
  revert o; induction l as [|fd l IH]; intros o; cbn [close_all foldl]; [split; [set_solver|done]|].
  destruct (IH (os_close fd o)) as [E En]. destruct (k_close fd o) as [Ec Ecn]. split.
  - unfold close_all in E. rewrite E, Ec. set_solver.
  - intros fd' Hi. unfold close_all in En. rewrite En, Ecn; set_solver.
Qed.

(** What was opened and closed again was never there. *)
Lemma opens_closed l o o' : opens l o o' -> opens [] o (close_all l o').
Proof.
  intros [H1 _ H3 H4]. destruct (close_all_spec l o') as [E En]. split; [|constructor|set_solver|].
  - rewrite E, H1. apply set_eq. intros fd. pose proof (H3 fd). set_solver.
  - intros fd Hi. rewrite En; [by apply H4|]. intros Hl. by destruct (H3 fd Hl).
Qed.

(** *** Opening *)
Lemma set_nonblocking_still fd o rc o' : set_nonblocking fd o = (rc, o') -> still o o'.
Proof.
  unfold set_nonblocking. destruct (os_getfl fd o) as [fl o1] eqn:E. apply re_getfl in E.
  case_if; [by intros [= _ <-]|]. destruct (os_setfl _ _ o1) as [r o2] eqn:E2. apply re_setfl in E2.
  case_if; intros [= _ <-]; by etransitivity.
Qed.

(** The outcome of an attempt on a port: nothing, or one new socket on it. *)
Definition opened (family port fd : Z) o o' : Prop :=
  (fd = R_RUNTIME_INVALID_SOCKET /\ opens [] o o') \/
  (fd <> R_RUNTIME_INVALID_SOCKET /\ opens [fd] o o' /\ exists q, k_name fd o' = Some (family, q) /\
   (port <> 0 -> q = port /\ forall fd', fd' ∈ k_open o -> k_name fd' o <> Some (family, port))).

Lemma open_udp_socket_spec family port o fd error o' :
  open_udp_socket family port o = ((fd, error), o') -> opened family port fd o o'.
Proof.
  unfold open_udp_socket, opened. destruct (os_socket family o) as [f o1] eqn:Es.
  destruct (k_socket _ _ _ _ Es) as [Hn Hs]. case_if.
  { breflect. intros [= <- _ <-]. left. split; [done|]. destruct Hs as [[_ Ho]|(Hf & _)]; [|unfold R_RUNTIME_INVALID_SOCKET in *; lia].
    split; [set_solver|constructor|set_solver|done]. }
  breflect. destruct Hs as [[-> _]|(Hf & Hfresh & Ho)]; [done|].
  assert (H1 : opens [f] o o1).
  { split; [set_solver|apply NoDup_singleton| |done]. intros x ->%list_elem_of_singleton. by split. }
  destruct (set_nonblocking f o1) as [rc o2] eqn:Eb. apply set_nonblocking_still, still_opens in Eb.
  pose proof (opens_trans _ _ _ _ _ H1 Eb) as H2. cbn [app] in H2. case_if.
  { intros [= <- _ <-]. left. split; [done|]. exact (opens_closed _ _ _ H2). }
  set (o3 := if family =? AF_INET then o2 else os_ipv6_only f o2).
  assert (H3 : opens [f] o o3).
  { unfold o3. case_if; [done|]. apply (opens_trans [f] [] o o2); [done|]. apply still_opens, re_ipv6_only. }
  destruct (os_bind f family port o3) as [rb o4] eqn:Ebind. destruct (k_bind _ _ _ _ _ _ Ebind) as (Bo & Bn & Bq).
  assert (H4 : opens [f] o o4).
  { destruct H3 as [A1 A2 A3 A4]. split; [by rewrite Bo|done|done|]. intros x Hx. rewrite Bn; [by apply A4|]. by intros ->. }
  case_if.
  - intros [= <- _ <-]. left. split; [done|]. exact (opens_closed _ _ _ H4).
  - breflect. intros [= <- _ <-]. right. split; [done|]. split; [done|]. destruct (Bq ltac:(lia)) as (q & Eq & Hp).
    exists q. split; [done|]. intros Hport. destruct (Hp Hport) as [-> Hx]. split; [done|].
    intros x Hin. rewrite <- (op_names _ _ _ H3 x Hin). apply Hx; [|by intros ->]. rewrite (op_open _ _ _ H3). set_solver.
Qed.

(** *** Steering *)
Lemma try_port_spec family port st r fd o' :
  runtime_try_steering_port family port st = (r, (fd, o')) ->
  opened family port fd (snd st) o' /\ (r = R_STEERING_BIND_OK <-> fd <> R_RUNTIME_INVALID_SOCKET).
Proof.
  unfold runtime_try_steering_port. destruct (open_udp_socket family port (snd st)) as [[f e] o1] eqn:Es.
  apply open_udp_socket_spec in Es. case_if; breflect.
  - by intros [= <- <- <-].
  - intros [= <- <- <-]. split; [done|]. case_if; split; done.
Qed.

(** What a host's attempt on a port may do to the descriptors. *)
Definition tries (family : Z) (f : Z -> Z * O -> Z * (Z * O)) : Prop := forall port st r fd o',
  f port st = (r, (fd, o')) ->
  opened family port fd (snd st) o' /\ (r = R_STEERING_BIND_OK <-> fd <> R_RUNTIME_INVALID_SOCKET).

Lemma runtime_tries family : tries family (runtime_try_steering_port family).
Proof. intros port st r fd o'. apply try_port_spec. Qed.

(** The scan leaves one new socket, on the port it chose, or nothing. *)
Lemma first_bind_opens family f ports st q fd o' :
  tries family f -> first_bind f ports st = (q, (fd, o')) ->
  match q with
  | Some p => opened family p fd (snd st) o' /\ fd <> R_RUNTIME_INVALID_SOCKET
  | None => opens [] (snd st) o'
  end.
Proof.
  intros Hf. revert st; induction ports as [|p ps IH]; intros st; cbn [first_bind].
  { intros [= <- ->]. apply opens_refl. }
  destruct (f p st) as [r [fd1 o1]] eqn:Et.
  destruct (Hf _ _ _ _ _ Et) as [Ho Hr]. case_if; breflect.
  { intros [= <- <- <-]. split; [done|]. by apply Hr. }
  destruct Ho as [[Hi Ho]|[Hi _]]; [|by apply Hr in Hi]. case_if.
  - intros Hb. specialize (IH _ Hb). cbn [snd] in IH. destruct q as [p'|].
    + destruct IH as [[[Hx _]|(Hx & Ho' & Hq)] Hne]; [done|]. split; [|done]. right. split; [done|].
      split; [exact (opens_trans _ _ _ _ _ Ho Ho')|]. destruct Hq as (q & Eq & Hp). exists q. split; [done|].
      intros Hnz. destruct (Hp Hnz) as [-> Hother]. split; [done|]. intros x Hin.
      rewrite <- (op_names _ _ _ Ho x Hin). apply Hother. rewrite (op_open _ _ _ Ho). set_solver.
    + exact (opens_trans _ _ _ _ _ Ho IH).
  - by intros [= <- <- <-].
Qed.

(** The replacement of a socket: of its family, on another dynamic port. *)
Definition moved o o' (fd fd' : Z) : Prop := exists family p q,
  k_name fd o = Some (family, p) /\ k_name fd' o' = Some (family, q) /\
  R_STEERING_PORT_MIN <= q <= UINT16_MAX /\ q <> p.

Lemma next_port_u16 p : is_u16 p -> is_u16 (r_client_next_steering_port p).
Proof. intros Hp. unfold r_client_next_steering_port. case_if; [done|apply u16_range]. Qed.

(** A selection by such attempts, for a socket of the family that is open. *)
Lemma select_moves family f fd p o o1 rc a b st :
  tries family f -> still o o1 -> fd ∈ k_open o -> k_name fd o = Some (family, p) ->
  r_client_select_steering_port (r_client_next_steering_port p) (Some f) (Some 0) (Some 0)
    (R_RUNTIME_INVALID_SOCKET, o1) = (rc, a, b, st) ->
  if rc =? RCLIENT_OK then fst st <> R_RUNTIME_INVALID_SOCKET /\ opens [fst st] o (snd st) /\ moved o (snd st) fd (fst st)
  else opens [] o (snd st).
Proof.
  intros Hf Eg Hin Ename.
  pose proof (select_steering_port_spec f (r_client_next_steering_port p) 0 0
    (R_RUNTIME_INVALID_SOCKET, o1) (next_port_u16 p (k_port _ _ _ _ Ename))) as [_ Hsel].
  destruct (first_bind _ _ _) as [[q|] [fd' o2]] eqn:Eb; apply (first_bind_opens family) in Eb; try done; cbn [snd] in Eb.
  - destruct Hsel as (Hq & _ & ->). intros [= <- _ _ <-]. cbn. destruct Eb as [[[Hx _]|(Hx & Ho & Hname)] Hne]; [done|].
    split; [done|]. split; [exact (opens_trans [] [fd'] o o1 o2 (still_opens _ _ Eg) Ho)|].
    destruct Hname as (q' & Eq & Hp). destruct (Hp ltac:(unfold R_STEERING_PORT_MIN in *; lia)) as [-> Hother].
    exists family, p, q. split; [done|]. split; [done|]. split; [done|]. intros ->.
    destruct Eg as [Eo Egn]. apply (Hother fd); [by rewrite Eo|by rewrite Egn].
  - rewrite Hsel. intros [= <- _ _ <-]. exact (opens_trans [] [] o o1 o2 (still_opens _ _ Eg) Eb).
Qed.

Lemma replace_socket_spec fd o new o' :
  fd ∈ k_open o -> replace_socket fd o = (new, o') ->
  match new with
  | Some fd' => fd' <> R_RUNTIME_INVALID_SOCKET /\ opens [fd'] o o' /\ moved o o' fd fd'
  | None => opens [] o o'
  end.
Proof.
  intros Hin. unfold replace_socket, runtime_socket_family_and_port.
  pose proof (k_getsockname fd o) as En. destruct (os_getsockname fd o) as [name o1] eqn:Eg.
  apply re_getsockname in Eg. fold (still o o1) in Eg. cbn [fst] in En. subst name.
  destruct (k_name fd o) as [[family p]|] eqn:Ename; [|intros [= <- <-]; by apply still_opens].
  case_if; [|intros [= <- <-]; by apply still_opens].
  destruct (r_client_select_steering_port _ _ _ _ _) as [[[rc a] b] st] eqn:Es.
  pose proof (select_moves _ _ _ _ _ _ _ _ _ _ (runtime_tries family) Eg Hin Ename Es) as Hm.
  destruct (rc =? RCLIENT_OK); by intros [= <- <-].
Qed.

Lemma moved_before l o o1 o2 fd fd' : opens l o o1 -> fd ∈ k_open o -> moved o1 o2 fd fd' -> moved o o2 fd fd'.
Proof. intros Ho Hin (f & p & q & H1 & H2). exists f, p, q. by rewrite <- (op_names _ _ _ Ho fd Hin). Qed.

Lemma moved_after l o o1 o2 fd fd' : opens l o1 o2 -> fd' ∈ k_open o1 -> moved o o1 fd fd' -> moved o o2 fd fd'.
Proof. intros Ho Hin (f & p & q & H1 & H2). exists f, p, q. by rewrite (op_names _ _ _ Ho fd' Hin). Qed.

Lemma acquire_spec sockets acquired o ok l o' :
  (forall fd, fd ∈ sockets -> fd ∈ k_open o) -> acquire sockets acquired o = ((ok, l), o') ->
  exists new, l = acquired ++ new /\ opens new o o' /\ (ok = true -> Forall2 (moved o o') sockets new) /\
    R_RUNTIME_INVALID_SOCKET ∉ new.
Proof.
  revert acquired o; induction sockets as [|fd rest IH]; intros acquired o Hin; cbn [acquire].
  { intros [= <- <- <-]. exists []. rewrite app_nil_r. split; [done|]. split; [apply opens_refl|].
    split; [by constructor|set_solver]. }
  destruct (replace_socket fd o) as [new o1] eqn:Er. apply replace_socket_spec in Er; [|apply Hin; by left].
  destruct new as [f|].
  - destruct Er as (Hf & Ho & Hm). intros Ha. apply IH in Ha as (new & -> & Ho' & Hall & Hinv).
    2:{ intros x Hx. rewrite (op_open _ _ _ Ho). set_solver. }
    exists (f :: new). split; [by rewrite <- app_assoc|]. split; [exact (opens_trans [f] new _ _ _ Ho Ho')|].
    split; [|set_solver]. intros Hok. constructor.
    + eapply (moved_after new); [exact Ho'| |done]. rewrite (op_open _ _ _ Ho). set_solver.
    + apply (Forall2_mono_in (moved o1 o')); [|exact (Hall Hok)]. intros x y Hx _ Hxy.
      eapply (moved_before [f]); [exact Ho| |done]. set_solver.
  - intros [= <- <- <-]. exists []. rewrite app_nil_r. split; [done|]. split; [done|]. split; [done|set_solver].
Qed.

(** ** Ownership *)

(** The sockets of the runtime and the descriptors of the rest of the program,
    [base], are all that is open. *)
Record owns (base : gset Z) (r : r_runtime_client) o : Prop := {
  ow_wf : runtime_wf r;
  ow_nodup : NoDup (rn_sockets r);
  ow_valid : R_RUNTIME_INVALID_SOCKET ∉ rn_sockets r;
  ow_apart : forall fd, fd ∈ rn_sockets r -> fd ∉ base;
  ow_open : k_open o = base ∪ list_to_set (rn_sockets r);
}.

Lemma owns_still base r o o' : owns base r o -> k_open o' = k_open o -> owns base r o'.
Proof. intros [H1 H2 H3 H4 H5] Ho. split; try done. by rewrite Ho. Qed.

Lemma owns_opens base r o o' : owns base r o -> opens [] o o' -> owns base r o'.
Proof. intros Hw Ho. apply (owns_still base r o); [done|]. rewrite (op_open _ _ _ Ho). set_solver. Qed.

Lemma same_length_few (r : r_runtime_client) l :
  length l = length (rn_sockets r) -> runtime_wf r -> runtime_wf (set_rn_sockets l r).
Proof. intros Hl [H1 H2 H3]. split; [done|done|]. cbn. lia. Qed.

(** The new sockets in place of the old ones. *)
Lemma owns_replaced base r o o' l :
  owns base r o -> opens l o o' -> R_RUNTIME_INVALID_SOCKET ∉ l -> length l = length (rn_sockets r) ->
  owns base (set_rn_sockets l r) (close_all (rn_sockets r) o').
Proof.
  intros [H1 H2 H3 H4 H5] [A1 A2 A3 A4] Hi Hl. destruct (close_all_spec (rn_sockets r) o') as [Ec _].
  split; [by apply same_length_few|done|done| |]; cbn.
  - intros fd Hin Hb. destruct (A3 fd Hin) as [_ Hn]. set_solver.
  - rewrite Ec, A1, H5. apply set_eq. intros fd. pose proof (A3 fd). pose proof (H4 fd). set_solver.
Qed.

Lemma log_still level text o : still o (runtime_log level text o).
Proof. unfold runtime_log. apply re_stderr. Qed.

Lemma steering_spec base keep r o r' o' :
  owns base r o -> runtime_on_steering_feedback keep r o = (r', o') ->
  owns base r' o' /\
  (r' = r \/ keep = false /\ r' = set_rn_sockets (rn_sockets r') r /\
             Forall2 (moved o o') (rn_sockets r) (rn_sockets r')).
Proof.
  intros Hw. unfold runtime_on_steering_feedback. case_if; [intros [= <- <-]; by auto|].
  destruct keep; [done|]. destruct (acquire (rn_sockets r) [] o) as [[ok l] o1] eqn:Ea.
  apply acquire_spec in Ea as (new & -> & Ho & Hm & Hi).
  2:{ intros fd Hin. rewrite (ow_open _ _ _ Hw). set_solver. }
  cbn [app]. destruct ok.
  - intros [= <- <-]. specialize (Hm eq_refl). pose proof (Forall2_length _ _ _ Hm) as Hl.
    split; [by eapply owns_replaced|]. right. split; [done|]. split; [done|]. cbn.
    apply (Forall2_mono_in (moved o o1)); [|exact Hm]. intros x y _ Hy (f & p & q & E1 & E2 & E3).
    exists f, p, q. split; [done|]. split; [|done]. destruct (close_all_spec (rn_sockets r) o1) as [_ ->]; [done|].
    destruct (op_fresh _ _ _ Ho y Hy) as [_ Hn]. rewrite (ow_open _ _ _ Hw) in Hn. set_solver.
  - intros [= <- <-]. split; [|by left]. apply (owns_opens base r o); [done|].
    exact (opens_trans [] [] _ _ _ (opens_closed new _ _ Ho) (still_opens _ _ (log_still R_LOG_WARN _ _))).
Qed.
End Sockets.
