(* ===== verification/RuntimeHost.v ===== *)
(** * The socket runtime: what a client does to it

    Whatever the client does, it reaches the runtime's sockets only through
    the hooks: relations the system calls respect are kept by every entry
    point.  Two of them matter: who owns the open descriptors, and how much
    is left to receive. *)

From S2P Require Import Prelude.
From S2P Require Import Types.
From S2P Require Import Wire.
From S2P Require Import Crypto.
From S2P Require Import Workflow.
From S2P Require Import State.
From S2P Require Import Steering.
From S2P Require Import Dns.
From S2P Require Import Request.
From S2P Require Import Client.
From S2P Require Import WorkflowOps.
From S2P Require Import Frame.
From S2P Require Import Runtime.
From S2P Require Import RuntimeFacts.
From S2P Require Import RuntimeSockets.

Section Host.
Context {O : Type} `{OS : Os O} {APP : App O}.
Implicit Types w : rworld O.

(** A relation on the runtime and its system, from one on the system. *)
Lemma runtime_frame (P : rworld O -> rworld O -> Prop) (R : O -> O -> Prop) `{!PreOrder P, !Respects R} :
  (forall r o o', R o o' -> P (mk_rworld r o) (mk_rworld r o')) ->
  (forall keep r o r' o', runtime_on_steering_feedback keep r o = (r', o') ->
     P (mk_rworld r o) (mk_rworld r' o')) ->
  (forall cb user req status res s s', app_complete cb user req status res s = Ok s' ->
     P (s_world s) (s_world s')) ->
  (forall cb user status outcome s s', app_admission cb user status outcome s = Ok s' ->
     P (s_world s) (s_world s')) ->
  Frame P.
Proof.
  intros HP Hs Hc Ha.
  assert (Hos : forall A (f : O -> A * O), (forall o a o', f o = (a, o') -> R o o') ->
                forall w a w', on_os f w = (a, w') -> P w w').
  { intros A f Hf [r o] a w'. unfold on_os. cbn. destruct (f o) as [x o1] eqn:Ef. intros [= _ <-]. apply HP. by eapply Hf. }
  assert (Hrt : forall A bad (f : r_runtime_client -> O -> run (A * O)),
                (forall r o a o', f r o = Ok (a, o') -> R o o') ->
                forall w a w', on_runtime bad f w = (a, w') -> P w w').
  { intros A bad f Hf [r o] a w'. unfold on_runtime. cbn. destruct (f r o) as [|[x o1]] eqn:Ef; intros [= _ <-];
      [reflexivity|]. apply HP. by eapply Hf. }
  split; cbn.
  - done.
  - apply Hos. intros o a o'. by apply wall_time_respects.
  - intros to packet. apply Hrt. intros r o a o'. by apply udp_send_respects.
  - intros n. apply Hos. by apply re_rand_bytes.
  - apply Hos. by apply re_alloc.
  - intros name. apply Hrt. intros r o a o'. by apply runtime_srv_respects.
  - intros name. apply Hrt. intros r o a o'. by apply runtime_addresses_respects.
  - by intros id w a w' [= _ <-].
  - intros p [r o]. apply HP. apply re_stderr.
  - intros keep [r o]. cbn. destruct (runtime_on_steering_feedback keep r o) as [r' o'] eqn:Er. by eapply Hs.
  - done.
  - done.
Qed.
End Host.

(** ** Ownership of the descriptors *)
Section Owned.
Context {O : Type} `{K : Kernel O} {APP : App O} (base : gset Z).
Implicit Types w : rworld O.

Definition owned w : Prop := owns base (rw_runtime w) (rw_os w).

(** No client is created or destroyed, no descriptor opened or closed for good,
    and the runtime has as many sockets as before. *)
Definition keeps_sockets w w' : Prop :=
  rn_handle (rw_runtime w') = rn_handle (rw_runtime w) /\
  (owned w -> owned w' /\ length (rn_sockets (rw_runtime w')) = length (rn_sockets (rw_runtime w))).

#[export] Instance keeps_sockets_preorder : PreOrder keeps_sockets.
Proof.
  split; [done|]. intros w1 w2 w3 [H1 H2] [H3 H4]. split; [congruence|]. intros Hw.
  destruct (H2 Hw) as [Hw2 E2]. destruct (H4 Hw2) as [Hw3 E3]. split; [done|congruence].
Qed.

(** The application's callbacks leave the runtime to the runtime. *)
Class Guest : Prop := {
  guest_complete : forall cb user req status res s s',
    app_complete cb user req status res s = Ok s' -> keeps_sockets (s_world s) (s_world s');
  guest_admission : forall cb user status outcome s s',
    app_admission cb user status outcome s = Ok s' -> keeps_sockets (s_world s) (s_world s');
}.

Lemma steering_handle keep r (o : O) r' o' :
  runtime_on_steering_feedback keep r o = (r', o') -> rn_handle r' = rn_handle r.
Proof.
  unfold runtime_on_steering_feedback. case_if; [by intros [= <- _]|].
  destruct (acquire _ _ o) as [[ok l] o1]. by destruct ok; intros [= <- _].
Qed.

Context {HG : Guest}.

#[export] Instance owned_frame : Frame keeps_sockets.
Proof.
  apply (runtime_frame keeps_sockets (fun o o' => k_open o' = k_open o /\ (forall fd, k_name fd o' = k_name fd o))).
  - intros r o o' [Ho _]. split; [done|]. intros Hw. split; [by eapply owns_still|done].
  - intros keep r o r' o' E. split; [by eapply steering_handle|]. intros Hw.
    destruct (steering_spec base _ _ _ _ _ Hw E) as [Hw' Hr]. split; [done|]. cbn.
    destruct Hr as [->|(_ & _ & Hm)]; [done|]. symmetry. by eapply Forall2_length.
  - intros. by eapply guest_complete.
  - intros. by eapply guest_admission.
Qed.
End Owned.

(** ** Every call *)

(** A relation every call on sockets respects. *)
Class Bears {O : Type} `{Os O} (R : O -> O -> Prop) : Prop := {
  be_respects :: Respects R;
  be_socket : forall family o fd o', os_socket family o = (fd, o') -> R o o';
  be_bind : forall fd family port o rc o', os_bind fd family port o = (rc, o') -> R o o';
  be_close : forall fd o, R o (os_close fd o);
}.

Section Bears.
Context {O : Type} `{OS : Os O} (R : O -> O -> Prop) {HB : Bears R}.

#[local] Instance bears_preorder : PreOrder R := re_preorder.

Lemma close_all_bears l (o : O) : R o (close_all l o).
Proof.
  revert o; induction l as [|fd l IH]; intros o; cbn [close_all foldl]; [reflexivity|].
  etransitivity; [apply (be_close fd)|apply IH].
Qed.

Lemma set_nonblocking_bears fd o rc o' : set_nonblocking fd o = (rc, o') -> R o o'.
Proof.
  unfold set_nonblocking. destruct (os_getfl fd o) as [fl o1] eqn:E1. apply re_getfl in E1.
  case_if; [by intros [= _ <-]|]. destruct (os_setfl _ _ o1) as [x o2] eqn:E2. apply re_setfl in E2.
  case_if; intros [= _ <-]; by etransitivity.
Qed.

Lemma open_bears family port o fd error o' : open_udp_socket family port o = ((fd, error), o') -> R o o'.
Proof.
  unfold open_udp_socket. destruct (os_socket family o) as [f o1] eqn:E1. apply be_socket in E1.
  case_if; [by intros [= _ _ <-]|]. destruct (set_nonblocking f o1) as [rc o2] eqn:E2. apply set_nonblocking_bears in E2.
  assert (H2 : R o o2) by by etransitivity. case_if; [intros [= _ _ <-]; etransitivity; [exact H2|apply be_close]|].
  set (o3 := if family =? AF_INET then o2 else os_ipv6_only f o2).
  assert (H3 : R o o3) by (unfold o3; case_if; [done|etransitivity; [exact H2|apply re_ipv6_only]]).
  destruct (os_bind f family port o3) as [rb o4] eqn:E4. apply be_bind in E4.
  case_if; intros [= _ _ <-]; [|by etransitivity]. etransitivity; [exact H3|]. etransitivity; [exact E4|apply be_close].
Qed.

(** Attempts on ports, and a selection by them. *)
Definition bearing (f : Z -> Z * O -> Z * (Z * O)) : Prop :=
  forall port st r st', f port st = (r, st') -> R (snd st) (snd st').

Lemma runtime_bearing family : bearing (runtime_try_steering_port family).
Proof.
  intros port st r st'. unfold runtime_try_steering_port.
  destruct (open_udp_socket family port (snd st)) as [[f e] o1] eqn:Eo. apply open_bears in Eo.
  case_if; by intros [= _ <-].
Qed.

Lemma first_bind_bears f ports st q st' :
  bearing f -> first_bind f ports st = (q, st') -> R (snd st) (snd st').
Proof.
  intros Hf. revert st; induction ports as [|p ps IH]; intros st; cbn [first_bind]; [by intros [= _ <-]|].
  destruct (f p st) as [r st1] eqn:Et. apply Hf in Et.
  case_if; [by intros [= _ <-]|]. case_if; [intros Hb; apply IH in Hb; by etransitivity|by intros [= _ <-]].
Qed.

Lemma select_bears f first fd o rc a b st :
  bearing f ->
  r_client_select_steering_port first (Some f) (Some 0) (Some 0) (fd, o) = (rc, a, b, st) -> R o (snd st).
Proof.
  intros Hf. unfold r_client_select_steering_port. rewrite scan_loop_walk.
  destruct (first_bind _ _ _) as [q st1] eqn:Eb. apply first_bind_bears in Eb; [|done]. cbn [snd] in Eb.
  destruct q; by intros [= _ _ _ <-].
Qed.

Lemma replace_bears fd o new o' : replace_socket fd o = (new, o') -> R o o'.
Proof.
  unfold replace_socket, runtime_socket_family_and_port.
  destruct (os_getsockname fd o) as [name o1] eqn:En. apply re_getsockname in En.
  destruct name as [[family p]|]; [|by intros [= _ <-]]. case_if; [|by intros [= _ <-]].
  destruct (r_client_select_steering_port _ _ _ _ _) as [[[rc a] b] st] eqn:Es.
  apply select_bears in Es; [|apply runtime_bearing].
  case_if; intros [= _ <-]; by etransitivity.
Qed.

Lemma acquire_bears sockets acquired o ok l o' : acquire sockets acquired o = ((ok, l), o') -> R o o'.
Proof.
  revert acquired o; induction sockets as [|fd rest IH]; intros acquired o; cbn [acquire].
  { by intros [= _ _ <-]. }
  destruct (replace_socket fd o) as [new o1] eqn:Er. apply replace_bears in Er.
  destruct new; [|by intros [= _ _ <-]]. intros Ha. apply IH in Ha. by etransitivity.
Qed.

Lemma steering_bears keep r o r' o' : runtime_on_steering_feedback keep r o = (r', o') -> R o o'.
Proof.
  unfold runtime_on_steering_feedback. case_if; [by intros [= _ <-]|].
  destruct (acquire _ _ o) as [[ok l] o1] eqn:Ea. apply acquire_bears in Ea.
  destruct ok; intros [= _ <-]; [etransitivity; [exact Ea|apply close_all_bears]|].
  etransitivity; [exact Ea|]. etransitivity; [apply close_all_bears|]. unfold runtime_log. apply re_stderr.
Qed.
End Bears.

(** ** Receiving *)

(** The kernel's receive queue, with the network quiet: what is left to
    receive, and the interruptions still to come, are used up by receiving. *)
Class Quiet (O : Type) `{Os O} : Type := {
  q_backlog : O -> nat;
  q_calls :: Bears (fun o o' => (q_backlog o' <= q_backlog o)%nat);
  q_received : forall fd o len buffer from o', os_recvfrom fd o = ((len, buffer, from), o') ->
    0 <= len \/ os_errno o' = EINTR -> (q_backlog o' < q_backlog o)%nat;
}.

Section Quiet.
Context {O : Type} `{Q : Quiet O} {APP : App O}.

Definition no_more (o o' : O) : Prop := (q_backlog o' <= q_backlog o)%nat.
#[export] Instance no_more_bears : Bears no_more := q_calls.
Definition no_more_waiting (w w' : rworld O) : Prop := no_more (rw_os w) (rw_os w').

#[export] Instance no_more_waiting_preorder : PreOrder no_more_waiting.
Proof. unfold no_more_waiting, no_more. split; [by intros w|]. intros w1 w2 w3. lia. Qed.

(** The application's callbacks receive nothing for the client. *)
Class Silent : Prop := {
  silent_complete : forall cb user req status res s s',
    app_complete cb user req status res s = Ok s' -> no_more_waiting (s_world s) (s_world s');
  silent_admission : forall cb user status outcome s s',
    app_admission cb user status outcome s = Ok s' -> no_more_waiting (s_world s) (s_world s');
}.

Context {HS : Silent}.

#[export] Instance quiet_frame : Frame no_more_waiting.
Proof.
  apply (runtime_frame no_more_waiting no_more).
  - by intros.
  - intros keep r o r' o' E. by eapply (steering_bears no_more).
  - intros. by eapply silent_complete.
  - intros. by eapply silent_admission.
Qed.
End Quiet.
