(* ===== verification/Ids.v ===== *)
(** * Identifiers, keys and names derived from the configuration

    The content identifiers of buckets and latency trackers, the public key
    parser and the default tenant name (src/r_client.c 24-51, 2228-2321). *)

From Stdlib Require Import String Ascii.
From S2P Require Import Prelude.
From S2P Require Import Types.
From S2P Require Import Wire.
From S2P Require Import WireFacts.
From S2P Require Import Crypto.
From S2P Require Import CryptoFacts.
From S2P Require Import KeyFacts.
From S2P Require Import Client.

(** Documented behaviour of a message digest: feeding a message in chunks
    hashes the concatenation, and BLAKE2s-256 has 32 bytes. *)
Class DigestLaws (O : OpenSSL) : Prop := {
  digest_chunks : forall l l', concat l = concat l' -> EVP_blake2s256 l = EVP_blake2s256 l';
  digest_length : forall l d, EVP_blake2s256 l = Some d -> length d = 32%nat /\ is_bytes d;
}.

(** ** What is hashed *)
Definition preimage (domain name : list Z) (fields : list Z) : list Z :=
  domain ++ le 4 (zlen name) ++ name ++ concat (map (le 4) fields).

Definition bucket_preimage (name : list Z) (window_size_ms rate_limit : Z) : list Z :=
  preimage (cstr "ratelimitly.resource.v1") name [window_size_ms; rate_limit].

Definition tracker_preimage (name : list Z) (ttl_ms max_samples min_sample_threshold : Z) : list Z :=
  preimage (cstr "ratelimitly.latency-tracker.v2") name [ttl_ms; max_samples; min_sample_threshold].

Lemma le_inj n x y : 0 <= x < 2 ^ (8 * Z.of_nat n) -> 0 <= y < 2 ^ (8 * Z.of_nat n) ->
  le n x = le n y -> x = y.
Proof.
  intros Hx Hy E. apply (f_equal unle) in E. by rewrite !unle_le, !Z.mod_small in E.
Qed.

Lemma fields_inj fs fs' :
  Forall is_u32 fs -> Forall is_u32 fs' -> length fs = length fs' ->
  concat (map (le 4) fs) = concat (map (le 4) fs') -> fs = fs'.
Proof.
  intros Hf. revert fs'; induction Hf as [|x fs Hx Hf IH]; intros [|y fs'] Hf' Hl E; [done..|].
  apply Forall_cons in Hf' as [Hy Hf']. cbn [map concat] in E.
  apply app_inj_1 in E as [E1 E2]; [|by rewrite !le_length].
  apply le_inj in E1 as ->; [|exact Hx|exact Hy]. f_equal. apply IH; [done|simpl in Hl; lia|done].
Qed.

Lemma preimage_inj domain n n' fs fs' :
  is_u32 (zlen n) -> is_u32 (zlen n') -> Forall is_u32 fs -> Forall is_u32 fs' ->
  length fs = length fs' -> preimage domain n fs = preimage domain n' fs' -> n = n' /\ fs = fs'.
Proof.
  intros Hn Hn' Hf Hf' Hl E. unfold preimage in E. apply app_inv_head in E.
  apply app_inj_1 in E as [E1 E]; [|by rewrite !le_length].
  apply le_inj in E1; [|exact Hn|exact Hn']. apply app_inj_1 in E as [-> E]; [|lia].
  split; [done|]. by apply fields_inj.
Qed.

Lemma cstr_prefix (a b : list Z) s t :
  cstr s ++ a = cstr t ++ b -> 0 ∉ cbytes s -> 0 ∉ cbytes t -> cbytes s = cbytes t.
Proof.
  unfold cstr. generalize (cbytes s) as x, (cbytes t) as y.
  intros x; induction x as [|c x IH]; intros [|d y] E Hx Hy; cbn [app] in E; [done| | |].
  - injection E as E _. set_solver.
  - injection E as E _. set_solver.
  - injection E as -> E. f_equal. apply IH; [done|set_solver..].
Qed.

(** ** The hash *)
Section Hash.
Context {ssl : OpenSSL} {laws : DigestLaws ssl}.

Lemma fields_loop pre fs post acc :
  for_range (length fs) (zlen pre) (fun i acc =>
    f ← deref (Some (pre ++ fs ++ post)); field ← elem f i; Ok (acc ++ [le32_chunk field])) acc =
  Ok (acc ++ map le32_chunk fs).
Proof.
  revert pre acc; induction fs as [|x fs IH]; intros pre acc; [simpl; by rewrite app_nil_r|].
  cbn [length app map]. rewrite for_range_S.
  assert (Hx : elem (pre ++ x :: fs ++ post) (zlen pre) = Ok x)
    by (unfold elem; rewrite (proj2 (Z.leb_le _ _)), Nat2Z.id, lookup_app_r, Nat.sub_diag by lia; done).
  change (deref (Some ?l)) with (Ok l). rewrite run_bind_Ok, Hx, !run_bind_Ok.
  change (Ok (pre ++ x :: fs ++ post)) with (deref (Some (pre ++ x :: fs ++ post))).
  replace (zlen pre + 1) with (zlen (pre ++ [x])) by (rewrite length_app; simpl; lia).
  replace (pre ++ x :: fs ++ post) with ((pre ++ [x]) ++ fs ++ post) by (by rewrite <- app_assoc).
  rewrite IH, <- app_assoc. done.
Qed.

(** The result of an identifier derivation: the first 16 bytes of the digest
    of [pre], or an error that leaves the output alone. *)
Definition digest16 (pre out : list Z) : Z * option (list Z) :=
  match EVP_blake2s256 [pre] with
  | Some d => (0, Some (take 16 d ++ drop 16 out))
  | None => (-1, Some out)
  end.

Lemma hash_spec domain name junk fs out :
  domain <> [] -> zlen name <= UINT32_MAX -> 16 <= zlen out ->
  r_hash_content_id_blake2s_128 (Some domain) (zlen domain) (Some (name ++ junk)) (zlen name)
    (Some fs) (zlen fs) (Some out) = Ok (digest16 (preimage domain name fs) out).
Proof.
  intros Hd Hn Ho. unfold r_hash_content_id_blake2s_128, digest16.
  rewrite (proj2 (Z.eqb_neq (zlen domain) 0)) by (destruct domain; simpl; [done|lia]).
  cbn [is_null orb andb]. rewrite (proj2 (Z.ltb_ge UINT32_MAX _)) by lia.
  rewrite rd_bytes_all, run_bind_Ok by done. rewrite (u32_small (zlen name)) by rlia.
  set (nm := if 0 <? zlen name then _ else _).
  assert (Hnm : exists l, nm = Ok l /\ concat l = name).
  { unfold nm. destruct (Z.ltb_spec 0 (zlen name)).
    - cbn [deref of_option]. rewrite run_bind_Ok.
      pose proof (rd_bytes_app [] name junk 0 (zlen name) eq_refl eq_refl) as Hr. cbn [app] in Hr.
      rewrite Hr, run_bind_Ok. eexists. split; [done|]. simpl. by rewrite app_nil_r.
    - exists []. split; [done|]. by destruct name. }
  destruct Hnm as (l & -> & Hl). rewrite run_bind_Ok, Nat2Z.id.
  pose proof (fields_loop [] fs [] []) as Hf. cbn [app] in Hf. rewrite app_nil_r in Hf.
  change (zlen []) with 0 in Hf. rewrite Hf, run_bind_Ok. clear Hf.
  assert (map le32_chunk fs = map (le 4) fs) as ->
    by (apply map_ext; intros x; by rewrite le_bytes_at4).
  rewrite (digest_chunks _ [preimage domain name fs]).
  2:{ rewrite !concat_app, Hl. unfold preimage. cbn [concat]. unfold le32_chunk.
      rewrite <- le_bytes_at4, !app_nil_r, <- !app_assoc. done. }
  destruct (EVP_blake2s256 _) as [d|] eqn:Ed; [|done].
  apply digest_length in Ed as [Hlen _]. rewrite (proj2 (Z.ltb_ge (zlen d) 16)) by lia.
  rewrite rd_bytes_take_drop by lia. rewrite run_bind_Ok.
  destruct (block_split out 0 16) as (a & m & c & -> & Ha & Hm); [lia..|].
  destruct a; [|done]. cbn [app]. change (Z.to_nat 16) with 16%nat. change (Pos.to_nat 16) with 16%nat.
  pose proof (wr_app [] m c (take 16 d) 0 eq_refl ltac:(rewrite length_take; lia)) as Hw.
  cbn [app orb] in Hw |- *. change (drop (Z.to_nat 0) d) with d. rewrite Hw, run_bind_Ok. do 3 f_equal.
  replace 16%nat with (length m) by lia. by rewrite drop_app_length.
Qed.
End Hash.

(** ** Identifiers *)
Section Derive.
Context {ssl : OpenSSL} {laws : DigestLaws ssl}.

Definition derived (pre out : list Z) : Z * option (list Z) :=
  match EVP_blake2s256 [pre] with
  | Some d => (RCLIENT_OK, Some (take 16 d ++ drop 16 out))
  | None => (RCLIENT_ERR_CONFIG, Some out)
  end.

Lemma bucket_id_spec name junk w r out :
  zlen name <= UINT32_MAX -> 16 <= zlen out ->
  r_client_derive_bucket_id (Some (name ++ junk)) (zlen name) w r (Some out) =
  Ok (derived (bucket_preimage name w r) out).
Proof.
  intros Hn Ho. unfold r_client_derive_bucket_id, derived, bucket_preimage.
  change 2 with (zlen [w; r]). rewrite hash_spec, run_bind_Ok by done. unfold digest16.
  by destruct (EVP_blake2s256 _).
Qed.

Lemma tracker_id_spec name junk t m k out :
  zlen name <= UINT32_MAX -> 16 <= zlen out ->
  r_client_derive_latency_tracker_id (Some (name ++ junk)) (zlen name) t m k (Some out) =
  Ok (derived (tracker_preimage name t m k) out).
Proof.
  intros Hn Ho. unfold r_client_derive_latency_tracker_id, derived, tracker_preimage.
  change 3 with (zlen [t; m; k]). rewrite hash_spec, run_bind_Ok by done. unfold digest16.
  by destruct (EVP_blake2s256 _).
Qed.
End Derive.

Lemma bucket_tracker_disjoint n w r n' t m k :
  bucket_preimage n w r <> tracker_preimage n' t m k.
Proof.
  intros E. unfold bucket_preimage, tracker_preimage, preimage in E. apply cstr_prefix in E.
  - done.
  - unfold cbytes; cbn; set_solver by lia.
  - unfold cbytes; cbn; set_solver by lia.
Qed.

(** ** The public key parser *)
Definition key_info_of (k : api_key) : r_auth_key_info :=
  let q := ak_quotas k in
  mk_key_info (bq_format_version q) (ak_type k) (ak_key_id k) (ak_secret k) 32
    (bq_rate_buckets_max q) (bq_latency_services_max q) (bq_metrics_labels_max q)
    (bq_latency_buffer_size_max q) (bq_dedup_ttl_ms_max q) (bq_rate_window_size_ms_max q).

Lemma key_decode_type text k :
  key_decode text = Some k -> ak_type k = R_AUTH_COOKIE \/ ak_type k = R_AUTH_AES_GCM.
Proof.
  unfold key_decode, payload_key. destruct (bech32_decode text) as [[hrp p]|]; [|done]. cbn [mbind option_bind].
  destruct (bool_decide (hrp = cbytes "rl-cookie")), (bool_decide (hrp = cbytes "rl-aes"));
    cbn [mbind option_bind]; try done; (destruct (_ || _); [done|]);
    (destruct (quotas_of _); [|done]); cbn [mbind option_bind]; intros [= <-]; auto.
Qed.

Lemma key_decode_secret text k :
  key_decode text = Some k -> length (ak_secret k) = 32%nat.
Proof.
  unfold key_decode, payload_key. destruct (bech32_decode text) as [[hrp p]|]; [|done]. cbn [mbind option_bind].
  destruct (if bool_decide _ then _ else _) as [ty|]; [|done]. cbn [mbind option_bind].
  destruct (zlen p =? 45) eqn:E; [|done]. cbn [negb orb]. destruct (negb _); [done|].
  destruct (quotas_of _); [|done]. cbn [mbind option_bind]. intros [= <-]. cbn [ak_secret].
  breflect. rewrite length_take, length_drop. lia.
Qed.

Lemma parse_auth_key_spec (mem : allocs) text rest info :
  0 ∉ text -> zlen text <= 2 ^ 59 ->
  r_client_parse_auth_key mem (Some (text ++ 0 :: rest)) (Some info) =
  Ok (match (if mem 0%nat && mem 1%nat && mem 2%nat && mem 3%nat then key_decode text else None) with
      | Some k => (RCLIENT_OK, Some (key_info_of k))
      | None => (RCLIENT_ERR_CONFIG, Some key_info_zero)
      end).
Proof.
  intros Hn Hl. unfold r_client_parse_auth_key.
  pose proof (decode_spec mem text rest 32 (replicate 32 0) (Some quotas_zero) 0 0 0 Hn Hl ltac:(done)) as Hd.
  cbn [key_info_zero ki_secret].
  set (b := mem 0%nat && mem 1%nat && mem 2%nat && mem 3%nat) in *.
  destruct (if b then key_decode text else None) as [k|] eqn:Ek; unfold decoded in Hd.
  - rewrite Hd, run_bind_Ok. cbn [Z.eqb negb ko_type ko_key_id ko_secret ko_secret_len ko_quotas store
      fmap option_fmap option_map deref of_option]. rewrite !run_bind_Ok.
    destruct b in Ek; [|done].
    rewrite drop_ge, app_nil_r by done. cbn [negb orb].
    unfold key_info_of. destruct (key_decode_type text k Ek) as [->| ->]; done.
  - destruct Hd as (o & -> & _ & _). done.
Qed.

(** ** The default tenant name *)
Lemma dec_digits_length fuel n acc : (length (dec_digits fuel n acc) <= fuel + length acc)%nat.
Proof.
  revert n acc; induction fuel as [|fuel IH]; intros n acc; simpl; [lia|]. case_if; [simpl; lia|].
  etransitivity; [apply IH|]. simpl. lia.
Qed.

(** The decimal text denotes the number. *)
Definition undec (ds : list Z) : Z := foldl (fun n d => n * 10 + (d - chr "0")) 0 ds.

Lemma undec_digits fuel n acc :
  0 <= n < 10 ^ Z.of_nat fuel ->
  exists pre, dec_digits fuel n acc = pre ++ acc /\ undec pre = n.
Proof.
  revert n acc; induction fuel as [|fuel IH]; intros n acc Hn.
  { exists []. split; [done|]. unfold undec. simpl. change (10 ^ Z.of_nat 0) with 1 in Hn. lia. }
  cbn [dec_digits]. pose proof (Z.div_mod n 10 ltac:(lia)). pose proof (Z.mod_pos_bound n 10 ltac:(lia)).
  destruct (Z.eqb_spec (n / 10) 0) as [E|E].
  { exists [chr "0" + n mod 10]. split; [done|]. unfold undec. cbn [foldl]. lia. }
  destruct (IH (n / 10) ((chr "0" + n mod 10) :: acc)) as (pre & -> & Hp).
  { replace (Z.of_nat (S fuel)) with (Z.of_nat fuel + 1) in Hn by lia.
    rewrite Z.pow_add_r in Hn by lia. split; [apply Z.div_pos; lia|apply Z.div_lt_upper_bound; lia]. }
  exists (pre ++ [chr "0" + n mod 10]). split; [by rewrite <- app_assoc|].
  unfold undec in *. rewrite foldl_app. cbn [foldl]. rewrite Hp. lia.
Qed.

Lemma tenant_dns_length key_id : zlen (default_tenant_dns key_id) <= 41.
Proof.
  unfold default_tenant_dns, dec_u64. rewrite !length_app.
  pose proof (dec_digits_length 20 key_id []). change (length (cbytes "c-")) with 2%nat.
  change (length (cbytes ".p0.ratelimitly.com")) with 19%nat. simpl in *. lia.
Qed.

Lemma tenant_dns_spec key_id out cap :
  0 <= cap <= zlen out ->
  exists out', r_client_format_default_tenant_dns key_id (Some out) cap =
    Ok (if zlen (default_tenant_dns key_id) <? cap then RCLIENT_OK else RCLIENT_ERR_CONFIG, Some out') /\
    (zlen (default_tenant_dns key_id) < cap ->
     out' = default_tenant_dns key_id ++ 0 :: drop (length (default_tenant_dns key_id) + 1) out) /\
    (0 < cap <= zlen (default_tenant_dns key_id) -> rd out' 0 = Ok 0).
Proof.
  intros Hcap. unfold r_client_format_default_tenant_dns. set (text := default_tenant_dns key_id).
  destruct (Z.eqb_spec cap 0) as [->|Hc].
  { exists out. rewrite (proj2 (Z.ltb_ge (zlen text) 0)) by lia. split; [done|]. split; lia. }
  destruct (wr_defined out 0 [0]) as [o1 H1]; [lia|simpl; lia|]. rewrite H1, run_bind_Ok.
  pose proof (wr_Ok _ _ _ _ H1) as (_ & _ & Hl1).
  set (st := take (Z.to_nat (cap - 1)) text ++ [0]).
  assert (Hst : zlen st <= cap) by (unfold st; rewrite length_app, length_take; simpl; lia).
  destruct (wr_defined o1 0 st) as [o2 H2]; [lia..|]. rewrite H2, run_bind_Ok.
  pose proof (wr_Ok _ _ _ _ H2) as (_ & _ & Hl2).
  destruct (Z.leb_spec cap (zlen text)) as [Hle|Hgt].
  - destruct (wr_defined o2 0 [0]) as [o3 H3]; [lia|simpl; lia|]. rewrite H3, run_bind_Ok.
    exists o3. rewrite (proj2 (Z.ltb_ge (zlen text) cap)) by lia. split; [done|]. split; [lia|].
    intros _. unfold wr in H3. destruct (in_block _ _ _); [|done]. by injection H3 as <-.
  - exists o2. rewrite (proj2 (Z.ltb_lt (zlen text) cap)) by lia. split; [done|]. split; [|lia].
    intros _. assert (Est : st = text ++ [0]) by (unfold st; rewrite take_ge by lia; done).
    apply wr0_eq in H2 as ->. rewrite Est, length_app, <- app_assoc. cbn [app length].
    apply wr0_eq in H1 as ->. rewrite Nat.add_1_r. cbn [length app drop]. by rewrite drop_drop.
Qed.

(** What a decoded key holds fits the members it is stored in. *)
Lemma regroup_bytes vs p : regroup vs = Some p -> is_bytes p.
Proof. unfold regroup. destruct (_ || _); [done|]. intros [= <-]. apply be_bytes_bytes. Qed.

Lemma bech32_payload_bytes text hrp p : bech32_decode text = Some (hrp, p) -> is_bytes p.
Proof.
  unfold bech32_decode. destruct (_ || _); [done|].
  destruct (split_last _ _) as [[h d]|]; [|done]. cbn [mbind option_bind].
  destruct (_ || _); [done|]. destruct (values_of d) as [vs|]; [|done]. cbn [mbind option_bind].
  destruct (negb _); [done|]. destruct (regroup _) as [q|] eqn:Er; [|done]. cbn [mbind option_bind].
  intros [= _ <-]. by eapply regroup_bytes.
Qed.

Lemma key_decode_wf text k :
  key_decode text = Some k ->
  is_bytes (ak_secret k) /\ is_u64 (ak_key_id k) /\ is_u32 (bq_dedup_ttl_ms_max (ak_quotas k)).
Proof.
  unfold key_decode. destruct (bech32_decode text) as [[hrp p]|] eqn:Eb; [|done]. cbn [mbind option_bind].
  apply bech32_payload_bytes in Eb. unfold payload_key.
  destruct (if bool_decide _ then _ else _) as [ty|]; [|done]. cbn [mbind option_bind].
  destruct (zlen p =? 45) eqn:E; [|done]. cbn [negb orb]. destruct (negb _); [done|]. breflect.
  destruct (quotas_of _) as [q|] eqn:Eq; [|done]. cbn [mbind option_bind]. intros [= <-].
  cbn [ak_secret ak_key_id ak_quotas]. split; [by apply Forall_take, Forall_drop|]. split.
  - pose proof (unle_bound (take 8 (drop 1 p)) ltac:(by apply Forall_take, Forall_drop)) as Hu.
    rewrite length_take, length_drop in Hu. replace (8 `min` (length p - 1))%nat with 8%nat in Hu by lia.
    exact Hu.
  - apply quotas_range in Eq. rlia.
Qed.

Lemma key_decode_quotas text k :
  key_decode text = Some k ->
  let q := ak_quotas k in
  1 <= bq_rate_buckets_max q <= 2 ^ 24 /\ 1 <= bq_latency_services_max q <= 2 ^ 24 /\
  1 <= bq_metrics_labels_max q <= 2 ^ 31 /\ 1 <= bq_latency_buffer_size_max q <= 2 ^ 15 /\
  10 <= bq_dedup_ttl_ms_max q <= 2000 /\ 1 <= bq_rate_window_size_ms_max q <= UINT32_MAX.
Proof.
  unfold key_decode, payload_key. destruct (bech32_decode text) as [[hrp p]|]; [|done]. cbn [mbind option_bind].
  destruct (if bool_decide _ then _ else _) as [ty|]; [|done]. cbn [mbind option_bind].
  destruct (_ || _); [done|]. destruct (quotas_of _) as [q|] eqn:Eq; [|done]. cbn [mbind option_bind].
  intros [= <-]. cbn [ak_quotas]. by eapply quotas_range.
Qed.
