(* ===== verification/PacketFacts.v ===== *)
(** * Request and report packets

    The bytes a packet builder leaves: tenant header, authentication block and
    PDU, at most [R_MAX_PACKET_SIZE] bytes in all. *)

From Stdlib Require Import String Ascii.
From S2P Require Import Prelude.
From S2P Require Import Types.
From S2P Require Import Wire.
From S2P Require Import WireFacts.
From S2P Require Import Crypto.
From S2P Require Import CryptoFacts.
From S2P Require Import Workflow.
From S2P Require Import State.
From S2P Require Import Hoare.
From S2P Require Import Schedule.
From S2P Require Import Dns.
From S2P Require Import DnsFacts.
From S2P Require Import Request.
From S2P Require Import RequestFacts.

(** The credential of a configured client. *)
Record auth_ok (c : client_fixed) : Prop := {
  ao_cookie : zlen (cf_cookie c) = 32;
  ao_cookie_bytes : is_bytes (cf_cookie c);
  ao_aes_key : zlen (cf_aes_key c) = 32;
  ao_key_id : is_u64 (cf_key_id c);
}.

Lemma stack_buffer_len : zlen stack_buffer = R_MAX_PACKET_SIZE.
Proof. unfold stack_buffer. rewrite length_replicate. csts. lia. Qed.

(** A [built] buffer of the stack holds the bytes it reports. *)
Lemma built_stack fits bytes r :
  built stack_buffer (zlen stack_buffer) 0 fits bytes r ->
  (fits = true -> zlen bytes <= R_MAX_PACKET_SIZE) ->
  exists out', r = Ok (if fits then RCLIENT_OK else RCLIENT_ERR_PROTOCOL, Some out',
                       Some (if fits then zlen bytes else 0)) /\
    zlen out' = R_MAX_PACKET_SIZE /\ (fits = true -> rd_bytes out' 0 (zlen bytes) = Ok bytes).
Proof.
  intros (out' & -> & Hl & _ & Ht) Hb. exists out'. split; [done|].
  split; [rewrite Hl; apply stack_buffer_len|]. intros Hf. specialize (Hb Hf). unfold rd_bytes.
  rewrite (proj2 (in_block_spec _ _ _)) by (rewrite Hl, stack_buffer_len; lia).
  rewrite Nat2Z.id. simpl. by rewrite drop_0, Ht.
Qed.

Section Packets.
Context {W : Type} `{HL : HostLaws W} {ssl : OpenSSL} {laws : AesGcmLaws ssl}.
Implicit Types s : sys W.

(** [bytes] is [hdr] and [pdu] under the client's credential. *)
Inductive sealed (c : client_fixed) (hdr pdu : list Z) : list Z -> Prop :=
| sealed_cookie :
    cf_auth_type c = R_AUTH_COOKIE -> cf_has_cookie c = true ->
    sealed c hdr pdu (hdr ++ le 2 R_TLV_AUTH_COOKIE ++ le 2 36 ++ cf_cookie c ++ pdu)
| sealed_aes nonce ct tag :
    cf_auth_type c = R_AUTH_AES_GCM -> cf_has_aes_key c = true -> zlen nonce = 12 ->
    EVP_aes_256_gcm_seal (cf_aes_key c) nonce [hdr ++ le 2 R_TLV_AUTH_AES ++ le 2 32; nonce] pdu
      = Some (ct, tag) ->
    sealed c hdr pdu (hdr ++ le 2 R_TLV_AUTH_AES ++ le 2 32 ++ nonce ++ tag ++ ct).

(** The host's memory, its random source and the cipher never fail. *)
Definition sources_work : Prop :=
  never_fails W /\ (forall n (w : W), is_Some (fst (h_rand_bytes n w))) /\
  (forall key nonce aad plain, is_Some (EVP_aes_256_gcm_seal key nonce aad plain)).

(** The bytes a credential takes between the tenant header and the PDU. *)
Definition auth_size (c : client_fixed) : Z :=
  if cf_auth_type c =? R_AUTH_COOKIE then 4 + 32 else 4 + 12 + 16.

(** Why a packet for a PDU of [n] bytes is not built: the client has no
    credential, the packet is too large, or the nonce or the cipher failed. *)
Inductive unsealed (c : client_fixed) (n : Z) : Z -> Prop :=
| unsealed_type :
    cf_auth_type c <> R_AUTH_COOKIE -> cf_auth_type c <> R_AUTH_AES_GCM -> unsealed c n RCLIENT_ERR_CONFIG
| unsealed_cookie :
    cf_auth_type c = R_AUTH_COOKIE -> cf_has_cookie c = false -> unsealed c n RCLIENT_ERR_AUTH
| unsealed_key :
    cf_auth_type c = R_AUTH_AES_GCM -> cf_has_aes_key c = false -> unsealed c n RCLIENT_ERR_AUTH
| unsealed_size :
    R_MAX_PACKET_SIZE < R_TENANT_TLV_LEN + auth_size c + n -> unsealed c n RCLIENT_ERR_PROTOCOL
| unsealed_source :
    cf_auth_type c = R_AUTH_AES_GCM -> ~ sources_work -> unsealed c n RCLIENT_ERR_AUTH.

Lemma unsealed_fails c n rc : unsealed c n rc -> rc <> RCLIENT_OK.
Proof. destruct 1; csts; lia. Qed.

(** One more write at the end of what is already in the buffer. *)
Lemma append_wp out bs out1 off b (Q : list Z -> sys W -> Prop) s :
  wr out 0 bs = Ok out1 -> off = zlen bs -> zlen bs + zlen b <= zlen out ->
  (forall out2, wr out 0 (bs ++ b) = Ok out2 -> Q out2 s) -> wp (lift (wr out1 off b)) Q s.
Proof.
  intros H1 -> Hle HQ. destruct (wr_defined out 0 (bs ++ b)) as [out2 H2];
    [lia | rewrite length_app; lia|].
  eapply wp_lift; [|by apply HQ]. rewrite <- H2. by eapply wr_wr_at.
Qed.

Definition seal_post (c : client_fixed) (hdr pdu out : list Z) s (r : Z * list Z * Z) s' : Prop :=
  only_world s s' /\ let '(rc, out', pos) := r in
  zlen out' = zlen out /\
  (rc = RCLIENT_OK -> exists bytes, sealed c hdr pdu bytes /\ wr out 0 bytes = Ok out' /\
     pos = zlen bytes /\ zlen bytes <= R_MAX_PACKET_SIZE) /\
  (rc <> RCLIENT_OK -> unsealed c (zlen pdu) rc).

Lemma seal_fail c hdr pdu out out' rc s s' :
  unsealed c (zlen pdu) rc -> zlen out' = zlen out -> only_world s s' ->
  seal_post c hdr pdu out s (rc, out', 0) s'.
Proof.
  intros Hrc Hl Hw. split; [done|]. split; [done|]. split; [|done]. intros ->.
  by apply unsealed_fails in Hrc.
Qed.

Lemma only_world_refl s : only_world s s.
Proof. exists (s_world s). by destruct s. Qed.
Lemma only_world_trans s1 s2 s3 : only_world s1 s2 -> only_world s2 s3 -> only_world s1 s3.
Proof. intros [w ->] [w' ->]. by exists w'. Qed.

Lemma seal_cookie_wp c out0 out hdr pdu pb s :
  auth_ok c -> cf_auth_type c = R_AUTH_COOKIE -> zlen hdr = 40 -> wr out0 0 hdr = Ok out ->
  zlen out0 = R_MAX_PACKET_SIZE -> rd_bytes pdu 0 (zlen pb) = Ok pb -> zlen pb <= R_MAX_PACKET_SIZE ->
  wp (seal_packet c out R_MAX_PACKET_SIZE pdu (zlen pb)) (seal_post c hdr pb out0 s) s.
Proof.
  intros Hauth Hty Hh Hout Hlen Hpdu Hpl. pose proof (wr_Ok _ _ _ _ Hout) as (_ & _ & Hl).
  destruct Hauth as [Hck _ _ _]. unfold seal_packet. rewrite Hty. simpl Z.eqb. csts.
  apply wp_if; intros Eh; breflect.
  { wp_step. apply seal_fail; [by apply unsealed_cookie | lia | apply only_world_refl]. }
  unwrap. apply wp_if; intros Efit.
  { wp_step. apply seal_fail; [|lia | apply only_world_refl]. apply unsealed_size. unfold auth_size.
    rewrite Hty. breflect. csts. simpl Z.eqb. cbv iota. lia. }
  breflect. rewrite r_write_le16_wr. wp_step.
  eapply append_wp; [exact Hout | lia | rewrite le_length; lia|]. intros o1 H1.
  rewrite r_write_le16_wr. wp_step.
  eapply append_wp; [exact H1 | rewrite length_app, le_length; lia |
    rewrite length_app, !le_length; lia|]. intros o2 H2.
  wp_step. eapply wp_lift; [by apply rd_bytes_whole|]. wp_step.
  eapply append_wp; [exact H2 | rewrite !length_app, !le_length; lia |
    rewrite !length_app, !le_length; lia|]. intros o3 H3.
  wp_step. eapply wp_lift; [exact Hpdu|]. wp_step.
  eapply append_wp; [exact H3 | rewrite !length_app, !le_length; lia |
    rewrite !length_app, !le_length; lia|]. intros o4 H4.
  rewrite zltb_false by rlia. wp_step. pose proof (wr_Ok _ _ _ _ H4) as (_ & _ & Hl4).
  split; [apply only_world_refl|]. split; [lia|]. split; [|done]. intros _. eexists. split; [by apply sealed_cookie|].
  rewrite <- !app_assoc in H4. split; [exact H4|].
  rewrite !length_app, !le_length. csts. lia.
Qed.

(** The three fields after the encryption: nonce, tag, ciphertext. *)
Lemma seal_aes_tail_wp c hdr pb out0 o2 rand o s s0 :
  cf_auth_type c = R_AUTH_AES_GCM -> cf_has_aes_key c = true -> zlen hdr = 40 ->
  (forall r, rand = Some r -> zlen r = 12) ->
  wr out0 0 (hdr ++ le 2 R_TLV_AUTH_AES ++ le 2 32) = Ok o2 ->
  zlen out0 = R_MAX_PACKET_SIZE -> 72 + zlen pb <= R_MAX_PACKET_SIZE -> only_world s0 s ->
  encrypted rand (cf_aes_key c) (hdr ++ le 2 R_TLV_AUTH_AES ++ le 2 32) pb o ->
  wp (cipher_len ← lift (deref (eo_cipher_len o));
      if R_MAX_PACKET_SIZE <? (((44 +64 12) +64 16) +64 cipher_len)
      then mret (RCLIENT_ERR_PROTOCOL, o2, 0) else
      nonce ← lift (deref (eo_nonce o)); nonce ← lift (rd_bytes nonce 0 12);
      out ← lift (wr o2 44 nonce);
      tag ← lift (deref (eo_tag o)); tag ← lift (rd_bytes tag 0 16);
      out ← lift (wr out (44 +64 12) tag);
      cipher ← lift (deref (eo_cipher o)); cipher ← lift (rd_bytes cipher 0 cipher_len);
      out ← lift (wr out ((44 +64 12) +64 16) cipher);
      if R_MAX_PACKET_SIZE <? (((44 +64 12) +64 16) +64 cipher_len)
      then mret (RCLIENT_ERR_PROTOCOL, out, 0)
      else mret (RCLIENT_OK, out, (((44 +64 12) +64 16) +64 cipher_len)))
    (seal_post c hdr pb out0 s0) s.
Proof.
  intros Hty Hkey Hh Hr Ho2 Hlen Hfit Hw (r & ct & t & cb & -> & Es & E1 & E2 & E3 & E4 & E5).
  specialize (Hr r eq_refl). destruct (gcm_seal_lengths _ _ _ _ _ _ Es) as (Hc & Ht & _).
  wp_step. eapply wp_lift; [by rewrite E1|]. csts. unwrap.
  rewrite (zltb_false 1200 (44 + 12 + 16 + zlen ct)) by lia.
  wp_step. eapply wp_lift; [by rewrite E2|]. wp_step. eapply wp_lift; [by apply rd_bytes_whole|].
  wp_step. eapply append_wp; [exact Ho2 | rewrite !length_app, !le_length; lia |
    rewrite !length_app, !le_length; lia|]. intros o3 H3.
  wp_step. eapply wp_lift; [by rewrite E3|].
  wp_step. eapply wp_lift; [apply rd_bytes_whole; lia|].
  wp_step. eapply append_wp; [exact H3 | rewrite !length_app, !le_length; lia |
    rewrite !length_app, !le_length; lia|]. intros o4 H4.
  wp_step. eapply wp_lift; [by rewrite E4|]. wp_step. eapply wp_lift; [exact E5|].
  wp_step. eapply append_wp; [exact H4 | rewrite !length_app, !le_length; lia |
    rewrite !length_app, !le_length; lia|]. intros o5 H5.
  wp_step. pose proof (wr_Ok _ _ _ _ H5) as (_ & _ & Hl5).
  split; [done|]. split; [lia|]. split; [|done]. intros _. eexists. split; [by eapply sealed_aes|].
  rewrite <- !app_assoc in H5. split; [exact H5|]. rewrite !length_app, !le_length. csts. lia.
Qed.

Lemma seal_aes_wp c out0 out hdr pdu pb s :
  auth_ok c -> cf_auth_type c = R_AUTH_AES_GCM -> zlen hdr = 40 -> wr out0 0 hdr = Ok out ->
  zlen out0 = R_MAX_PACKET_SIZE -> rd_bytes pdu 0 (zlen pb) = Ok pb -> zlen pb <= R_MAX_PACKET_SIZE ->
  wp (seal_packet c out R_MAX_PACKET_SIZE pdu (zlen pb)) (seal_post c hdr pb out0 s) s.
Proof.
  intros Hauth Hty Hh Hout Hlen Hpdu Hpl. pose proof (wr_Ok _ _ _ _ Hout) as (_ & _ & Hl).
  destruct Hauth as [_ _ Hk _]. unfold seal_packet. rewrite Hty. simpl Z.eqb. cbv iota.
  apply wp_if; intros Eh; breflect.
  { wp_step. apply seal_fail; [by apply unsealed_key | lia | apply only_world_refl]. }
  change (R_TENANT_TLV_LEN +64 4) with 44.
  apply wp_if; intros Efit.
  { wp_step. apply seal_fail; [|lia | apply only_world_refl]. apply unsealed_size. unfold auth_size.
    rewrite Hty. breflect. csts. unwrap. simpl Z.eqb. cbv iota. lia. }
  breflect. change (R_TENANT_TLV_LEN) with 40 in *. change R_MAX_PACKET_SIZE with 1200 in *.
  rewrite r_write_le16_wr. wp_step.
  eapply append_wp; [exact Hout | lia | rewrite le_length; lia|]. intros o1 H1.
  rewrite r_write_le16_wr. wp_step.
  eapply append_wp; [exact H1 | rewrite length_app, le_length; lia |
    rewrite length_app, !le_length; lia|]. intros o2 H2.
  rewrite <- app_assoc in H2. pose proof (wr_Ok _ _ _ _ H2) as (_ & _ & Hl2).
  wp_step. apply wp_world_op. intros rand w Er.
  assert (Hr : forall r, rand = Some r -> zlen r = 12).
  { intros r ->. by destruct (rand_bytes_len _ _ _ _ Er). }
  apply (wp_seq _ _ (fun ok s' => only_world s s' /\ (never_fails W -> is_Some rand -> ok = true))).
  { apply wp_if; intros En.
    - wp_step. split; [by eexists|]. intros _ [r ->]. done.
    - apply wp_alloc. intros ok w' Hok. split; [by eexists|auto]. }
  intros ctx_ok s1 [Hs1 Hctx]. wp_step.
  edestruct (encrypt_spec rand ctx_ok pdu pb (cf_aes_key c) o2
    (hdr ++ le 2 R_TLV_AUTH_AES ++ le 2 32) 1200 stack_buffer) as (rc & o & Ee & Hrc).
  1: done. 1: done. 1: by eapply rd_bytes_wr0.
  1: rewrite !length_app, !le_length; lia.
  1: unfold stack_buffer; rewrite length_replicate; csts; lia. 1: done.
  eapply wp_lift.
  { rewrite !length_app, !le_length in Ee. replace (zlen stack_buffer) with 1200
      by (unfold stack_buffer; rewrite length_replicate; done).
    replace 44 with (Z.of_nat (length hdr + (2 + 2))) by lia. exact Ee. }
  cbv iota beta. destruct Hrc as [[-> Henc]|[-> Hno]].
  2:{ simpl. wp_step. apply seal_fail; [|lia | done]. apply unsealed_source; [done|].
      intros (Hal & Hra & Hev). specialize (Hra 12 (s_world s)). rewrite Er in Hra. cbn in Hra. destruct Hra as [r ->].
      destruct (Hev (cf_aes_key c) r [hdr ++ le 2 R_TLV_AUTH_AES ++ le 2 32; r] pb) as [x Ex].
      rewrite (Hno r) in Ex; [done|done|by apply Hctx]. }
  cbn [Z.eqb negb]. eapply seal_aes_tail_wp; try done. csts. unwrap. lia.
Qed.

Lemma seal_packet_wp c out0 out hdr pdu pb s :
  auth_ok c -> zlen hdr = 40 -> wr out0 0 hdr = Ok out ->
  zlen out0 = R_MAX_PACKET_SIZE -> rd_bytes pdu 0 (zlen pb) = Ok pb -> zlen pb <= R_MAX_PACKET_SIZE ->
  wp (seal_packet c out R_MAX_PACKET_SIZE pdu (zlen pb)) (seal_post c hdr pb out0 s) s.
Proof.
  intros. destruct (Z.eqb_spec (cf_auth_type c) R_AUTH_COOKIE) as [E|E]; [by eapply seal_cookie_wp|].
  destruct (Z.eqb_spec (cf_auth_type c) R_AUTH_AES_GCM) as [E'|E']; [by eapply seal_aes_wp|].
  unfold seal_packet. rewrite (proj2 (Z.eqb_neq _ _) E), (proj2 (Z.eqb_neq _ _) E'). wp_step.
  match goal with Hw : wr _ _ _ = Ok _ |- _ => apply wr_Ok in Hw as (_ & _ & Hl) end.
  apply seal_fail; [by apply unsealed_type | lia | apply only_world_refl].
Qed.

(** The inputs of a request as the API accepts them. *)
Record inputs_ok (r : r_client_req) (gs : list r_latency_guard) (rs : list r_resource_request)
    (ol : option (list Z)) : Prop := {
  io_guards : array_arg (rq_guards r) gs;
  io_guard_count : rq_guard_count r = zlen gs;
  io_resources : array_arg (rq_resources r) rs;
  io_resource_count : rq_resource_count r = zlen rs;
  io_wf_guards : Forall wf_latency_guard gs;
  io_wf_resources : Forall wf_resource_request rs;
  io_guards_object : is_object gs;
  io_resources_object : is_object rs;
  io_label : effective_label (rq_metrics_label r) (rq_metrics_label_len r) = Ok ol;
}.

Definition request_tenant (c : client_fixed) (id : list Z) (ts : Z) : r_tenant_header :=
  mk_tenant R_TLV_TENANT R_TENANT_TLV_LEN (cf_key_id c) id ts 0 0 0 0.

Lemma request_tenant_wf c id ts :
  auth_ok c -> is_id16 id -> is_u64 ts -> wf_tenant (request_tenant c id ts).
Proof. intros [_ _ _ Hk] Hid Hts. repeat split; simpl; try done; try apply Hid; try rlia. Qed.

Definition request_pdu (r : r_client_req) gs rs ol : list Z :=
  ser_request_pdu (rq_dedup_ttl_ms r) (ser_request_body gs rs ol).

Lemma auth_size_pos c : 0 < auth_size c.
Proof. unfold auth_size. destruct (cf_auth_type c =? R_AUTH_COOKIE); lia. Qed.

(** A body that does not fit is too large. *)
Lemma request_too_large gs rs ol cap :
  Forall wf_latency_guard gs -> Forall wf_resource_request rs -> request_fits gs rs ol cap = false ->
  Z.min 0xffff cap < 8 + zlen (ser_request_body gs rs ol).
Proof.
  intros HG HR. pose proof (request_body_length gs rs ol HG HR) as Hl. unfold request_fits, label_fits.
  unfold R_GUARD_BLOCK_WIRE_LEN, R_RESOURCE_BLOCK_WIRE_LEN in Hl. destruct ol as [l|]; cbn [ser_opt_label] in Hl.
  - pose proof (ser_label_length l). lia.
  - simpl length in Hl. lia.
Qed.

(** The packet of a request, when one is built, is the tenant header with
    the client's key id, the request id and the start time, the credential's
    authentication block, and the PDU that serializes exactly the request's
    guards, resources and label with its TTL; it is at most 1200 bytes, every
    other outcome is an error code, and nothing but the host's random source,
    allocator and clock is consulted. *)
Lemma rate_request_packet_spec p r gs rs ol out s :
  s_reqs s !! p = Some r -> auth_ok (cl_fixed (s_client s)) -> inputs_ok r gs rs ol ->
  is_id16 (rq_request_id r) -> is_u64 (rq_start_ms r) -> zlen out = R_MAX_PACKET_SIZE ->
  wp (r_build_rate_request_packet p out R_MAX_PACKET_SIZE) (fun res s' =>
    only_world s s' /\ let '(rc, out', n) := res in
    zlen out' = zlen out /\
    (rc = RCLIENT_OK -> exists ts bytes,
       is_u64 ts /\ (rq_start_ms r <> 0 -> ts = rq_start_ms r) /\
       sealed (cl_fixed (s_client s)) (ser_tenant (request_tenant (cl_fixed (s_client s))
                 (rq_request_id r) ts)) (request_pdu r gs rs ol) bytes /\
       n = zlen bytes /\ zlen bytes <= R_MAX_PACKET_SIZE /\
       take (Z.to_nat n) out' = bytes) /\
    (rc <> RCLIENT_OK -> unsealed (cl_fixed (s_client s)) (8 + zlen (ser_request_body gs rs ol)) rc)) s.
Proof.
  intros Hp Hauth [G1 G2 R1 R2 WG WR OG OR HLb] Hid Hst Hout.
  unfold r_build_rate_request_packet. do 4 wp_step. rewrite G2, R2.
  assert (Hso : is_object stack_buffer) by (unfold is_object; rewrite stack_buffer_len; clia).
  assert (Hfit : request_fits gs rs ol (zlen stack_buffer) = true ->
                 zlen (ser_request_body gs rs ol) <= R_MAX_PACKET_SIZE).
  { intros Hf. unfold request_fits in Hf. breflect. pose proof stack_buffer_len. lia. }
  destruct (built_stack _ _ _ (rate_request_body_built _ _ gs rs _ _ ol stack_buffer
    (zlen stack_buffer) 0 G1 R1 WG WR OG OR Hso ltac:(lia) HLb) Hfit) as (body & Eb & Hbl & Hb).
  wp_step. eapply wp_lift; [exact Eb|]. destruct (request_fits gs rs ol _) eqn:Ef.
  2:{ cbn. wp_step. split; [apply only_world_refl|]. split; [done|]. split; [csts; lia|]. intros _.
      apply unsealed_size. pose proof (request_too_large gs rs ol _ WG WR Ef) as Hb'.
      pose proof (auth_size_pos (cl_fixed (s_client s))). rewrite stack_buffer_len in Hb'. csts. lia. }
  specialize (Hb eq_refl). rc_ok. wp_step. eapply wp_lift; [done|].
  assert (Hbo : is_object body) by (unfold is_object; rewrite Hbl; clia).
  assert (Hfit' : pdu_fits (ser_request_body gs rs ol) (zlen stack_buffer) = true ->
                  zlen (request_pdu r gs rs ol) <= R_MAX_PACKET_SIZE).
  { intros Hf. unfold pdu_fits in Hf. breflect. pose proof stack_buffer_len.
    unfold request_pdu, ser_request_pdu. rewrite !length_app, !le_length. lia. }
  destruct (built_stack _ _ _ (request_pdu_built (rq_dedup_ttl_ms r) body
    (ser_request_body gs rs ol) stack_buffer (zlen stack_buffer) 0 Hb Hbo Hso ltac:(lia)) Hfit')
    as (pdu & Ep & Hpl & Hpdu).
  wp_step. eapply wp_lift; [exact Ep|]. destruct (pdu_fits _ _) eqn:Epf.
  2:{ cbn. wp_step. split; [apply only_world_refl|]. split; [done|]. split; [csts; lia|]. intros _.
      apply unsealed_size. pose proof (auth_size_pos (cl_fixed (s_client s))). unfold pdu_fits in Epf.
      rewrite stack_buffer_len in Epf. csts. lia. }
  specialize (Hpdu eq_refl). rc_ok. wp_step. eapply wp_lift; [done|].
  wp_step. eapply wp_lift; [done|]. wp_step. eapply wp_lift.
  { apply rd_bytes_whole. destruct Hid. lia. }
  apply (wp_seq _ _ (fun ts s' => only_world s s' /\ is_u64 ts /\
                       (rq_start_ms r <> 0 -> ts = rq_start_ms r))).
  { destruct (Z.eqb_spec (rq_start_ms r) 0) as [E|E]; cbn [negb].
    - apply now_ms_wp. intros ts s1 Hts Hw. done.
    - wp_step. split; [apply only_world_refl|done]. }
  intros ts s1 (Hw1 & Hts & Hteq). fold (request_tenant (cl_fixed (s_client s)) (rq_request_id r) ts).
  pose proof (request_tenant_wf _ _ _ Hauth Hid Hts) as Hwf.
  change (R_MAX_PACKET_SIZE <? R_TENANT_TLV_LEN) with false. cbv iota.
  destruct (wr_defined out 0 (ser_tenant (request_tenant (cl_fixed (s_client s))
    (rq_request_id r) ts))) as [out1 H1]; [lia | rewrite ser_tenant_length by done; clia|].
  wp_step. eapply wp_lift.
  { rewrite tenant_header_write_wr by (done || lia). rewrite H1. done. }
  wp_step. eapply wp_lift; [done|].
  eapply wp_mono; [eapply seal_packet_wp; [done | by apply ser_tenant_length | exact H1 | lia |
                     exact Hpdu|]|].
  { apply rd_bytes_Ok in Hpdu as (_ & ? & ? & _). lia. }
  intros [[rc out'] n] s2 [Hw2 [Hl2 [Hok Hno]]]. split; [by eapply only_world_trans|].
  split; [done|]. split.
  2:{ intros Hrc. specialize (Hno Hrc). unfold request_pdu, ser_request_pdu in Hno.
      rewrite !length_app, !le_length in Hno. destruct Hw1 as [w1 ->].
      replace (Z.of_nat (2 + (2 + (4 + length (ser_request_body gs rs ol))))) with
        (8 + zlen (ser_request_body gs rs ol)) in Hno by lia. exact Hno. }
  intros Hrc. destruct (Hok Hrc) as (bytes & Hs & Hwr & -> & Hlen).
  exists ts, bytes. do 5 (split; [done|]).
  apply rd_bytes_wr0 in Hwr. unfold rd_bytes in Hwr.
  destruct (in_block _ _ _); [|done]. injection Hwr as Hwr. by rewrite drop_0 in Hwr.
Qed.
End Packets.
