(* ===== verification/ExtractFacts.v ===== *)
(** * Authentication of received packets

    Which packets [r_extract_pdu_data] accepts, and that it accepts what the
    packet builders produce. *)

From Stdlib Require Import String Ascii.
From S2P Require Import Prelude.
From S2P Require Import Types.
From S2P Require Import Wire.
From S2P Require Import WireFacts.
From S2P Require Import Crypto.
From S2P Require Import CryptoFacts.
From S2P Require Import Workflow.
From S2P Require Import State.
From S2P Require Import Hoare.
From S2P Require Import Schedule.
From S2P Require Import Dns.
From S2P Require Import DnsFacts.
From S2P Require Import Request.
From S2P Require Import RequestFacts.
From S2P Require Import PacketFacts.

(** Consecutive chunks of a block. *)
Definition chunk (b : list Z) (off n : Z) : list Z := take (Z.to_nat n) (drop (Z.to_nat off) b).

Lemma rd_chunk b off n :
  0 <= off -> 0 <= n -> off + n <= zlen b -> rd_bytes b off n = Ok (chunk b off n).
Proof. intros. unfold rd_bytes. by rewrite (proj2 (in_block_spec _ _ _)) by lia. Qed.

Lemma chunk_length b off n :
  0 <= off -> 0 <= n -> off + n <= zlen b -> zlen (chunk b off n) = n.
Proof. intros. unfold chunk. rewrite length_take, length_drop. lia. Qed.

Lemma chunk_bytes b off n : is_bytes b -> is_bytes (chunk b off n).
Proof. intros. unfold chunk, is_bytes in *. auto using Forall_take, Forall_drop. Qed.

Lemma chunk_app b off n :
  0 <= off -> 0 <= n ->
  chunk b off n ++ drop (Z.to_nat (off + n)) b = drop (Z.to_nat off) b.
Proof.
  intros. unfold chunk. rewrite Z2Nat.inj_add, <- drop_drop by lia. apply take_drop.
Qed.

Lemma chunk_take b off n len :
  0 <= off -> 0 <= n -> off + n <= len -> chunk (take (Z.to_nat len) b) off n = chunk b off n.
Proof.
  intros. unfold chunk.
  replace (Z.to_nat len) with (Z.to_nat off + Z.to_nat (len - off))%nat by lia.
  rewrite <- take_drop_commute, take_take. f_equal. lia.
Qed.

Lemma rd_chunk_take b off n len :
  0 <= off -> 0 <= n -> off + n <= len -> len <= zlen b ->
  rd_bytes b off n = Ok (chunk (take (Z.to_nat len) b) off n).
Proof. intros. rewrite chunk_take by lia. apply rd_chunk; lia. Qed.

Section Extract.
Context {W : Type} `{HL : HostLaws W} {ssl : OpenSSL} {laws : AesGcmLaws ssl}.
Implicit Types s : sys W.

(** [bytes] is [hdr], a valid authentication block for the client's
    credential, and [pdu], in clear or encrypted. *)
Inductive authentic (c : client_fixed) (hdr pdu : list Z) : list Z -> Prop :=
| authentic_cookie :
    cf_auth_type c = R_AUTH_COOKIE -> cf_has_cookie c = true ->
    authentic c hdr pdu (hdr ++ le 2 R_TLV_AUTH_COOKIE ++ le 2 36 ++ cf_cookie c ++ pdu)
| authentic_aes nonce tag ct :
    cf_auth_type c = R_AUTH_AES_GCM -> cf_has_aes_key c = true ->
    zlen nonce = 12 -> zlen tag = 16 -> ct <> [] ->
    EVP_aes_256_gcm_open (cf_aes_key c) nonce
      [hdr ++ le 2 R_TLV_AUTH_AES ++ le 2 32 ++ nonce] ct tag = Some pdu ->
    authentic c hdr pdu (hdr ++ le 2 R_TLV_AUTH_AES ++ le 2 32 ++ nonce ++ tag ++ ct).

(** The TLV header at [pos]. *)
Lemma auth_tlv_spec buf len pos :
  is_bytes buf -> 0 <= pos -> 0 <= len <= zlen buf -> is_object buf -> pos <= len ->
  let b := take (Z.to_nat len) buf in
  let none := mk_auth_out (Some 0) (Some 0) (Some 0) (Some 0) (Some 0) in
  r_parse_auth_tlv_header (Some buf) len pos none = Ok (RCLIENT_ERR_PROTOCOL, none) \/
  exists ty sz, chunk b pos 2 = le 2 ty /\ chunk b (pos + 2) 2 = le 2 sz /\
    4 <= sz <= len - pos /\
    r_parse_auth_tlv_header (Some buf) len pos none =
    Ok (RCLIENT_OK, mk_auth_out (Some ty) (Some sz) (Some (pos + 4)) (Some (sz - 4))
                                (Some (pos + sz))).
Proof.
  intros Hb Hpos Hlen Hobj Hpl b none. unfold is_object in Hobj.
  unfold r_parse_auth_tlv_header. rewrite u64_small by rlia.
  destruct (Z.ltb_spec len (pos + 4)); [by left|].
  rewrite !r_le16_bytes by done. rewrite !(rd_chunk_take _ _ _ len) by lia. fold b.
  assert (Hbb : is_bytes b) by (by apply Forall_take).
  assert (Hbl : zlen b = len) by (unfold b; rewrite length_take; lia).
  rewrite !run_bind_Ok. set (ty := unle (chunk b pos 2)). set (sz := unle (chunk b (pos + 2) 2)).
  assert (Hsz : is_u16 sz) by (apply unle_u16; [by apply chunk_bytes | apply chunk_length; lia]).
  destruct (Z.ltb_spec sz 4); simpl; [by left|]. rewrite u64_small by rlia.
  destruct (Z.ltb_spec len (pos + sz)); simpl; [by left|]. right. exists ty, sz.
  split; [symmetry; apply le_unle_n; [by apply chunk_bytes | rewrite chunk_length; lia]|].
  split; [symmetry; apply le_unle_n; [by apply chunk_bytes | rewrite chunk_length; lia]|].
  split; [lia|]. by rewrite u64_small by rlia.
Qed.

(** The packet as the header, the TLV header and what follows. *)
Lemma split_at b pos n :
  0 <= pos -> 0 <= n -> pos + 4 + n <= zlen b ->
  b = take (Z.to_nat pos) b ++ chunk b pos 2 ++ chunk b (pos + 2) 2 ++ chunk b (pos + 4) n ++
      drop (Z.to_nat (pos + 4 + n)) b.
Proof.
  intros. rewrite chunk_app by lia. replace (pos + 4) with (pos + 2 + 2) by lia.
  rewrite chunk_app by lia. rewrite chunk_app by lia. by rewrite take_drop.
Qed.

Definition extract_post c buf len pos s (r : Z * option (list Z * Z * Z)) s' : Prop :=
  only_world s s' /\ let '(rc, o) := r in
  (rc = RCLIENT_OK -> exists block off n,
     o = Some (block, off, n) /\ 0 <= off /\ 0 <= n /\ off + n <= zlen block /\ is_bytes block /\
     authentic c (take (Z.to_nat pos) (take (Z.to_nat len) buf)) (chunk block off n)
       (take (Z.to_nat len) buf)).

Lemma extract_fail c buf len pos s s' rc o :
  rc <> RCLIENT_OK -> only_world s s' -> extract_post c buf len pos s (rc, o) s'.
Proof. intros Hrc Hw. split; [done|]. done. Qed.

Lemma extract_cookie_wp c buf len pos s :
  auth_ok c -> is_bytes buf -> 0 <= pos -> 0 <= len <= zlen buf -> is_object buf ->
  cf_auth_type c = R_AUTH_COOKIE ->
  chunk (take (Z.to_nat len) buf) pos 2 = le 2 R_TLV_AUTH_COOKIE ->
  chunk (take (Z.to_nat len) buf) (pos + 2) 2 = le 2 36 -> pos + 36 <= len ->
  wp (if negb (cf_has_cookie c) then mret (RCLIENT_ERR_AUTH, None) else
      got ← lift (rd_bytes buf (pos + 4) 32);
      want ← lift (rd_bytes (cf_cookie c) 0 32);
      if negb (bool_decide (got = want)) then mret (RCLIENT_ERR_AUTH, None) else
      mret (RCLIENT_OK, Some (buf, pos + 36, len -64 (pos + 36))))
    (extract_post c buf len pos s) s.
Proof.
  intros Hauth Hb Hpos Hlen Hobj Hty H1 H2 Hle. unfold is_object in Hobj.
  apply wp_if; intros Eh; [wp_step; apply extract_fail; [csts; lia | apply only_world_refl]|].
  apply negb_false_iff in Eh.
  wp_step. eapply wp_lift; [apply (rd_chunk_take _ _ _ len); lia|].
  wp_step. eapply wp_lift; [apply rd_bytes_whole; symmetry; apply Hauth|].
  apply wp_if; intros Eq; [wp_step; apply extract_fail; [csts; lia | apply only_world_refl]|].
  apply negb_false_iff, bool_decide_eq_true in Eq. wp_step. split; [apply only_world_refl|].
  intros _. exists buf, (pos + 36), (len - (pos + 36)). rewrite u64_small by rlia.
  do 4 (split; [done || lia|]). split; [done|]. set (b := take (Z.to_nat len) buf) in *.
  assert (Hbl : zlen b = len) by (unfold b; rewrite length_take; lia).
  pose proof (split_at b pos 32 ltac:(lia) ltac:(lia) ltac:(lia)) as Es.
  rewrite H1, H2, Eq in Es. rewrite Es at 2.
  replace (drop (Z.to_nat (pos + 4 + 32)) b) with (chunk buf (pos + 36) (len - (pos + 36)));
    [by apply authentic_cookie|].
  replace (pos + 4 + 32) with (pos + 36) by lia.
  rewrite <- (chunk_take _ _ _ len) by lia. fold b. unfold chunk. rewrite take_ge; [done|].
  rewrite length_drop. lia.
Qed.

Lemma chunk_chunk b off n m :
  0 <= off -> 0 <= n -> 0 <= m -> chunk b off n ++ chunk b (off + n) m = chunk b off (n + m).
Proof.
  intros. unfold chunk. rewrite (Z2Nat.inj_add n m) by lia.
  rewrite Z2Nat.inj_add, <- drop_drop by lia.
  rewrite <- (take_take_drop (drop (Z.to_nat off) b)). done.
Qed.

Lemma take_chunk b n : take (Z.to_nat n) b = chunk b 0 n.
Proof. unfold chunk. by rewrite drop_0. Qed.

Lemma extract_aes_wp c buf len pos s :
  auth_ok c -> is_bytes buf -> 0 <= pos -> 0 <= len <= zlen buf -> is_object buf ->
  cf_auth_type c = R_AUTH_AES_GCM ->
  chunk (take (Z.to_nat len) buf) pos 2 = le 2 R_TLV_AUTH_AES ->
  chunk (take (Z.to_nat len) buf) (pos + 2) 2 = le 2 32 -> pos + 32 <= len ->
  wp (if negb (cf_has_aes_key c) then mret (RCLIENT_ERR_AUTH, None) else
      if R_MAX_PACKET_SIZE =? 0 then mret (RCLIENT_ERR_PROTOCOL, None) else
      let cipher_len := len -64 (pos + 32) in
      if cipher_len =? 0 then mret (RCLIENT_ERR_PROTOCOL, None) else
      ctx_ok ← (if R_MAX_PACKET_SIZE <? cipher_len then mret false else alloc_ok);
      d ← lift (r_decrypt_pdu_aes_gcm ctx_ok (Some buf) (pos + 32) cipher_len
                  (Some (cf_aes_key c)) (Some buf) (pos + 4) (Some buf) (pos + 4 + 12) (Some buf)
                  ((pos +64 4) +64 12) (Some (replicate (Z.to_nat R_MAX_PACKET_SIZE) 0))
                  R_MAX_PACKET_SIZE (Some 0));
      let '(rc, plain, out_len) := d in
      if negb (rc =? 0) then mret (RCLIENT_ERR_PROTOCOL, None) else
      plain ← lift (deref plain); out_len ← lift (deref out_len);
      mret (RCLIENT_OK, Some (plain, 0, out_len)))
    (extract_post c buf len pos s) s.
Proof.
  intros Hauth Hb Hpos Hlen Hobj Hty H1 H2 Hle. unfold is_object in Hobj.
  apply wp_if; intros Eh; [wp_step; apply extract_fail; [csts; lia | apply only_world_refl]|].
  apply negb_false_iff in Eh. change (R_MAX_PACKET_SIZE =? 0) with false. cbv iota zeta.
  unwrap. set (b := take (Z.to_nat len) buf) in *.
  assert (Hbl : zlen b = len) by (unfold b; rewrite length_take; lia).
  apply wp_if; intros Ez; [wp_step; apply extract_fail; [csts; lia | apply only_world_refl]|].
  breflect. apply (wp_seq _ _ (fun _ s' => only_world s s')).
  { apply wp_if; intros _; [wp_step; apply only_world_refl | wp_step; by eexists]. }
  intros ctx_ok s1 Hs1. set (ct := drop (Z.to_nat (pos + 4 + 28)) b).
  assert (Hct : chunk b (pos + 32) (len - (pos + 32)) = ct).
  { unfold chunk, ct. replace (pos + 4 + 28) with (pos + 32) by lia.
    rewrite take_ge; [done|]. rewrite length_drop. lia. }
  assert (Hctl : zlen ct = len - (pos + 32)) by (unfold ct; rewrite length_drop; lia).
  assert (Hbb : is_bytes b) by (by apply Forall_take).
  assert (Had : chunk b 0 (pos + 16) =
    take (Z.to_nat pos) b ++ le 2 R_TLV_AUTH_AES ++ le 2 32 ++ chunk b (pos + 4) 12).
  { rewrite take_chunk, <- H1, <- H2. replace (pos + 4) with (pos + 2 + 2) by lia.
    by rewrite !chunk_chunk by lia. }
  assert (Hadl : zlen (chunk b 0 (pos + 16)) = pos + 16) by (apply chunk_length; lia).
  destruct (decrypt_spec ctx_ok buf (pos + 32) ct (cf_aes_key c) (pos + 4) (chunk b (pos + 4) 12)
    (pos + 4 + 12) (chunk b (pos + 4 + 12) 16) (chunk b 0 (pos + 16)) R_MAX_PACKET_SIZE
    (replicate (Z.to_nat R_MAX_PACKET_SIZE) 0)) as (rc & out' & n & Ed & Hd);
    [rewrite Hctl, <- Hct; apply rd_chunk_take; lia | apply Hauth |
     apply rd_chunk_take; lia.. | rewrite Hadl; apply rd_chunk_take; lia | lia |
     rewrite length_replicate; csts; lia | by apply Forall_drop | |].
  { apply Forall_replicate. rlia. }
  wp_step. eapply wp_lift.
  { rewrite Hctl, Hadl in Ed. replace (pos + 4 + 12) with (pos + 16) in Ed |- * by lia. exact Ed. }
  cbv iota beta. destruct Hd as [(-> & _ & _ & pt & Eo & -> & Hrd & Hob & _)|[-> _]].
  2:{ simpl. wp_step. apply extract_fail; [csts; lia | done]. }
  cbn [Z.eqb negb]. wp_step. eapply wp_lift; [done|]. wp_step. eapply wp_lift; [done|]. wp_step.
  split; [done|]. intros _. exists out', 0, (zlen pt).
  pose proof (rd_bytes_Ok _ _ _ _ Hrd) as (_ & _ & Hr & _).
  do 4 (split; [done || lia|]). split; [done|]. fold b.
  assert (chunk out' 0 (zlen pt) = pt) as ->
    by (rewrite (rd_chunk out' 0 (zlen pt)) in Hrd by lia; by injection Hrd).
  pose proof (split_at b pos (12 + 16) ltac:(lia) ltac:(lia) ltac:(lia)) as Es.
  rewrite <- (chunk_chunk b (pos + 4) 12 16), H1, H2, <- app_assoc in Es by lia.
  change (12 + 16) with 28 in Es. fold ct in Es. rewrite Es at 2. apply authentic_aes; try done.
  - apply chunk_length; lia.
  - apply chunk_length; lia.
  - intros E. rewrite E in Hctl. simpl in Hctl. lia.
  - by rewrite <- Had.
Qed.

(** A TLV of a given type and size at [pos]. *)
Lemma tlv_u16 a b : is_u16 a -> is_u16 b -> le 2 a = le 2 b -> a = b.
Proof. intros Ha Hb E. rewrite <- (unle_le2 a), <- (unle_le2 b) by done. by rewrite E. Qed.

(** Only authenticated packets get through: whatever bytes arrive, the
    extraction reads inside the packet, and when it succeeds the packet is a
    header, the authentication block of the client's own credential (the
    exact cookie, or a nonce and tag under which the rest opens with the
    client's key and the header as additional data), and the PDU returned. *)
Lemma extract_pdu_authentic c buf len pos s :
  auth_ok c -> is_bytes buf -> 0 <= pos <= len -> 0 <= len <= zlen buf -> is_object buf ->
  wp (r_extract_pdu_data c buf len pos R_MAX_PACKET_SIZE) (extract_post c buf len pos s) s.
Proof.
  intros Hauth Hb Hpos Hlen Hobj. unfold r_extract_pdu_data. wp_step.
  destruct (auth_tlv_spec buf len pos Hb ltac:(lia) Hlen Hobj ltac:(lia))
    as [E|(ty & sz & H1 & H2 & Hsz & E)].
  { eapply wp_lift; [exact E|]. cbn. wp_step.
    apply extract_fail; [csts; lia | apply only_world_refl]. }
  eapply wp_lift; [exact E|]. rc_ok. do 5 (wp_step; eapply wp_lift; [done|]). cbn [ao_type].
  destruct (Z.eqb_spec (cf_auth_type c) R_AUTH_COOKIE) as [Ec|Ec];
    [|destruct (Z.eqb_spec (cf_auth_type c) R_AUTH_AES_GCM) as [Ea|Ea]]; cbn [orb negb].
  3:{ wp_step. apply extract_fail; [csts; lia | apply only_world_refl]. }
  - destruct (Z.eqb_spec ty R_TLV_AUTH_COOKIE) as [->|Ht]; cbn [negb].
    2:{ wp_step. apply extract_fail; [csts; lia | apply only_world_refl]. }
    destruct (Z.eqb_spec sz 36) as [->|Hs]; cbn [negb orb].
    2:{ wp_step. apply extract_fail; [csts; lia | apply only_world_refl]. }
    change (negb (36 - 4 =? 32)) with false. cbv iota. apply extract_cookie_wp; done || lia.
  - destruct (Z.eqb_spec ty R_TLV_AUTH_AES) as [->|Ht]; cbn [negb].
    2:{ wp_step. apply extract_fail; [csts; lia | apply only_world_refl]. }
    change (R_TLV_AUTH_AES =? R_TLV_AUTH_COOKIE) with false. cbv iota.
    destruct (Z.eqb_spec sz 32) as [->|Hs]; cbn [negb orb].
    2:{ wp_step. apply extract_fail; [csts; lia | apply only_world_refl]. }
    change (negb (32 - 4 =? 28)) with false. cbv iota. apply extract_aes_wp; done || lia.
Qed.

(** *** Unpacking what was packed *)
Lemma auth_tlv_ser hdr ty sz body :
  is_bytes hdr -> is_bytes body -> is_u16 ty -> is_u16 sz -> 4 <= sz <= 4 + zlen body ->
  zlen hdr + 4 + zlen body < 2 ^ 63 ->
  r_parse_auth_tlv_header (Some (hdr ++ le 2 ty ++ le 2 sz ++ body))
    (zlen hdr + 4 + zlen body) (zlen hdr) (mk_auth_out (Some 0) (Some 0) (Some 0) (Some 0) (Some 0)) =
  Ok (RCLIENT_OK, mk_auth_out (Some ty) (Some sz) (Some (zlen hdr + 4)) (Some (sz - 4))
                              (Some (zlen hdr + sz))).
Proof.
  intros Hh Hb Hty Hs Hsz Hlen. unfold r_parse_auth_tlv_header. unwrap. rewrite zltb_false by lia.
  assert (is_bytes (hdr ++ le 2 ty ++ le 2 sz ++ body)).
  { repeat (apply Forall_app; split); done || apply le_bytes. }
  rewrite !r_le16_bytes by done.
  rewrite (rd_bytes_app hdr (le 2 ty) _ (zlen hdr)) by (done || by rewrite le_length).
  rewrite app_assoc, (rd_bytes_app (hdr ++ le 2 ty) (le 2 sz))
    by (rewrite ?length_app, le_length; lia).
  rewrite !run_bind_Ok, !unle_le2 by done. unwrap. rewrite (zltb_false sz), zltb_false by lia. done.
Qed.

Lemma rd_bytes_at a m b off n :
  off = zlen a -> n = zlen m -> rd_bytes (a ++ m ++ b) off n = Ok m.
Proof. apply rd_bytes_app. Qed.

Definition roundtrip_post (c : client_fixed) (pdu : list Z) s
    (r : Z * option (list Z * Z * Z)) s' : Prop :=
  only_world s s' /\ let '(rc, o) := r in
  (rc = RCLIENT_OK /\ exists block off n, o = Some (block, off, n) /\
                                          rd_bytes block off n = Ok pdu) \/
  (rc = RCLIENT_ERR_PROTOCOL /\ cf_auth_type c = R_AUTH_AES_GCM /\ ~ never_fails W).

Lemma roundtrip_cookie c hdr pdu s :
  auth_ok c -> zlen hdr = 40 -> is_bytes hdr -> is_bytes pdu -> zlen pdu <= R_MAX_PACKET_SIZE ->
  cf_auth_type c = R_AUTH_COOKIE -> cf_has_cookie c = true ->
  let bytes := hdr ++ le 2 R_TLV_AUTH_COOKIE ++ le 2 36 ++ cf_cookie c ++ pdu in
  wp (r_extract_pdu_data c bytes (zlen bytes) 40 R_MAX_PACKET_SIZE) (roundtrip_post c pdu s) s.
Proof.
  intros [Hc Hcb _ _] Hh Hhb Hpb Hl Ety Ehas bytes.
  change R_MAX_PACKET_SIZE with 1200 in *.
  assert (Hlen : zlen bytes = zlen hdr + 4 + zlen (cf_cookie c ++ pdu))
    by (unfold bytes; rewrite !length_app, !le_length; lia).
  unfold r_extract_pdu_data. wp_step. eapply wp_lift.
  { rewrite Hlen. replace 40 with (zlen hdr) by lia. unfold bytes. apply auth_tlv_ser;
      [done | by apply Forall_app | clia | rlia | rewrite length_app; lia | rewrite length_app; lia]. }
  rc_ok. do 5 (wp_step; eapply wp_lift; [done|]).
  rewrite Ety, Ehas. cbn -[rd_bytes mbind mret lift].
  change (negb (36 - 4 =? 32)) with false. cbv iota. wp_step. eapply wp_lift.
  { unfold bytes. rewrite 2!app_assoc. apply (rd_bytes_at _ (cf_cookie c));
      rewrite ?length_app, ?le_length; lia. }
  wp_step. eapply wp_lift; [by apply rd_bytes_whole|]. rewrite bool_decide_true by done. cbn [negb].
  wp_step. split; [apply only_world_refl|]. left. split; [done|]. do 3 eexists. split; [done|].
  rewrite u64_small by (rewrite Hlen, length_app; rlia).
  unfold bytes at 1. rewrite 3!app_assoc, <- (app_nil_r pdu) at 1.
  apply (rd_bytes_at _ pdu []); rewrite ?Hlen, ?length_app, ?le_length; lia.
Qed.

Lemma roundtrip_aes c hdr pdu nonce ct tag s :
  auth_ok c -> zlen hdr = 40 -> is_bytes hdr -> is_bytes pdu -> pdu <> [] ->
  zlen pdu <= R_MAX_PACKET_SIZE -> is_bytes nonce ->
  cf_auth_type c = R_AUTH_AES_GCM -> cf_has_aes_key c = true -> zlen nonce = 12 ->
  EVP_aes_256_gcm_seal (cf_aes_key c) nonce [hdr ++ le 2 R_TLV_AUTH_AES ++ le 2 32; nonce] pdu
    = Some (ct, tag) ->
  let bytes := hdr ++ le 2 R_TLV_AUTH_AES ++ le 2 32 ++ nonce ++ tag ++ ct in
  wp (r_extract_pdu_data c bytes (zlen bytes) 40 R_MAX_PACKET_SIZE) (roundtrip_post c pdu s) s.
Proof.
  intros [_ _ Hk _] Hh Hhb Hpb Hne Hl Hnb Ety Ehas Hn Es bytes.
  destruct (gcm_seal_lengths _ _ _ _ _ _ Es) as (Hcl & Htl & Hcb & Htb). specialize (Hcb Hpb).
  change R_MAX_PACKET_SIZE with 1200 in *.
  assert (Hlen : zlen bytes = zlen hdr + 4 + zlen (nonce ++ tag ++ ct))
    by (unfold bytes; rewrite !length_app, !le_length; lia).
  rewrite !length_app in Hlen.
  assert (Hct : 0 < zlen ct) by (destruct pdu; [done | simpl in Hcl; lia]).
  unfold r_extract_pdu_data. wp_step. eapply wp_lift.
  { replace (zlen bytes) with (zlen hdr + 4 + zlen (nonce ++ tag ++ ct))
      by (rewrite Hlen, !length_app; lia).
    replace 40 with (zlen hdr) by lia. unfold bytes. apply auth_tlv_ser;
      [done | by repeat (apply Forall_app; split) | clia | rlia | rewrite !length_app; lia |
       rewrite !length_app; lia]. }
  rc_ok. do 5 (wp_step; eapply wp_lift; [done|]).
  rewrite Ety, Ehas. cbn -[rd_bytes mbind mret lift replicate Z.to_nat R_MAX_PACKET_SIZE].
  change (negb (32 - 4 =? 28)) with false. cbv iota.
  rewrite (u64_small (zlen bytes - _)) by rlia. unwrap.
  replace (zlen bytes - (zlen hdr + 32)) with (zlen ct) by lia.
  rewrite (proj2 (Z.eqb_neq (zlen ct) 0)), (zltb_false 1200) by lia.
  wp_step. apply wp_alloc. intros b w Hb. wp_step.
  set (ad := hdr ++ le 2 R_TLV_AUTH_AES ++ le 2 32 ++ nonce).
  assert (Hadl : zlen ad = 56) by (unfold ad; rewrite !length_app, !le_length; lia).
  destruct (decrypt_spec b bytes (zlen hdr + 32) ct (cf_aes_key c) (zlen hdr + 4) nonce
    (zlen hdr + 4 + 12) tag ad 1200 (replicate (Z.to_nat 1200) 0))
    as (rc & out' & n & Ed & Hd).
  - pose proof (rd_bytes_at (hdr ++ le 2 R_TLV_AUTH_AES ++ le 2 32 ++ nonce ++ tag) ct []
      (zlen hdr + 32) (zlen ct)) as E. rewrite <- !app_assoc, app_nil_r in E.
    apply E; [rewrite !length_app, !le_length; lia | done].
  - done.
  - pose proof (rd_bytes_at (hdr ++ le 2 R_TLV_AUTH_AES ++ le 2 32) nonce (tag ++ ct)
      (zlen hdr + 4) 12) as E. rewrite <- !app_assoc in E.
    apply E; [rewrite !length_app, !le_length; lia | done].
  - pose proof (rd_bytes_at (hdr ++ le 2 R_TLV_AUTH_AES ++ le 2 32 ++ nonce) tag ct
      (zlen hdr + 4 + 12) 16) as E. rewrite <- !app_assoc in E.
    apply E; [rewrite !length_app, !le_length; lia | lia].
  - replace bytes with ([] ++ ad ++ tag ++ ct)
      by (unfold ad, bytes; cbn [app]; by rewrite <- !app_assoc).
    by apply rd_bytes_at.
  - lia.
  - rewrite length_replicate. lia.
  - done.
  - apply Forall_replicate. rlia.
  - eapply wp_lift; [rewrite Hadl in Ed; exact Ed|]. cbv iota beta.
    destruct Hd as [(-> & _ & _ & pt & Eo & -> & Hrd & _)|[-> Hno]].
    + cbn [Z.eqb negb]. do 2 (wp_step; eapply wp_lift; [done|]). wp_step.
      split; [by eexists|]. left. split; [done|]. do 3 eexists. split; [done|].
      rewrite (gcm_open_aad _ _ _ [hdr ++ le 2 R_TLV_AUTH_AES ++ le 2 32; nonce]) in Eo
        by (unfold ad; cbn; by rewrite !app_nil_r, <- !app_assoc).
      rewrite (gcm_open_seal _ _ _ _ _ _ Es) in Eo. injection Eo as <-. exact Hrd.
    + cbn. wp_step. split; [by eexists|]. right. do 2 (split; [done|]). intros Hnf.
      specialize (Hno (Hb Hnf) ltac:(lia)).
      rewrite (gcm_open_aad _ _ _ [hdr ++ le 2 R_TLV_AUTH_AES ++ le 2 32; nonce]) in Hno
        by (unfold ad; cbn; by rewrite !app_nil_r, <- !app_assoc).
      by rewrite (gcm_open_seal _ _ _ _ _ _ Es) in Hno.
Qed.

(** What the client seals it can open: extracting a packet that was sealed
    under the same credential returns exactly the PDU, for cookies always and
    for AES-GCM unless the cipher context cannot be allocated. *)
Lemma seal_extract_roundtrip c hdr pdu bytes s :
  auth_ok c -> zlen hdr = 40 -> is_bytes hdr -> is_bytes pdu -> pdu <> [] ->
  zlen pdu <= R_MAX_PACKET_SIZE -> sealed c hdr pdu bytes -> is_bytes bytes ->
  wp (r_extract_pdu_data c bytes (zlen bytes) 40 R_MAX_PACKET_SIZE) (roundtrip_post c pdu s) s.
Proof.
  intros Hauth Hh Hhb Hpb Hne Hl [Et Eh|nonce ct tag Et Eh Hn Es] Hb.
  - by apply roundtrip_cookie.
  - apply roundtrip_aes; try done. repeat (apply Forall_app in Hb as [? Hb]). done.
Qed.

(** ** Responses *)
Definition arr_opt {A} (l : list A) : option (list A) :=
  match l with [] => None | _ => Some l end.

(** The result arrays, counts and verdict of a well-formed response. *)
Definition response_of (b : list Z) : rate_response_out :=
  mk_response_out (arr_opt (resp_guards b)) (Some (resp_guard_count b))
    (arr_opt (resp_resources b)) (Some (resp_resource_count b)) (Some (resp_success b)).

Definition alloc_post (b : list Z) (n : Z) s (r : Z * rate_response_out) s' : Prop :=
  only_world s s' /\ let '(rc, o) := r in
  (rc = RCLIENT_OK -> resp_valid b n = true /\ o = response_of b) /\
  (never_fails W -> resp_valid b n = true -> rc = RCLIENT_OK).

Lemma alloc_fail b n s s' rc o :
  rc <> RCLIENT_OK -> only_world s s' -> (never_fails W -> resp_valid b n = false) ->
  alloc_post b n s (rc, o) s'.
Proof. intros Hrc Hw Hv. split; [done|]. split; [done|]. intros Hn. by rewrite (Hv Hn). Qed.

Lemma overlay_exact {A} (l : list A) (z : A) n :
  length l = Z.to_nat n -> 0 <= n ->
  overlay (if 0 <? n then Some (replicate (Z.to_nat n) z) else None) l = arr_opt l.
Proof.
  intros Hl Hn. destruct (Z.ltb_spec 0 n).
  - simpl. rewrite drop_ge, app_nil_r by (rewrite length_replicate; lia).
    destruct l; [simpl in Hl; lia | done].
  - destruct l; [done | simpl in Hl; lia].
Qed.

Lemma cap_exact {A} (z : A) n :
  0 <= n -> array_cap (if 0 <? n then Some (replicate (Z.to_nat n) z) else None) n.
Proof.
  intros Hn. destruct (Z.ltb_spec 0 n); simpl; [rewrite length_replicate|]; lia.
Qed.

(** The [calloc] of a result array: absent, allocated, or failed. *)
Lemma calloc_array_wp {A} n (z : A) (Q : option (option (list A)) -> sys W -> Prop) s :
  (forall s', only_world s s' -> ~ never_fails W -> Q None s') ->
  (forall s', only_world s s' ->
     Q (Some (if 0 <? n then Some (replicate (Z.to_nat n) z) else None)) s') ->
  wp (if 0 <? n then
        ok ← alloc_ok;
        mret (if (ok : bool) then Some (Some (replicate (Z.to_nat n) z)) else None)
      else mret (Some None)) Q s.
Proof.
  intros HN HS. apply wp_if; intros E; rewrite E in HS.
  - wp_step. apply wp_alloc. intros [] w Hb; wp_step; [apply HS; by eexists|apply HN; [by eexists|]].
    intros Hn. by specialize (Hb Hn).
  - wp_step. apply HS, only_world_refl.
Qed.

Local Ltac invalid :=
  apply not_true_iff_false; unfold resp_valid; rewrite !andb_true_iff, !Z.leb_le, Z.eqb_eq;
  intros; breflect; rewrite ?orb_true_iff, ?Z.ltb_lt in *; lia.

Lemma response_alloc_wp b n s :
  is_bytes b -> 0 <= n <= zlen b -> wp (r_parse_rate_response_alloc b n) (alloc_post b n s) s.
Proof.
  intros Hb Hn. unfold r_parse_rate_response_alloc. unfold R_PDU_HEADER_LEN.
  apply wp_if; intros E1; [wp_step; apply alloc_fail; [csts; lia | apply only_world_refl | intros _; invalid]|]. breflect.
  destruct (r_le16_at b 0) as [T1 _]; [done|lia..|]. destruct (r_le16_at b 2) as [T2 U2]; [done|lia..|].
  change (unle (take 2 (drop (Z.to_nat 0) b))) with (resp_type b) in *.
  change (unle (take 2 (drop (Z.to_nat 2) b))) with (resp_size b) in *.
  wp_step. eapply wp_lift; [exact T1|].
  apply wp_if; intros E2; [wp_step; apply alloc_fail; [csts; lia | apply only_world_refl | intros _; invalid]|]. breflect.
  wp_step. eapply wp_lift; [exact T2|].
  apply wp_if; intros E3; [wp_step; apply alloc_fail; [csts; lia | apply only_world_refl | intros _; invalid]|]. breflect.
  rewrite u64_small by rlia.
  apply wp_if; intros E4; [wp_step; apply alloc_fail; [csts; lia | apply only_world_refl | intros _; invalid]|]. breflect.
  destruct (r_le16_at b 8) as [T3 U3]; [done|lia..|]. destruct (r_le16_at b 10) as [T4 U4]; [done|lia..|].
  wp_step. eapply wp_lift; [exact T3|]. wp_step. eapply wp_lift; [exact T4|].
  change (unle (take 2 (drop (Z.to_nat 8) b))) with (resp_guard_count b) in *.
  change (unle (take 2 (drop (Z.to_nat 10) b))) with (resp_resource_count b) in *.
  wp_step. apply calloc_array_wp; intros s1 Hs1; [intros Hnf; wp_step; apply alloc_fail; [csts; lia|done|done]|].
  wp_step. apply calloc_array_wp; intros s2 Hs2;
    [intros Hnf; wp_step; apply alloc_fail; [csts; lia|by eapply only_world_trans|done]|].
  assert (Hw : only_world s s2) by by eapply only_world_trans.
  edestruct (parse_rate_response_spec b (resp_size b) (resp_guard_count b) (resp_resource_count b)
    (mk_response_out (if 0 <? resp_guard_count b
                      then Some (replicate (Z.to_nat (resp_guard_count b)) guard_result_zero)
                      else None) (Some 0)
       (if 0 <? resp_resource_count b
        then Some (replicate (Z.to_nat (resp_resource_count b)) resource_result_zero)
        else None) (Some 0) (Some false))) as (o & Eo & Ho); [done|lia|cbn; apply cap_exact; rlia..|].
  wp_step. eapply wp_lift; [exact Eo|]. cbv iota beta.
  assert (resp_fits_caps b (resp_guard_count b) (resp_resource_count b) = true) as Hf.
  { unfold resp_fits_caps. by rewrite !Z.leb_refl. }
  rewrite Hf, andb_true_r in *. destruct (resp_valid b (resp_size b)) eqn:Ev.
  - rc_ok. wp_step. split; [done|]. split; [|done]. intros _. split.
    { unfold resp_valid in *. breflect. rewrite !andb_true_iff, !Z.leb_le, Z.eqb_eq. lia. }
    rewrite Ho. simpl. unfold response_of.
    f_equal; apply overlay_exact; unfold resp_guards, resp_resources;
      rewrite ?blocks_at_length; rlia.
  - cbn. wp_step. apply alloc_fail; [csts; lia | done | intros _].
    rewrite <- Ev. unfold resp_valid. rewrite (Z.leb_refl (resp_size b)).
    rewrite (proj2 (Z.leb_le 8 (resp_size b))), (proj2 (Z.leb_le 8 n)), (proj2 (Z.leb_le (resp_size b) n)) by lia.
    done.
Qed.
End Extract.
