(* ===== verification/Responder.v ===== *)
(** * The test responder's protocol (tools/r_test_responder_protocol.c)

    The peer the client is exercised against: it authenticates a packet, parses
    the request or report inside and builds the answer of its scenario.  The
    pointer to the PDU is the block it points into from there on, other
    pointers into the PDU are offsets.  What OpenSSL allocates and draws during
    one packet is an argument. *)

From Stdlib Require Import String Ascii.
From S2P Require Import Prelude.
From S2P Require Import Types.
From S2P Require Import Wire.
From S2P Require Import Crypto.
From S2P Require Import Workflow.
From S2P Require Import State.
From S2P Require Import Request.
From S2P Require Import Client.

Definition R_TEST_RESPONDER_LABEL_CAP : Z := 256.
Definition R_TEST_RESPONDER_QUOTA_CAP : Z := 256.

Definition R_TEST_RESPONDER_AES_KEY : list Z :=
  cstr "rl-aes1qypsqqqqqqqqqqqrqvpsxqcrqvpsxqcrqvpsxqcrqvpsxqcrqvpsxqcrqvpsxqcrqdgrrulcvcn0x5".
Definition R_TEST_RESPONDER_COOKIE_KEY : list Z :=
  cstr "rl-cookie1qypqqqqqqqqqqqqzqgpqyqszqgpqyqszqgpqyqszqgpqyqszqgpqyqszqgpqyqszqfgrrulczhg30p".

(** ** Scenarios

    The enumeration as its integers, so that a value outside of it can be
    told apart. *)
Definition R_TEST_SCENARIO_ALLOW : Z := 0.
Definition R_TEST_SCENARIO_DENY : Z := 1.
Definition R_TEST_SCENARIO_GUARD_PASS : Z := 2.
Definition R_TEST_SCENARIO_GUARD_DENY : Z := 3.
Definition R_TEST_SCENARIO_QUOTA : Z := 4.
Definition R_TEST_SCENARIO_DROP : Z := 5.
Definition R_TEST_SCENARIO_MALFORMED_AUTH : Z := 6.
Definition R_TEST_SCENARIO_MALFORMED_TRUNCATED : Z := 7.
Definition R_TEST_SCENARIO_MALFORMED_REQUEST_ID : Z := 8.
Definition R_TEST_SCENARIO_COUNT_EMPTY : Z := 9.
Definition R_TEST_SCENARIO_COUNT_SHORT : Z := 10.
Definition R_TEST_SCENARIO_COUNT_EXTRA : Z := 11.

Definition r_test_scenario_name (scenario : Z) : list Z :=
  if scenario =? R_TEST_SCENARIO_ALLOW then cstr "allow" else
  if scenario =? R_TEST_SCENARIO_DENY then cstr "deny" else
  if scenario =? R_TEST_SCENARIO_GUARD_PASS then cstr "guard-pass" else
  if scenario =? R_TEST_SCENARIO_GUARD_DENY then cstr "guard-deny" else
  if scenario =? R_TEST_SCENARIO_QUOTA then cstr "quota" else
  if scenario =? R_TEST_SCENARIO_DROP then cstr "drop" else
  if scenario =? R_TEST_SCENARIO_MALFORMED_AUTH then cstr "malformed-auth" else
  if scenario =? R_TEST_SCENARIO_MALFORMED_TRUNCATED then cstr "malformed-truncated" else
  if scenario =? R_TEST_SCENARIO_MALFORMED_REQUEST_ID then cstr "malformed-request-id" else
  if scenario =? R_TEST_SCENARIO_COUNT_EMPTY then cstr "count-empty" else
  if scenario =? R_TEST_SCENARIO_COUNT_SHORT then cstr "count-short" else
  if scenario =? R_TEST_SCENARIO_COUNT_EXTRA then cstr "count-extra" else
  cstr "unknown".

Definition r_test_scenario_parse (name : option (list Z)) (out : option Z) : run (Z * option Z) :=
  match name, out with
  | Some s, Some _ =>
      f ← for_flow (Z.to_nat (R_TEST_SCENARIO_COUNT_EXTRA + 1 - R_TEST_SCENARIO_ALLOW))
            R_TEST_SCENARIO_ALLOW (fun value (_ : unit) =>
              eq ← str_eq s (r_test_scenario_name value);
              Ok (if (eq : bool) then Return value else Next tt)) tt;
      Ok (match f with
          | Return value => (RCLIENT_OK, Some value)
          | Next _ => (RCLIENT_ERR_CONFIG, out)
          end)
  | _, _ => Ok (RCLIENT_ERR_CONFIG, out)
  end.

(** ** State and events *)
Inductive r_test_event_kind : Type :=
| R_TEST_EVENT_INPUT_REJECTED
| R_TEST_EVENT_RATE_REQUEST
| R_TEST_EVENT_LATENCY_REPORT.

Record r_test_tracker_observation := mk_observation {
  to_present : bool;
  to_latency_tracker_id : list Z;
  to_ttl_ms : Z;
  to_max_samples : Z;
  to_min_sample_threshold : Z;
}.
Definition observation_zero : r_test_tracker_observation := mk_observation false (replicate 16 0) 0 0 0.

Record r_test_event := mk_event {
  te_kind : r_test_event_kind;
  te_sequence : Z;
  te_guard_count : Z;
  te_resource_count : Z;
  te_report_count : Z;
  te_tracker : r_test_tracker_observation;
  te_tracker_matches_guard : bool;
  te_guard_threshold_ms : Z;
  te_observed_latency_ms : Z;
  te_label : list Z;
  te_disposition : list Z;
}.

Record r_test_quota_entry := mk_quota_entry { qe_bucket_id : list Z; qe_requests : Z }.
Definition quota_entry_zero : r_test_quota_entry := mk_quota_entry (replicate 16 0) 0.

Record r_test_responder_state := mk_responder {
  rt_scenario : Z;
  rt_auth_type : Z;
  rt_tenant_key_id : Z;
  rt_secret : list Z;
  rt_server_id : Z;
  rt_steering_keep_port : bool;
  rt_allow_count : Z;
  rt_sequence : Z;
  rt_last_guard_latency_tracker_id : list Z;
  rt_has_last_guard_latency_tracker_id : bool;
  rt_quota : list r_test_quota_entry;
  rt_quota_count : Z;
}.

Definition rt_eta (s : r_test_responder_state) : r_test_responder_state :=
  mk_responder (rt_scenario s) (rt_auth_type s) (rt_tenant_key_id s) (rt_secret s) (rt_server_id s)
    (rt_steering_keep_port s) (rt_allow_count s) (rt_sequence s)
    (rt_last_guard_latency_tracker_id s) (rt_has_last_guard_latency_tracker_id s) (rt_quota s)
    (rt_quota_count s).
Definition set_rt_sequence : Z -> r_test_responder_state -> r_test_responder_state :=
  ltac:(setter rt_eta rt_sequence).
Definition set_rt_last : list Z -> r_test_responder_state -> r_test_responder_state :=
  ltac:(setter rt_eta rt_last_guard_latency_tracker_id).
Definition set_rt_has_last : bool -> r_test_responder_state -> r_test_responder_state :=
  ltac:(setter rt_eta rt_has_last_guard_latency_tracker_id).
Definition set_rt_quota : list r_test_quota_entry -> r_test_responder_state -> r_test_responder_state :=
  ltac:(setter rt_eta rt_quota).
Definition set_rt_quota_count : Z -> r_test_responder_state -> r_test_responder_state :=
  ltac:(setter rt_eta rt_quota_count).

Definition r_test_responder_init (mem : allocs) (state : option r_test_responder_state) (scenario : Z)
    (auth_key : option (list Z)) (server_id : Z) (steering_keep_port : bool) (allow_count : Z)
  : run (Z * option r_test_responder_state) :=
  match state, auth_key with
  | Some _, Some key =>
      if (server_id =? 0) || (scenario <? R_TEST_SCENARIO_ALLOW) ||
         (R_TEST_SCENARIO_COUNT_EXTRA <? scenario)
      then Ok (RCLIENT_ERR_CONFIG, state) else
      p ← r_client_parse_auth_key mem (Some key) (Some key_info_zero);
      let '(rc, info) := p in
      info ← deref info;
      if negb (rc =? RCLIENT_OK) || negb (ki_secret_len info =? 32)
      then Ok (RCLIENT_ERR_CONFIG, state) else
      secret ← rd_bytes (ki_secret info) 0 32;
      Ok (RCLIENT_OK, Some (mk_responder scenario (ki_type info) (ki_key_id info) secret server_id
            steering_keep_port allow_count 0 (replicate 16 0) false
            (replicate (Z.to_nat R_TEST_RESPONDER_QUOTA_CAP) quota_entry_zero) 0))
  | _, _ => Ok (RCLIENT_ERR_CONFIG, state)
  end.

(** ** Field access *)
Definition read_le16 (p : list Z) (off : Z) : run Z :=
  b0 ← rd p off; b1 ← rd p (off + 1);
  Ok (u16 (Z.lor b0 (Z.shiftl b1 8))).

Definition read_le32 (p : list Z) (off : Z) : run Z :=
  b0 ← rd p off; b1 ← rd p (off + 1); b2 ← rd p (off + 2); b3 ← rd p (off + 3);
  Ok (u32 (Z.lor (Z.lor (Z.lor b0 (Z.shiftl b1 8)) (Z.shiftl b2 16)) (Z.shiftl b3 24))).

Definition write_le16 (p : list Z) (off v : Z) : run (list Z) :=
  p ← wr p off [byte_at v 0];
  wr p (off + 1) [byte_at v 8].

Definition write_le32 (p : list Z) (off v : Z) : run (list Z) :=
  p ← wr p off [byte_at v 0];
  p ← wr p (off + 1) [byte_at v 8];
  p ← wr p (off + 2) [byte_at v 16];
  wr p (off + 3) [byte_at v 24].

(** ** Authentication *)

(** What OpenSSL's allocator and generator deliver while one packet is handled. *)
Record crypto_env := mk_crypto_env {
  ce_open_ctx : bool;
  ce_seal_ctx : bool;
  ce_rand : option (list Z);
}.

Section WithOpenSSL.
Context {ssl : OpenSSL}.

(** The tenant header as parsed so far and, on success, the PDU's block and
    length; [tenant] points to zeros and [decrypted] to a stack buffer. *)
Definition extract_authenticated_pdu (env : crypto_env) (state : r_test_responder_state)
    (input : list Z) (input_len : Z) : run (Z * r_tenant_header * option (list Z * Z)) :=
  t ← r_parse_tenant_header (Some input) input_len (Some tenant_zero) (Some 0);
  let '(rc, tenant, pos) := t in
  tenant ← deref tenant; pos ← deref pos;
  if negb (rc =? RCLIENT_OK) || negb (th_key_id tenant =? rt_tenant_key_id state)
  then Ok (RCLIENT_ERR_AUTH, tenant, None) else
  a ← r_parse_auth_tlv_header (Some input) input_len pos
        (mk_auth_out (Some 0) (Some 0) (Some 0) (Some 0) (Some 0));
  let '(rc, o) := a in
  if negb (rc =? RCLIENT_OK) then Ok (rc, tenant, None) else
  auth_type ← deref (ao_type o); auth_size ← deref (ao_size o);
  auth_body ← deref (ao_body o); auth_body_len ← deref (ao_body_len o);
  pdu_pos ← deref (ao_pdu_pos o);
  if rt_auth_type state =? R_AUTH_COOKIE then
    if negb (auth_type =? R_TLV_AUTH_COOKIE) || negb (auth_size =? 36) || negb (auth_body_len =? 32)
    then Ok (RCLIENT_ERR_AUTH, tenant, None) else
    got ← rd_bytes input auth_body 32;
    want ← rd_bytes (rt_secret state) 0 32;
    if negb (bool_decide (got = want)) then Ok (RCLIENT_ERR_AUTH, tenant, None) else
    Ok (RCLIENT_OK, tenant, Some (drop (Z.to_nat pdu_pos) input, input_len -64 pdu_pos))
  else
  if negb (rt_auth_type state =? R_AUTH_AES_GCM) || negb (auth_type =? R_TLV_AUTH_AES) ||
     negb (auth_size =? 32) || negb (auth_body_len =? 28) || (input_len <=? pdu_pos)
  then Ok (RCLIENT_ERR_AUTH, tenant, None) else
  d ← r_decrypt_pdu_aes_gcm (ce_open_ctx env) (Some input) pdu_pos (input_len -64 pdu_pos)
        (Some (rt_secret state)) (Some input) auth_body (Some input) (auth_body + 12)
        (Some input) ((pos +64 4) +64 12) (Some stack_buffer) R_MAX_PACKET_SIZE (Some 0);
  let '(rc, decrypted, decrypted_len) := d in
  if negb (rc =? 0) then Ok (RCLIENT_ERR_AUTH, tenant, None) else
  decrypted ← deref decrypted; decrypted_len ← deref decrypted_len;
  Ok (RCLIENT_OK, tenant, Some (decrypted, decrypted_len)).

(** ** Parsing *)

(** [r_test_parsed_request_t] without the tenant header. *)
Record r_test_parsed_request := mk_parsed {
  pq_pdu_type : Z;
  pq_body : option Z;
  pq_body_len : Z;
  pq_guard_count : Z;
  pq_resource_count : Z;
  pq_report_count : Z;
  pq_guards : option Z;
  pq_resources : option Z;
  pq_reports : option Z;
  pq_label : list Z;
}.

Definition label_zero : list Z := replicate (Z.to_nat (R_TEST_RESPONDER_LABEL_CAP + 1)) 0.
Definition parsed_zero : r_test_parsed_request := mk_parsed 0 None 0 0 0 0 None None None label_zero.

(** [body] is the offset of the body in the PDU. *)
Definition parse_metrics_label (pdu : list Z) (body body_len pos : Z) (out : list Z)
  : run (Z * list Z) :=
  out ← wr out 0 [0];
  if pos =? body_len then Ok (RCLIENT_OK, out) else
  if body_len -64 pos <? 6 then Ok (RCLIENT_ERR_PROTOCOL, out) else
  tag ← read_le16 pdu (body + pos);
  if negb (tag =? R_TLV_METRICS_LABEL) then Ok (RCLIENT_ERR_PROTOCOL, out) else
  tlv_size ← read_le16 pdu (body + pos + 2);
  label_len ← read_le16 pdu (body + pos + 4);
  if (tlv_size <? 6) || (body_len -64 pos <? tlv_size) || negb (pos +64 tlv_size =? body_len) ||
     (tlv_size -64 6 <? label_len) || (R_TEST_RESPONDER_LABEL_CAP <? label_len)
  then Ok (RCLIENT_ERR_PROTOCOL, out) else
  src ← rd_bytes pdu (body + pos + 6) label_len;
  out ← wr out 0 src;
  out ← wr out label_len [0];
  Ok (RCLIENT_OK, out).

Definition observe_tracker (pdu : list Z) (block : Z) : run r_test_tracker_observation :=
  id ← rd_bytes pdu block 16;
  ttl ← read_le32 pdu (block + 16);
  samples ← read_le32 pdu (block + 20);
  threshold ← read_le32 pdu (block + 24);
  Ok (mk_observation true id ttl samples threshold).

(** [request] was zeroed by the caller. *)
Definition parse_request_pdu (pdu : list Z) (pdu_len : Z) : run (Z * r_test_parsed_request) :=
  let request := parsed_zero in
  if pdu_len <? R_PDU_HEADER_LEN then Ok (RCLIENT_ERR_PROTOCOL, request) else
  declared_len ← read_le16 pdu 2;
  if negb (declared_len =? pdu_len) || (declared_len <? R_PDU_HEADER_LEN)
  then Ok (RCLIENT_ERR_PROTOCOL, request) else
  pdu_type ← read_le16 pdu 0;
  let body := R_PDU_HEADER_LEN in
  let body_len := pdu_len -64 R_PDU_HEADER_LEN in
  let request := mk_parsed pdu_type (Some body) body_len 0 0 0 None None None label_zero in
  if body_len <? 4 then Ok (RCLIENT_ERR_PROTOCOL, request) else
  if pdu_type =? R_PDU_RATE_REQUEST then
    guard_count ← read_le16 pdu body;
    resource_count ← read_le16 pdu (body + 2);
    let request := mk_parsed pdu_type (Some body) body_len guard_count resource_count 0
                     None None None label_zero in
    let guard_bytes := guard_count *64 R_GUARD_BLOCK_WIRE_LEN in
    let resource_bytes := resource_count *64 R_RESOURCE_BLOCK_WIRE_LEN in
    if (body_len -64 4 <? guard_bytes) || ((body_len -64 4) -64 guard_bytes <? resource_bytes)
    then Ok (RCLIENT_ERR_PROTOCOL, request) else
    l ← parse_metrics_label pdu body body_len ((4 +64 guard_bytes) +64 resource_bytes) label_zero;
    let '(rc, label) := l in
    Ok (rc, mk_parsed pdu_type (Some body) body_len guard_count resource_count 0
              (Some (body + 4)) (Some (body + 4 + guard_bytes)) None label)
  else if pdu_type =? R_PDU_LATENCY_REPORT then
    report_count ← read_le16 pdu body;
    let report_bytes := report_count *64 R_SERVICE_LATENCY_BLOCK_WIRE_LEN in
    if negb (report_bytes =? body_len -64 4)
    then Ok (RCLIENT_ERR_PROTOCOL, mk_parsed pdu_type (Some body) body_len 0 0 report_count
                                     None None None label_zero) else
    Ok (RCLIENT_OK, mk_parsed pdu_type (Some body) body_len 0 0 report_count
                      None None (Some (body + 4)) label_zero)
  else Ok (RCLIENT_ERR_PROTOCOL, request).

(** ** Answers *)

(** The entries from [i] on, [n] of them: the verdict and the new table, or no
    entry of this bucket. *)
Fixpoint quota_scan (n : nat) (i : Z) (allow_count : Z) (quota : list r_test_quota_entry)
    (bucket_id : list Z) : run (option (Z * list r_test_quota_entry)) :=
  match n with
  | O => Ok None
  | S n' =>
      e ← elem quota i;
      if bool_decide (qe_bucket_id e = bucket_id) then
        let allowed := qe_requests e <? allow_count in
        quota ← set_elem quota i (mk_quota_entry (qe_bucket_id e) (qe_requests e +64 1));
        Ok (Some (if allowed then 1 else 0, quota))
      else quota_scan n' (i + 1) allow_count quota bucket_id
  end.

Definition quota_allows (state : r_test_responder_state) (bucket_id : list Z)
  : run (Z * r_test_responder_state) :=
  f ← quota_scan (Z.to_nat (rt_quota_count state)) 0 (rt_allow_count state) (rt_quota state) bucket_id;
  match f with
  | Some (allowed, quota) => Ok (allowed, set_rt_quota quota state)
  | None =>
      if R_TEST_RESPONDER_QUOTA_CAP <=? rt_quota_count state then Ok (-1, state) else
      quota ← set_elem (rt_quota state) (rt_quota_count state) (mk_quota_entry bucket_id 1);
      Ok (if 0 <? rt_allow_count state then 1 else 0,
          set_rt_quota_count (rt_quota_count state +64 1) (set_rt_quota quota state))
  end.

(** One iteration of the guard loop: the body under construction and [pos]. *)
Definition answer_guard_block (scenario : Z) (pdu : list Z) (request : r_test_parsed_request)
    (i : Z) (st : list Z * Z) : run (list Z * Z) :=
  let '(body, pos) := st in
  body ← (if i <? pq_guard_count request then
            guards ← deref (pq_guards request);
            src ← rd_bytes pdu (guards + i * R_GUARD_BLOCK_WIRE_LEN) R_GUARD_BLOCK_WIRE_LEN;
            wr body pos src
          else
            body ← fill body pos 0 R_GUARD_BLOCK_WIRE_LEN;
            write_le32 body (pos + 28) 1);
  threshold ← read_le32 body (pos + 28);
  let current := if 0 <? threshold then threshold -32 1 else 0 in
  let current := if scenario =? R_TEST_SCENARIO_GUARD_DENY then threshold else current in
  body ← write_le32 body (pos + 32) current;
  Ok (body, pos +64 R_GUARD_BLOCK_WIRE_LEN).

(** The deficit answered for the resource block at [source]; [Return] is an
    error code, with the state as changed so far. *)
Definition answer_deficit (pdu : list Z) (source : Z) (state : r_test_responder_state)
  : run (flow (Z * r_test_responder_state) (Z * r_test_responder_state)) :=
  let requested := (d ← read_le16 pdu (source + 24); Ok (if d =? 0 then 1 else d)) in
  if rt_scenario state =? R_TEST_SCENARIO_DENY then d ← requested; Ok (Next (d, state))
  else if rt_scenario state =? R_TEST_SCENARIO_QUOTA then
    id ← rd_bytes pdu source 16;
    q ← quota_allows state id;
    let '(allowed, state) := q in
    if allowed <? 0 then Ok (Return (RCLIENT_ERR_NOMEM, state)) else
    if allowed =? 0 then d ← requested; Ok (Next (d, state)) else Ok (Next (0, state))
  else Ok (Next (0, state)).

(** One iteration of the resource loop. *)
Definition answer_resource_block (pdu : list Z) (request : r_test_parsed_request)
    (i : Z) (st : list Z * Z * r_test_responder_state)
  : run (flow (list Z * Z * r_test_responder_state) (Z * r_test_responder_state)) :=
  let '(body, pos, state) := st in
  f ← (if i <? pq_resource_count request then
         resources ← deref (pq_resources request);
         let source := resources + i * R_RESOURCE_BLOCK_WIRE_LEN in
         src ← rd_bytes pdu source R_RESOURCE_BLOCK_WIRE_LEN;
         body ← wr body pos src;
         d ← answer_deficit pdu source state;
         Ok (match d with
             | Next (deficit, state) => Next (body, deficit, state)
             | Return r => Return r
             end)
       else
         body ← fill body pos 0 R_RESOURCE_BLOCK_WIRE_LEN;
         Ok (Next (body, 1, state)));
  match f with
  | Return r => Ok (Return r)
  | Next (body, deficit, state) =>
      body ← write_le16 body (pos + 24) deficit;
      body ← write_le16 body (pos + 26) 0;
      Ok (Next (body, pos +64 R_RESOURCE_BLOCK_WIRE_LEN, state))
  end.

(** How many blocks of each kind are answered; [None] when none more fits. *)
Definition answer_counts (scenario guard_count resource_count : Z) : option (Z * Z) :=
  if scenario =? R_TEST_SCENARIO_COUNT_EMPTY then Some (0, 0)
  else if scenario =? R_TEST_SCENARIO_COUNT_SHORT then
    if 0 <? resource_count then Some (guard_count, u16 (resource_count - 1))
    else if 0 <? guard_count then Some (u16 (guard_count - 1), resource_count)
    else Some (guard_count, resource_count)
  else if scenario =? R_TEST_SCENARIO_COUNT_EXTRA then
    if resource_count <? UINT16_MAX then Some (guard_count, u16 (resource_count + 1))
    else if guard_count <? UINT16_MAX then Some (u16 (guard_count + 1), resource_count)
    else None
  else Some (guard_count, resource_count).

(** The new state, the output block and the PDU's length. *)
Definition build_response_pdu (state : r_test_responder_state) (pdu : list Z)
    (request : r_test_parsed_request) (out : list Z) (out_cap : Z)
  : run (Z * r_test_responder_state * list Z * Z) :=
  match answer_counts (rt_scenario state) (pq_guard_count request) (pq_resource_count request) with
  | None => Ok (RCLIENT_ERR_PROTOCOL, state, out, 0)
  | Some (guard_count, resource_count) =>
      let body_len := (4 +64 (guard_count *64 R_GUARD_BLOCK_WIRE_LEN))
                      +64 (resource_count *64 R_RESOURCE_BLOCK_WIRE_LEN) in
      if (R_MAX_PACKET_SIZE <? body_len) || (out_cap <? body_len +64 R_PDU_HEADER_LEN)
      then Ok (RCLIENT_ERR_PROTOCOL, state, out, 0) else
      body ← write_le16 stack_buffer 0 guard_count;
      body ← write_le16 body 2 resource_count;
      st ← for_range (Z.to_nat guard_count) 0
             (answer_guard_block (rt_scenario state) pdu request) (body, 4);
      let '(body, pos) := st in
      f ← for_flow (Z.to_nat resource_count) 0 (answer_resource_block pdu request) (body, pos, state);
      match f with
      | Return (rc, state) => Ok (rc, state, out, 0)
      | Next (body, _, state) =>
          b ← r_build_pdu R_PDU_RATE_RESPONSE (Some body) body_len (Some out) out_cap (Some 0);
          let '(rc, out, out_len) := b in
          out ← deref out; out_len ← deref out_len;
          Ok (rc, state, out, out_len)
      end
  end.

(** The output block and length. *)
Definition build_authenticated_response (env : crypto_env) (state : r_test_responder_state)
    (request_tenant : r_tenant_header) (pdu : list Z) (pdu_len : Z) (wrong_request_id : bool)
    (out : list Z) (out_cap : Z) : run (Z * list Z * Z) :=
  if out_cap <? R_TENANT_TLV_LEN then Ok (RCLIENT_ERR_PROTOCOL, out, 0) else
  id ← rd_bytes (th_unique_id request_tenant) 0 16;
  id ← (if wrong_request_id
        then b ← rd id 0; wr id 0 [Z.lxor b 0x80]
        else Ok id);
  let tenant := mk_tenant R_TLV_TENANT R_TENANT_TLV_LEN (rt_server_id state) id
                  (th_time_stamp request_tenant) (if rt_steering_keep_port state then 1 else 0) 0 0 0 in
  w ← r_tenant_header_write (Some tenant) (Some out) out_cap;
  out ← deref w;
  let pos := R_TENANT_TLV_LEN in
  if rt_auth_type state =? R_AUTH_COOKIE then
    if out_cap <? (pos +64 36) +64 pdu_len then Ok (RCLIENT_ERR_PROTOCOL, out, 0) else
    out ← write_le16 out pos R_TLV_AUTH_COOKIE;
    out ← write_le16 out (pos + 2) 36;
    secret ← rd_bytes (rt_secret state) 0 32;
    out ← wr out (pos + 4) secret;
    src ← rd_bytes pdu 0 pdu_len;
    out ← wr out (pos + 4 + 32) src;
    Ok (RCLIENT_OK, out, ((pos +64 4) +64 32) +64 pdu_len)
  else
  if negb (rt_auth_type state =? R_AUTH_AES_GCM) || (out_cap <? (pos +64 32) +64 pdu_len)
  then Ok (RCLIENT_ERR_PROTOCOL, out, 0) else
  out ← write_le16 out pos R_TLV_AUTH_AES;
  out ← write_le16 out (pos + 2) 32;
  e ← r_encrypt_pdu_aes_gcm (ce_rand env) (ce_seal_ctx env) (Some pdu) pdu_len
        (Some (rt_secret state)) (Some out) (pos +64 4) R_MAX_PACKET_SIZE
        (mk_enc_out (Some stack_buffer) (Some 0) (Some (replicate 12 0)) (Some (replicate 16 0)));
  let '(rc, o) := e in
  if negb (rc =? 0) then Ok (RCLIENT_ERR_AUTH, out, 0) else
  nonce ← deref (eo_nonce o); nonce ← rd_bytes nonce 0 12;
  out ← wr out (pos + 4) nonce;
  tag ← deref (eo_tag o); tag ← rd_bytes tag 0 16;
  out ← wr out (pos + 4 + 12) tag;
  cipher_len ← deref (eo_cipher_len o);
  cipher ← deref (eo_cipher o); cipher ← rd_bytes cipher 0 cipher_len;
  out ← wr out (pos + 4 + 12 + 16) cipher;
  Ok (RCLIENT_OK, out, (((pos +64 4) +64 12) +64 16) +64 cipher_len).

(** ** One packet *)
Definition event_rejected (sequence : Z) : r_test_event :=
  mk_event R_TEST_EVENT_INPUT_REJECTED sequence 0 0 0 observation_zero false 0 0 label_zero
    (cstr "rejected").

(** What the caller finds afterwards: the state, the output block, [*output_len],
    [*send_response] and [*event]. *)
Record process_out := mk_process_out {
  po_state : r_test_responder_state;
  po_output : list Z;
  po_output_len : Z;
  po_send_response : bool;
  po_event : r_test_event;
}.

(** A latency report is only observed. *)
Definition observe_report (state : r_test_responder_state) (pdu : list Z)
    (request : r_test_parsed_request) : run r_test_event :=
  let event := event_rejected (rt_sequence state) in
  if 0 <? pq_report_count request then
    reports ← deref (pq_reports request);
    tracker ← observe_tracker pdu reports;
    observed ← read_le32 pdu (reports + 28);
    matches ← (if rt_has_last_guard_latency_tracker_id state then
                 id ← rd_bytes pdu reports 16;
                 Ok (bool_decide (id = rt_last_guard_latency_tracker_id state))
               else Ok false);
    Ok (mk_event R_TEST_EVENT_LATENCY_REPORT (te_sequence event) 0 0 (pq_report_count request)
          tracker matches 0 observed label_zero (cstr "observed"))
  else
    Ok (mk_event R_TEST_EVENT_LATENCY_REPORT (te_sequence event) 0 0 0 (te_tracker event) false 0 0
          label_zero (cstr "observed")).

(** A rate request is remembered by its first guard. *)
Definition observe_request (state : r_test_responder_state) (pdu : list Z)
    (request : r_test_parsed_request) (disposition : list Z)
  : run (r_test_responder_state * r_test_event) :=
  let state := set_rt_has_last false state in
  if 0 <? pq_guard_count request then
    guards ← deref (pq_guards request);
    tracker ← observe_tracker pdu guards;
    threshold ← read_le32 pdu (guards + 28);
    id ← rd_bytes pdu guards 16;
    Ok (set_rt_has_last true (set_rt_last id state),
        mk_event R_TEST_EVENT_RATE_REQUEST (rt_sequence state) (pq_guard_count request)
          (pq_resource_count request) 0 tracker false threshold 0 (pq_label request) disposition)
  else
    Ok (state, mk_event R_TEST_EVENT_RATE_REQUEST (rt_sequence state) 0 (pq_resource_count request) 0
          observation_zero false 0 0 (pq_label request) disposition).

Definition set_disposition (d : list Z) (e : r_test_event) : r_test_event :=
  mk_event (te_kind e) (te_sequence e) (te_guard_count e) (te_resource_count e) (te_report_count e)
    (te_tracker e) (te_tracker_matches_guard e) (te_guard_threshold_ms e) (te_observed_latency_ms e)
    (te_label e) d.

(** The malformations of a finished response. *)
Definition malform (state : r_test_responder_state) (o : process_out) : run (Z * process_out) :=
  let output := po_output o in
  let output_len := po_output_len o in
  let sent output output_len d :=
    Ok (RCLIENT_OK, mk_process_out state output output_len true (set_disposition d (po_event o))) in
  if rt_scenario state =? R_TEST_SCENARIO_MALFORMED_AUTH then
    let auth_offset := R_TENANT_TLV_LEN + 4 in
    let corrupt_offset :=
      if rt_auth_type state =? R_AUTH_AES_GCM then auth_offset + 12 else auth_offset in
    if output_len <=? corrupt_offset then Ok (RCLIENT_ERR_PROTOCOL, o) else
    b ← rd output corrupt_offset;
    output ← wr output corrupt_offset [Z.lxor b 1];
    sent output output_len (cstr "malformed-auth")
  else if rt_scenario state =? R_TEST_SCENARIO_MALFORMED_TRUNCATED then
    if output_len =? 0 then Ok (RCLIENT_ERR_PROTOCOL, o) else
    sent output (output_len -64 1) (cstr "malformed-truncated")
  else if rt_scenario state =? R_TEST_SCENARIO_MALFORMED_REQUEST_ID then
    sent output output_len (cstr "malformed-request-id")
  else sent output output_len (r_test_scenario_name (rt_scenario state)).

(** From the parsed rate request to the response. *)
Definition respond (env : crypto_env) (state : r_test_responder_state) (tenant : r_tenant_header)
    (pdu : list Z) (request : r_test_parsed_request) (output : list Z) (output_cap : Z)
  : run (Z * process_out) :=
  e ← observe_request state pdu request (cstr "rejected");
  let '(state, event) := e in
  if rt_scenario state =? R_TEST_SCENARIO_DROP
  then Ok (RCLIENT_OK, mk_process_out state output 0 false (set_disposition (cstr "dropped") event)) else
  b ← build_response_pdu state pdu request stack_buffer R_MAX_PACKET_SIZE;
  let '(rc, state, response_pdu, response_pdu_len) := b in
  if negb (rc =? RCLIENT_OK) then Ok (rc, mk_process_out state output 0 false event) else
  a ← build_authenticated_response env state tenant response_pdu response_pdu_len
        (rt_scenario state =? R_TEST_SCENARIO_MALFORMED_REQUEST_ID) output output_cap;
  let '(rc, output, output_len) := a in
  let o := mk_process_out state output output_len false event in
  if negb (rc =? RCLIENT_OK) then Ok (rc, o) else malform state o.

Definition process_packet (env : crypto_env) (state : r_test_responder_state) (input : list Z)
    (input_len : Z) (output : list Z) (output_cap : Z) : run (Z * process_out) :=
  let state := set_rt_sequence (rt_sequence state +64 1) state in
  let rejected := mk_process_out state output 0 false (event_rejected (rt_sequence state)) in
  x ← extract_authenticated_pdu env state input input_len;
  let '(rc, tenant, found) := x in
  if negb (rc =? RCLIENT_OK) then Ok (rc, rejected) else
  found ← deref found;
  let '(pdu, pdu_len) := found in
  p ← parse_request_pdu pdu pdu_len;
  let '(rc, request) := p in
  if negb (rc =? RCLIENT_OK) then Ok (rc, rejected) else
  if pq_pdu_type request =? R_PDU_LATENCY_REPORT then
    event ← observe_report state pdu request;
    Ok (RCLIENT_OK, mk_process_out state output 0 false event)
  else respond env state tenant pdu request output output_cap.

(** [None] when the configuration is refused and nothing was written. *)
Definition r_test_responder_process (env : crypto_env) (state : option r_test_responder_state)
    (input : option (list Z)) (input_len : Z) (output : option (list Z)) (output_cap : Z)
    (output_len : option Z) (send_response : option bool) (event : option r_test_event)
  : run (Z * option process_out) :=
  match state, input, output, output_len, send_response, event with
  | Some st, Some i, Some o, Some _, Some _, Some _ =>
      if input_len =? 0 then Ok (RCLIENT_ERR_CONFIG, None) else
      r ← process_packet env st i input_len o output_cap;
      Ok (fst r, Some (snd r))
  | _, _, _, _, _, _ => Ok (RCLIENT_ERR_CONFIG, None)
  end.
End WithOpenSSL.
