(* ===== verification/ResponderFacts.v ===== *)
(** * The test responder: facts

    What the responder reads of a packet the client sealed, and what the client
    reads of the answer. *)

From Stdlib Require Import String Ascii.
From S2P Require Import Prelude.
From S2P Require Import Types.
From S2P Require Import Wire.
From S2P Require Import WireFacts.
From S2P Require Import Crypto.
From S2P Require Import CryptoFacts.
From S2P Require Import Workflow.
From S2P Require Import State.
From S2P Require Import Hoare.
From S2P Require Import Request.
From S2P Require Import RequestFacts.
From S2P Require Import PacketFacts.
From S2P Require Import ExtractFacts.
From S2P Require Import Client.
From S2P Require Import Responder.

(** ** Field access: the same as the library's *)
Lemma read_le16_eq p off : read_le16 p off = r_le16 p off.
Proof. reflexivity. Qed.
Lemma read_le32_eq p off : read_le32 p off = r_le32 p off.
Proof. reflexivity. Qed.
Lemma write_le16_wr p off v : write_le16 p off v = wr p off (le 2 v).
Proof. exact (r_write_le16_wr p off v). Qed.
Lemma write_le32_wr p off v : write_le32 p off v = wr p off (le 4 v).
Proof. exact (r_write_le32_wr p off v). Qed.

(** A field inside a block known up to where it starts. *)
Lemma le16_at a v b off :
  is_bytes a -> is_bytes b -> is_u16 v -> off = zlen a -> read_le16 (a ++ le 2 v ++ b) off = Ok v.
Proof.
  intros Ha Hb Hv ->. rewrite read_le16_eq, r_le16_bytes.
  - rewrite (rd_bytes_at a (le 2 v) b) by (done || by rewrite le_length). simpl. f_equal. by apply unle_le2.
  - apply Forall_app. split; [done|]. apply Forall_app. split; [apply le_bytes|done].
Qed.

Lemma le32_at a v b off :
  is_bytes a -> is_bytes b -> is_u32 v -> off = zlen a -> read_le32 (a ++ le 4 v ++ b) off = Ok v.
Proof.
  intros Ha Hb Hv ->. rewrite read_le32_eq, r_le32_bytes.
  - rewrite (rd_bytes_at a (le 4 v) b) by (done || by rewrite le_length). simpl. f_equal. by apply unle_le4.
  - apply Forall_app. split; [done|]. apply Forall_app. split; [apply le_bytes|done].
Qed.

(** ** Authentication *)
Section Extract.
Context {ssl : OpenSSL} {laws : AesGcmLaws ssl}.

(** The responder holds the client's credential. *)
Record shares_key (st : r_test_responder_state) (c : client_fixed) : Prop := {
  sk_type : rt_auth_type st = cf_auth_type c;
  sk_id : rt_tenant_key_id st = cf_key_id c;
  sk_cookie : cf_auth_type c = R_AUTH_COOKIE -> rt_secret st = cf_cookie c;
  sk_aes : cf_auth_type c = R_AUTH_AES_GCM -> rt_secret st = cf_aes_key c;
}.

(** The block the PDU was found in starts with it. *)
Definition found_pdu (pdu : list Z) (r : option (list Z * Z)) : Prop :=
  exists rest, r = Some (pdu ++ rest, zlen pdu) /\ is_bytes rest.

(** The two headers of a packet with the client's tenant header. *)
Lemma packet_headers h ty sz body o p :
  wf_tenant h -> th_tlv_type h = R_TLV_TENANT -> th_tlv_size h = R_TENANT_TLV_LEN ->
  is_u16 ty -> is_u16 sz -> 4 <= sz <= 4 + zlen body -> is_bytes body -> zlen body < 2 ^ 32 ->
  let bytes := ser_tenant h ++ le 2 ty ++ le 2 sz ++ body in
  zlen bytes = 44 + zlen body /\
  r_parse_tenant_header (Some bytes) (zlen bytes) (Some o) (Some p) = Ok (RCLIENT_OK, Some h, Some 40) /\
  r_parse_auth_tlv_header (Some bytes) (zlen bytes) 40
    (mk_auth_out (Some 0) (Some 0) (Some 0) (Some 0) (Some 0)) =
  Ok (RCLIENT_OK, mk_auth_out (Some ty) (Some sz) (Some 44) (Some (sz - 4)) (Some (40 + sz))).
Proof.
  intros Hw Hty Hsz Ht Hs Hb4 Hb Hl bytes. pose proof (ser_tenant_length h Hw) as Hh.
  assert (Hlen : zlen bytes = 44 + zlen body) by (unfold bytes; rewrite !length_app, !le_length; lia).
  split; [done|]. split.
  - assert (Hr : is_bytes (le 2 ty ++ le 2 sz ++ body))
      by (repeat (apply Forall_app; split); done || apply le_bytes).
    destruct (parse_tenant_header_ser h _ (zlen bytes) o p Hw Hr ltac:(lia)) as [E _].
    rewrite Hsz in E. apply E. split; [done|]. rewrite Hsz. clia.
  - pose proof (auth_tlv_ser (ser_tenant h) ty sz body (ser_tenant_bytes h Hw) Hb Ht Hs Hb4 ltac:(lia)) as E.
    rewrite Hh in E. rewrite Hlen. exact E.
Qed.

Lemma extract_cookie_request env st c h pdu :
  shares_key st c -> auth_ok c -> wf_tenant h -> th_tlv_type h = R_TLV_TENANT ->
  th_tlv_size h = R_TENANT_TLV_LEN -> th_key_id h = cf_key_id c ->
  is_bytes pdu -> zlen pdu <= R_MAX_PACKET_SIZE -> cf_auth_type c = R_AUTH_COOKIE ->
  let bytes := ser_tenant h ++ le 2 R_TLV_AUTH_COOKIE ++ le 2 36 ++ cf_cookie c ++ pdu in
  exists found, extract_authenticated_pdu env st bytes (zlen bytes) = Ok (RCLIENT_OK, h, found) /\
    found_pdu pdu found.
Proof.
  intros [Et Eid Eck _] [Hc Hcb _ _] Hw Hty Hsz Hid Hpb Hl Ect bytes. specialize (Eck Ect).
  pose proof (ser_tenant_length h Hw) as Hh. change R_MAX_PACKET_SIZE with 1200 in *.
  destruct (packet_headers h R_TLV_AUTH_COOKIE 36 (cf_cookie c ++ pdu) tenant_zero 0) as (Hlen & Eh & Ea);
    [done|done|done|clia|rlia|rewrite length_app; lia|by apply Forall_app|rewrite length_app; lia|].
  fold bytes in Hlen, Eh, Ea. rewrite length_app in Hlen. unfold extract_authenticated_pdu.
  rewrite Eh, run_bind_Ok. cbn [deref of_option]. rewrite !run_bind_Ok, Hid, Eid, Z.eqb_refl.
  change (negb (RCLIENT_OK =? RCLIENT_OK)) with false. cbn [negb orb].
  rewrite Ea, run_bind_Ok. change (negb (RCLIENT_OK =? RCLIENT_OK)) with false. cbv iota.
  cbn [ao_type ao_size ao_body ao_body_len ao_pdu_pos deref of_option]. rewrite !run_bind_Ok, Et, Ect.
  change (R_AUTH_COOKIE =? R_AUTH_COOKIE) with true. cbv iota.
  rewrite !Z.eqb_refl. change (negb (36 - 4 =? 32)) with false. cbn [negb orb].
  assert (Ec : rd_bytes bytes 44 32 = Ok (cf_cookie c)).
  { unfold bytes. rewrite 2!app_assoc. apply rd_bytes_at; rewrite ?length_app, ?le_length; lia. }
  rewrite Ec, run_bind_Ok, Eck, rd_bytes_whole, run_bind_Ok by done. rewrite bool_decide_true by done. cbn [negb].
  eexists. split; [reflexivity|]. exists []. rewrite app_nil_r. split; [|constructor].
  assert (E : drop (Z.to_nat (40 + 36)) bytes = pdu).
  { unfold bytes. rewrite 3!app_assoc. apply drop_app_length'. rewrite !length_app, !le_length. lia. }
  rewrite E, u64_small by rlia. do 3 f_equal. lia.
Qed.

Lemma extract_aes_request env st c h pdu nonce ct tag :
  shares_key st c -> auth_ok c -> wf_tenant h -> th_tlv_type h = R_TLV_TENANT ->
  th_tlv_size h = R_TENANT_TLV_LEN -> th_key_id h = cf_key_id c -> ce_open_ctx env = true ->
  is_bytes pdu -> pdu <> [] -> zlen pdu <= R_MAX_PACKET_SIZE -> is_bytes nonce ->
  cf_auth_type c = R_AUTH_AES_GCM -> zlen nonce = 12 ->
  EVP_aes_256_gcm_seal (cf_aes_key c) nonce [ser_tenant h ++ le 2 R_TLV_AUTH_AES ++ le 2 32; nonce] pdu
    = Some (ct, tag) ->
  let bytes := ser_tenant h ++ le 2 R_TLV_AUTH_AES ++ le 2 32 ++ nonce ++ tag ++ ct in
  exists found, extract_authenticated_pdu env st bytes (zlen bytes) = Ok (RCLIENT_OK, h, found) /\
    found_pdu pdu found.
Proof.
  intros [Et Eid _ Eck] [_ _ Hk _] Hw Hty Hsz Hid Henv Hpb Hne Hl Hnb Ect Hn Es bytes. specialize (Eck Ect).
  destruct (gcm_seal_lengths _ _ _ _ _ _ Es) as (Hcl & Htl & Hcb & Htb). specialize (Hcb Hpb).
  pose proof (ser_tenant_length h Hw) as Hh. change R_MAX_PACKET_SIZE with 1200 in *.
  assert (Hct : 0 < zlen ct) by (destruct pdu; [done | simpl in Hcl; lia]).
  destruct (packet_headers h R_TLV_AUTH_AES 32 (nonce ++ tag ++ ct) tenant_zero 0) as (Hlen & Eh & Ea);
    [done|done|done|clia|rlia|rewrite !length_app; lia|by repeat (apply Forall_app; split)|rewrite !length_app; lia|].
  fold bytes in Hlen, Eh, Ea. rewrite !length_app in Hlen. unfold extract_authenticated_pdu.
  change R_MAX_PACKET_SIZE with 1200.
  rewrite Eh, run_bind_Ok. cbn [deref of_option]. rewrite !run_bind_Ok, Hid, Eid, Z.eqb_refl.
  change (negb (RCLIENT_OK =? RCLIENT_OK)) with false. cbn [negb orb].
  rewrite Ea, run_bind_Ok. change (negb (RCLIENT_OK =? RCLIENT_OK)) with false. cbv iota.
  cbn [ao_type ao_size ao_body ao_body_len ao_pdu_pos deref of_option]. rewrite !run_bind_Ok, Et, Ect.
  change (R_AUTH_AES_GCM =? R_AUTH_COOKIE) with false. cbv iota.
  rewrite !Z.eqb_refl. change (negb (32 - 4 =? 28)) with false.
  rewrite (proj2 (Z.leb_gt (zlen bytes) (40 + 32))) by lia. cbn [negb orb].
  rewrite (u64_small (zlen bytes - _)) by rlia.
  replace (zlen bytes - (40 + 32)) with (zlen ct) by lia.
  replace ((40 +64 4) +64 12) with 56 by done.
  set (ad := ser_tenant h ++ le 2 R_TLV_AUTH_AES ++ le 2 32 ++ nonce).
  assert (Hadl : zlen ad = 56) by (unfold ad; rewrite !length_app, !le_length; lia).
  assert (Hsb : zlen stack_buffer = 1200) by apply stack_buffer_len.
  destruct (decrypt_spec (ce_open_ctx env) bytes (40 + 32) ct (rt_secret st) 44 nonce (44 + 12) tag ad 1200 stack_buffer)
    as (rc & out' & n & Ed & Hd).
  - pose proof (rd_bytes_at (ser_tenant h ++ le 2 R_TLV_AUTH_AES ++ le 2 32 ++ nonce ++ tag) ct []
      (40 + 32) (zlen ct)) as E. rewrite <- !app_assoc, app_nil_r in E.
    apply E; [rewrite !length_app, !le_length; lia | done].
  - by rewrite Eck.
  - pose proof (rd_bytes_at (ser_tenant h ++ le 2 R_TLV_AUTH_AES ++ le 2 32) nonce (tag ++ ct) 44 12) as E.
    rewrite <- !app_assoc in E. apply E; [rewrite !length_app, !le_length; lia | done].
  - pose proof (rd_bytes_at (ser_tenant h ++ le 2 R_TLV_AUTH_AES ++ le 2 32 ++ nonce) tag ct (44 + 12) 16) as E.
    rewrite <- !app_assoc in E. apply E; [rewrite !length_app, !le_length; lia | lia].
  - replace bytes with ([] ++ ad ++ tag ++ ct) by (unfold ad, bytes; cbn [app]; by rewrite <- !app_assoc).
    by apply rd_bytes_at.
  - lia.
  - lia.
  - done.
  - apply Forall_replicate. rlia.
  - rewrite Hadl in Ed. rewrite Ed, run_bind_Ok.
    assert (Ho : EVP_aes_256_gcm_open (rt_secret st) nonce [ad] ct tag = Some pdu).
    { rewrite (gcm_open_aad _ _ _ [ser_tenant h ++ le 2 R_TLV_AUTH_AES ++ le 2 32; nonce])
        by (unfold ad; cbn; by rewrite !app_nil_r, <- !app_assoc).
      rewrite Eck. by apply gcm_open_seal. }
    destruct Hd as [(-> & _ & _ & pt & Eo & -> & Hrd & Hob & Hol)|[-> Hno]].
    2:{ specialize (Hno Henv ltac:(lia)). congruence. }
    rewrite Ho in Eo. injection Eo as <-. cbn [Z.eqb negb deref of_option]. rewrite !run_bind_Ok.
    eexists. split; [reflexivity|]. apply rd_bytes_Ok in Hrd as Hr.
    rewrite rd_bytes_take in Hrd by lia. injection Hrd as Hrd. exists (drop (length pdu) out').
    rewrite Nat2Z.id in Hrd. split; [|by apply Forall_drop].
    rewrite <- Hrd at 2. rewrite <- (take_drop (length pdu) out') at 1. do 3 f_equal.
Qed.

(** The responder opens what the client sealed. *)
Lemma extract_request env st c h pdu bytes :
  shares_key st c -> auth_ok c -> wf_tenant h -> th_tlv_type h = R_TLV_TENANT ->
  th_tlv_size h = R_TENANT_TLV_LEN -> th_key_id h = cf_key_id c -> ce_open_ctx env = true ->
  is_bytes pdu -> pdu <> [] -> zlen pdu <= R_MAX_PACKET_SIZE ->
  sealed c (ser_tenant h) pdu bytes -> is_bytes bytes ->
  exists rest, extract_authenticated_pdu env st bytes (zlen bytes) =
    Ok (RCLIENT_OK, h, Some (pdu ++ rest, zlen pdu)) /\ is_bytes rest.
Proof.
  intros Hk Ha Hw Hty Hsz Hid He Hpb Hne Hl Hs Hb.
  assert (Hf : exists found, extract_authenticated_pdu env st bytes (zlen bytes) = Ok (RCLIENT_OK, h, found) /\
    found_pdu pdu found).
  { destruct Hs as [Et _|nonce ct tag Et _ Hn Es]; [by apply (extract_cookie_request env st c)|].
    apply (extract_aes_request env st c); try done. repeat (apply Forall_app in Hb as [? Hb]). done. }
  destruct Hf as (found & E & rest & -> & Hr). by exists rest.
Qed.
End Extract.

(** ** Parsing a request *)

(** The label as a NUL-terminated block of 257 bytes. *)
Definition label_block (ol : option (list Z)) : list Z :=
  default [] ol ++ replicate (Z.to_nat (R_TEST_RESPONDER_LABEL_CAP + 1) - length (default [] ol)) 0.

Lemma read_bytes_pair a bs b off :
  is_bytes (a ++ bs ++ b) -> length bs = 2%nat -> off = zlen a ->
  read_le16 (a ++ bs ++ b) off = Ok (unle bs).
Proof.
  intros Hb Hl ->. rewrite read_le16_eq, r_le16_bytes by done.
  by rewrite (rd_bytes_at a bs b) by (done || by rewrite Hl).
Qed.

Lemma label_wr l :
  zlen l <= R_TEST_RESPONDER_LABEL_CAP ->
  (out ← wr label_zero 0 l; wr out (zlen l) [0]) = Ok (label_block (Some l)).
Proof.
  unfold R_TEST_RESPONDER_LABEL_CAP. intros Hl. unfold label_block, R_TEST_RESPONDER_LABEL_CAP. cbn [default id].
  change label_zero with (replicate 257 0). change (256 + 1) with 257.
  assert (E : replicate 257 0 = [] ++ replicate (length l) 0 ++ [0] ++ replicate (256 - length l) 0).
  { cbn [app]. change (0 :: ?x) with (replicate 1 0 ++ x). rewrite <- !replicate_add. f_equal. lia. }
  rewrite E, wr_app, run_bind_Ok by (done || by rewrite length_replicate). cbn [app].
  rewrite (wr_app l [0] (replicate (256 - length l) 0) [0]) by done. f_equal. f_equal.
  change (Z.to_nat 257) with 257%nat. by replace (257 - length l)%nat with (S (256 - length l)) by lia.
Qed.

Lemma ser_label_bytes l : is_bytes l -> is_bytes (ser_label l).
Proof.
  intros Hl. unfold ser_label. repeat (apply Forall_app; split); try apply le_bytes; [done|].
  apply Forall_replicate. rlia.
Qed.

Lemma parse_label pre ol rest body body_len :
  is_bytes pre -> is_bytes rest -> from_option is_bytes True ol ->
  zlen (default [] ol) <= R_TEST_RESPONDER_LABEL_CAP -> 8 <= body <= zlen pre ->
  body_len = zlen pre - body + zlen (ser_opt_label ol) -> body_len < 2 ^ 32 ->
  parse_metrics_label (pre ++ ser_opt_label ol ++ rest) body body_len (zlen pre - body) label_zero =
  Ok (RCLIENT_OK, label_block ol).
Proof.
  intros Hp Hr Hl Hcap Hb -> Hlen. unfold parse_metrics_label. destruct ol as [l|]; cbn [ser_opt_label].
  2:{ simpl length. rewrite Z.add_0_r, Z.eqb_refl. reflexivity. }
  cbn [ser_opt_label default from_option id] in *. pose proof (ser_label_length l) as Hll.
  assert (Hbl : is_bytes (pre ++ ser_label l ++ rest)).
  { apply Forall_app. split; [done|]. apply Forall_app. split; [by apply ser_label_bytes|done]. }
  unfold R_TEST_RESPONDER_LABEL_CAP in Hcap. unfold label_tlv_size in Hll.
  pose proof (label_padding_range (zlen l)) as Hpad.
  rewrite (proj2 (Z.eqb_neq _ _)) by lia. rewrite !(u64_small (_ - (zlen pre - body))) by rlia.
  replace (zlen pre - body + zlen (ser_label l) - (zlen pre - body)) with (zlen (ser_label l)) by lia.
  change (wr label_zero 0 [0]) with (Ok label_zero). rewrite run_bind_Ok.
  rewrite (zltb_false (zlen (ser_label l)) 6) by lia.
  replace (body + (zlen pre - body)) with (zlen pre) by lia.
  set (tlv := label_tlv_size (zlen l)).
  assert (Htlv : tlv = zlen (ser_label l) /\ is_u16 tlv) by (unfold tlv, label_tlv_size; split; rlia).
  destruct Htlv as [Htl Htu].
  assert (E1 : read_le16 (pre ++ ser_label l ++ rest) (zlen pre) = Ok R_TLV_METRICS_LABEL).
  { unfold ser_label. rewrite <- !app_assoc.
    rewrite le16_at; [done|done| |clia|done]. apply Forall_app in Hbl as [_ Hbl].
    unfold ser_label in Hbl. rewrite <- !app_assoc in Hbl. by apply Forall_app in Hbl as [_ Hbl]. }
  assert (E2 : read_le16 (pre ++ ser_label l ++ rest) (zlen pre + 2) = Ok tlv).
  { revert Hbl. unfold ser_label. fold tlv. rewrite <- !app_assoc, (app_assoc pre). intros Hbl.
    rewrite le16_at; [done| | |done|rewrite length_app, le_length; lia];
      apply Forall_app in Hbl as [? [_ ?]%Forall_app]; done. }
  assert (E3 : read_le16 (pre ++ ser_label l ++ rest) (zlen pre + 4) = Ok (zlen l)).
  { revert Hbl. unfold ser_label. fold tlv. rewrite <- !app_assoc, (app_assoc pre), (app_assoc (pre ++ _)).
    intros Hbl. rewrite le16_at; [done| | |rlia|rewrite !length_app, !le_length; lia];
      apply Forall_app in Hbl as [? [_ ?]%Forall_app]; done. }
  assert (E4 : rd_bytes (pre ++ ser_label l ++ rest) (zlen pre + 6) (zlen l) = Ok l).
  { unfold ser_label. fold tlv. rewrite <- !app_assoc, (app_assoc pre), (app_assoc (pre ++ _)),
      (app_assoc ((pre ++ _) ++ _)). apply rd_bytes_at; [rewrite !length_app, !le_length; lia|done]. }
  rewrite E1, run_bind_Ok, Z.eqb_refl. cbn [negb]. rewrite E2, run_bind_Ok, E3, run_bind_Ok.
  rewrite Htl, (zltb_false (zlen (ser_label l)) 6), zltb_false by lia. unwrap.
  rewrite (proj2 (Z.eqb_eq (zlen pre - body + _) _)) by lia. cbn [negb orb].
  rewrite zltb_false by lia. rewrite zltb_false by (unfold R_TEST_RESPONDER_LABEL_CAP; lia). cbn [orb].
  rewrite E4, run_bind_Ok. pose proof (label_wr l ltac:(done)) as Ew.
  destruct (wr label_zero 0 l) as [|o1]; [done|]. cbn [mbind run_bind] in Ew |- *. by rewrite Ew.
Qed.

Lemma concat_bytes {A} (ser : A -> list Z) (l : list A) :
  (forall x, x ∈ l -> is_bytes (ser x)) -> is_bytes (concat (map ser l)).
Proof.
  induction l as [|x l IH]; intros H; [constructor|]. cbn [map concat]. apply Forall_app.
  split; [apply H; left|apply IH; intros y Hy; apply H; by right].
Qed.

Lemma ser_guard_bytes g : wf_latency_guard g -> is_bytes (ser_guard g).
Proof.
  intros ([_ Hid] & _). unfold ser_guard. repeat (apply Forall_app; split); try apply le_bytes. done.
Qed.
Lemma ser_resource_bytes r : wf_resource_request r -> is_bytes (ser_resource r).
Proof.
  intros ([_ Hid] & _). unfold ser_resource. repeat (apply Forall_app; split); try apply le_bytes. done.
Qed.
Lemma guards_bytes gs : Forall wf_latency_guard gs -> is_bytes (concat (map ser_guard gs)).
Proof. intros H. apply concat_bytes. intros g Hg. eapply ser_guard_bytes, Forall_forall; done. Qed.
Lemma resources_bytes rs : Forall wf_resource_request rs -> is_bytes (concat (map ser_resource rs)).
Proof. intros H. apply concat_bytes. intros g Hg. eapply ser_resource_bytes, Forall_forall; done. Qed.
Lemma guards_length gs :
  Forall wf_latency_guard gs -> zlen (concat (map ser_guard gs)) = zlen gs * R_GUARD_BLOCK_WIRE_LEN.
Proof. intros H. apply concat_map_length. intros g Hg. eapply ser_guard_length, Forall_forall; done. Qed.
Lemma resources_length rs :
  Forall wf_resource_request rs -> zlen (concat (map ser_resource rs)) = zlen rs * R_RESOURCE_BLOCK_WIRE_LEN.
Proof. intros H. apply concat_map_length. intros g Hg. eapply ser_resource_length, Forall_forall; done. Qed.

Lemma opt_label_bytes ol : from_option is_bytes True ol -> is_bytes (ser_opt_label ol).
Proof. destruct ol; [apply ser_label_bytes|constructor]. Qed.

(** What the responder makes of a client's request. *)
Definition parsed_request (gs : list r_latency_guard) (rs : list r_resource_request)
    (ol : option (list Z)) : r_test_parsed_request :=
  mk_parsed R_PDU_RATE_REQUEST (Some 8) (zlen (ser_request_body gs rs ol)) (zlen gs) (zlen rs) 0
    (Some 12) (Some (12 + zlen gs * 36)) None (label_block ol).

Lemma parse_request ttl gs rs ol rest :
  Forall wf_latency_guard gs -> Forall wf_resource_request rs -> from_option is_bytes True ol ->
  zlen (default [] ol) <= R_TEST_RESPONDER_LABEL_CAP -> is_bytes rest ->
  let pdu := ser_request_pdu ttl (ser_request_body gs rs ol) in
  zlen pdu <= R_MAX_PACKET_SIZE ->
  parse_request_pdu (pdu ++ rest) (zlen pdu) = Ok (RCLIENT_OK, parsed_request gs rs ol).
Proof.
  intros Hg Hr Hl Hcap Hrest pdu Hlen. set (body := ser_request_body gs rs ol) in *.
  pose proof (request_body_length gs rs ol Hg Hr) as Hbl. fold body in Hbl.
  assert (Hpl : zlen pdu = 8 + zlen body) by (unfold pdu, ser_request_pdu; rewrite !length_app, !le_length; lia).
  change R_GUARD_BLOCK_WIRE_LEN with 36 in *. change R_RESOURCE_BLOCK_WIRE_LEN with 28 in *.
  change R_MAX_PACKET_SIZE with 1200 in *.
  set (hd := le 2 R_PDU_RATE_REQUEST ++ le 2 (8 + zlen body) ++ le 4 ttl).
  set (pre := hd ++ (le 2 (zlen gs) ++ le 2 (zlen rs) ++ concat (map ser_guard gs) ++ concat (map ser_resource rs))).
  assert (Hpre : is_bytes pre).
  { unfold pre, hd. repeat (apply Forall_app; split); try apply le_bytes; [by apply guards_bytes|by apply resources_bytes]. }
  assert (Hprel : zlen pre = 12 + zlen gs * 36 + zlen rs * 28).
  { unfold pre, hd. rewrite !length_app, !le_length.
    pose proof (guards_length gs Hg) as E1. pose proof (resources_length rs Hr) as E2.
    change R_GUARD_BLOCK_WIRE_LEN with 36 in *. change R_RESOURCE_BLOCK_WIRE_LEN with 28 in *. lia. }
  assert (Epdu : pdu ++ rest = pre ++ ser_opt_label ol ++ rest).
  { unfold pdu, pre, hd, ser_request_pdu, body, ser_request_body. by rewrite <- !app_assoc. }
  assert (Hlab : is_bytes (ser_opt_label ol ++ rest)) by (apply Forall_app; split; [by apply opt_label_bytes|done]).
  assert (Hall : is_bytes (pdu ++ rest)) by (rewrite Epdu; by apply Forall_app).
  assert (E0 : read_le16 (pdu ++ rest) 0 = Ok R_PDU_RATE_REQUEST).
  { revert Hall. unfold pdu, ser_request_pdu. rewrite <- !app_assoc. intros Hall.
    apply (le16_at []); [constructor| |clia|done]. by apply Forall_app in Hall as [_ ?]. }
  assert (E2 : read_le16 (pdu ++ rest) 2 = Ok (zlen pdu)).
  { rewrite Hpl. revert Hall. unfold pdu, ser_request_pdu. rewrite <- !app_assoc. intros Hall.
    apply Forall_app in Hall as [? [_ ?]%Forall_app]. apply le16_at; [done|done|rlia|by rewrite le_length]. }
  assert (E8 : read_le16 (pdu ++ rest) 8 = Ok (zlen gs)).
  { revert Hall. rewrite Epdu. unfold pre. rewrite <- !app_assoc. intros Hall.
    apply Forall_app in Hall as [? [_ ?]%Forall_app]. apply le16_at; [done|done|rlia|done]. }
  assert (E10 : read_le16 (pdu ++ rest) 10 = Ok (zlen rs)).
  { revert Hall. rewrite Epdu. unfold pre. rewrite <- !app_assoc, (app_assoc hd). intros Hall.
    apply Forall_app in Hall as [? [_ ?]%Forall_app]. apply le16_at; [done|done|rlia|done]. }
  unfold parse_request_pdu. change R_PDU_HEADER_LEN with 8. rewrite zltb_false by lia.
  rewrite E2, run_bind_Ok, Z.eqb_refl, zltb_false by lia. cbn [negb orb].
  rewrite E0, run_bind_Ok. unwrap. rewrite zltb_false by lia. rewrite Z.eqb_refl. cbv iota.
  rewrite E8, run_bind_Ok. change (8 + 2) with 10. rewrite E10, run_bind_Ok.
  change R_GUARD_BLOCK_WIRE_LEN with 36. change R_RESOURCE_BLOCK_WIRE_LEN with 28. unwrap.
  rewrite (zltb_false _ (zlen gs * 36)), zltb_false by lia. cbn [orb].
  rewrite Epdu. replace (4 + zlen gs * 36 + zlen rs * 28) with (zlen pre - 8) by lia.
  rewrite parse_label; [|done|done|done|done|lia|lia|lia]. rewrite run_bind_Ok. cbv iota beta.
  unfold parsed_request. fold body. repeat f_equal; lia.
Qed.
