(* ===== verification/ResponderQuota.v ===== *)
(** * The test responder's quota table

    The table of requests per bucket as a finite map, the verdict as a function
    of it, and the state invariant of the responder. *)

From Stdlib Require Import String Ascii.
From S2P Require Import Prelude.
From S2P Require Import Types.
From S2P Require Import Wire.
From S2P Require Import Workflow.
From S2P Require Import State.
From S2P Require Import Responder.

(** ** The table as a map *)
Definition counts_of (l : list r_test_quota_entry) : gmap (list Z) Z :=
  list_to_map (map (fun e => (qe_bucket_id e, qe_requests e)) l).

Definition used_entries (st : r_test_responder_state) : list r_test_quota_entry :=
  take (Z.to_nat (rt_quota_count st)) (rt_quota st).

Definition bucket_counts (st : r_test_responder_state) : gmap (list Z) Z :=
  counts_of (used_entries st).

(** The state invariant: a table of the declared size with one entry per
    bucket, a 32-byte secret of a known kind, fields within their widths. *)
Record responder_wf (st : r_test_responder_state) : Prop := {
  rw_table : zlen (rt_quota st) = R_TEST_RESPONDER_QUOTA_CAP;
  rw_count : 0 <= rt_quota_count st <= R_TEST_RESPONDER_QUOTA_CAP;
  rw_secret : length (rt_secret st) = 32%nat /\ is_bytes (rt_secret st);
  rw_auth : rt_auth_type st = R_AUTH_COOKIE \/ rt_auth_type st = R_AUTH_AES_GCM;
  rw_ids : is_u64 (rt_server_id st) /\ is_u64 (rt_tenant_key_id st);
  rw_distinct : NoDup (map qe_bucket_id (used_entries st));
  rw_scenario : R_TEST_SCENARIO_ALLOW <= rt_scenario st <= R_TEST_SCENARIO_COUNT_EXTRA;
}.

(** The verdict on one more request for the bucket [id], and the map afterwards;
    none when a new bucket finds the table full. *)
Definition quota_spec (allow_count : Z) (m : gmap (list Z) Z) (id : list Z)
  : option (bool * gmap (list Z) Z) :=
  match m !! id with
  | Some k => Some (k <? allow_count, <[id := u64 (k + 1)]> m)
  | None => if R_TEST_RESPONDER_QUOTA_CAP <=? Z.of_nat (size m) then None
            else Some (0 <? allow_count, <[id := 1]> m)
  end.

(** ** The scan *)
Lemma counts_lookup_None l id : counts_of l !! id = None <-> id ∉ map qe_bucket_id l.
Proof.
  unfold counts_of. rewrite <- not_elem_of_list_to_map, <- list_fmap_compose.
  by replace (fst ∘ (fun e => (qe_bucket_id e, qe_requests e)) <$> l) with (map qe_bucket_id l).
Qed.

Lemma counts_size l : NoDup (map qe_bucket_id l) -> size (counts_of l) = length l.
Proof.
  induction l as [|e l IH]; intros Hn; [done|]. apply NoDup_cons in Hn as [Hn Hnd].
  unfold counts_of in *. cbn [map list_to_map]. cbn. rewrite map_size_insert_None; [by rewrite IH|].
  by apply counts_lookup_None.
Qed.

Lemma elem_at {A} (pre : list A) x post : elem (pre ++ x :: post) (zlen pre) = Ok x.
Proof.
  unfold elem. rewrite (proj2 (Z.leb_le 0 (zlen pre))) by lia. rewrite Nat2Z.id, list_lookup_middle by done. done.
Qed.

Lemma set_elem_at {A} (pre : list A) x y post :
  set_elem (pre ++ x :: post) (zlen pre) y = Ok (pre ++ y :: post).
Proof.
  unfold set_elem. rewrite (proj2 (Z.leb_le 0 (zlen pre))), zltb_true
    by (rewrite ?length_app; simpl; lia). simpl. rewrite Nat2Z.id. f_equal.
  rewrite <- (Nat.add_0_r (length pre)) at 1. by rewrite insert_app_r.
Qed.

Lemma quota_scan_spec allow pre l post id :
  match counts_of l !! id with
  | None => quota_scan (length l) (zlen pre) allow (pre ++ l ++ post) id = Ok None
  | Some k => exists l',
      quota_scan (length l) (zlen pre) allow (pre ++ l ++ post) id =
        Ok (Some (if k <? allow then 1 else 0, pre ++ l' ++ post)) /\
      map qe_bucket_id l' = map qe_bucket_id l /\ counts_of l' = <[id := u64 (k + 1)]> (counts_of l)
  end.
Proof.
  revert pre; induction l as [|e l IH]; intros pre.
  { change (counts_of []) with (∅ : gmap (list Z) Z). by rewrite lookup_empty. }
  change (counts_of (e :: l)) with (<[qe_bucket_id e := qe_requests e]> (counts_of l)).
  cbn [length quota_scan app]. rewrite elem_at, run_bind_Ok.
  case_bool_decide as E; [subst id|].
  - rewrite lookup_insert_eq, set_elem_at, run_bind_Ok. eexists (_ :: l). split; [reflexivity|]. split; [done|].
    change (counts_of (?x :: l)) with (<[qe_bucket_id x := qe_requests x]> (counts_of l)). cbn [qe_bucket_id qe_requests].
    by rewrite insert_insert_eq.
  - rewrite lookup_insert_ne by done. specialize (IH (pre ++ [e])).
    replace (zlen (pre ++ [e])) with (zlen pre + 1) in IH by (rewrite length_app; simpl; lia).
    rewrite <- !app_assoc in IH. cbn [app] in IH. destruct (counts_of l !! id) as [k|]; [|exact IH].
    destruct IH as (l' & -> & Hm & Hc). exists (e :: l'). rewrite <- app_assoc. split; [done|].
    split; [by cbn [map]; f_equal|].
    change (counts_of (e :: l')) with (<[qe_bucket_id e := qe_requests e]> (counts_of l')). rewrite Hc.
    by apply insert_insert_ne.
Qed.

(** ** The verdicts *)
Lemma used_split st :
  responder_wf st -> exists post, rt_quota st = used_entries st ++ post /\ zlen (used_entries st) = rt_quota_count st.
Proof.
  intros [Ht Hc _ _ _ _ _]. exists (drop (Z.to_nat (rt_quota_count st)) (rt_quota st)).
  unfold used_entries. rewrite take_drop, length_take. split; [done|]. lia.
Qed.

(** Both fields of the table replaced. *)
Definition with_table (q : list r_test_quota_entry) (n : Z) (st : r_test_responder_state)
  : r_test_responder_state := set_rt_quota_count n (set_rt_quota q st).

Lemma with_table_wf st l post :
  responder_wf st -> zlen (l ++ post) = R_TEST_RESPONDER_QUOTA_CAP -> NoDup (map qe_bucket_id l) ->
  let st' := with_table (l ++ post) (zlen l) st in responder_wf st' /\ used_entries st' = l.
Proof.
  intros [Ht Hc Hs Ha Hi Hn Hsc] Hl Hd st'.
  assert (E : used_entries st' = l) by (unfold used_entries, st'; simpl; by rewrite Nat2Z.id, take_app_length).
  split; [|done]. rewrite length_app in Hl. split; try done; [simpl; rewrite length_app; lia|simpl; lia|by rewrite E].
Qed.

(** The table is the map, one entry per bucket: a call counts the request and
    answers by the number of earlier requests for the same bucket. *)
Lemma quota_allows_spec st id :
  responder_wf st ->
  match quota_spec (rt_allow_count st) (bucket_counts st) id with
  | None => quota_allows st id = Ok (-1, st)
  | Some (ok, m') => exists q n,
      quota_allows st id = Ok (if (ok : bool) then 1 else 0, with_table q n st) /\
      responder_wf (with_table q n st) /\ bucket_counts (with_table q n st) = m'
  end.
Proof.
  intros Hwf. pose proof Hwf as [Ht Hc _ _ _ Hn _]. destruct (used_split st Hwf) as (post & Eq & El).
  unfold quota_spec, quota_allows, bucket_counts in *. set (l := used_entries st) in *.
  pose proof (quota_scan_spec (rt_allow_count st) [] l post id) as Hs. change (zlen []) with 0 in Hs.
  cbn [app] in Hs. rewrite <- Eq in Hs. replace (length l) with (Z.to_nat (rt_quota_count st)) in Hs by lia.
  destruct (counts_of l !! id) as [k|] eqn:Ek.
  - destruct Hs as (l' & -> & Hm & Hcl). rewrite run_bind_Ok.
    assert (Hl' : length l' = length l) by (rewrite <- (length_map qe_bucket_id l'), Hm; apply length_map).
    exists (l' ++ post), (zlen l'). rewrite <- Hm in Hn.
    destruct (with_table_wf st l' post Hwf) as [W U]; [rewrite <- Ht, Eq, !length_app; lia|done|].
    split; [|by rewrite U]. do 2 f_equal. unfold with_table. rewrite Hl', El. by destruct st.
  - rewrite Hs, run_bind_Ok, counts_size by done. rewrite El.
    destruct (Z.leb_spec R_TEST_RESPONDER_QUOTA_CAP (rt_quota_count st)); [done|].
    unfold R_TEST_RESPONDER_QUOTA_CAP in *. destruct post as [|x post]; [rewrite Eq, app_nil_r in Ht; lia|].
    assert (Es : set_elem (rt_quota st) (rt_quota_count st) (mk_quota_entry id 1) =
                 Ok (l ++ mk_quota_entry id 1 :: post)) by (rewrite Eq, <- El; apply set_elem_at).
    rewrite Es, run_bind_Ok.
    exists ((l ++ [mk_quota_entry id 1]) ++ post), (zlen (l ++ [mk_quota_entry id 1])).
    assert (Hid : id ∉ map qe_bucket_id l) by by apply counts_lookup_None.
    destruct (with_table_wf st (l ++ [mk_quota_entry id 1]) post Hwf) as [W U].
    { unfold R_TEST_RESPONDER_QUOTA_CAP. rewrite <- Ht, Eq, !length_app. simpl. lia. }
    { rewrite map_app. apply NoDup_app. split; [done|]. split; [|apply NoDup_singleton].
      cbn [map qe_bucket_id]. set_solver. }
    split.
    + rewrite <- app_assoc, length_app. cbn [app length]. unfold with_table.
      replace (Z.of_nat (length l + 1)) with (rt_quota_count st + 1) by lia. by rewrite u64_small by rlia.
    + split; [done|]. rewrite U. unfold counts_of in *. rewrite map_app, list_to_map_app. cbn [map].
      cbn. apply map_eq. intros i. rewrite lookup_union. destruct (decide (i = id)) as [->|Hne].
      * rewrite Ek, !lookup_insert_eq. done.
      * rewrite !lookup_insert_ne, lookup_empty by done. by destruct (_ !! i).
Qed.

Lemma with_table_same st : with_table (rt_quota st) (rt_quota_count st) st = st.
Proof. by destruct st. Qed.

Lemma quota_allows_defined st id :
  responder_wf st -> exists v q n, quota_allows st id = Ok (v, with_table q n st) /\
    responder_wf (with_table q n st).
Proof.
  intros Hwf. pose proof (quota_allows_spec st id Hwf) as H.
  destruct (quota_spec _ _ _) as [[ok m']|].
  - destruct H as (q & n & E & W & _). by eauto.
  - exists (-1), (rt_quota st), (rt_quota_count st). by rewrite with_table_same.
Qed.

(** *** The table itself *)

(** One more request for the bucket [id]: it is counted in the bucket's entry, or
    in a new one while there is room, and allowed while the bucket had fewer
    requests than the allowance. *)
Definition charged (st : r_test_responder_state) (id : list Z) : option (bool * r_test_responder_state) :=
  match list_find (fun e => qe_bucket_id e = id) (used_entries st) with
  | Some (i, e) =>
      Some (bool_decide (qe_requests e < rt_allow_count st),
            with_table (<[i := mk_quota_entry id (u64 (qe_requests e + 1))]> (rt_quota st)) (rt_quota_count st) st)
  | None =>
      if decide (rt_quota_count st < 256) then
        Some (bool_decide (0 < rt_allow_count st),
              with_table (<[Z.to_nat (rt_quota_count st) := mk_quota_entry id 1]> (rt_quota st)) (rt_quota_count st + 1) st)
      else None
  end.

Lemma quota_scan_find allow pre l post id :
  quota_scan (length l) (zlen pre) allow (pre ++ l ++ post) id =
  Ok ((fun p => (if qe_requests (snd p) <? allow then 1 else 0,
                 <[(length pre + fst p)%nat := mk_quota_entry id (u64 (qe_requests (snd p) + 1))]> (pre ++ l ++ post))) <$>
      list_find (fun e => qe_bucket_id e = id) l).
Proof.
  revert pre; induction l as [|e l IH]; intros pre; [done|]. cbn [length quota_scan app list_find]. rewrite elem_at, run_bind_Ok.
  case_bool_decide as E; [rewrite decide_True by done|rewrite decide_False by done].
  - subst id. rewrite set_elem_at, run_bind_Ok. cbn. rewrite Nat.add_0_r. do 3 f_equal.
    rewrite <- (Nat.add_0_r (length pre)) at 1. by rewrite insert_app_r.
  - specialize (IH (pre ++ [e])). replace (zlen (pre ++ [e])) with (zlen pre + 1) in IH by (rewrite length_app; simpl; lia).
    rewrite <- !app_assoc in IH. cbn [app] in IH. rewrite IH. f_equal. destruct (list_find _ l) as [[j x]|]; [|done]. cbn.
    do 3 f_equal. rewrite length_app. simpl. lia.
Qed.

Lemma quota_allows_charged st id :
  responder_wf st ->
  quota_allows st id = Ok (match charged st id with Some (ok, st') => (if (ok : bool) then 1 else 0, st') | None => (-1, st) end).
Proof.
  intros Hwf. pose proof Hwf as [Ht Hc _ _ _ _ _]. destruct (used_split st Hwf) as (post & Eq & El).
  unfold quota_allows, charged. pose proof (quota_scan_find (rt_allow_count st) [] (used_entries st) post id) as Hs.
  change (zlen []) with 0 in Hs. cbn [app length] in Hs. rewrite <- Eq in Hs.
  replace (length (used_entries st)) with (Z.to_nat (rt_quota_count st)) in Hs by lia. rewrite Hs, run_bind_Ok.
  destruct (list_find _ (used_entries st)) as [[i e]|]; cbn [fmap option_fmap option_map fst snd].
  - destruct (Z.ltb_spec (qe_requests e) (rt_allow_count st));
      [rewrite bool_decide_true by done|rewrite bool_decide_false by lia]; by destruct st.
  - unfold R_TEST_RESPONDER_QUOTA_CAP in *. destruct (Z.leb_spec 256 (rt_quota_count st)); [by rewrite decide_False by lia|].
    rewrite decide_True by done. unfold set_elem. rewrite (proj2 (Z.leb_le 0 _)), (proj2 (Z.ltb_lt (rt_quota_count st) _)) by lia.
    cbn [andb]. rewrite run_bind_Ok.
    rewrite u64_small by rlia. destruct (Z.ltb_spec 0 (rt_allow_count st)); [by rewrite bool_decide_true|by rewrite bool_decide_false by lia].
Qed.

Lemma charged_defined st id ok st' :
  responder_wf st -> charged st id = Some (ok, st') -> responder_wf st' /\ exists q n, st' = with_table q n st.
Proof.
  intros Hwf E. destruct (quota_allows_defined st id Hwf) as (v & q & n & Eq & W).
  rewrite quota_allows_charged, E in Eq by done. injection Eq as _ ->. split; [done|by eexists _, _].
Qed.

(** ** A run of requests *)

(** The verdicts of successive requests for these buckets. *)
Fixpoint quota_calls (st : r_test_responder_state) (ids : list (list Z))
  : run (list Z * r_test_responder_state) :=
  match ids with
  | [] => Ok ([], st)
  | id :: ids' =>
      a ← quota_allows st id;
      r ← quota_calls (snd a) ids';
      Ok (fst a :: fst r, snd r)
  end.

(** How often a bucket was asked for. *)
Fixpoint requests_for (id : list Z) (ids : list (list Z)) : Z :=
  match ids with
  | [] => 0
  | x :: ids' => (if bool_decide (x = id) then 1 else 0) + requests_for id ids'
  end.

Definition earlier (m : gmap (list Z) Z) (id : list Z) : Z := default 0 (m !! id).

(** The verdicts by the contract: the number of earlier requests for the same
    bucket, in the map and in this run, is compared with the allowance. *)
Fixpoint verdicts (allow_count : Z) (m : list Z -> Z) (ids : list (list Z)) : list Z :=
  match ids with
  | [] => []
  | id :: ids' => (if m id <? allow_count then 1 else 0)
                  :: verdicts allow_count (fun x => m x + (if bool_decide (x = id) then 1 else 0)) ids'
  end.

Lemma verdicts_ext allow f g ids :
  (forall x, f x = g x) -> verdicts allow f ids = verdicts allow g ids.
Proof.
  revert f g; induction ids as [|id ids IH]; intros f g H; [done|]. cbn [verdicts]. rewrite H. f_equal.
  apply IH. intros x. by rewrite H.
Qed.

Lemma verdicts_lookup allow f ids i id :
  ids !! i = Some id ->
  verdicts allow f ids !! i = Some (if f id + requests_for id (take i ids) <? allow then 1 else 0).
Proof.
  revert f i; induction ids as [|x ids IH]; intros f [|i] Hi; try done; cbn [verdicts].
  - injection Hi as ->. cbn [lookup list_lookup take requests_for]. by rewrite Z.add_0_r.
  - cbn [lookup list_lookup] in *. rewrite (IH _ i Hi). cbn [take requests_for].
    rewrite <- Z.add_assoc. do 4 f_equal. by rewrite (bool_decide_ext (id = x) (x = id)).
Qed.

Lemma quota_calls_spec ids st :
  responder_wf st ->
  Z.of_nat (size (dom (bucket_counts st) ∪ list_to_set ids)) <= R_TEST_RESPONDER_QUOTA_CAP ->
  (forall id k, bucket_counts st !! id = Some k -> 0 <= k /\ k + zlen ids < 2 ^ 64) -> zlen ids < 2 ^ 64 ->
  exists st', quota_calls st ids = Ok (verdicts (rt_allow_count st) (earlier (bucket_counts st)) ids, st') /\
    responder_wf st'.
Proof.
  revert st; induction ids as [|id ids IH]; intros st Hwf Hsz Hk Hl; [by eexists|].
  cbn [quota_calls verdicts]. pose proof (quota_allows_spec st id Hwf) as Hs.
  assert (Hq : exists k, earlier (bucket_counts st) id = k /\ 0 <= k /\ k + zlen (id :: ids) < 2 ^ 64 /\
    quota_spec (rt_allow_count st) (bucket_counts st) id =
    Some (k <? rt_allow_count st, <[id := k + 1]> (bucket_counts st))).
  { unfold quota_spec, earlier. destruct (bucket_counts st !! id) as [k|] eqn:Ek.
    - exists k. destruct (Hk id k Ek). simpl length in *. rewrite u64_small by rlia. done.
    - exists 0. rewrite (proj2 (Z.leb_gt _ _)); [done|].
      apply not_elem_of_dom in Ek. rewrite <- size_dom.
      assert (size (dom (bucket_counts st) ∪ {[id]}) <= size (dom (bucket_counts st) ∪ list_to_set (id :: ids)))%nat
        by (apply subseteq_size; set_solver).
      rewrite size_union, size_singleton in * by set_solver. lia. }
  destruct Hq as (k & Ee & Hk0 & Hk1 & Eq). rewrite Eq in Hs. destruct Hs as (q & n & E & W & U).
  rewrite E, run_bind_Ok. cbn [fst snd].
  assert (Hdom : dom (bucket_counts (with_table q n st)) ∪ list_to_set ids =
                 dom (bucket_counts st) ∪ list_to_set (id :: ids)) by (rewrite U, dom_insert_L; set_solver).
  destruct (IH (with_table q n st)) as (st' & Er & Wr); [done|by rewrite Hdom| |simpl length in Hl; lia|].
  { intros x j. rewrite U. destruct (decide (x = id)) as [->|Hne].
    - rewrite lookup_insert_eq. intros [= <-]. simpl length in *. lia.
    - rewrite lookup_insert_ne by done. intros Hx. destruct (Hk x j Hx). simpl length in *. lia. }
  rewrite Er, run_bind_Ok. exists st'. split; [|done]. cbn [fst snd rt_allow_count].
  rewrite Ee. destruct st; cbn in *. do 3 f_equal. apply verdicts_ext. intros x. rewrite U. unfold earlier.
  case_bool_decide as Ex; [subst x; rewrite lookup_insert_eq; unfold earlier in Ee; rewrite Ee; done|].
  rewrite lookup_insert_ne by done. by rewrite Z.add_0_r.
Qed.
