(* ===== verification/ResponderAnswers.v ===== *)
(** * The test responder's answers: facts

    The response PDU as a function of the request and of the scenario, and what
    a client reads in it. *)

From Stdlib Require Import String Ascii.
From S2P Require Import Prelude.
From S2P Require Import Types.
From S2P Require Import Wire.
From S2P Require Import WireFacts.
From S2P Require Import Crypto.
From S2P Require Import CryptoFacts.
From S2P Require Import Workflow.
From S2P Require Import State.
From S2P Require Import Hoare.
From S2P Require Import Request.
From S2P Require Import RequestFacts.
From S2P Require Import PacketFacts.
From S2P Require Import ExtractFacts.
From S2P Require Import Client.
From S2P Require Import Responder.
From S2P Require Import ResponderFacts.
From S2P Require Import ResponderQuota.

(** ** Reads and writes inside a block just written *)
Lemma wr_inside buf pos bs buf' k b2 bs' :
  wr buf pos bs = Ok buf' -> wr bs k b2 = Ok bs' -> wr buf' (pos + k) b2 = wr buf pos bs'.
Proof.
  intros H H2. pose proof (wr_Ok _ _ _ _ H) as (Ho & Hr & _). pose proof (wr_Ok _ _ _ _ H2) as (Hk & Hk2 & Hl).
  destruct (block_split buf pos (zlen bs)) as (a & m & c & -> & Ha & Hm); [lia..|].
  rewrite (wr_app a m c bs) in H by lia. injection H as <-. rewrite (wr_app a m c bs') by lia.
  destruct (block_split bs k (zlen b2)) as (b0 & b1 & b3 & -> & Hb0 & Hb1); [lia..|].
  rewrite (wr_app b0 b1 b3 b2) in H2 by lia. injection H2 as <-.
  rewrite <- !app_assoc, (app_assoc a). rewrite wr_app by (rewrite ?length_app; lia).
  by rewrite <- !app_assoc.
Qed.

Lemma read_le32_only p off bs : rd_bytes p off 4 = Ok bs -> read_le32 p off = read_le32 bs 0.
Proof.
  intros H. pose proof (rd_bytes_Ok _ _ _ _ H) as (_ & _ & _ & Hl). unfold read_le32.
  pose proof (rd_bytes_byte p off 4 bs H) as Hb.
  assert (Hi : forall i, 0 <= i < 4 -> rd p (off + i) = rd bs (0 + i)).
  { intros i Hi. destruct (Hb i Hi) as (b & Eb & ->). unfold rd.
    rewrite (proj2 (Z.leb_le 0 (0 + i))) by lia. by rewrite Z.add_0_l, Eb. }
  pose proof (Hi 0 ltac:(lia)) as H0. rewrite !Z.add_0_r in H0. rewrite H0.
  rewrite (Hi 1), (Hi 2), (Hi 3) by lia. done.
Qed.

Lemma read_le32_known p off v : rd_bytes p off 4 = Ok (le 4 v) -> is_u32 v -> read_le32 p off = Ok v.
Proof.
  intros H Hv. rewrite (read_le32_only _ _ _ H). rewrite <- (app_nil_r (le 4 v)).
  by apply (le32_at []); [constructor|constructor| |].
Qed.

Lemma read_le16_known p off v : rd_bytes p off 2 = Ok (le 2 v) -> is_u16 v -> read_le16 p off = Ok v.
Proof.
  intros H Hv. pose proof (rd_bytes_byte p off 2 _ H) as Hb.
  assert (Hi : forall i, 0 <= i < 2 -> rd p (off + i) = rd (le 2 v) (0 + i)).
  { intros i Hi. destruct (Hb i Hi) as (b & Eb & ->). unfold rd.
    rewrite (proj2 (Z.leb_le 0 (0 + i))) by lia. by rewrite Z.add_0_l, Eb. }
  unfold read_le16. pose proof (Hi 0 ltac:(lia)) as H0. rewrite !Z.add_0_r in H0. rewrite H0, (Hi 1) by lia.
  rewrite <- (app_nil_r (le 2 v)). exact (le16_at [] v [] 0 ltac:(constructor) ltac:(constructor) Hv eq_refl).
Qed.

Lemma rd_bytes_sub p off n bs k m :
  rd_bytes p off n = Ok bs -> 0 <= k -> 0 <= m -> k + m <= n -> rd_bytes p (off + k) m = rd_bytes bs k m.
Proof.
  intros H Hk Hm Hn. pose proof (rd_bytes_Ok _ _ _ _ H) as (Ho & _ & Hb & Hl).
  destruct (block_split p off n) as (a & x & b & -> & <- & Hx); [lia..|].
  rewrite (rd_bytes_app a x b) in H by done. injection H as <-.
  destruct (block_split x k m) as (x0 & x1 & x2 & -> & <- & <-); [lia..|].
  rewrite (rd_bytes_app x0 x1 x2) by done. rewrite <- !app_assoc, app_assoc.
  apply rd_bytes_app; [rewrite length_app; lia|done].
Qed.

(** The [i]-th element of a serialised array. *)
Lemma rd_array {A} (ser : A -> list Z) w pre (l : list A) post i x off :
  (forall y, y ∈ l -> zlen (ser y) = w) -> elem l i = Ok x -> off = zlen pre + i * w ->
  rd_bytes (pre ++ concat (map ser l) ++ post) off w = Ok (ser x).
Proof.
  intros Hw He ->. unfold elem in He. destruct (Z.leb_spec 0 i); [|done].
  destruct (l !! Z.to_nat i) as [y|] eqn:El; [|done]. injection He as ->.
  pose proof (take_drop_middle l (Z.to_nat i) x El) as E.
  pose proof (lookup_lt_Some _ _ _ El) as Hlt. set (l1 := take (Z.to_nat i) l) in *.
  set (l2 := drop (S (Z.to_nat i)) l) in *. clearbody l2.
  assert (Hl : length l1 = Z.to_nat i) by (unfold l1; rewrite length_take; lia). clearbody l1. subst l.
  rewrite map_app, concat_app. cbn [map concat].
  rewrite <- !app_assoc, (app_assoc pre). apply rd_bytes_at.
  - rewrite length_app, Nat2Z.inj_add, (concat_map_length ser w) by (intros; apply Hw; set_solver). rewrite Hl, Z2Nat.id by lia. done.
  - symmetry. apply Hw. set_solver.
Qed.

(** ** Guards *)
Definition answered_latency (scenario threshold : Z) : Z :=
  if scenario =? R_TEST_SCENARIO_GUARD_DENY then threshold
  else if 0 <? threshold then threshold - 1 else 0.

Definition ser_answer_guard (scenario : Z) (g : r_latency_guard) : list Z :=
  lg_latency_tracker_id g ++ le 4 (lg_ttl_ms g) ++ le 4 (lg_max_samples g) ++
  le 4 (lg_min_sample_threshold g) ++ le 4 (lg_threshold_ms g) ++
  le 4 (answered_latency scenario (lg_threshold_ms g)).

Lemma ser_answer_guard_length sc g :
  wf_latency_guard g -> zlen (ser_answer_guard sc g) = R_GUARD_BLOCK_WIRE_LEN.
Proof.
  intros ([Hid _] & _). unfold ser_answer_guard. rewrite !length_app, !le_length, Hid. done.
Qed.

Lemma ser_answer_guard_bytes sc g : wf_latency_guard g -> is_bytes (ser_answer_guard sc g).
Proof.
  intros ([_ Hid] & _). unfold ser_answer_guard. repeat (apply Forall_app; split); try apply le_bytes. done.
Qed.

(** A response block beyond the request's. *)
Definition extra_guard : r_latency_guard := mk_latency_guard (replicate 16 0) 1 0 0 0.
Definition padded {A} (extra : A) (n : nat) (l : list A) : list A :=
  take n l ++ replicate (n - length l) extra.

Lemma padded_length {A} (extra : A) n l : length (padded extra n l) = n.
Proof. unfold padded. rewrite length_app, length_take, length_replicate. lia. Qed.

Lemma padded_elem {A} (extra : A) n l i x :
  elem (padded extra n l) i = Ok x ->
  (i < zlen l /\ elem l i = Ok x) \/ (zlen l <= i /\ x = extra).
Proof.
  unfold elem, padded. destruct (Z.leb_spec 0 i) as [Hi|]; [|done].
  destruct (decide (i < zlen l)) as [Hl|Hl].
  - destruct (lookup_lt_is_Some_2 l (Z.to_nat i) ltac:(lia)) as [y Hy].
    destruct (decide (Z.to_nat i < n)%nat) as [Hn|Hn].
    + rewrite lookup_app_l by (rewrite length_take; lia). rewrite lookup_take_lt by lia.
      rewrite Hy. intros [= ->]. by left.
    + rewrite lookup_ge_None_2; [done|]. rewrite length_app, length_take, length_replicate. lia.
  - destruct (_ !! _) as [y|] eqn:E; [|done]. intros [= ->]. right. split; [lia|].
    rewrite lookup_app_r in E by (rewrite length_take; lia). by apply lookup_replicate in E as [-> _].
Qed.

Lemma padded_wf {A} (P : A -> Prop) extra n l : P extra -> Forall P l -> Forall P (padded extra n l).
Proof. intros He Hl. apply Forall_app. split; [by apply Forall_take|by apply Forall_replicate]. Qed.

Lemma zero_id : is_id16 (replicate 16 0).
Proof. split; [done|apply Forall_replicate; rlia]. Qed.
Lemma extra_guard_wf : wf_latency_guard extra_guard.
Proof. split; [apply zero_id|]. by repeat split. Qed.

Lemma answered_latency_range sc t : is_u32 t -> is_u32 (answered_latency sc t).
Proof. intros Ht. unfold answered_latency. case_if; [done|]. destruct (Z.ltb_spec 0 t); rlia. Qed.

(** The end of an iteration: the block holds the request's guard, whose latency
    is then filled in. *)
Lemma answer_guard_tail sc g buf pos body :
  wf_latency_guard g -> 0 <= pos -> pos < 2 ^ 32 -> wr buf pos (ser_guard g) = Ok body ->
  (threshold ← read_le32 body (pos + 28);
   let current := if 0 <? threshold then threshold -32 1 else 0 in
   let current := if sc =? R_TEST_SCENARIO_GUARD_DENY then threshold else current in
   body ← write_le32 body (pos + 32) current;
   Ok (body, pos +64 R_GUARD_BLOCK_WIRE_LEN)) =
  (buf' ← wr buf pos (ser_answer_guard sc g); Ok (buf', pos + R_GUARD_BLOCK_WIRE_LEN)).
Proof.
  intros Hg Hp Hp2 Hw. pose proof (ser_guard_length g Hg) as Hl. change R_GUARD_BLOCK_WIRE_LEN with 36 in *.
  destruct Hg as ([Hid Hidb] & Hthr & Httl & Hmax & Hmin).
  set (a := lg_latency_tracker_id g ++ le 4 (lg_ttl_ms g) ++ le 4 (lg_max_samples g) ++
            le 4 (lg_min_sample_threshold g)).
  assert (Ha : zlen a = 28) by (unfold a; rewrite !length_app, !le_length, Hid; done).
  assert (Eg : ser_guard g = a ++ le 4 (lg_threshold_ms g) ++ le 4 0)
    by (unfold ser_guard, a; by rewrite <- !app_assoc).
  assert (Er : read_le32 body (pos + 28) = Ok (lg_threshold_ms g)).
  { apply read_le32_known; [|done]. rewrite (rd_bytes_wr buf pos (ser_guard g) body 28) by (done || lia).
    rewrite Eg. apply rd_bytes_at; [done|by rewrite le_length]. }
  rewrite Er, run_bind_Ok. cbv zeta.
  replace (if sc =? R_TEST_SCENARIO_GUARD_DENY then lg_threshold_ms g
           else if 0 <? lg_threshold_ms g then lg_threshold_ms g -32 1 else 0)
    with (answered_latency sc (lg_threshold_ms g)).
  2:{ unfold answered_latency. case_if; [done|]. destruct (Z.ltb_spec 0 (lg_threshold_ms g)); [|done].
      by rewrite u32_small by rlia. }
  rewrite write_le32_wr. rewrite (wr_inside buf pos (ser_guard g) body 32 _ (ser_answer_guard sc g)); [|done|].
  - rewrite u64_small by rlia. done.
  - rewrite Eg. unfold ser_answer_guard. rewrite app_assoc.
    replace ((a ++ le 4 (lg_threshold_ms g)) ++ le 4 0) with ((a ++ le 4 (lg_threshold_ms g)) ++ le 4 0 ++ [])
      by by rewrite app_nil_r.
    rewrite wr_app; [|rewrite length_app, le_length; lia|by rewrite !le_length].
    unfold a. by rewrite app_nil_r, <- !app_assoc.
Qed.

(** ** The answers, as values *)
(** The deficit answered for a resource of this bucket that asks for so many
    tokens. *)
Definition deficit_of (st : r_test_responder_state) (r : r_resource_request)
  : flow (Z * r_test_responder_state) (Z * r_test_responder_state) :=
  let requested := if rr_tokens_requested r =? 0 then 1 else rr_tokens_requested r in
  if rt_scenario st =? R_TEST_SCENARIO_DENY then Next (requested, st)
  else if rt_scenario st =? R_TEST_SCENARIO_QUOTA then
    match charged st (rr_bucket_id r) with
    | None => Return (RCLIENT_ERR_NOMEM, st)
    | Some (allowed, st) => Next (if (allowed : bool) then 0 else requested, st)
    end
  else Next (0, st).

Definition set_tokens (d : Z) (r : r_resource_request) : r_resource_request :=
  mk_resource_request (rr_bucket_id r) (rr_window_size_ms r) (rr_rate_limit r) d.
Definition extra_resource : r_resource_request := mk_resource_request (replicate 16 0) 0 0 1.

(** The resource blocks answered, [n] of them, with the deficit where the
    request has the tokens. *)
Fixpoint answered_resources (n : nat) (st : r_test_responder_state) (l : list r_resource_request)
  : flow (list r_resource_request * r_test_responder_state) (Z * r_test_responder_state) :=
  match n with
  | O => Next ([], st)
  | S n' =>
      match (match l with
             | [] => Next (extra_resource, st)
             | r :: _ => match deficit_of st r with
                         | Next (d, st) => Next (set_tokens d r, st)
                         | Return e => Return e
                         end
             end) with
      | Return e => Return e
      | Next (r', st) =>
          match answered_resources n' st (tail l) with
          | Return e => Return e
          | Next (l', st) => Next (r' :: l', st)
          end
      end
  end.

Lemma deficit_of_wf st r :
  responder_wf st ->
  match deficit_of st r with
  | Next (d, st') => responder_wf st' /\ (is_u16 (rr_tokens_requested r) -> is_u16 d)
  | Return (rc, st') => responder_wf st' /\ rc = RCLIENT_ERR_NOMEM
  end.
Proof.
  intros Hst. unfold deficit_of.
  assert (Hd : is_u16 (rr_tokens_requested r) ->
    is_u16 (if rr_tokens_requested r =? 0 then 1 else rr_tokens_requested r)) by (case_if; [rlia|done]).
  case_if; [done|]. case_if; [|split; [done|intros; rlia]].
  destruct (charged st (rr_bucket_id r)) as [[ok st']|] eqn:Ec; [|done].
  split; [by apply (charged_defined _ _ _ _ Hst Ec)|]. destruct ok; [intros; rlia|done].
Qed.

(** One iteration writes the block with the deficit in place of the tokens. *)
Lemma answer_resource_tail r d buf pos body :
  wf_resource_request r -> 0 <= pos -> pos < 2 ^ 32 -> wr buf pos (ser_resource r) = Ok body ->
  (body ← write_le16 body (pos + 24) d; write_le16 body (pos + 26) 0) = wr buf pos (ser_resource (set_tokens d r)).
Proof.
  intros ([Hid _] & _) Hp Hp2 Hw.
  set (a := rr_bucket_id r ++ le 4 (rr_window_size_ms r) ++ le 4 (rr_rate_limit r)).
  assert (Ha : zlen a = 24) by (unfold a; rewrite !length_app, !le_length, Hid; done).
  assert (Er : forall t, ser_resource (set_tokens t r) = a ++ le 2 t ++ le 2 0)
    by (intros t; unfold ser_resource, a; by rewrite <- !app_assoc).
  assert (Er0 : ser_resource r = a ++ le 2 (rr_tokens_requested r) ++ le 2 0)
    by (unfold ser_resource, a; by rewrite <- !app_assoc).
  assert (E1 : wr (ser_resource r) 24 (le 2 d) = Ok (ser_resource (set_tokens d r))).
  { rewrite Er0, Er. apply wr_app; [done|by rewrite !le_length]. }
  assert (E2 : wr (ser_resource (set_tokens d r)) 26 (le 2 0) = Ok (ser_resource (set_tokens d r))).
  { rewrite Er, app_assoc. rewrite <- (app_nil_r (le 2 0)) at 1.
    rewrite wr_app; [|rewrite length_app, le_length; lia|done]. by rewrite app_nil_r. }
  rewrite write_le16_wr, (wr_inside buf pos _ body 24 _ _ Hw E1).
  destruct (wr buf pos (ser_resource (set_tokens d r))) as [|b1] eqn:E; [done|]. rewrite run_bind_Ok, write_le16_wr.
  by rewrite (wr_inside buf pos _ b1 26 _ _ E E2).
Qed.

Definition response_body (sc : Z) (gs' : list r_latency_guard) (rs' : list r_resource_request) : list Z :=
  le 2 (zlen gs') ++ le 2 (zlen rs') ++ concat (map (ser_answer_guard sc) gs') ++
  concat (map ser_resource rs').

Definition response_pdu (sc : Z) (gs' : list r_latency_guard) (rs' : list r_resource_request) : list Z :=
  ser_pdu R_PDU_RATE_RESPONSE (response_body sc gs' rs').

Lemma answered_resources_wf n st l :
  responder_wf st -> Forall wf_resource_request l ->
  match answered_resources n st l with
  | Next (l', st') => responder_wf st' /\ length l' = n /\ Forall wf_resource_request l'
  | Return (rc, st') => responder_wf st' /\ rc = RCLIENT_ERR_NOMEM
  end.
Proof.
  revert st l; induction n as [|n IH]; intros st l Hst Hl; cbn [answered_resources]; [done|].
  destruct l as [|r l]; cbn [tail].
  - specialize (IH st [] Hst Hl). destruct (answered_resources n st []) as [[l' st']|[rc st']]; [|done].
    destruct IH as (? & ? & ?). split; [done|]. split; [by simpl; f_equal|]. constructor; [|done].
    split; [apply zero_id|by repeat split].
  - apply Forall_cons in Hl as [Hr Hl]. pose proof (deficit_of_wf st r Hst) as Hd.
    destruct (deficit_of st r) as [[d st1]|[rc st1]]; [|done]. destruct Hd as [Hst1 Hd].
    specialize (IH st1 l Hst1 Hl). destruct (answered_resources n st1 l) as [[l' st']|[rc st']]; [|done].
    destruct IH as (? & ? & ?). split; [done|]. split; [by simpl; f_equal|]. constructor; [|done].
    destruct Hr as (? & ? & ? & ?). do 3 (split; [done|]). by apply Hd.
Qed.

Lemma answer_guards_length sc l :
  Forall wf_latency_guard l -> zlen (concat (map (ser_answer_guard sc) l)) = zlen l * R_GUARD_BLOCK_WIRE_LEN.
Proof. intros H. apply concat_map_length. intros g Hg. eapply ser_answer_guard_length, Forall_forall; done. Qed.

Lemma response_body_length sc gs' rs' :
  Forall wf_latency_guard gs' -> Forall wf_resource_request rs' ->
  zlen (response_body sc gs' rs') = 4 + zlen gs' * 36 + zlen rs' * 28.
Proof.
  intros Hg Hr. unfold response_body. rewrite !length_app, !le_length.
  pose proof (answer_guards_length sc gs' Hg) as E1. pose proof (resources_length rs' Hr) as E2.
  change R_GUARD_BLOCK_WIRE_LEN with 36 in *. change R_RESOURCE_BLOCK_WIRE_LEN with 28 in *. lia.
Qed.

(** ** The blocks of a response *)
Section Blocks.
Context (pdu pre post : list Z) (gs : list r_latency_guard) (rs : list r_resource_request).
Context (request : r_test_parsed_request).
Hypothesis gs_wf : Forall wf_latency_guard gs.
Hypothesis rs_wf : Forall wf_resource_request rs.
Hypothesis pre_len : zlen pre = 12.
Hypothesis pdu_blocks :
  pdu = pre ++ concat (map ser_guard gs) ++ concat (map ser_resource rs) ++ post.
Hypothesis few : zlen gs <= UINT16_MAX /\ zlen rs <= UINT16_MAX.
Hypothesis request_guards : pq_guards request = Some 12 /\ pq_guard_count request = zlen gs.
Hypothesis request_resources :
  pq_resources request = Some (12 + zlen gs * 36) /\ pq_resource_count request = zlen rs.

Lemma guard_source i g : elem gs i = Ok g -> rd_bytes pdu (12 + i * 36) 36 = Ok (ser_guard g).
Proof.
  intros He. rewrite pdu_blocks. apply (rd_array ser_guard 36 pre gs _ i g); [|done|by rewrite pre_len].
  intros y Hy. by eapply ser_guard_length, Forall_forall.
Qed.

Lemma resource_source i r :
  elem rs i = Ok r -> rd_bytes pdu (12 + zlen gs * 36 + i * 28) 28 = Ok (ser_resource r).
Proof.
  intros He. rewrite pdu_blocks, app_assoc. apply (rd_array ser_resource 28 _ rs post i r); [|done|].
  - intros y Hy. by eapply ser_resource_length, Forall_forall.
  - rewrite length_app, Nat2Z.inj_add, guards_length, pre_len by done. done.
Qed.

Lemma answer_guard_step sc n i g buf pos :
  elem (padded extra_guard n gs) i = Ok g -> zlen buf = R_MAX_PACKET_SIZE -> 0 <= pos ->
  pos + R_GUARD_BLOCK_WIRE_LEN <= R_MAX_PACKET_SIZE ->
  answer_guard_block sc pdu request i (buf, pos) =
  (buf' ← wr buf pos (ser_answer_guard sc g); Ok (buf', pos + R_GUARD_BLOCK_WIRE_LEN)).
Proof.
  intros He Hb Hp Hp2. change R_MAX_PACKET_SIZE with 1200 in *. destruct request_guards as [Eg Ec].
  unfold answer_guard_block. rewrite Ec, Eg.
  assert (Hw : wf_latency_guard g).
  { apply elem_of_elem in He. eapply Forall_forall; [|exact He]. apply padded_wf; [apply extra_guard_wf|done]. }
  pose proof (ser_guard_length g Hw) as Hl. change R_GUARD_BLOCK_WIRE_LEN with 36 in *.
  destruct (wr_defined buf pos (ser_guard g)) as [body Hbody]; [lia|lia|].
  destruct (padded_elem _ _ _ _ _ He) as [[Hi Hg]|[Hi ->]].
  - rewrite zltb_true by done. cbn [deref of_option]. rewrite run_bind_Ok, (guard_source i g Hg), run_bind_Ok.
    rewrite Hbody, run_bind_Ok. apply (answer_guard_tail sc g buf pos body); [done|lia|lia|done].
  - rewrite zltb_false by done. unfold fill. change (0 <=? 36) with true. cbv iota.
    destruct (wr_defined buf pos (replicate (Z.to_nat 36) 0)) as [b0 Hb0]; [lia|rewrite length_replicate; lia|].
    rewrite Hb0, run_bind_Ok, write_le32_wr.
    rewrite (wr_inside buf pos (replicate (Z.to_nat 36) 0) b0 28 (le 4 1) (ser_guard extra_guard)) by done.
    rewrite Hbody, run_bind_Ok. apply (answer_guard_tail sc extra_guard buf pos body); [done|lia|lia|done].
Qed.

Lemma answer_guards sc n buf :
  zlen buf = R_MAX_PACKET_SIZE -> 4 + Z.of_nat n * R_GUARD_BLOCK_WIRE_LEN <= R_MAX_PACKET_SIZE ->
  for_range n 0 (answer_guard_block sc pdu request) (buf, 4) =
  (buf' ← wr buf 4 (concat (map (ser_answer_guard sc) (padded extra_guard n gs)));
   Ok (buf', 4 + Z.of_nat n * R_GUARD_BLOCK_WIRE_LEN)).
Proof.
  intros Hb Hl.
  pose proof (for_range_serialize (padded extra_guard n gs) (ser_answer_guard sc) R_GUARD_BLOCK_WIRE_LEN
    R_MAX_PACKET_SIZE (answer_guard_block sc pdu request)) as E.
  specialize (E ltac:(intros; by eapply answer_guard_step)).
  specialize (E ltac:(intros x Hx; apply ser_answer_guard_length; eapply Forall_forall;
    [apply padded_wf; [apply extra_guard_wf|exact gs_wf]|exact Hx]) ltac:(clia)).
  specialize (E n 0%nat buf 4). rewrite padded_length in E. change (Z.of_nat 0) with 0 in E. rewrite E by (done || lia).
  by rewrite drop_0, firstn_all2 by (rewrite padded_length; lia).
Qed.

(** *** Resources *)

Lemma deficit_read r source :
  wf_resource_request r -> rd_bytes pdu source 28 = Ok (ser_resource r) ->
  read_le16 pdu (source + 24) = Ok (rr_tokens_requested r) /\
  rd_bytes pdu source 16 = Ok (rr_bucket_id r).
Proof.
  intros ([Hid _] & Hw & Hrl & Ht) H. split.
  - apply read_le16_known; [|done]. rewrite (rd_bytes_sub _ _ _ _ 24 2 H) by lia. unfold ser_resource.
    rewrite !app_assoc, <- app_assoc. apply rd_bytes_at; [|by rewrite le_length].
    rewrite !length_app, !le_length, Hid. done.
  - rewrite <- (Z.add_0_r source), (rd_bytes_sub _ _ _ _ 0 16 H) by lia. unfold ser_resource.
    apply (rd_bytes_at []); [done|by rewrite Hid].
Qed.

Lemma answer_deficit_spec st r source :
  responder_wf st -> wf_resource_request r -> rd_bytes pdu source 28 = Ok (ser_resource r) ->
  answer_deficit pdu source st = Ok (deficit_of st r).
Proof.
  intros Hst Hr H. destruct (deficit_read r source Hr H) as [Et Ei]. unfold answer_deficit, deficit_of.
  rewrite Et, run_bind_Ok. case_if; [done|]. case_if; [|done]. rewrite Ei, run_bind_Ok.
  rewrite quota_allows_charged, run_bind_Ok by done. by destruct (charged st (rr_bucket_id r)) as [[[] ?]|].
Qed.

Lemma answer_resource_step st i buf pos :
  responder_wf st -> 0 <= i -> zlen buf = R_MAX_PACKET_SIZE -> 0 <= pos ->
  pos + R_RESOURCE_BLOCK_WIRE_LEN <= R_MAX_PACKET_SIZE ->
  answer_resource_block pdu request i (buf, pos, st) =
  match (match drop (Z.to_nat i) rs with
         | [] => Next (extra_resource, st)
         | r :: _ => match deficit_of st r with
                     | Next (d, st) => Next (set_tokens d r, st)
                     | Return e => Return e
                     end
         end) with
  | Return e => Ok (Return e)
  | Next (r', st) => buf' ← wr buf pos (ser_resource r');
                     Ok (Next (buf', pos + R_RESOURCE_BLOCK_WIRE_LEN, st))
  end.
Proof.
  intros Hst Hi Hb Hp Hp2. destruct request_resources as [Er Ec]. unfold answer_resource_block. rewrite Er, Ec.
  change R_MAX_PACKET_SIZE with 1200 in *. change R_RESOURCE_BLOCK_WIRE_LEN with 28 in *.
  destruct (Z.ltb_spec i (zlen rs)) as [Hlt|Hge].
  - destruct (lookup_lt_is_Some_2 rs (Z.to_nat i) ltac:(lia)) as [r Hr].
    assert (Ee : elem rs i = Ok r) by (unfold elem; by rewrite (proj2 (Z.leb_le 0 i)), Hr by lia).
    assert (Hw : wf_resource_request r) by (eapply Forall_lookup_1; [exact rs_wf|exact Hr]).
    pose proof (ser_resource_length r Hw) as Hl. change R_RESOURCE_BLOCK_WIRE_LEN with 28 in Hl.
    rewrite (drop_S rs r) by done. cbn [deref of_option]. rewrite run_bind_Ok.
    pose proof (resource_source i r Ee) as Hs. rewrite Hs, run_bind_Ok.
    destruct (wr_defined buf pos (ser_resource r)) as [body Hbody]; [lia|lia|]. rewrite Hbody, run_bind_Ok.
    rewrite (answer_deficit_spec st r _ Hst Hw Hs), run_bind_Ok.
    destruct (deficit_of st r) as [[d st']|[rc st']]; rewrite run_bind_Ok; [|done].
    rewrite <- (answer_resource_tail r d buf pos body Hw Hp ltac:(lia) Hbody), u64_small by rlia.
    by destruct (write_le16 body (pos + 24) d).
  - rewrite drop_ge by lia. unfold fill. change (0 <=? 28) with true. cbv iota.
    destruct (wr_defined buf pos (replicate (Z.to_nat 28) 0)) as [b0 Hb0]; [lia|rewrite length_replicate; lia|].
    rewrite Hb0, !run_bind_Ok, u64_small by rlia.
    change extra_resource with (set_tokens 1 (mk_resource_request (replicate 16 0) 0 0 0)).
    rewrite <- (answer_resource_tail (mk_resource_request (replicate 16 0) 0 0 0) 1 buf pos b0); [|split; [apply zero_id|by repeat split]|lia|lia|exact Hb0].
    by destruct (write_le16 b0 (pos + 24) 1).
Qed.

Lemma answer_resources n k buf pos st :
  responder_wf st -> zlen buf = R_MAX_PACKET_SIZE -> 0 <= pos ->
  pos + Z.of_nat n * R_RESOURCE_BLOCK_WIRE_LEN <= R_MAX_PACKET_SIZE ->
  for_flow n (Z.of_nat k) (answer_resource_block pdu request) (buf, pos, st) =
  match answered_resources n st (drop k rs) with
  | Return e => Ok (Return e)
  | Next (l, st') => buf' ← wr buf pos (concat (map ser_resource l));
                     Ok (Next (buf', pos + Z.of_nat n * R_RESOURCE_BLOCK_WIRE_LEN, st'))
  end.
Proof.
  revert k buf pos st; induction n as [|n IH]; intros k buf pos st Hst Hb Hp Hl.
  { cbn [for_flow answered_resources map concat]. rewrite wr_nil, run_bind_Ok by lia. by rewrite Z.add_0_r. }
  rewrite for_flow_S. change R_MAX_PACKET_SIZE with 1200 in *. change R_RESOURCE_BLOCK_WIRE_LEN with 28 in *.
  rewrite answer_resource_step by (done || clia). rewrite Nat2Z.id. cbn [answered_resources].
  assert (Htail : tail (drop k rs) = drop (S k) rs).
  { change (tail (drop k rs)) with (drop 1 (drop k rs)). rewrite drop_drop. f_equal. lia. }
  set (x := match drop k rs with [] => _ | _ :: _ => _ end).
  assert (Hx : match x with Next (r', st') => responder_wf st' /\ wf_resource_request r' | Return _ => True end).
  { unfold x. destruct (drop k rs) as [|r l] eqn:Ed; [split; [done|split; [apply zero_id|by repeat split]]|].
    assert (Hw : wf_resource_request r).
    { eapply Forall_forall; [exact rs_wf|]. rewrite <- (take_drop k rs), Ed. set_solver. }
    pose proof (deficit_of_wf st r Hst) as Hd. destruct (deficit_of st r) as [[d st']|[rc st']]; [|done].
    destruct Hd as [? Hd]. split; [done|]. destruct Hw as (? & ? & ? & ?). do 3 (split; [done|]). by apply Hd. }
  destruct x as [[r' st']|e]; [|done]. destruct Hx as [Hst' Hw'].
  pose proof (ser_resource_length r' Hw') as Hrl. change R_RESOURCE_BLOCK_WIRE_LEN with 28 in Hrl.
  destruct (wr_defined buf pos (ser_resource r')) as [buf1 H1]; [lia|lia|]. rewrite H1, !run_bind_Ok.
  pose proof (wr_Ok _ _ _ _ H1) as (_ & _ & Hlen).
  replace (Z.of_nat k + 1) with (Z.of_nat (S k)) by lia. rewrite IH by (done || clia). rewrite Htail.
  destruct (answered_resources n st' (drop (S k) rs)) as [[l st2]|e]; [|done]. cbn [map concat].
  rewrite (wr_wr_at buf buf1 pos (pos + 28) (ser_resource r')) by (done || lia).
  change R_RESOURCE_BLOCK_WIRE_LEN with 28. replace (pos + 28 + Z.of_nat n * 28) with (pos + Z.of_nat (S n) * 28) by lia. done.
Qed.

(** What one call of [build_response_pdu] leaves: the state, and the PDU when
    there is one. *)
Lemma build_response st n m :
  responder_wf st -> answer_counts (rt_scenario st) (zlen gs) (zlen rs) = Some (Z.of_nat n, Z.of_nat m) ->
  Z.of_nat n <= UINT16_MAX -> Z.of_nat m <= UINT16_MAX ->
  let blen := 4 + Z.of_nat n * 36 + Z.of_nat m * 28 in
  (R_MAX_PACKET_SIZE < blen + 8 ->
     build_response_pdu st pdu request stack_buffer R_MAX_PACKET_SIZE =
     Ok (RCLIENT_ERR_PROTOCOL, st, stack_buffer, 0)) /\
  (blen + 8 <= R_MAX_PACKET_SIZE ->
     match answered_resources m st rs with
     | Return (rc, st') => build_response_pdu st pdu request stack_buffer R_MAX_PACKET_SIZE =
                           Ok (rc, st', stack_buffer, 0)
     | Next (l, st') =>
         exists out', build_response_pdu st pdu request stack_buffer R_MAX_PACKET_SIZE =
                      Ok (RCLIENT_OK, st', out', blen + 8) /\
           zlen out' = R_MAX_PACKET_SIZE /\
           rd_bytes out' 0 (blen + 8) = Ok (response_pdu (rt_scenario st) (padded extra_guard n gs) l) /\
           zlen (response_pdu (rt_scenario st) (padded extra_guard n gs) l) = blen + 8
     end).
Proof.
  intros Hst Hc Hn Hm blen. destruct request_guards as [_ Eg], request_resources as [_ Er].
  unfold build_response_pdu. rewrite Eg, Er, Hc.
  change R_MAX_PACKET_SIZE with 1200. change R_GUARD_BLOCK_WIRE_LEN with 36.
  change R_RESOURCE_BLOCK_WIRE_LEN with 28. change R_PDU_HEADER_LEN with 8. unwrap. fold blen.
  split; intros Hl.
  { destruct (Z.ltb_spec 1200 blen); [done|]. rewrite zltb_true by lia. by rewrite orb_true_r. }
  rewrite !zltb_false by lia. cbn [orb]. rewrite write_le16_wr.
  assert (Hsb : zlen stack_buffer = 1200) by apply stack_buffer_len.
  destruct (wr_defined stack_buffer 0 (le 2 (Z.of_nat n))) as [b1 H1]; [lia|rewrite le_length; lia|].
  rewrite H1, run_bind_Ok, write_le16_wr.
  destruct (wr_defined stack_buffer 0 (le 2 (Z.of_nat n) ++ le 2 (Z.of_nat m))) as [b2 H2];
    [lia|rewrite length_app, !le_length; lia|].
  rewrite (wr_wr_at stack_buffer b1 0 2 (le 2 (Z.of_nat n))), H2, run_bind_Ok by (done || by rewrite le_length).
  pose proof (wr_Ok _ _ _ _ H2) as (_ & _ & Hl2).
  rewrite !Nat2Z.id. rewrite answer_guards by (clia || (change R_MAX_PACKET_SIZE with 1200;
    change R_GUARD_BLOCK_WIRE_LEN with 36; lia)).
  assert (Hgw : Forall wf_latency_guard (padded extra_guard n gs)) by (apply padded_wf; [apply extra_guard_wf|done]).
  pose proof (answer_guards_length (rt_scenario st) _ Hgw) as Hgl. rewrite padded_length in Hgl.
  change R_GUARD_BLOCK_WIRE_LEN with 36 in *.
  set (G := concat (map (ser_answer_guard (rt_scenario st)) (padded extra_guard n gs))) in *.
  destruct (wr_defined stack_buffer 0 ((le 2 (Z.of_nat n) ++ le 2 (Z.of_nat m)) ++ G)) as [b3 H3];
    [lia|rewrite !length_app, !le_length; lia|].
  rewrite (wr_wr_at stack_buffer b2 0 4 (le 2 (Z.of_nat n) ++ le 2 (Z.of_nat m))), H3, run_bind_Ok
    by (done || (rewrite length_app, !le_length; lia)).
  pose proof (wr_Ok _ _ _ _ H3) as (_ & _ & Hl3). cbv beta iota. rewrite run_bind_Ok. cbv beta iota.
  pose proof (answer_resources m 0 b3 (4 + Z.of_nat n * 36) st Hst) as Er2.
  change (Z.of_nat 0) with 0 in Er2. rewrite Er2, drop_0; [|clia|lia|clia].
  pose proof (answered_resources_wf m st rs Hst rs_wf) as Hw.
  destruct (answered_resources m st rs) as [[l st']|[rc st']]; [|by rewrite run_bind_Ok].
  destruct Hw as (Hst' & Hll & Hlw). pose proof (resources_length l Hlw) as Hrl.
  change R_RESOURCE_BLOCK_WIRE_LEN with 28 in *.
  set (R := concat (map ser_resource l)) in *.
  assert (Ebody : ((le 2 (Z.of_nat n) ++ le 2 (Z.of_nat m)) ++ G) ++ R =
                  response_body (rt_scenario st) (padded extra_guard n gs) l).
  { unfold response_body. rewrite padded_length, Hll. by rewrite <- !app_assoc. }
  pose proof (response_body_length (rt_scenario st) _ _ Hgw Hlw) as Hblen.
  rewrite padded_length, Hll in Hblen. fold blen in Hblen.
  destruct (wr_defined stack_buffer 0 (((le 2 (Z.of_nat n) ++ le 2 (Z.of_nat m)) ++ G) ++ R)) as [b4 H4];
    [lia|rewrite Ebody; lia|].
  rewrite (wr_wr_at stack_buffer b3 0 (4 + Z.of_nat n * 36) ((le 2 (Z.of_nat n) ++ le 2 (Z.of_nat m)) ++ G)), H4
    by (done || (rewrite !length_app, !le_length; lia)).
  rewrite !run_bind_Ok. cbv beta iota. rewrite Ebody in H4.
  pose proof (rd_bytes_wr0 _ _ _ H4) as Hrd. pose proof (wr_Ok _ _ _ _ H4) as (_ & _ & Hl4).
  destruct (pdu_built R_PDU_RATE_RESPONSE b4 _ stack_buffer 1200 0 Hrd) as (out' & Eb & Ho & _ & Ht);
    [unfold is_object; lia|unfold is_object; lia|lia|].
  unfold pdu_fits in Eb, Ht. rewrite Hblen in Eb, Ht.
  rewrite (proj2 (Z.leb_le (8 + blen) 0xffff)), (proj2 (Z.leb_le (8 + blen) 1200)) in Eb, Ht by lia.
  cbn [andb] in Eb, Ht. fold (response_pdu (rt_scenario st) (padded extra_guard n gs) l) in Eb, Ht.
  assert (Hpl : zlen (response_pdu (rt_scenario st) (padded extra_guard n gs) l) = blen + 8).
  { unfold response_pdu, ser_pdu. rewrite !length_app, !le_length. lia. }
  rewrite Eb, run_bind_Ok. cbn [deref of_option]. rewrite !run_bind_Ok, Hpl.
  exists out'. split; [done|]. split; [lia|]. split; [|done].
  rewrite rd_bytes_take by lia. rewrite <- Hpl, Nat2Z.id. by rewrite Ht.
Qed.

End Blocks.

(** ** What the client reads in an answer *)
Definition guard_answer (sc : Z) (g : r_latency_guard) : r_guard_result :=
  let cur := answered_latency sc (lg_threshold_ms g) in
  mk_guard_result (lg_latency_tracker_id g) (lg_threshold_ms g) cur (cur <? lg_threshold_ms g).
Definition resource_answer (r : r_resource_request) : r_resource_result :=
  mk_resource_result (rr_bucket_id r) (rr_tokens_requested r) (rr_rate_limit r).

Lemma blocks_read {A B} (h : list Z -> B) (ser : A -> list Z) (g : A -> B) w pre l post off :
  (forall x rest, x ∈ l -> h (ser x ++ rest) = g x) -> (forall x, x ∈ l -> zlen (ser x) = w) ->
  8 + off = zlen pre ->
  blocks_at (fun p => h (drop (Z.to_nat (8 + p)) (pre ++ concat (map ser l) ++ post))) w (length l) off = map g l.
Proof.
  revert pre off; induction l as [|x l IH]; intros pre off Hh Hw Ho; [done|].
  cbn [length blocks_at map concat]. f_equal.
  - rewrite Ho, Nat2Z.id, drop_app_length, <- app_assoc. apply Hh. left.
  - rewrite <- (IH (pre ++ ser x) (off + w)); [by rewrite <- !app_assoc| | |].
    + intros y rest Hy. apply Hh. by right.
    + intros y Hy. apply Hw. by right.
    + rewrite length_app, Nat2Z.inj_add, (Hw x) by left. lia.
Qed.

(** The [k]-th field of a block, whatever follows. *)
Lemma field_at a (f b : list Z) n k :
  length a = k -> length f = n -> take n (drop k (a ++ f ++ b)) = f.
Proof. intros <- <-. by rewrite drop_app_length, take_app_length. Qed.

Lemma guard_read sc g rest :
  wf_latency_guard g ->
  (let p := ser_answer_guard sc g ++ rest in
   mk_guard_result (take 16 p) (unle (take 4 (drop 28 p))) (unle (take 4 (drop 32 p)))
     (unle (take 4 (drop 32 p)) <? unle (take 4 (drop 28 p)))) = guard_answer sc g.
Proof.
  intros ([Hid _] & Ht & _). cbv zeta. set (p := ser_answer_guard sc g ++ rest).
  assert (E1 : take 16 p = lg_latency_tracker_id g).
  { unfold p, ser_answer_guard. rewrite <- !app_assoc. by rewrite take_app_length' by done. }
  assert (E2 : take 4 (drop 28 p) = le 4 (lg_threshold_ms g)).
  { unfold p, ser_answer_guard. rewrite <- !app_assoc.
    do 3 rewrite app_assoc. apply field_at; [|apply le_length]. rewrite !length_app, !le_length, Hid. done. }
  assert (E3 : take 4 (drop 32 p) = le 4 (answered_latency sc (lg_threshold_ms g))).
  { unfold p, ser_answer_guard. rewrite <- !app_assoc.
    do 4 rewrite app_assoc. apply field_at; [|apply le_length]. rewrite !length_app, !le_length, Hid. done. }
  rewrite E1, E2, E3, !unle_le4; [done|by apply answered_latency_range|done].
Qed.

Lemma resource_read r rest :
  wf_resource_request r ->
  (let p := ser_resource r ++ rest in
   mk_resource_result (take 16 p) (unle (take 2 (drop 24 p))) (unle (take 4 (drop 20 p)))) = resource_answer r.
Proof.
  intros ([Hid _] & _ & Hrl & Ht). cbv zeta. set (p := ser_resource r ++ rest).
  assert (E1 : take 16 p = rr_bucket_id r).
  { unfold p, ser_resource. rewrite <- !app_assoc. by rewrite take_app_length' by done. }
  assert (E2 : take 2 (drop 24 p) = le 2 (rr_tokens_requested r)).
  { unfold p, ser_resource. rewrite <- !app_assoc.
    do 2 rewrite app_assoc. apply field_at; [|apply le_length]. rewrite !length_app, !le_length, Hid. done. }
  assert (E3 : take 4 (drop 20 p) = le 4 (rr_rate_limit r)).
  { unfold p, ser_resource. rewrite <- !app_assoc.
    rewrite app_assoc. apply field_at; [|apply le_length]. rewrite !length_app, !le_length, Hid. done. }
  rewrite E1, E2, E3, unle_le2, unle_le4 by done. done.
Qed.

(** A response PDU is valid for the client, which reads the answers in it. *)
Lemma response_reads sc gs' rs' :
  Forall wf_latency_guard gs' -> Forall wf_resource_request rs' ->
  zlen gs' <= UINT16_MAX -> zlen rs' <= UINT16_MAX ->
  let b := response_pdu sc gs' rs' in
  zlen b <= R_MAX_PACKET_SIZE ->
  resp_valid b (zlen b) = true /\ is_bytes b /\ b <> [] /\
  resp_guards b = map (guard_answer sc) gs' /\ resp_resources b = map resource_answer rs' /\
  resp_guard_count b = zlen gs' /\ resp_resource_count b = zlen rs'.
Proof.
  intros Hg Hr Hgn Hrn b Hl. pose proof (response_body_length sc gs' rs' Hg Hr) as Hbl.
  change R_MAX_PACKET_SIZE with 1200 in *.
  set (hd := le 2 R_PDU_RATE_RESPONSE ++ le 2 (8 + zlen (response_body sc gs' rs')) ++ le 2 0 ++ le 2 0).
  set (G := concat (map (ser_answer_guard sc) gs')). set (R := concat (map ser_resource rs')).
  assert (Eb : b = hd ++ le 2 (zlen gs') ++ le 2 (zlen rs') ++ G ++ R).
  { unfold b, response_pdu, ser_pdu, hd, response_body. by rewrite <- !app_assoc. }
  assert (Hbn : zlen b = 12 + zlen gs' * 36 + zlen rs' * 28).
  { unfold b, response_pdu, ser_pdu. rewrite !length_app, !le_length. lia. }
  assert (Hty : resp_type b = R_PDU_RATE_RESPONSE).
  { unfold resp_type. rewrite Eb. unfold hd. rewrite <- !app_assoc.
    rewrite (take_app_length' (le 2 R_PDU_RATE_RESPONSE)) by by rewrite le_length. apply unle_le2. clia. }
  assert (Hsz : resp_size b = zlen b).
  { unfold resp_size. rewrite Eb at 1. unfold hd. rewrite <- !app_assoc.
    rewrite (field_at (le 2 R_PDU_RATE_RESPONSE) (le 2 _)) by by rewrite le_length. rewrite unle_le2 by rlia. lia. }
  assert (Hgc : resp_guard_count b = zlen gs').
  { unfold resp_guard_count. rewrite Eb. rewrite (field_at hd (le 2 (zlen gs'))) by by rewrite ?le_length.
    apply unle_le2. rlia. }
  assert (Hrc : resp_resource_count b = zlen rs').
  { unfold resp_resource_count. rewrite Eb, (app_assoc hd).
    rewrite (field_at (hd ++ le 2 (zlen gs')) (le 2 (zlen rs'))) by by rewrite ?le_length.
    apply unle_le2. rlia. }
  split; [|split; [|split; [|split; [|split; [|done]]]]].
  - unfold resp_valid. rewrite Hty, Hsz, Hgc, Hrc. rewrite !andb_true_iff, !Z.leb_le. csts. lia.
  - rewrite Eb. unfold hd. repeat (apply Forall_app; split); try apply le_bytes.
    + apply concat_bytes. intros g Hgi. eapply ser_answer_guard_bytes, Forall_forall; done.
    + by apply resources_bytes.
  - intros E. rewrite E in Hbn. simpl in Hbn. lia.
  - unfold resp_guards. rewrite Hgc, Nat2Z.id, Eb, 2!app_assoc. unfold guard_at.
    apply (blocks_read (fun p => mk_guard_result (take 16 p) (unle (take 4 (drop 28 p)))
      (unle (take 4 (drop 32 p))) (unle (take 4 (drop 32 p)) <? unle (take 4 (drop 28 p)))) (ser_answer_guard sc)).
    + intros g rest Hgi. apply guard_read. by eapply Forall_forall.
    + intros g Hgi. eapply ser_answer_guard_length, Forall_forall; done.
    + by rewrite !length_app, !le_length.
  - unfold resp_resources. rewrite Hrc, Hgc, Nat2Z.id, Eb, 3!app_assoc, <- (app_nil_r R). unfold resource_at.
    apply (blocks_read (fun p => mk_resource_result (take 16 p) (unle (take 2 (drop 24 p)))
      (unle (take 4 (drop 20 p)))) ser_resource).
    + intros r rest Hri. apply resource_read. by eapply Forall_forall.
    + intros r Hri. eapply ser_resource_length, Forall_forall; done.
    + pose proof (answer_guards_length sc gs' Hg) as E1. rewrite !length_app, !le_length.
      assert (zlen hd = 8) by (unfold hd; by rewrite !length_app, !le_length). csts. unfold G. lia.
Qed.
