(* ===== verification/ResponderSeal.v ===== *)
(** * The test responder's answers under the credential

    [build_authenticated_response] leaves a packet the client's parser opens:
    the tenant header of the answer, the authentication block of the shared
    credential and the PDU. *)

From Stdlib Require Import String Ascii.
From S2P Require Import Prelude.
From S2P Require Import Types.
From S2P Require Import Wire.
From S2P Require Import WireFacts.
From S2P Require Import Crypto.
From S2P Require Import CryptoFacts.
From S2P Require Import Workflow.
From S2P Require Import State.
From S2P Require Import Hoare.
From S2P Require Import Request.
From S2P Require Import RequestFacts.
From S2P Require Import PacketFacts.
From S2P Require Import Client.
From S2P Require Import Responder.
From S2P Require Import ResponderFacts.

(** The id a response carries: the request's, unless the scenario flips its
    first bit. *)
Definition answered_id (wrong : bool) (id : list Z) : list Z :=
  if wrong then match id with b :: r => Z.lxor b 0x80 :: r | [] => [] end else id.

Definition response_tenant (st : r_test_responder_state) (h : r_tenant_header) (wrong : bool)
  : r_tenant_header :=
  mk_tenant R_TLV_TENANT R_TENANT_TLV_LEN (rt_server_id st) (answered_id wrong (th_unique_id h))
    (th_time_stamp h) (if rt_steering_keep_port st then 1 else 0) 0 0 0.

Lemma lxor_byte a b : 0 <= a < 256 -> 0 <= b < 256 -> 0 <= Z.lxor a b < 256.
Proof.
  intros Ha Hb. assert (E : Z.lxor a b = Z.lxor a b mod 2 ^ 8).
  { apply Z.bits_inj'. intros n Hn. destruct (Z.lt_ge_cases n 8).
    - by rewrite Z.mod_pow2_bits_low.
    - rewrite Z.mod_pow2_bits_high by lia. rewrite Z.lxor_spec.
      rewrite <- (Z.mod_small a (2 ^ 8)), <- (Z.mod_small b (2 ^ 8)) by lia.
      by rewrite !Z.mod_pow2_bits_high by lia. }
  rewrite E. apply Z.mod_pos_bound. lia.
Qed.

Lemma answered_id_wf wrong id : is_id16 id -> is_id16 (answered_id wrong id).
Proof.
  intros [Hl Hb]. destruct wrong; [|done]. destruct id as [|b r]; [done|]. split; [done|].
  apply Forall_cons in Hb as [Hb Hr]. constructor; [|done]. change (0 <= b < 2 ^ 8) in Hb.
  apply lxor_byte; [exact Hb|lia].
Qed.

Lemma response_tenant_wf st h wrong :
  is_u64 (rt_server_id st) -> wf_tenant h -> wf_tenant (response_tenant st h wrong).
Proof.
  intros Hs (_ & _ & _ & Hid & Hts & _). unfold wf_tenant, response_tenant. simpl.
  pose proof (answered_id_wf wrong _ Hid) as Hid'. destruct (rt_steering_keep_port st); repeat split; clia || apply Hs || apply Hid' || apply Hts.
Qed.

Lemma flip_id wrong id :
  is_id16 id ->
  (if (wrong : bool) then b ← rd id 0; wr id 0 [Z.lxor b 0x80] else Ok id) = Ok (answered_id wrong id).
Proof.
  intros [Hl _]. destruct wrong; [|done]. destruct id as [|b r]; [done|].
  change (rd (b :: r) 0) with (Ok b). rewrite run_bind_Ok.
  by apply (wr_app [] [b] r [Z.lxor b 0x80]).
Qed.

(** The next field of a packet under construction. *)
Lemma wr_next out bs out1 off b :
  wr out 0 bs = Ok out1 -> off = zlen bs -> zlen bs + zlen b <= zlen out ->
  exists out2, wr out1 off b = Ok out2 /\ wr out 0 (bs ++ b) = Ok out2.
Proof.
  intros H -> Hl. destruct (wr_defined out 0 (bs ++ b)) as [out2 H2]; [lia|rewrite length_app; lia|].
  exists out2. split; [|done]. rewrite <- H2. by eapply wr_wr_at.
Qed.

Section Seal.
Context {ssl : OpenSSL} {laws : AesGcmLaws ssl}.

(** The client holds the credential it is configured with. *)
Definition has_credential (c : client_fixed) : Prop :=
  (cf_auth_type c = R_AUTH_COOKIE /\ cf_has_cookie c = true) \/
  (cf_auth_type c = R_AUTH_AES_GCM /\ cf_has_aes_key c = true).

(** OpenSSL delivers what sealing this answer takes. *)
Definition can_seal (env : crypto_env) (c : client_fixed) (hdr pdu : list Z) : Prop :=
  cf_auth_type c = R_AUTH_AES_GCM ->
  ce_seal_ctx env = true /\ exists r ct, ce_rand env = Some r /\
    EVP_aes_256_gcm_seal (cf_aes_key c) r [hdr ++ le 2 R_TLV_AUTH_AES ++ le 2 32; r] pdu = Some ct.

Definition seal_len (c : client_fixed) (n : Z) : Z :=
  (if cf_auth_type c =? R_AUTH_COOKIE then 76 else 72) + n.

(** What the builder of a packet leaves in the caller's block. *)
Definition answer_post (env : crypto_env) (c : client_fixed) (hdr pdu out : list Z) (cap : Z)
    (r : run (Z * list Z * Z)) : Prop :=
  exists rc out' n, r = Ok (rc, out', n) /\ zlen out' = zlen out /\
    ((rc = RCLIENT_OK /\ n <= cap /\ exists bytes, sealed c hdr pdu bytes /\ n = zlen bytes /\
        wr out 0 bytes = Ok out' /\
        ((forall r, ce_rand env = Some r -> is_bytes r) -> is_bytes pdu -> is_bytes bytes)) \/
     (rc <> RCLIENT_OK /\ n = 0 /\ ~ (seal_len c (zlen pdu) <= cap /\ can_seal env c hdr pdu))).

Context (env : crypto_env) (st : r_test_responder_state) (c : client_fixed).
Context (h : r_tenant_header) (wrong : bool) (block pdu out : list Z) (cap : Z).
Hypothesis shares : shares_key st c.
Hypothesis auth : auth_ok c.
Hypothesis cred : has_credential c.
Hypothesis h_wf : wf_tenant h.
Hypothesis server : is_u64 (rt_server_id st).
Hypothesis pdu_in : rd_bytes block 0 (zlen pdu) = Ok pdu.
Hypothesis pdu_len : zlen pdu <= R_MAX_PACKET_SIZE.
Hypothesis out_cap : 0 <= cap <= zlen out.
Hypothesis rand_len : forall r, ce_rand env = Some r -> zlen r = 12.

Let hdr : list Z := ser_tenant (response_tenant st h wrong).

Lemma response_header_length : zlen hdr = 40.
Proof. apply ser_tenant_length, response_tenant_wf; done. Qed.

Lemma header_bytes : is_bytes hdr.
Proof. apply ser_tenant_bytes, response_tenant_wf; done. Qed.

Lemma refused rc out' :
  rc <> RCLIENT_OK -> zlen out' = zlen out ->
  ~ (seal_len c (zlen pdu) <= cap /\ can_seal env c hdr pdu) ->
  answer_post env c hdr pdu out cap (Ok (rc, out', 0)).
Proof. intros. exists rc, out', 0. split; [done|]. split; [done|]. by right. Qed.

Lemma seal_cookie out0 :
  cf_auth_type c = R_AUTH_COOKIE -> wr out 0 hdr = Ok out0 ->
  answer_post env c hdr pdu out cap
    (if cap <? (R_TENANT_TLV_LEN +64 36) +64 zlen pdu then Ok (RCLIENT_ERR_PROTOCOL, out0, 0) else
     out ← write_le16 out0 R_TENANT_TLV_LEN R_TLV_AUTH_COOKIE;
     out ← write_le16 out (R_TENANT_TLV_LEN + 2) 36;
     secret ← rd_bytes (rt_secret st) 0 32;
     out ← wr out (R_TENANT_TLV_LEN + 4) secret;
     src ← rd_bytes block 0 (zlen pdu);
     out ← wr out (R_TENANT_TLV_LEN + 4 + 32) src;
     Ok (RCLIENT_OK, out, ((R_TENANT_TLV_LEN +64 4) +64 32) +64 zlen pdu)).
Proof.
  intros Hty H0. pose proof response_header_length as Hh. pose proof (wr_Ok _ _ _ _ H0) as (_ & _ & Hl).
  destruct auth as [Hck _ _ _]. rewrite (sk_cookie _ _ shares Hty).
  change R_TENANT_TLV_LEN with 40. change R_MAX_PACKET_SIZE with 1200 in *. unwrap.
  destruct (Z.ltb_spec cap (40 + 36 + zlen pdu)) as [Hc|Hc].
  { apply refused; [done|lia|]. unfold seal_len. rewrite Hty. change (R_AUTH_COOKIE =? R_AUTH_COOKIE) with true. cbv iota. lia. }
  rewrite write_le16_wr. destruct (wr_next out hdr out0 40 (le 2 R_TLV_AUTH_COOKIE) H0) as (o1 & -> & H1);
    [lia|rewrite le_length; lia|]. rewrite run_bind_Ok, write_le16_wr.
  destruct (wr_next _ _ _ (40 + 2) (le 2 36) H1) as (o2 & -> & H2);
    [rewrite length_app, le_length; lia|rewrite length_app, !le_length; lia|].
  rewrite run_bind_Ok, (rd_bytes_whole (cf_cookie c)), run_bind_Ok by lia.
  destruct (wr_next _ _ _ (40 + 4) (cf_cookie c) H2) as (o3 & -> & H3);
    [rewrite !length_app, !le_length; lia|rewrite !length_app, !le_length; lia|].
  rewrite run_bind_Ok, pdu_in, run_bind_Ok.
  destruct (wr_next _ _ _ (40 + 4 + 32) pdu H3) as (o4 & -> & H4);
    [rewrite !length_app, !le_length; lia|rewrite !length_app, !le_length; lia|].
  rewrite run_bind_Ok. pose proof (wr_Ok _ _ _ _ H4) as (_ & _ & Hl4). rewrite <- !app_assoc in H4.
  do 3 eexists. split; [reflexivity|]. split; [lia|]. left. split; [done|]. split; [lia|].
  eexists. split; [apply sealed_cookie; [done|]|].
  { destruct cred as [[_ ?]|[E _]]; [done|]. by rewrite Hty in E. }
  split; [rewrite !length_app, !le_length; lia|]. split; [exact H4|]. intros _ Hpb.
  apply Forall_app; split; [apply header_bytes|]. do 2 (apply Forall_app; split; [apply le_bytes|]).
  apply Forall_app. split; [apply auth|exact Hpb].
Qed.

Lemma seal_aes out0 :
  cf_auth_type c = R_AUTH_AES_GCM -> wr out 0 hdr = Ok out0 -> cap < R_TENANT_TLV_LEN + 32 + zlen pdu \/
  answer_post env c hdr pdu out cap
    (out ← write_le16 out0 R_TENANT_TLV_LEN R_TLV_AUTH_AES;
     out ← write_le16 out (R_TENANT_TLV_LEN + 2) 32;
     e ← r_encrypt_pdu_aes_gcm (ce_rand env) (ce_seal_ctx env) (Some block) (zlen pdu)
           (Some (rt_secret st)) (Some out) (R_TENANT_TLV_LEN +64 4) R_MAX_PACKET_SIZE
           (mk_enc_out (Some stack_buffer) (Some 0) (Some (replicate 12 0)) (Some (replicate 16 0)));
     let '(rc, o) := e in
     if negb (rc =? 0) then Ok (RCLIENT_ERR_AUTH, out, 0) else
     nonce ← deref (eo_nonce o); nonce ← rd_bytes nonce 0 12;
     out ← wr out (R_TENANT_TLV_LEN + 4) nonce;
     tag ← deref (eo_tag o); tag ← rd_bytes tag 0 16;
     out ← wr out (R_TENANT_TLV_LEN + 4 + 12) tag;
     cipher_len ← deref (eo_cipher_len o);
     cipher ← deref (eo_cipher o); cipher ← rd_bytes cipher 0 cipher_len;
     out ← wr out (R_TENANT_TLV_LEN + 4 + 12 + 16) cipher;
     Ok (RCLIENT_OK, out, (((R_TENANT_TLV_LEN +64 4) +64 12) +64 16) +64 cipher_len)).
Proof.
  intros Hty H0. pose proof response_header_length as Hh. pose proof (wr_Ok _ _ _ _ H0) as (_ & _ & Hl).
  destruct auth as [_ _ Hk _]. rewrite (sk_aes _ _ shares Hty).
  change R_TENANT_TLV_LEN with 40. change R_MAX_PACKET_SIZE with 1200 in *.
  destruct (Z.lt_ge_cases cap (40 + 32 + zlen pdu)) as [Hc|Hc]; [by left|right].
  rewrite write_le16_wr. destruct (wr_next out hdr out0 40 (le 2 R_TLV_AUTH_AES) H0) as (o1 & -> & H1);
    [lia|rewrite le_length; lia|]. rewrite run_bind_Ok, write_le16_wr.
  destruct (wr_next _ _ _ (40 + 2) (le 2 32) H1) as (o2 & -> & H2);
    [rewrite length_app, le_length; lia|rewrite length_app, !le_length; lia|]. rewrite <- app_assoc in H2.
  rewrite run_bind_Ok. pose proof (wr_Ok _ _ _ _ H2) as (_ & _ & Hl2).
  destruct (encrypt_spec (ce_rand env) (ce_seal_ctx env) block pdu (cf_aes_key c) o2
    (hdr ++ le 2 R_TLV_AUTH_AES ++ le 2 32) 1200 stack_buffer) as (rc & o & Ee & Hrc).
  1: done. 1: done. 1: by eapply rd_bytes_wr0. 1: rewrite !length_app, !le_length; lia.
  1: rewrite stack_buffer_len; change R_MAX_PACKET_SIZE with 1200; lia. 1: done.
  rewrite !length_app, !le_length in Ee. replace (Z.of_nat (length hdr + (2 + 2))) with (40 +64 4) in Ee
    by (change (40 +64 4) with 44; lia). rewrite Ee, run_bind_Ok. cbv beta iota.
  destruct Hrc as [[-> (r & ct & t & cb & Er & Es & E1 & E2 & E3 & E4 & E5)]|[-> Hno]].
  2:{ apply refused; [done|lia|]. intros [_ Hcan]. destruct (Hcan Hty) as (Hctx & r & ct & Er & Es).
      rewrite (Hno r Er Hctx) in Es. done. }
  cbn [Z.eqb negb]. rewrite E1, E2, E3, E4. cbn [deref of_option]. specialize (rand_len r Er).
  destruct (gcm_seal_lengths _ _ _ _ _ _ Es) as (Hcl & Htl & _).
  rewrite !run_bind_Ok, (rd_bytes_whole r), run_bind_Ok by lia.
  destruct (wr_next _ _ _ (40 + 4) r H2) as (o3 & -> & H3);
    [rewrite !length_app, !le_length; lia|rewrite !length_app, !le_length; lia|].
  rewrite !run_bind_Ok, (rd_bytes_whole t), run_bind_Ok by lia.
  destruct (wr_next _ _ _ (40 + 4 + 12) t H3) as (o4 & -> & H4);
    [rewrite !length_app, !le_length; lia|rewrite !length_app, !le_length; lia|].
  rewrite !run_bind_Ok, E5, run_bind_Ok.
  destruct (wr_next _ _ _ (40 + 4 + 12 + 16) ct H4) as (o5 & -> & H5);
    [rewrite !length_app, !le_length; lia|rewrite !length_app, !le_length; lia|].
  rewrite run_bind_Ok. pose proof (wr_Ok _ _ _ _ H5) as (_ & _ & Hl5). rewrite <- !app_assoc in H5. unwrap.
  do 3 eexists. split; [reflexivity|]. split; [lia|]. left. split; [done|]. split; [lia|].
  eexists. split; [eapply sealed_aes; [done| |done|exact Es]|].
  { destruct cred as [[E _]|[_ ?]]; [|done]. by rewrite Hty in E. }
  split; [rewrite !length_app, !le_length; lia|]. split; [exact H5|]. intros Hrb Hpb.
  destruct (gcm_seal_lengths _ _ _ _ _ _ Es) as (_ & _ & Hcb & Htb).
  apply Forall_app; split; [apply header_bytes|]. do 2 (apply Forall_app; split; [apply le_bytes|]).
  apply Forall_app; split; [by apply Hrb|]. apply Forall_app. split; [exact Htb|by apply Hcb].
Qed.

(** The answer's packet, when the block has room for it and OpenSSL delivers. *)
Lemma build_authenticated :
  answer_post env c hdr pdu out cap
    (build_authenticated_response env st h block (zlen pdu) wrong out cap).
Proof.
  pose proof response_header_length as Hh. unfold build_authenticated_response.
  change R_MAX_PACKET_SIZE with 1200 in *.
  assert (Hs : 72 + zlen pdu <= seal_len c (zlen pdu)) by (unfold seal_len; case_if; lia).
  destruct (Z.ltb_spec cap R_TENANT_TLV_LEN) as [Hc|Hc].
  { apply refused; [done|done|]. change R_TENANT_TLV_LEN with 40 in Hc. lia. }
  destruct h_wf as (_ & _ & _ & Hid & _). rewrite (rd_bytes_whole (th_unique_id h)), run_bind_Ok
    by (destruct Hid as [-> _]; done).
  rewrite flip_id, run_bind_Ok by done. fold (response_tenant st h wrong). cbv zeta.
  destruct (wr_defined out 0 hdr) as [out0 H0]; [lia|change R_TENANT_TLV_LEN with 40 in Hc; lia|].
  rewrite tenant_header_write_wr by (done || by apply response_tenant_wf). fold hdr. rewrite H0, !run_bind_Ok.
  cbn [deref of_option]. rewrite run_bind_Ok, (sk_type _ _ shares). pose proof (wr_Ok _ _ _ _ H0) as (_ & _ & Hl).
  destruct cred as [[Hty _]|[Hty _]]; rewrite Hty.
  - change (R_AUTH_COOKIE =? R_AUTH_COOKIE) with true. cbv iota. by apply seal_cookie.
  - change (R_AUTH_AES_GCM =? R_AUTH_COOKIE) with false. rewrite Z.eqb_refl. cbn [negb orb].
    destruct (seal_aes out0 Hty H0) as [Hc'|Hpost].
    + rewrite zltb_true by (change R_TENANT_TLV_LEN with 40 in *; unwrap; lia).
      apply refused; [done|lia|]. change R_TENANT_TLV_LEN with 40 in Hc'. lia.
    + destruct (Z.ltb_spec cap ((R_TENANT_TLV_LEN +64 32) +64 zlen pdu)) as [Hc'|_]; [|exact Hpost].
      apply refused; [done|lia|]. change R_TENANT_TLV_LEN with 40 in Hc'. unwrap. lia.
Qed.
End Seal.
