(* ===== verification/ResponderSafety.v ===== *)
(** * The test responder on arbitrary input

    Whatever bytes arrive, handling them stays inside the blocks, keeps the
    state's invariant and answers authenticated packets only. *)

From Stdlib Require Import String Ascii.
From S2P Require Import Prelude.
From S2P Require Import Types.
From S2P Require Import Wire.
From S2P Require Import WireFacts.
From S2P Require Import Crypto.
From S2P Require Import CryptoFacts.
From S2P Require Import Workflow.
From S2P Require Import State.
From S2P Require Import Hoare.
From S2P Require Import Request.
From S2P Require Import RequestFacts.
From S2P Require Import PacketFacts.
From S2P Require Import ExtractFacts.
From S2P Require Import Client.
From S2P Require Import Responder.
From S2P Require Import ResponderFacts.
From S2P Require Import ResponderQuota.
From S2P Require Import ResponderAnswers.
From S2P Require Import ResponderSeal.

(** The client that holds the responder's credential. *)
Definition peer_client (st : r_test_responder_state) : client_fixed :=
  mk_fixed (rt_tenant_key_id st) (rt_auth_type st) false (mk_dns_policy 0 0 0)
    (mk_policy 0 0 (mk_schedule 0 0 0 0) 0 false) false false false false
    None None 0 false quotas_zero (rt_secret st) true (rt_secret st) true.

Lemma peer_shares st : shares_key st (peer_client st).
Proof. by split. Qed.

Lemma peer_auth st : responder_wf st -> auth_ok (peer_client st).
Proof. intros [? ? [Hl Hb] ? [? ?] ? ?]. split; simpl; try done; lia. Qed.

Lemma peer_credential st : responder_wf st -> has_credential (peer_client st).
Proof. intros [? ? ? [E|E] ? ? ?]; [left|right]; done. Qed.

(** [apply ensures_bind] for an operation known to succeed. *)
Ltac ens E := apply ensures_bind; eapply ensures_Ok; [exact E|].

Section Authentication.
Context {ssl : OpenSSL} {laws : AesGcmLaws ssl}.

(** A successful extraction found the PDU of an authentic packet. *)
Definition extract_safe_post (st : r_test_responder_state) (buf : list Z) (len : Z)
    (r : Z * r_tenant_header * option (list Z * Z)) : Prop :=
  let '(rc, h, found) := r in
  rc = RCLIENT_OK ->
  wf_tenant h /\ take 40 buf = ser_tenant h /\ th_key_id h = rt_tenant_key_id st /\
  exists block n, found = Some (block, n) /\ 0 <= n <= zlen block /\ is_bytes block /\ is_object block /\
    forall c, shares_key st c -> has_credential c ->
      authentic c (take (Z.to_nat (th_tlv_size h)) (take (Z.to_nat len) buf)) (take (Z.to_nat n) block)
        (take (Z.to_nat len) buf).

Lemma extract_refused st buf len rc h found :
  rc <> RCLIENT_OK -> ensures (Ok (rc, h, found)) (extract_safe_post st buf len).
Proof. intros Hrc ?. done. Qed.

Lemma drop_object (b : list Z) n : is_object b -> is_object (drop n b).
Proof. unfold is_object. rewrite length_drop. lia. Qed.

Lemma extract_cookie_safe st buf len h pos :
  responder_wf st -> is_bytes buf -> is_object buf -> 0 <= len <= zlen buf -> wf_tenant h ->
  take 40 buf = ser_tenant h -> th_key_id h = rt_tenant_key_id st -> pos = th_tlv_size h ->
  0 <= pos -> pos + 36 <= len -> rt_auth_type st = R_AUTH_COOKIE ->
  chunk (take (Z.to_nat len) buf) pos 2 = le 2 R_TLV_AUTH_COOKIE ->
  chunk (take (Z.to_nat len) buf) (pos + 2) 2 = le 2 36 ->
  ensures (got ← rd_bytes buf (pos + 4) 32;
           want ← rd_bytes (rt_secret st) 0 32;
           if negb (bool_decide (got = want)) then Ok (RCLIENT_ERR_AUTH, h, None) else
           Ok (RCLIENT_OK, h, Some (drop (Z.to_nat (pos + 36)) buf, len -64 (pos + 36))))
    (extract_safe_post st buf len).
Proof.
  intros Hwf Hb Hobj Hlen Hh Hser Hid Epos Hpos Hle Hty H1 H2. destruct Hwf as [_ _ [Hsl _] _ _ _ _].
  ens (rd_chunk_take buf (pos + 4) 32 len ltac:(lia) ltac:(lia) ltac:(lia) ltac:(lia)).
  ens (rd_bytes_whole (rt_secret st) 32 ltac:(lia)).
  case_bool_decide as Eq; cbn [negb]; [|by apply extract_refused]. pose proof Hobj as Hobj'. unfold is_object in Hobj'.
  intros _. do 3 (split; [done|]). rewrite u64_small by rlia. do 2 eexists. split; [done|].
  split; [rewrite length_drop; lia|]. split; [by apply Forall_drop|]. split; [by apply drop_object|].
  intros c [Ety _ Eck _] Hcred. rewrite Hty in Ety. specialize (Eck (eq_sym Ety)). rewrite <- Epos.
  set (b := take (Z.to_nat len) buf) in *.
  assert (Hbl : zlen b = len) by (unfold b; rewrite length_take; lia).
  pose proof (split_at b pos 32 ltac:(lia) ltac:(lia) ltac:(lia)) as Es.
  rewrite H1, H2, Eq, Eck in Es. rewrite Es at 2.
  replace (drop (Z.to_nat (pos + 4 + 32)) b) with (take (Z.to_nat (len - (pos + 36))) (drop (Z.to_nat (pos + 36)) buf)).
  - apply authentic_cookie; [done|]. destruct Hcred as [[_ ?]|[E _]]; [done|]. by rewrite <- Ety in E.
  - change (take ?n (drop ?m buf)) with (take n (drop m buf)).
    change (take (Z.to_nat (len - (pos + 36))) (drop (Z.to_nat (pos + 36)) buf)) with (chunk buf (pos + 36) (len - (pos + 36))).
    replace (pos + 4 + 32) with (pos + 36) by lia.
    rewrite <- (chunk_take _ _ _ len) by lia. fold b. unfold chunk. rewrite take_ge; [done|].
    rewrite length_drop. lia.
Qed.

Lemma extract_aes_safe env st buf len h pos :
  responder_wf st -> is_bytes buf -> is_object buf -> 0 <= len <= zlen buf -> wf_tenant h ->
  take 40 buf = ser_tenant h -> th_key_id h = rt_tenant_key_id st -> pos = th_tlv_size h ->
  0 <= pos -> pos + 32 < len -> rt_auth_type st = R_AUTH_AES_GCM ->
  chunk (take (Z.to_nat len) buf) pos 2 = le 2 R_TLV_AUTH_AES ->
  chunk (take (Z.to_nat len) buf) (pos + 2) 2 = le 2 32 ->
  ensures (d ← r_decrypt_pdu_aes_gcm (ce_open_ctx env) (Some buf) (pos + 32) (len -64 (pos + 32))
                 (Some (rt_secret st)) (Some buf) (pos + 4) (Some buf) (pos + 4 + 12)
                 (Some buf) ((pos +64 4) +64 12) (Some stack_buffer) R_MAX_PACKET_SIZE (Some 0);
           let '(rc, decrypted, decrypted_len) := d in
           if negb (rc =? 0) then Ok (RCLIENT_ERR_AUTH, h, None) else
           decrypted ← deref decrypted; decrypted_len ← deref decrypted_len;
           Ok (RCLIENT_OK, h, Some (decrypted, decrypted_len)))
    (extract_safe_post st buf len).
Proof.
  intros Hwf Hb Hobj Hlen Hh Hser Hid Epos Hpos Hle Hty H1 H2. destruct Hwf as [_ _ [Hsl _] _ _ _ _].
  pose proof Hobj as Hobj'. unfold is_object in Hobj'. change R_MAX_PACKET_SIZE with 1200. unwrap.
  set (b := take (Z.to_nat len) buf) in *.
  assert (Hbl : zlen b = len) by (unfold b; rewrite length_take; lia).
  set (ct := drop (Z.to_nat (pos + 4 + 28)) b).
  assert (Hct : chunk b (pos + 32) (len - (pos + 32)) = ct).
  { unfold chunk, ct. replace (pos + 4 + 28) with (pos + 32) by lia.
    rewrite take_ge; [done|]. rewrite length_drop. lia. }
  assert (Hctl : zlen ct = len - (pos + 32)) by (unfold ct; rewrite length_drop; lia).
  assert (Hbb : is_bytes b) by (by apply Forall_take).
  assert (Had : chunk b 0 (pos + 16) =
    take (Z.to_nat pos) b ++ le 2 R_TLV_AUTH_AES ++ le 2 32 ++ chunk b (pos + 4) 12).
  { rewrite take_chunk, <- H1, <- H2. replace (pos + 4) with (pos + 2 + 2) by lia.
    by rewrite !chunk_chunk by lia. }
  assert (Hadl : zlen (chunk b 0 (pos + 16)) = pos + 16) by (apply chunk_length; lia).
  destruct (decrypt_spec (ce_open_ctx env) buf (pos + 32) ct (rt_secret st) (pos + 4) (chunk b (pos + 4) 12)
    (pos + 4 + 12) (chunk b (pos + 4 + 12) 16) (chunk b 0 (pos + 16)) 1200 stack_buffer) as (rc & out' & n & Ed & Hd);
    [rewrite Hctl, <- Hct; apply rd_chunk_take; lia | lia |
     apply rd_chunk_take; lia.. | rewrite Hadl; apply rd_chunk_take; lia | lia |
     rewrite stack_buffer_len; clia | by apply Forall_drop | apply Forall_replicate; rlia |].
  rewrite Hctl, Hadl in Ed. replace (pos + 16) with (pos + 4 + 12) in Ed by lia. ens Ed. cbv beta iota.
  destruct Hd as [(-> & _ & _ & pt & Eo & -> & Hrd & Hob & Hol)|[-> _]]; [|by apply extract_refused].
  cbn [Z.eqb negb deref of_option]. rewrite !run_bind_Ok. pose proof (rd_bytes_Ok _ _ _ _ Hrd) as (_ & _ & Hr & _).
  intros _. do 3 (split; [done|]). do 2 eexists. split; [done|]. split; [lia|]. split; [done|].
  split; [unfold is_object; rewrite Hol, stack_buffer_len; clia|].
  rewrite rd_bytes_take in Hrd by lia. injection Hrd as Hrd. rewrite Hrd.
  intros c [Ety _ _ Eck] Hcred. rewrite Hty in Ety. specialize (Eck (eq_sym Ety)). rewrite <- Epos. fold b.
  pose proof (split_at b pos (12 + 16) ltac:(lia) ltac:(lia) ltac:(lia)) as Es.
  rewrite <- (chunk_chunk b (pos + 4) 12 16), H1, H2, <- app_assoc in Es by lia.
  change (12 + 16) with 28 in Es. fold ct in Es. rewrite Es at 2. apply authentic_aes; try done.
  - destruct Hcred as [[E _]|[_ ?]]; [|done]. by rewrite <- Ety in E.
  - apply chunk_length; lia.
  - apply chunk_length; lia.
  - intros E. rewrite E in Hctl. simpl in Hctl. lia.
  - by rewrite <- Had, <- Eck.
Qed.

Lemma extract_safe env st buf len :
  responder_wf st -> is_bytes buf -> is_object buf -> 0 <= len <= zlen buf ->
  ensures (extract_authenticated_pdu env st buf len) (extract_safe_post st buf len).
Proof.
  intros Hwf Hb Hobj Hlen. unfold extract_authenticated_pdu.
  destruct (parse_tenant_header_spec buf len tenant_zero 0 Hb Hlen) as [(h & Hh & Hser & [_ Htlv] & E)|E]; ens E.
  2:{ by apply extract_refused. }
  cbn [deref of_option]. rewrite !run_bind_Ok. change (negb (RCLIENT_OK =? RCLIENT_OK)) with false. cbn [orb].
  destruct (Z.eqb_spec (th_key_id h) (rt_tenant_key_id st)) as [Hid|]; cbn [negb]; [|by apply extract_refused].
  change R_TENANT_TLV_LEN with 40 in Htlv.
  destruct (auth_tlv_spec buf len (th_tlv_size h) Hb ltac:(lia) Hlen Hobj ltac:(lia))
    as [E'|(ty & sz & H1 & H2 & Hsz & E')]; ens E'; cbv beta iota.
  { by apply extract_refused. }
  change (negb (RCLIENT_OK =? RCLIENT_OK)) with false. cbv iota.
  cbn [ao_type ao_size ao_body ao_body_len ao_pdu_pos deref of_option]. rewrite !run_bind_Ok.
  destruct (Z.eqb_spec (rt_auth_type st) R_AUTH_COOKIE) as [Ec|Ec].
  - destruct (Z.eqb_spec ty R_TLV_AUTH_COOKIE) as [->|]; cbn [negb orb]; [|by apply extract_refused].
    destruct (Z.eqb_spec sz 36) as [->|]; cbn [negb orb]; [|by apply extract_refused].
    change (negb (36 - 4 =? 32)) with false. cbv iota. by apply extract_cookie_safe; try done; lia.
  - destruct (Z.eqb_spec (rt_auth_type st) R_AUTH_AES_GCM) as [Ea|Ea]; cbn [negb orb]; [|by apply extract_refused].
    destruct (Z.eqb_spec ty R_TLV_AUTH_AES) as [->|]; cbn [negb orb]; [|by apply extract_refused].
    destruct (Z.eqb_spec sz 32) as [->|]; cbn [negb orb]; [|by apply extract_refused].
    change (negb (32 - 4 =? 28)) with false. cbn [orb].
    destruct (Z.leb_spec len (th_tlv_size h + 32)); [by apply extract_refused|].
    by apply extract_aes_safe; try done; lia.
Qed.
End Authentication.

(** ** Reads *)
Lemma rd_defined b off : 0 <= off < zlen b -> exists v, rd b off = Ok v.
Proof.
  intros H. unfold rd. rewrite (proj2 (Z.leb_le 0 off)) by lia.
  destruct (lookup_lt_is_Some_2 b (Z.to_nat off)) as [v ->]; [lia|]. by exists v.
Qed.

Lemma read_le16_safe b off :
  is_bytes b -> 0 <= off -> off + 2 <= zlen b -> exists v, read_le16 b off = Ok v /\ is_u16 v.
Proof. intros Hb Ho Hl. rewrite read_le16_eq. destruct (r_le16_at b off Hb Ho Hl). by eexists. Qed.

Lemma read_le32_safe b off :
  is_bytes b -> 0 <= off -> off + 4 <= zlen b -> exists v, read_le32 b off = Ok v /\ is_u32 v.
Proof.
  intros Hb Ho Hl. rewrite read_le32_eq, r_le32_bytes by done. rewrite rd_chunk, run_bind_Ok by lia.
  eexists. split; [done|]. apply unle_u32; [by apply chunk_bytes|apply chunk_length; lia].
Qed.

Lemma rd_bytes_safe b off n :
  0 <= off -> 0 <= n -> off + n <= zlen b -> rd_bytes b off n = Ok (chunk b off n).
Proof. apply rd_chunk. Qed.

(** ** Parsing *)

(** The blocks counted by the header are in the PDU. *)
Inductive parsed_ok (n : Z) (q : r_test_parsed_request) : Prop :=
| parsed_rate :
    pq_pdu_type q = R_PDU_RATE_REQUEST -> is_u16 (pq_guard_count q) -> is_u16 (pq_resource_count q) ->
    pq_guards q = Some 12 -> pq_resources q = Some (12 + pq_guard_count q * 36) ->
    12 + pq_guard_count q * 36 + pq_resource_count q * 28 <= n -> parsed_ok n q
| parsed_report :
    pq_pdu_type q = R_PDU_LATENCY_REPORT -> is_u16 (pq_report_count q) -> pq_reports q = Some 12 ->
    12 + pq_report_count q * 32 = n -> parsed_ok n q.

Lemma parse_label_safe pdu n pos :
  is_bytes pdu -> 0 <= n -> 8 + n <= zlen pdu -> n < 2 ^ 32 -> 4 <= pos <= n ->
  ensures (parse_metrics_label pdu 8 n pos label_zero) (fun _ => True).
Proof.
  intros Hb Hn Hl Hlt Hp. unfold parse_metrics_label.
  change (wr label_zero 0 [0]) with (Ok label_zero). rewrite run_bind_Ok.
  assert (Hz : zlen label_zero = 257) by done.
  apply ensures_if; intros E1; [done|]. unwrap. apply ensures_if; intros E2; [done|]. breflect.
  destruct (read_le16_safe pdu (8 + pos) Hb) as (tag & Et & Hu); [lia..|]. ens Et.
  apply ensures_if; intros E3; [done|].
  destruct (read_le16_safe pdu (8 + pos + 2) Hb) as (sz & Es & Hus); [lia..|]. ens Es.
  destruct (read_le16_safe pdu (8 + pos + 4) Hb) as (ll & El & Hul); [lia..|]. ens El.
  unfold R_TEST_RESPONDER_LABEL_CAP.
  destruct (Z.ltb_spec sz 6); [done|]. cbn [orb]. unwrap. apply ensures_if; intros E4; [done|]. breflect.
  ens (rd_bytes_safe pdu (8 + pos + 6) ll ltac:(lia) ltac:(rlia) ltac:(lia)).
  assert (Hc : zlen (chunk pdu (8 + pos + 6) ll) = ll) by (apply chunk_length; rlia).
  destruct (wr_defined label_zero 0 (chunk pdu (8 + pos + 6) ll)) as [o1 Hw1]; [lia|lia|]. ens Hw1.
  apply wr_Ok in Hw1 as (_ & _ & Hl1).
  destruct (wr_defined o1 ll [0]) as [o2 Hw2]; [rlia|simpl; lia|]. by ens Hw2.
Qed.

Lemma parse_request_safe pdu n :
  is_bytes pdu -> is_object pdu -> 0 <= n <= zlen pdu ->
  ensures (parse_request_pdu pdu n) (fun r => fst r = RCLIENT_OK -> parsed_ok n (snd r)).
Proof.
  intros Hb Hobj Hn. unfold parse_request_pdu. change R_PDU_HEADER_LEN with 8.
  change R_GUARD_BLOCK_WIRE_LEN with 36. change R_RESOURCE_BLOCK_WIRE_LEN with 28.
  change R_SERVICE_LATENCY_BLOCK_WIRE_LEN with 32.
  apply ensures_if; intros E1; [done|]. breflect.
  destruct (read_le16_safe pdu 2 Hb) as (dl & Ed & Hd); [lia..|]. ens Ed.
  apply ensures_if; intros E2; [done|]. breflect. assert (Hlt : n < 2 ^ 16) by rlia.
  destruct (read_le16_safe pdu 0 Hb) as (ty & Ety & Hty); [lia..|]. ens Ety. unwrap.
  apply ensures_if; intros E3; [done|]. breflect. apply ensures_if; intros E4; breflect.
  - destruct (read_le16_safe pdu 8 Hb) as (gc & Egc & Hgc); [lia..|]. ens Egc.
    destruct (read_le16_safe pdu (8 + 2) Hb) as (rc & Erc & Hrc); [lia..|]. ens Erc.
    rewrite !(u64_small (gc * 36)), !(u64_small (rc * 28)), (u64_small (n - 8 - 4)) by rlia.
    destruct (Z.ltb_spec (n - 8 - 4) (gc * 36)); [done|]. cbn [orb]. unwrap.
    apply ensures_if; intros E5; [done|]. breflect. unwrap.
    apply ensures_bind. eapply ensures_mono; [apply parse_label_safe; try done; rlia|].
    intros [rc' label] _ E. apply parsed_rate; try done; simpl; lia.
  - apply ensures_if; intros E5; [|done]. breflect.
    destruct (read_le16_safe pdu 8 Hb) as (k & Ek & Hk); [lia..|]. ens Ek. unwrap.
    apply ensures_if; intros E6; [done|]. breflect. intros _. apply parsed_report; try done; simpl. lia.
Qed.

(** ** Answering *)
Lemma wr_safe b off bs :
  is_bytes b -> is_bytes bs -> 0 <= off -> off + zlen bs <= zlen b ->
  exists b', wr b off bs = Ok b' /\ zlen b' = zlen b /\ is_bytes b'.
Proof.
  intros Hb Hbs Ho Hl. destruct (wr_defined b off bs Ho Hl) as [b' E]. exists b'. split; [done|].
  split; [by apply wr_Ok in E as (_ & _ & ->)|]. exact (wr_is_bytes b off bs b' Hb Hbs E).
Qed.

(** A packet-sized block of bytes. *)
Definition packet_block (b : list Z) : Prop := zlen b = R_MAX_PACKET_SIZE /\ is_bytes b.

Lemma wr_packet b off bs :
  packet_block b -> is_bytes bs -> 0 <= off -> off + zlen bs <= R_MAX_PACKET_SIZE ->
  exists b', wr b off bs = Ok b' /\ packet_block b'.
Proof.
  intros [Hl Hb] Hbs Ho Hle. destruct (wr_safe b off bs Hb Hbs Ho) as (b' & E & Hl' & Hb'); [lia|].
  exists b'. split; [done|]. split; [lia|done].
Qed.

Lemma stack_packet : packet_block stack_buffer.
Proof. split; [apply stack_buffer_len|apply Forall_replicate; rlia]. Qed.

Lemma answer_counts_range sc gc rc gc' rc' :
  is_u16 gc -> is_u16 rc -> answer_counts sc gc rc = Some (gc', rc') -> is_u16 gc' /\ is_u16 rc'.
Proof.
  intros Hg Hr. unfold answer_counts. repeat case_if; intros [= <- <-]; split; try done; try apply u16_range; rlia.
Qed.

Section Answers.
Context (pdu : list Z) (n : Z) (q : r_test_parsed_request).
Hypothesis pdu_bytes : is_bytes pdu.
Hypothesis pdu_len : n <= zlen pdu.
Hypothesis q_type : pq_pdu_type q = R_PDU_RATE_REQUEST.
Hypothesis q_counts : is_u16 (pq_guard_count q) /\ is_u16 (pq_resource_count q).
Hypothesis q_blocks : pq_guards q = Some 12 /\ pq_resources q = Some (12 + pq_guard_count q * 36).
Hypothesis q_fits : 12 + pq_guard_count q * 36 + pq_resource_count q * 28 <= n.

Lemma answer_guard_safe sc i buf pos :
  packet_block buf -> 0 <= i -> 0 <= pos -> pos + 36 <= R_MAX_PACKET_SIZE ->
  ensures (answer_guard_block sc pdu q i (buf, pos)) (fun r => packet_block (fst r) /\ snd r = pos + 36).
Proof.
  intros Hb Hi Hp Hle. unfold answer_guard_block. destruct q_blocks as [Eg _]. rewrite Eg.
  change R_GUARD_BLOCK_WIRE_LEN with 36. change R_MAX_PACKET_SIZE with 1200 in *.
  apply ensures_bind. apply (ensures_mono _ packet_block).
  { apply ensures_if; intros E; breflect.
    - cbn [deref of_option]. rewrite run_bind_Ok. ens (rd_bytes_safe pdu (12 + i * 36) 36 ltac:(lia) ltac:(lia) ltac:(rlia)).
      assert (Hc : zlen (chunk pdu (12 + i * 36) 36) = 36) by (apply chunk_length; rlia).
      destruct (wr_packet buf pos (chunk pdu (12 + i * 36) 36) Hb) as (b' & E' & Hb');
        [by apply chunk_bytes|lia|clia|]. by rewrite E'.
    - unfold fill. change (0 <=? 36) with true. cbv iota.
      destruct (wr_packet buf pos (replicate (Z.to_nat 36) 0) Hb) as (b' & E' & Hb');
        [apply Forall_replicate; rlia|lia|rewrite length_replicate; clia|]. ens E'. rewrite write_le32_wr.
      destruct (wr_packet b' (pos + 28) (le 4 1) Hb') as (b2 & E2 & Hb2);
        [apply le_bytes|lia|rewrite le_length; clia|]. by rewrite E2. }
  intros body Hbody. pose proof Hbody as [Hbl Hbb]. change R_MAX_PACKET_SIZE with 1200 in Hbl.
  destruct (read_le32_safe body (pos + 28) Hbb) as (t & Et & Ht); [lia|lia|]. ens Et. cbv zeta. rewrite write_le32_wr.
  match goal with |- context [wr body (pos + 32) (le 4 ?v)] =>
    destruct (wr_packet body (pos + 32) (le 4 v) Hbody) as (b2 & E2 & Hb2);
      [apply le_bytes|lia|rewrite le_length; clia|] end. ens E2. split; [done|]. simpl. by rewrite u64_small by rlia.
Qed.

Lemma answer_deficit_safe st source :
  responder_wf st -> 0 <= source -> source + 28 <= zlen pdu ->
  ensures (answer_deficit pdu source st) (fun f =>
    match f with
    | Next (_, st') => responder_wf st' /\ exists t k, st' = with_table t k st
    | Return (rc, st') => rc = RCLIENT_ERR_NOMEM /\ responder_wf st' /\ exists t k, st' = with_table t k st
    end).
Proof.
  intros Hst Hs Hl. unfold answer_deficit.
  assert (Hsame : responder_wf st /\ exists t k, st = with_table t k st).
  { split; [done|]. do 2 eexists. symmetry. apply with_table_same. }
  assert (Hr : forall st', (responder_wf st' /\ exists t k, st' = with_table t k st) ->
    ensures (d ← (d ← read_le16 pdu (source + 24); Ok (if d =? 0 then 1 else d)); Ok (Next (d, st')))
      (fun f => match f with
                | Next (_, st') => responder_wf st' /\ exists t k, st' = with_table t k st
                | Return (rc, st') => rc = RCLIENT_ERR_NOMEM /\ responder_wf st' /\ exists t k, st' = with_table t k st
                end)).
  { intros st' Hst'. destruct (read_le16_safe pdu (source + 24) pdu_bytes) as (d & Ed & _); [lia..|].
    rewrite Ed, !run_bind_Ok. exact Hst'. }
  apply ensures_if; intros _; [by apply Hr|]. apply ensures_if; intros _; [|exact Hsame].
  ens (rd_bytes_safe pdu source 16 ltac:(lia) ltac:(lia) ltac:(lia)).
  destruct (quota_allows_defined st (chunk pdu source 16) Hst) as (v & t & k & E & W). ens E.
  assert (Hnew : responder_wf (with_table t k st) /\ exists t' k', with_table t k st = with_table t' k' st) by eauto.
  apply ensures_if; intros _; [done|]. apply ensures_if; intros _; [by apply Hr|exact Hnew].
Qed.

Definition resource_loop_post (st0 : r_test_responder_state) (pos : Z)
    (f : flow (list Z * Z * r_test_responder_state) (Z * r_test_responder_state)) : Prop :=
  match f with
  | Next (b, p, st') => packet_block b /\ p = pos /\ responder_wf st' /\ exists t k, st' = with_table t k st0
  | Return (rc, st') => rc = RCLIENT_ERR_NOMEM /\ responder_wf st' /\ exists t k, st' = with_table t k st0
  end.

Lemma answer_resource_safe st0 st i buf pos :
  packet_block buf -> responder_wf st -> (exists t k, st = with_table t k st0) -> 0 <= i -> 0 <= pos ->
  pos + 28 <= R_MAX_PACKET_SIZE ->
  ensures (answer_resource_block pdu q i (buf, pos, st)) (resource_loop_post st0 (pos + 28)).
Proof.
  intros Hb Hst Ht Hi Hp Hle. unfold answer_resource_block. destruct q_blocks as [_ Er]. rewrite Er.
  change R_RESOURCE_BLOCK_WIRE_LEN with 28. change R_MAX_PACKET_SIZE with 1200 in *.
  apply ensures_bind. apply (ensures_mono _ (fun f => match f with
    | Next (b, d, st') => packet_block b /\ responder_wf st' /\ exists t k, st' = with_table t k st0
    | Return (rc, st') => rc = RCLIENT_ERR_NOMEM /\ responder_wf st' /\ exists t k, st' = with_table t k st0
    end)).
  { apply ensures_if; intros E; breflect.
    - cbn [deref of_option]. rewrite run_bind_Ok. cbv zeta. set (src := 12 + pq_guard_count q * 36 + i * 28).
      assert (0 <= src /\ src + 28 <= zlen pdu) by (unfold src; rlia).
      ens (rd_bytes_safe pdu src 28 ltac:(lia) ltac:(lia) ltac:(lia)).
      assert (Hc : zlen (chunk pdu src 28) = 28) by (apply chunk_length; lia).
      destruct (wr_packet buf pos (chunk pdu src 28) Hb) as (b' & E' & Hb'); [by apply chunk_bytes|lia|clia|].
      ens E'. apply ensures_bind. eapply ensures_mono; [by apply answer_deficit_safe; try done; lia|].
      intros [[d st']|[rc st']]; [intros (W & t & k & ->)|intros (-> & W & t & k & ->)];
        destruct Ht as (t0 & k0 & ->); cbn; (split; [done|]); (split; [done|]); by exists t, k.
    - unfold fill. change (0 <=? 28) with true. cbv iota.
      destruct (wr_packet buf pos (replicate (Z.to_nat 28) 0) Hb) as (b' & E' & Hb');
        [apply Forall_replicate; rlia|lia|rewrite length_replicate; clia|]. by ens E'. }
  intros [[[b d] st']|r]; [|done]. intros (Hb' & W & Ht'). rewrite write_le16_wr.
  destruct (wr_packet b (pos + 24) (le 2 d) Hb') as (b1 & E1 & Hb1); [apply le_bytes|lia|rewrite le_length; clia|].
  ens E1. rewrite write_le16_wr.
  destruct (wr_packet b1 (pos + 26) (le 2 0) Hb1) as (b2 & E2 & Hb2); [apply le_bytes|lia|rewrite le_length; clia|].
  ens E2. split; [done|]. split; [by rewrite u64_small by rlia|done].
Qed.

Lemma build_response_safe st :
  responder_wf st ->
  ensures (build_response_pdu st pdu q stack_buffer R_MAX_PACKET_SIZE) (fun r =>
    let '(rc, st', out, len) := r in
    responder_wf st' /\ (exists t k, st' = with_table t k st) /\
    0 <= len <= zlen out /\ zlen out = R_MAX_PACKET_SIZE).
Proof.
  intros Hst. unfold build_response_pdu. destruct (answer_counts _ _ _) as [[gc rc]|] eqn:Ec.
  2:{ split; [done|]. split; [by do 2 eexists; symmetry; apply with_table_same|]. rewrite stack_buffer_len. clia. }
  destruct (answer_counts_range _ _ _ _ _ (proj1 q_counts) (proj2 q_counts) Ec) as [Hg Hr].
  change R_GUARD_BLOCK_WIRE_LEN with 36. change R_RESOURCE_BLOCK_WIRE_LEN with 28.
  change R_PDU_HEADER_LEN with 8. change R_MAX_PACKET_SIZE with 1200. unwrap.
  apply ensures_if; intros E.
  { split; [done|]. split; [by do 2 eexists; symmetry; apply with_table_same|]. rewrite stack_buffer_len. clia. }
  breflect. rewrite write_le16_wr.
  destruct (wr_packet stack_buffer 0 (le 2 gc) stack_packet) as (b1 & E1 & Hb1); [apply le_bytes|lia|rewrite le_length; clia|].
  ens E1. rewrite write_le16_wr.
  destruct (wr_packet b1 2 (le 2 rc) Hb1) as (b2 & E2 & Hb2); [apply le_bytes|lia|rewrite le_length; clia|]. ens E2.
  apply ensures_bind. eapply ensures_mono.
  { apply (ensures_for_range (Z.to_nat gc) 0 _ (fun j r => packet_block (fst r) /\ snd r = 4 + j * 36)); [done|].
    intros j [b p] Hj [Hb Hp]. simpl in Hp. subst p. eapply ensures_mono; [apply answer_guard_safe; try done; clia|].
    intros [b' p'] [? Hp']. simpl in *. split; [done|lia]. }
  intros [b p] [Hb Hp]. simpl in Hp. rewrite Z2Nat.id in Hp by rlia.
  apply ensures_bind. eapply ensures_mono.
  { apply (ensures_for_flow (Z.to_nat rc) 0 _
      (fun j r => resource_loop_post st (4 + gc * 36 + j * 28) (Next r)) (fun e => resource_loop_post st 0 (Return e))).
    - split; [done|]. split; [simpl; lia|]. split; [done|]. by do 2 eexists; symmetry; apply with_table_same.
    - intros j [[b' p'] st'] Hj (Hb' & -> & W & Ht). eapply ensures_mono; [apply (answer_resource_safe st); try done; clia|].
      intros [[[b2' p2] st2]|[e st2]] Hx; [|exact Hx]. destruct Hx as (? & -> & ? & ?).
      split; [done|]. split; [lia|done]. }
  intros [[[b' p'] st']|[e st']].
  2:{ intros (-> & W & Ht). split; [done|]. split; [done|]. rewrite stack_buffer_len. clia. }
  intros ([Hbl Hbb] & _ & W & Ht). set (blen := 4 + gc * 36 + rc * 28) in *.
  assert (Hbn : 0 <= blen) by (unfold blen; rlia).
  change R_MAX_PACKET_SIZE with 1200 in Hbl.
  pose proof (rd_bytes_safe b' 0 blen ltac:(lia) ltac:(lia) ltac:(lia)) as Hrd.
  assert (Hcl : zlen (chunk b' 0 blen) = blen) by (apply chunk_length; lia). rewrite <- Hcl in Hrd at 1.
  pose proof stack_buffer_len as Hsb. change R_MAX_PACKET_SIZE with 1200 in Hsb.
  destruct (pdu_built R_PDU_RATE_RESPONSE b' _ stack_buffer 1200 0 Hrd) as (out' & Eb & Ho & _ & _);
    [unfold is_object; lia|unfold is_object; lia|lia|].
  rewrite Hcl in Eb. rewrite Eb, run_bind_Ok. cbn [deref of_option]. rewrite !run_bind_Ok.
  split; [done|]. split; [done|]. split; [|lia]. rewrite Ho, Hsb. case_if; [|lia].
  unfold ser_pdu. rewrite !length_app, !le_length. lia.
Qed.
End Answers.

(** ** One packet *)

(** What handling a packet leaves of the configuration. *)
Record same_peer (st st' : r_test_responder_state) : Prop := {
  sp_scenario : rt_scenario st' = rt_scenario st;
  sp_auth : rt_auth_type st' = rt_auth_type st;
  sp_key : rt_tenant_key_id st' = rt_tenant_key_id st;
  sp_secret : rt_secret st' = rt_secret st;
  sp_server : rt_server_id st' = rt_server_id st;
  sp_keep : rt_steering_keep_port st' = rt_steering_keep_port st;
  sp_allow : rt_allow_count st' = rt_allow_count st;
}.

Lemma same_peer_refl st : same_peer st st.
Proof. by split. Qed.
Lemma same_peer_trans a b c : same_peer a b -> same_peer b c -> same_peer a c.
Proof. intros [] []. split; congruence. Qed.
Lemma same_peer_table q n st : same_peer st (with_table q n st).
Proof. by split. Qed.
Lemma same_peer_shares st st' c : same_peer st st' -> shares_key st c -> shares_key st' c.
Proof. intros [] []. split; intros; [congruence..|rewrite sp_secret0; auto|rewrite sp_secret0; auto]. Qed.

(** The bookkeeping of sequence and last tracker keeps the invariant. *)
Definition books (st st' : r_test_responder_state) : Prop :=
  same_peer st st' /\ rt_quota st' = rt_quota st /\ rt_quota_count st' = rt_quota_count st.

Lemma books_wf st st' : books st st' -> responder_wf st -> responder_wf st'.
Proof.
  intros ([] & E1 & E2) []. unfold used_entries in *.
  split; unfold used_entries; rewrite ?E1, ?E2, ?sp_scenario0, ?sp_auth0, ?sp_key0, ?sp_secret0, ?sp_server0; done.
Qed.

Lemma observe_tracker_safe pdu off :
  is_bytes pdu -> 0 <= off -> off + 28 <= zlen pdu -> ensures (observe_tracker pdu off) (fun _ => True).
Proof.
  intros Hb Ho Hl. unfold observe_tracker. ens (rd_bytes_safe pdu off 16 ltac:(lia) ltac:(lia) ltac:(lia)).
  destruct (read_le32_safe pdu (off + 16) Hb) as (v1 & E1 & _); [lia..|]. ens E1.
  destruct (read_le32_safe pdu (off + 20) Hb) as (v2 & E2 & _); [lia..|]. ens E2.
  destruct (read_le32_safe pdu (off + 24) Hb) as (v3 & E3 & _); [lia..|]. by ens E3.
Qed.

Lemma observe_report_safe st pdu n q :
  is_bytes pdu -> n <= zlen pdu -> pq_reports q = Some 12 -> is_u16 (pq_report_count q) ->
  12 + pq_report_count q * 32 = n ->
  ensures (observe_report st pdu q) (fun e => te_sequence e = rt_sequence st /\ te_kind e = R_TEST_EVENT_LATENCY_REPORT).
Proof.
  intros Hb Hl Er Hu Hn. unfold observe_report. apply ensures_if; intros E; [|done]. breflect. rewrite Er.
  cbn [deref of_option]. rewrite run_bind_Ok. apply ensures_bind.
  eapply ensures_mono; [apply observe_tracker_safe; [done|lia|lia]|]. intros t _.
  destruct (read_le32_safe pdu (12 + 28) Hb) as (v & Ev & _); [lia..|]. ens Ev. apply ensures_bind.
  apply (ensures_mono _ (fun _ => True)); [|done]. apply ensures_if; intros _; [|done].
  by ens (rd_bytes_safe pdu 12 16 ltac:(lia) ltac:(lia) ltac:(lia)).
Qed.

Lemma observe_request_safe st pdu n q d :
  is_bytes pdu -> n <= zlen pdu -> pq_guards q = Some 12 -> is_u16 (pq_resource_count q) ->
  12 + pq_guard_count q * 36 + pq_resource_count q * 28 <= n ->
  ensures (observe_request st pdu q d) (fun r =>
    books st (fst r) /\ rt_sequence (fst r) = rt_sequence st /\ te_sequence (snd r) = rt_sequence st /\
    te_kind (snd r) = R_TEST_EVENT_RATE_REQUEST).
Proof.
  intros Hb Hl Eg Hu Hn. unfold observe_request. apply ensures_if; intros E; [|by repeat split]. breflect. rewrite Eg.
  cbn [deref of_option]. rewrite run_bind_Ok. apply ensures_bind.
  eapply ensures_mono; [apply observe_tracker_safe; [done|lia|rlia]|]. intros t _.
  destruct (read_le32_safe pdu (12 + 28) Hb) as (v & Ev & _); [lia|rlia|]. ens Ev.
  ens (rd_bytes_safe pdu 12 16 ltac:(lia) ltac:(lia) ltac:(rlia)). by repeat split.
Qed.

(** The output block and its length, within the capacity. *)
Definition output_ok (out : list Z) (cap : Z) (o : process_out) : Prop :=
  zlen (po_output o) = zlen out /\ 0 <= po_output_len o <= cap.

Lemma malform_safe st o out cap :
  po_state o = st -> output_ok out cap o -> cap <= zlen out -> is_object out -> po_send_response o = false ->
  ensures (malform st o) (fun r =>
    po_state (snd r) = st /\ output_ok out cap (snd r) /\ te_sequence (po_event (snd r)) = te_sequence (po_event o) /\
    te_kind (po_event (snd r)) = te_kind (po_event o) /\
    (po_send_response (snd r) = true <-> fst r = RCLIENT_OK)).
Proof.
  intros Est [Hl Hn] Hc Hobj Hs. unfold is_object in Hobj. unfold malform. cbv zeta.
  assert (Hfail : (false = true <-> RCLIENT_ERR_PROTOCOL = RCLIENT_OK)) by (split; intros; discriminate).
  apply ensures_if; intros _; [|apply ensures_if; intros _; [|by apply ensures_if; intros _]].
  - apply ensures_if; intros E; [by rewrite <- Hs in Hfail|]. breflect.
    set (k := if rt_auth_type st =? R_AUTH_AES_GCM then R_TENANT_TLV_LEN + 4 + 12 else R_TENANT_TLV_LEN + 4) in *.
    assert (Hk : 0 <= k < zlen (po_output o)) by (unfold k in *; destruct (rt_auth_type st =? R_AUTH_AES_GCM); clia).
    destruct (rd_defined (po_output o) k Hk) as [b Eb]. ens Eb.
    destruct (wr_defined (po_output o) k [Z.lxor b 1]) as [o' Eo]; [lia|simpl; lia|]. ens Eo.
    apply wr_Ok in Eo as (_ & _ & Ho). repeat split; simpl; lia || done.
  - apply ensures_if; intros E; [by rewrite <- Hs in Hfail|]. breflect.
    repeat split; simpl; try done; rewrite ?u64_small by rlia; lia.
Qed.

Section Process.
Context {ssl : OpenSSL} {laws : AesGcmLaws ssl}.

(** The packet carries a PDU under this credential. *)
Definition authentic_packet (st : r_test_responder_state) (input : list Z) (len : Z) : Prop :=
  exists h pdu, wf_tenant h /\ take 40 input = ser_tenant h /\ th_key_id h = rt_tenant_key_id st /\
    forall c, shares_key st c -> has_credential c ->
      authentic c (take (Z.to_nat (th_tlv_size h)) (take (Z.to_nat len) input)) pdu (take (Z.to_nat len) input).

Record processed (st : r_test_responder_state) (input : list Z) (len : Z) (output : list Z) (cap : Z)
    (rc : Z) (o : process_out) : Prop := {
  pr_state : responder_wf (po_state o);
  pr_peer : same_peer st (po_state o);
  pr_sequence : rt_sequence (po_state o) = u64 (rt_sequence st + 1) /\
                te_sequence (po_event o) = rt_sequence (po_state o);
  pr_output : output_ok output cap o;
  pr_sent : po_send_response o = true -> rc = RCLIENT_OK;
  pr_authentic : te_kind (po_event o) = R_TEST_EVENT_INPUT_REJECTED \/ authentic_packet st input len;
  pr_rejected : te_kind (po_event o) = R_TEST_EVENT_INPUT_REJECTED -> po_send_response o = false /\ rc <> RCLIENT_OK;
}.

Lemma respond_safe env st h pdu n q output cap :
  responder_wf st -> wf_tenant h -> is_bytes pdu -> n <= zlen pdu -> is_object output -> 0 <= cap <= zlen output ->
  (forall r, ce_rand env = Some r -> zlen r = 12) ->
  is_u16 (pq_guard_count q) -> is_u16 (pq_resource_count q) ->
  pq_guards q = Some 12 -> pq_resources q = Some (12 + pq_guard_count q * 36) ->
  12 + pq_guard_count q * 36 + pq_resource_count q * 28 <= n ->
  ensures (respond env st h pdu q output cap) (fun r =>
    responder_wf (po_state (snd r)) /\ same_peer st (po_state (snd r)) /\
    rt_sequence (po_state (snd r)) = rt_sequence st /\ te_sequence (po_event (snd r)) = rt_sequence st /\
    te_kind (po_event (snd r)) = R_TEST_EVENT_RATE_REQUEST /\ output_ok output cap (snd r) /\
    (po_send_response (snd r) = true -> fst r = RCLIENT_OK)).
Proof.
  intros Hwf Hh Hb Hn Hobj Hcap Hrand Hgc Hrc Eg Er Hfit. unfold respond.
  apply ensures_bind. eapply ensures_mono; [by eapply observe_request_safe|].
  intros [st1 ev] (Hbk & Hseq & Hev & Hkind). simpl in Hbk, Hseq, Hev, Hkind.
  pose proof (books_wf st st1 Hbk Hwf) as Hwf1. destruct Hbk as [Hsp _].
  assert (Hno : forall d, output_ok output cap (mk_process_out st1 output 0 false d)) by (split; simpl; lia).
  apply ensures_if; intros _; [split; [done|]; split; [done|]; by repeat split; simpl; try lia|].
  apply ensures_bind. eapply ensures_mono; [by eapply (build_response_safe pdu n q)|].
  intros [[[rc st2] out] len] (Hwf2 & (t & k & ->) & Hlen & Hout). set (st2 := with_table t k st1) in *.
  assert (Hsp2 : same_peer st st2) by (eapply same_peer_trans; [exact Hsp|apply same_peer_table]).
  apply ensures_if; intros _; [split; [done|]; split; [done|]; by repeat split; simpl; try lia|].
  pose proof (rd_bytes_safe out 0 len ltac:(lia) ltac:(lia) ltac:(lia)) as Hrd.
  assert (Hcl : zlen (chunk out 0 len) = len) by (apply chunk_length; lia). rewrite <- Hcl in Hrd at 1.
  destruct (build_authenticated env st2 (peer_client st2) h (rt_scenario st2 =? R_TEST_SCENARIO_MALFORMED_REQUEST_ID)
    out (chunk out 0 len) output cap (peer_shares st2) (peer_auth _ Hwf2) (peer_credential _ Hwf2) Hh
    (proj1 (rw_ids _ Hwf2)) Hrd ltac:(lia) Hcap Hrand) as (rc2 & out2 & n2 & Ea & Hl2 & Hres).
  rewrite Hcl in Ea. ens Ea. cbv beta iota zeta.
  assert (Hn2 : 0 <= n2 <= cap) by (destruct Hres as [(_ & ? & b & _ & -> & _ & _)|(_ & -> & _)]; lia).
  apply ensures_if; intros _; [split; [done|]; split; [done|]; by repeat split; simpl; try lia|].
  eapply ensures_mono; [apply (malform_safe st2 _ output cap); simpl; try done; lia|].
  intros [rc3 o3] (Es & Ho & Es2 & Ek & Hsent). simpl in *. rewrite Es, Es2, Ek.
  split; [done|]. split; [done|]. repeat split; try done; try apply Ho. apply Hsent.
Qed.

(** Handling a packet is total, whatever the bytes. *)
Lemma process_safe env st input len output cap :
  responder_wf st -> is_bytes input -> is_object input -> 0 <= len <= zlen input -> len < 2 ^ 32 ->
  is_object output -> 0 <= cap <= zlen output -> (forall r, ce_rand env = Some r -> zlen r = 12) ->
  ensures (process_packet env st input len output cap) (fun r => processed st input len output cap (fst r) (snd r)).
Proof.
  intros Hwf Hb Hobj Hlen Hlt Hout Hcap Hrand. unfold process_packet. cbv zeta.
  set (st1 := set_rt_sequence (rt_sequence st +64 1) st).
  assert (Hbk : books st st1) by by split.
  pose proof (books_wf st st1 Hbk Hwf) as Hwf1. destruct Hbk as [Hsp _].
  assert (Hseq : rt_sequence st1 = u64 (rt_sequence st + 1)) by done.
  assert (Hrej : forall rc, rc <> RCLIENT_OK -> processed st input len output cap rc
    (mk_process_out st1 output 0 false (event_rejected (rt_sequence st1)))).
  { intros rc Hrc. split; simpl; try done; [split; simpl; lia|by left]. }
  apply ensures_bind. eapply ensures_mono; [by apply extract_safe|].
  intros [[rc h] found] Hx. apply ensures_if; intros E1; [apply Hrej; by breflect|]. breflect.
  destruct (Hx E1) as (Hh & Hser & Hid & block & n & -> & Hn & Hbb & Hbo & Hauth).
  cbn [deref of_option]. rewrite run_bind_Ok. apply ensures_bind.
  eapply ensures_mono; [by apply parse_request_safe|]. intros [rc2 q] Hq. simpl in Hq.
  apply ensures_if; intros E2; [apply Hrej; by breflect|]. breflect.
  assert (Hap : authentic_packet st input len) by (exists h, (take (Z.to_nat n) block); split_and!; try done; intros c Hc; by apply Hauth, (same_peer_shares st)).
  destruct (Hq E2) as [Ety Hgc Hrc Eg Er Hfit|Ety Hk Ek Hfit]; rewrite Ety.
  - change (R_PDU_RATE_REQUEST =? R_PDU_LATENCY_REPORT) with false. cbv iota.
    eapply ensures_mono; [eapply respond_safe; try done; lia|].
    intros [rc3 o3] (W & Hsp3 & Hs3 & He3 & Hk3 & Ho3 & Hsent). simpl in *.
    split; try done; [by eapply same_peer_trans|split; congruence|by right|]. rewrite Hk3. done.
  - rewrite Z.eqb_refl. apply ensures_bind.
    eapply ensures_mono; [apply (observe_report_safe st1 block n q); try done; lia|]. intros e [Hes Hek].
    split; simpl; try done; [split; simpl; lia|by right|]. by rewrite Hek.
Qed.
End Process.
