(* ===== verification/ResponderStart.v ===== *)
(** * Starting the test responder

    [r_test_responder_init] by its key and its numbers: the state it leaves, and
    that a started responder satisfies its invariant. *)

From Stdlib Require Import String Ascii.
From S2P Require Import Prelude.
From S2P Require Import Types.
From S2P Require Import Wire.
From S2P Require Import WireFacts.
From S2P Require Import Crypto.
From S2P Require Import CryptoFacts.
From S2P Require Import KeyFacts.
From S2P Require Import Ids.
From S2P Require Import Workflow.
From S2P Require Import State.
From S2P Require Import Hoare.
From S2P Require Import Request.
From S2P Require Import RequestFacts.
From S2P Require Import Client.
From S2P Require Import Responder.
From S2P Require Import ResponderFacts.
From S2P Require Import ResponderQuota.
From S2P Require Import ResponderSafety.

(** The state of a responder that has seen no packet yet. *)
Definition started (k : api_key) (scenario server_id : Z) (keep : bool) (allow_count : Z)
  : r_test_responder_state :=
  mk_responder scenario (ak_type k) (ak_key_id k) (ak_secret k) server_id keep allow_count 0
    (replicate 16 0) false (replicate (Z.to_nat R_TEST_RESPONDER_QUOTA_CAP) quota_entry_zero) 0.

Lemma started_wf text k scenario server_id keep allow_count :
  key_decode text = Some k -> is_u64 server_id ->
  R_TEST_SCENARIO_ALLOW <= scenario <= R_TEST_SCENARIO_COUNT_EXTRA ->
  responder_wf (started k scenario server_id keep allow_count).
Proof.
  intros Hk Hs Hsc. destruct (key_decode_wf text k Hk) as (Hb & Hid & _).
  split; try done; [by split; [eapply key_decode_secret|]|by eapply key_decode_type|constructor].
Qed.

Lemma init_spec mem st0 scenario text rest server_id keep allow_count :
  0 ∉ text -> zlen text <= 2 ^ 59 ->
  r_test_responder_init mem (Some st0) scenario (Some (text ++ 0 :: rest)) server_id keep allow_count =
  Ok (if (server_id =? 0) || (scenario <? R_TEST_SCENARIO_ALLOW) || (R_TEST_SCENARIO_COUNT_EXTRA <? scenario)
      then (RCLIENT_ERR_CONFIG, Some st0)
      else match (if mem 0%nat && mem 1%nat && mem 2%nat && mem 3%nat then key_decode text else None) with
           | Some k => (RCLIENT_OK, Some (started k scenario server_id keep allow_count))
           | None => (RCLIENT_ERR_CONFIG, Some st0)
           end).
Proof.
  intros Ht Hl. unfold r_test_responder_init. destruct (_ || _); [done|].
  rewrite parse_auth_key_spec by done. rewrite run_bind_Ok.
  destruct (if mem 0%nat && mem 1%nat && mem 2%nat && mem 3%nat then key_decode text else None) as [k|] eqn:Ek.
  2:{ cbn [deref of_option]. by rewrite run_bind_Ok. }
  assert (Hk : key_decode text = Some k) by (by destruct (mem 0%nat && mem 1%nat && mem 2%nat && mem 3%nat); [rewrite Ek|]).
  cbn [deref of_option]. rewrite run_bind_Ok. change (negb (RCLIENT_OK =? RCLIENT_OK)) with false.
  pose proof (key_decode_secret text k Hk) as Hs.
  assert (E : ki_secret (key_info_of k) = ak_secret k /\ ki_secret_len (key_info_of k) = 32 /\
    ki_type (key_info_of k) = ak_type k /\ ki_key_id (key_info_of k) = ak_key_id k) by done.
  destruct E as (-> & -> & -> & ->). cbn [Z.eqb Pos.eqb negb orb].
  rewrite rd_bytes_whole, run_bind_Ok by lia. done.
Qed.

