(* ===== verification/ResponderRequest.v ===== *)
(** * The test responder on a client's request

    What handling a request packet of the client's builders amounts to: the
    request is noted, a verdict is reached from its guards and resources and
    the scenario, and the verdict is sealed for the client. *)

From Stdlib Require Import String Ascii.
From S2P Require Import Prelude.
From S2P Require Import Types.
From S2P Require Import Wire.
From S2P Require Import WireFacts.
From S2P Require Import Crypto.
From S2P Require Import CryptoFacts.
From S2P Require Import Workflow.
From S2P Require Import State.
From S2P Require Import Hoare.
From S2P Require Import Request.
From S2P Require Import RequestFacts.
From S2P Require Import PacketFacts.
From S2P Require Import ExtractFacts.
From S2P Require Import Client.
From S2P Require Import Responder.
From S2P Require Import ResponderFacts.
From S2P Require Import ResponderQuota.
From S2P Require Import ResponderAnswers.
From S2P Require Import ResponderSeal.
From S2P Require Import ResponderSafety.

(** ** The contract *)

(** The state after a request is noted: its first guard's tracker is kept. *)
Definition noted (st : r_test_responder_state) (gs : list r_latency_guard) : r_test_responder_state :=
  let st := set_rt_has_last false (set_rt_sequence (u64 (rt_sequence st + 1)) st) in
  match gs with
  | [] => st
  | g :: _ => set_rt_has_last true (set_rt_last (lg_latency_tracker_id g) st)
  end.

Definition noted_tracker (gs : list r_latency_guard) : r_test_tracker_observation :=
  match gs with
  | [] => observation_zero
  | g :: _ => mk_observation true (lg_latency_tracker_id g) (lg_ttl_ms g) (lg_max_samples g)
                (lg_min_sample_threshold g)
  end.

Definition request_event (st : r_test_responder_state) (gs : list r_latency_guard)
    (rs : list r_resource_request) (ol : option (list Z)) (d : list Z) : r_test_event :=
  mk_event R_TEST_EVENT_RATE_REQUEST (u64 (rt_sequence st + 1)) (zlen gs) (zlen rs) 0 (noted_tracker gs)
    false (match gs with [] => 0 | g :: _ => lg_threshold_ms g end) 0 (label_block ol) d.

Inductive verdict : Type :=
| Dropped
| Refused (rc : Z)
| Answered (gs : list r_latency_guard) (rs : list r_resource_request).

(** How many guards and resources are answered: as many as were asked about, or
    none, or one block less, a resource if there is one, or one more, where the
    16-bit counts can tell it. *)
Definition planned_counts (scenario n m : Z) : option (Z * Z) :=
  if decide (scenario = R_TEST_SCENARIO_COUNT_EMPTY) then Some (0, 0)
  else if decide (scenario = R_TEST_SCENARIO_COUNT_SHORT) then
    Some (if decide (m = 0) then (Z.max 0 (n - 1), 0) else (n, m - 1))
  else if decide (scenario = R_TEST_SCENARIO_COUNT_EXTRA) then
    if decide (m < 65535) then Some (n, m + 1) else if decide (n < 65535) then Some (n + 1, m) else None
  else Some (n, m).

Lemma answer_counts_planned sc n m : is_u16 n -> is_u16 m -> answer_counts sc n m = planned_counts sc n m.
Proof.
  intros Hn Hm. unfold answer_counts, planned_counts.
  case_if; breflect; [by rewrite decide_True|]. rewrite decide_False by done.
  case_if; breflect; [rewrite decide_True by done|rewrite decide_False by done].
  - case_if; breflect; [rewrite decide_False, u16_small by rlia; done|]. assert (m = 0) as -> by rlia. rewrite decide_True by done.
    case_if; breflect; [rewrite u16_small by rlia; do 2 f_equal; lia|]. do 2 f_equal. rlia.
  - case_if; breflect; [rewrite decide_True by done|by rewrite decide_False].
    case_if; breflect; [by rewrite decide_True, u16_small by rlia|]. rewrite decide_False by lia.
    case_if; breflect; [by rewrite decide_True, u16_small by rlia|by rewrite decide_False by lia].
Qed.

(** The verdict on a request and the state it leaves. *)
Definition plan (st : r_test_responder_state) (gs : list r_latency_guard) (rs : list r_resource_request)
  : verdict * r_test_responder_state :=
  let st := noted st gs in
  if rt_scenario st =? R_TEST_SCENARIO_DROP then (Dropped, st) else
  match planned_counts (rt_scenario st) (zlen gs) (zlen rs) with
  | None => (Refused RCLIENT_ERR_PROTOCOL, st)
  | Some (n, m) =>
      if R_MAX_PACKET_SIZE <? 12 + n * 36 + m * 28 then (Refused RCLIENT_ERR_PROTOCOL, st) else
      match answered_resources (Z.to_nat m) st rs with
      | Return (rc, st') => (Refused rc, st')
      | Next (l, st') => (Answered (padded extra_guard (Z.to_nat n) gs) l, st')
      end
  end.

(** ** Observation *)
Lemma observe_parsed_request st pdu rest pre post gs rs ol d :
  zlen pre = 12 -> pdu ++ rest = pre ++ concat (map ser_guard gs) ++ concat (map ser_resource rs) ++ post ->
  Forall wf_latency_guard gs ->
  observe_request (set_rt_sequence (u64 (rt_sequence st + 1)) st) (pdu ++ rest) (parsed_request gs rs ol) d =
  Ok (noted st gs, request_event st gs rs ol d).
Proof.
  intros Hpre Epdu Hgs. unfold observe_request, parsed_request. cbn [pq_guard_count pq_guards pq_resource_count pq_label].
  destruct gs as [|g gs]; [done|]. rewrite zltb_true by (simpl length; lia). cbn [deref of_option]. rewrite run_bind_Ok.
  apply Forall_cons in Hgs as [Hg Hgs]. pose proof (ser_guard_length g Hg) as Hl. change R_GUARD_BLOCK_WIRE_LEN with 36 in Hl.
  assert (E : rd_bytes (pdu ++ rest) 12 36 = Ok (ser_guard g)).
  { rewrite Epdu. cbn [map concat]. rewrite <- !app_assoc. by apply rd_bytes_at. }
  destruct Hg as ([Hid Hidb] & Ht & Httl & Hmax & Hmin).
  assert (Eid : rd_bytes (pdu ++ rest) 12 16 = Ok (lg_latency_tracker_id g)).
  { rewrite <- (Z.add_0_r 12), (rd_bytes_sub _ _ _ _ 0 16 E) by lia. unfold ser_guard.
    apply (rd_bytes_at []); [done|by rewrite Hid]. }
  assert (Hf : forall k a v b, ser_guard g = a ++ le 4 v ++ b -> zlen a = k -> k <= 32 -> is_u32 v ->
    read_le32 (pdu ++ rest) (12 + k) = Ok v).
  { intros k a v b Es Ha Hk Hv. apply read_le32_known; [|done]. rewrite (rd_bytes_sub _ _ _ _ k 4 E) by lia.
    rewrite Es. apply rd_bytes_at; [done|by rewrite le_length]. }
  set (id := lg_latency_tracker_id g) in *.
  assert (E1 : read_le32 (pdu ++ rest) (12 + 16) = Ok (lg_ttl_ms g)).
  { by eapply (Hf 16 id); [reflexivity|rewrite Hid| |]. }
  assert (E2 : read_le32 (pdu ++ rest) (12 + 20) = Ok (lg_max_samples g)).
  { eapply (Hf 20 (id ++ le 4 (lg_ttl_ms g))); [unfold ser_guard; by rewrite <- !app_assoc|
      by rewrite length_app, le_length, Hid|lia|done]. }
  assert (E3 : read_le32 (pdu ++ rest) (12 + 24) = Ok (lg_min_sample_threshold g)).
  { eapply (Hf 24 (id ++ le 4 (lg_ttl_ms g) ++ le 4 (lg_max_samples g))); [unfold ser_guard; by rewrite <- !app_assoc|
      by rewrite !length_app, !le_length, Hid|lia|done]. }
  assert (E4 : read_le32 (pdu ++ rest) (12 + 28) = Ok (lg_threshold_ms g)).
  { eapply (Hf 28 (id ++ le 4 (lg_ttl_ms g) ++ le 4 (lg_max_samples g) ++ le 4 (lg_min_sample_threshold g)));
      [unfold ser_guard; by rewrite <- !app_assoc|by rewrite !length_app, !le_length, Hid|lia|done]. }
  unfold observe_tracker. by rewrite Eid, run_bind_Ok, E1, run_bind_Ok, E2, run_bind_Ok, E3, !run_bind_Ok, E4.
Qed.

(** ** The whole exchange *)
Section Exchange.
Context {ssl : OpenSSL} {laws : AesGcmLaws ssl}.

(** The packet of a client's request: its header and PDU under the credential. *)
Record client_packet (c : client_fixed) (h : r_tenant_header) (ttl : Z) (gs : list r_latency_guard)
    (rs : list r_resource_request) (ol : option (list Z)) (bytes : list Z) : Prop := {
  cp_guards : Forall wf_latency_guard gs;
  cp_resources : Forall wf_resource_request rs;
  cp_label : from_option is_bytes True ol /\ zlen (default [] ol) <= R_TEST_RESPONDER_LABEL_CAP;
  cp_header : wf_tenant h /\ th_tlv_type h = R_TLV_TENANT /\ th_tlv_size h = R_TENANT_TLV_LEN;
  cp_key : th_key_id h = cf_key_id c;
  cp_fits : zlen (ser_request_pdu ttl (ser_request_body gs rs ol)) <= R_MAX_PACKET_SIZE;
  cp_sealed : sealed c (ser_tenant h) (ser_request_pdu ttl (ser_request_body gs rs ol)) bytes;
  cp_bytes : is_bytes bytes;
}.

(** The responder and the client are configured alike. *)
Record paired (st : r_test_responder_state) (c : client_fixed) : Prop := {
  pd_wf : responder_wf st;
  pd_shares : shares_key st c;
  pd_auth : auth_ok c;
  pd_cred : has_credential c;
}.

Definition env_ok (env : crypto_env) : Prop :=
  ce_open_ctx env = true /\ forall r, ce_rand env = Some r -> zlen r = 12 /\ is_bytes r.

Definition wrong_id (st : r_test_responder_state) : bool :=
  rt_scenario st =? R_TEST_SCENARIO_MALFORMED_REQUEST_ID.

(** What one call of [process_packet] does with the verdict. *)
Inductive carried_out (env : crypto_env) (c : client_fixed) (st : r_test_responder_state)
    (h : r_tenant_header) (output : list Z) (cap : Z) (ev : list Z -> r_test_event)
    : verdict * r_test_responder_state -> run (Z * process_out) -> Prop :=
| carried_dropped st' :
    carried_out env c st h output cap ev (Dropped, st')
      (Ok (RCLIENT_OK, mk_process_out st' output 0 false (ev (cstr "dropped"))))
| carried_refused rc st' :
    rc <> RCLIENT_OK ->
    carried_out env c st h output cap ev (Refused rc, st')
      (Ok (rc, mk_process_out st' output 0 false (ev (cstr "rejected"))))
| carried_answered gs rs st' bytes out' :
    sealed c (ser_tenant (response_tenant st h (wrong_id st))) (response_pdu (rt_scenario st) gs rs) bytes ->
    (is_bytes (response_pdu (rt_scenario st) gs rs) -> is_bytes bytes) ->
    zlen bytes <= cap -> wr output 0 bytes = Ok out' ->
    carried_out env c st h output cap ev (Answered gs rs, st')
      (malform st' (mk_process_out st' out' (zlen bytes) false (ev (cstr "rejected"))))
| carried_unsent gs rs st' rc out' :
    rc <> RCLIENT_OK -> zlen out' = zlen output ->
    (let pdu := response_pdu (rt_scenario st) gs rs in
     ~ (seal_len c (zlen pdu) <= cap /\
        can_seal env c (ser_tenant (response_tenant st h (wrong_id st))) pdu)) ->
    carried_out env c st h output cap ev (Answered gs rs, st')
      (Ok (rc, mk_process_out st' out' 0 false (ev (cstr "rejected")))).

Lemma noted_books st gs : same_peer st (noted st gs).
Proof. unfold noted. destruct gs; by split. Qed.
Lemma noted_quota st gs : rt_quota (noted st gs) = rt_quota st /\ rt_quota_count (noted st gs) = rt_quota_count st.
Proof. unfold noted. by destruct gs. Qed.
Lemma noted_wf st gs : responder_wf st -> responder_wf (noted st gs).
Proof. apply books_wf. split; [apply noted_books|apply noted_quota]. Qed.

(** The verdict's state: only the quota table moved. *)
Lemma answered_resources_table n st l :
  responder_wf st ->
  match answered_resources n st l with
  | Next (_, st') | Return (_, st') => exists q k, st' = with_table q k st
  end.
Proof.
  revert st l; induction n as [|n IH]; intros st l Hst; cbn [answered_resources].
  { do 2 eexists. symmetry. apply with_table_same. }
  assert (Hd : forall r, match deficit_of st r with
    | Next (_, st') | Return (_, st') => exists q k, st' = with_table q k st end).
  { intros r. unfold deficit_of. assert (Hs : exists q k, st = with_table q k st).
    { do 2 eexists. symmetry. apply with_table_same. }
    case_if; [done|]. case_if; [|done].
    destruct (charged st (rr_bucket_id r)) as [[ok st']|] eqn:Ec; [|done].
    destruct (charged_defined _ _ _ _ Hst Ec) as (_ & q & k & ->). by eauto. }
  assert (Hstep : forall st1 l1, responder_wf st1 -> (exists q k, st1 = with_table q k st) ->
    match answered_resources n st1 l1 with
    | Next (_, st') | Return (_, st') => exists q k, st' = with_table q k st end).
  { intros st1 l1 Hst1 (q & k & ->). specialize (IH _ l1 Hst1).
    destruct (answered_resources n _ l1) as [[? ?]|[? ?]]; destruct IH as (q' & k' & ->); by exists q', k'. }
  destruct l as [|r l]; cbn [tail].
  - specialize (Hstep st [] Hst ltac:(do 2 eexists; symmetry; apply with_table_same)).
    by destruct (answered_resources n st []) as [[? ?]|[? ?]].
  - specialize (Hd r). pose proof (deficit_of_wf st r Hst) as Hw.
    destruct (deficit_of st r) as [[d st1]|[rc st1]]; [|done]. destruct Hw as [Hst1 _].
    specialize (Hstep st1 l Hst1 Hd). by destruct (answered_resources n st1 l) as [[? ?]|[? ?]].
Qed.

Context (c : client_fixed) (h : r_tenant_header) (ttl : Z) (gs : list r_latency_guard).
Context (rs : list r_resource_request) (ol : option (list Z)) (bytes : list Z).
Hypothesis packet : client_packet c h ttl gs rs ol bytes.

Let pdu : list Z := ser_request_pdu ttl (ser_request_body gs rs ol).
Let pre : list Z :=
  le 2 R_PDU_RATE_REQUEST ++ le 2 (8 + zlen (ser_request_body gs rs ol)) ++ le 4 ttl ++ le 2 (zlen gs) ++ le 2 (zlen rs).

Lemma request_pieces rest :
  zlen pre = 12 /\
  pdu ++ rest = pre ++ concat (map ser_guard gs) ++ concat (map ser_resource rs) ++ (ser_opt_label ol ++ rest) /\
  pdu <> [] /\ is_bytes pdu /\ zlen gs <= UINT16_MAX /\ zlen rs <= UINT16_MAX.
Proof.
  destruct packet as [Hg Hr [Hl _] _ _ Hf _ _]. fold pdu in Hf. unfold pre.
  assert (Hpl : zlen pdu = 8 + zlen (ser_request_body gs rs ol))
    by (unfold pdu, ser_request_pdu; rewrite !length_app, !le_length; lia).
  pose proof (request_body_length gs rs ol Hg Hr) as Hb. change R_MAX_PACKET_SIZE with 1200 in Hf.
  change R_GUARD_BLOCK_WIRE_LEN with 36 in Hb. change R_RESOURCE_BLOCK_WIRE_LEN with 28 in Hb.
  split; [by rewrite !length_app, !le_length|].
  split; [unfold pdu, ser_request_pdu, ser_request_body; by rewrite <- !app_assoc|].
  split; [intros E; rewrite E in Hpl; simpl in Hpl; lia|]. split; [|lia].
  unfold pdu, ser_request_pdu, ser_request_body. repeat (apply Forall_app; split); try apply le_bytes;
    [by apply guards_bytes|by apply resources_bytes|by apply opt_label_bytes].
Qed.

Context (env : crypto_env) (st : r_test_responder_state) (output : list Z) (cap : Z).
Hypothesis pair : paired st c.
Hypothesis envok : env_ok env.
Hypothesis output_cap : 0 <= cap <= zlen output.

Lemma counts_range n m :
  zlen gs <= UINT16_MAX -> zlen rs <= UINT16_MAX ->
  answer_counts (rt_scenario st) (zlen gs) (zlen rs) = Some (n, m) -> is_u16 n /\ is_u16 m.
Proof. intros. by apply (answer_counts_range (rt_scenario st) (zlen gs) (zlen rs)); [rlia|rlia|]. Qed.

Lemma process_planned :
  carried_out env c st h output cap (request_event st gs rs ol) (plan st gs rs)
    (process_packet env st bytes (zlen bytes) output cap).
Proof.
  destruct pair as [Hwf Hsh Hauth Hcred]. destruct packet as [Hg Hr [Hl Hlc] (Hh & Hht & Hhs) Hk Hf Hs Hb].
  fold pdu in Hf, Hs. destruct envok as [Henv Hrand].
  unfold process_packet. cbv zeta. set (st1 := set_rt_sequence (rt_sequence st +64 1) st).
  assert (Hsh1 : shares_key st1 c) by by destruct Hsh; split.
  destruct (request_pieces []) as (_ & _ & Hne & Hpb & Hgn & Hrn).
  destruct (extract_request env st1 c h pdu bytes) as (rest & Ex & Hrest); try done.
  rewrite Ex, run_bind_Ok. change (negb (RCLIENT_OK =? RCLIENT_OK)) with false. cbn [deref of_option].
  rewrite run_bind_Ok. unfold pdu at 2.
  pose proof (parse_request ttl gs rs ol rest Hg Hr Hl Hlc Hrest Hf) as Ep. fold pdu in Ep. fold pdu. rewrite Ep, run_bind_Ok.
  change (negb (RCLIENT_OK =? RCLIENT_OK)) with false. cbv iota.
  change (pq_pdu_type (parsed_request gs rs ol) =? R_PDU_LATENCY_REPORT) with false. cbv iota.
  destruct (request_pieces rest) as (Hpre & Epdu & _).
  unfold respond, plan.
  assert (Eo := observe_parsed_request st pdu rest pre _ gs rs ol (cstr "rejected") Hpre Epdu Hg).
  unfold st1. rewrite Eo, run_bind_Ok. clear Eo. pose proof (noted_wf st gs Hwf) as Hwf2.
  assert (Esc : rt_scenario (noted st gs) = rt_scenario st) by apply noted_books.
  set (st2 := noted st gs) in *. cbv beta iota. rewrite Esc.
  destruct (Z.eqb_spec (rt_scenario st) R_TEST_SCENARIO_DROP) as [|Hnd]; [apply carried_dropped|].
  rewrite <- answer_counts_planned by rlia.
  destruct (answer_counts (rt_scenario st) (zlen gs) (zlen rs)) as [[n m]|] eqn:Ec.
  2:{ unfold build_response_pdu. change (pq_guard_count (parsed_request gs rs ol)) with (zlen gs).
      change (pq_resource_count (parsed_request gs rs ol)) with (zlen rs). rewrite Esc, Ec, run_bind_Ok.
      by apply carried_refused. }
  destruct (counts_range n m Hgn Hrn Ec) as [Hn Hm].
  set (N := Z.to_nat n). set (M := Z.to_nat m).
  assert (EN : Z.of_nat N = n) by (unfold N; rlia). assert (EM : Z.of_nat M = m) by (unfold M; rlia).
  destruct (build_response (pdu ++ rest) pre _ gs rs (parsed_request gs rs ol) Hg Hr Hpre Epdu
    ltac:(done) ltac:(done) ltac:(done) st2 N M Hwf2) as [Hbig Hsmall];
    [by rewrite Esc, EN, EM|rlia|rlia|]. rewrite EN, EM, Esc in *.
  replace (12 + n * 36 + m * 28) with (4 + n * 36 + m * 28 + 8) by lia.
  set (blen := 4 + n * 36 + m * 28) in *.
  destruct (Z.ltb_spec R_MAX_PACKET_SIZE (blen + 8)) as [Hlt|Hge].
  { rewrite (Hbig Hlt), run_bind_Ok. by apply carried_refused. }
  specialize (Hsmall Hge). pose proof (answered_resources_table M st2 rs Hwf2) as Htab.
  pose proof (answered_resources_wf M st2 rs Hwf2 Hr) as Hw.
  destruct (answered_resources M st2 rs) as [[l st3]|[rc st3]].
  2:{ rewrite Hsmall, run_bind_Ok. destruct Hw as [_ ->]. by apply carried_refused. }
  destruct Hsmall as (out1 & -> & Hl1 & Hrd & Hpl). rewrite run_bind_Ok. cbv beta iota.
  change (negb (RCLIENT_OK =? RCLIENT_OK)) with false. cbv iota.
  destruct Htab as (q & k & ->), Hw as (Hwf3 & Hll & Hlw). set (st3 := with_table q k st2) in *.
  assert (Hsp : same_peer st st3) by (eapply same_peer_trans; [apply noted_books|apply same_peer_table]).
  set (P := response_pdu (rt_scenario st) (padded extra_guard N gs) l) in *.
  rewrite <- Hpl in Hrd, Hge |- *.
  destruct (build_authenticated env st3 c h (rt_scenario st3 =? R_TEST_SCENARIO_MALFORMED_REQUEST_ID)
    out1 P output cap (same_peer_shares st st3 c Hsp Hsh) Hauth Hcred Hh (proj1 (rw_ids _ Hwf3)) Hrd Hge
    output_cap (fun r Er => proj1 (Hrand r Er))) as (rc & out' & len & -> & Hlo & Hres).
  rewrite run_bind_Ok. cbv beta iota zeta.
  assert (Eh : response_tenant st3 h (rt_scenario st3 =? R_TEST_SCENARIO_MALFORMED_REQUEST_ID) =
               response_tenant st h (wrong_id st)).
  { unfold response_tenant, wrong_id. destruct Hsp as [-> _ _ _ -> -> _]. done. }
  rewrite Eh in Hres.
  destruct Hres as [(-> & Hcap & bytes' & Hs' & -> & Hwr & Hbytes)|(Hrc & -> & Hno)].
  - change (negb (RCLIENT_OK =? RCLIENT_OK)) with false. cbv iota. eapply carried_answered; try done.
    intros HP. apply Hbytes; [|exact HP]. intros r Er. apply (Hrand r Er).
  - apply Z.eqb_neq in Hrc as Hrcb. rewrite Hrcb. cbn [negb]. by apply carried_unsent.
Qed.
End Exchange.
