(* ===== verification/Lifecycle.v ===== *)
(** * The life of a request: invariant and transitions

    [client_inv X s] holds between the operations of the client: requests are
    allocated exactly when they are in flight or in [X] (being set up or
    completed further up the stack), those in flight are well formed and on
    schedule, and no completion callback was called twice.  Every operation
    that touches a request is shown to preserve it without undefined behaviour. *)

From Stdlib Require Import String Ascii.
From S2P Require Import Prelude.
From S2P Require Import Types.
From S2P Require Import Wire.
From S2P Require Import WireFacts.
From S2P Require Import Crypto.
From S2P Require Import Workflow.
From S2P Require Import State.
From S2P Require Import Hoare.
From S2P Require Import Schedule.
From S2P Require Import Dns.
From S2P Require Import DnsFacts.
From S2P Require Import Request.
From S2P Require Import RequestFacts.
From S2P Require Import PacketFacts.

(** ** Configuration *)
Record cfg_ok (c : client_fixed) : Prop := {
  co_policy : wf_policy (cf_policy c);
  co_quota : is_u32 (bq_dedup_ttl_ms_max (cf_quotas c));
  co_auth : auth_ok c;
  co_dns_name : exists n, cf_dns_name c = Some n /\ is_cstring n;
  co_jitter : is_u64 (dp_forced_refresh_jitter_ms (cf_dns_policy c)) /\
              dp_forced_refresh_jitter_ms (cf_dns_policy c) < UINT64_MAX;
}.

(** ** The schedule of a request

    In milliseconds of the request's clock: round [k] ends at
    [start + unit * (B(0) + ... + B(k))], the final window at the deduplication
    deadline. *)
Definition round_end (c : client_fixed) (r : r_client_req) (k : nat) : Z :=
  rq_start_ms r + rp_unit_ms (cf_policy c) * gap_sum (rp_replay_gap (cf_policy c)) k.

(** Lifetime fields, fixed when the request is launched. *)
Record lifetime_ok (c : client_fixed) (r : r_client_req) : Prop := {
  lt_valid : policy_valid c = true;
  lt_ttl : rq_dedup_ttl_ms r = ttl_units (cf_policy c) * rp_unit_ms (cf_policy c);
  lt_start : is_u64 (rq_start_ms r);
  lt_dedup : rq_dedup_deadline_ms r = rq_start_ms r + rq_dedup_ttl_ms r;
  lt_range : rq_dedup_deadline_ms r <= UINT64_MAX;
}.

Record on_schedule (c : client_fixed) (r : r_client_req) : Prop := {
  os_lifetime : lifetime_ok c r;
  os_round : 0 <= rq_ha_round r <= rp_replay_count (cf_policy c);
  os_round_start : rq_ha_round_start_ms r =
    match rq_phase r with
    | R_REQUEST_PHASE_ROUND => round_end c r (Z.to_nat (rq_ha_round r))
    | R_REQUEST_PHASE_FINAL => round_end c r (S (Z.to_nat (rq_ha_round r)))
    end;
  os_round_deadline : rq_ha_round_deadline_ms r =
    match rq_phase r with
    | R_REQUEST_PHASE_ROUND => round_end c r (S (Z.to_nat (rq_ha_round r)))
    | R_REQUEST_PHASE_FINAL => rq_dedup_deadline_ms r
    end;
  os_final : rq_phase r = R_REQUEST_PHASE_FINAL -> rq_ha_round r = rp_replay_count (cf_policy c);
  os_preference : rq_ha_preference_deadline_ms r =
    match rq_phase r with
    | R_REQUEST_PHASE_ROUND =>
        if rq_ha_round r =? 0 then rq_ha_round_deadline_ms r else rq_ha_round_start_ms r
    | R_REQUEST_PHASE_FINAL => rq_ha_round_start_ms r
    end;
  os_attempt : rq_attempt_deadline_ms r = rq_ha_round_deadline_ms r \/
    (cd_has (rq_best r) = true /\ rq_attempt_deadline_ms r = rq_ha_preference_deadline_ms r);
}.

(** ** Well-formed requests *)
Record best_ok (b : r_candidate) : Prop := {
  bo_id : is_u64 (rl_server_id (cd_result b));
  bo_guards : rl_guards (cd_result b) = cd_guards b /\
              array_count (cd_guards b) (rl_guard_count (cd_result b));
  bo_resources : rl_resources (cd_result b) = cd_resources b /\
                 array_count (cd_resources b) (rl_resource_count (cd_result b));
}.

Record req_data (r : r_client_req) : Prop := {
  rd_cb : rq_cb r <> 0;
  rd_id : is_id16 (rq_request_id r);
  rd_targets : Forall wf_endpoint (rq_targets r) /\ zlen (rq_targets r) < 2 ^ 63;
  rd_allowed : Forall is_u64 (rq_allowed_ids r);
  rd_packet : 0 < rq_packet_len r <= zlen (rq_packet r);
  rd_seen_addrs : Forall wf_addr (rq_seen_addrs r);
  rd_seen_addr_cap : arr_ok ADDR_SIZE (zlen (rq_seen_addrs r)) (rq_seen_addr_cap r);
  rd_seen_id_cap : arr_ok 8 (zlen (rq_seen_server_ids r)) (rq_seen_server_id_cap r);
  rd_best : best_ok (rq_best r);
}.

Definition req_ok (c : client_fixed) (r : r_client_req) : Prop := req_data r /\ on_schedule c r.

(** Every deadline of a request on schedule lies between its start and the end
    of its server-side lifetime. *)
Lemma round_end_mono c r j k :
  wf_policy (cf_policy c) -> policy_valid c = true -> (j <= k)%nat ->
  round_end c r j <= round_end c r k.
Proof.
  intros Hp Hv Hjk. unfold round_end. unfold policy_valid in Hv. breflect.
  pose proof (gap_sum_mono (rp_replay_gap (cf_policy c)) j k (proj1 (proj2 (proj2 Hp))) ltac:(done) Hjk).
  nia.
Qed.

Lemma round_end_last c r :
  wf_policy (cf_policy c) -> lifetime_ok c r ->
  round_end c r (S (Z.to_nat (rp_replay_count (cf_policy c)))) +
    rp_unit_ms (cf_policy c) * rp_final_receive_units (cf_policy c) = rq_dedup_deadline_ms r.
Proof.
  intros (_ & Hc & _) [_ E2 _ E4 _]. rewrite E4, E2. unfold round_end, ttl_units.
  replace (Z.to_nat (rp_replay_count (cf_policy c) + 1))
    with (S (Z.to_nat (rp_replay_count (cf_policy c)))) by rlia. lia.
Qed.

Lemma round_end_range c r k :
  wf_policy (cf_policy c) -> lifetime_ok c r -> (k <= S (Z.to_nat (rp_replay_count (cf_policy c))))%nat ->
  rq_start_ms r <= round_end c r k <= rq_dedup_deadline_ms r.
Proof.
  intros Hp Hl Hk. pose proof (round_end_last c r Hp Hl) as He.
  pose proof (round_end_mono c r k _ Hp (lt_valid _ _ Hl) Hk).
  pose proof (round_end_mono c r 0 k Hp (lt_valid _ _ Hl) ltac:(lia)) as H0.
  unfold round_end in H0 at 1. simpl in H0.
  destruct Hp as (Hu & _ & _ & Hf). unfold_ranges. nia.
Qed.

Lemma schedule_deadlines c r :
  wf_policy (cf_policy c) -> on_schedule c r ->
  rq_start_ms r <= rq_ha_round_start_ms r <= rq_ha_round_deadline_ms r /\
  rq_ha_round_start_ms r <= rq_ha_preference_deadline_ms r <= rq_ha_round_deadline_ms r /\
  rq_ha_preference_deadline_ms r <= rq_attempt_deadline_ms r <= rq_ha_round_deadline_ms r /\
  rq_ha_round_deadline_ms r <= rq_dedup_deadline_ms r <= UINT64_MAX.
Proof.
  intros Hp [Hl Hr Hs Hd Hf Hpr Ha].
  pose proof (round_end_range c r (Z.to_nat (rq_ha_round r)) Hp Hl ltac:(lia)).
  pose proof (round_end_range c r (S (Z.to_nat (rq_ha_round r))) Hp Hl ltac:(lia)).
  pose proof (round_end_mono c r (Z.to_nat (rq_ha_round r)) (S (Z.to_nat (rq_ha_round r))) Hp
                (lt_valid _ _ Hl) ltac:(lia)).
  pose proof (lt_range _ _ Hl).
  destruct (rq_phase r); [destruct (rq_ha_round r =? 0)|]; destruct Ha as [Ha|[_ Ha]]; lia.
Qed.

(** ** Traces *)
Definition completes (p : ptr) (e : event) : bool :=
  match e with EvComplete (Some q) _ _ _ _ => bool_decide (q = p) | _ => false end.
Definition completions (p : ptr) (tr : list event) : nat :=
  length (filter (fun e => completes p e = true) tr).

(** Events other than completions and frees, and of the client itself. *)
Definition quiet (e : event) : bool :=
  match e with EvComplete _ _ _ _ _ | EvCompleteReturn _ | EvFreeReq _ | EvRead _ => false | _ => true end.

Lemma completions_app p t1 t2 : completions p (t1 ++ t2) = (completions p t1 + completions p t2)%nat.
Proof. unfold completions. by rewrite filter_app, length_app. Qed.

Lemma completions_none p tr : Forall (fun e => completes p e = false) tr -> completions p tr = 0%nat.
Proof.
  unfold completions. induction 1 as [|e tr He _ IH]; [done|].
  rewrite filter_cons, decide_False by congruence. done.
Qed.

Lemma completions_one p e : completions p [e] = if completes p e then 1%nat else 0%nat.
Proof.
  unfold completions. rewrite filter_cons, filter_nil. by destruct (completes p e).
Qed.

Lemma quiet_completes p tr : Forall (fun e => quiet e = true) tr -> completions p tr = 0%nat.
Proof. intros H. apply completions_none. eapply Forall_impl; [done|]. by intros []. Qed.

Lemma cancels_completes p tr : Forall is_cancel tr -> completions p tr = 0%nat.
Proof. intros H. apply completions_none. eapply Forall_impl; [done|]. by intros []. Qed.

Section Inv.
Context {W : Type}.
Implicit Types s : sys W.
Implicit Types X : gset ptr.

(** *** Admission storage

    The library's own completion callback belongs to one admission storage.  A
    request in flight with that callback has a live storage that names it and
    the application's callback; an active storage names a request that exists
    and is its own.  The guard of a storage has the widths of its C type. *)
Definition owner (r : r_client_req) : Z * Z := (rq_cb r, rq_user r).

Definition awaits (a : r_admission_request) (p : ptr) : Prop :=
  ad_active a = true /\ ad_handle a = Some p.

Lemma awaits_dec a : {p | awaits a p} + {forall p, ~ awaits a p}.
Proof.
  destruct (ad_active a) eqn:Ea; [|right; intros p []; congruence].
  destruct (ad_handle a) as [p|] eqn:Eh; [by left; exists p|right; intros p []; congruence].
Qed.

Record adm_inv s : Prop := {
  ai_request : forall p r, p ∈ cl_inflight (s_client s) -> s_reqs s !! p = Some r ->
    rq_cb r = r_admission_complete_ptr ->
    exists a, s_adms s !! rq_user r = Some a /\ awaits a p /\ ad_callback a <> 0;
  ai_handle : forall u a p, s_adms s !! u = Some a -> awaits a p ->
    owner <$> s_reqs s !! p = Some (r_admission_complete_ptr, u);
  ai_guard : forall u a, s_adms s !! u = Some a -> wf_latency_guard (ad_guard a);
}.

(** No active storage names [p]. *)
Definition released (p : ptr) s : Prop := forall u a, s_adms s !! u = Some a -> ~ awaits a p.

(** [X] are the requests held further up the stack: they exist but are not in
    flight any more, and no storage awaits them, except that the storage of [e]
    may still have to be settled. *)
Record client_inv_ex (e : option ptr) X s : Prop := {
  ci_cfg : cfg_ok (cl_fixed (s_client s));
  ci_dns : dns_rest s;
  ci_nodup : NoDup (cl_inflight (s_client s));
  ci_live : forall p, is_Some (s_reqs s !! p) <-> p ∈ cl_inflight (s_client s) \/ p ∈ X;
  ci_disjoint : forall p, p ∈ cl_inflight (s_client s) -> p ∉ X;
  ci_fresh : forall p, is_Some (s_reqs s !! p) -> (p < s_next s)%nat;
  ci_reqs : forall p r, p ∈ cl_inflight (s_client s) -> s_reqs s !! p = Some r ->
                        req_ok (cl_fixed (s_client s)) r;
  ci_failures : is_u64 (cl_send_failure_count (s_client s));
  ci_once : forall p, (completions p (s_trace s) <= 1)%nat;
  ci_waiting : forall p, p ∈ cl_inflight (s_client s) \/ (s_next s <= p)%nat ->
                         completions p (s_trace s) = 0%nat;
  ci_adms : adm_inv s;
  ci_quiet : forall p, p ∈ X -> e <> Some p -> released p s;
}.

Abbreviation client_inv := (client_inv_ex None).

Lemma client_inv_exempt e X s : client_inv X s -> client_inv_ex e X s.
Proof. intros []. split; auto. Qed.

Lemma client_inv_settled p X s : client_inv_ex (Some p) X s -> released p s -> client_inv X s.
Proof.
  intros [] Hr. split; try done. intros q Hq _. destruct (decide (q = p)) as [->|Hne]; [done|].
  apply ci_quiet0; [done|congruence].
Qed.

Lemma released_same p s s' : released p s -> s_adms s' = s_adms s -> released p s'.
Proof. unfold released. by intros H ->. Qed.

Lemma owner_is_Some (x y : option r_client_req) :
  owner <$> x = owner <$> y -> is_Some x <-> is_Some y.
Proof. intros E. rewrite <- (fmap_is_Some owner x), E. apply fmap_is_Some. Qed.

(** [adm_inv] only depends on the owners of the requests. *)
Lemma adm_inv_ext s s' :
  adm_inv s -> s_adms s' = s_adms s ->
  (forall p, p ∈ cl_inflight (s_client s') -> p ∈ cl_inflight (s_client s)) ->
  (forall p, owner <$> s_reqs s' !! p = owner <$> s_reqs s !! p) -> adm_inv s'.
Proof.
  intros [H1 H2 H3] Ea Hin Ho. split; rewrite Ea; [| |done].
  - intros p r Hp Hr Hcb. specialize (Ho p). rewrite Hr in Ho. symmetry in Ho.
    apply fmap_Some in Ho as (r0 & Hr0 & [= Ec Eu]). rewrite Eu.
    eapply H1; [by apply Hin|done|congruence].
  - intros u a p Hu Ha. rewrite Ho. by eapply H2.
Qed.

Lemma adm_inv_same s s' :
  adm_inv s -> s_adms s' = s_adms s -> s_reqs s' = s_reqs s ->
  cl_inflight (s_client s') = cl_inflight (s_client s) -> adm_inv s'.
Proof. intros HI Ea Er Ei. eapply adm_inv_ext; [done..| |]; by rewrite ?Ei, ?Er. Qed.

Lemma inflight_req X s p :
  client_inv X s -> p ∈ cl_inflight (s_client s) ->
  exists r, s_reqs s !! p = Some r /\ req_ok (cl_fixed (s_client s)) r.
Proof.
  intros HI Hp. destruct (proj2 (ci_live _ _ _ HI p)) as [r Hr]; [by left|].
  exists r. split; [done|]. by eapply ci_reqs.
Qed.

Lemma failures_id (c : r_client) : c = set_cl_send_failure_count (cl_send_failure_count c) c.
Proof. by destruct c. Qed.

(** *** Steps of one request

    The cell [p], the host's state, the send failure counter and quiet events
    are all that changes. *)
Record step_frame (p : ptr) s s' : Prop := {
  sf_reqs : forall q, q <> p -> s_reqs s' !! q = s_reqs s !! q;
  sf_cell : owner <$> s_reqs s' !! p = owner <$> s_reqs s !! p;
  sf_client : exists n, s_client s' = set_cl_send_failure_count n (s_client s) /\
                (is_u64 (cl_send_failure_count (s_client s)) -> is_u64 n);
  sf_refreshes : s_refreshes s' = s_refreshes s;
  sf_lookups : s_lookups s' = s_lookups s;
  sf_next : s_next s' = s_next s;
  sf_trace : exists tr, s_trace s' = s_trace s ++ tr /\ Forall (fun e => quiet e = true) tr;
  sf_adms : s_adms s' = s_adms s;
}.

Lemma sf_fixed p s s' : step_frame p s s' -> cl_fixed (s_client s') = cl_fixed (s_client s).
Proof. intros HF. by destruct (sf_client _ _ _ HF) as (n & -> & _). Qed.
Lemma sf_inflight p s s' : step_frame p s s' -> cl_inflight (s_client s') = cl_inflight (s_client s).
Proof. intros HF. by destruct (sf_client _ _ _ HF) as (n & -> & _). Qed.

#[export] Instance step_frame_preorder p : PreOrder (step_frame p).
Proof.
  split.
  - intros s. split; try done.
    + exists (cl_send_failure_count (s_client s)). by destruct (s_client s).
    + exists []. by rewrite app_nil_r.
  - intros s1 s2 s3 [A1 A2 A3 A4 A5 A6 A7] [B1 B2 B3 B4 B5 B6 B7]. split; try congruence.
    + intros q Hq. by rewrite B1, A1.
    + destruct A3 as (n & E & Hn), B3 as (m & E' & Hm). exists m. rewrite E', E. split; [done|].
      intros Hu. apply Hm. rewrite E. by apply Hn.
    + destruct A7 as (t1 & E1 & F1), B7 as (t2 & E2 & F2). exists (t1 ++ t2).
      rewrite E2, E1, app_assoc. split; [done|]. by apply Forall_app.
Qed.

Lemma step_frame_world p s s' : only_world s s' -> step_frame p s s'.
Proof.
  intros [w ->]. split; simpl; try done.
  - exists (cl_send_failure_count (s_client s)). split; [|done]. by destruct (s_client s).
  - exists []. by rewrite app_nil_r.
Qed.

Lemma step_frame_upd p s r r' :
  s_reqs s !! p = Some r -> owner r' = owner r -> step_frame p s (set_reqs (<[p := r']> (s_reqs s)) s).
Proof.
  intros Hp Ho. split; simpl; try done.
  - intros q Hq. by rewrite lookup_insert_ne.
  - rewrite lookup_insert_eq, Hp. simpl. by rewrite Ho.
  - exists (cl_send_failure_count (s_client s)). by destruct (s_client s).
  - exists []. by rewrite app_nil_r.
Qed.

Lemma dns_rest_ext s s' :
  dns_rest s -> s_lookups s' = s_lookups s -> s_refreshes s' = s_refreshes s ->
  (s_next s <= s_next s')%nat ->
  cl_dns_refresh (s_client s') = cl_dns_refresh (s_client s) ->
  cl_dns_refresh_inflight (s_client s') = cl_dns_refresh_inflight (s_client s) ->
  cl_servers (s_client s') = cl_servers (s_client s) ->
  cl_server_cap (s_client s') = cl_server_cap (s_client s) -> dns_rest s'.
Proof. intros [HI HC] EL **. split; [by eapply dns_inv_ext|]. unfold at_rest; by rewrite EL. Qed.

Lemma client_inv_step X p s s' :
  client_inv X s -> step_frame p s s' ->
  (p ∈ X \/ forall r', s_reqs s' !! p = Some r' -> req_ok (cl_fixed (s_client s)) r') ->
  client_inv X s'.
Proof.
  intros [H1 H2 H3 H4 H5 H6 H7 H8 H9 H10 H11 H12] [F1 F2 (n & F3 & F3') F4 F5 F6 (tr & F7 & F8) F9] Hp.
  assert (Howner : forall q, owner <$> s_reqs s' !! q = owner <$> s_reqs s !! q).
  { intros q. destruct (decide (q = p)) as [->|Hq]; [done|]. by rewrite F1. }
  assert (Hsome : forall q, is_Some (s_reqs s' !! q) <-> is_Some (s_reqs s !! q)).
  { intros q. by apply owner_is_Some. }
  split; rewrite ?F3; simpl; try done.
  - eapply (dns_rest_ext s); rewrite ?F3, ?F6; try done; lia.
  - intros q. rewrite Hsome. apply H4.
  - intros q. rewrite Hsome, F6. apply H6.
  - intros q r Hq Hr. destruct (decide (q = p)) as [->|Hne].
    + destruct Hp as [Hp|Hp]; [by destruct (H5 p Hq)|by apply Hp].
    + rewrite F1 in Hr by done. by eapply H7.
  - by apply F3'.
  - intros q. rewrite F7, completions_app, (quiet_completes q tr F8). specialize (H9 q). lia.
  - intros q Hq. rewrite F7, completions_app, (quiet_completes q tr F8), H10; [done|].
    by rewrite F6 in Hq.
  - eapply adm_inv_ext; [done..| |done]. by rewrite F3.
  - intros q Hq He. eapply released_same; [by apply H12|done].
Qed.

Lemma client_inv_world X s s' : client_inv X s -> only_world s s' -> client_inv X s'.
Proof.
  intros HI [w ->]. destruct HI. split; simpl; try done; [by eapply dns_rest_ext|by eapply adm_inv_same].
Qed.

(** DNS operations leave the requests alone. *)
Lemma client_inv_dns X s s' :
  client_inv X s -> dns_rest s' -> dns_frame s s' -> client_inv X s'.
Proof.
  intros [H1 H2 H3 H4 H5 H6 H7 H8 H9 H10 H11 H12] Hd [F1 F2 F3 F4 F5 F6 (tr & F7 & F8) F9].
  assert (Hq : forall p, completions p tr = 0%nat).
  { intros p. by apply cancels_completes. }
  split; rewrite ?F1, ?F2, ?F3, ?F5; try done.
  - intros p Hp. specialize (H6 p Hp). lia.
  - intros p. rewrite F7, completions_app, Hq. specialize (H9 p). lia.
  - intros p Hp. rewrite F7, completions_app, Hq, H10; [done|]. destruct Hp; [by left|right; lia].
  - by eapply adm_inv_same.
  - intros q Hx He. eapply released_same; [by apply H12|done].
Qed.
End Inv.

Abbreviation client_inv := (client_inv_ex None).

(** ** Rounds *)
Section Rounds.
Context {W : Type} `{HL : HostLaws W}.
Implicit Types s : sys W.

(** The request as [r_start_round] leaves it, computed without wrap-around. *)
Definition round_begun (c : client_fixed) (round : Z) (r : r_client_req) : r_client_req :=
  let start := if round =? 0 then rq_start_ms r else rq_ha_round_deadline_ms r in
  let deadline := start + rp_unit_ms (cf_policy c) *
                          schedule_units (rp_replay_gap (cf_policy c)) round in
  set_rq_attempt_deadline_ms deadline
    (set_rq_ha_preference_deadline_ms (if round =? 0 then deadline else start)
    (set_rq_ha_round_deadline_ms deadline
    (set_rq_ha_round_start_ms start
    (set_rq_ha_round round
    (set_rq_phase R_REQUEST_PHASE_ROUND r))))).

(** Round [round] may begin: it is the first, or the one after the current. *)
Definition may_begin (c : client_fixed) (round : Z) (r : r_client_req) : Prop :=
  round = 0 \/ (on_schedule c r /\ rq_phase r = R_REQUEST_PHASE_ROUND /\
                round = rq_ha_round r + 1).

Lemma round_begun_start c round r :
  wf_policy (cf_policy c) -> lifetime_ok c r -> may_begin c round r ->
  (if round =? 0 then rq_start_ms r else rq_ha_round_deadline_ms r) = round_end c r (Z.to_nat round).
Proof.
  intros Hp Hl [->|([] & Eph & ->)].
  - unfold round_end. simpl. lia.
  - rewrite (proj2 (Z.eqb_neq _ 0)) by lia. rewrite os_round_deadline0, Eph.
    by replace (Z.to_nat (rq_ha_round r + 1)) with (S (Z.to_nat (rq_ha_round r))) by lia.
Qed.

Lemma round_begun_deadline c round r :
  wf_policy (cf_policy c) -> lifetime_ok c r -> may_begin c round r -> 0 <= round ->
  (if round =? 0 then rq_start_ms r else rq_ha_round_deadline_ms r) +
    rp_unit_ms (cf_policy c) * schedule_units (rp_replay_gap (cf_policy c)) round =
  round_end c r (S (Z.to_nat round)).
Proof.
  intros Hp Hl Hm Hr. rewrite (round_begun_start c round r) by done. unfold round_end. cbn [gap_sum].
  rewrite Z2Nat.id by done. lia.
Qed.

Lemma round_begun_ok c round r :
  wf_policy (cf_policy c) -> lifetime_ok c r -> may_begin c round r ->
  0 <= round <= rp_replay_count (cf_policy c) -> on_schedule c (round_begun c round r).
Proof.
  intros Hp Hl Hm Hr. pose proof (round_begun_start c round r Hp Hl Hm) as Es.
  pose proof (round_begun_deadline c round r Hp Hl Hm ltac:(lia)) as Ed.
  split; try done; try (by left). by destruct Hl.
Qed.

Lemma round_begun_data c round r : req_data r -> req_data (round_begun c round r).
Proof. by intros []. Qed.

Lemma ttl_limit_u32 c : cfg_ok c -> ttl_limit c <= UINT32_MAX.
Proof. intros [_ Hq _ _ _]. unfold ttl_limit. case_if; rlia. Qed.

Lemma unit_gap_range c round :
  cfg_ok c -> policy_valid c = true -> 0 <= round <= rp_replay_count (cf_policy c) ->
  0 <= rp_unit_ms (cf_policy c) * schedule_units (rp_replay_gap (cf_policy c)) round <= UINT32_MAX.
Proof.
  intros Hc Hv Hr. pose proof (ttl_limit_u32 c Hc) as Hlim.
  destruct (co_policy _ Hc) as (Hu & Hrc & Hg & Hf). unfold policy_valid in Hv. breflect.
  assert (Hle : schedule_units (rp_replay_gap (cf_policy c)) round <= ttl_units (cf_policy c)).
  { unfold ttl_units.
    pose proof (gap_sum_mono (rp_replay_gap (cf_policy c)) (S (Z.to_nat round))
      (Z.to_nat (rp_replay_count (cf_policy c) + 1)) Hg ltac:(done) ltac:(lia)) as Hm.
    cbn [gap_sum] in Hm. rewrite Z2Nat.id in Hm by lia.
    pose proof (gap_sum_bounds (rp_replay_gap (cf_policy c)) (Z.to_nat round) Hg ltac:(done)). rlia. }
  pose proof (schedule_units_range _ round Hg ltac:(done) ltac:(lia)).
  unfold_ranges. destruct Hg as (? & _). unfold_ranges. nia.
Qed.
(** The host's clock as the client reads it. *)
Definition clock (c : client_fixed) (w : W) : Z := if cf_io_now_ms c then fst (h_now_ms w) else 0.

Lemma now_ms_clock Q s :
  (forall s', only_world s s' -> Q (clock (cl_fixed (s_client s)) (s_world s)) s') -> wp r_now_ms Q s.
Proof.
  intros HQ. unfold r_now_ms, clock in *. wp_step. wp_step. destruct (cf_io_now_ms _); cbn [negb].
  - apply wp_world_op. intros t w E. rewrite E in HQ. apply HQ. by exists w.
  - wp_step. apply HQ. exists (s_world s). by destruct s.
Qed.

Lemma clock_u64 c w : is_u64 (clock c w).
Proof.
  unfold clock. destruct (cf_io_now_ms c); [|rlia]. destruct (h_now_ms w) as [t w'] eqn:E. by eapply now_u64.
Qed.

(** The datagrams of one send, to the endpoints it addresses. *)
Definition sends (r : r_client_req) (missing_only : bool) (tr : list event) : Prop :=
  Forall2 (is_send_to (take (Z.to_nat (rq_packet_len r)) (rq_packet r)))
    (send_targets r missing_only) tr.

(** A send that reached nobody: every datagram of it was lost, or the host has
    no way to send. *)
Definition unsent (c : client_fixed) (r : r_client_req) (missing_only : bool) (tr : list event) : Prop :=
  if cf_io_udp_send c then sends r missing_only tr /\ tr <> [] /\ delivered_count tr = 0 else tr = [].

Lemma send_to_quiet packet ts tr :
  Forall2 (is_send_to packet) ts tr -> Forall (fun e => quiet e = true) tr.
Proof. induction 1 as [|t e ts tr [rc ->] _ IH]; by constructor. Qed.

Lemma sends_quiet r mo tr : sends r mo tr -> Forall (fun e => quiet e = true) tr.
Proof. apply send_to_quiet. Qed.

Lemma unsent_quiet c r mo tr : unsent c r mo tr -> Forall (fun e => quiet e = true) tr.
Proof. unfold unsent. case_if; [intros [? _]; by eapply sends_quiet|intros ->; constructor]. Qed.

Lemma step_frame_send p s be a d tr w :
  0 <= a < 2 ^ 63 -> 0 <= d -> Forall (fun e => quiet e = true) tr ->
  step_frame p s (set_client (count_failures be a d (s_client s))
                    (set_trace (s_trace s ++ tr) (set_world w s))).
Proof.
  intros Ha Hd Hq. split; simpl; try done; [|by exists tr]. unfold count_failures.
  destruct (negb be && (0 <? d) && (d <? a)) eqn:E.
  - eexists. split; [reflexivity|]. breflect. intros ?. rlia.
  - exists (cl_send_failure_count (s_client s)). split; [|done]. by destruct (s_client s).
Qed.

Lemma send_rate_request_wp p r mo be s :
  s_reqs s !! p = Some r -> req_data r -> is_u64 (cl_send_failure_count (s_client s)) ->
  wp (r_send_rate_request p mo be) (fun rc s' =>
    s_reqs s' = s_reqs s /\ step_frame p s s' /\
    exists tr, s_trace s' = s_trace s ++ tr /\
      ((rc = RCLIENT_OK /\ sends r mo tr /\ (be = false -> tr <> [] -> 0 < delivered_count tr)) \/
       (rc = RCLIENT_ERR_IO /\ unsent (cl_fixed (s_client s)) r mo tr))) s.
Proof.
  intros Hp Hr Hf. destruct (rd_targets _ Hr) as [Ht Htl]. pose proof (rd_packet _ Hr) as Hpk.
  unfold r_send_rate_request. wp_step. wp_step. rewrite (proj2 (Z.eqb_neq _ 0)) by lia.
  destruct (cf_io_udp_send (cl_fixed (s_client s))) eqn:Eio.
  - eapply wp_mono; [eapply send_packet_wp; try done; apply Hr|].
    simpl. intros rc s' (tr & w & Htr & Hrc & ->). split; [done|].
    pose proof (delivered_count_le tr). apply Forall2_length in Htr as Hlen. split.
    + apply step_frame_send; [|lia|by eapply sends_quiet].
      assert (zlen (send_targets r mo) <= zlen (rq_targets r)); [|lia].
      unfold send_targets. destruct mo; [|lia].
      pose proof (length_filter (fun t => responded r t = false) (rq_targets r)). lia.
    + exists tr. split; [done|]. rewrite Hlen in Hrc.
      destruct (negb be && (0 <? zlen tr) && (delivered_count tr =? 0)) eqn:E; [right|left]; (split; [done|]).
      * unfold unsent. rewrite Eio. breflect. split; [done|]. split; [|done]. intros ->. simpl in *. lia.
      * split; [done|]. intros -> Hne. destruct tr as [|e tr]; [done|]. cbn [negb andb length] in E.
        rewrite zltb_true in E by lia. cbn [andb] in E. breflect. lia.
  - unfold r_send_packet_to_targets. rewrite (proj2 (Z.eqb_neq _ 0)) by lia.
    wp_step. wp_step. rewrite Eio. simpl. wp_step. split; [done|]. split; [reflexivity|].
    exists []. rewrite app_nil_r. split; [done|]. right. unfold unsent. by rewrite Eio.
Qed.

(** A round is refused when it is past the last or begins after the request's
    lifetime; it fails when none of its datagrams leaves. *)
Definition round_post (c : client_fixed) p r round s (rc : Z) s' : Prop :=
  step_frame p s s' /\
  ((rc = RCLIENT_ERR_TIMEOUT /\ s_reqs s' = s_reqs s /\ s_trace s' = s_trace s /\
    (rp_replay_count (cf_policy c) < round \/ rq_dedup_deadline_ms r <= clock c (s_world s))) \/
   (s_reqs s' = <[p := round_begun c round r]> (s_reqs s) /\
    clock c (s_world s) < rq_dedup_deadline_ms r /\
    exists tr, s_trace s' = s_trace s ++ tr /\
      ((rc = RCLIENT_OK /\ sends r (0 <? round) tr /\ (tr <> [] -> 0 < delivered_count tr)) \/
       (rc = RCLIENT_ERR_IO /\ unsent c r (0 <? round) tr)))).

Lemma start_round_wp p r round s :
  let c := cl_fixed (s_client s) in
  s_reqs s !! p = Some r -> cfg_ok c -> req_data r -> lifetime_ok c r -> may_begin c round r ->
  is_u32 round -> is_u64 (cl_send_failure_count (s_client s)) ->
  wp (r_start_round p round) (round_post c p r round s) s.
Proof.
  intros c Hp Hc Hr Hl Hm Hrd Hf. unfold r_start_round. wp_step. wp_step. fold c.
  assert (Hfail : forall s1, rp_replay_count (cf_policy c) < round \/
            rq_dedup_deadline_ms r <= clock c (s_world s) -> only_world s s1 ->
            round_post c p r round s RCLIENT_ERR_TIMEOUT s1).
  { intros s1 Hwhy Hw. split; [by apply step_frame_world|]. left. by destruct Hw as [w ->]. }
  apply wp_if; intros E1; breflect.
  { wp_step. apply Hfail; [by left | exists (s_world s); by destruct s]. }
  wp_step. apply now_ms_clock. fold c. pose proof (clock_u64 c (s_world s)) as Hnow. intros s1 [w ->]. do 2 wp_step.
  apply wp_if; intros E2; breflect; [wp_step; apply Hfail; [by right | by eexists]|].
  pose proof (lt_valid _ _ Hl) as Hv.
  assert (Hsv : schedule_valid (rp_replay_gap (cf_policy c)) = true)
    by (unfold policy_valid in Hv; by breflect).
  rewrite ha_schedule_units_spec, Hsv by (done || apply Hc).
  rc_ok. wp_step. eapply wp_lift; [done|]. wp_step.
  pose proof (unit_gap_range c round Hc Hv ltac:(rlia)) as Hug.
  pose proof (round_begun_deadline c round r (co_policy _ Hc) Hl Hm ltac:(rlia)) as Hend.
  pose proof (round_end_range c r (S (Z.to_nat round)) (co_policy _ Hc) Hl ltac:(rlia)) as Hrng.
  pose proof (lt_range _ _ Hl). pose proof (lt_start _ _ Hl).
  rewrite (u64_small (rp_unit_ms _ * _)) by rlia. rewrite !(u64_small (_ + _)) by rlia.
  wp_step. fold (round_begun c round r).
  match goal with |- wp _ _ ?st => set (s2 := st) end.
  eapply wp_mono; [apply (send_rate_request_wp p (round_begun c round r)); [|by apply round_begun_data|done]|].
  { unfold s2. simpl. apply lookup_insert_eq. }
  simpl. intros rc s3 (Er & Hsf & tr & Et & Hsend). split.
  2:{ right. split; [by rewrite Er|]. split; [done|]. exists tr. split; [done|].
      destruct Hsend as [(? & ? & Hd)|?]; [left; by auto|by right]. }
  etransitivity; [apply (step_frame_world p s); by eexists|].
  etransitivity; [by apply (step_frame_upd p (set_world w s) r (round_begun c round r))|]. done.
Qed.

Definition final_begun (c : client_fixed) (r : r_client_req) : r_client_req :=
  let start := rq_ha_round_deadline_ms r in
  set_rq_attempt_deadline_ms (rq_dedup_deadline_ms r)
    (set_rq_ha_round_deadline_ms (rq_dedup_deadline_ms r)
    (set_rq_ha_preference_deadline_ms start
    (set_rq_ha_round_start_ms start
    (set_rq_phase R_REQUEST_PHASE_FINAL r)))).

Lemma final_begun_ok c r :
  on_schedule c r -> rq_phase r = R_REQUEST_PHASE_ROUND ->
  rq_ha_round r = rp_replay_count (cf_policy c) -> on_schedule c (final_begun c r).
Proof.
  intros [Hl Hr Hs Hd Hf Hpr Ha] Eph Er. rewrite Eph in *.
  split; try done; try (by left). by destruct Hl.
Qed.

(** The last receive window ends exactly with the request's lifetime. *)
Lemma enter_final_wp p r s :
  let c := cl_fixed (s_client s) in
  s_reqs s !! p = Some r -> cfg_ok c -> on_schedule c r -> rq_phase r = R_REQUEST_PHASE_ROUND ->
  rq_ha_round r = rp_replay_count (cf_policy c) ->
  wp (r_enter_final p) (fun rc s' =>
    (rc = RCLIENT_ERR_TIMEOUT /\ rp_final_receive_units (cf_policy c) = 0 /\ s' = s) \/
    (rc = RCLIENT_OK /\ rp_final_receive_units (cf_policy c) <> 0 /\ s' = set_reqs (<[p := final_begun c r]> (s_reqs s)) s)) s.
Proof.
  intros c Hp Hc Hs Eph Er. unfold r_enter_final. wp_step. wp_step. fold c.
  apply wp_if; intros E1; breflect; [wp_step; by left|]. wp_step. wp_step. wp_step. right. split; [done|]. split; [done|].
  pose proof (os_lifetime _ _ Hs) as Hl.
  pose proof (round_end_last c r (co_policy _ Hc) Hl) as Hlast.
  pose proof (os_round_deadline _ _ Hs) as Hd. rewrite Eph, Er in Hd. rewrite <- Hd in Hlast.
  pose proof (lt_range _ _ Hl). pose proof (lt_start _ _ Hl).
  pose proof (schedule_deadlines c r (co_policy _ Hc) Hs).
  destruct (co_policy _ Hc) as (Hu & _ & _ & Hfu).
  assert (0 <= rp_unit_ms (cf_policy c) * rp_final_receive_units (cf_policy c))
    by (apply Z.mul_nonneg_nonneg; rlia).
  rewrite (u64_small (rp_unit_ms _ * _)) by rlia. rewrite u64_small by rlia. rewrite Hlast. done.
Qed.
End Rounds.

(** ** Calls and callbacks *)
Section Calls.
Context {W : Type}.
Implicit Types s : sys W.
Implicit Types X : gset ptr.

(** What a call into the client leaves alone: the configuration, the requests
    held further up the stack, and every request that is no longer in flight,
    whose callback is not called again. *)
Record call_frame X s s' : Prop := {
  ca_fixed : cl_fixed (s_client s') = cl_fixed (s_client s);
  ca_held : forall p, p ∈ X -> s_reqs s' !! p = s_reqs s !! p;
  ca_next : (s_next s <= s_next s')%nat;
  ca_inflight : forall p, p ∈ cl_inflight (s_client s') ->
                p ∈ cl_inflight (s_client s) \/ (s_next s <= p)%nat;
  ca_trace : exists tr, s_trace s' = s_trace s ++ tr /\
    forall p, (p < s_next s)%nat -> p ∉ cl_inflight (s_client s) -> completions p tr = 0%nat;
  ca_handles : forall p, (p < s_next s)%nat -> released p s -> released p s';
}.

#[export] Instance call_frame_preorder X : PreOrder (call_frame X).
Proof.
  split.
  - intros s. split; try done; [by left|]. exists []. by rewrite app_nil_r.
  - intros s1 s2 s3 [A1 A2 A3 A4 (t1 & A5 & A6) A7] [B1 B2 B3 B4 (t2 & B5 & B6) B7].
    split; try congruence; try lia.
    + intros p Hp. by rewrite B2, A2.
    + intros p Hp. destruct (B4 p Hp) as [?|?]; [by apply A4|right; lia].
    + exists (t1 ++ t2). rewrite B5, A5, app_assoc. split; [done|]. intros p Hp Hnot.
      rewrite completions_app, A6, B6 by (done || lia || (intros Hin; destruct (A4 p Hin); [done|lia])).
      done.
    + intros p Hp Hf. apply B7; [lia|]. by apply A7.
Qed.

Lemma call_frame_step X p s s' :
  step_frame p s s' -> p ∉ X \/ s_reqs s' !! p = s_reqs s !! p -> call_frame X s s'.
Proof.
  intros HF Hp. pose proof (sf_fixed _ _ _ HF). pose proof (sf_inflight _ _ _ HF) as Ei.
  destruct HF as [F1 _ _ _ _ F6 (tr & F7 & F8) F9]. split; try done; rewrite ?F6, ?Ei; try lia.
  - intros q Hq. destruct (decide (q = p)) as [->|Hne]; [|by apply F1]. by destruct Hp.
  - by left.
  - exists tr. split; [done|]. intros q _ _. by apply quiet_completes.
  - intros q _ Hf. by eapply released_same.
Qed.

Lemma call_frame_dns X s s' : dns_frame s s' -> call_frame X s s'.
Proof.
  intros [F1 F2 F3 F4 F5 F6 (tr & F7 & F8) F9]. split; rewrite ?F1, ?F3; try done; [by left| |].
  - exists tr. split; [done|]. intros p _ _. by apply cancels_completes.
  - intros p _ Hf. by eapply released_same.
Qed.

Lemma call_frame_weaken X Y s s' : Y ⊆ X -> call_frame X s s' -> call_frame Y s s'.
Proof. intros Hsub [A1 A2 A3 A4 A5 A6]. split; try done. intros p Hp. apply A2. set_solver. Qed.

(** Only the steering flag, the host's state and non-completion events. *)
Lemma client_inv_note e X s s' :
  client_inv_ex e X s -> s_reqs s' = s_reqs s -> s_refreshes s' = s_refreshes s ->
  s_lookups s' = s_lookups s -> s_next s' = s_next s -> s_adms s' = s_adms s ->
  (exists b, s_client s' = set_cl_steering_rebind_pending b (s_client s)) ->
  (exists tr, s_trace s' = s_trace s ++ tr /\ forall p, completions p tr = 0%nat) ->
  client_inv_ex e X s' /\ call_frame X s s'.
Proof.
  intros [H1 H2 H3 H4 H5 H6 H7 H8 H9 H10 H11 H12] E1 E2 E3 E4 Ea (b & E5) (tr & E6 & E7). split.
  - split; rewrite ?E1, ?E4, ?E5; simpl; try done.
    + eapply (dns_rest_ext s); rewrite ?E5; try done; lia.
    + intros p. rewrite E6, completions_app, E7. specialize (H9 p). lia.
    + intros p Hp. rewrite E6, completions_app, E7, H10; done.
    + eapply adm_inv_same; [done..|]. by rewrite E5.
    + intros q Hq He. eapply released_same; [by apply H12|done].
  - split; rewrite ?E1, ?E4, ?E5; simpl; try done; [by left| |].
    + exists tr. auto.
    + intros p _ Hf. by eapply released_same.
Qed.

Lemma steering_id (c : r_client) : c = set_cl_steering_rebind_pending (cl_steering_rebind_pending c) c.
Proof. by destruct c. Qed.

Lemma client_inv_emit e X s ev :
  client_inv_ex e X s -> (forall p, completes p ev = false) ->
  client_inv_ex e X (set_trace (s_trace s ++ [ev]) s) /\
  call_frame X s (set_trace (s_trace s ++ [ev]) s).
Proof.
  intros HI He. apply client_inv_note; simpl; try done.
  - eexists. apply steering_id.
  - eexists. split; [done|]. intros p. by rewrite completions_one, He.
Qed.

(** A request leaves the list of requests in flight and is held. *)
Lemma client_inv_hold X s p l :
  client_inv X s -> p ∈ cl_inflight (s_client s) -> NoDup l ->
  (forall q, q ∈ l <-> q ∈ cl_inflight (s_client s) /\ q <> p) ->
  client_inv_ex (Some p) (X ∪ {[p]}) (set_client (set_cl_inflight l (s_client s)) s).
Proof.
  intros [H1 H2 H3 H4 H5 H6 H7 H8 H9 H10 H11 H12] Hp Hnd Hl. split; simpl; try done.
  - by eapply (dns_rest_ext s).
  - intros q. rewrite H4, Hl. destruct (decide (q = p)) as [->|]; set_solver.
  - intros q Hq. apply Hl in Hq as [Hq ?]. specialize (H5 q Hq). set_solver.
  - intros q r Hq. apply Hl in Hq as [Hq _]. by apply H7.
  - intros q [Hq|Hq]; [|by apply H10; right]. apply Hl in Hq as [Hq _]. apply H10. by left.
  - eapply adm_inv_ext; [done..| |done]. simpl. intros q Hq. by apply Hl in Hq as [? _].
  - intros q Hq He. apply (H12 q); [|done]. assert (q <> p) by congruence. set_solver.
Qed.

(** The callback of a held request is called for the first time. *)
Lemma client_inv_complete e X s p cb user st res :
  client_inv_ex e X s -> p ∈ X -> completions p (s_trace s) = 0%nat ->
  client_inv_ex e X (set_trace (s_trace s ++ [EvComplete (Some p) cb user st res]) s).
Proof.
  intros [H1 H2 H3 H4 H5 H6 H7 H8 H9 H10 H11 H12] Hp H0. split; simpl; try done.
  - by eapply (dns_rest_ext s).
  - intros q. rewrite completions_app, completions_one. cbn [completes]. specialize (H9 q).
    destruct (decide (p = q)) as [->|Hne]; [rewrite bool_decide_true by done; lia|].
    rewrite bool_decide_false by done. lia.
  - intros q Hq. rewrite completions_app, completions_one, H10 by done. simpl.
    rewrite bool_decide_false; [done|]. intros ->. destruct Hq as [Hq|Hq].
    + by apply (H5 q).
    + assert (q < s_next s)%nat by (apply H6, H4; by right). lia.
  - by eapply adm_inv_same.
Qed.

(** A held request is freed. *)
Lemma client_inv_release X s p :
  client_inv_ex (Some p) (X ∪ {[p]}) s -> p ∉ X -> released p s ->
  client_inv X (set_reqs (delete p (s_reqs s)) s).
Proof.
  intros [H1 H2 H3 H4 H5 H6 H7 H8 H9 H10 [H11 H12 H13] H14] Hp Hf. split; simpl; try done.
  - by eapply (dns_rest_ext s).
  - intros q. destruct (decide (q = p)) as [->|Hne].
    + rewrite lookup_delete_eq. split; [by intros []|]. intros [Hq|Hq]; [|done].
      destruct (H5 p Hq). set_solver.
    + rewrite lookup_delete_ne, H4 by done. set_solver.
  - intros q Hq. specialize (H5 q Hq). set_solver.
  - intros q [r Hq]. apply lookup_delete_Some in Hq as [_ Hq]. apply H6. by exists r.
  - intros q r Hq Hr. apply lookup_delete_Some in Hr as [_ Hr]. by eapply H7.
  - split; simpl.
    + intros q r Hq Hr. apply lookup_delete_Some in Hr as [_ Hr]. by apply H11.
    + intros u a q Hu Ha. destruct (decide (q = p)) as [->|Hne]; [by destruct (Hf u a)|].
      rewrite lookup_delete_ne by done. by eapply H12.
    + exact H13.
  - intros q Hq _. apply H14; [set_solver|]. congruence.
Qed.

(** Removal from the singly linked list. *)
Lemma unlink_walk_wp (l : list ptr) p (Q : option (list ptr) -> sys W -> Prop) s :
  NoDup l -> (forall q, q ∈ l -> is_Some (s_reqs s !! q)) ->
  (p ∉ l -> Q None s) ->
  (p ∈ l -> forall l', NoDup l' -> (forall q, q ∈ l' <-> q ∈ l /\ q <> p) -> Q (Some l') s) ->
  wp (unlink_walk l p) Q s.
Proof.
  intros Hnd Hlive. revert Q; induction l as [|q l IH]; intros Q HN HS; cbn [unlink_walk].
  { wp_step. apply HN. set_solver. }
  apply NoDup_cons in Hnd as [Hq Hnd]. destruct (Hlive q ltac:(left)) as [r Hr].
  wp_step. wp_step. destruct (decide (q = p)) as [->|Hne].
  - wp_step. apply HS; [left|done|]. set_solver.
  - wp_step. apply IH; [done|set_solver|..].
    + intros Hp. wp_step. apply HN. set_solver.
    + intros Hp l' Hnd' Hl'. wp_step. simpl. apply HS; [by right|..].
      * apply NoDup_cons. split; [|done]. rewrite Hl'. tauto.
      * intros x. rewrite elem_of_cons, Hl'. set_solver.
Qed.

Lemma inflight_live X s : client_inv X s ->
  forall q, q ∈ cl_inflight (s_client s) -> is_Some (s_reqs s !! q).
Proof. intros HI q Hq. apply (ci_live _ _ _ HI). by left. Qed.

(** A storage that no request in flight belongs to is rewritten, and awaits
    nothing afterwards. *)
Definition unawaited (u : Z) s : Prop :=
  forall a p, s_adms s !! u = Some a -> awaits a p -> p ∉ cl_inflight (s_client s).

Lemma client_inv_storage e X s u a' :
  client_inv_ex e X s -> unawaited u s -> (forall p, ~ awaits a' p) -> wf_latency_guard (ad_guard a') ->
  client_inv_ex e X (set_adms (<[u := a']> (s_adms s)) s) /\
  call_frame X s (set_adms (<[u := a']> (s_adms s)) s).
Proof.
  intros HI Hu Ha' Hwf. destruct (ci_adms _ _ _ HI) as [H11 H12 H13].
  assert (Hrel : forall p, released p s -> released p (set_adms (<[u := a']> (s_adms s)) s)).
  { intros p Hf v a. simpl. destruct (decide (v = u)) as [->|Hne].
    - rewrite lookup_insert_eq. by intros [= <-].
    - rewrite lookup_insert_ne by done. apply Hf. }
  split.
  - destruct HI. split; simpl; try done; [by eapply (dns_rest_ext s)| |auto]. split; simpl.
    + intros p r Hp Hr Hcb. destruct (H11 p r Hp Hr Hcb) as (a & Hua & Hw & Hc).
      exists a. split; [|done]. rewrite lookup_insert_ne; [done|]. intros E. rewrite <- E in Hua. by eapply Hu.
    + intros v a p. destruct (decide (v = u)) as [->|Hne].
      * rewrite lookup_insert_eq. intros [= <-] Ha. by destruct (Ha' p).
      * rewrite lookup_insert_ne by done. apply H12.
    + intros v a. destruct (decide (v = u)) as [->|Hne].
      * rewrite lookup_insert_eq. by intros [= <-].
      * rewrite lookup_insert_ne by done. apply H13.
  - split; simpl; try done; [by left|exists []; by rewrite app_nil_r|auto].
Qed.

Lemma idle_unawaited u a s : s_adms s !! u = Some a -> ad_active a = false -> unawaited u s.
Proof. intros Hu Hi a0 p. rewrite Hu. intros [= <-] [? _]. congruence. Qed.

(** A request that is not an admission's is named by no storage. *)
Lemma plain_released e X s p r :
  client_inv_ex e X s -> s_reqs s !! p = Some r -> rq_cb r <> r_admission_complete_ptr -> released p s.
Proof.
  intros HI Hr Hcb u a Hu Ha. pose proof (ai_handle _ (ci_adms _ _ _ HI) u a p Hu Ha) as Ho.
  rewrite Hr in Ho. injection Ho as Ec _. done.
Qed.

Lemma released_fresh X s p : client_inv X s -> (s_next s <= p)%nat -> released p s.
Proof.
  intros HI Hp u a Hu Ha. pose proof (ai_handle _ (ci_adms _ _ _ HI) u a p Hu Ha) as Ho.
  apply fmap_Some in Ho as (r & Hr & _).
  assert (p < s_next s)%nat by (apply (ci_fresh _ _ _ HI); by rewrite Hr). lia.
Qed.
End Calls.
