(* ===== verification/Completion.v ===== *)
(** * Completion, cancellation and timeouts

    A request ends in exactly one way: its callback is called once and it is
    freed, or it is cancelled and freed silently.  The callback runs while the
    request is held, and may call back into the client. *)

From Stdlib Require Import String Ascii.
From S2P Require Import Prelude.
From S2P Require Import Types.
From S2P Require Import Wire.
From S2P Require Import WireFacts.
From S2P Require Import Crypto.
From S2P Require Import Workflow.
From S2P Require Import State.
From S2P Require Import Hoare.
From S2P Require Import Schedule.
From S2P Require Import Dns.
From S2P Require Import DnsFacts.
From S2P Require Import Request.
From S2P Require Import RequestFacts.
From S2P Require Import PacketFacts.
From S2P Require Import Lifecycle.
From S2P Require Import Client.

(** The application's side of the contract: a completion callback, called with
    a well-formed result, returns, and whatever it did through the client's API
    kept the client's invariant and the requests held on the stack. *)
Class Reentrant (W : Type) `{HostLaws W} : Prop := {
  complete_returns : forall cb user req status res (s : sys W) X,
    client_inv X s -> (forall p, req = Some p -> p ∈ X) -> result_ok res ->
    exists s', h_complete cb user req status res s = Ok s' /\ client_inv X s' /\ call_frame X s s';
  admission_returns : forall cb user status outcome (s : sys W) X,
    client_inv X s -> cb <> 0 ->
    exists s', h_admission cb user status outcome s = Ok s' /\ client_inv X s' /\ call_frame X s s';
}.

Section Completion.
Context {W : Type} `{HR : Reentrant W}.
Implicit Types s : sys W.
Implicit Types X : gset ptr.

Lemma profile_wp pf (Q : unit -> sys W -> Prop) s :
  (forall w, Q tt (set_world w (set_trace (s_trace s ++ [EvProfile pf]) s))) ->
  wp (call_profile pf) Q s.
Proof. intros HQ. unfold call_profile. wp_step. wp_step. wp_step. apply HQ. Qed.

(** The last datagrams of an answered request are best effort. *)
Lemma completion_delivery_wp p r s :
  s_reqs s !! p = Some r -> req_data r -> is_u64 (cl_send_failure_count (s_client s)) ->
  wp (r_completion_delivery p) (fun _ s' =>
    s_reqs s' = s_reqs s /\ step_frame p s s') s.
Proof.
  intros Hp Hr Hf. unfold r_completion_delivery. wp_step. wp_step.
  apply wp_if; intros E1; [wp_step; by split|].
  wp_step. apply now_ms_wp. intros now s1 _ [w ->]. do 2 wp_step.
  assert (Hw : step_frame p s (set_world w s)) by (apply step_frame_world; by eexists).
  apply wp_if; intros E2; [by wp_step|].
  wp_step. eapply wp_mono; [by apply (send_rate_request_wp p r)|]. simpl.
  intros _ s2 (E & HF & _). wp_step. split; [by rewrite E|]. by etransitivity.
Qed.

Lemma profile_completion_wp p r status selected s :
  s_reqs s !! p = Some r ->
  wp (profile_completion p status selected) (fun _ s' =>
    s_reqs s' = s_reqs s /\ step_frame p s s' /\ s_client s' = s_client s) s.
Proof.
  intros Hp. unfold profile_completion. wp_step. wp_step.
  apply wp_if; intros _; [|wp_step; split; [done|by split; [reflexivity|]]].
  wp_step. apply now_ms_wp. intros t s1 _ [w ->]. wp_step. wp_step. apply profile_wp. intros w'.
  split; [done|]. split; [|done]. split; simpl; try done.
  - eexists. split; [|by intros ?]. apply (failures_id (s_client s)).
  - eexists. split; [done|]. by repeat constructor.
Qed.

(** The library's own callback: the storage is settled before the application
    hears of it. *)
Definition settled (status : Z) (res : option r_rate_limit_result) (a : r_admission_request)
    : r_admission_request :=
  let outcome := match res with
    | Some r => if status =? RCLIENT_OK
                then classified (rl_success r) (default [] (rl_guards r)) (default [] (rl_resources r))
                else outcome_error
    | None => outcome_error
    end in
  set_ad_admitted (oc_allowed outcome) (set_ad_outcome outcome
    (set_ad_active false (set_ad_handle None a))).

(** The application's callback ran on a state whose storage [u] is [b], and the
    storages [m] are as it left them. *)
Definition ran_on (u : Z) (b : r_admission_request) (status : Z) (m : gmap Z r_admission_request) : Prop :=
  exists s1 s2, h_admission (ad_callback b) (ad_user b) status (ad_outcome b) s1 = Ok s2 /\
    s_adms s1 !! u = Some b /\ m = s_adms s2.

Lemma settled_idle st res a p : ~ awaits (settled st res a) p.
Proof. by intros []. Qed.

Lemma admission_complete_wp X p u a status res s :
  client_inv_ex (Some p) X s -> p ∈ X -> s_adms s !! u = Some a -> awaits a p -> ad_callback a <> 0 ->
  result_ok res ->
  wp (r_admission_complete u status res) (fun _ s' =>
    client_inv X s' /\ call_frame X s s' /\ released p s' /\
    ran_on u (settled status res a) status (s_adms s') /\
    exists tr, s_trace s' = s_trace s ++
      EvAdmission u (ad_callback a) (ad_user a) status (ad_outcome (settled status res a)) :: tr) s.
Proof.
  intros HI Hp Hu Ha Hcb Hres. unfold r_admission_complete. wp_step. wp_step. wp_step.
  eapply wp_lift; [by apply classify_spec|]. wp_step.
  eapply wp_upd_adm; [apply lookup_insert_eq|]. simpl. wp_step.
  eapply wp_get_adm; [apply lookup_insert_eq|]. simpl.
  rewrite insert_insert_eq, (proj2 (Z.eqb_neq _ 0)) by done. fold (settled status res a).
  assert (Hun : unawaited u s).
  { intros a0 q. rewrite Hu. intros [= <-] [_ Hq] Hin. destruct Ha as [_ Ha]. rewrite Ha in Hq.
    injection Hq as <-. by apply (ci_disjoint _ _ _ HI p). }
  destruct (client_inv_storage _ X s u (settled status res a) HI Hun (settled_idle _ _ a)
              (ai_guard _ (ci_adms _ _ _ HI) u a Hu)) as [HI1 HF1].
  match goal with |- wp _ _ ?st => change st with (set_adms (<[u := settled status res a]> (s_adms s)) s) end.
  set (s1 := set_adms _ s) in *.
  assert (Hrel : released p s1).
  { intros v b. unfold s1. simpl. destruct (decide (v = u)) as [->|Hne].
    - rewrite lookup_insert_eq. intros [= <-]. apply settled_idle.
    - rewrite lookup_insert_ne by done. intros Hv Hb.
      pose proof (ai_handle _ (ci_adms _ _ _ HI) v b p Hv Hb) as E1.
      rewrite (ai_handle _ (ci_adms _ _ _ HI) u a p Hu Ha) in E1. congruence. }
  apply (client_inv_settled p) in HI1; [|done]. wp_step. wp_step.
  match goal with |- wp _ _ (set_trace (_ ++ [?e]) _) =>
    destruct (client_inv_emit _ X s1 e HI1) as [HI2 HF2]; [done|] end.
  edestruct (admission_returns (ad_callback a) (ad_user a) status) as (s3 & E3 & HI3 & HF3);
    [exact HI2|done|].
  eapply wp_run_hook; [exact E3|]. split; [done|].
  split; [by do 2 (etransitivity; [eassumption|])|]. split.
  - apply (ca_handles _ _ _ HF3); [|by eapply released_same].
    apply (ci_fresh _ _ _ HI2), (ci_live _ _ _ HI2). by right.
  - split; [do 2 eexists; split; [exact E3|]; split; [apply lookup_insert_eq|done]|].
    destruct (ca_trace _ _ _ HF3) as (tr & E & _). exists tr. rewrite E. simpl.
    by rewrite <- app_assoc.
Qed.

(** The call through [cb] of a held request. *)
Definition callable (p : ptr) (r : r_client_req) s : Prop :=
  rq_cb r = r_admission_complete_ptr ->
  exists a, s_adms s !! rq_user r = Some a /\ awaits a p /\ ad_callback a <> 0.

(** What the application hears when the request of a storage completes. *)
Definition told (r : r_client_req) (status : Z) (res : option r_rate_limit_result) s tr
    (m : gmap Z r_admission_request) : Prop :=
  rq_cb r = r_admission_complete_ptr -> forall a, s_adms s !! rq_user r = Some a ->
  (exists tr', tr = EvAdmission (rq_user r) (ad_callback a) (ad_user a) status
                      (ad_outcome (settled status res a)) :: tr') /\
  ran_on (rq_user r) (settled status res a) status m.

Lemma told_app r status res s tr tr' m : told r status res s tr m -> told r status res s (tr ++ tr') m.
Proof. intros Ht E a Ha. destruct (Ht E a Ha) as [(x & ->) ?]. split; [by exists (x ++ tr')|done]. Qed.

Lemma callback_wp X p r status res s :
  client_inv_ex (Some p) X s -> p ∈ X -> s_reqs s !! p = Some r -> callable p r s -> result_ok res ->
  wp (if rq_cb r =? r_admission_complete_ptr then r_admission_complete (rq_user r) status res
      else run_hook (h_complete (rq_cb r) (rq_user r) (Some p) status res)) (fun _ s' =>
    client_inv X s' /\ call_frame X s s' /\ released p s' /\
    exists tr, s_trace s' = s_trace s ++ tr /\ told r status res s tr (s_adms s')) s.
Proof.
  intros HI Hp Hr Hc Hres. destruct (Z.eqb_spec (rq_cb r) r_admission_complete_ptr) as [E|E].
  - destruct (Hc E) as (a & Hu & Ha & Hcb).
    eapply wp_mono; [by apply (admission_complete_wp X p (rq_user r) a)|].
    simpl. intros _ s' (? & ? & ? & Hran & tr & Et). do 3 (split; [done|]). eexists. split; [exact Et|].
    intros _ a' Ha'. rewrite Hu in Ha'. injection Ha' as <-. split; [by eexists|done].
  - assert (Hrel : released p s) by by eapply plain_released.
    apply (client_inv_settled p) in HI; [|done].
    destruct (complete_returns (rq_cb r) (rq_user r) (Some p) status res s X HI) as (s2 & E2 & HI2 & HF2);
      [by intros q [= <-]|done|].
    eapply wp_run_hook; [exact E2|]. split; [done|]. split; [done|]. split.
    + apply (ca_handles _ _ _ HF2); [|done].
      apply (ci_fresh _ _ _ HI), (ci_live _ _ _ HI). by right.
    + destruct (ca_trace _ _ _ HF2) as (tr & Et & _). exists tr. split; [done|]. by intros Ep.
Qed.

Lemma call_complete_wp X p r status res s :
  client_inv_ex (Some p) X s -> p ∈ X -> completions p (s_trace s) = 0%nat -> s_reqs s !! p = Some r ->
  callable p r s -> result_ok res ->
  wp (call_complete (rq_cb r) (rq_user r) (Some p) status res) (fun _ s' =>
    client_inv X s' /\ s_reqs s' !! p = s_reqs s !! p /\
    completions p (s_trace s') = 1%nat /\ released p s' /\
    call_frame X (set_trace (s_trace s ++ [EvComplete (Some p) (rq_cb r) (rq_user r) status res]) s) s' /\
    exists tr, s_trace s' = (s_trace s ++ [EvComplete (Some p) (rq_cb r) (rq_user r) status res]) ++ tr /\
               told r status res s tr (s_adms s')) s.
Proof.
  intros HI Hp Hz Hr Hc Hres. unfold call_complete. wp_step. wp_step. wp_step.
  pose proof (client_inv_complete _ X s p (rq_cb r) (rq_user r) status res HI Hp Hz) as HI1.
  match goal with |- wp _ _ ?st => set (s1 := st) in * end.
  eapply wp_mono; [by apply (callback_wp X p r status res s1)|]. cbv beta.
  intros _ s2 (HI2 & HF2 & Hf2 & tr2 & Et2 & Ht2).
  destruct (client_inv_emit _ X s2 (EvCompleteReturn (Some p)) HI2) as [HI3 HF3]; [done|].
  wp_step. split; [done|]. simpl. split; [by apply (ca_held _ _ _ HF2)|]. split; [|split; [|split]].
  - rewrite completions_app. destruct (ca_trace _ _ _ HF2) as (tr & -> & Htr).
    rewrite completions_app, Htr, completions_one; simpl.
    + rewrite completions_app, completions_one, Hz. simpl. by rewrite bool_decide_true.
    + apply (ci_fresh _ _ _ HI1), (ci_live _ _ _ HI1). by right.
    + intros Hin. by apply (ci_disjoint _ _ _ HI1 p).
  - by eapply released_same.
  - by etransitivity.
  - rewrite Et2. simpl. rewrite <- app_assoc. eexists. split; [reflexivity|]. by apply told_app.
Qed.

(** The drained notification: only without requests in flight, and at most
    once per pending rebind. *)
Lemma notify_wp X s :
  client_inv X s ->
  wp r_notify_steering_when_drained (fun _ s' =>
    client_inv X s' /\ call_frame X s s' /\ s_reqs s' = s_reqs s /\
    s_next s' = s_next s /\ cl_inflight (s_client s') = cl_inflight (s_client s) /\
    s_adms s' = s_adms s /\
    ((s' = s /\ (cl_steering_rebind_pending (s_client s) = false \/
                 cl_inflight (s_client s) <> [] \/
                 cf_io_on_steering_feedback (cl_fixed (s_client s)) = false)) \/
     (s_trace s' = s_trace s ++ [EvSteering false] /\
      cl_inflight (s_client s) = [] /\ cl_steering_rebind_pending (s_client s) = true /\
      cl_steering_rebind_pending (s_client s') = false))) s.
Proof.
  intros HI. unfold r_notify_steering_when_drained. wp_step. wp_step. apply wp_if; intros E.
  - apply andb_true_iff in E as [E Hio]. apply andb_true_iff in E as [Hpd Hin%bool_decide_eq_true].
    wp_step. wp_step. unfold call_steering. wp_step. wp_step. wp_step.
    match goal with |- _ _ ?st /\ _ => set (s1 := st) end.
    destruct (client_inv_note _ X s s1 HI) as [HI1 HF1]; try done.
    { by eexists. } { eexists. split; [done|]. intros p. by rewrite completions_one. }
    do 6 (split; [done|]). right. done.
  - wp_step. split; [done|]. split; [reflexivity|]. do 4 (split; [done|]). left. split; [done|].
    rewrite !andb_false_iff, bool_decide_eq_false in E. tauto.
Qed.

Lemma free_wp X p s :
  client_inv_ex (Some p) (X ∪ {[p]}) s -> p ∉ X -> released p s ->
  wp (r_request_free p) (fun _ s' =>
    client_inv X s' /\ call_frame X s s' /\ s_reqs s' = delete p (s_reqs s) /\
    s_client s' = s_client s /\ s_trace s' = s_trace s ++ [EvFreeReq p] /\
    s_adms s' = s_adms s) s.
Proof.
  intros HI Hp Hf. unfold r_request_free. destruct (proj2 (ci_live _ _ _ HI p)) as [r Hr]; [set_solver|].
  do 5 wp_step. destruct (client_inv_emit _ _ s (EvFreeReq p) HI) as [HI1 HF1]; [done|].
  split; [by apply client_inv_release; [| |by eapply released_same]|]. split; [|done].
  etransitivity; [eapply call_frame_weaken, HF1; set_solver|].
  split; simpl; try done; [|by left|].
  - intros q Hq. rewrite lookup_delete_ne; [done|]. by intros ->.
  - exists []. by rewrite app_nil_r.
Qed.

Lemma remove_wp X p s (Q : bool -> sys W -> Prop) :
  client_inv X s ->
  (p ∉ cl_inflight (s_client s) -> Q false s) ->
  (p ∈ cl_inflight (s_client s) -> forall l, client_inv_ex (Some p) (X ∪ {[p]}) (set_client (set_cl_inflight l (s_client s)) s) ->
     (forall q, q ∈ l <-> q ∈ cl_inflight (s_client s) /\ q <> p) ->
     Q true (set_client (set_cl_inflight l (s_client s)) s)) ->
  wp (r_request_remove p) Q s.
Proof.
  intros HI HN HS. unfold r_request_remove. wp_step. wp_step. wp_step.
  apply unlink_walk_wp; [apply HI | by eapply inflight_live|..].
  - intros Hp. wp_step. by apply HN.
  - intros Hp l Hnd Hl. wp_step. wp_step. wp_step. apply HS; [done| |done].
    by apply client_inv_hold.
Qed.
(** What the callback of a completed request is given. *)
Definition completion_result (r : r_client_req) (selected : bool) : option r_rate_limit_result :=
  if selected then Some (cd_result (rq_best r)) else None.

Lemma completion_result_ok r selected : best_ok (rq_best r) -> result_ok (completion_result r selected).
Proof.
  intros [_ [Eg Hg] [Er Hr]]. destruct selected; [|done]. simpl. by rewrite Eg, Er.
Qed.

Record completed X (p : ptr) (r : r_client_req) (status : Z) (selected : bool) (s s' : sys W) : Prop := {
  cp_inv : client_inv X s';
  cp_frame : call_frame X s s';
  cp_freed : s_reqs s' !! p = None;
  cp_once : completions p (s_trace s') = 1%nat;
  cp_event : exists tr1 tr2, s_trace s' = s_trace s ++ tr1 ++
    EvComplete (Some p) (rq_cb r) (rq_user r) status (completion_result r selected) ::
    tr2 ++ [EvFreeReq p] /\ Forall (fun e => quiet e = true) tr1 /\
    told r status (completion_result r selected) s tr2 (s_adms s');
}.

Lemma call_frame_hold X s p l :
  (forall q, q ∈ l <-> q ∈ cl_inflight (s_client s) /\ q <> p) ->
  call_frame X s (set_client (set_cl_inflight l (s_client s)) s).
Proof.
  intros Hl. split; simpl; try done.
  - intros q Hq. apply Hl in Hq as [Hq _]. by left.
  - exists []. by rewrite app_nil_r.
Qed.

Lemma call_frame_complete X s0 s p cb user st res :
  call_frame X s0 s -> p ∈ cl_inflight (s_client s0) ->
  call_frame X s0 (set_trace (s_trace s ++ [EvComplete (Some p) cb user st res]) s).
Proof.
  intros [A1 A2 A3 A4 (tr & A5 & A6) A7] Hp. split; simpl; try done.
  eexists. split; [by rewrite A5, <- app_assoc|]. intros q Hq Hnot.
  rewrite completions_app, A6, completions_one by done. simpl.
  rewrite bool_decide_false; [done|]. by intros ->.
Qed.

(** After the request left the list: steering, callback, notification, free. *)
Lemma finish_request_wp X p r status selected s s0 :
  client_inv_ex (Some p) (X ∪ {[p]}) s -> p ∉ X -> s_reqs s !! p = Some r -> rq_cb r <> 0 ->
  callable p r s -> best_ok (rq_best r) ->
  completions p (s_trace s) = 0%nat -> call_frame X s0 s ->
  p ∈ cl_inflight (s_client s0) -> s_adms s = s_adms s0 ->
  (exists tr, s_trace s = s_trace s0 ++ tr /\ Forall (fun e => quiet e = true) tr) ->
  wp (finish_request p r status selected) (fun _ s' => completed X p r status selected s0 s') s.
Proof.
  intros HI Hp Hr Hcb Hcl Hb Hz HF Hin Ea0 (tr0 & E0 & Hq0). unfold finish_request. wp_step. wp_step.
  match goal with |- wp _ _ ?st => set (s1 := st) end.
  destruct (client_inv_note _ _ s s1 HI) as [HI1 HF1]; try done.
  { by eexists. } { exists []. by rewrite app_nil_r. }
  rewrite (proj2 (Z.eqb_neq _ 0)) by done. cbn [negb].
  eapply wp_seq; [apply (call_complete_wp (X ∪ {[p]}) p r); [done|set_solver|done..|]|].
  { by apply completion_result_ok. }
  simpl. intros _ s2 (HI2 & Ep2 & Hc2 & Hf2 & HF2 & tr2 & E2 & Ht2). eapply wp_seq; [by apply notify_wp|].
  simpl. intros _ s3 (HI3 & HF3 & Er3 & _ & _ & Ea3 & _).
  eapply wp_mono; [apply free_wp; [by apply client_inv_exempt|done|by eapply released_same]|]. simpl. intros _ s4 (HI4 & HF4 & Er4 & _ & Et4 & Ea4).
  destruct (ca_trace _ _ _ HF3) as (tr3 & E3 & H3). assert (Hz3 : completions p tr3 = 0%nat).
  { apply H3; [apply (ci_fresh _ _ _ HI2), (ci_live _ _ _ HI2); set_solver|].
    intros Hin2. apply (ci_disjoint _ _ _ HI2 p Hin2). set_solver. }
  assert (Etr : s_trace s4 = s_trace s0 ++ tr0 ++
    EvComplete (Some p) (rq_cb r) (rq_user r) status (completion_result r selected) ::
    (tr2 ++ tr3) ++ [EvFreeReq p]).
  { rewrite Et4, E3, E2, E0, <- !app_assoc. done. }
  assert (Hc : call_frame X s0 (set_trace (s_trace s1 ++ [EvComplete (Some p) (rq_cb r) (rq_user r)
                                 status (completion_result r selected)]) s1)).
  { apply call_frame_complete; [|done]. etransitivity; [done|].
    eapply call_frame_weaken, HF1. set_solver. }
  assert (Hsub : X ⊆ X ∪ {[p]}) by set_solver.
  split; [done| | | |].
  - etransitivity; [exact Hc|]. etransitivity; [by eapply call_frame_weaken|].
    etransitivity; [by eapply call_frame_weaken|]. done.
  - rewrite Er4. apply lookup_delete_eq.
  - rewrite Et4, completions_app, E3, completions_app, Hc2, Hz3, completions_one. done.
  - exists tr0, (tr2 ++ tr3). split; [done|]. split; [done|]. apply told_app. unfold told in *. by rewrite <- Ea0, Ea4, Ea3.
Qed.
(** Completing a request in flight. *)
Lemma complete_wp X p r status selected s :
  client_inv X s -> p ∈ cl_inflight (s_client s) -> s_reqs s !! p = Some r ->
  wp (r_request_complete p status selected) (fun _ s' => completed X p r status selected s s') s.
Proof.
  intros HI Hin Hr. destruct (ci_reqs _ _ _ HI p r Hin Hr) as [Hd _].
  unfold r_request_complete. eapply wp_seq; [by eapply profile_completion_wp|].
  simpl. intros _ s1 (E1 & F1 & C1). wp_step. eapply wp_get_req; [by rewrite E1|].
  apply (wp_seq _ _ (fun _ s2 => s_reqs s2 = s_reqs s /\ step_frame p s s2)).
  { apply wp_if; intros _; [|by wp_step].
    eapply wp_mono; [apply (completion_delivery_wp p r); [by rewrite E1|done|rewrite C1; apply HI]|].
    simpl. intros _ s2 [E2 F2]. split; [by rewrite E2|]. by etransitivity. }
  intros _ s2 [E2 F2].
  assert (HI2 : client_inv X s2).
  { eapply client_inv_step; [done..|]. right. rewrite E2, Hr. intros r' [= <-]. by eapply ci_reqs. }
  pose proof (sf_inflight _ _ _ F2) as Ei. pose proof (ci_disjoint _ _ _ HI p Hin) as HpX.
  assert (Hw : call_frame X s s2) by (apply (call_frame_step X p); [done|by left]).
  wp_step. apply (remove_wp X p s2); [done|by rewrite Ei|]. intros _ l HI3 Hl.
  wp_step. eapply wp_get_req; [simpl; by rewrite E2|].
  destruct (sf_trace _ _ _ F2) as (tr & Et & Hq).
  assert (Hcl : callable p r s2).
  { intros Ecb. apply (ai_request _ (ci_adms _ _ _ HI2)); [by rewrite Ei|by rewrite E2|done]. }
  eapply finish_request_wp; [done|done|simpl; by rewrite E2|apply Hd|done|apply Hd| | |done|apply (sf_adms _ _ _ F2)|by exists tr].
  - simpl. apply (ci_waiting _ _ _ HI2). left. by rewrite Ei.
  - etransitivity; [exact Hw|]. by eapply call_frame_hold.
Qed.

(** Cancelling: silent, and harmless for a pointer that is not in flight. *)
Lemma cancel_wp X p s :
  client_inv X s -> (p ∈ cl_inflight (s_client s) -> released p s) ->
  wp (r_client_cancel_request (Some p)) (fun _ s' =>
    client_inv X s' /\ call_frame X s s' /\
    (p ∉ cl_inflight (s_client s) -> s' = s) /\
    (p ∈ cl_inflight (s_client s) ->
       s_reqs s' = delete p (s_reqs s) /\ completions p (s_trace s') = 0%nat)) s.
Proof.
  intros HI Hf. unfold r_client_cancel_request. wp_step. apply (remove_wp X p s); [done|..].
  - intros Hn. simpl. wp_step. split; [done|]. split; [reflexivity|]. done.
  - intros Hin l HI1 Hl. simpl. pose proof (ci_disjoint _ _ _ HI p Hin) as HpX.
    eapply wp_seq; [apply free_wp; [done|done|by apply Hf]|]. simpl. intros _ s2 (HI2 & HF2 & Er & Ec & Et & _).
    eapply wp_mono; [by apply notify_wp|]. simpl. intros _ s3 (HI3 & HF3 & Er3 & _ & _ & _ & Hn).
    split; [done|]. split.
    { etransitivity; [by eapply (call_frame_hold X s p l)|]. by etransitivity. }
    split; [done|]. intros _. split; [by rewrite Er3, Er|].
    assert (completions p (s_trace s2) = 0%nat) as H2.
    { rewrite Et, completions_app, completions_one. simpl. rewrite (ci_waiting _ _ _ HI); [done|by left]. }
    destruct Hn as [[-> _]|(-> & _)]; [done|]. by rewrite completions_app, H2.
Qed.

(** *** Timeouts *)

(** Steps left before the request must have completed. *)
Definition steps_left (c : client_fixed) (r : r_client_req) : Z :=
  match rq_phase r with
  | R_REQUEST_PHASE_ROUND => rp_replay_count (cf_policy c) - rq_ha_round r + 1
  | R_REQUEST_PHASE_FINAL => 0
  end.

Lemma advance X p r' s s' :
  client_inv X s -> p ∈ cl_inflight (s_client s) -> step_frame p s s' ->
  s_reqs s' !! p = Some r' -> req_ok (cl_fixed (s_client s)) r' ->
  client_inv X s' /\ p ∈ cl_inflight (s_client s').
Proof.
  intros HI Hin HF Hr Hok. split.
  - eapply client_inv_step; [done..|]. right. rewrite Hr. by intros ? [= <-].
  - by rewrite (sf_inflight _ _ _ HF).
Qed.

Lemma attempt_ok c r t :
  req_ok c r ->
  t = rq_ha_round_deadline_ms r \/ (cd_has (rq_best r) = true /\ t = rq_ha_preference_deadline_ms r) ->
  req_ok c (set_rq_attempt_deadline_ms t r).
Proof. intros [[] [Hl Hr Hs Hd Hf Hp Ha]] Ht. split; split; try done. by destruct Hl. Qed.

(** A completion preceded by steps of the same request. *)
Lemma completed_after X p r r1 status selected s s1 s' :
  p ∉ X -> step_frame p s s1 -> rq_cb r1 = rq_cb r -> rq_user r1 = rq_user r ->
  completion_result r1 selected = completion_result r selected ->
  completed X p r1 status selected s1 s' -> completed X p r status selected s s'.
Proof.
  intros Hp HF E1 E2 E3 [C1 C2 C3 C4 (tr1 & tr2 & C5 & C6 & C7)]. split; try done.
  - etransitivity; [|exact C2]. apply (call_frame_step X p); [done|by left].
  - destruct (sf_trace _ _ _ HF) as (tr & Et & Hq). exists (tr ++ tr1), tr2.
    rewrite C5, Et, E1, E2, E3, <- !app_assoc. split; [done|].
    split; [by apply Forall_app|]. unfold told in *. by rewrite <- E1, <- E2, <- E3, <- (sf_adms _ _ _ HF).
Qed.

(** Why a timeout gives a request up: its final window is over; it has no final
    window; its lifetime ended before the next round; or that round, which is
    sent to the servers that have not answered, reached none of them. *)
Inductive given_up (p : ptr) (r : r_client_req) (s : sys W) : Z -> sys W -> Prop :=
| given_up_final s' :
    rq_phase r = R_REQUEST_PHASE_FINAL -> given_up p r s RCLIENT_ERR_TIMEOUT s'
| given_up_no_final s' :
    rq_phase r = R_REQUEST_PHASE_ROUND ->
    rq_ha_round r = rp_replay_count (cf_policy (cl_fixed (s_client s))) ->
    rp_final_receive_units (cf_policy (cl_fixed (s_client s))) = 0 ->
    given_up p r s RCLIENT_ERR_TIMEOUT s'
| given_up_expired s' :
    rq_phase r = R_REQUEST_PHASE_ROUND ->
    rq_ha_round r < rp_replay_count (cf_policy (cl_fixed (s_client s))) ->
    rq_dedup_deadline_ms r <= clock (cl_fixed (s_client s)) (s_world s) ->
    given_up p r s RCLIENT_ERR_TIMEOUT s'
| given_up_unsent s' tr rest :
    rq_phase r = R_REQUEST_PHASE_ROUND ->
    rq_ha_round r < rp_replay_count (cf_policy (cl_fixed (s_client s))) ->
    clock (cl_fixed (s_client s)) (s_world s) < rq_dedup_deadline_ms r ->
    unsent (cl_fixed (s_client s)) r true tr -> s_trace s' = s_trace s ++ tr ++ rest ->
    given_up p r s RCLIENT_ERR_IO s'.

(** What one timeout does to a request in flight. *)
Inductive timeout_step X (p : ptr) (r : r_client_req) (now : Z) (s : sys W) : sys W -> Prop :=
| timeout_early :
    now < rq_attempt_deadline_ms r -> timeout_step X p r now s s
| timeout_answered s' :
    rq_attempt_deadline_ms r <= now -> cd_has (rq_best r) = true ->
    completed X p r RCLIENT_OK true s s' -> timeout_step X p r now s s'
| timeout_replay s' tr :
    rq_attempt_deadline_ms r <= now -> cd_has (rq_best r) = false ->
    rq_phase r = R_REQUEST_PHASE_ROUND ->
    rq_ha_round r < rp_replay_count (cf_policy (cl_fixed (s_client s))) ->
    clock (cl_fixed (s_client s)) (s_world s) < rq_dedup_deadline_ms r ->
    client_inv X s' -> step_frame p s s' ->
    s_reqs s' = <[p := round_begun (cl_fixed (s_client s)) (rq_ha_round r + 1) r]> (s_reqs s) ->
    s_trace s' = s_trace s ++ tr -> sends r true tr -> (tr <> [] -> 0 < delivered_count tr) ->
    timeout_step X p r now s s'
| timeout_final s' :
    rq_attempt_deadline_ms r <= now -> cd_has (rq_best r) = false ->
    rq_phase r = R_REQUEST_PHASE_ROUND ->
    rq_ha_round r = rp_replay_count (cf_policy (cl_fixed (s_client s))) ->
    rp_final_receive_units (cf_policy (cl_fixed (s_client s))) <> 0 ->
    client_inv X s' ->
    s' = set_reqs (<[p := final_begun (cl_fixed (s_client s)) r]> (s_reqs s)) s ->
    timeout_step X p r now s s'
| timeout_failed s' status :
    rq_attempt_deadline_ms r <= now -> cd_has (rq_best r) = false ->
    given_up p r s status s' ->
    completed X p r status false s s' -> timeout_step X p r now s s'.

Lemma given_up_fails p r s status s' : given_up p r s status s' -> status <> RCLIENT_OK.
Proof. destruct 1; csts; lia. Qed.

Lemma fail_complete_wp X p r r1 rc now s s1 :
  client_inv X s -> p ∈ cl_inflight (s_client s) -> s_reqs s !! p = Some r ->
  rq_attempt_deadline_ms r <= now -> cd_has (rq_best r) = false ->
  client_inv X s1 -> step_frame p s s1 -> s_reqs s1 !! p = Some r1 ->
  rq_cb r1 = rq_cb r -> rq_user r1 = rq_user r ->
  (forall s', (exists rest, s_trace s' = s_trace s1 ++ rest) -> given_up p r s rc s') ->
  wp (_ ← r_request_complete p rc false; mret RCLIENT_OK)
    (fun st s' => st = RCLIENT_OK /\ timeout_step X p r now s s') s1.
Proof.
  intros HI Hin Hr Ha Hb HI1 HF Hr1 E1 E2 Hwhy. eapply wp_seq; [apply (complete_wp X p r1 rc false); [done| |done]|].
  { by rewrite (sf_inflight _ _ _ HF). }
  simpl. intros _ s2 Hc. wp_step. split; [done|]. eapply timeout_failed; [done|done| |].
  - apply Hwhy. destruct (cp_event _ _ _ _ _ _ _ Hc) as (t1 & t2 & Et & _). rewrite Et. by eexists.
  - eapply (completed_after X p r r1); try done. by apply (ci_disjoint _ _ _ HI).
Qed.

Lemma replay_wp X p r now s :
  client_inv X s -> p ∈ cl_inflight (s_client s) -> s_reqs s !! p = Some r ->
  rq_attempt_deadline_ms r <= now -> cd_has (rq_best r) = false ->
  rq_phase r = R_REQUEST_PHASE_ROUND ->
  rq_ha_round r < rp_replay_count (cf_policy (cl_fixed (s_client s))) ->
  wp (rc ← r_start_round p (rq_ha_round r +32 1);
      _ ← (if negb (rc =? RCLIENT_OK) then r_request_complete p rc false else mret tt);
      mret RCLIENT_OK) (fun st s' => st = RCLIENT_OK /\ timeout_step X p r now s s') s.
Proof.
  intros HI Hin Hr Ha Hb Eph Hlt. destruct (ci_reqs _ _ _ HI p r Hin Hr) as [Hd Hs].
  pose proof (ci_cfg _ _ _ HI) as Hc. pose proof (os_round _ _ Hs) as Hrd.
  destruct (co_policy _ Hc) as (_ & Hrc & _). rewrite u32_small by rlia.
  set (c := cl_fixed (s_client s)) in *.
  assert (Hm : may_begin c (rq_ha_round r + 1) r) by by right.
  eapply wp_seq; [apply (start_round_wp p r); try done; [apply Hs|rlia|apply HI]|].
  simpl. fold c. intros rc s1 [HF Hs1].
  assert (Hok : req_ok c (round_begun c (rq_ha_round r + 1) r)).
  { split; [by apply round_begun_data|].
    apply round_begun_ok; [apply Hc|apply Hs|done|lia]. }
  destruct Hs1 as [(-> & Er & Et & Hwhy)|(Er & Hck & tr & Et & Hsend)].
  - cbn [Z.eqb negb]. eapply (fail_complete_wp X p r r); try done; [|by rewrite Er|].
    2:{ intros s' _. apply given_up_expired; [done|done|]. destruct Hwhy as [?|?]; [lia|done]. }
    eapply client_inv_step; [done..|]. right. rewrite Er, Hr. intros ? [= <-]. by split.
  - assert (Hp1 : s_reqs s1 !! p = Some (round_begun c (rq_ha_round r + 1) r))
      by (rewrite Er; apply lookup_insert_eq).
    destruct (advance X p _ s s1 HI Hin HF Hp1 Hok) as [HI1 Hin1].
    rewrite zltb_true in Hsend by lia. destruct Hsend as [(-> & Hsd & Hdel)|(-> & Hun)].
    + rc_ok. wp_step. wp_step. wp_step. split; [done|]. by eapply timeout_replay.
    + eapply (fail_complete_wp X p r); try done. intros s' (rest & Et').
      eapply (given_up_unsent p r s s' tr rest); try done. by rewrite Et', Et, <- app_assoc.
Qed.
Lemma final_wp X p r now s :
  client_inv X s -> p ∈ cl_inflight (s_client s) -> s_reqs s !! p = Some r ->
  rq_attempt_deadline_ms r <= now -> cd_has (rq_best r) = false ->
  rq_phase r = R_REQUEST_PHASE_ROUND ->
  rp_replay_count (cf_policy (cl_fixed (s_client s))) <= rq_ha_round r ->
  wp (rc ← r_enter_final p;
      _ ← (if negb (rc =? RCLIENT_OK) then r_request_complete p rc false else mret tt);
      mret RCLIENT_OK) (fun st s' => st = RCLIENT_OK /\ timeout_step X p r now s s') s.
Proof.
  intros HI Hin Hr Ha Hb Eph Hge. destruct (ci_reqs _ _ _ HI p r Hin Hr) as [Hd Hs].
  pose proof (os_round _ _ Hs) as Hrd. pose proof (ci_cfg _ _ _ HI) as Hc.
  set (c := cl_fixed (s_client s)) in *.
  assert (Er : rq_ha_round r = rp_replay_count (cf_policy c)) by lia.
  eapply wp_seq; [by apply (enter_final_wp p r)|]. simpl. fold c.
  intros rc s1 [(-> & Hz & ->)|(-> & Hnz & ->)].
  - eapply (fail_complete_wp X p r r); try done. intros s' _. by apply given_up_no_final.
  - rc_ok. wp_step. wp_step. wp_step. split; [done|]. eapply timeout_final; try done. fold c.
    apply (advance X p (final_begun c r) s); [done..|by eapply step_frame_upd|apply lookup_insert_eq|].
    split; [by destruct Hd|]. by apply final_begun_ok.
Qed.

Lemma on_timeout_wp X p r now s :
  client_inv X s -> p ∈ cl_inflight (s_client s) -> s_reqs s !! p = Some r ->
  wp (r_client_on_timeout (Some p) now) (fun rc s' =>
    rc = RCLIENT_OK /\ timeout_step X p r now s s') s.
Proof.
  intros HI Hin Hr. destruct (ci_reqs _ _ _ HI p r Hin Hr) as [Hd Hs].
  pose proof (schedule_deadlines _ r (co_policy _ (ci_cfg _ _ _ HI)) Hs) as (_ & _ & Hdl & _).
  unfold r_client_on_timeout. wp_step. wp_step. apply wp_if; intros E.
  { breflect. wp_step. split; [done|]. by apply timeout_early. }
  breflect. unfold r_request_policy_on_timeout. wp_step. wp_step.
  destruct (cd_has (rq_best r)) eqn:Eb.
  - rewrite (proj2 (Z.leb_le (rq_ha_preference_deadline_ms r) now)) by lia.
    eapply wp_seq; [by apply (complete_wp X p r)|]. simpl. intros _ s' Hc. wp_step. split; [done|].
    by apply timeout_answered.
  - assert (Ea : rq_attempt_deadline_ms r = rq_ha_round_deadline_ms r).
    { destruct (os_attempt _ _ Hs) as [?|[? _]]; [done|congruence]. }
    rewrite zltb_false by lia. destruct (rq_phase r) eqn:Eph.
    + wp_step. wp_step. apply wp_if; intros E2; breflect.
      * by apply replay_wp.
      * by apply final_wp.
    + eapply wp_seq; [by apply (complete_wp X p r)|]. simpl. intros _ s' Hc. wp_step.
      split; [done|]. eapply timeout_failed; [done|done|by apply given_up_final|exact Hc].
Qed.
End Completion.
