(* ===== verification/Datagram.v ===== *)
(** * Datagrams

    A datagram changes a request only when it carries the id of a request in
    flight, comes from a server that request may hear from, arrives before the
    request's lifetime is over, is authenticated by the client's credential and
    holds a well-formed response.  Then the answer of the oldest server heard
    so far is kept, and the request completes when no older server can still
    answer, or when the preference window is over. *)

From Stdlib Require Import String Ascii.
From S2P Require Import Prelude.
From S2P Require Import Types.
From S2P Require Import Wire.
From S2P Require Import WireFacts.
From S2P Require Import Crypto.
From S2P Require Import CryptoFacts.
From S2P Require Import Workflow.
From S2P Require Import State.
From S2P Require Import Hoare.
From S2P Require Import Schedule.
From S2P Require Import Dns.
From S2P Require Import DnsFacts.
From S2P Require Import Request.
From S2P Require Import RequestFacts.
From S2P Require Import PacketFacts.
From S2P Require Import ExtractFacts.
From S2P Require Import Client.
From S2P Require Import Lifecycle.
From S2P Require Import Completion.

Section Datagram.
Context {W : Type} `{HR : Reentrant W} {ssl : OpenSSL} {laws : AesGcmLaws ssl}.
Implicit Types s : sys W.
Implicit Types X : gset ptr.

(** The request [p] becomes [r'], up to the host's state. *)
Definition becomes p (r' : r_client_req) s s' : Prop :=
  exists w, s' = set_reqs (<[p := r']> (s_reqs s)) (set_world w s).

Lemma becomes_world p r s s' : s_reqs s !! p = Some r -> only_world s s' -> becomes p r s s'.
Proof.
  intros Hr [w ->]. exists w. simpl. rewrite insert_id by done. done.
Qed.

Lemma becomes_trans p r1 r2 s1 s2 s3 : becomes p r1 s1 s2 -> becomes p r2 s2 s3 -> becomes p r2 s1 s3.
Proof. intros [w ->] [w' ->]. exists w'. simpl. by rewrite insert_insert_eq. Qed.

Lemma becomes_req p r' s s' : becomes p r' s s' -> s_reqs s' !! p = Some r'.
Proof. intros [w ->]. apply lookup_insert_eq. Qed.

Lemma becomes_frame p r r' s s' :
  s_reqs s !! p = Some r -> becomes p r' s s' -> owner r' = owner r -> step_frame p s s'.
Proof.
  intros Hr [w ->] Ho. etransitivity; [apply (step_frame_world p s); by eexists|].
  by apply (step_frame_upd p (set_world w s) r).
Qed.

Lemma becomes_client p r' s s' : becomes p r' s s' -> s_client s' = s_client s.
Proof. by intros [w ->]. Qed.

Lemma upd_becomes_wp p r f s :
  s_reqs s !! p = Some r -> wp (upd_req p f) (fun _ s' => becomes p (f r) s s') s.
Proof. intros Hr. wp_step. exists (s_world s). by destruct s. Qed.

(** *** The sets of servers heard from *)
Definition seen_addr r (l : list r_addr) (cap : Z) : r_client_req :=
  set_rq_seen_addrs l (set_rq_seen_addr_cap cap r).
Definition seen_id r (l : list Z) (cap : Z) : r_client_req :=
  set_rq_seen_server_ids l (set_rq_seen_server_id_cap cap r).

Lemma seen_addr_same r : seen_addr r (rq_seen_addrs r) (rq_seen_addr_cap r) = r.
Proof. by destruct r. Qed.
Lemma seen_id_same r : seen_id r (rq_seen_server_ids r) (rq_seen_server_id_cap r) = r.
Proof. by destruct r. Qed.

Lemma seen_addr_add_wp p r from s :
  s_reqs s !! p = Some r -> req_data r -> wf_addr from ->
  wp (r_seen_addr_add p from) (fun _ s' =>
    exists l cap, becomes p (seen_addr r l cap) s s' /\ Forall wf_addr l /\
      arr_ok ADDR_SIZE (zlen l) cap /\ rq_seen_addrs r `prefix_of` l) s.
Proof.
  intros Hr Hd Hf. unfold r_seen_addr_add. wp_step. wp_step.
  destruct (addr_mem_ok (rq_seen_addrs r) from (rd_seen_addrs _ Hd) Hf) as [e Ee].
  wp_step. eapply wp_lift; [exact Ee|].
  assert (Hsame : forall s', only_world s s' ->
    exists l cap, becomes p (seen_addr r l cap) s s' /\ Forall wf_addr l /\
      arr_ok ADDR_SIZE (zlen l) cap /\ rq_seen_addrs r `prefix_of` l).
  { intros s' Hw. exists (rq_seen_addrs r), (rq_seen_addr_cap r). rewrite seen_addr_same.
    split; [by apply becomes_world|]. split; [apply Hd|]. by split; [apply Hd|]. }
  apply wp_if; intros _; [wp_step; apply Hsame, only_world_refl|].
  wp_step. apply grow_wp; [unfold ADDR_SIZE; lia | apply Hd|].
  intros [cap|] s1 Hw Hcap; simpl in Hcap; [|wp_step; by apply Hsame].
  destruct Hw as [w ->]. wp_step. eapply push_wp; [done|]. wp_step. wp_step. wp_step.
  exists (rq_seen_addrs r ++ [from]), cap. split; [by exists w|].
  split; [apply Forall_app; split; [apply Hd|by constructor]|].
  split; [by rewrite length_app, Nat2Z.inj_add|by exists [from]].
Qed.

Lemma seen_server_add_wp p r id s :
  s_reqs s !! p = Some r -> req_data r ->
  wp (r_seen_server_add p id) (fun _ s' =>
    exists l cap, becomes p (seen_id r l cap) s s' /\
      arr_ok 8 (zlen l) cap /\ rq_seen_server_ids r `prefix_of` l) s.
Proof.
  intros Hr Hd. unfold r_seen_server_add. wp_step. wp_step.
  assert (Hsame : forall s', only_world s s' ->
    exists l cap, becomes p (seen_id r l cap) s s' /\
      arr_ok 8 (zlen l) cap /\ rq_seen_server_ids r `prefix_of` l).
  { intros s' Hw. exists (rq_seen_server_ids r), (rq_seen_server_id_cap r). rewrite seen_id_same.
    split; [by apply becomes_world|]. by split; [apply Hd|]. }
  apply wp_if; intros _; [wp_step; apply Hsame, only_world_refl|].
  wp_step. apply grow_wp; [lia | apply Hd|].
  intros [cap|] s1 Hw Hcap; simpl in Hcap; [|wp_step; by apply Hsame].
  destruct Hw as [w ->]. wp_step. eapply push_wp; [done|]. wp_step. wp_step. wp_step.
  exists (rq_seen_server_ids r ++ [id]), cap. split; [by exists w|].
  split; [by rewrite length_app, Nat2Z.inj_add|by exists [id]].
Qed.

(** *** Accepting a response *)

(** The candidate an answer with the PDU [pdu] from server [id] offers. *)
Definition answer (id : Z) (steering : bool) (pdu : list Z) : r_candidate :=
  r_candidate_set id steering (resp_success pdu) (arr_opt (resp_guards pdu))
    (resp_guard_count pdu) (arr_opt (resp_resources pdu)) (resp_resource_count pdu).

(** The answer of the older server wins; the first answer wins over none. *)
Definition better (best : r_candidate) (new : r_candidate) : r_candidate :=
  if negb (cd_has best) then new
  else if rl_server_id (cd_result new) <? rl_server_id (cd_result best) then new else best.

(** The request after an accepted answer, before it completes or waits. *)
Record heard (h : r_tenant_header) (pdu : list Z) (r r' : r_client_req) : Prop := {
  he_shape : exists reb la ca li ci,
    r' = set_rq_best (better (rq_best r) (answer (th_key_id h)
                       (negb (th_steering_feedback h =? 0)) pdu))
           (seen_id (seen_addr (set_rq_steering_rebind reb r) la ca) li ci) /\
    reb = (if th_steering_feedback h =? 0 then true else rq_steering_rebind r) /\
    Forall wf_addr la /\ arr_ok ADDR_SIZE (zlen la) ca /\ arr_ok 8 (zlen li) ci;
}.

Lemma array_count_opt {A} (l : list A) n : n = zlen l -> array_count (arr_opt l) n.
Proof. intros ->. exists l. split; [|done]. destruct l; [by right|by left]. Qed.

Lemma resp_counts pdu :
  is_bytes pdu -> 12 <= zlen pdu ->
  resp_guard_count pdu = zlen (resp_guards pdu) /\
  resp_resource_count pdu = zlen (resp_resources pdu).
Proof.
  intros Hb Hl. unfold resp_guards, resp_resources. rewrite !blocks_at_length.
  destruct (r_le16_at pdu 8) as [_ U1]; [done|lia..|]. destruct (r_le16_at pdu 10) as [_ U2]; [done|lia..|].
  change (is_u16 (resp_guard_count pdu)) in U1. change (is_u16 (resp_resource_count pdu)) in U2. rlia.
Qed.

Lemma answer_ok id st pdu :
  is_u64 id -> is_bytes pdu -> resp_valid pdu (zlen pdu) = true -> best_ok (answer id st pdu).
Proof.
  intros Hid Hb Hv. destruct (resp_counts pdu Hb) as [E1 E2]; [unfold resp_valid in Hv; breflect; lia|].
  split; [done|..]; (split; [done|]); by apply array_count_opt.
Qed.

Lemma better_ok b n : best_ok b -> best_ok n -> best_ok (better b n).
Proof. intros Hb Hn. unfold better. case_if; [done|]. by case_if. Qed.

Lemma heard_data h pdu r r' :
  heard h pdu r r' -> req_data r -> is_u64 (th_key_id h) -> is_bytes pdu ->
  resp_valid pdu (zlen pdu) = true -> req_data r'.
Proof.
  intros [(reb & la & ca & li & ci & -> & _ & Hla & Hca & Hci)] [] Hid Hb Hv.
  split; simpl; try done. apply better_ok; [done|]. by apply answer_ok.
Qed.

Lemma better_has b n : cd_has n = true -> cd_has (better b n) = true.
Proof. intros Hn. unfold better. destruct (cd_has b) eqn:E; simpl; [|done]. by case_if. Qed.

Lemma heard_has h pdu r r' : heard h pdu r r' -> cd_has (rq_best r') = true.
Proof. intros [(reb & la & ca & li & ci & -> & _)]. simpl. by apply better_has. Qed.

Lemma heard_schedule c h pdu r r' : heard h pdu r r' -> on_schedule c r -> on_schedule c r'.
Proof.
  intros Hh [Hl Hrd Hs Hd Hf Hp Ha]. pose proof (heard_has _ _ _ _ Hh) as Hbest.
  destruct Hh as [(reb & la & ca & li & ci & -> & _)].
  split; try done; [by destruct Hl|]. destruct Ha as [Ha|[_ Ha]]; [by left|by right].
Qed.

Lemma better_update best id st pdu :
  best_ok best -> is_u64 id ->
  fst (r_candidate_try_update_best best (mk_result (resp_success pdu) id st None 0 None 0)
         (arr_opt (resp_guards pdu)) (resp_guard_count pdu)
         (arr_opt (resp_resources pdu)) (resp_resource_count pdu))
  = better best (answer id st pdu).
Proof.
  intros Hb Hid. unfold r_candidate_try_update_best, better.
  destruct (cd_has best); cbn [negb fst]; [|done].
  unfold r_server_is_older. cbn [rl_server_id cd_result answer r_candidate_set].
  rewrite start_time_order by (done || apply Hb). by case_if.
Qed.
(** No server the request knows of is older than the one that answered. *)
Definition preferred (r : r_client_req) : bool :=
  forallb (fun x => rl_server_id (cd_result (rq_best r)) <=? x) (rq_allowed_ids r).

(** The request waits for an older server until the preference deadline. *)
Definition waiting (r : r_client_req) : r_client_req :=
  set_rq_attempt_deadline_ms
    (Z.min (rq_attempt_deadline_ms r) (rq_ha_preference_deadline_ms r)) r.

Lemma waiting_ok c r :
  wf_policy (cf_policy c) -> req_ok c r -> cd_has (rq_best r) = true -> req_ok c (waiting r).
Proof.
  intros Hp Hok Hb. unfold waiting. apply attempt_ok; [done|].
  destruct (schedule_deadlines c r Hp (proj2 Hok)) as (_ & _ & ? & _). right. split; [done|lia].
Qed.

Inductive accept_step X (p : ptr) (r' : r_client_req) (now : Z) (s : sys W) : sys W -> Prop :=
| accept_complete s' :
    preferred r' = true \/ rq_ha_preference_deadline_ms r' <= now ->
    completed X p r' RCLIENT_OK true s s' -> accept_step X p r' now s s'
| accept_wait s' :
    preferred r' = false -> now < rq_ha_preference_deadline_ms r' ->
    client_inv X s' -> becomes p (waiting r') s s' -> accept_step X p r' now s s'.

Lemma settle_wp X p r' now s s0 :
  client_inv X s -> p ∈ cl_inflight (s_client s) -> s_reqs s !! p = Some r' ->
  cd_has (rq_best r') = true -> becomes p r' s0 s -> step_frame p s0 s -> p ∉ X ->
  wp (settle_request p now) (fun _ s' => accept_step X p r' now s0 s') s.
Proof.
  intros HI Hin Hr Hb Hbec HF HpX. unfold settle_request. wp_step. wp_step. pose proof (ci_reqs _ _ _ HI p r' Hin Hr) as Hok.
  destruct (schedule_deadlines _ r' (co_policy _ (ci_cfg _ _ _ HI)) (proj2 Hok)) as (_ & _ & Hdl & _).
  rewrite oldest_known_spec by apply Hok. fold (preferred r'). rewrite Hb. cbn [andb].
  assert (Hwait : becomes p (waiting r') s0 (set_reqs (<[p := waiting r']> (s_reqs s)) s) /\
                  client_inv X (set_reqs (<[p := waiting r']> (s_reqs s)) s)).
  { split.
    - eapply becomes_trans; [exact Hbec|]. exists (s_world s). by destruct s.
    - eapply (advance X p (waiting r') s); [done|done|by eapply step_frame_upd|
        apply lookup_insert_eq|]. apply waiting_ok; [apply HI|done|done]. }
  apply wp_if; intros E1.
  - eapply wp_mono; [by apply (complete_wp X p r')|]. simpl. intros _ s' Hc.
    apply accept_complete; [|by eapply (completed_after X p r' r')].
    apply orb_true_iff in E1 as [?|?%Z.leb_le]; auto.
  - apply orb_false_iff in E1 as [E1 E1'%Z.leb_gt]. apply wp_if; intros E2; breflect.
    + wp_step. unfold waiting in Hwait. rewrite Z.min_r in Hwait by lia.
      destruct Hwait. apply accept_wait; try done. unfold waiting. by rewrite Z.min_r by lia.
    + wp_step. assert (waiting r' = r') as Ew.
      { unfold waiting. rewrite Z.min_l by lia. by destruct r'. }
      apply accept_wait; try done. by rewrite Ew.
Qed.
(** *** An authenticated, well-formed response *)
Lemma accept_response_wp X p r h from pdu o s :
  client_inv X s -> p ∈ cl_inflight (s_client s) -> s_reqs s !! p = Some r ->
  is_u64 (th_key_id h) -> wf_addr from -> is_bytes pdu -> resp_valid pdu (zlen pdu) = true ->
  o = response_of pdu ->
  wp (accept_response p h from o) (fun rc s' => rc = RCLIENT_OK /\
    exists r', heard h pdu r r' /\
      accept_step X p r' (clock (cl_fixed (s_client s)) (s_world s)) s s') s.
Proof.
  intros HI Hin Hr Hid Hf Hb Hv ->. destruct (ci_reqs _ _ _ HI p r Hin Hr) as [Hd Hs].
  unfold accept_response.
  set (reb := if th_steering_feedback h =? 0 then true else rq_steering_rebind r).
  apply (wp_seq _ _ (fun _ s' => becomes p (set_rq_steering_rebind reb r) s s' /\
                                 s_world s' = s_world s)).
  { apply wp_if; intros E; unfold reb; rewrite E.
    - wp_step. split; [|done]. exists (s_world s). by destruct s.
    - wp_step. split; [|done]. assert (set_rq_steering_rebind (rq_steering_rebind r) r = r) as ->
        by by destruct r. apply becomes_world; [done|apply only_world_refl]. }
  intros _ s1 [B1 Ew]. pose proof (becomes_req _ _ _ _ B1) as R1.
  wp_step. apply now_ms_clock. intros s2 Hw2. rewrite Ew, (becomes_client _ _ _ _ B1).
  assert (B2 : becomes p (set_rq_steering_rebind reb r) s s2)
    by (eapply becomes_trans; [exact B1|by apply becomes_world]).
  eapply wp_seq; [apply (seen_addr_add_wp p (set_rq_steering_rebind reb r));
    [by eapply becomes_req|by destruct Hd|done]|].
  simpl. intros _ s3 (la & ca & B3 & Hla & Hca & _).
  eapply wp_seq; [eapply (seen_server_add_wp p);
    [by eapply becomes_req|destruct Hd; by split]|].
  simpl. intros _ s4 (li & ci & B4 & Hci & _).
  do 3 (wp_step; eapply wp_lift; [done|]).
  eapply wp_seq; [eapply upd_becomes_wp; by eapply becomes_req|].
  cbn [ro_guards ro_resources response_of set_rq_best rq_best seen_id seen_addr
       set_rq_seen_server_ids set_rq_seen_server_id_cap set_rq_seen_addrs set_rq_seen_addr_cap
       set_rq_steering_rebind].
  intros _ s5 B5. rewrite better_update in B5 by (done || apply Hd).
  set (r' := set_rq_best (better (rq_best r) (answer (th_key_id h)
               (negb (th_steering_feedback h =? 0)) pdu))
               (seen_id (seen_addr (set_rq_steering_rebind reb r) la ca) li ci)).
  assert (Hh : heard h pdu r r').
  { split. exists reb, la, ca, li, ci. done. }
  assert (B : becomes p r' s s5).
  { eapply becomes_trans; [exact B2|]. eapply becomes_trans; [exact B3|].
    eapply becomes_trans; [exact B4|]. exact B5. }
  pose proof (becomes_frame p r r' s s5 Hr B eq_refl) as HF5.
  assert (Hok : req_ok (cl_fixed (s_client s)) r')
    by (split; [by eapply heard_data|by eapply heard_schedule]).
  destruct (advance X p r' s s5 HI Hin HF5 (becomes_req _ _ _ _ B) Hok) as [HI5 Hin5].
  eapply wp_seq; [eapply (settle_wp X p r'); try done|].
  { by eapply becomes_req. } { by eapply heard_has. } { by apply (ci_disjoint _ _ _ HI). }
  simpl. intros _ s6 Hstep. wp_step. split; [done|]. by exists r'.
Qed.
(** *** The whole handler *)
Lemma find_request_wp l id (Q : option ptr -> sys W -> Prop) s :
  (forall q, q ∈ l -> is_Some (s_reqs s !! q)) ->
  ((forall p r, p ∈ l -> s_reqs s !! p = Some r -> rq_request_id r <> id) -> Q None s) ->
  (forall p r, p ∈ l -> s_reqs s !! p = Some r -> rq_request_id r = id -> Q (Some p) s) ->
  wp (find_request l id) Q s.
Proof.
  intros Hlive HN HS. induction l as [|q l IH]; cbn [find_request]; [wp_step; apply HN; set_solver|].
  destruct (Hlive q ltac:(left)) as [r Hr]. wp_step. wp_step.
  case_bool_decide as E; [wp_step; eapply HS; [left|done|done]|].
  apply IH; [set_solver| |intros p r' Hp; apply HS; by right].
  intros Hno. apply HN. intros p r' Hp Hr'. apply elem_of_cons in Hp as [->|Hp]; [congruence|by eapply Hno].
Qed.

Inductive datagram_step X (buf : list Z) (len : Z) (s : sys W) : Z -> sys W -> Prop :=
| datagram_ignored rc s' : only_world s s' -> datagram_step X buf len s rc s'
| datagram_accepted p r r' h pdu s1 s' :
    p ∈ cl_inflight (s_client s) -> s_reqs s !! p = Some r ->
    take 40 buf = ser_tenant h -> wf_tenant h -> rq_request_id r = th_unique_id h ->
    clock (cl_fixed (s_client s)) (s_world s) <= rq_dedup_deadline_ms r ->
    rq_allowed_ids r = [] \/ th_key_id h ∈ rq_allowed_ids r ->
    authentic (cl_fixed (s_client s))
      (take (Z.to_nat (th_tlv_size h)) (take (Z.to_nat len) buf)) pdu (take (Z.to_nat len) buf) ->
    resp_valid pdu (zlen pdu) = true -> heard h pdu r r' -> only_world s s1 ->
    accept_step X p r' (clock (cl_fixed (s_client s)) (s_world s1)) s1 s' ->
    datagram_step X buf len s RCLIENT_OK s'.

Lemma allowed_server_spec r id :
  r_allowed_server_id r id = true -> rq_allowed_ids r = [] \/ id ∈ rq_allowed_ids r.
Proof.
  unfold r_allowed_server_id. destruct (rq_allowed_ids r) as [|x l]; [by left|]. simpl Z.eqb.
  intros E. right. apply existsb_exists in E as (y & Hy & ->%Z.eqb_eq). by apply list_elem_of_In.
Qed.

Lemma response_prefix b off n :
  is_bytes b -> 0 <= off -> 0 <= n -> off + n <= zlen b ->
  resp_valid (drop (Z.to_nat off) b) n = true ->
  zlen (chunk b off n) = n /\ resp_valid (chunk b off n) n = true /\
  response_of (drop (Z.to_nat off) b) = response_of (chunk b off n).
Proof.
  intros Hb Hoff Hn Hle Hv. set (d := drop (Z.to_nat off) b) in *.
  assert (El : zlen (chunk b off n) = n) by (apply chunk_length; lia).
  assert (Ed : d = chunk b off n ++ drop (Z.to_nat n) d) by (symmetry; apply take_drop).
  assert (Hcb : is_bytes (chunk b off n)) by by apply chunk_bytes.
  rewrite Ed in Hv. rewrite <- El in Hv at 3.
  destruct (resp_prefix _ _ Hcb Hv) as (V & E1 & E2 & E3 & E4 & E5). rewrite El in V.
  split; [done|]. split; [done|]. rewrite Ed. unfold response_of. by rewrite E1, E2, E3, E4, E5.
Qed.

Lemma on_datagram_wp X buf len from s :
  client_inv X s -> is_bytes buf -> is_object buf -> 0 <= len <= zlen buf -> wf_addr from ->
  wp (r_client_on_datagram (Some buf) len (Some from)) (datagram_step X buf len s) s.
Proof.
  intros HI Hb Hobj Hlen Hf. unfold r_client_on_datagram.
  apply wp_if; intros E0; [wp_step; apply datagram_ignored, only_world_refl|].
  wp_step. destruct (parse_tenant_header_spec buf len tenant_zero 0 Hb Hlen)
    as [(h & Hwf & Hser & [_ Htlv] & ->)| ->].
  2:{ eapply wp_lift; [done|]. cbn. wp_step. apply datagram_ignored, only_world_refl. }
  eapply wp_lift; [done|]. rc_ok. do 2 (wp_step; eapply wp_lift; [done|]). wp_step. wp_step.
  wp_step. apply find_request_wp;
    [by eapply inflight_live|intros _; wp_step; apply datagram_ignored, only_world_refl|].
  intros p r Hin Hr Hid. wp_step. apply now_ms_clock. intros s1 Hw1.
  assert (Hr1 : s_reqs s1 !! p = Some r) by by destruct Hw1 as [w ->].
  do 2 wp_step. apply wp_if; intros E1; [wp_step; by apply datagram_ignored|]. breflect.
  apply wp_if; intros E2; [wp_step; by apply datagram_ignored|]. breflect.
  eapply wp_seq; [apply extract_pdu_authentic; try done; [apply HI|csts; lia]|].
  intros [rc o] s2 [Hw2 Hext]. assert (Hw : only_world s s2) by by eapply only_world_trans.
  apply wp_if; intros E3; [wp_step; by apply datagram_ignored|]. breflect.
  destruct (Hext E3) as (block & off & n & -> & Hoff & Hn & Hle & Hbb & Hauth).
  wp_step. eapply wp_lift; [done|]. cbv iota beta.
  eapply wp_seq; [apply response_alloc_wp; [by apply Forall_drop|rewrite length_drop; lia]|].
  intros [rc' o'] s3 (Hw3 & Halloc & _). assert (Hw' : only_world s s3) by by eapply only_world_trans.
  apply wp_if; intros E4; [wp_step; by apply datagram_ignored|]. breflect.
  destruct (Halloc E4) as [Hv ->].
  destruct (response_prefix block off n Hbb Hoff Hn Hle Hv) as (El & Hv' & Eo).
  assert (Hr3 : s_reqs s3 !! p = Some r) by by destruct Hw' as [w ->].
  assert (Ec : s_client s3 = s_client s) by by destruct Hw' as [w ->].
  eapply wp_mono; [eapply (accept_response_wp X p r h from (chunk block off n));
    [by eapply client_inv_world|by rewrite Ec|done|apply Hwf|done|by apply chunk_bytes|by rewrite El|done]|].
  simpl. intros rc2 s4 (-> & r' & Hh & Hstep). rewrite Ec in Hstep.
  eapply datagram_accepted; try done; [by apply allowed_server_spec|by rewrite El].
Qed.

(** *** Delivery *)

(** A server's answer to the request [r]: a response PDU sealed under the
    client's credential, with the request's id, from a server it may hear. *)
Record reply_to (c : client_fixed) (r : r_client_req) (h : r_tenant_header) (pdu bytes : list Z) : Prop := {
  rp_header : wf_tenant h /\ th_tlv_type h = R_TLV_TENANT /\ th_tlv_size h = R_TENANT_TLV_LEN;
  rp_id : th_unique_id h = rq_request_id r;
  rp_server : r_allowed_server_id r (th_key_id h) = true;
  rp_pdu : is_bytes pdu /\ zlen pdu <= R_MAX_PACKET_SIZE /\ resp_valid pdu (zlen pdu) = true;
  rp_sealed : sealed c (ser_tenant h) pdu bytes;
  rp_bytes : is_bytes bytes /\ is_object bytes;
}.

Lemma sealed_header c hdr pdu bytes : sealed c hdr pdu bytes -> exists rest, bytes = hdr ++ rest.
Proof. intros [? ?|nonce ct tag ? ? ? ?]; by eexists. Qed.

Lemma extracted_pdu c pdu (s : sys W) rc o s' :
  never_fails W -> roundtrip_post c pdu s (rc, o) s' ->
  rc = RCLIENT_OK /\ exists block off n, o = Some (block, off, n) /\ rd_bytes block off n = Ok pdu.
Proof. intros Hnf [_ [Hok|(_ & _ & Hn)]]; [done|by destruct Hn]. Qed.

Lemma delivery_wp X p r h pdu bytes from s :
  client_inv X s -> never_fails W -> p ∈ cl_inflight (s_client s) -> s_reqs s !! p = Some r ->
  (forall q r', q ∈ cl_inflight (s_client s) -> s_reqs s !! q = Some r' ->
     rq_request_id r' = rq_request_id r -> q = p) ->
  reply_to (cl_fixed (s_client s)) r h pdu bytes ->
  clock (cl_fixed (s_client s)) (s_world s) <= rq_dedup_deadline_ms r -> wf_addr from ->
  wp (r_client_on_datagram (Some bytes) (zlen bytes) (Some from)) (fun rc s' =>
    rc = RCLIENT_OK /\ exists r' s1, heard h pdu r r' /\ only_world s s1 /\
      accept_step X p r' (clock (cl_fixed (s_client s)) (s_world s1)) s1 s') s.
Proof.
  intros HI Hnf Hin Hr Huniq [(Hwf & Ht & Hsz) Hid Hsrv (Hpb & Hpl & Hv) Hsl [Hb Hobj]] Hclk Hf.
  pose proof (ser_tenant_length h Hwf) as Hhl.
  destruct (sealed_header _ _ _ _ Hsl) as [rest Eb].
  assert (Hlen : 40 <= zlen bytes) by (rewrite Eb, length_app; lia).
  unfold r_client_on_datagram. rewrite (proj2 (Z.eqb_neq (zlen bytes) 0)) by lia.
  wp_step. eapply wp_lift.
  { rewrite Eb in Hb |- * at 1. apply Forall_app in Hb as [_ Hb].
    apply (proj1 (parse_tenant_header_ser h rest (zlen bytes) tenant_zero 0 Hwf Hb Hlen)).
    unfold tenant_tlv_ok. rewrite Ht, Hsz. split; [done|]. csts. lia. }
  rc_ok. do 2 (wp_step; eapply wp_lift; [done|]). wp_step. wp_step.
  wp_step. apply find_request_wp; [by eapply inflight_live| |].
  { intros Hno. exfalso. by apply (Hno p r Hin Hr). }
  intros q r' Hq Hr' Hid'. rewrite Hid in Hid'. specialize (Huniq q r' Hq Hr' Hid') as ->. simplify_eq.
  wp_step. apply now_ms_clock. intros s1 Hw1.
  assert (Hr1 : s_reqs s1 !! p = Some r) by by destruct Hw1 as [w ->].
  do 2 wp_step. rewrite (proj2 (Z.ltb_ge _ _)) by done. rewrite Hsrv. cbn [negb].
  assert (Hne : pdu <> []) by (intros ->; done).
  rewrite Hsz. change R_TENANT_TLV_LEN with 40.
  eapply wp_seq.
  { apply wp_and; [apply (seal_extract_roundtrip _ (ser_tenant h) pdu); try done;
      [apply HI|by apply ser_tenant_bytes]|].
    apply extract_pdu_authentic; try done; [apply HI]. }
  intros [rc o] s2 [Hrt [Hw2 Hext]].
  destruct (extracted_pdu _ _ _ _ _ _ Hnf Hrt) as (-> & block & off & n & -> & Hrd). rc_ok.
  destruct (Hext eq_refl) as (? & ? & ? & [= <- <- <-] & Hoff & Hn & Hle & Hbb & _).
  assert (Hw : only_world s s2) by by eapply only_world_trans.
  wp_step. eapply wp_lift; [done|]. cbv iota beta.
  assert (Ec : chunk block off n = pdu).
  { unfold rd_bytes in Hrd. rewrite (proj2 (in_block_spec _ _ _)) in Hrd by done. by injection Hrd as <-. }
  assert (El : zlen pdu = n) by (rewrite <- Ec; apply chunk_length; lia).
  assert (Hvd : resp_valid (drop (Z.to_nat off) block) n = true).
  { rewrite <- (take_drop (Z.to_nat n) (drop (Z.to_nat off) block)).
    change (take (Z.to_nat n) (drop (Z.to_nat off) block)) with (chunk block off n). rewrite Ec, <- El.
    rewrite resp_valid_app; [done|]. unfold resp_valid in Hv. breflect. lia. }
  eapply wp_seq; [apply response_alloc_wp; [by apply Forall_drop|rewrite length_drop; lia]|].
  intros [rc' o'] s3 (Hw3 & Hok & Hrc). specialize (Hrc Hnf Hvd) as ->. rc_ok.
  destruct (Hok eq_refl) as [_ ->].
  destruct (response_prefix block off n Hbb Hoff Hn Hle Hvd) as (_ & _ & Eo). rewrite Ec in Eo.
  assert (Hw' : only_world s s3) by by eapply only_world_trans.
  assert (Ecl : s_client s3 = s_client s) by by destruct Hw' as [w ->].
  eapply wp_mono; [eapply (accept_response_wp X p r h from pdu);
    [by eapply client_inv_world|by rewrite Ecl|by destruct Hw' as [w ->]|apply Hwf|done|done|done|done]|].
  simpl. intros rc2 s4 (-> & r' & Hh & Hstep). rewrite Ecl in Hstep. split; [done|]. by exists r', s3.
Qed.
End Datagram.
