(* ===== verification/ResponderExchange.v ===== *)
(** * The client and the test responder together

    The responder's answer is one the client accepts, with the results the
    scenario stands for; an answer it spoils on purpose is one the client drops. *)

From Stdlib Require Import String Ascii.
From S2P Require Import Prelude.
From S2P Require Import Types.
From S2P Require Import Wire.
From S2P Require Import WireFacts.
From S2P Require Import Crypto.
From S2P Require Import CryptoFacts.
From S2P Require Import Workflow.
From S2P Require Import State.
From S2P Require Import Hoare.
From S2P Require Import Request.
From S2P Require Import RequestFacts.
From S2P Require Import Ids.
From S2P Require Import PacketFacts.
From S2P Require Import ExtractFacts.
From S2P Require Import Client.
From S2P Require Import Lifecycle.
From S2P Require Import Completion.
From S2P Require Import Datagram.
From S2P Require Import Responder.
From S2P Require Import ResponderFacts.
From S2P Require Import ResponderQuota.
From S2P Require Import ResponderAnswers.
From S2P Require Import ResponderSeal.
From S2P Require Import ResponderSafety.
From S2P Require Import ResponderRequest.

(** ** What an answer says *)

(** Every guard holds and no resource lacks tokens. *)
Definition granted (sc : Z) (gs : list r_latency_guard) (rs : list r_resource_request) : bool :=
  forallb (fun g => answered_latency sc (lg_threshold_ms g) <? lg_threshold_ms g) gs &&
  forallb (fun r => rr_tokens_requested r =? 0) rs.

Lemma forallb_map {A B} (f : A -> B) (p : B -> bool) l : forallb p (map f l) = forallb (fun x => p (f x)) l.
Proof. induction l as [|x l IH]; [done|]. cbn [map forallb]. by rewrite IH. Qed.

Lemma response_success sc gs rs :
  Forall wf_latency_guard gs -> Forall wf_resource_request rs -> zlen gs <= UINT16_MAX ->
  zlen rs <= UINT16_MAX -> zlen (response_pdu sc gs rs) <= R_MAX_PACKET_SIZE ->
  resp_success (response_pdu sc gs rs) = granted sc gs rs.
Proof.
  intros Hg Hr Hgn Hrn Hl. destruct (response_reads sc gs rs Hg Hr Hgn Hrn Hl) as (_ & _ & _ & E1 & E2 & _).
  unfold resp_success, granted. rewrite E1, E2, !forallb_map. done.
Qed.

(** Without quotas the deficit does not depend on the table. *)
Definition plain_deficit (sc : Z) (r : r_resource_request) : Z :=
  if sc =? R_TEST_SCENARIO_DENY then
    if rr_tokens_requested r =? 0 then 1 else rr_tokens_requested r
  else 0.

Lemma answered_plain st l :
  rt_scenario st <> R_TEST_SCENARIO_QUOTA ->
  answered_resources (length l) st l = Next (map (fun r => set_tokens (plain_deficit (rt_scenario st) r) r) l, st).
Proof.
  intros Hq. apply Z.eqb_neq in Hq. induction l as [|r l IH]; [done|]. cbn [length answered_resources tail map].
  unfold deficit_of at 1, plain_deficit at 1. rewrite Hq. by destruct (rt_scenario st =? R_TEST_SCENARIO_DENY); rewrite IH.
Qed.

(** The scenarios that answer block by block, out of a fixed rule. *)
Definition by_rule (sc : Z) : Prop :=
  sc = R_TEST_SCENARIO_ALLOW \/ sc = R_TEST_SCENARIO_DENY \/ sc = R_TEST_SCENARIO_GUARD_PASS \/
  sc = R_TEST_SCENARIO_GUARD_DENY.

Lemma padded_all {A} (extra : A) l : padded extra (length l) l = l.
Proof. unfold padded. by rewrite Nat.sub_diag, firstn_all, app_nil_r. Qed.

Lemma plan_by_rule st gs rs :
  by_rule (rt_scenario st) -> 12 + zlen gs * 36 + zlen rs * 28 <= R_MAX_PACKET_SIZE ->
  plan st gs rs =
  (Answered gs (map (fun r => set_tokens (plain_deficit (rt_scenario st) r) r) rs), noted st gs).
Proof.
  intros Hs Hl. assert (Esc : rt_scenario (noted st gs) = rt_scenario st) by apply noted_books.
  assert (Hq : rt_scenario (noted st gs) <> R_TEST_SCENARIO_QUOTA) by (rewrite Esc; by destruct Hs as [->|[->|[->| ->]]]).
  pose proof (answered_plain (noted st gs) rs Hq) as Ea. rewrite Esc in Ea.
  unfold plan. rewrite Esc. change R_MAX_PACKET_SIZE with 1200 in *.
  assert (Ec : planned_counts (rt_scenario st) (zlen gs) (zlen rs) = Some (zlen gs, zlen rs)).
  { by destruct Hs as [->|[->|[->| ->]]]. }
  rewrite Ec, !Nat2Z.id, zltb_false, Ea, padded_all by lia. by destruct Hs as [->|[->|[->| ->]]].
Qed.

(** What the four scenarios stand for. *)
Definition decides (sc : Z) (gs : list r_latency_guard) (rs : list r_resource_request) : bool :=
  if sc =? R_TEST_SCENARIO_DENY then bool_decide (rs = []) && forallb (fun g => 0 <? lg_threshold_ms g) gs
  else if sc =? R_TEST_SCENARIO_GUARD_DENY then bool_decide (gs = [])
  else forallb (fun g => 0 <? lg_threshold_ms g) gs.

Lemma latency_passes sc t :
  is_u32 t -> (answered_latency sc t <? t) = if sc =? R_TEST_SCENARIO_GUARD_DENY then false else 0 <? t.
Proof.
  intros Ht. unfold answered_latency. case_if; [apply Z.ltb_irrefl|].
  destruct (Z.ltb_spec 0 t); [apply Z.ltb_lt; lia|]. apply Z.ltb_ge. rlia.
Qed.

Lemma granted_by_rule sc gs rs :
  by_rule sc -> Forall wf_latency_guard gs -> Forall wf_resource_request rs ->
  granted sc gs (map (fun r => set_tokens (plain_deficit sc r) r) rs) = decides sc gs rs.
Proof.
  intros Hs Hg Hr. unfold granted. rewrite forallb_map.
  assert (E1 : forallb (fun g => answered_latency sc (lg_threshold_ms g) <? lg_threshold_ms g) gs =
    forallb (fun g => if sc =? R_TEST_SCENARIO_GUARD_DENY then false else 0 <? lg_threshold_ms g) gs).
  { induction Hg as [|g gs (_ & Ht & _) _ IH]; [done|]. cbn [forallb]. by rewrite latency_passes, IH. }
  rewrite E1. clear E1. unfold decides, plain_deficit.
  assert (E0 : forallb (fun r => rr_tokens_requested (set_tokens 0 r) =? 0) rs = true) by (clear; induction rs as [|r rs IH]; [done|exact IH]).
  unfold by_rule, R_TEST_SCENARIO_ALLOW, R_TEST_SCENARIO_DENY, R_TEST_SCENARIO_GUARD_PASS, R_TEST_SCENARIO_GUARD_DENY in *.
  destruct Hs as [->|[->|[->| ->]]]; cbn [Z.eqb Pos.eqb]; rewrite ?E0, ?andb_true_r; try done.
  - rewrite andb_comm. destruct Hr as [|r rs Hr _]; [done|]. cbn [forallb map rr_tokens_requested set_tokens].
    destruct (Z.eqb_spec (rr_tokens_requested r) 0) as [E|E]; [done|]. by rewrite (proj2 (Z.eqb_neq _ _) E).
  - by destruct gs.
Qed.

(** ** The answer on the wire *)
Definition spoiled (sc : Z) : bool :=
  (sc =? R_TEST_SCENARIO_MALFORMED_AUTH) || (sc =? R_TEST_SCENARIO_MALFORMED_TRUNCATED) ||
  (sc =? R_TEST_SCENARIO_MALFORMED_REQUEST_ID).

(** An answer's blocks are well formed and fit a packet. *)
Record answer_fits (sc : Z) (gs : list r_latency_guard) (rs : list r_resource_request) : Prop := {
  af_guards : Forall wf_latency_guard gs;
  af_resources : Forall wf_resource_request rs;
  af_counts : zlen gs <= UINT16_MAX /\ zlen rs <= UINT16_MAX;
  af_length : zlen (response_pdu sc gs rs) <= R_MAX_PACKET_SIZE;
}.

Lemma plan_fits st gs rs gs' rs' st' :
  responder_wf st -> Forall wf_latency_guard gs -> Forall wf_resource_request rs ->
  zlen gs <= UINT16_MAX -> zlen rs <= UINT16_MAX ->
  plan st gs rs = (Answered gs' rs', st') -> answer_fits (rt_scenario st) gs' rs' /\ same_peer st st'.
Proof.
  intros Hwf Hg Hr Hgn Hrn. unfold plan. pose proof (noted_books st gs) as Hsp. rewrite (sp_scenario _ _ Hsp).
  case_if; [done|]. rewrite <- answer_counts_planned by rlia. destruct (answer_counts _ _ _) as [[n m]|] eqn:Ec; [|done].
  destruct (answer_counts_range (rt_scenario st) (zlen gs) (zlen rs) n m) as [Hn Hm]; [rlia|rlia|done|].
  change R_MAX_PACKET_SIZE with 1200.
  destruct (Z.ltb_spec 1200 (12 + n * 36 + m * 28)) as [|Hl]; [done|].
  pose proof (answered_resources_wf (Z.to_nat m) (noted st gs) rs (noted_wf st gs Hwf) Hr) as Hw.
  pose proof (answered_resources_table (Z.to_nat m) (noted st gs) rs (noted_wf st gs Hwf)) as Ht.
  destruct (answered_resources _ _ _) as [[l st2]|[rc st2]]; [|done]. intros [= <- <- <-].
  destruct Hw as (_ & Hll & Hlw), Ht as (q & k & ->). split; [|eapply same_peer_trans; [exact Hsp|apply same_peer_table]].
  assert (Hgw : Forall wf_latency_guard (padded extra_guard (Z.to_nat n) gs)) by (apply padded_wf; [apply extra_guard_wf|done]).
  pose proof (padded_length extra_guard (Z.to_nat n) gs) as Hpl.
  split; [done|done|rewrite Hpl, Hll; rlia|].
  unfold response_pdu, ser_pdu. rewrite !length_app, !le_length, !Nat2Z.inj_add, (response_body_length _ _ _ Hgw Hlw).
  rewrite Hpl, Hll. clia.
Qed.

Section Exchange.
Context {W : Type} `{HR : Reentrant W} {ssl : OpenSSL} {laws : AesGcmLaws ssl}.
Implicit Types s : sys W.
Implicit Types X : gset ptr.

(** Room for the answer, and OpenSSL's cooperation. *)
Definition can_answer (env : crypto_env) (c : client_fixed) (st : r_test_responder_state)
    (h : r_tenant_header) (gs : list r_latency_guard) (rs : list r_resource_request) (cap : Z) : Prop :=
  let pdu := response_pdu (rt_scenario st) gs rs in
  seal_len c (zlen pdu) <= cap /\ can_seal env c (ser_tenant (response_tenant st h (wrong_id st))) pdu.

Lemma answered_on_wire env st c h ttl gs rs ol bytes output cap gs' rs' st' :
  paired st c -> client_packet c h ttl gs rs ol bytes -> env_ok env -> 0 <= cap <= zlen output ->
  plan st gs rs = (Answered gs' rs', st') -> can_answer env c st h gs' rs' cap ->
  exists sent out',
    sealed c (ser_tenant (response_tenant st h (wrong_id st))) (response_pdu (rt_scenario st) gs' rs') sent /\
    is_bytes sent /\ zlen sent <= cap /\ wr output 0 sent = Ok out' /\
    process_packet env st bytes (zlen bytes) output cap =
    malform st' (mk_process_out st' out' (zlen sent) false (request_event st gs rs ol (cstr "rejected"))).
Proof.
  intros Hp Hc He Hcap Epl Hroom.
  pose proof (process_planned c h ttl gs rs ol bytes Hc env st output cap Hp He Hcap) as Hd. rewrite Epl in Hd.
  destruct (request_pieces c h ttl gs rs ol bytes Hc []) as (_ & _ & _ & _ & Hgn & Hrn).
  destruct (plan_fits st gs rs gs' rs' st') as [[Hg Hr [Hgn' Hrn'] Hl] _]; try done; [apply Hp|apply Hc|apply Hc|].
  destruct (response_reads (rt_scenario st) gs' rs' Hg Hr Hgn' Hrn' Hl) as (_ & Hpb & _).
  inversion Hd as [| |? ? ? sent out' Hs Hb Hlen Hwr|? ? ? ? ? ? ? Hno]; subst.
  - exists sent, out'. split_and!; try done. by apply Hb.
  - by destruct Hno.
Qed.

(** The bytes of the caller's block that are sent. *)
Definition sent_bytes (o : process_out) : list Z := take (Z.to_nat (po_output_len o)) (po_output o).

Lemma sent_prefix output sent out' : wr output 0 sent = Ok out' -> take (length sent) out' = sent.
Proof.
  intros Hw. pose proof (wr_Ok _ _ _ _ Hw) as (_ & Hl & Hl').
  pose proof (rd_bytes_wr0 _ _ _ Hw) as E. rewrite rd_bytes_take in E by lia. rewrite Nat2Z.id in E. by injection E.
Qed.

(** An unspoiled answer is a reply to the request. *)
Lemma answer_is_reply env st c r h ttl gs rs ol bytes output cap gs' rs' st' :
  paired st c -> client_packet c h ttl gs rs ol bytes -> env_ok env -> 0 <= cap <= zlen output ->
  is_object output -> th_unique_id h = rq_request_id r ->
  r_allowed_server_id r (rt_server_id st) = true -> spoiled (rt_scenario st) = false ->
  plan st gs rs = (Answered gs' rs', st') -> can_answer env c st h gs' rs' cap ->
  exists o, process_packet env st bytes (zlen bytes) output cap = Ok (RCLIENT_OK, o) /\
    po_send_response o = true /\ po_state o = st' /\ po_output_len o <= cap /\
    po_event o = request_event st gs rs ol (r_test_scenario_name (rt_scenario st)) /\
    zlen (sent_bytes o) = po_output_len o /\
    reply_to c r (response_tenant st h false) (response_pdu (rt_scenario st) gs' rs') (sent_bytes o).
Proof.
  intros Hp Hc He Hcap Hobj Hid Hsrv Hsp Epl Hroom.
  destruct (answered_on_wire env st c h ttl gs rs ol bytes output cap gs' rs' st') as
    (sent & out' & Hs & Hb & Hlen & Hwr & Epr); try done.
  destruct (request_pieces c h ttl gs rs ol bytes Hc []) as (_ & _ & _ & _ & Hgn & Hrn).
  destruct (plan_fits st gs rs gs' rs' st') as [[Hg Hr [Hgn' Hrn'] Hl] Hsame]; try done; [apply Hp|apply Hc|apply Hc|].
  destruct (response_reads (rt_scenario st) gs' rs' Hg Hr Hgn' Hrn' Hl) as (Hv & Hpb & _).
  apply orb_false_iff in Hsp as [Hsp Hs3]. apply orb_false_iff in Hsp as [Hs1 Hs2].
  unfold wrong_id in Hs. rewrite Hs3 in Hs. unfold malform in Epr. cbn [po_output po_output_len po_event] in Epr.
  rewrite (sp_scenario _ _ Hsame), Hs1, Hs2, Hs3 in Epr.
  eexists. split; [exact Epr|]. unfold sent_bytes. cbn [po_send_response po_state po_output_len po_event po_output].
  rewrite Nat2Z.id, (sent_prefix _ _ _ Hwr). do 5 (split; [done|]).
  destruct (cp_header _ _ _ _ _ _ _ Hc) as (Hh & _).
  split; try done; [split; [by apply response_tenant_wf; [apply Hp|]|done]|].
  split; [done|]. unfold is_object in *. lia.
Qed.
End Exchange.
