(* ===== verification/ResponderSpoiled.v ===== *)
(** * Answers the test responder spoils

    An answer with a corrupted authentication block, a missing byte or a foreign
    request id changes nothing in the client. *)

From Stdlib Require Import String Ascii.
From S2P Require Import Prelude.
From S2P Require Import Types.
From S2P Require Import Wire.
From S2P Require Import WireFacts.
From S2P Require Import Crypto.
From S2P Require Import CryptoFacts.
From S2P Require Import Workflow.
From S2P Require Import State.
From S2P Require Import Hoare.
From S2P Require Import Schedule.
From S2P Require Import Dns.
From S2P Require Import DnsFacts.
From S2P Require Import Request.
From S2P Require Import RequestFacts.
From S2P Require Import Ids.
From S2P Require Import PacketFacts.
From S2P Require Import ExtractFacts.
From S2P Require Import Client.
From S2P Require Import Lifecycle.
From S2P Require Import Completion.
From S2P Require Import Datagram.
From S2P Require Import Responder.
From S2P Require Import ResponderFacts.
From S2P Require Import ResponderQuota.
From S2P Require Import ResponderAnswers.
From S2P Require Import ResponderSeal.
From S2P Require Import ResponderSafety.
From S2P Require Import ResponderRequest.
From S2P Require Import ResponderExchange.

(** The GCM tag is a function of the key, the nonce, the additional data and
    the ciphertext: no other tag opens the packet. *)
Class GcmTagLaw (O : OpenSSL) : Prop := {
  gcm_one_tag : forall key nonce a c t t' p p',
    EVP_aes_256_gcm_open key nonce a c t = Some p ->
    EVP_aes_256_gcm_open key nonce a c t' = Some p' -> t = t';
}.

Lemma flip_neq x : Z.lxor x 1 <> x.
Proof.
  intros E. apply (f_equal (fun v => Z.lxor v x)) in E. rewrite Z.lxor_nilpotent in E.
  rewrite (Z.lxor_comm x 1), Z.lxor_assoc, Z.lxor_nilpotent in E. done.
Qed.

(** The fields of a header that are compared. *)
Lemma tenant_fields h h0 rest :
  wf_tenant h -> wf_tenant h0 -> take 40 (ser_tenant h ++ rest) = ser_tenant h0 ->
  th_tlv_size h0 = th_tlv_size h /\ th_unique_id h0 = th_unique_id h /\ ser_tenant h0 = ser_tenant h.
Proof.
  intros Hw Hw0 E. pose proof (ser_tenant_length h Hw) as Hl. rewrite take_app_length' in E by lia.
  split; [|split; [|done]].
  - unfold ser_tenant in E. apply app_inj_1 in E as [_ E]; [|by rewrite !le_length].
    apply app_inj_1 in E as [E _]; [|by rewrite !le_length]. symmetry. by apply (le_inj 2); [apply Hw|apply Hw0|].
  - unfold ser_tenant in E. do 3 (apply app_inj_1 in E as [_ E]; [|by rewrite !le_length]).
    apply app_inj_1 in E as [E _]; [done|]. destruct Hw as (_ & _ & _ & [-> _] & _), Hw0 as (_ & _ & _ & [-> _] & _). done.
Qed.

Section Spoil.
Context {ssl : OpenSSL} {laws : AesGcmLaws ssl} {tags : GcmTagLaw ssl}.

Definition spoil_offset (c : client_fixed) : Z := if cf_auth_type c =? R_AUTH_AES_GCM then 56 else 44.

(** One bit of the cookie, or of the tag. *)
Lemma spoil_authentication c hdr P sent :
  auth_ok c -> zlen hdr = 40 -> sealed c hdr P sent ->
  exists b sent', spoil_offset c < zlen sent /\ rd sent (spoil_offset c) = Ok b /\
    wr sent (spoil_offset c) [Z.lxor b 1] = Ok sent' /\ forall pdu, ~ authentic c hdr pdu sent'.
Proof.
  intros Ha Hh Hs. unfold spoil_offset.
  assert (Hcut : forall a b r, zlen a = 44 \/ zlen a = 56 ->
    rd (a ++ b :: r) (zlen a) = Ok b /\ wr (a ++ b :: r) (zlen a) [Z.lxor b 1] = Ok (a ++ Z.lxor b 1 :: r) /\
    zlen a < zlen (a ++ b :: r)).
  { intros a b r _. split; [apply (elem_at (A := Z))|]. split; [|rewrite length_app; simpl; lia].
    by apply (wr_app a [b] r [Z.lxor b 1]). }
  destruct Hs as [Ety _|nonce ct tag Ety _ Hn Es]; rewrite Ety.
  - change (R_AUTH_COOKIE =? R_AUTH_AES_GCM) with false. cbv iota. destruct Ha as [Hck _ _ _].
    destruct (cf_cookie c) as [|b r] eqn:Ec; [done|].
    set (a := hdr ++ le 2 R_TLV_AUTH_COOKIE ++ le 2 36).
    assert (Hal : zlen a = 44) by (unfold a; rewrite !length_app, !le_length; lia).
    assert (Eq : forall x, hdr ++ le 2 R_TLV_AUTH_COOKIE ++ le 2 36 ++ (x :: r) ++ P = a ++ x :: (r ++ P))
      by (intros x; unfold a; by rewrite <- !app_assoc).
    rewrite Eq. destruct (Hcut a b (r ++ P) ltac:(by left)) as (H1 & H2 & H3). rewrite Hal in *.
    eexists _, _. split; [exact H3|]. split; [exact H1|]. split; [exact H2|].
    intros pdu Hau. inversion Hau as [Et1 Et2 Eb|n1 t1 c1 Ety' Et2 Et3 Et4 Et5 Et6 Eb]; [|by rewrite Ety in Ety'].
    rewrite Ec, <- Eq in Eb. do 3 (apply app_inv_head in Eb). injection Eb as Eb _. by apply (flip_neq b).
  - rewrite Z.eqb_refl. destruct (gcm_seal_lengths _ _ _ _ _ _ Es) as (_ & Htl & _).
    destruct tag as [|b r]; [done|]. set (a := hdr ++ le 2 R_TLV_AUTH_AES ++ le 2 32 ++ nonce).
    assert (Hal : zlen a = 56) by (unfold a; rewrite !length_app, !le_length; lia).
    assert (Eq : forall x, hdr ++ le 2 R_TLV_AUTH_AES ++ le 2 32 ++ nonce ++ (x :: r) ++ ct = a ++ x :: (r ++ ct))
      by (intros x; unfold a; by rewrite <- !app_assoc).
    rewrite Eq. destruct (Hcut a b (r ++ ct) ltac:(by right)) as (H1 & H2 & H3). rewrite Hal in *.
    eexists _, _. split; [exact H3|]. split; [exact H1|]. split; [exact H2|].
    intros pdu Hau. inversion Hau as [Ety' Et2 Eb|nonce' tag' ct' Et1 Et2 Hn' Ht' Et5 Eo Eb]; [by rewrite Ety in Ety'|].
    rewrite <- Eq in Eb. do 3 (apply app_inv_head in Eb). apply app_inj_1 in Eb as [-> Eb]; [|lia].
    apply app_inj_1 in Eb as [-> ->]; [|simpl in *; lia].
    apply gcm_open_seal in Es.
    rewrite (gcm_open_aad _ _ _ [hdr ++ le 2 R_TLV_AUTH_AES ++ le 2 32 ++ nonce]) in Es
      by (cbn; by rewrite !app_nil_r, <- !app_assoc).
    pose proof (gcm_one_tag _ _ _ _ _ _ _ _ Eo Es) as E. injection E as E. by apply (flip_neq b).
Qed.

(** A byte short: the PDU is shorter than it says. *)
Lemma spoil_truncated c hdr P sent :
  cf_auth_type c = R_AUTH_COOKIE -> sealed c hdr P sent -> resp_valid P (zlen P) = true ->
  resp_size P = zlen P ->
  forall pdu, authentic c hdr pdu (take (length sent - 1) sent) -> resp_valid pdu (zlen pdu) = false.
Proof.
  intros Ety Hs Hv Hsz pdu Hau. destruct Hs as [_ _|? ? ? Ety']; [|by rewrite Ety in Ety'].
  assert (Hl : 12 <= zlen P) by (unfold resp_valid in Hv; breflect; lia).
  inversion Hau as [Et1 Et2 Eb|n1 t1 c1 Ety' Et2 Et3 Et4 Et5 Et6 Eb]; [|by rewrite Ety in Ety'].
  set (a := hdr ++ le 2 R_TLV_AUTH_COOKIE ++ le 2 36 ++ cf_cookie c).
  assert (Eq : forall x, hdr ++ le 2 R_TLV_AUTH_COOKIE ++ le 2 36 ++ cf_cookie c ++ x = a ++ x)
    by (intros x; unfold a; by rewrite <- !app_assoc).
  rewrite !Eq, length_app in Eb. rewrite take_app_ge in Eb by lia. apply app_inv_head in Eb.
  replace (length a + length P - 1 - length a)%nat with (length P - 1)%nat in Eb by lia. subst pdu.
  unfold resp_valid. assert (Esz : resp_size (take (length P - 1) P) = zlen P).
  { rewrite <- Hsz. unfold resp_size.
    pose proof (take_drop_app 2 2 (take (length P - 1) P) (drop (length P - 1) P)) as E.
    rewrite take_drop in E. rewrite E; [done|]. rewrite length_take. lia. }
  rewrite Esz, length_take. rewrite (proj2 (Z.leb_gt (zlen P) _)) by lia. by rewrite !andb_false_r.
Qed.
End Spoil.

(** Reads and writes in the first part of a block. *)
Lemma rd_prefix a b k v : rd a k = Ok v -> rd (a ++ b) k = Ok v.
Proof.
  unfold rd. case_if; [|done]. destruct (a !! Z.to_nat k) eqn:Ea; [|done]. by rewrite (lookup_app_l_Some _ _ _ _ Ea).
Qed.

Lemma wr_prefix a b k bs a' : wr a k bs = Ok a' -> wr (a ++ b) k bs = Ok (a' ++ b).
Proof.
  intros Hw. pose proof (wr_Ok _ _ _ _ Hw) as (H1 & H2 & H3).
  destruct (block_split a k (zlen bs)) as (x & m & y & -> & Hx & Hm); [lia..|].
  rewrite (wr_app x m y bs) in Hw by lia. injection Hw as <-. rewrite <- !app_assoc. apply wr_app; lia.
Qed.

Lemma wr_keeps_before a k bs a' n : wr a k bs = Ok a' -> Z.of_nat n <= k -> take n a = take n a'.
Proof.
  intros Hw Hn. pose proof (wr_Ok _ _ _ _ Hw) as (H1 & H2 & H3).
  destruct (block_split a k (zlen bs)) as (x & m & y & -> & Hx & Hm); [lia..|].
  rewrite (wr_app x m y bs) in Hw by lia. injection Hw as <-. by rewrite !take_app_le by lia.
Qed.

Lemma ser_pdu_size ty body : 8 + zlen body <= UINT16_MAX -> resp_size (ser_pdu ty body) = zlen (ser_pdu ty body).
Proof.
  intros Hl. unfold resp_size, ser_pdu.
  rewrite (field_at (le 2 ty) (le 2 (8 + zlen body))) by by rewrite le_length. rewrite unle_le2 by rlia.
  rewrite !length_app, !le_length. lia.
Qed.

(** ** What the responder sends *)

(** The word of the event an answer is sent with. *)
Definition scenario_label (sc : Z) : list Z :=
  default [] (map cstr ["allow"; "deny"; "guard-pass"; "guard-deny"; "quota"; "drop"; "malformed-auth";
    "malformed-truncated"; "malformed-request-id"; "count-empty"; "count-short"; "count-extra"]%string !! Z.to_nat sc).

(** The datagram sent for an answer: the packet, with a bit of the cookie or of
    the tag flipped, or without its last byte, in the scenarios that say so. *)
Definition spoil (sc : Z) (c : client_fixed) (packet : list Z) : list Z :=
  if decide (sc = R_TEST_SCENARIO_MALFORMED_AUTH) then
    alter (fun b => Z.lxor b 1) (if decide (cf_auth_type c = R_AUTH_AES_GCM) then 56%nat else 44%nat) packet
  else if decide (sc = R_TEST_SCENARIO_MALFORMED_TRUNCATED) then take (length packet - 1) packet
  else packet.

(** What a call of [process_packet] returns for a verdict, in the block [output]
    of which the first [cap] bytes may be used. *)
Inductive implemented {ssl : OpenSSL} (env : crypto_env) (c : client_fixed) (st : r_test_responder_state)
    (h : r_tenant_header) (output : list Z) (cap : Z) (ev : list Z -> r_test_event)
    : verdict * r_test_responder_state -> run (Z * process_out) -> Prop :=
| implemented_dropped st' :
    implemented env c st h output cap ev (Dropped, st')
      (Ok (RCLIENT_OK, mk_process_out st' output 0 false (ev (cstr "dropped"))))
| implemented_refused rc st' :
    rc <> RCLIENT_OK ->
    implemented env c st h output cap ev (Refused rc, st')
      (Ok (rc, mk_process_out st' output 0 false (ev (cstr "rejected"))))
| implemented_answered gs rs st' packet out' :
    sealed c (ser_tenant (response_tenant st h (wrong_id st))) (response_pdu (rt_scenario st) gs rs) packet ->
    zlen packet <= cap ->
    let sent := spoil (rt_scenario st) c packet in
    zlen out' = zlen output -> take (length sent) out' = sent ->
    drop (length packet) out' = drop (length packet) output ->
    implemented env c st h output cap ev (Answered gs rs, st')
      (Ok (RCLIENT_OK, mk_process_out st' out' (zlen sent) true (ev (scenario_label (rt_scenario st)))))
| implemented_unsent gs rs st' rc out' :
    rc <> RCLIENT_OK -> zlen out' = zlen output ->
    (let pdu := response_pdu (rt_scenario st) gs rs in
     ~ (seal_len c (zlen pdu) <= cap /\
        can_seal env c (ser_tenant (response_tenant st h (wrong_id st))) pdu)) ->
    implemented env c st h output cap ev (Answered gs rs, st')
      (Ok (rc, mk_process_out st' out' 0 false (ev (cstr "rejected")))).

Lemma alter_at {A} (f : A -> A) a x b : alter f (length a) (a ++ x :: b) = a ++ f x :: b.
Proof. rewrite alter_app_r_alt by lia. by rewrite Nat.sub_diag. Qed.

Section Sent.
Context {ssl : OpenSSL} {laws : AesGcmLaws ssl}.

(** The byte at [spoil_offset] is there. *)
Lemma sealed_spoilable c hdr P packet :
  auth_ok c -> zlen hdr = 40 -> sealed c hdr P packet ->
  exists a x b, packet = a ++ x :: b /\ zlen a = spoil_offset c.
Proof.
  intros Ha Hh Hs. unfold spoil_offset. destruct Hs as [Ety _|nonce ct tag Ety _ Hn Es]; rewrite Ety.
  - change (R_AUTH_COOKIE =? R_AUTH_AES_GCM) with false. cbv iota. destruct Ha as [Hck _ _ _].
    destruct (cf_cookie c) as [|x r] eqn:Ec; [done|].
    exists (hdr ++ le 2 R_TLV_AUTH_COOKIE ++ le 2 36), x, (r ++ P). split; [by rewrite <- !app_assoc|].
    rewrite !length_app, !le_length. lia.
  - rewrite Z.eqb_refl. destruct (gcm_seal_lengths _ _ _ _ _ _ Es) as (_ & Htl & _). destruct tag as [|x r]; [done|].
    exists (hdr ++ le 2 R_TLV_AUTH_AES ++ le 2 32 ++ nonce), x, (r ++ ct). split; [by rewrite <- !app_assoc|].
    rewrite !length_app, !le_length. lia.
Qed.

Lemma spoil_auth c a x b :
  zlen a = spoil_offset c -> spoil R_TEST_SCENARIO_MALFORMED_AUTH c (a ++ x :: b) = a ++ Z.lxor x 1 :: b.
Proof.
  intros Hl. unfold spoil. rewrite decide_True by done. rewrite <- (alter_at (fun b => Z.lxor b 1) a x b). f_equal. unfold spoil_offset in Hl.
  destruct (Z.eqb_spec (cf_auth_type c) R_AUTH_AES_GCM); [rewrite decide_True by done|rewrite decide_False by done]; lia.
Qed.

(** The answer built is spoiled and announced as the scenario says. *)
Lemma malform_sends c st st' hdr P packet output out' ev :
  auth_ok c -> zlen hdr = 40 -> responder_wf st -> same_peer st st' -> rt_auth_type st = cf_auth_type c ->
  sealed c hdr P packet -> wr output 0 packet = Ok out' -> zlen output < 2 ^ 63 ->
  let sent := spoil (rt_scenario st) c packet in
  exists out2, malform st' (mk_process_out st' out' (zlen packet) false ev) =
    Ok (RCLIENT_OK, mk_process_out st' out2 (zlen sent) true (set_disposition (scenario_label (rt_scenario st)) ev)) /\
    zlen out2 = zlen output /\ take (length sent) out2 = sent /\ drop (length packet) out2 = drop (length packet) output.
Proof.
  intros Ha Hh Hwf Hsp Hty Hs Hwr Hout. destruct (sealed_spoilable c hdr P packet Ha Hh Hs) as (a & x & b & Ep & Hal).
  pose proof (wr_Ok _ _ _ _ Hwr) as (_ & Hle & Hlo).
  assert (Eo : out' = packet ++ drop (length packet) output).
  { destruct (block_split output 0 (zlen packet)) as (u & m & v & Eout & Hu & Hm); [lia..|].
    destruct u; [|simpl in Hu; lia]. rewrite Eout in Hwr |- *. rewrite (wr_app [] m v packet) in Hwr by (simpl; lia).
    injection Hwr as <-. cbn [app]. by rewrite drop_app_length' by lia. }
  set (R := drop (length packet) output) in *.
  assert (Hpk : 0 < zlen packet) by (rewrite Ep, length_app; simpl; lia).
  unfold malform. cbv zeta. cbn [po_output po_output_len po_event]. rewrite (sp_scenario _ _ Hsp), (sp_auth _ _ Hsp), Hty.
  destruct (Z.eqb_spec (rt_scenario st) R_TEST_SCENARIO_MALFORMED_AUTH) as [Esc|N1].
  { rewrite Esc. change (R_TENANT_TLV_LEN + 4) with 44. change (44 + 12) with 56. fold (spoil_offset c).
    rewrite Ep, (spoil_auth c a x b Hal), <- Hal. rewrite Ep in Eo.
    rewrite (proj2 (Z.leb_gt _ _)) by (rewrite length_app; simpl; lia).
    rewrite Eo, <- app_assoc. cbn [app]. rewrite (elem_at (A := Z)), run_bind_Ok.
    rewrite (wr_app a [x] (b ++ R) [Z.lxor x 1]) by done. rewrite run_bind_Ok. cbn [app].
    exists ((a ++ Z.lxor x 1 :: b) ++ R). split.
    { rewrite <- app_assoc. cbn [app]. do 3 f_equal. rewrite !length_app. done. }
    rewrite Eo in Hlo. split; [rewrite <- Hlo, !length_app; simpl; lia|]. split; [apply take_app_length|].
    rewrite drop_app_length' by (rewrite !length_app; simpl; lia). unfold R. by rewrite Ep. }
  destruct (Z.eqb_spec (rt_scenario st) R_TEST_SCENARIO_MALFORMED_TRUNCATED) as [Esc|N2].
  { rewrite (proj2 (Z.eqb_neq (zlen packet) 0)), u64_small by rlia. unfold spoil. rewrite decide_False by (by rewrite Esc). rewrite decide_True by done.
    exists out'. split; [rewrite Esc, length_take; repeat f_equal; lia|]. split; [by rewrite Hlo|].
    rewrite Eo. split; [|by rewrite drop_app_length].
    rewrite length_take, Nat.min_l by lia. by rewrite take_app_le by lia. }
  assert (Es : spoil (rt_scenario st) c packet = packet) by (unfold spoil; by rewrite !decide_False).
  assert (En : r_test_scenario_name (rt_scenario st) = scenario_label (rt_scenario st)).
  { pose proof (rw_scenario _ Hwf) as Hr. unfold R_TEST_SCENARIO_ALLOW, R_TEST_SCENARIO_COUNT_EXTRA in Hr.
    assert (forallb (fun v => bool_decide (r_test_scenario_name v = scenario_label v)) (map Z.of_nat (seq 0 12)) = true) as Hall
      by (vm_compute; reflexivity).
    rewrite forallb_forall in Hall. apply (bool_decide_eq_true_1 _), Hall, in_map_iff.
    exists (Z.to_nat (rt_scenario st)). split; [lia|]. apply in_seq. lia. }
  cbv zeta. rewrite Es, <- En. exists out'.
  split; [destruct (Z.eqb_spec (rt_scenario st) R_TEST_SCENARIO_MALFORMED_REQUEST_ID) as [->|]; done|].
  split; [by rewrite Hlo|]. rewrite Eo. split; [apply take_app_length|by rewrite drop_app_length].
Qed.

Lemma process_implemented env st c h ttl gs rs ol bytes output cap :
  paired st c -> client_packet c h ttl gs rs ol bytes -> env_ok env -> 0 <= cap <= zlen output -> is_object output ->
  implemented env c st h output cap (request_event st gs rs ol) (plan st gs rs)
    (process_packet env st bytes (zlen bytes) output cap).
Proof.
  intros Hp Hc He Hcap Hobj. pose proof (process_planned c h ttl gs rs ol bytes Hc env st output cap Hp He Hcap) as Hd.
  destruct (request_pieces c h ttl gs rs ol bytes Hc []) as (_ & _ & _ & _ & Hgn & Hrn).
  destruct (cp_header _ _ _ _ _ _ _ Hc) as (Hh & _).
  assert (Hhl : zlen (ser_tenant (response_tenant st h (wrong_id st))) = 40).
  { apply ser_tenant_length, response_tenant_wf; [apply Hp|done]. }
  destruct (plan st gs rs) as [v st'] eqn:Epl.
  inversion Hd as [|rc ? Hrc|gs' rs' ? packet out' Hs Hb Hlen Hwr|gs' rs' ? rc out' Hrc Hl Hno]; subst.
  - constructor.
  - by constructor.
  - destruct (plan_fits st gs rs gs' rs' st') as [_ Hsame]; try done; [apply Hp|apply Hc|apply Hc|].
    destruct (malform_sends c st st' _ _ packet output out' (request_event st gs rs ol (cstr "rejected"))
      (pd_auth _ _ Hp) Hhl (pd_wf _ _ Hp) Hsame (sk_type _ _ (pd_shares _ _ Hp)) Hs Hwr Hobj) as (out2 & Em & Hl2 & Ht2 & Hd2).
    rewrite Em. by eapply implemented_answered.
  - by apply implemented_unsent.
Qed.
End Sent.

Section Ignored.
Context {W : Type} `{HR : Reentrant W} {ssl : OpenSSL} {laws : AesGcmLaws ssl} {tags : GcmTagLaw ssl}.
Implicit Types s : sys W.
Implicit Types X : gset ptr.

(** What a packet must carry to be more than ignored. *)
Lemma ignored_wp X buf from s :
  client_inv X s -> is_bytes buf -> is_object buf -> wf_addr from ->
  (forall h pdu p r, wf_tenant h -> take 40 buf = ser_tenant h -> p ∈ cl_inflight (s_client s) ->
     s_reqs s !! p = Some r -> rq_request_id r = th_unique_id h ->
     authentic (cl_fixed (s_client s)) (take (Z.to_nat (th_tlv_size h)) buf) pdu buf ->
     resp_valid pdu (zlen pdu) = true -> False) ->
  wp (r_client_on_datagram (Some buf) (zlen buf) (Some from)) (fun _ s' => only_world s s') s.
Proof.
  intros HI Hb Hobj Hf Hno. eapply wp_mono; [apply (on_datagram_wp X); try done; lia|].
  intros rc s' [|p r r' h pdu s1 s2 Hin Hr Hser Hw Hid _ _ Hau Hv _ _ _]; [done|]. exfalso.
  rewrite Nat2Z.id, firstn_all in Hau. by eapply Hno.
Qed.

(** The scenarios whose answer the client can tell from a genuine one. *)
Inductive detectable (c : client_fixed) (ids : list (list Z)) (id : list Z) (sc : Z) : Prop :=
| detect_auth : sc = R_TEST_SCENARIO_MALFORMED_AUTH -> detectable c ids id sc
| detect_truncated :
    sc = R_TEST_SCENARIO_MALFORMED_TRUNCATED -> cf_auth_type c = R_AUTH_COOKIE -> detectable c ids id sc
| detect_id :
    sc = R_TEST_SCENARIO_MALFORMED_REQUEST_ID -> answered_id true id ∉ ids -> detectable c ids id sc.

(** The bytes sent in a detectable scenario. *)
Lemma spoiled_bytes c ids h st st' sent output out' gs rs ev :
  auth_ok c -> wf_tenant h -> is_u64 (rt_server_id st) -> same_peer st st' -> rt_auth_type st = cf_auth_type c ->
  detectable c ids (th_unique_id h) (rt_scenario st) -> answer_fits (rt_scenario st) gs rs -> has_credential c ->
  let hdr := ser_tenant (response_tenant st h (wrong_id st)) in
  sealed c hdr (response_pdu (rt_scenario st) gs rs) sent -> is_bytes sent -> is_object output -> wr output 0 sent = Ok out' ->
  exists o, malform st' (mk_process_out st' out' (zlen sent) false ev) = Ok (RCLIENT_OK, o) /\
    po_send_response o = true /\ is_bytes (sent_bytes o) /\ zlen (sent_bytes o) <= zlen sent /\
    (exists rest, sent_bytes o = hdr ++ rest) /\
    ((forall pdu, authentic c hdr pdu (sent_bytes o) -> resp_valid pdu (zlen pdu) = false) \/
     ((answered_id true (th_unique_id h) ∉ ids) /\ wrong_id st = true)).
Proof.
  intros Ha Hh Hsid Hsp Hty Hdet [Hg Hr [Hgn Hrn] Hpl] Hcred hdr Hs Hb Hobj Hwr.
  assert (Hhl : zlen hdr = 40) by by apply ser_tenant_length, response_tenant_wf.
  destruct (response_reads (rt_scenario st) gs rs Hg Hr Hgn Hrn Hpl) as (Hv & _).
  assert (Eo : out' = sent ++ drop (length sent) out').
  { rewrite <- (sent_prefix _ _ _ Hwr) at 1. by rewrite take_drop. }
  pose proof (wr_Ok _ _ _ _ Hwr) as (_ & Hle & _). unfold is_object in Hobj.
  destruct (sealed_header _ _ _ _ Hs) as [rest0 Erest].
  unfold malform. cbv zeta. cbn [po_output po_output_len po_event].
  rewrite (sp_scenario _ _ Hsp), (sp_auth _ _ Hsp), Hty.
  destruct Hdet as [Esc|Esc Eck|Esc Hids]; rewrite Esc.
  - rewrite Z.eqb_refl. destruct (spoil_authentication c hdr _ sent Ha Hhl Hs) as (b & sent' & Hk & Hrd & Hwr' & Hno).
    change (R_TENANT_TLV_LEN + 4) with 44. change (44 + 12) with 56. fold (spoil_offset c).
    rewrite (proj2 (Z.leb_gt _ _)) by lia.
    assert (Hk0 : 0 <= spoil_offset c) by (unfold spoil_offset; case_if; lia).
    rewrite Eo, (rd_prefix _ _ _ _ Hrd), run_bind_Ok, (wr_prefix _ _ _ _ _ Hwr'), run_bind_Ok.
    pose proof (wr_Ok _ _ _ _ Hwr') as (_ & _ & Hl').
    eexists. split; [reflexivity|]. unfold sent_bytes. cbn [po_output po_output_len po_send_response].
    rewrite Nat2Z.id, <- Hl', take_app_length. split; [done|].
    assert (Hbb : is_u8 (Z.lxor b 1)).
    { apply lxor_byte; [|lia]. unfold rd in Hrd. rewrite (proj2 (Z.leb_le 0 _)) in Hrd by done.
      destruct (sent !! _) as [v|] eqn:Ev; [|done]. injection Hrd as ->. by apply (Forall_lookup_1 _ _ _ _ Hb) in Ev. }
    split; [eapply wr_is_bytes; [exact Hb|constructor; [exact Hbb|constructor]|exact Hwr']|]. split; [lia|].
    split; [|left; intros pdu Hau; by destruct (Hno pdu)].
    exists (drop 40 sent'). rewrite <- (take_drop 40 sent') at 1. f_equal.
    rewrite <- (wr_keeps_before _ _ _ _ 40 Hwr') by (unfold spoil_offset; case_if; lia).
    rewrite Erest. apply take_app_length'. lia.
  - change (R_TEST_SCENARIO_MALFORMED_TRUNCATED =? R_TEST_SCENARIO_MALFORMED_AUTH) with false. rewrite Z.eqb_refl. cbv iota.
    assert (Hl : 12 <= zlen (response_pdu (rt_scenario st) gs rs)) by (unfold resp_valid in Hv; breflect; lia).
    assert (Hsl : 12 + 40 <= zlen sent).
    { rewrite Erest, length_app. inversion Hs as [E1 E2 E3|? ? ? E1]; [|by rewrite Eck in E1].
      rewrite Erest in E3. apply app_inv_head in E3. rewrite <- E3, !length_app. lia. }
    rewrite (proj2 (Z.eqb_neq (zlen sent) 0)), u64_small by rlia.
    eexists. split; [reflexivity|]. unfold sent_bytes. cbn [po_output po_output_len po_send_response].
    assert (Et : take (Z.to_nat (zlen sent - 1)) out' = take (length sent - 1) sent).
    { rewrite Eo at 1. replace (Z.to_nat (zlen sent - 1)) with (length sent - 1)%nat by lia. by rewrite take_app_le by lia. }
    rewrite Et. split; [done|]. split; [by apply Forall_take|]. split; [rewrite length_take; lia|].
    assert (length sent = length hdr + length rest0)%nat by (rewrite Erest; apply length_app).
    split; [rewrite Erest; rewrite take_app_ge by (rewrite length_app; lia); by eexists|].
    left. apply (spoil_truncated c hdr _ sent Eck Hs Hv). unfold response_pdu. apply ser_pdu_size.
    change R_MAX_PACKET_SIZE with 1200 in Hpl. unfold response_pdu, ser_pdu in Hpl. rewrite !length_app, !le_length in Hpl. lia.
  - change (R_TEST_SCENARIO_MALFORMED_REQUEST_ID =? R_TEST_SCENARIO_MALFORMED_AUTH) with false.
    change (R_TEST_SCENARIO_MALFORMED_REQUEST_ID =? R_TEST_SCENARIO_MALFORMED_TRUNCATED) with false. rewrite Z.eqb_refl. cbv iota.
    eexists. split; [reflexivity|]. unfold sent_bytes. cbn [po_output po_output_len po_send_response].
    rewrite Nat2Z.id, (sent_prefix _ _ _ Hwr). split; [done|]. split; [done|]. split; [done|].
    split; [rewrite Erest; by eexists|]. right. split; [done|]. unfold wrong_id. by rewrite Esc.
Qed.

(** A spoiled answer leaves the client as it was. *)
Lemma spoiled_ignored X env st h ttl gs rs ol bytes output cap gs' rs' st' from s :
  let c := cl_fixed (s_client s) in
  client_inv X s -> paired st c -> client_packet c h ttl gs rs ol bytes -> env_ok env ->
  0 <= cap <= zlen output -> is_object output -> wf_addr from ->
  detectable c (map rq_request_id (omap (fun p => s_reqs s !! p) (cl_inflight (s_client s))))
    (th_unique_id h) (rt_scenario st) ->
  plan st gs rs = (Answered gs' rs', st') -> can_answer env c st h gs' rs' cap ->
  exists o, process_packet env st bytes (zlen bytes) output cap = Ok (RCLIENT_OK, o) /\
    po_send_response o = true /\
    wp (r_client_on_datagram (Some (sent_bytes o)) (zlen (sent_bytes o)) (Some from))
       (fun _ s' => only_world s s') s.
Proof.
  intros c HI Hp Hc He Hcap Hobj Hf Hdet Epl Hroom.
  destruct (answered_on_wire env st c h ttl gs rs ol bytes output cap gs' rs' st') as
    (sent & out' & Hs & Hb & Hlen & Hwr & Epr); try done.
  destruct (request_pieces c h ttl gs rs ol bytes Hc []) as (_ & _ & _ & _ & Hgn & Hrn).
  destruct (plan_fits st gs rs gs' rs' st') as [Hfit Hsame]; try done; [apply Hp|apply Hc|apply Hc|].
  destruct (cp_header _ _ _ _ _ _ _ Hc) as (Hh & _).
  pose proof (response_tenant_wf st h (wrong_id st) (proj1 (rw_ids _ (pd_wf _ _ Hp))) Hh) as Hrw.
  destruct (spoiled_bytes c _ h st st' sent output out' gs' rs' (request_event st gs rs ol (cstr "rejected"))
    (pd_auth _ _ Hp) Hh (proj1 (rw_ids _ (pd_wf _ _ Hp))) Hsame (sk_type _ _ (pd_shares _ _ Hp)) Hdet Hfit
    (pd_cred _ _ Hp) Hs Hb Hobj Hwr) as (o & Em & Hsend & Hob & Hol & (rest & Eo) & Hno).
  exists o. split; [by rewrite Epr|]. split; [done|]. unfold is_object in Hobj.
  apply (ignored_wp X); try done; [unfold is_object; lia|].
  intros h0 pdu p r Hw0 Hser Hin Hr Hid Hau Hv. rewrite Eo in Hser.
  destruct (tenant_fields _ _ _ Hrw Hw0 Hser) as (Esz & Eid & Eser).
  destruct Hno as [Hno|[Hno Hwrong]].
  - rewrite Esz, Eo in Hau. change (Z.to_nat (th_tlv_size (response_tenant st h (wrong_id st)))) with 40%nat in Hau.
    rewrite take_app_length' in Hau by (pose proof (ser_tenant_length _ Hrw); lia). rewrite <- Eo in Hau.
    rewrite (Hno pdu Hau) in Hv. done.
  - apply Hno. rewrite Hwrong in Eid. cbn [response_tenant th_unique_id] in Eid. rewrite <- Eid, <- Hid.
    apply list_elem_of_fmap. exists r. split; [done|]. apply list_elem_of_omap. by exists p.
Qed.
End Ignored.
