(* ===== verification/Admission.v ===== *)
(** * Admission requests and latency reports

    What [r_client_check_rate_limit_async] hands to the network and leaves in
    the client: a request on schedule whose packet, under the client's
    credential, serializes exactly the caller's guards, resources and label,
    sent once to every known server; or nothing at all. *)

From Stdlib Require Import String Ascii.
From S2P Require Import Prelude.
From S2P Require Import Types.
From S2P Require Import Wire.
From S2P Require Import WireFacts.
From S2P Require Import Crypto.
From S2P Require Import CryptoFacts.
From S2P Require Import Workflow.
From S2P Require Import State.
From S2P Require Import Hoare.
From S2P Require Import Schedule.
From S2P Require Import Dns.
From S2P Require Import DnsFacts.
From S2P Require Import Request.
From S2P Require Import RequestFacts.
From S2P Require Import PacketFacts.
From S2P Require Import Client.
From S2P Require Import Lifecycle.
From S2P Require Import Completion.
From S2P Require Import Datagram.

(** ** The caller's arguments *)
Record args_ok (resources : option (list r_resource_request)) (resource_count : Z)
    (guards : option (list r_latency_guard)) (guard_count : Z)
    (label : option (list Z)) (label_len : Z)
    (gs : list r_latency_guard) (rs : list r_resource_request) (ol : option (list Z)) : Prop := {
  ar_resources : array_arg resources rs;
  ar_resource_count : resource_count = zlen rs;
  ar_wf_resources : Forall wf_resource_request rs;
  ar_resources_object : is_object rs;
  ar_guards : array_arg guards gs;
  ar_guard_count : guard_count = zlen gs;
  ar_wf_guards : Forall wf_latency_guard gs;
  ar_guards_object : is_object gs;
  ar_label : effective_label label label_len = Ok ol;
}.

(** A request before it is launched. *)
Record fresh_req (cb user : Z) (r : r_client_req) : Prop := {
  fr_cb : rq_cb r = cb;
  fr_user : rq_user r = user;
  fr_packet : zlen (rq_packet r) = R_MAX_PACKET_SIZE;
  fr_seen_addrs : rq_seen_addrs r = [];
  fr_seen_addr_cap : rq_seen_addr_cap r = 0;
  fr_seen_ids : rq_seen_server_ids r = [];
  fr_seen_id_cap : rq_seen_server_id_cap r = 0;
  fr_best : rq_best r = candidate_zero;
  fr_allowed : rq_allowed_ids r = [];
}.

Lemma fresh_owner cb user r : fresh_req cb user r -> owner r = (cb, user).
Proof. intros [<- <-]. done. Qed.

Lemma best_zero_ok : best_ok candidate_zero.
Proof. split; simpl; [rlia|..]; (split; [done|]); exists []; (split; [by right|done]). Qed.

Section Admission.
Context {W : Type} `{HR : Reentrant W} {ssl : OpenSSL} {laws : AesGcmLaws ssl}.
Implicit Types s : sys W.
Implicit Types X : gset ptr.

(** *** Request ids *)

(** A version 4 (random) UUID in its standard variant. *)
Definition is_uuid4 (id : list Z) : Prop :=
  is_id16 id /\ exists b6 b8, id !! 6%nat = Some b6 /\ id !! 8%nat = Some b8 /\
    Z.shiftr b6 4 = 4 /\ Z.shiftr b8 6 = 2.

Lemma id_byte (mask bits sh tag b : Z) :
  forallb (fun b => let v := u8 (Z.lor (Z.land b mask) bits) in
    (0 <=? v) && (v <? 256) && (Z.shiftr v sh =? tag)) (map Z.of_nat (seq 0 256)) = true ->
  is_u8 b -> let v := u8 (Z.lor (Z.land b mask) bits) in is_u8 v /\ Z.shiftr v sh = tag.
Proof.
  intros Hf Hb. apply (all_below 256 _ b) in Hf; [|exact Hb]. cbv zeta in *. breflect. unfold_ranges. lia.
Qed.

Lemma generate_request_id_wp s :
  wp r_generate_request_id (fun r s' => only_world s s' /\
    ((fst r = RCLIENT_OK /\ is_uuid4 (snd r)) \/
     (fst r = RCLIENT_ERR_AUTH /\ snd r = replicate 16 0 /\ exists w, fst (h_rand_bytes 16 w) = None))) s.
Proof.
  unfold r_generate_request_id. wp_step. apply wp_world_op. intros [id|] w E.
  2:{ wp_step. split; [by eexists|]. right. do 2 (split; [done|]). exists (s_world s). by rewrite E. }
  destruct (rand_bytes_len _ _ _ _ E) as [Hl Hb].
  do 16 (destruct id as [|? id]; [simpl in Hl; lia|]). destruct id; [|simpl in Hl; lia].
  unfold is_bytes in Hb. repeat (apply Forall_cons in Hb as [? Hb]).
  do 4 (wp_step; eapply wp_lift; [reflexivity|]). wp_step. split; [by eexists|left].
  split; [done|]. simpl. destruct (id_byte 15 64 4 4 z5) as [V1 V2]; [reflexivity|done|].
  destruct (id_byte 63 128 6 2 z7) as [U1 U2]; [reflexivity|done|]. split.
  - split; [done|]. repeat (constructor; [done|]). by constructor.
  - eexists _, _. done.
Qed.
(** *** Copies of the arguments *)
Lemma copy_resources_wp p r cb user resources n rs borrowed s :
  s_reqs s !! p = Some r -> fresh_req cb user r -> rq_resources r = None ->
  rq_resource_count r = 0 -> array_arg resources rs -> n = zlen rs ->
  wp (copy_resources p resources n borrowed) (fun rc s' => exists r',
    becomes p r' s s' /\ fresh_req cb user r' /\
    rq_guards r' = rq_guards r /\ rq_guard_count r' = rq_guard_count r /\
    rq_metrics_label r' = rq_metrics_label r /\ rq_metrics_label_len r' = rq_metrics_label_len r /\
    (rc <> RCLIENT_OK -> rc = RCLIENT_ERR_NOMEM /\ ~ never_fails W) /\
    (rc = RCLIENT_OK -> array_arg (rq_resources r') rs /\ rq_resource_count r' = zlen rs)) s.
Proof.
  intros Hr Hf E1 E2 Ha ->. unfold copy_resources.
  assert (Hsame : forall s', only_world s s' -> becomes p r s s') by (intros; by apply becomes_world).
  apply wp_if; intros Ez; breflect.
  { wp_step. exists r. split; [apply Hsame, only_world_refl|]. do 6 (split; [done|]). intros _.
    destruct rs; [|simpl in Ez; lia]. by split; [right|]. }
  destruct Ha as [->|[-> ->]]; [|simpl in Ez; lia].
  apply wp_if; intros Eb.
  - wp_step. wp_step. wp_step. eexists. split; [exists (s_world s); by destruct s|].
    split; [by destruct Hf|]. do 5 (split; [done|]). intros _. by split; [left|].
  - wp_step. apply wp_alloc. intros ok w Hal. apply wp_if; intros Eok.
    { wp_step. exists r. split; [by apply Hsame; eexists|]. do 5 (split; [done|]). split; [|csts; lia].
      intros _. split; [done|]. intros Hn. by rewrite Hal in Eok. }
    wp_step. eapply wp_lift; [done|]. wp_step. eapply wp_lift.
    { unfold arr_take. rewrite (proj2 (Z.leb_le 0 _)), (proj2 (Z.leb_le _ _)) by lia. simpl.
      by rewrite Nat2Z.id, firstn_all. }
    wp_step. wp_step. wp_step. eexists. split; [by eexists|].
    split; [by destruct Hf|]. do 5 (split; [done|]). intros _. by split; [left|].
Qed.

Lemma copy_guards_wp p r cb user guards n gs borrowed s :
  s_reqs s !! p = Some r -> fresh_req cb user r -> rq_guards r = None ->
  rq_guard_count r = 0 -> array_arg guards gs -> n = zlen gs ->
  wp (copy_guards p guards n borrowed) (fun rc s' => exists r',
    becomes p r' s s' /\ fresh_req cb user r' /\
    rq_resources r' = rq_resources r /\ rq_resource_count r' = rq_resource_count r /\
    rq_metrics_label r' = rq_metrics_label r /\ rq_metrics_label_len r' = rq_metrics_label_len r /\
    (rc <> RCLIENT_OK -> rc = RCLIENT_ERR_NOMEM /\ ~ never_fails W) /\
    (rc = RCLIENT_OK -> array_arg (rq_guards r') gs /\ rq_guard_count r' = zlen gs)) s.
Proof.
  intros Hr Hf E1 E2 Ha ->. unfold copy_guards.
  assert (Hsame : forall s', only_world s s' -> becomes p r s s') by (intros; by apply becomes_world).
  apply wp_if; intros Ez; breflect.
  { wp_step. exists r. split; [apply Hsame, only_world_refl|]. do 6 (split; [done|]). intros _.
    destruct gs; [|simpl in Ez; lia]. by split; [right|]. }
  destruct Ha as [->|[-> ->]]; [|simpl in Ez; lia].
  apply wp_if; intros Eb.
  - wp_step. wp_step. wp_step. eexists. split; [exists (s_world s); by destruct s|].
    split; [by destruct Hf|]. do 5 (split; [done|]). intros _. by split; [left|].
  - wp_step. apply wp_alloc. intros ok w Hal. apply wp_if; intros Eok.
    { wp_step. exists r. split; [by apply Hsame; eexists|]. do 5 (split; [done|]). split; [|csts; lia].
      intros _. split; [done|]. intros Hn. by rewrite Hal in Eok. }
    wp_step. eapply wp_lift; [done|]. wp_step. eapply wp_lift.
    { unfold arr_take. rewrite (proj2 (Z.leb_le 0 _)), (proj2 (Z.leb_le _ _)) by lia. simpl.
      by rewrite Nat2Z.id, firstn_all. }
    wp_step. wp_step. wp_step. eexists. split; [by eexists|].
    split; [by destruct Hf|]. do 5 (split; [done|]). intros _. by split; [left|].
Qed.

(** The copy of a label, or the borrowed label, sends the same bytes. *)
Lemma effective_label_copy l n bs :
  0 < n -> rd_bytes l 0 n = Ok bs -> (c ← rd l 0; Ok (c =? 0)) = Ok false ->
  effective_label (Some (bs ++ [0])) n = Ok (Some bs).
Proof.
  intros Hn Hb Hc. apply rd_bytes_Ok in Hb as Hl. destruct Hl as (_ & _ & Hle & Hlen).
  assert (Hhead : rd (bs ++ [0]) 0 = rd l 0).
  { unfold rd_bytes in Hb. destruct (in_block _ _ _); [|done]. injection Hb as <-.
    destruct l as [|c l]; [simpl in Hle; lia|]. unfold rd. simpl.
    by destruct (Z.to_nat n) eqn:Ek; [lia|]. }
  unfold effective_label. rewrite Hhead. destruct (rd l 0) as [|c]; [done|]. simpl in Hc |- *.
  injection Hc as ->. rewrite (proj2 (Z.eqb_neq n 0)) by lia. rewrite run_bind_Ok. unfold rd_bytes.
  rewrite (proj2 (in_block_spec _ _ _)) by (rewrite length_app; simpl; lia). simpl.
  rewrite drop_0, take_app_length' by lia. done.
Qed.
Lemma strlen_nonneg l n : strlen l = Ok n -> 0 <= n.
Proof.
  revert n; induction l as [|c l IH]; intros n; simpl; [done|].
  case_if; [intros [= <-]; lia|]. destruct (strlen l) as [|k]; [done|]. intros [= <-].
  specialize (IH k eq_refl). lia.
Qed.

(** The length a label is sent with: positive, and its bytes are there. *)
Lemma label_length l c n ol :
  rd l 0 = Ok c -> (c =? 0) = false -> effective_label (Some l) n = Ok ol ->
  exists m lb, (if n =? 0 then strlen l else Ok n) = Ok m /\ 0 < m /\
    rd_bytes l 0 m = Ok lb /\ ol = Some lb.
Proof.
  intros Hc Hz He. unfold effective_label in He. rewrite Hc in He. simpl in He. rewrite Hz in He.
  destruct (if n =? 0 then strlen l else Ok n) as [|m] eqn:Em; [done|]. simpl in He.
  destruct (rd_bytes l 0 m) as [|lb] eqn:Eb; [done|]. injection He as <-.
  exists m, lb. split; [done|]. split; [|done]. apply rd_bytes_Ok in Eb as (_ & ? & _ & _).
  destruct (Z.eqb_spec n 0); [|injection Em as <-; lia].
  destruct l as [|c' l]; [done|]. injection Hc as ->. simpl in Em. rewrite Hz in Em.
  destruct (strlen l) as [|k] eqn:Ek; [done|]. injection Em as <-. apply strlen_nonneg in Ek. lia.
Qed.

Lemma copy_label_wp p r cb user label n ol borrowed s :
  s_reqs s !! p = Some r -> fresh_req cb user r -> rq_metrics_label r = None ->
  effective_label label n = Ok ol ->
  wp (copy_label p label n borrowed) (fun rc s' => exists r',
    becomes p r' s s' /\ fresh_req cb user r' /\
    rq_resources r' = rq_resources r /\ rq_resource_count r' = rq_resource_count r /\
    rq_guards r' = rq_guards r /\ rq_guard_count r' = rq_guard_count r /\
    (rc <> RCLIENT_OK -> rc = RCLIENT_ERR_NOMEM /\ ~ never_fails W) /\
    (rc = RCLIENT_OK ->
       effective_label (rq_metrics_label r') (rq_metrics_label_len r') = Ok ol)) s.
Proof.
  intros Hr Hf E1 He.
  assert (Hskip : ol = None -> exists r', becomes p r' s s /\ fresh_req cb user r' /\
    rq_resources r' = rq_resources r /\ rq_resource_count r' = rq_resource_count r /\
    rq_guards r' = rq_guards r /\ rq_guard_count r' = rq_guard_count r /\
    (RCLIENT_OK <> RCLIENT_OK -> RCLIENT_OK = RCLIENT_ERR_NOMEM /\ ~ never_fails W) /\
    (RCLIENT_OK = RCLIENT_OK ->
       effective_label (rq_metrics_label r') (rq_metrics_label_len r') = Ok ol)).
  { intros ->. exists r. split; [apply becomes_world; [done|apply only_world_refl]|].
    do 6 (split; [done|]). by rewrite E1. }
  destruct label as [l|]; unfold copy_label; [|wp_step; apply Hskip; by injection He].
  destruct (rd l 0) as [|c] eqn:Ec; [unfold effective_label in He; by rewrite Ec in He|].
  wp_step. eapply wp_lift; [reflexivity|]. apply wp_if; intros Ez.
  { wp_step. apply Hskip. unfold effective_label in He. rewrite Ec in He. simpl in He.
    rewrite Ez in He. by injection He. }
  destruct (label_length l c n ol Ec Ez He) as (m & lb & Em & Hm & Hlb & ->).
  apply (wp_seq _ _ (fun a s' => a = m /\ s' = s)).
  { destruct (n =? 0); [by eapply wp_lift|]. injection Em as <-. by wp_step. }
  intros _ _ [-> ->]. apply wp_if; intros Eb.
  - wp_step. wp_step. wp_step. eexists. split; [exists (s_world s); by destruct s|].
    split; [by destruct Hf|]. do 5 (split; [done|]). intros _. simpl. unfold effective_label.
    rewrite Ec. simpl. rewrite Ez, (proj2 (Z.eqb_neq m 0)) by lia. simpl. by rewrite Hlb.
  - unfold r_strdup_n. rewrite (proj2 (Z.eqb_neq m 0)) by lia.
    apply (wp_seq _ _ (fun d s' => only_world s s' /\ (d = None /\ ~ never_fails W \/ d = Some (lb ++ [0])))).
    { do 3 wp_step. apply wp_alloc. intros ok w Hal. apply wp_if; intros Eok.
      { wp_step. split; [by eexists|]. left. split; [done|]. intros Hn. by rewrite Hal in Eok. }
      wp_step. eapply wp_lift; [exact Hlb|]. wp_step. split; [by eexists|by right]. }
    intros d s1 [Hw [[-> Hnf] | ->]]; cbn [is_null].
    + wp_step. exists r. split; [by apply becomes_world|]. do 5 (split; [done|]). split; [done|csts; lia].
    + destruct Hw as [w ->]. wp_step. wp_step. wp_step. eexists. split; [by eexists|].
      split; [by destruct Hf|]. do 5 (split; [done|]). intros _. simpl.
      eapply effective_label_copy; [done|done|]. rewrite Ec. simpl. by rewrite Ez.
Qed.
(** *** Launch *)

(** The servers a request accepts answers from: the distinct ids of its
    targets, or anyone when some target's id is not known. *)
Definition allowed_ids (es : list r_server_endpoint) : list Z :=
  if existsb (fun e => negb (se_has_server_id e)) es then []
  else foldl (fun ids e => allowed_ids_add ids (se_server_id e)) [] es.

Lemma allowed_ids_u64 es : Forall wf_endpoint es -> Forall is_u64 (allowed_ids es).
Proof.
  intros He. unfold allowed_ids. case_if; [constructor|].
  destruct (allowed_ids_fold es [] ltac:(constructor)) as [_ Hin].
  apply Forall_forall. intros id. rewrite Hin. intros [?|(e & Hel & <-)]; [set_solver|].
  rewrite Forall_forall in He. apply (He e Hel).
Qed.

Lemma snapshot_targets_wp p r s :
  s_reqs s !! p = Some r -> rq_allowed_ids r = [] ->
  wp (r_request_snapshot_targets p) (fun rc s' => exists tg ids,
    becomes p (set_rq_allowed_ids ids (set_rq_targets tg r)) s s' /\
    (rc <> RCLIENT_OK -> cl_servers (s_client s) <> [] -> rc = RCLIENT_ERR_NOMEM /\ ~ never_fails W) /\
    (rc = RCLIENT_OK -> tg = cl_servers (s_client s) /\ ids = allowed_ids (cl_servers (s_client s)))) s.
Proof.
  intros Hr E0. unfold r_request_snapshot_targets. wp_step. wp_step.
  assert (Hsame : forall s' rc, only_world s s' -> rc <> RCLIENT_OK ->
    (cl_servers (s_client s) <> [] -> rc = RCLIENT_ERR_NOMEM /\ ~ never_fails W) -> exists tg ids,
    becomes p (set_rq_allowed_ids ids (set_rq_targets tg r)) s s' /\
    (rc <> RCLIENT_OK -> cl_servers (s_client s) <> [] -> rc = RCLIENT_ERR_NOMEM /\ ~ never_fails W) /\
    (rc = RCLIENT_OK -> tg = cl_servers (s_client s) /\ ids = allowed_ids (cl_servers (s_client s)))).
  { intros s' rc Hw Hrc Hwhy. exists (rq_targets r), (rq_allowed_ids r). split; [|done].
    assert (set_rq_allowed_ids (rq_allowed_ids r) (set_rq_targets (rq_targets r) r) = r) as ->
      by by destruct r. by apply becomes_world. }
  apply wp_if; intros E1; breflect.
  { wp_step. apply Hsame; [apply only_world_refl|csts; lia|]. intros Hne. by destruct (cl_servers (s_client s)). }
  wp_step. apply wp_alloc. intros ok w Hal. apply wp_if; intros Eok; breflect.
  { wp_step. apply Hsame; [by eexists|csts; lia|]. intros _. split; [done|]. intros Hn. by rewrite Hal in Eok. }
  wp_step. wp_step. match goal with |- wp _ _ ?st => set (s1 := st) end.
  assert (Hr1 : s_reqs s1 !! p = Some (set_rq_targets (cl_servers (s_client s)) r))
    by apply lookup_insert_eq.
  apply wp_if; intros Eu; breflect.
  - wp_step. apply wp_alloc. intros ok2 w0 Hal2. apply wp_if; intros Eok2; breflect.
    + wp_step. exists (cl_servers (s_client s)), []. split; [|split; [|csts; lia]].
      2:{ intros _ _. split; [done|]. intros Hn. by rewrite Hal2 in Eok2. }
      exists w0. simpl.
      assert (set_rq_allowed_ids [] (set_rq_targets (cl_servers (s_client s)) r) =
              set_rq_targets (cl_servers (s_client s)) r) as -> by (destruct r; simpl in *; by subst).
      done.
    + wp_step. eapply wp_upd_req; [exact Hr1|]. wp_step. eexists _, _. split; [|split; [done|intros _; split; [done|]]].
      * exists w0. simpl. by rewrite insert_insert_eq.
      * unfold allowed_ids. by rewrite Eu.
  - wp_step. eapply wp_upd_req; [exact Hr1|]. wp_step. eexists _, _.
    split; [|split; [done|intros _; split; [done|]]].
    + exists w. simpl. by rewrite insert_insert_eq.
    + unfold allowed_ids. by rewrite Eu.
Qed.

(** A request as a successful launch leaves it. *)
Record launched (c : client_fixed) (servers : list r_server_endpoint)
    (gs : list r_latency_guard) (rs : list r_resource_request) (ol : option (list Z))
    (cb user : Z) (r : r_client_req) : Prop := {
  la_cb : rq_cb r = cb /\ rq_user r = user;
  la_id : is_uuid4 (rq_request_id r);
  la_targets : rq_targets r = servers;
  la_allowed : rq_allowed_ids r = allowed_ids servers;
  la_round : rq_phase r = R_REQUEST_PHASE_ROUND /\ rq_ha_round r = 0;
  la_best : cd_has (rq_best r) = false;
  la_packet : exists ts, is_u64 ts /\ (rq_start_ms r <> 0 -> ts = rq_start_ms r) /\
    sealed c (ser_tenant (request_tenant c (rq_request_id r) ts)) (request_pdu r gs rs ol)
      (take (Z.to_nat (rq_packet_len r)) (rq_packet r));
  la_ok : req_ok c r;
}.

(** How long a request lives. *)
Definition lifetime (c : client_fixed) : Z := ttl_units (cf_policy c) * rp_unit_ms (cf_policy c).

(** Why a request for known servers is given up before it is in flight, and
    what it had sent by then: the host is out of memory or of random bytes; the
    policy allows no schedule, or the schedule does not fit the clock; the packet
    cannot be built; the lifetime is over before the first round; or that round
    reached no server. *)
Inductive setup_refused (c : client_fixed) (servers : list r_server_endpoint)
    (gs : list r_latency_guard) (rs : list r_resource_request) (ol : option (list Z))
    (cb user : Z) : Z -> list event -> Prop :=
| su_memory : ~ never_fails W -> setup_refused c servers gs rs ol cb user RCLIENT_ERR_NOMEM []
| su_random : ~ sources_work (W := W) -> setup_refused c servers gs rs ol cb user RCLIENT_ERR_AUTH []
| su_policy : policy_valid c = false -> setup_refused c servers gs rs ol cb user RCLIENT_ERR_CONFIG []
| su_clock (w : W) :
    UINT64_MAX - lifetime c < clock c w -> setup_refused c servers gs rs ol cb user RCLIENT_ERR_CONFIG []
| su_packet rc :
    unsealed (W := W) c (8 + zlen (ser_request_body gs rs ol)) rc ->
    setup_refused c servers gs rs ol cb user rc []
| su_expired (w w' : W) :
    clock c w + lifetime c <= clock c w' -> setup_refused c servers gs rs ol cb user RCLIENT_ERR_TIMEOUT []
| su_unsent r tr :
    launched c servers gs rs ol cb user r -> unsent c r false tr ->
    setup_refused c servers gs rs ol cb user RCLIENT_ERR_IO tr.

Lemma setup_refused_fails c servers gs rs ol cb user rc tr :
  setup_refused c servers gs rs ol cb user rc tr -> rc <> RCLIENT_OK.
Proof. destruct 1; try (csts; lia). by eapply unsealed_fails. Qed.

Lemma sealed_length c hdr pdu bytes : sealed c hdr pdu bytes -> zlen hdr <= zlen bytes.
Proof. intros [? ?|nonce ct tag ? ? ? ?]; rewrite length_app; lia. Qed.
(** A request whose arguments are in place. *)
Record staged (cb user : Z) gs rs ol (r : r_client_req) : Prop := {
  sg_fresh : fresh_req cb user r;
  sg_inputs : inputs_ok r gs rs ol;
}.

Lemma begin_lifetime_wp p r cb user gs rs ol s :
  let c := cl_fixed (s_client s) in
  s_reqs s !! p = Some r -> staged cb user gs rs ol r -> cfg_ok c ->
  wp (begin_lifetime p) (fun rc s' => exists r', becomes p r' s s' /\ owner r' = owner r /\
    (rc <> RCLIENT_OK -> forall servers, setup_refused c servers gs rs ol cb user rc []) /\
    (rc = RCLIENT_OK -> (exists w, rq_start_ms r' = clock c w) /\ staged cb user gs rs ol r' /\ is_uuid4 (rq_request_id r') /\
       lifetime_ok c r')) s.
Proof.
  intros c Hr Hst Hc. unfold begin_lifetime.
  eapply wp_seq; [apply generate_request_id_wp|]. intros [rc id] s1 [Hw1 Hid]. cbn [fst snd] in Hid.
  assert (Hr1 : s_reqs s1 !! p = Some r) by by destruct Hw1 as [w ->].
  eapply wp_seq; [by apply (upd_becomes_wp p r)|]. cbv beta. intros _ s2 B2.
  assert (B : becomes p (set_rq_request_id id r) s s2).
  { eapply becomes_trans; [by apply becomes_world|exact B2]. }
  apply wp_if; intros E1; breflect.
  { wp_step. eexists; split; [exact B|]; split; [done|]. split; [|done].
    intros _ ?. destruct Hid as [[? _]|(-> & _ & w & Hn)]; [done|]. apply su_random. intros (_ & Hra & _).
    specialize (Hra 16 w). rewrite Hn in Hra. by destruct Hra. }
  destruct Hid as [[_ Hid]|[-> _]]; [|csts; lia].
  wp_step. apply now_ms_clock. rewrite (becomes_client _ _ _ _ B). fold c.
  set (start := clock c (s_world s2)). pose proof (clock_u64 c (s_world s2)) as Hstart. fold start in Hstart.
  intros s3 Hw3.
  pose proof (becomes_req _ _ _ _ B) as Hr2.
  assert (Hr3 : s_reqs s3 !! p = Some (set_rq_request_id id r)) by by destruct Hw3 as [w ->].
  assert (B3 : becomes p (set_rq_request_id id r) s s3).
  { eapply becomes_trans; [exact B|by apply becomes_world]. }
  eapply wp_seq; [by apply (upd_becomes_wp p (set_rq_request_id id r))|]. cbv beta. intros _ s4 B4.
  assert (B5 := becomes_trans _ _ _ _ _ _ B3 B4). pose proof (becomes_req _ _ _ _ B5) as Hr4.
  wp_step. wp_step. rewrite (becomes_client _ _ _ _ B5). fold c. wp_step.
  eapply wp_lift; [apply request_policy_ttl_spec; apply Hc|].
  destruct (policy_valid c) eqn:Ev; cbv iota beta.
  2:{ wp_step. eapply wp_lift; [done|]. eapply wp_seq; [by apply (upd_becomes_wp p)|].
      cbv beta. intros _ s5 B6. cbn. wp_step. eexists. split; [by eapply becomes_trans|]. split; [done|].
      split; [intros _ ?; by apply su_policy|csts; lia]. }
  wp_step. eapply wp_lift; [done|]. eapply wp_seq; [by apply (upd_becomes_wp p)|].
  cbv beta. intros _ s5 B6. assert (B7 := becomes_trans _ _ _ _ _ _ B5 B6).
  pose proof (becomes_req _ _ _ _ B7) as Hr5. change (RCLIENT_OK =? RCLIENT_OK) with true. cbn [negb orb].
  fold (lifetime c). assert (Httl : 0 < lifetime c).
  { pose proof (ttl_units_pos c (co_policy _ Hc) Ev). unfold policy_valid in Ev. breflect. unfold lifetime. nia. }
  apply wp_if; intros E2; breflect; [lia|].
  apply wp_if; intros E3; breflect.
  { wp_step. eexists; split; [exact B7|]; split; [done|]. split; [|csts; lia]. intros _ ?.
    by apply (su_clock c _ _ _ _ _ _ (s_world s2)). }
  eapply wp_seq; [by apply (upd_becomes_wp p)|]. cbv beta. intros _ s6 B8.
  assert (B9 := becomes_trans _ _ _ _ _ _ B7 B8). wp_step. eexists. split; [exact B9|]. split; [done|].
  split; [done|]. intros _. split; [by eexists|].
  rewrite u64_small by rlia. split; [|split; [done|]].
  - by destruct Hst as [[] []].
  - split; simpl; try done; rlia.
Qed.
Lemma store_packet_wp p r cb user gs rs ol s :
  let c := cl_fixed (s_client s) in
  s_reqs s !! p = Some r -> staged cb user gs rs ol r -> is_uuid4 (rq_request_id r) ->
  lifetime_ok c r -> cfg_ok c ->
  wp (store_packet p) (fun rc s' => exists pk n,
    becomes p (set_rq_packet_len n (set_rq_packet pk r)) s s' /\
    (rc <> RCLIENT_OK -> unsealed (W := W) c (8 + zlen (ser_request_body gs rs ol)) rc) /\
    (rc = RCLIENT_OK -> 0 < n <= zlen pk /\ exists ts, is_u64 ts /\
       (rq_start_ms r <> 0 -> ts = rq_start_ms r) /\
       sealed c (ser_tenant (request_tenant c (rq_request_id r) ts)) (request_pdu r gs rs ol)
         (take (Z.to_nat n) pk))) s.
Proof.
  intros c Hr [Hf Hin] [Hid _] Hl Hc. unfold store_packet. do 2 wp_step.
  pose proof (fr_packet _ _ _ Hf) as Hpk. rewrite Hpk.
  eapply wp_seq; [eapply (rate_request_packet_spec p r gs rs ol); try done; [apply Hc|apply Hl]|].
  fold c. intros [[rc pk] n] s1 [Hw [Hlen [Hok Hno]]].
  assert (Hr1 : s_reqs s1 !! p = Some r) by by destruct Hw as [w ->].
  eapply wp_seq; [by apply (upd_becomes_wp p r)|]. cbv beta. intros _ s2 B2. wp_step.
  eexists pk, _. split; [eapply becomes_trans; [by apply becomes_world|exact B2]|].
  split; [done|]. intros Hrc. destruct (Hok Hrc) as (ts & bytes & Hts & Hteq & Hs & Hn & Hle & Htk).
  rewrite Hrc. cbn [Z.eqb RCLIENT_OK].
  pose proof (sealed_length _ _ _ _ Hs) as Hsl. rewrite ser_tenant_length in Hsl.
  2:{ apply request_tenant_wf; [apply Hc|done|done]. }
  split; [lia|]. exists ts. by rewrite Htk.
Qed.

Definition setup_post p gs rs ol cb user s (rc : Z) s' : Prop :=
  step_frame p s s' /\ exists r' tr, s_reqs s' !! p = Some r' /\ s_trace s' = s_trace s ++ tr /\
  (rc <> RCLIENT_OK -> cl_servers (s_client s) <> [] ->
     setup_refused (cl_fixed (s_client s)) (cl_servers (s_client s)) gs rs ol cb user rc tr) /\
  (rc = RCLIENT_OK ->
     launched (cl_fixed (s_client s)) (cl_servers (s_client s)) gs rs ol cb user r' /\
     sends r' false tr /\ (tr <> [] -> 0 < delivered_count tr)).

Lemma setup_fail p gs rs ol cb user r r' s s' rc :
  s_reqs s !! p = Some r -> becomes p r' s s' -> owner r' = owner r -> rc <> RCLIENT_OK ->
  (cl_servers (s_client s) <> [] ->
     setup_refused (cl_fixed (s_client s)) (cl_servers (s_client s)) gs rs ol cb user rc []) ->
  setup_post p gs rs ol cb user s rc s'.
Proof.
  intros Hr B Ho Hrc Hwhy. split; [by eapply becomes_frame|]. exists r', []. split; [by eapply becomes_req|].
  rewrite app_nil_r. split; [by destruct B as [w ->]|done].
Qed.

(** The first round of a request whose packet and targets are in place. *)
Lemma first_round_wp p r r' gs rs ol cb user s0 s :
  let c := cl_fixed (s_client s0) in
  s_reqs s0 !! p = Some r -> owner r' = owner r -> becomes p r' s0 s -> cfg_ok c -> lifetime_ok c r' ->
  is_u64 (cl_send_failure_count (s_client s0)) -> req_data r' ->
  launched c (cl_servers (s_client s0)) gs rs ol cb user (round_begun c 0 r') ->
  (exists w, rq_start_ms r' = clock c w) ->
  wp (r_start_round p 0) (setup_post p gs rs ol cb user s0) s.
Proof.
  intros c Hr Ho B Hc Hl Hfc Hd Hla Hst. pose proof (becomes_client _ _ _ _ B) as Ec.
  pose proof (becomes_req _ _ _ _ B) as Hr'.
  eapply wp_mono; [apply (start_round_wp p r' 0); rewrite ?Ec; try done; by left|].
  rewrite Ec. fold c. intros rc s' [HF Hs].
  assert (HF' : step_frame p s0 s') by (etransitivity; [by eapply becomes_frame|done]).
  assert (s_trace s = s_trace s0) as Ets by by destruct B as [w ->].
  split; [done|]. destruct Hs as [(-> & Er & Et & Hwhy)|(Er & _ & tr & Et & Hsend)].
  - exists r', []. rewrite Er, Et, Ets, app_nil_r. do 2 (split; [done|]). split; [|csts; lia]. intros _ _.
    destruct Hwhy as [Hlt|Hlate]; [destruct (co_policy _ Hc) as (_ & ? & _); rlia|].
    rewrite (lt_dedup _ _ Hl), (lt_ttl _ _ Hl) in Hlate. destruct Hst as [w0 Ew0]. rewrite Ew0 in Hlate.
    by eapply su_expired.
  - exists (round_begun c 0 r'), tr. rewrite Er, Et, Ets. split; [apply lookup_insert_eq|]. split; [done|].
    destruct Hsend as [(-> & Hsd & Hdel)|(-> & Hun)]; [by split|]. split; [|csts; lia]. intros _ _.
    by eapply su_unsent.
Qed.

Lemma launch_request_wp p r cb user gs rs ol s :
  let c := cl_fixed (s_client s) in
  s_reqs s !! p = Some r -> staged cb user gs rs ol r -> cb <> 0 -> cfg_ok c -> dns_rest s ->
  is_u64 (cl_send_failure_count (s_client s)) ->
  wp (launch_request p) (setup_post p gs rs ol cb user s) s.
Proof.
  intros c Hr Hst Hcb Hc Hdns Hfc. unfold launch_request.
  eapply wp_seq; [by eapply begin_lifetime_wp|]. cbv beta. fold c. intros rc s1 (r1 & B1 & Ho1 & N1 & H1).
  apply wp_if; intros E1; breflect; [wp_step; eapply setup_fail; try done; auto|].
  destruct (H1 E1) as ((w0 & Ew0) & Hst1 & Hid & Hl). pose proof (becomes_client _ _ _ _ B1) as Ec1.
  eapply wp_seq; [eapply (store_packet_wp p r1); rewrite ?Ec1; try done; by eapply becomes_req|].
  cbv beta. rewrite Ec1. fold c. intros rc2 s2 (pk & n & B2 & N2 & H2).
  assert (B := becomes_trans _ _ _ _ _ _ B1 B2). pose proof (becomes_client _ _ _ _ B) as Ec2.
  apply wp_if; intros E2; breflect; [wp_step; eapply setup_fail; try done; intros _; by apply su_packet, N2|].
  destruct (H2 E2) as (Hn & ts & Hts & Hteq & Hs).
  eapply wp_seq; [eapply snapshot_targets_wp; [by eapply becomes_req|apply Hst1]|].
  cbv beta. rewrite Ec2. intros rc3 s3 (tg & ids & B3 & N3 & H3).
  assert (B' := becomes_trans _ _ _ _ _ _ B B3).
  apply wp_if; intros E3; breflect.
  { wp_step. eapply setup_fail; try done. intros Hsv. destruct (N3 E3 Hsv) as [-> ?]. by apply su_memory. }
  destruct (H3 E3) as [-> ->]. set (r3 := set_rq_allowed_ids _ _) in *.
  destruct Hdns as [Hdns _]. destruct Hst1 as [[] Hinp].
  assert (Hd : req_data r3).
  { split; simpl; try done.
    - by rewrite fr_cb0.
    - apply Hid.
    - split; [apply Hdns|]. destruct (di_servers _ _ _ Hdns) as [? ?].
      unfold SERVER_ENDPOINT_SIZE in *. lia.
    - apply allowed_ids_u64, Hdns.
    - by rewrite fr_seen_addrs0.
    - rewrite fr_seen_addrs0, fr_seen_addr_cap0. split; simpl; lia.
    - rewrite fr_seen_ids0, fr_seen_id_cap0. split; simpl; lia.
    - rewrite fr_best0. apply best_zero_ok. }
  assert (Hl3 : lifetime_ok c r3) by by destruct Hl.
  eapply (first_round_wp p r r3); try done; [|by exists w0]. fold c. split; try done.
  - simpl. by rewrite fr_best0.
  - by exists ts.
  - split; [by apply round_begun_data|]. apply round_begun_ok; [apply Hc|done|by left|].
    destruct (co_policy _ Hc) as (_ & ? & _). rlia.
Qed.

Lemma dns_rest_becomes p r s s' : dns_rest s -> becomes p r s s' -> dns_rest s'.
Proof. intros Hd [w ->]. by eapply dns_rest_ext. Qed.

Lemma setup_post_becomes p gs rs ol cb user r r1 s s1 rc s' :
  s_reqs s !! p = Some r -> becomes p r1 s s1 -> owner r1 = owner r ->
  setup_post p gs rs ol cb user s1 rc s' -> setup_post p gs rs ol cb user s rc s'.
Proof.
  intros Hr B Ho [HF Hs]. split; [etransitivity; [by eapply becomes_frame|done]|].
  destruct B as [w ->]. exact Hs.
Qed.

Lemma request_setup_wp p r resources rn guards gn label n gs rs ol cb user borrowed s :
  let c := cl_fixed (s_client s) in
  s_reqs s !! p = Some r -> r = set_rq_user user (set_rq_cb cb req_zero) -> cb <> 0 ->
  args_ok resources rn guards gn label n gs rs ol -> cfg_ok c -> dns_rest s ->
  is_u64 (cl_send_failure_count (s_client s)) ->
  wp (request_setup p resources rn guards gn label n borrowed) (setup_post p gs rs ol cb user s) s.
Proof.
  intros c Hr -> Hcb [A1 A2 A3 A4 A5 A6 A7 A8 A9] Hc Hdns Hfc. unfold request_setup.
  eapply wp_seq; [eapply copy_resources_wp; [exact Hr|..]; try done|].
  cbv beta. intros rc s1 (r1 & B1 & F1 & G1 & G2 & G3 & G4 & N1 & H1).
  pose proof (fresh_owner _ _ _ F1) as O1.
  apply wp_if; intros E1; breflect.
  { wp_step. eapply setup_fail; try done. destruct (N1 E1) as [-> ?]. intros _. by apply su_memory. }
  destruct (H1 E1) as [R1 R2].
  eapply wp_seq; [eapply (copy_guards_wp p r1); [by eapply becomes_req|done|by rewrite G1|by rewrite G2|done|done]|].
  cbv beta. intros rc2 s2 (r2 & B2 & F2 & K1 & K2 & K3 & K4 & N2 & H2).
  assert (B := becomes_trans _ _ _ _ _ _ B1 B2).
  pose proof (fresh_owner _ _ _ F2) as O2.
  apply wp_if; intros E2; breflect.
  { wp_step. eapply setup_fail; try done. destruct (N2 E2) as [-> ?]. intros _. by apply su_memory. }
  destruct (H2 E2) as [R3 R4].
  eapply wp_seq; [eapply (copy_label_wp p r2); [by eapply becomes_req|done|by rewrite K3, G3|done]|].
  cbv beta. intros rc3 s3 (r3 & B3 & F3 & L1 & L2 & L3 & L4 & N3 & H3).
  assert (B' := becomes_trans _ _ _ _ _ _ B B3).
  pose proof (fresh_owner _ _ _ F3) as O3.
  apply wp_if; intros E3; breflect.
  { wp_step. eapply setup_fail; try done. destruct (N3 E3) as [-> ?]. intros _. by apply su_memory. }
  eapply wp_mono; [eapply (launch_request_wp p r3 cb user gs rs ol);
    rewrite ?(becomes_client _ _ _ _ B'); try done|].
  - by eapply becomes_req.
  - split; [done|]. split; rewrite ?L1, ?L2, ?L3, ?L4, ?K1, ?K2; auto.
  - by eapply dns_rest_becomes.
  - cbv beta. intros rc4 s4 Hs. by eapply setup_post_becomes.
Qed.
(** *** The entry point *)

(** The windows the credential's quota allows. *)
Definition windows_ok (c : client_fixed) (rs : list r_resource_request) : bool :=
  negb (cf_has_quotas c) ||
  forallb (fun r => rr_window_size_ms r <=? bq_rate_window_size_ms_max (cf_quotas c)) rs.

Lemma window_loop limit rs pre :
  for_flow (length rs) (zlen pre) (fun i (_ : unit) =>
      l ← deref (Some (pre ++ rs)); r ← elem l i;
      if limit <? rr_window_size_ms r then Ok (Return RCLIENT_ERR_PROTOCOL) else Ok (Next tt)) tt =
  Ok (if forallb (fun r => rr_window_size_ms r <=? limit) rs then Next tt
      else Return RCLIENT_ERR_PROTOCOL).
Proof.
  revert pre; induction rs as [|r rs IH]; intros pre; [done|]. cbn [for_flow length forallb].
  assert (elem (pre ++ r :: rs) (zlen pre) = Ok r) as He.
  { unfold elem. rewrite (proj2 (Z.leb_le 0 _)), Nat2Z.id, lookup_app_r, Nat.sub_diag by lia. done. }
  simpl. rewrite He. simpl. rewrite Z.leb_antisym.
  destruct (limit <? rr_window_size_ms r); simpl; [done|].
  replace (zlen pre + 1) with (zlen (pre ++ [r])) by (rewrite length_app; simpl; lia).
  rewrite <- (IH (pre ++ [r])), <- app_assoc. done.
Qed.

Lemma validate_windows_spec c resources rs :
  array_arg resources rs ->
  r_validate_resource_windows c resources (zlen rs) =
  Ok (if windows_ok c rs then RCLIENT_OK else RCLIENT_ERR_PROTOCOL).
Proof.
  intros Ha. unfold r_validate_resource_windows, r_rate_window_size_quota, windows_ok.
  destruct (cf_has_quotas c); simpl; [|done]. rewrite Nat2Z.id. destruct Ha as [-> | [-> ->]]; [|done].
  pose proof (window_loop (bq_rate_window_size_ms_max (cf_quotas c)) rs []) as Hl. change (zlen []) with 0 in Hl.
  cbn [app] in Hl. rewrite Hl. simpl. by destruct (forallb _ rs).
Qed.

Lemma empty_result_ok : result_ok (Some (mk_result true 0 false None 0 None 0)).
Proof. split; exists []; (split; [by right|done]). Qed.

(** The profile of a request that needs no server. *)
Definition empty_profile (c : client_fixed) : list event :=
  if cf_request_profile_cb c
  then [EvProfile (mk_profile 0 0 R_REQUEST_COMPLETION_ROUND RCLIENT_OK false)] else [].

Lemma admit_empty_wp X cb user s :
  client_inv X s -> cb <> r_admission_complete_ptr ->
  wp (admit_empty cb user) (fun _ s' => client_inv X s' /\ call_frame X s s' /\
    exists tr2, s_trace s' = s_trace s ++ empty_profile (cl_fixed (s_client s)) ++
      EvComplete None cb user RCLIENT_OK (Some (mk_result true 0 false None 0 None 0)) :: tr2) s.
Proof.
  intros HI Hcb. unfold admit_empty. wp_step. wp_step.
  apply (wp_seq _ _ (fun _ s' => client_inv X s' /\ call_frame X s s' /\
                        s_trace s' = s_trace s ++ empty_profile (cl_fixed (s_client s)))).
  { unfold empty_profile. apply wp_if; intros Epr; rewrite ?Epr.
    2:{ wp_step. split; [done|]. split; [reflexivity|by rewrite app_nil_r]. }
    apply profile_wp. intros w.
    destruct (client_inv_note _ X s (set_world w (set_trace (s_trace s ++ [EvProfile
      (mk_profile 0 0 R_REQUEST_COMPLETION_ROUND RCLIENT_OK false)]) s)) HI) as [? ?]; try done.
    - eexists. apply steering_id.
    - eexists. split; [done|]. intros p. by rewrite completions_one. }
  intros _ s1 (HI1 & HF1 & Et). unfold call_complete. wp_step. wp_step. wp_step.
  rewrite (proj2 (Z.eqb_neq _ _)) by done.
  match goal with |- wp _ _ (set_trace (_ ++ [?e]) _) =>
    destruct (client_inv_emit _ X s1 e HI1) as [HI2 HF2]; [done|] end.
  destruct (complete_returns cb user None RCLIENT_OK (Some (mk_result true 0 false None 0 None 0))
    _ X HI2) as (s3 & E3 & HI3 & HF3); [done|apply empty_result_ok|].
  eapply wp_run_hook; [exact E3|]. wp_step.
  destruct (client_inv_emit _ X s3 (EvCompleteReturn None) HI3) as [HI4 HF4]; [done|].
  split; [done|]. split; [by do 3 (etransitivity; [eassumption|])|].
  destruct (ca_trace _ _ _ HF3) as (t3 & E & _). simpl in E |- *.
  exists (t3 ++ [EvCompleteReturn None]). rewrite E, Et, <- !app_assoc. done.
Qed.
Lemma refresh_wp X force s :
  client_inv X s ->
  wp (r_dns_maybe_refresh force) (fun _ s' => client_inv X s' /\ dns_frame s s') s.
Proof.
  intros HI. destruct (ci_dns _ _ _ HI) as [Hd Hr]. destruct (ci_cfg _ _ _ HI).
  eapply wp_mono; [apply maybe_refresh_wp; [done|by split]|].
  simpl. intros _ s' (HI' & HF & HK). split; [|done].
  eapply client_inv_dns; [done| |done]. eapply dns_rest_step; [|done|done]. by split.
Qed.

Lemma client_inv_new X s r :
  client_inv X s ->
  client_inv (X ∪ {[s_next s]})
    (set_next (S (s_next s)) (set_reqs (<[s_next s := r]> (s_reqs s)) s)).
Proof.
  intros [H1 H2 H3 H4 H5 H6 H7 H8 H9 H10 [H11 H12 H13] H14]. set (p := s_next s).
  assert (Hnew : s_reqs s !! p = None).
  { destruct (s_reqs s !! p) eqn:E; [|done]. assert (p < s_next s)%nat by (apply H6; by rewrite E).
    unfold p in *. lia. }
  assert (Hin : forall q, q ∈ cl_inflight (s_client s) -> q <> p).
  { intros q Hq ->. destruct (proj2 (H4 p)) as [x Hx]; [by left|]. by rewrite Hnew in Hx. }
  split; simpl; try done.
  - eapply (dns_rest_ext s); simpl; try done; lia.
  - intros q. destruct (decide (q = p)) as [->|Hne].
    + rewrite lookup_insert_eq. split; [set_solver|eauto].
    + rewrite lookup_insert_ne, H4 by done. set_solver.
  - intros q Hq. specialize (H5 q Hq). specialize (Hin q Hq). set_solver.
  - intros q. destruct (decide (q = p)) as [->|Hne]; [fold p; lia|].
    rewrite lookup_insert_ne by done. intros Hq. specialize (H6 q Hq). fold p in H6. lia.
  - intros q x Hq. rewrite lookup_insert_ne by (intros <-; by eapply Hin). by apply H7.
  - intros q [Hq|Hq]; apply H10; [by left|right; fold p; lia].
  - split; simpl.
    + intros q x Hq. rewrite lookup_insert_ne by (intros <-; by eapply Hin). by apply H11.
    + intros u a q Hu Ha. specialize (H12 u a q Hu Ha).
      rewrite lookup_insert_ne; [done|]. intros <-. by rewrite Hnew in H12.
    + exact H13.
  - intros q Hq He. destruct (decide (q = p)) as [->|Hne].
    + intros u a Hu Ha. specialize (H12 u a p Hu Ha). by rewrite Hnew in H12.
    + apply (H14 q); [set_solver|done].
Qed.

(** *** Where the handle goes *)
Definition out_stored (out : out_ref) (p : option ptr) : out_ref :=
  match out with OutVar _ => OutVar p | _ => out end.
Definition handles_stored (out : out_ref) (p : option ptr) (m : gmap Z r_admission_request)
    : gmap Z r_admission_request :=
  match out with OutHandle u => alter (set_ad_handle p) u m | _ => m end.

(** The library's callback comes with the storage it settles, and only with it. *)
Definition out_ready (cb user : Z) (out : out_ref) s : Prop :=
  match out with
  | OutHandle u => cb = r_admission_complete_ptr /\ u = user /\
      exists a, s_adms s !! u = Some a /\ ad_active a = true /\ ad_handle a = None /\ ad_callback a <> 0
  | _ => cb <> r_admission_complete_ptr
  end.

Lemma out_ready_same cb user out s s' :
  out_ready cb user out s -> s_adms s' = s_adms s -> out_ready cb user out s'.
Proof. unfold out_ready. by intros ? ->. Qed.

Lemma store_req_wp cb user out p s :
  out_ready cb user out s ->
  wp (store_req out p) (fun o s' => o = out_stored out p /\
    s' = set_adms (handles_stored out p (s_adms s)) s) s.
Proof.
  intros Ho. destruct out as [|v|u]; [by destruct s|by destruct s|].
  destruct Ho as (_ & _ & a & Hu & _). unfold store_req. wp_step. wp_step. wp_step. split; [done|].
  simpl. f_equal. apply map_eq. intros v. destruct (decide (v = u)) as [->|Hne].
  - by rewrite lookup_insert_eq, lookup_alter_eq, Hu.
  - by rewrite lookup_insert_ne, lookup_alter_ne.
Qed.

Lemma stored_lookup out p m u a :
  handles_stored out p m !! u = Some a ->
  (m !! u = Some a /\ out <> OutHandle u) \/
  (out = OutHandle u /\ exists a0, m !! u = Some a0 /\ a = set_ad_handle p a0).
Proof.
  destruct out as [|v|v]; simpl; [by left|by left|]. destruct (decide (u = v)) as [->|Hne].
  - rewrite lookup_alter_eq. intros (a0 & Ha & ->)%fmap_Some. right. eauto.
  - rewrite lookup_alter_ne by done. left. split; [done|congruence].
Qed.

Lemma client_inv_link X s p r out :
  client_inv (X ∪ {[p]}) s -> p ∉ X -> s_reqs s !! p = Some r ->
  req_ok (cl_fixed (s_client s)) r -> completions p (s_trace s) = 0%nat ->
  out_ready (rq_cb r) (rq_user r) out s ->
  client_inv X (set_adms (handles_stored out (Some p) (s_adms s))
    (set_client (set_cl_inflight (p :: cl_inflight (s_client s)) (s_client s)) s)).
Proof.
  intros [H1 H2 H3 H4 H5 H6 H7 H8 H9 H10 [H11 H12 H13] H14] HpX Hr Hok Hz Hout. split; simpl; try done.
  - by eapply (dns_rest_ext s).
  - apply NoDup_cons. split; [|done]. intros Hin. apply (H5 p Hin). set_solver.
  - intros q. rewrite H4. set_solver.
  - intros q Hq. apply elem_of_cons in Hq as [->|Hq]; [done|]. specialize (H5 q Hq). set_solver.
  - intros q x Hq Hx. apply elem_of_cons in Hq as [->|Hq]; [|by eapply H7].
    rewrite Hr in Hx. by injection Hx as <-.
  - intros q [Hq|Hq]; [|by apply H10; right].
    apply elem_of_cons in Hq as [->|Hq]; [done|]. apply H10. by left.
  - split; simpl.
    + intros q x Hq Hx Hcb. apply elem_of_cons in Hq as [->|Hq].
      * rewrite Hr in Hx. injection Hx as <-. destruct out as [|v|u]; [done|done|].
        destruct Hout as (_ & -> & a & Ha & Hact & _ & Hcl). exists (set_ad_handle (Some p) a). simpl.
        by rewrite lookup_alter_eq, Ha.
      * destruct (H11 q x Hq Hx Hcb) as (a & Ha & Haw & Hcl). exists a. split; [|done].
        destruct out as [|v|u]; [done|done|]. simpl. rewrite lookup_alter_ne; [done|]. intros ->.
        destruct Hout as (_ & _ & b & Hb & _ & Hn & _). rewrite Ha in Hb. injection Hb as ->.
        destruct Haw as [_ Haw]. congruence.
    + intros u a q Hu Ha. apply stored_lookup in Hu as [[Hu _]|(-> & a0 & Hu & ->)]; [by eapply H12|].
      destruct Ha as [_ [= <-]]. destruct Hout as (Hcb & -> & _). rewrite Hr. simpl. unfold owner. by rewrite Hcb.
    + intros u a Hu. apply stored_lookup in Hu as [[Hu _]|(_ & a0 & Hu & ->)];
        [by apply (H13 u)|by apply (H13 u a0)].
  - intros q Hq He u a Hu Ha. apply stored_lookup in Hu as [[Hu _]|(_ & a0 & _ & ->)].
    + eapply (H14 q); [set_solver|done|done|done].
    + destruct Ha as [_ [= <-]]. done.
Qed.

(** Why a check is refused: no callback; a window wider than the quota allows;
    no server known after the refresh, and another refresh asked for; or the
    request could not be set up. *)
Inductive check_refusal (gs : list r_latency_guard) (rs : list r_resource_request)
    (ol : option (list Z)) (cb user : Z) s : Z -> sys W -> Prop :=
| cr_callback :
    cb = 0 -> check_refusal gs rs ol cb user s RCLIENT_ERR_CONFIG s
| cr_windows :
    cb <> 0 -> gs <> [] \/ rs <> [] -> windows_ok (cl_fixed (s_client s)) rs = false ->
    check_refusal gs rs ol cb user s RCLIENT_ERR_PROTOCOL s
| cr_servers st st' s1 s' :
    cb <> 0 -> gs <> [] \/ rs <> [] -> windows_ok (cl_fixed (s_client s)) rs = true ->
    r_dns_maybe_refresh false s = Ok (st, s1) -> cl_servers (s_client s1) = [] ->
    r_dns_maybe_refresh true s1 = Ok (st', s') ->
    check_refusal gs rs ol cb user s RCLIENT_ERR_DNS s'
| cr_setup st s1 rc tr s' :
    cb <> 0 -> gs <> [] \/ rs <> [] -> windows_ok (cl_fixed (s_client s)) rs = true ->
    r_dns_maybe_refresh false s = Ok (st, s1) -> cl_servers (s_client s1) <> [] ->
    setup_refused (cl_fixed (s_client s)) (cl_servers (s_client s1)) gs rs ol cb user rc tr ->
    s_trace s' = s_trace s1 ++ tr \/ (exists p, s_trace s' = s_trace s1 ++ tr ++ [EvFreeReq p]) ->
    check_refusal gs rs ol cb user s rc s'.

Lemma check_refusal_fails gs rs ol cb user s rc s' :
  check_refusal gs rs ol cb user s rc s' -> rc <> RCLIENT_OK.
Proof. destruct 1; try (csts; lia). by eapply setup_refused_fails. Qed.

(** What one call of the admission API does. *)
Inductive check_step X gs rs ol cb user (out : out_ref) (s : sys W)
  : Z * out_ref -> sys W -> Prop :=
| check_empty s' tr2 :
    cb <> 0 -> gs = [] -> rs = [] -> client_inv X s' -> call_frame X s s' ->
    s_trace s' = s_trace s ++ empty_profile (cl_fixed (s_client s)) ++
      EvComplete None cb user RCLIENT_OK (Some (mk_result true 0 false None 0 None 0)) :: tr2 ->
    check_step X gs rs ol cb user out s (RCLIENT_OK, out_stored out None) s'
| check_refused rc s' :
    check_refusal gs rs ol cb user s rc s' -> client_inv X s' -> call_frame X s s' ->
    s_reqs s' = s_reqs s -> cl_inflight (s_client s') = cl_inflight (s_client s) ->
    s_adms s' = s_adms s ->
    (forall p, completions p (s_trace s') = completions p (s_trace s)) ->
    check_step X gs rs ol cb user out s (rc, out) s'
| check_sent p r tr st s1 s' :
    cb <> 0 -> gs <> [] \/ rs <> [] -> (s_next s <= p)%nat -> client_inv X s' -> call_frame X s s' ->
    r_dns_maybe_refresh false s = Ok (st, s1) -> dns_frame s s1 ->
    s_reqs s' = <[p := r]> (s_reqs s) ->
    s_adms s' = handles_stored out (Some p) (s_adms s) ->
    cl_inflight (s_client s') = p :: cl_inflight (s_client s) ->
    cl_servers (s_client s') <> [] ->
    launched (cl_fixed (s_client s)) (cl_servers (s_client s')) gs rs ol cb user r ->
    s_trace s' = s_trace s1 ++ tr -> sends r false tr -> 0 < delivered_count tr ->
    windows_ok (cl_fixed (s_client s)) rs = true ->
    check_step X gs rs ol cb user out s (RCLIENT_OK, out_stored out (Some p)) s'.

Lemma check_refused_dns X gs rs ol cb user out s s' rc :
  check_refusal gs rs ol cb user s rc s' -> client_inv X s' -> dns_frame s s' ->
  check_step X gs rs ol cb user out s (rc, out) s'.
Proof.
  intros Hrc HI HF. apply check_refused; try done; [by apply call_frame_dns|apply HF|apply HF|apply HF|].
  intros p. destruct (df_trace _ _ HF) as (tr & -> & Hc).
  rewrite completions_app, (cancels_completes p tr) by done. lia.
Qed.
(** A failed set-up leaves no trace in the heap. *)
Lemma setup_free_wp X gs rs ol cb user out p rc s0 s1 s2 s3 :
  client_inv X s0 -> dns_frame s0 s1 -> p = s_next s1 -> client_inv (X ∪ {[p]}) s2 -> p ∉ X ->
  s2 = set_next (S p) (set_reqs (<[p := set_rq_user user (set_rq_cb cb req_zero)]> (s_reqs s1)) s1) ->
  client_inv X s1 -> step_frame p s2 s3 ->
  (forall s4, s_trace s4 = s_trace s3 ++ [EvFreeReq p] -> check_refusal gs rs ol cb user s0 rc s4) ->
  wp (_ ← r_request_free p; mret (rc, out)) (check_step X gs rs ol cb user out s0) s3.
Proof.
  intros HI0 HF0 Ep HI2 HpX E2 HI1 HF3 Hrc.
  assert (HI3 : client_inv (X ∪ {[p]}) s3) by (eapply client_inv_step; [done..|left; set_solver]).
  assert (Hrel : released p s3).
  { eapply (released_same p s1); [eapply released_fresh; [done|lia]|]. by rewrite (sf_adms _ _ _ HF3), E2. }
  assert (Ea3 : s_adms s3 = s_adms s0).
  { by rewrite (sf_adms _ _ _ HF3), E2, <- (df_adms _ _ HF0). }
  eapply wp_seq; [apply free_wp; [by apply client_inv_exempt|done|done]|]. simpl. intros _ s4 (HI4 & HF4 & Er4 & Ec4 & Et4 & Ea4). wp_step.
  assert (Hnone : s_reqs s1 !! p = None).
  { destruct (s_reqs s1 !! p) eqn:E; [|done].
    assert (p < s_next s1)%nat by (apply (ci_fresh _ _ _ HI1); by rewrite E). lia. }
  assert (Hreqs : s_reqs s4 = s_reqs s1).
  { apply map_eq. intros q. rewrite Er4. destruct (decide (q = p)) as [->|Hne].
    - by rewrite lookup_delete_eq.
    - rewrite lookup_delete_ne, (sf_reqs _ _ _ HF3), E2 by done. simpl. by rewrite lookup_insert_ne. }
  destruct (sf_trace _ _ _ HF3) as (tr & Et3 & Hq). destruct (df_trace _ _ HF0) as (t0 & Et0 & Hc0).
  pose proof (sf_inflight _ _ _ HF3) as Ei3. rewrite E2 in Ei3, Et3. simpl in Ei3, Et3.
  assert (Hcompl : forall q, completions q (s_trace s4) = completions q (s_trace s0)).
  { intros q. rewrite Et4, Et3, Et0, !completions_app, (quiet_completes q tr Hq), completions_one.
    rewrite (cancels_completes q t0) by done. simpl. lia. }
  apply check_refused; [by apply Hrc|done|..].
  - split.
    + rewrite Ec4, (sf_fixed _ _ _ HF3), E2. simpl. apply HF0.
    + intros q Hq'. rewrite Hreqs. by rewrite (df_reqs _ _ HF0).
    + pose proof (ca_next _ _ _ HF4). rewrite (sf_next _ _ _ HF3), E2 in *. simpl in *.
      pose proof (df_next _ _ HF0). lia.
    + intros q. rewrite Ec4, Ei3, (df_inflight _ _ HF0). by left.
    + exists (t0 ++ tr ++ [EvFreeReq p]). rewrite Et4, Et3, Et0, <- !app_assoc. split; [done|].
      intros q _ _. specialize (Hcompl q). rewrite Et4, Et3, Et0, <- !app_assoc in Hcompl.
      rewrite completions_app in Hcompl. lia.
    + intros q _ Hf. eapply released_same; [done|]. by rewrite Ea4.
  - by rewrite Hreqs, (df_reqs _ _ HF0).
  - by rewrite Ec4, Ei3, (df_inflight _ _ HF0).
  - by rewrite Ea4.
  - exact Hcompl.
Qed.

Lemma admit_request_wp X st resources rn guards gn label n gs rs ol cb user out borrowed s0 s1 :
  client_inv X s0 -> r_dns_maybe_refresh false s0 = Ok (st, s1) -> dns_frame s0 s1 -> client_inv X s1 ->
  args_ok resources rn guards gn label n gs rs ol -> cb <> 0 -> gs <> [] \/ rs <> [] -> out_ready cb user out s0 ->
  cl_servers (s_client s1) <> [] -> windows_ok (cl_fixed (s_client s0)) rs = true ->
  wp (admit_request resources rn guards gn label n cb user out borrowed)
    (check_step X gs rs ol cb user out s0) s1.
Proof.
  intros HI0 Href HF0 HI1 Ha Hcb Hsome Hout Hsrv Hwin. unfold admit_request. wp_step.
  apply wp_alloc. intros ok w Hal.
  assert (Hw : dns_frame s0 (set_world w s1)) by (etransitivity; [done|apply dns_frame_world]).
  assert (HIw : client_inv X (set_world w s1)) by (eapply client_inv_world; [done|by eexists]).
  apply wp_if; intros Eok; breflect.
  { wp_step. apply check_refused_dns; [|done|done]. eapply (cr_setup _ _ _ _ _ _ st s1 _ []); try done.
    - apply su_memory. intros Hn. by rewrite Hal in Eok.
    - left. by rewrite app_nil_r. }
  assert (Etw : s_trace (set_world w s1) = s_trace s1) by done.
  assert (Ecw : cl_fixed (s_client (set_world w s1)) = cl_fixed (s_client s0)) by apply HF0.
  clear HI1. remember (set_world w s1) as sw eqn:Esw.
  assert (Hsrvw : cl_servers (s_client sw) = cl_servers (s_client s1)) by by subst.
  wp_step. apply wp_new_req. set (p := s_next sw).
  set (r0 := set_rq_user user (set_rq_cb cb req_zero)).
  pose proof (client_inv_new X sw r0 HIw) as HI2. fold p in HI2 |- *.
  set (s2 := set_next _ _) in *.
  assert (HpX : p ∉ X).
  { intros Hin. assert (p < s_next sw)%nat by (apply (ci_fresh _ _ _ HIw), (ci_live _ _ _ HIw); by right).
    unfold p in *. lia. }
  eapply wp_seq; [apply (request_setup_wp p r0 resources rn guards gn label n gs rs ol cb user);
    [apply lookup_insert_eq|done|done|done|apply HI2|apply HI2|apply HI2]|].
  intros rc s3 [HF3 (r' & tr & Hr' & Et & Hno & Hok)].
  change (cl_fixed (s_client s2)) with (cl_fixed (s_client sw)) in Hno.
  change (cl_servers (s_client s2)) with (cl_servers (s_client sw)) in Hno.
  change (s_trace s2) with (s_trace sw) in Et. rewrite Hsrvw, Ecw in Hno. rewrite Etw in Et.
  apply wp_if; intros E; breflect.
  { eapply (setup_free_wp X _ _ _ _ _ _ p rc s0 sw s2); try done. intros s4 Et4.
    eapply (cr_setup _ _ _ _ _ _ st s1 _ tr); try done; [by apply Hno|]. right. exists p. by rewrite Et4, Et, <- app_assoc. }
  destruct (Hok E) as [Hla [Hs Hdel]]. wp_step. wp_step.
  assert (HI3 : client_inv (X ∪ {[p]}) s3) by (eapply client_inv_step; [done..|left; set_solver]).
  assert (Hz : completions p (s_trace s3) = 0%nat).
  { rewrite Et, <- Etw, completions_app, (quiet_completes p tr) by by eapply sends_quiet.
    rewrite (ci_waiting _ _ _ HIw); [done|right; unfold p; lia]. }
  pose proof (sf_inflight _ _ _ HF3) as Ei. pose proof (sf_fixed _ _ _ HF3) as Ef. simpl in Ei, Ef.
  destruct (sf_client _ _ _ HF3) as (nf & Ecl & _).
  assert (Hreqs : s_reqs s3 = <[p := r']> (s_reqs s0)).
  { apply map_eq. intros q. destruct (decide (q = p)) as [->|Hne]; [by rewrite lookup_insert_eq|].
    rewrite lookup_insert_ne, (sf_reqs _ _ _ HF3) by done. simpl.
    by rewrite lookup_insert_ne, (df_reqs _ _ Hw) by done. }
  pose proof (la_ok _ _ _ _ _ _ _ _ Hla) as Hrok. simpl in Hla, Hrok.
  assert (Hnext : (s_next s0 <= p)%nat) by (unfold p; apply Hw).
  assert (Ea3 : s_adms s3 = s_adms s0).
  { rewrite (sf_adms _ _ _ HF3). apply Hw. }
  eapply wp_seq; [apply (store_req_wp cb user); by eapply out_ready_same|].
  intros _ _ [-> ->]. wp_step. simpl.
  eapply (check_sent X _ _ _ _ _ _ _ p r' tr st s1); simpl; try done.
  - rewrite Ea3. rewrite <- Ea3 at 1. apply (client_inv_link X s3 p r'); try done; [by rewrite Ef|].
    destruct (la_cb _ _ _ _ _ _ _ _ Hla) as [-> ->]. by eapply out_ready_same.
  - destruct (df_trace _ _ Hw) as (t0 & Et0 & Hc0). split; simpl.
    + rewrite Ef. apply Hw.
    + intros q Hq. rewrite Hreqs, lookup_insert_ne; [done|]. by intros ->.
    + rewrite (sf_next _ _ _ HF3). simpl. fold p. lia.
    + intros q Hq. apply elem_of_cons in Hq as [->|Hq]; [by right|]. left.
      by rewrite Ei, (df_inflight _ _ Hw) in Hq.
    + exists (t0 ++ tr). rewrite Et, <- Etw, Et0, app_assoc. split; [done|]. intros q _ _.
      rewrite completions_app, (quiet_completes q tr) by by eapply sends_quiet.
      by rewrite (cancels_completes q t0).
    + intros q Hq Hf u a Hu Hav. apply stored_lookup in Hu as [[Hu _]|(-> & a0 & _ & ->)].
      * rewrite Ea3 in Hu. by destruct (Hf u a).
      * destruct Hav as [_ [= <-]]. lia.
  - by rewrite Ea3.
  - by rewrite Ei, (df_inflight _ _ Hw).
  - rewrite Ecl. simpl. by rewrite Hsrvw.
  - rewrite Ecl. simpl. rewrite (df_fixed _ _ Hw) in Hla. done.
  - apply Hdel. intros ->. apply Forall2_nil_inv_r in Hs. unfold send_targets in Hs. cbv iota in Hs.
    rewrite (la_targets _ _ _ _ _ _ _ _ Hla) in Hs. by rewrite Hsrvw in Hs.
Qed.
Lemma array_arg_given {A} (a : option (list A)) l :
  array_arg a l -> (0 <? zlen l) && is_null a = false.
Proof. by intros [->|[-> ->]]; rewrite ?andb_false_r. Qed.

(** A run as its result. *)
Lemma wp_result {A} (m : M W A) (Q : A -> sys W -> Prop) s :
  wp m Q s -> wp m (fun a s' => m s = Ok (a, s') /\ Q a s') s.
Proof. unfold wp. destruct (m s) as [|[a s']]; [done|auto]. Qed.

Lemma check_async_wp X resources rn guards gn label n gs rs ol cb user out borrowed s :
  client_inv X s -> args_ok resources rn guards gn label n gs rs ol -> out_ready cb user out s ->
  (cb = r_admission_complete_ptr -> gs <> []) ->
  wp (r_client_check_rate_limit_async_impl resources rn guards gn label n cb user out borrowed)
    (check_step X gs rs ol cb user out s) s.
Proof.
  intros HI Ha Hout Hne. unfold r_client_check_rate_limit_async_impl.
  assert (Hrefl : dns_frame s s) by reflexivity.
  apply wp_if; intros Ecb; breflect; [wp_step; apply check_refused_dns; [by apply cr_callback|done|done]|].
  destruct (Ha) as [A1 -> A3 A4 A5 -> A7 A8 A9].
  rewrite !(array_arg_given _ _) by done. cbv iota.
  apply wp_if; intros E0.
  { breflect. destruct rs; [|simpl in *; lia]. destruct gs; [|simpl in *; lia].
    assert (Hcb : cb <> r_admission_complete_ptr) by (intros E; by apply Hne in E).
    eapply wp_seq; [by apply (store_req_wp cb user)|]. intros _ _ [-> ->].
    replace (set_adms _ s) with s by (destruct s, out; [done|done|by destruct Hout]).
    eapply wp_seq; [by apply (admit_empty_wp X)|]. simpl. intros _ s' (HI' & HF' & tr2 & Et).
    wp_step. by eapply check_empty. }
  assert (Hsome : gs <> [] \/ rs <> []).
  { destruct gs; [|by left]. destruct rs; [|by right]. done. }
  wp_step. wp_step. wp_step. eapply wp_lift; [by apply validate_windows_spec|].
  destruct (windows_ok (cl_fixed (s_client s)) rs) eqn:Ew.
  2:{ cbn. wp_step. apply check_refused_dns; [by apply cr_windows|done|done]. }
  rc_ok. eapply wp_seq; [apply wp_result; by apply (refresh_wp X)|]. simpl. intros st s1 [Href [HI1 HF1]].
  wp_step. wp_step. apply wp_if; intros Es; breflect.
  - eapply wp_seq; [apply wp_result; by apply (refresh_wp X)|]. simpl. intros st2 s2 [Href2 [HI2 HF2]]. wp_step.
    apply check_refused_dns; [|done|by etransitivity]. eapply cr_servers; try done.
    by destruct (cl_servers (s_client s1)).
  - eapply admit_request_wp; try done. intros E. by rewrite E in Es.
Qed.

(** *** Latency reports *)
Lemma report_loop_wp servers packet d s :
  wp (report_loop servers packet d) (fun n s' => exists tr w,
    s' = set_trace (s_trace s ++ tr) (set_world w s) /\
    Forall2 (is_send_to packet) servers tr /\
    (0 <= d -> d + zlen servers < 2 ^ 63 -> n = d + delivered_count tr)) s.
Proof.
  revert d s; induction servers as [|t ts IH]; intros d s; cbn [report_loop].
  { wp_step. exists [], (s_world s). rewrite app_nil_r. split; [by destruct s|]. split; [constructor|].
    intros _ _. unfold delivered_count. simpl. lia. }
  wp_step. apply udp_send_wp. intros rc w. eapply wp_mono; [apply IH|]. simpl.
  intros n s' (tr & w' & -> & Htr & Hn). exists (EvSend (se_addr t) packet rc :: tr), w'.
  split; [by rewrite <- app_assoc|]. split; [constructor; [by eexists|done]|].
  intros Hd Hb. rewrite delivered_count_cons. simpl. pose proof (b2z_range (rc =? 0)).
  destruct (rc =? 0); simpl in *; [rewrite u64_small in Hn by rlia|]; rewrite Hn by lia; lia.
Qed.
Lemma report_packet_wp c reports rs s :
  cl_fixed (s_client s) = c -> auth_ok c -> array_arg reports rs ->
  Forall wf_latency_report rs -> is_object rs ->
  wp (report_packet c reports (zlen rs)) (fun res s' =>
    only_world s s' /\ let '(rc, out', n) := res in
    rc = RCLIENT_OK -> exists id ts bytes, is_uuid4 id /\ is_u64 ts /\
      sealed c (ser_tenant (request_tenant c id ts))
        (ser_pdu R_PDU_LATENCY_REPORT (ser_report_body rs)) bytes /\
      zlen bytes <= R_MAX_PACKET_SIZE /\ rd_bytes out' 0 n = Ok bytes) s.
Proof.
  intros <- Hauth Ha Hw Hob. unfold report_packet. set (c := cl_fixed (s_client s)) in *.
  assert (Hno : forall rc o n s', rc <> RCLIENT_OK -> only_world s s' ->
    only_world s s' /\ (rc = RCLIENT_OK -> exists id ts bytes, is_uuid4 id /\ is_u64 ts /\
      sealed c (ser_tenant (request_tenant c id ts))
        (ser_pdu R_PDU_LATENCY_REPORT (ser_report_body rs)) bytes /\
      zlen bytes <= R_MAX_PACKET_SIZE /\ rd_bytes o 0 n = Ok bytes)) by by intros.
  assert (Hso : is_object stack_buffer) by (unfold is_object; rewrite stack_buffer_len; clia).
  assert (Hfit : report_fits rs (zlen stack_buffer) = true ->
                 zlen (ser_report_body rs) <= R_MAX_PACKET_SIZE).
  { intros Hf. unfold report_fits in Hf. breflect. pose proof stack_buffer_len. lia. }
  destruct (built_stack _ _ _ (latency_report_body_built reports rs stack_buffer
    (zlen stack_buffer) 0 Ha Hw Hob Hso ltac:(lia)) Hfit) as (body & Eb & Hbl & Hb).
  wp_step. eapply wp_lift; [exact Eb|]. destruct (report_fits rs _) eqn:Ef.
  2:{ cbn. wp_step. apply Hno; [csts; lia|apply only_world_refl]. }
  specialize (Hb eq_refl). rc_ok. wp_step. eapply wp_lift; [done|].
  assert (Hbo : is_object body) by (unfold is_object; rewrite Hbl; clia).
  assert (Hfit' : pdu_fits (ser_report_body rs) (zlen stack_buffer) = true ->
                  zlen (ser_pdu R_PDU_LATENCY_REPORT (ser_report_body rs)) <= R_MAX_PACKET_SIZE).
  { intros Hf. unfold pdu_fits in Hf. breflect. pose proof stack_buffer_len.
    unfold ser_pdu. rewrite !length_app, !le_length. lia. }
  destruct (built_stack _ _ _ (pdu_built R_PDU_LATENCY_REPORT body (ser_report_body rs)
    stack_buffer (zlen stack_buffer) 0 Hb Hbo Hso ltac:(lia)) Hfit') as (pdu & Ep & Hpl & Hpdu).
  wp_step. eapply wp_lift; [exact Ep|]. destruct (pdu_fits _ _) eqn:Epf.
  2:{ cbn. wp_step. apply Hno; [csts; lia|apply only_world_refl]. }
  specialize (Hpdu eq_refl). rc_ok. do 2 (wp_step; eapply wp_lift; [done|]).
  eapply wp_seq; [apply generate_request_id_wp|]. intros [rc id] s1 [Hw1 Hid]. cbn [fst snd] in Hid.
  apply wp_if; intros E1; breflect; [wp_step; by apply Hno|].
  destruct Hid as [[_ Hid]|[-> _]]; [|csts; lia].
  wp_step. apply now_ms_wp. intros ts s2 Hts Hw2.
  fold (request_tenant c id ts).
  pose proof (request_tenant_wf _ _ _ Hauth (proj1 Hid) Hts) as Hwf.
  destruct (wr_defined stack_buffer 0 (ser_tenant (request_tenant c id ts))) as [out1 H1];
    [lia | rewrite ser_tenant_length, stack_buffer_len by done; clia|].
  wp_step. eapply wp_lift.
  { rewrite tenant_header_write_wr by (done || lia). rewrite H1. done. }
  wp_step. eapply wp_lift; [done|]. rewrite stack_buffer_len.
  eapply wp_mono; [eapply seal_packet_wp; [done | by apply ser_tenant_length | exact H1 |
                     apply stack_buffer_len | exact Hpdu|]|].
  { apply rd_bytes_Ok in Hpdu as (_ & ? & ? & _). lia. }
  intros [[rc' out'] n] s3 [Hw3 [Hl3 [Hok _]]].
  split; [eapply only_world_trans; [exact Hw1|]; by eapply only_world_trans|]. intros Hrc.
  destruct (Hok Hrc) as (bytes & Hs & Hwr & -> & Hlen). exists id, ts, bytes.
  do 4 (split; [done|]). by eapply rd_bytes_wr0.
Qed.

(** A report that was accepted left once for every known server. *)
Definition report_post X rs s (rc : Z) s' : Prop :=
  client_inv X s' /\ call_frame X s s' /\ s_reqs s' = s_reqs s /\ s_adms s' = s_adms s /\
  (rc = RCLIENT_OK -> exists s1 id ts bytes tr, dns_frame s s1 /\
     is_uuid4 id /\ is_u64 ts /\
     sealed (cl_fixed (s_client s)) (ser_tenant (request_tenant (cl_fixed (s_client s)) id ts))
       (ser_pdu R_PDU_LATENCY_REPORT (ser_report_body rs)) bytes /\
     zlen bytes <= R_MAX_PACKET_SIZE /\
     s_trace s' = s_trace s1 ++ tr /\
     Forall2 (is_send_to bytes) (cl_servers (s_client s')) tr /\ 0 < delivered_count tr /\
     cl_servers (s_client s') <> []).
(** Steps that touch no request at all. *)
Lemma client_inv_sends X s be a d tr w :
  client_inv X s -> 0 <= a < 2 ^ 63 -> 0 <= d -> Forall (fun e => quiet e = true) tr ->
  let s' := set_client (count_failures be a d (s_client s))
              (set_trace (s_trace s ++ tr) (set_world w s)) in
  client_inv X s' /\ call_frame X s s'.
Proof.
  intros HI Ha Hd Hq s'. pose proof (step_frame_send (s_next s) s be a d tr w Ha Hd Hq) as HF.
  fold s' in HF. assert (Hn : s_reqs s !! s_next s = None).
  { destruct (s_reqs s !! s_next s) eqn:E; [|done].
    assert (s_next s < s_next s)%nat by (apply (ci_fresh _ _ _ HI); by rewrite E). lia. }
  split.
  - eapply client_inv_step; [done..|]. right. simpl. by rewrite Hn.
  - apply (call_frame_step X (s_next s)); [done|by right].
Qed.

Lemma report_latency_wp X reports rs s :
  client_inv X s -> array_arg reports rs -> Forall wf_latency_report rs -> is_object rs ->
  wp (r_client_report_latency reports (zlen rs)) (report_post X rs s) s.
Proof.
  intros HI Ha Hw Hob. unfold r_client_report_latency.
  assert (Hno : forall rc s', rc <> RCLIENT_OK -> client_inv X s' -> dns_frame s s' ->
    report_post X rs s rc s').
  { intros rc s' Hrc HI' HF. split; [done|]. split; [by apply call_frame_dns|]. split; [apply HF|]. split; [apply HF|done]. }
  apply wp_if; intros E0; [wp_step; apply Hno; [csts; lia|done|reflexivity]|].
  wp_step. wp_step. apply wp_if; intros E1; [wp_step; apply Hno; [csts; lia|done|reflexivity]|].
  eapply wp_seq; [by apply (refresh_wp X)|]. simpl. intros _ s1 [HI1 HF1]. wp_step. wp_step.
  apply wp_if; intros Es; breflect.
  { eapply wp_seq; [by apply (refresh_wp X)|]. simpl. intros _ s2 [HI2 HF2]. wp_step.
    apply Hno; [csts; lia|done|by etransitivity]. }
  eapply wp_seq; [apply (report_packet_wp _ reports rs s1); [apply HF1|apply HI|done..]|].
  intros [[rc pk] n] s2 [[w2 ->] Hpk].
  assert (HF2 : dns_frame s (set_world w2 s1)) by (etransitivity; [exact HF1|apply dns_frame_world]).
  assert (HI2 : client_inv X (set_world w2 s1)) by (eapply client_inv_world; [done|by eexists]).
  apply wp_if; intros E2; breflect; [wp_step; by apply Hno|].
  destruct (Hpk E2) as (id & ts & bytes & Hid & Hts & Hs & Hlen & Hrd).
  wp_step. eapply wp_lift; [exact Hrd|]. wp_step. wp_step.
  eapply wp_seq; [apply report_loop_wp|]. cbv beta.
  intros d s3 (tr & w3 & -> & Htr & Hd). simpl in Htr, Hd. simpl s_client.
  destruct (di_servers _ _ _ (proj1 (ci_dns _ _ _ HI1))) as [Hsc Hcap].
  assert (Hsz : zlen (cl_servers (s_client s1)) < 2 ^ 63) by (unfold SERVER_ENDPOINT_SIZE in *; lia).
  rewrite Hd, !Z.add_0_l by lia. pose proof (delivered_count_le tr). apply Forall2_length in Htr as Hl2.
  assert (Hsends : forall be, let s' := set_client (count_failures be (zlen (cl_servers (s_client s1)))
            (delivered_count tr) (s_client s1)) (set_trace (s_trace s1 ++ tr) (set_world w3 s1)) in
            client_inv X s' /\ call_frame X s s').
  { intros be s'. destruct (client_inv_sends X s1 be (zlen (cl_servers (s_client s1)))
      (delivered_count tr) tr w3 HI1) as [HA HB]; [lia|lia|by eapply send_to_quiet|].
    split; [exact HA|]. transitivity s1; [by apply call_frame_dns|exact HB]. }
  rewrite zltb_true by lia. cbn [andb]. apply wp_if; intros E3; breflect.
  - destruct (Hsends true) as [HA HB]. wp_step. split; [exact HA|]. split; [exact HB|].
    split; [apply HF1|]. split; [apply HF1|csts; lia].
  - apply (wp_seq _ _ (fun _ s' => s' = set_client (count_failures false
      (zlen (cl_servers (s_client s1))) (delivered_count tr) (s_client s1))
      (set_trace (s_trace s1 ++ tr) (set_world w3 s1)))).
    { unfold count_failures. rewrite (zltb_true 0) by lia. cbn [andb negb].
      apply wp_if; intros E4; [|wp_step; by rewrite E4].
      rewrite E4. breflect. rewrite u64_small by rlia.
      apply record_send_failures_wp; [lia|apply HI1|done]. }
    intros _ s4 ->. wp_step. destruct (Hsends false) as [HI4 HF4].
    split; [done|]. split; [done|]. split; [apply HF1|]. split; [apply HF1|]. intros _.
    exists (set_world w2 s1), id, ts, bytes, tr.
    assert (Hcs : cl_servers (count_failures false (zlen (cl_servers (s_client s1)))
              (delivered_count tr) (s_client s1)) = cl_servers (s_client s1))
      by (unfold count_failures; by case_if).
    simpl. rewrite Hcs. do 7 (split; [done|]). split; [lia|]. intros E. by rewrite E in Es.
Qed.
End Admission.
