(* ===== verification/WorkflowFacts.v ===== *)
(** * The admission workflow on top of the client

    What each storage operation of src/r_client_workflow.c does.  The client's
    invariant contains the link between active storages and requests in flight
    (Lifecycle.v), so these proofs are also proofs that no operation follows a
    stale handle. *)

From Stdlib Require Import String Ascii.
From S2P Require Import Prelude.
From S2P Require Import Types.
From S2P Require Import Wire.
From S2P Require Import WireFacts.
From S2P Require Import Crypto.
From S2P Require Import CryptoFacts.
From S2P Require Import KeyFacts.
From S2P Require Import Ids.
From S2P Require Import Workflow.
From S2P Require Import State.
From S2P Require Import Hoare.
From S2P Require Import Schedule.
From S2P Require Import Dns.
From S2P Require Import DnsFacts.
From S2P Require Import Request.
From S2P Require Import RequestFacts.
From S2P Require Import PacketFacts.
From S2P Require Import Client.
From S2P Require Import WorkflowOps.
From S2P Require Import Lifecycle.
From S2P Require Import Completion.
From S2P Require Import Datagram.
From S2P Require Import Admission.

(** ** Configurations *)
Record admission_ok (c : r_admission_config) : Prop := {
  ak_bucket : from_option is_cstring True (ac_bucket_name c);
  ak_tracker : from_option is_cstring True (ac_latency_tracker_name c);
  ak_label : from_option is_cstring True (ac_metrics_label c);
  ak_window : is_u32 (ac_window_size_ms c);
  ak_rate : is_u32 (ac_rate_limit c);
  ak_tokens : is_u16 (ac_tokens_requested c);
  ak_threshold : is_u32 (ac_latency_threshold_ms c);
  ak_ttl : is_u32 (ac_latency_ttl_ms c);
  ak_samples : is_u32 (ac_latency_max_samples c);
  ak_min : is_u32 (ac_latency_min_sample_threshold c);
}.

(** The characters of a C string. *)
Definition spells (s : option (list Z)) (text : list Z) : Prop :=
  exists rest, s = Some (text ++ 0 :: rest) /\ (0 ∉ text).

Definition complete_config (c : r_admission_config) : Prop :=
  (exists t, spells (ac_bucket_name c) t /\ t <> []) /\
  (exists t, spells (ac_latency_tracker_name c) t /\ t <> []) /\
  0 < ac_window_size_ms c /\ 0 < ac_rate_limit c /\ 0 < ac_tokens_requested c /\
  0 < ac_latency_threshold_ms c /\ 0 < ac_latency_ttl_ms c /\
  0 < ac_latency_max_samples c /\ 0 < ac_latency_min_sample_threshold c.

Lemma cstring_spells s : is_cstring s -> exists text, spells (Some s) text /\ strlen s = Ok (zlen text).
Proof. intros [_ Hin]. destruct (cstring_split s Hin) as (t & r & -> & Hn & Hs). exists t. split; [by exists r|done]. Qed.

Lemma spells_unique s t t' : spells s t -> spells s t' -> t = t'.
Proof.
  intros (r & -> & Hn) (r' & [= E] & Hn'). revert t' E Hn'.
  induction t as [|c t IH]; intros [|d t'] E Hn'; [done| | |].
  - injection E as <- _. set_solver.
  - injection E as -> _. set_solver.
  - injection E as -> E. f_equal. apply IH; [set_solver|done|set_solver].
Qed.

Lemma nonempty_spec s :
  from_option is_cstring True s ->
  exists b, nonempty s = Ok b /\ (b = true <-> exists t, spells s t /\ t <> []).
Proof.
  destruct s as [s|]; intros Hs.
  - destruct (cstring_spells s Hs) as (t & Ht & _). pose proof Ht as (r & [= ->] & Hn).
    destruct t as [|c t]; simpl.
    + exists false. split; [done|]. split; [done|]. intros (t' & Ht' & Hne).
      by rewrite (spells_unique _ _ _ Ht Ht') in Hne.
    + exists true. unfold rd. simpl. rewrite (proj2 (Z.eqb_neq c 0)) by set_solver. split; [done|].
      split; [|done]. intros _. by exists (c :: t).
  - exists false. split; [done|]. split; [done|]. by intros (t & (r & ? & _) & _).
Qed.

Lemma config_valid_spec c :
  admission_ok c ->
  exists b, r_admission_config_valid (Some c) = Ok b /\ (b = true <-> complete_config c).
Proof.
  intros [Hb Ht _ _ _ _ _ _ _ _]. unfold r_admission_config_valid.
  destruct (nonempty_spec _ Hb) as (b1 & -> & H1), (nonempty_spec _ Ht) as (b2 & E2 & H2).
  cbn [mbind run_bind]. destruct b1; cbn [negb].
  2:{ exists false. split; [done|]. split; [done|]. intros (Hc & _). by apply H1 in Hc. }
  rewrite E2. cbn [mbind run_bind]. destruct b2; cbn [negb].
  2:{ exists false. split; [done|]. split; [done|]. intros (_ & Hc & _). by apply H2 in Hc. }
  eexists. split; [done|]. rewrite !andb_true_iff, !Z.ltb_lt. unfold complete_config. tauto.
Qed.

(** ** Derived ids *)
Section Derive.
Context {ssl : OpenSSL} {laws : DigestLaws ssl}.

Definition named (text : list Z) : bool := zlen text <=? UINT32_MAX.

(** Derivation from a C string: the digest's first 16 bytes, or an error. *)
Definition derived_id (text pre : list Z) : option (list Z) :=
  if named text then take 16 <$> EVP_blake2s256 [pre] else None.

Lemma derived_id16 text pre id : derived_id text pre = Some id -> is_id16 id.
Proof.
  unfold derived_id. case_if; [|done]. intros (d & Hd & ->)%fmap_Some.
  apply digest_length in Hd as [Hl Hb]. split; [rewrite length_take; lia|by apply Forall_take].
Qed.

Lemma hash_too_long domain dlen name n fs k out :
  UINT32_MAX < n -> r_hash_content_id_blake2s_128 (Some domain) dlen (Some name) n fs k (Some out) = Ok (-1, Some out).
Proof.
  intros Hn. unfold r_hash_content_id_blake2s_128. rewrite (zltb_true UINT32_MAX) by lia.
  by rewrite !orb_true_r.
Qed.

Lemma derived_result pre (out : list Z) :
  zlen out = 16 ->
  derived pre out = match EVP_blake2s256 [pre] with
                    | Some d => (RCLIENT_OK, Some (take 16 d))
                    | None => (RCLIENT_ERR_CONFIG, Some out)
                    end.
Proof.
  intros Ho. unfold derived. destruct (EVP_blake2s256 [pre]); [|done].
  rewrite (drop_ge out) by lia. by rewrite app_nil_r.
Qed.

Definition id_result (text pre out : list Z) : run (Z * option (list Z)) :=
  Ok (match derived_id text pre with
      | Some id => (RCLIENT_OK, Some id)
      | None => (RCLIENT_ERR_CONFIG, Some out)
      end).

Lemma bucket_id_text text rest w r out :
  zlen out = 16 ->
  r_client_derive_bucket_id (Some (text ++ 0 :: rest)) (zlen text) w r (Some out) =
  id_result text (bucket_preimage text w r) out.
Proof.
  intros Ho. unfold id_result, derived_id, named. destruct (Z.leb_spec (zlen text) UINT32_MAX).
  - rewrite bucket_id_spec, derived_result by lia. by destruct (EVP_blake2s256 _).
  - unfold r_client_derive_bucket_id. by rewrite hash_too_long by lia.
Qed.

Lemma tracker_id_text text rest t m k out :
  zlen out = 16 ->
  r_client_derive_latency_tracker_id (Some (text ++ 0 :: rest)) (zlen text) t m k (Some out) =
  id_result text (tracker_preimage text t m k) out.
Proof.
  intros Ho. unfold id_result, derived_id, named. destruct (Z.leb_spec (zlen text) UINT32_MAX).
  - rewrite tracker_id_spec, derived_result by lia. by destruct (EVP_blake2s256 _).
  - unfold r_client_derive_latency_tracker_id. by rewrite hash_too_long by lia.
Qed.
End Derive.

(** ** Preparation *)
Section Prepare.
Context {W : Type} `{HR : Reentrant W} {ssl : OpenSSL} {laws : AesGcmLaws ssl} {dlaws : DigestLaws ssl}.
Implicit Types s : sys W.
Implicit Types X : gset ptr.

Definition label_of (c : r_admission_config) : list Z := default R_DEFAULT_METRICS_LABEL (ac_metrics_label c).

Definition resource_of (c : r_admission_config) (id : list Z) : r_resource_request :=
  mk_resource_request id (ac_window_size_ms c) (ac_rate_limit c) (ac_tokens_requested c).
Definition guard_of (c : r_admission_config) (id : list Z) : r_latency_guard :=
  mk_latency_guard id (ac_latency_threshold_ms c) (ac_latency_ttl_ms c) (ac_latency_max_samples c)
    (ac_latency_min_sample_threshold c).

(** A storage ready to be started: content ids of the configured names and
    parameters, no request yet. *)
Definition prepared (c : r_admission_config) (cb user : Z) (a : r_admission_request) : Prop :=
  complete_config c /\ cb <> 0 /\
  exists bucket tracker bid tid,
    spells (ac_bucket_name c) bucket /\ spells (ac_latency_tracker_name c) tracker /\
    derived_id bucket (bucket_preimage bucket (ac_window_size_ms c) (ac_rate_limit c)) = Some bid /\
    derived_id tracker (tracker_preimage tracker (ac_latency_ttl_ms c) (ac_latency_max_samples c)
                          (ac_latency_min_sample_threshold c)) = Some tid /\
    a = mk_admission None (resource_of c bid) (guard_of c tid) (Some (label_of c)) cb user
          outcome_error false false false false.

Definition stored (u : Z) (a : r_admission_request) s : sys W := set_adms (<[u := a]> (s_adms s)) s.

Lemma stored_stored u a b s : stored u a (stored u b s) = stored u a s.
Proof. unfold stored. simpl. by rewrite insert_insert_eq. Qed.

Lemma wp_get_stored u a (Q : r_admission_request -> sys W -> Prop) s :
  Q a (stored u a s) -> wp (get_adm u) Q (stored u a s).
Proof. apply wp_get_adm, lookup_insert_eq. Qed.

Lemma wp_upd_stored u a f (Q : unit -> sys W -> Prop) s :
  Q tt (stored u (f a) s) -> wp (upd_adm u f) Q (stored u a s).
Proof.
  intros HQ. eapply wp_upd_adm; [apply lookup_insert_eq|]. unfold stored in HQ |- *. simpl.
  rewrite insert_insert_eq. exact HQ.
Qed.

Lemma prepare_resource_wp u c s bucket :
  spells (ac_bucket_name c) bucket ->
  wp (prepare_resource u c) (fun rc s' =>
    match derived_id bucket (bucket_preimage bucket (ac_window_size_ms c) (ac_rate_limit c)) with
    | Some id => rc = RCLIENT_OK /\ s' = stored u (set_ad_resource (resource_of c id) admission_zero) s
    | None => rc = RCLIENT_ERR_CONFIG /\ s' = stored u admission_zero s
    end) (stored u admission_zero s).
Proof.
  intros (rest & E & Hn). unfold prepare_resource. wp_step. apply wp_get_stored.
  rewrite E. wp_step. eapply wp_lift; [done|]. wp_step. eapply wp_lift; [by apply strlen_text|].
  wp_step. eapply wp_lift; [by apply bucket_id_text|].
  destruct (derived_id _ _) as [id|]; cbv beta iota; wp_step; (eapply wp_lift; [done|]).
  - rc_ok. wp_step. apply wp_upd_stored. by wp_step.
  - change (RCLIENT_ERR_CONFIG =? RCLIENT_OK) with false. cbn [negb]. by wp_step.
Qed.

Lemma prepare_guard_wp u c s tracker x :
  spells (ac_latency_tracker_name c) tracker ->
  let a := set_ad_resource x admission_zero in
  wp (prepare_guard u c) (fun rc s' =>
    match derived_id tracker (tracker_preimage tracker (ac_latency_ttl_ms c) (ac_latency_max_samples c)
            (ac_latency_min_sample_threshold c)) with
    | Some id => rc = RCLIENT_OK /\ s' = stored u (set_ad_guard (guard_of c id) a) s
    | None => rc = RCLIENT_ERR_CONFIG /\ s' = stored u a s
    end) (stored u a s).
Proof.
  intros (rest & E & Hn) a. unfold prepare_guard. wp_step. apply wp_get_stored.
  rewrite E. wp_step. eapply wp_lift; [done|]. wp_step. eapply wp_lift; [by apply strlen_text|].
  wp_step. eapply wp_lift; [by apply tracker_id_text|].
  destruct (derived_id _ _) as [id|]; cbv beta iota; wp_step; (eapply wp_lift; [done|]).
  - rc_ok. wp_step. apply wp_upd_stored. by wp_step.
  - change (RCLIENT_ERR_CONFIG =? RCLIENT_OK) with false. cbn [negb]. by wp_step.
Qed.

(** Refused without a change, refused with the storage reset, or prepared. *)
Inductive prepare_step (u : Z) (config : option r_admission_config) (cb user : Z) s : Z -> sys W -> Prop :=
| prepare_invalid : prepare_step u config cb user s RCLIENT_ERR_CONFIG s
| prepare_failed a : ad_active a = false -> ad_callback a = 0 -> wf_latency_guard (ad_guard a) ->
    prepare_step u config cb user s RCLIENT_ERR_CONFIG (stored u a s)
| prepare_done c a : config = Some c -> prepared c cb user a ->
    prepare_step u config cb user s RCLIENT_OK (stored u a s).

Lemma zero_guard : wf_latency_guard (ad_guard admission_zero).
Proof. split; [split; [done|by apply bytes_decided; vm_compute]|repeat split; by vm_compute]. Qed.

Lemma prepare_wp u config cb user s :
  is_Some (s_adms s !! u) -> from_option admission_ok True config ->
  wp (r_client_admission_prepare (Some u) config cb user) (prepare_step u config cb user s) s.
Proof.
  intros [a0 Ha0] Hc. unfold r_client_admission_prepare.
  apply wp_if; intros Ecb; breflect; [wp_step; apply prepare_invalid|].
  destruct config as [c|]; [|wp_step; eapply wp_lift; [done|]; cbn [negb]; wp_step; apply prepare_invalid].
  destruct (config_valid_spec c Hc) as (b & Eb & Hb). wp_step. eapply wp_lift; [exact Eb|].
  destruct b; cbn [negb]; [|wp_step; apply prepare_invalid].
  pose proof (proj1 Hb eq_refl) as Hcc. pose proof Hcc as ((bt & Hbt & _) & (tt' & Htt & _) & _).
  wp_step. eapply wp_lift; [done|]. wp_step. eapply wp_upd_adm; [exact Ha0|].
  eapply wp_seq; [by apply (prepare_resource_wp u c s bt)|]. cbv beta. intros rc s1.
  destruct (derived_id bt _) as [bid|] eqn:Ebid; intros [-> ->].
  2:{ change (RCLIENT_ERR_CONFIG =? RCLIENT_OK) with false. cbn [negb]. wp_step. apply prepare_failed; [done|done|apply zero_guard]. }
  rc_ok. eapply wp_seq; [by apply (prepare_guard_wp u c s tt')|]. cbv beta. intros rc s1.
  destruct (derived_id tt' _) as [tid|] eqn:Etid; intros [-> ->].
  2:{ change (RCLIENT_ERR_CONFIG =? RCLIENT_OK) with false. cbn [negb]. wp_step. apply prepare_failed; [done|done|apply zero_guard]. }
  rc_ok. wp_step. apply wp_upd_stored. wp_step. eapply prepare_done; [done|].
  split; [done|]. split; [done|]. by exists bt, tt', bid, tid.
Qed.
End Prepare.

(** ** Start *)
Section Start.
Context {W : Type} `{HR : Reentrant W} {ssl : OpenSSL} {laws : AesGcmLaws ssl} {dlaws : DigestLaws ssl}.
Implicit Types s : sys W.
Implicit Types X : gset ptr.

(** The label a text is sent as: none for the empty one. *)
Definition sent_label (text : list Z) : option (list Z) := if decide (text = []) then None else Some text.

Lemma effective_label_text l text :
  spells (Some l) text -> effective_label (Some l) 0 = Ok (sent_label text).
Proof.
  intros (rest & [= ->] & Hn). unfold effective_label, sent_label.
  destruct text as [|c text]; [done|]. change (rd ((c :: text) ++ 0 :: rest) 0) with (Ok c).
  rewrite run_bind_Ok, (proj2 (Z.eqb_neq c 0)) by set_solver.
  change (0 =? 0) with true. cbv iota. rewrite strlen_text, run_bind_Ok by done.
  rewrite (rd_bytes_app [] (c :: text) (0 :: rest)) by done. done.
Qed.

Lemma default_label_cstring : is_cstring R_DEFAULT_METRICS_LABEL.
Proof. split; [by apply bytes_decided; vm_compute|]. by apply (bool_decide_unpack _); vm_compute. Qed.

Lemma label_of_cstring c : admission_ok c -> is_cstring (label_of c).
Proof. intros Hc. pose proof (ak_label _ Hc). unfold label_of. by destruct (ac_metrics_label c); [|apply default_label_cstring]. Qed.

Lemma prepared_args c cb user a :
  admission_ok c -> prepared c cb user a ->
  exists text, spells (Some (label_of c)) text /\
    args_ok (Some [ad_resource a]) 1 (Some [ad_guard a]) 1 (ad_metrics_label a) 0
      [ad_guard a] [ad_resource a] (sent_label text).
Proof.
  intros Hc (Hcc & _ & bt & tt' & bid & tid & _ & _ & Hb & Ht & ->).
  destruct (cstring_spells _ (label_of_cstring c Hc)) as (text & Hs & _). exists text. split; [done|].
  apply derived_id16 in Hb, Ht. destruct Hc.
  split; cbn [ad_resource ad_guard ad_metrics_label]; try done; try (by left).
  - constructor; [|constructor]. done.
  - constructor; [|constructor]. done.
  - by apply effective_label_text.
Qed.

(** What starting an idle storage does. *)
Inductive start_step X u config cb user s : Z -> sys W -> Prop :=
| start_refused rc s' :
    rc <> RCLIENT_OK -> client_inv X s' -> call_frame X s s' -> s_reqs s' = s_reqs s ->
    cl_inflight (s_client s') = cl_inflight (s_client s) ->
    (forall a, s_adms s' !! u = Some a -> ad_active a = false) ->
    (forall v, v <> u -> s_adms s' !! v = s_adms s !! v) ->
    (forall p, completions p (s_trace s') = completions p (s_trace s)) ->
    start_step X u config cb user s rc s'
| start_sent c a text p r s' :
    config = Some c -> prepared c cb user a -> spells (Some (label_of c)) text ->
    (s_next s <= p)%nat -> client_inv X s' -> call_frame X s s' ->
    s_reqs s' = <[p := r]> (s_reqs s) ->
    cl_inflight (s_client s') = p :: cl_inflight (s_client s) ->
    s_adms s' = <[u := set_ad_handle (Some p) (set_ad_active true a)]> (s_adms s) ->
    launched (cl_fixed (s_client s)) (cl_servers (s_client s')) [ad_guard a] [ad_resource a]
      (sent_label text) r_admission_complete_ptr u r ->
    start_step X u config cb user s RCLIENT_OK s'.

Lemma prepared_idle c cb user a b p : prepared c cb user a -> ~ awaits (set_ad_active b a) p.
Proof. by intros (_ & _ & ? & ? & ? & ? & _ & _ & _ & _ & ->) [_ ?]. Qed.

Lemma prepared_guard c cb user a :
  admission_ok c -> prepared c cb user a -> wf_latency_guard (ad_guard a).
Proof.
  intros Hc Hp. destruct (prepared_args c cb user a Hc Hp) as (text & _ & Hargs).
  pose proof (ar_wf_guards _ _ _ _ _ _ _ _ _ Hargs) as Hg. by apply Forall_inv in Hg.
Qed.

Lemma submitted_wp X u c cb user a s a0 :
  client_inv X s -> s_adms s !! u = Some a0 -> ad_active a0 = false ->
  admission_ok c -> prepared c cb user a ->
  wp ('(status, _) ← r_client_check_rate_limit_async_borrowed (Some [ad_resource a]) 1
        (Some [ad_guard a]) 1 (ad_metrics_label a) 0 r_admission_complete_ptr u (OutHandle u);
      _ ← (if negb (status =? RCLIENT_OK)
           then upd_adm u (fun a => set_ad_active false (set_ad_handle None a)) else mret tt);
      mret status) (start_step X u (Some c) cb user s) (stored u (set_ad_active true a) s).
Proof.
  intros HI Hu Ha0 Hc Hp. destruct (prepared_args c cb user a Hc Hp) as (text & Ht & Hargs).
  set (b := set_ad_active true a). set (s1 := stored u b s).
  destruct (client_inv_storage _ X s u b HI (idle_unawaited u a0 s Hu Ha0)
              (fun p => prepared_idle c cb user a true p Hp) (prepared_guard c cb user a Hc Hp)) as [HI1 HF1].
  change (set_adms (<[u := b]> (s_adms s)) s) with s1 in HI1, HF1.
  assert (Hbu : s_adms s1 !! u = Some b) by apply lookup_insert_eq.
  assert (Hbh : ad_handle b = None /\ ad_callback b <> 0).
  { by destruct Hp as (_ & ? & ? & ? & ? & ? & _ & _ & _ & _ & ->). }
  eapply wp_seq; [apply (check_async_wp X _ _ _ _ _ _ _ _ _ r_admission_complete_ptr u (OutHandle u) true s1 HI1 Hargs);
    [split; [done|]; split; [done|]; exists b; split; [done|]; by split|done]|].
  intros [rc out] s2 Hstep. inversion Hstep as [s' tr2 _ ?|rc' s' Hrf HI2 HF2 Er Ei Ea Hcm|p r tr st s1' s' _ _ Hn HI2 HF2 _ _ Er Ea Ei _ Hl _ _ _ _]; subst; [done| |].
  - apply check_refusal_fails in Hrf as Hrc. rewrite (proj2 (Z.eqb_neq _ _)) by done. cbn [negb]. wp_step.
    assert (Hbu2 : s_adms s2 !! u = Some b) by by rewrite Ea.
    eapply wp_upd_adm; [exact Hbu2|]. wp_step.
    assert (Hun : unawaited u s2).
    { intros a' p. rewrite Hbu2. intros [= <-] [_ E]. destruct Hbh as [Hbh _]. by rewrite Hbh in E. }
    destruct (client_inv_storage _ X s2 u (set_ad_active false (set_ad_handle None b)) HI2 Hun) as [HI3 HF3].
    { by intros p [? _]. } { by apply (prepared_guard c cb user a). }
    apply start_refused; simpl; try done.
    + by do 2 (etransitivity; [eassumption|]).
    + rewrite lookup_insert_eq. by intros a' [= <-].
    + intros v Hv. rewrite lookup_insert_ne, Ea by done. simpl. by rewrite lookup_insert_ne.
  - rc_ok. wp_step. wp_step. wp_step. eapply (start_sent X u (Some c) cb user s c a text p r); try done.
    + by etransitivity.
    + rewrite Ea. simpl. apply map_eq. intros v. destruct (decide (v = u)) as [->|Hne].
      * by rewrite lookup_alter_eq, !lookup_insert_eq.
      * by rewrite lookup_alter_ne, !lookup_insert_ne.
Qed.

Lemma start_wp X u config cb user s a0 :
  client_inv X s -> s_adms s !! u = Some a0 -> ad_active a0 = false ->
  from_option admission_ok True config ->
  wp (r_client_admission_start (Some u) config cb user) (start_step X u config cb user s) s.
Proof.
  intros HI Hu Ha0 Hc. unfold r_client_admission_start.
  eapply wp_seq; [apply prepare_wp; [by rewrite Hu|done]|]. intros rc s1 Hp.
  destruct Hp as [|a Hact _ Hg|c a -> Hp].
  - change (RCLIENT_ERR_CONFIG =? RCLIENT_OK) with false. cbn [negb]. wp_step.
    apply start_refused; try done. rewrite Hu. by intros a [= <-].
  - change (RCLIENT_ERR_CONFIG =? RCLIENT_OK) with false. cbn [negb]. wp_step.
    destruct (client_inv_storage _ X s u a HI (idle_unawaited u a0 s Hu Ha0)) as [HI1 HF1].
    { intros p [? _]. congruence. } { done. }
    apply start_refused; try done.
    + simpl. rewrite lookup_insert_eq. by intros a' [= <-].
    + intros v Hv. simpl. by rewrite lookup_insert_ne.
  - rc_ok. wp_step. eapply wp_lift; [done|]. wp_step. apply wp_upd_stored. wp_step.
    apply wp_get_stored.
    replace (ad_resource (set_ad_active true a)) with (ad_resource a) by done.
    replace (ad_guard (set_ad_active true a)) with (ad_guard a) by done.
    replace (ad_metrics_label (set_ad_active true a)) with (ad_metrics_label a) by done.
    by eapply submitted_wp.
Qed.
End Start.

(** ** Timeouts, cancellation and reports *)
Section Use.
Context {W : Type} `{HR : Reentrant W} {ssl : OpenSSL} {laws : AesGcmLaws ssl}.
Implicit Types s : sys W.
Implicit Types X : gset ptr.

Lemma active_handle_wp u a s (Q : option ptr -> sys W -> Prop) :
  s_adms s !! u = Some a -> ((forall p, ~ awaits a p) -> Q None s) ->
  (forall p, awaits a p -> Q (Some p) s) -> wp (active_handle u) Q s.
Proof.
  intros Hu HN HS. unfold active_handle. wp_step. wp_step. wp_step.
  destruct (ad_active a) eqn:E1; [|by apply HN; intros p [? _]; congruence].
  destruct (ad_handle a) as [p|] eqn:E2; [by apply HS|]. apply HN. intros p [_ ?]. congruence.
Qed.

(** A request some storage awaits is in flight. *)
Lemma awaited_live X u a p s :
  client_inv X s -> s_adms s !! u = Some a -> awaits a p -> p ∈ cl_inflight (s_client s).
Proof.
  intros HI Hu Ha. pose proof (ai_handle _ (ci_adms _ _ _ HI) u a p Hu Ha) as Ho.
  apply fmap_Some in Ho as (r & Hr & _). destruct (proj1 (ci_live _ _ _ HI p)) as [?|Hx]; [by rewrite Hr|done|].
  by destruct (ci_quiet _ _ _ HI p Hx ltac:(done) u a).
Qed.

Lemma one_storage e X u v a b p s :
  client_inv_ex e X s -> s_adms s !! u = Some a -> awaits a p -> s_adms s !! v = Some b -> awaits b p -> u = v.
Proof.
  intros HI Hu Ha Hv Hb. pose proof (ai_handle _ (ci_adms _ _ _ HI) u a p Hu Ha) as E1.
  rewrite (ai_handle _ (ci_adms _ _ _ HI) v b p Hv Hb) in E1. by injection E1.
Qed.

(** Code that neither reads nor writes the storages commutes with a write. *)
Definition blind (m : M W unit) : Prop := forall x s,
  match m s with
  | UB => True
  | Ok (_, s') => s_adms s' = s_adms s /\ m (set_adms x s) = Ok (tt, set_adms x s')
  end.

Lemma blind_swap (m : M W unit) u f a (Q : unit -> sys W -> Prop) s :
  blind m -> s_adms s !! u = Some a -> (exists s', m s = Ok (tt, s')) ->
  wp m Q (stored u (f a) s) -> wp (_ ← m; upd_adm u f) Q s.
Proof.
  intros Hb Hu [s' E] Hw. pose proof (Hb (<[u := f a]> (s_adms s)) s) as Hx. rewrite E in Hx.
  destruct Hx as [Ea Hx]. unfold wp in Hw |- *. unfold mbind, M_bind, upd_adm. rewrite E, Ea, Hu.
  unfold stored in Hw. by rewrite Hx in Hw.
Qed.

Lemma free_notify_blind p : blind (_ ← r_request_free p; r_notify_steering_when_drained).
Proof.
  intros x s. unfold r_request_free, r_notify_steering_when_drained, mbind, M_bind, get_req, emit, modify,
    client, gets, upd_client, call_steering. simpl.
  destruct (s_reqs s !! p); [|done]. simpl. by case_if.
Qed.

Definition cancelled_storage (a : r_admission_request) : r_admission_request :=
  set_ad_admitted false (set_ad_active false (set_ad_handle None a)).

Lemma cancelled_idle a p : ~ awaits (cancelled_storage a) p.
Proof. by intros [? _]. Qed.

(** The request out of the list and held: freeing it and settling the storage. *)
Lemma cancel_tail_wp X u a p s :
  client_inv_ex (Some p) (X ∪ {[p]}) s -> p ∉ X -> p ∉ cl_inflight (s_client s) ->
  s_adms s !! u = Some a -> awaits a p -> completions p (s_trace s) = 0%nat ->
  wp (_ ← (_ ← r_request_free p; r_notify_steering_when_drained); upd_adm u cancelled_storage)
    (fun _ s' => client_inv X s' /\ call_frame X s s' /\ s_reqs s' = delete p (s_reqs s) /\
       s_adms s' = <[u := cancelled_storage a]> (s_adms s) /\ completions p (s_trace s') = 0%nat) s.
Proof.
  intros HI HpX Hpi Hu Ha Hz. destruct (proj2 (ci_live _ _ _ HI p)) as [r Hr]; [set_solver|].
  assert (Hun : unawaited u s).
  { intros a' q. rewrite Hu. intros [= <-] [_ E]. destruct Ha as [_ Ha]. rewrite Ha in E. by injection E as <-. }
  destruct (client_inv_storage _ _ s u (cancelled_storage a) HI Hun (cancelled_idle a)
              (ai_guard _ (ci_adms _ _ _ HI) u a Hu)) as [HI1 HF1].
  eapply blind_swap; [apply free_notify_blind|exact Hu| |].
  { unfold r_request_free, r_notify_steering_when_drained, mbind, M_bind, get_req, emit, modify,
      client, gets, upd_client, call_steering. simpl. rewrite Hr. simpl. case_if; eauto. }
  eapply wp_seq; [apply (free_wp X p); [exact HI1|done|]|].
  { intros v b. simpl. destruct (decide (v = u)) as [->|Hne].
    - rewrite lookup_insert_eq. intros [= <-]. apply cancelled_idle.
    - rewrite lookup_insert_ne by done. intros Hv Hb. by destruct (one_storage _ _ u v a b p s HI Hu Ha Hv Hb). }
  simpl. intros _ s2 (HI2 & HF2 & Er & _ & Et & Ea).
  eapply wp_mono; [by apply notify_wp|]. simpl. intros _ s3 (HI3 & HF3 & Er3 & _ & _ & Ea3 & Hn).
  split; [done|]. split.
  { etransitivity; [eapply call_frame_weaken, HF1; set_solver|]. by etransitivity. }
  split; [by rewrite Er3, Er|]. split; [by rewrite Ea3, Ea|].
  assert (completions p (s_trace s2) = 0%nat) as H2.
  { rewrite Et, completions_app, completions_one. simpl. by rewrite Hz. }
  destruct Hn as [[-> _]|(-> & _)]; [done|]. by rewrite completions_app, H2.
Qed.

Lemma admission_cancel_wp X u a s :
  client_inv X s -> s_adms s !! u = Some a ->
  wp (r_client_admission_cancel (Some u)) (fun _ s' =>
    client_inv X s' /\ call_frame X s s' /\
    ((forall p, ~ awaits a p) -> s' = s) /\
    (forall p, awaits a p ->
       s_reqs s' = delete p (s_reqs s) /\ completions p (s_trace s') = 0%nat /\
       s_adms s' = <[u := cancelled_storage a]> (s_adms s))) s.
Proof.
  intros HI Hu. unfold r_client_admission_cancel. wp_step. apply (active_handle_wp u a); [done| |].
  { intros Hn. cbn [is_null]. wp_step. split; [done|]. split; [reflexivity|]. split; [done|].
    intros p Ha. by destruct (Hn p). }
  intros p Ha. cbn [is_null].
  assert (Hpr : forall q, awaits a q -> q = p) by (intros q [_ E]; destruct Ha as [_ Ha]; congruence).
  unfold r_client_cancel_request. wp_step. wp_step. apply (remove_wp X p s); [done|..].
  - intros Hni. by destruct Hni; eapply awaited_live.
  - intros Hin l HI1 Hl. cbn [negb]. pose proof (ci_disjoint _ _ _ HI p Hin) as HpX.
    apply wp_unbind. eapply wp_mono; [apply (cancel_tail_wp X u a p); simpl; try done|].
    + rewrite Hl. tauto.
    + apply (ci_waiting _ _ _ HI). by left.
    + cbv beta. intros _ s' (HI' & HF' & Er & Ea & Hz). split; [done|]. split.
      { etransitivity; [by eapply (call_frame_hold X s p l)|done]. }
      split; [intros Hn; by destruct (Hn p)|]. intros q Hq. by rewrite (Hpr q Hq).
Qed.

(** A report needs an admitted, settled request that has not reported yet. *)
Definition may_report (a : r_admission_request) : bool :=
  negb (ad_active a) && ad_admitted a && negb (ad_latency_reported a).

Definition report_of (a : r_admission_request) (observed : Z) : r_service_latency_report :=
  let g := ad_guard a in
  mk_latency_report (lg_latency_tracker_id g) observed (lg_ttl_ms g) (lg_max_samples g)
    (lg_min_sample_threshold g).

Inductive report_step X u a observed s : Z -> sys W -> Prop :=
| report_refused : may_report a = false -> report_step X u a observed s RCLIENT_ERR_CONFIG s
| report_failed rc s' : may_report a = true -> rc <> RCLIENT_OK -> report_post X [report_of a observed] s rc s' ->
    report_step X u a observed s rc s'
| report_sent s1 s' : may_report a = true -> report_post X [report_of a observed] s RCLIENT_OK s1 ->
    s' = stored u (set_ad_latency_reported true a) s1 -> client_inv X s' -> call_frame X s s' ->
    report_step X u a observed s RCLIENT_OK s'.

Lemma admission_report_wp X u a observed s :
  client_inv X s -> s_adms s !! u = Some a -> is_u32 observed ->
  wp (r_client_admission_report_latency (Some u) observed) (report_step X u a observed s) s.
Proof.
  intros HI Hu Ho. unfold r_client_admission_report_latency. wp_step. wp_step.
  destruct (ai_guard _ (ci_adms _ _ _ HI) u a Hu) as (G1 & _ & G2 & G3 & G4).
  apply wp_if; intros E.
  { wp_step. apply report_refused. unfold may_report.
    destruct (ad_active a), (ad_admitted a), (ad_latency_reported a); done. }
  breflect. assert (Hm : may_report a = true).
  { unfold may_report. destruct (ad_active a), (ad_admitted a), (ad_latency_reported a); done. }
  cbv zeta. eapply wp_seq; [apply (report_latency_wp X _ [report_of a observed]); [done|by left| |done]|].
  { constructor; [|constructor]. done. }
  intros rc s1 Hr. pose proof Hr as (HI1 & HF1 & _ & Ea & _).
  destruct (Z.eqb_spec rc RCLIENT_OK) as [->|Hne].
  2:{ wp_step. wp_step. wp_step. by apply report_failed. }
  assert (Hu1 : s_adms s1 !! u = Some a) by by rewrite Ea.
  wp_step. wp_step. wp_step. destruct (ad_active a) eqn:Eact; [done|].
  destruct (client_inv_storage _ X s1 u (set_ad_latency_reported true a) HI1) as [HI2 HF2].
  { by eapply idle_unawaited. } { intros p [E1 _]. simpl in E1. congruence. } { exact (ai_guard _ (ci_adms _ _ _ HI) u a Hu). }
  eapply report_sent; [done|exact Hr|done|done|]. by etransitivity.
Qed.

Lemma admission_timeout_wp X u a now s :
  client_inv X s -> s_adms s !! u = Some a ->
  wp (r_client_admission_on_timeout (Some u) now) (fun rc s' =>
    ((forall p, ~ awaits a p) -> rc = RCLIENT_ERR_CONFIG /\ s' = s) /\
    (forall p r, awaits a p -> s_reqs s !! p = Some r ->
       p ∈ cl_inflight (s_client s) /\ rc = RCLIENT_OK /\ timeout_step X p r now s s')) s.
Proof.
  intros HI Hu. unfold r_client_admission_on_timeout. wp_step. apply (active_handle_wp u a); [done| |].
  - intros Hn. cbn [is_null]. wp_step. split; [done|]. intros p r Ha. by destruct (Hn p).
  - intros p Ha. cbn [is_null].
    pose proof (awaited_live X u a p s HI Hu Ha) as Hin.
    destruct (inflight_req X s p HI Hin) as (r & Hr & _).
    eapply wp_mono; [by apply (on_timeout_wp X p r)|]. simpl. intros rc s' [-> Ht].
    split; [intros Hn; by destruct (Hn p)|]. intros q r' [_ Hq] Hr'. destruct Ha as [_ Ha].
    rewrite Ha in Hq. injection Hq as <-. rewrite Hr in Hr'. by injection Hr' as <-.
Qed.

Lemma admission_deadline_wp X u a out s :
  client_inv X s -> s_adms s !! u = Some a ->
  wp (r_client_admission_deadline_ms (Some u) (Some out)) (fun res s' => s' = s /\
    ((forall p, ~ awaits a p) -> res = (RCLIENT_ERR_CONFIG, Some out)) /\
    (forall p r, awaits a p -> s_reqs s !! p = Some r ->
       res = (RCLIENT_OK, Some (rq_attempt_deadline_ms r)))) s.
Proof.
  intros HI Hu. unfold r_client_admission_deadline_ms. wp_step. apply (active_handle_wp u a); [done| |].
  - intros Hn. cbn [is_null orb]. wp_step. split; [done|]. split; [done|]. intros p r Ha. by destruct (Hn p).
  - intros p Ha. cbn [is_null orb]. pose proof (ai_handle _ (ci_adms _ _ _ HI) u a p Hu Ha) as Hr.
    apply fmap_Some in Hr as (r & Hr & _). unfold r_client_request_deadline_ms. wp_step. wp_step. wp_step.
    split; [done|]. split; [intros Hn; by destruct (Hn p)|]. intros q r' [_ Hq] Hr'. destruct Ha as [_ Ha].
    rewrite Ha in Hq. injection Hq as <-. rewrite Hr in Hr'. by injection Hr' as <-.
Qed.
End Use.
