(* ===== verification/Api.v ===== *)
(** * The client as a state machine

    Every entry point of the library is a step on the machine's state.  The
    host may take any legal step at any time, from inside completion callbacks
    too; no sequence of steps leaves the invariant, so none reaches undefined
    behaviour, calls a callback twice, or loses a request. *)

From Stdlib Require Import String Ascii.
From S2P Require Import Prelude.
From S2P Require Import Types.
From S2P Require Import Wire.
From S2P Require Import WireFacts.
From S2P Require Import Crypto.
From S2P Require Import Workflow.
From S2P Require Import State.
From S2P Require Import Hoare.
From S2P Require Import Schedule.
From S2P Require Import Dns.
From S2P Require Import DnsFacts.
From S2P Require Import Request.
From S2P Require Import RequestFacts.
From S2P Require Import PacketFacts.
From S2P Require Import Client.
From S2P Require Import Lifecycle.
From S2P Require Import Completion.
From S2P Require Import Datagram.
From S2P Require Import Admission.
From S2P Require Import Ids.
From S2P Require Import WorkflowOps.
From S2P Require Import WorkflowFacts.

(** ** Entry points *)
Inductive api : Type :=
| CheckRateLimit (resources : option (list r_resource_request)) (resource_count : Z)
    (guards : option (list r_latency_guard)) (guard_count : Z)
    (metrics_label : option (list Z)) (metrics_label_len : Z) (cb user : Z)
    (out_req : out_ref) (borrowed : bool)
| ReportLatency (reports : option (list r_service_latency_report)) (report_count : Z)
| OnDatagram (buf : option (list Z)) (len : Z) (from : option r_addr)
| OnTimeout (req : option ptr) (now_ms : Z)
| RequestDeadline (req : option ptr) (out_deadline_ms : option Z)
| CancelRequest (req : option ptr)
| SendFailureCount
| SrvAnswer (lookup : ptr) (status : Z) (records : option (list r_srv_record))
| AddrAnswer (lookup : ptr) (status : Z) (addrs : option (list r_addr))
| AdmissionPrepare (request : option Z) (config : option r_admission_config) (callback user : Z)
| AdmissionStart (request : option Z) (config : option r_admission_config) (callback user : Z)
| AdmissionDeadline (request : option Z) (out_deadline_ms : option Z)
| AdmissionTimeout (request : option Z) (now_ms : Z)
| AdmissionCancel (request : option Z)
| AdmissionReport (request : option Z) (observed_latency_ms : Z).

Section Exec.
Context {W : Type} `{Host W} {ssl : OpenSSL}.

Definition discard {A} (m : M W A) : M W unit := _ ← m; mret tt.

Definition exec (a : api) : M W unit :=
  match a with
  | CheckRateLimit resources rn guards gn label n cb user out borrowed =>
      discard (if borrowed
               then r_client_check_rate_limit_async_borrowed resources rn guards gn label n cb user out
               else r_client_check_rate_limit_async resources rn guards gn label n cb user out)
  | ReportLatency reports n => discard (r_client_report_latency reports n)
  | OnDatagram buf len from => discard (r_client_on_datagram buf len from)
  | OnTimeout req now => discard (r_client_on_timeout req now)
  | RequestDeadline req out => discard (r_client_request_deadline_ms req out)
  | CancelRequest req => r_client_cancel_request req
  | SendFailureCount => discard r_client_send_failure_count
  | SrvAnswer lookup status records => r_dns_srv_cb_fn lookup status records
  | AddrAnswer lookup status addrs => r_dns_addr_cb_fn lookup status addrs
  | AdmissionPrepare u config cb user => discard (r_client_admission_prepare u config cb user)
  | AdmissionStart u config cb user => discard (r_client_admission_start u config cb user)
  | AdmissionDeadline u out => discard (r_client_admission_deadline_ms u out)
  | AdmissionTimeout u now => discard (r_client_admission_on_timeout u now)
  | AdmissionCancel u => r_client_admission_cancel u
  | AdmissionReport u observed => discard (r_client_admission_report_latency u observed)
  end.

(** The caller's obligations: arrays of the stated lengths, bytes that are
    bytes, a request handle that is still in flight (a cancelled or completed
    one may only be cancelled again), an answer to an outstanding lookup, an
    admission storage that exists and, to be prepared or started, is idle.  The
    library's own callback and the handles inside storages are private to the
    workflow. *)
Definition storage_at (request : option Z) (P : r_admission_request -> Prop) (s : sys W) : Prop :=
  from_option (fun u => exists a, s_adms s !! u = Some a /\ P a) True request.

Definition legal (a : api) (s : sys W) : Prop :=
  match a with
  | CheckRateLimit resources rn guards gn label n cb user out _ =>
      (exists gs rs ol, args_ok resources rn guards gn label n gs rs ol) /\
      cb <> r_admission_complete_ptr /\ forall u, out <> OutHandle u
  | ReportLatency reports n =>
      exists rs, array_arg reports rs /\ n = zlen rs /\ Forall wf_latency_report rs /\ is_object rs
  | OnDatagram buf len from =>
      from_option (fun b => is_bytes b /\ is_object b /\ 0 <= len <= zlen b) True buf /\
      from_option wf_addr True from
  | OnTimeout req _ | RequestDeadline req _ =>
      from_option (fun p => p ∈ cl_inflight (s_client s)) True req
  | CancelRequest req => forall p r, req = Some p -> p ∈ cl_inflight (s_client s) ->
      s_reqs s !! p = Some r -> rq_cb r <> r_admission_complete_ptr
  | SendFailureCount => True
  | SrvAnswer lookup _ records => is_Some (s_lookups s !! lookup) /\ wf_srv_answer records
  | AddrAnswer lookup _ addrs => is_Some (s_lookups s !! lookup) /\ wf_addr_answer addrs
  | AdmissionPrepare u config _ _ | AdmissionStart u config _ _ =>
      storage_at u (fun a => ad_active a = false) s /\ from_option admission_ok True config
  | AdmissionDeadline u _ | AdmissionTimeout u _ | AdmissionCancel u =>
      storage_at u (fun _ => True) s
  | AdmissionReport u observed => storage_at u (fun _ => True) s /\ is_u32 observed
  end.

(** States the host can bring the client to. *)
Inductive reachable (s0 : sys W) : sys W -> Prop :=
| reach_start : reachable s0 s0
| reach_step s a s' :
    reachable s0 s -> legal a s -> exec a s = Ok (tt, s') -> reachable s0 s'.
End Exec.

Section Safety.
Context {W : Type} `{HR : Reentrant W} {ssl : OpenSSL} {laws : AesGcmLaws ssl} {dlaws : DigestLaws ssl}.
Implicit Types s : sys W.
Implicit Types X : gset ptr.

Definition kept X s s' : Prop := client_inv X s' /\ call_frame X s s'.

Lemma discard_wp {A} (m : M W A) X s :
  wp m (fun _ s' => kept X s s') s -> wp (discard m) (fun _ s' => kept X s s') s.
Proof. intros Hm. unfold discard. eapply wp_seq; [exact Hm|]. simpl. intros _ s' Hk. by wp_step. Qed.

Lemma kept_refl X s : client_inv X s -> kept X s s.
Proof. intros HI. split; [done|reflexivity]. Qed.

Lemma completed_kept X p r st sel s s' : completed X p r st sel s s' -> kept X s s'.
Proof. intros []. by split. Qed.

Lemma kept_world X s s' : client_inv X s -> only_world s s' -> kept X s s'.
Proof.
  intros HI Hw. split; [by eapply client_inv_world|].
  apply (call_frame_step X (s_next s)); [by apply step_frame_world|right].
  by destruct Hw as [w ->].
Qed.

Lemma kept_trans X s1 s2 s3 : call_frame X s1 s2 -> kept X s2 s3 -> kept X s1 s3.
Proof. intros HF [HI HF']. split; [done|]. by etransitivity. Qed.

Lemma timeout_kept X p r now s s' :
  client_inv X s -> p ∈ cl_inflight (s_client s) -> s_reqs s !! p = Some r ->
  timeout_step X p r now s s' -> kept X s s'.
Proof.
  intros HI Hin Hr Ht. pose proof (ci_disjoint _ _ _ HI p Hin) as HpX.
  destruct Ht as [?|s' ? ? Hc|s' tr ? ? ? ? ? HI' HF|s' ? ? ? ? ? HI' ->|s' st ? ? ? Hc];
    [by apply kept_refl|by eapply completed_kept| | |by eapply completed_kept];
    (split; [done|]); apply (call_frame_step X p); try by left.
  - done.
  - by eapply step_frame_upd.
Qed.

Lemma becomes_kept X p r r' s s' :
  s_reqs s !! p = Some r -> p ∉ X -> client_inv X s' -> becomes p r' s s' -> owner r' = owner r ->
  kept X s s'.
Proof.
  intros Hr HpX HI B Ho. split; [done|]. apply (call_frame_step X p); [by eapply becomes_frame|by left].
Qed.

Lemma datagram_kept X buf len rc s s' :
  client_inv X s -> datagram_step X buf len s rc s' -> kept X s s'.
Proof.
  intros HI Hd. destruct Hd as [rc s' Hw|p r r' h pdu s1 s' Hin Hr _ _ _ _ _ _ _ Hh Hw Ha].
  - by apply kept_world.
  - destruct (kept_world X s s1 HI Hw) as [HI1 HF1]. eapply kept_trans; [exact HF1|].
    destruct Ha as [s' _ Hc|s' _ _ HI' B]; [by eapply completed_kept|].
    eapply (becomes_kept X p r); [by destruct Hw as [w ->]|by apply (ci_disjoint _ _ _ HI)|done|done|].
    by destruct Hh as [(? & ? & ? & ? & ? & -> & _)].
Qed.

Lemma dns_answer_kept X s s' :
  client_inv X s -> dns_inv None None s' -> dns_frame s s' ->
  (forall l lk, s_lookups s' !! l = Some lk -> lk_in_resolver_call lk = false) -> kept X s s'.
Proof.
  intros HI Hd HF HC. split; [|by apply call_frame_dns]. by eapply client_inv_dns.
Qed.

(** An outstanding lookup at rest has neither completed nor is it in its call. *)
Lemma lookup_at_rest X s l lk :
  client_inv X s -> s_lookups s !! l = Some lk ->
  lk_in_resolver_call lk = false /\ lk_completed lk = false.
Proof.
  intros HI Hl. destruct (ci_dns _ _ _ HI) as [Hd HC]. specialize (HC l lk Hl). split; [done|].
  destruct (lo_state _ _ _ (di_lookups _ _ _ Hd l lk Hl)) as [Hst _].
  destruct (lk_completed lk); [|done]. by rewrite Hst in HC.
Qed.

Lemma srv_answer_wp X l status records s :
  client_inv X s -> is_Some (s_lookups s !! l) -> wf_srv_answer records ->
  wp (r_dns_srv_cb_fn l status records) (fun _ s' => kept X s s' /\ s_lookups s' !! l = None) s.
Proof.
  intros HI [lk Hl] Hw. destruct (lookup_at_rest X s l lk HI Hl) as [Hcall Hc].
  destruct (ci_dns _ _ _ HI) as [Hd HC].
  eapply wp_mono; [by eapply (srv_cb_wp None)|]. simpl. intros _ s' (HI' & HF & HK & HN & Hl').
  rewrite Hcall in Hl'. split; [|done]. apply dns_answer_kept; try done. intros k lk' Hk.
  destruct (decide (k = l)) as [->|Hne]; [congruence|].
  destruct (decide (k < s_next s)%nat); [|apply (HN k); [lia|done]].
  rewrite HK in Hk by done. by eapply HC.
Qed.

Lemma addr_answer_wp X l status addrs s :
  client_inv X s -> is_Some (s_lookups s !! l) -> wf_addr_answer addrs ->
  wp (r_dns_addr_cb_fn l status addrs) (fun _ s' => kept X s s' /\ s_lookups s' !! l = None) s.
Proof.
  intros HI [lk Hl] Hw. destruct (lookup_at_rest X s l lk HI Hl) as [Hcall Hc].
  destruct (ci_dns _ _ _ HI) as [Hd HC].
  eapply wp_mono; [by eapply (addr_cb_wp None)|]. simpl. intros _ s' (HI' & HF & _ & EL).
  rewrite Hcall in EL. rewrite EL, lookup_delete_eq. split; [|done].
  apply dns_answer_kept; try done. intros k lk'. rewrite EL. intros Hk.
  apply lookup_delete_Some in Hk as [_ Hk]. by eapply HC.
Qed.

(** Every legal step keeps the invariant, without undefined behaviour. *)
Lemma start_kept X u config cb user s rc s' : start_step X u config cb user s rc s' -> kept X s s'.
Proof. by intros []. Qed.

Lemma storage_kept X u a0 a s :
  client_inv X s -> s_adms s !! u = Some a0 -> ad_active a0 = false ->
  (forall p, ~ awaits a p) -> wf_latency_guard (ad_guard a) -> kept X s (stored u a s).
Proof. intros HI Hu Hi Ha Hg. apply client_inv_storage; [done|by eapply idle_unawaited|done|done]. Qed.

Lemma prepare_kept X u config cb user s rc s' a0 :
  client_inv X s -> s_adms s !! u = Some a0 -> ad_active a0 = false ->
  from_option admission_ok True config -> prepare_step u config cb user s rc s' -> kept X s s'.
Proof.
  intros HI Hu Hi Hc [|a Ha _ Hg|c a -> Hp]; [by apply kept_refl|by eapply storage_kept; [..|intros p []; congruence|]|].
  eapply storage_kept; [done..| |by eapply prepared_guard].
  by destruct Hp as (_ & _ & ? & ? & ? & ? & _ & _ & _ & _ & ->); intros p [].
Qed.

Lemma report_kept X u a observed s rc s' :
  client_inv X s -> report_step X u a observed s rc s' -> kept X s s'.
Proof. intros HI [|rc' s1 _ _ (? & ? & _)|s1 s2 _ _ -> ? ?]; [by apply kept_refl|by split..]. Qed.

(** The admission storage operations. *)
Lemma admission_exec_wp X a s :
  client_inv X s -> legal a s ->
  match a with
  | AdmissionPrepare _ _ _ _ | AdmissionStart _ _ _ _ | AdmissionDeadline _ _
  | AdmissionTimeout _ _ | AdmissionCancel _ | AdmissionReport _ _ =>
      wp (exec a) (fun _ s' => kept X s s') s
  | _ => True
  end.
Proof.
  intros HI Hl. destruct a as [| | | | | | | | |u c cb user|u c cb user|u out|u now|u|u obs]; try done;
    cbn [exec legal] in *; (destruct u as [u|]; [|by apply kept_refl]).
  - destruct Hl as [(a & Hu & Hi) Hc]. apply discard_wp.
    eapply wp_mono; [by apply prepare_wp|]. intros rc s' Hs. by eapply prepare_kept.
  - destruct Hl as [(a & Hu & Hi) Hc]. apply discard_wp.
    eapply wp_mono; [by apply (start_wp X u c cb user s a)|]. intros rc s' Hs. by eapply start_kept.
  - destruct Hl as (a & Hu & _). apply discard_wp. destruct out as [t|].
    + eapply wp_mono; [by apply (admission_deadline_wp X u a)|]. simpl. intros _ s' (-> & _). by apply kept_refl.
    + unfold r_client_admission_deadline_ms. wp_step. apply (active_handle_wp u a); [done|intros _|intros p _];
        rewrite ?orb_true_r; wp_step; by apply kept_refl.
  - destruct Hl as (a & Hu & _). apply discard_wp.
    eapply wp_mono; [by apply (admission_timeout_wp X u a)|]. simpl. intros rc s' [HN HS].
    destruct (awaits_dec a) as [[p Ha]|Hn].
    + pose proof (awaited_live X u a p s HI Hu Ha) as Hin. destruct (inflight_req X s p HI Hin) as (r & Hr & _).
      destruct (HS p r Ha Hr) as (_ & _ & Ht). by eapply timeout_kept.
    + destruct (HN Hn) as [_ ->]. by apply kept_refl.
  - destruct Hl as (a & Hu & _). eapply wp_mono; [by apply (admission_cancel_wp X u a)|].
    simpl. intros _ s' (? & ? & _). by split.
  - destruct Hl as [(a & Hu & _) Ho]. apply discard_wp.
    eapply wp_mono; [by apply (admission_report_wp X u a)|]. intros rc s' Hs. by eapply report_kept.
Qed.

Lemma exec_wp X a s :
  client_inv X s -> legal a s -> wp (exec a) (fun _ s' => kept X s s') s.
Proof.
  intros HI Hl. pose proof (admission_exec_wp X a s HI Hl) as Hadm.
  destruct a as [rs rn gs gn lab n cb user out b|rp n|buf len from|req now|req out|req| |l st rs|l st ads| | | | | |];
    cbn [exec legal] in *; [..|done|done|done|done|done|done].
  - destruct Hl as ((gs' & rs' & ol & Ha) & Hcb & Hout). apply discard_wp.
    assert (Hc : wp (r_client_check_rate_limit_async_impl rs rn gs gn lab n cb user out b)
              (fun _ s' => kept X s s') s); [|by destruct b].
    eapply wp_mono; [eapply check_async_wp; [done|done| |done]|].
    { destruct out as [|v|u]; [done|done|by destruct (Hout u)]. }
    intros res s' Hst. by destruct Hst.
  - destruct Hl as (rs & Ha & -> & Hw & Hob). apply discard_wp.
    eapply wp_mono; [by apply (report_latency_wp X)|]. intros rc s' (HI' & HF & _). by split.
  - destruct Hl as [Hb Hf]. apply discard_wp. destruct buf as [buf|], from as [from|];
      try (unfold r_client_on_datagram; wp_step; by apply kept_refl).
    destruct Hb as (Hb & Ho & Hlen). eapply wp_mono; [by apply (on_datagram_wp X)|].
    intros rc s' Hd. by eapply datagram_kept.
  - apply discard_wp. destruct req as [p|]; simpl in Hl; [|by apply kept_refl].
    destruct (inflight_req X s p HI Hl) as (r & Hr & _).
    eapply wp_mono; [by apply (on_timeout_wp X p r)|]. intros rc s' [_ Ht]. by eapply timeout_kept.
  - apply discard_wp. destruct req as [p|], out as [t|]; simpl in Hl; unfold r_client_request_deadline_ms;
      try (wp_step; by apply kept_refl).
    destruct (inflight_req X s p HI Hl) as (r & Hr & _). wp_step. wp_step. wp_step. by apply kept_refl.
  - destruct req as [p|]; [|by apply kept_refl].
    eapply wp_mono; [apply (cancel_wp X); [done|]|simpl; intros _ s' (HI' & HF & _); by split].
    intros Hin. destruct (inflight_req X s p HI Hin) as (r & Hr & _).
    eapply plain_released; [done|done|by eapply Hl].
  - apply discard_wp. unfold r_client_send_failure_count. wp_step. wp_step. wp_step. by apply kept_refl.
  - destruct Hl. eapply wp_mono; [by apply (srv_answer_wp X)|]. by intros ? s' [? _].
  - destruct Hl. eapply wp_mono; [by apply (addr_answer_wp X)|]. by intros ? s' [? _].
Qed.

Lemma reachable_kept s0 s : client_inv ∅ s0 -> reachable s0 s -> kept ∅ s0 s.
Proof.
  intros Hz Hr. induction Hr as [|s a s' Hr IH Hl E]; [by apply kept_refl|].
  pose proof (exec_wp ∅ a s (proj1 IH) Hl) as Hw. unfold wp in Hw. rewrite E in Hw.
  eapply kept_trans; [apply IH|exact Hw].
Qed.

Lemma reachable_inv s0 s : client_inv ∅ s0 -> reachable s0 s -> client_inv ∅ s.
Proof. intros Hz Hr. by apply (reachable_kept s0). Qed.
End Safety.

(** ** Callbacks that call back

    A completion callback that alternates between its own computation and
    legal calls into the client, whose callbacks behave as in [base]. *)
Section Callbacks.
Context {W : Type} (base : Host W) {ssl : OpenSSL}.

(** One turn of a callback: the host's new state and the next call. *)
Context (turn : Z -> Z -> option ptr -> Z -> option r_rate_limit_result -> sys W -> W * option api).
Context (aturn : Z -> Z -> Z -> r_admission_outcome -> sys W -> W * option api).

Fixpoint run_callback (fuel : nat) (next : sys W -> W * option api) (s : sys W) : run (sys W) :=
  match fuel with
  | O => Ok s
  | S fuel' =>
      let '(w, call) := next s in
      let s := set_world w s in
      match call with
      | None => Ok s
      | Some a => r ← exec a s; run_callback fuel' next (snd r)
      end
  end.

Definition with_callback (fuel : nat) : Host W := {|
  h_now_ms := h_now_ms;
  h_udp_send := h_udp_send;
  h_rand_bytes := h_rand_bytes;
  h_alloc := h_alloc;
  h_resolve_srv := h_resolve_srv;
  h_resolve_addrs := h_resolve_addrs;
  h_cancel := h_cancel;
  h_profile := h_profile;
  h_steering := h_steering;
  h_complete := fun cb user req status res => run_callback fuel (turn cb user req status res);
  h_admission := fun cb user status outcome => run_callback fuel (aturn cb user status outcome);
|}.

Context {HLb : HostLaws W} {HRb : Reentrant W} {laws : AesGcmLaws ssl} {dlaws : DigestLaws ssl}.

(** A callback may choose its calls by looking at the state it finds. *)
Definition lawful (next : sys W -> W * option api) : Prop :=
  forall X s w a, client_inv X s -> next s = (w, Some a) -> legal a (set_world w s).

Lemma run_callback_ok fuel next X s :
  lawful next -> client_inv X s -> exists s', run_callback fuel next s = Ok s' /\ kept X s s'.
Proof.
  intros Hlaw. revert s; induction fuel as [|fuel IH]; intros s HI; cbn [run_callback].
  { exists s. split; [done|]. by apply kept_refl. }
  destruct (next s) as [w call] eqn:Et.
  assert (Hk : kept X s (set_world w s)) by (apply kept_world; [done|by eexists]).
  destruct call as [a|]; [|by exists (set_world w s)]. destruct Hk as [HI1 HF1].
  pose proof (exec_wp X a (set_world w s) HI1 (Hlaw X s w a HI Et)) as Hw.
  apply wp_Ok in Hw as ([] & s2 & E2 & [HI2 HF2]). rewrite E2. simpl.
  destruct (IH s2 HI2) as (s3 & E3 & Hk3). exists s3. split; [exact E3|].
  eapply kept_trans; [|exact Hk3]. by etransitivity.
Qed.

Lemma with_callback_laws fuel : @HostLaws W (with_callback fuel).
Proof. destruct HLb. by split. Qed.

(** Such callbacks meet the contract the client's theorems assume; by
    iterating, callbacks may nest to any depth. *)
Lemma with_callback_reentrant fuel :
  (forall cb user req status res, lawful (turn cb user req status res)) ->
  (forall cb user status outcome, lawful (aturn cb user status outcome)) ->
  @Reentrant W (with_callback fuel) (with_callback_laws fuel).
Proof.
  intros H1 H2. split.
  - intros cb user req status res s X HI _ _. simpl.
    destruct (run_callback_ok fuel _ X s (H1 cb user req status res) HI) as (s' & E & HI' & HF'). eauto.
  - intros cb user status outcome s X HI _. simpl.
    destruct (run_callback_ok fuel _ X s (H2 cb user status outcome) HI) as (s' & E & HI' & HF'). eauto.
Qed.
End Callbacks.

(** Callbacks inside callbacks, [depth] levels of them; the innermost calls run
    the callbacks of [base]. *)
Section Nesting.
Context {W : Type} {ssl : OpenSSL} {laws : AesGcmLaws ssl} {dlaws : DigestLaws ssl}.
Context (turn : Z -> Z -> option ptr -> Z -> option r_rate_limit_result -> sys W -> W * option api).
Context (aturn : Z -> Z -> Z -> r_admission_outcome -> sys W -> W * option api).

Fixpoint nest (base : Host W) (fuel depth : nat) : Host W :=
  match depth with
  | O => base
  | S depth' => with_callback (nest base fuel depth') turn aturn fuel
  end.

Lemma nest_reentrant (base : Host W) fuel depth :
  (forall cb user req status res, lawful (turn cb user req status res)) ->
  (forall cb user status outcome, lawful (aturn cb user status outcome)) ->
  (exists HL : @HostLaws W base, @Reentrant W base HL) ->
  exists HL : @HostLaws W (nest base fuel depth), @Reentrant W (nest base fuel depth) HL.
Proof.
  intros H1 H2 Hb. induction depth as [|depth [HL HR]]; [exact Hb|]. cbn [nest].
  exists (with_callback_laws (nest base fuel depth) turn aturn fuel). by apply with_callback_reentrant.
Qed.
End Nesting.

(** ** Progress *)
Section Progress.
Context {W : Type} `{HR : Reentrant W} {ssl : OpenSSL} {laws : AesGcmLaws ssl} {dlaws : DigestLaws ssl}.
Implicit Types s : sys W.
Implicit Types X : gset ptr.

(** A host that asks for the deadline and calls [r_client_on_timeout] when it
    has passed, each time some [late] milliseconds after it. *)
Fixpoint drive (lates : list Z) (p : ptr) : M W unit :=
  match lates with
  | [] => mret tt
  | late :: lates' =>
      live ← gets (fun s => bool_decide (p ∈ cl_inflight (s_client s)));
      if negb live then mret tt else
      d ← r_client_request_deadline_ms (Some p) (Some 0);
      t ← lift (deref (snd d));
      _ ← r_client_on_timeout (Some p) (t + late);
      drive lates' p
  end.

Lemma steps_left_nonneg c r : on_schedule c r -> 0 <= steps_left c r.
Proof. intros Hs. pose proof (os_round _ _ Hs). unfold steps_left. destruct (rq_phase r); lia. Qed.

(** A due timeout completes the request or uses up a step. *)
Lemma timeout_progress X p r now s s' :
  client_inv X s -> p ∈ cl_inflight (s_client s) -> s_reqs s !! p = Some r ->
  rq_attempt_deadline_ms r <= now -> timeout_step X p r now s s' ->
  (exists st sel, completed X p r st sel s s') \/
  (client_inv X s' /\ p ∈ cl_inflight (s_client s') /\
   cl_fixed (s_client s') = cl_fixed (s_client s) /\
   exists r', s_reqs s' !! p = Some r' /\
     steps_left (cl_fixed (s_client s)) r' < steps_left (cl_fixed (s_client s)) r).
Proof.
  intros HI Hin Hr Hdue Ht.
  destruct Ht as [?|s' _ _ Hc|s' tr _ _ Eph Hlt _ HI' HF Er _ _ _|s' _ _ Eph Er _ HI' ->|s' st _ _ _ Hc];
    [lia|left; eauto| | |left; eauto]; right; (split; [done|]).
  - split; [by rewrite (sf_inflight _ _ _ HF)|]. split; [by eapply sf_fixed|].
    eexists. rewrite Er. split; [apply lookup_insert_eq|]. unfold steps_left. simpl. rewrite Eph. lia.
  - split; [done|]. split; [done|]. eexists. split; [apply lookup_insert_eq|].
    unfold steps_left. simpl. rewrite Eph, Er. lia.
Qed.

Lemma drive_done lates p s :
  p ∉ cl_inflight (s_client s) -> wp (drive lates p) (fun _ s' => s' = s) s.
Proof.
  intros Hn. destruct lates as [|l lates]; cbn [drive]; [by wp_step|].
  wp_step. apply wp_gets. rewrite bool_decide_false by done. simpl. by wp_step.
Qed.

Lemma drive_wp X lates p r s :
  client_inv X s -> p ∈ cl_inflight (s_client s) -> s_reqs s !! p = Some r ->
  Forall (fun l => 0 <= l) lates -> steps_left (cl_fixed (s_client s)) r < zlen lates ->
  wp (drive lates p) (fun _ s' =>
    client_inv X s' /\ s_reqs s' !! p = None /\ completions p (s_trace s') = 1%nat) s.
Proof.
  intros HI Hin Hr Hl. revert r s HI Hin Hr; induction Hl as [|l lates Hl0 Hl IH]; intros r s HI Hin Hr Hst.
  { pose proof (steps_left_nonneg _ _ (proj2 (ci_reqs _ _ _ HI p r Hin Hr))). simpl in Hst. lia. }
  cbn [drive]. wp_step. apply wp_gets. rewrite bool_decide_true by done. cbn [negb].
  unfold r_client_request_deadline_ms at 1. do 5 wp_step. eapply wp_lift; [done|].
  eapply wp_seq; [by apply (on_timeout_wp X p r)|]. simpl. intros _ s1 [_ Ht].
  destruct (timeout_progress X p r (rq_attempt_deadline_ms r + l) s s1 HI Hin Hr ltac:(lia) Ht)
    as [(st & sel & Hc)|(HI1 & Hin1 & Ef & r1 & Hr1 & Hlt)].
  - eapply wp_mono; [apply drive_done|].
    + intros Hin1. destruct (proj2 (ci_live _ _ _ (cp_inv _ _ _ _ _ _ _ Hc) p)) as [x Hx]; [by left|].
      by rewrite (cp_freed _ _ _ _ _ _ _ Hc) in Hx.
    + simpl. intros _ s2 ->. split; [apply Hc|]. split; apply Hc.
  - apply (IH r1); try done. rewrite Ef. cbn [length] in Hst. lia.
Qed.
End Progress.
