(* ===== verification/Teardown.v ===== *)
(** * Destroying a client

    Every request is freed without its callback, the credential is wiped, and
    the DNS refresh is detached: answers the resolver still delivers afterwards
    only release the lookups they belong to. *)

From Stdlib Require Import String Ascii.
From S2P Require Import Prelude.
From S2P Require Import Types.
From S2P Require Import Wire.
From S2P Require Import WireFacts.
From S2P Require Import Crypto.
From S2P Require Import Workflow.
From S2P Require Import State.
From S2P Require Import Hoare.
From S2P Require Import Schedule.
From S2P Require Import Dns.
From S2P Require Import DnsFacts.
From S2P Require Import Request.
From S2P Require Import RequestFacts.
From S2P Require Import PacketFacts.
From S2P Require Import Client.
From S2P Require Import Lifecycle.

Section Teardown.
Context {W : Type} `{HL : HostLaws W} {ssl : OpenSSL}.
Implicit Types s : sys W.

(** The refresh of an answer that comes after it was detached. *)
Definition detached_refresh (l : ptr) (rf : r_dns_refresh) : r_dns_refresh :=
  set_rf_lookups (list_unlink l (rf_lookups rf)) (set_rf_pending (rf_pending rf - 1) rf).

Definition late_refreshes (l p : ptr) (rf : r_dns_refresh) (m : gmap ptr r_dns_refresh) :=
  if idle (detached_refresh l rf) then delete p m else <[p := detached_refresh l rf]> m.

(** The machine after it: only the DNS cells of the answer's refresh change. *)
Definition late_state (l p : ptr) (rf : r_dns_refresh) s : sys W :=
  set_lookups (delete l (s_lookups s)) (set_refreshes (late_refreshes l p rf (s_refreshes s)) s).

Lemma late_finish_wp l lk p rf s :
  dns_inv None None s -> s_lookups s !! l = Some lk -> lk_completed lk = false ->
  lk_in_resolver_call lk = false -> lk_refresh lk = Some p -> s_refreshes s !! p = Some rf ->
  rf_detached rf = true ->
  wp (r_dns_lookup_finish l) (fun _ s' => s' = late_state l p rf s) s.
Proof.
  intros HI Hl Hc Hcall Hr Hp Hd.
  destruct (lookup_refresh _ _ _ _ _ _ HI Hl Hr) as (rf' & Hp' & Hin). simplify_eq.
  pose proof (uncompleted_pending _ _ _ _ _ _ _ HI Hl Hr Hp Hc) as Hpos.
  destruct (refresh_bounds _ _ _ _ _ HI Hp) as [Hb _].
  destruct (di_refreshes _ _ _ HI p rf Hp) as [HRf _].
  unfold r_dns_lookup_finish. do 2 wp_step. rewrite Hr. do 3 wp_step.
  eapply dec_pending_wp; [done | lia|]. wp_step.
  eapply wp_get_lookup; [apply lookup_insert_eq|]. simpl. rewrite Hcall. simpl. wp_step.
  eapply drop_lookup_wp; [apply lookup_insert_eq | done | apply lookup_insert_eq|]. simpl.
  rewrite delete_insert_eq, insert_insert_eq. fold (detached_refresh l rf).
  unfold r_dns_refresh_maybe_complete. wp_step. eapply wp_get_refresh; [apply lookup_insert_eq|].
  rewrite <- negb_andb. fold (idle (detached_refresh l rf)).
  unfold late_state, late_refreshes. destruct (idle (detached_refresh l rf)) eqn:Eid; cbn [negb].
  2:{ wp_step. done. }
  simpl. rewrite Hd. simpl. eapply refresh_free_wp; [apply lookup_insert_eq| |].
  - apply andb_true_iff in Eid as [E1%Z.eqb_eq E2%Z.eqb_eq]. unfold detached_refresh in *. simpl in *.
    assert (Hone : list_unlink l (rf_lookups rf) = []); [|done].
    destruct (list_unlink l (rf_lookups rf)) as [|k ks] eqn:Ek; [done|]. exfalso.
    assert (Hk : k ∈ rf_lookups rf /\ k <> l).
    { apply elem_of_list_unlink; [apply HRf|]. rewrite Ek. left. }
    destruct Hk as [Hk Hkl]. destruct (ro_lookups _ _ _ _ _ HRf k Hk) as (lk' & Hlk' & _).
    pose proof (count_unlink uncompleted (s_lookups s) (rf_lookups rf) l lk
      (ro_nodup _ _ _ _ _ HRf) Hin Hl) as Hcu.
    assert (uncompleted lk = true) as Hu by (unfold uncompleted; by rewrite Hc).
    rewrite Hu, <- (ro_pending _ _ _ _ _ HRf) in Hcu. simpl in Hcu.
    destruct (uncompleted lk') eqn:Eu.
    + assert (0 < count uncompleted (s_lookups s) (list_unlink l (rf_lookups rf))); [|lia].
      apply (count_pos _ _ _ k lk'); [rewrite Ek; left|done|done].
    + pose proof (ro_scheduling _ _ _ _ _ HRf) as Hsc.
      assert (lk_in_resolver_call lk' = true) as Hin'.
      { apply (lo_state _ _ _ (di_lookups _ _ _ HI k lk' Hlk')). unfold uncompleted in Eu.
        by apply negb_false_iff in Eu. }
      pose proof (count_pos lk_in_resolver_call _ _ k lk' Hk Hlk' Hin').
      rewrite bool_decide_false in Hsc by done. simpl in Hsc. lia.
  - simpl. by rewrite delete_insert_eq.
Qed.

(** A client after [r_client_destroy]: no current refresh. *)
Definition destroyed s : Prop :=
  dns_inv None None s /\ cl_dns_refresh (s_client s) = None /\ at_rest s.

Lemma destroyed_lookup s l lk :
  destroyed s -> s_lookups s !! l = Some lk ->
  lk_completed lk = false /\ lk_in_resolver_call lk = false /\
  exists p rf, lk_refresh lk = Some p /\ s_refreshes s !! p = Some rf /\
    rf_detached rf = true /\ rf_client rf = false.
Proof.
  intros (HI & Hcur & HC) Hl. destruct (di_lookups _ _ _ HI l lk Hl) as [(p & rf & Hr & Hp & _) [Hst _] _].
  specialize (HC l lk Hl). split; [destruct (lk_completed lk); [|done]; by rewrite Hst in HC|].
  split; [done|]. exists p, rf. do 2 (split; [done|]).
  destruct (di_refreshes _ _ _ HI p rf Hp) as [HRf _].
  destruct (ro_owner _ _ _ _ _ HRf) as [(_ & _ & ? & _)|(? & _ & [?|?])]; [congruence|done|done].
Qed.

(** Late answers: an exact account of what they change. *)
Lemma late_addr_wp l lk status addrs s :
  destroyed s -> s_lookups s !! l = Some lk -> wf_addr_answer addrs ->
  wp (r_dns_addr_cb_fn l status addrs) (fun _ s' =>
    destroyed s' /\ exists p rf, s_refreshes s !! p = Some rf /\ s' = late_state l p rf s) s.
Proof.
  intros Hd Hl Hw. destruct (destroyed_lookup s l lk Hd Hl) as (Hc & Hcall & p & rf & Hr & Hp & Hdt & _).
  destruct Hd as (HI & Hcur & HC).
  assert (Hex : wp (r_dns_addr_cb_fn l status addrs) (fun _ s' => s' = late_state l p rf s) s).
  { unfold r_dns_addr_cb_fn. do 2 wp_step. rewrite Hr. do 2 wp_step. rewrite Hdt. cbn [negb andb].
    apply (wp_seq _ _ (fun _ s' => s' = s)); [by destruct addrs; wp_step|].
    intros _ ? ->. by eapply late_finish_wp. }
  pose proof (addr_cb_wp None l lk s status addrs HI Hl Hc Hw) as Hinv.
  unfold wp in *. destruct (r_dns_addr_cb_fn l status addrs s) as [|[[] s']]; [done|].
  destruct Hinv as (HI' & _ & _ & EL). rewrite Hcall in EL. split; [|by exists p, rf].
  split; [done|]. split; [by rewrite Hex|]. intros k lk'. rewrite EL. intros Hk.
  apply lookup_delete_Some in Hk as [_ Hk]. by eapply HC.
Qed.

Lemma late_srv_wp l lk status records s :
  destroyed s -> s_lookups s !! l = Some lk -> wf_srv_answer records ->
  wp (r_dns_srv_cb_fn l status records) (fun _ s' =>
    destroyed s' /\ exists p rf, s_refreshes s !! p = Some rf /\ s' = late_state l p rf s) s.
Proof.
  intros Hd Hl Hw. destruct (destroyed_lookup s l lk Hd Hl) as (Hc & Hcall & p & rf & Hr & Hp & Hdt & _).
  destruct Hd as (HI & Hcur & HC).
  assert (Hex : wp (r_dns_srv_cb_fn l status records) (fun _ s' => s' = late_state l p rf s) s).
  { unfold r_dns_srv_cb_fn. do 2 wp_step. rewrite Hr. do 2 wp_step. rewrite Hdt. cbn [orb].
    by eapply late_finish_wp. }
  pose proof (srv_cb_wp None l lk s status records HI Hl Hc Hw) as Hinv.
  unfold wp in *. destruct (r_dns_srv_cb_fn l status records s) as [|[[] s']]; [done|].
  destruct Hinv as (HI' & _ & _). split; [|by exists p, rf].
  split; [done|]. rewrite Hex. split; [done|]. intros k lk' Hk. simpl in Hk.
  apply lookup_delete_Some in Hk as [_ Hk]. by eapply HC.
Qed.
(** *** Destruction *)
Lemma free_all_wp l s :
  NoDup l -> (forall p, p ∈ l -> is_Some (s_reqs s !! p)) ->
  wp (for_each l r_request_free) (fun _ s' =>
    s' = set_trace (s_trace s ++ map EvFreeReq l)
           (set_reqs (foldr delete (s_reqs s) (reverse l)) s)) s.
Proof.
  revert s; induction l as [|p l IH]; intros s Hnd Hl; cbn [for_each].
  { wp_step. rewrite app_nil_r. by destruct s. }
  apply NoDup_cons in Hnd as [Hp Hnd]. destruct (Hl p ltac:(left)) as [r Hr].
  apply (wp_seq _ _ (fun _ s1 => s1 = set_reqs (delete p (s_reqs s))
                                        (set_trace (s_trace s ++ [EvFreeReq p]) s))).
  { unfold r_request_free. by do 5 wp_step. }
  intros _ s1 ->. eapply wp_mono; [apply IH; [done|]|].
  - intros q Hq. simpl. rewrite lookup_delete_ne by (intros ->; done). apply Hl. by right.
  - simpl. intros _ s' ->. rewrite <- app_assoc, reverse_cons, foldr_app. done.
Qed.

Lemma foldr_delete_lookup (m : gmap ptr r_client_req) l q :
  foldr delete m l !! q = if decide (q ∈ l) then None else m !! q.
Proof.
  induction l as [|p l IH]; cbn [foldr]; [by case_decide; [set_solver|]|].
  destruct (decide (q = p)) as [->|Hne].
  - rewrite lookup_delete_eq. destruct (decide (p ∈ p :: l)); [done|set_solver].
  - rewrite lookup_delete_ne, IH by done.
    destruct (decide (q ∈ l)), (decide (q ∈ p :: l)); set_solver.
Qed.

(** The first [n] bytes of the block are zero, the rest are as they were. *)
Definition wiped (n : Z) (block block' : list Z) : Prop :=
  block' = replicate (Z.to_nat n) 0 ++ drop (Z.to_nat n) block.

Lemma cleanse_ok block n :
  0 <= n <= zlen block -> exists block', cleanse block n = Ok block' /\ wiped n block block'.
Proof.
  intros Hn. unfold cleanse, fill. rewrite (proj2 (Z.leb_le 0 n)) by lia.
  destruct (wr_defined block 0 (replicate (Z.to_nat n) 0)) as [b' Hb];
    [lia|rewrite length_replicate; lia|].
  rewrite Hb. exists b'. split; [done|]. apply wr0_eq in Hb. by rewrite length_replicate in Hb.
Qed.

(** The stored credential: the encoded key is as long as recorded. *)
Definition secret_ok (c : client_fixed) : Prop :=
  zlen (cf_cookie c) = 32 /\ zlen (cf_aes_key c) = 32 /\
  from_option (fun b => 0 <= cf_auth_secret_len c <= zlen b) True (cf_auth_secret c).

Record wiped_credential (c c' : client_fixed) : Prop := {
  wc_cookie : cf_cookie c' = replicate 32 0;
  wc_aes_key : cf_aes_key c' = replicate 32 0;
  wc_secret : match cf_auth_secret c, cf_auth_secret c' with
              | Some b, Some b' => wiped (cf_auth_secret_len c) b b'
              | None, None => True
              | _, _ => False
              end;
  wc_rest : cf_dns_name c' = cf_dns_name c /\ cf_auth_secret_len c' = cf_auth_secret_len c;
}.

(** A credential of which nothing is left. *)
Record scrubbed (c : client_fixed) : Prop := {
  sb_cookie : cf_cookie c = replicate 32 0;
  sb_aes_key : cf_aes_key c = replicate 32 0;
  sb_secret : from_option (fun b => let n := Z.to_nat (cf_auth_secret_len c) in take n b = replicate n 0)
                True (cf_auth_secret c);
}.

Lemma wiped_scrubbed c c' : wiped_credential c c' -> scrubbed c'.
Proof.
  intros [E1 E2 E3 [_ E4]]. split; [done|done|]. rewrite E4.
  destruct (cf_auth_secret c), (cf_auth_secret c'); try done. cbn [from_option]. rewrite E3.
  by rewrite take_app_length' by by rewrite length_replicate.
Qed.

(** The blocks a client gives back when it is destroyed, in order: those that
    are not NULL, then the client itself. *)
Definition secret_frees (c : client_fixed) : list event :=
  match cf_auth_secret c with Some _ => [EvFree BLOCK_AUTH_SECRET] | None => [] end.
Definition client_frees (server_cap : Z) (c : client_fixed) : list event :=
  (if server_cap =? 0 then [] else [EvFree BLOCK_SERVERS]) ++
  match cf_dns_name c with Some _ => [EvFree BLOCK_DNS_NAME] | None => [] end ++
  secret_frees c ++ [EvFree BLOCK_CLIENT].

Lemma wiped_frees cap c c' : wiped_credential c c' -> client_frees cap c' = client_frees cap c.
Proof.
  intros [_ _ E [E1 _]]. unfold client_frees, secret_frees. rewrite E1.
  by destruct (cf_auth_secret c), (cf_auth_secret c').
Qed.

Lemma wiped_all block n block' : wiped n block block' -> zlen block = n -> block' = replicate (Z.to_nat n) 0.
Proof. intros -> E. rewrite drop_ge by lia. by rewrite app_nil_r. Qed.

Lemma wipe_wp s :
  secret_ok (cl_fixed (s_client s)) ->
  wp wipe_credential
    (fun _ s' => exists f', s' = set_client (set_cl_fixed f' (s_client s))
                              (set_trace (s_trace s ++ secret_frees (cl_fixed (s_client s))) s) /\
                            wiped_credential (cl_fixed (s_client s)) f') s.
Proof.
  intros (Hc & Ha & Hs). unfold wipe_credential. wp_step. wp_step. set (f := cl_fixed (s_client s)) in *.
  destruct (cleanse_ok (cf_cookie f) 32) as (ck & Eck & Wck); [lia|].
  destruct (cleanse_ok (cf_aes_key f) 32) as (ak & Eak & Wak); [lia|].
  apply wiped_all in Wck, Wak; [|done..].
  apply (wp_seq _ _ (fun _ s1 => exists f1, s1 = set_client (set_cl_fixed f1 (s_client s))
      (set_trace (s_trace s ++ secret_frees f) s) /\
    match cf_auth_secret f, cf_auth_secret f1 with
    | Some b, Some b' => wiped (cf_auth_secret_len f) b b' | None, None => True | _, _ => False end /\
    cf_dns_name f1 = cf_dns_name f /\ cf_auth_secret_len f1 = cf_auth_secret_len f)).
  - unfold secret_frees. destruct (cf_auth_secret f) as [b|] eqn:Eb; simpl in Hs.
    + destruct (cleanse_ok b (cf_auth_secret_len f) Hs) as (b' & Eb' & Wb).
      wp_step. eapply wp_lift; [exact Eb'|]. unfold upd_fixed, emit. repeat wp_step.
      eexists. split; [reflexivity|]. done.
    + wp_step. exists f. rewrite Eb, app_nil_r. split; [|done]. by destruct s as [[] ? ? ? ? ? ?].
  - intros _ s1 (f1 & -> & Hf1 & Hrest). wp_step. eapply wp_lift; [exact Eck|].
    wp_step. eapply wp_lift; [exact Eak|]. unfold upd_fixed. wp_step.
    eexists. split; [reflexivity|]. by split.
Qed.

(** The lookups [r_client_destroy] cancels. *)
Definition outstanding s : list event :=
  match cl_dns_refresh (s_client s) with Some p => detach_cancels p s | None => [] end.

(** The end of [r_client_destroy]: the client's own blocks. *)
Lemma release_wp s :
  secret_ok (cl_fixed (s_client s)) ->
  wp (c ← client;
      _ ← (if cl_server_cap c =? 0 then mret tt else emit (EvFree BLOCK_SERVERS));
      _ ← (if is_null (cf_dns_name (cl_fixed c)) then mret tt else emit (EvFree BLOCK_DNS_NAME));
      _ ← wipe_credential;
      emit (EvFree BLOCK_CLIENT))
    (fun _ s' => exists f', wiped_credential (cl_fixed (s_client s)) f' /\
       s' = set_client (set_cl_fixed f' (s_client s))
         (set_trace (s_trace s ++ client_frees (cl_server_cap (s_client s)) (cl_fixed (s_client s))) s)) s.
Proof.
  intros Hs. wp_step. wp_step.
  set (t1 := if cl_server_cap (s_client s) =? 0 then [] else [EvFree BLOCK_SERVERS]).
  set (t2 := match cf_dns_name (cl_fixed (s_client s)) with Some _ => [EvFree BLOCK_DNS_NAME] | None => [] end).
  apply (wp_seq _ _ (fun _ s1 => s1 = set_trace (s_trace s ++ t1) s)).
  { unfold t1. destruct (cl_server_cap (s_client s) =? 0); [wp_step; rewrite app_nil_r; by destruct s|].
    unfold emit. by wp_step. }
  intros _ _ ->. apply (wp_seq _ _ (fun _ s1 => s1 = set_trace ((s_trace s ++ t1) ++ t2) s)).
  { unfold t2. destruct (cf_dns_name (cl_fixed (s_client s))); cbn [is_null]; [unfold emit; by wp_step|].
    wp_step. by rewrite app_nil_r. }
  intros _ _ ->. eapply wp_seq; [by apply wipe_wp|]. cbv beta. intros _ _ (f' & -> & Hw).
  unfold emit. wp_step. exists f'. split; [done|]. unfold client_frees. fold t1 t2. simpl. by rewrite <- !app_assoc.
Qed.

Lemma destroy_wp s :
  client_inv ∅ s -> secret_ok (cl_fixed (s_client s)) ->
  wp r_client_destroy (fun _ s' =>
    s_reqs s' = ∅ /\ destroyed s' /\
    wiped_credential (cl_fixed (s_client s)) (cl_fixed (s_client s')) /\
    s_trace s' = s_trace s ++ map EvFreeReq (cl_inflight (s_client s)) ++ outstanding s ++
                 client_frees (cl_server_cap (s_client s')) (cl_fixed (s_client s)) /\
    Forall is_cancel (outstanding s)) s.
Proof.
  intros HI Hsec. unfold r_client_destroy. wp_step. wp_step.
  eapply wp_seq; [apply free_all_wp; [apply HI|by eapply inflight_live]|].
  cbv beta. intros _ s1 E1. wp_step. wp_step.
  assert (Hr1 : s_reqs s1 = ∅).
  { rewrite E1. simpl. apply map_eq. intros p. rewrite foldr_delete_lookup, lookup_empty.
    case_decide as Hp; [done|]. destruct (s_reqs s !! p) eqn:Er; [|done].
    destruct (proj1 (ci_live _ _ _ HI p)) as [Hin|?]; [by rewrite Er| |set_solver].
    destruct Hp. by apply elem_of_reverse. }
  assert (Hd1 : dns_rest s1) by (rewrite E1; by eapply (dns_rest_ext s); [apply HI|..]).
  assert (Eout : match cl_dns_refresh (s_client s1) with Some p => detach_cancels p s1 | None => [] end = outstanding s)
    by by rewrite E1.
  apply (wp_seq _ _ (fun _ s2 => s_trace s2 = s_trace s1 ++ outstanding s /\ dns_rest s2 /\ dns_frame s1 s2 /\
                                 cl_dns_refresh (s_client s2) = None)).
  { rewrite <- Eout. destruct (cl_dns_refresh (s_client s1)) as [p|] eqn:Ep; [by apply detach_wp|].
    wp_step. rewrite app_nil_r. split; [done|]. split; [done|]. by split; [reflexivity|]. }
  intros _ s2 (Et2 & Hd2 & HF2 & Hcur2).
  assert (Ef : cl_fixed (s_client s2) = cl_fixed (s_client s)) by (rewrite (df_fixed _ _ HF2), E1; done).
  eapply wp_mono; [apply release_wp; by rewrite Ef|]. cbv beta. rewrite Ef.
  intros _ s3 (f' & Hw & ->). simpl. split; [by rewrite (df_reqs _ _ HF2)|].
  split; [|split; [done|split]].
  - destruct Hd2 as [HI2 HR2]. split; [by eapply dns_inv_ext|]. done.
  - rewrite Et2, E1. simpl. by rewrite <- !app_assoc.
  - destruct (df_trace _ _ HF2) as (tr & Et & Hc). rewrite Et2 in Et. by apply app_inv_head in Et as ->.
Qed.
End Teardown.
