(* ===== verification/Create.v ===== *)
(** * Creation of a client (src/r_client.c 24-51, 1512-1657)

    [r_client_create] on a machine without a client: the credential it takes
    from the key, the name it will resolve, and the invariant it establishes. *)

From Stdlib Require Import String Ascii.
From S2P Require Import Prelude.
From S2P Require Import Types.
From S2P Require Import Wire.
From S2P Require Import WireFacts.
From S2P Require Import Crypto.
From S2P Require Import Workflow.
From S2P Require Import State.
From S2P Require Import Hoare.
From S2P Require Import Schedule.
From S2P Require Import Dns.
From S2P Require Import DnsFacts.
From S2P Require Import Request.
From S2P Require Import RequestFacts.
From S2P Require Import PacketFacts.
From S2P Require Import Client.
From S2P Require Import CryptoFacts.
From S2P Require Import KeyFacts.
From S2P Require Import Ids.
From S2P Require Import Lifecycle.
From S2P Require Import Teardown.

(** ** The caller's configuration *)

(** A string up to its NUL. *)
Fixpoint before_nul (l : list Z) : list Z :=
  match l with
  | [] => []
  | c :: l' => if c =? 0 then [] else c :: before_nul l'
  end.

Lemma before_nul_split l : 0 ∈ l -> exists rest, l = before_nul l ++ 0 :: rest.
Proof.
  induction l as [|c l IH]; intros Hin; [set_solver|]. simpl.
  destruct (Z.eqb_spec c 0) as [->|Hc]; [by exists l|].
  destruct IH as [rest E]; [set_solver|]. exists rest. simpl. by rewrite <- E.
Qed.

Lemma before_nul_free l : 0 ∉ before_nul l.
Proof.
  induction l as [|c l IH]; simpl; [set_solver|]. destruct (Z.eqb_spec c 0); set_solver.
Qed.

Lemma before_nul_length l : (length (before_nul l) <= length l)%nat.
Proof. induction l as [|c l IH]; simpl; [lia|]. case_if; simpl; lia. Qed.

Lemma before_nul_app l r : 0 ∈ l -> before_nul (l ++ r) = before_nul l.
Proof.
  induction l as [|c l IH]; intros Hin; [set_solver|]. simpl.
  destruct (Z.eqb_spec c 0); [done|]. rewrite IH; [done|set_solver].
Qed.

Lemma before_nul_snoc l r : before_nul (l ++ 0 :: r) = before_nul l.
Proof. induction l as [|c l IH]; simpl; [done|]. case_if; [done|by rewrite IH]. Qed.

Lemma before_nul_text t r : 0 ∉ t -> before_nul (t ++ 0 :: r) = t.
Proof.
  intros Hn. rewrite before_nul_snoc. induction t as [|c t IH]; [done|]. simpl.
  rewrite (proj2 (Z.eqb_neq c 0)) by set_solver. rewrite IH; [done|set_solver].
Qed.

(** The encoded key of a configuration: [secret_len] bytes of [secret], or up
    to the NUL when it is zero. *)
Definition key_text (config : r_client_config) : list Z :=
  match cc_auth_secret config with
  | None => []
  | Some s => before_nul (if cc_auth_secret_len config =? 0 then s
                          else take (Z.to_nat (cc_auth_secret_len config)) s)
  end.

Record config_ok (config : r_client_config) : Prop := {
  cg_secret : from_option (fun s => is_bytes s /\ zlen s <= 2 ^ 59 /\
    (if cc_auth_secret_len config =? 0 then 0 ∈ s else 0 < cc_auth_secret_len config <= zlen s))
    True (cc_auth_secret config);
  cg_dns_name : from_option is_cstring True (cc_dns_name config);
  cg_policy : from_option wf_policy True (cc_request_policy config);
  cg_jitter : is_u64 (dp_forced_refresh_jitter_ms (cc_dns_refresh config)) /\
              dp_forced_refresh_jitter_ms (cc_dns_refresh config) < UINT64_MAX;
}.

(** The key a configuration is accepted with. *)
Definition accepted_key (config : r_client_config) : option api_key :=
  k ← key_decode (key_text config);
  if (negb (cc_auth_type config =? 0) && negb (ak_type k =? cc_auth_type config)) ||
     (negb (cc_key_id config =? 0) && negb (ak_key_id k =? cc_key_id config))
  then None else Some k.

(** The credential part of the client's fixed state. *)
Record credential_of (config : r_client_config) (k : api_key) (f : client_fixed) : Prop := {
  cr_key : accepted_key config = Some k;
  cr_type : cf_auth_type f = ak_type k;
  cr_key_id : cf_key_id f = ak_key_id k;
  cr_quotas : cf_has_quotas f = true /\ cf_quotas f = ak_quotas k;
  cr_cookie : ak_type k = R_AUTH_COOKIE -> cf_cookie f = ak_secret k;
  cr_aes_key : ak_type k = R_AUTH_AES_GCM -> cf_aes_key f = ak_secret k;
  cr_auth : auth_ok f;
  cr_secret : secret_ok f;
}.

(** What configuring leaves as it was copied from the caller. *)
Record same_setup (f f' : client_fixed) : Prop := {
  ss_profile : cf_request_profile_cb f' = cf_request_profile_cb f;
  ss_dns_policy : cf_dns_policy f' = cf_dns_policy f;
  ss_hooks : cf_io_udp_send f' = cf_io_udp_send f /\ cf_io_now_ms f' = cf_io_now_ms f /\
             cf_io_on_steering_feedback f' = cf_io_on_steering_feedback f /\
             cf_resolver_cancel f' = cf_resolver_cancel f;
}.

#[export] Instance same_setup_preorder : PreOrder same_setup.
Proof.
  split; [intros f; split; done|].
  intros f1 f2 f3 [? ? (? & ? & ? & ?)] [? ? (? & ? & ? & ?)]. split; [congruence..|].
  repeat split; congruence.
Qed.

Section Create.
Context {W : Type} `{HL : HostLaws W} {ssl : OpenSSL}.
Implicit Types s : sys W.

Lemma decoder_allocs_wp s :
  wp decoder_allocs (fun mem s' => only_world s s' /\
    (never_fails W -> mem 0%nat && mem 1%nat && mem 2%nat && mem 3%nat = true)) s.
Proof.
  unfold decoder_allocs. do 4 (wp_step; apply wp_alloc; intros ? ? ?). wp_step.
  split; [by eexists|]. intros Hn. by rewrite !andb_true_iff; auto.
Qed.

(** The copy of a string argument and how it reads. *)
Lemma strdup_wp src n s :
  is_bytes src -> (if n =? 0 then 0 ∈ src else 0 < n <= zlen src) ->
  wp (r_strdup_n (Some src) n) (fun d s' => only_world s s' /\
    ((d = None /\ ~ never_fails W) \/
     d = Some ((if n =? 0 then before_nul src else take (Z.to_nat n) src) ++ [0]))) s.
Proof.
  intros Hb Hn. unfold r_strdup_n.
  assert (Hl : exists m, (if n =? 0 then strlen src else Ok n) = Ok m /\
    rd_bytes src 0 m = Ok (if n =? 0 then before_nul src else take (Z.to_nat n) src)).
  { destruct (n =? 0).
    - destruct (before_nul_split src Hn) as [rest E]. exists (zlen (before_nul src)).
      pose proof (rd_bytes_app [] (before_nul src) (0 :: rest) 0 (zlen (before_nul src)) eq_refl eq_refl) as Hr.
      cbn [app] in Hr. rewrite <- E in Hr. split; [|exact Hr].
      rewrite E at 1. apply strlen_text, before_nul_free.
    - exists n. split; [done|]. by rewrite rd_bytes_take_drop by lia. }
  destruct Hl as (m & Em & Er). wp_step.
  apply (wp_mono _ (fun l s' => l = m /\ s' = s)).
  { destruct (n =? 0); [by eapply wp_lift|]. injection Em as ->. by wp_step. }
  intros _ _ [-> ->]. wp_step. apply wp_alloc. intros b w Hn'. apply wp_if; intros Eb.
  - wp_step. split; [by eexists|]. left. split; [done|]. intros Hnf. by rewrite Hn' in Eb.
  - wp_step. eapply wp_lift; [exact Er|]. wp_step. split; [by eexists|]. by right.
Qed.

(** Only the fixed part and the host's state changed. *)
Definition reconf (f : client_fixed) s s' : Prop :=
  exists w, s' = set_client (set_cl_fixed f (s_client s)) (set_world w s).

Lemma reconf_fixed f s s' : reconf f s s' -> cl_fixed (s_client s') = f.
Proof. intros [w ->]. done. Qed.

Lemma reconf_world s s' : only_world s s' -> reconf (cl_fixed (s_client s)) s s'.
Proof. intros [w ->]. exists w. by destruct s as [[] ? ? ? ? ? ?]. Qed.

Lemma reconf_trans f1 f2 s s1 s2 : reconf f1 s s1 -> reconf f2 s1 s2 -> reconf f2 s s2.
Proof. intros [w ->] [w' ->]. exists w'. by destruct s as [[] ? ? ? ? ? ?]. Qed.

Lemma upd_fixed_wp g (Q : unit -> sys W -> Prop) s :
  (forall s', reconf (g (cl_fixed (s_client s))) s s' -> Q tt s') -> wp (upd_fixed g) Q s.
Proof.
  intros HQ. unfold upd_fixed. wp_step. apply HQ. exists (s_world s). by destruct s as [[] ? ? ? ? ? ?].
Qed.

(** What [r_client_configure_auth] leaves. *)
Definition auth_post (config : r_client_config) s (rc : Z) (s' : sys W) : Prop :=
  exists f, reconf f s s' /\ same_setup (cl_fixed (s_client s)) f /\ secret_ok f /\
    ((rc = RCLIENT_OK /\ exists k, credential_of config k f) \/
     ((rc = RCLIENT_ERR_NOMEM \/ rc = RCLIENT_ERR_CONFIG) /\
      (never_fails W -> rc = RCLIENT_ERR_CONFIG /\ accepted_key config = None))).

(** Before the credential is stored. *)
Record unkeyed (f : client_fixed) : Prop := {
  uk_cookie : cf_cookie f = replicate 32 0;
  uk_aes_key : cf_aes_key f = replicate 32 0;
  uk_secret : from_option (fun b => 0 <= cf_auth_secret_len f <= zlen b) True (cf_auth_secret f);
}.

Lemma unkeyed_secret f : unkeyed f -> secret_ok f.
Proof. intros [Hc Ha ?]. unfold secret_ok. by rewrite Hc, Ha, length_replicate. Qed.

Lemma accepted_facts config k :
  key_decode (key_text config) = Some k ->
  zlen (ak_secret k) = 32 /\ is_bytes (ak_secret k) /\ is_u64 (ak_key_id k) /\
  (ak_type k = R_AUTH_COOKIE \/ ak_type k = R_AUTH_AES_GCM).
Proof.
  intros Hk. pose proof (key_decode_secret _ _ Hk). destruct (key_decode_wf _ _ Hk) as (? & ? & _).
  split; [lia|]. split; [done|]. split; [done|]. by eapply key_decode_type.
Qed.

(** The branch on the decoded type: stores the secret of a key of the
    expected type and identity. *)
Definition install (config : r_client_config) (k : api_key) : M W Z :=
  if negb (cc_auth_type config =? 0) && negb (ak_type k =? cc_auth_type config)
  then mret RCLIENT_ERR_CONFIG
  else if negb (cc_key_id config =? 0) && negb (ak_key_id k =? cc_key_id config)
  then mret RCLIENT_ERR_CONFIG
  else if ak_type k =? R_AUTH_COOKIE then
    bs ← lift (rd_bytes (ak_secret k ++ replicate 32 0) 0 32);
    _ ← upd_fixed (fun f => set_cf_has_cookie true (set_cf_cookie bs f));
    mret RCLIENT_OK
  else if ak_type k =? R_AUTH_AES_GCM then
    bs ← lift (rd_bytes (ak_secret k ++ replicate 32 0) 0 32);
    _ ← upd_fixed (fun f => set_cf_has_aes_key true (set_cf_aes_key bs f));
    mret RCLIENT_OK
  else mret RCLIENT_ERR_CONFIG.

Lemma install_wp config k s :
  unkeyed (cl_fixed (s_client s)) -> key_decode (key_text config) = Some k ->
  wp (status ← install config k;
      if negb (status =? RCLIENT_OK) then mret status else
      _ ← upd_fixed (fun f => set_cf_auth_type (ak_type k)
                       (set_cf_key_id (ak_key_id k) (set_cf_has_quotas true f)));
      mret RCLIENT_OK)
    (fun rc s' => exists f, reconf f s s' /\ same_setup (cl_fixed (s_client s)) f /\ secret_ok f /\
       ((rc = RCLIENT_OK /\ (cf_quotas (cl_fixed (s_client s)) = ak_quotas k -> credential_of config k f)) \/
        (rc = RCLIENT_ERR_CONFIG /\ accepted_key config = None))) s.
Proof.
  intros Hu Hk. destruct (accepted_facts config k Hk) as (Hs & Hb & Hid & Hty).
  assert (Hrd : rd_bytes (ak_secret k ++ replicate 32 0) 0 32 = Ok (ak_secret k)).
  { pose proof (rd_bytes_app [] (ak_secret k) (replicate 32 0) 0 32 eq_refl) as Hr. cbn [app] in Hr. by apply Hr. }
  assert (Hrej : accepted_key config = None ->
    exists f, reconf f s s /\ same_setup (cl_fixed (s_client s)) f /\ secret_ok f /\
       ((RCLIENT_ERR_CONFIG = RCLIENT_OK /\
           (cf_quotas (cl_fixed (s_client s)) = ak_quotas k -> credential_of config k f)) \/
        (RCLIENT_ERR_CONFIG = RCLIENT_ERR_CONFIG /\ accepted_key config = None))).
  { intros Ha. exists (cl_fixed (s_client s)). split; [apply reconf_world; exists (s_world s); by destruct s|].
    split; [reflexivity|]. split; [by apply unkeyed_secret|]. by right. }
  unfold accepted_key in *. rewrite Hk in *. cbn [mbind option_bind] in *. unfold install.
  destruct (negb (cc_auth_type config =? 0) && negb (ak_type k =? cc_auth_type config)) eqn:Et.
  { wp_step. wp_step. change (RCLIENT_ERR_CONFIG =? RCLIENT_OK) with false. cbn [negb]. wp_step. by apply Hrej. }
  destruct (negb (cc_key_id config =? 0) && negb (ak_key_id k =? cc_key_id config)) eqn:Ei.
  { wp_step. wp_step. change (RCLIENT_ERR_CONFIG =? RCLIENT_OK) with false. cbn [negb]. wp_step. by apply Hrej. }
  cbn [orb] in *.
  assert (Hacc : accepted_key config = Some k)
    by (unfold accepted_key; rewrite Hk; cbn [mbind option_bind]; by rewrite Et, Ei).
  destruct Hu as [Hck Hak Hsec].
  destruct Hty as [Hty|Hty]; rewrite Hty; cbn [Z.eqb Pos.eqb R_AUTH_COOKIE R_AUTH_AES_GCM];
    (wp_step; wp_step; eapply wp_lift; [exact Hrd|]; wp_step; apply upd_fixed_wp; intros s1 R1; wp_step;
     change (RCLIENT_OK =? RCLIENT_OK) with true; cbn [negb]; wp_step; apply upd_fixed_wp; intros s2 R2; wp_step;
     rewrite (reconf_fixed _ _ _ R1) in R2; eexists; split; [by eapply reconf_trans|];
     split; [by destruct (cl_fixed (s_client s)); split|]).
  - assert (Ha : zlen (cf_aes_key (cl_fixed (s_client s))) = 32) by (by rewrite Hak).
    split; [by split|]. left. split; [done|]. intros Hq.
    split; [done..|done || by rewrite Hty|done || by rewrite Hty|by split|by split].
  - assert (Hc : zlen (cf_cookie (cl_fixed (s_client s))) = 32) by (by rewrite Hck).
    assert (Hcb : is_bytes (cf_cookie (cl_fixed (s_client s))))
      by (rewrite Hck; apply Forall_replicate; rlia).
    split; [by split|]. left. split; [done|]. intros Hq.
    split; [done..|done || by rewrite Hty|done || by rewrite Hty|by split|by split].
Qed.

Lemma key_copy config src :
  cc_auth_secret config = Some src -> config_ok config ->
  let n := cc_auth_secret_len config in
  let body := if n =? 0 then before_nul src else take (Z.to_nat n) src in
  (exists rest, body ++ [0] = key_text config ++ 0 :: rest) /\
  (0 ∉ key_text config) /\ zlen (key_text config) <= 2 ^ 59 /\
  (if n =? 0 then strlen src else Ok n) = Ok (zlen body).
Proof.
  intros Es [Hsec _ _ _] n body. rewrite Es in Hsec. cbn [from_option] in Hsec. fold n in Hsec.
  destruct Hsec as (Hb & Hl & Hn). unfold key_text. rewrite Es. fold n.
  assert (Hlen : zlen (before_nul (if n =? 0 then src else take (Z.to_nat n) src)) <= 2 ^ 59).
  { pose proof (before_nul_length (if n =? 0 then src else take (Z.to_nat n) src)) as H1.
    destruct (n =? 0); [lia|]. rewrite length_take in H1. lia. }
  split; [|split; [apply before_nul_free|split; [done|]]].
  - unfold body. destruct (n =? 0); [by exists []|].
    destruct (before_nul_split (take (Z.to_nat n) src ++ [0])) as [rest E]; [set_solver|].
    exists rest. by rewrite before_nul_snoc in E.
  - unfold body. destruct (n =? 0).
    + destruct (before_nul_split src Hn) as [rest E]. rewrite E at 1. apply strlen_text, before_nul_free.
    + f_equal. rewrite length_take. lia.
Qed.

Lemma configure_auth_wp config src s :
  config_ok config -> cc_auth_secret config = Some src ->
  unkeyed (cl_fixed (s_client s)) ->
  wp (r_client_configure_auth config) (auth_post config s) s.
Proof.
  intros Hcg Es Hu. pose proof (key_copy config src Es Hcg) as Hkc. cbv zeta in Hkc.
  destruct Hkc as ((rest & Ebody) & Hn0 & Hl & Elen). pose proof (cg_secret _ Hcg) as Hsec.
  rewrite Es in Hsec. destruct Hsec as (Hb & _ & Hn).
  set (n := cc_auth_secret_len config) in *.
  set (body := if n =? 0 then before_nul src else take (Z.to_nat n) src) in *.
  unfold r_client_configure_auth. rewrite Es. fold n.
  apply (wp_seq _ _ (fun l s' => l = zlen body /\ s' = s)).
  { destruct (n =? 0); [by eapply wp_lift|]. injection Elen as <-. by wp_step. }
  intros _ _ [-> ->]. eapply wp_seq; [by apply strdup_wp|]. cbv beta. fold body.
  intros d s1 [Hw1 [[-> Hnf]| ->]]; cbn [is_null].
  { wp_step. exists (cl_fixed (s_client s)). split; [by apply reconf_world|]. split; [reflexivity|].
    split; [by apply unkeyed_secret|]. right. split; [by left|]. done. }
  wp_step. apply upd_fixed_wp. intros s2 R2.
  assert (Ef1 : cl_fixed (s_client s1) = cl_fixed (s_client s)) by (by destruct Hw1 as [w ->]).
  rewrite Ef1 in R2. set (f2 := set_cf_auth_secret_len _ _) in R2.
  assert (Hu2 : unkeyed f2) by (destruct Hu; split; try done; simpl; rewrite length_app; simpl; lia).
  assert (Hs2 : same_setup (cl_fixed (s_client s)) f2) by (by split).
  assert (R02 : reconf f2 s s2) by (eapply reconf_trans; [by apply reconf_world|done]).
  eapply wp_seq; [apply decoder_allocs_wp|]. cbv beta. intros mem s3 [Hw3 Hmem]. wp_step. wp_step.
  assert (R03 : reconf f2 s s3)
    by (eapply reconf_trans; [exact R02|]; rewrite <- (reconf_fixed _ _ _ R02); by apply reconf_world).
  rewrite (reconf_fixed _ _ _ R03), Ebody.
  pose proof (decode_spec mem (key_text config) rest 64 (replicate 64 0) (Some (cf_quotas f2)) 0 0 0 Hn0 Hl
    ltac:(done)) as Hd.
  set (b := mem 0%nat && mem 1%nat && mem 2%nat && mem 3%nat) in *.
  destruct (if b then key_decode (key_text config) else None) as [k|] eqn:Ek; unfold decoded in Hd.
  - destruct b in Ek; [|done]. wp_step. eapply wp_lift; [exact Hd|].
    cbn [ko_type ko_key_id ko_secret ko_secret_len ko_quotas store fmap option_fmap option_map].
    wp_step. eapply wp_lift; [reflexivity|]. wp_step. apply upd_fixed_wp. intros s4 R4.
    rewrite (reconf_fixed _ _ _ R03) in R4. do 4 (wp_step; eapply wp_lift; [reflexivity|]).
    change (drop 32 (replicate 64 0)) with (replicate 32 0).
    change (negb (0 =? 0) || negb (32 =? 32)) with false. cbv iota.
    set (f4 := set_cf_quotas (ak_quotas k) f2) in R4.
    eapply wp_mono; [apply (install_wp config k s4); [|done]|].
    { rewrite (reconf_fixed _ _ _ R4). by destruct Hu2. }
    rewrite (reconf_fixed _ _ _ R4). cbv beta. intros rc s5 (f & R5 & Hss & Hsec & Hrc).
    exists f. split; [eapply reconf_trans; [exact R03|]; by eapply reconf_trans|].
    split; [etransitivity; [exact Hs2|]; etransitivity; [|exact Hss]; by split|]. split; [done|].
    destruct Hrc as [[-> Hc]|[-> Ha]]; [left; split; [done|]; exists k; by apply Hc|right].
    split; [by right|]. done.
  - destruct Hd as (o & Hd & Hq & ([t Ht] & [i Hi] & [se Hse] & [l Hlo])).
    wp_step. eapply wp_lift; [exact Hd|]. cbv beta iota. wp_step. rewrite Hq. eapply wp_lift; [reflexivity|].
    wp_step. apply upd_fixed_wp. intros s4 R4. rewrite (reconf_fixed _ _ _ R03) in R4.
    rewrite Hlo, Ht, Hi, Hse. do 4 (wp_step; eapply wp_lift; [reflexivity|]).
    change (negb (-1 =? 0)) with true. cbn [orb]. wp_step. wp_step.
    change (RCLIENT_ERR_CONFIG =? RCLIENT_OK) with false. cbn [negb]. wp_step.
    exists f2. split; [eapply reconf_trans; [exact R03|]; by destruct f2|]. split; [done|].
    split; [by apply unkeyed_secret|]. right. split; [by right|]. intros Hnf. split; [done|].
    rewrite (Hmem Hnf) in Ek. unfold accepted_key. by rewrite Ek.
Qed.

(** ** The DNS name *)

(** The name a client resolves: the override, or the tenant's default. *)
Definition tenant_name (override : option (list Z)) (key_id : Z) : list Z :=
  let n := before_nul (default [] override) in
  if bool_decide (n = []) then default_tenant_dns key_id else n.

Lemma dec_digits_bytes fuel n acc :
  0 <= n -> Forall (fun c => 0 < c < 256) acc -> Forall (fun c => 0 < c < 256) (dec_digits fuel n acc).
Proof.
  revert n acc; induction fuel as [|fuel IH]; intros n acc Hn Ha; cbn [dec_digits]; [done|].
  pose proof (Z.mod_pos_bound n 10 ltac:(lia)). change (chr "0") with 48.
  assert (Ha' : Forall (fun c => 0 < c < 256) (48 + n mod 10 :: acc)) by (constructor; [lia|done]).
  case_if; [done|]. apply IH; [apply Z.div_pos; lia|done].
Qed.

Lemma default_name_bytes key_id :
  0 <= key_id -> Forall (fun c => 0 < c < 256) (default_tenant_dns key_id).
Proof.
  intros Hk. unfold default_tenant_dns. apply Forall_app. split; [repeat constructor; lia|].
  apply Forall_app. split; [by apply dec_digits_bytes|]. unfold cbytes. repeat constructor; cbn; lia.
Qed.

Lemma nonzero_text l : Forall (fun c => 0 < c < 256) l -> is_bytes l /\ (0 ∉ l).
Proof.
  intros Hl. split; [eapply Forall_impl; [done|]; simpl; intros; rlia|].
  intros Hin. rewrite Forall_forall in Hl. specialize (Hl 0 Hin). lia.
Qed.

Lemma configure_dns_wp override s :
  from_option is_cstring True override -> 0 <= cf_key_id (cl_fixed (s_client s)) ->
  let n := tenant_name override (cf_key_id (cl_fixed (s_client s))) in
  wp (r_client_configure_dns override) (fun rc s' =>
    (rc = RCLIENT_OK /\ reconf (set_cf_dns_name (Some (n ++ [0])) (cl_fixed (s_client s))) s s') \/
    (rc = RCLIENT_ERR_NOMEM /\ ~ never_fails W /\ reconf (cl_fixed (s_client s)) s s')) s.
Proof.
  intros Ho Hid n. set (f := cl_fixed (s_client s)) in *. unfold r_client_configure_dns.
  set (e := bool_decide (before_nul (default [] override) = [])).
  apply (wp_seq _ _ (fun b s' => b = e /\ s' = s)).
  { unfold e. destruct override as [o|]; cbn [default]; [|wp_step; by rewrite bool_decide_true].
    destruct Ho as [_ Hin]. destruct o as [|c o]; [set_solver|].
    wp_step. eapply (wp_lift _ c); [done|]. wp_step. split; [|done]. simpl.
    by destruct (c =? 0). }
  intros _ _ [-> ->]. wp_step. wp_step. fold f.
  assert (Hname : exists src, is_bytes src /\ 0 ∈ src /\ before_nul src = n /\
    forall (Q : Z * option (list Z) -> sys W -> Prop), Q (RCLIENT_OK, Some src) s ->
    wp (if e then lift (r_client_format_default_tenant_dns (cf_key_id f)
           (Some (replicate (Z.to_nat R_CLIENT_DEFAULT_TENANT_DNS_CAPACITY) 0))
           R_CLIENT_DEFAULT_TENANT_DNS_CAPACITY) else mret (RCLIENT_OK, override)) Q s).
  { unfold n, tenant_name. fold e. destruct e eqn:Ee.
    - destruct (nonzero_text _ (default_name_bytes (cf_key_id f) Hid)) as [Hb Hz].
      set (t := default_tenant_dns (cf_key_id f)) in *.
      pose proof (tenant_dns_length (cf_key_id f)) as Htl. fold t in Htl.
      destruct (tenant_dns_spec (cf_key_id f) (replicate 42 0) 42 ltac:(done)) as (out & E & Hr & _).
      fold t in E, Hr. rewrite (proj2 (Z.ltb_lt (zlen t) 42)) in E by lia.
      specialize (Hr ltac:(lia)). exists out. rewrite Hr. split; [|split; [|split]].
      + apply Forall_app. split; [done|]. constructor; [rlia|]. apply Forall_drop, Forall_replicate. rlia.
      + set_solver.
      + by apply before_nul_text.
      + intros Q HQ. eapply wp_lift; [exact E|]. by rewrite Hr.
    - destruct override as [o|]; [|done].
      destruct Ho as [Hb Hin]. exists o. split; [done|]. split; [done|]. split; [done|].
      intros Q HQ. by wp_step. }
  destruct Hname as (src & Hb & Hin & En & Hwp). wp_step. apply Hwp. cbv beta iota.
  change (RCLIENT_OK =? RCLIENT_OK) with true. cbn [negb].
  eapply wp_seq; [by apply (strdup_wp src 0)|]. cbv beta. cbn [Z.eqb].
  intros d s1 [Hw [[-> Hnf]| ->]]; cbn [is_null]; wp_step.
  - right. split; [done|]. split; [done|]. by apply reconf_world.
  - apply upd_fixed_wp. intros s2 R2. wp_step. left. split; [done|]. rewrite En in R2.
    destruct Hw as [w ->]. eapply reconf_trans; [apply reconf_world; by eexists|exact R2].
Qed.

(** ** The whole of [r_client_create] *)

(** A machine on which no client was created yet. *)
Record blank s : Prop := {
  bl_reqs : s_reqs s = ∅;
  bl_refreshes : s_refreshes s = ∅;
  bl_lookups : s_lookups s = ∅;
  bl_trace : s_trace s = [];
  bl_adms : forall u a, s_adms s !! u = Some a ->
    ad_active a = false /\ wf_latency_guard (ad_guard a);
}.

(** What a created client holds. *)
Record created (config : r_client_config) (ops : r_ops) s' : Prop := {
  cd_inv : client_inv ∅ s';
  cd_credential : exists k, credential_of config k (cl_fixed (s_client s')) /\
    cf_dns_name (cl_fixed (s_client s')) =
      Some (tenant_name (cc_dns_name config) (ak_key_id k) ++ [0]);
  cd_policy : Some (cf_policy (cl_fixed (s_client s'))) =
    match cc_request_policy config with
    | Some p => Some p
    | None => r_client_default_request_policy (Some (cf_policy (cl_fixed (s_client s'))))
    end;
  cd_setup : same_setup (cl_fixed (client_blank config ops)) (cl_fixed (s_client s'));
  cd_idle : cl_inflight (s_client s') = [] /\ cl_steering_rebind_pending (s_client s') = false /\
            cl_send_failure_count (s_client s') = 0;
  cd_trace : Forall is_cancel (s_trace s');
}.

(** Nothing is left of a creation that failed: either no client was allocated, or
    every block of it was given back, the client last, with the credential
    overwritten. *)
Definition undone s s' : Prop :=
  (s_client s' = s_client s /\ s_trace s' = []) \/
  (scrubbed (cl_fixed (s_client s')) /\ s_trace s' = client_frees 0 (cl_fixed (s_client s'))).

Definition create_post (config : r_client_config) (ops : r_ops) s (res : Z * bool) (s' : sys W) : Prop :=
  (res = (RCLIENT_OK, true) /\ created config ops s') \/
  (exists rc, res = (rc, false) /\ (rc = RCLIENT_ERR_NOMEM \/ rc = RCLIENT_ERR_CONFIG) /\
     (never_fails W -> rc = RCLIENT_ERR_CONFIG /\ accepted_key config = None) /\
     s_reqs s' = ∅ /\ s_refreshes s' = ∅ /\ s_lookups s' = ∅ /\ undone s s').

Lemma destroy_blank_wp s :
  blank s -> cl_inflight (s_client s) = [] -> cl_dns_refresh (s_client s) = None ->
  cl_server_cap (s_client s) = 0 -> secret_ok (cl_fixed (s_client s)) ->
  wp r_client_destroy (fun _ s' => s_reqs s' = ∅ /\ s_refreshes s' = ∅ /\ s_lookups s' = ∅ /\
    scrubbed (cl_fixed (s_client s')) /\ s_trace s' = client_frees 0 (cl_fixed (s_client s'))) s.
Proof.
  intros Hb E1 E2 E3 Hs. unfold r_client_destroy. wp_step. wp_step. rewrite E1. cbn [for_each].
  wp_step. wp_step. wp_step. wp_step. rewrite E2. wp_step. wp_step.
  eapply wp_mono; [by apply release_wp|]. cbv beta. intros _ s' (f & Hw & ->). destruct Hb as [B1 B2 B3 B4 _].
  rewrite E3, B4. do 3 (split; [done|]). split; [by eapply wiped_scrubbed|]. symmetry. by apply wiped_frees.
Qed.

Lemma blank_reconf f s s' : blank s -> reconf f s s' -> blank s'.
Proof. intros Hb [w ->]. by destruct Hb. Qed.

(** The state right before the first refresh satisfies the invariant. *)
Lemma boot_inv s :
  blank s -> cfg_ok (cl_fixed (s_client s)) -> cl_inflight (s_client s) = [] ->
  cl_dns_refresh (s_client s) = None -> cl_dns_refresh_inflight (s_client s) = false ->
  cl_servers (s_client s) = [] -> cl_server_cap (s_client s) = 0 ->
  cl_send_failure_count (s_client s) = 0 -> client_inv ∅ s.
Proof.
  intros [B1 B2 B3 B4 B5] Hc E1 E2 E3 E4 E5 E6.
  assert (Ha : adm_inv s).
  { split; rewrite ?E1, ?B1; [set_solver| |].
    - intros u a p Hu [Ha _]. destruct (B5 u a Hu) as [Hi _]. congruence.
    - intros u a Hu. by destruct (B5 u a Hu). }
  split; rewrite ?B1, ?B4, ?E1, ?E6; try done; try (clear B5; by set_solver).
  - split; [|intros l lk; by rewrite B3].
    split; rewrite ?B2, ?B3, ?E2, ?E3, ?E4, ?E5; try done; set_solver.
  - constructor.
  - intros p. rewrite lookup_empty. split; [by intros []|set_solver].
  - intros p [? Hp]. by rewrite lookup_empty in Hp.
Qed.

(** From the keyed client to the running one. *)
Definition launch_client (config : r_client_config) : M W (Z * bool) :=
  policy ← (match cc_request_policy config with
            | Some p => mret p
            | None => f ← cfg;
                      lift (deref (r_client_default_request_policy (Some (cf_policy f))))
            end);
  _ ← upd_fixed (set_cf_policy policy);
  _ ← upd_client (fun c => set_cl_inflight [] (set_cl_server_cap 0 (set_cl_servers []
         (set_cl_dns_refresh_inflight false (set_cl_last_dns_refresh_ms 0 c)))));
  _ ← r_dns_maybe_refresh true;
  mret (RCLIENT_OK, true).

Lemma launch_client_wp config ops k s :
  config_ok config -> blank s ->
  (exists f, s_client s = set_cl_fixed f (client_blank config ops)) ->
  credential_of config k (cl_fixed (s_client s)) ->
  same_setup (cl_fixed (client_blank config ops)) (cl_fixed (s_client s)) ->
  cf_dns_name (cl_fixed (s_client s)) = Some (tenant_name (cc_dns_name config) (ak_key_id k) ++ [0]) ->
  wp (launch_client config) (fun res s' => res = (RCLIENT_OK, true) /\ created config ops s') s.
Proof.
  intros Hcg Hb (f0 & Ef) Hcr Hss Hn. unfold launch_client.
  set (pol := match cc_request_policy config with Some p => p
              | None => mk_policy 20 1 (mk_schedule R_HA_SCHEDULE_FIXED 1 1 0) 1 true end).
  apply (wp_seq _ _ (fun p s' => p = pol /\ s' = s)).
  { unfold pol. destruct (cc_request_policy config); [by wp_step|]. wp_step. wp_step.
    by eapply wp_lift. }
  intros _ _ [-> ->]. wp_step. apply upd_fixed_wp. intros s1 R1. wp_step. wp_step.
  set (s2 := set_client _ s1).
  assert (Ef2 : cl_fixed (s_client s2) = set_cf_policy pol (cl_fixed (s_client s))).
  { rewrite <- (reconf_fixed _ _ _ R1). done. }
  assert (Hpol : wf_policy pol).
  { unfold pol. pose proof (cg_policy _ Hcg) as Hp. destruct (cc_request_policy config); [done|].
    repeat split; cbn; lia. }
  pose proof (key_decode_wf (key_text config) k) as Hwf.
  assert (Hk : key_decode (key_text config) = Some k).
  { pose proof (cr_key _ _ _ Hcr) as Ha. unfold accepted_key in Ha.
    destruct (key_decode _) as [k'|]; [|done]. cbn [mbind option_bind] in Ha.
    destruct (_ || _); [done|]. by injection Ha as <-. }
  destruct (Hwf Hk) as (_ & Hid & Hq).
  assert (Hcfg : cfg_ok (cl_fixed (s_client s2))).
  { rewrite Ef2. destruct Hss as [_ Hdp _], Hcr. split; simpl.
    - done.
    - destruct cr_quotas0 as [_ ->]. done.
    - by destruct cr_auth0.
    - rewrite Hn. eexists. split; [done|]. split; [|set_solver].
      apply Forall_app. split; [|constructor; [rlia|done]]. unfold tenant_name.
      case_bool_decide; [apply nonzero_text, default_name_bytes; rlia|].
      pose proof (cg_dns_name _ Hcg) as Hd. destruct (cc_dns_name config) as [o|]; [|done].
      cbn [default from_option id] in *. destruct Hd as [Hd Hin].
      destruct (before_nul_split o Hin) as [rest E]. rewrite E in Hd. by apply Forall_app in Hd as [? _].
    - rewrite Hdp. simpl. apply (cg_jitter _ Hcg). }
  assert (HI2 : client_inv ∅ s2).
  { destruct R1 as [w ->]. apply boot_inv; try done; subst s2; simpl; rewrite ?Ef; try done.
    by destruct Hb. }
  eapply wp_seq; [apply maybe_refresh_wp; [apply (ci_dns _ _ _ HI2)|split; [apply (co_dns_name _ Hcfg)|apply (co_jitter _ Hcfg)]]|].
  cbv beta. intros _ s3 (HI3 & HF & HS). wp_step. split; [done|].
  assert (Hinv : client_inv ∅ s3).
  { eapply client_inv_dns; [exact HI2| |exact HF]. split; [done|]. intros l lk Hl.
    destruct (decide (l < s_next s2)%nat) as [Hlt|Hge].
    - destruct HS as [HS _]. rewrite HS in Hl by done. destruct (ci_dns _ _ _ HI2) as [_ Hr]. by eapply Hr.
    - destruct HS as [_ HS]. apply (HS l lk); [lia|done]. }
  assert (Htr : Forall is_cancel (s_trace s3)).
  { destruct (df_trace _ _ HF) as (tr & -> & Hc). destruct R1 as [w ->]. subst s2. simpl. by rewrite (bl_trace _ Hb). }
  destruct HF as [_ F2 F3 F4 F5 _ _]. split; [done|..].
  - exists k. rewrite F2, Ef2. split; [|done]. destruct Hcr. split; try done; by destruct cr_auth0.
  - rewrite F2, Ef2. simpl. unfold pol. by destruct (cc_request_policy config).
  - rewrite F2, Ef2. destruct Hss. by split.
  - rewrite F3, F4, F5. destruct R1 as [w ->]. subst s2. simpl. by rewrite Ef.
  - exact Htr.
Qed.

Lemma create_wp config ops s :
  config_ok config -> is_Some (cc_auth_secret config) -> blank s ->
  wp (r_client_create (Some config) (Some ops) true) (create_post config ops s) s.
Proof.
  intros Hcg [src Es] Hb. unfold r_client_create. cbn [negb]. rewrite Es. cbn [is_null].
  wp_step. apply wp_alloc. intros b w Hnf. destruct b; cbn [negb].
  2:{ wp_step. right. exists RCLIENT_ERR_NOMEM. split; [done|]. split; [by left|].
      split; [intros Hn; by specialize (Hnf Hn)|]. destruct Hb. do 3 (split; [done|]). by left. }
  wp_step. wp_step. set (s0 := set_client _ _).
  assert (Hb0 : blank s0) by (by destruct Hb).
  eapply wp_seq; [apply (configure_auth_wp config src s0 Hcg Es)|].
  { by split. }
  intros rc s1 (f1 & R1 & Hss1 & Hsec1 & Hrc).
  pose proof (blank_reconf _ _ _ Hb0 R1) as Hb1. pose proof (reconf_fixed _ _ _ R1) as Ef1.
  assert (Hfail : forall rc s', (rc = RCLIENT_ERR_NOMEM \/ rc = RCLIENT_ERR_CONFIG) ->
    (never_fails W -> rc = RCLIENT_ERR_CONFIG /\ accepted_key config = None) ->
    s_reqs s' = ∅ /\ s_refreshes s' = ∅ /\ s_lookups s' = ∅ /\
      scrubbed (cl_fixed (s_client s')) /\ s_trace s' = client_frees 0 (cl_fixed (s_client s')) ->
    create_post config ops s (rc, false) s').
  { intros rc' s' ? ? (? & ? & ? & ?). right. exists rc'. do 6 (split; [done|]). by right. }
  destruct Hrc as [[-> (k & Hcr)]|[Hrc Hwhy]].
  2:{ rewrite (proj2 (Z.eqb_neq rc RCLIENT_OK)) by (by destruct Hrc as [->| ->]). cbn [negb].
      eapply wp_seq; [apply destroy_blank_wp; [done| | | |by rewrite Ef1]; by destruct R1 as [? ->]|].
      cbv beta. intros _ s2 Hb2. wp_step. by apply Hfail. }
  change (RCLIENT_OK =? RCLIENT_OK) with true. cbn [negb].
  pose proof (cr_key_id _ _ _ Hcr) as Eid. pose proof (cr_key _ _ _ Hcr) as Hkey.
  assert (0 <= cf_key_id f1) by (pose proof (ao_key_id _ (cr_auth _ _ _ Hcr)); rlia).
  eapply wp_seq; [apply configure_dns_wp; [apply (cg_dns_name _ Hcg)|by rewrite Ef1]|].
  cbv beta. rewrite Ef1, Eid. intros rc s2 [[-> R2]|(-> & Hnf2 & R2)].
  - change (RCLIENT_OK =? RCLIENT_OK) with true. cbn [negb]. fold (launch_client config).
    pose proof (reconf_fixed _ _ _ R2) as Ef2.
    eapply wp_mono; [apply (launch_client_wp config ops k)|by intros res s3 ?; left].
    + done.
    + by eapply blank_reconf.
    + destruct R1 as [w1 ->], R2 as [w2 ->]. by eexists.
    + rewrite Ef2. destruct Hcr. split; try done; by destruct cr_auth0.
    + rewrite Ef2. destruct Hss1. by split.
    + by rewrite Ef2.
  - change (RCLIENT_ERR_NOMEM =? RCLIENT_OK) with false. cbn [negb].
    eapply wp_seq; [apply destroy_blank_wp; [by eapply blank_reconf| | | |by rewrite (reconf_fixed _ _ _ R2)];
      destruct R1 as [? ->], R2 as [? ->]; done|].
    cbv beta. intros _ s3 Hb3. wp_step. by apply Hfail; [left|..].
Qed.
End Create.
