(* ===== verification/RuntimeConfig.v ===== *)
(** * The socket runtime: settings from the environment

    The number parsers accept exactly the texts one expects, and the options
    read from the environment are a function of the texts of its variables. *)

From Stdlib Require Import String Ascii.
From S2P Require Import Prelude.
From S2P Require Import Types.
From S2P Require Import Wire.
From S2P Require Import WireFacts.
From S2P Require Import Crypto.
From S2P Require Import KeyFacts.
From S2P Require Import Workflow.
From S2P Require Import State.
From S2P Require Import Schedule.
From S2P Require Import Hoare.
From S2P Require Import Dns.
From S2P Require Import DnsFacts.
From S2P Require Import Request.
From S2P Require Import Client.
From S2P Require Import WorkflowOps.
From S2P Require Import Create.
From S2P Require Import Runtime.

(** ** Decimal numbers *)

(** The value of digits that follow [v]. *)
Definition dec_from (v : Z) (ds : list Z) : Z := foldl (fun v c => v * 10 + (c - chr "0")) v ds.

(** A number no larger than [max], written in decimal. *)
Definition number (max : Z) (text : list Z) : option Z :=
  if negb (bool_decide (text = [])) && forallb is_digit text && (dec_value text <=? max)
  then Some (dec_value text) else None.

Lemma dec_from_grows ds v : 0 <= v -> forallb is_digit ds = true -> v <= dec_from v ds.
Proof.
  revert v; induction ds as [|c ds IH]; intros v Hv Hd; cbn [dec_from foldl]; [lia|].
  cbn [forallb] in Hd. apply andb_true_iff in Hd as [Hc Hd]. unfold is_digit in Hc. breflect.
  specialize (IH (v * 10 + (c - chr "0")) ltac:(lia) Hd). unfold dec_from in IH. lia.
Qed.

(** The parser's overflow test, before the digit is added. *)
Lemma overflow_test maximum parsed digit :
  0 <= digit <= 9 -> 0 <= parsed -> 0 <= maximum ->
  ((maximum / 10 <? parsed) || ((parsed =? maximum / 10) && (maximum mod 10 <? digit))) =
  (maximum <? parsed * 10 + digit).
Proof.
  intros Hd Hp Hm. pose proof (Z.div_mod maximum 10 ltac:(lia)) as E. pose proof (Z.mod_pos_bound maximum 10 ltac:(lia)).
  set (q := maximum / 10) in *. set (r := maximum mod 10) in *.
  destruct (Z.ltb_spec q parsed), (Z.eqb_spec parsed q), (Z.ltb_spec r digit), (Z.ltb_spec maximum (parsed * 10 + digit));
    simpl; try done; lia.
Qed.

Lemma not_digit c : ((c <? chr "0") || (chr "9" <? c)) = negb (is_digit c).
Proof. unfold is_digit. by rewrite negb_andb, <- !Z.ltb_antisym. Qed.

Lemma parse_u64_loop_spec maximum text pre rest parsed fuel :
  is_u64 maximum -> 0 ∉ text -> 0 <= parsed <= maximum -> (length text < fuel)%nat ->
  parse_u64_loop fuel (pre ++ text ++ 0 :: rest) (zlen pre) maximum parsed =
  Ok (if forallb is_digit text && (dec_from parsed text <=? maximum) then Some (dec_from parsed text) else None).
Proof.
  intros Hm. revert pre parsed fuel; induction text as [|c text IH]; intros pre parsed fuel Hz Hp Hf;
    (destruct fuel as [|fuel]; [simpl in Hf; lia|]); cbn [parse_u64_loop app]; rewrite rd_at, run_bind_Ok.
  - cbn [Z.eqb forallb andb dec_from foldl]. by rewrite (proj2 (Z.leb_le _ _)) by lia.
  - rewrite (proj2 (Z.eqb_neq c 0)) by set_solver. cbn [forallb]. rewrite not_digit.
    destruct (is_digit c) eqn:Ec; cbn [negb andb]; [|done]. unfold is_digit in Ec. breflect.
    set (digit := c - chr "0"). assert (Hd : 0 <= digit <= 9) by (unfold digit; change (chr "0") with 48 in *; change (chr "9") with 57 in *; lia).
    rewrite overflow_test by (rlia || lia). cbn [dec_from foldl]. fold digit.
    change (foldl (fun v c => v * 10 + (c - chr "0")) (parsed * 10 + digit) text) with (dec_from (parsed * 10 + digit) text).
    case_if; breflect.
    + destruct (forallb is_digit text) eqn:Et; cbn [andb]; [|done].
      pose proof (dec_from_grows text (parsed * 10 + digit) ltac:(lia) Et).
      by rewrite (proj2 (Z.leb_gt _ _)) by lia.
    + rewrite (u64_small (parsed * 10)) by rlia. rewrite (u64_small (parsed * 10 + digit)) by rlia.
      replace (zlen pre + 1) with (zlen (pre ++ [c])) by (rewrite length_app; simpl; lia).
      replace (pre ++ c :: text ++ 0 :: rest) with ((pre ++ [c]) ++ text ++ 0 :: rest) by (by rewrite <- app_assoc).
      apply IH; [set_solver|lia|simpl in Hf; lia].
Qed.

(** [runtime_parse_u64] accepts the decimal numbers up to [maximum] and nothing
    else: no sign, no space, no empty text, no wrap-around. *)
Lemma parse_u64_spec maximum text rest v :
  is_u64 maximum -> 0 ∉ text ->
  runtime_parse_u64 (Some (text ++ 0 :: rest)) maximum (Some v) =
  Ok (match number maximum text with
      | Some n => (RCLIENT_OK, Some n)
      | None => (RCLIENT_ERR_CONFIG, Some v)
      end).
Proof.
  intros Hm Hz. unfold runtime_parse_u64, number. destruct text as [|c text]; [done|].
  change (rd ((c :: text) ++ 0 :: rest) 0) with (Ok c : run Z). rewrite run_bind_Ok.
  rewrite (proj2 (Z.eqb_neq c 0)) by set_solver.
  pose proof (parse_u64_loop_spec maximum (c :: text) [] rest 0 (length ((c :: text) ++ 0 :: rest)) Hm Hz) as E.
  cbn [app] in E. change (zlen []) with 0 in E.
  change ((c :: text) ++ 0 :: rest) with (c :: text ++ 0 :: rest) in *.
  rewrite E; [|rlia|cbn [length]; rewrite length_app; cbn [length]; lia]. rewrite run_bind_Ok.
  change (dec_from 0 (c :: text)) with (dec_value (c :: text)). cbn [bool_decide negb andb].
  rewrite bool_decide_false by done. cbn [negb andb]. by case_if.
Qed.

(** ** Ports *)

Fixpoint drop_space (t : list Z) : list Z :=
  match t with c :: t' => if is_space c then drop_space t' else t | [] => [] end.
Fixpoint lead_digits (t : list Z) : list Z :=
  match t with c :: t' => if is_digit c then c :: lead_digits t' else [] | [] => [] end.

(** An optional sign, and what follows it. *)
Definition signed (t : list Z) : bool * list Z :=
  match t with
  | c :: t' => if c =? chr "-" then (true, t') else if c =? chr "+" then (false, t') else (false, t)
  | [] => (false, [])
  end.

(** The number a whole text stands for: white space, a sign and a decimal
    number of the type [unsigned long]; a minus sign negates modulo 2^64. *)
Definition signed_number (negative : bool) (ds : list Z) : option Z :=
  v ← number ULONG_MAX ds; Some (if negative then u64 (- v) else v).

Definition strtoul_whole (text : list Z) : option Z :=
  let '(negative, ds) := signed (drop_space text) in signed_number negative ds.

(** The port a text stands for. *)
Definition in_range (port : Z) : option Z := if (1 <=? port) && (port <=? UINT16_MAX) then Some port else None.

Definition port_of (text : list Z) : option Z := strtoul_whole text ≫= in_range.

Lemma drop_space_split t : exists sp, t = sp ++ drop_space t /\ forallb is_space sp = true /\
  match drop_space t with c :: _ => is_space c = false | [] => True end.
Proof.
  induction t as [|c t (sp & E & Hs & Hd)]; [by exists []|]. cbn [drop_space]. destruct (is_space c) eqn:Ec.
  - exists (c :: sp). cbn [app forallb]. rewrite Ec, Hs. split; [by f_equal|done].
  - by exists [].
Qed.

Lemma lead_digits_split t : exists tail, t = lead_digits t ++ tail /\ forallb is_digit (lead_digits t) = true /\
  match tail with c :: _ => is_digit c = false | [] => True end.
Proof.
  induction t as [|c t (tail & E & Hs & Hd)]; [by exists []|]. cbn [lead_digits]. destruct (is_digit c) eqn:Ec.
  - exists tail. cbn [app forallb]. rewrite Ec, Hs. split; [by f_equal|done].
  - by exists (c :: t).
Qed.

Lemma skip_space_spec sp pre body fuel c post :
  forallb is_space sp = true -> body = c :: post -> is_space c = false -> (length sp < fuel)%nat ->
  skip_space fuel (pre ++ sp ++ body) (zlen pre) = Ok (zlen (pre ++ sp)).
Proof.
  intros Hs -> Hc. revert pre fuel; induction sp as [|x sp IH]; intros pre fuel Hf; (destruct fuel as [|fuel]; [simpl in Hf; lia|]);
    cbn [skip_space app]; rewrite rd_at, run_bind_Ok.
  - rewrite Hc. by rewrite app_nil_r.
  - cbn [forallb] in Hs. apply andb_true_iff in Hs as [Hx Hs]. rewrite Hx.
    replace (zlen pre + 1) with (zlen (pre ++ [x])) by (rewrite length_app; simpl; lia).
    replace (pre ++ x :: sp ++ c :: post) with ((pre ++ [x]) ++ sp ++ c :: post) by (by rewrite <- app_assoc).
    rewrite IH; [|done|simpl in Hf; lia]. by rewrite <- app_assoc.
Qed.

Lemma scan_digits_spec ds pre c post v fuel :
  forallb is_digit ds = true -> is_digit c = false -> (length ds < fuel)%nat ->
  scan_digits fuel (pre ++ ds ++ c :: post) (zlen pre) v = Ok (dec_from v ds, zlen (pre ++ ds)).
Proof.
  intros Hs Hc. revert pre v fuel; induction ds as [|x ds IH]; intros pre v fuel Hf; (destruct fuel as [|fuel]; [simpl in Hf; lia|]);
    cbn [scan_digits app]; rewrite rd_at, run_bind_Ok, not_digit.
  - rewrite Hc. by rewrite app_nil_r.
  - cbn [forallb] in Hs. apply andb_true_iff in Hs as [Hx Hs]. rewrite Hx. cbn [negb].
    replace (zlen pre + 1) with (zlen (pre ++ [x])) by (rewrite length_app; simpl; lia).
    replace (pre ++ x :: ds ++ c :: post) with ((pre ++ [x]) ++ ds ++ c :: post) by (by rewrite <- app_assoc).
    rewrite IH; [|done|simpl in Hf; lia]. by rewrite <- app_assoc.
Qed.

(** What is read at the end of a text with its terminator. *)
Lemma head_or_nul (t rest : list Z) : exists c post, t ++ 0 :: rest = c :: post /\
  (t = [] /\ c = 0 \/ exists t', t = c :: t').
Proof. destruct t as [|c t]; [by exists 0, rest; auto|]. exists c, (t ++ 0 :: rest). split; [done|]. right. by exists t. Qed.

Lemma lead_digits_all t : forallb is_digit t = bool_decide (lead_digits t = t).
Proof.
  induction t as [|c t IH]; [done|]. cbn [forallb lead_digits]. destruct (is_digit c); cbn [andb].
  - rewrite IH. apply bool_decide_ext. split; [by intros ->|by intros [= ->]].
  - symmetry. by apply bool_decide_false.
Qed.

(** What [strtoul] reports on a block: the value, the end and [errno]; it took
    the whole text exactly when the text stands for a number. *)
Definition converts (block : list Z) (r : run (Z * Z * Z)) (whole : option Z) : Prop :=
  exists v stop errno c, r = Ok (v, stop, errno) /\ rd block stop = Ok c /\ is_u64 v /\ 0 <= stop /\
    match whole with
    | Some n => v = n /\ 0 < stop /\ errno = 0 /\ c = 0
    | None => errno <> 0 \/ c <> 0 \/ stop = 0 /\ v = 0
    end.

Lemma strtoul_digits_spec negative pre t rest :
  is_bytes t -> 0 ∉ t ->
  converts (pre ++ t ++ 0 :: rest) (strtoul_digits negative (pre ++ t ++ 0 :: rest) (zlen pre))
    (signed_number negative t).
Proof.
  intros Hb Hz. destruct (lead_digits_split t) as (tail & E & Hd & Ht). set (ds := lead_digits t) in *.
  destruct (head_or_nul tail rest) as (c & post & Ec & Hc).
  assert (Hcd : is_digit c = false) by (destruct Hc as [[_ ->]|[t' ->]]; done).
  assert (Hall : forallb is_digit t = (c =? 0)).
  { rewrite lead_digits_all. fold ds. destruct Hc as [[-> ->]|[t' ->]].
    - rewrite app_nil_r in E. by apply bool_decide_true.
    - assert (c <> 0) by (intros ->; apply Hz; rewrite E; set_solver). rewrite (proj2 (Z.eqb_neq c 0)) by done.
      apply bool_decide_false. intros Hx. rewrite Hx in E.
      apply (f_equal length) in E. rewrite length_app in E. simpl in E. lia. }
  assert (ET : pre ++ t ++ 0 :: rest = pre ++ ds ++ c :: post) by (rewrite E at 1; by rewrite <- app_assoc, Ec).
  rewrite ET. unfold strtoul_digits. rewrite scan_digits_spec; [|done|done|rewrite !length_app; simpl; lia]. rewrite run_bind_Ok.
  unfold signed_number, number. rewrite Hall. cbv iota beta. fold (dec_value ds).
  destruct (decide (ds = [])) as [Hnil|Hne].
  - rewrite Hnil, app_nil_r, Z.eqb_refl.
    assert (Hx : exists x, rd (pre ++ [] ++ c :: post) 0 = Ok x) by (destruct pre as [|x l]; by eexists).
    destruct Hx as [x Hx]. exists 0, 0, 0, x. split; [done|]. split; [done|]. split; [rlia|]. split; [done|].
    replace (negb (bool_decide (t = [])) && (c =? 0)) with false; [cbn; auto|].
    symmetry. rewrite <- Hall. destruct t as [|y t']; [done|]. cbn [forallb]. unfold ds in Hnil. cbn [lead_digits] in Hnil.
    destruct (is_digit y); [done|]. by rewrite andb_false_r.
  - replace (zlen (pre ++ ds) =? zlen pre) with false
      by (symmetry; apply Z.eqb_neq; rewrite length_app; destruct ds; [done|simpl; lia]).
    assert (Hstop : 0 < zlen (pre ++ ds)) by (rewrite length_app; destruct ds; [done|simpl; lia]).
    assert (Htn : t <> []) by (intros ->; by destruct ds).
    rewrite bool_decide_false by done. cbn [negb andb].
    assert (Hv : 0 <= dec_value ds) by (by apply (dec_from_grows ds 0)).
    assert (Heq : c = 0 -> dec_value t = dec_value ds).
    { intros ->. f_equal. symmetry. apply (bool_decide_eq_true_1 (ds = t)). unfold ds. by rewrite <- lead_digits_all, Hall. }
    change (dec_from 0 ds) with (dec_value ds). rewrite (app_assoc pre).
    destruct (Z.ltb_spec ULONG_MAX (dec_value ds)) as [Hbig|Hsmall].
    + eexists _, _, ERANGE, c. split; [done|]. split; [apply rd_at|]. split; [done|]. split; [lia|].
      destruct (Z.eqb_spec c 0) as [Hc0|]; cbn [andb]; [|cbn; auto].
      rewrite Heq by done. rewrite (proj2 (Z.leb_gt _ _)) by lia. cbn. by left.
    + eexists _, _, 0, c. split; [done|]. split; [apply rd_at|].
      split; [destruct negative; [apply u64_range|unfold ULONG_MAX in *; rlia]|]. split; [lia|].
      destruct (Z.eqb_spec c 0) as [Hc0|]; cbn [andb]; [|cbn; auto].
      rewrite Heq by done. rewrite (proj2 (Z.leb_le _ _)) by lia. cbn. auto.
Qed.

(** [strtoul] on a text with its terminator. *)
Lemma strtoul_spec text rest :
  is_bytes text -> 0 ∉ text ->
  converts (text ++ 0 :: rest) (strtoul10 (text ++ 0 :: rest)) (strtoul_whole text).
Proof.
  intros Hb Hz. unfold strtoul10, strtoul_whole.
  destruct (drop_space_split text) as (sp & E & Hs & Hd). set (body := drop_space text) in *. clearbody body. subst text.
  apply Forall_app in Hb as [_ Hb]. assert (Hzb : 0 ∉ body) by set_solver.
  destruct (head_or_nul body rest) as (c & post & Ec & Hc). rewrite <- app_assoc.
  assert (Hcs : is_space c = false) by (destruct Hc as [[_ ->]|[t' ->]]; done).
  pose proof (skip_space_spec sp [] (body ++ 0 :: rest) (length (sp ++ body ++ 0 :: rest)) c post Hs Ec Hcs) as Esk.
  cbn [app] in Esk. change (zlen []) with 0 in Esk. rewrite Esk by (rewrite !length_app; simpl; lia).
  rewrite run_bind_Ok. replace (rd (sp ++ body ++ 0 :: rest) (zlen sp)) with (Ok c : run Z) by (by rewrite Ec, rd_at).
  rewrite run_bind_Ok.
  assert (Hnext : forall t', body = c :: t' ->
    converts (sp ++ body ++ 0 :: rest) (strtoul_digits (c =? chr "-") (sp ++ body ++ 0 :: rest) (zlen sp + 1))
      (signed_number (c =? chr "-") t')).
  { intros t' ->. replace (zlen sp + 1) with (zlen (sp ++ [c])) by (rewrite length_app; simpl; lia).
    replace (sp ++ (c :: t') ++ 0 :: rest) with ((sp ++ [c]) ++ t' ++ 0 :: rest) by (by rewrite <- app_assoc).
    apply strtoul_digits_spec; [by inversion Hb|set_solver]. }
  destruct Hc as [[-> ->]|[t' ->]]; [by apply (strtoul_digits_spec false sp [] rest)|]. cbn [signed].
  destruct (c =? chr "-") eqn:Em; cbn [orb]; [by apply Hnext|].
  destruct (c =? chr "+") eqn:Ep; [by apply Hnext|]. by apply strtoul_digits_spec.
Qed.

(** The port parser takes a text the way [strtoul] does. *)
Lemma parse_port_spec text rest :
  is_bytes text -> 0 ∉ text -> parse_port (text ++ 0 :: rest) = Ok (port_of text).
Proof.
  intros Hb Hz. destruct (strtoul_spec text rest Hb Hz) as (v & stop & errno & c & E & Ec & Hv & _ & H).
  unfold parse_port, port_of. rewrite E, run_bind_Ok. cbn [port_setting]. rewrite Ec, run_bind_Ok. f_equal.
  destruct (strtoul_whole text) as [n|]; cbn [mbind option_bind].
  - destruct H as (-> & _ & -> & ->). cbn [Z.eqb negb orb]. unfold in_range.
    destruct (Z.eqb_spec n 0) as [->|]; [done|]. rewrite (proj2 (Z.leb_le 1 n)) by rlia. cbn [orb andb].
    rewrite Z.leb_antisym. destruct (Z.ltb_spec UINT16_MAX n); cbn [negb]; [done|]. by rewrite u16_small by rlia.
  - destruct H as [H|[H|[_ ->]]]; [rewrite (proj2 (Z.eqb_neq errno 0)) by done; done| |].
    + rewrite (proj2 (Z.eqb_neq c 0)) by done. cbn [negb]. by rewrite orb_true_r.
    + cbn [Z.eqb]. by rewrite orb_true_r.
Qed.

(** ** The options *)

(** A variable's text; an empty one counts as unset. *)
Definition setting (t : option (list Z)) : option (list Z) :=
  match t with
  | Some t => if bool_decide (before_nul t = []) then None else Some (before_nul t)
  | None => None
  end.

Definition default_policy : r_request_policy := mk_policy 20 1 (mk_schedule R_HA_SCHEDULE_FIXED 1 1 0) 1 true.

(** A setting that is optional: its value, its default when unset, or a refusal. *)
Definition optional {A} (t : option (list Z)) (unset : A) (read : list Z -> option A) : option A :=
  match setting t with Some text => read text | None => Some unset end.

(** The options an environment stands for. *)
Definition env_options (env : environment) : option r_runtime_options :=
  unit_ms ← optional (env (cbytes "RATELIMITLY_REQUEST_UNIT_MS")) (rp_unit_ms default_policy)
              (fun text => v ← number UINT64_MAX text; if v =? 0 then None else Some v);
  replay_count ← optional (env (cbytes "RATELIMITLY_REQUEST_REPLAY_COUNT")) (rp_replay_count default_policy)
                   (number R_CLIENT_HA_MAX_REPLAY_COUNT);
  profile ← optional (env (cbytes "RATELIMITLY_REQUEST_PROFILE")) false
              (fun text => if bool_decide (text = cbytes "1") then Some true else None);
  port ← optional (env (cbytes "RATELIMITLY_EXAMPLE_SERVER_PORT")) 0 port_of;
  _ ← setting (env (cbytes "RATELIMITLY_AUTH_KEY"));
  let host := env (cbytes "RATELIMITLY_EXAMPLE_SERVER_HOST") in
  let has_policy := negb (is_null (setting (env (cbytes "RATELIMITLY_REQUEST_UNIT_MS")))) ||
                    negb (is_null (setting (env (cbytes "RATELIMITLY_REQUEST_REPLAY_COUNT")))) in
  if eqb (is_null host) (port =? 0) then
    Some (mk_options
      (if negb (is_null (setting (env (cbytes "RATELIMITLY_TENANT")))) then env (cbytes "RATELIMITLY_TENANT") else None)
      (env (cbytes "RATELIMITLY_AUTH_KEY")) host port
      (if has_policy then mk_policy unit_ms replay_count (rp_replay_gap default_policy)
                            (rp_final_receive_units default_policy) (rp_completion_delivery default_policy)
       else op_request_policy options_zero)
      has_policy profile)
  else None.

(** A variable is unset, or its value is a string. *)
Lemma setting_cases t :
  from_option is_cstring True t ->
  env_nonempty t = Ok (negb (is_null (setting t))) /\
  match setting t with
  | Some text => exists rest, t = Some (text ++ 0 :: rest) /\ (0 ∉ text) /\ is_bytes text
  | None => True
  end.
Proof.
  destruct t as [t|]; [|done]. cbn [from_option setting env_nonempty]. intros [Hb Hin].
  destruct (before_nul_split t Hin) as [rest E]. pose proof (before_nul_free t) as Hz. set (x := before_nul t) in *.
  clearbody x. subst t. apply Forall_app in Hb as [Hb _]. destruct x as [|c x].
  - by rewrite bool_decide_true.
  - rewrite bool_decide_false by done. split; [|by exists rest].
    change (rd ((c :: x) ++ 0 :: rest) 0) with (Ok c : run Z). rewrite run_bind_Ok.
    by rewrite (proj2 (Z.eqb_neq c 0)) by set_solver.
Qed.

Lemma str_eq_text a b ra rb :
  0 ∉ a -> 0 ∉ b -> str_eq (a ++ 0 :: ra) (b ++ 0 :: rb) = Ok (bool_decide (a = b)).
Proof.
  revert b; induction a as [|x a IH]; intros [|y b] Ha Hb; cbn [app str_eq].
  - done.
  - rewrite (proj2 (Z.eqb_neq 0 y)) by set_solver. by rewrite bool_decide_false.
  - rewrite (proj2 (Z.eqb_neq x 0)) by set_solver. by rewrite bool_decide_false.
  - destruct (Z.eqb_spec x y) as [->|Hne].
    + rewrite (proj2 (Z.eqb_neq y 0)) by set_solver. rewrite IH by set_solver. f_equal. apply bool_decide_ext.
      split; [by intros ->|by intros [= ->]].
    + rewrite bool_decide_false; [done|]. by intros [= ? _].
Qed.

(** A step of the configuration gives the options [x], or refuses. *)
Definition settles (m : run config_flow) (x : option r_runtime_options) : Prop :=
  match x with Some o => m = Ok (Next o) | None => exists o, m = Ok (Return o) end.

Lemma settles_then m x k y :
  settles m x -> (forall o, x = Some o -> settles (k o) (y o)) -> settles (then_config m k) (x ≫= y).
Proof.
  unfold settles, then_config. destruct x as [o|]; cbn [mbind option_bind].
  - intros -> Hk. rewrite run_bind_Ok. by apply Hk.
  - intros [o ->] _. rewrite run_bind_Ok. by eexists.
Qed.

(** A setting that replaces a field when it is set. *)
Definition replaces (t : option (list Z)) (read : list Z -> option r_runtime_options) (o : r_runtime_options)
  : option r_runtime_options := optional t o read.

Definition with_unit (v : Z) (o : r_runtime_options) : r_runtime_options :=
  let p := op_request_policy o in
  with_policy (mk_policy v (rp_replay_count p) (rp_replay_gap p) (rp_final_receive_units p) (rp_completion_delivery p)) o.
Definition with_replay (v : Z) (o : r_runtime_options) : r_runtime_options :=
  let p := op_request_policy o in
  with_policy (mk_policy (rp_unit_ms p) v (rp_replay_gap p) (rp_final_receive_units p) (rp_completion_delivery p)) o.

Section Steps.
Context (t : option (list Z)) (Ht : from_option is_cstring True t) (o : r_runtime_options).

Lemma env_unit_settles :
  settles (env_unit t o)
    (replaces t (fun text => v ← number UINT64_MAX text; if v =? 0 then None else Some (with_unit v o)) o).
Proof.
  destruct (setting_cases t Ht) as [En Es]. unfold env_unit, replaces, optional. rewrite En, run_bind_Ok.
  destruct (setting t) as [text|]; cbn [is_null negb]; [|done]. destruct Es as (rest & -> & Hz & _).
  rewrite parse_u64_spec, run_bind_Ok by (done || rlia). destruct (number UINT64_MAX text) as [v|]; [|by eexists].
  change (deref (Some v)) with (Ok v : run Z). rewrite run_bind_Ok. change (RCLIENT_OK =? RCLIENT_OK) with true.
  cbn [mbind option_bind negb orb]. by destruct (v =? 0); [eexists|].
Qed.

Lemma env_replay_settles :
  settles (env_replay t o)
    (replaces t (fun text => v ← number R_CLIENT_HA_MAX_REPLAY_COUNT text; Some (with_replay v o)) o).
Proof.
  destruct (setting_cases t Ht) as [En Es]. unfold env_replay, replaces, optional. rewrite En, run_bind_Ok.
  destruct (setting t) as [text|]; cbn [is_null negb]; [|done]. destruct Es as (rest & -> & Hz & _).
  rewrite parse_u64_spec, run_bind_Ok by (done || (unfold R_CLIENT_HA_MAX_REPLAY_COUNT; rlia)).
  unfold number. case_if; [|by eexists].
  change (deref (Some (dec_value text))) with (Ok (dec_value text) : run Z). rewrite run_bind_Ok. change (RCLIENT_OK =? RCLIENT_OK) with true.
  cbn [mbind option_bind negb settles]. breflect. unfold R_CLIENT_HA_MAX_REPLAY_COUNT in *.
  assert (0 <= dec_value text) by (by apply (dec_from_grows text 0)). by rewrite u32_small by rlia.
Qed.

Lemma env_profile_settles :
  settles (env_profile t o)
    (replaces t (fun text => if bool_decide (text = cbytes "1") then Some (with_profile o) else None) o).
Proof.
  destruct (setting_cases t Ht) as [En Es]. unfold env_profile, replaces, optional. rewrite En, run_bind_Ok.
  destruct (setting t) as [text|]; cbn [is_null negb]; [|done]. destruct Es as (rest & -> & Hz & _).
  change (deref (Some (text ++ 0 :: rest))) with (Ok (text ++ 0 :: rest) : run (list Z)). rewrite run_bind_Ok.
  change (cstr "1") with (cbytes "1" ++ 0 :: []).
  rewrite str_eq_text, run_bind_Ok by (done || (apply (bool_decide_unpack _); vm_compute; exact I)).
  by case_bool_decide; [|eexists].
Qed.

Lemma env_port_settles :
  settles (env_port t o) (replaces t (fun text => p ← port_of text; Some (with_port p o)) o).
Proof.
  destruct (setting_cases t Ht) as [En Es]. unfold env_port, replaces, optional. rewrite En, run_bind_Ok.
  destruct (setting t) as [text|]; cbn [is_null negb]; [|done]. destruct Es as (rest & -> & Hz & Hb).
  change (deref (Some (text ++ 0 :: rest))) with (Ok (text ++ 0 :: rest) : run (list Z)).
  rewrite run_bind_Ok, parse_port_spec, run_bind_Ok by done. by destruct (port_of text); [|eexists].
Qed.
End Steps.

(** The two settings of the request policy, when one of them is set. *)
Definition policy_options (unit_text replay_text : option (list Z)) (o : r_runtime_options) : option r_runtime_options :=
  if negb (is_null (setting unit_text)) || negb (is_null (setting replay_text)) then
    o ← replaces unit_text (fun text => v ← number UINT64_MAX text;
          if v =? 0 then None else Some (with_unit v (with_policy default_policy o))) (with_policy default_policy o);
    o ← replaces replay_text (fun text => v ← number R_CLIENT_HA_MAX_REPLAY_COUNT text; Some (with_replay v o)) o;
    Some (with_has_policy o)
  else Some o.
Definition profile_options (t : option (list Z)) (o : r_runtime_options) : option r_runtime_options :=
  replaces t (fun text => if bool_decide (text = cbytes "1") then Some (with_profile o) else None) o.
Definition port_options (t : option (list Z)) (o : r_runtime_options) : option r_runtime_options :=
  replaces t (fun text => p ← port_of text; Some (with_port p o)) o.

Lemma env_policy_settles unit_text replay_text o :
  from_option is_cstring True unit_text -> from_option is_cstring True replay_text ->
  settles (env_policy unit_text replay_text o) (policy_options unit_text replay_text o).
Proof.
  intros Hu Hr. unfold env_policy, policy_options. rewrite (proj1 (setting_cases _ Hu)), run_bind_Ok, (proj1 (setting_cases _ Hr)), run_bind_Ok.
  destruct (negb (is_null (setting unit_text)) || negb (is_null (setting replay_text))); cbn [negb]; [|done].
  change (deref (r_client_default_request_policy (Some (op_request_policy o)))) with (Ok default_policy : run r_request_policy).
  rewrite run_bind_Ok. apply settles_then; [by apply env_unit_settles|]. intros o1 _.
  apply settles_then; [by apply env_replay_settles|]. by intros o2 _.
Qed.

Lemma env_required_settles o :
  from_option is_cstring True (op_auth_key o) ->
  settles (env_required o)
    (_ ← setting (op_auth_key o); if eqb (is_null (op_server_host o)) (op_server_port o =? 0) then Some o else None).
Proof.
  intros Hk. unfold env_required. rewrite (proj1 (setting_cases _ Hk)), run_bind_Ok.
  destruct (setting (op_auth_key o)); cbn [is_null negb mbind option_bind]; [|by eexists].
  by case_if; [|eexists].
Qed.

(** No step touches the key. *)
Lemma same_key_policy u r o o' : policy_options u r o = Some o' -> op_auth_key o' = op_auth_key o.
Proof. unfold policy_options, replaces, optional. intros. by repeat (case_match || simplify_option_eq). Qed.
Lemma same_key_profile t o o' : profile_options t o = Some o' -> op_auth_key o' = op_auth_key o.
Proof. unfold profile_options, replaces, optional. intros. by repeat (case_match || simplify_option_eq). Qed.
Lemma same_key_port t o o' : port_options t o = Some o' -> op_auth_key o' = op_auth_key o.
Proof. unfold port_options, replaces, optional. intros. by repeat (case_match || simplify_option_eq). Qed.

Section FromEnv.
Context (env : environment) (Henv : forall name, from_option is_cstring True (env name)).

Let start : r_runtime_options :=
  mk_options (if negb (is_null (setting (env (cbytes "RATELIMITLY_TENANT")))) then env (cbytes "RATELIMITLY_TENANT") else None)
    (env (cbytes "RATELIMITLY_AUTH_KEY")) (env (cbytes "RATELIMITLY_EXAMPLE_SERVER_HOST")) 0
    (op_request_policy options_zero) false false.

(** The steps in a row. *)
Lemma steps_settle :
  settles
    (then_config (env_policy (env (cbytes "RATELIMITLY_REQUEST_UNIT_MS")) (env (cbytes "RATELIMITLY_REQUEST_REPLAY_COUNT")) start) (fun o =>
     then_config (env_profile (env (cbytes "RATELIMITLY_REQUEST_PROFILE")) o) (fun o =>
     then_config (env_port (env (cbytes "RATELIMITLY_EXAMPLE_SERVER_PORT")) o) env_required)))
    (o ← policy_options (env (cbytes "RATELIMITLY_REQUEST_UNIT_MS")) (env (cbytes "RATELIMITLY_REQUEST_REPLAY_COUNT")) start;
     o ← profile_options (env (cbytes "RATELIMITLY_REQUEST_PROFILE")) o;
     o ← port_options (env (cbytes "RATELIMITLY_EXAMPLE_SERVER_PORT")) o;
     _ ← setting (op_auth_key o);
     if eqb (is_null (op_server_host o)) (op_server_port o =? 0) then Some o else None).
Proof.
  apply settles_then; [by apply env_policy_settles|]. intros o1 E1. apply same_key_policy in E1.
  apply settles_then; [by apply env_profile_settles|]. intros o2 E2. apply same_key_profile in E2.
  apply settles_then; [by apply env_port_settles|]. intros o3 E3. apply same_key_port in E3.
  apply env_required_settles. rewrite E3, E2, E1. apply Henv.
Qed.

Lemma steps_options :
  (o ← policy_options (env (cbytes "RATELIMITLY_REQUEST_UNIT_MS")) (env (cbytes "RATELIMITLY_REQUEST_REPLAY_COUNT")) start;
   o ← profile_options (env (cbytes "RATELIMITLY_REQUEST_PROFILE")) o;
   o ← port_options (env (cbytes "RATELIMITLY_EXAMPLE_SERVER_PORT")) o;
   _ ← setting (op_auth_key o);
   if eqb (is_null (op_server_host o)) (op_server_port o =? 0) then Some o else None) = env_options env.
Proof.
  unfold policy_options, profile_options, port_options, replaces, optional, env_options, optional.
  destruct (setting (env (cbytes "RATELIMITLY_REQUEST_UNIT_MS"))) as [tu|];
    destruct (setting (env (cbytes "RATELIMITLY_REQUEST_REPLAY_COUNT"))) as [tr|];
    destruct (setting (env (cbytes "RATELIMITLY_REQUEST_PROFILE"))) as [tp|];
    destruct (setting (env (cbytes "RATELIMITLY_EXAMPLE_SERVER_PORT"))) as [tq|];
    cbn [is_null negb orb mbind option_bind];
    repeat (match goal with
            | |- context [number ?m ?t] => destruct (number m t) as [?v|]
            | |- context [port_of ?t] => destruct (port_of t) as [?p|]
            | |- context [bool_decide ?P] => destruct (bool_decide P)
            | v : Z |- context [?v =? 0] => destruct (v =? 0)
            end; cbn [mbind option_bind]; try done).
  reflexivity.
Qed.

(** The options are a function of the texts of the variables; whatever is not
    accepted is [RCLIENT_ERR_CONFIG]. *)
Lemma options_from_env_spec o :
  exists r, r_runtime_options_from_env env (Some o) = Ok r /\
    match env_options env with
    | Some x => r = (RCLIENT_OK, Some x)
    | None => fst r = RCLIENT_ERR_CONFIG
    end.
Proof.
  unfold r_runtime_options_from_env. cbv zeta.
  rewrite (proj1 (setting_cases _ (Henv (cbytes "RATELIMITLY_TENANT")))), run_bind_Ok.
  pose proof steps_settle as Hs. rewrite steps_options in Hs. fold start. unfold settles in Hs.
  destruct (env_options env) as [x|]; [|destruct Hs as [x Hs]]; rewrite Hs, run_bind_Ok; by eexists.
Qed.
End FromEnv.

(** ** What the configuration gives, the runtime takes *)

(** The caller's options: strings, numbers of their width. *)
Record options_ok (o : r_runtime_options) : Prop := {
  oo_key : from_option (fun k => is_cstring k /\ zlen k <= 2 ^ 59) True (op_auth_key o);
  oo_tenant : from_option is_cstring True (op_tenant_dns_name o);
  oo_host : from_option is_cstring True (op_server_host o);
  oo_port : is_u16 (op_server_port o);
  oo_policy : wf_policy (op_request_policy o);
}.

Lemma number_range max text v : number max text = Some v -> 0 <= v <= max.
Proof.
  unfold number. case_if; [|done]. intros [= <-]. breflect. split; [by apply (dec_from_grows text 0)|done].
Qed.

Lemma port_of_range text p : port_of text = Some p -> 1 <= p <= UINT16_MAX.
Proof.
  unfold port_of, in_range. destruct (strtoul_whole text) as [v|]; [|done]. cbn [mbind option_bind].
  case_if; [|done]. intros [= <-]. breflect. lia.
Qed.

Lemma env_options_fit env x :
  (forall name, from_option (fun t => is_cstring t /\ zlen t <= 2 ^ 59) True (env name)) ->
  env_options env = Some x -> options_ok x /\ setting (op_auth_key x) <> None.
Proof.
  intros He Ex. unfold env_options in Ex.
  apply bind_Some in Ex as (unit_ms & Hu & Ex). apply bind_Some in Ex as (replay & Hr & Ex).
  apply bind_Some in Ex as (profile & _ & Ex). apply bind_Some in Ex as (port & Hp & Ex).
  apply bind_Some in Ex as (key & Hk & Ex). case_match; [|done]. injection Ex as <-.
  assert (Hstr : forall name, from_option is_cstring True (env name)).
  { intros name. specialize (He name). by destruct (env name); [apply He|]. }
  split; [|cbn [op_auth_key]; by rewrite Hk].
  split; cbn [op_auth_key op_tenant_dns_name op_server_host op_server_port op_request_policy].
  - apply He.
  - case_if; [apply Hstr|done].
  - apply Hstr.
  - unfold optional in Hp. case_match; [apply port_of_range in Hp; rlia|by injection Hp as <-].
  - case_if; [|by repeat split]. split; cbn; [|split; [|by repeat split]].
    + unfold optional in Hu. case_match; [|by injection Hu as <-].
      apply bind_Some in Hu as (v & Hv & Hu). case_match; [done|]. injection Hu as <-. apply number_range in Hv. rlia.
    + unfold optional in Hr. case_match; [|by injection Hr as <-]. apply number_range in Hr.
      unfold R_CLIENT_HA_MAX_REPLAY_COUNT in Hr. rlia.
Qed.
