(* ===== verification/RuntimeReceive.v ===== *)
(** * The socket runtime: draining a socket

    The receive loop hands every datagram to the client and stops when the
    socket is empty, fails, or has been replaced. *)

From S2P Require Import Prelude.
From S2P Require Import Types.
From S2P Require Import Wire.
From S2P Require Import WireFacts.
From S2P Require Import Crypto.
From S2P Require Import CryptoFacts.
From S2P Require Import Workflow.
From S2P Require Import State.
From S2P Require Import Hoare.
From S2P Require Import Schedule.
From S2P Require Import Dns.
From S2P Require Import DnsFacts.
From S2P Require Import Request.
From S2P Require Import RequestFacts.
From S2P Require Import PacketFacts.
From S2P Require Import ExtractFacts.
From S2P Require Import Client.
From S2P Require Import Lifecycle.
From S2P Require Import Completion.
From S2P Require Import Datagram.
From S2P Require Import Admission.
From S2P Require Import Ids.
From S2P Require Import WorkflowOps.
From S2P Require Import WorkflowFacts.
From S2P Require Import Api.
From S2P Require Import Frame.
From S2P Require Import Runtime.
From S2P Require Import RuntimeFacts.
From S2P Require Import RuntimeSockets.
From S2P Require Import RuntimeHost.

(** ** What a datagram is answered with *)
Section Status.
Context {W : Type} `{HW : Host W} {ssl : OpenSSL}.

(** Every result of a run that ends. *)
Definition yields {A} (P : A -> Prop) (m : M W A) : Prop := forall s a s', m s = Ok (a, s') -> P a.

Lemma yields_mret {A} (P : A -> Prop) a : P a -> yields P (mret a).
Proof. by intros HP s b s' [= <- _]. Qed.

Lemma yields_seq {A B} (R : A -> Prop) (P : B -> Prop) (m : M W A) (k : A -> M W B) :
  yields R m -> (forall a, R a -> yields P (k a)) -> yields P (m ≫= k).
Proof.
  intros Hm Hk s b s' E. unfold mbind, M_bind in E. destruct (m s) as [|[a s1]] eqn:Em; [done|].
  eapply Hk; [by eapply Hm|exact E].
Qed.

Lemma yields_bind {A B} (P : B -> Prop) (m : M W A) (k : A -> M W B) :
  (forall a, yields P (k a)) -> yields P (m ≫= k).
Proof. intros Hk. by apply (yields_seq (fun _ => True)). Qed.

Lemma yields_lift {A} (r : run A) : yields (fun a => r = Ok a) (lift r : M W A).
Proof. intros s a s'. unfold lift. destruct r; [done|]. by intros [= <- _]. Qed.

Definition status_in (l : list Z) (rc : Z) : Prop := rc ∈ l.

Ltac yield1 :=
  first
    [ apply yields_mret; cbv beta; solve [set_solver]
    | apply yields_bind; intros
    | match goal with |- yields _ (match ?x with _ => _ end) => destruct x eqn:? end ].
Ltac yield := repeat yield1.

(** A credential of a type the library knows. *)
Definition keyed (c : client_fixed) : Prop := cf_auth_type c = R_AUTH_COOKIE \/ cf_auth_type c = R_AUTH_AES_GCM.

(** The results of a computation without effects, branch by branch. *)
Ltac branches E :=
  cbv zeta in E; repeat first [ apply run_bind_inv in E as (? & _ & E) | case_match ]; simplify_eq; set_solver.

Lemma auth_header_status buf len pos o : yields (fun r => fst r ∈ [RCLIENT_OK; RCLIENT_ERR_PROTOCOL])
  (lift (r_parse_auth_tlv_header (Some buf) len pos o) : M W _).
Proof. intros s a s' E. apply yields_lift in E. unfold r_parse_auth_tlv_header in E. branches E. Qed.

Lemma extract_status c buf len pos cap :
  keyed c -> yields (fun r => fst r ∈ [RCLIENT_OK; RCLIENT_ERR_PROTOCOL; RCLIENT_ERR_AUTH]) (r_extract_pdu_data c buf len pos cap).
Proof.
  intros Ha. unfold r_extract_pdu_data. eapply yields_seq; [apply auth_header_status|]. intros [rc o] Hrc.
  cbn [fst] in Hrc. destruct (negb (rc =? RCLIENT_OK)) eqn:Ec; [apply yields_mret; set_solver|]. clear Hrc Ec.
  destruct Ha as [-> | ->]; do 5 (apply yields_bind; intros); cbn [Z.eqb orb negb R_AUTH_COOKIE R_AUTH_AES_GCM]; yield.
Qed.

Lemma tenant_header_status buf len t o : yields (fun r => fst (fst r) ∈ [RCLIENT_OK; RCLIENT_ERR_PROTOCOL])
  (lift (r_parse_tenant_header (Some buf) len t o) : M W _).
Proof. intros s a s' E. apply yields_lift in E. unfold r_parse_tenant_header in E. branches E. Qed.

Lemma response_status pdu len gc rc o : yields (fun r => fst r ∈ [RCLIENT_OK; RCLIENT_ERR_PROTOCOL])
  (lift (r_parse_rate_response_pdu (Some pdu) len gc rc o) : M W _).
Proof. intros s a s' E. apply yields_lift in E. unfold r_parse_rate_response_pdu in E. branches E. Qed.

Lemma response_alloc_status pdu len :
  yields (fun r => fst r ∈ [RCLIENT_OK; RCLIENT_ERR_PROTOCOL; RCLIENT_ERR_NOMEM]) (r_parse_rate_response_alloc pdu len).
Proof.
  unfold r_parse_rate_response_alloc.
  repeat first [ eapply yields_seq; [apply response_status|]; intros [? ?] ?; cbn [fst] in * | progress yield1 ].
Qed.

(** What the receive loop may see of a datagram. *)
Definition datagram_statuses : list Z := [RCLIENT_OK; RCLIENT_ERR_PROTOCOL; RCLIENT_ERR_AUTH; RCLIENT_ERR_NOMEM].

Lemma bind_inv {A B} (m : M W A) (k : A -> M W B) s b s' :
  (m ≫= k) s = Ok (b, s') -> exists a s1, m s = Ok (a, s1) /\ k a s1 = Ok (b, s').
Proof. unfold mbind, M_bind. destruct (m s) as [|[a s1]] eqn:E; [done|]. by eauto. Qed.

Lemma lift_bind_inv {A B} (r : run A) (k : A -> M W B) s b s' :
  (lift r ≫= k) s = Ok (b, s') -> exists a, r = Ok a /\ k a s = Ok (b, s').
Proof.
  intros E. apply bind_inv in E as (a & s1 & El & E). unfold lift in El. apply run_bind_inv in El as (x & Ex & El).
  simplify_eq. by eauto.
Qed.

Lemma on_datagram_status buf len from s rc s' :
  keyed (cl_fixed (s_client s)) -> r_client_on_datagram (Some buf) len (Some from) s = Ok (rc, s') ->
  rc ∈ datagram_statuses.
Proof.
  intros Hk. unfold r_client_on_datagram. case_match; [intros [= <- _]; unfold datagram_statuses; set_solver|].
  intros E. apply lift_bind_inv in E as ([[rc0 t] o] & Et & E).
  assert (Hrc : rc0 ∈ [RCLIENT_OK; RCLIENT_ERR_PROTOCOL]).
  { apply (tenant_header_status buf len (Some tenant_zero) (Some 0) s (rc0, t, o) s). unfold lift. by rewrite Et. }
  case_match; [injection E as <- _; unfold datagram_statuses; set_solver|].
  apply lift_bind_inv in E as (h & _ & E). apply lift_bind_inv in E as (pos & _ & E).
  apply bind_inv in E as (c & s1 & [= <- <-] & E). 
  eapply (fun Hy : yields (fun rc => rc ∈ datagram_statuses) _ => Hy _ _ _ E). unfold datagram_statuses.
  apply yields_bind. intros [p|]; [|yield].
  do 2 (apply yields_bind; intros). case_match; [yield|]. case_match; [yield|].
  eapply yields_seq; [by apply extract_status|]. intros [rc1 pdu] Hrc1. cbn [fst] in Hrc1. case_match; [yield|].
  apply yields_bind; intros [[block off] n]. eapply yields_seq; [apply response_alloc_status|].
  intros [rc2 out] Hrc2. cbn [fst] in Hrc2. case_match; [yield|]. unfold accept_response. yield.
Qed.
End Status.

(** ** The loop *)
Lemma on_os_result {O A} (f : O -> A * O) (w : rworld O) a w' :
  on_os f w = (a, w') -> f (rw_os w) = (a, rw_os w').
Proof. unfold on_os. destruct (f (rw_os w)) as [x o]. by intros [= -> <-]. Qed.

Section Drain.
Context {O : Type} `{OS : Os O} {APP : App O} {olaws : OsLaws O} {HR : Reentrant (rworld O)}.
Context {ssl : OpenSSL} {laws : AesGcmLaws ssl} {dlaws : DigestLaws ssl}.
Implicit Types s : sys (rworld O).
Implicit Types X : gset ptr.

Definition drain_statuses : list Z := [RCLIENT_OK; RCLIENT_ERR_IO; RCLIENT_ERR_NOMEM].

Definition drained X s (rc : option Z) s' : Prop :=
  kept X s s' /\ from_option (fun rc => rc ∈ drain_statuses) True rc.

Lemma drained_after X s1 s2 rc s3 : call_frame X s1 s2 -> drained X s2 rc s3 -> drained X s1 rc s3.
Proof. intros HF [Hk Hrc]. split; [by eapply kept_trans|done]. Qed.

Lemma drain_wp turns fd X s :
  client_inv X s -> keyed (cl_fixed (s_client s)) -> wp (drain turns fd) (drained X s) s.
Proof.
  revert s; induction turns as [|n IH]; intros s HI Hk; cbn [drain].
  { wp_step. split; [by apply kept_refl|done]. }
  wp_step. apply wp_world_op. intros [[len buffer] from] w Er.
  destruct (kept_world X s (set_world w s) HI ltac:(by eexists)) as [HI1 HF1].
  cbv beta iota. wp_step. apply wp_gets.
  apply wp_if; intros E1.
  { eapply wp_mono; [apply (IH (set_world w s) HI1 Hk)|]. intros rc s' Hd. by eapply drained_after. }
  apply wp_if; intros E2; [wp_step; split; [by split|set_solver]|].
  apply wp_if; intros E3; [wp_step; split; [by split|set_solver]|]. breflect.
  destruct (os_recv_wf _ _ _ _ _ _ (on_os_result _ _ _ _ Er) E3) as (Hlen & Hbuf & Hb & Hf).
  unfold RECV_BUFFER in *. rewrite u64_small by rlia. set (s1 := set_world w s) in *.
  destruct (wp_Ok _ _ _ (on_datagram_wp X buffer len from s1 HI1 Hb ltac:(unfold is_object; lia) ltac:(lia) Hf))
    as (rc & s2 & Ed & Hd). apply datagram_kept in Hd as [HI2 HF2]; [|done].
  pose proof (on_datagram_status buffer len from s1 rc s2 Hk Ed) as Hrc. unfold datagram_statuses in Hrc.
  assert (Hk2 : keyed (cl_fixed (s_client s2))) by (by rewrite (ca_fixed _ _ _ HF2)).
  assert (HF : call_frame X s s2) by (by etransitivity).
  assert (Hnext : wp (drain n fd) (drained X s) s2).
  { eapply wp_mono; [by apply IH|]. intros x s' Hx. by eapply drained_after. }
  wp_step. eapply wp_eq; [exact Ed|]. apply wp_if; intros E4; [done|]. breflect.
  apply wp_if; intros E5; [breflect; wp_step; split; [by split|unfold drain_statuses; cbn; set_solver]|].
  wp_step. unfold runtime. apply wp_gets. apply wp_if; intros E6; [|done]. wp_step. split; [by split|cbn; set_solver].
Qed.

(** What the program calls when the socket is readable. *)
Lemma on_readable_wp turns fd X s :
  client_inv X s -> keyed (cl_fixed (s_client s)) -> fd <> R_RUNTIME_INVALID_SOCKET ->
  rn_handle (rw_runtime (s_world s)) = true ->
  wp (r_runtime_client_on_readable turns true fd) (drained X s) s.
Proof.
  intros HI Hk Hfd Hh. unfold r_runtime_client_on_readable, runtime. wp_step. apply wp_gets. rewrite Hh. cbn [negb orb].
  rewrite (proj2 (Z.eqb_neq fd _) Hfd). by apply drain_wp.
Qed.
End Drain.

(** With the network quiet every turn of the loop uses some of the backlog. *)
Section Ends.
Context {O : Type} `{Q : Quiet O} {APP : App O} {HS : Silent} {ssl : OpenSSL}.
Implicit Types s : sys (rworld O).

Definition waiting s : nat := q_backlog (rw_os (s_world s)).

Lemma drain_uses turns fd s s' :
  drain turns fd s = Ok (None, s') -> (turns + waiting s' <= waiting s)%nat.
Proof.
  revert s; induction turns as [|n IH]; intros s; cbn [drain]; [intros [= <-]; lia|]. intros E.
  apply bind_inv in E as ([[len buffer] from] & s1 & Er & E).
  unfold world_op in Er. destruct (on_os _ (s_world s)) as [x w] eqn:Eo. injection Er as -> <-.
  apply bind_inv in E as (errno & s2 & Eg & E). unfold gets in Eg. injection Eg as <- <-. cbn [s_world set_world] in E.
  pose proof (on_os_result _ _ _ _ Eo) as Hr.
  assert (Hle : 0 <= len \/ os_errno (rw_os w) = EINTR -> (waiting (set_world w s) < waiting s)%nat).
  { intros Hx. exact (q_received _ _ _ _ _ _ Hr Hx). }
  case_match; [apply IH in E; breflect; specialize (Hle ltac:(tauto)); lia|].
  do 2 (case_match; [done|]). breflect. specialize (Hle ltac:(lia)).
  apply bind_inv in E as (rc & s3 & Ed & E).
  assert (H3 : (waiting s3 <= waiting (set_world w s))%nat) by (exact (keeps_r_client_on_datagram (on_worlds no_more_waiting) _ _ _ _ _ _ Ed)).
  case_match; [apply IH in E; lia|]. case_match; [done|].
  apply bind_inv in E as (r & s4 & [= <- <-] & E). case_match; [done|]. apply IH in E. lia.
Qed.
End Ends.
