(* ===== verification/RuntimeLife.v ===== *)
(** * The socket runtime: from init to destroy

    Initialisation opens the sockets and creates the client, or fails and
    leaves nothing open; between init and destroy every step of the program
    keeps the client's invariant and the ownership of the descriptors; destroy
    closes them all. *)

From S2P Require Import Prelude.
From S2P Require Import Types.
From S2P Require Import Wire.
From S2P Require Import WireFacts.
From S2P Require Import Crypto.
From S2P Require Import CryptoFacts.
From S2P Require Import Workflow.
From S2P Require Import State.
From S2P Require Import Hoare.
From S2P Require Import Schedule.
From S2P Require Import Dns.
From S2P Require Import DnsFacts.
From S2P Require Import Request.
From S2P Require Import RequestFacts.
From S2P Require Import PacketFacts.
From S2P Require Import ExtractFacts.
From S2P Require Import Client.
From S2P Require Import Lifecycle.
From S2P Require Import Completion.
From S2P Require Import Datagram.
From S2P Require Import Admission.
From S2P Require Import Ids.
From S2P Require Import WorkflowOps.
From S2P Require Import WorkflowFacts.
From S2P Require Import Api.
From S2P Require Import Frame.
From S2P Require Import Runtime.
From S2P Require Import RuntimeFacts.
From S2P Require Import RuntimeSockets.
From S2P Require Import RuntimeHost.
From S2P Require Import RuntimeReceive.
From S2P Require Import KeyFacts.
From S2P Require Import Steering.
From S2P Require Import Teardown.
From S2P Require Import Create.
From S2P Require Import RuntimeConfig.

Lemma env_nonempty_ok t :
  from_option is_cstring True t -> env_nonempty t = Ok (match t with Some (c :: _) => negb (c =? 0) | _ => false end).
Proof. destruct t as [[|c t]|]; [by intros [_ ?%not_elem_of_nil]|done|done]. Qed.

(** The fixed host is copied whole, or the options are refused. *)
Lemma copy_fixed_host_ok r o :
  runtime_wf r -> options_ok o ->
  exists rc r', copy_fixed_host r o = Ok (rc, r') /\ runtime_wf r' /\
    rn_sockets r' = rn_sockets r /\ rn_handle r' = rn_handle r /\
    (rc = RCLIENT_OK \/ rc = RCLIENT_ERR_CONFIG /\ r' = r).
Proof.
  intros Hr Ho. unfold copy_fixed_host. pose proof (oo_host _ Ho) as Hh. destruct (op_server_host o) as [h|].
  2:{ case_if; (do 2 eexists; split; [reflexivity|]); repeat split; auto; apply Hr. }
  cbn in Hh. destruct Hh as [Hb Hin]. case_if; [do 2 eexists; split; [reflexivity|]; auto 6|].
  destruct (cstring_split h Hin) as (t & rest & Eh & Ht & En). rewrite En, run_bind_Ok.
  assert (Hn : 0 <= zlen t < zlen h) by (rewrite Eh, length_app; simpl; lia).
  case_if; [do 2 eexists; split; [reflexivity|]; auto 6|]. breflect. destruct Hr as [[Hl Hs] Hp Hf].
  unfold R_RUNTIME_HOST_CAP in *.
  rewrite rd_bytes_take, run_bind_Ok by lia. set (src := take _ h).
  assert (Hsrc : src = t ++ [0]).
  { unfold src. rewrite Eh. replace (Z.to_nat (zlen t + 1)) with (length (t ++ [0])) by (rewrite length_app; simpl; lia).
    change (0 :: rest) with ([0] ++ rest). by rewrite app_assoc, take_app_length. }
  assert (Hsl : zlen src = zlen t + 1) by (rewrite Hsrc, length_app; simpl; lia).
  destruct (wr_defined (rn_server_host r) 0 src) as [block Eb]; [lia|lia|]. rewrite Eb, run_bind_Ok.
  do 2 eexists. split; [reflexivity|]. split; [|by auto].
  pose proof (wr_Ok _ _ _ _ Eb) as (_ & _ & Hbl). split; [|apply Ho|done]. cbn. unfold R_RUNTIME_HOST_CAP.
  split; [lia|]. split; [apply (wr_is_bytes (rn_server_host r) 0 src); [apply Hs| |exact Eb]; by apply Forall_take|].
  unfold wr in Eb. case_match; [|done]. injection Eb as <-. rewrite Hsrc. set_solver.
Qed.

Lemma created_world {W} `{HL : HostLaws W} config ops (s : sys W) w :
  created config ops s -> created config ops (set_world w s).
Proof. intros [H1 H2 H3 H4 H5]. split; try done. by eapply client_inv_world; [|eexists]. Qed.

(** Every entry point respects what the host does. *)
Lemma keeps_exec {W} `{Host W} {ssl : OpenSSL} (R : sys W -> sys W -> Prop) {HF : Tracks R} a : keeps R (exec a).
Proof.
  destruct a; cbn [exec]; unfold discard; try (apply (keeps_bind R); [|intros; apply (keeps_mret R)]);
    try case_match; eauto with keeps.
Qed.

Section Life.
Context {O : Type} {OS : Os O} {K : Kernel O} {APP : App O} {olaws : OsLaws O}.
Context (base : gset Z) {HG : Guest base}.
Context {ssl : OpenSSL} {laws : AesGcmLaws ssl} {dlaws : DigestLaws ssl}.
Implicit Types s : sys (rworld O).

Lemma wp_runtime (Q : r_runtime_client -> sys (rworld O) -> Prop) s :
  Q (rw_runtime (s_world s)) s -> wp runtime Q s.
Proof. done. Qed.

Lemma wp_upd_runtime f (Q : unit -> sys (rworld O) -> Prop) s :
  Q tt (set_world (mk_rworld (f (rw_runtime (s_world s))) (rw_os (s_world s))) s) -> wp (upd_runtime f) Q s.
Proof. done. Qed.

(** Nothing is left of the runtime. *)
Record shut s : Prop := {
  sh_handle : rn_handle (rw_runtime (s_world s)) = false;
  sh_sockets : rn_sockets (rw_runtime (s_world s)) = [];
  sh_open : k_open (rw_os (s_world s)) = base;
}.

(** Closing the sockets gives every descriptor back. *)
Lemma close_sockets_wp (Q : unit -> sys (rworld O) -> Prop) s :
  owned base (s_world s) -> rn_handle (rw_runtime (s_world s)) = false ->
  (forall s', only_world s s' -> shut s' -> Q tt s') ->
  wp (r ← runtime;
      _ ← world_op (on_os (fun o => (tt, close_all (rn_sockets r) o)));
      upd_runtime (set_rn_sockets [])) Q s.
Proof.
  intros Hw Hh HQ. wp_step. apply wp_runtime. wp_step. apply wp_world_op. unfold on_os. intros a w [= _ <-].
  apply wp_upd_runtime. apply HQ; [by eexists|]. split; [done|done|]. cbn.
  destruct (close_all_spec (rn_sockets (rw_runtime (s_world s))) (rw_os (s_world s))) as [-> _].
  destruct Hw as [_ _ _ Ha ->]. apply set_eq. intros fd. pose proof (Ha fd). set_solver.
Qed.

Lemma destroy_idle_wp (Q : unit -> sys (rworld O) -> Prop) s :
  owned base (s_world s) -> rn_handle (rw_runtime (s_world s)) = false ->
  (forall s', only_world s s' -> shut s' -> Q tt s') -> wp (r_runtime_client_destroy true) Q s.
Proof.
  intros Hw Hh HQ. unfold r_runtime_client_destroy. cbn [negb]. wp_step. apply wp_runtime. rewrite Hh.
  wp_step. wp_step. by apply close_sockets_wp.
Qed.

(** *** Destruction of a running client *)
Definition gone s s' : Prop :=
  s_reqs s' = ∅ /\ wiped_credential (cl_fixed (s_client s)) (cl_fixed (s_client s')) /\ shut s' /\
  s_trace s' = s_trace s ++ map EvFreeReq (cl_inflight (s_client s)) ++ outstanding s ++
               client_frees (cl_server_cap (s_client s')) (cl_fixed (s_client s)).

Lemma runtime_destroy_wp s :
  client_inv ∅ s -> secret_ok (cl_fixed (s_client s)) -> owned base (s_world s) ->
  rn_handle (rw_runtime (s_world s)) = true ->
  wp (r_runtime_client_destroy true) (fun _ s' => gone s s') s.
Proof.
  intros HI Hsec Hw Hh. unfold r_runtime_client_destroy. cbn [negb]. wp_step. apply wp_runtime. rewrite Hh.
  destruct (wp_Ok _ _ _ (destroy_wp s HI Hsec)) as ([] & s1 & E1 & Hr & _ & Hc & Ht & _).
  pose proof (keeps_destroy (on_worlds (keeps_sockets base)) _ _ _ E1) as [Hh1 Hw1]. destruct (Hw1 Hw) as [Hw1' _].
  wp_step. wp_step. eapply wp_eq; [exact E1|]. apply wp_upd_runtime.
  apply close_sockets_wp; [by destruct Hw1' as [[? ? ?] ? ? ? ?]|done|].
  intros s' [w ->] Hs. by split.
Qed.

(** *** Initialisation *)

(** The runtime so far: [n] sockets at most, and no client. *)
Definition starting (n : Z) s s' : Prop :=
  only_world s s' /\ owned base (s_world s') /\ rn_handle (rw_runtime (s_world s')) = false /\
  zlen (rn_sockets (rw_runtime (s_world s'))) <= n.

Lemma owns_opened r (o : O) family fd o' :
  owns base r o -> opened family 0 fd o o' -> fd <> R_RUNTIME_INVALID_SOCKET -> zlen (rn_sockets r) <= 1 ->
  owns base (set_rn_sockets (rn_sockets r ++ [fd]) r) o'.
Proof.
  intros [[Hh Hp Hf] Hn Hi Ha Ho] [[? _]|(Hfd & [A1 A2 A3 A4] & _)] Hne Hl; [done|].
  destruct (A3 fd ltac:(by left)) as [_ Hfresh]. rewrite Ho in Hfresh.
  split; cbn.
  - split; [done|done|]. cbn. rewrite length_app. simpl. lia.
  - apply NoDup_app. split; [done|]. split; [|apply NoDup_singleton]. intros x Hx ->%list_elem_of_singleton. set_solver.
  - set_solver.
  - intros x [Hx| ->%list_elem_of_singleton]%elem_of_app; [by apply Ha|]. set_solver.
  - rewrite A1, Ho, list_to_set_app_L. simpl. set_solver.
Qed.

Lemma open_socket_wp family n s0 s :
  starting n s0 s -> n <= 1 -> wp (open_socket family) (fun _ s' => starting (n + 1) s0 s') s.
Proof.
  intros (Hw & Ho & Hh & Hn) Hle. unfold open_socket. wp_step. apply wp_world_op. intros fd w.
  unfold on_os. destruct (open_udp_socket family 0 (rw_os (s_world s))) as [[f e] o'] eqn:Eo. intros [= <- <-].
  apply open_udp_socket_spec in Eo. case_if; breflect.
  - wp_step. destruct Eo as [[_ Eo]|[? _]]; [|done]. split; [by eapply only_world_trans; [exact Hw|eexists]|].
    split; [by eapply owns_opens|]. split; [done|]. cbn. lia.
  - apply wp_upd_runtime. split; [eapply only_world_trans; [exact Hw|by eexists]|].
    split; [by eapply owns_opened; [exact Ho|exact Eo|done|cbn; lia]|]. split; [done|]. cbn. rewrite length_app. cbn [length]. lia.
Qed.

(** The configuration the client is created with. *)
Definition client_config (o : r_runtime_options) : r_client_config :=
  mk_config 0 0 (op_auth_key o) 0 (op_tenant_dns_name o)
    (Some (if op_has_request_policy o then op_request_policy o
           else mk_policy 20 1 (mk_schedule R_HA_SCHEDULE_FIXED 1 1 0) 1 true))
    (op_profile_requests o) (mk_dns_policy 0 0 0).

Lemma client_config_ok o : options_ok o -> config_ok (client_config o).
Proof.
  intros Ho. split; cbn.
  - pose proof (oo_key _ Ho) as Hk. destruct (op_auth_key o) as [k|]; [|done]. destruct Hk as [[Hb Hin] Hl]. by split.
  - apply (oo_tenant _ Ho).
  - destruct (op_has_request_policy o); [apply (oo_policy _ Ho)|]. by repeat split.
  - done.
Qed.

(** Success: a created client, and sockets that are the runtime's own.  Failure:
    no client, no memory, and no descriptor that was not open before. *)
Definition init_post (o : r_runtime_options) (rc : Z) s' : Prop :=
  (rc = RCLIENT_OK /\ created (client_config o) runtime_ops s' /\ owned base (s_world s') /\
   rn_handle (rw_runtime (s_world s')) = true /\ rn_sockets (rw_runtime (s_world s')) <> []) \/
  (rc ∈ [RCLIENT_ERR_CONFIG; RCLIENT_ERR_IO; RCLIENT_ERR_NOMEM] /\ k_open (rw_os (s_world s')) = base /\
   s_reqs s' = ∅ /\ s_refreshes s' = ∅ /\ s_lookups s' = ∅ /\
   (s_trace s' = [] \/
    scrubbed (cl_fixed (s_client s')) /\ s_trace s' = client_frees 0 (cl_fixed (s_client s')))).

Lemma init_failed o rc s s' :
  blank s -> only_world s s' -> k_open (rw_os (s_world s')) = base ->
  rc ∈ [RCLIENT_ERR_CONFIG; RCLIENT_ERR_IO; RCLIENT_ERR_NOMEM] -> init_post o rc s'.
Proof. intros [? ? ? ? _] [w ->] Hb Hrc. right. do 5 (split; [done|]). by left. Qed.

(** The part of the initialisation that creates the client. *)
Lemma create_client_wp o s0 s :
  blank s0 -> starting 2 s0 s -> rn_sockets (rw_runtime (s_world s)) <> [] -> options_ok o ->
  is_Some (op_auth_key o) ->
  wp (c ← r_client_create (Some (client_config o)) (Some runtime_ops) true;
      let '(status, created) := c in
      _ ← upd_runtime (set_rn_handle created);
      if negb (status =? RCLIENT_OK) then _ ← r_runtime_client_destroy true; mret status else
      mret status) (init_post o) s.
Proof.
  intros Hb ([w ->] & Hw & Hh & Hn) Hne Ho Hk. set (s1 := set_world w s0) in *.
  assert (Hb1 : blank s1) by by destruct Hb.
  destruct (wp_Ok _ _ _ (create_wp (client_config o) runtime_ops s1 (client_config_ok o Ho) Hk Hb1))
    as ([rc ok] & s2 & E & Hpost).
  pose proof (keeps_r_client_create (on_worlds (keeps_sockets base)) _ _ _ _ _ _ E) as [Hh2 Hk2]. destruct (Hk2 Hw) as [Hw2 Hl2].
  wp_step. eapply wp_eq; [exact E|]. cbv beta iota. wp_step. apply wp_upd_runtime.
  destruct Hpost as [[[= -> ->] Hc]|(rc' & [= -> ->] & Hrc & _ & Hr & Hf & Hl & Ht)].
  - change (RCLIENT_OK =? RCLIENT_OK) with true. cbn [negb]. wp_step. left. split; [done|].
    split; [by apply created_world|]. split; [by destruct Hw2 as [[? ? ?] ? ? ? ?]|]. split; [done|].
    cbn. intros Hn0. rewrite Hn0 in Hl2. symmetry in Hl2. by apply length_zero_iff_nil in Hl2.
  - replace (rc' =? RCLIENT_OK) with false by (by destruct Hrc as [->| ->]). cbn [negb]. wp_step.
    apply destroy_idle_wp; [by destruct Hw2 as [[? ? ?] ? ? ? ?]|done|]. intros s3 [w3 ->] Hs. wp_step. right.
    split; [destruct Hrc as [->| ->]; set_solver|]. split; [apply Hs|]. do 3 (split; [done|]).
    destruct Ht as [[_ Ht]|Ht]; [by left|by right].
Qed.

(** A failure before the client is created closes what was opened. *)
Lemma give_up_wp o rc n s0 s :
  blank s0 -> starting n s0 s -> rc ∈ [RCLIENT_ERR_CONFIG; RCLIENT_ERR_IO; RCLIENT_ERR_NOMEM] ->
  wp (_ ← r_runtime_client_destroy true; mret rc) (init_post o) s.
Proof.
  intros Hb (Hw & Ho & Hh & _) Hrc. wp_step. apply destroy_idle_wp; [done|done|]. intros s' Hw' Hs. wp_step.
  eapply (init_failed o rc s0 s'); [done|by eapply only_world_trans|apply Hs|done].
Qed.

Lemma init_wp o s :
  options_ok o -> blank s -> k_open (rw_os (s_world s)) = base ->
  wp (r_runtime_client_init true (Some o)) (init_post o) s.
Proof.
  intros Ho Hb Hbase. unfold r_runtime_client_init. cbn [negb].
  assert (Hk : from_option is_cstring True (op_auth_key o)).
  { pose proof (oo_key _ Ho) as Hx. destruct (op_auth_key o); [apply Hx|done]. }
  wp_step. eapply wp_lift; [by apply env_nonempty_ok|]. apply wp_if; intros E1.
  { wp_step. eapply (init_failed o); [done|apply only_world_refl|done|set_solver]. }
  assert (Hkey : is_Some (op_auth_key o)) by (destruct (op_auth_key o); [by eexists|done]).
  wp_step. apply wp_upd_runtime. cbv beta. wp_step. apply wp_runtime. cbn [s_world set_world rw_runtime].
  destruct (copy_fixed_host_ok runtime_zero o runtime_zero_wf Ho) as (rc & r & E & Hr & Hs & Hh & Hrc).
  wp_step. eapply wp_lift; [exact E|]. cbv beta iota. wp_step. apply wp_upd_runtime. cbn [s_world set_world rw_runtime rw_os].
  set (s1 := set_world _ _).
  assert (H1 : starting 0 s s1).
  { split; [by eexists|]. split; [|split; [done|by cbn; rewrite Hs]].
    split; cbn; rewrite ?Hs; [done|constructor|set_solver|set_solver|set_solver]. }
  apply wp_if; intros E2.
  { breflect. destruct Hrc as [->|[-> _]]; [done|]. eapply give_up_wp; [done|done|set_solver]. }
  eapply wp_seq; [apply (open_socket_wp AF_INET 0 s); [done|lia]|]. intros [] s2 H2.
  eapply wp_seq; [apply (open_socket_wp AF_INET6 1 s); [done|lia]|]. intros [] s3 H3. change (1 + 1) with 2 in H3.
  wp_step. apply wp_runtime. apply wp_if; intros E3; [eapply give_up_wp; [done|done|set_solver]|]. breflect.
  wp_step. eapply wp_lift; [reflexivity|]. cbv beta zeta. wp_step. apply wp_upd_runtime.
  apply (create_client_wp o s); [done| |by cbn; intros Hn; rewrite Hn in E3|done|done].
  destruct H3 as (Hw & [[? ? ?] ? ? ? ?] & ? & ?). split; [by eapply only_world_trans; [exact Hw|eexists]|].
  split; [by split|done].
Qed.
End Life.

(** ** What the program does between init and destroy *)
Section Lives.
Context {O : Type} {OS : Os O} {K : Kernel O} {APP : App O} {olaws : OsLaws O}.
Context (base : gset Z) {HG : Guest base} {HR : Reentrant (rworld O)}.
Context {ssl : OpenSSL} {laws : AesGcmLaws ssl} {dlaws : DigestLaws ssl}.
Implicit Types s : sys (rworld O).

(** Legal calls of the client's entry points, and sockets that are readable. *)
Inductive lives s0 : sys (rworld O) -> Prop :=
| lives_start : lives s0 s0
| lives_call s a s' : lives s0 s -> legal a s -> exec a s = Ok (tt, s') -> lives s0 s'
| lives_readable s turns fd rc s' :
    lives s0 s -> fd <> R_RUNTIME_INVALID_SOCKET ->
    r_runtime_client_on_readable turns true fd s = Ok (rc, s') -> lives s0 s'.

Record running (o : r_runtime_options) s : Prop := {
  ru_inv : client_inv ∅ s;
  ru_credential : exists k, credential_of (client_config o) k (cl_fixed (s_client s));
  ru_owned : owned base (s_world s);
  ru_handle : rn_handle (rw_runtime (s_world s)) = true;
  ru_sockets : rn_sockets (rw_runtime (s_world s)) <> [];
}.

Lemma running_step o s s' :
  running o s -> kept ∅ s s' -> keeps_sockets base (s_world s) (s_world s') -> running o s'.
Proof.
  intros [H1 H2 H3 H4 H5] [HI HF] [Hh Hk]. destruct (Hk H3) as [Ho Hl]. split; [done| |done|by rewrite Hh|].
  - by rewrite (ca_fixed _ _ _ HF).
  - intros Hn. apply H5, length_zero_iff_nil. by rewrite <- Hl, Hn.
Qed.

Lemma credential_keyed config k f : credential_of config k f -> keyed f.
Proof.
  intros Hc. unfold keyed. rewrite (cr_type _ _ _ Hc). pose proof (cr_key _ _ _ Hc) as Hk.
  unfold accepted_key in Hk. destruct (key_decode (key_text config)) as [x|] eqn:Ed; [|done]. cbn in Hk.
  case_match; [done|]. injection Hk as ->. by destruct (accepted_facts _ _ Ed) as (_ & _ & _ & Ht).
Qed.

Lemma keeps_drain turns fd : keeps (on_worlds (keeps_sockets base)) (drain turns fd).
Proof.
  induction turns as [|n IH]; cbn [drain]; [apply (keeps_mret _)|].
  apply (keeps_bind _); [|intros [[len buffer] from]].
  { apply keeps_world_op. intros s a w' E. unfold on_os in E. destruct (os_recvfrom fd (rw_os (s_world s))) as [x o] eqn:Er.
    injection E as _ <-. unfold on_worlds. cbn [s_world set_world]. split; [done|]. intros Ho. split; [|done]. eapply owns_still; [exact Ho|].
    exact (proj1 (re_recvfrom _ _ _ _ Er)). }
  apply (keeps_bind _); [apply (keeps_gets _)|intros errno]. do 3 (case_match; [first [exact IH | apply (keeps_mret _)]|]).
  apply (keeps_bind _); [apply (keeps_r_client_on_datagram _)|intros st]. case_match; [done|]. case_match; [apply (keeps_mret _)|].
  apply (keeps_bind _); [apply (keeps_gets _)|intros r]. case_match; [apply (keeps_mret _)|done].
Qed.

Lemma lives_running o s0 s : running o s0 -> lives s0 s -> running o s.
Proof.
  intros H0 Hl. induction Hl as [|s a s' _ IH Ha E|s turns fd rc s' _ IH Hfd E]; [done| |].
  - pose proof (exec_wp ∅ a s (ru_inv _ _ IH) Ha) as Hw. unfold wp in Hw. rewrite E in Hw.
    eapply running_step; [exact IH|exact Hw|]. exact (keeps_exec (on_worlds (keeps_sockets base)) a _ _ _ E).
  - destruct (ru_credential _ _ IH) as [k Hk].
    pose proof (on_readable_wp turns fd ∅ s (ru_inv _ _ IH) (credential_keyed _ _ _ Hk) Hfd (ru_handle _ _ IH)) as Hw.
    unfold wp in Hw. rewrite E in Hw. eapply running_step; [exact IH|apply Hw|].
    unfold r_runtime_client_on_readable in E. apply bind_inv in E as (r & s1 & [= <- <-] & E).
    rewrite (ru_handle _ _ IH) in E. cbn [negb orb] in E. rewrite (proj2 (Z.eqb_neq fd _) Hfd) in E.
    exact (keeps_drain _ _ _ _ _ E).
Qed.

(** What initialisation leaves on success is running. *)
Lemma init_running o rc s : init_post base o rc s -> rc = RCLIENT_OK -> running o s.
Proof.
  intros [(_ & Hc & Ho & Hh & Hs)|(Hrc & _)] ->; [|by unfold RCLIENT_OK in *; set_solver].
  split; try done; [apply (cd_inv _ _ _ Hc)|]. destruct (cd_credential _ _ _ Hc) as (k & Hk & _). by exists k.
Qed.

Lemma running_destroy o s :
  running o s -> exists s', r_runtime_client_destroy true s = Ok (tt, s') /\ gone base s s'.
Proof.
  intros [HI (k & Hk) Ho Hh _].
  destruct (wp_Ok _ _ _ (runtime_destroy_wp base s HI (cr_secret _ _ _ Hk) Ho Hh)) as ([] & s' & E & Hg). by exists s'.
Qed.
End Lives.
