(* ===== verification/RuntimeWork.v ===== *)
(** * The socket runtime: protected work

    What [r_runtime_admission_run_and_report] does: the work runs for admitted
    requests only and once, its duration is measured on the monotonic clock,
    and one report follows work that succeeded. *)

From S2P Require Import Prelude.
From S2P Require Import Types.
From S2P Require Import Wire.
From S2P Require Import WireFacts.
From S2P Require Import Crypto.
From S2P Require Import CryptoFacts.
From S2P Require Import Workflow.
From S2P Require Import State.
From S2P Require Import Hoare.
From S2P Require Import Schedule.
From S2P Require Import Dns.
From S2P Require Import DnsFacts.
From S2P Require Import Request.
From S2P Require Import RequestFacts.
From S2P Require Import PacketFacts.
From S2P Require Import ExtractFacts.
From S2P Require Import Client.
From S2P Require Import Lifecycle.
From S2P Require Import Completion.
From S2P Require Import Datagram.
From S2P Require Import Admission.
From S2P Require Import Ids.
From S2P Require Import WorkflowOps.
From S2P Require Import WorkflowFacts.
From S2P Require Import Api.
From S2P Require Import Frame.
From S2P Require Import Runtime.
From S2P Require Import RuntimeFacts.
From S2P Require Import RuntimeSockets.
From S2P Require Import RuntimeHost.
From S2P Require Import RuntimeReceive.

(** A storage is marked: what it awaits, its callback and its guard stay. *)
Lemma client_inv_mark {W} `{HL : HostLaws W} {ssl : OpenSSL} X (s : sys W) u a a' :
  client_inv X s -> s_adms s !! u = Some a ->
  ad_active a' = ad_active a -> ad_handle a' = ad_handle a -> ad_callback a' = ad_callback a -> ad_guard a' = ad_guard a ->
  kept X s (set_adms (<[u := a']> (s_adms s)) s).
Proof.
  intros HI Hu E1 E2 E3 E4. destruct (ci_adms _ _ _ HI) as [H11 H12 H13].
  assert (Haw : forall p, awaits a' p <-> awaits a p) by (intros p; unfold awaits; by rewrite E1, E2).
  assert (Hback : forall v b, s_adms (set_adms (<[u := a']> (s_adms s)) s) !! v = Some b ->
    exists b0, s_adms s !! v = Some b0 /\ (forall p, awaits b p <-> awaits b0 p) /\ ad_guard b = ad_guard b0).
  { intros v b. simpl. destruct (decide (v = u)) as [->|Hne].
    - rewrite lookup_insert_eq. intros [= <-]. by exists a.
    - rewrite lookup_insert_ne by done. intros Hb. by exists b. }
  assert (Hrel : forall p, released p s -> released p (set_adms (<[u := a']> (s_adms s)) s)).
  { intros p Hf v b Hb Hbp. destruct (Hback v b Hb) as (b0 & Hb0 & Hiff & _). by apply (Hf v b0 Hb0), Hiff. }
  split.
  - destruct HI. split; simpl; try done; [by eapply (dns_rest_ext s)| |auto]. split; simpl.
    + intros p r Hp Hr Hcb. destruct (H11 p r Hp Hr Hcb) as (b & Hb & Hw & Hc).
      destruct (decide (rq_user r = u)) as [E|Hne].
      * rewrite E, Hu in Hb. injection Hb as <-. exists a'. rewrite E, lookup_insert_eq, E3. by rewrite Haw.
      * exists b. by rewrite lookup_insert_ne.
    + intros v b p Hb Hbp. destruct (Hback v b Hb) as (b0 & Hb0 & Hiff & _). apply (H12 v b0 p Hb0). by apply Hiff.
    + intros v b Hb. destruct (Hback v b Hb) as (b0 & Hb0 & _ & ->). by apply (H13 v b0).
  - split; simpl; try done; [by left|exists []; by rewrite app_nil_r|auto].
Qed.

Section Work.
Context {O : Type} {OS : Os O} {APP : App O} {olaws : OsLaws O} {HR : Reentrant (rworld O)}.
Context {ssl : OpenSSL} {laws : AesGcmLaws ssl} {dlaws : DigestLaws ssl}.
Implicit Types s : sys (rworld O).
Implicit Types X : gset ptr.

(** The monotonic clock's reading, if there is one. *)
Definition monotonic (o : O) : option Z := option_map timespec_ms (fst (os_clock_gettime CLOCK_MONOTONIC o)).

(** The application's protected work returns; it may use the client, and leaves
    the storage it belongs to alone. *)
Definition well_behaved (u : Z) (work : M (rworld O) Z) : Prop := forall X s, client_inv X s ->
  wp work (fun _ s' => kept X s s' /\ s_adms s' !! u = s_adms s !! u) s.

Definition executed (a : r_admission_request) : r_admission_request := set_ad_work_executed true a.

Definition may_run (a : r_admission_request) : bool := ad_admitted a && negb (ad_work_executed a).

(** The state the work starts in: the clock was read and the storage marked. *)
Definition begun (u : Z) a s s0 : Prop :=
  exists w, s0 = set_adms (<[u := executed a]> (s_adms s)) (set_world w s).

(** The outcomes on the storage [a] at [u]: refused, no clock, the work failed,
    the clock failed or went backwards, or one report of the time measured. *)
Inductive ran X (u : Z) a (work : M (rworld O) Z) (out : option Z) s : Z * option Z -> sys (rworld O) -> Prop :=
| ran_refused : may_run a = false -> ran X u a work out s (RCLIENT_ERR_CONFIG, out) s
| ran_no_clock s' : may_run a = true -> monotonic (rw_os (s_world s)) = None -> only_world s s' ->
    ran X u a work out s (RCLIENT_ERR_IO, out) s'
| ran_failed s0 rc s' : may_run a = true -> begun u a s s0 ->
    work s0 = Ok (rc, s') -> rc <> RCLIENT_OK -> ran X u a work out s (rc, out) s'
| ran_unmeasured s0 s1 s' : may_run a = true -> begun u a s s0 ->
    work s0 = Ok (RCLIENT_OK, s1) -> only_world s1 s' ->
    (forall t0 t1, monotonic (rw_os (s_world s)) = Some t0 -> monotonic (rw_os (s_world s1)) = Some t1 -> t1 < t0) ->
    ran X u a work out s (RCLIENT_ERR_IO, out) s'
| ran_reported s0 s1 s2 t0 t1 rc s' : may_run a = true -> begun u a s s0 ->
    work s0 = Ok (RCLIENT_OK, s1) -> only_world s1 s2 ->
    monotonic (rw_os (s_world s)) = Some t0 -> monotonic (rw_os (s_world s1)) = Some t1 -> t0 <= t1 ->
    report_step X u (executed a) (Z.min UINT32_MAX (t1 - t0)) s2 rc s' ->
    ran X u a work out s (rc, store out (Z.min UINT32_MAX (t1 - t0))) s'.

(** A reading of the monotonic clock. *)
Lemma monotonic_wp (Q : Z * option Z -> sys (rworld O) -> Prop) s :
  (forall s', only_world s s' ->
     match monotonic (rw_os (s_world s)) with
     | Some t => is_u64 t -> Q (RCLIENT_OK, Some t) s'
     | None => Q (RCLIENT_ERR_IO, Some 0) s'
     end) ->
  wp (world_op (on_os (fun o => let '(rc, v, o) := r_runtime_monotonic_time_ms (Some 0) o in ((rc, v), o)))) Q s.
Proof.
  intros HQ. apply wp_world_op. intros r w. unfold on_os, r_runtime_monotonic_time_ms, monotonic in *.
  destruct (os_clock_gettime CLOCK_MONOTONIC (rw_os (s_world s))) as [[t|] o]; intros [= <- <-];
    specialize (HQ (set_world (mk_rworld (rw_runtime (s_world s)) o) s) ltac:(by eexists)); cbn in HQ; [|done].
  apply HQ. apply u64_range.
Qed.

Lemma run_and_report_wp X u a work out s :
  client_inv X s -> s_adms s !! u = Some a -> well_behaved u work ->
  rn_handle (rw_runtime (s_world s)) = true ->
  wp (r_runtime_admission_run_and_report true (Some u) (Some work) out)
    (fun res s' => ran X u a work out s res s' /\ kept X s s' /\
       (may_run a = true -> res = (RCLIENT_ERR_IO, out) /\ only_world s s' \/
                            from_option ad_work_executed false (s_adms s' !! u) = true)) s.
Proof.
  intros HI Hu Hwork Hh. unfold r_runtime_admission_run_and_report. wp_step. unfold runtime. apply wp_gets. rewrite Hh.
  cbn [negb orb]. wp_step. wp_step. replace (negb (ad_admitted a) || ad_work_executed a) with (negb (may_run a))
    by (unfold may_run; by rewrite negb_andb, negb_involutive).
  destruct (may_run a) eqn:Em; cbn [negb].
  2:{ wp_step. split; [by apply ran_refused|]. split; [by apply kept_refl|done]. }
  wp_step. apply monotonic_wp. intros s1 Hw1. destruct (kept_world X s s1 HI Hw1) as [HI1 HF1].
  destruct (monotonic (rw_os (s_world s))) as [t0|] eqn:E0.
  2:{ cbv beta iota. change (RCLIENT_ERR_IO =? RCLIENT_OK) with false. cbn [negb]. wp_step.
      split; [by eapply ran_no_clock|]. split; [by split|]. intros _. by left. }
  intros Ht0. cbv beta iota. change (RCLIENT_OK =? RCLIENT_OK) with true. cbn [negb]. wp_step. eapply wp_lift; [done|].
  assert (Hu1 : s_adms s1 !! u = Some a) by (destruct Hw1 as [w ->]; done).
  wp_step. eapply wp_upd_adm; [exact Hu1|]. set (s2 := set_adms _ s1).
  assert (Hu2 : s_adms s2 !! u = Some (executed a)) by apply lookup_insert_eq.
  assert (Hbegun : begun u a s s2) by (destruct Hw1 as [w ->]; by exists w).
  destruct (client_inv_mark X s1 u a (executed a) HI1 Hu1 eq_refl eq_refl eq_refl eq_refl) as [HI2 HF2].
  fold s2 in HI2, HF2. destruct (wp_Ok _ _ _ (Hwork X s2 HI2)) as (rc & s3 & E3 & [HI3 HF3] & Hu3).
  rewrite Hu2 in Hu3. assert (HF03 : call_frame X s s3) by (etransitivity; [exact HF1|]; by etransitivity).
  wp_step. eapply wp_eq; [exact E3|]. apply wp_if; intros Erc; breflect.
  { wp_step. split; [by apply (ran_failed X u a work out s s2)|]. split; [by split|]. intros _. right. by rewrite Hu3. }
  subst rc. wp_step. apply monotonic_wp. intros s4 Hw4. destruct (kept_world X s3 s4 HI3 Hw4) as [HI4 HF4].
  assert (Hu4 : s_adms s4 !! u = Some (executed a)) by (destruct Hw4 as [w ->]; done).
  assert (HF04 : call_frame X s s4) by by etransitivity.
  destruct (monotonic (rw_os (s_world s3))) as [t1|] eqn:E1.
  2:{ wp_step. eapply wp_lift; [done|]. change (RCLIENT_ERR_IO =? RCLIENT_OK) with false. cbn [negb orb]. wp_step.
      split; [eapply (ran_unmeasured X u a work out s s2 s3); try done; rewrite E1; by intros|]. split; [by split|]. intros _. right. by rewrite Hu4. }
  intros Ht1. wp_step. eapply wp_lift; [done|]. change (RCLIENT_OK =? RCLIENT_OK) with true. cbn [negb orb].
  apply wp_if; intros Et; breflect.
  { wp_step. split; [eapply (ran_unmeasured X u a work out s s2 s3); try done; rewrite E0, E1; by intros ? ? [= <-] [= <-]|].
    split; [by split|]. intros _. right. by rewrite Hu4. }
  cbv zeta. rewrite (u64_small (t1 - t0)) by rlia.
  assert (Eobs : (if UINT32_MAX <? t1 - t0 then UINT32_MAX else u32 (t1 - t0)) = Z.min UINT32_MAX (t1 - t0)).
  { case_if; breflect; [lia|]. rewrite u32_small by rlia. lia. }
  rewrite Eobs. wp_step. eapply wp_mono; [apply (admission_report_wp X u (executed a)); [done|done|rlia]|].
  intros rc s5 Hr. wp_step. split; [by eapply (ran_reported X u a work out s s2 s3 s4 t0 t1)|].
  destruct (report_kept X u _ _ s4 rc s5 HI4 Hr) as [HI5 HF5]. split; [split; [done|by etransitivity]|].
  intros _. right. destruct Hr as [_|rc' s' _ _ (_ & _ & _ & -> & _)|s6 s' _ _ -> _ _].
  - by rewrite Hu4.
  - by rewrite Hu4.
  - unfold stored. cbn. by rewrite lookup_insert_eq.
Qed.
End Work.
