(* ===== verification/PerfLatency.v ===== *)
(** * The load generator's latency histogram (bin/perf_latency_hist.h)

    Latencies are counted in 28001 buckets of 1, 10 and 100 microseconds; the
    percentile read from the counts is the upper bound of the bucket that holds
    the sample of that rank. *)

From stdpp Require Import sorting.
From S2P Require Import Prelude.

(** [lia] with division by constants. *)
#[local] Ltac Zify.zify_post_hook ::= Z.to_euclidean_division_equations.

Definition PERF_LATENCY_OVERFLOW_BUCKET : Z := 28000.
Definition PERF_LATENCY_BUCKETS : Z := PERF_LATENCY_OVERFLOW_BUCKET + 1.

Definition perf_latency_bucket (us : Z) : Z :=
  if us <? 10000 then u32 us else
  if us <? 100000 then 10000 +32 u32 ((us -64 10000) / 10) else
  if us <? 1000000 then 19000 +32 u32 ((us -64 100000) / 100) else
  PERF_LATENCY_OVERFLOW_BUCKET.

Definition perf_latency_bucket_upper_us (bucket : Z) : Z :=
  if bucket <? 10000 then bucket +64 1 else
  if bucket <? 19000 then 10000 +64 (((bucket -32 10000) +64 1) *64 10) else
  if bucket <? PERF_LATENCY_OVERFLOW_BUCKET then 100000 +64 (((bucket -32 19000) +64 1) *64 100) else
  1000000.

Definition u128 (z : Z) : Z := z mod 2 ^ 128.

(** One turn of the percentile's loop. *)
Definition percentile_step (hist : list Z) (rank bucket seen : Z) : run (flow Z Z) :=
  n ← elem hist bucket;
  let seen := seen +64 n in
  Ok (if rank <=? seen then Return (perf_latency_bucket_upper_us bucket) else Next seen).

Definition perf_latency_percentile_upper_us (hist : option (list Z)) (total percentile : Z) : run Z :=
  match hist with
  | None => Ok 0
  | Some hist =>
      if (total =? 0) || (percentile =? 0) || (100 <? percentile) then Ok 0 else
      let rank := u64 (u128 (u128 (total * percentile) + 99) / 100) in
      f ← for_flow (Z.to_nat PERF_LATENCY_BUCKETS) 0 (percentile_step hist rank) 0;
      Ok (match f with Next _ => 0 | Return r => r end)
  end.

(** [hist[perf_latency_bucket (us)]++]. *)
Definition count_latency (us : Z) (hist : list Z) : run (list Z) :=
  n ← elem hist (perf_latency_bucket us);
  set_elem hist (perf_latency_bucket us) (n +64 1).

(** [hist[bucket] += worker[bucket]] for every bucket. *)
Definition add_bucket (worker : list Z) (bucket : Z) (hist : list Z) : run (list Z) :=
  n ← elem hist bucket; m ← elem worker bucket; set_elem hist bucket (n +64 m).

Definition add_histogram (hist worker : list Z) : run (list Z) :=
  for_range (Z.to_nat PERF_LATENCY_BUCKETS) 0 (add_bucket worker) hist.

(** ** Buckets *)

(** A latency lies in its bucket: below the bucket's upper bound, and within
    the bucket's width of it. *)
Definition bucket_width (us : Z) : Z :=
  if us <? 10000 then 1 else if us <? 100000 then 10 else 100.

Ltac bucket_cases :=
  unfold perf_latency_bucket, perf_latency_bucket_upper_us, PERF_LATENCY_BUCKETS,
    PERF_LATENCY_OVERFLOW_BUCKET, bucket_width in *;
  repeat match goal with |- context [if ?b then _ else _] => destruct b eqn:?; breflect end.

Lemma bucket_range us : 0 <= us -> 0 <= perf_latency_bucket us < PERF_LATENCY_BUCKETS.
Proof. intros H. bucket_cases; unwrap; lia. Qed.

Lemma bucket_upper us :
  0 <= us < 1000000 ->
  us < perf_latency_bucket_upper_us (perf_latency_bucket us) <= us + bucket_width us.
Proof.
  intros H. unfold perf_latency_bucket, bucket_width. repeat case_if; breflect; unwrap;
    unfold perf_latency_bucket_upper_us, PERF_LATENCY_OVERFLOW_BUCKET; repeat case_if; breflect; unwrap; lia.
Qed.

Lemma bucket_upper_overflow us :
  1000000 <= us -> perf_latency_bucket_upper_us (perf_latency_bucket us) = 1000000.
Proof.
  intros H. unfold perf_latency_bucket. repeat case_if; breflect; try lia. reflexivity.
Qed.

Lemma bucket_mono us us' : 0 <= us <= us' -> perf_latency_bucket us <= perf_latency_bucket us'.
Proof. intros H. unfold perf_latency_bucket. repeat case_if; breflect; unwrap; unfold PERF_LATENCY_OVERFLOW_BUCKET; lia. Qed.

(** ** Counting *)
Definition tally (f : Z -> bool) (l : list Z) : Z := foldr (fun x n => Z.b2z (f x) + n) 0 l.

Lemma tally_cons f x l : tally f (x :: l) = Z.b2z (f x) + tally f l.
Proof. done. Qed.

Lemma tally_app f l l' : tally f (l ++ l') = tally f l + tally f l'.
Proof. induction l as [|x l IH]; [done|]. cbn [app]. rewrite !tally_cons, IH. lia. Qed.

Lemma tally_range f l : 0 <= tally f l <= zlen l.
Proof. induction l as [|x l IH]; [done|]. rewrite tally_cons. cbn [length]. destruct (f x); cbn [Z.b2z]; lia. Qed.

Lemma tally_le f g l : (forall x, x ∈ l -> f x = true -> g x = true) -> tally f l <= tally g l.
Proof.
  induction l as [|x l IH]; intros H; [done|]. rewrite !tally_cons. specialize (IH ltac:(set_solver)).
  destruct (f x) eqn:Ef; [rewrite (H x) by set_solver|destruct (g x)]; cbn [Z.b2z]; lia.
Qed.

Lemma tally_all f l : (forall x, x ∈ l -> f x = true) -> tally f l = zlen l.
Proof.
  induction l as [|x l IH]; intros H; [done|]. rewrite tally_cons, (H x), IH by set_solver. cbn [Z.b2z length]. lia.
Qed.

Lemma tally_none f l : (forall x, x ∈ l -> f x = false) -> tally f l = 0.
Proof. induction l as [|x l IH]; intros H; [done|]. by rewrite tally_cons, (H x), IH by set_solver. Qed.

(** Counting two disjoint cases together. *)
Lemma tally_split f g h l :
  (forall x, Z.b2z (h x) = Z.b2z (f x) + Z.b2z (g x)) -> tally h l = tally f l + tally g l.
Proof. intros H. induction l as [|x l IH]; [done|]. rewrite !tally_cons, IH, H. lia. Qed.

#[export] Instance tally_perm f : Proper (Permutation ==> eq) (tally f).
Proof. intros l l' H. induction H; rewrite ?tally_cons; lia. Qed.

(** [hist] holds the counts of the latencies [l]. *)
Definition in_bucket (b us : Z) : bool := perf_latency_bucket us =? b.

Definition histogram (hist l : list Z) : Prop :=
  zlen hist = PERF_LATENCY_BUCKETS /\ Forall (fun us => 0 <= us) l /\
  forall b, 0 <= b < PERF_LATENCY_BUCKETS -> elem hist b = Ok (tally (in_bucket b) l).

Lemma elem_insert (l : list Z) i j x :
  0 <= i -> 0 <= j < zlen l -> elem (<[Z.to_nat j := x]> l) i = if i =? j then Ok x else elem l i.
Proof.
  intros Hi Hj. unfold elem. rewrite (proj2 (Z.leb_le 0 i)) by done. destruct (Z.eqb_spec i j) as [->|].
  - by rewrite list_lookup_insert_eq by lia.
  - by rewrite list_lookup_insert_ne by lia.
Qed.

Lemma set_elem_Ok (l : list Z) i x : 0 <= i < zlen l -> set_elem l i x = Ok (<[Z.to_nat i := x]> l).
Proof. intros H. unfold set_elem. by rewrite (proj2 (Z.leb_le _ _)), (proj2 (Z.ltb_lt _ _)) by lia. Qed.

Definition empty_histogram : list Z := replicate (Z.to_nat PERF_LATENCY_BUCKETS) 0.

Lemma replicate_counts n : 0 <= n -> zlen (replicate (Z.to_nat n) 0) = n.
Proof. intros H. rewrite length_replicate. by apply Z2Nat.id. Qed.

Lemma elem_replicate (n b x : Z) : 0 <= b < n -> elem (replicate (Z.to_nat n) x) b = Ok x.
Proof. intros H. unfold elem. by rewrite (proj2 (Z.leb_le _ _)), lookup_replicate_2 by lia. Qed.

Lemma histogram_zero : histogram empty_histogram [].
Proof.
  split; [by apply replicate_counts|]. split; [constructor|]. intros b Hb. by apply elem_replicate.
Qed.

(** A latency counted. *)
Lemma count_latency_spec us hist l :
  histogram hist l -> 0 <= us -> zlen l < UINT64_MAX ->
  exists hist', count_latency us hist = Ok hist' /\ histogram hist' (us :: l).
Proof.
  intros (Hn & Hl & Hh) Hu Hm. pose proof (bucket_range us Hu) as Hb. unfold count_latency.
  rewrite Hh, run_bind_Ok, set_elem_Ok by lia. eexists. split; [done|].
  split; [by rewrite length_insert|]. split; [by constructor|]. intros b Hr.
  rewrite elem_insert by lia. pose proof (tally_range (in_bucket (perf_latency_bucket us)) l).
  rewrite tally_cons. destruct (Z.eqb_spec b (perf_latency_bucket us)) as [->|Hne].
  - unwrap. unfold in_bucket at 2. rewrite Z.eqb_refl. f_equal. cbn [Z.b2z]. lia.
  - unfold in_bucket at 1. rewrite (proj2 (Z.eqb_neq _ _)) by congruence. by apply Hh.
Qed.

(** Two histograms added. *)
Lemma add_histogram_spec hist worker l l' :
  histogram hist l -> histogram worker l' -> zlen l + zlen l' <= UINT64_MAX ->
  exists hist', add_histogram hist worker = Ok hist' /\ histogram hist' (l ++ l').
Proof.
  intros (Hn & Hl & Hh) (Hn' & Hl' & Hh') Hm. unfold add_histogram.
  assert (forall n k h, k + Z.of_nat n = PERF_LATENCY_BUCKETS -> 0 <= k -> zlen h = PERF_LATENCY_BUCKETS ->
    (forall b, 0 <= b < PERF_LATENCY_BUCKETS ->
       elem h b = Ok (tally (in_bucket b) l + (if b <? k then tally (in_bucket b) l' else 0))) ->
    exists h', for_range n k (add_bucket worker) h = Ok h' /\
      histogram h' (l ++ l')) as Hloop.
  { induction n as [|n IH]; intros k h Hk Hk0 Hz He; cbn [for_range].
    - eexists. split; [done|]. split; [done|]. split; [by apply Forall_app|]. intros b Hb.
      rewrite He by done. rewrite (proj2 (Z.ltb_lt b k)), tally_app by lia. done.
    - unfold add_bucket at 2. rewrite He, run_bind_Ok, Hh', run_bind_Ok, set_elem_Ok, run_bind_Ok by lia. rewrite Z.ltb_irrefl.
      pose proof (tally_range (in_bucket k) l). pose proof (tally_range (in_bucket k) l'). unwrap.
      apply IH; [lia|lia|by rewrite length_insert|]. intros b Hb. rewrite elem_insert by lia.
      destruct (Z.eqb_spec b k) as [->|]; [rewrite (proj2 (Z.ltb_lt k (k + 1))) by lia; f_equal; lia|].
      rewrite He by done. do 2 f_equal. destruct (Z.ltb_spec b k), (Z.ltb_spec b (k + 1)); done || lia. }
  apply Hloop; [rewrite Z2Nat.id; unfold PERF_LATENCY_BUCKETS, PERF_LATENCY_OVERFLOW_BUCKET; lia|done|done|].
  intros b Hb. rewrite Hh, (proj2 (Z.ltb_ge b 0)) by lia. f_equal. lia.
Qed.

(** ** Percentiles *)

(** The nearest rank of a percentile among [n] samples. *)
Definition rank (n percentile : Z) : Z := (n * percentile + 99) / 100.

Lemma rank_range n p : 0 < n -> 1 <= p <= 100 -> 1 <= rank n p <= n.
Proof. intros Hn Hp. unfold rank. nia. Qed.

(** The counts up to a bucket, and the first bucket that reaches the rank. *)
Definition below (b us : Z) : bool := perf_latency_bucket us <? b.

Lemma percentile_loop hist l k r : histogram hist l -> zlen l <= UINT64_MAX ->
  forall n b, b + Z.of_nat n = PERF_LATENCY_BUCKETS -> 0 <= b ->
  tally (below b) l < r -> 0 <= k < PERF_LATENCY_BUCKETS ->
  tally (below k) l < r <= tally (below (k + 1)) l ->
  for_flow n b (percentile_step hist r) (tally (below b) l) = Ok (Return (perf_latency_bucket_upper_us k)).
Proof.
  intros (Hn & Hl & Hh) Hm.
  assert (forall a b, a <= b -> tally (below a) l <= tally (below b) l) as Hmono.
  { intros a b Hab. apply tally_le. intros x _. unfold below. rewrite !Z.ltb_lt. lia. }
  induction n as [|n IH]; intros b Hb Hb0 Hlt Hk Hr.
  { pose proof (Hmono (k + 1) b ltac:(lia)). lia. }
  cbn [for_flow]. unfold percentile_step at 2. rewrite Hh, !run_bind_Ok by lia.
  assert (tally (below b) l + tally (in_bucket b) l = tally (below (b + 1)) l) as Hs.
  { symmetry. apply tally_split. intros x. unfold below, in_bucket.
    destruct (Z.ltb_spec (perf_latency_bucket x) (b + 1)), (Z.ltb_spec (perf_latency_bucket x) b),
      (Z.eqb_spec (perf_latency_bucket x) b); cbn; lia. }
  rewrite Hs. pose proof (tally_range (below (b + 1)) l). unwrap.
  destruct (Z.leb_spec r (tally (below (b + 1)) l)) as [Hle|Hgt]; [|by apply IH; lia].
  do 2 f_equal. destruct (Z.lt_total b k) as [|[->|]]; [|done|].
  - pose proof (Hmono (b + 1) k ltac:(lia)). lia.
  - pose proof (Hmono (k + 1) b ltac:(lia)). lia.
Qed.

(** The sample of a rank, in any sorted arrangement of the samples. *)
Lemma ranked sorted i x : StronglySorted Z.le sorted -> sorted !! i = Some x ->
  tally (fun y => y <? x) sorted <= Z.of_nat i < tally (fun y => y <=? x) sorted.
Proof.
  intros Hs Hx. destruct (list_elem_of_split_length sorted i x Hx) as (a & b & -> & ->).
  apply StronglySorted_app in Hs as (Hab & Ha & Hb). apply StronglySorted_cons in Hb as [Hx' Hb].
  rewrite !tally_app, !tally_cons.
  rewrite (tally_none (fun y => y <? x) b), (tally_all (fun y => y <=? x) a), Z.ltb_irrefl, Z.leb_refl.
  - pose proof (tally_range (fun y => y <? x) a). pose proof (tally_range (fun y => y <=? x) b). cbn [Z.b2z]. lia.
  - intros y Hy. apply Z.leb_le. apply Hab; set_solver.
  - intros y Hy. apply Z.ltb_ge. rewrite Forall_forall in Hx'. by apply Hx'.
Qed.

Lemma percentile_spec hist l sorted p :
  histogram hist l -> zlen l <= UINT64_MAX -> l <> [] -> 1 <= p <= 100 ->
  StronglySorted Z.le sorted -> sorted ≡ₚ l ->
  exists x, sorted !! Z.to_nat (rank (zlen l) p - 1) = Some x /\ 0 <= x /\
    perf_latency_percentile_upper_us (Some hist) (zlen l) p = Ok (perf_latency_bucket_upper_us (perf_latency_bucket x)).
Proof.
  intros Hh Hm Hne Hp Hs Hperm. assert (0 < zlen l) as Hn by (destruct l; [done|cbn [length]; lia]).
  pose proof (rank_range (zlen l) p Hn Hp) as Hr.
  destruct (lookup_lt_is_Some_2 sorted (Z.to_nat (rank (zlen l) p - 1))) as [x Hx].
  { rewrite (Permutation_length Hperm). lia. }
  exists x. split; [done|]. pose proof (ranked sorted _ x Hs Hx) as Hrank. rewrite !Hperm in Hrank.
  assert (x ∈ l) as Hxl by (rewrite <- Hperm; by eapply list_elem_of_lookup_2).
  pose proof (proj1 (Forall_forall _ _) (proj1 (proj2 Hh)) x Hxl) as Hx0. cbn in Hx0. split; [done|].
  assert (forall y, y ∈ l -> 0 <= y) as Hpos by (by apply Forall_forall, Hh).
  unfold perf_latency_percentile_upper_us.
  rewrite (proj2 (Z.eqb_neq _ _)), (proj2 (Z.eqb_neq p 0)), (proj2 (Z.ltb_ge 100 p)) by lia. cbn [orb].
  assert (0 <= zlen l * p <= UINT64_MAX * 100) as Hq by nia.
  unfold u128. rewrite (Z.mod_small (zlen l * p)), Z.mod_small by (change (2 ^ 128) with (UINT64_MAX * UINT64_MAX + 2 * UINT64_MAX + 1); lia).
  change ((zlen l * p + 99) / 100) with (rank (zlen l) p). unwrap.
  replace 0 with (tally (below 0) l) at 2.
  2:{ apply tally_none. intros y Hy. apply Z.ltb_ge. apply bucket_range. auto. }
  assert (tally (below 0) l = 0) as H0.
  { apply tally_none. intros y Hy. apply Z.ltb_ge. apply bucket_range. auto. }
  erewrite (percentile_loop hist l (perf_latency_bucket x)).
  - done.
  - done.
  - done.
  - rewrite Z2Nat.id; unfold PERF_LATENCY_BUCKETS, PERF_LATENCY_OVERFLOW_BUCKET; lia.
  - lia.
  - lia.
  - by apply bucket_range.
  - split.
    + eapply Z.le_lt_trans; [apply (tally_le _ (fun y => y <? x))|lia]. intros y Hy. unfold below.
      rewrite !Z.ltb_lt. intros Hlt. destruct (Z.lt_ge_cases y x); [done|].
      pose proof (bucket_mono x y ltac:(lia)). lia.
    + eapply Z.le_trans; [|apply (tally_le (fun y => y <=? x))]; [lia|]. intros y Hy. unfold below.
      rewrite Z.leb_le, Z.ltb_lt. intros Hle. pose proof (bucket_mono y x ltac:(auto)). lia.
Qed.

(** ** The report of a run: every worker counts, the counts are added up *)
Fixpoint count_all (samples hist : list Z) : run (list Z) :=
  match samples with
  | [] => Ok hist
  | us :: rest => hist ← count_latency us hist; count_all rest hist
  end.

Fixpoint merge_histograms (workers : list (list Z)) (hist : list Z) : run (list Z) :=
  match workers with
  | [] => Ok hist
  | w :: rest => hist ← add_histogram hist w; merge_histograms rest hist
  end.

Lemma count_all_spec samples hist l :
  histogram hist l -> Forall (fun us => 0 <= us) samples -> zlen l + zlen samples <= UINT64_MAX ->
  exists hist', count_all samples hist = Ok hist' /\ histogram hist' (rev samples ++ l).
Proof.
  revert hist l. induction samples as [|us rest IH]; intros hist l Hh Hs Hm; cbn [count_all rev app]; [eauto|].
  apply Forall_cons in Hs as [Hu Hs]. cbn [length] in Hm.
  destruct (count_latency_spec us hist l Hh Hu ltac:(lia)) as (h1 & -> & H1). rewrite run_bind_Ok.
  destruct (IH h1 (us :: l) H1 Hs ltac:(cbn [length]; lia)) as (h2 & -> & H2). exists h2. split; [done|].
  by rewrite <- app_assoc.
Qed.

Lemma histogram_perm hist l l' : l ≡ₚ l' -> histogram hist l -> histogram hist l'.
Proof.
  intros Hp (Hn & Hl & Hh). split; [done|]. split; [by rewrite <- Hp|]. intros b Hb. by rewrite <- Hp, Hh.
Qed.

Lemma merge_spec workers samples hist l :
  Forall2 histogram workers samples -> histogram hist l -> zlen l + zlen (concat samples) <= UINT64_MAX ->
  exists hist', merge_histograms workers hist = Ok hist' /\ histogram hist' (l ++ concat samples).
Proof.
  intros Hw. revert hist l. induction Hw as [|w s workers samples Hws _ IH]; intros hist l Hh Hm; cbn [merge_histograms concat].
  { rewrite app_nil_r. eauto. }
  cbn [concat] in Hm. rewrite length_app in Hm.
  destruct (add_histogram_spec hist w l s Hh Hws ltac:(lia)) as (h1 & -> & H1). rewrite run_bind_Ok.
  destruct (IH h1 (l ++ s) H1) as (h2 & E & H2); [rewrite length_app; lia|]. exists h2. split; [done|].
  by rewrite app_assoc.
Qed.
