(* ===== verification/PerfPacer.v ===== *)
(** * The load generator's pacer (bin/perf_pacer.h)

    A fixed-rate schedule shared by workers: slot [s] is due [s] periods after
    the start, worker [i] of [n] owns the slots congruent to [i] modulo [n], and
    a late worker skips the slots it missed. *)

From stdpp Require Import sorting.
From S2P Require Import Prelude.
From S2P Require Import PerfLatency.

Definition NS : Z := 1000000000.

Record perf_pacer := mk_pacer {
  pc_start_ns : Z;
  pc_end_ns : Z;
  pc_target_rps : Z;
  pc_worker_count : Z;
  pc_worker_id : Z;
  pc_next_ordinal : Z;
  pc_skipped_slots : Z;
}.

Definition perf_pacer_init (pacer : option perf_pacer) (start_ns target_rps worker_count worker_id duration_ns : Z)
  : bool * option perf_pacer :=
  if is_null pacer || (target_rps =? 0) || (1000000 <? target_rps) || (worker_count =? 0) ||
     (worker_count <=? worker_id) || (duration_ns =? 0) || (UINT64_MAX -64 start_ns <? duration_ns)
  then (false, pacer)
  else (true, store pacer (mk_pacer start_ns (start_ns +64 duration_ns) target_rps worker_count worker_id 0 0)).

(** Unsigned division. *)
Definition udiv (a b : Z) : run Z := if b =? 0 then UB else Ok (a / b).

Definition with_next (next skipped : Z) (p : perf_pacer) : perf_pacer :=
  mk_pacer (pc_start_ns p) (pc_end_ns p) (pc_target_rps p) (pc_worker_count p) (pc_worker_id p) next skipped.

(** The ordinal of the first slot of the worker that is not yet past. *)
Definition desired_ordinal (p : perf_pacer) (now_ns : Z) : run Z :=
  let elapsed_ns := if pc_start_ns p <? now_ns then now_ns -64 pc_start_ns p else 0 in
  let current_slot := u64 (u128 (u128 (elapsed_ns * pc_target_rps p) + 999999999) / NS) in
  if pc_worker_id p <? current_slot
  then udiv ((current_slot -64 pc_worker_id p) +64 pc_worker_count p -64 1) (pc_worker_count p)
  else Ok 0.

Definition skip_to (desired : Z) (p : perf_pacer) : perf_pacer :=
  if pc_next_ordinal p <? desired
  then with_next desired (pc_skipped_slots p +64 (desired -64 pc_next_ordinal p)) p
  else p.

Definition perf_pacer_next (pacer : option perf_pacer) (now_ns : Z) (due_ns : option Z)
  : run (bool * option perf_pacer * option Z) :=
  match pacer, due_ns with
  | Some p, Some _ =>
      if pc_end_ns p <=? now_ns then Ok (false, pacer, due_ns) else
      desired ← desired_ordinal p now_ns;
      let p := skip_to desired p in
      let slot := pc_worker_id p +64 (pc_next_ordinal p *64 pc_worker_count p) in
      offset ← udiv (u128 (slot * NS)) (pc_target_rps p);
      let offset_ns := u64 offset in
      if pc_end_ns p -64 pc_start_ns p <=? offset_ns then Ok (false, Some p, due_ns) else
      Ok (true, Some (with_next (pc_next_ordinal p +64 1) (pc_skipped_slots p) p),
          Some (pc_start_ns p +64 offset_ns))
  | _, _ => Ok (false, pacer, due_ns)
  end.

(** ** The schedule *)
Definition own (p : perf_pacer) (k : Z) : Z := pc_worker_id p + k * pc_worker_count p.
Definition due_at (p : perf_pacer) (slot : Z) : Z := pc_start_ns p + slot * NS / pc_target_rps p.
Definition duration (p : perf_pacer) : Z := pc_end_ns p - pc_start_ns p.

(** The parameters leave room for one more round of slots below [2 ^ 64]. *)
Definition fits (p : perf_pacer) : Prop :=
  0 <= pc_start_ns p <= pc_end_ns p /\ pc_end_ns p <= UINT64_MAX /\
  1 <= pc_target_rps p <= 1000000 /\ 0 <= pc_worker_id p < pc_worker_count p /\
  duration p + (pc_worker_count p + 1) * NS <= UINT64_MAX.

(** Slots skipped and slots handed out make up the ordinals passed, the last
    of which was due before the end. *)
Definition pacing (p : perf_pacer) : Prop :=
  fits p /\ 0 <= pc_skipped_slots p <= pc_next_ordinal p /\
  (0 < pc_next_ordinal p -> due_at p (own p (pc_next_ordinal p - 1)) < pc_end_ns p).

Definition same_plan (p p' : perf_pacer) : Prop :=
  p' = with_next (pc_next_ordinal p') (pc_skipped_slots p') p.

Lemma due_at_lt p s s' : fits p -> s < s' -> due_at p s < due_at p s'.
Proof.
  intros (_ & _ & Hr & _) Hs. unfold due_at, NS in *.
  pose proof (Z.div_le_mono (s * 1000000000 + 1 * pc_target_rps p) (s' * 1000000000) (pc_target_rps p)) as H.
  rewrite Z.div_add in H by lia. lia.
Qed.

Lemma due_at_le p s s' : fits p -> s <= s' -> due_at p s <= due_at p s'.
Proof. intros H Hs. destruct (Z.eq_dec s s') as [->|]; [lia|]. pose proof (due_at_lt p s s' H). lia. Qed.

Lemma due_at_inj p s s' : fits p -> due_at p s = due_at p s' -> s = s'.
Proof.
  intros H E. destruct (Z.lt_trichotomy s s') as [Hs|[|Hs]]; [|done|]; pose proof (due_at_lt p _ _ H Hs); lia.
Qed.

(** The first slot that is not past. *)
Definition first_slot (p : perf_pacer) (now : Z) : Z :=
  (Z.max 0 (now - pc_start_ns p) * pc_target_rps p + 999999999) / NS.

Lemma first_slot_spec p now s : fits p -> 0 <= s -> first_slot p now <= s <-> now <= due_at p s.
Proof.
  intros (Hs & _ & Hr & _) H0. unfold first_slot, due_at, NS.
  set (e := Z.max 0 (now - pc_start_ns p)). pose proof (Z.div_mod (e * pc_target_rps p + 999999999) 1000000000 ltac:(lia)).
  pose proof (Z.mod_pos_bound (e * pc_target_rps p + 999999999) 1000000000 ltac:(lia)). split; intros Hc.
  - assert (e <= s * 1000000000 / pc_target_rps p) by (apply Z.div_le_lower_bound; nia). lia.
  - assert (e <= s * 1000000000 / pc_target_rps p) as He.
    { unfold e. apply Z.max_lub; [|lia]. apply Z.div_pos; lia. }
    pose proof (Z.mul_div_le (s * 1000000000) (pc_target_rps p) ltac:(lia)). nia.
Qed.

(** ** One call *)
Lemma desired_spec p now :
  fits p -> pc_start_ns p <= now < pc_end_ns p \/ 0 <= now < pc_start_ns p ->
  exists d, desired_ordinal p now = Ok d /\ 0 <= d /\ own p d < first_slot p now + pc_worker_count p /\
    (0 < d -> own p (d - 1) < first_slot p now) /\ first_slot p now <= own p d.
Proof.
  intros (Hs & He & Hr & Hw & Hf) Hn. unfold duration, NS in Hf. unfold desired_ordinal, own, first_slot.
  set (e := Z.max 0 (now - pc_start_ns p)).
  assert (0 <= e <= UINT64_MAX - (pc_worker_count p + 1) * NS) as Hel by (unfold e, NS; lia).
  assert ((if pc_start_ns p <? now then now -64 pc_start_ns p else 0) = e) as ->.
  { unfold e. destruct (Z.ltb_spec (pc_start_ns p) now); [unwrap|]; lia. }
  assert (0 <= e * pc_target_rps p <= UINT64_MAX * 1000000) as Hp by nia.
  unfold u128. rewrite (Z.mod_small (e * pc_target_rps p)), Z.mod_small
    by (change (2 ^ 128) with (UINT64_MAX * UINT64_MAX + 2 * UINT64_MAX + 1); lia).
  set (c := (e * pc_target_rps p + 999999999) / NS).
  assert (0 <= c /\ c * 1000 <= UINT64_MAX - (pc_worker_count p + 1) * NS + 1000) as Hc.
  { pose proof (Z.mul_div_le (e * pc_target_rps p + 999999999) NS ltac:(done)). fold c in H.
    split; [apply Z.div_pos; unfold NS; lia|]. unfold NS in *. nia. }
  unfold NS in Hc. unwrap. destruct (Z.ltb_spec (pc_worker_id p) c) as [Hlt|Hge].
  - unwrap. unfold udiv. rewrite (proj2 (Z.eqb_neq _ _)) by lia.
    set (d := (c - pc_worker_id p + pc_worker_count p - 1) / pc_worker_count p). exists d. split; [done|].
    pose proof (Z.div_mod (c - pc_worker_id p + pc_worker_count p - 1) (pc_worker_count p) ltac:(lia)) as Hd.
    pose proof (Z.mod_pos_bound (c - pc_worker_id p + pc_worker_count p - 1) (pc_worker_count p) ltac:(lia)).
    fold d in Hd. assert (0 < d) by (apply Z.div_str_pos; lia). repeat split; [lia|nia|intros _; nia|nia].
  - exists 0. repeat split; lia.
Qed.

(** The ordinal handed out next: the first of the worker's own, from the one
    recorded on, whose slot is not past. *)
Definition next_own (p : perf_pacer) (now k : Z) : Prop :=
  pc_next_ordinal p <= k /\ now <= due_at p (own p k) /\
  (forall j, pc_next_ordinal p <= j < k -> due_at p (own p j) < now).

Lemma own_nonneg p k : fits p -> 0 <= k -> 0 <= own p k.
Proof. intros (_ & _ & _ & Hw & _) Hk. unfold own. nia. Qed.

Lemma own_lt p j k : fits p -> j < k -> own p j < own p k.
Proof. intros (_ & _ & _ & Hw & _) Hk. unfold own. nia. Qed.

Lemma own_inj p j k : fits p -> own p j = own p k -> j = k.
Proof.
  intros H E. destruct (Z.lt_trichotomy j k) as [Hs|[|Hs]]; [|done|]; pose proof (own_lt p _ _ H Hs); lia.
Qed.

(** A slot whose predecessor was due before the end is due within 64 bits. *)
Lemma offset_fits p k :
  fits p -> 0 <= k -> (0 < k -> due_at p (own p (k - 1)) < pc_end_ns p) ->
  0 <= own p k * NS / pc_target_rps p <= UINT64_MAX /\ own p k * 1000 <= UINT64_MAX /\ k <= own p k.
Proof.
  intros Hf Hk Hlast. pose proof Hf as (Hs & He & Hr & Hw & Hroom). pose proof (own_nonneg p k Hf Hk) as H0.
  assert (0 <= own p k * NS / pc_target_rps p <= UINT64_MAX) as Hofs.
  { split; [apply Z.div_pos; unfold NS; lia|]. destruct (Z.eq_dec k 0) as [->|Hne].
    - unfold own, duration, NS in *. apply Z.div_le_upper_bound; nia.
    - specialize (Hlast ltac:(lia)). unfold due_at, duration in *. set (s := own p (k - 1)) in *.
      replace (own p k) with (s + pc_worker_count p) by (unfold s, own; lia).
      assert (s * NS < (pc_end_ns p - pc_start_ns p) * pc_target_rps p) as Hsl.
      { apply Z.nle_gt. intros Hle. pose proof (Z.div_le_lower_bound (s * NS) (pc_target_rps p)
          (pc_end_ns p - pc_start_ns p) ltac:(lia) ltac:(lia)). lia. }
      apply Z.div_le_upper_bound; unfold NS in *; nia. }
  split; [done|]. split.
  - assert (own p k * 1000 <= own p k * NS / pc_target_rps p) by (apply Z.div_le_lower_bound; unfold NS in *; nia). lia.
  - unfold own. nia.
Qed.

Lemma skip_to_spec p now d :
  pacing p -> desired_ordinal p now = Ok d -> 0 <= now < pc_end_ns p ->
  exists k, next_own p now k /\
    skip_to d p = with_next k (pc_skipped_slots p + (k - pc_next_ordinal p)) p /\
    pacing (skip_to d p).
Proof.
  intros (Hf & Hsk & Hlast) Hd Hn. pose proof Hf as (Hs & He & Hr & Hw & Hroom).
  destruct (desired_spec p now Hf ltac:(lia)) as (d' & E & Hd0 & Hup & Hbef & Hreach). rewrite Hd in E. injection E as <-.
  unfold skip_to. destruct (Z.ltb_spec (pc_next_ordinal p) d) as [Hlt|Hge].
  - exists d. pose proof (Hbef ltac:(lia)) as Hb.
    assert (forall j, 0 <= j < d -> due_at p (own p j) < now) as Hpast.
    { intros j Hj. apply Z.nle_gt. rewrite <- first_slot_spec by (done || (apply own_nonneg; done || lia)).
      destruct (Z.eq_dec j (d - 1)) as [->|]; [lia|]. pose proof (own_lt p j (d - 1) Hf ltac:(lia)). lia. }
    destruct (offset_fits p d Hf ltac:(lia)) as (_ & Hbig & Hdo).
    { intros _. specialize (Hpast (d - 1) ltac:(lia)). lia. }
    unwrap. split; [|split; [done|]].
    + split; [lia|]. split; [apply first_slot_spec; [done|by apply own_nonneg|done]|].
      intros j Hj. apply Hpast. lia.
    + split; [exact Hf|]. split; [cbn; lia|]. intros _. cbn. specialize (Hpast (d - 1) ltac:(lia)).
      unfold due_at, own in *. cbn. lia.
  - exists (pc_next_ordinal p). assert (now <= due_at p (own p (pc_next_ordinal p))) as Hk.
    { apply first_slot_spec; [done|apply own_nonneg; [done|lia]|].
      destruct (Z.eq_dec d (pc_next_ordinal p)) as [->|]; [done|].
      pose proof (own_lt p d (pc_next_ordinal p) Hf ltac:(lia)). lia. }
    split; [split; [lia|]; split; [done|lia]|]. split.
    { destruct p; unfold with_next; cbn. f_equal. lia. }
    by split.
Qed.

(** What one call does, whatever the clock says: hand out the first slot of the
    worker's own that is not past, or none when no such slot is left before the
    end. *)
Definition next_post (p : perf_pacer) (now due : Z) (b : bool) (p' : perf_pacer) (due' : Z) : Prop :=
  pacing p' /\ same_plan p p' /\ pc_next_ordinal p <= pc_next_ordinal p' /\
  pc_skipped_slots p' - pc_skipped_slots p + Z.b2z b = pc_next_ordinal p' - pc_next_ordinal p /\
  if b then
    exists k, next_own p now k /\ pc_next_ordinal p' = k + 1 /\ due' = due_at p (own p k) /\ due' < pc_end_ns p
  else
    due' = due /\ (pc_end_ns p <= now \/ forall k, next_own p now k -> pc_end_ns p <= due_at p (own p k)).

Lemma next_own_unique p now k k' : next_own p now k -> next_own p now k' -> k = k'.
Proof.
  intros (H1 & H2 & H3) (H1' & H2' & H3'). destruct (Z.lt_trichotomy k k') as [Hlt|[|Hlt]]; [|done|].
  - specialize (H3' k ltac:(lia)). lia.
  - specialize (H3 k' ltac:(lia)). lia.
Qed.

Lemma next_spec p now due :
  pacing p -> is_u64 now ->
  exists b p' due', perf_pacer_next (Some p) now (Some due) = Ok (b, Some p', Some due') /\
    next_post p now due b p' due'.
Proof.
  intros Hp Hn. pose proof Hp as (Hf & Hsk & _). pose proof Hf as (Hs & He & Hr & Hw & Hroom).
  unfold perf_pacer_next. destruct (Z.leb_spec (pc_end_ns p) now) as [Hend|Hend].
  { exists false, p, due. split; [done|]. split; [done|]. split; [by destruct p|]. cbn [Z.b2z].
    split; [lia|]. split; [lia|]. by split; [|left]. }
  destruct (desired_spec p now Hf) as (d & Ed & _); [rlia|]. rewrite Ed, run_bind_Ok.
  destruct (skip_to_spec p now d Hp Ed) as (k & Hk & Eq & Hp1); [rlia|].
  pose proof Hk as (Hk1 & Hk2 & Hk3). rewrite Eq in *. pose proof Hp1 as (_ & Hq & Hl).
  destruct (offset_fits p k Hf ltac:(lia) Hl) as (Hofs & Hbig & Hko).
  cbn [pc_worker_id pc_next_ordinal pc_worker_count pc_target_rps pc_end_ns pc_start_ns pc_skipped_slots with_next] in *.
  assert (pc_worker_id p +64 (k *64 pc_worker_count p) = own p k) as ->.
  { unfold own in Hbig |- *. assert (0 <= k * pc_worker_count p) by nia. by unwrap. }
  unfold udiv. rewrite (proj2 (Z.eqb_neq (pc_target_rps p) 0)), run_bind_Ok by lia.
  pose proof (own_nonneg p k Hf ltac:(lia)) as H0. unfold u128.
  rewrite (Z.mod_small (own p k * NS))
    by (change (2 ^ 128) with (UINT64_MAX * UINT64_MAX + 2 * UINT64_MAX + 1); unfold NS; lia).
  unwrap. destruct (Z.leb_spec (pc_end_ns p - pc_start_ns p) (own p k * NS / pc_target_rps p)) as [Hlate|Hin].
  - eexists false, _, due. split; [done|]. split; [done|]. split; [by destruct p|]. cbn. split; [lia|].
    split; [lia|]. split; [done|]. right. intros k' Hk'. rewrite (next_own_unique p now k' k Hk' Hk). unfold due_at. lia.
  - unwrap. eexists true, _, _. split; [done|]. split.
    { split; [exact Hf|]. cbn. split; [lia|]. intros _.
      replace (k + 1 - 1) with k by lia. unfold due_at, own in *. cbn. lia. }
    split; [by destruct p|]. cbn. split; [lia|]. split; [lia|]. exists k. split; [done|]. split; [done|].
    unfold due_at. lia.
Qed.

Lemma pacer_init_spec old start rps n i dur :
  is_u64 start -> 0 <= rps -> 0 <= i -> 0 <= n -> 0 <= dur ->
  perf_pacer_init (Some old) start rps n i dur =
    if bool_decide (1 <= rps <= 1000000 /\ i < n /\ 1 <= dur /\ start + dur <= UINT64_MAX)
    then (true, Some (mk_pacer start (start + dur) rps n i 0 0)) else (false, Some old).
Proof.
  intros Hs Hr Hi Hn Hd. unfold perf_pacer_init. cbn [is_null orb store fmap option_fmap option_map]. unwrap.
  case_bool_decide as Hb.
  - replace (_ || _) with false; [by unwrap|]. symmetry. rewrite !orb_false_iff, !Z.eqb_neq, !Z.ltb_ge, Z.leb_gt.
    rlia.
  - replace (_ || _) with true; [done|]. symmetry. rewrite !orb_true_iff, !Z.eqb_eq, !Z.ltb_lt, Z.leb_le. rlia.
Qed.

(** ** A worker, and all of them *)

(** The due times a worker is given at successive readings of the clock, until
    the pacer tells it to stop. *)
Fixpoint paced (clocks : list Z) (p : perf_pacer) : run (list Z * perf_pacer) :=
  match clocks with
  | [] => Ok ([], p)
  | now :: rest =>
      r ← perf_pacer_next (Some p) now (Some 0);
      let '(b, p, due) := r in
      p ← deref p; due ← deref due;
      if (b : bool) then (q ← paced rest p; Ok (due :: fst q, snd q)) else Ok ([], p)
  end.

(** The worker's slots [ks]: increasing, each due when or after it is handed
    out and before the end. *)
Definition paced_post (p : perf_pacer) (clocks ks : list Z) (p' : perf_pacer) : Prop :=
  pacing p' /\ same_plan p p' /\ pc_next_ordinal p <= pc_next_ordinal p' /\ StronglySorted Z.lt ks /\
  Forall (fun k => pc_next_ordinal p <= k < pc_next_ordinal p' /\ due_at p (own p k) < pc_end_ns p) ks /\
  (exists handed left, clocks = handed ++ left /\
     Forall2 (fun now k => now <= due_at p (own p k)) handed ks) /\
  pc_skipped_slots p' - pc_skipped_slots p + zlen ks = pc_next_ordinal p' - pc_next_ordinal p.

Lemma same_plan_eq p p' : same_plan p p' ->
  (forall k, own p' k = own p k) /\ (forall s, due_at p' s = due_at p s) /\ pc_end_ns p' = pc_end_ns p.
Proof. unfold same_plan, own, due_at. destruct p, p'. cbn. by intros [= -> -> -> -> ->]. Qed.

Lemma paced_spec clocks p :
  pacing p -> Forall is_u64 clocks ->
  exists ks p', paced clocks p = Ok (map (fun k => due_at p (own p k)) ks, p') /\ paced_post p clocks ks p'.
Proof.
  revert p. induction clocks as [|now rest IH]; intros p Hp Hc; cbn [paced].
  { exists [], p. split; [done|]. split; [done|]. split; [by destruct p|]. split; [done|]. split; [constructor|].
    split; [constructor|]. split; [|cbn; lia]. exists [], []. by split. }
  apply Forall_cons in Hc as [Hn Hc]. destruct (next_spec p now 0 Hp Hn) as (b & p1 & due & -> & H1).
  rewrite run_bind_Ok. cbn [deref of_option]. rewrite !run_bind_Ok.
  destruct H1 as (Hp1 & Hs1 & Hle & Hcnt & Hb). destruct b.
  - destruct Hb as (k & (Hk1 & Hk2 & _) & Hk & -> & Hend). destruct (same_plan_eq p p1 Hs1) as (Eo & Ed & Ee).
    destruct (IH p1 Hp1 Hc) as (ks & p2 & -> & Hp2 & Hs2 & Hle2 & Hst & Hks & (h & l & -> & Hh) & Hc2).
    rewrite run_bind_Ok. exists (k :: ks), p2. cbn [fst snd map]. split.
    { do 2 f_equal. f_equal. apply map_ext. intros j. by rewrite Ed, Eo. }
    split; [done|]. split; [unfold same_plan in *; rewrite Hs2, Hs1; by destruct p|].
    split; [lia|]. split.
    { constructor; [done|]. eapply Forall_impl; [exact Hks|]. cbn. lia. }
    split.
    { constructor; [lia|]. eapply Forall_impl; [exact Hks|]. cbn. intros j Hj. rewrite Ed, Eo, Ee in Hj. lia. }
    split; [|cbn [length Z.b2z] in *; lia]. exists (now :: h), l. split; [done|]. constructor; [done|].
    eapply Forall2_impl; [exact Hh|]. cbn. intros a j. by rewrite Ed, Eo.
  - exists [], p1. split; [done|]. split; [done|]. split; [done|]. split; [done|]. split; [constructor|]. split; [constructor|].
    split; [|cbn in *; lia]. exists [], (now :: rest). by split.
Qed.

(** Worker [i] and those after it, of [n], each with its own clock readings. *)
Fixpoint crew (start rps n dur i : Z) (clocks : list (list Z)) : run (list (list Z)) :=
  match clocks with
  | [] => Ok []
  | c :: rest =>
      let '(ok, p) := perf_pacer_init (Some (mk_pacer 0 0 0 0 0 0 0)) start rps n i dur in
      if negb ok then UB else
      p ← deref p; q ← paced c p; ds ← crew start rps n dur (i + 1) rest; Ok (fst q :: ds)
  end.

Definition planned (rps secs : Z) : Z := rps * secs.

(** The slots of the crew. *)
Definition at_slot (start rps slot : Z) : Z := start + slot * NS / rps.

Definition shares (start rps n dur i : Z) (clocks dues slots : list (list Z)) : Prop :=
  dues = map (map (at_slot start rps)) slots /\
  Forall (StronglySorted Z.lt) slots /\
  Forall2 (fun c ds => exists handed left, c = handed ++ left /\ Forall2 Z.le handed ds) clocks dues /\
  (forall j ss s, slots !! j = Some ss -> s ∈ ss ->
     0 <= s /\ s mod n = i + Z.of_nat j /\ at_slot start rps s < start + dur).

Lemma crew_spec start rps n dur clocks i :
  is_u64 start -> 1 <= rps <= 1000000 -> 0 <= i -> i + zlen clocks = n -> 1 <= dur ->
  start + dur <= UINT64_MAX -> dur + (n + 1) * NS <= UINT64_MAX -> Forall (Forall is_u64) clocks ->
  exists dues slots, crew start rps n dur i clocks = Ok dues /\ shares start rps n dur i clocks dues slots.
Proof.
  intros Hst Hr Hi Hn Hd Hend Hroom Hc. revert i Hi Hn.
  induction clocks as [|c rest IH]; intros i Hi Hn; cbn [crew length] in *.
  { exists [], []. split; [done|]. split; [done|]. split; [constructor|]. split; [constructor|]. by intros ? ? ? ?. }
  apply Forall_cons in Hc as [Hc Hcs]. rewrite pacer_init_spec by (done || lia). rewrite bool_decide_eq_true_2 by lia. cbn [negb deref of_option].
  set (p := mk_pacer start (start + dur) rps n i 0 0).
  assert (fits p) as Hf by (unfold fits, duration, p; cbn; rlia).
  assert (pacing p) as Hp by (split; [done|]; split; cbn; lia).
  rewrite run_bind_Ok. destruct (paced_spec c p Hp Hc) as (ks & p' & -> & _ & _ & _ & Hks & Hin & (h & l & -> & Hh) & _).
  rewrite run_bind_Ok. destruct (IH Hcs (i + 1) ltac:(lia) ltac:(lia)) as (ds & ss & -> & E & Hss & Hds & Hall).
  rewrite run_bind_Ok. cbn [fst]. eexists _, (map (own p) ks :: ss). split; [done|]. split; [|split; [|split]].
  - rewrite E. cbn [map]. f_equal. rewrite map_map. done.
  - constructor; [|done]. clear -Hks Hf. induction Hks as [|k ks _ IH Hk]; cbn [map]; constructor; [done|].
    apply Forall_map. eapply Forall_impl; [exact Hk|]. intros j. by apply own_lt.
  - constructor; [|done]. exists h, l. split; [done|]. apply Forall2_fmap_r. exact Hh.
  - intros [|j] sl s Hsl Hs; cbn in Hsl.
    + injection Hsl as <-. apply list_elem_of_fmap in Hs as (k & -> & Hk).
      rewrite Forall_forall in Hin. destruct (Hin k Hk) as [Hk0 Hk1]. cbn in Hk0. split; [apply own_nonneg; [done|lia]|].
      split; [|exact Hk1]. unfold own, p. cbn. rewrite Z.mod_add, Z.mod_small by lia. lia.
    + destruct (Hall j sl s Hsl Hs) as (? & ? & ?). lia.
Qed.

Lemma StronglySorted_lt_NoDup l : StronglySorted Z.lt l -> NoDup l.
Proof.
  induction 1 as [|x l _ IH Hx]; constructor; [|done]. intros Hin. rewrite Forall_forall in Hx. specialize (Hx x Hin). lia.
Qed.

(** Lists in distinct residue classes. *)
Lemma residues_NoDup (slots : list (list Z)) n i :
  Forall (@NoDup Z) slots ->
  (forall j ss s, slots !! j = Some ss -> s ∈ ss -> s mod n = i + Z.of_nat j) -> NoDup (concat slots).
Proof.
  intros Hnd. revert i. induction Hnd as [|ss rest Hs _ IH]; intros i Hm; cbn [concat]; [constructor|].
  apply NoDup_app. split; [done|]. split.
  - intros s Hs1 Hs2. apply list_elem_of_In, in_concat in Hs2 as (tt' & Ht & Hs2).
    apply list_elem_of_In, list_elem_of_lookup in Ht as [j Hj].
    pose proof (Hm 0%nat ss s eq_refl Hs1). pose proof (Hm (S j) tt' s Hj (proj2 (list_elem_of_In _ _) Hs2)). lia.
  - apply (IH (i + 1)). intros j tt' s Hj Hin. rewrite (Hm (S j) tt' s Hj Hin). lia.
Qed.

Lemma slot_planned start rps secs s :
  1 <= rps -> at_slot start rps s < start + secs * NS -> s < planned rps secs.
Proof.
  intros Hr H. unfold at_slot, planned in *. apply Z.nle_gt. intros Hle.
  assert (secs * NS <= s * NS / rps); [|lia]. apply Z.div_le_lower_bound; unfold NS; nia.
Qed.

Lemma bounded_NoDup (l : list Z) m : NoDup l -> (forall x, x ∈ l -> 0 <= x < m) -> zlen l <= Z.max 0 m.
Proof.
  intros Hnd Hl. assert (l ⊆+ seqZ 0 m) as Hs.
  { apply NoDup_submseteq; [done|]. intros x Hx. apply elem_of_seqZ. specialize (Hl x Hx). lia. }
  apply submseteq_length in Hs. rewrite length_seqZ in Hs. lia.
Qed.
