(* ===== verification/Perf.v ===== *)
(** * The load generator: workload, traffic counters and arguments

    bin/perf_workload.h and the pure parts of bin/perf_client.c.  What the
    program prints is left out. *)

From Stdlib Require Import String Ascii.
From S2P Require Import Prelude.
From S2P Require Import Types.
From S2P Require Import Wire.
From S2P Require Import Crypto.
From S2P Require Import Workflow.
From S2P Require Import State.
From S2P Require Import Client.
From S2P Require Import Runtime.
From S2P Require Import PerfLatency.
From S2P Require Import PerfPacer.

(** ** Workload *)
Inductive perf_outcome : Type :=
| PERF_OUTCOME_ERROR
| PERF_OUTCOME_GRANTED
| PERF_OUTCOME_DENIED.

#[export] Instance perf_outcome_eq_dec : EqDecision perf_outcome.
Proof. solve_decision. Defined.

Definition perf_request_outcome (status : Z) (result : option r_rate_limit_result) : perf_outcome :=
  match result with
  | Some r =>
      if negb (status =? RCLIENT_OK) then PERF_OUTCOME_ERROR else
      if rl_success r then PERF_OUTCOME_GRANTED else PERF_OUTCOME_DENIED
  | None => PERF_OUTCOME_ERROR
  end.

(** [snprintf (out + off, room, "%s", text)]: what fits and a NUL; the length
    of the whole text. *)
Definition snprintf_at (out : list Z) (off room : Z) (text : list Z) : run (Z * list Z) :=
  if room =? 0 then Ok (zlen text, out) else
  out ← wr out off (take (Z.to_nat (room - 1)) text ++ [0]);
  Ok (zlen text, out).

Definition perf_bucket_name (out : option (list Z)) (out_len : Z) (prefix : option (list Z)) (client_id : Z)
    (shared : bool) : run (bool * option (list Z)) :=
  match out, prefix with
  | Some o, Some p =>
      if out_len =? 0 then Ok (false, out) else
      c ← rd p 0;
      if c =? 0 then Ok (false, out) else
      prefix_len ← strlen p;
      if out_len <=? prefix_len then Ok (false, out) else
      src ← rd_bytes p 0 (prefix_len + 1);
      o ← wr o 0 src;
      if shared then Ok (true, Some o) else
      w ← snprintf_at o prefix_len (out_len - prefix_len) (cbytes "_" ++ dec_u64 client_id);
      let '(written, o) := w in
      Ok (written <? out_len - prefix_len, Some o)
  | _, _ => Ok (false, out)
  end.

(** ** Names *)
Definition perf_auth_label (auth_type : Z) : list Z :=
  if auth_type =? R_AUTH_COOKIE then cstr "Cookie" else
  if auth_type =? R_AUTH_AES_GCM then cstr "AES" else cstr "Unknown".

Definition perf_err_str (status : Z) : list Z :=
  if status =? RCLIENT_OK then cstr "ok" else
  if status =? RCLIENT_ERR_IO then cstr "io error" else
  if status =? RCLIENT_ERR_TIMEOUT then cstr "timeout" else
  if status =? RCLIENT_ERR_PROTOCOL then cstr "protocol error" else
  if status =? RCLIENT_ERR_AUTH then cstr "auth error" else
  if status =? RCLIENT_ERR_DNS then cstr "dns error" else
  if status =? RCLIENT_ERR_CONFIG then cstr "config error" else
  if status =? RCLIENT_ERR_NOMEM then cstr "out of memory" else
  cstr "unknown".

(** The type and key id of a key, when it is one. *)
Definition perf_parse_auth_bech32 (mem : allocs) (auth_bech32 : option (list Z)) : run (option (Z * Z)) :=
  match auth_bech32 with
  | None => Ok None
  | Some _ =>
      r ← r_client_parse_auth_key mem auth_bech32 (Some key_info_zero);
      let '(rc, info) := r in
      if negb (rc =? RCLIENT_OK) then Ok None else
      info ← deref info;
      Ok (Some (ki_type info, ki_key_id info))
  end.

(** ** Traffic counters *)
Record traffic_direction := mk_direction { td_datagrams : Z; td_payload_bytes : Z; td_ip_bytes : Z }.
Record perf_traffic := mk_traffic {
  tr_sent : traffic_direction;
  tr_received : traffic_direction;
  tr_send_failures : Z;
  tr_incomplete : bool;
}.
Definition direction_zero : traffic_direction := mk_direction 0 0 0.
Definition traffic_zero : perf_traffic := mk_traffic direction_zero direction_zero 0 false.

(** [*counter] and [*incomplete]. *)
Definition perf_traffic_add (counter bytes : Z) (incomplete : bool) : Z * bool :=
  if UINT64_MAX -64 counter <? bytes then (UINT64_MAX, true) else (counter +64 bytes, incomplete).

Definition add_direction (d : traffic_direction) (datagrams payload : Z) (ip : list Z) (incomplete : bool)
  : traffic_direction * bool :=
  let '(n, incomplete) := perf_traffic_add (td_datagrams d) datagrams incomplete in
  let '(p, incomplete) := perf_traffic_add (td_payload_bytes d) payload incomplete in
  let '(i, incomplete) :=
    foldl (fun st bytes => perf_traffic_add (fst st) bytes (snd st)) (td_ip_bytes d, incomplete) ip in
  (mk_direction n p i, incomplete).

(** The headers of a datagram to or from a peer: of IPv4 for an IPv6 address
    that stands for an IPv4 one. *)
Definition is_v4_mapped (sa : list Z) : run bool :=
  a ← rd_bytes sa 8 16;
  Ok (bool_decide (take 12 a = replicate 10 0 ++ [255; 255])).

Definition ip_overhead (peer : r_addr) : run (option Z) :=
  family ← SA_FAMILY peer;
  if (family =? AF_INET) && (SOCKADDR_IN_SIZE <=? ad_len peer) then Ok (Some 28) else
  if (family =? AF_INET6) && (SOCKADDR_IN6_SIZE <=? ad_len peer) then
    mapped ← is_v4_mapped (ad_sa peer);
    Ok (Some (if (mapped : bool) then 28 else 48))
  else Ok None.

Definition perf_record_traffic (traffic : perf_traffic) (sent : bool) (peer : r_addr) (payload_bytes : Z)
  : run perf_traffic :=
  overhead ← ip_overhead peer;
  match overhead with
  | None => Ok (mk_traffic (tr_sent traffic) (tr_received traffic) (tr_send_failures traffic) true)
  | Some overhead =>
      let '(d, incomplete) :=
        add_direction (if sent then tr_sent traffic else tr_received traffic) 1 payload_bytes
          [payload_bytes; overhead] (tr_incomplete traffic) in
      Ok (if sent then mk_traffic d (tr_received traffic) (tr_send_failures traffic) incomplete
          else mk_traffic (tr_sent traffic) d (tr_send_failures traffic) incomplete)
  end.

Definition merge_direction (total worker : traffic_direction) (incomplete : bool) : traffic_direction * bool :=
  add_direction total (td_datagrams worker) (td_payload_bytes worker) [td_ip_bytes worker] incomplete.

Definition perf_traffic_merge (total worker : perf_traffic) : perf_traffic :=
  let '(s, incomplete) :=
    merge_direction (tr_sent total) (tr_sent worker) (tr_incomplete total || tr_incomplete worker) in
  let '(r, incomplete) := merge_direction (tr_received total) (tr_received worker) incomplete in
  let '(f, incomplete) := perf_traffic_add (tr_send_failures total) (tr_send_failures worker) incomplete in
  mk_traffic s r f incomplete.

(** ** Arguments

    An argument is its block from its first character on. *)

(** What follows [name] in a text that starts with it. *)
Fixpoint after_prefix (name text : list Z) : run (option (list Z)) :=
  match name, text with
  | [], _ => Ok (Some text)
  | _, [] => UB
  | c :: name', d :: text' => if c =? d then after_prefix name' text' else Ok None
  end.

(** The arguments after [argv[0]]. *)
Fixpoint perf_find_arg (args : list (list Z)) (name : list Z) : run (option (list Z)) :=
  match args with
  | [] => Ok None
  | arg :: rest =>
      s ← after_prefix name arg;
      match s with
      | None => perf_find_arg rest name
      | Some suffix =>
          c ← rd suffix 0;
          if c =? chr "=" then Ok (Some (drop 1 suffix)) else
          match rest with
          | value :: _ => if c =? 0 then Ok (Some value) else perf_find_arg rest name
          | [] => Ok None
          end
      end
  end.

Fixpoint perf_has_flag (args : list (list Z)) (name : list Z) : run bool :=
  match args with
  | [] => Ok false
  | arg :: rest => same ← str_eq arg (name ++ [0]); if (same : bool) then Ok true else perf_has_flag rest name
  end.

(** [strtoull] is [strtoul10]: both types have 64 bits. *)
Definition perf_parse_u64 (value : option (list Z)) (fallback : Z) : run Z :=
  match value with
  | None => Ok fallback
  | Some text =>
      c ← rd text 0;
      if c =? 0 then Ok fallback else
      p ← strtoul10 text;
      let '(out, stop, errno) := p in
      Ok (if stop =? 0 then fallback else out)
  end.

Definition perf_parse_positive_u64 (value : option (list Z)) : run (option Z) :=
  match value with
  | None => Ok None
  | Some text =>
      c ← rd text 0;
      if (c =? 0) || (c =? chr "-") then Ok None else
      p ← strtoul10 text;
      let '(parsed, stop, errno) := p in
      if negb (errno =? 0) || (stop =? 0) then Ok None else
      c ← rd text stop;
      Ok (if negb (c =? 0) || (parsed =? 0) then None else Some parsed)
  end.

Record perf_config := mk_perf_config {
  pf_srv_domain : option (list Z);
  pf_auth_bech32 : option (list Z);
  pf_auth_type : Z;
  pf_tenant_id : Z;
  pf_concurrent_clients : Z;
  pf_requests_per_client : Z;
  pf_has_duration : bool;
  pf_duration_secs : Z;
  pf_target_rps : Z;
  pf_paced_start_ns : Z;
  pf_bucket_prefix : list Z;
  pf_rate_limit : Z;
  pf_shared_bucket : bool;
  pf_unit_ms : Z;
  pf_replay_count : Z;
  pf_ignore_steering : bool;
  pf_debug_steering : bool;
}.

(** [exit (2)] ends the reading of the arguments. *)
Definition exits (A : Type) : Type := flow A Z.
Definition exit {A} (code : Z) : run (exits A) := Ok (Return code).
Definition then_args {A B} (m : run (exits A)) (k : A -> run (exits B)) : run (exits B) :=
  f ← m; match f with Next a => k a | Return code => Ok (Return code) end.

(** [--target-rps] and the strict limits that come with it: the rate and the
    duration, or 0 and the duration so far. *)
Definition paced_args (args : list (list Z)) (clients duration : option (list Z)) (has_duration : bool)
    (concurrent_clients duration_secs : Z) : run (exits (Z * Z)) :=
  target_rps ← perf_find_arg args (cbytes "--target-rps");
  match target_rps with
  | None =>
      bare ← perf_has_flag args (cbytes "--target-rps");
      if (bare : bool) then exit 2 else Ok (Next (0, duration_secs))
  | Some _ =>
      rps ← perf_parse_positive_u64 target_rps;
      match rps with
      | None => exit 2
      | Some rps =>
          if (1000000 <? rps) || negb has_duration then exit 2 else
          strict_duration ← perf_parse_positive_u64 duration;
          match strict_duration with
          | None => exit 2
          | Some strict_duration =>
              if 86400 <? strict_duration then exit 2 else
              strict_clients ← (match clients with None => Ok (Some 0) | Some _ => perf_parse_positive_u64 clients end);
              match strict_clients with
              | None => exit 2
              | Some strict_clients =>
                  if (negb (is_null clients) && (1024 <? strict_clients)) || (concurrent_clients =? 0)
                  then exit 2 else Ok (Next (rps, strict_duration))
              end
          end
      end
  end.

Definition rate_limit_arg (args : list (list Z)) : run (exits Z) :=
  rate_limit ← perf_find_arg args (cbytes "--rate-limit");
  match rate_limit with
  | None =>
      bare ← perf_has_flag args (cbytes "--rate-limit");
      if (bare : bool) then exit 2 else Ok (Next 10000)
  | Some _ =>
      parsed ← perf_parse_positive_u64 rate_limit;
      match parsed with
      | None => exit 2
      | Some parsed => if UINT32_MAX <? parsed then exit 2 else Ok (Next (u32 parsed))
      end
  end.

(** The credential's type and key id. *)
Definition auth_arg (mem : allocs) (auth : option (list Z)) : run (exits (Z * Z)) :=
  match auth with
  | None => exit 2
  | Some _ =>
      info ← perf_parse_auth_bech32 mem auth;
      match info with None => exit 2 | Some info => Ok (Next info) end
  end.

Definition perf_config_from_args (mem : allocs) (args : list (list Z)) : run (exits perf_config) :=
  srv ← perf_find_arg args (cbytes "--srv");
  clients ← perf_find_arg args (cbytes "--clients");
  concurrent_clients ← perf_parse_u64 clients 10;
  requests ← perf_find_arg args (cbytes "--requests");
  requests_per_client ← perf_parse_u64 requests 1000;
  duration ← perf_find_arg args (cbytes "--duration");
  let has_duration := negb (is_null duration) in
  duration_secs ← perf_parse_u64 duration 0;
  then_args (paced_args args clients duration has_duration concurrent_clients duration_secs) (fun pace =>
  let '(target_rps, duration_secs) := pace in
  then_args (rate_limit_arg args) (fun rate_limit =>
  shared_bucket ← perf_has_flag args (cbytes "--shared-bucket");
  auth ← perf_find_arg args (cbytes "--auth");
  then_args (auth_arg mem auth) (fun key =>
  bucket ← perf_find_arg args (cbytes "--bucket-prefix");
  unit_text ← perf_find_arg args (cbytes "--unit-ms");
  unit_ms ← perf_parse_u64 unit_text 20;
  replay_text ← perf_find_arg args (cbytes "--replay-count");
  replay_count ← perf_parse_u64 replay_text 1;
  ignore_steering ← perf_has_flag args (cbytes "--ignore-steering");
  debug_steering ← perf_has_flag args (cbytes "--debug-steering");
  Ok (Next (mk_perf_config srv auth (fst key) (snd key) concurrent_clients requests_per_client has_duration
              duration_secs target_rps 0 (default (cstr "perf_bucket") bucket) rate_limit shared_bucket
              unit_ms (u32 replay_count) ignore_steering debug_steering))))).

(** The schedule [main] gives its workers, [start_ns] after the clock it read. *)
Definition paced_start (start_ns : Z) : Z := start_ns +64 NS.
Definition paced_duration (c : perf_config) : Z := pf_duration_secs c *64 NS.
