(* ===== verification/PerfFacts.v ===== *)
(** * The load generator: facts on its workload, counters and arguments *)

From Stdlib Require Import String Ascii.
From S2P Require Import Prelude.
From S2P Require Import Types.
From S2P Require Import Wire.
From S2P Require Import WireFacts.
From S2P Require Import Crypto.
From S2P Require Import KeyFacts.
From S2P Require Import Workflow.
From S2P Require Import State.
From S2P Require Import DnsFacts.
From S2P Require Import Client.
From S2P Require Import Create.
From S2P Require Import Ids.
From S2P Require Import Runtime.
From S2P Require Import RuntimeFacts.
From S2P Require Import RuntimeConfig.
From S2P Require Import PerfLatency.
From S2P Require Import PerfPacer.
From S2P Require Import Perf.

(** ** Bucket names *)

(** The bucket of a worker: the prefix, and the worker's number unless the
    bucket is shared. *)
Definition bucket_text (prefix : list Z) (client_id : Z) (shared : bool) : list Z :=
  prefix ++ (if shared then [] else cbytes "_" ++ dec_u64 client_id).

Lemma bucket_name_spec out prefix rest id shared :
  0 ∉ prefix -> 0 < zlen out ->
  exists out', perf_bucket_name (Some out) (zlen out) (Some (prefix ++ 0 :: rest)) id shared =
    Ok (bool_decide (prefix <> [] /\ zlen (bucket_text prefix id shared) < zlen out), Some out') /\
    length out' = length out /\
    (prefix <> [] -> zlen (bucket_text prefix id shared) < zlen out ->
     exists rest', out' = bucket_text prefix id shared ++ 0 :: rest').
Proof.
  intros Hz Ho. unfold perf_bucket_name, bucket_text. rewrite (proj2 (Z.eqb_neq (zlen out) 0)) by lia.
  destruct prefix as [|c0 p].
  { exists out. cbn [app rd]. split; [|split; [done|done]]. rewrite bool_decide_false by naive_solver. done. }
  set (prefix := c0 :: p) in *. replace (rd (prefix ++ 0 :: rest) 0) with (Ok c0 : run Z) by done.
  rewrite run_bind_Ok, (proj2 (Z.eqb_neq c0 0)) by (unfold prefix in Hz; set_solver).
  rewrite strlen_text, run_bind_Ok by done. assert (prefix <> []) as Hne by done. clearbody prefix.
  destruct (Z.leb_spec (zlen out) (zlen prefix)) as [Hle|Hgt].
  { exists out. rewrite bool_decide_false; [|intros [_ Hx]; rewrite length_app in Hx; lia]. split; [done|]. split; [done|].
    intros _. rewrite length_app. lia. }
  replace (prefix ++ 0 :: rest) with ((prefix ++ [0]) ++ rest) by (by rewrite <- app_assoc).
  rewrite rd_bytes_prefix, run_bind_Ok by (done || (rewrite length_app; simpl; lia)).
  assert (exists post, wr out 0 (prefix ++ [0]) = Ok (prefix ++ 0 :: post) /\ length post = (length out - length prefix - 1)%nat) as (post & Ew & Hpost).
  { exists (drop (length prefix + 1) out). split; [|rewrite length_drop; lia].
    destruct (wr_defined out 0 (prefix ++ [0])) as [o1 H1]; [lia|rewrite length_app; simpl; lia|].
    rewrite H1. apply wr0_eq in H1 as ->. rewrite length_app, <- app_assoc. done. }
  rewrite Ew, run_bind_Ok. destruct shared.
  { exists (prefix ++ 0 :: post). rewrite app_nil_r, bool_decide_true by done. split; [done|].
    split; [rewrite length_app; simpl; lia|]. eauto. }
  set (num := cbytes "_" ++ dec_u64 id). unfold snprintf_at. rewrite (proj2 (Z.eqb_neq _ 0)) by lia.
  set (st := take (Z.to_nat (zlen out - zlen prefix - 1)) num ++ [0]).
  assert (zlen st <= zlen (0 :: post)) as Hst by (unfold st; rewrite length_app, length_take; cbn [length]; lia).
  assert (exists post', wr (prefix ++ 0 :: post) (zlen prefix) st = Ok (prefix ++ st ++ post')) as (post' & E2).
  { exists (drop (length st) (0 :: post)). rewrite <- (take_drop (length st) (0 :: post)) at 1.
    apply wr_app; [done|]. rewrite length_take. lia. }
  rewrite E2, !run_bind_Ok. pose proof (wr_Ok _ _ _ _ E2) as (_ & _ & Hl2). eexists. split.
  { do 2 f_equal. destruct (Z.ltb_spec (zlen num) (zlen out - zlen prefix)); symmetry.
    - apply bool_decide_true. split; [done|rewrite length_app; lia].
    - apply bool_decide_false. intros [_ Hx]. rewrite length_app in Hx. lia. }
  split; [rewrite Hl2, length_app; cbn [length]; lia|]. intros _ Hfit. rewrite length_app in Hfit. exists post'.
  unfold st. rewrite take_ge by lia. by rewrite <- !app_assoc.
Qed.

(** Workers with buckets of their own have different names. *)
Lemma bucket_text_inj prefix i j :
  is_u64 i -> is_u64 j -> bucket_text prefix i false = bucket_text prefix j false -> i = j.
Proof.
  intros Hi Hj E. unfold bucket_text in E. apply app_inv_head in E. apply app_inv_head in E.
  destruct (undec_digits 20 i []) as (a & Ea & <-); [unfold_ranges; change (10 ^ Z.of_nat 20) with 100000000000000000000; lia|].
  destruct (undec_digits 20 j []) as (b & Eb & <-); [unfold_ranges; change (10 ^ Z.of_nat 20) with 100000000000000000000; lia|].
  unfold dec_u64 in E. rewrite Ea, Eb, !app_nil_r in E. by rewrite E.
Qed.

(** ** Traffic counters

    The counters are the true totals cut off at [UINT64_MAX], and the warning
    flag tells exactly whether something was cut off or not counted. *)

(** Totals are kept in the same structure, unbounded; the flag says that a
    datagram had a peer of no known family. *)
Definition add_totals (a b : traffic_direction) : traffic_direction :=
  mk_direction (td_datagrams a + td_datagrams b) (td_payload_bytes a + td_payload_bytes b)
    (td_ip_bytes a + td_ip_bytes b).

Definition sum_traffic (a b : perf_traffic) : perf_traffic :=
  mk_traffic (add_totals (tr_sent a) (tr_sent b)) (add_totals (tr_received a) (tr_received b))
    (tr_send_failures a + tr_send_failures b) (tr_incomplete a || tr_incomplete b).

Definition cut (n : Z) : Z := Z.min UINT64_MAX n.
Definition cut_direction (d : traffic_direction) : traffic_direction :=
  mk_direction (cut (td_datagrams d)) (cut (td_payload_bytes d)) (cut (td_ip_bytes d)).
Definition too_many (d : traffic_direction) : bool :=
  (UINT64_MAX <? td_datagrams d) || (UINT64_MAX <? td_payload_bytes d) || (UINT64_MAX <? td_ip_bytes d).

Definition saturate (t : perf_traffic) : perf_traffic :=
  mk_traffic (cut_direction (tr_sent t)) (cut_direction (tr_received t)) (cut (tr_send_failures t))
    (tr_incomplete t || too_many (tr_sent t) || too_many (tr_received t) ||
     (UINT64_MAX <? tr_send_failures t)).

Definition direction_ok (d : traffic_direction) : Prop :=
  0 <= td_datagrams d /\ 0 <= td_payload_bytes d /\ 0 <= td_ip_bytes d.
Definition totals_ok (t : perf_traffic) : Prop :=
  direction_ok (tr_sent t) /\ direction_ok (tr_received t) /\ 0 <= tr_send_failures t.

Lemma traffic_add_spec c b inc :
  0 <= c -> 0 <= b ->
  perf_traffic_add (cut c) (cut b) inc = (cut (c + b), inc || (UINT64_MAX <? cut c + cut b)).
Proof.
  intros Hc Hb. unfold perf_traffic_add, cut.
  rewrite (u64_small (_ - _)) by rlia.
  destruct (Z.ltb_spec (UINT64_MAX - Z.min UINT64_MAX c) (Z.min UINT64_MAX b)).
  - rewrite (proj2 (Z.ltb_lt _ _)), orb_true_r by lia. f_equal. lia.
  - rewrite (proj2 (Z.ltb_ge _ _)), orb_false_r by lia. rewrite u64_small by rlia. f_equal. lia.
Qed.

Lemma cut_small n : n <= UINT64_MAX -> cut n = n.
Proof. unfold cut. lia. Qed.

Lemma traffic_add_raw c n inc :
  0 <= c -> 0 <= n <= UINT64_MAX ->
  perf_traffic_add (cut c) n inc = (cut (c + n), inc || (UINT64_MAX <? cut c + n)).
Proof. intros Hc Hn. pose proof (traffic_add_spec c n inc Hc ltac:(lia)) as H. by rewrite (cut_small n) in H by lia. Qed.

Lemma merge_direction_spec a b inc :
  direction_ok a -> direction_ok b -> (too_many a = true -> inc = true) -> (too_many b = true -> inc = true) ->
  merge_direction (cut_direction a) (cut_direction b) inc =
    (cut_direction (add_totals a b), inc || too_many (add_totals a b)).
Proof.
  intros (Ha1 & Ha2 & Ha3) (Hb1 & Hb2 & Hb3) Hia Hib. unfold merge_direction, add_direction, cut_direction.
  cbn [td_datagrams td_payload_bytes td_ip_bytes foldl fst snd].
  rewrite !traffic_add_spec by done. cbn [fst snd]. f_equal. unfold too_many in *. cbn [td_datagrams td_payload_bytes td_ip_bytes add_totals].
  destruct inc; [done|]. cbn [orb]. rewrite !orb_true_iff, !Z.ltb_lt in *. unfold cut.
  apply eq_true_iff_eq. rewrite !orb_true_iff, !Z.ltb_lt.
  assert (~ (UINT64_MAX < td_datagrams a \/ UINT64_MAX < td_payload_bytes a) /\ ~ UINT64_MAX < td_ip_bytes a) as [? ?] by naive_solver.
  assert (~ (UINT64_MAX < td_datagrams b \/ UINT64_MAX < td_payload_bytes b) /\ ~ UINT64_MAX < td_ip_bytes b) as [? ?] by naive_solver.
  lia.
Qed.

Lemma traffic_merge_spec a b :
  totals_ok a -> totals_ok b -> perf_traffic_merge (saturate a) (saturate b) = saturate (sum_traffic a b).
Proof.
  intros (Ha1 & Ha2 & Ha3) (Hb1 & Hb2 & Hb3). unfold perf_traffic_merge, saturate.
  cbn [tr_sent tr_received tr_send_failures tr_incomplete].
  rewrite merge_direction_spec; [|done|done|intros ->; by rewrite !orb_true_r|intros ->; by rewrite !orb_true_r].
  rewrite merge_direction_spec; [|done|done|intros ->; by rewrite !orb_true_r|intros ->; by rewrite !orb_true_r].
  rewrite traffic_add_spec by done. unfold sum_traffic. cbn [tr_sent tr_received tr_send_failures tr_incomplete].
  f_equal. apply eq_true_iff_eq. unfold too_many, add_totals, cut, direction_ok in *.
  cbn [td_datagrams td_payload_bytes td_ip_bytes]. rewrite !orb_true_iff, !Z.ltb_lt. intuition lia.
Qed.

(** What a worker counts: a datagram sent or received, or a send that failed. *)
Inductive traffic_event : Type :=
| Datagram (sent : bool) (peer : r_addr) (bytes : Z)
| SendFailure.

Definition event_ok (e : traffic_event) : Prop :=
  match e with Datagram _ peer bytes => wf_addr peer /\ 0 <= bytes <= UINT64_MAX | SendFailure => True end.

Definition count_event (t : perf_traffic) (e : traffic_event) : run perf_traffic :=
  match e with
  | Datagram sent peer bytes => perf_record_traffic t sent peer bytes
  | SendFailure =>
      let '(f, incomplete) := perf_traffic_add (tr_send_failures t) 1 (tr_incomplete t) in
      Ok (mk_traffic (tr_sent t) (tr_received t) f incomplete)
  end.

(** The headers of a datagram to or from a peer: 20 bytes of IP and 8 of UDP for
    IPv4, a v4-mapped IPv6 address included, 40 and 8 for IPv6, unknown
    otherwise.  The family is 2 or 10, in two bytes of a little-endian machine. *)
Definition peer_family (peer : r_addr) : Z := nth 0 (ad_sa peer) 0 + 256 * nth 1 (ad_sa peer) 0.
Definition stands_for_ipv4 (peer : r_addr) : Prop :=
  take 12 (drop 8 (ad_sa peer)) = [0; 0; 0; 0; 0; 0; 0; 0; 0; 0; 255; 255].
Definition peer_headers (peer : r_addr) : option Z :=
  if decide (peer_family peer = 2 /\ 16 <= ad_len peer) then Some (20 + 8)
  else if decide (peer_family peer = 10 /\ 28 <= ad_len peer) then
    if decide (stands_for_ipv4 peer) then Some (20 + 8) else Some (40 + 8)
  else None.

(** What an event adds to the totals. *)
Definition event_totals (e : traffic_event) : perf_traffic :=
  match e with
  | Datagram sent peer bytes =>
      match peer_headers peer with
      | Some headers =>
          let d := mk_direction 1 bytes (bytes + headers) in
          if sent then mk_traffic d direction_zero 0 false else mk_traffic direction_zero d 0 false
      | None => mk_traffic direction_zero direction_zero 0 true
      end
  | SendFailure => mk_traffic direction_zero direction_zero 1 false
  end.

Lemma sa_family_spec peer : wf_addr peer -> SA_FAMILY peer = Ok (peer_family peer).
Proof.
  intros (Hl & _ & _). unfold SOCKADDR_STORAGE_SIZE in Hl. unfold SA_FAMILY, peer_family.
  destruct (ad_sa peer) as [|x [|y l]]; [done|done|reflexivity].
Qed.

Lemma ip_overhead_spec peer : wf_addr peer -> ip_overhead peer = Ok (peer_headers peer).
Proof.
  intros Hp. unfold ip_overhead, peer_headers. rewrite sa_family_spec, run_bind_Ok by done.
  change AF_INET with 2. change AF_INET6 with 10. unfold SOCKADDR_IN_SIZE, SOCKADDR_IN6_SIZE.
  case_if; breflect; [by rewrite decide_True|]. rewrite decide_False by lia.
  case_if; breflect; [|by rewrite decide_False by lia]. rewrite decide_True by done.
  destruct Hp as (Hl & _ & _). unfold SOCKADDR_STORAGE_SIZE in Hl. unfold is_v4_mapped.
  rewrite rd_bytes_take_drop, !run_bind_Ok, take_take by lia.
  change (Nat.min 12 (Z.to_nat 16)) with 12%nat. change (Z.to_nat 8) with 8%nat. unfold stands_for_ipv4.
  by case_bool_decide; [rewrite decide_True|rewrite decide_False].
Qed.

Lemma peer_headers_cases peer : from_option (fun n => n = 28 \/ n = 48) True (peer_headers peer).
Proof. unfold peer_headers. repeat case_decide; cbn; auto. Qed.

Lemma ip_overhead_defined peer :
  wf_addr peer -> exists o, ip_overhead peer = Ok o /\ peer_headers peer = o /\ from_option (fun n => n = 28 \/ n = 48) True o.
Proof. intros Hp. eexists. split; [by apply ip_overhead_spec|]. split; [done|apply peer_headers_cases]. Qed.

Lemma event_totals_ok e : event_ok e -> totals_ok (event_totals e).
Proof.
  destruct e as [sent peer bytes|]; [|intros _; repeat split; cbn; lia]. intros [Hp Hb]. unfold event_totals.
  pose proof (peer_headers_cases peer) as Ho. destruct (peer_headers peer) as [o|]; [cbn in Ho|]; destruct sent; repeat split; cbn; lia.
Qed.

Lemma record_direction_spec d n o inc :
  direction_ok d -> 0 <= n <= UINT64_MAX -> 0 <= o <= UINT64_MAX -> (too_many d = true -> inc = true) ->
  add_direction (cut_direction d) 1 n [n; o] inc =
    (cut_direction (add_totals d (mk_direction 1 n (n + o))),
     inc || too_many (add_totals d (mk_direction 1 n (n + o)))).
Proof.
  intros (H1 & H2 & H3) Hn Ho Hi. unfold add_direction, cut_direction.
  cbn [td_datagrams td_payload_bytes td_ip_bytes foldl fst snd].
  rewrite !traffic_add_raw by lia. cbn [fst snd]. rewrite traffic_add_raw by lia.
  unfold add_totals. cbn [td_datagrams td_payload_bytes td_ip_bytes]. f_equal.
  - do 2 f_equal. lia.
  - unfold too_many in *. cbn [td_datagrams td_payload_bytes td_ip_bytes].
    destruct inc; [done|]. cbn [orb]. apply eq_true_iff_eq. rewrite !orb_true_iff, !Z.ltb_lt in *. unfold cut.
    assert (~ (UINT64_MAX < td_datagrams d \/ UINT64_MAX < td_payload_bytes d) /\ ~ UINT64_MAX < td_ip_bytes d) as [? ?] by naive_solver.
    lia.
Qed.

Lemma add_totals_zero d : add_totals d direction_zero = d.
Proof. destruct d. unfold add_totals, direction_zero. cbn. f_equal; lia. Qed.

Lemma count_event_spec t e :
  totals_ok t -> event_ok e -> count_event (saturate t) e = Ok (saturate (sum_traffic t (event_totals e))).
Proof.
  intros (H1 & H2 & H3). destruct e as [sent peer bytes|]; cbn [event_ok count_event event_totals].
  - intros [Hp Hb]. unfold perf_record_traffic. destruct (ip_overhead_defined peer Hp) as (o & -> & -> & Ho). rewrite run_bind_Ok.
    unfold saturate, sum_traffic. destruct o as [o|]; [cbn in Ho; destruct sent|];
      cbn [tr_sent tr_received tr_send_failures tr_incomplete]; rewrite ?add_totals_zero, ?Z.add_0_r, ?orb_false_r, ?orb_true_r;
      [..|done].
    + rewrite record_direction_spec; [|done|done|lia|intros ->; by rewrite !orb_true_r]. do 2 f_equal.
      apply eq_true_iff_eq. unfold too_many, add_totals, direction_ok in *. cbn. rewrite !orb_true_iff, !Z.ltb_lt. intuition lia.
    + rewrite record_direction_spec; [|done|done|lia|intros ->; by rewrite !orb_true_r]. do 2 f_equal.
      apply eq_true_iff_eq. unfold too_many, add_totals, direction_ok in *. cbn. rewrite !orb_true_iff, !Z.ltb_lt. intuition lia.
  - intros _. unfold saturate, sum_traffic. cbn [tr_sent tr_received tr_send_failures tr_incomplete].
    rewrite !add_totals_zero, orb_false_r. rewrite traffic_add_raw by lia.
    do 2 f_equal. apply eq_true_iff_eq. unfold cut. rewrite !orb_true_iff, !Z.ltb_lt. intuition lia.
Qed.

Fixpoint count_events (events : list traffic_event) (t : perf_traffic) : run perf_traffic :=
  match events with [] => Ok t | e :: rest => t ← count_event t e; count_events rest t end.

Definition total (events : list traffic_event) (t : perf_traffic) : perf_traffic :=
  foldl (fun t e => sum_traffic t (event_totals e)) t events.

Lemma sum_totals_ok a b : totals_ok a -> totals_ok b -> totals_ok (sum_traffic a b).
Proof. unfold totals_ok, direction_ok, sum_traffic, add_totals. cbn. lia. Qed.

Lemma count_events_spec events t :
  totals_ok t -> Forall event_ok events ->
  count_events events (saturate t) = Ok (saturate (total events t)) /\ totals_ok (total events t).
Proof.
  intros Ht He. revert t Ht. induction He as [|e events He _ IH]; intros t Ht; cbn [count_events total foldl]; [done|].
  rewrite count_event_spec, run_bind_Ok by done. apply IH. by apply sum_totals_ok, event_totals_ok.
Qed.

Lemma sum_traffic_assoc a b c : sum_traffic (sum_traffic a b) c = sum_traffic a (sum_traffic b c).
Proof. unfold sum_traffic, add_totals. cbn. f_equal; [f_equal; lia..|lia|apply eq_sym, orb_assoc]. Qed.

Lemma sum_traffic_zero_r t : sum_traffic t traffic_zero = t.
Proof.
  destruct t as [[] [] f i]. unfold sum_traffic, traffic_zero, add_totals, direction_zero. cbn.
  rewrite orb_false_r. f_equal; [f_equal; lia..|lia].
Qed.

Lemma total_from t events : total events t = sum_traffic t (total events traffic_zero).
Proof.
  revert t. induction events as [|e events IH]; intros t; cbn [total foldl]; [by rewrite sum_traffic_zero_r|].
  unfold total in IH. rewrite IH, (IH (sum_traffic traffic_zero _)). rewrite sum_traffic_assoc. f_equal.
Qed.

(** All workers' counters, merged by [main]. *)
Lemma merged_total workers t :
  totals_ok t -> Forall (Forall event_ok) workers ->
  foldl (fun t w => perf_traffic_merge t (saturate (total w traffic_zero))) (saturate t) workers =
    saturate (total (concat workers) t).
Proof.
  intros Ht Hw. revert t Ht. induction Hw as [|w workers Hw _ IH]; intros t Ht; cbn [foldl concat]; [done|].
  destruct (count_events_spec w traffic_zero ltac:(repeat split; cbn; lia) Hw) as [_ Hok].
  rewrite traffic_merge_spec, <- total_from by done. rewrite IH.
  - unfold total. by rewrite foldl_app.
  - rewrite total_from. by apply sum_totals_ok.
Qed.

(** ** Arguments *)

(** A command-line argument: a string of a sane length. *)
Definition arg_ok (a : list Z) : Prop := is_cstring a /\ zlen a <= 2 ^ 59.

Lemma after_prefix_spec name text :
  arg_ok text -> 0 ∉ name -> exists r, after_prefix name text = Ok r /\ from_option arg_ok True r.
Proof.
  revert text. induction name as [|c name IH]; intros text [[Hb Ht] Hl] Hn; [by exists (Some text)|].
  destruct text as [|d text]; [set_solver|]. cbn [after_prefix]. destruct (Z.eqb_spec c d) as [->|]; [|by exists None].
  apply IH; [|set_solver]. split; [split; [by inversion Hb|set_solver]|cbn [length] in Hl; lia].
Qed.

Lemma cstring_head a : arg_ok a -> exists c rest, a = c :: rest /\ (c <> 0 -> arg_ok rest).
Proof.
  intros [[Hb Ha] Hl]. destruct a as [|c a]; [set_solver|]. exists c, a. split; [done|]. intros Hc.
  split; [split; [by inversion Hb|set_solver]|cbn [length] in Hl; lia].
Qed.

Lemma find_arg_spec args name :
  Forall arg_ok args -> 0 ∉ name -> exists r, perf_find_arg args name = Ok r /\ from_option arg_ok True r.
Proof.
  intros Ha Hn. induction Ha as [|a rest Ha Hrest IH]; cbn [perf_find_arg]; [by exists None|].
  destruct (after_prefix_spec name a Ha Hn) as (r & -> & Hr). rewrite run_bind_Ok. destruct r as [suffix|]; [|done].
  destruct (cstring_head suffix Hr) as (c & t & -> & Ht). change (rd (c :: t) 0) with (Ok c : run Z).
  rewrite run_bind_Ok. destruct (Z.eqb_spec c (chr "=")) as [->|].
  { eexists. split; [done|]. apply Ht. done. }
  destruct rest as [|value rest]; [by exists None|]. case_if; [|done]. exists (Some value). split; [done|]. by inversion Hrest.
Qed.

Lemma has_flag_spec args name : Forall arg_ok args -> exists b, perf_has_flag args name = Ok b.
Proof.
  intros Ha. induction Ha as [|a rest Ha _ IH]; cbn [perf_has_flag]; [by eexists|].
  destruct (str_eq_defined a (name ++ [0])) as [b ->]; [apply Ha|set_solver|]. rewrite run_bind_Ok. destruct b; [by eexists|done].
Qed.

(** The two number parsers agree on what the strict one accepts. *)
Lemma parse_numbers text fallback :
  from_option arg_ok True text -> is_u64 fallback ->
  exists v r, perf_parse_u64 text fallback = Ok v /\ is_u64 v /\ perf_parse_positive_u64 text = Ok r /\
    (forall n, r = Some n -> v = n /\ 1 <= n).
Proof.
  intros Ht Hf. destruct text as [text|]; [|by exists fallback, None]. cbn [from_option] in Ht.
  destruct Ht as [[Hb Hz] _]. destruct (cstring_split text Hz) as (t & rest & -> & Hn & _).
  apply Forall_app in Hb as [Hb _]. cbn [perf_parse_u64 perf_parse_positive_u64].
  assert (exists c, rd (t ++ 0 :: rest) 0 = Ok c /\ (c =? 0) = bool_decide (t = [])) as (c & -> & Ec).
  { destruct t as [|c t]; [by exists 0|]. exists c. split; [done|]. rewrite bool_decide_false by done.
    apply Z.eqb_neq. set_solver. }
  rewrite !run_bind_Ok. rewrite Ec. case_bool_decide; [by exists fallback, None|]. cbn [orb].
  destruct (strtoul_spec t rest Hb Hn) as (v & stop & errno & c' & -> & Hc' & Hv & Hs & Hw). rewrite !run_bind_Ok.
  set (w := if stop =? 0 then fallback else v). exists w. unfold w.
  assert (is_u64 (if stop =? 0 then fallback else v)) by (by case_if).
  destruct (c =? chr "-"); [by exists None|]. destruct ((negb (errno =? 0)) || (stop =? 0)) eqn:Es; [by exists None|].
  rewrite Hc', run_bind_Ok. eexists. split; [done|]. split; [done|]. split; [done|]. intros n Hn'.
  breflect. rewrite (proj2 (Z.eqb_neq stop 0)) by done.
  destruct (negb (c' =? 0) || (v =? 0)) eqn:Ev; [done|]. injection Hn' as <-. breflect. split; [done|]. rlia.
Qed.

(** What the accepted arguments promise: the pacer's limits when the run is
    paced, and members within their types. *)
Record accepted_config (c : perf_config) : Prop := {
  pk_paced : pf_target_rps c <> 0 ->
    1 <= pf_target_rps c <= 1000000 /\ pf_has_duration c = true /\
    1 <= pf_duration_secs c <= 86400 /\ 1 <= pf_concurrent_clients c <= 1024;
  pk_clients : is_u64 (pf_concurrent_clients c);
  pk_requests : is_u64 (pf_requests_per_client c);
  pk_duration : is_u64 (pf_duration_secs c);
  pk_start : is_u64 (pf_paced_start_ns c);
  pk_rate : 1 <= pf_rate_limit c <= UINT32_MAX;
  pk_unit : is_u64 (pf_unit_ms c);
  pk_replay : is_u32 (pf_replay_count c);
  pk_prefix : is_cstring (pf_bucket_prefix c);
  pk_srv : from_option is_cstring True (pf_srv_domain c);
  pk_auth : exists text rest k, pf_auth_bech32 c = Some (text ++ 0 :: rest) /\ key_decode text = Some k /\
    pf_auth_type c = ak_type k /\ pf_tenant_id c = ak_key_id k;
  pk_key : from_option arg_ok True (pf_auth_bech32 c);
}.

Ltac find_arg args name r Hr :=
  let H := fresh in
  match goal with Ha : Forall arg_ok args |- _ =>
    destruct (find_arg_spec args name Ha ltac:(apply (bool_decide_unpack _); vm_compute; exact I)) as (r & H & Hr);
    rewrite H, run_bind_Ok; clear H
  end.

Ltac flag args name b :=
  let H := fresh in
  match goal with Ha : Forall arg_ok args |- _ =>
    destruct (has_flag_spec args name Ha) as [b H]; rewrite H, run_bind_Ok; clear H
  end.

Lemma paced_args_spec args clients duration cc ds :
  Forall arg_ok args -> from_option arg_ok True clients -> from_option arg_ok True duration ->
  perf_parse_u64 clients 10 = Ok cc -> perf_parse_u64 duration 0 = Ok ds -> is_u64 ds ->
  exists f, paced_args args clients duration (negb (is_null duration)) cc ds = Ok f /\
    match f with
    | Next (rps, secs) => is_u64 secs /\ (rps <> 0 ->
        1 <= rps <= 1000000 /\ negb (is_null duration) = true /\ 1 <= secs <= 86400 /\ 1 <= cc <= 1024)
    | Return code => code = 2
    end.
Proof.
  intros Ha Hcl Hdu Ecc Eds Hds. unfold paced_args. find_arg args (cbytes "--target-rps") rps Hrps. destruct rps as [rps|].
  2:{ flag args (cbytes "--target-rps") b. destruct b; [by exists (Return 2)|]. eexists. split; [done|]. by split. }
  destruct (parse_numbers (Some rps) 0 Hrps ltac:(rlia)) as (v0 & r & _ & _ & -> & Hr). rewrite run_bind_Ok.
  destruct r as [r|]; [|by exists (Return 2)]. destruct (Hr r eq_refl) as [_ Hr1].
  destruct (Z.ltb_spec 1000000 r); [by exists (Return 2)|]. cbn [orb].
  destruct (negb (is_null duration)) eqn:Enull; cbn [negb]; [|by exists (Return 2)].
  destruct (parse_numbers duration 0 Hdu ltac:(rlia)) as (v1 & d & _ & _ & -> & Hd). rewrite run_bind_Ok.
  destruct d as [d|]; [|by exists (Return 2)]. destruct (Hd d eq_refl) as [_ Hd1].
  destruct (Z.ltb_spec 86400 d); [by exists (Return 2)|]. destruct clients as [cl|].
  - destruct (parse_numbers (Some cl) 10 Hcl ltac:(rlia)) as (v & sc & Ev & Hv & -> & Hsc). rewrite run_bind_Ok.
    rewrite Ev in Ecc. injection Ecc as ->. destruct sc as [sc|]; [|by exists (Return 2)]. destruct (Hsc sc eq_refl) as [-> Hs1].
    cbn [is_null negb andb]. destruct (Z.ltb_spec 1024 sc); [by exists (Return 2)|]. rewrite (proj2 (Z.eqb_neq sc 0)) by lia.
    eexists. split; [done|]. split; [rlia|]. intros _. lia.
  - injection Ecc as <-. rewrite run_bind_Ok. cbn. eexists. split; [done|]. split; [rlia|]. intros _. lia.
Qed.

Lemma rate_limit_spec args :
  Forall arg_ok args -> exists f, rate_limit_arg args = Ok f /\
    match f with Next n => 1 <= n <= UINT32_MAX | Return code => code = 2 end.
Proof.
  intros Ha. unfold rate_limit_arg. find_arg args (cbytes "--rate-limit") r Hr. destruct r as [r|].
  2:{ flag args (cbytes "--rate-limit") b. destruct b; [by exists (Return 2)|]. eexists. split; [done|]. cbn. lia. }
  destruct (parse_numbers (Some r) 0 Hr ltac:(rlia)) as (v0 & n & _ & _ & -> & Hn). rewrite run_bind_Ok.
  destruct n as [n|]; [|by exists (Return 2)]. destruct (Hn n eq_refl) as [_ H1].
  destruct (Z.ltb_spec UINT32_MAX n); [by exists (Return 2)|]. eexists. split; [done|]. cbn. unwrap. lia.
Qed.

Lemma auth_arg_spec mem auth :
  from_option arg_ok True auth -> exists f, auth_arg mem auth = Ok f /\
    match f with
    | Next (type, key_id) => exists text rest k, auth = Some (text ++ 0 :: rest) /\ key_decode text = Some k /\
        type = ak_type k /\ key_id = ak_key_id k
    | Return code => code = 2
    end.
Proof.
  intros Ha. unfold auth_arg. destruct auth as [auth|]; [|by exists (Return 2)]. destruct Ha as [[Hb Hz] Hl].
  destruct (cstring_split auth Hz) as (text & rest & -> & Hn & _). rewrite length_app in Hl.
  unfold perf_parse_auth_bech32. rewrite (parse_auth_key_spec mem text rest) by (done || lia). rewrite run_bind_Ok.
  destruct (mem 0%nat && mem 1%nat && mem 2%nat && mem 3%nat); [|by exists (Return 2)].
  destruct (key_decode text) as [k|] eqn:Hk; [|by exists (Return 2)].
  cbn [RCLIENT_OK Z.eqb negb deref of_option]. rewrite !run_bind_Ok. eexists. split; [done|]. by exists text, rest, k.
Qed.

(** The arguments are read without undefined behaviour; a refusal exits with
    status 2, and what is accepted is within the limits. *)
Lemma config_from_args_spec mem args :
  Forall arg_ok args -> exists f, perf_config_from_args mem args = Ok f /\
    match f with Next c => accepted_config c | Return code => code = 2 end.
Proof.
  intros Ha. unfold perf_config_from_args. find_arg args (cbytes "--srv") srv Hsrv.
  find_arg args (cbytes "--clients") cl Hcl. destruct (parse_numbers cl 10 Hcl ltac:(rlia)) as (cc & _ & Ecc & Hcc & _).
  rewrite Ecc, run_bind_Ok. find_arg args (cbytes "--requests") rq Hrq.
  destruct (parse_numbers rq 1000 Hrq ltac:(rlia)) as (rc & _ & -> & Hrc & _). rewrite run_bind_Ok.
  find_arg args (cbytes "--duration") du Hdu. destruct (parse_numbers du 0 Hdu ltac:(rlia)) as (ds & _ & Eds & Hds & _).
  cbv zeta. rewrite Eds, run_bind_Ok. unfold then_args.
  destruct (paced_args_spec args cl du cc ds Ha Hcl Hdu Ecc Eds Hds) as (f & -> & Hp). rewrite run_bind_Ok.
  destruct f as [[rps secs]|]; [|by eexists]. destruct Hp as [Hsecs Hp].
  destruct (rate_limit_spec args Ha) as (f & -> & Hrate). rewrite run_bind_Ok. destruct f as [rate|]; [|by eexists].
  flag args (cbytes "--shared-bucket") sh. find_arg args (cbytes "--auth") au Hau.
  destruct (auth_arg_spec mem au Hau) as (f & -> & Hauth). rewrite run_bind_Ok. destruct f as [[ty kid]|]; [|by eexists].
  find_arg args (cbytes "--bucket-prefix") bp Hbp. find_arg args (cbytes "--unit-ms") un Hun.
  destruct (parse_numbers un 20 Hun ltac:(rlia)) as (unit & _ & -> & Hunit & _). rewrite run_bind_Ok.
  find_arg args (cbytes "--replay-count") rp Hrp.
  destruct (parse_numbers rp 1 Hrp ltac:(rlia)) as (replay & _ & -> & Hreplay & _). rewrite run_bind_Ok.
  flag args (cbytes "--ignore-steering") ig. flag args (cbytes "--debug-steering") db.
  eexists. split; [done|]. split; cbn; try done.
  - apply u32_range.
  - destruct bp as [bp|]; [apply Hbp|]. apply (bool_decide_unpack _); vm_compute; exact I.
  - destruct srv as [srv|]; [apply Hsrv|done].
Qed.
