(* ===== verification/PerfNet.v ===== *)
(** * The load generator: clocks, sockets and datagrams (bin/perf_client.c)

    One dual-stack UDP socket per worker.  [PerfOs] adds to the calls of [Os]
    those only this program makes. *)

From Stdlib Require Import String Ascii.
From S2P Require Import Prelude.
From S2P Require Import Types.
From S2P Require Import Wire.
From S2P Require Import Crypto.
From S2P Require Import Workflow.
From S2P Require Import State.
From S2P Require Import Steering.
From S2P Require Import Dns.
From S2P Require Import Client.
From S2P Require Import Runtime.
From S2P Require Import PerfLatency.
From S2P Require Import PerfPacer.
From S2P Require Import Perf.

(** ** The operating system *)

(** An answer record as [ns_parserr] presents it: type, class, TTL and data,
    and what [dn_expand] makes of the name six bytes into the data, when that
    fits 256 bytes. *)
Record dns_rr := mk_dns_rr {
  dr_type : Z;
  dr_class : Z;
  dr_ttl : Z;
  dr_rdata : list Z;
  dr_target : option (list Z);
}.

(** [os_poll] waits for input on one descriptor: its result, and whether
    [POLLIN] is set.  [os_res_nquery] asks the given name server, or those of the
    configuration: its result, and the answer buffer.  [ns_message] is what
    [ns_initparse] and [ns_parserr] make of a message. *)
Class PerfOs (O : Type) `{Os O} : Type := {
  os_ipv6_dual : Z -> O -> O;
  os_poll : Z -> Z -> O -> Z * bool * O;
  os_nanosleep : Z -> Z -> O -> Z * O;
  os_res_ninit : O -> Z * O;
  os_res_nclose : O -> O;
  os_res_nquery : option (list Z) -> list Z -> Z -> Z -> O -> Z * list Z * O;
  ns_message : list Z -> option (list (option dns_rr));
}.

(** [io_ctx_t]; the receive buffer is the one [os_recvfrom] fills. *)
Record io_ctx := mk_io {
  io_sockfd : Z;
  io_ignore_steering : bool;
  io_traffic : perf_traffic;
}.
Definition io_with_socket (fd : Z) (io : io_ctx) : io_ctx := mk_io fd (io_ignore_steering io) (io_traffic io).
Definition io_with_traffic (t : perf_traffic) (io : io_ctx) : io_ctx :=
  mk_io (io_sockfd io) (io_ignore_steering io) t.

Section Net.
Context {O : Type} `{PO : PerfOs O}.

(** ** Clocks *)
Definition perf_now_ms (o : O) : Z * O :=
  let '(ts, o) := os_clock_gettime CLOCK_REALTIME o in (from_option timespec_ms 0 ts, o).

Definition timespec_ns (t : Z * Z) : Z := (u64 (fst t) *64 NS) +64 u64 (snd t).
Definition perf_now_ns_monotonic (o : O) : Z * O :=
  let '(ts, o) := os_clock_gettime CLOCK_MONOTONIC o in (from_option timespec_ns 0 ts, o).

(** The turns of the loop; [None] when more of them are needed. *)
Fixpoint perf_sleep_until_ns (turns : nat) (due_ns : Z) (o : O) : option bool * O :=
  match turns with
  | Datatypes.O => (None, o)
  | S turns' =>
      let '(now_ns, o) := perf_now_ns_monotonic o in
      if now_ns =? 0 then (Some false, o) else
      if due_ns <=? now_ns then (Some true, o) else
      let remaining := due_ns -64 now_ns in
      let '(rc, o) := os_nanosleep (remaining / NS) (remaining mod NS) o in
      if negb (rc =? 0) && negb (os_errno o =? EINTR) then (Some false, o)
      else perf_sleep_until_ns turns' due_ns o
  end.

(** ** Sockets *)
Definition perf_setup_socket (port : Z) (o : O) : Z * O :=
  let '(fd, o) := os_socket AF_INET6 o in
  if fd <? 0 then (-1, o) else
  let o := os_ipv6_dual fd o in
  let '(rc, o) := os_bind fd AF_INET6 port o in
  if negb (rc =? 0) then (-1, os_close fd o) else
  let '(flags, o) := os_getfl fd o in
  let o := if 0 <=? flags then snd (os_setfl fd (Z.lor flags O_NONBLOCK) o) else o in
  (fd, o).

(** On the binding's descriptor and the system; [errno] is read after the
    failed socket was closed. *)
Definition perf_try_steering_port (port : Z) (st : Z * O) : Z * (Z * O) :=
  let '(fd, o) := perf_setup_socket port (snd st) in
  if 0 <=? fd then (R_STEERING_BIND_OK, (fd, o)) else
  (if os_errno o =? EADDRINUSE then R_STEERING_BIND_OCCUPIED else R_STEERING_BIND_ERROR, (fd, o)).

Definition perf_on_steering_feedback (keep_port : bool) (io : io_ctx) (o : O) : io_ctx * O :=
  if io_ignore_steering io || keep_port then (io, o) else
  let '(name, o) := os_getsockname (io_sockfd io) o in
  match name with
  | None => (io, o)
  | Some (_, port) =>
      let '(rc, _, _, st) :=
        r_client_select_steering_port (r_client_next_steering_port port) (Some perf_try_steering_port)
          (Some 0) (Some 0) (-1, o) in
      let '(fd, o) := st in
      if negb (rc =? RCLIENT_OK) then (io, o) else
      let old_fd := io_sockfd io in
      (io_with_socket fd io, if 0 <=? old_fd then os_close old_fd o else o)
  end.

(** ** Datagrams *)

(** [sockaddr_in6] for an IPv4 address, in a block of the size of every other. *)
Definition v4_mapped (to : r_addr) : run r_addr :=
  port ← rd_bytes (ad_sa to) 2 2;
  addr ← rd_bytes (ad_sa to) 4 4;
  Ok (mk_addr ([AF_INET6; 0] ++ port ++ replicate 14 0 ++ [255; 255] ++ addr ++ replicate 104 0) SOCKADDR_IN6_SIZE).

Definition send_failed (t : perf_traffic) : perf_traffic :=
  let '(failures, incomplete) := perf_traffic_add (tr_send_failures t) 1 (tr_incomplete t) in
  mk_traffic (tr_sent t) (tr_received t) failures incomplete.

Definition perf_udp_send (to : r_addr) (buf : list Z) (io : io_ctx) (o : O) : run (Z * io_ctx * O) :=
  if io_sockfd io <? 0 then Ok (-1, io, o) else
  family ← SA_FAMILY to;
  sa ← (if family =? AF_INET then v4_mapped to else Ok to);
  let '(rc, o) := os_sendto (io_sockfd io) buf sa o in
  if (rc <? 0) || negb (u64 rc =? zlen buf) then
    Ok (-1, io_with_traffic (send_failed (io_traffic io)) io, o)
  else
  t ← perf_record_traffic (io_traffic io) true sa (zlen buf);
  Ok (0, io_with_traffic t io, o).

(** The result, the buffer and the sender. *)
Definition perf_udp_receive (io : io_ctx) (o : O) : run (Z * list Z * r_addr * io_ctx * O) :=
  let '(received, buffer, from, o) := os_recvfrom (io_sockfd io) o in
  if 0 <=? received then
    t ← perf_record_traffic (io_traffic io) false from received;
    Ok (received, buffer, from, io_with_traffic t io, o)
  else Ok (received, buffer, from, io, o).
End Net.
