(* ===== verification/PerfDns.v ===== *)
(** * The load generator: name resolution (bin/perf_client.c)

    The service's records and its servers' addresses are looked up once, before
    the run; the workers' clients are answered from that cache. *)

From Stdlib Require Import String Ascii.
From S2P Require Import Prelude.
From S2P Require Import Types.
From S2P Require Import Wire.
From S2P Require Import Crypto.
From S2P Require Import Workflow.
From S2P Require Import State.
From S2P Require Import Steering.
From S2P Require Import Dns.
From S2P Require Import Client.
From S2P Require Import Runtime.
From S2P Require Import Perf.
From S2P Require Import PerfNet.

Definition ns_c_in : Z := 1.
Definition ns_t_a : Z := 1.
Definition ns_t_aaaa : Z := 28.
Definition ns_t_srv : Z := 33.

(** ** The name server's address *)

(** [strtol (text, &end, 10)]: the value, held within 64 bits, and [end]. *)
Definition LONG_MIN : Z := - 2 ^ 63.
Definition LONG_MAX : Z := 2 ^ 63 - 1.
Definition strtol10 (text : list Z) : run (Z * Z) :=
  start ← skip_space (length text) text 0;
  sign ← rd text start;
  let digits := if (sign =? chr "-") || (sign =? chr "+") then start + 1 else start in
  d ← scan_digits (length text) text digits 0;
  let '(value, stop) := d in
  Ok (if stop =? digits then (0, 0)
      else (if sign =? chr "-" then Z.max LONG_MIN (- value) else Z.min LONG_MAX value, stop)).

(** The port of [host:port], 53 without one; [None] is a refusal. *)
Definition dns_port (value : list Z) (colon : option Z) : run (option Z) :=
  match colon with
  | None => Ok (Some 53)
  | Some i =>
      let text := drop (Z.to_nat (i + 1)) value in
      c ← rd text 0;
      if c =? 0 then Ok (Some 53) else
      p ← strtol10 text;
      let '(parsed, stop) := p in
      Ok (if (stop =? 0) || (parsed <=? 0) || (65535 <? parsed) then None else Some parsed)
  end.

Section Dns.
(** [inet_pton (family, host, ...)]: the address's bytes. *)
Context (inet_pton : Z -> list Z -> option (list Z)).

(** The bytes of the [sockaddr_in]; the host is the text up to the colon. *)
Definition dns_server_at (value : list Z) (colon : option Z) (host_len : Z) : run (option (list Z)) :=
  if (host_len =? 0) || (64 <=? host_len) then Ok None else
  host ← rd_bytes value 0 host_len;
  port ← dns_port value colon;
  match port with
  | None => Ok None
  | Some port =>
      match inet_pton AF_INET (host ++ [0]) with
      | None => Ok None
      | Some addr => Ok (Some ([AF_INET; 0] ++ htons_bytes (u16 port) ++ addr ++ replicate 8 0))
      end
  end.

Definition perf_parse_dns_server (value : option (list Z)) : run (option (list Z)) :=
  match value with
  | None => Ok None
  | Some value =>
      let colon := strrchr value (chr ":") 0 in
      host_len ← (match colon with Some i => Ok i | None => strlen value end);
      dns_server_at value colon host_len
  end.

(** ** Addresses *)
Definition ADDR_LIST_FIRST_CAP : Z := 8.
Record addr_list := mk_addr_list { al_items : list r_addr; al_cap : Z }.
Definition addr_list_zero : addr_list := mk_addr_list [] 0.
Definition addr_zero : r_addr := mk_addr (replicate (Z.to_nat SOCKADDR_STORAGE_SIZE) 0) 0.

Context {O : Type} `{PO : PerfOs O}.

(** [sa] is a block of [len] bytes; an element too long is left zeroed. *)
Definition addr_list_push (l : addr_list) (sa : list Z) (len : Z) (o : O) : run (Z * addr_list * O) :=
  if len =? 0 then Ok (-1, l, o) else
  let full := zlen (al_items l) =? al_cap l in
  let '(ok, o) := if full then os_alloc o else (true, o) in
  if negb ok then Ok (-1, l, o) else
  let cap := if full then (if al_cap l =? 0 then ADDR_LIST_FIRST_CAP else al_cap l *64 2) else al_cap l in
  if SOCKADDR_STORAGE_SIZE <? len then Ok (-1, mk_addr_list (al_items l ++ [addr_zero]) cap, o) else
  src ← rd_bytes sa 0 len;
  block ← wr (ad_sa addr_zero) 0 src;
  Ok (0, mk_addr_list (al_items l ++ [mk_addr block len]) cap, o).

Definition addr_list_clone (l : addr_list) (o : O) : Z * option (list r_addr) * O :=
  if zlen (al_items l) =? 0 then (0, None, o) else
  let '(ok, o) := os_alloc o in
  if negb ok then (-1, None, o) else (0, Some (al_items l), o).

(** ** Queries *)
Definition DNS_ANSWER_SIZE : Z := 4096.

(** [dns_resolver_ctx_t]: whether it is initialised, and the name server put
    in place of the configured ones. *)
Record dns_resolver := mk_resolver { rs_nameserver : option (list Z); rs_initialized : bool }.

Definition dns_resolver_init (env : environment) (o : O) : run (Z * dns_resolver * O) :=
  let '(rc, o) := os_res_ninit o in
  if negb (rc =? 0) then Ok (-1, mk_resolver None false, o) else
  has ← env_nonempty (env (cbytes "RCLIENT_DNS_SERVER"));
  ns ← (if (has : bool) then perf_parse_dns_server (env (cbytes "RCLIENT_DNS_SERVER")) else Ok None);
  Ok (0, mk_resolver ns true, o).

Definition dns_resolver_close (r : dns_resolver) (o : O) : O :=
  if rs_initialized r then os_res_nclose o else o.

(** The records of a message of [len] bytes. *)
Definition message_records (answer : list Z) (len : Z) : run (option (list (option dns_rr))) :=
  message ← rd_bytes answer 0 len; Ok (ns_message message).

Definition wanted (qtype : Z) (rr : dns_rr) : bool := (dr_type rr =? qtype) && (dr_class rr =? ns_c_in).

(** The socket address of a record: the family, and the data where it goes. *)
Definition sockaddr_of (qtype : Z) (rr : dns_rr) : option (list Z) :=
  if negb (wanted qtype rr) then None else
  if qtype =? ns_t_a then
    if negb (zlen (dr_rdata rr) =? 4) then None
    else Some ([AF_INET; 0] ++ [0; 0] ++ dr_rdata rr ++ replicate 8 0)
  else if qtype =? ns_t_aaaa then
    if negb (zlen (dr_rdata rr) =? 16) then None
    else Some ([AF_INET6; 0] ++ [0; 0] ++ replicate 4 0 ++ dr_rdata rr ++ replicate 4 0)
  else None.

Fixpoint push_records (qtype : Z) (rrs : list (option dns_rr)) (l : addr_list) (o : O) : run (addr_list * O) :=
  match rrs with
  | [] => Ok (l, o)
  | rr :: rest =>
      match rr ≫= sockaddr_of qtype with
      | None => push_records qtype rest l o
      | Some sa =>
          p ← addr_list_push l sa (zlen sa) o;
          let '(_, l, o) := p in
          push_records qtype rest l o
      end
  end.

Definition dns_parse_addrs (answer : list Z) (len qtype : Z) (l : addr_list) (o : O) : run (Z * addr_list * O) :=
  rrs ← message_records answer len;
  match rrs with
  | None => Ok (-1, l, o)
  | Some rrs => p ← push_records qtype rrs l o; let '(l, o) := p in Ok (0, l, o)
  end.

(** One of the two queries for addresses. *)
Definition query_addrs_of (r : dns_resolver) (name : list Z) (qtype : Z) (l : addr_list) (o : O)
  : run (addr_list * O) :=
  let '(len, answer, o) := os_res_nquery (rs_nameserver r) name qtype DNS_ANSWER_SIZE o in
  if 0 <? len then
    p ← dns_parse_addrs answer len qtype l o;
    let '(_, l, o) := p in Ok (l, o)
  else Ok (l, o).

Definition dns_query_addrs (r : dns_resolver) (name : list Z) (o : O) : run (Z * addr_list * O) :=
  if negb (rs_initialized r) then Ok (-1, addr_list_zero, o) else
  a ← query_addrs_of r name ns_t_a addr_list_zero o;
  let '(l, o) := a in
  b ← query_addrs_of r name ns_t_aaaa l o;
  let '(l, o) := b in
  Ok (if 0 <? zlen (al_items l) then 0 else -1, l, o).

Definition perf_strdup (src : list Z) (o : O) : run (option (list Z) * O) :=
  len ← strlen src;
  let '(ok, o) := os_alloc o in
  if negb ok then Ok (None, o) else
  copy ← rd_bytes src 0 (len + 1);
  Ok (Some copy, o).

(** [ns_get16]. *)
Definition ns_get16 (data : list Z) (pos : Z) : run Z :=
  hi ← rd data pos; lo ← rd data (pos + 1); Ok (256 * hi + lo).

(** The record kept of an answer, unless it is to be skipped: not an SRV
    record, cut short, or with a target that does not expand. *)
Definition srv_of (rr : dns_rr) : run (option (list Z * Z * Z * Z * Z)) :=
  if negb (wanted ns_t_srv rr) || (zlen (dr_rdata rr) <? 7) then Ok None else
  priority ← ns_get16 (dr_rdata rr) 0;
  weight ← ns_get16 (dr_rdata rr) 2;
  port ← ns_get16 (dr_rdata rr) 4;
  Ok (match dr_target rr with
      | None => None
      | Some target => Some (target, port, priority, weight, u32 (u32 (dr_ttl rr) * 1000))
      end).

Fixpoint collect_srv (rrs : list (option dns_rr)) (records : list r_srv_record) (o : O)
  : run (list r_srv_record * O) :=
  match rrs with
  | [] => Ok (records, o)
  | None :: rest => collect_srv rest records o
  | Some rr :: rest =>
      kept ← srv_of rr;
      match kept with
      | None => collect_srv rest records o
      | Some (target, port, priority, weight, ttl_ms) =>
          d ← perf_strdup target o;
          let '(copy, o) := d in
          match copy with
          | None => collect_srv rest records o
          | Some _ => collect_srv rest (records ++ [mk_srv copy port priority weight ttl_ms]) o
          end
      end
  end.

(** The records, none on failure. *)
Definition dns_query_srv (r : dns_resolver) (name : list Z) (o : O) : run (Z * list r_srv_record * O) :=
  if negb (rs_initialized r) then Ok (-1, [], o) else
  let '(len, answer, o) := os_res_nquery (rs_nameserver r) name ns_t_srv DNS_ANSWER_SIZE o in
  if len <=? 0 then Ok (-1, [], o) else
  rrs ← message_records answer len;
  match rrs with
  | None => Ok (-1, [], o)
  | Some rrs =>
      if zlen rrs <=? 0 then Ok (-1, [], o) else
      let '(ok, o) := os_alloc o in
      if negb ok then Ok (-1, [], o) else
      c ← collect_srv rrs [] o;
      let '(records, o) := c in
      Ok (if zlen records =? 0 then -1 else 0, records, o)
  end.
End Dns.

(** ** The cache *)
Record dns_addr_entry := mk_entry { ae_name : list Z; ae_items : list r_addr }.
Record perf_dns_cache := mk_cache {
  ch_tenant_name : option (list Z);
  ch_srv_name : option (list Z);
  ch_srv_records : list r_srv_record;
  ch_addr_entries : list dns_addr_entry;
}.
Definition perf_dns_cache_zero : perf_dns_cache := mk_cache None None [] [].

(** What the cache points to is freed and the cache zeroed. *)
Definition perf_dns_cache_reset (cache : perf_dns_cache) : perf_dns_cache := perf_dns_cache_zero.

Fixpoint find_entry (entries : list dns_addr_entry) (name : list Z) : run (option dns_addr_entry) :=
  match entries with
  | [] => Ok None
  | e :: rest => same ← str_eq (ae_name e) name; if (same : bool) then Ok (Some e) else find_entry rest name
  end.

Definition perf_dns_cache_find_addrs (cache : perf_dns_cache) (name : list Z) : run (option dns_addr_entry) :=
  find_entry (ch_addr_entries cache) name.

Section Cache.
Context (inet_pton : Z -> list Z -> option (list Z)).
Context {O : Type} `{PO : PerfOs O}.

Definition perf_dns_cache_add_addrs (cache : perf_dns_cache) (name : list Z) (l : addr_list) (o : O)
  : run (Z * perf_dns_cache * O) :=
  if zlen (al_items l) =? 0 then Ok (-1, cache, o) else
  found ← perf_dns_cache_find_addrs cache name;
  if negb (is_null found) then Ok (0, cache, o) else
  let '(ok, o) := os_alloc o in
  if negb ok then Ok (-1, cache, o) else
  d ← perf_strdup name o;
  let '(copy, o) := d in
  match copy with
  | None => Ok (-1, cache, o)
  | Some copy =>
      let '(rc, items, o) := addr_list_clone l o in
      if negb (rc =? 0) then Ok (-1, cache, o) else
      Ok (0, mk_cache (ch_tenant_name cache) (ch_srv_name cache) (ch_srv_records cache)
               (ch_addr_entries cache ++ [mk_entry copy (default [] items)]), o)
  end.

(** The addresses of every target; [false] when one could not be stored. *)
Fixpoint fill_addrs (r : dns_resolver) (records : list r_srv_record) (cache : perf_dns_cache) (o : O)
  : run (bool * perf_dns_cache * O) :=
  match records with
  | [] => Ok (true, cache, o)
  | rec :: rest =>
      target ← deref (sv_target rec);
      q ← dns_query_addrs r target o;
      let '(rc, l, o) := q in
      if negb (rc =? 0) then fill_addrs r rest cache o else
      a ← perf_dns_cache_add_addrs cache target l o;
      let '(rc, cache, o) := a in
      if negb (rc =? 0) then Ok (false, cache, o) else fill_addrs r rest cache o
  end.

Definition SRV_NAME_SIZE : Z := 512.
Definition srv_name_of (tenant_name : list Z) : run (list Z) :=
  len ← strlen tenant_name;
  text ← rd_bytes tenant_name 0 len;
  Ok (cbytes "_ratelimitly._udp." ++ text).

(** The lookups of the initialised resolver. *)
Definition resolve_service (r : dns_resolver) (tenant_name srv_name : list Z) (o : O)
  : run (Z * perf_dns_cache * O) :=
  q ← dns_query_srv r srv_name o;
  let '(_, records, o) := q in
  f ← fill_addrs r records (mk_cache (Some tenant_name) (Some srv_name) records []) o;
  let '(ok, cache, o) := f in
  let o := dns_resolver_close r o in
  Ok (if (ok : bool) then (0, cache, o) else (-1, perf_dns_cache_reset cache, o)).

Definition perf_dns_cache_init (env : environment) (tenant_name : option (list Z)) (o : O)
  : run (Z * perf_dns_cache * O) :=
  match tenant_name with
  | None => Ok (-1, perf_dns_cache_zero, o)
  | Some tenant_name =>
      t ← perf_strdup tenant_name o;
      let '(copy, o) := t in
      match copy with
      | None => Ok (-1, perf_dns_cache_zero, o)
      | Some copy =>
          i ← dns_resolver_init inet_pton env o;
          let '(rc, r, o) := i in
          if negb (rc =? 0) then Ok (-1, perf_dns_cache_zero, o) else
          name ← srv_name_of tenant_name;
          if SRV_NAME_SIZE <=? zlen name then Ok (-1, perf_dns_cache_zero, dns_resolver_close r o) else
          s ← perf_strdup (name ++ [0]) o;
          let '(srv_name, o) := s in
          match srv_name with
          | None => Ok (-1, perf_dns_cache_zero, dns_resolver_close r o)
          | Some srv_name => resolve_service r copy srv_name o
          end
      end
  end.
End Cache.

(** ** The clients' resolver hooks

    The arguments of the one call of the callback. *)
Definition perf_resolve_addrs (cache : perf_dns_cache) (name : list Z) : run addr_answer :=
  entry ← perf_dns_cache_find_addrs cache name;
  Ok (mk_addr_answer 0 0 (Some (match entry with
        | Some e => if zlen (ae_items e) =? 0 then (-1, None) else (0, Some (ae_items e))
        | None => (-1, None)
        end))).

Definition perf_resolve_srv (cache : perf_dns_cache) (name : list Z) : run srv_answer :=
  same ← (match ch_srv_name cache with Some n => str_eq n name | None => Ok false end);
  Ok (mk_srv_answer 0 0 (Some (if negb same || (zlen (ch_srv_records cache) =? 0) then (-1, None)
                               else (0, Some (ch_srv_records cache))))).
