(* ===== verification/PerfWorker.v ===== *)
(** * The load generator: a worker (bin/perf_client.c)

    A worker is a thread with a socket and a client of its own: it starts
    requests, waits for each, and counts what came of them.  Its socket, its
    DNS cache and its counters are the host of its client.  What it prints is
    left out. *)

From Stdlib Require Import String Ascii.
From S2P Require Import Prelude.
From S2P Require Import Types.
From S2P Require Import Wire.
From S2P Require Import Crypto.
From S2P Require Import Workflow.
From S2P Require Import State.
From S2P Require Import Schedule.
From S2P Require Import Steering.
From S2P Require Import Dns.
From S2P Require Import Request.
From S2P Require Import Client.
From S2P Require Import WorkflowOps.
From S2P Require Import Runtime.
From S2P Require Import PerfLatency.
From S2P Require Import PerfPacer.
From S2P Require Import Perf.
From S2P Require Import PerfNet.
From S2P Require Import PerfDns.

(** ** State *)

(** [request_ctx_t]. *)
Record request_ctx := mk_request_ctx {
  rc_done : bool;
  rc_status : Z;
  rc_steering_feedback : bool;
  rc_outcome : perf_outcome;
}.
Definition request_ctx_zero : request_ctx := mk_request_ctx false 0 false PERF_OUTCOME_ERROR.

(** [perf_stats_t]: counters shared by the workers, which only add to them. *)
Record perf_stats := mk_stats {
  ps_requests_sent : Z;
  ps_logical_starts : Z;
  ps_responses_received : Z;
  ps_granted : Z;
  ps_denied : Z;
  ps_errors : Z;
  ps_total_latency_ns : Z;
}.
Definition perf_stats_zero : perf_stats := mk_stats 0 0 0 0 0 0 0.

(** [worker_ctx_t]. *)
Record worker_ctx := mk_worker {
  wk_client_id : Z;
  wk_config : perf_config;
  wk_stats : perf_stats;
  wk_latency_hist : list Z;
  wk_traffic : perf_traffic;
  wk_worker_error : Z;
}.
Definition wk_eta (r : worker_ctx) : worker_ctx :=
  mk_worker (wk_client_id r) (wk_config r) (wk_stats r) (wk_latency_hist r) (wk_traffic r) (wk_worker_error r).
Definition set_wk_stats : perf_stats -> worker_ctx -> worker_ctx := ltac:(setter wk_eta wk_stats).
Definition set_wk_latency_hist : list Z -> worker_ctx -> worker_ctx := ltac:(setter wk_eta wk_latency_hist).
Definition set_wk_traffic : perf_traffic -> worker_ctx -> worker_ctx := ltac:(setter wk_eta wk_traffic).
Definition set_wk_worker_error : Z -> worker_ctx -> worker_ctx := ltac:(setter wk_eta wk_worker_error).

(** What the thread holds: the socket, the context of the request under way (a
    local of the loop's body, at the same place in every turn), and the worker. *)
Record pworld (O : Type) := mk_pworld {
  pw_io : io_ctx;
  pw_request : request_ctx;
  pw_worker : worker_ctx;
  pw_os : O;
}.
Arguments mk_pworld {O}.
Arguments pw_io {O}.
Arguments pw_request {O}.
Arguments pw_worker {O}.
Arguments pw_os {O}.

Definition ON_RATE_LIMIT : Z := 1.
Definition REQUEST_CTX : Z := 1.

(** ** Counting *)

(** [atomic_fetch_add_explicit]: the counters wrap round. *)
Definition perf_record_stats (latency_ns : Z) (success : bool) (w : worker_ctx) : run worker_ctx :=
  let t := wk_stats w in
  if success then
    hist ← count_latency (latency_ns / 1000) (wk_latency_hist w);
    Ok (set_wk_latency_hist hist (set_wk_stats
          (mk_stats (ps_requests_sent t +64 1) (ps_logical_starts t) (ps_responses_received t +64 1)
             (ps_granted t) (ps_denied t) (ps_errors t) (ps_total_latency_ns t +64 latency_ns)) w))
  else
    Ok (set_wk_stats
          (mk_stats (ps_requests_sent t +64 1) (ps_logical_starts t) (ps_responses_received t)
             (ps_granted t) (ps_denied t) (ps_errors t +64 1) (ps_total_latency_ns t)) w).

Definition count_start (w : worker_ctx) : worker_ctx :=
  let t := wk_stats w in
  set_wk_stats (mk_stats (ps_requests_sent t) (ps_logical_starts t +64 1) (ps_responses_received t)
                  (ps_granted t) (ps_denied t) (ps_errors t) (ps_total_latency_ns t)) w.

Definition count_outcome (o : perf_outcome) (w : worker_ctx) : worker_ctx :=
  let t := wk_stats w in
  match o with
  | PERF_OUTCOME_GRANTED =>
      set_wk_stats (mk_stats (ps_requests_sent t) (ps_logical_starts t) (ps_responses_received t)
                      (ps_granted t +64 1) (ps_denied t) (ps_errors t) (ps_total_latency_ns t)) w
  | PERF_OUTCOME_DENIED =>
      set_wk_stats (mk_stats (ps_requests_sent t) (ps_logical_starts t) (ps_responses_received t)
                      (ps_granted t) (ps_denied t +64 1) (ps_errors t) (ps_total_latency_ns t)) w
  | PERF_OUTCOME_ERROR => w
  end.

(** The callback, on the context it is given. *)
Definition on_rate_limit (status : Z) (result : option r_rate_limit_result) (c : request_ctx) : request_ctx :=
  mk_request_ctx true
    (if (status =? RCLIENT_OK) && is_null result then RCLIENT_ERR_PROTOCOL else status)
    (from_option rl_steering_feedback false result)
    (perf_request_outcome status result).

(** The DNS cache of the program, which the run only reads. *)
Class Cached : Type := dns_cache : perf_dns_cache.

(** ** The client's host *)
Section Host.
Context {O : Type} `{PO : PerfOs O} {cached : Cached}.

Definition with_os (o : O) (w : pworld O) : pworld O :=
  mk_pworld (pw_io w) (pw_request w) (pw_worker w) o.
Definition with_io (io : io_ctx) (o : O) (w : pworld O) : pworld O :=
  mk_pworld io (pw_request w) (pw_worker w) o.
Definition with_request (c : request_ctx) (w : pworld O) : pworld O :=
  mk_pworld (pw_io w) c (pw_worker w) (pw_os w).
Definition with_worker (k : worker_ctx) (w : pworld O) : pworld O :=
  mk_pworld (pw_io w) (pw_request w) k (pw_os w).

Definition on_system {A} (f : O -> A * O) (w : pworld O) : A * pworld O :=
  let '(a, o) := f (pw_os w) in (a, with_os o w).

(** The hooks; the values for undefined behaviour are those
    [perf_hooks_defined] excludes. *)
Definition send_hook (to : r_addr) (buf : list Z) (w : pworld O) : Z * pworld O :=
  match perf_udp_send to buf (pw_io w) (pw_os w) with
  | Ok (rc, io, o) => (rc, with_io io o w)
  | UB => (-1, w)
  end.
Definition of_cache {A} (bad : A) (r : run A) (w : pworld O) : A * pworld O :=
  match r with Ok a => (a, w) | UB => (bad, w) end.

#[export] Instance perf_host : Host (pworld O) := {|
  h_now_ms := on_system perf_now_ms;
  h_udp_send := send_hook;
  h_rand_bytes := fun n => on_system (os_rand_bytes n);
  h_alloc := on_system os_alloc;
  h_resolve_srv := fun name => of_cache (mk_srv_answer (-1) 0 None) (perf_resolve_srv dns_cache name);
  h_resolve_addrs := fun name => of_cache (mk_addr_answer (-1) 0 None) (perf_resolve_addrs dns_cache name);
  h_cancel := fun _ w => (false, w);
  h_profile := fun _ w => w;
  h_steering := fun keep_port w =>
    let '(io, o) := perf_on_steering_feedback keep_port (pw_io w) (pw_os w) in with_io io o w;
  h_complete := fun _ user _ status result s =>
    Ok (if user =? 0 then s
        else set_world (with_request (on_rate_limit status result (pw_request (s_world s))) (s_world s)) s);
  h_admission := fun _ _ _ _ s => Ok s;
|}.

(** ** Access to the thread's state *)
Definition thread {A} (f : pworld O -> A) : M (pworld O) A := gets (fun s => f (s_world s)).
Definition upd_thread (f : pworld O -> pworld O) : M (pworld O) unit :=
  modify (fun s => set_world (f (s_world s)) s).
Definition upd_worker (f : worker_ctx -> worker_ctx) : M (pworld O) unit :=
  upd_thread (fun w => with_worker (f (pw_worker w)) w).
Definition system {A} (f : O -> A * O) : M (pworld O) A := world_op (on_system f).
(** A reading of the monotonic clock, kept in the trace. *)
Definition monotonic : M (pworld O) Z :=
  now_ns ← system perf_now_ns_monotonic; _ ← emit (EvRead now_ns); mret now_ns.

Definition receive : M (pworld O) (Z * list Z * r_addr) :=
  w ← thread id;
  r ← lift (perf_udp_receive (pw_io w) (pw_os w));
  let '(n, buffer, from, io, o) := r in
  _ ← upd_thread (with_io io o);
  mret (n, buffer, from).

Definition record_stats (latency_ns : Z) (success : bool) : M (pworld O) unit :=
  w ← thread pw_worker;
  w ← lift (perf_record_stats latency_ns success w);
  upd_worker (fun _ => w).

Context {ssl : OpenSSL}.

(** ** Waiting

    [turns] bounds the loops: [None], or [false], when more are needed. *)
Fixpoint receive_all (turns : nat) : M (pworld O) bool :=
  match turns with
  | Datatypes.O => mret false
  | S turns' =>
      d ← receive;
      let '(n, buffer, from) := d in
      if n <? 0 then mret true else
      _ ← r_client_on_datagram (Some buffer) (u64 n) (Some from);
      done ← thread (fun w => rc_done (pw_request w));
      if (done : bool) then mret true else receive_all turns'
  end.

Definition INT32_MAX : Z := 2 ^ 31 - 1.
Definition poll_timeout (deadline_ms now_ms : Z) : Z :=
  if now_ms <? deadline_ms then
    let diff := deadline_ms -64 now_ms in if INT32_MAX <? diff then INT32_MAX else diff
  else 0.

Definition set_request (c : request_ctx) : M (pworld O) unit := upd_thread (with_request c).
Definition fail_request (status : Z) : M (pworld O) unit :=
  upd_thread (fun w => let c := pw_request w in
    with_request (mk_request_ctx true status (rc_steering_feedback c) (rc_outcome c)) w).

(** The end of a turn: the request's timeout, when it is due. *)
Definition turn_end (deadline_ms : Z) (req : option ptr) : M (pworld O) unit :=
  now_ms ← system perf_now_ms;
  done ← thread (fun w => rc_done (pw_request w));
  if negb done && (deadline_ms <=? now_ms) then _ ← r_client_on_timeout req now_ms; mret tt else mret tt.

(** The body of the loop: [false] when [receive_all] ran out of turns, and
    whether the loop is left by a [break]. *)
Definition wait_turn (turns : nat) (req : option ptr) : M (pworld O) (bool * bool) :=
  d ← r_client_request_deadline_ms req (Some 0);
  let '(rc, deadline) := d in
  if negb (rc =? RCLIENT_OK) then _ ← fail_request RCLIENT_ERR_CONFIG; mret (true, true) else
  deadline_ms ← lift (deref deadline);
  now_ms ← system perf_now_ms;
  fd ← thread (fun w => io_sockfd (pw_io w));
  p ← system (os_poll fd (poll_timeout deadline_ms now_ms));
  let '(prc, readable) := p in
  errno ← thread (fun w => os_errno (pw_os w));
  r ← (if (0 <? prc) && readable then
         enough ← receive_all turns; mret (enough, false)
       else if (prc <? 0) && negb (errno =? EINTR) then
         _ ← fail_request RCLIENT_ERR_IO; mret (true, true)
       else mret (true, false));
  let '(enough, failed) := r in
  if negb enough || failed then mret (enough, failed) else
  _ ← turn_end deadline_ms req; mret (true, false).

Fixpoint wait_loop (turns : nat) (req : option ptr) : M (pworld O) (option Z) :=
  done ← thread (fun w => rc_done (pw_request w));
  if (done : bool) then s ← thread (fun w => rc_status (pw_request w)); mret (Some s) else
  match turns with
  | Datatypes.O => mret None
  | S turns' =>
      t ← wait_turn turns req;
      let '(enough, failed) := t in
      if negb enough then mret None else
      if (failed : bool) then s ← thread (fun w => rc_status (pw_request w)); mret (Some s)
      else wait_loop turns' req
  end.

Definition perf_wait_for_request (turns : nat) (req : option ptr) : M (pworld O) (option Z) :=
  if is_null req then mret (Some RCLIENT_ERR_CONFIG) else wait_loop turns req.

(** ** The loop *)

(** Whether another request is started, and the pacer; [None] when the sleep
    needs more turns. *)
Definition next_start (turns : nat) (start_ns : Z) (pacer : perf_pacer) (request_count : Z)
  : M (pworld O) (option (bool * perf_pacer)) :=
  c ← thread (fun w => wk_config (pw_worker w));
  if negb (pf_target_rps c =? 0) then
    now ← monotonic;
    n ← lift (perf_pacer_next (Some pacer) now (Some 0));
    let '(more, pacer, due) := n in
    pacer ← lift (deref pacer);
    due_ns ← lift (deref due);
    if negb more then mret (Some (false, pacer)) else
    slept ← system (perf_sleep_until_ns turns due_ns);
    match slept with
    | None => mret None
    | Some false => _ ← upd_worker (set_wk_worker_error 1); mret (Some (false, pacer))
    | Some true => now ← monotonic; mret (Some (negb (pc_end_ns pacer <=? now), pacer))
    end
  else if pf_has_duration c then
    now ← monotonic;
    mret (Some (negb (paced_duration c <=? now -64 start_ns), pacer))
  else mret (Some (negb (pf_requests_per_client c <=? request_count), pacer)).

(** One request, from its start to its end. *)
Definition run_request (turns : nat) (resource : r_resource_request) : M (pworld O) bool :=
  _ ← set_request request_ctx_zero;
  req_start ← monotonic;
  _ ← upd_worker count_start;
  q ← r_client_check_rate_limit_async_borrowed (Some [resource]) 1 None 0 None 0 ON_RATE_LIMIT REQUEST_CTX (OutVar None);
  let '(rc, out) := q in
  if negb (rc =? RCLIENT_OK) then
    now ← monotonic;
    _ ← record_stats (now -64 req_start) false;
    mret true
  else
  let req := match out with OutVar p => p | _ => None end in
  r ← perf_wait_for_request turns req;
  match r with
  | None => mret false
  | Some _ =>
      now ← monotonic;
      outcome ← thread (fun w => rc_outcome (pw_request w));
      _ ← record_stats (now -64 req_start) (negb (bool_decide (outcome = PERF_OUTCOME_ERROR)));
      _ ← upd_worker (count_outcome outcome);
      mret true
  end.

(** [false] when more turns are needed. *)
Fixpoint worker_loop (loops turns : nat) (resource : r_resource_request) (start_ns : Z) (pacer : perf_pacer)
    (request_count : Z) : M (pworld O) bool :=
  match loops with
  | Datatypes.O => mret false
  | S loops' =>
      n ← next_start turns start_ns pacer request_count;
      match n with
      | None => mret false
      | Some (false, _) => mret true
      | Some (true, pacer) =>
          enough ← run_request turns resource;
          if negb enough then mret false
          else worker_loop loops' turns resource start_ns pacer (request_count +64 1)
      end
  end.

(** ** The worker *)
Definition PERF_BUCKET_NAME_SIZE : Z := 256.
Definition PERF_REFRESH_INTERVAL_MS : Z := 3600 * 1000.

Definition worker_client_config (c : perf_config) (policy : r_request_policy) : r_client_config :=
  mk_config (pf_tenant_id c) (pf_auth_type c) (pf_auth_bech32 c) 0 (pf_srv_domain c)
    (Some (mk_policy (pf_unit_ms c) (pf_replay_count c) (rp_replay_gap policy) (rp_final_receive_units policy)
             (rp_completion_delivery policy)))
    false (mk_dns_policy PERF_REFRESH_INTERVAL_MS 0 0).

Definition worker_ops (c : perf_config) : r_ops := mk_ops true true (negb (pf_ignore_steering c)) true.

Definition close_worker_socket : M (pworld O) unit :=
  upd_thread (fun w => with_os (os_close (io_sockfd (pw_io w)) (pw_os w)) w).
Definition keep_traffic : M (pworld O) unit :=
  upd_thread (fun w => with_worker (set_wk_traffic (io_traffic (pw_io w)) (pw_worker w)) w).
Definition worker_failed : M (pworld O) (option Z) := _ ← upd_worker (set_wk_worker_error 1); mret (Some 1).

(** A failure after the client was created. *)
Definition give_up_client : M (pworld O) (option Z) :=
  _ ← keep_traffic; _ ← r_client_destroy; _ ← close_worker_socket; worker_failed.

(** The bucket of the worker's requests; [None] is a refusal. *)
Definition worker_resource (k : worker_ctx) : run (option r_resource_request) :=
  let c := wk_config k in
  n ← perf_bucket_name (Some (replicate (Z.to_nat PERF_BUCKET_NAME_SIZE) 0)) PERF_BUCKET_NAME_SIZE
        (Some (pf_bucket_prefix c)) (wk_client_id k) (pf_shared_bucket c);
  let '(named, bucket_name) := n in
  if negb named then Ok None else
  bucket_name ← deref bucket_name;
  len ← strlen bucket_name;
  d ← r_client_derive_bucket_id (Some bucket_name) len 60000 (pf_rate_limit c) (Some (replicate 16 0));
  let '(rc, id) := d in
  if negb (rc =? RCLIENT_OK) then Ok None else
  id ← deref id;
  Ok (Some (mk_resource_request id 60000 (pf_rate_limit c) 1)).

(** The pacer, when the run is paced: [None] is a refusal. *)
Definition worker_pacer (k : worker_ctx) : option perf_pacer :=
  let c := wk_config k in
  let zero := mk_pacer 0 0 0 0 0 0 0 in
  if pf_target_rps c =? 0 then Some zero else
  let '(ok, pacer) := perf_pacer_init (Some zero) (pf_paced_start_ns c) (pf_target_rps c) (pf_concurrent_clients c)
                        (wk_client_id k) (paced_duration c) in
  if (ok : bool) then pacer else None.

(** With the client created. *)
Definition run_worker (loops turns : nat) : M (pworld O) (option Z) :=
  k ← thread pw_worker;
  resource ← lift (worker_resource k);
  match resource with
  | None => give_up_client
  | Some resource =>
      start_ns ← monotonic;
      match worker_pacer k with
      | None =>
          _ ← upd_worker (set_wk_worker_error 1); _ ← r_client_destroy; _ ← close_worker_socket; mret (Some 1)
      | Some pacer =>
          enough ← worker_loop loops turns resource start_ns pacer 0;
          if negb enough then mret None else
          _ ← r_client_destroy; _ ← keep_traffic; _ ← close_worker_socket; mret (Some 0)
      end
  end.

(** The thread's result, when the turns suffice. *)
Definition perf_worker (loops turns : nat) : M (pworld O) (option Z) :=
  k ← thread pw_worker;
  let c := wk_config k in
  fd ← system (perf_setup_socket 0);
  _ ← upd_thread (fun w => with_io (mk_io fd (pf_ignore_steering c) traffic_zero) (pw_os w) w);
  if fd <? 0 then worker_failed else
  policy ← lift (deref (r_client_default_request_policy (Some (op_request_policy options_zero))));
  q ← r_client_create (Some (worker_client_config c policy)) (Some (worker_ops c)) true;
  let '(rc, _) := q in
  if negb (rc =? RCLIENT_OK) then
    _ ← keep_traffic; _ ← close_worker_socket; worker_failed
  else run_worker loops turns.
End Host.
