(* ===== verification/PerfNetFacts.v ===== *)
(** * The load generator: facts on its socket and datagrams

    A worker holds one socket: steering moves it or leaves it alone.  What it
    sends and receives is counted, datagram by datagram. *)

From S2P Require Import Prelude.
From S2P Require Import Types.
From S2P Require Import Wire.
From S2P Require Import Crypto.
From S2P Require Import Workflow.
From S2P Require Import State.
From S2P Require Import Steering.
From S2P Require Import Dns.
From S2P Require Import Client.
From S2P Require Import Runtime.
From S2P Require Import RuntimeFacts.
From S2P Require Import RuntimeSockets.
From S2P Require Import RuntimeHost.
From S2P Require Import PerfLatency.
From S2P Require Import PerfPacer.
From S2P Require Import Perf.
From S2P Require Import PerfFacts.
From S2P Require Import PerfNet.

(** ** The calls this program adds *)

(** A relation on systems that the calls of [PerfOs] respect. *)
Class PerfPassive {O : Type} `{PerfOs O} (R : O -> O -> Prop) : Prop := {
  pp_dual : forall fd o, R o (os_ipv6_dual fd o);
  pp_poll : forall fd timeout o a o', os_poll fd timeout o = (a, o') -> R o o';
  pp_nanosleep : forall sec nsec o a o', os_nanosleep sec nsec o = (a, o') -> R o o';
}.

Section Clocks.
Context {O : Type} `{PO : PerfOs O} (R : O -> O -> Prop) {HR : Respects R} {HP : PerfPassive R}.

Lemma perf_now_respects o a o' : perf_now_ms o = (a, o') -> R o o'.
Proof. unfold perf_now_ms. destruct (os_clock_gettime _ o) as [x o1] eqn:E. intros [= _ <-]. by eapply re_clock. Qed.

Lemma perf_mono_respects o a o' : perf_now_ns_monotonic o = (a, o') -> R o o'.
Proof.
  unfold perf_now_ns_monotonic. destruct (os_clock_gettime _ o) as [x o1] eqn:E. intros [= _ <-]. by eapply re_clock.
Qed.

Lemma sleep_respects turns due o a o' : perf_sleep_until_ns turns due o = (a, o') -> R o o'.
Proof.
  revert o; induction turns as [|n IH]; intros o; cbn [perf_sleep_until_ns]; [by intros [= _ <-]|].
  destruct (perf_now_ns_monotonic o) as [now o1] eqn:E1. apply perf_mono_respects in E1.
  case_if; [by intros [= _ <-]|]. case_if; [by intros [= _ <-]|].
  destruct (os_nanosleep _ _ o1) as [rc o2] eqn:E2. apply pp_nanosleep in E2.
  case_if; [intros [= _ <-]; by etransitivity|]. intros Hs. apply IH in Hs.
  etransitivity; [exact E1|]. by etransitivity.
Qed.
End Clocks.

Lemma perf_now_u64 {O} `{PO : PerfOs O} (o : O) t o' : perf_now_ms o = (t, o') -> is_u64 t.
Proof. unfold perf_now_ms. destruct (os_clock_gettime _ o) as [[x|] o1]; intros [= <- _]; [apply u64_range|rlia]. Qed.

Lemma perf_mono_u64 {O} `{PO : PerfOs O} (o : O) t o' : perf_now_ns_monotonic o = (t, o') -> is_u64 t.
Proof.
  unfold perf_now_ns_monotonic. destruct (os_clock_gettime _ o) as [[x|] o1]; intros [= <- _]; [apply u64_range|rlia].
Qed.

(** ** The socket *)
Class PerfKernel (O : Type) `{Kernel O} `{!PerfOs O} : Prop := {
  pk_passive :: PerfPassive (still (O := O));
}.

Section Sockets.
Context {O : Type} `{PK : PerfKernel O}.
Implicit Types o : O.

#[local] Instance still_preorder : PreOrder (still (O := O)).
Proof. exact (re_preorder (R := fun o o' => k_open o' = k_open o /\ forall fd, k_name fd o' = k_name fd o)). Qed.

Lemma perf_setup_socket_spec port o fd o' :
  perf_setup_socket port o = (fd, o') -> opened AF_INET6 port fd o o'.
Proof.
  unfold perf_setup_socket, opened. destruct (os_socket AF_INET6 o) as [f o1] eqn:Es.
  destruct (k_socket _ _ _ _ Es) as [Hn Hs]. destruct (Z.ltb_spec f 0) as [Hf|Hf].
  { intros [= <- <-]. left. split; [done|]. destruct Hs as [[_ Ho]|(? & _)]; [|lia].
    split; [set_solver|constructor|set_solver|done]. }
  destruct Hs as [[-> _]|(_ & Hfresh & Ho)]; [lia|].
  assert (H1 : opens [f] o o1).
  { split; [set_solver|apply NoDup_singleton| |done]. intros x ->%list_elem_of_singleton. by split. }
  pose proof (opens_trans _ _ _ _ _ H1 (still_opens _ _ (pp_dual (R := still) f o1))) as H2. cbn [app] in H2.
  destruct (os_bind f AF_INET6 port _) as [rb o3] eqn:Ebind. destruct (k_bind _ _ _ _ _ _ Ebind) as (Bo & Bn & Bq).
  assert (H3 : opens [f] o o3).
  { destruct H2 as [A1 A2 A3 A4]. split; [by rewrite Bo|done|done|]. intros x Hx. rewrite Bn; [by apply A4|]. by intros ->. }
  case_if; breflect.
  { intros [= <- <-]. left. split; [done|]. exact (opens_closed _ _ _ H3). }
  destruct (os_getfl f o3) as [fl o4] eqn:Eg. apply re_getfl in Eg. fold (still o3 o4) in Eg.
  set (o5 := if 0 <=? fl then _ else o4). assert (H5 : still o3 o5).
  { unfold o5. case_if; [|done]. destruct (os_setfl _ _ o4) as [x o6] eqn:Ef. apply re_setfl in Ef. fold (still o4 o6) in Ef.
    by etransitivity. }
  intros [= <- <-]. right. split; [unfold R_RUNTIME_INVALID_SOCKET; lia|].
  split; [exact (opens_trans [f] [] _ _ _ H3 (still_opens _ _ H5))|].
  destruct (Bq ltac:(lia)) as (q & Eq & Hp). exists q. destruct H5 as [_ H5n]. rewrite H5n. split; [done|].
  intros Hport. destruct (Hp Hport) as [-> Hx]. split; [done|]. intros x Hin.
  rewrite <- (op_names _ _ _ H2 x Hin). apply Hx; [|by intros ->]. rewrite (op_open _ _ _ H2). set_solver.
Qed.

Lemma opened_sign family port fd o o' : opened family port fd o o' -> fd = -1 \/ 0 <= fd.
Proof. intros [[-> _]|(_ & Ho & _)]; [by left|right]. by apply (op_fresh _ _ _ Ho fd); left. Qed.

Lemma perf_tries : tries AF_INET6 (perf_try_steering_port (O := O)).
Proof.
  intros port st r fd o'. unfold perf_try_steering_port. destruct (perf_setup_socket port (snd st)) as [f o1] eqn:Es.
  apply perf_setup_socket_spec in Es. pose proof (opened_sign _ _ _ _ _ Es) as Hf. unfold R_RUNTIME_INVALID_SOCKET.
  case_if; breflect; intros [= <- <- <-]; (split; [done|]); [split; [lia|done]|]. case_if; split; (done || lia).
Qed.

(** The worker's socket is its own, and bound. *)
Record holds (base : gset Z) (fd : Z) o : Prop := {
  ho_valid : 0 <= fd;
  ho_apart : fd ∉ base;
  ho_open : k_open o = {[fd]} ∪ base;
  ho_bound : exists port, k_name fd o = Some (AF_INET6, port);
}.

Lemma holds_still base fd o o' : holds base fd o -> still o o' -> holds base fd o'.
Proof. intros [H1 H2 H3 [p H4]] [Ho Hn]. split; [done|done|by rewrite Ho|]. exists p. by rewrite Hn. Qed.

Lemma holds_opens base fd o o' : holds base fd o -> opens [] o o' -> holds base fd o'.
Proof.
  intros [H1 H2 H3 [p H4]] Ho. split; [done|done|rewrite (op_open _ _ _ Ho), H3; set_solver|]. exists p.
  rewrite (op_names _ _ _ Ho); [done|]. rewrite H3. set_solver.
Qed.

(** The thread's first socket. *)
Lemma setup_holds base fd o o' :
  k_open o = base -> perf_setup_socket 0 o = (fd, o') ->
  (fd = -1 /\ k_open o' = base) \/ holds base fd o'.
Proof.
  intros Hb E. apply perf_setup_socket_spec in E. pose proof (opened_sign _ _ _ _ _ E) as Hs.
  destruct E as [[-> Ho]|(Hf & Ho & q & Eq & _)].
  - left. split; [done|]. rewrite (op_open _ _ _ Ho). set_solver.
  - right. destruct (op_fresh _ _ _ Ho fd ltac:(by left)) as [? Hn]. rewrite Hb in Hn.
    split; [done|done|rewrite (op_open _ _ _ Ho), Hb; set_solver|by exists q].
Qed.

(** Steering: another socket on another dynamic port in place of the old one,
    which is closed; or nothing. *)
Definition steered_to (o o' : O) (io io' : io_ctx) : Prop :=
  io' = io \/ (io_ignore_steering io = false /\ io' = io_with_socket (io_sockfd io') io /\
               moved o o' (io_sockfd io) (io_sockfd io')).

Lemma perf_steering_spec base keep io o io' o' :
  holds base (io_sockfd io) o -> perf_on_steering_feedback keep io o = (io', o') ->
  holds base (io_sockfd io') o' /\ steered_to o o' io io' /\ (keep = true -> io' = io /\ o' = o).
Proof.
  intros Hh. unfold perf_on_steering_feedback, steered_to.
  destruct (io_ignore_steering io || keep) eqn:E; [intros [= <- <-]; auto|].
  apply orb_false_iff in E as [Ei Ek]. rewrite Ek.
  pose proof (k_getsockname (io_sockfd io) o) as En. destruct (os_getsockname (io_sockfd io) o) as [name o1] eqn:Eg.
  apply re_getsockname in Eg. fold (still o o1) in Eg. cbn [fst] in En. subst name.
  destruct (ho_bound _ _ _ Hh) as [p Ename]. rewrite Ename.
  assert (Hin : io_sockfd io ∈ k_open o) by (rewrite (ho_open _ _ _ Hh); set_solver).
  change (-1) with R_RUNTIME_INVALID_SOCKET.
  destruct (r_client_select_steering_port _ _ _ _ _) as [[[rc a] b] [fd o2]] eqn:Es.
  pose proof (select_moves _ _ _ _ _ _ _ _ _ _ perf_tries Eg Hin Ename Es) as Hm. cbn [fst snd] in Hm.
  destruct (rc =? RCLIENT_OK); cbn [negb].
  - destruct Hm as (Hne & Ho & Hmv). pose proof (ho_valid _ _ _ Hh). rewrite (proj2 (Z.leb_le 0 _)) by done.
    intros [= <- <-]. cbn [io_sockfd io_with_socket]. destruct (k_close (io_sockfd io) o2) as [Ec Ecn].
    destruct (op_fresh _ _ _ Ho fd ltac:(by left)) as [Hf Hn].
    assert (Hnf : fd <> io_sockfd io) by (intros ->; done).
    destruct Hmv as (family & p0 & q & E1 & E2 & E3). rewrite Ename in E1. injection E1 as <- <-.
    rewrite (ho_open _ _ _ Hh) in Hn. pose proof (ho_apart _ _ _ Hh) as Ha.
    assert (Hb : fd ∉ base) by (intros Hx; apply Hn; by apply elem_of_union_r).
    split; [|split; [|done]].
    + split; [done|done| |].
      * rewrite Ec, (op_open _ _ _ Ho), (ho_open _ _ _ Hh). clear - Ha Hnf. apply set_eq. intros x. set_solver.
      * exists q. by rewrite Ecn.
    + right. split; [done|]. split; [done|]. exists AF_INET6, p, q. split; [done|]. split; [by rewrite Ecn|done].
  - intros [= <- <-]. split; [by eapply holds_opens|]. split; [by left|done].
Qed.
End Sockets.

(** ** Datagrams *)
Section Datagrams.
Context {O : Type} `{PO : PerfOs O}.
Implicit Types o : O.

Lemma v4_mapped_wf to : wf_addr to -> exists sa, v4_mapped to = Ok sa /\ wf_addr sa.
Proof.
  intros (Hl & Hb & _). unfold SOCKADDR_STORAGE_SIZE in Hl. unfold v4_mapped.
  destruct (rd_bytes_defined (ad_sa to) 2 2) as (p & Ep & Hpl); [lia..|].
  destruct (rd_bytes_defined (ad_sa to) 4 4) as (a & Ea & Hal); [lia..|].
  rewrite Ep, run_bind_Ok, Ea, run_bind_Ok. eexists. split; [done|].
  pose proof (rd_bytes_is_bytes _ _ _ _ Hb Ep). pose proof (rd_bytes_is_bytes _ _ _ _ Hb Ea).
  split; [|split; [|done]]; cbn [ad_sa].
  - rewrite !length_app, !length_replicate. unfold SOCKADDR_STORAGE_SIZE. cbn [length]. lia.
  - unfold is_bytes in *. repeat (apply Forall_app; split); try done; try (by apply Forall_replicate); by repeat constructor.
Qed.

(** The address a datagram is sent to: an IPv4 peer as the dual-stack socket
    knows it. *)
Definition sent_to (to : r_addr) : run r_addr :=
  family ← SA_FAMILY to; if family =? AF_INET then v4_mapped to else Ok to.

Lemma sent_to_wf to : wf_addr to -> exists sa, sent_to to = Ok sa /\ wf_addr sa.
Proof.
  intros Ht. unfold sent_to. destruct (sa_family_defined to Ht) as [f ->]. rewrite run_bind_Ok.
  case_if; [by apply v4_mapped_wf|by exists to].
Qed.

Lemma perf_record_defined t sent peer n :
  wf_addr peer -> exists t', perf_record_traffic t sent peer n = Ok t'.
Proof.
  intros Hp. unfold perf_record_traffic. destruct (ip_overhead_defined peer Hp) as (o & -> & _ & _). rewrite run_bind_Ok.
  destruct o as [o|]; [|by eexists]. destruct (add_direction _ _ _ _ _) as [d i]. by eexists.
Qed.

(** One datagram sent whole and counted, or a failure counted. *)
Definition sent_one (to : r_addr) (buf : list Z) (io io' : io_ctx) (rc : Z) : Prop :=
  (rc = 0 /\ exists sa, sent_to to = Ok sa /\ wf_addr sa /\
     exists t, count_event (io_traffic io) (Datagram true sa (zlen buf)) = Ok t /\ io' = io_with_traffic t io) \/
  (rc = -1 /\ exists t, count_event (io_traffic io) SendFailure = Ok t /\ io' = io_with_traffic t io).

Lemma perf_udp_send_spec to buf io o :
  wf_addr to -> 0 <= io_sockfd io ->
  exists sa sent rc io' o', sent_to to = Ok sa /\ os_sendto (io_sockfd io) buf sa o = (sent, o') /\
    perf_udp_send to buf io o = Ok (rc, io', o') /\ sent_one to buf io io' rc /\
    (rc = 0 <-> 0 <= sent /\ u64 sent = zlen buf).
Proof.
  intros Ht Hfd. destruct (sent_to_wf to Ht) as (sa & Esa & Hsa).
  destruct (os_sendto (io_sockfd io) buf sa o) as [sent o1] eqn:Es.
  assert (Eu : perf_udp_send to buf io o =
    if (sent <? 0) || negb (u64 sent =? zlen buf) then
      Ok (-1, io_with_traffic (send_failed (io_traffic io)) io, o1)
    else t ← perf_record_traffic (io_traffic io) true sa (zlen buf); Ok (0, io_with_traffic t io, o1)).
  { unfold perf_udp_send. rewrite (proj2 (Z.ltb_ge _ _)) by done. pose proof Esa as E. unfold sent_to in E.
    apply run_bind_inv in E as (f & -> & E). by rewrite run_bind_Ok, E, run_bind_Ok, Es. }
  rewrite Eu. exists sa, sent. destruct ((sent <? 0) || negb (u64 sent =? zlen buf)) eqn:Ec.
  - exists (-1), (io_with_traffic (send_failed (io_traffic io)) io), o1.
    split; [done|]. split; [done|]. split; [done|]. split.
    + right. split; [done|]. unfold count_event, send_failed. destruct (perf_traffic_add _ _ _) as [n i]. by eexists.
    + apply orb_true_iff in Ec as [Ec|Ec]; breflect; lia.
  - apply orb_false_iff in Ec as [E1 E2]. breflect.
    destruct (perf_record_defined (io_traffic io) true sa (zlen buf) Hsa) as [t Et]. rewrite Et, run_bind_Ok.
    exists 0, (io_with_traffic t io), o1. split; [done|]. split; [done|]. split; [done|]. split; [|done].
    left. split; [done|]. exists sa. split; [done|]. split; [done|]. by exists t.
Qed.
End Datagrams.
