(* ===== verification/PerfDnsFacts.v ===== *)
(** * The load generator: facts on name resolution

    What the cache answers is what the name server answered: the lookups are
    compared with a plain reading of its answers. *)

From Stdlib Require Import String Ascii.
From S2P Require Import Prelude.
From S2P Require Import Types.
From S2P Require Import Wire.
From S2P Require Import Crypto.
From S2P Require Import CryptoFacts.
From S2P Require Import KeyFacts.
From S2P Require Import Workflow.
From S2P Require Import State.
From S2P Require Import Steering.
From S2P Require Import Dns.
From S2P Require Import DnsFacts.
From S2P Require Import Client.
From S2P Require Import Create.
From S2P Require Import Runtime.
From S2P Require Import RuntimeFacts.
From S2P Require Import RuntimeConfig.
From S2P Require Import Perf.
From S2P Require Import PerfNet.
From S2P Require Import PerfDns.

(** ** The name server's address *)

(** The number at the start of a text, as [strtol] reads it. *)
Definition long_prefix (t : list Z) : option Z :=
  let '(negative, u) := signed (drop_space t) in
  let ds := lead_digits u in
  if bool_decide (ds = []) then None
  else Some (if negative then Z.max LONG_MIN (- dec_value ds) else Z.min LONG_MAX (dec_value ds)).

Lemma scan_prefix pre t rest :
  0 ∉ t -> scan_digits (length (pre ++ t ++ 0 :: rest)) (pre ++ t ++ 0 :: rest) (zlen pre) 0 =
  Ok (dec_value (lead_digits t), zlen (pre ++ lead_digits t)).
Proof.
  intros Hz. destruct (lead_digits_split t) as (tail & E & Hd & Ht). set (ds := lead_digits t) in *.
  destruct (head_or_nul tail rest) as (c & post & Ec & Hc).
  assert (Hcd : is_digit c = false) by (destruct Hc as [[_ ->]|[t' ->]]; done).
  rewrite E, <- app_assoc, Ec. rewrite scan_digits_spec; [done|done|done|rewrite !length_app; simpl; lia].
Qed.

Lemma strtol_spec t rest :
  0 ∉ t -> exists v stop, strtol10 (t ++ 0 :: rest) = Ok (v, stop) /\
    match long_prefix t with Some n => v = n /\ 0 < stop | None => v = 0 /\ stop = 0 end.
Proof.
  intros Hz. unfold strtol10, long_prefix.
  destruct (drop_space_split t) as (sp & E & Hs & Hd). set (body := drop_space t) in *. clearbody body. subst t.
  assert (Hzb : 0 ∉ body) by set_solver. destruct (head_or_nul body rest) as (c & post & Ec & Hc). rewrite <- app_assoc.
  assert (Hcs : is_space c = false) by (destruct Hc as [[_ ->]|[t' ->]]; done).
  pose proof (skip_space_spec sp [] (body ++ 0 :: rest) (length (sp ++ body ++ 0 :: rest)) c post Hs Ec Hcs) as Esk.
  cbn [app] in Esk. change (zlen []) with 0 in Esk. rewrite Esk by (rewrite !length_app; simpl; lia).
  rewrite run_bind_Ok. replace (rd (sp ++ body ++ 0 :: rest) (zlen sp)) with (Ok c : run Z) by (by rewrite Ec, rd_at).
  rewrite run_bind_Ok. cbv zeta.
  assert (Hdone : forall (neg : bool) pre u, pre ++ u ++ 0 :: rest = sp ++ body ++ 0 :: rest -> 0 ∉ u ->
    exists v stop, (d ← scan_digits (length (sp ++ body ++ 0 :: rest)) (sp ++ body ++ 0 :: rest) (zlen pre) 0;
      let '(value, stop) := d in
      Ok (if stop =? zlen pre then (0, 0)
          else (if neg then Z.max LONG_MIN (- value) else Z.min LONG_MAX value, stop))) = Ok (v, stop) /\
      match (if bool_decide (lead_digits u = []) then None
             else Some (if neg then Z.max LONG_MIN (- dec_value (lead_digits u))
                        else Z.min LONG_MAX (dec_value (lead_digits u)))) with
      | Some n => v = n /\ 0 < stop | None => v = 0 /\ stop = 0 end).
  { intros neg pre u <- Hu. rewrite scan_prefix, run_bind_Ok by done. case_bool_decide as Hn.
    - rewrite Hn, app_nil_r, Z.eqb_refl. by exists 0, 0.
    - assert (0 < zlen (lead_digits u)) by (destruct (lead_digits u); [done|simpl; lia]).
      rewrite (proj2 (Z.eqb_neq _ _)) by (rewrite length_app; lia). eexists _, _. split; [done|].
      split; [done|]. rewrite length_app. lia. }
  destruct Hc as [[-> ->]|[t' ->]].
  { by apply (Hdone false sp []). }
  replace (zlen sp + 1) with (zlen (sp ++ [c])) by (rewrite length_app; simpl; lia). cbn [signed].
  destruct (c =? chr "-") eqn:Em; cbn [orb].
  { apply (Hdone true); [by rewrite <- app_assoc|set_solver]. }
  destruct (c =? chr "+") eqn:Ep.
  { apply (Hdone false); [by rewrite <- app_assoc|set_solver]. }
  by apply (Hdone false sp).
Qed.

(** The host, and what follows the last colon. *)
Definition host_port (text : list Z) : list Z * option (list Z) :=
  match split_last (chr ":") text with Some (h, p) => (h, Some p) | None => (text, None) end.

Definition port_text (p : option (list Z)) : option Z :=
  match p with
  | None | Some [] => Some 53
  | Some t => n ← long_prefix t; if (1 <=? n) && (n <=? 65535) then Some n else None
  end.

Section Server.
Context (inet_pton : Z -> list Z -> option (list Z)).

(** The name server a text stands for. *)
Definition name_server (text : list Z) : option (list Z) :=
  let '(host, port) := host_port text in
  if (zlen host =? 0) || (64 <=? zlen host) then None else
  port ← port_text port;
  addr ← inet_pton AF_INET (host ++ [0]);
  Some ([AF_INET; 0] ++ htons_bytes port ++ addr ++ replicate 8 0).

Lemma dns_port_spec host p rest :
  0 ∉ p -> dns_port (host ++ chr ":" :: p ++ 0 :: rest) (Some (zlen host)) = Ok (port_text (Some p)).
Proof.
  intros Hp. unfold dns_port. replace (Z.to_nat (zlen host + 1)) with (length (host ++ [chr ":"]))
    by (rewrite length_app; simpl; lia).
  replace (host ++ chr ":" :: p ++ 0 :: rest) with ((host ++ [chr ":"]) ++ p ++ 0 :: rest) by (by rewrite <- app_assoc).
  rewrite drop_app_length. destruct p as [|c p]; [done|].
  change (rd ((c :: p) ++ 0 :: rest) 0) with (Ok c : run Z). rewrite run_bind_Ok.
  rewrite (proj2 (Z.eqb_neq c 0)) by set_solver.
  destruct (strtol_spec (c :: p) rest Hp) as (v & stop & -> & H). rewrite run_bind_Ok. unfold port_text.
  destruct (long_prefix (c :: p)) as [n|]; destruct H as [-> H]; cbn [mbind option_bind].
  - rewrite (proj2 (Z.eqb_neq stop 0)) by lia. cbn [orb]. f_equal.
    destruct (Z.leb_spec n 0), (Z.leb_spec 1 n), (Z.ltb_spec 65535 n), (Z.leb_spec n 65535); try lia; done.
  - by rewrite H.
Qed.

Lemma port_text_range p n : port_text p = Some n -> is_u16 n.
Proof.
  destruct p as [[|c p]|]; cbn [port_text]; [by intros [= <-]| |by intros [= <-]].
  destruct (long_prefix (c :: p)) as [m|]; [|done]. cbn [mbind option_bind]. case_if; [|done]. intros [= <-]. breflect. rlia.
Qed.

Lemma dns_server_at_spec host p post colon :
  dns_port (host ++ post) colon = Ok (port_text p) ->
  dns_server_at inet_pton (host ++ post) colon (zlen host) =
  Ok (if (zlen host =? 0) || (64 <=? zlen host) then None else
      port ← port_text p; addr ← inet_pton AF_INET (host ++ [0]);
      Some ([AF_INET; 0] ++ htons_bytes port ++ addr ++ replicate 8 0)).
Proof.
  intros Ep. unfold dns_server_at. case_if; [done|]. rewrite Ep.
  pose proof (rd_bytes_app [] host post 0 (zlen host) eq_refl eq_refl) as Er. cbn [app] in Er. rewrite Er, !run_bind_Ok.
  destruct (port_text p) as [n|] eqn:En; [|done]. cbn [mbind option_bind].
  rewrite u16_small by (by eapply port_text_range). by destruct (inet_pton AF_INET (host ++ [0])).
Qed.

Lemma parse_dns_server_spec text rest :
  0 ∉ text -> perf_parse_dns_server inet_pton (Some (text ++ 0 :: rest)) = Ok (name_server text).
Proof.
  intros Hz. unfold perf_parse_dns_server, name_server, host_port. rewrite strrchr_spec by done.
  destruct (split_last (chr ":") text) as [[h p]|] eqn:Es.
  - pose proof (split_last_eq _ _ _ _ Es) as ->. rewrite run_bind_Ok, Z.add_0_l, <- app_assoc.
    apply (dns_server_at_spec h (Some p)). apply dns_port_spec. set_solver.
  - rewrite strlen_text, run_bind_Ok by done. by apply (dns_server_at_spec text None).
Qed.
End Server.

(** ** Queries *)
Definition wf_dns_rr (rr : dns_rr) : Prop := is_bytes (dr_rdata rr) /\ from_option is_cstring True (dr_target rr).

(** The resolver: the message that answers a query, or none.  Its whole length
    is returned, and what fits of it is in the buffer.  Data are bytes, and
    expanded names strings. *)
Class QueryLaws (O : Type) `{PerfOs O} : Type := {
  ql_message : option (list Z) -> list Z -> Z -> option (list Z);
  ql_query : forall ns name qtype o len buf o',
    os_res_nquery ns name qtype DNS_ANSWER_SIZE o = (len, buf, o') ->
    zlen buf = DNS_ANSWER_SIZE /\
    match ql_message ns name qtype with
    | Some m => len = zlen m /\ 0 < len /\ take (length m) buf = take (Z.to_nat DNS_ANSWER_SIZE) m
    | None => len <= 0
    end;
  ql_wf : forall message l, ns_message message = Some l -> Forall (from_option wf_dns_rr True) l;
}.

(** The records of an answer. *)
Definition ql_answer {O} `{QueryLaws O} (ns : option (list Z)) (name : list Z) (qtype : Z) : option (list (option dns_rr)) :=
  ql_message ns name qtype ≫= ns_message.

(** No answer is longer than the buffer.  (A longer one is read beyond it.) *)
Definition answers_fit (O : Type) `{QueryLaws O} : Prop :=
  forall ns name qtype m, ql_message ns name qtype = Some m -> zlen m <= DNS_ANSWER_SIZE.
Existing Class answers_fit.

(** The allocator never fails. *)
Definition steady (O : Type) `{Os O} : Prop := forall (o : O) ok o', os_alloc o = (ok, o') -> ok = true.

(** *** What the answers say *)
Definition addr_of (sa : list Z) : r_addr :=
  mk_addr (sa ++ replicate (Z.to_nat (SOCKADDR_STORAGE_SIZE - zlen sa)) 0) (zlen sa).
Definition addrs_of (qtype : Z) (rrs : list (option dns_rr)) : list r_addr :=
  map addr_of (omap (fun rr => rr ≫= sockaddr_of qtype) rrs).

Definition be16 (data : list Z) (i : nat) : Z := 256 * nth i data 0 + nth (S i) data 0.
Definition record_of (rr : dns_rr) : option r_srv_record :=
  if negb (wanted ns_t_srv rr) || (zlen (dr_rdata rr) <? 7) then None else
  target ← dr_target rr;
  Some (mk_srv (Some (before_nul target ++ [0])) (be16 (dr_rdata rr) 4) (be16 (dr_rdata rr) 0)
          (be16 (dr_rdata rr) 2) (u32 (u32 (dr_ttl rr) * 1000))).
Definition records_of (rrs : list (option dns_rr)) : list r_srv_record := omap (fun rr => rr ≫= record_of) rrs.

Section Queries.
Context {O : Type} `{QL : QueryLaws O} {fits : answers_fit O}.
Implicit Types o : O.

(** The addresses of a name: those of IPv4, then those of IPv6. *)
Definition addresses (ns : option (list Z)) (name : list Z) : list r_addr :=
  addrs_of ns_t_a (default [] (ql_answer ns name ns_t_a)) ++
  addrs_of ns_t_aaaa (default [] (ql_answer ns name ns_t_aaaa)).
Definition services (ns : option (list Z)) (name : list Z) : list r_srv_record :=
  records_of (default [] (ql_answer ns name ns_t_srv)).

Lemma sockaddr_of_wf qtype rr sa :
  wf_dns_rr rr -> sockaddr_of qtype rr = Some sa -> is_bytes sa /\ 0 < zlen sa <= SOCKADDR_STORAGE_SIZE.
Proof.
  intros [Hb _]. unfold sockaddr_of, SOCKADDR_STORAGE_SIZE. case_if; [done|]. repeat case_if; try done; intros [= <-]; breflect.
  - split; [|cbn [length]; rewrite !length_app; cbn [length]; lia].
    do 4 (constructor; [done|]). apply Forall_app. split; [done|by repeat constructor].
  - split; [|cbn [length]; rewrite !length_app; cbn [length]; lia].
    do 8 (constructor; [done|]). apply Forall_app. split; [done|by repeat constructor].
Qed.

Lemma addr_of_wf sa : is_bytes sa -> 0 < zlen sa <= SOCKADDR_STORAGE_SIZE -> wf_addr (addr_of sa).
Proof.
  intros Hb Hl. split; [|split]; cbn [ad_sa ad_len addr_of]; [|by apply Forall_app; split; [|apply Forall_replicate]|lia].
  rewrite length_app, length_replicate. lia.
Qed.

Lemma addrs_of_wf qtype rrs : Forall (from_option wf_dns_rr True) rrs -> Forall wf_addr (addrs_of qtype rrs).
Proof.
  intros Hr. unfold addrs_of. apply Forall_map, Forall_forall. intros sa Hs.
  apply list_elem_of_omap in Hs as (rr & Hin & Hsa). rewrite Forall_forall in Hr. specialize (Hr rr Hin).
  destruct rr as [rr|]; [|done]. destruct (sockaddr_of_wf qtype rr sa Hr Hsa). by apply addr_of_wf.
Qed.

Lemma addr_list_push_spec l sa o :
  is_bytes sa -> 0 < zlen sa <= SOCKADDR_STORAGE_SIZE ->
  exists rc l' o', addr_list_push l sa (zlen sa) o = Ok (rc, l', o') /\
    (al_items l' = al_items l ++ [addr_of sa] \/ al_items l' = al_items l /\ ~ steady O).
Proof.
  intros Hb Hl. unfold addr_list_push. rewrite (proj2 (Z.eqb_neq _ 0)) by lia. cbv zeta.
  destruct (if zlen (al_items l) =? al_cap l then os_alloc o else (true, o)) as [ok o1] eqn:Ea. destruct ok; cbn [negb].
  2:{ do 3 eexists. split; [done|]. right. split; [done|]. intros Hs. case_match; [by apply Hs in Ea|done]. }
  rewrite (proj2 (Z.ltb_ge _ _)) by lia. rewrite rd_bytes_whole, run_bind_Ok by done.
  assert (Ew : wr (ad_sa addr_zero) 0 sa = Ok (ad_sa (addr_of sa))).
  { cbn [ad_sa addr_zero addr_of]. replace (Z.to_nat SOCKADDR_STORAGE_SIZE)
      with (length sa + Z.to_nat (SOCKADDR_STORAGE_SIZE - zlen sa))%nat by lia.
    rewrite replicate_add. apply (wr_app [] (replicate (length sa) 0)); [done|by rewrite length_replicate]. }
  rewrite Ew, run_bind_Ok. do 3 eexists. split; [done|]. by left.
Qed.

Lemma addrs_of_cons qtype rr rrs :
  addrs_of qtype (rr :: rrs) =
  match rr ≫= sockaddr_of qtype with Some sa => addr_of sa :: addrs_of qtype rrs | None => addrs_of qtype rrs end.
Proof. unfold addrs_of. cbn. by destruct (rr ≫= sockaddr_of qtype). Qed.

Lemma push_records_spec qtype rrs l o :
  Forall (from_option wf_dns_rr True) rrs ->
  exists l' o' xs, push_records qtype rrs l o = Ok (l', o') /\ al_items l' = al_items l ++ xs /\
    Forall wf_addr xs /\ (steady O -> xs = addrs_of qtype rrs).
Proof.
  intros Hr. revert l o; induction Hr as [|rr rrs Hrr _ IH]; intros l o; cbn [push_records].
  { exists l, o, []. by rewrite app_nil_r. }
  rewrite addrs_of_cons. destruct (rr ≫= sockaddr_of qtype) as [sa|] eqn:Es; [|by apply IH].
  assert (Hsa : is_bytes sa /\ 0 < zlen sa <= SOCKADDR_STORAGE_SIZE).
  { destruct rr as [rr|]; [|done]. by eapply sockaddr_of_wf. }
  destruct (addr_list_push_spec l sa o) as (rc & l1 & o1 & -> & Hl1); [apply Hsa..|]. rewrite run_bind_Ok.
  destruct (IH l1 o1) as (l2 & o2 & xs & -> & E2 & Hx & Hs). destruct Hl1 as [E1|[E1 Hn]].
  - exists l2, o2, (addr_of sa :: xs). rewrite E2, E1, <- app_assoc. split; [done|]. split; [done|].
    split; [constructor; [apply addr_of_wf; apply Hsa|done]|]. intros Hst. by rewrite (Hs Hst).
  - exists l2, o2, xs. rewrite E2, E1. split; [done|]. split; [done|]. split; [done|]. by intros Hst.
Qed.

Lemma message_spec ns name qtype o len buf o' :
  os_res_nquery ns name qtype DNS_ANSWER_SIZE o = (len, buf, o') -> 0 < len ->
  message_records buf len = Ok (ql_answer ns name qtype) /\
  from_option (Forall (from_option wf_dns_rr True)) True (ql_answer ns name qtype).
Proof.
  intros E Hl. destruct (ql_query _ _ _ _ _ _ _ E) as (Hb & Hm). unfold ql_answer.
  destruct (ql_message ns name qtype) as [m|] eqn:Em0; [|lia]. destruct Hm as (-> & _ & Et). pose proof (fits _ _ _ _ Em0) as Hfit.
  unfold message_records. rewrite rd_bytes_take, run_bind_Ok by lia. rewrite Nat2Z.id, Et, take_ge by lia. split; [done|].
  cbn [mbind option_bind]. destruct (ns_message _) as [l|] eqn:Em; [|done]. by eapply ql_wf.
Qed.

Lemma no_message ns name qtype o len buf o' :
  os_res_nquery ns name qtype DNS_ANSWER_SIZE o = (len, buf, o') -> len <= 0 -> ql_answer ns name qtype = None.
Proof.
  intros E Hl. destruct (ql_query _ _ _ _ _ _ _ E) as (_ & Hm). unfold ql_answer.
  destruct (ql_message ns name qtype); [lia|done].
Qed.

Lemma query_addrs_of_spec ns name qtype l o :
  exists l' o' xs, query_addrs_of (mk_resolver ns true) name qtype l o = Ok (l', o') /\
    al_items l' = al_items l ++ xs /\ Forall wf_addr xs /\
    (steady O -> xs = addrs_of qtype (default [] (ql_answer ns name qtype))).
Proof.
  unfold query_addrs_of. cbn [rs_nameserver]. destruct (os_res_nquery _ _ _ _ o) as [[len buf] o1] eqn:Eq.
  destruct (Z.ltb_spec 0 len) as [Hl|Hl].
  2:{ rewrite (no_message _ _ _ _ _ _ _ Eq Hl). exists l, o1, []. by rewrite app_nil_r. }
  destruct (message_spec _ _ _ _ _ _ _ Eq Hl) as [Em Hw]. unfold dns_parse_addrs. rewrite Em, run_bind_Ok.
  destruct (ql_answer ns name qtype) as [rrs|]; [|rewrite run_bind_Ok; exists l, o1, []; by rewrite app_nil_r].
  destruct (push_records_spec qtype rrs l o1 Hw) as (l2 & o2 & xs & -> & E2 & Hx & Hs). rewrite !run_bind_Ok.
  by exists l2, o2, xs.
Qed.

Lemma query_addrs_spec ns name o :
  exists rc l o', dns_query_addrs (mk_resolver ns true) name o = Ok (rc, l, o') /\
    Forall wf_addr (al_items l) /\ (rc = 0 <-> al_items l <> []) /\ (steady O -> al_items l = addresses ns name).
Proof.
  unfold dns_query_addrs. cbn [rs_initialized negb].
  destruct (query_addrs_of_spec ns name ns_t_a addr_list_zero o) as (l1 & o1 & xs & -> & E1 & Hx & Hs). rewrite run_bind_Ok.
  destruct (query_addrs_of_spec ns name ns_t_aaaa l1 o1) as (l2 & o2 & ys & -> & E2 & Hy & Ht). rewrite run_bind_Ok.
  do 3 eexists. split; [done|]. cbn in E1. rewrite E1 in E2. rewrite E2. split; [by apply Forall_app|]. split.
  - destruct (xs ++ ys) as [|x l]; [done|]. rewrite (proj2 (Z.ltb_lt 0 _)) by (simpl; lia). done.
  - intros Hst. unfold addresses. by rewrite <- Hs, <- Ht.
Qed.

(** *** Service records *)
Lemma perf_strdup_spec src o :
  0 ∈ src -> exists copy o', perf_strdup src o = Ok (copy, o') /\
    (copy = Some (before_nul src ++ [0]) \/ copy = None /\ ~ steady O).
Proof.
  intros Hin. destruct (before_nul_split src Hin) as [rest E]. unfold perf_strdup.
  assert (strlen src = Ok (zlen (before_nul src))) as -> by (rewrite E at 1; apply strlen_text, before_nul_free).
  rewrite run_bind_Ok. destruct (os_alloc o) as [ok o1] eqn:Ea.
  destruct ok; cbn [negb]; [|do 2 eexists; split; [done|]; right; split; [done|]; intros Hs; by apply Hs in Ea].
  set (t := before_nul src) in *. clearbody t. subst src.
  pose proof (rd_bytes_app [] (t ++ [0]) rest 0 (zlen t + 1) eq_refl ltac:(rewrite length_app; simpl; lia)) as Er.
  cbn [app] in Er. rewrite <- app_assoc in Er. cbn [app] in Er. rewrite Er, run_bind_Ok. do 2 eexists. split; [done|]. by left.
Qed.

Lemma get16_spec data i :
  0 <= i -> i + 1 < zlen data -> ns_get16 data i = Ok (be16 data (Z.to_nat i)).
Proof.
  intros Hi Hl. unfold ns_get16, be16.
  assert (Hrd : forall j, 0 <= j < zlen data -> rd data j = Ok (nth (Z.to_nat j) data 0)).
  { intros j Hj. unfold rd. rewrite (proj2 (Z.leb_le 0 j)) by lia.
    destruct (lookup_lt_is_Some_2 data (Z.to_nat j)) as [x Hx]; [lia|]. rewrite Hx. by rewrite (nth_lookup_Some _ _ 0 x Hx). }
  rewrite !Hrd, !run_bind_Ok by lia. by replace (Z.to_nat (i + 1)) with (S (Z.to_nat i)) by lia.
Qed.

Lemma nth_byte data i : is_bytes data -> is_u8 (nth i data 0).
Proof.
  intros Hb. rewrite nth_lookup. destruct (data !! i) as [x|] eqn:E; cbn; [|rlia]. by eapply Forall_lookup_1 in E.
Qed.

Lemma be16_range data i : is_bytes data -> is_u16 (be16 data i).
Proof.
  intros Hb. unfold be16. pose proof (nth_byte data i Hb). pose proof (nth_byte data (S i) Hb).
  set (a := nth i data 0) in *. set (b := nth (S i) data 0) in *. clearbody a b. rlia.
Qed.

Lemma record_of_wf rr r : wf_dns_rr rr -> record_of rr = Some r -> wf_srv r.
Proof.
  intros [Hb Ht]. unfold record_of. destruct (negb _ || _); [done|]. destruct (dr_target rr) as [t|]; [|done]. cbn in Ht |- *. intros [= <-].
  destruct Ht as [Htb Htz]. destruct (before_nul_split t Htz) as [rest E].
  split; [|split; [|apply u32_range]]; cbn [sv_target sv_port from_option].
  - split; [|set_solver]. rewrite E in Htb. apply Forall_app in Htb as [? _]. apply Forall_app. split; [done|].
    constructor; [rlia|done].
  - by apply be16_range.
Qed.

Lemma srv_of_spec rr :
  from_option is_cstring True (dr_target rr) ->
  exists k, srv_of rr = Ok k /\
    match k with
    | None => record_of rr = None
    | Some (t, port, priority, weight, ttl) => (0 ∈ t) /\
        record_of rr = Some (mk_srv (Some (before_nul t ++ [0])) port priority weight ttl)
    end.
Proof.
  intros Ht. unfold srv_of, record_of. destruct (negb _ || _) eqn:E; [by eexists|].
  apply orb_false_iff in E as [_ E]. breflect.
  rewrite !get16_spec, !run_bind_Ok by lia. eexists. split; [done|]. destruct (dr_target rr) as [t|]; [|done]. by destruct Ht.
Qed.
(** A block that is exactly a string. *)
Definition named (block : list Z) : Prop := exists t, block = t ++ [0] /\ 0 ∉ t.
Definition target_named (r : r_srv_record) : Prop := exists b, sv_target r = Some b /\ named b.

Lemma collect_srv_spec rrs records o :
  Forall (from_option wf_dns_rr True) rrs ->
  exists rs o', collect_srv rrs records o = Ok (records ++ rs, o') /\
    Forall (fun r => wf_srv r /\ target_named r) rs /\ (steady O -> rs = records_of rrs).
Proof.
  intros Hr. revert records o; induction Hr as [|rr rrs Hrr _ IH]; intros records o; cbn [collect_srv].
  { exists [], o. by rewrite app_nil_r. }
  destruct rr as [rr|]; [|apply IH]. cbn [from_option] in Hrr.
  destruct (srv_of_spec rr (proj2 Hrr)) as (k & -> & Hk). rewrite run_bind_Ok.
  assert (Hskip : forall o, record_of rr = None \/ ~ steady O ->
    exists rs o', collect_srv rrs records o = Ok (records ++ rs, o') /\
      Forall (fun r => wf_srv r /\ target_named r) rs /\ (steady O -> rs = records_of (Some rr :: rrs))).
  { intros o1 Hw. destruct (IH records o1) as (rs & o2 & E & Hf & Hs). exists rs, o2. split; [done|]. split; [done|].
    intros Hst. destruct Hw as [Hw|Hw]; [|done]. unfold records_of. cbn. rewrite Hw. by apply Hs. }
  destruct k as [[[[[t port] prio] weight] ttl]|]; [|apply Hskip; by left]. destruct Hk as [Ht Er].
  destruct (perf_strdup_spec t o Ht) as (copy & o1 & -> & Hc). rewrite run_bind_Ok.
  destruct Hc as [->|[-> Hn]]; [|apply Hskip; by right].
  set (r := mk_srv _ port prio weight ttl) in *. destruct (IH (records ++ [r]) o1) as (rs & o2 & -> & Hf & Hs).
  exists (r :: rs), o2. rewrite <- app_assoc. split; [done|]. split.
  - constructor; [|done]. split; [by eapply record_of_wf|]. eexists. split; [done|]. eexists. split; [done|apply before_nul_free].
  - intros Hst. unfold records_of. cbn. rewrite Er. by rewrite (Hs Hst).
Qed.

Lemma query_srv_spec ns name o :
  exists rc rs o', dns_query_srv (mk_resolver ns true) name o = Ok (rc, rs, o') /\
    Forall (fun r => wf_srv r /\ target_named r) rs /\ (steady O -> rs = services ns name).
Proof.
  unfold dns_query_srv, services. cbn [rs_initialized rs_nameserver negb].
  destruct (os_res_nquery _ _ _ _ o) as [[len buf] o1] eqn:Eq. destruct (Z.leb_spec len 0) as [Hl|Hl].
  { rewrite (no_message _ _ _ _ _ _ _ Eq Hl). do 3 eexists. by split. }
  destruct (message_spec _ _ _ _ _ _ _ Eq Hl) as [-> Hw]. rewrite run_bind_Ok.
  destruct (ql_answer ns name ns_t_srv) as [rrs|]; [|do 3 eexists; by split]. cbn [default from_option id] in *.
  destruct (Z.leb_spec (zlen rrs) 0) as [Hz|Hz].
  { destruct rrs; [|simpl in Hz; lia]. do 3 eexists. by split. }
  destruct (os_alloc o1) as [ok o2] eqn:Ea. destruct ok; cbn [negb].
  2:{ do 3 eexists. split; [done|]. split; [done|]. intros Hst. by apply Hst in Ea. }
  destruct (collect_srv_spec rrs [] o2 Hw) as (rs & o3 & -> & Hf & Hs). rewrite run_bind_Ok. by do 3 eexists.
Qed.

(** ** The cache *)
Definition found (entries : list dns_addr_entry) (name : list Z) : option (list r_addr) :=
  ae_items <$> find (fun e => bool_decide (ae_name e = name)) entries.

Definition entry_ok (e : dns_addr_entry) : Prop := named (ae_name e) /\ Forall wf_addr (ae_items e) /\ ae_items e <> [].

Record cache_ok (c : perf_dns_cache) : Prop := {
  co_srv_name : from_option named True (ch_srv_name c);
  co_records : Forall wf_srv (ch_srv_records c);
  co_entries : Forall entry_ok (ch_addr_entries c);
}.

Lemma cache_zero_ok : cache_ok perf_dns_cache_zero.
Proof. by split. Qed.

Lemma named_eq a t rest : named a -> 0 ∉ t -> str_eq a (t ++ 0 :: rest) = Ok (bool_decide (a = t ++ [0])).
Proof.
  intros (u & -> & Hu) Ht. change (u ++ [0]) with (u ++ 0 :: []). rewrite str_eq_spec by done. f_equal.
  apply bool_decide_ext. split; [by intros ->|]. by intros ?%app_inv_tail.
Qed.

Lemma find_entry_spec entries t rest :
  Forall entry_ok entries -> 0 ∉ t ->
  find_entry entries (t ++ 0 :: rest) = Ok (find (fun e => bool_decide (ae_name e = t ++ [0])) entries).
Proof.
  intros He Ht. induction He as [|e entries [Hn _] _ IH]; [done|]. cbn [find_entry find].
  rewrite named_eq, run_bind_Ok by done. by case_bool_decide.
Qed.

Lemma found_snoc entries e name :
  found (entries ++ [e]) name =
  match found entries name with
  | Some x => Some x
  | None => if bool_decide (ae_name e = name) then Some (ae_items e) else None
  end.
Proof.
  unfold found. induction entries as [|e' entries IH]; cbn [app find].
  - by destruct (bool_decide _).
  - destruct (bool_decide (ae_name e' = name)); [done|exact IH].
Qed.

(** What stays of a cache when an entry is added. *)
Definition same_service (c c' : perf_dns_cache) : Prop :=
  ch_tenant_name c' = ch_tenant_name c /\ ch_srv_name c' = ch_srv_name c /\ ch_srv_records c' = ch_srv_records c.

Lemma add_addrs_spec c b l o :
  cache_ok c -> named b -> Forall wf_addr (al_items l) -> al_items l <> [] ->
  exists rc c' o', perf_dns_cache_add_addrs c b l o = Ok (rc, c', o') /\ cache_ok c' /\ same_service c c' /\
    (steady O -> rc = 0 /\ forall name, found (ch_addr_entries c') name =
       match found (ch_addr_entries c) name with
       | Some x => Some x
       | None => if bool_decide (b = name) then Some (al_items l) else None
       end).
Proof.
  intros Hc (t & -> & Ht) Hl Hne. unfold perf_dns_cache_add_addrs, perf_dns_cache_find_addrs.
  assert (Hz : (zlen (al_items l) =? 0) = false) by (apply Z.eqb_neq; destruct (al_items l); [done|simpl; lia]).
  rewrite Hz. rewrite find_entry_spec, run_bind_Ok by (done || apply Hc).
  destruct (find _ (ch_addr_entries c)) as [e|] eqn:Ef; cbn [is_null negb].
  { exists 0, c, o. split; [done|]. split; [done|]. split; [done|]. intros _. split; [done|]. intros name.
    destruct (found (ch_addr_entries c) name) eqn:En; [done|]. case_bool_decide as Hb; [|done]. subst name.
    unfold found in En. by rewrite Ef in En. }
  destruct (os_alloc o) as [ok o1] eqn:Ea. destruct ok; cbn [negb].
  2:{ do 3 eexists. split; [done|]. split; [done|]. split; [done|]. intros Hst. by apply Hst in Ea. }
  destruct (perf_strdup_spec (t ++ [0]) o1 ltac:(set_solver)) as (copy & o2 & -> & Hcp). rewrite run_bind_Ok.
  destruct Hcp as [->|[-> Hn]]; [|by do 3 eexists]. rewrite before_nul_text by done.
  unfold addr_list_clone. rewrite Hz. destruct (os_alloc o2) as [ok o3] eqn:Ea2. destruct ok; cbn [negb Z.eqb].
  2:{ do 3 eexists. split; [done|]. split; [done|]. split; [done|]. intros Hst. by apply Hst in Ea2. }
  cbn [default from_option id]. set (e := mk_entry (t ++ [0]) (al_items l)). eexists 0, _, o3. split; [done|].
  split; [|split; [done|]].
  - destruct Hc as [H1 H2 H3]. split; [done|done|]. cbn. apply Forall_app. split; [done|]. constructor; [|done].
    split; [by exists t|]. by split.
  - intros _. split; [done|]. intros name. cbn [ch_addr_entries]. by rewrite found_snoc.
Qed.

(** The addresses a list of records makes known. *)
Definition known (ns : option (list Z)) (rs : list r_srv_record) (name : list Z) : option (list r_addr) :=
  if bool_decide (Some name ∈ map sv_target rs) && negb (bool_decide (addresses ns name = []))
  then Some (addresses ns name) else None.

Lemma fill_addrs_spec ns rs c o :
  cache_ok c -> Forall target_named rs ->
  exists ok c' o', fill_addrs (mk_resolver ns true) rs c o = Ok (ok, c', o') /\ cache_ok c' /\ same_service c c' /\
    (steady O -> ok = true /\ forall name, found (ch_addr_entries c') name =
       match found (ch_addr_entries c) name with Some x => Some x | None => known ns rs name end).
Proof.
  intros Hc Hr. revert c o Hc; induction Hr as [|r rs (b & Eb & Hb) _ IH]; intros c o Hc; cbn [fill_addrs].
  { exists true, c, o. split; [done|]. split; [done|]. split; [done|]. intros _. split; [done|]. intros name.
    by destruct (found _ name). }
  rewrite Eb. cbn [deref of_option]. rewrite run_bind_Ok.
  destruct (query_addrs_spec ns b o) as (rc & l & o1 & -> & Hl & Hrc & Hs). rewrite run_bind_Ok.
  assert (Hknown : forall name, known ns (r :: rs) name =
    if bool_decide (b = name) && negb (bool_decide (addresses ns name = [])) then Some (addresses ns name)
    else known ns rs name).
  { intros name. unfold known. cbn [map]. rewrite Eb. destruct (decide (b = name)) as [->|Hne].
    - rewrite bool_decide_true by set_solver. rewrite (bool_decide_true (name = name)) by done. cbn [andb].
      case_bool_decide; cbn [negb]; [by rewrite andb_false_r|done].
    - rewrite (bool_decide_false (b = name)) by done. cbn [andb].
      rewrite (bool_decide_ext (Some name ∈ Some b :: map sv_target rs) (Some name ∈ map sv_target rs)); [done|].
      rewrite elem_of_cons. split; [by intros [[= ->]|]|by right]. }
  destruct (Z.eqb_spec rc 0) as [->|Hne]; cbn [negb].
  - destruct (add_addrs_spec c b l o1 Hc Hb Hl (proj1 Hrc eq_refl)) as (rc2 & c2 & o2 & -> & Hc2 & Hsame & Hadd).
    rewrite run_bind_Ok. destruct (Z.eqb_spec rc2 0) as [->|Hne2]; cbn [negb].
    2:{ do 3 eexists. split; [done|]. split; [done|]. split; [done|]. intros Hst. by destruct (Hadd Hst). }
    destruct (IH c2 o2 Hc2) as (ok & c3 & o3 & -> & Hc3 & Hsame3 & Hfill). do 3 eexists. split; [done|]. split; [done|].
    split; [destruct Hsame as (? & ? & ?), Hsame3 as (? & ? & ?); split; [|split]; congruence|].
    intros Hst. destruct (Hfill Hst) as [Hok Hf]. split; [done|]. intros name. rewrite Hf.
    destruct (Hadd Hst) as [_ Ha]. rewrite Ha, Hknown. destruct (found (ch_addr_entries c) name); [done|].
    case_bool_decide as Hbn; cbn [andb]; [|done]. subst name. rewrite (Hs Hst) in Hrc |- *.
    by rewrite bool_decide_false by (by apply Hrc).
  - destruct (IH c o1 Hc) as (ok & c3 & o3 & -> & Hc3 & Hsame3 & Hfill). do 3 eexists. split; [done|]. split; [done|].
    split; [done|]. intros Hst. destruct (Hfill Hst) as [Hok Hf]. split; [done|]. intros name. rewrite Hf, Hknown.
    destruct (found (ch_addr_entries c) name); [done|]. case_bool_decide as Hbn; cbn [andb]; [|done]. subst name.
    rewrite bool_decide_true; [done|]. rewrite <- (Hs Hst). destruct (al_items l) eqn:El; [done|]. destruct Hne. by apply Hrc.
Qed.
End Queries.

(** ** Filling the cache *)
Section Init.
Context (inet_pton : Z -> list Z -> option (list Z)).
Context {O : Type} `{QL : QueryLaws O} {fits : answers_fit O}.
Implicit Types o : O.

(** The name server the environment asks for. *)
Definition configured_server (env : environment) : option (list Z) :=
  text ← setting (env (cbytes "RCLIENT_DNS_SERVER")); name_server inet_pton text.

Lemma resolver_init_spec env o :
  from_option is_cstring True (env (cbytes "RCLIENT_DNS_SERVER")) ->
  exists rc r o', dns_resolver_init inet_pton env o = Ok (rc, r, o') /\
    (rc = 0 -> r = mk_resolver (configured_server env) true) /\
    (fst (os_res_ninit o) = 0 -> rc = 0).
Proof.
  intros He. unfold dns_resolver_init, configured_server. destruct (os_res_ninit o) as [rc0 o1] eqn:Ei. cbn [fst].
  destruct (Z.eqb_spec rc0 0) as [->|Hne]; cbn [negb]; [|do 3 eexists; split; [done|]; split; [lia|done]].
  destruct (setting_cases _ He) as [-> Hs]. rewrite run_bind_Ok.
  destruct (setting (env (cbytes "RCLIENT_DNS_SERVER"))) as [text|]; cbn [is_null negb].
  - destruct Hs as (rest & -> & Hz & _). rewrite parse_dns_server_spec, run_bind_Ok by done. by do 3 eexists.
  - rewrite run_bind_Ok. by do 3 eexists.
Qed.

(** The service of a tenant. *)
Definition service_name (tenant : list Z) : list Z := cbytes "_ratelimitly._udp." ++ before_nul tenant.

Lemma service_name_free tenant : 0 ∉ service_name tenant.
Proof.
  unfold service_name. rewrite elem_of_app. intros [Hi|Hi]; [|by apply (before_nul_free tenant)].
  revert Hi. by apply (bool_decide_unpack (0 ∉ cbytes "_ratelimitly._udp.")).
Qed.

Lemma srv_name_of_spec tenant : 0 ∈ tenant -> srv_name_of tenant = Ok (service_name tenant).
Proof.
  intros Hin. destruct (before_nul_split tenant Hin) as [rest E]. pose proof (before_nul_free tenant) as Hz.
  unfold srv_name_of, service_name. set (t := before_nul tenant) in *. clearbody t. subst tenant.
  rewrite strlen_text, run_bind_Ok by done.
  pose proof (rd_bytes_app [] t (0 :: rest) 0 (zlen t) eq_refl eq_refl) as Er. cbn [app] in Er. by rewrite Er, run_bind_Ok.
Qed.

(** What the cache holds of a service: what the name server answered. *)
Definition mirrors (ns : option (list Z)) (srv : list Z) (c : perf_dns_cache) : Prop :=
  ch_srv_records c = services ns srv /\
  forall name, found (ch_addr_entries c) name = known ns (services ns srv) name.

Lemma resolve_service_spec ns tenant srv o :
  named srv ->
  exists rc c o', resolve_service (mk_resolver ns true) tenant srv o = Ok (rc, c, o') /\ cache_ok c /\
    (rc <> 0 -> c = perf_dns_cache_zero) /\
    (rc = 0 -> ch_srv_name c = Some srv /\ (steady O -> mirrors ns srv c)) /\ (steady O -> rc = 0).
Proof.
  intros Hn. unfold resolve_service. destruct (query_srv_spec ns srv o) as (rc & rs & o1 & -> & Hr & Hs).
  rewrite run_bind_Ok. set (c0 := mk_cache (Some tenant) (Some srv) rs []).
  assert (Hc0 : cache_ok c0) by (split; [done|by eapply Forall_impl; [exact Hr|intros ? []]|done]).
  destruct (fill_addrs_spec ns rs c0 o1 Hc0) as (ok & c & o2 & -> & Hc & (_ & En & Er) & Hf).
  { eapply Forall_impl; [exact Hr|by intros ? []]. }
  rewrite run_bind_Ok. destruct ok.
  - exists 0, c. eexists. split; [done|]. split; [done|]. split; [done|]. split; [|done]. intros _. split; [done|].
    intros Hst. unfold mirrors. rewrite <- (Hs Hst), Er. split; [done|]. intros name. by rewrite (proj2 (Hf Hst)).
  - exists (-1), perf_dns_cache_zero. eexists. split; [done|]. split; [apply cache_zero_ok|]. split; [done|].
    split; [done|]. intros Hst. by destruct (Hf Hst).
Qed.

(** A cache comes up whole, or empty with a failure. *)
Lemma cache_init_spec env tenant o :
  from_option is_cstring True (env (cbytes "RCLIENT_DNS_SERVER")) -> is_cstring tenant ->
  exists rc c o', perf_dns_cache_init inet_pton env (Some tenant) o = Ok (rc, c, o') /\ cache_ok c /\
    (rc <> 0 -> c = perf_dns_cache_zero) /\
    (rc = 0 -> ch_srv_name c = Some (service_name tenant ++ [0]) /\
       (steady O -> mirrors (configured_server env) (service_name tenant ++ [0]) c)) /\
    (steady O -> (forall o', fst (os_res_ninit o') = 0) -> zlen (service_name tenant) < SRV_NAME_SIZE -> rc = 0).
Proof.
  intros He [_ Hin]. unfold perf_dns_cache_init.
  assert (Hfail : forall o1, (steady O -> (forall o', fst (os_res_ninit o') = 0) ->
      zlen (service_name tenant) < SRV_NAME_SIZE -> False) ->
    exists rc c o', Ok (-1, perf_dns_cache_zero, o1) = Ok (rc, c, o') /\ cache_ok c /\
      (rc <> 0 -> c = perf_dns_cache_zero) /\
      (rc = 0 -> ch_srv_name c = Some (service_name tenant ++ [0]) /\
         (steady O -> mirrors (configured_server env) (service_name tenant ++ [0]) c)) /\
      (steady O -> (forall o', fst (os_res_ninit o') = 0) -> zlen (service_name tenant) < SRV_NAME_SIZE -> rc = 0)).
  { intros o1 Hno. do 3 eexists. split; [done|]. split; [apply cache_zero_ok|]. split; [done|]. split; [done|].
    intros A1 A2 A3. by destruct (Hno A1 A2 A3). }
  destruct (perf_strdup_spec tenant o Hin) as (copy & o1 & -> & Hc). rewrite run_bind_Ok.
  destruct Hc as [->|[-> Hn]]; [|by apply Hfail].
  destruct (resolver_init_spec env o1 He) as (rc & r & o2 & -> & Hr & Hz). rewrite run_bind_Ok.
  destruct (Z.eqb_spec rc 0) as [->|Hne]; cbn [negb].
  2:{ apply Hfail. intros _ Hi _. apply Hne, Hz, Hi. }
  rewrite (Hr eq_refl), srv_name_of_spec, run_bind_Ok by done. destruct (Z.leb_spec SRV_NAME_SIZE (zlen (service_name tenant))); [apply Hfail; lia|].
  destruct (perf_strdup_spec (service_name tenant ++ [0]) o2 ltac:(set_solver)) as (name & o3 & -> & Hc). rewrite run_bind_Ok.
  rewrite before_nul_text in Hc by apply service_name_free.
  destruct Hc as [->|[-> Hn]]; [|by apply Hfail].
  destruct (resolve_service_spec (configured_server env) (before_nul tenant ++ [0]) (service_name tenant ++ [0]) o3)
    as (rc & c & o4 & -> & Hok & Hz0 & Hm & Hrc); [eexists; split; [done|apply service_name_free]|].
  exists rc, c, o4. do 4 (split; [done|]). by intros Hst _ _; apply Hrc.
Qed.
End Init.

(** ** The hooks *)

(** The one call of a resolver's callback: the items, or a failure. *)
Definition some_or_fail {A} (l : list A) : Z * option (list A) :=
  if bool_decide (l = []) then (-1, None) else (0, Some l).

Lemma resolve_addrs_spec c t rest :
  cache_ok c -> 0 ∉ t ->
  perf_resolve_addrs c (t ++ 0 :: rest) =
  Ok (mk_addr_answer 0 0 (Some (some_or_fail (default [] (found (ch_addr_entries c) (t ++ [0])))))).
Proof.
  intros Hc Ht. unfold perf_resolve_addrs, perf_dns_cache_find_addrs.
  rewrite find_entry_spec, run_bind_Ok by (done || apply Hc). unfold found.
  destruct (find _ (ch_addr_entries c)) as [e|] eqn:Ef; cbn [fmap option_fmap option_map default from_option id]; [|done].
  unfold some_or_fail. by destruct (ae_items e).
Qed.

Lemma resolve_srv_spec c t rest :
  cache_ok c -> 0 ∉ t ->
  perf_resolve_srv c (t ++ 0 :: rest) =
  Ok (mk_srv_answer 0 0 (Some (some_or_fail
    (if bool_decide (ch_srv_name c = Some (t ++ [0])) then ch_srv_records c else [])))).
Proof.
  intros [Hn _ _] Ht. unfold perf_resolve_srv. destruct (ch_srv_name c) as [n|].
  - cbn in Hn. rewrite named_eq, run_bind_Ok by done. unfold some_or_fail.
    rewrite (bool_decide_ext (Some n = Some (t ++ [0])) (n = t ++ [0])) by (split; [by intros [= ->]|by intros ->]).
    destruct (bool_decide (n = t ++ [0])); [|done]. by destruct (ch_srv_records c).
  - done.
Qed.

Lemma found_wf c name : cache_ok c -> Forall wf_addr (default [] (found (ch_addr_entries c) name)).
Proof.
  intros [_ _ He]. unfold found. destruct (find _ _) as [e|] eqn:Ef; [|done]. cbn.
  apply find_some in Ef as [Hin _]. rewrite List.Forall_forall in He. by apply He.
Qed.
