(* ===== verification/PerfHost.v ===== *)
(** * The load generator: a worker as its client's host

    The hooks are defined and lawful, and whatever the client does through
    them, the worker's configuration and counters stay, its one socket stays
    its own, and the context of its request records the callback's calls. *)

From S2P Require Import Prelude.
From S2P Require Import Types.
From S2P Require Import Wire.
From S2P Require Import Crypto.
From S2P Require Import Workflow.
From S2P Require Import State.
From S2P Require Import Hoare.
From S2P Require Import Schedule.
From S2P Require Import Steering.
From S2P Require Import Dns.
From S2P Require Import DnsFacts.
From S2P Require Import Request.
From S2P Require Import RequestFacts.
From S2P Require Import PacketFacts.
From S2P Require Import ExtractFacts.
From S2P Require Import Client.
From S2P Require Import Lifecycle.
From S2P Require Import Completion.
From S2P Require Import Admission.
From S2P Require Import WorkflowOps.
From S2P Require Import WorkflowFacts.
From S2P Require Import Api.
From S2P Require Import Frame.
From S2P Require Import Runtime.
From S2P Require Import RuntimeFacts.
From S2P Require Import RuntimeSockets.
From S2P Require Import RuntimeHost.
From S2P Require Import PerfLatency.
From S2P Require Import PerfPacer.
From S2P Require Import Perf.
From S2P Require Import PerfFacts.
From S2P Require Import PerfNet.
From S2P Require Import PerfNetFacts.
From S2P Require Import PerfDns.
From S2P Require Import PerfDnsFacts.
From S2P Require Import PerfWorker.

(** The cache the program filled. *)
Class SoundCache `{Cached} : Prop := cache_sound : cache_ok dns_cache.

Section AsHost.
Context {O : Type} `{PO : PerfOs O} {olaws : OsLaws O} {cached : Cached} {sound : SoundCache}.
Implicit Types w : pworld O.

#[export] Instance perf_host_laws : HostLaws (pworld O).
Proof.
  split; cbn.
  - intros w t w'. unfold on_system. destruct (perf_now_ms (pw_os w)) as [x o] eqn:E. intros [= <- _]. by eapply perf_now_u64.
  - intros n w bs w'. unfold on_system. destruct (os_rand_bytes n (pw_os w)) as [x o] eqn:E.
    intros [= -> _]. by eapply os_rand_len.
  - intros name w a w' st l. unfold of_cache, perf_resolve_addrs.
    destruct (perf_dns_cache_find_addrs dns_cache name) as [|e] eqn:Ef; intros [= <- _]; [done|].
    cbn [aa_sync]. intros [= Ea]. destruct e as [e|]; [|by simplify_eq].
    destruct (zlen (ae_items e) =? 0); simplify_eq; [done|].
    unfold perf_dns_cache_find_addrs in Ef. revert Ef. pose proof (co_entries _ cache_sound) as He.
    induction He as [|x entries Hx _ IH]; cbn [find_entry]; [done|]. intros Ef.
    apply run_bind_inv in Ef as (b & _ & Ef). destruct b; [|by apply IH]. injection Ef as <-. apply Hx.
  - intros name w a w' st l. unfold of_cache, perf_resolve_srv.
    destruct (match ch_srv_name dns_cache with Some _ => _ | None => _ end) as [|b]; [by intros [= <- _]|].
    rewrite run_bind_Ok. intros [= <- _]. cbn [sa_sync]. intros [= Ea]. destruct (negb b || _); simplify_eq; [done|].
    apply cache_sound.
Qed.

(** The callback changes the world alone. *)
Lemma callback_world cb user req status res (s s' : sys (pworld O)) :
  h_complete cb user req status res s = Ok s' -> only_world s s'.
Proof. cbn. case_if; intros [= <-]; [apply only_world_refl|by eexists]. Qed.

#[export] Instance perf_reentrant : Reentrant (pworld O).
Proof.
  split.
  - intros cb user req status res s X HI _ _. cbn.
    set (s' := if user =? 0 then s else _). assert (Hw : only_world s s').
    { unfold s'. case_if; [apply only_world_refl|by eexists]. }
    exists s'. split; [done|]. by apply kept_world.
  - intros cb user status outcome s X HI _. cbn. exists s. split; [done|]. by apply kept_refl.
Qed.

(** The hooks never reach the values that stand for undefined behaviour. *)
Lemma perf_hooks_defined w to buf t rest :
  wf_addr to -> 0 <= io_sockfd (pw_io w) -> 0 ∉ t ->
  (exists r, perf_udp_send to buf (pw_io w) (pw_os w) = Ok r) /\
  (exists a, perf_resolve_srv dns_cache (t ++ 0 :: rest) = Ok a) /\
  (exists a, perf_resolve_addrs dns_cache (t ++ 0 :: rest) = Ok a).
Proof.
  intros Ht Hfd Hz. split; [|split].
  - destruct (perf_udp_send_spec to buf _ (pw_os w) Ht Hfd) as (sa & sent & rc & io & o & _ & _ & E & _). by eexists.
  - rewrite resolve_srv_spec by (done || apply cache_sound). by eexists.
  - rewrite resolve_addrs_spec by (done || apply cache_sound). by eexists.
Qed.
End AsHost.

(** ** Relations the client respects *)
Section Relations.
Context {O : Type} `{PO : PerfOs O} {cached : Cached}.
Implicit Types w : pworld O.

Lemma perf_send_os (R : O -> O -> Prop) {HR : Respects R} to buf io o rc io' o' :
  perf_udp_send to buf io o = Ok (rc, io', o') -> R o o' /\ exists t, io' = io_with_traffic t io.
Proof.
  assert (Hsame : R o o /\ exists t, io = io_with_traffic t io).
  { split; [apply re_preorder|]. exists (io_traffic io). by destruct io. }
  unfold perf_udp_send. case_if; [by intros [= _ <- <-]|]. intros E'.
  apply run_bind_inv in E' as (f & _ & E'). apply run_bind_inv in E' as (sa & _ & E').
  destruct (os_sendto _ _ _ _) as [x o1] eqn:Es. apply re_sendto in Es. destruct (_ || _).
  - injection E' as _ <- <-. split; [done|by eexists].
  - apply run_bind_inv in E' as (t & _ & E'). injection E' as _ <- <-. split; [done|by eexists].
Qed.

(** A relation on the thread, from one on the system. *)
Lemma perf_frame (P : pworld O -> pworld O -> Prop) (R : O -> O -> Prop) `{!PreOrder P, !Respects R} :
  (forall io t c k o o', R o o' -> P (mk_pworld io c k o) (mk_pworld (io_with_traffic t io) c k o')) ->
  (forall keep io c k o io' o', perf_on_steering_feedback keep io o = (io', o') ->
     P (mk_pworld io c k o) (mk_pworld io' c k o')) ->
  (forall io c c' k o, P (mk_pworld io c k o) (mk_pworld io c' k o)) ->
  Frame P.
Proof.
  intros HP Hs Hc.
  assert (Hos : forall A (f : O -> A * O), (forall o a o', f o = (a, o') -> R o o') ->
                forall w a w', on_system f w = (a, w') -> P w w').
  { intros A f Hf [io c k o] a w'. unfold on_system, with_os. cbn. destruct (f o) as [x o1] eqn:Ef. intros [= _ <-].
    destruct io as [fd ig t]. apply (HP (mk_io fd ig t) t). by eapply Hf. }
  assert (Hca : forall A (bad : A) r w a w', of_cache bad r w = (a, w') -> P w w').
  { intros A bad r w a w'. unfold of_cache. destruct r; by intros [= _ <-]. }
  split; cbn.
  - done.
  - apply Hos. intros o a o'. by apply perf_now_respects.
  - intros to packet [io c k o] a w'. unfold send_hook. cbn.
    destruct (perf_udp_send to packet io o) as [|[[rc io1] o1]] eqn:E; intros [= _ <-]; [reflexivity|].
    apply (perf_send_os R) in E as [Ho [t ->]]. by apply HP.
  - intros n. apply Hos. by apply re_rand_bytes.
  - apply Hos. by apply re_alloc.
  - intros name. apply Hca.
  - intros name. apply Hca.
  - by intros id w a w' [= _ <-].
  - reflexivity.
  - intros keep [io c k o]. cbn. destruct (perf_on_steering_feedback keep io o) as [io1 o1] eqn:E. by eapply Hs.
  - intros cb user req status res s s'. case_if; intros [= <-]; [reflexivity|]. cbn.
    unfold with_request. destruct (s_world s) as [io c k o]. apply Hc.
  - by intros cb user status outcome s s' [= <-].
Qed.
End Relations.

(** Two relations at once. *)
Lemma respects_both {O} `{Os O} (R1 R2 : O -> O -> Prop) :
  Respects R1 -> Respects R2 -> Respects (fun o o' => R1 o o' /\ R2 o o').
Proof.
  intros [P1 ? ? ? ? ? ? ? ? ? ? ? ?] [P2 ? ? ? ? ? ? ? ? ? ? ? ?].
  split; [|intros; split; eauto..]. split; [intros o; by split|].
  intros o1 o2 o3 [? ?] [? ?]. split; by etransitivity.
Qed.

Lemma passive_both {O} `{PerfOs O} (R1 R2 : O -> O -> Prop) :
  PerfPassive R1 -> PerfPassive R2 -> PerfPassive (fun o o' => R1 o o' /\ R2 o o').
Proof. intros [? ? ?] [? ? ?]. split; intros; split; eauto. Qed.

(** ** Every call of the system *)
Class PerfBears {O : Type} `{PerfOs O} (R : O -> O -> Prop) : Prop := {
  pb_bears :: Bears R;
  pb_passive :: PerfPassive R;
}.

Section Bears.
Context {O : Type} `{PO : PerfOs O} {cached : Cached} (R : O -> O -> Prop) {HB : PerfBears R}.

#[local] Instance perf_bears_preorder : PreOrder R := re_preorder.

Lemma perf_setup_bears port o fd o' : perf_setup_socket port o = (fd, o') -> R o o'.
Proof.
  unfold perf_setup_socket. destruct (os_socket AF_INET6 o) as [f o1] eqn:F1. apply (be_socket (R := R)) in F1.
  case_if; [by intros [= _ <-]|]. assert (F2 : R o (os_ipv6_dual f o1)) by (etransitivity; [exact F1|apply pp_dual]).
  destruct (os_bind _ _ _ _) as [rb o3] eqn:F3. apply (be_bind (R := R)) in F3. assert (H3 : R o o3) by by etransitivity.
  case_if; [intros [= _ <-]; etransitivity; [exact H3|apply be_close]|].
  destruct (os_getfl f o3) as [fl o4] eqn:F4. apply (re_getfl (R := R)) in F4. intros [= _ <-].
  assert (H4 : R o o4) by by etransitivity. case_if; [|done].
  destruct (os_setfl _ _ o4) as [x o5] eqn:F5. apply (re_setfl (R := R)) in F5. cbn. by etransitivity.
Qed.

Lemma perf_bearing : bearing R (perf_try_steering_port (O := O)).
Proof.
  intros port st r st'. unfold perf_try_steering_port. destruct (perf_setup_socket port (snd st)) as [f o1] eqn:E.
  apply perf_setup_bears in E. case_if; by intros [= _ <-].
Qed.

Lemma perf_steering_bears keep io o io' o' : perf_on_steering_feedback keep io o = (io', o') -> R o o'.
Proof.
  unfold perf_on_steering_feedback. destruct (_ || _); [by intros [= _ <-]|].
  destruct (os_getsockname _ o) as [name o1] eqn:En. apply (re_getsockname (R := R)) in En.
  destruct name as [[family p]|]; [|by intros [= _ <-]].
  destruct (r_client_select_steering_port _ _ _ _ _) as [[[rc a] b] [fd o2]] eqn:Es.
  apply (select_bears R) in Es; [|apply perf_bearing]. cbn [snd] in Es. assert (H2 : R o o2) by by etransitivity.
  destruct (negb _); [by intros [= _ <-]|]. case_if; intros [= _ <-]; [|done]. etransitivity; [exact H2|apply be_close].
Qed.

Definition on_os_of (w w' : pworld O) : Prop := R (pw_os w) (pw_os w').
#[export] Instance on_os_of_preorder : PreOrder on_os_of.
Proof. unfold on_os_of. split; [by intros w|]. intros w1 w2 w3 ? ?. by etransitivity. Qed.

#[export] Instance bears_frame : Frame on_os_of.
Proof.
  apply (perf_frame on_os_of R).
  - intros io t c k o o' Ho. exact Ho.
  - intros keep io c k o io' o' E. by eapply perf_steering_bears.
  - intros io c c' k o. unfold on_os_of. reflexivity.
Qed.
End Bears.

(** [poll] fails only when it is interrupted: in the states a run can come to
    from the ones of [py_at], whatever it calls.  (After any other failure the
    program leaves the loop with the request in flight.) *)
Class Polls (O : Type) `{PerfOs O} : Type := {
  py_at : O -> Prop;
  py_calls :: PerfBears (fun o o' => py_at o -> py_at o');
  py_poll : forall o, py_at o -> forall fd timeout rc readable o',
    os_poll fd timeout o = (rc, readable, o') -> 0 <= rc \/ os_errno o' = EINTR;
}.
Definition polls_well {O : Type} `{PerfOs O} (o : O) : Prop := exists polls : Polls O, py_at o.

(** ** The thread's state *)
Section Thread.
Context {O : Type} `{PK : PerfKernel O} {cached : Cached} {polls : Polls O} (base : gset Z).
Implicit Types w : pworld O.

Definition heeds (o o' : O) : Prop := py_at o -> py_at o'.
#[export] Instance heeds_bears : PerfBears heeds := py_calls.

Definition holding w : Prop := holds base (io_sockfd (pw_io w)) (pw_os w).

(** The worker is left alone, and its socket stays its own. *)
Definition keeps_thread w w' : Prop :=
  pw_worker w' = pw_worker w /\ (holding w -> holding w') /\ heeds (pw_os w) (pw_os w').

#[export] Instance keeps_thread_preorder : PreOrder keeps_thread.
Proof.
  split; [by intros w|]. intros w1 w2 w3 (H1 & H2 & H3) (H4 & H5 & H6). split; [congruence|].
  split; [auto|]. intros Hp. by apply H6, H3.
Qed.

(** A call the thread makes beside those on its socket. *)
Definition harmless (o o' : O) : Prop := still o o' /\ heeds o o'.

Lemma keeps_thread_still io t c c' k (o o' : O) :
  harmless o o' -> keeps_thread (mk_pworld io c k o) (mk_pworld (io_with_traffic t io) c' k o').
Proof. intros [Hs Hp]. split; [done|]. split; [|exact Hp]. intros Hh. by eapply holds_still. Qed.

#[export] Instance harmless_respects : Respects harmless.
Proof. apply respects_both; apply _. Qed.
#[export] Instance harmless_passive : PerfPassive harmless.
Proof. apply passive_both; apply _. Qed.

#[export] Instance thread_frame : Frame keeps_thread.
Proof.
  apply (perf_frame keeps_thread harmless).
  - intros io t c k o o' Hs. by apply keeps_thread_still.
  - intros keep io c k o io' o' E. split; [done|]. split; [|by eapply (perf_steering_bears heeds)].
    intros Hh. by eapply perf_steering_spec.
  - intros io c c' k o. split; [done|]. by split.
Qed.
End Thread.

(** ** The request's context *)

(** What an event does to it. *)
Definition hear (c : request_ctx) (e : event) : request_ctx :=
  match e with
  | EvComplete _ cb user status res =>
      if (cb =? r_admission_complete_ptr) || (user =? 0) then c else on_rate_limit status res c
  | _ => c
  end.
Definition hears (tr : list event) (c : request_ctx) : request_ctx := foldl hear c tr.

Definition is_complete (e : event) : bool := negb (silent e).

Lemma hears_silent tr c : Forall (fun e => silent e = true) tr -> hears tr c = c.
Proof.
  intros Ht. revert c; induction Ht as [|e tr He _ IH]; intros c; [done|].
  change (hears tr (hear c e) = c). rewrite IH. by destruct e.
Qed.

Lemma hears_app t1 t2 c : hears (t1 ++ t2) c = hears t2 (hears t1 c).
Proof. apply foldl_app. Qed.

(** *** What is noted of a run

    The worker's readings of the clock, and the calls of the callback for its
    requests. *)
Inductive note : Type :=
| Clocked (ns : Z)
| Heard (p : ptr) (status : Z) (res : option r_rate_limit_result).

Definition noted (e : event) : option note :=
  match e with
  | EvRead ns => Some (Clocked ns)
  | EvComplete (Some p) cb user status res =>
      if (cb =? ON_RATE_LIMIT) && (user =? REQUEST_CTX) then Some (Heard p status res) else None
  | _ => None
  end.
Definition notes (tr : list event) : list note := omap noted tr.

Lemma notes_app t1 t2 : notes (t1 ++ t2) = notes t1 ++ notes t2.
Proof. apply omap_app. Qed.

Lemma notes_none tr : Forall (fun e => noted e = None) tr -> notes tr = [].
Proof. induction 1 as [|e tr He _ IH]; [done|]. unfold notes in *. cbn. by rewrite He. Qed.

Lemma notes_silent tr : Forall (fun e => silent e = true) tr -> notes tr = [].
Proof. intros Hs. apply notes_none. eapply Forall_impl; [exact Hs|]. by intros []. Qed.

Lemma heard_event p st res tr :
  Heard p st res ∈ notes tr -> EvComplete (Some p) ON_RATE_LIMIT REQUEST_CTX st res ∈ tr.
Proof.
  intros (e & He & E)%list_elem_of_omap. destruct e as [|[q|] cb user st' res'| | | | | | | |]; try done. cbn in E.
  revert E. case_if; [|done]. breflect. intros [= -> -> ->]. by subst.
Qed.

(** The notes since a state. *)
Definition since {W} (s s' : sys W) (l : list note) : Prop :=
  exists tr, s_trace s' = s_trace s ++ tr /\ notes tr = l.

Lemma since_same {W} (s s' : sys W) : s_trace s' = s_trace s -> since s s' [].
Proof. intros E. exists []. by rewrite app_nil_r. Qed.

Lemma since_silent {W} (s s' : sys W) tr :
  s_trace s' = s_trace s ++ tr -> Forall (fun e => silent e = true) tr -> since s s' [].
Proof. intros E Hs. exists tr. split; [done|]. by apply notes_silent. Qed.

Lemma since_app {W} (s1 s2 s3 : sys W) l l' : since s1 s2 l -> since s2 s3 l' -> since s1 s3 (l ++ l').
Proof. intros (t1 & E1 & <-) (t2 & E2 & <-). exists (t1 ++ t2). by rewrite E2, E1, app_assoc, notes_app. Qed.

Lemma since_nil {W} (s1 s2 s3 : sys W) l : since s1 s2 [] -> since s2 s3 l -> since s1 s3 l.
Proof. intros H1 H2. exact (since_app _ _ _ _ _ H1 H2). Qed.

Section Answered.
Context {O : Type} `{PO : PerfOs O} {cached : Cached}.
Implicit Types s : sys (pworld O).

Definition answered s s' : Prop := exists tr, s_trace s' = s_trace s ++ tr /\
  pw_request (s_world s') = hears tr (pw_request (s_world s)).

Lemma answered_world w s : pw_request w = pw_request (s_world s) -> answered s (set_world w s).
Proof. intros E. exists []. by rewrite app_nil_r. Qed.

#[export] Instance answered_preorder : PreOrder answered.
Proof.
  split; [intros s; exists []; by rewrite app_nil_r|].
  intros s1 s2 s3 (t1 & E1 & F1) (t2 & E2 & F2). exists (t1 ++ t2). rewrite E2, E1, app_assoc. split; [done|].
  by rewrite hears_app, F2, F1.
Qed.

(** A hook on the system leaves the request's context. *)
Lemma on_system_request {A} (f : O -> A * O) w a (w' : pworld O) :
  on_system f w = (a, w') -> pw_request w' = pw_request w.
Proof. unfold on_system. destruct (f (pw_os w)). by intros [= _ <-]. Qed.

Lemma complete_answered cb user req status res s s' :
  cb <> r_admission_complete_ptr ->
  h_complete cb user req status res (set_trace (s_trace s ++ [EvComplete req cb user status res]) s) = Ok s' ->
  answered s s'.
Proof.
  intros Hcb. cbn. intros E. exists [EvComplete req cb user status res]. cbn [hears foldl hear].
  rewrite (proj2 (Z.eqb_neq cb _)) by done. cbn [orb]. revert E. case_if; by intros [= <-].
Qed.

#[export] Instance answered_tracks : Tracks answered.
Proof.
  split; [split|..].
  - apply _.
  - intros s s' Ew Et _. exists []. by rewrite app_nil_r, Ew.
  - intros e s He. exists [e]. split; [done|]. cbn. by destruct e.
  - intros s a w' E. by apply answered_world, (on_system_request _ _ _ _ E).
  - intros to packet s a w'. cbn. unfold send_hook. destruct (perf_udp_send _ _ _ _) as [|[[rc io] o]];
      intros [= _ <-]; by apply answered_world.
  - intros n s a w' E. by apply answered_world, (on_system_request _ _ _ _ E).
  - intros s a w' E. by apply answered_world, (on_system_request _ _ _ _ E).
  - intros p s. by apply answered_world.
  - intros keep s. cbn. destruct (perf_on_steering_feedback _ _ _). by apply answered_world.
  - intros cb user req status res s s'. apply complete_answered.
  - intros req user status res s. by eexists.
  - intros cb user status outcome s s' [= <-]. reflexivity.
  - intros s s' Ew Et. exists []. by rewrite app_nil_r, Ew.
  - intros name s a w'. cbn. unfold of_cache. destruct (perf_resolve_srv _ _); intros [= _ <-]; by apply answered_world.
  - intros name s a w'. cbn. unfold of_cache. destruct (perf_resolve_addrs _ _); intros [= _ <-]; by apply answered_world.
  - intros id s a w' [= _ <-]. by apply answered_world.
  - intros cb user status res s s'. apply complete_answered.
  - intros user status res s. by eexists.
Qed.

(** The client reads no monotonic clock. *)
Definition unread s s' : Prop := exists tr, s_trace s' = s_trace s ++ tr /\ forall ns, EvRead ns ∉ tr.

#[export] Instance unread_preorder : PreOrder unread.
Proof.
  split; [intros s; exists []; rewrite app_nil_r; split; [done|]; intros; apply not_elem_of_nil|].
  intros s1 s2 s3 (t1 & E1 & F1) (t2 & E2 & F2). exists (t1 ++ t2). rewrite E2, E1, app_assoc. split; [done|].
  intros ns. rewrite elem_of_app. intros [Hin|Hin]; [by eapply F1|by eapply F2].
Qed.

Lemma unread_same s s' : s_trace s' = s_trace s -> unread s s'.
Proof. intros E. exists []. rewrite app_nil_r. split; [done|]. intros. apply not_elem_of_nil. Qed.

Lemma unread_event e s : (forall ns, e <> EvRead ns) -> unread s (set_trace (s_trace s ++ [e]) s).
Proof. intros He. exists [e]. split; [done|]. intros ns Hin. apply list_elem_of_singleton in Hin. by eapply He. Qed.

Lemma unread_complete cb user req status res s s' :
  h_complete cb user req status res (set_trace (s_trace s ++ [EvComplete req cb user status res]) s) = Ok s' -> unread s s'.
Proof.
  intros [w Ew]%callback_world. etransitivity; [by apply (unread_event (EvComplete req cb user status res))|].
  subst. by apply unread_same.
Qed.

#[export] Instance unread_tracks : Tracks unread.
Proof.
  split; [split|..]; try (intros; by apply unread_same); try (intros; by apply unread_event).
  - apply _.
  - intros e s He. apply unread_event. by intros ns ->.
  - intros cb user req status res s s' _. apply unread_complete.
  - intros cb user status outcome s s' [= <-]. reflexivity.
  - intros cb user status res s s' _. apply unread_complete.
Qed.

(** Nothing is allocated, and every completion is of a request. *)
Definition contained s s' : Prop := s_next s' = s_next s /\
  exists tr, s_trace s' = s_trace s ++ tr /\ forall cb user st res, EvComplete None cb user st res ∉ tr.

#[export] Instance contained_preorder : PreOrder contained.
Proof.
  split; [intros s; split; [done|]; exists []; rewrite app_nil_r; split; [done|]; intros; apply not_elem_of_nil|].
  intros s1 s2 s3 (N1 & t1 & E1 & F1) (N2 & t2 & E2 & F2). split; [congruence|].
  exists (t1 ++ t2). rewrite E2, E1, app_assoc. split; [done|]. intros cb user st res. rewrite elem_of_app.
  intros [Hin|Hin]; [by eapply F1|by eapply F2].
Qed.

Lemma contained_event e s : (forall cb user st res, e <> EvComplete None cb user st res) ->
  contained s (set_trace (s_trace s ++ [e]) s).
Proof.
  intros He. split; [done|]. exists [e]. split; [done|]. intros cb user st res Hin.
  apply list_elem_of_singleton in Hin. by eapply He.
Qed.

Lemma contained_world s s' : only_world s s' -> contained s s'.
Proof. intros [w ->]. split; [done|]. exists []. rewrite app_nil_r. split; [done|]. intros. apply not_elem_of_nil. Qed.

#[export] Instance contained_steps : Steps contained.
Proof.
  split.
  - apply _.
  - intros s s' _ Et En. split; [done|]. exists []. rewrite app_nil_r. split; [done|]. intros. apply not_elem_of_nil.
  - intros e s He. apply contained_event. by intros ? ? ? ? ->.
  - intros s a w' _. apply contained_world. by eexists.
  - intros to packet s a w' _. apply contained_world. by eexists.
  - intros n s a w' _. apply contained_world. by eexists.
  - intros s a w' _. apply contained_world. by eexists.
  - intros p s. apply contained_world. by eexists.
  - intros keep s. apply contained_world. by eexists.
  - intros cb user req status res s s' _ E. apply callback_world in E.
    etransitivity; [|by apply contained_world]. by apply contained_event.
  - intros req user status res s. by apply contained_event.
  - intros cb user status outcome s s' [= <-]. reflexivity.
Qed.
End Answered.
