(* ===== verification/PerfWait.v ===== *)
(** * The load generator: waiting for a request

    A worker has one request in flight at a time.  It waits until the callback
    has run for it: the loop reaches no undefined behaviour, never touches the
    request after it is gone, and ends when the network falls silent. *)

From S2P Require Import Prelude.
From S2P Require Import Types.
From S2P Require Import Wire.
From S2P Require Import Crypto.
From S2P Require Import CryptoFacts.
From S2P Require Import Workflow.
From S2P Require Import State.
From S2P Require Import Hoare.
From S2P Require Import Schedule.
From S2P Require Import Steering.
From S2P Require Import Dns.
From S2P Require Import DnsFacts.
From S2P Require Import Request.
From S2P Require Import RequestFacts.
From S2P Require Import PacketFacts.
From S2P Require Import ExtractFacts.
From S2P Require Import Client.
From S2P Require Import Lifecycle.
From S2P Require Import Completion.
From S2P Require Import Datagram.
From S2P Require Import Admission.
From S2P Require Import WorkflowOps.
From S2P Require Import WorkflowFacts.
From S2P Require Import Api.
From S2P Require Import Frame.
From S2P Require Import Runtime.
From S2P Require Import RuntimeFacts.
From S2P Require Import RuntimeSockets.
From S2P Require Import RuntimeHost.
From S2P Require Import PerfLatency.
From S2P Require Import PerfPacer.
From S2P Require Import Perf.
From S2P Require Import PerfFacts.
From S2P Require Import PerfNet.
From S2P Require Import PerfNetFacts.
From S2P Require Import PerfDns.
From S2P Require Import PerfDnsFacts.
From S2P Require Import PerfWorker.
From S2P Require Import PerfHost.

Section Wait.
Context {O : Type} `{PK : PerfKernel O} {olaws : OsLaws O} {cached : Cached} {sound : SoundCache}.
Context {ssl : OpenSSL} {laws : AesGcmLaws ssl} {polls : Polls O} (base : gset Z).
Implicit Types s : sys (pworld O).

(** ** The state while a request is waited for *)

(** The request [p] is the only one, with the worker's callback and context. *)
Record busy p s : Prop := {
  bu_inv : client_inv ∅ s;
  bu_only : cl_inflight (s_client s) = [p];
  bu_owner : owner <$> s_reqs s !! p = Some (ON_RATE_LIMIT, REQUEST_CTX);
  bu_done : rc_done (pw_request (s_world s)) = false;
  bu_polls : py_at (pw_os (s_world s));
}.

(** It is gone, after the one call of its callback. *)
Record ended p s : Prop := {
  en_inv : client_inv ∅ s;
  en_none : cl_inflight (s_client s) = [];
  en_once : completions p (s_trace s) = 1%nat;
  en_heard : exists status res, EvComplete (Some p) ON_RATE_LIMIT REQUEST_CTX status res ∈ s_trace s /\
    pw_request (s_world s) = on_rate_limit status res request_ctx_zero;
}.

(** What the callback was told of it, once since [s]. *)
Definition told p s s' : Prop := exists status res,
  since s s' [Heard p status res] /\ pw_request (s_world s') = on_rate_limit status res request_ctx_zero.

(** What a step of the loop leaves alone. *)
Definition stays s s' : Prop := call_frame ∅ s s' /\ keeps_thread base (s_world s) (s_world s').

#[local] Instance stays_preorder : PreOrder stays.
Proof.
  split; [intros s; split; reflexivity|].
  intros s1 s2 s3 [? ?] [? ?]. split; by etransitivity.
Qed.

(** The steps its schedule still has. *)
Definition left p s : Z :=
  match s_reqs s !! p with Some r => steps_left (cl_fixed (s_client s)) r | None => 0 end.

(** How the request stands after a step. *)
Definition after p s s' : Prop :=
  stays s s' /\ ((busy p s' /\ left p s' <= left p s /\ since s s' []) \/ (ended p s' /\ told p s s')).

Lemma busy_live p s : busy p s -> exists r, s_reqs s !! p = Some r /\ owner r = (ON_RATE_LIMIT, REQUEST_CTX) /\
  p ∈ cl_inflight (s_client s).
Proof.
  intros [_ Ho Hw _ _]. destruct (s_reqs s !! p) as [r|]; [|done]. exists r.
  split; [done|]. split; [by apply (inj Some)|]. rewrite Ho. by left.
Qed.

Lemma quiet_silent tr : Forall (fun e => quiet e = true) tr -> Forall (fun e => silent e = true) tr.
Proof. intros Hq. eapply Forall_impl; [exact Hq|]. by intros []. Qed.

Lemma answered_quiet s s' tr :
  answered s s' -> s_trace s' = s_trace s ++ tr -> Forall (fun e => silent e = true) tr ->
  pw_request (s_world s') = pw_request (s_world s).
Proof.
  intros (t & Et & Er) E Hq. rewrite E in Et. apply app_inv_head in Et as <-. rewrite Er. by apply hears_silent.
Qed.

(** Steps of the entry points respect what the host does. *)
Definition respected s s' : Prop :=
  contained s s' /\ answered s s' /\ unread s s' /\ keeps_thread base (s_world s) (s_world s').

Lemma frame_since p s s' : step_frame p s s' -> since s s' [].
Proof. intros HF. destruct (sf_trace _ _ _ HF) as (tr & Et & Hq). by eapply since_silent, quiet_silent. Qed.

(** A step of the request that is not its last. *)
Lemma busy_step p s s' :
  busy p s -> client_inv ∅ s' -> step_frame p s s' -> respected s s' -> busy p s'.
Proof.
  intros [_ Ho Hw Hd Hp] HI HF (_ & Ha & _ & Hk). destruct (sf_trace _ _ _ HF) as (tr & Et & Hq). split; [done| | | |by apply Hk].
  - by rewrite (sf_inflight _ _ _ HF).
  - by rewrite (sf_cell _ _ _ HF).
  - by rewrite (answered_quiet s s' tr Ha Et (quiet_silent _ Hq)).
Qed.

Lemma completes_in p cb user st res tr :
  EvComplete (Some p) cb user st res ∈ tr -> (0 < completions p tr)%nat.
Proof.
  intros Hin. apply list_elem_of_split in Hin as (t1 & t2 & ->). rewrite !completions_app.
  change (EvComplete (Some p) cb user st res :: t2) with ([EvComplete (Some p) cb user st res] ++ t2).
  rewrite completions_app, completions_one. cbn. rewrite bool_decide_true by done. lia.
Qed.

(** Its last step: the callback ran once and for it alone. *)
Lemma completed_ends p r st sel s s' :
  busy p s -> completed ∅ p r st sel s s' -> owner r = (ON_RATE_LIMIT, REQUEST_CTX) ->
  respected s s' -> ended p s' /\ told p s s'.
Proof.
  intros Hb [HI HF Hfree Honce (tr1 & tr2 & Et & Hq & _)] Hown
    ((Hn & t & Et' & Hnone) & (t0 & Et0 & Er) & (t9 & Et9 & Hread) & _).
  injection Hown as Ecb Eus. rewrite Ecb, Eus in Et.
  set (e := EvComplete (Some p) _ _ st _) in *. set (tr := tr1 ++ e :: tr2 ++ [EvFreeReq p]) in *.
  rewrite Et in Et', Et0, Et9. apply app_inv_head in Et' as <-. apply app_inv_head in Et0 as <-. apply app_inv_head in Et9 as <-.
  assert (Hlast : Forall (fun e => silent e = true) (tr2 ++ [EvFreeReq p])).
  { apply Forall_app. split; [|by repeat constructor]. apply Forall_forall. intros x Hx. destruct x as [|req cb user st' res'| | | | | | | |ns]; try done.
    2:{ exfalso. apply (Hread ns). unfold tr. apply elem_of_app. right. apply elem_of_cons. right. apply elem_of_app. by left. }
    exfalso. assert (Hxt : EvComplete req cb user st' res' ∈ tr).
    { unfold tr. apply elem_of_app. right. apply elem_of_cons. right. apply elem_of_app. by left. }
    destruct req as [q|]; [|by eapply Hnone]. destruct (decide (q = p)) as [->|Hne].
    - apply completes_in in Hx. rewrite Et in Honce. unfold tr in Honce.
      change (e :: tr2 ++ [EvFreeReq p]) with ([e] ++ tr2 ++ [EvFreeReq p]) in Honce.
      rewrite !completions_app, completions_one in Honce. cbn in Honce. rewrite bool_decide_true in Honce by done. lia.
    - apply completes_in in Hxt. destruct (ca_trace _ _ _ HF) as (t & Et2 & Hno). rewrite Et in Et2.
      apply app_inv_head in Et2 as <-. destruct (decide (q < s_next s)%nat) as [Hlt|Hge].
      + rewrite Hno in Hxt; [lia|done|]. rewrite (bu_only _ _ Hb). set_solver.
      + pose proof (ci_waiting _ _ _ HI q ltac:(right; rewrite Hn; lia)) as Hw. rewrite Et, completions_app in Hw. lia. }
  assert (Ereq : pw_request (s_world s') = on_rate_limit st (completion_result r sel) request_ctx_zero).
  { rewrite Er. unfold tr. rewrite hears_app, (hears_silent tr1) by by apply quiet_silent.
    change (hears (tr2 ++ [EvFreeReq p]) (hear (pw_request (s_world s)) e) = on_rate_limit st (completion_result r sel) request_ctx_zero).
    by rewrite hears_silent. }
  split; [split; [done| |done|]|].
  - destruct (cl_inflight (s_client s')) as [|q l] eqn:Ei; [done|]. exfalso.
    assert (Hin : q ∈ cl_inflight (s_client s')) by (rewrite Ei; by left).
    destruct (proj2 (ci_live _ _ _ HI q) (or_introl Hin)) as [x Hx].
    destruct (ca_inflight _ _ _ HF q Hin) as [Hold|Hnew].
    + rewrite (bu_only _ _ Hb) in Hold. apply list_elem_of_singleton in Hold as ->. congruence.
    + pose proof (ci_fresh _ _ _ HI q ltac:(by rewrite Hx)). lia.
  - exists st, (completion_result r sel). rewrite Et. split; [apply elem_of_app; right; unfold tr; apply elem_of_app; right; by left|done].
  - exists st, (completion_result r sel). split; [|done]. exists tr. split; [done|]. unfold tr.
    change (e :: tr2 ++ [EvFreeReq p]) with ([e] ++ tr2 ++ [EvFreeReq p]).
    by rewrite !notes_app, (notes_silent tr1), <- notes_app, (notes_silent (tr2 ++ _)) by (done || by apply quiet_silent).
Qed.

(** ** The client's part *)
(** Steps that leave the request waiting. *)
Definition calm p s s' : Prop := stays s s' /\ busy p s' /\ left p s' <= left p s /\ since s s' [].

Lemma calm_after p s s' : calm p s s' -> after p s s'.
Proof. intros (? & ? & ?). split; [done|by left]. Qed.

Lemma calm_then p s1 s2 s3 : calm p s1 s2 -> after p s2 s3 -> after p s1 s3.
Proof.
  intros (H1 & _ & Hl & Hs) [H2 Hb]. split; [by etransitivity|]. destruct Hb as [(Hb & Hl2 & Hs2)|(He & st & res & Hs2 & Er)].
  - left. split; [done|]. split; [lia|by eapply since_nil].
  - right. split; [done|]. exists st, res. split; [by eapply since_nil|done].
Qed.

Lemma calm_trans p s1 s2 s3 : calm p s1 s2 -> calm p s2 s3 -> calm p s1 s3.
Proof.
  intros (? & ? & ? & ?) (? & ? & ? & ?). split; [by etransitivity|]. split; [done|]. split; [lia|by eapply since_nil].
Qed.

Lemma calm_refl p s : busy p s -> calm p s s.
Proof. intros Hb. split; [reflexivity|]. split; [done|]. split; [done|by apply since_same]. Qed.

Lemma busy_inv p s : busy p s -> client_inv ∅ s.
Proof. by intros []. Qed.

(** Something the thread does for itself. *)
Lemma world_calm p w s :
  busy p s -> pw_request w = pw_request (s_world s) -> keeps_thread base (s_world s) w -> calm p s (set_world w s).
Proof.
  intros Hb Hr Hk. split.
  - split; [|done]. by apply kept_world; [apply Hb|eexists].
  - split; [|split; [done|by apply since_same]]. destruct Hb as [HI Ho Hw Hd Hp]. split; [by eapply client_inv_world; [|eexists]|done|done| |].
    + cbn. by rewrite Hr.
    + by apply Hk.
Qed.

Lemma completed_after_wait p r st sel s s' :
  busy p s -> completed ∅ p r st sel s s' -> owner r = (ON_RATE_LIMIT, REQUEST_CTX) ->
  respected s s' -> after p s s'.
Proof.
  intros Hb Hc Ho Hre. split; [split; [apply Hc|apply Hre]|]. right. by eapply completed_ends.
Qed.

Lemma left_at p r s : s_reqs s !! p = Some r -> left p s = steps_left (cl_fixed (s_client s)) r.
Proof. intros Hr. unfold left. by rewrite Hr. Qed.

(** A step that leaves the request waiting. *)
Lemma waiting_after p s s' :
  busy p s -> client_inv ∅ s' -> call_frame ∅ s s' -> step_frame p s s' -> respected s s' -> left p s' <= left p s ->
  after p s s'.
Proof.
  intros Hb HI HF Hs Hre Hl. split; [split; [done|apply Hre]|]. left. split; [by eapply busy_step|].
  split; [done|by eapply frame_since].
Qed.

Lemma datagram_respected buf len from s rc s' :
  r_client_on_datagram buf len from s = Ok (rc, s') -> respected s s'.
Proof.
  intros E. split; [exact (keeps_r_client_on_datagram contained _ _ _ _ _ _ E)|].
  split; [exact (keeps_r_client_on_datagram answered _ _ _ _ _ _ E)|].
  split; [exact (keeps_r_client_on_datagram unread _ _ _ _ _ _ E)|].
  exact (keeps_r_client_on_datagram (on_worlds (keeps_thread base)) _ _ _ _ _ _ E).
Qed.

Lemma timeout_respected p now s rc s' : r_client_on_timeout p now s = Ok (rc, s') -> respected s s'.
Proof.
  intros E. split; [exact (keeps_r_client_on_timeout contained _ _ _ _ _ E)|].
  split; [exact (keeps_r_client_on_timeout answered _ _ _ _ _ E)|].
  split; [exact (keeps_r_client_on_timeout unread _ _ _ _ _ E)|].
  exact (keeps_r_client_on_timeout (on_worlds (keeps_thread base)) _ _ _ _ _ E).
Qed.

Lemma datagram_after p buf len s rc s' :
  busy p s -> datagram_step ∅ buf len s rc s' -> respected s s' -> after p s s'.
Proof.
  intros Hb Hd Hre. destruct (busy_live _ _ Hb) as (r & Hr & Ho & Hin).
  destruct (datagram_kept _ _ _ _ _ _ (bu_inv _ _ Hb) Hd) as [HI HF].
  destruct Hd as [rc s' Hw|q r0 r' h pdu s1 s' Hq Hr0 _ _ _ _ _ _ _ Hh Hw Hacc].
  - eapply waiting_after; [done|done|done|by apply step_frame_world|done|]. destruct Hw as [w ->]. done.
  - rewrite (bu_only _ _ Hb) in Hq. apply list_elem_of_singleton in Hq as ->. rewrite Hr in Hr0. injection Hr0 as <-.
    assert (Ho' : owner r' = owner r /\ forall c, steps_left c (waiting r') = steps_left c r).
    { by destruct Hh as [(? & ? & ? & ? & ? & -> & _)]. }
    destruct Ho' as [Ho' Hl]. assert (Hr1 : s_reqs s1 !! p = Some r) by (by destruct Hw as [w ->]).
    destruct Hacc as [s' _ Hc|s' _ _ _ B].
    + destruct (kept_world ∅ s s1 (bu_inv _ _ Hb) Hw) as [HI1 HF1].
      assert (Hcc : completed ∅ p r' RCLIENT_OK true s s').
      { destruct Hc as [C1 C2 C3 C4 C5]. destruct Hw as [w ->]. split; [done|by etransitivity|done|done|exact C5]. }
      eapply completed_after_wait; [done|exact Hcc|congruence|done].
    + assert (HFs : step_frame p s s').
      { etransitivity; [by apply step_frame_world|]. by eapply becomes_frame; [exact Hr1|exact B|]. }
      apply waiting_after; try done.
      rewrite (left_at p _ _ (becomes_req _ _ _ _ B)), (left_at p _ _ Hr), (sf_fixed _ _ _ HFs), Hl. done.
Qed.

Lemma timeout_after p r now s s' :
  busy p s -> s_reqs s !! p = Some r -> timeout_step ∅ p r now s s' -> respected s s' -> after p s s'.
Proof.
  intros Hb Hr Ht Hre. destruct (busy_live _ _ Hb) as (r0 & Hr0 & Ho & Hin).
  rewrite Hr in Hr0. injection Hr0 as <-.
  destruct (timeout_kept _ _ _ _ _ _ (bu_inv _ _ Hb) Hin Hr Ht) as [HI HF].
  pose proof (ci_reqs _ _ _ (bu_inv _ _ Hb) p r Hin Hr) as [_ Hs].
  destruct Ht as [?|s' _ _ Hc|s' tr _ _ Eph Hlt _ HI' HFs Er _ _ _|s' _ _ Eph Er _ HI' ->|s' st _ _ _ Hc].
  - by apply calm_after, calm_refl.
  - by eapply completed_after_wait.
  - apply waiting_after; try done.
    erewrite (left_at p _ s') by (rewrite Er; apply lookup_insert_eq). rewrite (left_at p _ _ Hr), (sf_fixed _ _ _ HFs).
    unfold steps_left. cbn. rewrite Eph. lia.
  - eapply waiting_after; [done|done|done|by eapply step_frame_upd|done|].
    erewrite (left_at p _ (set_reqs _ s)) by apply lookup_insert_eq. rewrite (left_at p _ _ Hr).
    unfold steps_left. cbn. rewrite Eph. pose proof (os_round _ _ Hs). lia.
  - by eapply completed_after_wait.
Qed.

(** ** The loop *)
Lemma ended_done p s : ended p s -> rc_done (pw_request (s_world s)) = true.
Proof. intros [_ _ _ (st & res & _ & ->)]. done. Qed.

Lemma harmless_thread o w : harmless (pw_os w) o -> keeps_thread base w (with_os o w).
Proof. destruct w as [[fd ig t] c k o0]. intros Hs. by apply (keeps_thread_still base (mk_io fd ig t) t). Qed.

(** A call of the thread's own. *)
Lemma system_wp p {A} (f : O -> A * O) (Q : A -> sys (pworld O) -> Prop) s :
  busy p s -> (forall o a o', f o = (a, o') -> harmless o o') ->
  (forall a o', f (pw_os (s_world s)) = (a, o') ->
     calm p s (set_world (with_os o' (s_world s)) s) -> Q a (set_world (with_os o' (s_world s)) s)) ->
  wp (system f) Q s.
Proof.
  intros Hb Hf HQ. unfold system. apply wp_world_op. intros a w. unfold on_system.
  destruct (f (pw_os (s_world s))) as [x o] eqn:E. intros [= -> <-]. apply (HQ _ _ eq_refl).
  apply world_calm; [done|done|]. apply harmless_thread. by eapply Hf.
Qed.

Lemma receive_wp p (Q : Z * list Z * r_addr -> sys (pworld O) -> Prop) s :
  busy p s ->
  (forall n buffer from o' s', os_recvfrom (io_sockfd (pw_io (s_world s))) (pw_os (s_world s)) = ((n, buffer, from), o') ->
     (0 <= n -> n <= RECV_BUFFER /\ zlen buffer = RECV_BUFFER /\ is_bytes buffer /\ wf_addr from) ->
     pw_os (s_world s') = o' -> calm p s s' -> Q (n, buffer, from) s') ->
  wp receive Q s.
Proof.
  intros Hb HQ. unfold receive, thread. wp_step. apply wp_gets. wp_step. cbn [id].
  destruct (s_world s) as [io c k o] eqn:Ew. cbn [pw_io pw_os] in *. unfold perf_udp_receive.
  destruct (os_recvfrom (io_sockfd io) o) as [[[n buffer] from] o1] eqn:Er.
  pose proof (re_recvfrom (R := harmless) _ _ _ _ Er) as Hs.
  assert (Hgo : forall t, wp (_ ← upd_thread (with_io (io_with_traffic t io) o1); mret (n, buffer, from)) Q s).
  { intros t. unfold upd_thread. do 2 wp_step. apply (HQ n buffer from o1); [done| |done|].
    - intros Hn. by eapply os_recv_wf.
    - rewrite Ew. apply world_calm; [done|by rewrite Ew|]. rewrite Ew. cbn. by apply keeps_thread_still. }
  case_if; breflect.
  - destruct (perf_record_defined (io_traffic io) false from n) as [t Et]; [by eapply os_recv_wf|].
    eapply wp_lift; [rewrite Et, run_bind_Ok; reflexivity|]. cbv beta iota. apply Hgo.
  - eapply wp_lift; [reflexivity|]. cbv beta iota. destruct io as [fd ig t]. apply (Hgo t).
Qed.

Lemma after_cases p s s' :
  after p s s' -> (calm p s s' /\ rc_done (pw_request (s_world s')) = false) \/
                  ((ended p s' /\ told p s s') /\ rc_done (pw_request (s_world s')) = true).
Proof.
  intros [Hs [(Hb & Hl & Hn)|[He Ht]]]; [left|right]; (split; [|by apply Hb || by eapply ended_done]); [by split|done].
Qed.

Lemma receive_all_wp turns p s :
  busy p s -> wp (receive_all turns) (fun enough s' => after p s s' /\ (enough = false -> calm p s s')) s.
Proof.
  revert s; induction turns as [|turns IH]; intros s Hb; cbn [receive_all].
  { wp_step. split; [by apply calm_after, calm_refl|]. intros _. by apply calm_refl. }
  wp_step. apply (receive_wp p); [done|]. intros n buffer from o' s1 _ Hwf _ H1. cbv beta iota.
  apply wp_if; intros En; [wp_step; split; [by apply calm_after|done]|]. breflect. destruct (Hwf En) as (Hn & Hbuf & Hby & Hf).
  pose proof H1 as (_ & Hb1 & _). unfold RECV_BUFFER in *. rewrite u64_small by rlia.
  destruct (wp_Ok _ _ _ (on_datagram_wp ∅ buffer n from s1 (bu_inv _ _ Hb1) Hby ltac:(unfold is_object; lia) ltac:(lia) Hf))
    as (rc & s2 & Ed & Hd). wp_step. eapply wp_eq; [exact Ed|].
  pose proof (datagram_after _ _ _ _ _ _ Hb1 Hd (datagram_respected _ _ _ _ _ _ Ed)) as H2.
  assert (H12 : after p s s2) by by eapply calm_then.
  unfold thread. wp_step. apply wp_gets. destruct (after_cases _ _ _ H12) as [[Hc Ec]|[He Ec]]; rewrite Ec.
  2:{ wp_step. by split. }
  eapply wp_mono; [apply IH, Hc|]. cbv beta. intros enough s3 [H3 H4].
  split; [by eapply calm_then|]. intros Hen. eapply calm_trans; [exact Hc|by apply H4].
Qed.

Lemma poll_harmless fd timeout (o : O) a o' : os_poll fd timeout o = (a, o') -> harmless o o'.
Proof. apply pp_poll. Qed.
Lemma now_harmless (o : O) a o' : perf_now_ms o = (a, o') -> harmless o o'.
Proof. exact (perf_now_respects harmless o a o'). Qed.

(** The last part of a turn. *)
Lemma turn_end_wp p deadline s0 s :
  after p s0 s -> wp (turn_end deadline (Some p)) (fun _ s' => after p s0 s') s.
Proof.
  intros Ha. unfold turn_end. destruct (after_cases _ _ _ Ha) as [[Hc Ec]|[He Ec]].
  - wp_step. apply (system_wp p); [apply Hc|apply now_harmless|]. intros now o' _ Hc1. set (s1 := set_world _ s) in *.
    unfold thread. wp_step. apply wp_gets. pose proof Hc1 as (_ & Hb1 & _). rewrite (bu_done _ _ Hb1). cbn [negb andb].
    assert (H01 : calm p s0 s1) by by eapply calm_trans.
    apply wp_if; intros _; [|by wp_step; apply calm_after].
    destruct (busy_live _ _ Hb1) as (r & Hr & _ & Hin).
    destruct (wp_Ok _ _ _ (on_timeout_wp ∅ p r now s1 (bu_inv _ _ Hb1) Hin Hr)) as (rc & s2 & Et & _ & Hst).
    wp_step. eapply wp_eq; [exact Et|]. wp_step. eapply calm_then; [exact H01|].
    eapply timeout_after; [done|done|exact Hst|by eapply timeout_respected].
  - wp_step. unfold system. apply wp_world_op. intros now w. unfold on_system.
    destruct (perf_now_ms (pw_os (s_world s))) as [x o1] eqn:En. intros [= -> <-].
    unfold thread. wp_step. apply wp_gets. cbn [s_world set_world with_os pw_request]. rewrite Ec. cbn [negb andb].
    wp_step. destruct Ha as [[HF Hk] _]. destruct He as [[HI Hno Honce Hh] Ht].
    set (s1 := set_world _ s). assert (Hw : only_world s s1) by by eexists.
    destruct (kept_world ∅ s s1 HI Hw) as [HI1 HF1]. split; [split; [by etransitivity|]|right; split; [by split|exact Ht]].
    etransitivity; [exact Hk|]. apply harmless_thread. by eapply now_harmless.
Qed.

Lemma wait_turn_wp turns p s :
  busy p s -> wp (wait_turn turns (Some p)) (fun r s' =>
    snd r = false /\ after p s s' /\ (fst r = false -> calm p s s')) s.
Proof.
  intros Hb. destruct (busy_live _ _ Hb) as (r & Hr & _ & _). unfold wait_turn, r_client_request_deadline_ms.
  do 4 wp_step. change (RCLIENT_OK =? RCLIENT_OK) with true. cbn [negb]. wp_step. eapply wp_lift; [reflexivity|].
  wp_step. apply (system_wp p); [done|apply now_harmless|]. intros now o1 _ Hc1.
  set (s1 := set_world _ s) in *. pose proof Hc1 as (_ & Hb1 & _).
  unfold thread. wp_step. apply wp_gets. wp_step. apply (system_wp p); [done|apply poll_harmless|].
  intros [prc readable] o2 Ep Hc2. set (s2 := set_world _ s1) in *. pose proof Hc2 as (_ & Hb2 & _). cbv beta iota.
  wp_step. apply wp_gets. change (pw_os (s_world s2)) with o2. assert (H02 : calm p s s2).
  { by eapply calm_trans. }
  assert (Hend : forall s3, after p s s3 -> wp (_ ← turn_end (rq_attempt_deadline_ms r) (Some p); mret (true, false))
      (fun r s' => snd r = false /\ after p s s' /\ (fst r = false -> calm p s s')) s3).
  { intros s3 Ha3. wp_step. eapply wp_mono; [by apply turn_end_wp|]. cbv beta. intros _ s' Ha'. by wp_step. }
  wp_step. apply wp_if; intros E1.
  - wp_step. eapply wp_mono; [apply (receive_all_wp turns p s2), H02|]. cbv beta. intros enough s3 [Hc3 H4]. wp_step.
    cbv beta iota. destruct enough; cbn [negb orb].
    + apply Hend. by eapply calm_then.
    + wp_step. split; [done|]. assert (Hc : calm p s s3) by (eapply calm_trans; [exact H02|by apply H4]). split; [by apply calm_after|done].
  - apply wp_if; intros E2.
    + exfalso. destruct (py_poll _ (bu_polls _ _ Hb1) _ _ _ _ _ Ep) as [Hp|Hp]; apply andb_true_iff in E2 as [E2 E3]; breflect; [lia|].
      by rewrite Hp in E3.
    + wp_step. cbv beta iota. cbn [negb orb]. by apply Hend, calm_after.
Qed.

(** The whole loop: the request ended, or it is still waited for and the turns
    are used up. *)
Lemma wait_loop_wp turns p s0 s :
  after p s0 s ->
  wp (wait_loop turns (Some p)) (fun r s' => stays s0 s' /\
    match r with
    | Some st => ended p s' /\ told p s0 s' /\ st = rc_status (pw_request (s_world s'))
    | None => busy p s'
    end) s.
Proof.
  revert s; induction turns as [|turns IH]; intros s Ha; cbn [wait_loop]; unfold thread; wp_step; apply wp_gets;
    destruct (after_cases _ _ _ Ha) as [[Hc ->]|[[He Ht] ->]].
  - wp_step. split; [apply Ha|apply Hc].
  - wp_step. apply wp_gets. wp_step. split; [apply Ha|done].
  - eapply wp_seq; [by apply (wait_turn_wp (S turns) p), Hc|]. cbv beta.
    intros [enough failed] s1 (E & Hc1 & Hm). cbn [fst snd] in *. subst failed. cbv beta iota.
    destruct enough; cbn [negb].
    + apply IH. by eapply calm_then.
    + wp_step. assert (H1 : calm p s0 s1) by (eapply calm_trans; [exact Hc|by apply Hm]). by destruct H1 as (? & ? & _).
  - wp_step. apply wp_gets. wp_step. split; [apply Ha|done].
Qed.
End Wait.
