(* ===== verification/PerfEnds.v ===== *)
(** * The load generator: the wait ends

    Every turn of the waiting loop uses up something: what the network still
    has for the socket, a step of the request's schedule, or, when the time to
    its deadline does not fit one call of [poll], some of that time. *)

From S2P Require Import Prelude.
From S2P Require Import Types.
From S2P Require Import Wire.
From S2P Require Import Crypto.
From S2P Require Import CryptoFacts.
From S2P Require Import Workflow.
From S2P Require Import State.
From S2P Require Import Hoare.
From S2P Require Import Schedule.
From S2P Require Import Steering.
From S2P Require Import Dns.
From S2P Require Import DnsFacts.
From S2P Require Import Request.
From S2P Require Import RequestFacts.
From S2P Require Import PacketFacts.
From S2P Require Import ExtractFacts.
From S2P Require Import Client.
From S2P Require Import Lifecycle.
From S2P Require Import Completion.
From S2P Require Import Datagram.
From S2P Require Import Admission.
From S2P Require Import WorkflowOps.
From S2P Require Import WorkflowFacts.
From S2P Require Import Api.
From S2P Require Import Frame.
From S2P Require Import Runtime.
From S2P Require Import RuntimeFacts.
From S2P Require Import RuntimeSockets.
From S2P Require Import RuntimeHost.
From S2P Require Import Ids.
From S2P Require Import RuntimeReceive.
From S2P Require Import PerfLatency.
From S2P Require Import PerfPacer.
From S2P Require Import Perf.
From S2P Require Import PerfFacts.
From S2P Require Import PerfNet.
From S2P Require Import PerfNetFacts.
From S2P Require Import PerfDns.
From S2P Require Import PerfDnsFacts.
From S2P Require Import PerfWorker.
From S2P Require Import PerfHost.
From S2P Require Import PerfWait.

(** A network that falls silent: what it still has for the socket, interrupted
    and spurious wake-ups included, and the time.  A wake-up uses some of it up,
    at the latest with the receive that follows; without one, [poll] waits for
    the time given, or to the end of the 64-bit clock. *)
Class Network (O : Type) `{PerfOs O} : Type := {
  nw_backlog : O -> nat;
  nw_ms : O -> Z;
  nw_calls :: PerfBears (fun o o' => (nw_backlog o' <= nw_backlog o)%nat /\ nw_ms o <= nw_ms o');
  nw_clock : forall o x o', os_clock_gettime CLOCK_REALTIME o = (x, o') ->
    exists t, x = Some t /\ nw_ms o <= timespec_ms t <= nw_ms o';
  nw_received : forall fd o len buffer from o', os_recvfrom fd o = ((len, buffer, from), o') ->
    0 <= len -> (nw_backlog o' < nw_backlog o)%nat;
  nw_wakes : forall fd timeout o rc readable o1, os_poll fd timeout o = (rc, readable, o1) -> rc <> 0 ->
    if (0 <? rc) && readable
    then forall x o2, os_recvfrom fd o1 = (x, o2) -> (nw_backlog o2 < nw_backlog o)%nat
    else (nw_backlog o1 < nw_backlog o)%nat;
  nw_expires : forall fd timeout o readable o', os_poll fd timeout o = (0, readable, o') ->
    Z.min (nw_ms o + timeout) UINT64_MAX <= nw_ms o';
}.

(** ** More turns *)
Lemma bind_more {W A B} (m : M W A) (k1 k2 : A -> M W B) (s : sys W) r :
  (forall a s', k1 a s' = Ok r -> k2 a s' = Ok r) -> (m ≫= k1) s = Ok r -> (m ≫= k2) s = Ok r.
Proof. intros Hk. unfold mbind, M_bind. destruct (m s) as [|[a s']]; [done|]. apply Hk. Qed.

Lemma bind_Ok {W A B} (m : M W A) (k : A -> M W B) (s : sys W) a s1 : m s = Ok (a, s1) -> (m ≫= k) s = k a s1.
Proof. intros E. unfold mbind, M_bind. by rewrite E. Qed.

Section More.
Context {O : Type} `{PO : PerfOs O} {cached : Cached} {ssl : OpenSSL}.
Implicit Types s : sys (pworld O).

Lemma receive_all_more n m s s' :
  (n <= m)%nat -> receive_all n s = Ok (true, s') -> receive_all m s = Ok (true, s').
Proof.
  revert m s; induction n as [|n IH]; intros m s Hm; cbn [receive_all]; [done|].
  destruct m as [|m]; [lia|]. cbn [receive_all]. apply bind_more. intros [[len buffer] from] s1. case_if; [done|].
  apply bind_more. intros rc s2. apply bind_more. intros done s3. destruct done; [done|]. apply IH. lia.
Qed.

Lemma wait_turn_more n m req s f s' :
  (n <= m)%nat -> wait_turn n req s = Ok (true, f, s') -> wait_turn m req s = Ok (true, f, s').
Proof.
  intros Hm. unfold wait_turn. apply bind_more. intros [rc d] s1. case_if; [done|].
  do 4 (apply bind_more; intros ? ?). destruct a2 as [prc readable]. apply bind_more. intros errno s6.
  intros E1. apply bind_inv in E1 as ([enough failed] & s7 & E2 & E3).
  destruct ((0 <? prc) && readable) eqn:Er.
  - apply bind_inv in E2 as (b & s8 & E2 & E4). destruct b.
    + apply (receive_all_more n m) in E2; [|done]. unfold mbind, M_bind. rewrite E2. injection E4 as <- <- <-. done.
    + injection E4 as <- <- <-. cbn [negb orb] in E3. by injection E3.
  - unfold mbind at 1, M_bind at 1. by rewrite E2.
Qed.

Lemma wait_loop_more n m req s st s' :
  (n <= m)%nat -> wait_loop n req s = Ok (Some st, s') -> wait_loop m req s = Ok (Some st, s').
Proof.
  revert m s; induction n as [|n IH]; intros m s Hm.
  - destruct m as [|m]; [done|]. cbn [wait_loop]. apply bind_more. intros done s1. by destruct done.
  - destruct m as [|m]; [lia|]. cbn [wait_loop]. apply bind_more. intros done s1. destruct done; [done|].
    intros E1. apply bind_inv in E1 as ([enough failed] & s2 & E2 & E3). destruct enough; cbn [negb] in E3; [|done].
    apply (wait_turn_more (S n) (S m)) in E2; [|done]. unfold mbind, M_bind in *. rewrite E2. cbn [negb].
    destruct failed; [done|]. apply IH; [lia|done].
Qed.
End More.

(** ** What a turn uses up *)
Section Ends.
Context {O : Type} `{PK : PerfKernel O} {olaws : OsLaws O} {cached : Cached} {sound : SoundCache}.
Context {ssl : OpenSSL} {laws : AesGcmLaws ssl} {polls : Polls O} {net : Network O} (base : gset Z).
Implicit Types s : sys (pworld O).

Definition later (o o' : O) : Prop := (nw_backlog o' <= nw_backlog o)%nat /\ nw_ms o <= nw_ms o'.
#[local] Instance later_bears : PerfBears later := nw_calls.
#[local] Instance later_preorder : PreOrder later := re_preorder.
Definition overtime s s' : Prop := later (pw_os (s_world s)) (pw_os (s_world s')).
#[local] Instance overtime_preorder : PreOrder overtime.
Proof. unfold overtime. split; [intros s; reflexivity|]. intros s1 s2 s3 ? ?. by etransitivity. Qed.

Lemma datagram_overtime buf len from s rc s' : r_client_on_datagram buf len from s = Ok (rc, s') -> overtime s s'.
Proof. intros E. exact (keeps_r_client_on_datagram (on_worlds (on_os_of later)) _ _ _ _ _ _ E). Qed.
Lemma timeout_overtime p now s rc s' : r_client_on_timeout p now s = Ok (rc, s') -> overtime s s'.
Proof. intros E. exact (keeps_r_client_on_timeout (on_worlds (on_os_of later)) _ _ _ _ _ E). Qed.

Lemma clock_reads (o : O) t o' : perf_now_ms o = (t, o') -> nw_ms o <= t <= nw_ms o'.
Proof.
  unfold perf_now_ms. destruct (os_clock_gettime CLOCK_REALTIME o) as [x o1] eqn:E.
  destruct (nw_clock _ _ _ E) as (ts & -> & Ht). by intros [= <- <-].
Qed.

Definition waiting_for s : nat := nw_backlog (pw_os (s_world s)).
Definition the_time s : Z := nw_ms (pw_os (s_world s)).

Lemma receive_uses s n buffer from s' :
  receive s = Ok ((n, buffer, from), s') -> overtime s s' /\ (0 <= n -> (waiting_for s' < waiting_for s)%nat) /\
  os_recvfrom (io_sockfd (pw_io (s_world s))) (pw_os (s_world s)) = ((n, buffer, from), pw_os (s_world s')).
Proof.
  unfold receive. intros E. apply bind_inv in E as (w & s1 & [= <- <-] & E). cbn [id] in E.
  apply lift_bind_inv in E as ([[[[n1 b1] f1] io1] o1] & Er & E). cbv beta iota in E. unfold perf_udp_receive in Er.
  destruct (os_recvfrom _ _) as [[[n2 b2] f2] o2] eqn:Eo.
  assert (Eq : (n1, b1, f1, o1) = (n2, b2, f2, o2)).
  { revert Er. case_if; [|by intros [= -> -> -> _ ->]]. destruct (perf_record_traffic _ _ _ _); [done|].
    rewrite run_bind_Ok. by intros [= -> -> -> _ ->]. }
  injection Eq as -> -> -> ->. injection E as -> -> -> <-. cbn. split; [|split; [|done]].
  - apply (re_recvfrom (R := later) _ _ _ _ Eo).
  - intros Hn. by eapply nw_received.
Qed.

Lemma receive_all_uses turns s enough s' :
  receive_all turns s = Ok (enough, s') ->
  overtime s s' /\ (enough = false -> (turns + waiting_for s' <= waiting_for s)%nat) /\
  (turns <> 0%nat -> exists x o1, os_recvfrom (io_sockfd (pw_io (s_world s))) (pw_os (s_world s)) = (x, o1) /\
     later o1 (pw_os (s_world s'))).
Proof.
  revert s; induction turns as [|turns IH]; intros s; cbn [receive_all].
  { intros [= <- <-]. split; [reflexivity|]. split; [lia|done]. }
  intros E. apply bind_inv in E as ([[n buffer] from] & s1 & Er & E). apply receive_uses in Er as (H1 & Hn & Eo).
  cbv beta iota in E. destruct (Z.ltb_spec n 0) as [Hneg|Hpos].
  { injection E as <- <-. split; [done|]. split; [done|]. intros _. do 2 eexists. split; [exact Eo|reflexivity]. }
  apply bind_inv in E as (rc & s2 & Ed & E). apply datagram_overtime in Ed.
  apply bind_inv in E as (done & s3 & [= <- <-] & E).
  assert (Hr : overtime s2 s' /\ (enough = false -> (turns + waiting_for s' <= waiting_for s2)%nat)).
  { revert E. case_if; [by intros [= <- <-]|]. intros E1. destruct (IH _ E1) as (? & ? & _). by split. }
  destruct Hr as [Hr1 Hr2]. pose proof (Hn Hpos). unfold waiting_for in *. destruct Ed as [Ed1 Ed2].
  split; [etransitivity; [exact H1|]; etransitivity; [by split|exact Hr1]|]. split.
  - intros Hf. specialize (Hr2 Hf). lia.
  - intros _. do 2 eexists. split; [exact Eo|]. etransitivity; [|exact Hr1]. by split.
Qed.

(** The time to the request's deadline. *)
Definition gap p s : Z :=
  match s_reqs s !! p with Some r => rq_attempt_deadline_ms r - the_time s | None => 0 end.

Definition supply p s : Z := Z.of_nat (waiting_for s) + left p s.

Definition closer p s s' : Prop :=
  supply p s' < supply p s \/ (supply p s' <= supply p s /\ gap p s' < gap p s /\ 0 < gap p s).

Lemma turn_end_overtime deadline p s s' : turn_end deadline p s = Ok (tt, s') -> overtime s s'.
Proof.
  unfold turn_end, system, thread. intros E. apply bind_inv in E as (now & s1 & E1 & E).
  assert (H1 : overtime s s1).
  { unfold world_op, on_system in E1. destruct (perf_now_ms (pw_os (s_world s))) as [x o] eqn:En. injection E1 as _ <-.
    exact (perf_now_respects later _ _ _ En). }
  apply bind_inv in E as (done & s2 & [= <- <-] & E). destruct (_ && _).
  - apply bind_inv in E as (rc & s2 & Et & [= <-]). apply timeout_overtime in Et. by etransitivity.
  - by injection E as <-.
Qed.

(** A turn in which nothing arrived: the deadline is due, or still ahead. *)
Lemma turn_end_idle p r s :
  busy p s -> s_reqs s !! p = Some r ->
  wp (turn_end (rq_attempt_deadline_ms r) (Some p)) (fun _ s' =>
    ended p s' \/ left p s' < left p s \/ (only_world s s' /\ the_time s < rq_attempt_deadline_ms r)) s.
Proof.
  intros Hb Hr. unfold turn_end. wp_step. apply (system_wp base p); [done|apply now_harmless|]. intros now o1 En Hc1.
  set (s1 := set_world _ s) in *. pose proof Hc1 as (_ & Hb1 & _). apply clock_reads in En.
  unfold thread. wp_step. apply wp_gets. rewrite (bu_done _ _ Hb1). cbn [negb andb].
  apply wp_if; intros Ed; breflect.
  - destruct (busy_live _ _ Hb1) as (r1 & Hr1 & Ho & Hin). change (s_reqs s1) with (s_reqs s) in Hr1.
    rewrite Hr in Hr1. injection Hr1 as <-.
    destruct (wp_Ok _ _ _ (on_timeout_wp ∅ p r now s1 (bu_inv _ _ Hb1) Hin Hr)) as (rc & s2 & Et & _ & Hst).
    wp_step. eapply wp_eq; [exact Et|]. wp_step.
    pose proof (timeout_respected base _ _ _ _ _ Et) as Hre.
    destruct (timeout_progress ∅ p r now s1 s2 (bu_inv _ _ Hb1) Hin Hr Ed Hst) as [(st & sel & Hc)|(_ & Hin2 & Ef & r2 & Hr2 & Hlt)].
    + left. eapply (completed_ends base); [done|exact Hc|done|done].
    + right. left. rewrite (left_at p _ _ Hr2), (left_at p _ _ Hr). by rewrite Ef.
  - wp_step. right. right. split; [by eexists|]. unfold the_time. lia.
Qed.

Lemma poll_timeout_spec deadline now :
  is_u64 deadline -> is_u64 now -> 0 <= poll_timeout deadline now /\
  (poll_timeout deadline now < INT32_MAX -> deadline <= now + poll_timeout deadline now).
Proof.
  intros Hd Hn. unfold poll_timeout, INT32_MAX. destruct (Z.ltb_spec now deadline); [|lia]. cbv zeta.
  rewrite u64_small by rlia. case_if; breflect; lia.
Qed.

Lemma turn_uses p turns s :
  busy p s -> (waiting_for s < turns)%nat ->
  exists s', wait_turn turns (Some p) s = Ok (true, false, s') /\ after base p s s' /\
    (ended p s' \/ (busy p s' /\ closer p s s')).
Proof.
  intros Hb Hturns.
  enough (Hw : wp (wait_turn turns (Some p)) (fun x s' => fst x = true /\ (ended p s' \/ closer p s s')) s).
  { destruct (wp_Ok _ _ _ (wp_and _ _ _ _ (wait_turn_wp base turns p s Hb) Hw))
      as ([en failed] & s' & Ew & (Ef & Ha & _) & Een & Hcl). cbn [fst snd] in *. subst. exists s'.
    split; [done|]. split; [done|]. destruct (after_cases base _ _ _ Ha) as [[(_ & Hb' & _) _]|[[He _] _]]; [|by left].
    destruct Hcl as [He|Hcl]; [by left|by right]. }
  destruct (busy_live _ _ Hb) as (r & Hr & Ho & Hin). unfold wait_turn, r_client_request_deadline_ms.
  do 4 wp_step. change (RCLIENT_OK =? RCLIENT_OK) with true. cbn [negb]. wp_step. eapply wp_lift; [reflexivity|].
  wp_step. apply (system_wp base p); [done|apply now_harmless|]. intros now o1 En Hc1.
  set (s1 := set_world _ s) in *. pose proof Hc1 as (_ & Hb1 & _).
  unfold thread. wp_step. apply wp_gets. wp_step. apply (system_wp base p); [done|apply poll_harmless|].
  intros [prc readable] o2 Ep Hc2. set (s2 := set_world _ s1) in *. pose proof Hc2 as (_ & Hb2 & _). cbv beta iota.
  wp_step. apply wp_gets. change (pw_os (s_world s2)) with o2.
  pose proof (perf_now_u64 _ _ _ En) as Hu. pose proof (clock_reads _ _ _ En) as Ht1.
  pose proof (perf_now_respects later _ _ _ En) as L1. pose proof (pp_poll (R := later) _ _ _ _ _ Ep) as L2.
  assert (Hend : forall s3, overtime s2 s3 -> after base p s s3 -> (waiting_for s3 < waiting_for s)%nat ->
    wp (_ ← turn_end (rq_attempt_deadline_ms r) (Some p); mret (true, false))
      (fun x s' => fst x = true /\ (ended p s' \/ closer p s s')) s3).
  { intros s3 _ Ha3 Hlt. destruct (wp_Ok _ _ _ (turn_end_wp base p (rq_attempt_deadline_ms r) s s3 Ha3)) as ([] & s4 & Et & Ha4).
    wp_step. eapply wp_eq; [exact Et|]. wp_step. split; [done|]. pose proof (turn_end_overtime _ _ _ _ Et) as [L3 _].
    destruct Ha4 as [_ [(_ & Hl & _)|[He _]]]; [|by left]. right. left. unfold supply, waiting_for in *. lia. }
  wp_step. apply wp_if; intros E1.
  - (* something can be received *)
    destruct (wp_Ok _ _ _ (receive_all_wp base turns p s2 Hb2)) as (enough & s3 & Er & Ha3 & _).
    wp_step. eapply wp_eq; [exact Er|]. destruct (receive_all_uses _ _ _ _ Er) as (L3 & Hf & Hx).
    destruct (Hx ltac:(lia)) as (x & o3 & Eo & L4). apply andb_true_iff in E1 as [E1 E2]. subst readable. breflect.
    pose proof (nw_wakes _ _ _ _ _ _ Ep ltac:(lia)) as Hwk. rewrite (proj2 (Z.ltb_lt 0 prc)) in Hwk by lia. cbn [andb] in Hwk.
    specialize (Hwk _ _ Eo). destruct L1 as [L1 _], L2 as [L2 _], L4 as [L4 _]. unfold waiting_for in *.
    change (pw_os (s_world s1)) with o1 in Hwk, L2. change (pw_os (s_world s2)) with o2 in *.
    wp_step. cbv beta iota. destruct enough; cbn [negb orb].
    + apply Hend; [done| |lia]. eapply calm_then; [|exact Ha3]. by eapply calm_trans.
    + exfalso. specialize (Hf eq_refl). lia.
  - apply wp_if; intros E2.
    { exfalso. destruct (py_poll _ (bu_polls _ _ Hb1) _ _ _ _ _ Ep) as [Hp|Hp]; apply andb_true_iff in E2 as [E2 E3]; breflect; [lia|].
      by rewrite Hp in E3. }
    wp_step. cbv beta iota. cbn [negb orb]. destruct (Z.eq_dec prc 0) as [->|Hne].
    2:{ pose proof (nw_wakes _ _ _ _ _ _ Ep Hne) as Hwk. rewrite E1 in Hwk. apply Hend; [reflexivity| |].
        - apply calm_after. by eapply calm_trans.
        - unfold waiting_for. change (pw_os (s_world s2)) with o2. destruct L1 as [L1 _].
          change (pw_os (s_world s1)) with o1 in Hwk. lia. }
    pose proof (nw_expires _ _ _ _ _ Ep) as Hexp. change (pw_os (s_world s1)) with o1 in Hexp.
    assert (Hdl : is_u64 (rq_attempt_deadline_ms r)).
    { destruct (ci_reqs _ _ _ (bu_inv _ _ Hb) p r Hin Hr) as [_ Hs].
      destruct (schedule_deadlines _ r (co_policy _ (ci_cfg _ _ _ (bu_inv _ _ Hb))) Hs) as (? & ? & ? & ?).
      pose proof (lt_start _ _ (os_lifetime _ _ Hs)). rlia. }
    destruct (poll_timeout_spec _ _ Hdl Hu) as [Hp0 Hp1].
    destruct (wp_Ok _ _ _ (turn_end_idle p r s2 Hb2 Hr)) as ([] & s4 & Et & Hidle).
    wp_step. eapply wp_eq; [exact Et|]. wp_step. split; [done|]. pose proof (turn_end_overtime _ _ _ _ Et) as [L3 T3].
    destruct L1 as [L1 T1], L2 as [L2 T2]. unfold supply, waiting_for, the_time in *.
    change (pw_os (s_world s2)) with o2 in *. change (pw_os (s_world s1)) with o1 in *.
    destruct Hidle as [He|[Hl|[Hw Hahead]]]; [by left| |].
    + right. left. unfold supply, waiting_for. change (left p s2) with (left p s) in Hl. lia.
    + right. right. unfold supply, gap, waiting_for, the_time. destruct Hw as [w ->]. cbn [s_reqs set_world s_world] in *.
      change (left p (set_world w s2)) with (left p s). change (s_reqs s2) with (s_reqs s).
      rewrite Hr. unfold INT32_MAX in *. rlia.
Qed.

(** ** The wait returns *)

(** Whatever the request's schedule and the network still have, the wait ends
    after finitely many turns, and more turns do not change it. *)
Lemma wait_loop_returns p s :
  busy p s -> exists n s', ended p s' /\
    forall turns, (n <= turns)%nat -> wait_loop turns (Some p) s = Ok (Some (rc_status (pw_request (s_world s'))), s').
Proof.
  remember (Z.to_nat (supply p s)) as m eqn:Em. revert s Em.
  induction (lt_wf m) as [m _ IHm]. intros s. remember (Z.to_nat (gap p s)) as g eqn:Eg. revert s Eg.
  induction (lt_wf g) as [g _ IHg]. intros s -> -> Hb.
  destruct (turn_uses p (S (waiting_for s)) s Hb ltac:(lia)) as (s1 & Et & Ha & Hcase).
  assert (Hnext : exists n s', ended p s' /\ forall turns, (n <= turns)%nat ->
    wait_loop turns (Some p) s1 = Ok (Some (rc_status (pw_request (s_world s'))), s')).
  { destruct Hcase as [He|[Hb1 Hcl]].
    - exists 0%nat, s1. split; [done|]. intros turns _. pose proof (ended_done _ _ He) as Ed.
      destruct turns; cbn [wait_loop]; erewrite bind_Ok by reflexivity; by rewrite Ed.
    - assert (Hnn : forall s, busy p s -> 0 <= supply p s).
      { intros s0 Hb0. destruct (busy_live _ _ Hb0) as (r & Hr & _ & Hin). unfold supply. rewrite (left_at p _ _ Hr).
        pose proof (steps_left_nonneg _ _ (proj2 (ci_reqs _ _ _ (bu_inv _ _ Hb0) p r Hin Hr))). lia. }
      pose proof (Hnn _ Hb). pose proof (Hnn _ Hb1). destruct Hcl as [Hlt|(Hle & Hg & Hpos)].
      + by apply (IHm (Z.to_nat (supply p s1)) ltac:(lia) s1).
      + destruct (Z.eq_dec (supply p s1) (supply p s)) as [Eq|Hne].
        * apply (IHg (Z.to_nat (gap p s1)) ltac:(lia) s1); [done|by rewrite Eq|done].
        * by apply (IHm (Z.to_nat (supply p s1)) ltac:(lia) s1). }
  destruct Hnext as (n & s' & He & Hn). exists (S (n + waiting_for s)), s'. split; [done|]. intros turns Hturns.
  destruct turns as [|turns]; [lia|]. cbn [wait_loop].
  erewrite bind_Ok by reflexivity. rewrite (bu_done _ _ Hb). apply (wait_turn_more _ (S turns)) in Et; [|lia].
  rewrite (bind_Ok _ _ _ _ _ Et). cbn [negb]. apply Hn. lia.
Qed.
End Ends.
