(* ===== verification/PerfRun.v ===== *)
(** * The load generator: what a worker counts

    A run of a worker is a list of requests, each refused when it was started
    or answered through its callback; the counters and the histogram are those
    of that list. *)

From S2P Require Import Prelude.
From S2P Require Import Types.
From S2P Require Import Wire.
From S2P Require Import Crypto.
From S2P Require Import CryptoFacts.
From S2P Require Import Workflow.
From S2P Require Import State.
From S2P Require Import Hoare.
From S2P Require Import Schedule.
From S2P Require Import Steering.
From S2P Require Import Dns.
From S2P Require Import DnsFacts.
From S2P Require Import Request.
From S2P Require Import RequestFacts.
From S2P Require Import PacketFacts.
From S2P Require Import ExtractFacts.
From S2P Require Import Client.
From S2P Require Import Lifecycle.
From S2P Require Import Completion.
From S2P Require Import Datagram.
From S2P Require Import Admission.
From S2P Require Import WorkflowOps.
From S2P Require Import WorkflowFacts.
From S2P Require Import Api.
From S2P Require Import Frame.
From S2P Require Import Runtime.
From S2P Require Import RuntimeFacts.
From S2P Require Import RuntimeSockets.
From S2P Require Import RuntimeHost.
From S2P Require Import Ids.
From S2P Require Import RuntimeReceive.
From S2P Require Import PerfLatency.
From S2P Require Import PerfPacer.
From S2P Require Import Perf.
From S2P Require Import PerfFacts.
From S2P Require Import PerfNet.
From S2P Require Import PerfNetFacts.
From S2P Require Import PerfDns.
From S2P Require Import PerfDnsFacts.
From S2P Require Import PerfWorker.
From S2P Require Import PerfHost.
From S2P Require Import PerfWait.
From S2P Require Import PerfEnds.

(** ** Counting *)

(** What became of a request: completed with a status and a result, or refused
    at once; and the clock before it was made and after it was over. *)
Record verdict := mk_verdict {
  vd_answer : option (ptr * Z * option r_rate_limit_result);
  vd_begun : Z;
  vd_over : Z;
}.

(** Granted or denied is what a result with the status OK says; everything else
    is an error. *)
Definition outcome_of (v : verdict) : perf_outcome :=
  match vd_answer v with
  | Some (_, status, Some r) =>
      if status =? RCLIENT_OK then (if rl_success r then PERF_OUTCOME_GRANTED else PERF_OUTCOME_DENIED)
      else PERF_OUTCOME_ERROR
  | _ => PERF_OUTCOME_ERROR
  end.

Lemma outcome_of_answer p status res t1 t2 :
  outcome_of (mk_verdict (Some (p, status, res)) t1 t2) = perf_request_outcome status res.
Proof. unfold outcome_of, perf_request_outcome. cbn. destruct res; [|done]. by destruct (status =? RCLIENT_OK). Qed.

(** The latencies of the answered requests, in microseconds. *)
Definition latency_us (v : verdict) : Z := (vd_over v -64 vd_begun v) / 1000.
Definition latencies (vs : list verdict) : list Z :=
  latency_us <$> filter (fun v => outcome_of v <> PERF_OUTCOME_ERROR) vs.

Definition times (o : perf_outcome) (vs : list verdict) : Z := zlen (filter (fun v => outcome_of v = o) vs).
Definition answered_times (vs : list verdict) : Z := times PERF_OUTCOME_GRANTED vs + times PERF_OUTCOME_DENIED vs.

Lemma times_app o vs vs' : times o (vs ++ vs') = times o vs + times o vs'.
Proof. unfold times. rewrite filter_app, length_app. lia. Qed.

Lemma times_total vs : answered_times vs + times PERF_OUTCOME_ERROR vs = zlen vs.
Proof.
  unfold answered_times. induction vs as [|v vs IH]; [done|]. change (v :: vs) with ([v] ++ vs).
  rewrite !times_app. rewrite length_app. unfold times at 1 3 5. cbn.
  destruct (outcome_of v) eqn:Eo; cbn in *; repeat case_decide; try congruence; cbn [length]; lia.
Qed.

Lemma latencies_app vs vs' : latencies (vs ++ vs') = latencies vs ++ latencies vs'.
Proof. unfold latencies. by rewrite filter_app, fmap_app. Qed.

Lemma latencies_length vs : zlen (latencies vs) = answered_times vs.
Proof.
  unfold latencies, answered_times. rewrite length_fmap. induction vs as [|v vs IH]; [done|].
  change (v :: vs) with ([v] ++ vs). rewrite filter_app, length_app, !times_app. unfold times at 1 3. cbn.
  destruct (outcome_of v) eqn:Eo; cbn in *; repeat case_decide; try congruence; cbn [length]; lia.
Qed.

(** The counters after the requests [vs]. *)
Definition stats_after (vs : list verdict) (t t' : perf_stats) : Prop :=
  ps_logical_starts t' = ps_logical_starts t +64 zlen vs /\
  ps_requests_sent t' = ps_requests_sent t +64 zlen vs /\
  ps_responses_received t' = ps_responses_received t +64 answered_times vs /\
  ps_granted t' = ps_granted t +64 times PERF_OUTCOME_GRANTED vs /\
  ps_denied t' = ps_denied t +64 times PERF_OUTCOME_DENIED vs /\
  ps_errors t' = ps_errors t +64 times PERF_OUTCOME_ERROR vs.

Definition stats_ok (t : perf_stats) : Prop :=
  is_u64 (ps_logical_starts t) /\ is_u64 (ps_requests_sent t) /\ is_u64 (ps_responses_received t) /\
  is_u64 (ps_granted t) /\ is_u64 (ps_denied t) /\ is_u64 (ps_errors t).

Lemma add64_add x a b : (x +64 a) +64 b = x +64 (a + b).
Proof. unfold u64. rewrite Zplus_mod_idemp_l. f_equal. lia. Qed.

Lemma add64_0 x : is_u64 x -> x +64 0 = x.
Proof. intros Hx. by rewrite Z.add_0_r, u64_small. Qed.

Lemma stats_after_nil t : stats_ok t -> stats_after [] t t.
Proof. intros (? & ? & ? & ? & ? & ?). unfold stats_after. cbn. rewrite !add64_0 by done. by repeat split. Qed.

Lemma stats_after_app vs vs' t1 t2 t3 :
  stats_after vs t1 t2 -> stats_after vs' t2 t3 -> stats_after (vs ++ vs') t1 t3.
Proof.
  intros (A1 & A2 & A3 & A4 & A5 & A6) (B1 & B2 & B3 & B4 & B5 & B6). unfold stats_after, answered_times.
  rewrite !times_app, length_app, Nat2Z.inj_add, B1, B2, B3, B4, B5, B6, A1, A2, A3, A4, A5, A6, !add64_add.
  unfold answered_times. repeat split; f_equal; lia.
Qed.

(** The worker after the requests [vs]: its counters, and a histogram with the
    latency of every answer. *)
Record counted (vs : list verdict) (k k' : worker_ctx) : Prop := {
  ct_config : wk_config k' = wk_config k /\ wk_client_id k' = wk_client_id k;
  ct_stats : stats_after vs (wk_stats k) (wk_stats k');
  ct_hist : forall l, histogram (wk_latency_hist k) l -> zlen l + zlen vs <= UINT64_MAX ->
    histogram (wk_latency_hist k') (l ++ latencies vs);
}.

Lemma answered_le vs : 0 <= answered_times vs <= zlen vs.
Proof. pose proof (times_total vs). unfold answered_times, times in *. lia. Qed.

Lemma counted_nil k k' :
  stats_ok (wk_stats k) -> wk_config k' = wk_config k -> wk_client_id k' = wk_client_id k ->
  wk_stats k' = wk_stats k -> wk_latency_hist k' = wk_latency_hist k -> counted [] k k'.
Proof.
  intros Hk E1 E2 E3 E4. split; [done|by rewrite E3; apply stats_after_nil|]. intros l Hl _. by rewrite app_nil_r, E4.
Qed.

Lemma counted_app vs vs' k1 k2 k3 : counted vs k1 k2 -> counted vs' k2 k3 -> counted (vs ++ vs') k1 k3.
Proof.
  intros [(A1 & A2) A4 A5] [(B1 & B2) B4 B5]. split; [split; congruence|by eapply stats_after_app|].
  intros l Hl Hb. rewrite length_app, Nat2Z.inj_add in Hb. rewrite latencies_app, app_assoc.
  pose proof (answered_le vs). pose proof (latencies_length vs). apply B5; [apply A5; [done|lia]|]. rewrite length_app. lia.
Qed.

(** Room for [n] more latencies. *)
Definition has_room (n : Z) (k : worker_ctx) : Prop :=
  stats_ok (wk_stats k) /\ exists l, histogram (wk_latency_hist k) l /\ zlen l + n <= UINT64_MAX.

Lemma stats_after_ok vs t t' : stats_after vs t t' -> stats_ok t'.
Proof. intros (E1 & E2 & E3 & E4 & E5 & E6). unfold stats_ok. rewrite E1, E2, E3, E4, E5, E6. repeat split; apply u64_range. Qed.

Lemma has_room_counted n vs k k' : has_room n k -> zlen vs <= n -> counted vs k k' -> has_room (n - zlen vs) k'.
Proof.
  intros [Hs (l & Hl & Hb)] Hn Hc. split; [by eapply stats_after_ok, Hc|].
  exists (l ++ latencies vs). split; [apply (ct_hist _ _ _ Hc l Hl); lia|].
  rewrite length_app. pose proof (answered_le vs). pose proof (latencies_length vs). lia.
Qed.

Lemma refused_counted k t1 t2 :
  stats_ok (wk_stats k) ->
  exists k', perf_record_stats (t2 -64 t1) false (count_start k) = Ok k' /\ counted [mk_verdict None t1 t2] k k'.
Proof.
  intros (H1 & H2 & H3 & H4 & H5 & H6). eexists. split; [done|]. split; [done| |].
  - unfold stats_after. cbn. by rewrite !add64_0.
  - intros l Hl _. by rewrite app_nil_r.
Qed.

Lemma heard_counted k t1 t2 p st res :
  has_room 1 k ->
  exists k', perf_record_stats (t2 -64 t1) (negb (bool_decide (perf_request_outcome st res = PERF_OUTCOME_ERROR))) (count_start k)
    = Ok k' /\ counted [mk_verdict (Some (p, st, res)) t1 t2] k (count_outcome (perf_request_outcome st res) k').
Proof.
  intros [(H1 & H2 & H3 & H4 & H5 & H6) (l0 & Hl0 & Hb)]. unfold perf_record_stats.
  set (lat := t2 -64 t1). assert (Hlat : 0 <= lat) by apply u64_range. set (v := mk_verdict _ t1 t2).
  assert (Hus : 0 <= lat / 1000) by (apply Z.div_pos; lia).
  assert (Hcount : forall l, histogram (wk_latency_hist k) l -> zlen l + 1 <= UINT64_MAX ->
    exists h, count_latency (lat / 1000) (wk_latency_hist k) = Ok h /\ histogram h ([lat / 1000] ++ l)).
  { intros l Hl Hr. apply count_latency_spec; [done|done|lia]. }
  destruct (Hcount l0 Hl0 Hb) as (h & Eh & _).
  assert (Eout : outcome_of v = perf_request_outcome st res) by apply outcome_of_answer.
  assert (Hone : times PERF_OUTCOME_GRANTED [v] = Z.b2z (bool_decide (perf_request_outcome st res = PERF_OUTCOME_GRANTED)) /\
    times PERF_OUTCOME_DENIED [v] = Z.b2z (bool_decide (perf_request_outcome st res = PERF_OUTCOME_DENIED)) /\
    times PERF_OUTCOME_ERROR [v] = Z.b2z (bool_decide (perf_request_outcome st res = PERF_OUTCOME_ERROR)) /\
    latencies [v] = if bool_decide (perf_request_outcome st res = PERF_OUTCOME_ERROR) then [] else [lat / 1000]).
  { unfold times, latencies. rewrite !filter_cons, Eout. by destruct (perf_request_outcome st res). }
  destruct Hone as (T1 & T2 & T3 & T4).
  assert (Hhist : latencies [v] = [lat / 1000] -> forall l, histogram (wk_latency_hist k) l -> zlen l + 1 <= UINT64_MAX ->
    histogram h (l ++ latencies [v])).
  { intros E l Hl Hr. destruct (Hcount l Hl Hr) as (h' & Eh' & Hh'). rewrite Eh in Eh'. injection Eh' as <-. rewrite E.
    eapply histogram_perm; [|exact Hh']. by rewrite Permutation_app_comm. }
  destruct (perf_request_outcome st res) eqn:Eo.
  - rewrite bool_decide_true by done. eexists. split; [done|]. split; [done| |].
    + unfold stats_after, answered_times. rewrite T1, T2, T3. cbn. by rewrite !add64_0.
    + intros l Hl _. by rewrite T4, app_nil_r.
  - rewrite bool_decide_false by done. cbn [negb wk_latency_hist count_start set_wk_stats]. rewrite Eh, run_bind_Ok.
    eexists. split; [done|]. split; [done| |].
    + unfold stats_after, answered_times. rewrite T1, T2, T3. cbn. by rewrite !add64_0.
    + by apply Hhist.
  - rewrite bool_decide_false by done. cbn [negb wk_latency_hist count_start set_wk_stats]. rewrite Eh, run_bind_Ok.
    eexists. split; [done|]. split; [done| |].
    + unfold stats_after, answered_times. rewrite T1, T2, T3. cbn. by rewrite !add64_0.
    + by apply Hhist.
Qed.

(** ** One request *)

(** The requests that completed. *)
Definition requests_of (vs : list verdict) : list ptr := omap (fun v => (fun x => fst (fst x)) <$> vd_answer v) vs.

(** What a request leaves in the notes: the clock before it, the one call of the
    callback unless it was refused, and the clock after it. *)
Definition account (v : verdict) : list note :=
  [Clocked (vd_begun v)] ++
  match vd_answer v with Some (p, status, res) => [Heard p status res] | None => [] end ++
  [Clocked (vd_over v)].

(** How often the loop reads the clock before a request: to pace it and when it
    is due, or for the run's duration, or not at all. *)
Definition wakes (c : perf_config) : Z :=
  if negb (pf_target_rps c =? 0) then 2 else if pf_has_duration c then 1 else 0.
Definition readings (l : list note) : Prop :=
  Forall (fun n => match n with Clocked _ => True | Heard _ _ _ => False end) l.

(** The notes of the loop with the requests [vs]: they follow one another, each
    with its account, and nothing else was heard. *)
Inductive journal (c : perf_config) : list verdict -> list note -> Prop :=
| journal_end gap : readings gap -> zlen gap <= wakes c -> journal c [] gap
| journal_request gap v vs l :
    readings gap -> zlen gap = wakes c -> journal c vs l -> journal c (v :: vs) (gap ++ account v ++ l).

Section Run.
Context {O : Type} `{PK : PerfKernel O} {olaws : OsLaws O} {cached : Cached} {sound : SoundCache}.
Context {ssl : OpenSSL} {laws : AesGcmLaws ssl} {polls : Polls O} (base : gset Z).
Implicit Types s : sys (pworld O).

(** The callback's call for a request of this part of the run. *)
Definition was_heard s s' (v : verdict) : Prop :=
  match vd_answer v with
  | None => True
  | Some (p, status, res) =>
      EvComplete (Some p) ON_RATE_LIMIT REQUEST_CTX status res ∈ s_trace s' /\
      completions p (s_trace s') = 1%nat /\ (s_next s <= p < s_next s')%nat
  end.

(** Different requests, each heard of once. *)
Definition happened (vs : list verdict) s s' : Prop :=
  Forall (was_heard s s') vs /\ NoDup (requests_of vs).

Record idle s : Prop := {
  id_inv : client_inv ∅ s;
  id_none : cl_inflight (s_client s) = [];
}.

Definition held s : Prop := holding base (s_world s) /\ py_at (pw_os (s_world s)).

(** What a part of the run leaves alone. *)
Definition passes s s' : Prop := call_frame ∅ s s' /\ (held s -> held s').
#[export] Instance passes_preorder : PreOrder passes.
Proof.
  split; [intros s; split; [reflexivity|done]|]. intros s1 s2 s3 [H1 G1] [H2 G2]. split; [by etransitivity|auto].
Qed.

Lemma stays_passes s s' : stays base s s' -> passes s s'.
Proof. intros [HF (_ & H1 & H2)]. split; [done|]. intros [? ?]. split; [by apply H1|by apply H2]. Qed.

Lemma idle_world w s : idle s -> idle (set_world w s).
Proof. intros [HI Hn]. split; [by eapply client_inv_world; [|eexists]|done]. Qed.

Lemma passes_world w s :
  client_inv ∅ s -> pw_io w = pw_io (s_world s) -> harmless (pw_os (s_world s)) (pw_os w) -> passes s (set_world w s).
Proof.
  intros HI E [Hs Hp]. split; [by apply kept_world; [|eexists]|]. intros [Hh ?]. split; [|by apply Hp].
  unfold holding in *. cbn. rewrite E. by eapply holds_still.
Qed.

Lemma harmless_refl (o : O) : harmless o o.
Proof. split; [apply re_preorder|by intros ?]. Qed.

(** A call of the system between requests. *)
Lemma idle_system_wp {A} (f : O -> A * O) (Q : A -> sys (pworld O) -> Prop) s :
  idle s -> (forall o a o', f o = (a, o') -> harmless o o') ->
  (forall a o' s', f (pw_os (s_world s)) = (a, o') -> s' = set_world (with_os o' (s_world s)) s ->
     idle s' -> passes s s' -> Q a s') ->
  wp (system f) Q s.
Proof.
  intros Hi Hf HQ. unfold system. apply wp_world_op. intros a w. unfold on_system.
  destruct (f (pw_os (s_world s))) as [x o] eqn:E. intros [= -> <-]. eapply HQ; [done|done|by apply idle_world|].
  apply passes_world; [apply Hi|done|]. by eapply Hf.
Qed.

Lemma mono_harmless (o : O) a o' : perf_now_ns_monotonic o = (a, o') -> harmless o o'.
Proof. exact (perf_mono_respects harmless o a o'). Qed.

(** A reading of the clock between requests. *)
Lemma idle_monotonic_wp (Q : Z -> sys (pworld O) -> Prop) s :
  idle s ->
  (forall now o' s', is_u64 now -> s' = set_trace (s_trace s ++ [EvRead now]) (set_world (with_os o' (s_world s)) s) ->
     idle s' -> passes s s' -> since s s' [Clocked now] -> Q now s') ->
  wp monotonic Q s.
Proof.
  intros Hi HQ. unfold monotonic. wp_step. apply idle_system_wp; [done|apply mono_harmless|]. intros now o' s1 En E1 Hi1 P1.
  wp_step. unfold emit. apply wp_modify. wp_step.
  destruct (client_inv_emit None ∅ s1 (EvRead now) (id_inv _ Hi1) ltac:(done)) as [HI2 HF2].
  apply (HQ now o'); [by eapply perf_mono_u64|by subst| | |].
  - split; [done|apply Hi1].
  - etransitivity; [exact P1|]. by split.
  - exists [EvRead now]. by subst.
Qed.

(** A change of the worker's own state. *)
Lemma idle_thread_wp (f : pworld O -> pworld O) (Q : unit -> sys (pworld O) -> Prop) s :
  idle s -> pw_io (f (s_world s)) = pw_io (s_world s) -> pw_os (f (s_world s)) = pw_os (s_world s) ->
  (forall s', s' = set_world (f (s_world s)) s -> idle s' -> passes s s' -> Q tt s') ->
  wp (upd_thread f) Q s.
Proof.
  intros Hi E1 E2 HQ. unfold upd_thread. apply wp_modify. apply HQ; [done|by apply idle_world|].
  apply passes_world; [apply Hi|done|]. rewrite E2. apply harmless_refl.
Qed.

Lemma happened_none t1 t2 s s' : happened [mk_verdict None t1 t2] s s'.
Proof. split; [by repeat constructor|constructor]. Qed.

Lemma happened_nil s s' : happened [] s s'.
Proof. split; constructor. Qed.

Lemma was_heard_later s1 s2 s3 v :
  idle s2 -> call_frame ∅ s2 s3 -> was_heard s1 s2 v -> was_heard s1 s3 v.
Proof.
  intros Hi HF. unfold was_heard. destruct (vd_answer v) as [[[p st] res]|]; [|done]. intros (He & Hc & Hp).
  destruct (ca_trace _ _ _ HF) as (tr & Et & Hno). rewrite Et. split; [apply elem_of_app; by left|].
  rewrite completions_app, Hc, Hno by (lia || (rewrite (id_none _ Hi); set_solver)). split; [done|].
  pose proof (ca_next _ _ _ HF). lia.
Qed.

Lemma was_heard_earlier s1 s2 s3 v : call_frame ∅ s1 s2 -> was_heard s2 s3 v -> was_heard s1 s3 v.
Proof.
  intros HF. unfold was_heard. destruct (vd_answer v) as [[[p st] res]|]; [|done]. intros (He & Hc & Hp). split; [done|]. split; [done|].
  pose proof (ca_next _ _ _ HF). lia.
Qed.

Lemma requests_range s s' vs p : Forall (was_heard s s') vs -> p ∈ requests_of vs -> (s_next s <= p < s_next s')%nat.
Proof.
  intros Hf Hin. apply list_elem_of_omap in Hin as (v & Hv & E). rewrite Forall_forall in Hf. specialize (Hf v Hv).
  unfold was_heard in Hf. destruct (vd_answer v) as [[[q st] res]|]; [|done]. injection E as <-. apply Hf.
Qed.

Lemma happened_app vs vs' s1 s2 s3 :
  idle s2 -> call_frame ∅ s1 s2 -> call_frame ∅ s2 s3 ->
  happened vs s1 s2 -> happened vs' s2 s3 -> happened (vs ++ vs') s1 s3.
Proof.
  intros Hi HF1 HF2 [H1 N1] [H2 N2]. split.
  - apply Forall_app. split; eapply Forall_impl; [exact H1| |exact H2|].
    + intros v. by apply was_heard_later.
    + intros v. by apply was_heard_earlier.
  - unfold requests_of. rewrite omap_app. apply NoDup_app. split; [done|]. split; [|done].
    intros p Hp Hq. pose proof (requests_range _ _ _ _ H1 Hp). pose proof (requests_range _ _ _ _ H2 Hq). lia.
Qed.

Lemma cancel_silent tr : Forall is_cancel tr -> Forall (fun e => silent e = true) tr.
Proof. intros Hc. eapply Forall_impl; [exact Hc|]. by intros []. Qed.

(** Starting a request: refused, or the only one in flight. *)
Lemma request_start_wp resource s :
  idle s -> py_at (pw_os (s_world s)) -> rc_done (pw_request (s_world s)) = false -> wf_resource_request resource ->
  wp (r_client_check_rate_limit_async_borrowed (Some [resource]) 1 None 0 None 0 ON_RATE_LIMIT REQUEST_CTX (OutVar None))
    (fun res s' => stays base s s' /\ since s s' [] /\
       ((fst res <> RCLIENT_OK /\ idle s') \/
        exists p, res = (RCLIENT_OK, OutVar (Some p)) /\ busy p s' /\ (s_next s <= p)%nat)) s.
Proof.
  intros Hi Hpy Hd Hr.
  assert (Ha : args_ok (Some [resource]) 1 None 0 None 0 [] [resource] None).
  { split; try done; [by left|by apply Forall_singleton|by right]. }
  destruct (wp_Ok _ _ _ (check_async_wp ∅ (Some [resource]) 1 None 0 None 0 [] [resource] None ON_RATE_LIMIT REQUEST_CTX
    (OutVar None) true s (id_inv _ Hi) Ha ltac:(done) ltac:(done))) as (res & s' & E & Hc).
  eapply wp_eq; [exact E|].
  pose proof (keeps_r_client_check_rate_limit_async_borrowed answered _ _ _ _ _ _ _ _ _ _ _ _ E) as Hans.
  pose proof (keeps_r_client_check_rate_limit_async_borrowed (on_worlds (keeps_thread base)) _ _ _ _ _ _ _ _ _ _ _ _ E) as Hk.
  pose proof (keeps_r_client_check_rate_limit_async_borrowed unread _ _ _ _ _ _ _ _ _ _ _ _ E) as (t & Et0 & Hread).
  clear E. destruct Hc as [s' tr2 _ _ Hnil|rc s' Hrc%check_refusal_fails HI HF _ Hin _ Hnone|p r tr st s1 s' _ _ Hp HI HF _ Hdns Er _ Hin _ Hla Et Hs _ _]; [done| |].
  - split; [by split|]. split; [|left; split; [done|]; split; [done|]; by rewrite Hin, (id_none _ Hi)].
    exists t. split; [done|]. apply notes_none, Forall_forall. intros e He.
    destruct e as [|[p|] cb user st res| | | | | | | |ns]; try done; cbn.
    + apply completes_in in He. specialize (Hnone p). rewrite Et0, completions_app in Hnone. lia.
    + by apply Hread in He.
  - clear t Et0 Hread. destruct (df_trace _ _ Hdns) as (tr0 & Et0 & Hcan).
    assert (Hsil : Forall (fun e => silent e = true) (tr0 ++ tr)).
    { apply Forall_app. split; [by apply cancel_silent|]. by apply quiet_silent, (sends_quiet r false). }
    rewrite Et0, <- app_assoc in Et. split; [by split|]. split; [by eapply since_silent|].
    right. exists p. split; [done|]. split; [|done]. split; [done|by rewrite Hin, (id_none _ Hi)| | |by apply Hk].
    + rewrite Er, lookup_insert_eq. cbn. destruct (la_cb _ _ _ _ _ _ _ _ Hla) as [E1 E2]. unfold owner. by rewrite E1, E2.
    + by rewrite (answered_quiet s s' (tr0 ++ tr) Hans).
Qed.

(** What one turn of the worker's loop does. *)
Definition one_more s s' : Prop :=
  idle s' /\ passes s s' /\
  exists v, counted [v] (pw_worker (s_world s)) (pw_worker (s_world s')) /\ happened [v] s s' /\ since s s' (account v).

Lemma record_refused_wp t1 t2 s k :
  idle s -> pw_worker (s_world s) = count_start k -> stats_ok (wk_stats k) ->
  wp (_ ← record_stats (t2 -64 t1) false; mret true) (fun b s' => b = true /\ idle s' /\ passes s s' /\
    counted [mk_verdict None t1 t2] k (pw_worker (s_world s')) /\ s_trace s' = s_trace s) s.
Proof.
  intros Hi Ek Hk. destruct (refused_counted k t1 t2 Hk) as (k' & E & Hc). unfold record_stats, thread.
  wp_step. wp_step. apply wp_gets. wp_step. rewrite Ek. eapply wp_lift; [exact E|]. unfold upd_worker.
  apply idle_thread_wp; [done|done|done|]. intros s' -> Hi' Hp. wp_step. split; [done|]. split; [done|]. by split.
Qed.

Lemma record_heard_wp t1 t2 s k p st res :
  idle s -> pw_worker (s_world s) = count_start k -> has_room 1 k ->
  wp (_ ← record_stats (t2 -64 t1) (negb (bool_decide (perf_request_outcome st res = PERF_OUTCOME_ERROR)));
      _ ← upd_worker (count_outcome (perf_request_outcome st res)); mret true) (fun b s' => b = true /\ idle s' /\ passes s s' /\
    counted [mk_verdict (Some (p, st, res)) t1 t2] k (pw_worker (s_world s')) /\ s_trace s' = s_trace s) s.
Proof.
  intros Hi Ek Hk. destruct (heard_counted k t1 t2 p st res Hk) as (k' & E & Hc). unfold record_stats, thread.
  wp_step. wp_step. apply wp_gets. wp_step. rewrite Ek. eapply wp_lift; [exact E|]. unfold upd_worker.
  apply idle_thread_wp; [done|done|done|]. intros s1 -> Hi1 Hp1. wp_step.
  apply idle_thread_wp; [done|done|done|]. intros s2 -> Hi2 Hp2. wp_step. split; [done|]. split; [done|].
  split; [by etransitivity|]. by split.
Qed.

(** The last words of a request. *)
Lemma request_refused_wp t1 s0 s k :
  idle s -> pw_worker (s_world s) = count_start k -> pw_worker (s_world s0) = k -> stats_ok (wk_stats k) -> passes s0 s -> since s0 s [Clocked t1] ->
  wp (now ← monotonic; _ ← record_stats (now -64 t1) false; mret true) (fun b s' => b = true /\ one_more s0 s') s.
Proof.
  intros Hi Ek Ek0 Hk P0 N0. wp_step. apply idle_monotonic_wp; [done|]. intros now o1 s1 _ E1 Hi1 P1 N1.
  eapply wp_mono; [apply (record_refused_wp t1 now s1 k); [done|by rewrite E1|done]|]. cbv beta.
  intros b s2 (-> & Hi2 & P2 & Hc & Et2). split; [done|]. split; [done|]. split; [etransitivity; [exact P0|]; by etransitivity|].
  exists (mk_verdict None t1 now). rewrite Ek0. split; [done|]. split; [apply happened_none|].
  pose proof (since_app _ _ _ _ _ N0 N1) as N. exact (since_app _ _ _ _ [] N (since_same _ _ Et2)).
Qed.

Lemma request_heard_wp t1 s0 s k p st res :
  idle s -> pw_worker (s_world s) = count_start k -> pw_worker (s_world s0) = k -> has_room 1 k -> passes s0 s ->
  since s0 s [Clocked t1; Heard p st res] -> was_heard s0 s (mk_verdict (Some (p, st, res)) t1 t1) ->
  rc_outcome (pw_request (s_world s)) = perf_request_outcome st res ->
  wp (now ← monotonic; outcome ← thread (fun w => rc_outcome (pw_request w));
      _ ← record_stats (now -64 t1) (negb (bool_decide (outcome = PERF_OUTCOME_ERROR)));
      _ ← upd_worker (count_outcome outcome); mret true) (fun b s' => b = true /\ one_more s0 s') s.
Proof.
  intros Hi Ek Ek0 Hk P0 N0 Hw Eo. wp_step. apply idle_monotonic_wp; [done|]. intros now o1 s1 _ E1 Hi1 P1 N1.
  wp_step. unfold thread. apply wp_gets.
  replace (rc_outcome (pw_request (s_world s1))) with (perf_request_outcome st res) by (by rewrite E1; cbn; rewrite Eo).
  eapply wp_mono; [apply (record_heard_wp t1 now s1 k p st res); [done|by rewrite E1|done]|]. cbv beta.
  intros b s2 (-> & Hi2 & P2 & Hc & Et2). split; [done|]. assert (P12 : passes s s2) by by etransitivity.
  split; [done|]. split; [by etransitivity|]. exists (mk_verdict (Some (p, st, res)) t1 now). rewrite Ek0. split; [done|].
  split; [split; [|apply NoDup_singleton]; constructor; [|constructor]; exact (was_heard_later _ _ _ _ Hi (proj1 P12) Hw)|].
  pose proof (since_app _ _ _ _ _ N0 N1) as N. exact (since_app _ _ _ _ [] N (since_same _ _ Et2)).
Qed.

(** The request is made: the state in which the client is asked. *)
Lemma request_begun_wp {A} (m : Z -> M (pworld O) A) (Q : A -> sys (pworld O) -> Prop) s :
  idle s -> held s ->
  (forall t1 s1, idle s1 -> held s1 -> pw_worker (s_world s1) = count_start (pw_worker (s_world s)) ->
     rc_done (pw_request (s_world s1)) = false -> passes s s1 -> since s s1 [Clocked t1] -> wp (m t1) Q s1) ->
  wp (_ ← set_request request_ctx_zero; req_start ← monotonic; _ ← upd_worker count_start; m req_start) Q s.
Proof.
  intros Hi Hh HQ. unfold set_request, upd_worker.
  wp_step. apply idle_thread_wp; [done|done|done|]. intros s1 E1 Hi1 P1.
  wp_step. apply idle_monotonic_wp; [done|]. intros t1 o2 s2 _ E2 Hi2 P2 N2.
  wp_step. apply idle_thread_wp; [done|done|done|]. intros s3 E3 Hi3 P3.
  assert (P03 : passes s s3) by (etransitivity; [exact P1|]; by etransitivity).
  apply HQ; [done|by apply P03|by subst|by subst|done|]. by subst; exists [EvRead t1].
Qed.

Lemma run_request_wp turns resource s :
  idle s -> held s -> has_room 1 (pw_worker (s_world s)) -> wf_resource_request resource ->
  wp (run_request turns resource) (fun enough s' => enough = true -> one_more s s') s.
Proof.
  intros Hi Hh Hroom Hr. unfold run_request. apply request_begun_wp; [done|done|]. intros t1 s3 Hi3 Hh3 Ek3 Ed3 P3 N3.
  wp_step. eapply wp_mono; [apply request_start_wp; [done|apply Hh3|done|done]|]. cbv beta.
  intros [rc out] s4 [St [N4 [[Hrc Hi4]|(p & [= -> ->] & Hb & Hp)]]].
  - cbn [fst] in Hrc. rewrite (proj2 (Z.eqb_neq rc _)) by done. cbn [negb].
    eapply wp_mono; [apply (request_refused_wp t1 s s4 (pw_worker (s_world s)))|]; try done; [|apply Hroom| | |].
    + by rewrite (proj1 (proj2 St)).
    + etransitivity; [exact P3|by apply stays_passes].
    + exact (since_app _ _ _ _ _ N3 N4).
    + cbv beta. by intros b s' [_ Hone].
  - change (RCLIENT_OK =? RCLIENT_OK) with true. cbn [negb]. wp_step. unfold perf_wait_for_request. cbn [is_null].
    eapply wp_mono; [apply (wait_loop_wp base turns p s4 s4); by apply calm_after, calm_refl|]. cbv beta. intros r s5 [St5 Hr5].
    destruct r as [st0|]; [|by wp_step]. destruct Hr5 as (He & (st & res & N5 & Ereq) & _).
    assert (N : since s s5 [Clocked t1; Heard p st res]).
    { exact (since_app _ _ _ _ _ N3 (since_nil _ _ _ _ N4 N5)). }
    eapply wp_mono; [apply (request_heard_wp t1 s s5 (pw_worker (s_world s)) p st res)|]; try done.
    + destruct He; by split.
    + by rewrite (proj1 (proj2 St5)), (proj1 (proj2 St)).
    + etransitivity; [exact P3|]. etransitivity; [by apply stays_passes|by apply (stays_passes _ _ St5)].
    + destruct N as (tr & Et & En). split; [rewrite Et; apply elem_of_app; right; apply heard_event; rewrite En; set_solver|].
      split; [apply He|]. pose proof (ca_next _ _ _ (proj1 P3)). pose proof (ca_next _ _ _ (proj1 St5)).
      destruct (busy_live _ _ Hb) as (r & Hr4 & _). pose proof (ci_fresh _ _ _ (bu_inv _ _ Hb) p ltac:(by rewrite Hr4)). lia.
    + by rewrite Ereq.
    + cbv beta. by intros b s' [_ Hone].
Qed.

(** ** The loop *)

(** A run of a given number of requests. *)
Definition by_count (c : perf_config) : Prop := pf_target_rps c = 0 /\ pf_has_duration c = false.

(** The pacer, when the run is paced. *)
Definition paces (c : perf_config) (p : perf_pacer) : Prop := pf_target_rps c <> 0 -> pacing p.

(** The part of the run with the requests [vs]. *)
Definition part (vs : list verdict) s s' : Prop :=
  idle s' /\ passes s s' /\ counted vs (pw_worker (s_world s)) (pw_worker (s_world s')) /\ happened vs s s'.

Lemma part_nil s s' :
  idle s' -> passes s s' -> stats_ok (wk_stats (pw_worker (s_world s))) -> pw_worker (s_world s') = pw_worker (s_world s) ->
  part [] s s'.
Proof.
  intros Hi Hp Hk E. split; [done|]. split; [done|]. split; [|apply happened_nil]. by apply counted_nil; rewrite ?E.
Qed.

Lemma part_app vs vs' s1 s2 s3 : part vs s1 s2 -> part vs' s2 s3 -> part (vs ++ vs') s1 s3.
Proof.
  intros (I1 & P1 & C1 & H1) (I2 & P2 & C2 & H2). split; [done|]. split; [by etransitivity|].
  split; [by eapply counted_app|]. by eapply (happened_app vs vs' s1 s2 s3); [|apply P1|apply P2| |].
Qed.

(** A while in which the worker makes no request but reads the clock. *)
Definition lull (gap : list note) s s' : Prop := part [] s s' /\ since s s' gap /\ readings gap.

Lemma lull_start s : idle s -> stats_ok (wk_stats (pw_worker (s_world s))) -> lull [] s s.
Proof. intros Hi Hk. split; [by apply part_nil|]. split; [by apply since_same|constructor]. Qed.

Lemma lull_part gap s1 s2 s3 : lull gap s1 s2 -> part [] s2 s3 -> since s2 s3 [] -> lull gap s1 s3.
Proof.
  intros (H1 & N1 & R1) H2 N2. split; [change [] with ([] ++ [] : list verdict); by eapply part_app|].
  split; [|done]. pose proof (since_app _ _ _ _ _ N1 N2) as N. by rewrite app_nil_r in N.
Qed.

Lemma lull_system_wp {A} (f : O -> A * O) (Q : A -> sys (pworld O) -> Prop) gap s0 s :
  lull gap s0 s -> (forall o a o', f o = (a, o') -> harmless o o') ->
  (forall a s', lull gap s0 s' -> Q a s') -> wp (system f) Q s.
Proof.
  intros Hp Hf HQ. pose proof Hp as ((Hi & _ & Hc & _) & _). apply idle_system_wp; [done|done|].
  intros a o' s' _ E Hi' P'. apply HQ. eapply lull_part; [exact Hp| |by subst; apply since_same].
  apply part_nil; [done|done|by eapply stats_after_ok, Hc|by subst].
Qed.

Lemma lull_monotonic_wp (Q : Z -> sys (pworld O) -> Prop) gap s0 s :
  lull gap s0 s -> (forall now s', is_u64 now -> lull (gap ++ [Clocked now]) s0 s' -> Q now s') -> wp monotonic Q s.
Proof.
  intros Hp HQ. pose proof Hp as ((Hi & _ & Hc & _) & N & Hr). apply idle_monotonic_wp; [done|].
  intros now o' s' Hn E Hi' P' N'. apply HQ; [done|].
  split; [|split; [by eapply since_app|apply Forall_app; split; [done|by repeat constructor]]].
  change [] with ([] ++ [] : list verdict). eapply part_app; [apply Hp|].
  apply part_nil; [done|done|by eapply stats_after_ok, Hc|by subst].
Qed.

Lemma sleep_harmless turns due (o : O) a o' : perf_sleep_until_ns turns due o = (a, o') -> harmless o o'.
Proof. exact (sleep_respects harmless turns due o a o'). Qed.

(** Whether the loop goes on, after a lull in which the clock was read as often
    as it takes. *)
Definition next_post (pacer : perf_pacer) (n : Z) s (r : option (bool * perf_pacer)) s' : Prop :=
  let c := wk_config (pw_worker (s_world s)) in
  match r with
  | Some (b, pacer') =>
      (exists gap, lull gap s s' /\ (if b then zlen gap = wakes c else zlen gap <= wakes c)) /\ paces c pacer' /\
      (by_count c -> b = negb (pf_requests_per_client c <=? n) /\ pacer' = pacer)
  | None => ~ by_count c
  end.

Lemma next_start_wp turns start pacer n s :
  idle s -> stats_ok (wk_stats (pw_worker (s_world s))) -> paces (wk_config (pw_worker (s_world s))) pacer ->
  wp (next_start turns start pacer n) (next_post pacer n s) s.
Proof.
  intros Hi Hk Hp. pose proof (lull_start s Hi Hk) as H00. unfold next_post.
  unfold next_start, thread. wp_step. apply wp_gets. set (c := wk_config (pw_worker (s_world s))) in *. unfold wakes.
  apply wp_if; intros Er; rewrite Er; breflect.
  - specialize (Hp Er). assert (Hno : ~ by_count c) by (intros [? _]; done).
    assert (Hfin : forall gap s' (b : bool) p', lull gap s s' -> zlen gap <= 2 -> (b = true -> zlen gap = 2) -> pacing p' ->
      (exists gap, lull gap s s' /\ (if b then zlen gap = 2 else zlen gap <= 2)) /\ paces c p' /\
      (by_count c -> b = negb (pf_requests_per_client c <=? n) /\ p' = pacer)).
    { intros gap s' b p' Hg Hle Heq Hpp. split; [exists gap; split; [done|]; destruct b; [by apply Heq|done]|]. split; [by intros _|by intros ?%Hno]. }
    wp_step. apply (lull_monotonic_wp _ [] s); [done|]. intros now s1 En H01. cbn [app] in H01.
    destruct (next_spec pacer now 0 Hp En) as (b & p1 & due & Ep & Hp1 & _). wp_step. eapply wp_lift; [exact Ep|].
    cbv beta iota. wp_step. eapply wp_lift; [reflexivity|]. wp_step. eapply wp_lift; [reflexivity|].
    apply wp_if; intros Eb; [wp_step; by apply (Hfin [Clocked now] s1 false p1)|].
    wp_step. apply (lull_system_wp _ _ [Clocked now] s); [done|apply sleep_harmless|]. intros slept s2 H02. destruct slept as [[]|].
    + wp_step. apply (lull_monotonic_wp _ [Clocked now] s); [done|]. intros now' s3 _ H03. wp_step. by apply (Hfin [Clocked now; Clocked now']).
    + wp_step. pose proof H02 as ((Hi2 & _ & Hc2 & _) & _). unfold upd_worker.
      apply idle_thread_wp; [done|done|done|]. intros s3 E3 Hi3 P3. wp_step. apply (Hfin [Clocked now] s3 false p1); try done.
      eapply lull_part; [exact H02| |by subst; apply since_same]. split; [done|]. split; [done|]. split; [|apply happened_nil].
      subst. apply counted_nil; [by eapply stats_after_ok, Hc2|done..].
    + by wp_step.
  - destruct (pf_has_duration c) eqn:Ed.
    + assert (Hno : ~ by_count c) by (intros [_ ?]; congruence).
      wp_step. apply (lull_monotonic_wp _ [] s); [done|]. intros now s1 _ H01. wp_step. split; [|by split].
      exists [Clocked now]. split; [done|]. by case_match.
    + wp_step. split; [|by split]. exists []. split; [done|]. by case_match.
Qed.

Lemma counted_config vs k k' : counted vs k k' -> wk_config k' = wk_config k.
Proof. intros Hc. apply (ct_config _ _ _ Hc). Qed.

(** What the loop leaves: the requests [vs], and the notes of them. *)
Definition looped (loops : nat) (n : Z) s s' : Prop :=
  let c := wk_config (pw_worker (s_world s)) in
  exists vs l, part vs s s' /\ since s s' l /\ journal c vs l /\ zlen vs < Z.of_nat loops /\
    (by_count c -> zlen vs = Z.max 0 (pf_requests_per_client c - n)).

Lemma looped_more loops n v gap s s1 s2 s3 :
  lull gap s s1 -> zlen gap = wakes (wk_config (pw_worker (s_world s))) ->
  part [v] s1 s2 -> since s1 s2 (account v) -> looped loops (n +64 1) s2 s3 -> is_u64 n ->
  is_u64 (pf_requests_per_client (wk_config (pw_worker (s_world s)))) ->
  (by_count (wk_config (pw_worker (s_world s))) ->
     true = negb (pf_requests_per_client (wk_config (pw_worker (s_world s))) <=? n)) ->
  looped (S loops) n s s3.
Proof.
  intros (H1 & N1 & R1) Hg H2 N2 (vs & l & H3 & N3 & J3 & Hlen & Hcount) Hn Hq Hb.
  assert (H02 : part [v] s s2) by (change [v] with ([] ++ [v]); by eapply part_app).
  pose proof (counted_config _ _ _ (proj1 (proj2 (proj2 H02)))) as Ec. rewrite Ec in *.
  set (c := wk_config (pw_worker (s_world s))) in *. exists (v :: vs), (gap ++ account v ++ l).
  split; [change (v :: vs) with ([v] ++ vs); by eapply part_app|].
  split; [eapply since_app; [done|]; by eapply since_app|]. split; [by constructor|]. cbn [length]. split; [lia|].
  intros Hc. specialize (Hcount Hc). pose proof (Hb Hc) as Hb1. symmetry in Hb1. apply negb_true_iff in Hb1. breflect.
  rewrite Nat2Z.inj_succ, Hcount. rewrite u64_small by rlia. fold c. lia.
Qed.

Lemma worker_loop_wp loops turns resource start pacer n s :
  idle s -> held s -> has_room (Z.of_nat loops) (pw_worker (s_world s)) -> wf_resource_request resource -> is_u64 n ->
  is_u64 (pf_requests_per_client (wk_config (pw_worker (s_world s)))) ->
  paces (wk_config (pw_worker (s_world s))) pacer ->
  wp (worker_loop loops turns resource start pacer n) (fun enough s' => enough = true -> looped loops n s s') s.
Proof.
  intros Hi Hh Hroom Hr Hn Hq Hp. revert s pacer n Hi Hh Hroom Hn Hq Hp.
  induction loops as [|loops IH]; intros s pacer n Hi Hh Hroom Hn Hq Hp; cbn [worker_loop]; [by wp_step|].
  eapply wp_seq; [apply next_start_wp; [done|apply Hroom|done]|]. cbv beta. unfold next_post.
  set (c := wk_config (pw_worker (s_world s))) in *. intros r s1 Hr1.
  destruct r as [[[] pacer1]|]; [| |by wp_step].
  2:{ wp_step. intros _. destruct Hr1 as ((gap & (H1 & N1 & R1) & Hg) & _ & Hb). exists [], gap. split; [done|]. split; [done|].
      split; [by constructor|]. split; [cbn; lia|]. intros Hc. destruct (Hb Hc) as [Hb1 _].
      symmetry in Hb1. apply negb_false_iff in Hb1. breflect. cbn. fold c. lia. }
  destruct Hr1 as ((gap & H01 & Hg) & Hp1 & Hb1). pose proof H01 as ((Hi1 & P1 & C1 & _) & _).
  pose proof (has_room_counted _ [] _ _ Hroom ltac:(cbn; lia) C1) as Hroom1. cbn [length] in Hroom1.
  assert (Hroom2 : has_room 1 (pw_worker (s_world s1))).
  { destruct Hroom1 as [Hs1 (l & Hl & Hlb)]. split; [done|]. exists l. split; [done|lia]. }
  assert (Hh1 : held s1) by by apply P1.
  eapply wp_seq; [by apply run_request_wp|]. cbv beta. intros enough s2 Hen.
  destruct enough; cbn [negb]; [|by wp_step]. destruct (Hen eq_refl) as (Hi2 & P2 & v & C2 & H2 & N2).
  assert (H12 : part [v] s1 s2) by by split.
  assert (H02 : part [v] s s2) by (change [v] with ([] ++ [v]); eapply part_app; [apply H01|done]).
  pose proof H02 as (_ & _ & C02 & _).
  assert (Ec : wk_config (pw_worker (s_world s2)) = c) by (by eapply counted_config).
  assert (Hroom3 : has_room (Z.of_nat loops) (pw_worker (s_world s2))).
  { pose proof (has_room_counted _ [v] _ _ Hroom ltac:(cbn [length]; lia) C02) as Hx. cbn [length] in Hx.
    by replace (Z.of_nat (S loops) - Z.of_nat 1) with (Z.of_nat loops) in Hx by lia. }
  eapply wp_mono; [apply IH; [done|by apply P2|done|apply u64_range|by rewrite Ec|by rewrite Ec]|]. cbv beta.
  intros enough s3 Hx He. eapply (looped_more loops n v); try done; [by apply Hx|].
  intros Hc. by destruct (Hb1 Hc).
Qed.
End Run.
