(* ===== verification/PerfThread.v ===== *)
(** * The load generator: a worker's whole life

    The socket is opened and closed, the client created and destroyed, and in
    between the requests are counted; a run of a given number of requests comes
    to its end. *)

From Stdlib Require Import String Ascii.
From S2P Require Import Prelude.
From S2P Require Import Types.
From S2P Require Import Wire.
From S2P Require Import Crypto.
From S2P Require Import CryptoFacts.
From S2P Require Import Workflow.
From S2P Require Import State.
From S2P Require Import Hoare.
From S2P Require Import Schedule.
From S2P Require Import Steering.
From S2P Require Import Dns.
From S2P Require Import DnsFacts.
From S2P Require Import Request.
From S2P Require Import RequestFacts.
From S2P Require Import PacketFacts.
From S2P Require Import ExtractFacts.
From S2P Require Import Client.
From S2P Require Import Lifecycle.
From S2P Require Import Completion.
From S2P Require Import Datagram.
From S2P Require Import Admission.
From S2P Require Import WorkflowOps.
From S2P Require Import WorkflowFacts.
From S2P Require Import Api.
From S2P Require Import Frame.
From S2P Require Import Runtime.
From S2P Require Import RuntimeFacts.
From S2P Require Import RuntimeSockets.
From S2P Require Import RuntimeHost.
From S2P Require Import KeyFacts.
From S2P Require Import Ids.
From S2P Require Import RuntimeReceive.
From S2P Require Import Teardown.
From S2P Require Import Create.
From S2P Require Import PerfLatency.
From S2P Require Import PerfPacer.
From S2P Require Import Perf.
From S2P Require Import PerfFacts.
From S2P Require Import PerfNet.
From S2P Require Import PerfNetFacts.
From S2P Require Import PerfDns.
From S2P Require Import PerfDnsFacts.
From S2P Require Import PerfWorker.
From S2P Require Import PerfHost.
From S2P Require Import PerfWait.
From S2P Require Import RuntimeConfig.
From S2P Require Import PerfEnds.
From S2P Require Import PerfRun.

(** ** What a worker is given *)
Record worker_ok (n : Z) (k : worker_ctx) : Prop := {
  wo_config : accepted_config (wk_config k);
  wo_id : is_u64 (wk_client_id k);
  wo_room : has_room n k;
}.

Lemma worker_client_config_ok c :
  accepted_config c ->
  config_ok (worker_client_config c default_policy) /\
  is_Some (cc_auth_secret (worker_client_config c default_policy)).
Proof.
  intros Hc. pose proof (pk_key _ Hc) as Hk. destruct (pk_auth _ Hc) as (text & rest & key & Ea & _). split.
  - split; cbn.
    + rewrite Ea in *. cbn in Hk |- *. destruct Hk as [[Hb Hz] Hl]. done.
    + apply Hc.
    + split; [apply Hc|]. split; [apply Hc|]. repeat split; cbn; lia.
    + done.
  - cbn. rewrite Ea. by eexists.
Qed.

Lemma worker_pacer_spec n k p : worker_ok n k -> worker_pacer k = Some p -> paces (wk_config k) p.
Proof.
  intros [Hc Hid _]. pose proof (pk_start _ Hc) as Hst. unfold worker_pacer, paces. intros E Hr. rewrite (proj2 (Z.eqb_neq _ 0)) in E by done.
  destruct (pk_paced _ Hc Hr) as (H1 & _ & H2 & H3). unfold paced_duration in E.
  rewrite u64_small in E by (unfold NS in *; rlia). rewrite pacer_init_spec in E by (unfold NS; rlia).
  case_bool_decide as Hb; [|done]. injection E as <-. split; [|split; cbn; lia]. unfold fits, duration. cbn. unfold NS in *. rlia.
Qed.

Section Resource.
Context {ssl : OpenSSL} {dlaws : DigestLaws ssl}.

Lemma derived_id pre out rc o :
  derived pre out = (rc, o) -> zlen out = 16 -> rc = RCLIENT_OK -> exists id, o = Some id /\ is_id16 id.
Proof.
  unfold derived. destruct (EVP_blake2s256 [pre]) as [d|] eqn:Ed; [|by intros [= <- _]].
  intros [= _ <-] Ho _. destruct (digest_length _ _ Ed) as [Hl Hb]. eexists. split; [done|].
  rewrite (drop_ge out) by lia. rewrite app_nil_r. split; [rewrite length_take; lia|by apply Forall_take].
Qed.

Lemma bucket_text_free prefix id shared : 0 <= id -> 0 ∉ prefix -> 0 ∉ bucket_text prefix id shared.
Proof.
  intros Hid Hp. unfold bucket_text. rewrite elem_of_app. intros [Hin|Hin]; [done|]. destruct shared; [by apply not_elem_of_nil in Hin|].
  apply elem_of_app in Hin as [Hin|Hin].
  - revert Hin. by apply (bool_decide_unpack (0 ∉ cbytes "_")).
  - by apply (nonzero_text (dec_u64 id)) in Hin; [|apply dec_digits_bytes].
Qed.

Lemma worker_resource_spec k :
  accepted_config (wk_config k) -> is_u64 (wk_client_id k) ->
  exists r, worker_resource k = Ok r /\ from_option wf_resource_request True r.
Proof.
  intros Hc Hid. unfold worker_resource. set (c := wk_config k) in *. destruct (pk_prefix _ Hc) as [Hb Hz].
  destruct (cstring_split (pf_bucket_prefix c) Hz) as (t & rest & Et & Hn & _). rewrite Et.
  set (out := replicate (Z.to_nat PERF_BUCKET_NAME_SIZE) 0). assert (Ho : zlen out = PERF_BUCKET_NAME_SIZE) by (apply replicate_counts; unfold PERF_BUCKET_NAME_SIZE; lia).
  rewrite <- Ho. destruct (bucket_name_spec out t rest (wk_client_id k) (pf_shared_bucket c) Hn ltac:(rewrite Ho; unfold PERF_BUCKET_NAME_SIZE; lia)) as (o1 & -> & _ & H1).
  rewrite run_bind_Ok. case_bool_decide as Hd; cbn [negb]; [|by exists None]. destruct (H1 (proj1 Hd) (proj2 Hd)) as (junk & ->).
  cbn [deref of_option]. rewrite run_bind_Ok, strlen_text, run_bind_Ok by (apply bucket_text_free; [rlia|done]).
  rewrite bucket_id_spec, run_bind_Ok by (rewrite ?length_replicate; unfold PERF_BUCKET_NAME_SIZE in *; rlia).
  destruct (derived _ _) as [rc id] eqn:Ed. destruct (Z.eqb_spec rc RCLIENT_OK) as [->|]; cbn [negb]; [|by exists None].
  destruct (derived_id _ _ _ _ Ed ltac:(done) eq_refl) as (id16 & -> & Hid16). cbn [deref of_option]. rewrite run_bind_Ok.
  eexists. split; [done|]. pose proof (pk_rate _ Hc). split; [done|]. cbn. rlia.
Qed.
End Resource.

(** ** From the socket to its close *)
Section Thread.
Context {O : Type} `{PK : PerfKernel O} {olaws : OsLaws O} {cached : Cached} {sound : SoundCache}.
Context {ssl : OpenSSL} {laws : AesGcmLaws ssl} {dlaws : DigestLaws ssl} {polls : Polls O} (base : gset Z).
Implicit Types s : sys (pworld O).

(** The requests that were answered: different ones, each through one call of
    the callback. *)
Definition reported (vs : list verdict) (tr : list event) : Prop :=
  Forall (fun v => match vd_answer v with
    | None => True
    | Some (p, status, res) => EvComplete (Some p) ON_RATE_LIMIT REQUEST_CTX status res ∈ tr /\ completions p tr = 1%nat
    end) vs /\ NoDup (requests_of vs).

(** All that was noted of the run: nothing, or the start of the loop and its
    requests one after the other. *)
Definition logged (c : perf_config) (vs : list verdict) (l : list note) : Prop :=
  (l = [] /\ vs = []) \/ exists start l', l = Clocked start :: l' /\ journal c vs l'.

(** No key is left in the client. *)
Definition erased s : Prop :=
  cf_cookie (cl_fixed (s_client s)) = replicate 32 0 /\ cf_aes_key (cl_fixed (s_client s)) = replicate 32 0.

(** What a worker leaves: its socket is closed, no request is in memory, and
    its counters are those of its requests, which are the ones noted.  With the result 0 the client was
    created and destroyed, and a run by count made every request of it; with 1
    there was none.  [n] bounds the requests. *)
Definition worker_post (n : Z) s (rc : Z) s' : Prop :=
  let k := pw_worker (s_world s) in
  k_open (pw_os (s_world s')) = base /\ s_reqs s' = ∅ /\
  exists vs, counted vs k (pw_worker (s_world s')) /\ reported vs (s_trace s') /\
    logged (wk_config k) vs (notes (s_trace s')) /\ zlen vs <= n /\
    ((rc = 0 /\ erased s' /\ (by_count (wk_config k) -> zlen vs = pf_requests_per_client (wk_config k))) \/
     (rc = 1 /\ vs = [] /\ wk_worker_error (pw_worker (s_world s')) = 1)).

Lemma counted_same vs k k1 k2 :
  counted vs k k1 -> wk_config k2 = wk_config k1 -> wk_client_id k2 = wk_client_id k1 ->
  wk_stats k2 = wk_stats k1 -> wk_latency_hist k2 = wk_latency_hist k1 -> counted vs k k2.
Proof.
  intros [(A1 & A2) A3 A4] E1 E2 E3 E4. split; [split; congruence|by rewrite E3|by rewrite E4].
Qed.

Lemma happened_reported vs s s' : happened vs s s' -> reported vs (s_trace s').
Proof.
  intros [Hf Hn]. split; [|done]. eapply Forall_impl; [exact Hf|]. intros v. unfold was_heard. cbv beta.
  destruct (vd_answer v) as [[[p st] res]|]; [|done]. by intros (? & ? & _).
Qed.

Lemma reported_more vs t tr : reported vs t -> Forall (fun e => silent e = true) tr -> reported vs (t ++ tr).
Proof.
  intros [Hf Hn] Hs. split; [|done]. eapply Forall_impl; [exact Hf|]. intros v. cbv beta.
  destruct (vd_answer v) as [[[p st] res]|]; [|done]. intros [He Hc].
  split; [apply elem_of_app; by left|]. rewrite completions_app, Hc, completions_none; [done|].
  eapply Forall_impl; [exact Hs|]. by intros [].
Qed.

(** The end of every branch: the worker's last words, and the socket. *)
Lemma close_wp (Q : unit -> sys (pworld O) -> Prop) s :
  holding base (s_world s) ->
  (forall w, k_open (pw_os w) = base -> pw_worker w = pw_worker (s_world s) -> Q tt (set_world w s)) ->
  wp close_worker_socket Q s.
Proof.
  intros [Hv Ha Ho _] HQ. unfold close_worker_socket, upd_thread. apply wp_modify. apply HQ; [|done].
  cbn. destruct (k_close (io_sockfd (pw_io (s_world s))) (pw_os (s_world s))) as [-> _]. rewrite Ho. clear - Ha. set_solver.
Qed.

Lemma frees_silent cap c : Forall (fun e => silent e = true) (client_frees cap c).
Proof.
  unfold client_frees, secret_frees. rewrite !Forall_app.
  by destruct (cap =? 0), (cf_dns_name _), (cf_auth_secret _); repeat split; repeat constructor.
Qed.

Lemma undone_silent s s' : undone s s' -> Forall (fun e => silent e = true) (s_trace s').
Proof. intros [[_ ->]|[_ ->]]; [constructor|apply frees_silent]. Qed.

(** Destroying an idle client. *)
Lemma destroy_idle_client_wp (Q : unit -> sys (pworld O) -> Prop) s :
  idle s -> secret_ok (cl_fixed (s_client s)) ->
  (forall s', s_reqs s' = ∅ -> erased s' -> keeps_thread base (s_world s) (s_world s') ->
     (exists tr, s_trace s' = s_trace s ++ tr /\ Forall (fun e => silent e = true) tr) -> Q tt s') ->
  wp r_client_destroy Q s.
Proof.
  intros [HI Hn] Hsec HQ. destruct (wp_Ok _ _ _ (destroy_wp s HI Hsec)) as ([] & s1 & E1 & Hr & _ & Hw & Et & Hc).
  pose proof (keeps_destroy (on_worlds (keeps_thread base)) _ _ _ E1) as Hk. eapply wp_eq; [exact E1|]. apply HQ; [done| |done|].
  - split; apply Hw.
  - eexists. rewrite Et, Hn. split; [done|]. cbn [map app]. apply Forall_app. split; [by apply cancel_silent|].
    apply frees_silent.
Qed.

Lemma worker_failed_wp n s0 s :
  0 <= n -> logged (wk_config (pw_worker (s_world s0))) [] (notes (s_trace s)) ->
  s_reqs s = ∅ -> k_open (pw_os (s_world s)) = base -> counted [] (pw_worker (s_world s0)) (pw_worker (s_world s)) ->
  wp worker_failed (fun r s' => from_option (fun rc => worker_post n s0 rc s') True r) s.
Proof.
  intros Hn Hl Hr Ho Hc. unfold worker_failed, upd_worker, upd_thread. wp_step. wp_step. wp_step. split; [done|]. split; [done|].
  exists []. split; [by eapply counted_same|]. split; [split; constructor|]. split; [done|]. split; [done|]. by right.
Qed.

Lemma give_up_client_wp n s0 s :
  0 <= n -> notes (s_trace s) = [] -> idle s -> secret_ok (cl_fixed (s_client s)) -> held base s -> counted [] (pw_worker (s_world s0)) (pw_worker (s_world s)) ->
  wp give_up_client (fun r s' => from_option (fun rc => worker_post n s0 rc s') True r) s.
Proof.
  intros Hn Hl Hi Hsec Hh Hc. unfold give_up_client, keep_traffic, upd_thread. wp_step. wp_step. set (s1 := set_world _ s).
  assert (Hc1 : counted [] (pw_worker (s_world s0)) (pw_worker (s_world s1))) by by eapply counted_same.
  wp_step. apply destroy_idle_client_wp; [by apply idle_world|done|]. intros s2 Hr2 _ (Ew & Hk & _) (tr & Et & Htr). wp_step.
  apply close_wp; [by apply Hk, Hh|]. intros w Hw Ek. apply worker_failed_wp; [lia| |done|done|].
  - left. split; [|done]. change (s_trace (set_world w s2)) with (s_trace s2). rewrite Et, notes_app, (notes_silent tr) by done.
    by rewrite app_nil_r.
  - cbn. by rewrite Ek, Ew.
Qed.

(** What the thread does once its client is there. *)
Lemma run_worker_wp loops turns s0 s :
  worker_ok (Z.of_nat loops) (pw_worker (s_world s0)) -> pw_worker (s_world s) = pw_worker (s_world s0) ->
  notes (s_trace s) = [] -> idle s -> secret_ok (cl_fixed (s_client s)) -> held base s ->
  wp (run_worker loops turns) (fun r s' => from_option (fun rc => worker_post (Z.of_nat loops) s0 rc s') True r) s.
Proof.
  intros Hk Ek Hl Hi Hsec Hh. unfold run_worker, thread. wp_step. apply wp_gets. rewrite Ek. set (k := pw_worker (s_world s0)) in *.
  assert (Hc0 : counted [] k k) by (apply counted_nil; [apply (wo_room _ _ Hk)|done..]).
  destruct (worker_resource_spec k (wo_config _ _ Hk) (wo_id _ _ Hk)) as (r & Er & Hr). wp_step. eapply wp_lift; [exact Er|].
  destruct r as [resource|]; [|apply give_up_client_wp; [lia|done|done|done|done|by rewrite Ek]].
  wp_step. apply (idle_monotonic_wp base); [done|]. intros start o1 s1 _ E1 Hi1 P1 (t1 & Et1 & N1).
  assert (Hl1 : notes (s_trace s1) = [Clocked start]) by by rewrite Et1, notes_app, Hl.
  assert (Ek1 : pw_worker (s_world s1) = k) by (by rewrite E1). assert (Hsec1 : secret_ok (cl_fixed (s_client s1))) by (by rewrite E1).
  pose proof (proj2 P1 Hh) as Hh1. clear E1.
  destruct (worker_pacer k) as [pacer|] eqn:Ep.
  2:{ unfold upd_worker, upd_thread. wp_step. wp_step. set (s2 := set_world _ s1). wp_step.
      apply destroy_idle_client_wp; [by apply idle_world|done|]. intros s3 Hr3 _ (Ew & Hk3 & _) (tr & Et & Htr). wp_step.
      apply close_wp; [by apply Hk3, Hh1|]. intros w Hw Ek3. wp_step. split; [done|]. split; [done|]. exists [].
      cbn [s_world set_world]. rewrite Ek3, Ew. split; [|split; [split; constructor|split; [|split; [cbn; lia|right]]]].
      - cbn. rewrite Ek1. by eapply counted_same.
      - right. exists start, []. split; [|constructor; [constructor|cbn; unfold wakes; repeat case_match; lia]].
        change (s_trace (set_world w s3)) with (s_trace s3). by rewrite Et, notes_app, (notes_silent tr), app_nil_r.
      - split; [done|]. by split. }
  wp_step. eapply wp_mono; [apply (worker_loop_wp base loops turns resource start pacer 0 s1); rewrite ?Ek1; try done|].
  { apply Hk. } { apply (pk_requests _ (wo_config _ _ Hk)). } { by eapply worker_pacer_spec. }
  cbv beta. unfold looped. cbv zeta. rewrite Ek1. intros enough s2 Hx. destruct enough; cbn [negb]; [|by wp_step].
  destruct (Hx eq_refl) as (vs & l & (Hi2 & P2 & C2 & H2) & (t2 & Et2 & N2) & J2 & Hlen & Hcount). rewrite Ek1 in C2.
  assert (Hsec2 : secret_ok (cl_fixed (s_client s2))) by (by rewrite (ca_fixed _ _ _ (proj1 P2))).
  wp_step. apply destroy_idle_client_wp; [done|done|]. intros s3 Hr3 He3 (Ew3 & Hk3 & _) (tr & Et & Htr).
  unfold keep_traffic, upd_thread. wp_step. wp_step. wp_step. apply close_wp; [by apply Hk3, P2, Hh1|]. intros w Hw Ekw.
  wp_step. split; [done|]. split; [done|]. exists vs. cbn [s_world set_world]. rewrite Ekw. cbn. rewrite Ew3.
  split; [by eapply counted_same|]. split; [change (s_trace (set_world w _)) with (s_trace s3); rewrite Et; by eapply reported_more; [by eapply happened_reported|]|].
  split.
  { right. exists start, l. split; [|done]. change (s_trace (set_world w _)) with (s_trace s3).
    by rewrite Et, notes_app, (notes_silent tr), app_nil_r, Et2, notes_app, Hl1, N2. }
  split; [lia|]. left. split; [done|]. split; [done|]. intros Hc. rewrite (Hcount Hc). pose proof (pk_requests _ (wo_config _ _ Hk)). fold k. rlia.
Qed.

(** The socket is opened. *)
Lemma worker_socket (fd : Z) (o o' : O) io c k :
  k_open o = base -> py_at o -> perf_setup_socket 0 o = (fd, o') ->
  py_at o' /\ (0 <= fd -> io_sockfd io = fd -> holding base (mk_pworld io c k o')) /\ (fd < 0 -> k_open o' = base).
Proof.
  intros Ho Hp Es. pose proof (setup_holds base fd _ _ Ho Es) as Hfd.
  split; [by apply (perf_setup_bears heeds _ _ _ _ Es)|]. split.
  - intros Hx <-. destruct Hfd as [[Hy _]|Hh]; [lia|exact Hh].
  - intros Hx. destruct Hfd as [[_ Hop]|Hh]; [exact Hop|]. pose proof (ho_valid _ _ _ Hh). lia.
Qed.

Lemma perf_worker_wp loops turns s :
  worker_ok (Z.of_nat loops) (pw_worker (s_world s)) -> blank s -> py_at (pw_os (s_world s)) -> k_open (pw_os (s_world s)) = base ->
  wp (perf_worker loops turns) (fun r s' => from_option (fun rc => worker_post (Z.of_nat loops) s rc s') True r) s.
Proof.
  intros Hk Hb Hp Ho. unfold perf_worker, thread. wp_step. apply wp_gets. set (k := pw_worker (s_world s)) in *.
  assert (Hc0 : counted [] k k) by (apply counted_nil; [apply (wo_room _ _ Hk)|done..]).
  wp_step. unfold system. apply wp_world_op. intros fd w. unfold on_system.
  destruct (perf_setup_socket 0 (pw_os (s_world s))) as [x o] eqn:Es. intros [= -> <-].
  destruct (worker_socket fd _ _ (mk_io fd (pf_ignore_steering (wk_config k)) traffic_zero) (pw_request (s_world s)) k Ho Hp Es)
    as (Hp1 & Hh1 & Ho1).
  unfold upd_thread. wp_step. wp_step. set (s1 := set_world _ _).
  assert (Hb1 : blank s1) by by destruct Hb. assert (Ek1 : pw_worker (s_world s1) = k) by done.
  change (py_at (pw_os (s_world s1))) in Hp1. change (fd < 0 -> k_open (pw_os (s_world s1)) = base) in Ho1.
  assert (Hh2 : 0 <= fd -> held base s1) by (intros Hx; split; [by apply Hh1|done]). clear Hh1. rename Hh2 into Hh1.
  pose proof (bl_trace _ Hb1) as Et1. clearbody s1. apply wp_if; intros En; breflect.
  { apply worker_failed_wp; [lia|by rewrite Et1; left|apply Hb1|by apply Ho1|by rewrite Ek1]. }
  specialize (Hh1 ltac:(lia)). wp_step. eapply wp_lift; [reflexivity|].
  destruct (worker_client_config_ok (wk_config k) (wo_config _ _ Hk)) as [Hcfg Hsome].
  destruct (wp_Ok _ _ _ (create_wp _ (worker_ops (wk_config k)) s1 Hcfg Hsome Hb1)) as ([rc ok] & s2 & E & Hpost).
  pose proof (keeps_r_client_create (on_worlds (keeps_thread base)) _ _ _ _ _ _ E) as (Ew2 & Hk2 & Hp2).
  wp_step. eapply wp_eq; [exact E|]. cbv beta iota.
  destruct Hpost as [[[= -> ->] Hc]|(rc' & [= -> ->] & Hrc & _ & Hr2 & _ & _ & Hun)].
  - change (RCLIENT_OK =? RCLIENT_OK) with true. cbn [negb].
    apply run_worker_wp; [done|by rewrite Ew2| | | |split; [by apply Hk2, Hh1|by apply Hp2]].
    + apply notes_silent, cancel_silent, Hc.
    + split; [apply Hc|apply (cd_idle _ _ _ Hc)].
    + destruct (cd_credential _ _ _ Hc) as (key & Hcr & _). by eapply cr_secret.
  - replace (rc' =? RCLIENT_OK) with false by (by destruct Hrc as [-> | ->]). cbn [negb].
    unfold keep_traffic, upd_thread. wp_step. wp_step. set (s3 := set_world _ s2). wp_step.
    apply close_wp; [by apply Hk2, Hh1|]. intros w Hw Ekw. apply worker_failed_wp; [lia| |done|done|]; cbn [s_world set_world].
    { left. split; [|done]. apply notes_silent. by apply undone_silent with s1. }
    rewrite Ekw. cbn. rewrite Ew2, Ek1. by eapply counted_same.
Qed.
End Thread.

(** ** Enough turns

    [L] rounds of the outer loop are enough, and some number of turns of the
    inner ones; with more of either nothing changes. *)
Section Comes.
Context {W : Type}.
Implicit Types s : sys W.

Definition comes_to {A} (L : nat) (m : nat -> nat -> M W A) (Q : A -> sys W -> Prop) s : Prop :=
  exists n a s', Q a s' /\ forall loops turns, (L <= loops)%nat -> (n <= turns)%nat -> m loops turns s = Ok (a, s').

Lemma comes_mono {A} L (m : nat -> nat -> M W A) (Q Q' : A -> sys W -> Prop) s :
  comes_to L m Q s -> (forall a s', Q a s' -> Q' a s') -> comes_to L m Q' s.
Proof. intros (n & a & s' & HQ & Hm) H. exists n, a, s'. auto. Qed.

Lemma comes_const {A} L (m : M W A) (Q : A -> sys W -> Prop) s : wp m Q s -> comes_to L (fun _ _ => m) Q s.
Proof. intros Hw. destruct (wp_Ok _ _ _ Hw) as (a & s' & E & HQ). exists 0%nat, a, s'. auto. Qed.

Lemma comes_bind {A B} L (m : nat -> nat -> M W A) (k : nat -> nat -> A -> M W B) (Q : B -> sys W -> Prop) s :
  comes_to L m (fun a s' => comes_to L (fun loops turns => k loops turns a) Q s') s ->
  comes_to L (fun loops turns => m loops turns ≫= k loops turns) Q s.
Proof.
  intros (n1 & a & s1 & (n2 & b & s2 & HQ & H2) & H1). exists (n1 + n2)%nat, b, s2. split; [done|].
  intros loops turns Hl Ht. rewrite (bind_Ok _ _ _ _ _ (H1 loops turns Hl ltac:(lia))). apply H2; [done|lia].
Qed.

Lemma comes_seq {A B} L (m : M W A) (k : nat -> nat -> A -> M W B) (Q : B -> sys W -> Prop) s :
  wp m (fun a s' => comes_to L (fun loops turns => k loops turns a) Q s') s ->
  comes_to L (fun loops turns => m ≫= k loops turns) Q s.
Proof. intros Hw. apply (comes_bind L (fun _ _ => m)). by apply comes_const. Qed.

Lemma comes_and {A} L (m : nat -> nat -> M W A) (P Q : A -> sys W -> Prop) s :
  (forall turns, wp (m L turns) P s) -> comes_to L m Q s -> comes_to L m (fun a s' => P a s' /\ Q a s') s.
Proof.
  intros Hp (n & a & s' & HQ & Hm). exists n, a, s'. split; [|done]. split; [|done].
  destruct (wp_Ok _ _ _ (Hp n)) as (a' & s1 & E & HP). rewrite Hm in E by lia. by injection E as <- <-.
Qed.

Lemma comes_S {A} L (m : nat -> nat -> M W A) (Q : A -> sys W -> Prop) s :
  comes_to L (fun loops => m (S loops)) Q s -> comes_to (S L) m Q s.
Proof.
  intros (n & a & s' & HQ & Hm). exists n, a, s'. split; [done|]. intros [|loops] turns Hl Ht; [lia|]. apply Hm; lia.
Qed.
End Comes.

(** ** The worker returns

    On a network that falls silent ([Network]) the loops need only finitely many
    turns, and further turns do not change what the worker does. *)
Section Returns.
Context {O : Type} `{PK : PerfKernel O} {olaws : OsLaws O} {cached : Cached} {sound : SoundCache}.
Context {ssl : OpenSSL} {laws : AesGcmLaws ssl} {dlaws : DigestLaws ssl} {polls : Polls O} {net : Network O}.
Context (base : gset Z).
Implicit Types s : sys (pworld O).

Lemma wait_comes L p s :
  busy p s -> comes_to L (fun _ turns => perf_wait_for_request turns (Some p)) (fun r s' => is_Some r) s.
Proof.
  intros Hb. destruct (wait_loop_returns base p s Hb) as (n & s' & _ & Hn). exists n, (Some (rc_status (pw_request (s_world s')))), s'.
  split; [done|]. intros _ turns _ Ht. by apply Hn.
Qed.

(** A request is refused at once, or waited for. *)
Lemma run_request_comes L resource s :
  idle s -> held base s -> has_room 1 (pw_worker (s_world s)) -> wf_resource_request resource ->
  comes_to L (fun _ turns => run_request turns resource) (fun b s' => b = true) s.
Proof.
  intros Hi Hh Hroom Hr. unfold run_request, set_request. set (k := pw_worker (s_world s)).
  apply comes_seq, (idle_thread_wp base); [done..|]. intros s1 E1 Hi1 P1.
  apply comes_seq, (idle_monotonic_wp base); [done|]. intros t1 o2 s2 _ E2 Hi2 P2 N2.
  apply comes_seq, (idle_thread_wp base); [done..|]. intros s3 E3 Hi3 P3.
  assert (Ek3 : pw_worker (s_world s3) = count_start k) by (by subst).
  assert (Ed3 : rc_done (pw_request (s_world s3)) = false) by (by subst).
  assert (P03 : passes base s s3) by (etransitivity; [exact P1|]; by etransitivity).
  assert (N3 : since s s3 [Clocked t1]) by (by subst; exists [EvRead t1]). clear E1 E2 E3.
  apply comes_seq. eapply wp_mono; [apply (request_start_wp base); [done|by apply P03|done|done]|]. cbv beta.
  intros [rc out] s4 [St [N4 [[Hrc Hi4]|(p & [= -> ->] & Hb & Hp)]]].
  - cbn [fst] in Hrc. rewrite (proj2 (Z.eqb_neq rc _)) by done. cbn [negb]. apply comes_const.
    eapply wp_mono; [apply (request_refused_wp base t1 s s4 k)|]; try done; [|apply Hroom| | |].
    + by rewrite (proj1 (proj2 St)).
    + etransitivity; [exact P03|by apply stays_passes].
    + exact (since_app _ _ _ _ _ N3 N4).
    + cbv beta. by intros b s' [-> _].
  - change (RCLIENT_OK =? RCLIENT_OK) with true. cbn [negb]. apply (comes_bind L (fun _ turns => perf_wait_for_request turns (Some p))).
    eapply comes_mono; [apply comes_and; [|by apply wait_comes]|].
    { intros turns. unfold perf_wait_for_request. cbn [is_null]. apply (wait_loop_wp base turns p s4 s4). by apply calm_after, calm_refl. }
    cbv beta. intros r s5 [[St5 Hr5] Hsome]. destruct Hsome as [st0 ->]. destruct Hr5 as (He & _). apply comes_const.
    destruct (en_heard _ _ He) as (st & res & _ & Ereq).
    wp_step. apply (idle_monotonic_wp base); [by destruct He|]. intros now o6 s6 _ E6 Hi6 _ _. wp_step. unfold thread. apply wp_gets.
    replace (rc_outcome (pw_request (s_world s6))) with (perf_request_outcome st res) by (by rewrite E6; cbn; rewrite Ereq).
    eapply wp_mono; [apply (record_heard_wp base t1 now s6 k p st res); [done| |done]|].
    + rewrite E6. cbn. by rewrite (proj1 (proj2 St5)), (proj1 (proj2 St)).
    + cbv beta. by intros b s7 (-> & _).
Qed.

Lemma next_start_by_count turns start pacer n s :
  by_count (wk_config (pw_worker (s_world s))) ->
  next_start turns start pacer n s =
    Ok (Some (negb (pf_requests_per_client (wk_config (pw_worker (s_world s))) <=? n), pacer), s).
Proof. intros [E1 E2]. unfold next_start, thread. erewrite bind_Ok by reflexivity. by rewrite E1, E2. Qed.

(** One round of the loop for each request left, and one to end it. *)
Lemma worker_loop_comes L resource start pacer n s :
  idle s -> held base s -> has_room (Z.of_nat L) (pw_worker (s_world s)) -> wf_resource_request resource -> is_u64 n ->
  by_count (wk_config (pw_worker (s_world s))) -> is_u64 (pf_requests_per_client (wk_config (pw_worker (s_world s)))) ->
  pf_requests_per_client (wk_config (pw_worker (s_world s))) - n < Z.of_nat L ->
  n <= pf_requests_per_client (wk_config (pw_worker (s_world s))) ->
  comes_to L (fun loops turns => worker_loop loops turns resource start pacer n) (fun b s' => b = true) s.
Proof.
  revert s n; induction L as [|L IH]; intros s n Hi Hh Hroom Hr Hn Hc Hq HL Hle; [lia|]. apply comes_S. cbn [worker_loop].
  set (q := pf_requests_per_client (wk_config (pw_worker (s_world s)))) in *.
  apply (comes_bind L (fun _ turns => next_start turns start pacer n)).
  exists 0%nat, (Some (negb (q <=? n), pacer)), s. split; [|intros; by apply next_start_by_count].
  destruct (Z.leb_spec q n); cbn [negb]; [by apply comes_const, wp_mret|].
  assert (Hroom1 : has_room 1 (pw_worker (s_world s))) by (destruct Hroom as [Hs (l & Hl & Hb)]; split; [done|]; exists l; split; [done|lia]).
  apply (comes_bind L (fun _ turns => run_request turns resource)).
  eapply comes_mono; [apply comes_and; [|by apply run_request_comes]|].
  { intros turns. by apply (run_request_wp base). }
  cbv beta. intros b s1 [Hone ->]. destruct (Hone eq_refl) as (Hi1 & P1 & v & C1 & _).
  assert (Ec : wk_config (pw_worker (s_world s1)) = wk_config (pw_worker (s_world s))) by (by eapply counted_config).
  apply IH; rewrite ?Ec; fold q; try done; [by apply P1| |apply u64_range|rewrite u64_small by rlia; lia..].
  pose proof (has_room_counted _ [v] _ _ Hroom ltac:(cbn [length]; lia) C1) as Hx. cbn [length] in Hx.
  by replace (Z.of_nat (S L) - Z.of_nat 1) with (Z.of_nat L) in Hx by lia.
Qed.

Lemma run_worker_comes L s :
  worker_ok (Z.of_nat L) (pw_worker (s_world s)) -> by_count (wk_config (pw_worker (s_world s))) ->
  pf_requests_per_client (wk_config (pw_worker (s_world s))) < Z.of_nat L ->
  idle s -> secret_ok (cl_fixed (s_client s)) -> held base s ->
  comes_to L (fun loops turns => run_worker loops turns) (fun r s' => is_Some r) s.
Proof.
  intros Hk Hc HL Hi Hsec Hh. unfold run_worker, thread. set (k := pw_worker (s_world s)) in *.
  assert (Hc0 : counted [] k k) by (apply counted_nil; [apply (wo_room _ _ Hk)|done..]).
  apply comes_seq, wp_gets. fold k. destruct (worker_resource_spec k (wo_config _ _ Hk) (wo_id _ _ Hk)) as (r & Er & Hr).
  apply comes_seq. eapply wp_lift; [exact Er|]. destruct r as [resource|].
  2:{ apply comes_const. unfold give_up_client, keep_traffic, upd_thread. wp_step. wp_step. wp_step.
      apply (destroy_idle_client_wp base); [by apply idle_world|done|]. intros s2 _ _ _ _. unfold close_worker_socket, worker_failed, upd_worker, upd_thread.
      wp_step. wp_step. wp_step. wp_step. by wp_step. }
  apply comes_seq, (idle_monotonic_wp base); [done|]. intros start o1 s1 _ E1 Hi1 P1 _.
  assert (Ek1 : pw_worker (s_world s1) = k) by (by rewrite E1). assert (Hsec1 : secret_ok (cl_fixed (s_client s1))) by (by rewrite E1).
  assert (Hh1 : held base s1) by by apply P1. clear E1. destruct (worker_pacer k) as [pacer|] eqn:Ep.
  2:{ apply comes_const. unfold upd_worker, close_worker_socket, upd_thread. wp_step. wp_step. wp_step.
      apply (destroy_idle_client_wp base); [by apply idle_world|done|]. intros s3 _ _ _ _. wp_step. wp_step. by wp_step. }
  apply (comes_bind L (fun loops turns => worker_loop loops turns resource start pacer 0)).
  assert (Hpaces : paces (wk_config k) pacer) by (by eapply worker_pacer_spec).
  pose proof (pk_requests _ (wo_config _ _ Hk)) as Hq.
  eapply comes_mono; [apply comes_and; [|apply worker_loop_comes; rewrite ?Ek1; try done]|].
  { intros turns. apply (worker_loop_wp base L turns resource start pacer 0 s1); rewrite ?Ek1; try done; apply Hk. }
  { apply Hk. } { rlia. } { fold k in Hq. rlia. }
  cbv beta. intros b s2 [Hx ->]. destruct (Hx eq_refl) as (vs & l & (Hi2 & P2 & _) & _).
  assert (Hsec2 : secret_ok (cl_fixed (s_client s2))) by (by rewrite (ca_fixed _ _ _ (proj1 P2))).
  apply comes_const. unfold keep_traffic, close_worker_socket, upd_thread. cbn [negb]. wp_step.
  apply (destroy_idle_client_wp base); [done|done|]. intros s3 _ _ _ _. wp_step. wp_step. wp_step. wp_step. by wp_step.
Qed.

Lemma perf_worker_comes L s :
  worker_ok (Z.of_nat L) (pw_worker (s_world s)) -> by_count (wk_config (pw_worker (s_world s))) ->
  pf_requests_per_client (wk_config (pw_worker (s_world s))) < Z.of_nat L ->
  blank s -> py_at (pw_os (s_world s)) -> k_open (pw_os (s_world s)) = base ->
  comes_to L (fun loops turns => perf_worker loops turns) (fun r s' => is_Some r) s.
Proof.
  intros Hk Hcount HL Hb Hp Ho. unfold perf_worker, thread. set (k := pw_worker (s_world s)) in *.
  apply comes_seq, wp_gets. fold k. apply comes_seq. unfold system. apply wp_world_op. intros fd w. unfold on_system.
  destruct (perf_setup_socket 0 (pw_os (s_world s))) as [x o] eqn:Es. intros [= -> <-].
  destruct (worker_socket base fd _ _ (mk_io fd (pf_ignore_steering (wk_config k)) traffic_zero) (pw_request (s_world s)) k Ho Hp Es)
    as (Hp1 & Hho & _).
  unfold upd_thread. apply comes_seq. wp_step. set (s1 := set_world _ _).
  assert (Hb1 : blank s1) by by destruct Hb. assert (Ek1 : pw_worker (s_world s1) = k) by done.
  change (py_at (pw_os (s_world s1))) in Hp1.
  assert (Hh1 : 0 <= fd -> held base s1) by (intros Hx; split; [by apply Hho|done]). clear Hho.
  clearbody s1. destruct (fd <? 0) eqn:En; [apply comes_const; unfold worker_failed, upd_worker, upd_thread; wp_step; wp_step; by wp_step|]. apply Z.ltb_ge in En.
  specialize (Hh1 ltac:(lia)). apply comes_seq. eapply wp_lift; [reflexivity|].
  destruct (worker_client_config_ok (wk_config k) (wo_config _ _ Hk)) as [Hcfg Hsome].
  destruct (wp_Ok _ _ _ (create_wp _ (worker_ops (wk_config k)) s1 Hcfg Hsome Hb1)) as ([rc ok] & s2 & E & Hpost).
  pose proof (keeps_r_client_create (on_worlds (keeps_thread base)) _ _ _ _ _ _ E) as (Ew2 & Hk2 & Hp2).
  apply comes_seq. eapply wp_eq; [exact E|]. cbv beta iota.
  destruct Hpost as [[[= -> ->] Hc]|(rc' & [= -> ->] & Hrc & _ & Hr2 & _)].
  - change (RCLIENT_OK =? RCLIENT_OK) with true. cbn [negb].
    apply run_worker_comes; rewrite ?Ew2, ?Ek1; [done|done|done| | |split; [by apply Hk2, Hh1|by apply Hp2]].
    + split; [apply Hc|apply (cd_idle _ _ _ Hc)].
    + destruct (cd_credential _ _ _ Hc) as (key & Hcr & _). by eapply cr_secret.
  - replace (rc' =? RCLIENT_OK) with false by (by destruct Hrc as [-> | ->]). cbn [negb]. apply comes_const.
    unfold keep_traffic, close_worker_socket, worker_failed, upd_worker, upd_thread. repeat wp_step. done.
Qed.
End Returns.
