(* ===== verification/PerfMain.v ===== *)
(** * The load generator: the program (bin/perf_client.c)

    [main] without its printing: what it gives its workers ([perf_launch]) and
    what it makes of what they leave ([perf_conclude]).  Between the two the
    workers run, each in a thread of its own ([perf_worker]); [pthread_create]
    and [pthread_join] are seen in what is left of a worker ([worker_end]). *)

From Stdlib Require Import String Ascii.
From S2P Require Import Prelude.
From S2P Require Import Types.
From S2P Require Import Wire.
From S2P Require Import Crypto.
From S2P Require Import Workflow.
From S2P Require Import State.
From S2P Require Import Client.
From S2P Require Import Runtime.
From S2P Require Import PerfLatency.
From S2P Require Import PerfPacer.
From S2P Require Import Perf.
From S2P Require Import PerfNet.
From S2P Require Import PerfDns.
From S2P Require Import PerfWorker.

Definition pf_eta (c : perf_config) : perf_config :=
  mk_perf_config (pf_srv_domain c) (pf_auth_bech32 c) (pf_auth_type c) (pf_tenant_id c) (pf_concurrent_clients c)
    (pf_requests_per_client c) (pf_has_duration c) (pf_duration_secs c) (pf_target_rps c) (pf_paced_start_ns c)
    (pf_bucket_prefix c) (pf_rate_limit c) (pf_shared_bucket c) (pf_unit_ms c) (pf_replay_count c)
    (pf_ignore_steering c) (pf_debug_steering c).
Definition set_pf_srv_domain : option (list Z) -> perf_config -> perf_config := ltac:(setter pf_eta pf_srv_domain).
Definition set_pf_paced_start_ns : Z -> perf_config -> perf_config := ltac:(setter pf_eta pf_paced_start_ns).

(** ** Before the workers *)

(** The run [main] has prepared. *)
Record perf_plan := mk_plan {
  pl_config : perf_config;
  pl_cache : perf_dns_cache;
  pl_start_ns : Z;
  pl_workers : list worker_ctx;
}.

(** The configuration with the tenant's domain; [None] when it cannot be
    derived. *)
Definition with_domain (c : perf_config) : run (option perf_config) :=
  match pf_srv_domain c with
  | Some _ => Ok (Some c)
  | None =>
      d ← r_client_format_default_tenant_dns (pf_tenant_id c)
            (Some (replicate (Z.to_nat R_CLIENT_DEFAULT_TENANT_DNS_CAPACITY) 0)) R_CLIENT_DEFAULT_TENANT_DNS_CAPACITY;
      let '(rc, name) := d in
      Ok (if rc =? RCLIENT_OK then Some (set_pf_srv_domain name c) else None)
  end.

Definition paced_config (start_ns : Z) (c : perf_config) : perf_config :=
  if pf_target_rps c =? 0 then c else set_pf_paced_start_ns (paced_start start_ns) c.

(** The workers' contexts; each sees the counters from zero. *)
Definition worker_starts (c : perf_config) : list worker_ctx :=
  map (fun i => mk_worker (Z.of_nat i) c perf_stats_zero empty_histogram traffic_zero 0)
    (seq 0 (Z.to_nat (pf_concurrent_clients c))).

Section Main.
Context (inet_pton : Z -> list Z -> option (list Z)).
Context {O : Type} `{PO : PerfOs O}.

(** A histogram for each of [n] workers. *)
Fixpoint alloc_histograms (n : nat) (o : O) : bool * O :=
  match n with
  | Datatypes.O => (true, o)
  | S n' => let '(ok, o) := os_alloc o in if (ok : bool) then alloc_histograms n' o else (false, o)
  end.

(** The arrays: [calloc] three times, and the histograms. *)
Definition alloc_workers (c : perf_config) (o : O) : bool * O :=
  let '(threads, o) := os_alloc o in
  let '(workers, o) := os_alloc o in
  let '(started, o) := os_alloc o in
  if negb threads || negb workers || negb started then (false, o)
  else alloc_histograms (Z.to_nat (pf_concurrent_clients c)) o.

Definition launch_with (env : environment) (c : perf_config) (o : O) : run (exits perf_plan * O) :=
  i ← perf_dns_cache_init inet_pton env (pf_srv_domain c) o;
  let '(rc, cache, o) := i in
  if negb (rc =? 0) then Ok (Return 1, o) else
  let '(ok, o) := alloc_workers c o in
  if negb ok then Ok (Return 1, o) else
  let '(start_ns, o) := perf_now_ns_monotonic o in
  let c := paced_config start_ns c in
  Ok (Next (mk_plan c cache start_ns (worker_starts c)), o).

(** The arguments after the program's name. *)
Definition perf_launch (mem : allocs) (env : environment) (args : list (list Z)) (o : O) : run (exits perf_plan * O) :=
  long ← perf_has_flag args (cbytes "--help");
  help ← (if (long : bool) then Ok true else perf_has_flag args (cbytes "-h"));
  if (help : bool) then Ok (Return 0, o) else
  c ← perf_config_from_args mem args;
  match c with
  | Return code => Ok (Return code, o)
  | Next c =>
      d ← with_domain c;
      match d with None => Ok (Return 1, o) | Some c => launch_with env c o end
  end.

(** ** After the workers *)

(** What is left of a worker: whether its thread was started, what joining it
    gave, and its context. *)
Record worker_end := mk_worker_end {
  we_started : bool;
  we_result : option Z;
  we_worker : worker_ctx;
}.

Definition end_failed (e : worker_end) : bool :=
  let flagged := negb (wk_worker_error (we_worker e) =? 0) in
  if we_started e then from_option (fun r => negb (r =? 0) || flagged) true (we_result e) else flagged.

(** What the report is printed from. *)
Record perf_report := mk_perf_report {
  re_elapsed_ns : Z;
  re_stats : perf_stats;
  re_missed_slots : Z;
  re_traffic : perf_traffic;
  re_latency_hist : list Z;
  re_p99_us : Z;
  re_worker_errors : Z;
}.

(** The exit status, and the report unless memory for it is missing. *)
Definition perf_conclude (plan : perf_plan) (stats : perf_stats) (ends : list worker_end) (o : O)
  : run (Z * option perf_report * O) :=
  let c := pl_config plan in
  let worker_errors := u64 (zlen (List.filter end_failed ends)) in
  let '(now, o) := perf_now_ns_monotonic o in
  let traffic := foldl perf_traffic_merge traffic_zero
                   (map (fun e => wk_traffic (we_worker e)) (List.filter we_started ends)) in
  let '(ok, o) := os_alloc o in
  if negb ok then Ok (1, None, o) else
  hist ← merge_histograms (map (fun e => wk_latency_hist (we_worker e)) ends) empty_histogram;
  p99 ← perf_latency_percentile_upper_us (Some hist) (ps_responses_received stats) 99;
  let planned := pf_target_rps c *64 pf_duration_secs c in
  Ok (if 0 <? worker_errors then 1 else 0,
      Some (mk_perf_report (now -64 pl_start_ns plan) stats (planned -64 ps_logical_starts stats) traffic hist p99
              worker_errors), o).
End Main.
