(* ===== verification/PerfMainFacts.v ===== *)
(** * The load generator: what its report says

    The workers start within their contract, and the totals of the report are
    those of the requests they made. *)

From Stdlib Require Import String Ascii.
From stdpp Require Import sorting.
From S2P Require Import Prelude.
From S2P Require Import Types.
From S2P Require Import Wire.
From S2P Require Import Crypto.
From S2P Require Import CryptoFacts.
From S2P Require Import Workflow.
From S2P Require Import State.
From S2P Require Import Hoare.
From S2P Require Import Schedule.
From S2P Require Import Steering.
From S2P Require Import Dns.
From S2P Require Import DnsFacts.
From S2P Require Import Request.
From S2P Require Import RequestFacts.
From S2P Require Import PacketFacts.
From S2P Require Import ExtractFacts.
From S2P Require Import Client.
From S2P Require Import Lifecycle.
From S2P Require Import Completion.
From S2P Require Import Datagram.
From S2P Require Import Admission.
From S2P Require Import WorkflowOps.
From S2P Require Import WorkflowFacts.
From S2P Require Import Api.
From S2P Require Import Frame.
From S2P Require Import Runtime.
From S2P Require Import RuntimeFacts.
From S2P Require Import RuntimeSockets.
From S2P Require Import RuntimeHost.
From S2P Require Import KeyFacts.
From S2P Require Import Ids.
From S2P Require Import RuntimeReceive.
From S2P Require Import Teardown.
From S2P Require Import Create.
From S2P Require Import PerfLatency.
From S2P Require Import PerfPacer.
From S2P Require Import Perf.
From S2P Require Import PerfFacts.
From S2P Require Import PerfNet.
From S2P Require Import PerfNetFacts.
From S2P Require Import PerfDns.
From S2P Require Import PerfDnsFacts.
From S2P Require Import PerfWorker.
From S2P Require Import PerfHost.
From S2P Require Import PerfWait.
From S2P Require Import RuntimeConfig.
From S2P Require Import PerfEnds.
From S2P Require Import PerfRun.

From S2P Require Import PerfThread.
From S2P Require Import PerfMain.

(** ** Before the workers *)

(** A worker as [main] starts it. *)
Record starting (c : perf_config) (k : worker_ctx) : Prop := {
  wg_config : wk_config k = c;
  wg_id : is_u64 (wk_client_id k);
  wg_stats : wk_stats k = perf_stats_zero;
  wg_hist : wk_latency_hist k = empty_histogram;
}.

Lemma starting_ok c n k :
  accepted_config c -> n <= UINT64_MAX -> starting c k -> worker_ok n k.
Proof.
  intros Hc Hn [<- Hid Est Eh]. split; [done|done|]. split; [rewrite Est; by repeat split|].
  exists []. rewrite Eh. split; [apply histogram_zero|]. cbn. lia.
Qed.

Lemma worker_starts_spec c : is_u64 (pf_concurrent_clients c) ->
  zlen (worker_starts c) = pf_concurrent_clients c /\ Forall (starting c) (worker_starts c).
Proof.
  intros Hn. unfold worker_starts. rewrite length_map, length_seq. split; [rlia|].
  apply Forall_map, Forall_forall. intros i Hi. apply list_elem_of_In, in_seq in Hi. split; [done| |done|done]. cbn. rlia.
Qed.

Lemma set_srv_accepted c name :
  accepted_config c -> is_cstring name -> accepted_config (set_pf_srv_domain (Some name) c).
Proof. by intros [] ?. Qed.

Lemma set_paced_accepted c t : accepted_config c -> is_u64 t -> accepted_config (set_pf_paced_start_ns t c).
Proof. by intros []. Qed.

Lemma paced_config_accepted start c :
  accepted_config c -> accepted_config (paced_config start c) /\ pf_srv_domain (paced_config start c) = pf_srv_domain c /\
  pf_concurrent_clients (paced_config start c) = pf_concurrent_clients c.
Proof.
  intros Hc. unfold paced_config. case_if; [done|]. split; [apply set_paced_accepted; [done|apply u64_range]|]. by destruct c.
Qed.

Lemma with_domain_spec c :
  accepted_config c -> exists r, with_domain c = Ok r /\
    from_option (fun c' => accepted_config c' /\ exists name, pf_srv_domain c' = Some name /\ is_cstring name /\
                             c' = set_pf_srv_domain (Some name) c) True r.
Proof.
  intros Hc. unfold with_domain. pose proof (pk_srv _ Hc) as Hs. destruct (pf_srv_domain c) as [name|] eqn:En.
  - eexists. split; [done|]. split; [done|]. exists name. split; [done|]. split; [done|]. destruct c. cbn in En. by subst.
  - set (out := replicate _ 0). assert (Ho : zlen out = R_CLIENT_DEFAULT_TENANT_DNS_CAPACITY) by (by apply replicate_counts).
    destruct (tenant_dns_spec (pf_tenant_id c) out R_CLIENT_DEFAULT_TENANT_DNS_CAPACITY) as (name & -> & Hname & _); [by rewrite Ho|].
    rewrite run_bind_Ok. pose proof (tenant_dns_length (pf_tenant_id c)) as Hl.
    assert (zlen (default_tenant_dns (pf_tenant_id c)) < R_CLIENT_DEFAULT_TENANT_DNS_CAPACITY) as Hlt by (unfold R_CLIENT_DEFAULT_TENANT_DNS_CAPACITY; lia).
    rewrite (proj2 (Z.ltb_lt _ _)) by done. rewrite Hname by done. eexists. split; [done|]. cbn [Z.eqb from_option].
    assert (Hn : is_cstring (default_tenant_dns (pf_tenant_id c) ++ 0 :: drop (length (default_tenant_dns (pf_tenant_id c)) + 1) out)).
    { destruct (pk_auth _ Hc) as (text & rest & k & _ & Hk & _ & Ek). rewrite Ek in *.
      destruct (nonzero_text _ (default_name_bytes (ak_key_id k) ltac:(pose proof (key_decode_wf _ _ Hk) as (_ & ? & _); rlia))) as [Hb _].
      split; [|set_solver]. apply Forall_app. split; [done|]. constructor; [rlia|]. apply Forall_drop, Forall_replicate. rlia. }
    split; [by apply set_srv_accepted|]. eexists. by split.
Qed.

Section Launch.
Context (inet_pton : Z -> list Z -> option (list Z)).
Context {O : Type} `{QL : QueryLaws O} {fits : answers_fit O}.
Implicit Types o : O.

(** A plan: the cache resolved for the tenant's domain, and a worker for every
    client. *)
Record planned_run (env : environment) (plan : perf_plan) : Prop := {
  pn_config : accepted_config (pl_config plan);
  pn_cache : cache_ok (pl_cache plan);
  pn_service : exists tenant, pf_srv_domain (pl_config plan) = Some tenant /\ is_cstring tenant /\
    ch_srv_name (pl_cache plan) = Some (service_name tenant ++ [0]) /\
    (steady O -> mirrors (configured_server inet_pton env) (service_name tenant ++ [0]) (pl_cache plan));
  pn_workers : zlen (pl_workers plan) = pf_concurrent_clients (pl_config plan) /\
    Forall (starting (pl_config plan)) (pl_workers plan);
}.

Lemma launch_with_spec env c o :
  accepted_config c -> from_option is_cstring True (env (cbytes "RCLIENT_DNS_SERVER")) ->
  (exists name, pf_srv_domain c = Some name /\ is_cstring name) ->
  exists f o', launch_with inet_pton env c o = Ok (f, o') /\
    match f with Next plan => planned_run env plan | Return code => code = 1 end.
Proof.
  intros Hc He (name & En & Hname). unfold launch_with. rewrite En.
  destruct (cache_init_spec inet_pton env name o He Hname) as (rc & cache & o1 & -> & Hcache & _ & Hm & _). rewrite run_bind_Ok.
  destruct (Z.eqb_spec rc 0) as [->|]; cbn [negb]; [|by do 2 eexists].
  destruct (alloc_workers c o1) as [ok o2]. destruct ok; cbn [negb]; [|by do 2 eexists].
  destruct (perf_now_ns_monotonic o2) as [start o3]. do 2 eexists. split; [done|].
  destruct (paced_config_accepted start c Hc) as (Hp & Es & En').
  split; cbn; [done|done| |apply worker_starts_spec, Hp].
  exists name. rewrite Es. split; [done|]. split; [done|]. by apply Hm.
Qed.

(** The program comes to its workers, or ends with status 0, 1 or 2. *)
Lemma perf_launch_spec mem env args o :
  Forall arg_ok args -> from_option is_cstring True (env (cbytes "RCLIENT_DNS_SERVER")) ->
  exists f o', perf_launch inet_pton mem env args o = Ok (f, o') /\
    match f with Next plan => planned_run env plan | Return code => code = 0 \/ code = 1 \/ code = 2 end.
Proof.
  intros Ha He. unfold perf_launch. destruct (has_flag_spec args (cbytes "--help") Ha) as [b1 ->]. rewrite run_bind_Ok.
  assert (exists b, (if b1 then Ok true else perf_has_flag args (cbytes "-h")) = Ok b) as [b ->].
  { destruct b1; [by eexists|by apply has_flag_spec]. }
  rewrite run_bind_Ok. destruct b; [do 2 eexists; split; [done|by left]|].
  destruct (config_from_args_spec mem args Ha) as (f & -> & Hf). rewrite run_bind_Ok.
  destruct f as [c|code]; [|subst; do 2 eexists; split; [done|by right; right]].
  destruct (with_domain_spec c Hf) as (d & -> & Hd). rewrite run_bind_Ok.
  destruct d as [c'|]; [|do 2 eexists; split; [done|by right; left]].
  destruct Hd as [Hc' (name & En & Hn & _)]. destruct (launch_with_spec env c' o Hc' He) as (f & o' & E & Hp); [by eexists|].
  exists f, o'. split; [done|]. destruct f; [done|]. subst. by right; left.
Qed.
End Launch.

(** ** After the workers *)

(** The shared counters: the workers only add to them, each addition atomic and
    modulo 2^64, so that in whatever order they hold the sums of the parts. *)
Definition sum_of (f : perf_stats -> Z) (ends : list worker_end) : Z :=
  foldr (fun e acc => f (wk_stats (we_worker e)) +64 acc) 0 ends.
Definition shared_stats (ends : list worker_end) : perf_stats :=
  mk_stats (sum_of ps_requests_sent ends) (sum_of ps_logical_starts ends) (sum_of ps_responses_received ends)
    (sum_of ps_granted ends) (sum_of ps_denied ends) (sum_of ps_errors ends) (sum_of ps_total_latency_ns ends).

(** What a worker's end says of the requests [vs] noted in its trace: each was
    answered through one call of the callback or refused, and they are counted,
    with the latencies of those answered. *)
Record tells (c : perf_config) (tr : list event) (vs : list verdict) (e : worker_end) : Prop := {
  te_logged : logged c vs (notes tr);
  te_reported : reported vs tr;
  te_stats : stats_after vs perf_stats_zero (wk_stats (we_worker e));
  te_hist : histogram (wk_latency_hist (we_worker e)) (latencies vs);
}.

Lemma sum_of_tells f (g : list verdict -> Z) c trs vss ends :
  (forall vs t, stats_after vs perf_stats_zero t -> f t = u64 (g vs)) ->
  g [] = 0 -> (forall vs vs', g (vs ++ vs') = g vs + g vs') ->
  Forall3 (tells c) trs vss ends -> sum_of f ends = u64 (g (concat vss)).
Proof.
  intros Hf H00 Happ. induction 1 as [|tr vs e trs vss ends He _ IH]; cbn [concat]; [by rewrite H00|].
  change (f (wk_stats (we_worker e)) +64 sum_of f ends = u64 (g (vs ++ concat vss))).
  rewrite IH, (Hf vs _ (te_stats _ _ _ _ He)), Happ. unfold u64. by rewrite <- Zplus_mod.
Qed.

Lemma answered_app vs vs' : answered_times (vs ++ vs') = answered_times vs + answered_times vs'.
Proof. unfold answered_times. rewrite !times_app. lia. Qed.

(** Below 2^64 requests the totals are the requests' numbers. *)
Lemma shared_stats_spec c trs vss ends :
  Forall3 (tells c) trs vss ends -> zlen (concat vss) <= UINT64_MAX ->
  let t := shared_stats ends in let vs := concat vss in
  ps_logical_starts t = zlen vs /\ ps_requests_sent t = zlen vs /\ ps_responses_received t = answered_times vs /\
  ps_granted t = times PERF_OUTCOME_GRANTED vs /\ ps_denied t = times PERF_OUTCOME_DENIED vs /\
  ps_errors t = times PERF_OUTCOME_ERROR vs.
Proof.
  intros Ht Hb. cbv zeta. assert (Hin : forall g, 0 <= g <= zlen (concat vss) -> u64 g = g) by (intros g Hg; apply u64_small; rlia).
  assert (Htimes : forall o, 0 <= times o (concat vss) <= zlen (concat vss)).
  { intros o. unfold times. pose proof (length_filter (fun v => outcome_of v = o) (concat vss)). lia. }
  assert (Hsum : forall f (g : list verdict -> Z), (forall vs t, stats_after vs perf_stats_zero t -> f t = u64 (g vs)) ->
    g [] = 0 -> (forall vs vs', g (vs ++ vs') = g vs + g vs') -> 0 <= g (concat vss) <= zlen (concat vss) ->
    sum_of f ends = g (concat vss)).
  { intros f g Hf H00 Happ Hg. rewrite (sum_of_tells f g c trs vss ends Hf H00 Happ Ht). by apply Hin. }
  assert (Hlen : forall vs vs' : list verdict, zlen (vs ++ vs') = zlen vs + zlen vs') by (intros; rewrite length_app; lia).
  unfold shared_stats. cbn. repeat split.
  - apply (Hsum _ (fun vs => zlen vs)); [by intros vs t (-> & _)|done|done|lia].
  - apply (Hsum _ (fun vs => zlen vs)); [by intros vs t (_ & -> & _)|done|done|lia].
  - apply (Hsum _ answered_times); [by intros vs t (_ & _ & -> & _)|done|apply answered_app|apply answered_le].
  - apply Hsum; [by intros vs t (_ & _ & _ & -> & _)|done|apply times_app|apply Htimes].
  - apply Hsum; [by intros vs t (_ & _ & _ & _ & -> & _)|done|apply times_app|apply Htimes].
  - apply Hsum; [by intros vs t (_ & _ & _ & _ & _ & ->)|done|apply times_app|apply Htimes].
Qed.

Lemma tells_hists c trs vss ends : Forall3 (tells c) trs vss ends ->
  Forall2 histogram (map (fun e => wk_latency_hist (we_worker e)) ends) (map latencies vss) /\
  concat (map latencies vss) = latencies (concat vss).
Proof.
  induction 1 as [|tr vs e trs vss ends He _ [IH1 IH2]]; [by split|]. cbn [map concat]. split; [constructor; [apply He|done]|].
  by rewrite latencies_app, IH2.
Qed.

Section Report.
Context {O : Type} `{PK : PerfKernel O} {olaws : OsLaws O} {cached : Cached} {sound : SoundCache}.
Context {ssl : OpenSSL} {laws : AesGcmLaws ssl} {dlaws : DigestLaws ssl}.
Implicit Types s : sys (pworld O).

(** A worker that could not be started, or ran to its end, with the trace of its
    run: it starts before anything was created, and [poll] fails only when
    interrupted.  Joining it may fail. *)
Inductive ran (loops turns : nat) (k : worker_ctx) : list event -> worker_end -> Prop :=
  | never_started : ran loops turns k [] (mk_worker_end false None (set_wk_worker_error 1 k))
  | ran_to_end s rc s' joined :
      blank s -> polls_well (pw_os (s_world s)) -> pw_worker (s_world s) = k ->
      perf_worker loops turns s = Ok (Some rc, s') ->
      ran loops turns k (s_trace s')
        (mk_worker_end true (if joined : bool then Some rc else None) (pw_worker (s_world s'))).

(** The end of a worker is that of the requests in its trace. *)
Lemma ran_tells loops turns c k tr e :
  accepted_config c -> Z.of_nat loops <= UINT64_MAX -> starting c k -> ran loops turns k tr e ->
  exists vs, tells c tr vs e /\ zlen vs <= Z.of_nat loops.
Proof.
  intros Hc Hn Hk Hr. assert (Hh : histogram (wk_latency_hist k) []) by (rewrite (wg_hist _ _ Hk); apply histogram_zero).
  destruct Hr as [|s rc s' joined Hb [polls Hp] <- E].
  - exists []. split; [|cbn; lia]. split; [by left|split; constructor| |done]. cbn. rewrite (wg_stats _ _ Hk). by apply stats_after_nil.
  - assert (Hok : worker_ok (Z.of_nat loops) (pw_worker (s_world s))) by (by eapply starting_ok).
    destruct (wp_Ok _ _ _ (perf_worker_wp _ loops turns s Hok Hb Hp eq_refl)) as (r & s1 & E1 & Hpost).
    rewrite E in E1. injection E1 as <- <-. destruct Hpost as (_ & _ & vs & Hcount & Hrep & Hlog & Hlen & _).
    exists vs. split; [|done]. rewrite (wg_config _ _ Hk) in Hlog. split; [done|done| |].
    + cbn. rewrite <- (wg_stats _ _ Hk). apply Hcount.
    + apply (ct_hist _ _ _ Hcount [] Hh). cbn. lia.
Qed.

Lemma all_ran loops turns c ks trs ends :
  accepted_config c -> Z.of_nat loops * zlen ks <= UINT64_MAX -> Forall (starting c) ks ->
  Forall3 (ran loops turns) ks trs ends ->
  exists vss, Forall3 (tells c) trs vss ends /\ zlen (concat vss) <= zlen ends * Z.of_nat loops.
Proof.
  intros Hc Hn Hks Hr. induction Hr as [|k tr e ks trs ends He _ IH]; [exists []; split; [constructor|done]|].
  apply Forall_cons in Hks as [Hk Hks]. cbn [length] in Hn.
  destruct (IH ltac:(nia) Hks) as (vss & Ht & Hl). destruct (ran_tells loops turns c k tr e Hc ltac:(nia) Hk He) as (vs & Hv & Hlv).
  exists (vs :: vss). split; [by constructor|].
  cbn [concat length]. rewrite length_app. lia.
Qed.

(** The report of a run: its counters and percentile are those of the requests
    and of the latencies of the answered ones. *)
Record report_of (vs : list verdict) (ends : list worker_end) (code : Z) (r : perf_report) : Prop := {
  rf_starts : ps_logical_starts (re_stats r) = zlen vs /\ ps_requests_sent (re_stats r) = zlen vs;
  rf_answers : ps_responses_received (re_stats r) = zlen (latencies vs);
  rf_outcomes : ps_granted (re_stats r) = times PERF_OUTCOME_GRANTED vs /\
    ps_denied (re_stats r) = times PERF_OUTCOME_DENIED vs /\ ps_errors (re_stats r) = times PERF_OUTCOME_ERROR vs;
  rf_p99 : latencies vs <> [] -> forall sorted, StronglySorted Z.le sorted -> sorted ≡ₚ latencies vs ->
    exists x, sorted !! Z.to_nat (rank (zlen (latencies vs)) 99 - 1) = Some x /\
      re_p99_us r = perf_latency_bucket_upper_us (perf_latency_bucket x);
  rf_code : code = 0 <-> Forall (fun e => end_failed e = false) ends;
}.

Lemma none_failed ends : zlen ends <= UINT64_MAX ->
  (0 <? u64 (zlen (List.filter end_failed ends))) = false <-> Forall (fun e => end_failed e = false) ends.
Proof.
  intros Hn. rewrite u64_small by (pose proof (List.filter_length_le end_failed ends); rlia). rewrite Z.ltb_ge.
  clear Hn. induction ends as [|e ends IH]; [by split|]. cbn [List.filter]. rewrite Forall_cons, <- IH.
  destruct (end_failed e); cbn [length]; [split; [lia|by intros [? _]]|]. split; [by intros|by intros [_ ?]].
Qed.

Lemma conclude_spec plan c trs vss ends (o : O) :
  Forall3 (tells c) trs vss ends -> zlen (concat vss) <= UINT64_MAX -> zlen ends <= UINT64_MAX ->
  exists code report o', perf_conclude plan (shared_stats ends) ends o = Ok (code, report, o') /\
    match report with Some r => report_of (concat vss) ends code r | None => code = 1 end /\
    (steady O -> is_Some report).
Proof.
  intros Ht Hb He. destruct (shared_stats_spec c trs vss ends Ht Hb) as (T1 & T2 & T3 & T4 & T5 & T6).
  destruct (tells_hists _ _ _ _ Ht) as [Hh El]. pose proof (answered_le (concat vss)) as Ha.
  pose proof (latencies_length (concat vss)) as Hll. set (lats := latencies (concat vss)) in *.
  unfold perf_conclude. destruct (perf_now_ns_monotonic o) as [now o1]. destruct (os_alloc o1) as [ok o2] eqn:Ea.
  destruct ok; cbn [negb].
  2:{ do 3 eexists. split; [done|]. split; [done|]. intros Hst. by apply Hst in Ea. }
  destruct (merge_spec _ _ empty_histogram [] Hh histogram_zero) as (hist & -> & Hm); [rewrite El; cbn; lia|]. rewrite run_bind_Ok. cbn [app] in Hm. rewrite El in Hm.
  assert (Hp : exists p, perf_latency_percentile_upper_us (Some hist) (ps_responses_received (shared_stats ends)) 99 = Ok p /\
    (lats <> [] -> forall sorted, StronglySorted Z.le sorted -> sorted ≡ₚ lats ->
       exists x, sorted !! Z.to_nat (rank (zlen lats) 99 - 1) = Some x /\
         p = perf_latency_bucket_upper_us (perf_latency_bucket x))).
  { rewrite T3, <- Hll. destruct (decide (lats = [])) as [E0|Hne].
    - rewrite E0. exists 0. split; [done|]. done.
    - destruct (percentile_spec hist lats (merge_sort Z.le lats) 99 Hm ltac:(lia) Hne ltac:(lia)
        ltac:(apply (StronglySorted_merge_sort Z.le)) ltac:(apply merge_sort_Permutation)) as (x & _ & _ & E).
      eexists. split; [exact E|]. intros _ sorted Hs Hperm.
      destruct (percentile_spec hist lats sorted 99 Hm ltac:(lia) Hne ltac:(lia) Hs Hperm) as (y & Hy & _ & Ey).
      rewrite E in Ey. exists y. split; [done|]. by injection Ey. }
  destruct Hp as (p & -> & Hp). rewrite run_bind_Ok. do 3 eexists. split; [done|]. split; [|by eexists].
  split; [by split|exact (eq_trans T3 (eq_sym Hll))|by repeat split|exact Hp|].
  rewrite <- (none_failed ends He). by destruct (0 <? _).
Qed.
End Report.
