(* ===== verification/ResponderMain.v ===== *)
(** * The test responder's program (tools/r_test_responder.c)

    Arguments, the listen address, the event lines on standard output and the
    receive loop around [r_test_responder_process].  It follows the POSIX
    branches; what the program writes to standard error is left out.  In the
    texts of the lines a single quote stands for a double quote. *)

From Stdlib Require Import String Ascii.
From S2P Require Import Prelude.
From S2P Require Import Types.
From S2P Require Import Wire.
From S2P Require Import Crypto.
From S2P Require Import Workflow.
From S2P Require Import State.
From S2P Require Import Dns.
From S2P Require Import Request.
From S2P Require Import Client.
From S2P Require Import Runtime.
From S2P Require Import Responder.
From S2P Require Import Perf.

(** ** Options *)
Record responder_options := mk_responder_options {
  ro_listen : option (list Z);
  ro_auth_name : list Z;
  ro_auth_key : list Z;
  ro_scenario : Z;
  ro_server_id : Z;
  ro_allow_count : Z;
  ro_delay_ms : Z;
  ro_max_packets : Z;
  ro_steering_keep_port : bool;
  ro_print_nginx_config : bool;
}.
Definition default_options : responder_options :=
  mk_responder_options None (cstr "aes") R_TEST_RESPONDER_AES_KEY R_TEST_SCENARIO_ALLOW 1 1 0 0 true false.

Definition ro_eta (r : responder_options) : responder_options :=
  mk_responder_options (ro_listen r) (ro_auth_name r) (ro_auth_key r) (ro_scenario r) (ro_server_id r)
    (ro_allow_count r) (ro_delay_ms r) (ro_max_packets r) (ro_steering_keep_port r) (ro_print_nginx_config r).
Definition set_ro_listen : option (list Z) -> responder_options -> responder_options :=
  ltac:(setter ro_eta ro_listen).
Definition set_ro_auth_name : list Z -> responder_options -> responder_options := ltac:(setter ro_eta ro_auth_name).
Definition set_ro_auth_key : list Z -> responder_options -> responder_options := ltac:(setter ro_eta ro_auth_key).
Definition set_ro_scenario : Z -> responder_options -> responder_options := ltac:(setter ro_eta ro_scenario).
Definition set_ro_server_id : Z -> responder_options -> responder_options := ltac:(setter ro_eta ro_server_id).
Definition set_ro_allow_count : Z -> responder_options -> responder_options := ltac:(setter ro_eta ro_allow_count).
Definition set_ro_delay_ms : Z -> responder_options -> responder_options := ltac:(setter ro_eta ro_delay_ms).
Definition set_ro_max_packets : Z -> responder_options -> responder_options := ltac:(setter ro_eta ro_max_packets).
Definition set_ro_steering_keep_port : bool -> responder_options -> responder_options :=
  ltac:(setter ro_eta ro_steering_keep_port).
Definition set_ro_print_nginx_config : bool -> responder_options -> responder_options :=
  ltac:(setter ro_eta ro_print_nginx_config).

(** The text after [name=], when the argument starts with it. *)
Definition option_value (argument name : list Z) : run (option (list Z)) :=
  s ← after_prefix name argument;
  match s with
  | None => Ok None
  | Some suffix => c ← rd suffix 0; Ok (if c =? chr "=" then Some (drop 1 suffix) else None)
  end.

Definition parse_u64 (text : option (list Z)) (out : option Z) : run (Z * option Z) :=
  match text, out with
  | Some t, Some _ =>
      c ← rd t 0;
      if (c =? 0) || (c =? chr "-") then Ok (-1, out) else
      p ← strtoul10 t;
      let '(value, stop, errno) := p in
      if negb (errno =? 0) then Ok (-1, out) else
      c ← rd t stop;
      Ok (if negb (c =? 0) then (-1, out) else (0, Some value))
  | _, _ => Ok (-1, out)
  end.

(** One option's effect: the options after it, or [-1]. *)
Definition option_result : Type := run (option responder_options).

Definition scenario_option (value : list Z) (o : responder_options) : option_result :=
  r ← r_test_scenario_parse (Some value) (Some (ro_scenario o));
  let '(rc, scenario) := r in
  scenario ← deref scenario;
  Ok (if negb (rc =? RCLIENT_OK) then None else Some (set_ro_scenario scenario o)).

Definition auth_option (value : list Z) (o : responder_options) : option_result :=
  aes ← str_eq value (cstr "aes");
  if (aes : bool)
  then Ok (Some (set_ro_auth_name (cstr "aes") (set_ro_auth_key R_TEST_RESPONDER_AES_KEY o))) else
  cookie ← str_eq value (cstr "cookie");
  Ok (if (cookie : bool)
      then Some (set_ro_auth_name (cstr "cookie") (set_ro_auth_key R_TEST_RESPONDER_COOKIE_KEY o)) else None).

Definition steering_option (value : list Z) (o : responder_options) : option_result :=
  keep ← str_eq value (cstr "keep");
  if (keep : bool) then Ok (Some (set_ro_steering_keep_port true o)) else
  rebind ← str_eq value (cstr "rebind");
  Ok (if (rebind : bool) then Some (set_ro_steering_keep_port false o) else None).

(** A number option; [old] is the member [parse_u64] writes. *)
Definition number_option (value : list Z) (old : Z) (set : Z -> responder_options -> responder_options)
    (positive : bool) (o : responder_options) : option_result :=
  r ← parse_u64 (Some value) (Some old);
  let '(rc, n) := r in
  n ← deref n;
  Ok (if negb (rc =? 0) || (positive && (n =? 0)) then None else Some (set n o)).

(** The chain of [else if]s on the options with a value. *)
Definition value_option (argument : list Z) (o : responder_options) : option_result :=
  listen ← option_value argument (cbytes "--listen");
  match listen with Some v => Ok (Some (set_ro_listen (Some v) o)) | None =>
  scenario ← option_value argument (cbytes "--scenario");
  match scenario with Some v => scenario_option v o | None =>
  auth ← option_value argument (cbytes "--auth");
  match auth with Some v => auth_option v o | None =>
  server_id ← option_value argument (cbytes "--server-id");
  match server_id with Some v => number_option v (ro_server_id o) set_ro_server_id true o | None =>
  allow_count ← option_value argument (cbytes "--allow-count");
  match allow_count with Some v => number_option v (ro_allow_count o) set_ro_allow_count false o | None =>
  delay_ms ← option_value argument (cbytes "--delay-ms");
  match delay_ms with Some v => number_option v (ro_delay_ms o) set_ro_delay_ms false o | None =>
  max_packets ← option_value argument (cbytes "--max-packets");
  match max_packets with Some v => number_option v (ro_max_packets o) set_ro_max_packets false o | None =>
  steering ← option_value argument (cbytes "--steering");
  match steering with Some v => steering_option v o | None => Ok None
  end end end end end end end end.

(** [Return 0] is [exit (0)] of [--help], [Return (-1)] a refusal. *)
Fixpoint parse_arguments (args : list (list Z)) (o : responder_options) : run (flow responder_options Z) :=
  match args with
  | [] => Ok (if is_null (ro_listen o) then Return (-1) else Next o)
  | arg :: rest =>
      help ← str_eq arg (cstr "--help");
      if (help : bool) then Ok (Return 0) else
      print ← str_eq arg (cstr "--print-nginx-config");
      if (print : bool) then parse_arguments rest (set_ro_print_nginx_config true o) else
      r ← value_option arg o;
      match r with Some o => parse_arguments rest o | None => Ok (Return (-1)) end
  end.

Definition parse_options (args : list (list Z)) : run (flow responder_options Z) :=
  parse_arguments args default_options.

(** ** The listen address *)
Definition INET6_ADDRSTRLEN : Z := 46.

Record listen_address := mk_listen { la_family : Z; la_bytes : list Z; la_host : list Z; la_port : Z }.

(** Where the host starts, its length and where the port's text starts. *)
Definition split_listen (text : list Z) : run (option (Z * Z * Z)) :=
  c ← rd text 0;
  if c =? chr "[" then
    close ← strchr text (chr "]");
    match close with
    | None => Ok None
    | Some close =>
        d ← rd text (close + 1);
        Ok (if negb (d =? chr ":") then None else Some (1, close - 1, close + 2))
    end
  else
    Ok (match strrchr text (chr ":") 0 with
        | None => None
        | Some colon => Some (0, colon, colon + 1)
        end).

Section Pton.

(** [inet_pton (family, host, ...)]: the address's bytes. *)
Context (inet_pton : Z -> list Z -> option (list Z)).

Definition parse_listen_address (text : option (list Z)) (address : bool) : run (option listen_address) :=
  match text with
  | Some text =>
      if negb address then Ok None else
      s ← split_listen text;
      match s with
      | None => Ok None
      | Some (start, host_len, port_start) =>
          if (host_len =? 0) || (INET6_ADDRSTRLEN <=? host_len) then Ok None else
          host ← rd_bytes text start host_len;
          let host := host ++ [0] in
          p ← parse_u64 (Some (drop (Z.to_nat port_start) text)) (Some 0);
          let '(rc, port) := p in
          port ← deref port;
          if negb (rc =? 0) || (port =? 0) || (65535 <? port) then Ok None else
          match inet_pton AF_INET host with
          | Some bytes => Ok (Some (mk_listen AF_INET bytes host (u16 port)))
          | None =>
              match inet_pton AF_INET6 host with
              | Some bytes => Ok (Some (mk_listen AF_INET6 bytes host (u16 port)))
              | None => Ok None
              end
          end
      end
  | None => Ok None
  end.
End Pton.

(** ** What is printed *)
Definition json (s : string) : list Z := map (fun c => if c =? 39 then 34 else c) (cbytes s).

(** The characters of a C string. *)
Fixpoint cstring_chars (text : list Z) : run (list Z) :=
  match text with
  | [] => UB
  | c :: rest => if c =? 0 then Ok [] else l ← cstring_chars rest; Ok (c :: l)
  end.

(** A digit of [%04x]. *)
Definition hex_digit (n : Z) : Z := if n <? 10 then chr "0" + n else chr "a" + (n - 10).

Definition json_char (c : Z) : list Z :=
  if c =? 34 then [92; 34] else if c =? 92 then [92; 92] else
  if c =? 8 then [92; chr "b"] else if c =? 12 then [92; chr "f"] else
  if c =? 10 then [92; chr "n"] else if c =? 13 then [92; chr "r"] else
  if c =? 9 then [92; chr "t"] else
  if c <? 32 then [92; chr "u"; chr "0"; chr "0"; hex_digit (c / 16); hex_digit (c mod 16)] else [c].

Definition print_json_string (text : list Z) : run (list Z) :=
  l ← cstring_chars text; Ok ([34] ++ concat (map json_char l) ++ [34]).

Definition print_tracker (t : r_test_tracker_observation) : list Z :=
  if negb (to_present t) then cbytes "null" else
  json "{'ttl_ms':" ++ dec_u64 (to_ttl_ms t) ++ json ",'max_samples':" ++ dec_u64 (to_max_samples t) ++
  json ",'min_sample_threshold':" ++ dec_u64 (to_min_sample_threshold t) ++ cbytes "}".

Definition print_event (e : r_test_event) (status : Z) : run (list Z) :=
  match te_kind e with
  | R_TEST_EVENT_RATE_REQUEST =>
      label ← print_json_string (te_label e);
      disposition ← cstring_chars (te_disposition e);
      Ok (json "{'event':'rate_request','sequence':" ++ dec_u64 (te_sequence e) ++
          json ",'guards':" ++ dec_u64 (te_guard_count e) ++
          json ",'resources':" ++ dec_u64 (te_resource_count e) ++
          json ",'label':" ++ label ++ json ",'tracker':" ++ print_tracker (te_tracker e) ++
          json ",'guard_threshold_ms':" ++ dec_u64 (te_guard_threshold_ms e) ++
          json ",'disposition':'" ++ disposition ++ json "'}" ++ [10])
  | R_TEST_EVENT_LATENCY_REPORT =>
      Ok (json "{'event':'latency_report','sequence':" ++ dec_u64 (te_sequence e) ++
          json ",'reports':" ++ dec_u64 (te_report_count e) ++
          json ",'tracker':" ++ print_tracker (te_tracker e) ++
          json ",'observed_latency_ms':" ++ dec_u64 (te_observed_latency_ms e) ++
          json ",'matches_previous_guard':" ++
          (if te_tracker_matches_guard e then cbytes "true" else cbytes "false") ++ cbytes "}" ++ [10])
  | R_TEST_EVENT_INPUT_REJECTED =>
      Ok (json "{'event':'input_rejected','sequence':" ++ dec_u64 (te_sequence e) ++
          json ",'status':" ++ dec_int status ++ cbytes "}" ++ [10])
  end.

(** ** The program *)

(** The calls of the system the program makes beside those of [Os]. *)
Class ServerOs (O : Type) `{Os O} : Type := {
  sv_shutdown : O -> bool * O;
  sv_sigaction : O -> bool * O;
  sv_bind : Z -> listen_address -> O -> Z * O;
  sv_poll : Z -> Z -> O -> (Z * Z) * O;
  sv_recvfrom : Z -> Z -> O -> (Z * list Z * r_addr) * O;
  sv_nanosleep : Z * Z -> O -> (Z * (Z * Z)) * O;
  sv_stdout : list Z -> O -> O;
  sv_crypto : O -> crypto_env * O;
  sv_allocs : O -> allocs * O;
  sv_patience : O -> nat;
}.

Definition POLLIN : Z := 1.
Definition INPUT_CAPACITY : Z := 2048.

(** [OPENSSL_cleanse (&state, sizeof (state))]. *)
Definition cleansed : r_test_responder_state :=
  mk_responder 0 0 0 (replicate 32 0) 0 false 0 0 (replicate 16 0) false
    (replicate (Z.to_nat R_TEST_RESPONDER_QUOTA_CAP) quota_entry_zero) 0.

Section Program.
Context {O : Type} {OS : Os O} {SV : ServerOs O} {ssl : OpenSSL}.
Context (inet_pton : Z -> list Z -> option (list Z)).

Definition print_nginx_config (options : responder_options) (listen : list Z) (port : Z) (o : O) : run O :=
  key ← cstring_chars (ro_auth_key options);
  text ← cstring_chars listen;
  let o := sv_stdout (cbytes "# Synthetic rl-c-client test responder configuration; never use in production."
                      ++ [10]) o in
  let o := sv_stdout (cbytes "ratelimitly_tenant rn-test.local;" ++ [10]) o in
  let o := sv_stdout (cbytes "ratelimitly_auth_key " ++ key ++ cbytes ";" ++ [10]) o in
  let o := sv_stdout (cbytes "# responder=" ++ text ++ [10]) o in
  Ok (sv_stdout (cbytes "# SRV _ratelimitly._udp.rn-test.local 0 0 " ++ dec_u64 port ++ cbytes " s-" ++
                 dec_u64 (ro_server_id options) ++ cbytes ".localhost." ++ [10]) o).

(** [while (!is_shutdown_requested () && nanosleep (...) != 0)]: an interrupted
    sleep goes on with what remains. *)
Fixpoint sleep_loop (fuel : nat) (remaining : Z * Z) (o : O) : O :=
  let '(stop, o) := sv_shutdown o in
  if (stop : bool) then o else
  let '(r, o) := sv_nanosleep remaining o in
  let '(rc, unslept) := r in
  if rc =? 0 then o else
  match fuel with
  | S fuel' => if os_errno o =? EINTR then sleep_loop fuel' unslept o else o
  | Datatypes.O => o
  end.

Definition delay_response (delay_ms : Z) (o : O) : O :=
  sleep_loop (sv_patience o) (delay_ms / 1000, (delay_ms mod 1000) * 1000000) o.

(** 1 when readable, 0 after a timeout or an interruption, -1 on an error. *)
Definition wait_for_readable (fd : Z) (o : O) : Z * O :=
  let '(r, o) := sv_poll fd 250 o in
  let '(result, revents) := r in
  if result <? 0 then (if os_errno o =? EINTR then 0 else -1, o) else
  if result =? 0 then (0, o) else
  (if Z.land revents POLLIN =? 0 then -1 else 1, o).

(** The length received, -2 for a condition to retry, -1 for an error; the
    buffer and the peer. *)
Definition receive_packet (fd capacity : Z) (o : O) : Z * list Z * r_addr * O :=
  let '(r, o) := sv_recvfrom fd capacity o in
  let '(received, buffer, peer) := r in
  if received <? 0
  then (if (os_errno o =? EINTR) || (os_errno o =? EAGAIN) then -2 else -1, buffer, peer, o)
  else (received, buffer, peer, o).

Definition send_packet (fd : Z) (buffer : list Z) (peer : r_addr) (o : O) : Z * O :=
  let '(sent, o) := os_sendto fd buffer peer o in
  (if sent <? 0 then -1 else if sent =? zlen buffer then 0 else -1, o).

(** The loop's variables: the state, the packets counted and the system. *)
Record serving := mk_serving { sg_state : r_test_responder_state; sg_packets : Z; sg_os : O }.

(** The answer, unless the program was asked to stop: whether it was sent or
    not needed. *)
Definition answer_packet (options : responder_options) (fd rc : Z) (out : process_out) (peer : r_addr) (o : O)
  : run (bool * O) :=
  if negb (rc =? RCLIENT_OK) || negb (po_send_response out) then Ok (true, o) else
  let '(stop, o) := sv_shutdown o in
  if (stop : bool) then Ok (true, o) else
  let o := delay_response (ro_delay_ms options) o in
  let '(stop, o) := sv_shutdown o in
  if (stop : bool) then Ok (true, o) else
  packet ← rd_bytes (po_output out) 0 (po_output_len out);
  let '(sent, o) := send_packet fd packet peer o in
  Ok (sent =? 0, o).

(** A received packet: [Return] leaves the loop with an exit status.  The event
    is not initialised when the responder refuses its arguments. *)
Definition handle_packet (options : responder_options) (fd received : Z) (input : list Z) (peer : r_addr)
    (s : serving) : run (flow serving (Z * serving)) :=
  let '(env, o) := sv_crypto (sg_os s) in
  r ← r_test_responder_process env (Some (sg_state s)) (Some input) received (Some stack_buffer)
        (zlen stack_buffer) (Some 0) (Some false) (Some (event_rejected 0));
  let '(rc, out) := r in
  out ← deref out;
  line ← print_event (po_event out) rc;
  let o := sv_stdout line o in
  let packets :=
    match te_kind (po_event out) with
    | R_TEST_EVENT_INPUT_REJECTED => sg_packets s
    | _ => sg_packets s +64 1
    end in
  a ← answer_packet options fd rc out peer o;
  let '(ok, o) := a in
  let s := mk_serving (po_state out) packets o in
  if negb ok then Ok (Return (1, s)) else
  if (0 <? ro_max_packets options) && (ro_max_packets options <=? packets) then Ok (Return (0, s)) else
  Ok (Next s).

(** One turn of the loop. *)
Definition serve_turn (options : responder_options) (fd : Z) (s : serving) : run (flow serving (Z * serving)) :=
  let at_os o := mk_serving (sg_state s) (sg_packets s) o in
  let '(stop, o) := sv_shutdown (sg_os s) in
  if (stop : bool) then Ok (Return (0, at_os o)) else
  let '(wait_status, o) := wait_for_readable fd o in
  if wait_status <? 0 then Ok (Return (1, at_os o)) else
  if wait_status =? 0 then Ok (Next (at_os o)) else
  let '(stop, o) := sv_shutdown o in
  if (stop : bool) then Ok (Next (at_os o)) else
  let '(received, input, peer, o) := receive_packet fd INPUT_CAPACITY o in
  if received =? -2 then Ok (Next (at_os o)) else
  if received <? 0 then Ok (Return (1, at_os o)) else
  handle_packet options fd received input peer (at_os o).

(** [None] when more turns are needed. *)
Fixpoint serve_loop (turns : nat) (options : responder_options) (fd : Z) (s : serving)
  : run (option (Z * serving)) :=
  match turns with
  | Datatypes.O => Ok None
  | S turns' =>
      f ← serve_turn options fd s;
      match f with
      | Next s => serve_loop turns' options fd s
      | Return r => Ok (Some r)
      end
  end.

Definition ready_line (options : responder_options) (address : listen_address) : run (list Z) :=
  host ← cstring_chars (la_host address);
  auth ← cstring_chars (ro_auth_name options);
  Ok (json "{'event':'ready','address':'" ++ host ++ json "','port':" ++ dec_u64 (la_port address) ++
      json ",'server_id':" ++ dec_u64 (ro_server_id options) ++ json ",'auth':'" ++ auth ++ json "'}" ++ [10]).

(** What [main] leaves: its exit status, the responder's state, when it was
    initialised, and the system. *)
Definition main_result : Type := Z * option r_test_responder_state * O.

(** The part between [socket] and the end, with the state initialised. *)
Definition run_server (turns : nat) (options : responder_options) (address : listen_address)
    (state : r_test_responder_state) (o : O) : run (option main_result) :=
  let '(fd, o) := os_socket (la_family address) o in
  if fd =? -1 then Ok (Some (1, Some cleansed, o)) else
  let '(rc, o) := sv_bind fd address o in
  if negb (rc =? 0) then Ok (Some (1, Some cleansed, os_close fd o)) else
  line ← ready_line options address;
  r ← serve_loop turns options fd (mk_serving state 0 (sv_stdout line o));
  Ok (match r with
      | None => None
      | Some (exit_status, s) => Some (exit_status, Some cleansed, os_close fd (sg_os s))
      end).

Definition main (turns : nat) (args : list (list Z)) (o : O) : run (option main_result) :=
  p ← parse_options args;
  match p with
  | Return code => Ok (Some (if code =? 0 then 0 else 2, None, o))
  | Next options =>
      listen ← deref (ro_listen options);
      a ← parse_listen_address inet_pton (Some listen) true;
      match a with
      | None => Ok (Some (2, None, o))
      | Some address =>
          if ro_print_nginx_config options then
            o ← print_nginx_config options listen (la_port address) o; Ok (Some (0, None, o))
          else
          let '(mem, o) := sv_allocs o in
          i ← r_test_responder_init mem (Some cleansed) (ro_scenario options) (Some (ro_auth_key options))
                (ro_server_id options) (ro_steering_keep_port options) (ro_allow_count options);
          let '(rc, state) := i in
          state ← deref state;
          if negb (rc =? RCLIENT_OK) then Ok (Some (2, Some state, o)) else
          let '(ok, o) := sv_sigaction o in
          if negb ok then Ok (Some (1, Some cleansed, o)) else
          run_server turns options address state o
      end
  end.
End Program.
Arguments mk_serving {O}.
Arguments sg_state {O}.
Arguments sg_packets {O}.
Arguments sg_os {O}.
