(* ===== verification/ResponderLines.v ===== *)
(** * The test responder's event lines: facts

    A reader for the lines the program prints, and that it reads back what was
    printed: a label, whatever its bytes, neither ends its string nor the line. *)

From Stdlib Require Import String Ascii.
From S2P Require Import Prelude.
From S2P Require Import Types.
From S2P Require Import Wire.
From S2P Require Import WireFacts.
From S2P Require Import Crypto.
From S2P Require Import KeyFacts.
From S2P Require Import Workflow.
From S2P Require Import State.
From S2P Require Import DnsFacts.
From S2P Require Import Client.
From S2P Require Import Create.
From S2P Require Import Ids.
From S2P Require Import Runtime.
From S2P Require Import RuntimeConfig.
From S2P Require Import Responder.
From S2P Require Import ResponderMain.

(** ** A reader *)
Definition reader (A : Type) : Type := list Z -> option (A * list Z).

#[export] Instance reader_ret : MRet reader := fun A a l => Some (a, l).
#[export] Instance reader_bind : MBind reader := fun A B k m l =>
  match m l with Some (a, l') => k a l' | None => None end.

(** [m] reads [a] off the front of [text]. *)
Definition reads {A} (m : reader A) (text : list Z) (a : A) (rest : list Z) : Prop := m (text ++ rest) = Some (a, rest).

Lemma reads_bind {A B} (m : reader A) (k : A -> reader B) t1 t2 a b rest :
  reads m t1 a (t2 ++ rest) -> reads (k a) t2 b rest -> reads (m ≫= k) (t1 ++ t2) b rest.
Proof. unfold reads. intros H1 H2. rewrite <- app_assoc. unfold mbind, reader_bind. by rewrite H1. Qed.

(** A fixed text. *)
Fixpoint expect (lit : list Z) : reader unit := fun l =>
  match lit, l with
  | [], _ => Some (tt, l)
  | c :: lit', d :: l' => if c =? d then expect lit' l' else None
  | _, [] => None
  end.

Lemma reads_expect lit rest : reads (expect lit) lit tt rest.
Proof. unfold reads. induction lit as [|c lit IH]; cbn [expect app]; [done|]. by rewrite Z.eqb_refl. Qed.

(** The characters before the first that is not wanted. *)
Fixpoint span (p : Z -> bool) (l : list Z) : list Z * list Z :=
  match l with
  | c :: l' => if p c then let '(a, b) := span p l' in (c :: a, b) else ([], l)
  | [] => ([], [])
  end.

Lemma span_app p a c rest : forallb p a = true -> p c = false -> span p (a ++ c :: rest) = (a, c :: rest).
Proof.
  intros Ha Hc. induction a as [|x a IH]; cbn [span app]; [by rewrite Hc|]. cbn [forallb] in Ha.
  apply andb_true_iff in Ha as [-> Ha]. by rewrite IH.
Qed.

(** A decimal number. *)
Definition read_number : reader Z := fun l =>
  let '(ds, rest) := span is_digit l in
  if bool_decide (ds = []) then None else Some (undec ds, rest).

Lemma dec_digits_are fuel n acc :
  0 <= n -> forallb is_digit acc = true -> forallb is_digit (dec_digits fuel n acc) = true.
Proof.
  revert n acc; induction fuel as [|fuel IH]; intros n acc Hn Ha; cbn [dec_digits]; [done|].
  pose proof (Z.mod_pos_bound n 10 ltac:(lia)).
  assert (forallb is_digit ((chr "0" + n mod 10) :: acc) = true) as H1.
  { cbn [forallb]. rewrite Ha, andb_true_r. unfold is_digit. change (chr "0") with 48. change (chr "9") with 57. lia. }
  case_if; [done|]. apply IH; [apply Z.div_pos; lia|done].
Qed.

Lemma dec_digits_grows fuel n acc : (length acc <= length (dec_digits fuel n acc))%nat.
Proof.
  revert n acc; induction fuel as [|fuel IH]; intros n acc; cbn [dec_digits]; [done|]. case_if; [cbn; lia|].
  etransitivity; [|apply IH]. cbn. lia.
Qed.

Lemma dec_digits_ne fuel n acc : dec_digits (S fuel) n acc <> [].
Proof.
  cbn [dec_digits]. case_if; [done|]. intros Hnil.
  pose proof (dec_digits_grows fuel (n / 10) ((chr "0" + n mod 10) :: acc)) as Hl. rewrite Hnil in Hl. inversion Hl.
Qed.

Lemma dec_u64_text n :
  is_u64 n -> dec_u64 n <> [] /\ forallb is_digit (dec_u64 n) = true /\ undec (dec_u64 n) = n.
Proof.
  intros Hn. unfold dec_u64. split; [|split].
  - apply (dec_digits_ne 19).
  - apply dec_digits_are; [rlia|done].
  - destruct (undec_digits 20 n []) as (ds & E & Hu).
    { unfold_ranges. change (10 ^ Z.of_nat 20) with 100000000000000000000. lia. }
    by rewrite E, app_nil_r.
Qed.

Lemma reads_number n c rest : is_u64 n -> is_digit c = false -> reads read_number (dec_u64 n) n (c :: rest).
Proof.
  intros Hn Hc. destruct (dec_u64_text n Hn) as (Hne & Hd & Hu). unfold reads, read_number.
  rewrite span_app by done. rewrite bool_decide_false by done. by rewrite Hu.
Qed.

(** A JSON string, after its opening quote: escapes are undone up to the
    closing quote; a control character in it is an error. *)
Definition unhex (c : Z) : option Z :=
  if is_digit c then Some (c - chr "0")
  else if (chr "a" <=? c) && (c <=? chr "f") then Some (c - chr "a" + 10) else None.

(** The one-character escapes. *)
Definition unescape (c : Z) : option Z :=
  if (c =? 34) || (c =? 92) then Some c else
  if c =? chr "b" then Some 8 else if c =? chr "f" then Some 12 else if c =? chr "n" then Some 10 else
  if c =? chr "r" then Some 13 else if c =? chr "t" then Some 9 else None.

Fixpoint read_chars (l : list Z) : option (list Z * list Z) :=
  match l with
  | [] => None
  | c :: l1 =>
      if c =? 34 then Some ([], l1) else
      if c <? 32 then None else
      if negb (c =? 92) then '(t, rest) ← read_chars l1; Some (c :: t, rest) else
      match l1 with
      | e :: l2 =>
          match unescape e, l2 with
          | Some x, _ => '(t, rest) ← read_chars l2; Some (x :: t, rest)
          | None, h3 :: h2 :: h1 :: h0 :: l3 =>
              if negb (e =? chr "u") || negb (h3 =? chr "0") || negb (h2 =? chr "0") then None else
              a ← unhex h1; b ← unhex h0;
              '(t, rest) ← read_chars l3; Some (16 * a + b :: t, rest)
          | None, _ => None
          end
      | [] => None
      end
  end.

Definition read_string : reader (list Z) := _ ← expect [34]; read_chars.

(** ** Strings *)
Lemma hex_digit_unhex n : 0 <= n < 16 -> unhex (hex_digit n) = Some n.
Proof.
  intros Hn. assert (forallb (fun n => bool_decide (unhex (hex_digit n) = Some n)) (seqZ 0 16) = true) as H
    by (vm_compute; reflexivity).
  rewrite forallb_forall in H. specialize (H n). rewrite bool_decide_eq_true in H. apply H.
  apply list_elem_of_In, elem_of_seqZ. lia.
Qed.

(** One character, however it is written. *)
Lemma read_char c l : is_u8 c -> c <> 0 ->
  read_chars (json_char c ++ l) = ('(t, rest) ← read_chars l; Some (c :: t, rest)).
Proof.
  intros Hc Hz. unfold json_char.
  repeat match goal with
  | |- context [if ?x =? ?y then _ else _] => destruct (Z.eqb_spec x y) as [->|]; [reflexivity|]
  end.
  destruct (Z.ltb_spec c 32) as [Hl|Hg].
  - cbn [app read_chars]. change (unescape (chr "u")) with (@None Z). cbn -[Z.mul Z.div Z.modulo unhex read_chars].
    rewrite !Z.eqb_refl. cbn [negb orb].
    assert (0 <= c / 16 < 16) as Hq by (split; [apply Z.div_pos|apply Z.div_lt_upper_bound]; rlia).
    rewrite (hex_digit_unhex (c mod 16)), (hex_digit_unhex (c / 16)) by (done || by apply Z.mod_pos_bound).
    cbn [mbind option_bind]. by rewrite <- Z.div_mod by done.
  - cbn [app read_chars]. rewrite (proj2 (Z.eqb_neq c 34)), (proj2 (Z.ltb_ge c 32)), (proj2 (Z.eqb_neq c 92)) by done. done.
Qed.

Lemma reads_chars t rest : Forall (fun c => is_u8 c /\ c <> 0) t ->
  read_chars (concat (map json_char t) ++ [34] ++ rest) = Some (t, rest).
Proof.
  induction 1 as [|c t [Hc Hz] _ IH]; [done|]. cbn [map concat]. rewrite <- app_assoc, read_char by done. by rewrite IH.
Qed.

Lemma cstring_chars_spec t rest : 0 ∉ t -> cstring_chars (t ++ 0 :: rest) = Ok t.
Proof.
  induction t as [|c t IH]; intros Hz; [done|]. cbn [app cstring_chars]. rewrite (proj2 (Z.eqb_neq c 0)) by set_solver.
  by rewrite IH by set_solver.
Qed.

Definition plain (t : list Z) : Prop := Forall (fun c => is_u8 c /\ c <> 0) t.

Lemma plain_no_nul t : plain t -> 0 ∉ t.
Proof. intros Ht Hin. apply (proj1 (Forall_forall _ _) Ht) in Hin as [_ Hin]. done. Qed.

(** What is printed of a string is read back. *)
Lemma json_string_spec t junk :
  plain t -> exists out, print_json_string (t ++ 0 :: junk) = Ok out /\
    (forall rest, reads read_string out t rest) /\ Forall (fun c => 32 <= c) out.
Proof.
  intros Ht. unfold print_json_string. rewrite cstring_chars_spec by (by apply plain_no_nul). rewrite run_bind_Ok.
  eexists. split; [done|]. split.
  - intros rest. unfold reads, read_string. unfold mbind, reader_bind. cbn [expect app]. rewrite Z.eqb_refl.
    rewrite <- app_assoc. by apply reads_chars.
  - apply Forall_app. split; [by repeat constructor|]. apply Forall_app. split; [|by repeat constructor].
    apply Forall_concat, Forall_map. eapply Forall_impl; [exact Ht|]. intros c [Hc Hz]. cbv beta. unfold json_char.
    repeat (case_if; [repeat constructor; done|]).
    destruct (Z.ltb_spec c 32); [|by repeat constructor].
    assert (forall n, 0 <= n < 16 -> 32 <= hex_digit n) as Hh.
    { intros n Hn. unfold hex_digit. change (chr "0") with 48. change (chr "a") with 97. case_if; breflect; lia. }
    pose proof (Z.mod_pos_bound c 16 ltac:(lia)). repeat constructor; try done; apply Hh; [|lia].
    split; [apply Z.div_pos; rlia|apply Z.div_lt_upper_bound; lia].
Qed.

(** ** The lines *)

(** What a tracker's text says. *)
Definition read_tracker : reader (option (Z * Z * Z)) := fun l =>
  match expect (cbytes "null") l with
  | Some (_, rest) => Some (None, rest)
  | None =>
      (_ ← expect (json "{'ttl_ms':"); ttl ← read_number;
       _ ← expect (json ",'max_samples':"); samples ← read_number;
       _ ← expect (json ",'min_sample_threshold':"); least ← read_number;
       _ ← expect (cbytes "}"); mret (Some (ttl, samples, least))) l
  end.

Definition read_bool : reader bool := fun l =>
  match expect (cbytes "true") l with
  | Some (_, rest) => Some (true, rest)
  | None => (_ ← expect (cbytes "false"); mret false) l
  end.

Definition read_int : reader Z := fun l =>
  match expect (cbytes "-") l with
  | Some (_, rest) => (n ← read_number; mret (- n)) rest
  | None => read_number l
  end.

(** A string that needs no escape, after its opening quote. *)
Definition read_word : reader (list Z) := fun l =>
  let '(w, rest) := span (fun c => negb (c =? 34)) l in
  match rest with _ :: rest => Some (w, rest) | [] => None end.

Inductive line : Type :=
| RateLine (sequence guards resources : Z) (label : list Z) (tracker : option (Z * Z * Z)) (threshold_ms : Z)
    (disposition : list Z)
| ReportLine (sequence reports : Z) (tracker : option (Z * Z * Z)) (observed_ms : Z) (matches : bool)
| RejectedLine (sequence status : Z).

Definition read_rate : reader line :=
  sequence ← read_number; _ ← expect (json ",'guards':"); guards ← read_number;
  _ ← expect (json ",'resources':"); resources ← read_number; _ ← expect (json ",'label':"); label ← read_string;
  _ ← expect (json ",'tracker':"); tracker ← read_tracker;
  _ ← expect (json ",'guard_threshold_ms':"); threshold ← read_number;
  _ ← expect (json ",'disposition':'"); disposition ← read_word;
  _ ← expect (cbytes "}" ++ [10]); mret (RateLine sequence guards resources label tracker threshold disposition).

Definition read_report : reader line :=
  sequence ← read_number; _ ← expect (json ",'reports':"); reports ← read_number;
  _ ← expect (json ",'tracker':"); tracker ← read_tracker;
  _ ← expect (json ",'observed_latency_ms':"); observed ← read_number;
  _ ← expect (json ",'matches_previous_guard':"); matches ← read_bool;
  _ ← expect (cbytes "}" ++ [10]); mret (ReportLine sequence reports tracker observed matches).

Definition read_rejected : reader line :=
  sequence ← read_number; _ ← expect (json ",'status':"); status ← read_int;
  _ ← expect (cbytes "}" ++ [10]); mret (RejectedLine sequence status).

Definition read_line : reader line :=
  _ ← expect (json "{'event':'"); kind ← read_word; _ ← expect (json ",'sequence':");
  if bool_decide (kind = cbytes "rate_request") then read_rate
  else if bool_decide (kind = cbytes "latency_report") then read_report
  else if bool_decide (kind = cbytes "input_rejected") then read_rejected
  else fun _ => None.

(** ** Events that can be printed *)
Definition tracker_wf (t : r_test_tracker_observation) : Prop :=
  is_u32 (to_ttl_ms t) /\ is_u32 (to_max_samples t) /\ is_u32 (to_min_sample_threshold t).

(** A block that holds a C string: its text up to the first NUL. *)
Definition holds_text (block text : list Z) : Prop := exists junk, block = text ++ 0 :: junk /\ plain text.

(** A text that needs no escape. *)
Definition is_word (w : list Z) : Prop := Forall (fun c => 32 <= c /\ c <> 34) w.

Record event_wf (e : r_test_event) (label disposition : list Z) : Prop := {
  ew_sequence : is_u64 (te_sequence e);
  ew_counts : is_u16 (te_guard_count e) /\ is_u16 (te_resource_count e) /\ is_u16 (te_report_count e);
  ew_tracker : tracker_wf (te_tracker e);
  ew_times : is_u32 (te_guard_threshold_ms e) /\ is_u32 (te_observed_latency_ms e);
  ew_label : holds_text (te_label e) label;
  ew_disposition : holds_text (te_disposition e) disposition /\ is_word disposition;
}.

Definition tracker_seen (t : r_test_tracker_observation) : option (Z * Z * Z) :=
  if to_present t then Some (to_ttl_ms t, to_max_samples t, to_min_sample_threshold t) else None.

(** What the line of an event says. *)
Definition line_of (e : r_test_event) (status : Z) (label disposition : list Z) : line :=
  match te_kind e with
  | R_TEST_EVENT_RATE_REQUEST =>
      RateLine (te_sequence e) (te_guard_count e) (te_resource_count e) label (tracker_seen (te_tracker e))
        (te_guard_threshold_ms e) disposition
  | R_TEST_EVENT_LATENCY_REPORT =>
      ReportLine (te_sequence e) (te_report_count e) (tracker_seen (te_tracker e)) (te_observed_latency_ms e)
        (te_tracker_matches_guard e)
  | R_TEST_EVENT_INPUT_REJECTED => RejectedLine (te_sequence e) status
  end.

(** ** What is printed is read *)
Definition stops (rest : list Z) : Prop := exists c l, rest = c :: l /\ is_digit c = false.

Lemma reads_dec n rest : is_u64 n -> stops rest -> reads read_number (dec_u64 n) n rest.
Proof. intros Hn (c & l & -> & Hc). by apply reads_number. Qed.

Lemma reads_ret {A} (a : A) rest : reads (mret a) [] a rest.
Proof. done. Qed.

(** The last piece of a text. *)
Lemma reads_end {A B} (m : reader A) t (a : A) (b : B) rest :
  reads m t a rest -> reads (m ≫= fun _ => mret b) t b rest.
Proof. unfold reads, mbind, reader_bind. by intros ->. Qed.

Lemma reads_word {B} w (k : list Z -> reader B) t b rest :
  is_word w -> reads (k w) t b rest -> reads (read_word ≫= k) (w ++ 34 :: t) b rest.
Proof.
  intros Hw Hk. unfold reads, read_word, mbind, reader_bind. rewrite <- app_assoc. cbn [app].
  rewrite span_app; [done| |done].
  apply forallb_forall. intros c Hc. apply list_elem_of_In in Hc.
  apply (proj1 (Forall_forall _ _) Hw) in Hc as [_ Hc]. by rewrite (proj2 (Z.eqb_neq c 34)).
Qed.

(** Reads the pieces of a text one after the other. *)
Ltac reads_pieces :=
  repeat first
    [ eapply reads_end | eapply reads_bind | apply reads_expect
    | apply reads_dec; [|by do 2 eexists] ].

Lemma reads_tracker t rest : tracker_wf t -> reads read_tracker (print_tracker t) (tracker_seen t) rest.
Proof.
  intros (H1 & H2 & H3). unfold print_tracker, tracker_seen. destruct (to_present t); [|done]. cbn [negb].
  unfold reads, read_tracker. change (expect (cbytes "null") _) with (@None (unit * list Z)). cbv iota.
  apply (reads_bind (expect (json "{'ttl_ms':")) _ _ _ tt); [apply reads_expect|].
  reads_pieces; rlia.
Qed.

Lemma reads_bool (b : bool) rest : reads read_bool (if b then cbytes "true" else cbytes "false") b rest.
Proof. by destruct b. Qed.

Lemma reads_int n rest : is_u64 (Z.abs n) -> stops rest -> reads read_int (dec_int n) n rest.
Proof.
  intros Hn Hr. unfold dec_int. destruct (Z.ltb_spec n 0).
  - unfold reads, read_int. cbn [cbytes]. change (cbytes "-") with [45]. cbn [app expect]. rewrite Z.eqb_refl.
    unfold mbind, reader_bind. rewrite (reads_dec (- n)); [by rewrite Z.opp_involutive|rlia|done].
  - unfold reads, read_int. pose proof (dec_u64_text n ltac:(rlia)) as (Hne & Hd & _).
    destruct (dec_u64 n) as [|c ds] eqn:E; [done|]. cbn [forallb] in Hd. apply andb_true_iff in Hd as [Hc _].
    change (cbytes "-") with [45]. cbn [app expect]. rewrite (proj2 (Z.eqb_neq 45 c)).
    + change (c :: ds ++ rest) with ((c :: ds) ++ rest). rewrite <- E. apply reads_dec; [rlia|done].
    + intros <-. done.
Qed.

(** ** No line is broken *)
Definition no_control (t : list Z) : Prop := Forall (fun c => 32 <= c) t.

Lemma no_control_app a b : no_control a -> no_control b -> no_control (a ++ b).
Proof. intros. by apply Forall_app. Qed.

Lemma no_control_const t : forallb (fun c => 32 <=? c) t = true -> no_control t.
Proof. intros Ht. apply Forall_forall. intros c Hc. apply list_elem_of_In in Hc. rewrite forallb_forall in Ht. apply Ht in Hc. lia. Qed.

Lemma no_control_dec n : is_u64 n -> no_control (dec_u64 n).
Proof.
  intros Hn. destruct (dec_u64_text n Hn) as (_ & Hd & _). apply no_control_const.
  apply forallb_forall. intros c Hc. rewrite forallb_forall in Hd. apply Hd in Hc. unfold is_digit in Hc.
  change (chr "0") with 48 in Hc. lia.
Qed.

Lemma no_control_int n : is_u64 (Z.abs n) -> no_control (dec_int n).
Proof.
  intros Hn. unfold dec_int. case_if; [|apply no_control_dec; rlia].
  apply no_control_app; [by apply no_control_const|apply no_control_dec; rlia].
Qed.

Lemma no_control_tracker t : tracker_wf t -> no_control (print_tracker t).
Proof.
  intros (H1 & H2 & H3). unfold print_tracker. case_if; [by apply no_control_const|].
  repeat first [apply no_control_dec; rlia | by apply no_control_const | apply no_control_app].
Qed.

(** A whole line: it ends with the only newline. *)
Definition one_line (t : list Z) : Prop := exists body, t = body ++ [10] /\ no_control body.

Lemma one_line_app a b : no_control a -> one_line b -> one_line (a ++ b).
Proof. intros Ha (body & -> & Hb). exists (a ++ body). split; [apply app_assoc|by apply no_control_app]. Qed.

Lemma one_line_end : one_line [10].
Proof. exists []. by split; [|constructor]. Qed.

Ltac line_pieces :=
  repeat first
    [ apply one_line_end | apply no_control_dec; rlia | by apply no_control_const | by apply no_control_tracker
    | done | apply one_line_app ].

(** ** The line of an event *)
(** The kind chooses the reader of the rest. *)
Lemma reads_rate t l rest :
  reads read_rate t l rest -> reads read_line (json "{'event':'rate_request','sequence':" ++ t) l rest.
Proof. exact id. Qed.
Lemma reads_report t l rest :
  reads read_report t l rest -> reads read_line (json "{'event':'latency_report','sequence':" ++ t) l rest.
Proof. exact id. Qed.
Lemma reads_rejected t l rest :
  reads read_rejected t l rest -> reads read_line (json "{'event':'input_rejected','sequence':" ++ t) l rest.
Proof. exact id. Qed.

Ltac read_piece :=
  eapply reads_bind; [first [apply reads_expect | apply reads_dec; [rlia|by do 2 eexists] | by apply reads_tracker
                            | apply reads_bool | apply reads_int; [done|by do 2 eexists]]|].

Section Lines.
Context (e : r_test_event) (status : Z) (label disposition : list Z).
Context (wf : event_wf e label disposition).
Context (Hstatus : te_kind e = R_TEST_EVENT_INPUT_REJECTED -> is_u64 (Z.abs status)).

Definition printed_as (out : list Z) : Prop :=
  print_event e status = Ok out /\ one_line out /\
  forall rest, reads read_line out (line_of e status label disposition) rest.

Lemma print_rejected : te_kind e = R_TEST_EVENT_INPUT_REJECTED -> exists out, printed_as out.
Proof.
  intros Hk. destruct wf as [Hs _ _ _ _ _]. pose proof (Hstatus Hk) as Hst. unfold printed_as, print_event, line_of. rewrite Hk. eexists. split; [done|].
  split; [line_pieces; by apply no_control_int|]. intros rest. apply reads_rejected. unfold read_rejected.
  do 3 read_piece. eapply reads_end, reads_expect.
Qed.

Lemma print_report : te_kind e = R_TEST_EVENT_LATENCY_REPORT -> exists out, printed_as out.
Proof.
  intros Hk. destruct wf as [Hs (_ & _ & Hn) Ht [_ Ho] _ _]. unfold printed_as, print_event, line_of. rewrite Hk.
  eexists. split; [done|]. split.
  { line_pieces. by destruct (te_tracker_matches_guard e); apply no_control_const. }
  intros rest. apply reads_report. unfold read_report. do 9 read_piece. eapply reads_end, reads_expect.
Qed.

Lemma print_rate : te_kind e = R_TEST_EVENT_RATE_REQUEST -> exists out, printed_as out.
Proof.
  intros Hk. destruct wf as [Hs (Hg & Hr & _) Ht [Ho _] [jl [El Hl]] [[jd [Ed Hd]] Hw]].
  destruct (json_string_spec label jl Hl) as (text & Et & Hread & Hp).
  unfold printed_as, print_event, line_of. rewrite Hk, El, Et, run_bind_Ok, Ed.
  rewrite cstring_chars_spec by by apply plain_no_nul. rewrite run_bind_Ok. eexists. split; [done|]. split.
  { line_pieces. apply (Forall_impl _ _ _ Hw). by intros c [? _]. }
  intros rest. apply reads_rate. unfold read_rate. do 6 read_piece.
  eapply reads_bind; [apply Hread|]. do 5 read_piece.
  apply (reads_word _ _ (cbytes "}" ++ [10])); [done|]. eapply reads_end, reads_expect.
Qed.

(** A printed event is one line, and the line is read back. *)
Lemma print_event_spec : exists out, printed_as out.
Proof.
  pose proof print_rejected. pose proof print_rate. pose proof print_report. destruct (te_kind e); auto.
Qed.
End Lines.
