(* ===== verification/ResponderEvents.v ===== *)
(** * The test responder's events can be printed

    Every event that handling a packet leaves is well formed in the sense of
    [ResponderLines]: numbers of their widths, a label and a disposition that
    are C strings. *)

From Stdlib Require Import String Ascii.
From S2P Require Import Prelude.
From S2P Require Import Types.
From S2P Require Import Wire.
From S2P Require Import WireFacts.
From S2P Require Import Crypto.
From S2P Require Import CryptoFacts.
From S2P Require Import Workflow.
From S2P Require Import State.
From S2P Require Import Hoare.
From S2P Require Import Request.
From S2P Require Import RequestFacts.
From S2P Require Import PacketFacts.
From S2P Require Import ExtractFacts.
From S2P Require Import Client.
From S2P Require Import Responder.
From S2P Require Import ResponderFacts.
From S2P Require Import ResponderQuota.
From S2P Require Import ResponderSafety.
From S2P Require Import ResponderMain.
From S2P Require Import ResponderLines.

(** What a computation returns when it returns; that it does is
    [ResponderSafety]'s concern. *)
Definition whenever {A} (m : run A) (Q : A -> Prop) : Prop := forall a, m = Ok a -> Q a.

Lemma whenever_Ok {A} (a : A) (Q : A -> Prop) : Q a -> whenever (Ok a) Q.
Proof. by intros HQ b [= <-]. Qed.

Lemma whenever_bind {A B} (m : run A) (k : A -> run B) (P : A -> Prop) Q :
  whenever m P -> (forall a, m = Ok a -> P a -> whenever (k a) Q) -> whenever (m ≫= k) Q.
Proof. intros Hm Hk b. destruct m as [|a] eqn:Em; [done|]. intros Hb. eapply Hk; [done|by apply Hm|done]. Qed.

Lemma whenever_next {A B} (m : run A) (k : A -> run B) Q :
  (forall a, whenever (k a) Q) -> whenever (m ≫= k) Q.
Proof. intros Hk. apply (whenever_bind _ _ (fun _ => True)); [done|]. auto. Qed.

Lemma whenever_if {A} (b : bool) (m1 m2 : run A) Q : whenever m1 Q -> whenever m2 Q -> whenever (if b then m1 else m2) Q.
Proof. by destruct b. Qed.

Lemma whenever_if_eq {A} (b : bool) (m1 m2 : run A) Q :
  (b = true -> whenever m1 Q) -> (b = false -> whenever m2 Q) -> whenever (if b then m1 else m2) Q.
Proof. destruct b; auto. Qed.

Lemma ensures_both {A} (m : run A) P Q : ensures m P -> whenever m Q -> ensures m (fun a => P a /\ Q a).
Proof. intros HP HQ. apply ensures_inv in HP as (a & -> & HP). split; [done|by apply HQ]. Qed.

(** ** Numbers and texts *)
Lemma read_le16_width p off : whenever (read_le16 p off) is_u16.
Proof. unfold read_le16. do 2 (apply whenever_next; intros ?). apply whenever_Ok, u16_range. Qed.

Lemma read_le32_width p off : whenever (read_le32 p off) is_u32.
Proof. unfold read_le32. do 4 (apply whenever_next; intros ?). apply whenever_Ok, u32_range. Qed.

Lemma observe_tracker_width p off : whenever (observe_tracker p off) tracker_wf.
Proof.
  unfold observe_tracker. apply whenever_next; intros id.
  do 3 (eapply whenever_bind; [apply read_le32_width|intros ? _ ?]). by apply whenever_Ok.
Qed.

(** Bytes with a NUL among them hold a text. *)
Lemma bytes_hold_text block : is_bytes block -> 0 ∈ block -> exists text, holds_text block text.
Proof.
  induction 1 as [|c block Hc _ IH]; intros Hz; [by apply not_elem_of_nil in Hz|].
  destruct (Z.eq_dec c 0) as [->|Hne]; [exists [], block; by split; [|constructor]|].
  apply elem_of_cons in Hz as [|Hz]; [done|]. destruct (IH Hz) as (text & junk & -> & Ht).
  exists (c :: text), junk. split; [done|]. by constructor.
Qed.

Definition label_ok (block : list Z) : Prop := exists text, holds_text block text.

Lemma label_zero_ok : label_ok label_zero.
Proof. exists [], (replicate 256 0). by split; [|constructor]. Qed.

Lemma wr_nul block off block' : is_bytes block -> wr block off [0] = Ok block' -> label_ok block'.
Proof.
  intros Hb E. apply bytes_hold_text; [eapply wr_is_bytes; [exact Hb| |exact E]; by repeat constructor|].
  revert E. unfold wr. case_if; [|done]. intros [= <-]. set_solver.
Qed.

Lemma parse_label_ok pdu body body_len pos :
  is_bytes pdu -> whenever (parse_metrics_label pdu body body_len pos label_zero) (fun r => label_ok (snd r)).
Proof.
  intros Hb. unfold parse_metrics_label. change (wr label_zero 0 [0]) with (Ok label_zero). rewrite run_bind_Ok.
  pose proof label_zero_ok as Hz. do 2 (apply whenever_if; [by apply whenever_Ok|]).
  apply whenever_next; intros tag. apply whenever_if; [by apply whenever_Ok|].
  do 2 (apply whenever_next; intros ?). apply whenever_if; [by apply whenever_Ok|].
  eapply whenever_bind; [intros src E; exact (rd_bytes_is_bytes _ _ _ _ Hb E)|]. intros src _ Hsrc.
  assert (is_bytes label_zero) as Hlz by (apply Forall_forall; intros c Hc; apply elem_of_replicate in Hc as [-> _]; done).
  eapply whenever_bind; [intros o E; exact (wr_is_bytes _ _ _ _ Hlz Hsrc E)|]. intros o _ Ho.
  eapply whenever_bind; [intros o2 E2; exact (wr_nul _ _ _ Ho E2)|]. intros o2 _ Ho2. by apply whenever_Ok.
Qed.

Record request_ok (q : r_test_parsed_request) : Prop := {
  rq_counts : is_u16 (pq_guard_count q) /\ is_u16 (pq_resource_count q) /\ is_u16 (pq_report_count q);
  rq_label : label_ok (pq_label q);
}.

Lemma parse_request_ok pdu n : is_bytes pdu -> whenever (parse_request_pdu pdu n) (fun r => request_ok (snd r)).
Proof.
  intros Hb. assert (H0 : is_u16 0) by done. pose proof label_zero_ok as Hz.
  unfold parse_request_pdu. cbv zeta. apply whenever_if; [by apply whenever_Ok|].
  apply whenever_next; intros dl. apply whenever_if; [by apply whenever_Ok|].
  apply whenever_next; intros ty. apply whenever_if; [by apply whenever_Ok|]. apply whenever_if.
  - eapply whenever_bind; [apply read_le16_width|intros gc _ Hgc].
    eapply whenever_bind; [apply read_le16_width|intros rc _ Hrc].
    apply whenever_if; [by apply whenever_Ok|].
    eapply whenever_bind; [by apply parse_label_ok|intros [rc' label] _ Hl]. by apply whenever_Ok.
  - apply whenever_if; [|by apply whenever_Ok].
    eapply whenever_bind; [apply read_le16_width|intros k _ Hk]. apply whenever_if; by apply whenever_Ok.
Qed.

(** ** Events *)
Definition printable_event (e : r_test_event) : Prop := exists label disposition, event_wf e label disposition.

(** The part of an event that does not depend on its disposition. *)
Record event_body_ok (e : r_test_event) : Prop := {
  eb_sequence : is_u64 (te_sequence e);
  eb_counts : is_u16 (te_guard_count e) /\ is_u16 (te_resource_count e) /\ is_u16 (te_report_count e);
  eb_tracker : tracker_wf (te_tracker e);
  eb_times : is_u32 (te_guard_threshold_ms e) /\ is_u32 (te_observed_latency_ms e);
  eb_label : label_ok (te_label e);
}.

Definition word_text (t : list Z) : bool := forallb (fun c => (32 <=? c) && (c <? 128) && negb (c =? 34)) t.

Lemma body_printable e t :
  event_body_ok e -> te_disposition e = t ++ [0] -> word_text t = true -> printable_event e.
Proof.
  intros [? ? ? ? [label Hl]] Hd Ht. exists label, t.
  assert (Forall (fun c => 32 <= c < 128 /\ c <> 34) t) as Hf.
  { apply Forall_forall. intros c Hc. apply list_elem_of_In in Hc. unfold word_text in Ht. rewrite forallb_forall in Ht.
    apply Ht in Hc. breflect. lia. }
  split; try done. split.
  - exists []. split; [done|]. apply (Forall_impl _ _ _ Hf). intros c ?. rlia.
  - apply (Forall_impl _ _ _ Hf). intros c ?. lia.
Qed.

Lemma set_disposition_printable e t :
  event_body_ok e -> word_text t = true -> printable_event (set_disposition (t ++ [0]) e).
Proof. intros [] Ht. by apply (body_printable _ t). Qed.

Lemma scenario_name_word scenario : exists t, r_test_scenario_name scenario = t ++ [0] /\ word_text t = true.
Proof.
  unfold r_test_scenario_name.
  repeat match goal with |- context [if ?b then _ else _] => destruct b; [by eexists; split; [unfold cstr|]|] end.
  by eexists; split; [unfold cstr|].
Qed.

Lemma rejected_printable n : is_u64 n -> printable_event (event_rejected n).
Proof. intros Hn. apply (body_printable _ (cbytes "rejected")); [|done..]. split; try done. apply label_zero_ok. Qed.

Lemma observe_report_printable st pdu q :
  is_u64 (rt_sequence st) -> request_ok q -> whenever (observe_report st pdu q) (fun e =>
    printable_event e /\ te_kind e = R_TEST_EVENT_LATENCY_REPORT).
Proof.
  intros Hs [(_ & _ & Hn) _]. pose proof label_zero_ok as Hz. unfold observe_report. cbv zeta. apply whenever_if.
  - apply whenever_next; intros reports. eapply whenever_bind; [apply observe_tracker_width|intros t _ Ht].
    eapply whenever_bind; [apply read_le32_width|intros v _ Hv]. apply whenever_next; intros m.
    apply whenever_Ok. split; [|done]. apply (body_printable _ (cbytes "observed")); [|done..]. by split.
  - apply whenever_Ok. split; [|done]. apply (body_printable _ (cbytes "observed")); [|done..]. by split.
Qed.

Lemma observe_request_ok st pdu q d :
  is_u64 (rt_sequence st) -> request_ok q ->
  whenever (observe_request st pdu q d) (fun r =>
    event_body_ok (snd r) /\ te_disposition (snd r) = d /\ te_kind (snd r) = R_TEST_EVENT_RATE_REQUEST).
Proof.
  intros Hs [(Hg & Hr & _) Hl]. assert (H0 : is_u16 0) by done. unfold observe_request. cbv zeta. apply whenever_if.
  - apply whenever_next; intros guards. eapply whenever_bind; [apply observe_tracker_width|intros t _ Ht].
    eapply whenever_bind; [apply read_le32_width|intros v _ Hv]. apply whenever_next; intros id.
    apply whenever_Ok. split; [by split|done].
  - apply whenever_Ok. split; [by split|done].
Qed.

Lemma malform_printable st o :
  event_body_ok (po_event o) -> printable_event (po_event o) ->
  whenever (malform st o) (fun r =>
    printable_event (po_event (snd r)) /\ te_kind (po_event (snd r)) = te_kind (po_event o)).
Proof.
  intros Hb Hp. unfold malform. cbv zeta. apply whenever_if; [|apply whenever_if; [|apply whenever_if]].
  - apply whenever_if; [by apply whenever_Ok|]. do 2 (apply whenever_next; intros ?).
    apply whenever_Ok. split; [by apply (set_disposition_printable _ (cbytes "malformed-auth"))|done].
  - apply whenever_if; [by apply whenever_Ok|].
    apply whenever_Ok. split; [by apply (set_disposition_printable _ (cbytes "malformed-truncated"))|done].
  - apply whenever_Ok. split; [by apply (set_disposition_printable _ (cbytes "malformed-request-id"))|done].
  - apply whenever_Ok. split; [|done]. cbn [snd po_event]. destruct (scenario_name_word (rt_scenario st)) as (t & -> & Ht).
    by apply set_disposition_printable.
Qed.

(** ** Statuses *)

(** A status of the library, as [%d] prints it. *)
Definition is_status (rc : Z) : Prop := RCLIENT_ERR_NOMEM <= rc <= RCLIENT_OK.

Lemma status_prints rc : is_status rc -> is_u64 (Z.abs rc).
Proof. unfold is_status. change RCLIENT_ERR_NOMEM with (-7). change RCLIENT_OK with 0. intros. rlia. Qed.

Lemma responder_header_status buf len pos o : whenever (r_parse_auth_tlv_header buf len pos o) (fun r => is_status (fst r)).
Proof.
  unfold r_parse_auth_tlv_header. destruct buf as [b|]; [|by apply whenever_Ok].
  apply whenever_if; [by apply whenever_Ok|]. do 2 (apply whenever_next; intros ?). by apply whenever_if; apply whenever_Ok.
Qed.

Lemma parse_label_status pdu body body_len pos out :
  whenever (parse_metrics_label pdu body body_len pos out) (fun r => is_status (fst r)).
Proof.
  unfold parse_metrics_label. apply whenever_next; intros o. do 2 (apply whenever_if; [by apply whenever_Ok|]).
  apply whenever_next; intros tag. apply whenever_if; [by apply whenever_Ok|].
  do 2 (apply whenever_next; intros ?). apply whenever_if; [by apply whenever_Ok|].
  do 3 (apply whenever_next; intros ?). by apply whenever_Ok.
Qed.

Lemma parse_request_status pdu n : whenever (parse_request_pdu pdu n) (fun r => is_status (fst r)).
Proof.
  unfold parse_request_pdu. cbv zeta. apply whenever_if; [by apply whenever_Ok|].
  apply whenever_next; intros dl. apply whenever_if; [by apply whenever_Ok|].
  apply whenever_next; intros ty. apply whenever_if; [by apply whenever_Ok|]. apply whenever_if.
  - do 2 (apply whenever_next; intros ?). apply whenever_if; [by apply whenever_Ok|].
    eapply whenever_bind; [apply parse_label_status|intros [rc' label] _ Hl]. by apply whenever_Ok.
  - apply whenever_if; [|by apply whenever_Ok]. apply whenever_next; intros k. by apply whenever_if; apply whenever_Ok.
Qed.

Section Process.
Context {ssl : OpenSSL} {laws : AesGcmLaws ssl}.

Lemma responder_extract_status env st input len :
  whenever (extract_authenticated_pdu env st input len) (fun r => is_status (fst (fst r))).
Proof.
  unfold extract_authenticated_pdu. apply whenever_next; intros [[rc h] pos]. do 2 (apply whenever_next; intros ?).
  apply whenever_if; [by apply whenever_Ok|].
  eapply whenever_bind; [apply responder_header_status|intros [rc2 o] _ Hrc]. apply whenever_if; [by apply whenever_Ok|].
  do 5 (apply whenever_next; intros ?). apply whenever_if; (apply whenever_if; [by apply whenever_Ok|]).
  - do 2 (apply whenever_next; intros ?). by apply whenever_if; apply whenever_Ok.
  - apply whenever_next; intros [[rc3 d] dl]. apply whenever_if; [by apply whenever_Ok|].
    do 2 (apply whenever_next; intros ?). by apply whenever_Ok.
Qed.

Lemma respond_printable env st h pdu q output cap :
  is_u64 (rt_sequence st) -> request_ok q ->
  whenever (respond env st h pdu q output cap) (fun r =>
    printable_event (po_event (snd r)) /\ te_kind (po_event (snd r)) = R_TEST_EVENT_RATE_REQUEST).
Proof.
  intros Hs Hq. unfold respond.
  eapply whenever_bind; [by apply observe_request_ok|]. intros [st1 ev] _ (Hb & Hd & Hk). simpl in Hb, Hd, Hk.
  assert (Hp : printable_event ev) by by apply (body_printable _ (cbytes "rejected")).
  apply whenever_if; [apply whenever_Ok; split; [by apply (set_disposition_printable _ (cbytes "dropped"))|done]|].
  apply whenever_next; intros [[[rc st2] out] len]. apply whenever_if; [by apply whenever_Ok|].
  apply whenever_next; intros [[rc2 out2] n2]. apply whenever_if; [by apply whenever_Ok|].
  intros r Er. apply malform_printable in Er as [? Ek]; [|done..]. split; [done|]. by rewrite Ek.
Qed.

(** Whatever arrives, the event that is left can be printed, with the status
    when it was rejected. *)
Lemma process_printable env st input len output cap :
  responder_wf st -> is_bytes input -> is_object input -> 0 <= len <= zlen input ->
  whenever (process_packet env st input len output cap) (fun r =>
    printable_event (po_event (snd r)) /\
    (te_kind (po_event (snd r)) = R_TEST_EVENT_INPUT_REJECTED -> is_status (fst r))).
Proof.
  intros Hwf Hb Hobj Hlen. unfold process_packet. cbv zeta.
  set (st1 := set_rt_sequence (rt_sequence st +64 1) st).
  assert (Hs : is_u64 (rt_sequence st1)) by apply u64_range.
  assert (Hbk : books st st1) by by split. pose proof (books_wf st st1 Hbk Hwf) as Hwf1.
  pose proof (rejected_printable _ Hs) as Hrej.
  eapply whenever_bind; [apply responder_extract_status|]. intros [[rc h] found] Ex Hrc.
  pose proof (extract_safe env st1 input len Hwf1 Hb Hobj Hlen) as Hx. rewrite Ex in Hx.
  apply whenever_if_eq; intros E; [by apply whenever_Ok|]. breflect.
  destruct (Hx E) as (_ & _ & _ & block & n & -> & _ & Hbb & _). cbn [deref of_option]. rewrite run_bind_Ok.
  eapply whenever_bind; [apply parse_request_status|]. intros [rc2 q] Eq Hrc2.
  apply parse_request_ok in Eq; [|done]. simpl in Eq.
  apply whenever_if; [by apply whenever_Ok|]. apply whenever_if.
  - eapply whenever_bind; [by apply observe_report_printable|]. intros e _ [He Hk]. apply whenever_Ok. split; [done|].
    cbn. by rewrite Hk.
  - intros r Er. apply respond_printable in Er as [Hp Hk]; [|done..]. split; [done|]. by rewrite Hk.
Qed.
End Process.
