(* ===== verification/ResponderArgs.v ===== *)
(** * The test responder's arguments: facts

    Options and listen address are what a reference reading of their texts
    says; accepted options are in range. *)

From Stdlib Require Import String Ascii.
From S2P Require Import Prelude.
From S2P Require Import Types.
From S2P Require Import Wire.
From S2P Require Import WireFacts.
From S2P Require Import Crypto.
From S2P Require Import KeyFacts.
From S2P Require Import Workflow.
From S2P Require Import State.
From S2P Require Import Dns.
From S2P Require Import DnsFacts.
From S2P Require Import Client.
From S2P Require Import Create.
From S2P Require Import Ids.
From S2P Require Import Runtime.
From S2P Require Import RuntimeFacts.
From S2P Require Import RuntimeConfig.
From S2P Require Import Responder.
From S2P Require Import ResponderSafety.
From S2P Require Import ResponderQuota.
From S2P Require Import Perf.
From S2P Require Import ResponderMain.
From S2P Require Import ResponderLines.
From S2P Require Import ResponderEvents.

(** ** The arguments, read as texts *)
Definition arg_text (t : list Z) : Prop := is_bytes t /\ 0 ∉ t.

(** A text cut at the first [sep]. *)
Fixpoint split_first (sep : Z) (l : list Z) : option (list Z * list Z) :=
  match l with
  | [] => None
  | x :: l' => if x =? sep then Some ([], l') else '(a, b) ← split_first sep l'; Some (x :: a, b)
  end.

(** The number a text stands for; a text that starts with a minus sign stands
    for none. *)
Definition numeral (t : list Z) : option Z :=
  match t with [] => None | c :: _ => if c =? chr "-" then None else strtoul_whole t end.

Lemma option_number_read t rest old :
  arg_text t ->
  parse_u64 (Some (t ++ 0 :: rest)) (Some old) =
  Ok (match numeral t with Some v => (0, Some v) | None => (-1, Some old) end).
Proof.
  intros [Hb Hz]. unfold parse_u64, numeral. destruct t as [|c t]; [done|].
  change (rd ((c :: t) ++ 0 :: rest) 0) with (Ok c : run Z). rewrite run_bind_Ok.
  rewrite (proj2 (Z.eqb_neq c 0)) by set_solver. cbn [orb]. destruct (c =? chr "-"); [done|].
  destruct (strtoul_spec (c :: t) rest Hb Hz) as (v & stop & errno & d & -> & Hd & Hv & Hs & Hw). rewrite run_bind_Ok.
  destruct (strtoul_whole (c :: t)) as [n|].
  { destruct Hw as (-> & _ & -> & ->). change (negb (0 =? 0)) with false. cbv iota. by rewrite Hd, run_bind_Ok. }
  destruct (Z.eqb_spec errno 0) as [|]; [|done]. change (negb true) with false. cbv iota. rewrite Hd, run_bind_Ok.
  destruct (Z.eqb_spec d 0) as [->|]; [|done]. destruct Hw as [?|[?|[-> _]]]; [done..|].
  change (rd ((c :: t) ++ 0 :: rest) 0) with (Ok c : run Z) in Hd. injection Hd as ->. set_solver.
Qed.

Lemma numeral_u64 t v : arg_text t -> numeral t = Some v -> is_u64 v.
Proof.
  intros [Hb Hz]. unfold numeral. destruct t as [|c t]; [done|]. case_if; [done|]. intros Hn.
  destruct (strtoul_spec (c :: t) [] Hb Hz) as (w & stop & errno & d & _ & _ & Hw & _ & Hx). rewrite Hn in Hx.
  by destruct Hx as [-> _].
Qed.

(** ** Options *)

(** [--name=value], for a name without an equals sign. *)
Definition valued (name t : list Z) : option (list Z) :=
  match split_first (chr "=") t with Some (n, v) => if bool_decide (n = name) then Some v else None | None => None end.

Lemma option_value_spec name t :
  0 ∉ name -> chr "=" ∉ name -> 0 ∉ t ->
  option_value (t ++ [0]) name = Ok (option_map (fun v => v ++ [0]) (valued name t)).
Proof.
  intros Hn He Ht. unfold option_value, valued.
  revert t Ht. induction name as [|x name IH]; intros t Ht.
  - cbn [after_prefix]. rewrite run_bind_Ok. destruct t as [|c t]; [done|].
    change (rd ((c :: t) ++ [0]) 0) with (Ok c : run Z). rewrite run_bind_Ok. cbn [split_first].
    destruct (c =? chr "="); [done|]. by destruct (split_first _ t) as [[? ?]|].
  - destruct t as [|c t].
    { cbn [after_prefix app split_first]. rewrite (proj2 (Z.eqb_neq x 0)) by set_solver. done. }
    cbn [after_prefix app split_first]. destruct (Z.eqb_spec c (chr "=")) as [->|Hc].
    { rewrite (proj2 (Z.eqb_neq x (chr "="))) by set_solver. done. }
    destruct (Z.eqb_spec x c) as [->|Hx].
    + rewrite IH by set_solver. destruct (split_first (chr "=") t) as [[n v]|]; [|done]. cbn [mbind option_bind].
      by rewrite (bool_decide_ext (c :: n = c :: name) (n = name)) by naive_solver.
    + rewrite run_bind_Ok. destruct (split_first (chr "=") t) as [[n v]|]; [|done]. cbn [mbind option_bind].
      by rewrite bool_decide_false by naive_solver.
Qed.

(** The scenario of a name. *)
Definition scenario_named (v : list Z) : option Z :=
  find (fun s => bool_decide (v ++ [0] = r_test_scenario_name s))
    (seqZ R_TEST_SCENARIO_ALLOW (R_TEST_SCENARIO_COUNT_EXTRA + 1 - R_TEST_SCENARIO_ALLOW)).

(** The options after [name=v]. *)
Definition option_of (name v : list Z) (o : responder_options) : option responder_options :=
  if bool_decide (name = cbytes "--listen") then Some (set_ro_listen (Some (v ++ [0])) o) else
  if bool_decide (name = cbytes "--scenario") then s ← scenario_named v; Some (set_ro_scenario s o) else
  if bool_decide (name = cbytes "--auth") then
    if bool_decide (v = cbytes "aes")
    then Some (set_ro_auth_name (cstr "aes") (set_ro_auth_key R_TEST_RESPONDER_AES_KEY o)) else
    if bool_decide (v = cbytes "cookie")
    then Some (set_ro_auth_name (cstr "cookie") (set_ro_auth_key R_TEST_RESPONDER_COOKIE_KEY o)) else None else
  if bool_decide (name = cbytes "--server-id")
  then n ← numeral v; if n =? 0 then None else Some (set_ro_server_id n o) else
  if bool_decide (name = cbytes "--allow-count") then n ← numeral v; Some (set_ro_allow_count n o) else
  if bool_decide (name = cbytes "--delay-ms") then n ← numeral v; Some (set_ro_delay_ms n o) else
  if bool_decide (name = cbytes "--max-packets") then n ← numeral v; Some (set_ro_max_packets n o) else
  if bool_decide (name = cbytes "--steering") then
    if bool_decide (v = cbytes "keep") then Some (set_ro_steering_keep_port true o) else
    if bool_decide (v = cbytes "rebind") then Some (set_ro_steering_keep_port false o) else None
  else None.

(** The options of a command line, from left to right. *)
Fixpoint options_of (texts : list (list Z)) (o : responder_options) : flow responder_options Z :=
  match texts with
  | [] => if is_null (ro_listen o) then Return (-1) else Next o
  | t :: texts =>
      if bool_decide (t = cbytes "--help") then Return 0 else
      if bool_decide (t = cbytes "--print-nginx-config") then options_of texts (set_ro_print_nginx_config true o) else
      match '(name, v) ← split_first (chr "=") t; option_of name v o with
      | Some o => options_of texts o
      | None => Return (-1)
      end
  end.

Definition c_args (texts : list (list Z)) : list (list Z) := map (fun t => t ++ [0]) texts.

Lemma str_eq_cstr t s : 0 ∉ t -> 0 ∉ cbytes s -> str_eq (t ++ [0]) (cstr s) = Ok (bool_decide (t = cbytes s)).
Proof. intros Ht Hs. by apply (str_eq_spec t (cbytes s) [] []). Qed.

Lemma for_flow_find (p : Z -> bool) (f : Z -> run bool) n i :
  (forall v, f v = Ok (p v)) ->
  for_flow n i (fun v (_ : unit) => b ← f v; Ok (if (b : bool) then Return v else Next tt)) tt =
  Ok (match find p (seqZ i (Z.of_nat n)) with Some v => Return v | None => Next tt end).
Proof.
  intros Hf. revert i; induction n as [|n IH]; intros i; [done|].
  rewrite seqZ_cons by lia. cbn [for_flow find]. rewrite Hf, run_bind_Ok. destruct (p i); [done|].
  cbn [mbind]. rewrite run_bind_Ok, IH. by replace (Z.pred (Z.of_nat (S n))) with (Z.of_nat n) by lia.
Qed.

Lemma scenario_name_text v : exists t, r_test_scenario_name v = t ++ [0] /\ 0 ∉ t.
Proof.
  destruct (scenario_name_word v) as (t & -> & Ht). exists t. split; [done|]. intros H0. apply list_elem_of_In in H0.
  unfold word_text in Ht. rewrite forallb_forall in Ht. by apply Ht in H0.
Qed.

Lemma scenario_option_spec v o :
  0 ∉ v -> scenario_option (v ++ [0]) o = Ok (s ← scenario_named v; Some (set_ro_scenario s o)).
Proof.
  intros Hv. unfold scenario_option, r_test_scenario_parse, scenario_named.
  rewrite (for_flow_find (fun s => bool_decide (v ++ [0] = r_test_scenario_name s))).
  - rewrite run_bind_Ok. change (Z.of_nat (Z.to_nat (R_TEST_SCENARIO_COUNT_EXTRA + 1 - R_TEST_SCENARIO_ALLOW)))
      with (R_TEST_SCENARIO_COUNT_EXTRA + 1 - R_TEST_SCENARIO_ALLOW).
    by destruct (find _ _).
  - intros s. destruct (scenario_name_text s) as (t & -> & Ht). rewrite (str_eq_spec v t [] []) by done. f_equal.
    apply bool_decide_ext. split; [by intros ->|]. intros E. by apply app_inj_tail in E as [-> _].
Qed.

(** Compares a text with a literal. *)
Ltac compare_with v s :=
  rewrite (str_eq_cstr v s); [rewrite run_bind_Ok|done|by apply (bool_decide_unpack _); vm_compute].

Lemma auth_option_spec v o :
  0 ∉ v ->
  auth_option (v ++ [0]) o =
  Ok (if bool_decide (v = cbytes "aes")
      then Some (set_ro_auth_name (cstr "aes") (set_ro_auth_key R_TEST_RESPONDER_AES_KEY o)) else
      if bool_decide (v = cbytes "cookie")
      then Some (set_ro_auth_name (cstr "cookie") (set_ro_auth_key R_TEST_RESPONDER_COOKIE_KEY o)) else None).
Proof.
  intros Hv. unfold auth_option. compare_with v "aes"%string. case_bool_decide; [done|].
  by compare_with v "cookie"%string.
Qed.

Lemma steering_option_spec v o :
  0 ∉ v ->
  steering_option (v ++ [0]) o =
  Ok (if bool_decide (v = cbytes "keep") then Some (set_ro_steering_keep_port true o) else
      if bool_decide (v = cbytes "rebind") then Some (set_ro_steering_keep_port false o) else None).
Proof.
  intros Hv. unfold steering_option. compare_with v "keep"%string. case_bool_decide; [done|].
  by compare_with v "rebind"%string.
Qed.

Lemma number_option_spec v old set positive o :
  arg_text v ->
  number_option (v ++ [0]) old set positive o =
  Ok (n ← numeral v; if positive && (n =? 0) then None else Some (set n o)).
Proof.
  intros Hv. unfold number_option. rewrite option_number_read, run_bind_Ok by done.
  destruct (numeral v) as [n|]; [|done]. cbn [deref of_option mbind option_bind]. rewrite run_bind_Ok. done.
Qed.

Lemma split_first_text sep t a b : split_first sep t = Some (a, b) -> arg_text t -> arg_text a /\ arg_text b.
Proof.
  revert a b; induction t as [|x t IH]; intros a b; cbn [split_first]; [done|]. intros E [Hb Hz].
  assert (arg_text t) as Ht by (split; [by inversion Hb|set_solver]).
  destruct (x =? sep); [injection E as <- <-; split; [split; [constructor|set_solver]|done]|].
  destruct (split_first sep t) as [[a' b']|]; [|done]. injection E as <- <-.
  destruct (IH a' b' eq_refl Ht) as [[H1 H2] H3]. split; [|done]. split; [constructor; [by inversion Hb|done]|set_solver].
Qed.

Lemma value_option_spec t o :
  arg_text t -> value_option (t ++ [0]) o = Ok ('(name, v) ← split_first (chr "=") t; option_of name v o).
Proof.
  intros Ht. unfold value_option.
  repeat rewrite option_value_spec;
    try (apply (bool_decide_unpack _); vm_compute; exact I); try apply Ht.
  unfold valued. destruct (split_first (chr "=") t) as [[name v]|] eqn:E; [|done].
  apply split_first_text in E as [_ Hv]; [|done].
  change ('(name, v) ← Some (name, v); option_of name v o) with (option_of name v o). unfold option_of.
  repeat (rewrite run_bind_Ok; case_bool_decide;
    [cbn [option_map];
     first [done | by apply scenario_option_spec, Hv | by apply auth_option_spec, Hv
           | by apply steering_option_spec, Hv | by apply number_option_spec]
    |cbn [option_map]]).
  done.
Qed.

(** The program reads its arguments as the reference does. *)
Lemma parse_options_spec texts :
  Forall arg_text texts -> parse_options (c_args texts) = Ok (options_of texts default_options).
Proof.
  unfold parse_options. generalize default_options.
  intros o Hall. revert o. induction Hall as [|t texts Ht _ IH]; intros o; [done|].
  cbn [c_args map parse_arguments options_of]. fold (c_args texts). destruct Ht as [Hb Hz].
  compare_with t "--help"%string. case_bool_decide; [done|].
  compare_with t "--print-nginx-config"%string. case_bool_decide; [done|].
  rewrite value_option_spec, run_bind_Ok by done. by destruct ('(name, v) ← _; _).
Qed.

(** What accepted options hold. *)
Record options_in_range (o : responder_options) : Prop := {
  ok_scenario : R_TEST_SCENARIO_ALLOW <= ro_scenario o <= R_TEST_SCENARIO_COUNT_EXTRA;
  ok_auth : ro_auth_name o = cstr "aes" /\ ro_auth_key o = R_TEST_RESPONDER_AES_KEY \/
            ro_auth_name o = cstr "cookie" /\ ro_auth_key o = R_TEST_RESPONDER_COOKIE_KEY;
  ok_server : is_u64 (ro_server_id o) /\ ro_server_id o <> 0;
  ok_numbers : is_u64 (ro_allow_count o) /\ is_u64 (ro_delay_ms o) /\ is_u64 (ro_max_packets o);
  ok_listen : forall l, ro_listen o = Some l -> exists t, l = t ++ [0] /\ arg_text t;
}.

Lemma default_options_ok : options_in_range default_options.
Proof. split; try done. by left. Qed.

Lemma scenario_named_range v s :
  scenario_named v = Some s -> R_TEST_SCENARIO_ALLOW <= s <= R_TEST_SCENARIO_COUNT_EXTRA.
Proof.
  unfold scenario_named. intros E. apply find_some in E as [Hs _]. apply list_elem_of_In, elem_of_seqZ in Hs. lia.
Qed.

Lemma option_of_ok name v o o' : arg_text v -> option_of name v o = Some o' -> options_in_range o -> options_in_range o'.
Proof.
  intros Hv E [Hsc Ha Hs (Hn1 & Hn2 & Hn3) Hl]. revert E. unfold option_of.
  repeat case_bool_decide;
    try (destruct (numeral v) as [n|] eqn:En; [apply (numeral_u64 v n Hv) in En|]);
    try (destruct (scenario_named v) as [s|] eqn:Es; [apply scenario_named_range in Es|]);
    cbn [mbind option_bind]; try case_match; intros [= <-];
    (split; cbn; breflect; first [done | by left | by right | by intros ? [= <-]; exists v]).
Qed.

Lemma options_of_ok texts o o' :
  Forall arg_text texts -> options_in_range o -> options_of texts o = Next o' -> options_in_range o' /\ is_Some (ro_listen o').
Proof.
  intros Hall. revert o. induction Hall as [|t texts Ht _ IH]; intros o Ho; cbn [options_of].
  { destruct (ro_listen o) as [l|] eqn:El; [|done]. cbn [is_null]. intros [= <-]. by rewrite El. }
  case_bool_decide; [done|]. case_bool_decide; [apply IH; by destruct Ho|].
  destruct (split_first (chr "=") t) as [[name v]|] eqn:E; [|done]. apply split_first_text in E as [_ Hv]; [|done].
  cbn [mbind option_bind]. destruct (option_of name v o) as [o1|] eqn:Eo; [|done]. apply IH. by eapply option_of_ok.
Qed.

Lemma options_of_refused texts o code : options_of texts o = Return code -> code = 0 \/ code = -1.
Proof.
  revert o. induction texts as [|t texts IH]; intros o; cbn [options_of].
  { case_if; [|done]. intros [= <-]. by right. }
  case_bool_decide; [intros [= <-]; by left|]. case_bool_decide; [apply IH|].
  case_match; [apply IH|]. intros [= <-]. by right.
Qed.

(** ** The listen address *)
Section Pton.
Context (inet_pton : Z -> list Z -> option (list Z)).

(** Host and port of [[host]:port] or of [host:port], cut at the last colon. *)
Definition host_and_port (t : list Z) : option (list Z * list Z) :=
  match t with
  | [] => None
  | c :: t' =>
      if c =? chr "[" then
        '(host, after) ← split_first (chr "]") t';
        match after with d :: port => if d =? chr ":" then Some (host, port) else None | [] => None end
      else split_last (chr ":") t
  end.

Definition listen_of (t : list Z) : option listen_address :=
  '(host, port) ← host_and_port t;
  if bool_decide (host = []) || (INET6_ADDRSTRLEN <=? zlen host) then None else
  p ← numeral port;
  if (p =? 0) || (65535 <? p) then None else
  match inet_pton AF_INET (host ++ [0]) with
  | Some bytes => Some (mk_listen AF_INET bytes (host ++ [0]) p)
  | None => bytes ← inet_pton AF_INET6 (host ++ [0]); Some (mk_listen AF_INET6 bytes (host ++ [0]) p)
  end.

Lemma strchr_spec sep t rest :
  0 ∉ t -> sep <> 0 ->
  strchr (t ++ 0 :: rest) sep = Ok (match split_first sep t with Some (a, _) => Some (zlen a) | None => None end).
Proof.
  intros Hn Hs. induction t as [|x t IH]; cbn [app strchr split_first].
  { by rewrite (proj2 (Z.eqb_neq 0 sep)). }
  destruct (x =? sep); [done|]. rewrite (proj2 (Z.eqb_neq x 0)) by set_solver.
  rewrite IH, run_bind_Ok by set_solver. destruct (split_first sep t) as [[a b]|]; [|done].
  cbn [mbind option_bind option_map length]. do 2 f_equal. lia.
Qed.

Lemma split_first_eq sep t a b : split_first sep t = Some (a, b) -> t = a ++ sep :: b.
Proof.
  revert a b; induction t as [|x t IH]; intros a b; cbn [split_first]; [done|].
  destruct (Z.eqb_spec x sep) as [->|]; [by intros [= <- <-]|].
  destruct (split_first sep t) as [[a' b']|]; [|done]. cbn. intros [= <- <-]. cbn. f_equal. by apply IH.
Qed.

Definition split_as (block : list Z) (rest : list Z) (r : option (Z * Z * Z)) (hp : option (list Z * list Z)) : Prop :=
  match r, hp with
  | Some (start, n, port), Some (h, p) =>
      n = zlen h /\ rd_bytes block start n = Ok h /\ drop (Z.to_nat port) block = p ++ 0 :: rest
  | None, None => True
  | _, _ => False
  end.

Lemma split_bracketed host after rest :
  0 ∉ host -> 0 ∉ after -> chr "]" ∉ host ->
  exists r, split_listen (chr "[" :: (host ++ chr "]" :: after) ++ 0 :: rest) = Ok r /\
    split_as (chr "[" :: (host ++ chr "]" :: after) ++ 0 :: rest) rest r
      (match after with d :: port => if d =? chr ":" then Some (host, port) else None | [] => None end).
Proof.
  intros Hh Ha Hb. set (block := chr "[" :: (host ++ chr "]" :: after) ++ 0 :: rest).
  assert (E : block = (chr "[" :: host ++ [chr "]"]) ++ (after ++ 0 :: rest)).
  { unfold block. cbn [app]. f_equal. by rewrite <- !app_assoc. }
  assert (El : zlen (chr "[" :: host ++ [chr "]"]) = 1 + zlen host + 1) by (cbn [length]; rewrite length_app; cbn; lia).
  unfold split_listen. change (rd block 0) with (Ok (chr "[") : run Z). rewrite run_bind_Ok, Z.eqb_refl.
  replace (strchr block (chr "]")) with (Ok (Some (1 + zlen host)) : run (option Z)).
  2:{ unfold block. cbn [strchr]. change (chr "[" =? chr "]") with false. change (chr "[" =? 0) with false. cbv iota.
      rewrite strchr_spec, run_bind_Ok by (done || (apply not_elem_of_app; split; [done|apply not_elem_of_cons; done])).
      assert (split_first (chr "]") (host ++ chr "]" :: after) = Some (host, after)) as ->;
        [|cbn [option_map]; do 2 f_equal; lia].
      clear -Hb. induction host as [|x host IH]; cbn [app split_first]; [by rewrite Z.eqb_refl|].
      rewrite (proj2 (Z.eqb_neq x (chr "]"))) by set_solver. by rewrite IH by set_solver. }
  rewrite run_bind_Ok. replace (1 + zlen host + 1) with (zlen (chr "[" :: host ++ [chr "]"]) + 0) by lia. rewrite E.
  destruct after as [|d port].
  - rewrite (rd_app _ [0] rest _ 0 0) by done. rewrite run_bind_Ok. by exists None.
  - rewrite (rd_app _ [d] (port ++ 0 :: rest) _ 0 d) by done. rewrite run_bind_Ok.
    destruct (Z.eqb_spec d (chr ":")) as [->|]; [|by exists None]. eexists. split; [done|]. split; [lia|]. split.
    + change ((chr "[" :: host ++ [chr "]"]) ++ (chr ":" :: port) ++ 0 :: rest) with
        ([chr "["] ++ ((host ++ [chr "]"]) ++ (chr ":" :: port) ++ 0 :: rest)).
      rewrite <- app_assoc. apply rd_bytes_app; [done|lia].
    + replace (Z.to_nat (1 + zlen host + 2)) with (length ((chr "[" :: host ++ [chr "]"]) ++ [chr ":"]))
        by (rewrite length_app; cbn [length] in El |- *; lia).
      change ((chr ":" :: port) ++ 0 :: rest) with ([chr ":"] ++ (port ++ 0 :: rest)). rewrite app_assoc. apply drop_app_length.
Qed.

Lemma split_first_no sep t a b : split_first sep t = Some (a, b) -> sep ∉ a.
Proof.
  revert a b; induction t as [|x t IH]; intros a b; cbn [split_first]; [done|].
  destruct (Z.eqb_spec x sep) as [->|]; [intros [= <- <-]; apply not_elem_of_nil|].
  destruct (split_first sep t) as [[a' b']|]; [|done]. cbn. intros [= <- <-]. apply not_elem_of_cons. split; [done|]. by eapply IH.
Qed.

Lemma split_listen_spec t rest :
  0 ∉ t -> exists r, split_listen (t ++ 0 :: rest) = Ok r /\ split_as (t ++ 0 :: rest) rest r (host_and_port t).
Proof.
  intros Hz. destruct t as [|c t]; [by exists None|]. cbn [host_and_port]. destruct (Z.eqb_spec c (chr "[")) as [->|Hc].
  - destruct (split_first (chr "]") t) as [[host after]|] eqn:E.
    + pose proof (split_first_no _ _ _ _ E) as Hn. apply split_first_eq in E as ->. apply split_bracketed; set_solver.
    + exists None. split; [|done]. unfold split_listen. change (rd ((chr "[" :: t) ++ 0 :: rest) 0) with (Ok (chr "[") : run Z).
      rewrite run_bind_Ok, Z.eqb_refl. rewrite strchr_spec by done. cbn [split_first].
      change (chr "[" =? chr "]") with false. cbv iota. by rewrite E, run_bind_Ok.
  - unfold split_listen. change (rd ((c :: t) ++ 0 :: rest) 0) with (Ok c : run Z). rewrite run_bind_Ok.
    rewrite (proj2 (Z.eqb_neq c (chr "["))) by done. rewrite strrchr_spec by done.
    destruct (split_last (chr ":") (c :: t)) as [[h p]|] eqn:E; [|by exists None].
    apply split_last_eq in E as ->. eexists. split; [done|]. split; [lia|]. rewrite <- app_assoc. split.
    + by apply (rd_bytes_app []).
    + change ((chr ":" :: p) ++ 0 :: rest) with ([chr ":"] ++ (p ++ 0 :: rest)). rewrite app_assoc.
      replace (Z.to_nat (0 + zlen h + 1)) with (length (h ++ [chr ":"])) by (rewrite length_app; cbn [length]; lia).
      apply drop_app_length.
Qed.

(** The listen address is what the reference reads. *)
Lemma parse_listen_address_spec t rest :
  arg_text t -> parse_listen_address inet_pton (Some (t ++ 0 :: rest)) true = Ok (listen_of t).
Proof.
  intros [Hb Hz]. unfold parse_listen_address, listen_of. change (negb true) with false. cbv iota.
  destruct (split_listen_spec t rest Hz) as (r & -> & Hr). rewrite run_bind_Ok. unfold split_as in Hr.
  destruct r as [[[start n] port]|], (host_and_port t) as [[h p]|] eqn:Ehp; try done. destruct Hr as (-> & Hh & Hp).
  cbn [mbind option_bind].
  assert ((zlen h =? 0) = bool_decide (h = [])) as -> by (destruct h; [done|rewrite bool_decide_false by done; apply Z.eqb_neq; cbn; lia]).
  destruct (bool_decide (h = []) || (INET6_ADDRSTRLEN <=? zlen h)); [done|]. rewrite Hh, run_bind_Ok, Hp.
  assert (arg_text p) as Hpt.
  { assert (exists pre, t ++ 0 :: rest = pre ++ p ++ 0 :: rest) as [pre E].
    { exists (take (Z.to_nat port) (t ++ 0 :: rest)). by rewrite <- Hp, take_drop. }
    rewrite app_assoc in E. apply app_inv_tail in E. subst t. apply Forall_app in Hb as [_ Hb]. split; [done|set_solver]. }
  rewrite option_number_read, run_bind_Ok by done. destruct (numeral p) as [v|] eqn:En; [|done].
  apply numeral_u64 in En; [|done]. cbn [deref of_option mbind option_bind]. rewrite run_bind_Ok.
  change (negb (0 =? 0)) with false. cbn [orb]. destruct ((v =? 0) || (65535 <? v)) eqn:Ev; [done|]. breflect.
  rewrite u16_small by rlia. destruct (inet_pton AF_INET _); [done|]. by destruct (inet_pton AF_INET6 _).
Qed.

(** An accepted address has a host and a port. *)
Lemma listen_of_host t a :
  arg_text t -> listen_of t = Some a ->
  1 <= la_port a <= 65535 /\ exists h, la_host a = h ++ [0] /\ h <> [] /\ 0 ∉ h.
Proof.
  intros Ht. unfold listen_of. destruct (host_and_port t) as [[h p]|] eqn:E; [|done]. cbn [mbind option_bind].
  assert (arg_text h /\ arg_text p) as [[_ Hh] Hp].
  { destruct t as [|c t]; [done|]. cbn [host_and_port] in E.
    assert (arg_text t) as Ht1 by (destruct Ht as [Hb Hz]; split; [by inversion Hb|set_solver]).
    destruct (c =? chr "[").
    - destruct (split_first (chr "]") t) as [[h' after]|] eqn:Es; [|done].
      apply split_first_text in Es as [Hh' [Hab Haz]]; [|done]. cbn in E.
      destruct after as [|d port]; [done|]. destruct (d =? chr ":"); [|done]. injection E as -> ->.
      split; [done|]. split; [by inversion Hab|set_solver].
    - apply split_last_eq in E. rewrite E in Ht. destruct Ht as [Hb Hz]. apply Forall_app in Hb as [Hb1 Hb2].
      apply Forall_cons in Hb2 as [_ Hb2]. split; (split; [done|set_solver]). }
  destruct (bool_decide (h = []) || (INET6_ADDRSTRLEN <=? zlen h)) eqn:Eb; [done|]. breflect.
  apply bool_decide_eq_false_1 in H.
  destruct (numeral p) as [v|] eqn:Ep; [|done]. cbn [mbind option_bind].
  destruct ((v =? 0) || (65535 <? v)) eqn:Ev; [done|]. intros Ea.
  assert (la_port a = v /\ la_host a = h ++ [0]) as [-> ->].
  { destruct (inet_pton AF_INET _); [by injection Ea as <-|]. destruct (inet_pton AF_INET6 _); [|done]. by injection Ea as <-. }
  apply numeral_u64 in Ep; [|done]. split; [rlia|]. by exists h.
Qed.
End Pton.
