(* ===== verification/ResponderProgram.v ===== *)
(** * The test responder's program: facts

    The receive loop stays up on whatever is received, prints one line per
    packet, in order, and counts the authenticated ones; the program ends with
    a status of its own, its socket closed and its key wiped. *)

From Stdlib Require Import String Ascii.
From S2P Require Import Prelude.
From S2P Require Import Types.
From S2P Require Import Wire.
From S2P Require Import WireFacts.
From S2P Require Import Crypto.
From S2P Require Import CryptoFacts.
From S2P Require Import KeyFacts.
From S2P Require Import Workflow.
From S2P Require Import State.
From S2P Require Import Hoare.
From S2P Require Import Request.
From S2P Require Import RequestFacts.
From S2P Require Import PacketFacts.
From S2P Require Import ExtractFacts.
From S2P Require Import DnsFacts.
From S2P Require Import Client.
From S2P Require Import Create.
From S2P Require Import Runtime.
From S2P Require Import Responder.
From S2P Require Import ResponderFacts.
From S2P Require Import ResponderQuota.
From S2P Require Import ResponderSafety.
From S2P Require Import ResponderStart.
From S2P Require Import ResponderAnswers.
From S2P Require Import ResponderRequest.
From S2P Require Import Perf.
From S2P Require Import ResponderMain.
From S2P Require Import ResponderLines.
From S2P Require Import ResponderEvents.
From S2P Require Import ResponderArgs.

(** ** The system *)

(** What the calls deliver: a generator's numbers have the length asked for; a
    datagram lies in the block it was received in, and is not empty. *)
Class ServerLaws (O : Type) `{SV : ServerOs O} : Prop := {
  sl_crypto : forall o env o', sv_crypto o = (env, o') -> env_ok env;
  sl_recv : forall fd cap o n buf peer o', sv_recvfrom fd cap o = ((n, buf, peer), o') -> 0 <= n ->
    0 < n <= cap /\ zlen buf = cap /\ is_bytes buf;
}.

(** The lines printed so far: only [sv_stdout] adds one. *)
Class Console (O : Type) `{SV : ServerOs O} (printed : O -> list (list Z)) : Prop := {
  cn_stdout : forall l o, printed (sv_stdout l o) = printed o ++ [l];
  cn_socket : forall f o r o', os_socket f o = (r, o') -> printed o' = printed o;
  cn_close : forall fd o, printed (os_close fd o) = printed o;
  cn_sendto : forall fd b p o r o', os_sendto fd b p o = (r, o') -> printed o' = printed o;
  cn_shutdown : forall o r o', sv_shutdown o = (r, o') -> printed o' = printed o;
  cn_sigaction : forall o r o', sv_sigaction o = (r, o') -> printed o' = printed o;
  cn_bind : forall fd a o r o', sv_bind fd a o = (r, o') -> printed o' = printed o;
  cn_poll : forall fd t o r o', sv_poll fd t o = (r, o') -> printed o' = printed o;
  cn_recv : forall fd c o r o', sv_recvfrom fd c o = (r, o') -> printed o' = printed o;
  cn_sleep : forall t o r o', sv_nanosleep t o = (r, o') -> printed o' = printed o;
  cn_crypto : forall o r o', sv_crypto o = (r, o') -> printed o' = printed o;
  cn_allocs : forall o r o', sv_allocs o = (r, o') -> printed o' = printed o;
}.

Section Program.
Context {O : Type} {OS : Os O} {SV : ServerOs O} {laws : ServerLaws O}.
Context {printed : O -> list (list Z)} {console : Console O printed}.
Context {ssl : OpenSSL} {ssl_laws : AesGcmLaws ssl}.

(** ** Calls that print nothing *)

(** Notes that the calls in the context printed nothing. *)
Ltac calm :=
  repeat match goal with
  | E : sv_shutdown _ = _ |- _ => apply (cn_shutdown (printed := printed)) in E
  | E : sv_nanosleep _ _ = _ |- _ => apply (cn_sleep (printed := printed)) in E
  | E : sv_poll _ _ _ = _ |- _ => apply (cn_poll (printed := printed)) in E
  | E : os_sendto _ _ _ _ = _ |- _ => apply (cn_sendto (printed := printed)) in E
  | E : sv_crypto _ = _ |- _ => apply (cn_crypto (printed := printed)) in E
  | E : os_socket _ _ = _ |- _ => apply (cn_socket (printed := printed)) in E
  | E : sv_bind _ _ _ = _ |- _ => apply (cn_bind (printed := printed)) in E
  end; try congruence.

Lemma sleep_quiet fuel t o : printed (sleep_loop fuel t o) = printed o.
Proof.
  revert t o; induction fuel as [|fuel IH]; intros t o; cbn [sleep_loop];
    destruct (sv_shutdown o) as [stop o1] eqn:E1; (destruct stop; [calm|]);
    destruct (sv_nanosleep t o1) as [[rc left] o2] eqn:E2; case_if; calm.
  case_if; [rewrite IH|]; congruence.
Qed.

Lemma wait_quiet fd o w o' : wait_for_readable fd o = (w, o') -> printed o' = printed o.
Proof.
  unfold wait_for_readable. destruct (sv_poll fd 250 o) as [[n ev] o1] eqn:E. repeat case_if; intros [= <- <-]; calm.
Qed.

Lemma receive_quiet fd cap o n buf peer o' :
  receive_packet fd cap o = (n, buf, peer, o') ->
  printed o' = printed o /\ (0 <= n -> 0 < n <= cap /\ zlen buf = cap /\ is_bytes buf).
Proof.
  unfold receive_packet. destruct (sv_recvfrom fd cap o) as [[[k b] p] o1] eqn:E.
  pose proof (cn_recv (printed := printed) _ _ _ _ _ E) as Hq. pose proof (sl_recv _ _ _ _ _ _ _ E) as Hr.
  destruct (Z.ltb_spec k 0); [destruct ((os_errno o1 =? EINTR) || _)|]; intros [= <- <- <- <-]; (split; [done|]); [lia..|done].
Qed.

Lemma send_quiet fd b p o r o' : send_packet fd b p o = (r, o') -> printed o' = printed o.
Proof.
  unfold send_packet. destruct (os_sendto fd b p o) as [n o1] eqn:E. repeat case_if; intros [= <- <-]; calm.
Qed.

(** The answer is within its block, so sending it reads initialised bytes. *)
Lemma answer_spec options fd rc out peer o :
  0 <= po_output_len out <= zlen (po_output out) ->
  exists ok o', answer_packet options fd rc out peer o = Ok (ok, o') /\ printed o' = printed o.
Proof.
  intros Hlen. unfold answer_packet. case_if; [by eexists _, _|].
  destruct (sv_shutdown o) as [stop o1] eqn:E1. destruct stop; [eexists _, _; split; [done|calm]|].
  cbv zeta. unfold delay_response.
  pose proof (sleep_quiet (sv_patience o1) (ro_delay_ms options / 1000, ro_delay_ms options mod 1000 * 1000000) o1) as Hq.
  set (o2 := sleep_loop _ _ o1) in *.
  destruct (sv_shutdown o2) as [stop o3] eqn:E3. destruct stop; [eexists _, _; split; [done|calm]|].
  rewrite rd_bytes_safe, run_bind_Ok by lia. destruct (send_packet _ _ _ o3) as [sent o4] eqn:E4.
  apply send_quiet in E4. eexists _, _. split; [done|calm].
Qed.

(** ** One packet *)

(** A line that tells an event. *)
Definition tells (line : list Z) (e : r_test_event) : Prop :=
  one_line line /\ exists status label disposition,
    holds_text (te_label e) label /\ holds_text (te_disposition e) disposition /\
    forall rest, reads read_line line (line_of e status label disposition) rest.

Definition authenticated (e : r_test_event) : bool :=
  match te_kind e with R_TEST_EVENT_INPUT_REJECTED => false | _ => true end.

Lemma packet_told env st input n :
  env_ok env -> responder_wf st -> is_bytes input -> 0 < n <= zlen input -> zlen input = INPUT_CAPACITY ->
  exists rc out line,
    r_test_responder_process env (Some st) (Some input) n (Some stack_buffer) (zlen stack_buffer) (Some 0)
      (Some false) (Some (event_rejected 0)) = Ok (rc, Some out) /\
    processed st input n stack_buffer (zlen stack_buffer) rc out /\
    print_event (po_event out) rc = Ok line /\ tells line (po_event out).
Proof.
  intros [_ Hr] Hwf Hb Hn Hl. change INPUT_CAPACITY with 2048 in Hl.
  assert (is_object input) as Hobj by (unfold is_object; lia).
  assert (is_object stack_buffer) as Hso by (unfold is_object; rewrite stack_buffer_len; clia).
  pose proof (process_safe env st input n stack_buffer (zlen stack_buffer) Hwf Hb Hobj ltac:(lia) ltac:(lia) Hso ltac:(lia)
    ltac:(intros r Er; by apply (Hr r Er))) as Hs.
  pose proof (process_printable env st input n stack_buffer (zlen stack_buffer) Hwf Hb Hobj ltac:(lia)) as Hp.
  apply ensures_inv in Hs as ([rc out] & E & Hs). destruct (Hp _ E) as [(label & d & Hev) Hst]. cbn [fst snd] in *.
  destruct (print_event_spec (po_event out) rc label d Hev ltac:(intros; apply status_prints; auto)) as (line & El & H1 & Hread).
  exists rc, out, line. unfold r_test_responder_process. rewrite (proj2 (Z.eqb_neq n 0)), E, run_bind_Ok by lia.
  split; [done|]. split; [done|]. split; [done|]. split; [done|]. exists rc, label, d. by destruct Hev as [_ _ _ _ ? [? _]].
Qed.

(** From one state of the loop to a later one, with the events in between. *)
Record served (s : @serving O) (events : list r_test_event) (s' : @serving O) : Prop := {
  sd_wf : responder_wf (sg_state s');
  sd_peer : same_peer (sg_state s) (sg_state s');
  sd_sequence : rt_sequence (sg_state s') = u64 (rt_sequence (sg_state s) + zlen events);
  sd_numbers : forall i e, events !! i = Some e -> te_sequence e = u64 (rt_sequence (sg_state s) + Z.of_nat i + 1);
  sd_printed : exists lines, printed (sg_os s') = printed (sg_os s) ++ lines /\ Forall2 tells lines events;
  sd_packets : sg_packets s' = u64 (sg_packets s + zlen (List.filter authenticated events));
}.

Record serving_ok (s : @serving O) : Prop := {
  so_wf : responder_wf (sg_state s);
  so_sequence : is_u64 (rt_sequence (sg_state s));
  so_packets : is_u64 (sg_packets s);
}.

Lemma served_ok s events s' : served s events s' -> serving_ok s'.
Proof. intros [? ? Hs _ _ Hp]. split; [done|rewrite Hs; apply u64_range|rewrite Hp; apply u64_range]. Qed.

Lemma served_quiet s o : serving_ok s -> printed o = printed (sg_os s) -> served s [] (mk_serving (sg_state s) (sg_packets s) o).
Proof.
  intros [? ? ?] Ho. split; cbn; [done|apply same_peer_refl|by rewrite Z.add_0_r, u64_small|done| |by rewrite Z.add_0_r, u64_small].
  exists []. by rewrite app_nil_r.
Qed.

Lemma u64_add_l a b : u64 (u64 a + b) = u64 (a + b).
Proof. unfold u64. by rewrite Zplus_mod_idemp_l. Qed.

Lemma served_trans s1 e1 s2 e2 s3 : served s1 e1 s2 -> served s2 e2 s3 -> served s1 (e1 ++ e2) s3.
Proof.
  intros [W1 P1 S1 N1 (l1 & L1 & T1) C1] [W2 P2 S2 N2 (l2 & L2 & T2) C2]. split.
  - done.
  - by eapply same_peer_trans.
  - rewrite S2, S1, u64_add_l, length_app. f_equal. lia.
  - intros i e Hi. apply lookup_app_Some in Hi as [Hi|[Hl Hi]]; [by apply N1|].
    rewrite (N2 _ _ Hi), S1. rewrite <- Z.add_assoc, u64_add_l. f_equal. lia.
  - exists (l1 ++ l2). rewrite L2, L1, app_assoc. split; [done|by apply Forall2_app].
  - rewrite C2, C1, u64_add_l, List.filter_app, length_app. f_equal. lia.
Qed.

Definition count (events : list r_test_event) : Z := zlen (List.filter authenticated events).

(** What a packet leads to: the loop goes on while the limit is not reached. *)
Definition counted (options : responder_options) (s : @serving O) (events : list r_test_event) (s' : @serving O)
    (more : bool) : Prop :=
  0 < ro_max_packets options ->
  sg_packets s' = sg_packets s + count events /\ sg_packets s' <= ro_max_packets options - (if more then 1 else 0).

Definition turn_post (options : responder_options) (s : @serving O) (f : flow (@serving O) (Z * @serving O)) : Prop :=
  match f with
  | Next s' => exists events, served s events s' /\ counted options s events s' true
  | Return (code, s') => exists events, served s events s' /\ counted options s events s' false /\ (code = 0 \/ code = 1)
  end.

Definition under_limit (options : responder_options) (s : @serving O) : Prop :=
  is_u64 (ro_max_packets options) /\ (0 < ro_max_packets options -> sg_packets s < ro_max_packets options).

Lemma count_app e1 e2 : count (e1 ++ e2) = count e1 + count e2.
Proof. unfold count. rewrite List.filter_app, length_app. lia. Qed.

Lemma counted_trans options s1 e1 s2 e2 s3 more :
  counted options s1 e1 s2 true -> counted options s2 e2 s3 more -> counted options s1 (e1 ++ e2) s3 more.
Proof. intros H1 H2 Hm. specialize (H1 Hm). specialize (H2 Hm). rewrite count_app. lia. Qed.

Lemma counted_quiet options s o more :
  under_limit options s -> counted options s [] (mk_serving (sg_state s) (sg_packets s) o) more.
Proof. intros [_ Hl] Hm. specialize (Hl Hm). unfold count. cbn. destruct more; lia. Qed.

Lemma handle_packet_spec options fd n input peer s :
  serving_ok s -> under_limit options s -> is_bytes input -> 0 < n <= zlen input -> zlen input = INPUT_CAPACITY ->
  ensures (handle_packet options fd n input peer s) (turn_post options s).
Proof.
  intros [Hwf Hsq Hpk] [Hmax Hlim] Hb Hn Hl. unfold handle_packet. destruct (sv_crypto (sg_os s)) as [env o1] eqn:Ec.
  pose proof (sl_crypto _ _ _ Ec) as Henv.
  destruct (packet_told env (sg_state s) input n Henv Hwf Hb Hn Hl) as (rc & out & line & -> & Hp & El & Ht).
  rewrite run_bind_Ok. cbn [deref of_option]. rewrite run_bind_Ok, El, run_bind_Ok. cbv zeta.
  destruct Hp as [W Hsp [Hs1 Hs2] [Ho1 Ho2] _ _ _].
  destruct (answer_spec options fd rc out peer (sv_stdout line o1)) as (ok & o' & -> & Hq); [by rewrite Ho1|].
  rewrite run_bind_Ok. set (packets := match te_kind (po_event out) with R_TEST_EVENT_INPUT_REJECTED => _ | _ => _ end).
  assert (served s [po_event out] (mk_serving (po_state out) packets o')) as Hserved.
  { split; cbn [sg_state sg_packets sg_os length]; try done.
    - intros [|i] e Hi; [|done]. injection Hi as <-. rewrite Hs2, Hs1. f_equal. lia.
    - exists [line]. split; [|constructor; [done|constructor]]. rewrite Hq, cn_stdout. f_equal. calm.
    - unfold packets. cbn [List.filter]. unfold authenticated.
      destruct (te_kind (po_event out)); cbn [length]; [by rewrite Z.add_0_r, u64_small|done..]. }
  assert (counted options s [po_event out] (mk_serving (po_state out) packets o') false) as Hc.
  { intros H. specialize (Hlim H). unfold packets, count. cbn [sg_packets List.filter]. unfold authenticated.
    destruct (te_kind _); unwrap; cbn; lia. }
  destruct ok; cbn [negb]; [|by exists [po_event out]; split; [|split; [|right]]].
  destruct (Z.ltb_spec 0 (ro_max_packets options)); cbn [andb]; [|exists [po_event out]; split; [done|intros ?; lia]].
  destruct (Z.leb_spec (ro_max_packets options) packets); exists [po_event out]; (split; [done|]).
  - split; [done|by left].
  - intros Hm. specialize (Hc Hm). cbn [sg_packets] in *. lia.
Qed.

Lemma serve_turn_spec options fd s :
  serving_ok s -> under_limit options s -> ensures (serve_turn options fd s) (turn_post options s).
Proof.
  intros Hok Hlim. unfold serve_turn. cbv zeta.
  assert (Hstop : forall code o, code = 0 \/ code = 1 -> printed o = printed (sg_os s) ->
    ensures (Ok (Return (code, mk_serving (sg_state s) (sg_packets s) o))) (turn_post options s)).
  { intros code o Hc Ho. exists []. split; [by apply served_quiet|]. split; [by apply counted_quiet|done]. }
  assert (Hgo : forall o, printed o = printed (sg_os s) ->
    ensures (Ok (Next (mk_serving (sg_state s) (sg_packets s) o))) (turn_post options s)).
  { intros o Ho. exists []. split; [by apply served_quiet|by apply counted_quiet]. }
  destruct (sv_shutdown (sg_os s)) as [stop o1] eqn:E1. apply (cn_shutdown (printed := printed)) in E1.
  destruct stop; [apply Hstop; [by left|done]|].
  destruct (wait_for_readable fd o1) as [w o2] eqn:E2. apply wait_quiet in E2.
  case_if; [apply Hstop; [by right|congruence]|]. case_if; [apply Hgo; congruence|].
  destruct (sv_shutdown o2) as [stop o3] eqn:E3. apply (cn_shutdown (printed := printed)) in E3.
  destruct stop; [apply Hgo; congruence|].
  destruct (receive_packet fd INPUT_CAPACITY o3) as [[[n buf] peer] o4] eqn:E4. apply receive_quiet in E4 as [E4 Hr].
  assert (Hall : printed o4 = printed (sg_os s)) by congruence.
  case_if; [by apply Hgo|]. destruct (Z.ltb_spec n 0); [apply Hstop; [by right|done]|].
  destruct (Hr ltac:(lia)) as (Hn & Hl & Hb). pose proof (served_quiet s o4 Hok Hall) as Hq.
  pose proof (counted_quiet options s o4 true Hlim) as Hcq.
  eapply ensures_mono; [apply handle_packet_spec; [by eapply served_ok|done|done|lia|done]|].
  intros f. unfold turn_post. destruct f as [s'|[code s']]; intros (ev & Hs & Hf); exists ev;
    (split; [exact (served_trans _ _ _ _ _ Hq Hs)|]).
  - exact (counted_trans _ _ _ _ _ _ _ Hcq Hf).
  - destruct Hf as [Hf ?]. split; [exact (counted_trans _ _ _ _ _ _ _ Hcq Hf)|done].
Qed.

Lemma serve_loop_spec turns options fd s :
  serving_ok s -> under_limit options s ->
  ensures (serve_loop turns options fd s) (fun r =>
    match r with None => True | Some (code, s') => turn_post options s (Return (code, s')) end).
Proof.
  revert s; induction turns as [|turns IH]; intros s Hok Hlim; cbn [serve_loop]; [done|].
  apply ensures_bind. eapply ensures_mono; [by apply serve_turn_spec|]. intros f Hf.
  destruct f as [s1|[code s1]]; [|done]. destruct Hf as (e1 & Hs1 & Hc1).
  eapply ensures_mono; [apply IH; [by eapply served_ok|]|].
  { destruct Hlim as [Hm _]. split; [done|]. intros H. specialize (Hc1 H). cbv iota in Hc1. lia. }
  intros [[code s2]|]; [|done]. intros (e2 & Hs2 & Hc2 & Hcode). exists (e1 ++ e2). split; [by eapply served_trans|].
  split; [by eapply counted_trans|done].
Qed.

(** ** From start to end *)
Context (inet_pton : Z -> list Z -> option (list Z)).

Lemma ready_line_defined options t a :
  options_in_range options -> arg_text t -> listen_of inet_pton t = Some a -> exists line, ready_line options a = Ok line.
Proof.
  intros Ho Ht Ha. destruct (listen_of_host inet_pton t a Ht Ha) as (_ & h & Eh & _ & Hh). unfold ready_line.
  rewrite Eh, cstring_chars_spec, run_bind_Ok by done.
  destruct Ho as [_ [[-> _]|[-> _]] _ _ _].
  - change (cstring_chars (cstr "aes")) with (Ok (cbytes "aes")). rewrite run_bind_Ok. by eexists.
  - change (cstring_chars (cstr "cookie")) with (Ok (cbytes "cookie")). rewrite run_bind_Ok. by eexists.
Qed.

(** How a run that got past its arguments ends: its key is wiped; either it did
    not start, or its socket is closed and it printed that it was ready and
    then the events, in order and numbered from 1. *)
Definition ended (options : responder_options) (address : listen_address) (o : O) (r : Z * option r_test_responder_state * O)
  : Prop :=
  let '(code, state, o') := r in
  state = Some cleansed /\
  (0 < code <= 2 /\ printed o' = printed o \/
   (code = 0 \/ code = 1) /\
   exists ready lines events fd o1 o2 o3,
     ready_line options address = Ok ready /\ os_socket (la_family address) o1 = (fd, o2) /\ o' = os_close fd o3 /\
     printed o' = printed o ++ ready :: lines /\ Forall2 tells lines events /\
     (forall i e, events !! i = Some e -> te_sequence e = u64 (Z.of_nat i + 1)) /\
     (0 < ro_max_packets options -> count events <= ro_max_packets options)).

Lemma run_server_spec turns options t address st o :
  options_in_range options -> arg_text t -> listen_of inet_pton t = Some address ->
  responder_wf st -> rt_sequence st = 0 ->
  ensures (run_server turns options address st o) (fun r =>
    match r with None => True | Some r => ended options address o r end).
Proof.
  intros Ho Ht Ha Hwf Hseq. unfold run_server. destruct (os_socket (la_family address) o) as [fd o1] eqn:E1.
  pose proof (cn_socket (printed := printed) _ _ _ _ E1) as Q1.
  case_if; [split; [done|left; split; [lia|done]]|].
  destruct (sv_bind fd address o1) as [rc o2] eqn:E2. pose proof (cn_bind (printed := printed) _ _ _ _ _ E2) as Q2.
  case_if; [split; [done|left; split; [lia|rewrite cn_close; congruence]]|].
  destruct (ready_line_defined options t address Ho Ht Ha) as [ready Er]. rewrite Er, run_bind_Ok.
  apply ensures_bind. eapply ensures_mono.
  { apply serve_loop_spec; [split; [done|cbn; by rewrite Hseq|done]|]. by destruct Ho as [_ _ _ (_ & _ & ?) _]. }
  intros [[code s]|]; [|done]. intros (events & [_ _ _ Hn (lines & Hl & Htell) _] & Hc & Hcode). cbn [sg_state sg_packets sg_os] in *.
  split; [done|]. right. split; [done|]. exists ready, lines, events, fd, o, o1, (sg_os s).
  split; [done|]. split; [done|]. split; [done|]. split.
  { rewrite cn_close, Hl, cn_stdout, <- app_assoc. cbn [app]. f_equal. congruence. }
  split; [done|]. split.
  - intros i e Hi. rewrite (Hn i e Hi), Hseq. done.
  - intros Hm. specialize (Hc Hm). cbn in Hc. lia.
Qed.

(** The whole program, by the reading of its arguments. *)
Definition main_post (texts : list (list Z)) (o : O) (r : option (Z * option r_test_responder_state * O)) : Prop :=
  match options_of texts default_options with
  | Return code => r = Some (if code =? 0 then 0 else 2, None, o)
  | Next options =>
      match option_map (@removelast Z) (ro_listen options) ≫= (fun t => listen_of inet_pton t) with
      | None => r = Some (2, None, o)
      | Some address =>
          if ro_print_nginx_config options then exists o', r = Some (0, None, o')
          else match r with None => True | Some r => ended options address o r end
      end
  end.

(** Both keys are texts that the library's decoder accepts. *)
Lemma key_text options :
  options_in_range options -> exists text k, ro_auth_key options = text ++ [0] /\ (0 ∉ text) /\ zlen text <= 2 ^ 59 /\
    key_decode text = Some k.
Proof.
  intros [_ Ha _ _ _]. destruct Ha as [[_ ->]|[_ ->]].
  - exists (removelast R_TEST_RESPONDER_AES_KEY). eexists. split; [vm_compute; reflexivity|].
    split; [apply (bool_decide_unpack _); vm_compute; exact I|]. split; [vm_compute; discriminate|vm_compute; reflexivity].
  - exists (removelast R_TEST_RESPONDER_COOKIE_KEY). eexists. split; [vm_compute; reflexivity|].
    split; [apply (bool_decide_unpack _); vm_compute; exact I|]. split; [vm_compute; discriminate|vm_compute; reflexivity].
Qed.

Lemma print_config_defined options t port o :
  options_in_range options -> 0 ∉ t -> exists o', print_nginx_config options (t ++ [0]) port o = Ok o'.
Proof.
  intros Ho Ht. unfold print_nginx_config. destruct (key_text options Ho) as (text & k & -> & Hz & _).
  rewrite !cstring_chars_spec, !run_bind_Ok by done. by eexists.
Qed.

Lemma main_spec turns texts o :
  Forall arg_text texts -> ensures (main inet_pton turns (c_args texts) o) (main_post texts o).
Proof.
  intros Hall. unfold main, main_post. rewrite parse_options_spec, run_bind_Ok by done.
  destruct (options_of texts default_options) as [options|code] eqn:Eo; [|done].
  destruct (options_of_ok _ _ _ Hall default_options_ok Eo) as [Hok [l El]].
  destruct (ok_listen _ Hok l El) as (t & -> & Ht). rewrite El. cbn [deref of_option option_map mbind option_bind].
  rewrite run_bind_Ok, removelast_last, parse_listen_address_spec, run_bind_Ok by done.
  destruct (listen_of inet_pton t) as [address|] eqn:Ea; [|done]. destruct (ro_print_nginx_config options).
  { destruct (print_config_defined options t (la_port address) o Hok (proj2 Ht)) as [o' ->]. rewrite run_bind_Ok. by exists o'. }
  destruct (sv_allocs o) as [mem o1] eqn:E1. pose proof (cn_allocs (printed := printed) _ _ _ E1) as Q1.
  destruct (key_text options Hok) as (text & k & -> & Hz & Hl & Hk). rewrite init_spec, run_bind_Ok by done.
  destruct Hok as [Hsc Ha [Hs Hsn] Hn Hli] eqn:Hokd. clear Hokd.
  rewrite (proj2 (Z.eqb_neq _ _) Hsn), (proj2 (Z.ltb_ge _ _) (proj1 Hsc)), (proj2 (Z.ltb_ge _ _) (proj2 Hsc)). cbn [orb].
  assert (Hfail : forall code o', 0 < code <= 2 -> printed o' = printed o -> ended options address o (code, Some cleansed, o')).
  { intros code o' Hc Hq. split; [done|]. by left. }
  destruct (mem 0%nat && mem 1%nat && mem 2%nat && mem 3%nat); [rewrite Hk|];
    cbn [deref of_option]; rewrite run_bind_Ok; [|apply (Hfail 2); [lia|done]].
  change (negb (RCLIENT_OK =? RCLIENT_OK)) with false. cbv iota.
  destruct (sv_sigaction o1) as [ok o2] eqn:E2. pose proof (cn_sigaction (printed := printed) _ _ _ E2) as Q2.
  destruct ok; [|apply (Hfail 1); [lia|congruence]]. cbn [negb].
  eapply ensures_mono; [apply (run_server_spec turns options t address); try done; by eapply started_wf|].
  intros [[[code state] o']|]; [|done]. unfold ended. by rewrite Q2, Q1.
Qed.
End Program.
