(* ===== verification/Demo.v ===== *)
(** * A concrete host

    An instance of every interface the client is parametrised by: an OpenSSL
    that leaves the plaintext as it is and tags it with zeros, and a host with
    a fixed clock, an allocator that never fails, one server, a resolver that
    answers at once or later, and a completion callback that returns.  With the library's own test keys it brings a client
    to life, so that the contracts of the interfaces are seen to be satisfiable
    and the theorems to apply. *)

From Stdlib Require Import String Ascii.
From S2P Require Import Prelude.
From S2P Require Import Types.
From S2P Require Import Wire.
From S2P Require Import Crypto.
From S2P Require Import Workflow.
From S2P Require Import State.
From S2P Require Import Hoare.
From S2P Require Import Schedule.
From S2P Require Import Dns.
From S2P Require Import DnsFacts.
From S2P Require Import Request.
From S2P Require Import RequestFacts.
From S2P Require Import PacketFacts.
From S2P Require Import WireFacts.
From S2P Require Import ExtractFacts.
From S2P Require Import KeyFacts.
From S2P Require Import Ids.
From S2P Require Import Client.
From S2P Require Import Lifecycle.
From S2P Require Import Completion.
From S2P Require Import Datagram.
From S2P Require Import Admission.
From S2P Require Import Api.
From S2P Require Import Teardown.
From S2P Require Import Create.

(** ** OpenSSL *)
Definition zero_tag : list Z := replicate 16 0.

#[export] Instance demo_ssl : OpenSSL := {|
  EVP_blake2s256 := fun l => Some (take 32 (map u8 (concat l) ++ replicate 32 0));
  EVP_aes_256_gcm_seal := fun _ _ _ p => Some (p, zero_tag);
  EVP_aes_256_gcm_open := fun _ _ _ c t => if bool_decide (t = zero_tag) then Some c else None;
|}.

Lemma zeros_bytes n : is_bytes (replicate n 0).
Proof. apply Forall_replicate. rlia. Qed.

#[export] Instance demo_gcm : AesGcmLaws demo_ssl.
Proof.
  split; cbn [EVP_aes_256_gcm_seal EVP_aes_256_gcm_open demo_ssl].
  - done.
  - intros ? ? ? p c t [= <- <-]. split; [done|]. split; [done|]. split; [done|apply zeros_bytes].
  - intros ? ? ? c t p. case_bool_decide; [|done]. by intros [= <-].
  - intros ? ? ? p c t [= <- <-]. by rewrite bool_decide_true.
Qed.

#[export] Instance demo_digest : DigestLaws demo_ssl.
Proof.
  split; cbn [EVP_blake2s256 demo_ssl].
  - by intros l l' ->.
  - intros l d E. apply (f_equal (default [])) in E. cbn [default from_option id] in E. subst d.
    split; [rewrite length_take, length_app, length_replicate; lia|].
    apply Forall_take, Forall_app. split; [|apply zeros_bytes].
    apply Forall_map. induction (concat l); constructor; [apply u8_range|done].
Qed.

(** ** The host *)
Definition demo_addr : r_addr := mk_addr ([2; 0; 0; 0; 127; 0; 0; 1] ++ replicate 120 0) 16.

Definition demo_srv : r_srv_record := mk_srv (Some (cstr "s-7.example.net")) 9000 0 0 60000.

(** The host's state: its clock, and whether its resolver calls back before it
    returns. *)
Record demo_world := mk_world { dw_clock : Z; dw_sync : bool }.

#[export] Instance demo_host : Host demo_world := {|
  h_now_ms := fun w => (u64 (dw_clock w), w);
  h_udp_send := fun _ _ w => (0, w);
  h_rand_bytes := fun n w => (if 0 <=? n then Some (replicate (Z.to_nat n) 9) else None, w);
  h_alloc := fun w => (true, w);
  h_resolve_srv := fun _ w =>
    (mk_srv_answer 0 1 (if dw_sync w then Some (0, Some [demo_srv]) else None), w);
  h_resolve_addrs := fun _ w =>
    (mk_addr_answer 0 2 (if dw_sync w then Some (0, Some [demo_addr]) else None), w);
  h_cancel := fun _ w => (dw_sync w, w);
  h_profile := fun _ w => w;
  h_steering := fun _ w => w;
  h_complete := fun _ _ _ _ _ s => Ok s;
  h_admission := fun _ _ _ _ s => Ok s;
|}.

Lemma demo_addr_wf : wf_addr demo_addr.
Proof.
  unfold demo_addr. split; [done|]. split; [|done]. apply Forall_app. split; [|apply zeros_bytes].
  repeat constructor; lia.
Qed.

Lemma demo_srv_wf : wf_srv demo_srv.
Proof.
  split; [|by repeat split]. cbn [demo_srv sv_target from_option]. split.
  - unfold cstr, cbytes. simpl. repeat constructor; lia.
  - unfold cstr. set_solver.
Qed.

#[export] Instance demo_laws : HostLaws demo_world.
Proof.
  split; cbn [h_now_ms h_rand_bytes h_resolve_addrs h_resolve_srv demo_host].
  - intros w t w' [= <- _]. apply u64_range.
  - intros n w bs w'. destruct (Z.leb_spec 0 n); [|done]. intros [= <- _].
    rewrite length_replicate. split; [lia|]. apply Forall_replicate. rlia.
  - intros ? w a ? st l E Hs. injection E as <- _. cbn [aa_sync] in Hs.
    destruct (dw_sync w); [|done]. injection Hs as <- <-. change (Forall wf_addr [demo_addr]).
    constructor; [apply demo_addr_wf|constructor].
  - intros ? w a ? st l E Hs. injection E as <- _. cbn [sa_sync] in Hs.
    destruct (dw_sync w); [|done]. injection Hs as <- <-. change (Forall wf_srv [demo_srv]).
    constructor; [apply demo_srv_wf|constructor].
Qed.

#[export] Instance demo_reentrant : Reentrant demo_world.
Proof.
  split.
  - intros cb user req status res s X HI _ _. exists s. split; [done|]. split; [done|reflexivity].
  - intros cb user status outcome s X HI _. exists s. split; [done|]. split; [done|reflexivity].
Qed.

(** ** A client *)
Definition demo_key : list Z :=
  cstr "rl-aes1qypqqqqqqqqqqqqzqgpqyqszqgpqyqszqgpqyqszqgpqyqszqgpqyqszqgpqyqszqghjmu4scddmk3".

(** The same key as its characters. *)
Definition demo_text : list Z :=
  cbytes "rl-aes1qypqqqqqqqqqqqqzqgpqyqszqgpqyqszqgpqyqszqgpqyqszqgpqyqszqgpqyqszqghjmu4scddmk3".

Definition demo_config : r_client_config :=
  mk_config 0 0 (Some demo_key) 0 None None false (mk_dns_policy 30000 1000 500).
Definition demo_ops : r_ops := mk_ops true true true true.

(** The application owns one admission storage, at address 600. *)
Definition demo_storage : Z := 600.
Definition demo_adms : gmap Z r_admission_request := {[ demo_storage := admission_zero ]}.

Lemma zero_guard_wf : wf_latency_guard (ad_guard admission_zero).
Proof. split; [split; [done|apply zeros_bytes]|by repeat split]. Qed.

Definition demo_blank : sys demo_world :=
  mk_sys (client_blank demo_config demo_ops) ∅ ∅ ∅ demo_adms 0 (mk_world 1000 true) [].

Lemma blank_with (w : demo_world) :
  blank (mk_sys (client_blank demo_config demo_ops) ∅ ∅ ∅ demo_adms 0 w []).
Proof.
  split; try done. intros u a Hu. cbn [s_adms] in Hu.
  unfold demo_adms in Hu. apply lookup_singleton_Some in Hu as [_ <-]. split; [done|apply zero_guard_wf].
Qed.

Lemma demo_is_blank : blank demo_blank.
Proof. apply blank_with. Qed.

Lemma demo_config_ok : config_ok demo_config.
Proof.
  split; cbn [demo_config cc_auth_secret cc_auth_secret_len cc_dns_name cc_request_policy cc_dns_refresh
              from_option].
  - split; [unfold demo_key, cstr, cbytes; simpl; repeat constructor; lia|]. split; [done|].
    cbn [Z.eqb]. unfold demo_key, cstr. set_solver.
  - done.
  - done.
  - by repeat split.
Qed.

Definition state_of {W A} (r : run (A * sys W)) (d : sys W) : sys W :=
  match r with Ok (_, s) => s | UB => d end.

Definition value_of {W A} (r : run (A * sys W)) (d : A) : A :=
  match r with Ok (a, _) => a | UB => d end.

Lemma wp_state {W A} (m : M W A) Q s a d : wp m Q s -> Q (value_of (m s) a) (state_of (m s) d).
Proof. unfold wp. by destruct (m s) as [|[b s']]. Qed.

Definition demo_create : run ((Z * bool) * sys demo_world) :=
  r_client_create (Some demo_config) (Some demo_ops) true demo_blank.
Definition demo_started : sys demo_world := state_of demo_create demo_blank.

#[global] Strategy expand [demo_create demo_started].

Lemma demo_create_ok : value_of demo_create (0, false) = (RCLIENT_OK, true).
Proof. vm_compute. reflexivity. Qed.

Lemma demo_created : created demo_config demo_ops demo_started.
Proof.
  pose proof demo_create_ok as E. unfold demo_started. unfold demo_create in *.
  destruct (wp_state _ _ _ (0, false) demo_blank
    (create_wp demo_config demo_ops demo_blank demo_config_ok ltac:(by eexists) demo_is_blank))
    as [[_ Hc]|(rc & Hrc & _)]; [exact Hc|].
  rewrite E in Hrc. congruence.
Qed.

Lemma demo_inv : client_inv ∅ demo_started.
Proof. apply demo_created. Qed.

(** One admission check: a bucket and a latency guard. *)
Definition demo_id : list Z := replicate 16 5.
Definition demo_resource : r_resource_request := mk_resource_request demo_id 1000 100 1.
Definition demo_guard : r_latency_guard := mk_latency_guard demo_id 100 10000 100 5.

Lemma demo_id_wf : is_id16 demo_id.
Proof. split; [done|]. apply Forall_replicate. rlia. Qed.

Lemma demo_args : args_ok (Some [demo_resource]) 1 (Some [demo_guard]) 1 None 0 [demo_guard] [demo_resource] None.
Proof.
  split; try done; try (by left); (constructor; [|constructor]);
    (split; [apply demo_id_wf|by repeat split]).
Qed.

Lemma demo_guards_wf : Forall wf_latency_guard [demo_guard].
Proof. apply demo_args. Qed.
Lemma demo_resources_wf : Forall wf_resource_request [demo_resource].
Proof. apply demo_args. Qed.

Definition demo_check : M demo_world (Z * out_ref) :=
  r_client_check_rate_limit_async_impl (Some [demo_resource]) 1 (Some [demo_guard]) 1 None 0 3 77
    (OutVar None) false.

Definition demo_waiting : sys demo_world := state_of (demo_check demo_started) demo_started.

#[global] Strategy expand [demo_check demo_waiting].

(** The handle of the request it leaves in flight, and its cell. *)
Definition demo_req : ptr := 3.
Definition demo_cell : r_client_req := default req_zero (s_reqs demo_waiting !! demo_req).

Lemma demo_waiting_inv : client_inv ∅ demo_waiting.
Proof.
  assert (Hs : forall res s', check_step ∅ [demo_guard] [demo_resource] None 3 77 (OutVar None) demo_started
    res s' -> client_inv ∅ s') by (intros res s' Hs; by destruct Hs).
  unfold demo_waiting, demo_check.
  exact (Hs _ _ (wp_state _ _ _ (0, OutNull) demo_started
    (check_async_wp ∅ (Some [demo_resource]) 1 (Some [demo_guard]) 1 None 0 [demo_guard]
       [demo_resource] None 3 77 (OutVar None) false demo_started demo_inv demo_args ltac:(done) ltac:(done)))).
Qed.

Lemma demo_inflight : demo_req ∈ cl_inflight (s_client demo_waiting).
Proof. apply (bool_decide_unpack _). vm_compute. exact I. Qed.

Lemma demo_req_cell : s_reqs demo_waiting !! demo_req = Some demo_cell.
Proof. vm_compute. reflexivity. Qed.

(** The calls that brought it there are legal. *)
Definition demo_call : api :=
  CheckRateLimit (Some [demo_resource]) 1 (Some [demo_guard]) 1 None 0 3 77 (OutVar None) false.

Lemma demo_call_legal (s : sys demo_world) : legal demo_call s.
Proof. split; [exists [demo_guard], [demo_resource], None; apply demo_args|done]. Qed.

Lemma demo_reachable : reachable demo_started demo_waiting.
Proof.
  apply (reach_step _ demo_started demo_call).
  - constructor.
  - apply demo_call_legal.
  - vm_compute. reflexivity.
Qed.

(** An answer to it: server 7 admits, with nothing to report. *)
Definition demo_header : r_tenant_header :=
  mk_tenant R_TLV_TENANT R_TENANT_TLV_LEN 7 (rq_request_id demo_cell) 1005 1 0 0 0.
Definition demo_pdu : list Z :=
  le 2 R_PDU_RATE_RESPONSE ++ le 2 12 ++ le 4 0 ++ le 2 0 ++ le 2 0.
Definition demo_reply : list Z :=
  ser_tenant demo_header ++ le 2 R_TLV_AUTH_AES ++ le 2 32 ++ replicate 12 1 ++ zero_tag ++ demo_pdu.

Lemma demo_header_wf : wf_tenant demo_header.
Proof.
  repeat split; try (vm_compute; (reflexivity || discriminate)).
  apply bytes_decided. vm_compute. reflexivity.
Qed.

Lemma demo_replies : reply_to (cl_fixed (s_client demo_waiting)) demo_cell demo_header demo_pdu demo_reply.
Proof.
  split.
  - split; [apply demo_header_wf|done].
  - done.
  - vm_compute. reflexivity.
  - split; [apply bytes_decided; vm_compute; reflexivity|]. split; [vm_compute; discriminate|].
    vm_compute. reflexivity.
  - apply sealed_aes; vm_compute; reflexivity.
  - split; [apply bytes_decided; vm_compute; reflexivity|vm_compute; reflexivity].
Qed.

(** ** A client whose resolver has not answered yet *)
Definition slow_blank : sys demo_world :=
  mk_sys (client_blank demo_config demo_ops) ∅ ∅ ∅ demo_adms 0 (mk_world 1000 false) [].
Definition slow_create : run ((Z * bool) * sys demo_world) :=
  r_client_create (Some demo_config) (Some demo_ops) true slow_blank.
Definition slow_started : sys demo_world := state_of slow_create slow_blank.
#[global] Strategy expand [slow_create slow_started].

Lemma slow_create_ok : value_of slow_create (0, false) = (RCLIENT_OK, true).
Proof. vm_compute. reflexivity. Qed.

Lemma slow_created : created demo_config demo_ops slow_started.
Proof.
  pose proof slow_create_ok as E. unfold slow_started. unfold slow_create in *.
  destruct (wp_state _ _ _ (0, false) slow_blank
    (create_wp demo_config demo_ops slow_blank demo_config_ok ltac:(by eexists) (blank_with _)))
    as [[_ Hc]|(rc & Hrc & _)]; [exact Hc|].
  rewrite E in Hrc. congruence.
Qed.

Definition slow_destroyed : sys demo_world := state_of (r_client_destroy slow_started) slow_started.
#[global] Strategy expand [slow_destroyed].

Lemma slow_secret : secret_ok (cl_fixed (s_client slow_started)).
Proof. destruct (cd_credential _ _ _ slow_created) as (k & Hk & _). apply (cr_secret _ _ _ Hk). Qed.

Lemma slow_is_destroyed : destroyed slow_destroyed.
Proof.
  unfold slow_destroyed.
  exact (proj1 (proj2 (wp_state _ _ _ tt slow_started
    (destroy_wp slow_started (cd_inv _ _ _ slow_created) slow_secret)))).
Qed.

Lemma demo_inputs : inputs_ok demo_cell [demo_guard] [demo_resource] None.
Proof.
  split.
  - left. vm_compute. reflexivity.
  - vm_compute. reflexivity.
  - left. vm_compute. reflexivity.
  - vm_compute. reflexivity.
  - apply demo_guards_wf.
  - apply demo_resources_wf.
  - reflexivity.
  - reflexivity.
  - vm_compute. reflexivity.
Qed.

Lemma demo_cell_id : is_id16 (rq_request_id demo_cell).
Proof. split; [vm_compute; reflexivity|]. apply bytes_decided. vm_compute. reflexivity. Qed.
