(* ===== verification/RuntimeDemo.v ===== *)
(** * A system for the socket runtime's theorems

    A small operating system: a table of sockets with their ports, a queue of
    datagrams, a clock, one address and one service record.  It obeys the laws
    the runtime relies on, so the theorems apply to something. *)

From Stdlib Require Import String Ascii.
From S2P Require Import Prelude.
From S2P Require Import Types.
From S2P Require Import Wire.
From S2P Require Import WireFacts.
From S2P Require Import Crypto.
From S2P Require Import CryptoFacts.
From S2P Require Import Workflow.
From S2P Require Import State.
From S2P Require Import Hoare.
From S2P Require Import Schedule.
From S2P Require Import Dns.
From S2P Require Import DnsFacts.
From S2P Require Import Request.
From S2P Require Import RequestFacts.
From S2P Require Import PacketFacts.
From S2P Require Import ExtractFacts.
From S2P Require Import Client.
From S2P Require Import Lifecycle.
From S2P Require Import Completion.
From S2P Require Import Datagram.
From S2P Require Import Admission.
From S2P Require Import Ids.
From S2P Require Import WorkflowOps.
From S2P Require Import WorkflowFacts.
From S2P Require Import Api.
From S2P Require Import Frame.
From S2P Require Import Runtime.
From S2P Require Import RuntimeFacts.
From S2P Require Import RuntimeSockets.
From S2P Require Import RuntimeHost.
From S2P Require Import RuntimeReceive.
From S2P Require Import Create.
From S2P Require Import RuntimeLife.
From S2P Require Import Demo.

(** The open sockets with their family and port, what is waiting to be received,
    the time in milliseconds, and the last error. *)
Record demo_os := mk_os {
  do_sockets : list (Z * (Z * Z));
  do_queue : list (list Z);
  do_clock : Z;
  do_errno : Z;
}.

Definition do_open (o : demo_os) : list Z := map fst (do_sockets o).
Fixpoint find_socket (fd : Z) (l : list (Z * (Z * Z))) : option (Z * Z) :=
  match l with
  | [] => None
  | (f, (family, port)) :: l' => if f =? fd then Some (family, u16 port) else find_socket fd l'
  end.

Definition fresh_fd (o : demo_os) : Z := 1 + foldr Z.max 2 (do_open o).

(** Whether another socket of the family has the port. *)
Definition port_taken (fd family port : Z) (o : demo_os) : bool :=
  existsb (fun f => negb (f =? fd) && bool_decide (find_socket f (do_sockets o) = Some (family, port))) (do_open o).

Definition bound (fd family port : Z) (l : list (Z * (Z * Z))) : list (Z * (Z * Z)) :=
  map (fun s => if fst s =? fd then (fd, (family, port)) else s) l.

Definition failing (errno : Z) (o : demo_os) : demo_os := mk_os (do_sockets o) (do_queue o) (do_clock o) errno.

Definition demo_bind (fd family port : Z) (o : demo_os) : Z * demo_os :=
  if negb (bool_decide (fd ∈ do_open o)) || negb ((0 <=? port) && (port <=? UINT16_MAX)) then (-1, failing 22 o)
  else if negb (port =? 0) && port_taken fd family port o then (-1, failing EADDRINUSE o)
  else (0, mk_os (bound fd family (if port =? 0 then 40000 + fd else port) (do_sockets o))
             (do_queue o) (do_clock o) (do_errno o)).

(** A datagram in the receiver's buffer. *)
Definition received (d : list Z) : list Z :=
  take (Z.to_nat RECV_BUFFER) (map u8 d ++ replicate (Z.to_nat RECV_BUFFER) 0).
#[global] Arguments received : simpl never.

Definition demo_sa : list Z := [2; 0; 0; 0; 127; 0; 0; 1] ++ replicate 8 0.

#[export] Instance demo_system : Os demo_os := {|
  os_errno := do_errno;
  os_clock_gettime := fun _ o => (Some (do_clock o / 1000, do_clock o mod 1000 * 1000000), o);
  os_socket := fun family o =>
    (fresh_fd o, mk_os ((fresh_fd o, (family, 0)) :: do_sockets o) (do_queue o) (do_clock o) (do_errno o));
  os_getfl := fun _ o => (2, o);
  os_setfl := fun _ _ o => (0, o);
  os_ipv6_only := fun _ o => o;
  os_bind := demo_bind;
  os_close := fun fd o =>
    mk_os (filter (fun s => fst s <> fd) (do_sockets o)) (do_queue o) (do_clock o) (do_errno o);
  os_getsockname := fun fd o => (find_socket fd (do_sockets o), o);
  os_sendto := fun _ buffer _ o => (zlen buffer, o);
  os_recvfrom := fun _ o =>
    match do_queue o with
    | [] => ((-1, [], demo_addr), failing EAGAIN o)
    | d :: q =>
        ((Z.min RECV_BUFFER (zlen d), received d, demo_addr),
         mk_os (do_sockets o) q (do_clock o) (do_errno o))
    end;
  os_getaddrinfo := fun _ o => (Some [mk_addrinfo AF_INET 16 demo_sa], o);
  os_query_srv := fun _ o => (Some [Some (mk_rr true 20 60 0 0 9000 (Some (cstr "s-7.example.net")))], o);
  os_stderr := fun _ o => o;
  os_alloc := fun o => (true, o);
  os_rand_bytes := fun n o => (if 0 <=? n then Some (replicate (Z.to_nat n) 9) else None, o);
  os_patience := fun o => length (do_queue o);
|}.

(** An application that does nothing in its callbacks. *)
#[export] Instance demo_app : App demo_os := {|
  app_complete := fun _ _ _ _ _ s => Ok s;
  app_admission := fun _ _ _ _ s => Ok s;
|}.

Lemma received_ok d : zlen (received d) = RECV_BUFFER /\ is_bytes (received d).
Proof.
  unfold received. assert (0 <= RECV_BUFFER) by done. generalize dependent RECV_BUFFER. intros n Hn. split.
  - rewrite length_take, length_app, length_replicate, Nat.min_l by apply Nat.le_add_l. by apply Z2Nat.id.
  - apply Forall_take, Forall_app. split; [|apply Forall_replicate; rlia].
    apply Forall_map. apply Forall_true. intros x. apply u8_range.
Qed.

#[export] Instance demo_os_laws : OsLaws demo_os.
Proof.
  split; cbn.
  - intros n o bs o'. destruct (Z.leb_spec 0 n); [|done]. intros [= <- _].
    rewrite length_replicate. split; [lia|]. apply Forall_replicate. rlia.
  - intros host o l o' [= <- _]. constructor; [|constructor]. split; [done|]. cbn.
    repeat constructor; lia.
  - intros name o l o' [= <- _]. constructor; [|constructor]. split; [|by repeat split]. apply demo_srv_wf.
  - intros fd o len buffer from o'. destruct (do_queue o) as [|d q]; intros [= <- <- <- _]; [done|]. intros _.
    destruct (received_ok d). split; [apply Z.le_min_l|]. split; [done|]. split; [done|apply demo_addr_wf].
  - intros fd b to o r o' [= <- _]. lia.
  - intros fd o len b from o'. destruct (do_queue o) as [|d q]; intros [= <- _ _ <-]; cbn; [|lia]. done.
Qed.

(** *** Descriptors *)
Lemma find_socket_none fd l : fd ∉ map fst l -> find_socket fd l = None.
Proof.
  induction l as [|[f [fam p]] l IH]; intros Hn; [done|]. cbn [find_socket]. cbn in Hn.
  rewrite (proj2 (Z.eqb_neq f fd)) by set_solver. apply IH. set_solver.
Qed.

Lemma fresh_above o fd : fd ∈ do_open o -> fd < fresh_fd o.
Proof.
  unfold fresh_fd. induction (do_open o) as [|x l IH]; [set_solver|]. cbn [foldr].
  intros [->|Hin]%elem_of_cons; [lia|]. specialize (IH Hin). lia.
Qed.

Lemma fresh_positive o : 3 <= fresh_fd o.
Proof. unfold fresh_fd. induction (do_open o) as [|x l IH]; cbn [foldr]; lia. Qed.

Lemma bound_open fd family port l : map fst (bound fd family port l) = map fst l.
Proof.
  unfold bound. rewrite map_map. apply map_ext. intros [f [fam p]]. cbn. by destruct (Z.eqb_spec f fd) as [->|].
Qed.

Lemma find_bound_same fd family port l :
  fd ∈ map fst l -> find_socket fd (bound fd family port l) = Some (family, u16 port).
Proof.
  induction l as [|[f [fam p]] l IH]; cbn; [set_solver|]. intros Hin. destruct (Z.eqb_spec f fd) as [->|Hne]; cbn.
  - by rewrite Z.eqb_refl.
  - rewrite (proj2 (Z.eqb_neq f fd)) by done. apply IH. set_solver.
Qed.

Lemma find_bound_other fd fd' family port l :
  fd' <> fd -> find_socket fd' (bound fd family port l) = find_socket fd' l.
Proof.
  intros Hne. unfold bound. induction l as [|[f [fam p]] l IH]; cbn; [done|]. destruct (Z.eqb_spec f fd) as [->|Hf]; cbn.
  - by rewrite (proj2 (Z.eqb_neq fd fd')) by done.
  - by rewrite IH.
Qed.

Lemma find_closed fd fd' l :
  fd' <> fd -> find_socket fd' (filter (fun s => fst s <> fd) l) = find_socket fd' l.
Proof.
  intros Hne. induction l as [|[f [fam p]] l IH]; [done|]. rewrite filter_cons. cbn [fst find_socket].
  case_decide as Hf; cbn [find_socket]; rewrite IH; [done|].
  destruct (Z.eqb_spec f fd') as [->|]; [|done]. by destruct (Hne Hf).
Qed.

Lemma closed_open fd (l : list (Z * (Z * Z))) : list_to_set (C := gset Z) (map fst (filter (fun s => fst s <> fd) l)) =
  list_to_set (map fst l) ∖ {[fd]}.
Proof.
  induction l as [|[f [fam p]] l IH]; [set_solver|]. rewrite filter_cons. cbn [fst].
  case_decide as Hf; cbn [map fst list_to_set]; rewrite IH; set_solver.
Qed.

#[export] Instance demo_kernel : Kernel demo_os.
Proof.
  refine {| k_open := fun o => list_to_set (do_open o); k_name := fun fd o => find_socket fd (do_sockets o) |}.
  - split; cbn; try done; try (by intros; simplify_eq).
    + split; [done|]. intros o1 o2 o3 [E1 F1] [E2 F2]. split; [by rewrite E2|]. intros fd. by rewrite F2.
    + intros fd o r o'. destruct (do_queue o); intros [= _ <-]; done.
  - done.
  - intros fd o family port. cbn. induction (do_sockets o) as [|[f [fam p]] l IH]; cbn; [done|].
    case_if; [|done]. intros [= _ <-]. apply u16_range.
  - intros family o fd o' [= <- <-]. unfold do_open. cbn. split.
    + intros fd' Hin%elem_of_list_to_set. pose proof (fresh_above o fd' Hin). by rewrite (proj2 (Z.eqb_neq _ fd')) by lia.
    + right. pose proof (fresh_positive o). split; [lia|]. split; [|done].
      intros Hin%elem_of_list_to_set. pose proof (fresh_above o _ Hin). lia.
  - intros fd family port o rc o'. cbn. unfold demo_bind. case_if; [by intros [= <- <-]|]. breflect.
    apply bool_decide_eq_true_1 in H. case_if; [by intros [= <- <-]|]. intros [= <- <-]. cbn. unfold do_open. cbn.
    split; [by rewrite bound_open|]. split; [intros fd' Hne; by apply find_bound_other|]. intros _.
    eexists. split; [by apply find_bound_same|]. intros Hp. rewrite (proj2 (Z.eqb_neq port 0)) by done.
    split; [apply u16_small; rlia|]. intros fd' Hin%elem_of_list_to_set Hne Hname.
    rewrite (proj2 (Z.eqb_neq port 0)) in E by done. cbn [negb andb] in E. apply not_true_iff_false in E. apply E.
    unfold port_taken. apply existsb_exists. exists fd'. split; [by apply list_elem_of_In|].
    rewrite (proj2 (Z.eqb_neq fd' fd)) by done. cbn [negb andb]. by apply bool_decide_true.
  - intros fd o. cbn. unfold do_open. cbn. split; [by rewrite closed_open|]. intros fd' Hne. by apply find_closed.
Defined.

#[export] Instance demo_quiet : Quiet demo_os.
Proof.
  refine {| q_backlog := fun o => length (do_queue o) |}.
  - split; [split|..]; cbn; try done; try (by intros; simplify_eq).
    + split; [intros o; lia|intros o1 o2 o3; lia].
    + intros fd o r o'. destruct (do_queue o) as [|d q] eqn:E; intros [= _ <-]; cbn; rewrite ?E; cbn; lia.
    + intros fd family port o rc o'. unfold demo_bind. repeat case_if; by intros [= _ <-].
  - intros fd o len buffer from o'. cbn. destruct (do_queue o) as [|d q]; intros [= <- _ _ <-]; cbn; [|lia].
    by intros [?|?].
Defined.

#[export] Instance demo_guest base : Guest base.
Proof. split; cbn; by intros; simplify_eq. Qed.
#[export] Instance demo_silent : Silent (O := demo_os).
Proof. split; cbn; by intros; simplify_eq. Qed.

#[export] Instance demo_runtime_reentrant : Reentrant (rworld demo_os).
Proof.
  split; cbn.
  - intros cb user req status res s X HI _ _. exists s. split; [done|]. split; [done|reflexivity].
  - intros cb user status outcome s X HI _. exists s. split; [done|]. split; [done|reflexivity].
Qed.
