(* ===== verification/PerfDemo.v ===== *)
(** * A system for the load generator's theorems

    The system of [RuntimeDemo] with the calls of the load generator: [poll]
    returns at once while datagrams are queued and advances the clock otherwise,
    and every name has one service, with one address. *)

From Stdlib Require Import String Ascii.
From S2P Require Import Prelude.
From S2P Require Import Types.
From S2P Require Import Wire.
From S2P Require Import Crypto.
From S2P Require Import CryptoFacts.
From S2P Require Import Workflow.
From S2P Require Import State.
From S2P Require Import Hoare.
From S2P Require Import Schedule.
From S2P Require Import Steering.
From S2P Require Import Dns.
From S2P Require Import DnsFacts.
From S2P Require Import Request.
From S2P Require Import RequestFacts.
From S2P Require Import PacketFacts.
From S2P Require Import ExtractFacts.
From S2P Require Import Client.
From S2P Require Import Lifecycle.
From S2P Require Import Completion.
From S2P Require Import Datagram.
From S2P Require Import Admission.
From S2P Require Import WorkflowOps.
From S2P Require Import WorkflowFacts.
From S2P Require Import Api.
From S2P Require Import Frame.
From S2P Require Import Runtime.
From S2P Require Import RuntimeFacts.
From S2P Require Import RuntimeSockets.
From S2P Require Import RuntimeHost.
From S2P Require Import KeyFacts.
From S2P Require Import Ids.
From S2P Require Import RuntimeReceive.
From S2P Require Import Teardown.
From S2P Require Import Create.
From S2P Require Import PerfLatency.
From S2P Require Import PerfPacer.
From S2P Require Import Perf.
From S2P Require Import PerfFacts.
From S2P Require Import PerfNet.
From S2P Require Import PerfNetFacts.
From S2P Require Import PerfDns.
From S2P Require Import PerfDnsFacts.
From S2P Require Import PerfWorker.
From S2P Require Import PerfHost.
From S2P Require Import PerfWait.
From S2P Require Import RuntimeConfig.
From S2P Require Import PerfEnds.
From S2P Require Import PerfRun.

From S2P Require Import PerfThread.
From S2P Require Import PerfMain.
From S2P Require Import PerfMainFacts.
From S2P Require Import Responder.
From S2P Require Import RuntimeLife.
From S2P Require Import Demo.
From S2P Require Import RuntimeDemo.

(** ** The system *)
Definition demo_srv_rr : dns_rr :=
  mk_dns_rr ns_t_srv ns_c_in 60 [0; 0; 0; 0; 35; 40; 0] (Some (cstr "s-7.example.net")).
Definition demo_a_rr : dns_rr := mk_dns_rr ns_t_a ns_c_in 60 [127; 0; 0; 1] None.

(** The clock reading as the time in milliseconds, kept within 64 bits. *)
Definition waited (timeout : Z) (o : demo_os) : demo_os :=
  mk_os (do_sockets o) (do_queue o) (Z.min (u64 (do_clock o) + Z.max 0 timeout) UINT64_MAX) (do_errno o).

(** An answer is the query's type, which stands for the one record. *)
#[export] Instance demo_perf_system : PerfOs demo_os := {|
  os_ipv6_dual := fun _ o => o;
  os_poll := fun _ timeout o => match do_queue o with [] => (0, false, waited timeout o) | _ => (1, true, o) end;
  os_nanosleep := fun _ _ o => (0, o);
  os_res_ninit := fun o => (0, o);
  os_res_nclose := fun o => o;
  os_res_nquery := fun _ _ qtype _ o => (1, u8 qtype :: replicate 4095 0, o);
  ns_message := fun message =>
    match message with
    | [b] => if b =? ns_t_srv then Some [None; Some demo_srv_rr] else if b =? ns_t_a then Some [Some demo_a_rr] else None
    | _ => None
    end;
|}.

#[export] Instance demo_perf_kernel : PerfKernel demo_os.
Proof.
  do 2 split; cbn; try done.
  - intros fd timeout o a o'. destruct (do_queue o); by intros [= _ <-].
  - by intros sec nsec o a o' [= _ <-].
Qed.

Lemma demo_polls_well (o : demo_os) : polls_well o.
Proof.
  unshelve eexists (Build_Polls demo_os _ _ (fun _ => True) _ _); [|..|done]; cbn.
  - split; [split; [split; [by split|..]|..]|split]; by intros.
  - intros o1 _ fd timeout rc readable o'. destruct (do_queue o1); intros [= <- _ _]; by left.
Qed.

#[export] Instance demo_query_laws : QueryLaws demo_os.
Proof.
  refine {| ql_message := fun _ _ qtype => Some [u8 qtype] |}.
  - intros ns name qtype o len buf o' [= <- <- _]. done.
  - intros message l. cbn. destruct message as [|b [|]]; [done| |done]. repeat case_if; intros [= <-]; repeat constructor; cbn; lia || apply (bool_decide_unpack _); vm_compute; exact I.
Defined.

Lemma demo_answers_fit : answers_fit demo_os.
Proof. intros ns name qtype m [= <-]. unfold DNS_ANSWER_SIZE. cbn. lia. Qed.

Definition demo_time (o : demo_os) : Z := u64 (do_clock o).

Lemma demo_reading o : timespec_ms (do_clock o / 1000, do_clock o mod 1000 * 1000000) = demo_time o.
Proof.
  unfold timespec_ms, demo_time. cbn [fst snd]. rewrite (u64_small (_ mod 1000 * 1000000)), Z.div_mul by (pose proof (Z.mod_pos_bound (do_clock o) 1000); rlia). unfold u64.
  rewrite Zmult_mod_idemp_l, Zplus_mod_idemp_l. f_equal. pose proof (Z.div_mod (do_clock o) 1000). lia.
Qed.

#[export] Instance demo_network : Network demo_os.
Proof.
  refine {| nw_backlog := fun o => length (do_queue o); nw_ms := demo_time |}.
  - assert (Hmono : forall timeout o, demo_time o <= demo_time (waited timeout o)).
    { intros timeout o. unfold demo_time, waited. cbn [do_clock]. pose proof (u64_range (do_clock o)).
      rewrite (u64_small (Z.min _ _)) by rlia. rlia. }
    split; [split; [split|..]|split]; cbn; try done; try (by intros; simplify_eq).
    + split; [intros o; lia|intros o1 o2 o3; lia].
    + intros fd o r o'. destruct (do_queue o) as [|d q] eqn:E; intros [= _ <-]; cbn; rewrite ?E; cbn; (split; [lia|done]).
    + intros fd family port o rc o'. unfold demo_bind. repeat case_if; by intros [= _ <-].
    + intros fd timeout o r o'. destruct (do_queue o) as [|d q] eqn:E; intros [= _ <-]; (split; [cbn; rewrite ?E; cbn; lia|]); [apply Hmono|reflexivity].
  - intros o x o' [= <- <-]. eexists. split; [done|]. rewrite demo_reading. lia.
  - intros fd o len buffer from o'. cbn. destruct (do_queue o) as [|d q]; intros [= <- _ _ <-]; cbn; lia.
  - intros fd timeout o rc readable o1. cbn. destruct (do_queue o) as [|d q] eqn:E; intros [= <- <- <-]; [done|].
    intros _. cbn. rewrite E. intros x o2 [= _ <-]. cbn. lia.
  - intros fd timeout o readable o'. cbn. destruct (do_queue o); [|done]. intros [= _ <-].
    unfold demo_time, waited. cbn [do_clock]. pose proof (u64_range (do_clock o)). rewrite (u64_small (Z.min _ _)) by rlia. lia.
Defined.

Lemma demo_steady : steady demo_os.
Proof. by intros o ok o' [= <- _]. Qed.

(** ** A run

    One worker that makes two requests, on a machine with a socket open. *)
Definition demo_load_args : list (list Z) :=
  [cbytes "--auth=" ++ R_TEST_RESPONDER_AES_KEY; cstr "--clients=1"; cstr "--requests=2"].
Definition demo_boot : demo_os := mk_os [(3, (AF_INET, 40003))] [] 5000 0.

Definition no_address (family : Z) (host : list Z) : option (list Z) := None.
Definition demo_launch : run (exits perf_plan * demo_os) :=
  perf_launch no_address (fun _ => true) (fun _ => None) demo_load_args demo_boot.
Definition demo_no_plan : perf_plan :=
  mk_plan (mk_perf_config None None 0 0 0 0 false 0 0 0 [] 0 false 0 0 false false) perf_dns_cache_zero 0 [].
Definition demo_plan : perf_plan := match demo_launch with Ok (Next plan, _) => plan | _ => demo_no_plan end.
Definition demo_thread : sys (pworld demo_os) :=
  mk_sys (client_blank demo_config demo_ops) ∅ ∅ ∅ ∅ 0
    (mk_pworld (mk_io (-1) false traffic_zero) request_ctx_zero
       (nth 0 (pl_workers demo_plan) (mk_worker 0 (pl_config demo_plan) perf_stats_zero [] traffic_zero 0)) demo_boot) [].

Lemma demo_load_args_ok : Forall arg_ok demo_load_args.
Proof.
  repeat (apply Forall_cons; split); [..|constructor];
    (split; [split; [apply (bool_decide_unpack _); vm_compute; exact I|apply (bool_decide_unpack _); vm_compute; exact I]
            |vm_compute; discriminate]).
Qed.

Lemma demo_launch_ok : exists o', demo_launch = Ok (Next demo_plan, o').
Proof.
  assert (match demo_launch with Ok (Next _, _) => true | _ => false end = true) as E by (vm_compute; reflexivity).
  unfold demo_plan. destruct demo_launch as [|[[plan|code] o']]; [done| |done]. by exists o'.
Qed.

Lemma demo_thread_blank : blank demo_thread.
Proof. by split. Qed.

Lemma demo_thread_worker : pl_workers demo_plan = [pw_worker (s_world demo_thread)].
Proof.
  assert (length (pl_workers demo_plan) = 1%nat) as E by (vm_compute; reflexivity).
  unfold demo_thread. cbn [s_world pw_worker]. by destruct (pl_workers demo_plan) as [|k [|]].
Qed.
