(* ===== verification/ClientTheorems.v ===== *)
(** * The client: theorems

    What the state machine of src/r_client.c guarantees, for every host that
    keeps the contracts [HostLaws] and [Reentrant] and every OpenSSL that keeps
    [AesGcmLaws].  Each theorem is followed by its instance on the client of
    Demo.v. *)

From Stdlib Require Import String Ascii.
From S2P Require Import Prelude.
From S2P Require Import Types.
From S2P Require Import Wire.
From S2P Require Import WireFacts.
From S2P Require Import Crypto.
From S2P Require Import Workflow.
From S2P Require Import State.
From S2P Require Import Hoare.
From S2P Require Import Schedule.
From S2P Require Import Dns.
From S2P Require Import DnsFacts.
From S2P Require Import Request.
From S2P Require Import RequestFacts.
From S2P Require Import PacketFacts.
From S2P Require Import ExtractFacts.
From S2P Require Import KeyFacts.
From S2P Require Import Ids.
From S2P Require Import Client.
From S2P Require Import Lifecycle.
From S2P Require Import Completion.
From S2P Require Import Datagram.
From S2P Require Import Admission.
From S2P Require Import Api.
From S2P Require Import Teardown.
From S2P Require Import Create.
From S2P Require Import Demo.

Section Client.
Context {W : Type} `{HR : Reentrant W} {ssl : OpenSSL} {laws : AesGcmLaws ssl} {dlaws : DigestLaws ssl}.
Implicit Types s : sys W.
Implicit Types X : gset ptr.

(** C1. Safety of every interleaving: from a client that [r_client_create]
    returned, whatever sequence of legal API calls, datagrams, timeouts and
    resolver answers follows (completion callbacks that call back into the
    client included), the invariant holds and the next legal call is free of
    undefined behaviour. *)
Theorem reachable_safe config ops s0 s :
  created config ops s0 -> reachable s0 s ->
  client_inv ∅ s /\ forall a, legal a s -> exists s', exec a s = Ok (tt, s') /\ reachable s0 s'.
Proof.
  intros Hc Hr. pose proof (reachable_inv s0 s (cd_inv _ _ _ Hc) Hr) as HI. split; [done|].
  intros a Hl. destruct (wp_Ok _ _ _ (exec_wp ∅ a s HI Hl)) as ([] & s' & E & _).
  exists s'. split; [done|]. by eapply reach_step.
Qed.

(** C31. Creation: a configuration whose key decodes, of the configured type and
    id, gives a client with that credential, the policy given or the default,
    the given or default DNS name and no request; every other outcome is an
    error after which there is no request, refresh or lookup, and either no
    client was allocated or its copies of the encoded key and the DNS name and
    the client itself have been freed, once each, with the credential overwritten
    by zeros; with an allocator that never fails the only error is
    [RCLIENT_ERR_CONFIG] for a key that is not accepted. *)
Theorem create_establishes config ops s :
  config_ok config -> is_Some (cc_auth_secret config) -> blank s ->
  wp (r_client_create (Some config) (Some ops) true) (create_post config ops s) s.
Proof. apply create_wp. Qed.

(** C2. The completion of a request: its callback is called exactly once, with
    the status and (for a selected response) the preferred answer, after which
    the request is freed and out of the in-flight list, whatever the callback
    did; the other requests keep the invariant. *)
Theorem complete_exactly_once X p r status selected s :
  client_inv X s -> p ∈ cl_inflight (s_client s) -> s_reqs s !! p = Some r ->
  wp (r_request_complete p status selected) (fun _ s' =>
    client_inv X s' /\ s_reqs s' !! p = None /\ (p ∉ cl_inflight (s_client s')) /\
    completions p (s_trace s') = 1%nat /\
    exists tr1 tr2, s_trace s' = s_trace s ++ tr1 ++
      EvComplete (Some p) (rq_cb r) (rq_user r) status (completion_result r selected) ::
      tr2 ++ [EvFreeReq p] /\ Forall (fun e => quiet e = true) tr1) s.
Proof.
  intros HI Hin Hr. eapply wp_mono; [by apply complete_wp|]. cbv beta.
  intros _ s' [C1 C2 C3 C4 (tr1 & tr2 & C5 & C6 & _)].
  split; [done|]. split; [done|]. split; [|split; [done|by exists tr1, tr2]]. intros Hin'.
  destruct (inflight_req X s' p C1 Hin') as (r' & Hr' & _). by rewrite C3 in Hr'.
Qed.

(** C6. No callback is ever called twice, and none is called for a request that
    is still in flight or was never made, in any state reachable from creation. *)
Theorem callbacks_at_most_once config ops s0 s p :
  created config ops s0 -> reachable s0 s ->
  (completions p (s_trace s) <= 1)%nat /\
  (p ∈ cl_inflight (s_client s) \/ (s_next s <= p)%nat -> completions p (s_trace s) = 0%nat).
Proof.
  intros Hc Hr. pose proof (reachable_inv s0 s (cd_inv _ _ _ Hc) Hr) as HI.
  split; [apply (ci_once _ _ _ HI)|apply (ci_waiting _ _ _ HI)].
Qed.

(** C3. Liveness: a host that calls [r_client_on_timeout] at or after each
    deadline the client reports, however late, sees the request completed
    exactly once and freed after at most one call per remaining round, one for
    the final receive window and one more. *)
Theorem timeouts_complete X lates p r s :
  client_inv X s -> p ∈ cl_inflight (s_client s) -> s_reqs s !! p = Some r ->
  Forall (fun l => 0 <= l) lates -> steps_left (cl_fixed (s_client s)) r < zlen lates ->
  wp (drive lates p) (fun _ s' =>
    client_inv X s' /\ s_reqs s' !! p = None /\ completions p (s_trace s') = 1%nat) s.
Proof. apply drive_wp. Qed.

(** C9. What one timeout does: nothing before the deadline; after it an answered
    request completes with its answer; an unanswered one, as long as rounds are
    left and its lifetime is not over, is sent again to the servers that have not
    answered, and fails with [RCLIENT_ERR_IO] only when none of these datagrams
    leaves; after the last round it enters the final receive window; and it fails
    with [RCLIENT_ERR_TIMEOUT] exactly at the end of that window, at the end of
    the last round of a policy without one, or when the lifetime ended before the
    next round. *)
Theorem on_timeout_behaviour X p r now s :
  client_inv X s -> p ∈ cl_inflight (s_client s) -> s_reqs s !! p = Some r ->
  wp (r_client_on_timeout (Some p) now) (fun rc s' =>
    rc = RCLIENT_OK /\ timeout_step X p r now s s') s.
Proof. apply on_timeout_wp. Qed.

(** C33. The deadlines the client reports lie on the published schedule: whatever
    legal calls, datagrams, timeouts and resolver answers came since the creation,
    [r_client_request_deadline_ms] gives, for each request in flight and without
    changing anything, the end of a window of that request's schedule under the
    policy the client was created with.  Round [k] lasts from
    [start + unit * (B(0) + ... + B(k-1))] for [B(k)] units, the final window
    ends at the deduplication deadline, and the deadlines are ordered and fit
    64 bits. *)
Theorem deadlines_on_schedule config ops s0 s p out :
  created config ops s0 -> reachable s0 s -> p ∈ cl_inflight (s_client s) ->
  wp (r_client_request_deadline_ms (Some p) (Some out)) (fun res s' => s' = s /\
    exists r, s_reqs s !! p = Some r /\ res = (RCLIENT_OK, Some (rq_attempt_deadline_ms r)) /\
      on_schedule (cl_fixed (s_client s0)) r /\
      rq_start_ms r <= rq_ha_round_start_ms r <= rq_ha_round_deadline_ms r /\
      rq_ha_round_start_ms r <= rq_ha_preference_deadline_ms r <= rq_ha_round_deadline_ms r /\
      rq_ha_preference_deadline_ms r <= rq_attempt_deadline_ms r <= rq_ha_round_deadline_ms r /\
      rq_ha_round_deadline_ms r <= rq_dedup_deadline_ms r <= UINT64_MAX) s.
Proof.
  intros Hc Hr Hin. destruct (reachable_kept s0 s (cd_inv _ _ _ Hc) Hr) as [HI HF].
  destruct (inflight_req ∅ s p HI Hin) as (r & Hp & _). destruct (ci_reqs _ _ _ HI p r Hin Hp) as [_ Hs].
  unfold r_client_request_deadline_ms. do 3 wp_step. split; [done|]. exists r. do 2 (split; [done|]).
  rewrite <- (ca_fixed _ _ _ HF). split; [done|].
  apply (schedule_deadlines (cl_fixed (s_client s))); [apply (ci_cfg _ _ _ HI)|done].
Qed.

(** C4. Only authentic answers count: whatever bytes arrive, the handler stays
    inside the buffer, and either nothing but the host's state changes, or the
    datagram was a response authenticated under the client's credential, with
    the id of a request in flight, from a server that request may hear, within
    its lifetime; then the request completes with the preferred answer or waits
    for an older server. *)
Theorem on_datagram_authentic X buf len from s :
  client_inv X s -> is_bytes buf -> is_object buf -> 0 <= len <= zlen buf -> wf_addr from ->
  wp (r_client_on_datagram (Some buf) len (Some from)) (datagram_step X buf len s) s.
Proof. apply on_datagram_wp. Qed.

(** C7. Answers get through: with an allocator that never fails, a response
    sealed under the client's credential for a request in flight (the only one
    with its id), from a server it may hear and within its lifetime, is accepted. *)
Theorem on_datagram_delivers X p r h pdu bytes from s :
  client_inv X s -> never_fails W -> p ∈ cl_inflight (s_client s) -> s_reqs s !! p = Some r ->
  (forall q r', q ∈ cl_inflight (s_client s) -> s_reqs s !! q = Some r' ->
     rq_request_id r' = rq_request_id r -> q = p) ->
  reply_to (cl_fixed (s_client s)) r h pdu bytes ->
  clock (cl_fixed (s_client s)) (s_world s) <= rq_dedup_deadline_ms r -> wf_addr from ->
  wp (r_client_on_datagram (Some bytes) (zlen bytes) (Some from)) (fun rc s' =>
    rc = RCLIENT_OK /\ exists r' s1, heard h pdu r r' /\ only_world s s1 /\
      accept_step X p r' (clock (cl_fixed (s_client s)) (s_world s1)) s1 s') s.
Proof. apply delivery_wp. Qed.

(** C8. Admission: a check with no resources and no guards is admitted at once,
    by one callback and no request; a refused one leaves no request behind, calls
    no callback and returns an error for one of these reasons: it has no callback,
    a window exceeds the quota, no server is known after a refresh, or the set-up
    failed (no memory, no random bytes, a policy without a schedule or one that
    does not fit the clock, a packet that cannot be built, a lifetime that is over
    at once, or a first round that reached no server); an accepted one puts
    exactly one new request in flight, with a fresh UUID, the servers known after
    the refresh and the caller's guards, resources and label in its packet, and
    sends that packet to every server, one at least.  The workflow's own callback
    goes with a storage that waits for a handle, and with a guard. *)
Theorem check_admission X resources rn guards gn label n gs rs ol cb user out borrowed s :
  client_inv X s -> args_ok resources rn guards gn label n gs rs ol ->
  out_ready cb user out s -> (cb = r_admission_complete_ptr -> gs <> []) ->
  wp (r_client_check_rate_limit_async_impl resources rn guards gn label n cb user out borrowed)
    (check_step X gs rs ol cb user out s) s.
Proof. apply check_async_wp. Qed.

(** A latency report that returns [RCLIENT_OK] was sent, sealed and at most
    1200 bytes long, to every known server and delivered to one at least; no
    report touches a request. *)
Theorem report_latency_sent X reports rs s :
  client_inv X s -> array_arg reports rs -> Forall wf_latency_report rs -> is_object rs ->
  wp (r_client_report_latency reports (zlen rs)) (report_post X rs s) s.
Proof. apply report_latency_wp. Qed.

(** Cancellation frees the request without calling its callback, now or
    later; cancelling a request that is not in flight changes nothing.  The
    request is not one of an admission storage, which cancels it by itself. *)
Theorem cancel_is_silent X p s :
  client_inv X s -> (p ∈ cl_inflight (s_client s) -> released p s) ->
  wp (r_client_cancel_request (Some p)) (fun _ s' =>
    client_inv X s' /\
    (p ∉ cl_inflight (s_client s) -> s' = s) /\
    (p ∈ cl_inflight (s_client s) ->
       s_reqs s' = delete p (s_reqs s) /\ (p ∉ cl_inflight (s_client s')) /\
       completions p (s_trace s') = 0%nat)) s.
Proof.
  intros HI Hf. eapply wp_mono; [by apply (cancel_wp X)|]. cbv beta. intros _ s' (HI' & _ & Hn & Hc).
  split; [done|]. split; [done|]. intros Hin. destruct (Hc Hin) as [E1 E2]. split; [done|]. split; [|done].
  intros Hin'. destruct (inflight_req X s' p HI' Hin') as (r' & Hr' & _).
  by rewrite E1, lookup_delete_eq in Hr'.
Qed.

(** Steering feedback: the host is asked to rebind only when a request asked
    for it and no request is in flight any more, once per such wish; otherwise
    nothing changes. *)
Theorem steering_when_drained X s :
  client_inv X s ->
  wp r_notify_steering_when_drained (fun _ s' =>
    client_inv X s' /\ s_reqs s' = s_reqs s /\
    ((s' = s /\ (cl_steering_rebind_pending (s_client s) = false \/
                 cl_inflight (s_client s) <> [] \/
                 cf_io_on_steering_feedback (cl_fixed (s_client s)) = false)) \/
     (s_trace s' = s_trace s ++ [EvSteering false] /\
      cl_inflight (s_client s) = [] /\ cl_steering_rebind_pending (s_client s) = true /\
      cl_steering_rebind_pending (s_client s') = false))) s.
Proof.
  intros HI. eapply wp_mono; [by apply (notify_wp X)|]. cbv beta.
  intros _ s' (HI' & _ & Er & _ & _ & _ & Hc). done.
Qed.

(** C35. Destruction frees every request without calling back; cancels, when the
    resolver can, exactly the lookups of the current refresh that have not
    answered, by the request ids the resolver gave them; overwrites the cookie,
    the AES key and the encoded key with zeros; and gives back the client's
    servers, DNS name, encoded key and the client itself, once each and in this
    order, and nothing else. *)
Theorem destroy_wipes s :
  client_inv ∅ s -> secret_ok (cl_fixed (s_client s)) ->
  wp r_client_destroy (fun _ s' =>
    s_reqs s' = ∅ /\ destroyed s' /\
    wiped_credential (cl_fixed (s_client s)) (cl_fixed (s_client s')) /\
    s_trace s' = s_trace s ++ map EvFreeReq (cl_inflight (s_client s)) ++ outstanding s ++
                 client_frees (cl_server_cap (s_client s')) (cl_fixed (s_client s)) /\
    Forall is_cancel (outstanding s)) s.
Proof. apply destroy_wp. Qed.

(** C36. Resolver answers that arrive after destruction are safe: they touch only
    the detached lookup and its refresh object, which is freed with the last of
    them, and never the client. *)
Theorem late_answers_safe l lk status records addrs s :
  destroyed s -> s_lookups s !! l = Some lk -> wf_srv_answer records -> wf_addr_answer addrs ->
  wp (r_dns_srv_cb_fn l status records) (fun _ s' =>
    destroyed s' /\ exists p rf, s_refreshes s !! p = Some rf /\ s' = late_state l p rf s) s /\
  wp (r_dns_addr_cb_fn l status addrs) (fun _ s' =>
    destroyed s' /\ exists p rf, s_refreshes s !! p = Some rf /\ s' = late_state l p rf s) s.
Proof. intros Hd Hl Hr Ha. split; [by eapply late_srv_wp|by eapply late_addr_wp]. Qed.
End Client.

(** ** The theorems at work *)
Lemma reachable_safe_witness :
  client_inv ∅ demo_waiting /\
  exists s', exec (OnTimeout (Some demo_req) 1020) demo_waiting = Ok (tt, s').
Proof.
  destruct (reachable_safe demo_config demo_ops demo_started demo_waiting demo_created demo_reachable)
    as [HI Hstep].
  split; [exact HI|]. destruct (Hstep (OnTimeout (Some demo_req) 1020) demo_inflight) as (s' & E & _).
  exists s'. exact E.
Defined.

Lemma create_establishes_witness :
  wp (r_client_create (Some demo_config) (Some demo_ops) true)
     (create_post demo_config demo_ops demo_blank) demo_blank.
Proof.
  apply create_establishes; [apply demo_config_ok|by eexists|apply demo_is_blank].
Defined.

Lemma complete_exactly_once_witness :
  wp (r_request_complete demo_req RCLIENT_ERR_IO false)
     (fun _ s' => completions demo_req (s_trace s') = 1%nat) demo_waiting.
Proof.
  eapply wp_mono; [apply (complete_exactly_once ∅ demo_req demo_cell);
    [apply demo_waiting_inv|apply demo_inflight|apply demo_req_cell]|].
  cbv beta. intros _ s' (_ & _ & _ & Hc & _). exact Hc.
Defined.

Lemma callbacks_at_most_once_witness : completions demo_req (s_trace demo_waiting) = 0%nat.
Proof.
  apply (callbacks_at_most_once demo_config demo_ops demo_started demo_waiting demo_req
           demo_created demo_reachable).
  left. apply demo_inflight.
Defined.

Lemma timeouts_complete_witness :
  wp (drive [0; 5; 0; 100] demo_req)
     (fun _ s' => s_reqs s' !! demo_req = None /\ completions demo_req (s_trace s') = 1%nat) demo_waiting.
Proof.
  eapply wp_mono; [apply (timeouts_complete ∅ _ demo_req demo_cell);
    [apply demo_waiting_inv|apply demo_inflight|apply demo_req_cell|repeat constructor; lia|]|].
  - vm_compute. reflexivity.
  - cbv beta. intros _ s' (_ & Hr & Hc). exact (conj Hr Hc).
Defined.

Lemma on_timeout_behaviour_witness :
  wp (r_client_on_timeout (Some demo_req) 1020) (fun rc s' =>
    rc = RCLIENT_OK /\ timeout_step ∅ demo_req demo_cell 1020 demo_waiting s') demo_waiting.
Proof.
  apply on_timeout_behaviour; [apply demo_waiting_inv|apply demo_inflight|apply demo_req_cell].
Defined.

Lemma deadlines_on_schedule_witness :
  wp (r_client_request_deadline_ms (Some demo_req) (Some 0)) (fun res _ => exists r,
    res = (RCLIENT_OK, Some (rq_attempt_deadline_ms r)) /\
    on_schedule (cl_fixed (s_client demo_started)) r) demo_waiting.
Proof.
  eapply wp_mono; [exact (deadlines_on_schedule demo_config demo_ops demo_started demo_waiting demo_req 0
    demo_created demo_reachable demo_inflight)|].
  cbv beta. intros res s' (_ & r & _ & Er & Hs & _). exists r. exact (conj Er Hs).
Defined.

Lemma on_datagram_authentic_witness :
  wp (r_client_on_datagram (Some demo_reply) (zlen demo_reply) (Some demo_addr))
     (datagram_step ∅ demo_reply (zlen demo_reply) demo_waiting) demo_waiting.
Proof.
  apply on_datagram_authentic; [apply demo_waiting_inv|apply demo_replies|apply demo_replies| |apply demo_addr_wf].
  vm_compute. split; discriminate.
Defined.

Lemma on_datagram_delivers_witness :
  wp (r_client_on_datagram (Some demo_reply) (zlen demo_reply) (Some demo_addr))
     (fun rc _ => rc = RCLIENT_OK) demo_waiting.
Proof.
  eapply wp_mono; [apply (on_datagram_delivers ∅ demo_req demo_cell demo_header demo_pdu)|].
  - apply demo_waiting_inv.
  - intros w. reflexivity.
  - apply demo_inflight.
  - apply demo_req_cell.
  - intros q r' Hq _ _. assert (Hl : cl_inflight (s_client demo_waiting) = [demo_req])
      by (vm_compute; reflexivity). rewrite Hl in Hq. by apply list_elem_of_singleton in Hq.
  - apply demo_replies.
  - vm_compute. discriminate.
  - apply demo_addr_wf.
  - cbv beta. intros rc s' [Hrc _]. exact Hrc.
Defined.

Lemma check_admission_witness :
  wp demo_check (check_step ∅ [demo_guard] [demo_resource] None 3 77 (OutVar None) demo_started) demo_started.
Proof. apply check_admission; [apply demo_inv|apply demo_args|done|done]. Defined.

Definition demo_reports : list r_service_latency_report := [mk_latency_report demo_id 42 10000 100 5].

Lemma report_latency_sent_witness :
  wp (r_client_report_latency (Some demo_reports) (zlen demo_reports))
     (report_post ∅ demo_reports demo_started) demo_started.
Proof.
  apply report_latency_sent.
  - apply demo_inv.
  - left. reflexivity.
  - constructor; [|constructor]. split; [apply demo_id_wf|by repeat split].
  - reflexivity.
Defined.

Lemma cancel_is_silent_witness :
  wp (r_client_cancel_request (Some demo_req))
     (fun _ s' => completions demo_req (s_trace s') = 0%nat) demo_waiting.
Proof.
  eapply wp_mono; [apply (cancel_is_silent ∅ demo_req); [apply demo_waiting_inv|intros _]|].
  { apply (plain_released None ∅ demo_waiting demo_req demo_cell); [apply demo_waiting_inv|apply demo_req_cell|].
    vm_compute. discriminate. }
  cbv beta. intros _ s' (_ & _ & Hc). apply Hc, demo_inflight.
Defined.

Lemma steering_when_drained_witness :
  wp r_notify_steering_when_drained (fun _ s' => client_inv ∅ s') demo_waiting.
Proof.
  eapply wp_mono; [apply (steering_when_drained ∅), demo_waiting_inv|].
  cbv beta. intros _ s' [HI _]. exact HI.
Defined.

Lemma destroy_wipes_witness :
  wp r_client_destroy (fun _ s' => s_reqs s' = ∅ /\ destroyed s') slow_started /\
  outstanding slow_started <> [].
Proof.
  split; [|vm_compute; discriminate].
  eapply wp_mono; [apply destroy_wipes; [apply (cd_inv _ _ _ slow_created)|apply slow_secret]|].
  cbv beta. intros _ s' (Hr & Hd & _). exact (conj Hr Hd).
Defined.

(** The lookup the slow resolver still holds after destruction. *)
Definition late_lookup : ptr := 1.
Definition late_cell : r_dns_lookup_ctx :=
  default (mk_lookup None 0 false false false 0 0 false) (s_lookups slow_destroyed !! late_lookup).

Lemma late_answers_safe_witness :
  wp (r_dns_srv_cb_fn late_lookup 0 (Some [demo_srv])) (fun _ s' => destroyed s') slow_destroyed.
Proof.
  refine (wp_mono _ _ _ _ (proj1 (late_answers_safe late_lookup late_cell 0 (Some [demo_srv]) None
            slow_destroyed _ _ _ _)) _).
  - apply slow_is_destroyed.
  - vm_compute. reflexivity.
  - constructor; [apply demo_srv_wf|constructor].
  - exact I.
  - cbv beta. intros _ s' [Hd _]. exact Hd.
Defined.
