(* ===== verification/ProtocolTheorems.v ===== *)
(** * Keys, packets, schedules and discovery: theorems

    What the parts below the client's state machine guarantee: the credential
    decoder, the content identifiers, the wire format and its authentication,
    the retry schedule, the server identities of DNS discovery. *)

From Stdlib Require Import String Ascii.
From S2P Require Import Prelude.
From S2P Require Import Types.
From S2P Require Import Wire.
From S2P Require Import WireFacts.
From S2P Require Import Crypto.
From S2P Require Import KeyFacts.
From S2P Require Import Workflow.
From S2P Require Import State.
From S2P Require Import Hoare.
From S2P Require Import Schedule.
From S2P Require Import Dns.
From S2P Require Import DnsFacts.
From S2P Require Import Request.
From S2P Require Import RequestFacts.
From S2P Require Import PacketFacts.
From S2P Require Import ExtractFacts.
From S2P Require Import Client.
From S2P Require Import Ids.
From S2P Require Import Lifecycle.
From S2P Require Import Completion.
From S2P Require Import Datagram.
From S2P Require Import Admission.
From S2P Require Import Api.
From S2P Require Import Create.
From S2P Require Import Demo.

(** ** Keys *)

(** C5. The Bech32 credential decoder refines the reference decoder
    [key_decode]: on every NUL-terminated text it stays inside its buffers; it
    returns 0 and the key's type, id, secret and quotas exactly when no
    allocation failed and the reference decoder finds them, and -1 otherwise,
    with the quotas untouched. *)
Theorem api_key_decoder_refines (mem : allocs) text rest cap secret quotas t0 i0 l0 :
  0 ∉ text -> zlen text <= 2 ^ 59 -> 32 <= cap <= zlen secret ->
  decoded secret quotas
    (if mem 0%nat && mem 1%nat && mem 2%nat && mem 3%nat then key_decode text else None)
    (r_decode_api_key_bech32_with_quotas mem (Some (text ++ 0 :: rest)) cap
       (mk_key_out (Some t0) (Some i0) (Some secret) (Some l0) quotas)).
Proof. apply decode_spec. Qed.

Lemma api_key_decoder_refines_witness :
  decoded (replicate 64 0) (Some quotas_zero)
    (Some (mk_api_key R_AUTH_AES_GCM 2 (replicate 32 2) (mk_quotas 1 32768 512 2048 16 300 4194304)))
    (r_decode_api_key_bech32_with_quotas (fun _ => true) (Some (demo_text ++ [0])) 64
       (mk_key_out (Some 0) (Some 0) (Some (replicate 64 0)) (Some 0) (Some quotas_zero))).
Proof.
  assert (E : (if true && true && true && true then key_decode demo_text else None) =
    Some (mk_api_key R_AUTH_AES_GCM 2 (replicate 32 2) (mk_quotas 1 32768 512 2048 16 300 4194304)))
    by (vm_compute; reflexivity).
  rewrite <- E.
  apply (api_key_decoder_refines (fun _ => true) demo_text [] 64 (replicate 64 0) (Some quotas_zero) 0 0 0).
  - apply (bool_decide_unpack _). vm_compute. exact I.
  - vm_compute. discriminate.
  - vm_compute. split; discriminate.
Defined.

(** The checksum detects a wrong symbol and two neighbouring symbols swapped:
    when [r_bech32_verify_checksum] accepts the data symbols, it rejects them
    after one symbol was replaced by another or two different neighbours were
    exchanged. *)
Theorem checksum_detects_errors (mem : allocs) hrp rest pre v w post :
  0 ∉ hrp -> Forall ascii7 hrp -> Forall five_bit (v :: w :: pre ++ post) -> v <> w ->
  zlen hrp <= 2 ^ 59 -> zlen pre + zlen post <= 2 ^ 59 ->
  let verify data := r_bech32_verify_checksum mem (Some (hrp ++ 0 :: rest)) (Some data) (zlen data) in
  (verify (pre ++ v :: post) = Ok 1 -> verify (pre ++ w :: post) = Ok 0) /\
  (verify (pre ++ v :: w :: post) = Ok 1 -> verify (pre ++ w :: v :: post) = Ok 0).
Proof.
  intros Hn Ha H5 Hne Hl1 Hl2 verify. apply Forall_cons in H5 as [Hv H5]. apply Forall_cons in H5 as [Hw H5].
  apply Forall_app in H5 as [Hpre Hpost]. destruct (hrp_expand_small hrp Ha) as (_ & _ & Hx).
  assert (E : forall vs, Forall five_bit vs -> zlen vs <= 2 ^ 60 ->
    verify vs = Ok (if mem 0%nat && (polymod (hrp_expand hrp ++ vs) =? 1) then 1 else 0))
    by (intros vs H1 H2; apply checksum_spec; done || lia).
  assert (H30 : forall vs, Forall five_bit vs -> Forall (fun v => 0 <= v < 2 ^ 30) vs)
    by (intros vs H1; eapply Forall_impl; [exact H1|]; unfold five_bit; lia).
  assert (Hone : forall vs vs', verify vs = Ok 1 -> Forall five_bit vs -> Forall five_bit vs' ->
    zlen vs <= 2 ^ 60 -> zlen vs' <= 2 ^ 60 ->
    polymod (hrp_expand hrp ++ vs) <> polymod (hrp_expand hrp ++ vs') -> verify vs' = Ok 0).
  { intros vs vs' Hok F1 F2 L1 L2 Hp. rewrite E in Hok |- * by done.
    destruct (mem 0%nat); [|done]. cbn [andb] in *.
    destruct (Z.eqb_spec (polymod (hrp_expand hrp ++ vs)) 1) as [Ep|]; [|done].
    by rewrite (proj2 (Z.eqb_neq _ 1)) by congruence. }
  assert (F : forall l, Forall five_bit l -> Forall five_bit (pre ++ l)) by (intros; by apply Forall_app).
  split; intros Hok; (eapply (Hone _ _ Hok); [apply F; auto..| | |]);
    try (rewrite length_app; cbn [length]; lia).
  - rewrite !app_assoc. apply polymod_substitution; [|done]. apply H30.
    rewrite <- app_assoc. apply Forall_app. split; [done|]. apply F. auto.
  - rewrite !app_assoc. apply polymod_transposition; [|done].
    do 2 (constructor; [done|]). rewrite <- app_assoc. apply Forall_app. split; [done|]. by apply F.
Qed.

(** The data symbols of the key above, whose sixteenth is a 2. *)
Definition demo_symbols : list Z := default [] (values_of (drop 7 demo_text)).

Lemma checksum_detects_errors_witness :
  r_bech32_verify_checksum (fun _ => true) (Some (cbytes "rl-aes" ++ [0]))
    (Some (take 15 demo_symbols ++ 3 :: drop 16 demo_symbols)) (zlen demo_symbols) = Ok 0.
Proof.
  assert (El : zlen demo_symbols = zlen (take 15 demo_symbols ++ 3 :: drop 16 demo_symbols))
    by (vm_compute; reflexivity).
  rewrite El.
  apply (proj1 (checksum_detects_errors (fun _ => true) (cbytes "rl-aes") [] (take 15 demo_symbols) 2 3
           (drop 16 demo_symbols) ltac:(apply (bool_decide_unpack _); vm_compute; exact I)
           ltac:(repeat (constructor; [unfold ascii7; cbn; lia|]); constructor)
           ltac:(apply (bool_decide_unpack (Forall (fun v => 0 <= v < 32) _)); vm_compute; exact I)
           ltac:(discriminate) ltac:(vm_compute; discriminate) ltac:(vm_compute; discriminate))).
  vm_compute. reflexivity.
Defined.

(** The public key parser: the caller's structure is filled from the key on
    success and all zeros on failure, and the quotas of an accepted key are
    within the documented ranges (powers of two, a TTL limit of 10 to 2000 ms). *)
Theorem parse_auth_key_outcome (mem : allocs) text rest info :
  0 ∉ text -> zlen text <= 2 ^ 59 ->
  r_client_parse_auth_key mem (Some (text ++ 0 :: rest)) (Some info) =
  Ok (match (if mem 0%nat && mem 1%nat && mem 2%nat && mem 3%nat then key_decode text else None) with
      | Some k => (RCLIENT_OK, Some (key_info_of k))
      | None => (RCLIENT_ERR_CONFIG, Some key_info_zero)
      end) /\
  forall k, key_decode text = Some k ->
    length (ak_secret k) = 32%nat /\ is_bytes (ak_secret k) /\ is_u64 (ak_key_id k) /\
    (ak_type k = R_AUTH_COOKIE \/ ak_type k = R_AUTH_AES_GCM) /\
    1 <= bq_rate_buckets_max (ak_quotas k) <= 2 ^ 24 /\
    1 <= bq_latency_services_max (ak_quotas k) <= 2 ^ 24 /\
    1 <= bq_metrics_labels_max (ak_quotas k) <= 2 ^ 31 /\
    1 <= bq_latency_buffer_size_max (ak_quotas k) <= 2 ^ 15 /\
    10 <= bq_dedup_ttl_ms_max (ak_quotas k) <= 2000 /\
    1 <= bq_rate_window_size_ms_max (ak_quotas k) <= UINT32_MAX.
Proof.
  intros Hn Hl. split; [by apply parse_auth_key_spec|]. intros k Hk.
  destruct (key_decode_wf text k Hk) as (Hb & Hid & _).
  split; [by eapply key_decode_secret|]. split; [done|]. split; [done|].
  split; [by eapply key_decode_type|]. by eapply key_decode_quotas.
Qed.

Lemma parse_auth_key_outcome_witness :
  r_client_parse_auth_key (fun _ => true) (Some (demo_text ++ [0])) (Some key_info_zero) =
  Ok (RCLIENT_OK, Some (mk_key_info 1 R_AUTH_AES_GCM 2 (replicate 32 2) 32 32768 512 2048 16 300 4194304)).
Proof.
  rewrite (proj1 (parse_auth_key_outcome (fun _ => true) demo_text [] key_info_zero
    ltac:(apply (bool_decide_unpack _); vm_compute; exact I) ltac:(vm_compute; discriminate))).
  vm_compute. reflexivity.
Defined.

(** ** Content identifiers *)

(** Bucket and latency-tracker ids are the first 16 bytes of a BLAKE2s digest
    of an injective encoding: two buckets (or two trackers) that differ in name
    or in any parameter, and any bucket and tracker, hash different messages. *)
Theorem content_ids_separate {ssl : OpenSSL} {laws : DigestLaws ssl} name junk w r n2 w2 r2 t m k t2 m2 k2 out :
  zlen name <= UINT32_MAX -> zlen n2 <= UINT32_MAX -> Forall is_u32 [w; r; w2; r2; t; m; k; t2; m2; k2] ->
  16 <= zlen out ->
  r_client_derive_bucket_id (Some (name ++ junk)) (zlen name) w r (Some out) =
    Ok (derived (bucket_preimage name w r) out) /\
  r_client_derive_latency_tracker_id (Some (name ++ junk)) (zlen name) t m k (Some out) =
    Ok (derived (tracker_preimage name t m k) out) /\
  (bucket_preimage name w r = bucket_preimage n2 w2 r2 -> name = n2 /\ w = w2 /\ r = r2) /\
  (tracker_preimage name t m k = tracker_preimage n2 t2 m2 k2 -> name = n2 /\ t = t2 /\ m = m2 /\ k = k2) /\
  bucket_preimage name w r <> tracker_preimage n2 t m k.
Proof.
  intros Hn Hn2 Hu Ho. repeat (apply Forall_cons in Hu as [? Hu]).
  split; [by apply bucket_id_spec|]. split; [by apply tracker_id_spec|].
  assert (Hi : forall a b fs fs', zlen a <= UINT32_MAX -> zlen b <= UINT32_MAX -> Forall is_u32 fs ->
    Forall is_u32 fs' -> length fs = length fs' -> forall d, preimage d a fs = preimage d b fs' ->
    a = b /\ fs = fs') by (intros a b fs fs' ? ? ? ? ? d E; eapply preimage_inj; [..|exact E]; done || rlia).
  split; [|split; [|apply bucket_tracker_disjoint]].
  - intros E. apply Hi in E as [-> [= -> ->]]; [done|done|done|auto 10..|done].
  - intros E. apply Hi in E as [-> [= -> -> ->]]; [done|done|done|auto 10..|done].
Qed.

Lemma content_ids_separate_witness :
  bucket_preimage (cbytes "login") 1000 100 <> bucket_preimage (cbytes "login") 1000 101.
Proof.
  destruct (content_ids_separate (cbytes "login") [] 1000 100 (cbytes "login") 1000 101 0 0 0 0 0 0
    (replicate 16 0) ltac:(vm_compute; discriminate) ltac:(vm_compute; discriminate)
    ltac:(repeat (constructor; [rlia|]); constructor) ltac:(vm_compute; discriminate)) as (_ & _ & Hb & _).
  intros E. apply Hb in E as (_ & _ & E). discriminate.
Defined.

(** ** Packets *)

(** The tenant header survives the wire: what [r_tenant_header_write] stores in
    a block, [r_tenant_header_read] returns, and reading any 40 bytes yields the
    one header they are the image of. *)
Theorem tenant_header_roundtrip h b len o :
  wf_tenant h -> is_bytes b -> R_TENANT_TLV_LEN <= len <= zlen b ->
  (exists b', r_tenant_header_write (Some h) (Some b) len = Ok (Some b') /\ zlen b' = zlen b /\
     r_tenant_header_read (Some b') len (Some o) = Ok (RCLIENT_OK, Some h)) /\
  (exists h', r_tenant_header_read (Some b) len (Some o) = Ok (RCLIENT_OK, Some h') /\
     wf_tenant h' /\ take 40 b = ser_tenant h').
Proof.
  intros Hw Hb Hl. pose proof (ser_tenant_length h Hw) as Hlen. split; [|by apply tenant_header_read_spec].
  rewrite tenant_header_write_wr by (done || lia).
  destruct (wr_defined b 0 (ser_tenant h)) as [b' Hb']; [lia|unfold R_TENANT_TLV_LEN in Hl; lia|].
  rewrite Hb'. pose proof (wr_Ok _ _ _ _ Hb') as (_ & _ & Hl'). exists b'. split; [done|]. split; [lia|].
  apply wr0_eq in Hb' as ->. apply tenant_header_read_ser; [done|by apply Forall_drop|lia].
Qed.

Lemma tenant_header_roundtrip_witness :
  exists b', r_tenant_header_write (Some demo_header) (Some (replicate 64 0)) 64 = Ok (Some b') /\
             r_tenant_header_read (Some b') 64 (Some tenant_zero) = Ok (RCLIENT_OK, Some demo_header).
Proof.
  destruct (tenant_header_roundtrip demo_header (replicate 64 0) 64 tenant_zero demo_header_wf
    (zeros_bytes 64) ltac:(vm_compute; split; discriminate)) as [(b' & E1 & _ & E2) _].
  exists b'. exact (conj E1 E2).
Defined.

(** The request body builder stays inside the first [out_cap] bytes of any
    output block; it succeeds exactly when the counts, the label and the whole
    body fit, and the block then starts with the wire image: counts, 36-byte
    guards, 28-byte resources, padded label. *)
Theorem request_body_image rsp gsp gs rs ml n ol out cap oldlen :
  array_arg gsp gs -> array_arg rsp rs ->
  Forall wf_latency_guard gs -> Forall wf_resource_request rs -> is_object gs -> is_object rs ->
  is_object out -> 0 <= cap <= zlen out -> effective_label ml n = Ok ol ->
  built out cap oldlen (request_fits gs rs ol cap) (ser_request_body gs rs ol)
    (r_build_rate_request_body rsp (zlen rs) gsp (zlen gs) ml n (Some out) cap (Some oldlen)).
Proof. apply rate_request_body_built. Qed.

Lemma request_body_image_witness :
  built (replicate 100 0) 80 7 true (ser_request_body [demo_guard] [demo_resource] (Some (cbytes "ab")))
    (r_build_rate_request_body (Some [demo_resource]) 1 (Some [demo_guard]) 1 (Some (cstr "ab")) 0
       (Some (replicate 100 0)) 80 (Some 7)).
Proof.
  assert (E : request_fits [demo_guard] [demo_resource] (Some (cbytes "ab")) 80 = true)
    by (vm_compute; reflexivity).
  rewrite <- E.
  apply (request_body_image (Some [demo_resource]) (Some [demo_guard]) [demo_guard] [demo_resource]).
  - left. reflexivity.
  - left. reflexivity.
  - apply demo_guards_wf.
  - apply demo_resources_wf.
  - reflexivity.
  - reflexivity.
  - reflexivity.
  - vm_compute. split; discriminate.
  - vm_compute. reflexivity.
Defined.

(** C30. The packet of a request, when one is built, is the tenant header with the
    client's key id, the request id and the start time, the credential's
    authentication block, and the PDU that serializes exactly the request's
    guards, resources and label with its TTL; it is at most 1200 bytes; every
    other outcome is an error code that says why: the client has no credential,
    the packet is too large, or the nonce or the cipher failed; and only the
    host's state changes. *)
Theorem request_packet_image {W : Type} `{HL : HostLaws W} {ssl : OpenSSL} {laws : AesGcmLaws ssl}
    p r gs rs ol out (s : sys W) :
  s_reqs s !! p = Some r -> auth_ok (cl_fixed (s_client s)) -> inputs_ok r gs rs ol ->
  is_id16 (rq_request_id r) -> is_u64 (rq_start_ms r) -> zlen out = R_MAX_PACKET_SIZE ->
  wp (r_build_rate_request_packet p out R_MAX_PACKET_SIZE) (fun res s' =>
    only_world s s' /\ let '(rc, out', n) := res in
    zlen out' = zlen out /\
    (rc = RCLIENT_OK -> exists ts bytes,
       is_u64 ts /\ (rq_start_ms r <> 0 -> ts = rq_start_ms r) /\
       sealed (cl_fixed (s_client s)) (ser_tenant (request_tenant (cl_fixed (s_client s))
                 (rq_request_id r) ts)) (request_pdu r gs rs ol) bytes /\
       n = zlen bytes /\ zlen bytes <= R_MAX_PACKET_SIZE /\
       take (Z.to_nat n) out' = bytes) /\
    (rc <> RCLIENT_OK -> unsealed (cl_fixed (s_client s)) (8 + zlen (ser_request_body gs rs ol)) rc)) s.
Proof. apply rate_request_packet_spec. Qed.

Lemma request_packet_image_witness :
  wp (r_build_rate_request_packet demo_req stack_buffer R_MAX_PACKET_SIZE)
     (fun res s' => only_world demo_waiting s') demo_waiting.
Proof.
  eapply wp_mono; [apply (request_packet_image demo_req demo_cell [demo_guard] [demo_resource] None)|].
  - apply demo_req_cell.
  - apply (co_auth _ (ci_cfg _ _ _ demo_waiting_inv)).
  - apply demo_inputs.
  - apply demo_cell_id.
  - vm_compute. split; [discriminate|reflexivity].
  - apply stack_buffer_len.
  - cbv beta. intros [[rc out'] n] s' [Hw _]. exact Hw.
Defined.

(** C11. Only authenticated packets get through: whatever bytes arrive, the
    extraction reads inside the packet, and when it succeeds the packet is a
    header, the authentication block of the client's own credential (the exact
    cookie, or a nonce and tag under which the rest opens with the client's key
    and the header as additional data), and the PDU returned. *)
Theorem extraction_authentic {W : Type} `{HL : HostLaws W} {ssl : OpenSSL} {laws : AesGcmLaws ssl}
    c buf len pos (s : sys W) :
  auth_ok c -> is_bytes buf -> 0 <= pos <= len -> 0 <= len <= zlen buf -> is_object buf ->
  wp (r_extract_pdu_data c buf len pos R_MAX_PACKET_SIZE) (extract_post c buf len pos s) s.
Proof. apply extract_pdu_authentic. Qed.

Lemma extraction_authentic_witness :
  wp (r_extract_pdu_data (cl_fixed (s_client demo_waiting)) demo_reply (zlen demo_reply) 40 R_MAX_PACKET_SIZE)
     (extract_post (cl_fixed (s_client demo_waiting)) demo_reply (zlen demo_reply) 40 demo_waiting) demo_waiting.
Proof.
  destruct (rp_bytes _ _ _ _ _ demo_replies) as [Hb Ho].
  apply extraction_authentic; [apply (co_auth _ (ci_cfg _ _ _ demo_waiting_inv))|exact Hb| | |exact Ho].
  - vm_compute. split; discriminate.
  - vm_compute. split; discriminate.
Defined.

(** C32. What is sealed under the client's credential it can open: extraction
    returns exactly the PDU, for cookies always and for AES-GCM whenever the
    cipher context can be allocated. *)
Theorem seal_then_extract {W : Type} `{HL : HostLaws W} {ssl : OpenSSL} {laws : AesGcmLaws ssl}
    c hdr pdu bytes (s : sys W) :
  auth_ok c -> zlen hdr = 40 -> is_bytes hdr -> is_bytes pdu -> pdu <> [] ->
  zlen pdu <= R_MAX_PACKET_SIZE -> sealed c hdr pdu bytes -> is_bytes bytes ->
  wp (r_extract_pdu_data c bytes (zlen bytes) 40 R_MAX_PACKET_SIZE) (roundtrip_post c pdu s) s.
Proof. apply seal_extract_roundtrip. Qed.

Lemma seal_then_extract_witness :
  wp (r_extract_pdu_data (cl_fixed (s_client demo_waiting)) demo_reply (zlen demo_reply) 40 R_MAX_PACKET_SIZE)
     (roundtrip_post (cl_fixed (s_client demo_waiting)) demo_pdu demo_waiting) demo_waiting.
Proof.
  destruct demo_replies as [(Hw & _) _ _ (Hpb & Hpl & _) Hs [Hb _]].
  apply (seal_then_extract _ (ser_tenant demo_header)).
  - apply (co_auth _ (ci_cfg _ _ _ demo_waiting_inv)).
  - exact (ser_tenant_length demo_header Hw).
  - exact (ser_tenant_bytes demo_header Hw).
  - exact Hpb.
  - discriminate.
  - exact Hpl.
  - exact Hs.
  - exact Hb.
Defined.

(** C29. The response parser never reads outside the PDU, whatever the bytes: it
    accepts exactly the well-formed responses that fit the caller's arrays, then
    returns every guard and resource block and [success] iff all guards passed
    and no deficit is left; on rejection the counts and the flag are untouched. *)
Theorem response_parser_exact b pdu_len gcap rcap o :
  is_bytes b -> 0 <= pdu_len <= zlen b ->
  array_cap (ro_guards o) gcap -> array_cap (ro_resources o) rcap ->
  exists o', r_parse_rate_response_pdu (Some b) pdu_len gcap rcap o =
    Ok (if resp_valid b pdu_len && resp_fits_caps b gcap rcap
        then RCLIENT_OK else RCLIENT_ERR_PROTOCOL, o') /\
    if resp_valid b pdu_len && resp_fits_caps b gcap rcap then
      o' = mk_response_out (overlay (ro_guards o) (resp_guards b))
             (store (ro_guard_count o) (resp_guard_count b))
             (overlay (ro_resources o) (resp_resources b))
             (store (ro_res_count o) (resp_resource_count b))
             (store (ro_success o) (resp_success b))
    else ro_guard_count o' = ro_guard_count o /\ ro_res_count o' = ro_res_count o /\
         ro_success o' = ro_success o.
Proof. apply parse_rate_response_spec. Qed.

Lemma response_parser_exact_witness :
  exists o', r_parse_rate_response_pdu (Some demo_pdu) 12 0 0
               (mk_response_out None (Some 9) None (Some 9) (Some false)) = Ok (RCLIENT_OK, o') /\
             ro_success o' = Some true.
Proof.
  destruct (response_parser_exact demo_pdu 12 0 0 (mk_response_out None (Some 9) None (Some 9) (Some false)))
    as (o' & E & Ho).
  - apply bytes_decided. vm_compute. reflexivity.
  - vm_compute. split; discriminate.
  - vm_compute. discriminate.
  - vm_compute. discriminate.
  - exists o'. split; [exact E|].
    assert (Ev : resp_valid demo_pdu 12 && resp_fits_caps demo_pdu 0 0 = true) by (vm_compute; reflexivity).
    rewrite Ev in Ho. rewrite Ho. vm_compute. reflexivity.
Defined.

(** One datagram goes to each addressed endpoint, in order: all of them, or
    only those that have not answered yet.  The result is an error only when
    there was someone to send to and nothing was delivered; a partial delivery
    adds the missed endpoints to the saturating failure counter, except on
    best-effort sends. *)
Theorem sends_to_each_target {W : Type} `{HL : HostLaws W} p r packet len missing_only best_effort (s : sys W) :
  s_reqs s !! p = Some r -> Forall wf_endpoint (rq_targets r) ->
  Forall wf_addr (rq_seen_addrs r) -> zlen (rq_targets r) < 2 ^ 63 ->
  cf_io_udp_send (cl_fixed (s_client s)) = true -> 0 < len <= zlen packet ->
  is_u64 (cl_send_failure_count (s_client s)) ->
  wp (r_send_packet_to_targets p packet len missing_only best_effort) (fun rc s' =>
    exists tr w,
      Forall2 (is_send_to (take (Z.to_nat len) packet)) (send_targets r missing_only) tr /\
      let a := zlen (send_targets r missing_only) in
      let d := delivered_count tr in
      rc = (if negb best_effort && (0 <? a) && (d =? 0) then RCLIENT_ERR_IO else RCLIENT_OK) /\
      s' = set_client (count_failures best_effort a d (s_client s))
             (set_trace (s_trace s ++ tr) (set_world w s))) s.
Proof. apply send_packet_wp. Qed.

Lemma sends_to_each_target_witness :
  wp (r_send_packet_to_targets demo_req demo_reply 40 true false)
     (fun rc _ => rc = RCLIENT_OK \/ rc = RCLIENT_ERR_IO) demo_waiting.
Proof.
  pose proof (inflight_req ∅ demo_waiting demo_req demo_waiting_inv demo_inflight) as (r & Hr & Hd & _).
  eapply wp_mono; [apply (sends_to_each_target demo_req r)|].
  - exact Hr.
  - apply (rd_targets _ Hd).
  - apply (rd_seen_addrs _ Hd).
  - apply (rd_targets _ Hd).
  - vm_compute. reflexivity.
  - vm_compute. split; [reflexivity|discriminate].
  - apply (ci_failures _ _ _ demo_waiting_inv).
  - cbv beta zeta. intros rc s' (tr & w & _ & -> & _).
    destruct (negb false && _ && _); [right|left]; reflexivity.
Defined.

(** Request and report ids are version-4 UUIDs: 16 random bytes with the
    version and variant bits set; when the random source fails the result is
    [RCLIENT_ERR_AUTH]. *)
Theorem request_ids_are_uuid4 {W : Type} `{HL : HostLaws W} (s : sys W) :
  wp r_generate_request_id (fun r s' => only_world s s' /\
    ((fst r = RCLIENT_OK /\ is_uuid4 (snd r)) \/
     (fst r = RCLIENT_ERR_AUTH /\ snd r = replicate 16 0 /\ exists w, fst (h_rand_bytes 16 w) = None))) s.
Proof. apply generate_request_id_wp. Qed.

Lemma request_ids_are_uuid4_witness :
  wp r_generate_request_id (fun r _ => fst r = RCLIENT_OK -> is_uuid4 (snd r)) demo_started.
Proof.
  eapply wp_mono; [apply request_ids_are_uuid4|]. cbv beta.
  intros r s' [_ [[_ Hid]|(Hrc & _)]]; [intros _; exact Hid|intros E; rewrite Hrc in E; discriminate].
Defined.

(** ** Schedules *)

(** C34. Every round duration the scheduler computes: an invalid schedule is
    [RCLIENT_ERR_CONFIG] with the output untouched, and a valid one gives
    min(max, initial), min(max, initial + k*step) or min(max, initial*factor^k),
    which never shrinks with [k], without 32-bit overflow. *)
Theorem schedule_units_exact h round old :
  wf_schedule h -> is_u32 round ->
  r_ha_schedule_units (Some h) round false (Some old) =
    (if schedule_valid h then (RCLIENT_OK, Some (schedule_units h round))
     else (RCLIENT_ERR_CONFIG, Some old)) /\
  (schedule_valid h = true ->
     hs_initial_units h <= schedule_units h round <= hs_max_units h /\
     forall k, 0 <= k <= round -> schedule_units h k <= schedule_units h round).
Proof.
  intros Hw Hr. split; [by apply ha_schedule_units_spec|]. intros Hv.
  split; [apply schedule_units_range; [done|done|rlia]|]. intros k Hk. by apply schedule_units_mono.
Qed.

Lemma schedule_units_exact_witness :
  r_ha_schedule_units (Some (mk_schedule R_HA_SCHEDULE_EXPONENTIAL 3 4000000000 7)) 12 false (Some 0) =
  (RCLIENT_OK, Some 4000000000).
Proof.
  rewrite (proj1 (schedule_units_exact (mk_schedule R_HA_SCHEDULE_EXPONENTIAL 3 4000000000 7) 12 0
    ltac:(repeat split; cbn; lia) ltac:(rlia))).
  vm_compute. reflexivity.
Defined.

(** C10. The TTL a request carries is exactly unit * (B(0) + ... + B(R) + F),
    computed without 32- or 64-bit wrap-around, never above the credential's
    quota, and the policy is refused with [RCLIENT_ERR_CONFIG] precisely when
    its unit is zero, it has too many replays, its schedule is malformed or the
    TTL would exceed that limit; the computation always terminates. *)
Theorem request_ttl_exact c old :
  wf_policy (cf_policy c) -> is_u32 (bq_dedup_ttl_ms_max (cf_quotas c)) ->
  r_request_policy_ttl_ms (Some c) (Some old) =
  Ok (if policy_valid c
      then (RCLIENT_OK, Some (ttl_units (cf_policy c) * rp_unit_ms (cf_policy c)))
      else (RCLIENT_ERR_CONFIG, Some old)).
Proof. apply request_policy_ttl_spec. Qed.

Lemma request_ttl_exact_witness :
  r_request_policy_ttl_ms (Some (cl_fixed (s_client demo_started))) (Some 0) = Ok (RCLIENT_OK, Some 60).
Proof.
  rewrite (request_ttl_exact (cl_fixed (s_client demo_started)) 0
    (co_policy _ (ci_cfg _ _ _ demo_inv)) (co_quota _ (ci_cfg _ _ _ demo_inv))).
  vm_compute. reflexivity.
Defined.

(** ** Discovery *)

(** The server id of an SRV target is the decimal number of its first label
    [s-<digits>], modulo 2^64 for one with too many digits; every other target
    is skipped.  No target string makes the parser read past its end. *)
Theorem server_id_of_target t b :
  is_cstring t ->
  r_parse_server_id_from_target (Some t) (Some b) =
  Ok (match server_label t with
      | Some v => (v mod 2 ^ 64, Some true)
      | None => (0, Some false)
      end).
Proof. apply parse_server_id_spec. Qed.

(** 2^64 + 5 is taken for server 5. *)
Lemma server_id_of_target_witness :
  r_parse_server_id_from_target (Some (cstr "s-18446744073709551621.example.net")) (Some false) =
  Ok (5, Some true).
Proof.
  rewrite (server_id_of_target (cstr "s-18446744073709551621.example.net") false).
  - vm_compute. reflexivity.
  - split; [apply bytes_decided; vm_compute; reflexivity|unfold cstr; set_solver].
Defined.

(** The preference between two servers (earlier start time, then smaller id)
    is exactly the order of their 64-bit ids, without overflow in the start-time
    computation; a server is the oldest known one when no id the request may
    hear from is smaller. *)
Theorem older_server_is_smaller_id r a b :
  is_u64 a -> is_u64 b -> Forall is_u64 (rq_allowed_ids r) ->
  r_server_is_older a b = (a <? b) /\
  r_is_oldest_known_server r a = forallb (fun x => a <=? x) (rq_allowed_ids r).
Proof. intros Ha Hb Hr. split; [by apply server_is_older_spec|by apply oldest_known_spec]. Qed.

Lemma older_server_is_smaller_id_witness :
  r_server_is_older 7 (2 ^ 63) = true /\ r_is_oldest_known_server demo_cell 7 = true.
Proof.
  destruct (older_server_is_smaller_id demo_cell 7 (2 ^ 63)) as [E1 E2].
  - rlia.
  - rlia.
  - apply (bool_decide_unpack (Forall (fun z => 0 <= z < 2 ^ 64) _)). vm_compute. exact I.
  - rewrite E1, E2. vm_compute. auto.
Defined.

(** The refresh jitter is uniform-range safe: for every configured maximum
    below 2^64 - 1 the draw is between 0 and the maximum; at 2^64 - 1 the
    modulus wraps to zero and a successful draw is undefined behaviour. *)
Theorem jitter_range {W : Type} `{HL : HostLaws W} max (s : sys W) :
  is_u64 max ->
  (max < UINT64_MAX -> wp (r_rand_range max) (fun r s' => 0 <= r <= max /\ only_world s s') s) /\
  (max = UINT64_MAX -> forall bs w, h_rand_bytes 8 (s_world s) = (Some bs, w) -> r_rand_range max s = UB).
Proof.
  intros Hm. split; [by apply rand_range_wp|]. intros -> bs w E.
  unfold r_rand_range, rand_bytes, world_op, mbind, M_bind. cbn [Z.eqb]. rewrite E. reflexivity.
Qed.

Lemma jitter_range_witness : r_rand_range UINT64_MAX demo_started = UB.
Proof.
  apply (proj2 (jitter_range UINT64_MAX demo_started ltac:(rlia)) eq_refl (replicate 8 9)
           (s_world demo_started)).
  vm_compute. reflexivity.
Defined.

(** A finished refresh replaces the server list by the endpoints it found and
    keeps the old list when it found none; the refresh object is freed and the
    client may start another one. *)
Theorem refresh_keeps_servers {W : Type} `{HL : HostLaws W} X p rf (s : sys W) :
  dns_inv X (Some p) s -> s_refreshes s !! p = Some rf ->
  rf_pending rf = 0 -> rf_scheduling rf = 0 -> rf_client rf = true -> rf_detached rf = false ->
  wp (r_dns_refresh_finish p) (fun _ s' =>
    dns_inv X None s' /\ s_refreshes s' = delete p (s_refreshes s) /\
    cl_dns_refresh (s_client s') = None /\
    cl_servers (s_client s') =
      (if decide (rf_endpoints rf = []) then cl_servers (s_client s) else rf_endpoints rf)) s.
Proof.
  intros HI Hp E1 E2 E3 E4. eapply wp_mono; [by eapply refresh_finish_wp|]. cbv beta.
  intros _ s' (H1 & _ & _ & H2 & H3 & H4). done.
Qed.

(** A client that knows one server, whose refresh is about to finish empty-handed. *)
Definition idle_refresh : r_dns_refresh := mk_refresh true false 0 0 [] [] 0 0.
Definition idle_state : sys demo_world :=
  mk_sys (set_cl_dns_refresh (Some 5%nat) (set_cl_dns_refresh_inflight true
            (set_cl_server_cap 4 (set_cl_servers [mk_endpoint demo_addr 7 true]
               (client_blank demo_config demo_ops)))))
         ∅ {[5%nat := idle_refresh]} ∅ ∅ 6 (mk_world 1000 true) [].

Lemma idle_inv : dns_inv None (Some 5%nat) idle_state.
Proof.
  split; cbn [idle_state s_lookups s_refreshes s_client s_next set_cl_dns_refresh cl_dns_refresh
              set_cl_dns_refresh_inflight cl_dns_refresh_inflight cl_servers cl_server_cap
              set_cl_server_cap set_cl_servers].
  - intros l lk E. by rewrite lookup_empty in E.
  - intros p rf E. apply lookup_singleton_Some in E as [<- <-]. split; [|lia].
    split; cbn.
    + constructor.
    + intros l Hl. by apply not_elem_of_nil in Hl.
    + done.
    + done.
    + vm_compute. repeat split; discriminate.
    + constructor.
    + by left.
    + by left.
  - intros p [= <-]. rewrite lookup_singleton_eq. by eexists.
  - done.
  - done.
  - done.
  - vm_compute. repeat split; discriminate.
  - constructor; [|constructor]. split; [apply demo_addr_wf|cbn; rlia].
Qed.

Lemma refresh_keeps_servers_witness :
  wp (r_dns_refresh_finish 5%nat)
     (fun _ s' => cl_servers (s_client s') = [mk_endpoint demo_addr 7 true]) idle_state.
Proof.
  eapply wp_mono; [apply (refresh_keeps_servers None 5%nat idle_refresh);
    [apply idle_inv|reflexivity|reflexivity|reflexivity|reflexivity|reflexivity]|].
  cbv beta. intros _ s' (_ & _ & _ & Hs). exact Hs.
Defined.

(** ** Callbacks *)

(** Callbacks that compute and make legal calls into the client, any number
    of them, whose callbacks do so in turn to any depth, meet the contract under
    which the client was proved safe: they return with the invariant kept and
    the requests further up the stack untouched. *)
Theorem callbacks_may_call_back {W : Type} (base : Host W) {HLb : HostLaws W} {HRb : Reentrant W}
    {ssl : OpenSSL} {laws : AesGcmLaws ssl} {dlaws : DigestLaws ssl}
    (turn : Z -> Z -> option ptr -> Z -> option r_rate_limit_result -> sys W -> W * option api)
    (aturn : Z -> Z -> Z -> r_admission_outcome -> sys W -> W * option api) fuel depth :
  (forall cb user req status res, lawful (turn cb user req status res)) ->
  (forall cb user status outcome, lawful (aturn cb user status outcome)) ->
  (forall cb user req status res X s,
     client_inv X s -> (forall p, req = Some p -> p ∈ X) -> result_ok res ->
     exists s', h_complete (Host := nest turn aturn base fuel depth) cb user req status res s = Ok s' /\
                client_inv X s' /\ call_frame X s s') /\
  (forall cb user status outcome X s,
     client_inv X s -> cb <> 0 ->
     exists s', h_admission (Host := nest turn aturn base fuel depth) cb user status outcome s = Ok s' /\
                client_inv X s' /\ call_frame X s s').
Proof.
  intros H1 H2. destruct (nest_reentrant turn aturn base fuel depth H1 H2) as (HL & HR).
  { by exists HLb. }
  destruct HR as [Hc Ha]. split; [intros; by apply Hc|intros; by apply Ha].
Qed.

(** Callbacks that make another check, nested five deep. *)
Lemma callbacks_may_call_back_witness :
  exists s', h_complete (Host := nest (fun _ _ _ _ _ s => (s_world s, Some demo_call))
                                      (fun _ _ _ _ s => (s_world s, Some demo_call)) demo_host 2 5)
               3 77 None RCLIENT_OK None demo_waiting = Ok s' /\ client_inv ∅ s'.
Proof.
  destruct (callbacks_may_call_back demo_host (fun _ _ _ _ _ s => (s_world s, Some demo_call))
    (fun _ _ _ _ s => (s_world s, Some demo_call)) 2 5) as [Hc _].
  - intros cb user req status res X s w a _ E. injection E as <- <-. apply demo_call_legal.
  - intros cb user status outcome X s w a _ E. injection E as <- <-. apply demo_call_legal.
  - destruct (Hc 3 77 None RCLIENT_OK None ∅ demo_waiting demo_waiting_inv) as (s' & E & HI & _).
    + intros p Hp. discriminate Hp.
    + exact I.
    + exists s'. exact (conj E HI).
Defined.
