(* ===== verification/WorkflowTheorems.v ===== *)
(** * The admission workflow: theorems

    What an application that uses the caller-owned admission storage relies
    on: which requests are made for a configuration, what the decision means,
    that exactly one callback tells it, that cancellation is silent and that a
    latency is reported at most once. *)

From Stdlib Require Import String Ascii.
From S2P Require Import Prelude.
From S2P Require Import Types.
From S2P Require Import Wire.
From S2P Require Import WireFacts.
From S2P Require Import Crypto.
From S2P Require Import Workflow.
From S2P Require Import State.
From S2P Require Import Hoare.
From S2P Require Import Request.
From S2P Require Import RequestFacts.
From S2P Require Import PacketFacts.
From S2P Require Import ExtractFacts.
From S2P Require Import Schedule.
From S2P Require Import Dns.
From S2P Require Import DnsFacts.
From S2P Require Import Ids.
From S2P Require Import Client.
From S2P Require Import WorkflowOps.
From S2P Require Import Lifecycle.
From S2P Require Import Completion.
From S2P Require Import Datagram.
From S2P Require Import Admission.
From S2P Require Import WorkflowFacts.
From S2P Require Import Api.
From S2P Require Import Create.
From S2P Require Import Demo.

(** ** Classification *)

(** [x] is the first element of [l] with [P]. *)
Definition first_with {A} (P : A -> Prop) (l : list A) (x : A) : Prop :=
  exists before after, l = before ++ x :: after /\ P x /\ Forall (fun y => ~ P y) before.

Definition in_deficit (x : r_resource_result) : Prop := 0 < rs_tokens_deficit x.
Definition failed (g : r_guard_result) : Prop := gr_passed g = false.

(** What a denial says: the first deficit, the first failed guard, and which of
    the two limits it was; a denial that nothing explains counts as a resource
    denial without a deficit. *)
Record denial (rs : list r_resource_result) (gs : list r_guard_result) (o : r_admission_outcome) : Prop := {
  dn_allowed : oc_allowed o = false;
  dn_latency :
    (exists g, first_with failed gs g /\ oc_latency_limited o = true /\
       oc_current_latency_ms o = gr_current_latency_ms g /\ oc_latency_threshold_ms o = gr_threshold_ms g) \/
    (Forall (fun g => ~ failed g) gs /\ oc_latency_limited o = false /\
       oc_current_latency_ms o = 0 /\ oc_latency_threshold_ms o = 0);
  dn_rate :
    (exists x, first_with in_deficit rs x /\ oc_rate_limited o = true /\
       oc_tokens_deficit o = rs_tokens_deficit x) \/
    (Forall (fun x => ~ in_deficit x) rs /\ oc_rate_limited o = negb (oc_latency_limited o) /\
       oc_tokens_deficit o = 0);
  dn_decision : oc_decision o =
    match oc_rate_limited o, oc_latency_limited o with
    | true, true => R_ADMISSION_RATE_AND_LATENCY_LIMITED
    | false, true => R_ADMISSION_LATENCY_LIMITED
    | _, false => R_ADMISSION_RATE_LIMITED
    end;
}.

(** What a decision says of the status and the result it classifies. *)
Inductive decided (status : Z) : option r_rate_limit_result -> r_admission_outcome -> Prop :=
| decided_error res :
    status <> RCLIENT_OK \/ res = None ->
    decided status res (mk_outcome R_ADMISSION_ERROR false false false 0 0 0)
| decided_allowed r :
    status = RCLIENT_OK -> rl_success r = true ->
    decided status (Some r) (mk_outcome R_ADMISSION_ALLOWED true false false 0
      (match default [] (rl_guards r) with g :: _ => gr_current_latency_ms g | [] => 0 end)
      (match default [] (rl_guards r) with g :: _ => gr_threshold_ms g | [] => 0 end))
| decided_denied r o :
    status = RCLIENT_OK -> rl_success r = false ->
    denial (default [] (rl_resources r)) (default [] (rl_guards r)) o -> decided status (Some r) o.

(** The head of a filtered list. *)
Lemma head_filter {A} (P : A -> Prop) `{!forall x, Decision (P x)} (l : list A) :
  (exists x l', filter P l = x :: l' /\ first_with P l x) \/ (filter P l = [] /\ Forall (fun x => ~ P x) l).
Proof.
  induction l as [|a l IH]; [right; split; [done|constructor]|]. rewrite filter_cons. destruct (decide (P a)) as [Ha|Ha].
  - left. exists a, (filter P l). split; [done|]. by exists [], l.
  - destruct IH as [(x & l' & E & b & c & -> & Hx & Hb)|[E Hn]]; [left|right; by split; [|constructor]].
    exists x, l'. split; [done|]. exists (a :: b), c. split; [done|]. split; [done|]. by constructor.
Qed.

Lemma head_failures gs :
  (exists g l, failures gs = g :: l /\ first_with failed gs g) \/
  (failures gs = [] /\ Forall (fun g => ~ failed g) gs).
Proof. apply (head_filter (fun g => gr_passed g = false)). Qed.

Lemma head_deficits rs :
  (exists x l, deficits rs = rs_tokens_deficit x :: l /\ first_with in_deficit rs x) \/
  (deficits rs = [] /\ Forall (fun x => ~ in_deficit x) rs).
Proof.
  unfold deficits. induction rs as [|x rs IH]; [right; split; [done|constructor]|].
  cbn [map]. rewrite filter_cons. destruct (decide (0 < rs_tokens_deficit x)) as [Hx|Hx].
  - left. exists x. eexists. split; [done|]. by exists [], rs.
  - destruct IH as [(y & l & E & b & c & -> & Hy & Hb)|[E Hn]]; [left|right; split; [done|by constructor]].
    exists y, l. split; [done|]. exists (x :: b), c. split; [done|]. split; [done|]. by constructor.
Qed.

Lemma classified_denial rs gs : denial rs gs (classified false gs rs).
Proof.
  unfold classified. destruct (head_deficits rs) as [(x & dl & -> & Hx)|[-> Hx]],
    (head_failures gs) as [(g & fl & -> & Hg)|[-> Hg]]; split; cbn; eauto 7.
Qed.

(** C37. The decision of [r_client_admission_classify]: it never reads outside
    the result; an error status or a missing result is an error; the server's
    success is an admission, with the first guard's latency and threshold; a
    denial is latency limited exactly when a guard failed, with the first failed
    guard's latency and threshold, and rate limited when a resource has a
    deficit, with the first one, or when nothing else explains it; and the
    decision names exactly the limits that apply. *)
Theorem admission_decision status res :
  result_ok res -> exists o, r_client_admission_classify status res = Ok o /\ decided status res o.
Proof.
  intros Hres. rewrite classify_spec by done. eexists. split; [reflexivity|].
  destruct res as [r|]; [|apply decided_error; by right].
  destruct (Z.eqb_spec status RCLIENT_OK) as [->|Hne]; [|apply decided_error; by left].
  destruct (rl_success r) eqn:Es; [|apply decided_denied; [done|done|apply classified_denial]].
  unfold classified.
  pose proof (decided_allowed RCLIENT_OK r eq_refl Es) as Ha. by destruct (default [] (rl_guards r)).
Qed.

(** A denial with one deficit and one failed guard. *)
Lemma admission_decision_witness :
  exists o, r_client_admission_classify RCLIENT_OK
    (Some (mk_result false 0 false (Some [mk_guard_result demo_id 100 900 false]) 1
             (Some [mk_resource_result demo_id 4 104]) 1)) = Ok o /\
    oc_decision o = R_ADMISSION_RATE_AND_LATENCY_LIMITED /\ oc_tokens_deficit o = 4.
Proof.
  edestruct (admission_decision RCLIENT_OK) as (o & E & _); [|exists o; split; [exact E|]].
  - split; eexists; (split; [left; reflexivity|reflexivity]).
  - vm_compute in E. injection E as <-. split; reflexivity.
Defined.

(** ** Requests and callbacks *)
Section Workflow.
Context {W : Type} `{HR : Reentrant W} {ssl : OpenSSL} {laws : AesGcmLaws ssl} {dlaws : DigestLaws ssl}.
Implicit Types s : sys W.
Implicit Types X : gset ptr.

(** Starting an idle storage: an incomplete configuration, a missing
    callback or a refused request returns an error with the storage idle and
    no request made; otherwise exactly one request is in flight, for the bucket
    and the tracker whose ids are derived from the configured names and
    parameters, owned by the storage, which holds its handle. *)
Theorem admission_start_behaviour X u config cb user s a0 :
  client_inv X s -> s_adms s !! u = Some a0 -> ad_active a0 = false ->
  from_option admission_ok True config ->
  wp (r_client_admission_start (Some u) config cb user) (start_step X u config cb user s) s.
Proof. apply start_wp. Qed.

(** C38. Completion of a storage's request: the application's callback is called
    exactly once, right after the client's, with the classified outcome; the
    storage it runs on holds that outcome, whether it admits, and neither a
    request nor a wait, and after the completion the storages are as the callback
    left them; the request is freed and no storage refers to it any more,
    whatever the callback does. *)
Theorem admission_completes X u a p r status selected s :
  client_inv X s -> s_adms s !! u = Some a -> awaits a p -> s_reqs s !! p = Some r ->
  wp (r_request_complete p status selected) (fun _ s' =>
    client_inv X s' /\ s_reqs s' !! p = None /\ released p s' /\ completions p (s_trace s') = 1%nat /\
    exists o tr1 tr2, r_client_admission_classify status (completion_result r selected) = Ok o /\
      s_trace s' = s_trace s ++ tr1 ++
        EvComplete (Some p) r_admission_complete_ptr u status (completion_result r selected) ::
        EvAdmission u (ad_callback a) (ad_user a) status o :: tr2 ++ [EvFreeReq p] /\
      Forall (fun e => quiet e = true) tr1 /\
      ran_on u (mk_admission None (ad_resource a) (ad_guard a) (ad_metrics_label a) (ad_callback a)
                  (ad_user a) o false (oc_allowed o) (ad_work_executed a) (ad_latency_reported a)) status (s_adms s')) s.
Proof.
  intros HI Hu Ha Hr. pose proof (awaited_live X u a p s HI Hu Ha) as Hin.
  pose proof (ai_handle _ (ci_adms _ _ _ HI) u a p Hu Ha) as Ho. rewrite Hr in Ho.
  injection Ho as Ecb Eu. destruct (ci_reqs _ _ _ HI p r Hin Hr) as [Hd _].
  eapply wp_mono; [by apply complete_wp|]. cbv beta.
  intros _ s' [C1 _ C3 C4 (tr1 & tr2 & C5 & C6 & C7)]. split; [done|]. split; [done|]. split.
  { intros v b Hv Hb. pose proof (ai_handle _ (ci_adms _ _ _ C1) v b p Hv Hb) as E. by rewrite C3 in E. }
  split; [done|]. rewrite <- Eu in Hu. destruct (C7 Ecb a Hu) as [(tr3 & ->) Hran].
  eexists _, tr1, tr3. split; [apply classify_spec, completion_result_ok, Hd|].
  split; [rewrite C5, Ecb, Eu; done|]. split; [done|]. rewrite <- Eu. exact Hran.
Qed.

(** Cancelling a storage that awaits a request frees the request without any
    callback and leaves the storage idle and not admitted; cancelling an idle
    one changes nothing. *)
Theorem admission_cancel_silent X u a s :
  client_inv X s -> s_adms s !! u = Some a ->
  wp (r_client_admission_cancel (Some u)) (fun _ s' =>
    client_inv X s' /\
    ((forall p, ~ awaits a p) -> s' = s) /\
    (forall p, awaits a p ->
       s_reqs s' = delete p (s_reqs s) /\ completions p (s_trace s') = 0%nat /\
       s_adms s' = <[u := cancelled_storage a]> (s_adms s))) s.
Proof.
  intros HI Hu. eapply wp_mono; [by apply (admission_cancel_wp X u a)|]. cbv beta.
  intros _ s' (? & _ & ? & ?). done.
Qed.

(** A host that reports a second time after a report that was sent; also the
    state between the two. *)
Definition report_twice (u observed again : Z) : M W (Z * option (Z * sys W)) :=
  rc ← r_client_admission_report_latency (Some u) observed;
  if negb (rc =? RCLIENT_OK) then mret (rc, None) else
  s1 ← gets id;
  rc' ← r_client_admission_report_latency (Some u) again;
  mret (rc, Some (rc', s1)).

(** A latency is reported only for settled, admitted work, with the guard's
    own tracker and parameters, and at most once: after a report that was
    sent, the next one is refused and changes nothing. *)
Theorem admission_reports_once X u a observed again s :
  client_inv X s -> s_adms s !! u = Some a -> is_u32 observed -> is_u32 again ->
  wp (report_twice u observed again)
    (fun res s' => match res with
     | (rc, None) => rc <> RCLIENT_OK /\ report_step X u a observed s rc s'
     | (rc, Some (rc', s1)) => report_step X u a observed s rc s1 /\ rc' = RCLIENT_ERR_CONFIG /\ s' = s1
     end) s.
Proof.
  intros HI Hu Ho Hg. unfold report_twice.
  eapply wp_seq; [by apply (admission_report_wp X u a)|]. intros rc s1 Hs.
  destruct (Z.eqb_spec rc RCLIENT_OK) as [->|Hne]; cbn [negb]; [|by wp_step].
  wp_step. apply wp_gets. inversion Hs as [|? ? ? Hrc|s2 ? Hm Hp E HI1 HF1]; subst; [done|].
  eapply wp_seq; [apply (admission_report_wp X u (set_ad_latency_reported true a)); [done|apply lookup_insert_eq|done]|].
  intros rc' s3 Hs3. wp_step. split; [done|]. destruct Hs3 as [_|? ? Hm3 _ _|? ? Hm3 _ _ _ _]; [done|..];
    unfold may_report in Hm3; simpl in Hm3; by rewrite andb_false_r in Hm3.
Qed.
End Workflow.

(** ** The theorems at work *)
Definition demo_admission : r_admission_config :=
  mk_admission_config (Some (cstr "checkout")) 1000 100 1 (Some (cstr "payments")) 100 10000 100 5 None.

Lemma cstr_ok x : forallb byteb (cstr x) = true -> is_cstring (cstr x).
Proof. intros Hb. split; [by apply bytes_decided|]. unfold cstr. set_solver. Qed.

Lemma demo_admission_ok : admission_ok demo_admission.
Proof.
  split; cbn [demo_admission from_option ac_bucket_name ac_latency_tracker_name ac_metrics_label];
    try (by repeat split); apply cstr_ok; vm_compute; reflexivity.
Qed.

Definition admission_started : sys demo_world :=
  state_of (r_client_admission_start (Some demo_storage) (Some demo_admission) 9 55 demo_started) demo_started.
#[global] Strategy expand [admission_started].

Lemma idle_storage : s_adms demo_started !! demo_storage = Some admission_zero.
Proof. vm_compute. reflexivity. Qed.

Lemma admission_start_behaviour_witness :
  wp (r_client_admission_start (Some demo_storage) (Some demo_admission) 9 55)
     (start_step ∅ demo_storage (Some demo_admission) 9 55 demo_started) demo_started.
Proof.
  apply (admission_start_behaviour ∅ demo_storage (Some demo_admission) 9 55 demo_started admission_zero);
    [apply demo_inv|apply idle_storage|reflexivity|apply demo_admission_ok].
Defined.

Lemma admission_started_inv : client_inv ∅ admission_started.
Proof.
  assert (Hs : forall rc s', start_step ∅ demo_storage (Some demo_admission) 9 55 demo_started rc s' ->
    client_inv ∅ s') by (intros rc s' Hs; by destruct Hs).
  unfold admission_started.
  exact (Hs _ _ (wp_state _ _ _ 0 demo_started
    (start_wp ∅ demo_storage (Some demo_admission) 9 55 demo_started admission_zero
       demo_inv idle_storage eq_refl demo_admission_ok))).
Qed.

Definition active_storage : r_admission_request :=
  default admission_zero (s_adms admission_started !! demo_storage).
Definition admission_cell : r_client_req := default req_zero (s_reqs admission_started !! demo_req).

Lemma storage_active : s_adms admission_started !! demo_storage = Some active_storage.
Proof. vm_compute. reflexivity. Qed.
Lemma storage_awaits : awaits active_storage demo_req.
Proof. split; vm_compute; reflexivity. Qed.

Lemma admission_completes_witness :
  wp (r_request_complete demo_req RCLIENT_ERR_TIMEOUT false) (fun _ s' =>
    s_reqs s' !! demo_req = None /\ released demo_req s') admission_started.
Proof.
  eapply wp_mono; [apply (admission_completes ∅ demo_storage active_storage demo_req admission_cell);
    [apply admission_started_inv|apply storage_active|apply storage_awaits|vm_compute; reflexivity]|].
  cbv beta. intros _ s' (_ & Hr & Hf & _). exact (conj Hr Hf).
Defined.

Lemma admission_cancel_silent_witness :
  wp (r_client_admission_cancel (Some demo_storage)) (fun _ s' =>
    completions demo_req (s_trace s') = 0%nat) admission_started.
Proof.
  eapply wp_mono; [apply (admission_cancel_silent ∅ demo_storage active_storage);
    [apply admission_started_inv|apply storage_active]|].
  cbv beta. intros _ s' (_ & _ & Hc). apply (Hc demo_req storage_awaits).
Defined.

(** The server's answer admits the work. *)
Definition admission_answered : sys demo_world :=
  state_of (exec (OnDatagram (Some demo_reply) (zlen demo_reply) (Some demo_addr)) admission_started)
    admission_started.
#[global] Strategy expand [admission_answered].

Lemma admission_answered_inv : client_inv ∅ admission_answered.
Proof.
  unfold admission_answered.
  refine (proj1 (wp_state _ _ _ tt admission_started
    (exec_wp ∅ (OnDatagram (Some demo_reply) (zlen demo_reply) (Some demo_addr)) admission_started
       admission_started_inv _))).
  pose proof (rp_bytes _ _ _ _ _ demo_replies) as [Hb Ho]. split; [|apply demo_addr_wf]. simpl.
  split; [exact Hb|]. split; [exact Ho|]. lia.
Qed.

Definition admitted_storage : r_admission_request :=
  default admission_zero (s_adms admission_answered !! demo_storage).

Lemma storage_admitted :
  s_adms admission_answered !! demo_storage = Some admitted_storage /\ may_report admitted_storage = true.
Proof. split; vm_compute; reflexivity. Qed.

Lemma first_report_sent :
  match report_twice demo_storage 42 43 admission_answered with Ok ((rc, _), _) => rc | UB => -1 end = RCLIENT_OK.
Proof. vm_compute. reflexivity. Qed.

Lemma admission_reports_once_witness :
  wp (report_twice demo_storage 42 43)
    (fun res _ => exists s1, res = (RCLIENT_OK, Some (RCLIENT_ERR_CONFIG, s1))) admission_answered.
Proof.
  pose proof (admission_reports_once ∅ demo_storage admitted_storage 42 43 admission_answered
    admission_answered_inv (proj1 storage_admitted) ltac:(split; reflexivity || discriminate)
    ltac:(split; reflexivity || discriminate)) as Hw.
  pose proof first_report_sent as Hc. unfold wp in *.
  destruct (report_twice demo_storage 42 43 admission_answered) as [|[[rc [[rc' s1]|]] s']]; [exact Hw| |].
  - destruct Hw as (_ & -> & _). exists s1. rewrite Hc. reflexivity.
  - destruct Hw as [Hne _]. destruct (Hne Hc).
Defined.
