(* ===== verification/ResponderTheorems.v ===== *)
(** * Theorems on the test responder

    The peer of the client: its start, its totality on arbitrary packets, its
    answers to a client's request as the client takes them, and its quotas. *)

From Stdlib Require Import String Ascii.
From S2P Require Import Prelude.
From S2P Require Import Types.
From S2P Require Import Wire.
From S2P Require Import WireFacts.
From S2P Require Import Crypto.
From S2P Require Import CryptoFacts.
From S2P Require Import KeyFacts.
From S2P Require Import Workflow.
From S2P Require Import State.
From S2P Require Import Schedule.
From S2P Require Import Hoare.
From S2P Require Import Dns.
From S2P Require Import DnsFacts.
From S2P Require Import Request.
From S2P Require Import RequestFacts.
From S2P Require Import Ids.
From S2P Require Import PacketFacts.
From S2P Require Import ExtractFacts.
From S2P Require Import Client.
From S2P Require Import Lifecycle.
From S2P Require Import Completion.
From S2P Require Import Datagram.
From S2P Require Import Responder.
From S2P Require Import ResponderFacts.
From S2P Require Import ResponderQuota.
From S2P Require Import ResponderAnswers.
From S2P Require Import ResponderSeal.
From S2P Require Import ResponderSafety.
From S2P Require Import ResponderStart.
From S2P Require Import ResponderRequest.
From S2P Require Import ResponderExchange.
From S2P Require Import ResponderSpoiled.
From S2P Require Import Demo.

(** ** Run *)
Section Run.
Context {ssl : OpenSSL} {laws : AesGcmLaws ssl}.

(** What the socket hands over: OpenSSL's state of the moment, a datagram and
    the block for the answer. *)
Record arrival := mk_arrival { av_env : crypto_env; av_input : list Z; av_output : list Z }.

Definition arrival_ok (a : arrival) : Prop :=
  env_ok (av_env a) /\ is_bytes (av_input a) /\ is_object (av_input a) /\ zlen (av_input a) < 2 ^ 32 /\
  is_object (av_output a).

(** One packet after the other. *)
Fixpoint serve (st : r_test_responder_state) (l : list arrival)
  : run (list process_out * r_test_responder_state) :=
  match l with
  | [] => Ok ([], st)
  | a :: l' =>
      r ← process_packet (av_env a) st (av_input a) (zlen (av_input a)) (av_output a) (zlen (av_output a));
      rest ← serve (po_state (snd r)) l';
      Ok (snd r :: fst rest, snd rest)
  end.

Lemma serve_spec l st :
  responder_wf st -> Forall arrival_ok l ->
  ensures (serve st l) (fun r =>
    responder_wf (snd r) /\ same_peer st (snd r) /\ length (fst r) = length l /\
    (0 <= rt_sequence st -> rt_sequence st + zlen l < 2 ^ 64 -> rt_sequence (snd r) = rt_sequence st + zlen l) /\
    forall i a o, l !! i = Some a -> fst r !! i = Some o ->
      zlen (po_output o) = zlen (av_output a) /\ 0 <= po_output_len o <= zlen (av_output a) /\
      (po_send_response o = true -> authentic_packet st (av_input a) (zlen (av_input a)))).
Proof.
  revert st; induction l as [|a l IH]; intros st Hwf Hl; cbn [serve].
  { split; [done|]. split; [apply same_peer_refl|]. split; [done|]. split; [|done]. intros; simpl; lia. }
  apply Forall_cons in Hl as [([_ Hr] & Hb & Ho & Hlen & Hout) Hl]. apply ensures_bind.
  eapply ensures_mono; [apply (process_safe (av_env a)); try done; [lia|lia|]|].
  { intros r Er. apply (Hr r Er). }
  intros [rc o] [W Hsp [Hseq _] Hok Hsent Hau Hrej]. simpl in *. apply ensures_bind.
  eapply ensures_mono; [by apply IH|]. intros [os st2] (W2 & Hsp2 & Hl2 & Hseq2 & Hall). simpl in *.
  split; [done|]. split; [by eapply same_peer_trans|]. split; [by f_equal|]. split.
  - intros H1 H2. rewrite Hseq, u64_small in Hseq2 by rlia. rewrite Hseq2; lia.
  - intros [|i] a' o' Ha Ho'; simpl in *.
    + injection Ha as <-. injection Ho' as <-. destruct Hok as [? ?]. split; [done|]. split; [done|].
      intros Hs. destruct Hau as [Hk|]; [|done]. destruct (Hrej Hk) as [Hk' _]. congruence.
    + destruct (Hall i a' o' Ha Ho') as (? & ? & Hs). split; [done|]. split; [done|]. intros E.
      destruct (Hs E) as (h & pdu & ? & ? & Hid & Hp). exists h, pdu. split; [done|]. split; [done|].
      split; [by rewrite Hid, (sp_key _ _ Hsp)|]. intros c Hc. apply Hp. by apply (same_peer_shares st).
Qed.

(** C14. A responder that starts stays up: started with a valid key, a nonzero
    server id and a known scenario, it handles every sequence of datagrams,
    whatever their bytes, without leaving a block; it numbers them, keeps its
    configuration and its invariant, and answers only packets under its key. *)
Theorem responder_stays_up mem st0 scenario text rest server_id keep allow_count st l :
  0 ∉ text -> zlen text <= 2 ^ 59 -> is_u64 server_id ->
  r_test_responder_init mem (Some st0) scenario (Some (text ++ 0 :: rest)) server_id keep allow_count =
    Ok (RCLIENT_OK, Some st) ->
  Forall arrival_ok l -> zlen l < 2 ^ 64 ->
  responder_wf st /\ rt_scenario st = scenario /\ rt_server_id st = server_id /\
  ensures (serve st l) (fun r =>
    responder_wf (snd r) /\ same_peer st (snd r) /\ length (fst r) = length l /\
    rt_sequence (snd r) = zlen l /\
    forall i a o, l !! i = Some a -> fst r !! i = Some o ->
      zlen (po_output o) = zlen (av_output a) /\ 0 <= po_output_len o <= zlen (av_output a) /\
      (po_send_response o = true -> authentic_packet st (av_input a) (zlen (av_input a)))).
Proof.
  intros Ht Hlt Hs Hi Hl Hll. rewrite init_spec in Hi by done.
  destruct (_ || _) eqn:Eb in Hi; [done|]. breflect.
  destruct (if mem 0%nat && mem 1%nat && mem 2%nat && mem 3%nat then key_decode text else None) as [k|] eqn:Ek; [|done].
  assert (Hk : key_decode text = Some k) by (by destruct (mem 0%nat && mem 1%nat && mem 2%nat && mem 3%nat); [rewrite Ek|]).
  injection Hi as <-.
  pose proof (started_wf text k scenario server_id keep allow_count Hk Hs ltac:(lia)) as Hwf.
  split; [done|]. split; [done|]. split; [done|].
  eapply ensures_mono; [by apply serve_spec|]. intros r (? & ? & ? & Hseq & ?).
  split; [done|]. split; [done|]. split; [done|]. split; [|done]. apply Hseq; [done|]. simpl. lia.
Qed.
End Run.

(** ** One request *)
Section Requests.
Context {ssl : OpenSSL} {laws : AesGcmLaws ssl}.

(** C13. The responder implements its contract: on a request packet of the client's
    builders it notes the request, reaches the verdict of [plan] from the
    guards, the resources, the quota table and the scenario, and leaves the
    state [plan] says. A dropped request is answered by nothing and success, a
    refused one by nothing and an error. An answer is the response PDU of exactly
    the blocks of the verdict, sealed for the client with the request's id and
    time, and is missing only when the block has no room for it or OpenSSL fails;
    the datagram sent is that packet, with one bit of the cookie or of the tag
    flipped under malformed-auth and without its last byte under
    malformed-truncated, and the rest of the block is left alone. The event
    carries the scenario's name. The numbers of blocks ([planned_counts]), the
    quota table ([charged]), the spoiling ([spoil]) and the names
    ([scenario_label]) are stated apart from the program. *)
Theorem responder_implements_plan env st c h ttl gs rs ol bytes output cap :
  paired st c -> client_packet c h ttl gs rs ol bytes -> env_ok env -> 0 <= cap <= zlen output ->
  is_object output ->
  implemented env c st h output cap (request_event st gs rs ol) (plan st gs rs)
    (process_packet env st bytes (zlen bytes) output cap).
Proof. intros. by eapply process_implemented. Qed.

(** What the scenarios decide: allow and guard-pass admit every request whose
    guards have a positive threshold, deny refuses every request with a
    resource, guard-deny every request with a guard; each answers block by
    block whatever fits a packet, with the tokens asked for as deficit when it
    denies and none otherwise. *)
Theorem scenarios_decide st gs rs :
  by_rule (rt_scenario st) -> Forall wf_latency_guard gs -> Forall wf_resource_request rs ->
  12 + zlen gs * 36 + zlen rs * 28 <= R_MAX_PACKET_SIZE ->
  let answers := map (fun r => set_tokens (plain_deficit (rt_scenario st) r) r) rs in
  let pdu := response_pdu (rt_scenario st) gs answers in
  plan st gs rs = (Answered gs answers, noted st gs) /\
  resp_valid pdu (zlen pdu) = true /\
  resp_guards pdu = map (guard_answer (rt_scenario st)) gs /\
  resp_resources pdu = map resource_answer answers /\
  resp_success pdu = decides (rt_scenario st) gs rs.
Proof.
  intros Hs Hg Hr Hl answers pdu. split; [by apply plan_by_rule|]. change R_MAX_PACKET_SIZE with 1200 in Hl.
  assert (Hra : Forall wf_resource_request answers).
  { apply Forall_map. eapply Forall_impl; [exact Hr|]. intros r (? & ? & ? & ?). do 3 (split; [done|]).
    simpl. unfold plain_deficit. case_if; [case_if; [rlia|done]|rlia]. }
  assert (Hla : zlen answers = zlen rs) by (unfold answers; by rewrite length_map).
  assert (Hpl : zlen pdu <= R_MAX_PACKET_SIZE).
  { unfold pdu, response_pdu, ser_pdu. rewrite !length_app, !le_length, !Nat2Z.inj_add, (response_body_length _ _ _ Hg Hra).
    rewrite Hla. clia. }
  destruct (response_reads (rt_scenario st) gs answers Hg Hra) as (Hv & _ & _ & E1 & E2 & _); [lia|lia|exact Hpl|].
  split; [done|]. split; [done|]. split; [done|]. unfold pdu. rewrite response_success by (done || lia).
  by apply granted_by_rule.
Qed.
End Requests.

(** ** The exchange *)
Section Exchange.
Context {W : Type} `{HR : Reentrant W} {ssl : OpenSSL} {laws : AesGcmLaws ssl} {tags : GcmTagLaw ssl}.
Implicit Types s : sys W.
Implicit Types X : gset ptr.

(** C12. Client and responder agree: the packet of a request in flight, handed to a
    responder with the same key whose verdict is an unspoiled answer, comes
    back as a datagram the client accepts; the request hears the responder's
    server id and exactly the guard and resource results of the verdict, and
    then completes or waits for an older server. *)
Theorem responder_answers_client X p r env st h ttl gs rs ol bytes output cap gs' rs' st' from s :
  let c := cl_fixed (s_client s) in
  client_inv X s -> never_fails W -> p ∈ cl_inflight (s_client s) -> s_reqs s !! p = Some r ->
  (forall q r', q ∈ cl_inflight (s_client s) -> s_reqs s !! q = Some r' ->
     rq_request_id r' = rq_request_id r -> q = p) ->
  clock c (s_world s) <= rq_dedup_deadline_ms r -> wf_addr from ->
  paired st c -> client_packet c h ttl gs rs ol bytes -> th_unique_id h = rq_request_id r ->
  r_allowed_server_id r (rt_server_id st) = true ->
  env_ok env -> 0 <= cap <= zlen output -> is_object output ->
  plan st gs rs = (Answered gs' rs', st') -> spoiled (rt_scenario st) = false ->
  can_answer env c st h gs' rs' cap ->
  let pdu := response_pdu (rt_scenario st) gs' rs' in
  resp_guards pdu = map (guard_answer (rt_scenario st)) gs' /\ resp_resources pdu = map resource_answer rs' /\
  resp_success pdu = granted (rt_scenario st) gs' rs' /\
  exists o, process_packet env st bytes (zlen bytes) output cap = Ok (RCLIENT_OK, o) /\
    po_send_response o = true /\ po_state o = st' /\ po_output_len o <= cap /\
    po_event o = request_event st gs rs ol (r_test_scenario_name (rt_scenario st)) /\
    wp (r_client_on_datagram (Some (sent_bytes o)) (po_output_len o) (Some from)) (fun rc s' =>
      rc = RCLIENT_OK /\ exists r' s1, heard (response_tenant st h false) pdu r r' /\ only_world s s1 /\
        accept_step X p r' (clock c (s_world s1)) s1 s') s.
Proof.
  intros c HI Hnf Hin Hr Huniq Hclk Hf Hp Hc Hid Hsrv He Hcap Hobj Epl Hsp Hroom pdu.
  destruct (request_pieces c h ttl gs rs ol bytes Hc []) as (_ & _ & _ & _ & Hgn & Hrn).
  destruct (plan_fits st gs rs gs' rs' st') as [[Hg' Hr' [Hgn' Hrn'] Hl] _]; try done; [apply Hp|apply Hc|apply Hc|].
  destruct (response_reads (rt_scenario st) gs' rs' Hg' Hr' Hgn' Hrn' Hl) as (_ & _ & _ & E1 & E2 & _).
  split; [done|]. split; [done|]. split; [by apply response_success|].
  destruct (answer_is_reply env st c r h ttl gs rs ol bytes output cap gs' rs' st') as
    (o & Epr & Hsend & Est & Hlen & Eev & Eln & Hrep); try done.
  exists o. do 5 (split; [done|]). rewrite <- Eln. by eapply delivery_wp.
Qed.

(** C15. Spoiled answers are ignored: the datagram sent in a malformed scenario (a
    cookie or a tag with one bit flipped; a packet a byte short, under a cookie;
    a request id no request in flight has) leaves the client and all its
    requests as they were, without a callback. *)
Theorem spoiled_answers_ignored X env st h ttl gs rs ol bytes output cap gs' rs' st' from s :
  let c := cl_fixed (s_client s) in
  client_inv X s -> paired st c -> client_packet c h ttl gs rs ol bytes -> env_ok env ->
  0 <= cap <= zlen output -> is_object output -> wf_addr from ->
  detectable c (map rq_request_id (omap (fun p => s_reqs s !! p) (cl_inflight (s_client s))))
    (th_unique_id h) (rt_scenario st) ->
  plan st gs rs = (Answered gs' rs', st') -> can_answer env c st h gs' rs' cap ->
  exists o, process_packet env st bytes (zlen bytes) output cap = Ok (RCLIENT_OK, o) /\
    po_send_response o = true /\
    wp (r_client_on_datagram (Some (sent_bytes o)) (zlen (sent_bytes o)) (Some from))
       (fun _ s' => only_world s s') s.
Proof. intros c HI Hp Hc He Hcap Hobj Hf Hd Epl Hroom. by eapply spoiled_ignored. Qed.
End Exchange.

(** ** Quotas *)

(** C16. The quota table counts exactly: over any sequence of requests, from a table
    without entries, a request is allowed if and only if fewer than the
    configured number of earlier requests were for the same bucket, as long as
    at most 256 different buckets are asked for. *)
Theorem quota_counts_exactly st ids :
  responder_wf st -> rt_quota_count st = 0 ->
  Z.of_nat (size (list_to_set ids : gset (list Z))) <= R_TEST_RESPONDER_QUOTA_CAP -> zlen ids < 2 ^ 64 ->
  exists vs st', quota_calls st ids = Ok (vs, st') /\ responder_wf st' /\ length vs = length ids /\
    forall i id, ids !! i = Some id ->
      vs !! i = Some (if requests_for id (take i ids) <? rt_allow_count st then 1 else 0).
Proof.
  intros Hwf H0 Hsz Hl. assert (Ec : bucket_counts st = ∅) by (unfold bucket_counts, used_entries; by rewrite H0).
  destruct (quota_calls_spec ids st Hwf) as (st' & E & W).
  - by rewrite Ec, dom_empty_L, union_empty_l_L.
  - rewrite Ec. intros id k. by rewrite lookup_empty.
  - done.
  - eexists _, st'. split; [exact E|]. split; [done|]. split.
    + rewrite Ec. clear. generalize (earlier ∅). induction ids as [|id ids IH]; intros f; [done|]. simpl. by f_equal.
    + intros i id Hi. rewrite (verdicts_lookup _ _ _ _ id Hi), Ec. unfold earlier. rewrite lookup_empty. done.
Qed.

(** ** Witnesses *)

(** The responder of the demonstration's key, as server 7. *)
Definition demo_responder (scenario : Z) : r_test_responder_state :=
  mk_responder scenario R_AUTH_AES_GCM 2 (replicate 32 2) 7 true 1 0 (replicate 16 0) false
    (replicate (Z.to_nat R_TEST_RESPONDER_QUOTA_CAP) quota_entry_zero) 0.
Definition demo_env : crypto_env := mk_crypto_env true true (Some (replicate 12 9)).
Definition demo_output : list Z := replicate 1200 0.

Lemma demo_env_ok : env_ok demo_env.
Proof.
  split; [done|]. intros r [= <-]. split; [done|]. apply bytes_decided. reflexivity.
Qed.

Lemma demo_responder_wf scenario :
  R_TEST_SCENARIO_ALLOW <= scenario <= R_TEST_SCENARIO_COUNT_EXTRA -> responder_wf (demo_responder scenario).
Proof.
  intros Hs. split; try done; [split; [done|]; apply Forall_replicate; rlia|by right|constructor].
Qed.

(** The request the demonstration's client has in flight, as a packet. *)
Definition demo_client : client_fixed := cl_fixed (s_client demo_waiting).
Definition demo_query_header : r_tenant_header := request_tenant demo_client (rq_request_id demo_cell) 1000.
Definition demo_query : list Z :=
  ser_tenant demo_query_header ++ le 2 R_TLV_AUTH_AES ++ le 2 32 ++ replicate 12 9 ++ zero_tag ++
  ser_request_pdu 100 (ser_request_body [demo_guard] [demo_resource] None).
#[global] Strategy expand [demo_client demo_query_header demo_query].

Lemma demo_paired scenario :
  R_TEST_SCENARIO_ALLOW <= scenario <= R_TEST_SCENARIO_COUNT_EXTRA -> paired (demo_responder scenario) demo_client.
Proof.
  intros Hs. split.
  - by apply demo_responder_wf.
  - split; [vm_compute; reflexivity|vm_compute; reflexivity|intros E; exfalso; revert E; vm_compute; discriminate|].
    intros _. vm_compute. reflexivity.
  - apply (co_auth _ (ci_cfg _ _ _ demo_waiting_inv)).
  - right. split; vm_compute; reflexivity.
Qed.

Lemma demo_query_packet :
  client_packet demo_client demo_query_header 100 [demo_guard] [demo_resource] None demo_query.
Proof.
  split.
  - apply demo_guards_wf.
  - apply demo_resources_wf.
  - done.
  - split; [|done]. repeat split; try (vm_compute; (reflexivity || discriminate)).
    apply bytes_decided. vm_compute. reflexivity.
  - vm_compute. reflexivity.
  - vm_compute. discriminate.
  - apply sealed_aes; vm_compute; reflexivity.
  - apply bytes_decided. vm_compute. reflexivity.
Qed.

#[export] Instance demo_tags : GcmTagLaw demo_ssl.
Proof.
  split. cbn [EVP_aes_256_gcm_open demo_ssl]. intros _ _ _ c t t' p p'.
  by do 2 (case_bool_decide; [|done]); subst.
Qed.

Lemma demo_arrival_ok : arrival_ok (mk_arrival demo_env demo_query demo_output).
Proof.
  split; [apply demo_env_ok|]. split; [apply bytes_decided; vm_compute; reflexivity|].
  split; [vm_compute; reflexivity|]. split; vm_compute; reflexivity.
Qed.

(** The same packet twice. *)
Lemma responder_stays_up_witness :
  exists st, r_test_responder_init (fun _ => true) (Some (demo_responder 0)) R_TEST_SCENARIO_QUOTA
      (Some (demo_text ++ [0])) 7 true 1 = Ok (RCLIENT_OK, Some st) /\
    ensures (serve st [mk_arrival demo_env demo_query demo_output; mk_arrival demo_env demo_query demo_output])
      (fun r => responder_wf (snd r) /\ rt_sequence (snd r) = 2).
Proof.
  exists (demo_responder R_TEST_SCENARIO_QUOTA).
  assert (E : r_test_responder_init (fun _ => true) (Some (demo_responder 0)) R_TEST_SCENARIO_QUOTA
      (Some (demo_text ++ [0])) 7 true 1 = Ok (RCLIENT_OK, Some (demo_responder R_TEST_SCENARIO_QUOTA)))
    by (vm_compute; reflexivity).
  split; [exact E|].
  destruct (responder_stays_up (fun _ => true) (demo_responder 0) R_TEST_SCENARIO_QUOTA demo_text [] 7 true 1
    (demo_responder R_TEST_SCENARIO_QUOTA)
    [mk_arrival demo_env demo_query demo_output; mk_arrival demo_env demo_query demo_output]) as (_ & _ & _ & Hs).
  - apply (bool_decide_unpack _). vm_compute. exact I.
  - vm_compute. discriminate.
  - split; vm_compute; [discriminate|reflexivity].
  - exact E.
  - constructor; [apply demo_arrival_ok|constructor; [apply demo_arrival_ok|constructor]].
  - vm_compute. reflexivity.
  - eapply ensures_mono; [exact Hs|]. cbv beta. intros r (? & _ & _ & Hq & _). split; [done|exact Hq].
Defined.

Lemma responder_implements_plan_witness :
  implemented demo_env demo_client (demo_responder R_TEST_SCENARIO_DENY) demo_query_header demo_output 1200
    (request_event (demo_responder R_TEST_SCENARIO_DENY) [demo_guard] [demo_resource] None)
    (plan (demo_responder R_TEST_SCENARIO_DENY) [demo_guard] [demo_resource])
    (process_packet demo_env (demo_responder R_TEST_SCENARIO_DENY) demo_query (zlen demo_query) demo_output 1200).
Proof.
  apply (responder_implements_plan demo_env _ demo_client demo_query_header 100).
  - apply demo_paired. split; vm_compute; discriminate.
  - apply demo_query_packet.
  - apply demo_env_ok.
  - split; vm_compute; discriminate.
  - vm_compute. reflexivity.
Defined.

(** Deny: the token asked for is missing. *)
Lemma scenarios_decide_witness :
  resp_success (response_pdu R_TEST_SCENARIO_DENY [demo_guard] [demo_resource]) = false /\
  plan (demo_responder R_TEST_SCENARIO_DENY) [demo_guard] [demo_resource] =
  (Answered [demo_guard] [demo_resource], noted (demo_responder R_TEST_SCENARIO_DENY) [demo_guard]).
Proof.
  destruct (scenarios_decide (demo_responder R_TEST_SCENARIO_DENY) [demo_guard] [demo_resource]
    ltac:(right; left; reflexivity) demo_guards_wf demo_resources_wf ltac:(vm_compute; discriminate))
    as (Ep & _ & _ & _ & Es).
  split; [exact Es|exact Ep].
Defined.

Lemma demo_can_answer scenario :
  12 + 36 + 28 + zlen (response_pdu scenario [demo_guard] [demo_resource]) <= 1200 ->
  can_answer demo_env demo_client (demo_responder scenario) demo_query_header [demo_guard] [demo_resource] 1200.
Proof.
  intros Hl. assert (Et : cf_auth_type demo_client = R_AUTH_AES_GCM) by (vm_compute; reflexivity). split.
  - cbv zeta. change (rt_scenario (demo_responder scenario)) with scenario. unfold seal_len. rewrite Et.
    change (R_AUTH_AES_GCM =? R_AUTH_COOKIE) with false. cbv iota. lia.
  - intros _. split; [reflexivity|].
    exists (replicate 12 9), (response_pdu scenario [demo_guard] [demo_resource], zero_tag). split; reflexivity.
Qed.

Lemma responder_answers_client_witness :
  exists o, process_packet demo_env (demo_responder R_TEST_SCENARIO_DENY) demo_query (zlen demo_query) demo_output 1200
      = Ok (RCLIENT_OK, o) /\
    wp (r_client_on_datagram (Some (sent_bytes o)) (po_output_len o) (Some demo_addr))
      (fun rc _ => rc = RCLIENT_OK) demo_waiting.
Proof.
  destruct (responder_answers_client ∅ demo_req demo_cell demo_env (demo_responder R_TEST_SCENARIO_DENY)
    demo_query_header 100 [demo_guard] [demo_resource] None demo_query demo_output 1200
    [demo_guard] [demo_resource] (noted (demo_responder R_TEST_SCENARIO_DENY) [demo_guard]) demo_addr demo_waiting)
    as (_ & _ & _ & o & Ho & _ & _ & _ & _ & Hwp).
  - apply demo_waiting_inv.
  - intros w. reflexivity.
  - apply demo_inflight.
  - apply demo_req_cell.
  - intros q r' Hq _ _. assert (Hl : cl_inflight (s_client demo_waiting) = [demo_req])
      by (vm_compute; reflexivity). rewrite Hl in Hq. by apply list_elem_of_singleton in Hq.
  - vm_compute. discriminate.
  - apply demo_addr_wf.
  - apply demo_paired. split; vm_compute; discriminate.
  - apply demo_query_packet.
  - vm_compute. reflexivity.
  - vm_compute. reflexivity.
  - apply demo_env_ok.
  - split; vm_compute; discriminate.
  - vm_compute. reflexivity.
  - vm_compute. reflexivity.
  - reflexivity.
  - apply demo_can_answer. vm_compute. discriminate.
  - exists o. split; [exact Ho|]. eapply wp_mono; [exact Hwp|]. intros rc s' [Hrc _]. exact Hrc.
Defined.

(** A flipped tag bit. *)
Lemma spoiled_answers_ignored_witness :
  exists o, process_packet demo_env (demo_responder R_TEST_SCENARIO_MALFORMED_AUTH) demo_query (zlen demo_query)
      demo_output 1200 = Ok (RCLIENT_OK, o) /\ po_send_response o = true /\
    wp (r_client_on_datagram (Some (sent_bytes o)) (zlen (sent_bytes o)) (Some demo_addr))
       (fun _ s' => only_world demo_waiting s') demo_waiting.
Proof.
  eapply (spoiled_answers_ignored ∅ demo_env (demo_responder R_TEST_SCENARIO_MALFORMED_AUTH)
    demo_query_header 100 [demo_guard] [demo_resource] None demo_query demo_output 1200
    [demo_guard] [set_tokens 0 demo_resource] (noted (demo_responder R_TEST_SCENARIO_MALFORMED_AUTH) [demo_guard])).
  - apply demo_waiting_inv.
  - apply demo_paired. split; vm_compute; discriminate.
  - apply demo_query_packet.
  - apply demo_env_ok.
  - split; vm_compute; discriminate.
  - vm_compute. reflexivity.
  - apply demo_addr_wf.
  - by apply detect_auth.
  - vm_compute. reflexivity.
  - split; [vm_compute; discriminate|]. intros _. split; [reflexivity|].
    eexists (replicate 12 9), _. split; reflexivity.
Defined.

(** Two buckets, an allowance of one. *)
Lemma quota_counts_exactly_witness :
  exists st', quota_calls (demo_responder R_TEST_SCENARIO_QUOTA)
    [demo_id; replicate 16 6; demo_id; replicate 16 6] = Ok ([1; 1; 0; 0], st').
Proof.
  destruct (quota_counts_exactly (demo_responder R_TEST_SCENARIO_QUOTA)
    [demo_id; replicate 16 6; demo_id; replicate 16 6]) as (vs & st' & E & _ & Hl & Hv).
  - apply demo_responder_wf. split; vm_compute; discriminate.
  - reflexivity.
  - vm_compute. discriminate.
  - reflexivity.
  - exists st'. rewrite E. destruct vs as [|v0 [|v1 [|v2 [|v3 [|]]]]]; try discriminate Hl.
    pose proof (Hv 0%nat _ eq_refl) as H0. pose proof (Hv 1%nat _ eq_refl) as H1.
    pose proof (Hv 2%nat _ eq_refl) as H2. pose proof (Hv 3%nat _ eq_refl) as H3.
    vm_compute in H0, H1, H2, H3. congruence.
Defined.
