(* ===== verification/RuntimeTheorems.v ===== *)
(** * Theorems on the socket runtime

    The properties of src/r_client_runtime.c over any operating system that
    obeys the laws of its calls, and the theorems at work on a small one. *)

From Stdlib Require Import String Ascii.
From S2P Require Import Prelude.
From S2P Require Import Types.
From S2P Require Import Wire.
From S2P Require Import WireFacts.
From S2P Require Import Crypto.
From S2P Require Import CryptoFacts.
From S2P Require Import Workflow.
From S2P Require Import State.
From S2P Require Import Hoare.
From S2P Require Import Schedule.
From S2P Require Import Dns.
From S2P Require Import DnsFacts.
From S2P Require Import Request.
From S2P Require Import RequestFacts.
From S2P Require Import PacketFacts.
From S2P Require Import ExtractFacts.
From S2P Require Import Client.
From S2P Require Import Lifecycle.
From S2P Require Import Completion.
From S2P Require Import Datagram.
From S2P Require Import Admission.
From S2P Require Import Ids.
From S2P Require Import WorkflowOps.
From S2P Require Import WorkflowFacts.
From S2P Require Import Api.
From S2P Require Import Frame.
From S2P Require Import Runtime.
From S2P Require Import RuntimeFacts.
From S2P Require Import RuntimeSockets.
From S2P Require Import RuntimeHost.
From S2P Require Import RuntimeReceive.
From S2P Require Import Steering.
From S2P Require Import Create.
From S2P Require Import RuntimeLife.
From S2P Require Import RuntimeConfig.
From S2P Require Import RuntimeWork.
From S2P Require Import Demo.
From S2P Require Import RuntimeDemo.

Section Theorems.
Context {O : Type} {OS : Os O} {K : Kernel O} {APP : App O} {olaws : OsLaws O}.
Context {HR : Reentrant (rworld O)} {ssl : OpenSSL} {laws : AesGcmLaws ssl} {dlaws : DigestLaws ssl}.

(** C24. The life of a runtime: initialisation either gives a created client on
    sockets of the runtime's own, or reports an error and leaves no descriptor
    open that was not, and no memory.  After success, whatever legal calls,
    datagrams and steering follow, the client's invariant holds and the
    runtime's sockets and the program's other descriptors are exactly what is
    open; destroying it closes its sockets, frees the requests and wipes the
    credential. *)
Theorem runtime_owns_its_sockets base {HG : Guest base} o (s : sys (rworld O)) :
  options_ok o -> blank s -> k_open (rw_os (s_world s)) = base ->
  exists rc s0, r_runtime_client_init true (Some o) s = Ok (rc, s0) /\ init_post base o rc s0 /\
    (rc = RCLIENT_OK -> forall s1, lives s0 s1 ->
       running base o s1 /\ exists s2, r_runtime_client_destroy true s1 = Ok (tt, s2) /\ gone base s1 s2).
Proof.
  intros Ho Hb Hbase. destruct (wp_Ok _ _ _ (init_wp base o s Ho Hb Hbase)) as (rc & s0 & E & Hp).
  exists rc, s0. split; [done|]. split; [done|]. intros Hrc s1 Hl.
  pose proof (lives_running base o s0 s1 (init_running base o rc s0 Hp Hrc) Hl) as Hr.
  split; [done|]. exact (running_destroy base o s1 Hr).
Qed.

(** C26. Steering moves every socket or none: a replacement has the family of the
    socket it replaces and another port of the dynamic range, the old sockets
    are closed, and when one replacement cannot be had those acquired are
    closed and the runtime keeps its sockets.  Either way the runtime's sockets
    and the other descriptors are what is open; keeping the port changes
    nothing. *)
Theorem steering_moves_sockets base keep r (o : O) r' o' :
  owns base r o -> runtime_on_steering_feedback keep r o = (r', o') ->
  owns base r' o' /\ (keep = true -> r' = r /\ o' = o) /\
  (r' = r \/ keep = false /\ r' = set_rn_sockets (rn_sockets r') r /\
             Forall2 (moved o o') (rn_sockets r) (rn_sockets r')).
Proof.
  intros Hw E. destruct (steering_spec base keep r o r' o' Hw E) as [Hw' Hr]. split; [done|]. split; [|done].
  intros ->. unfold runtime_on_steering_feedback in E. cbn [orb] in E. by injection E as <- <-.
Qed.


(** C28. Protected work: it runs only for an admitted request whose work did not
    run yet, is measured on the monotonic clock from before it to after it, and
    is followed by one latency report, clamped to 32 bits, exactly when it
    succeeded and the clock did not go backwards.  Once it has run the helper
    refuses the storage, whatever the work. *)
Theorem protected_work_once X u a work out (s : sys (rworld O)) :
  client_inv X s -> s_adms s !! u = Some a -> well_behaved u work ->
  rn_handle (rw_runtime (s_world s)) = true ->
  wp (r_runtime_admission_run_and_report true (Some u) (Some work) out)
    (fun res s' => ran X u a work out s res s' /\ kept X s s' /\
       (may_run a = true -> ~ (res = (RCLIENT_ERR_IO, out) /\ only_world s s') ->
        forall again out',
          r_runtime_admission_run_and_report true (Some u) (Some again) out' s' = Ok ((RCLIENT_ERR_CONFIG, out'), s'))) s.
Proof.
  intros HI Hu Hw Hh. eapply wp_mono; [by apply (run_and_report_wp X u a work out s)|].
  intros res s' (Hran & Hk & Hx). split; [done|]. split; [done|]. intros Hm Hn again out'.
  destruct (Hx Hm) as [Hy|Hy]; [by destruct Hn|]. unfold r_runtime_admission_run_and_report, runtime.
  unfold mbind, M_bind, gets. cbn [negb orb]. case_if; [done|]. unfold get_adm.
  destruct (s_adms s' !! u) as [b|]; [|done]. cbn in Hy. by rewrite Hy, orb_true_r.
Qed.

(** The hooks the runtime gives the client are defined on what the client
    passes them: names that are strings and addresses that are blocks; sending
    is 0 for a datagram sent whole and -1 otherwise, and never stops at an
    interrupted call. *)
Theorem runtime_hooks_defined r (o : O) :
  runtime_wf r ->
  (forall name, exists a o', runtime_resolve_srv r name o = Ok (a, o')) /\
  (forall name, 0 ∈ name -> exists a o', runtime_resolve_addresses r name o = Ok (a, o')) /\
  (forall to buffer, wf_addr to -> exists v o', runtime_udp_send r to buffer o = Ok (v, o') /\ (v = 0 \/ v = -1)) /\
  (forall fd buffer to n o', sendto_retry (os_patience o) fd buffer to o = (n, o') -> ~ (n < 0 /\ os_errno o' = EINTR)).
Proof.
  intros Hr. split; [|split; [|split]].
  - intros name. by apply resolve_srv_defined.
  - intros name Hn. by apply resolve_addresses_defined.
  - intros to buffer Ht. by apply udp_send_defined.
  - intros fd buffer to n o' E. by eapply sendto_retry_settles.
Qed.
End Theorems.


(** A port setting with a sign is taken, and wraps round the 64-bit type. *)
Lemma port_setting_wraps : parse_port (cstr "-18446744073709551615") = Ok (Some 1).
Proof. vm_compute. reflexivity. Qed.

(** ** The theorems at work *)
Definition demo_options : r_runtime_options :=
  mk_options None (Some demo_key) None 0 (op_request_policy options_zero) false false.

Lemma demo_key_cstring : is_cstring demo_key /\ zlen demo_key <= 2 ^ 59.
Proof.
  split; [|done]. split; [apply bytes_decided; vm_compute; reflexivity|]. unfold demo_key, cstr. set_solver.
Qed.

Lemma demo_options_ok : options_ok demo_options.
Proof. split; cbn; [exact demo_key_cstring|done|done|done|by repeat split]. Qed.

Definition demo_machine (q : list (list Z)) : demo_os := mk_os [] q 1000 0.

(** The program starts; standard input, output and error are another's. *)
Definition runtime_blank : sys (rworld demo_os) :=
  mk_sys (client_blank demo_config demo_ops) ∅ ∅ ∅ demo_adms 0 (mk_rworld runtime_zero (demo_machine [[1; 2; 3]])) [].

Lemma runtime_is_blank : blank runtime_blank.
Proof.
  split; try done. intros u a Hu. cbn [s_adms runtime_blank] in Hu.
  unfold demo_adms in Hu. apply lookup_singleton_Some in Hu as [_ <-]. split; [done|apply zero_guard_wf].
Qed.

Definition runtime_init : run (Z * sys (rworld demo_os)) := r_runtime_client_init true (Some demo_options) runtime_blank.
Definition runtime_started : sys (rworld demo_os) := state_of runtime_init runtime_blank.
#[global] Strategy expand [runtime_init runtime_started].

Lemma runtime_init_ok : value_of runtime_init (-1) = RCLIENT_OK.
Proof. vm_compute. reflexivity. Qed.

Lemma runtime_owns_its_sockets_witness :
  exists s0, r_runtime_client_init true (Some demo_options) runtime_blank = Ok (RCLIENT_OK, s0) /\
    exists s2, r_runtime_client_destroy true s0 = Ok (tt, s2) /\ gone ∅ s0 s2.
Proof.
  destruct (runtime_owns_its_sockets ∅ demo_options runtime_blank demo_options_ok runtime_is_blank
    ltac:(vm_compute; reflexivity)) as (rc & s0 & E & _ & Hrest).
  pose proof runtime_init_ok as Hrc. unfold runtime_init in Hrc. rewrite E in Hrc. cbn [value_of] in Hrc. subst rc.
  exists s0. split; [exact E|]. exact (proj2 (Hrest eq_refl s0 (lives_start s0))).
Defined.

Lemma runtime_running : running ∅ demo_options runtime_started.
Proof.
  pose proof (wp_state _ _ _ (-1) runtime_blank
    (init_wp ∅ demo_options runtime_blank demo_options_ok runtime_is_blank ltac:(vm_compute; reflexivity))) as Hp.
  exact (init_running ∅ demo_options _ _ Hp runtime_init_ok).
Qed.

Lemma runtime_keyed : keyed (cl_fixed (s_client runtime_started)).
Proof. destruct (ru_credential _ _ _ runtime_running) as [k Hk]. exact (credential_keyed _ _ _ Hk). Qed.


(** Both sockets move to new ports. *)
Definition steered : r_runtime_client * demo_os :=
  runtime_on_steering_feedback false (rw_runtime (s_world runtime_started)) (rw_os (s_world runtime_started)).
#[global] Strategy expand [steered].

Lemma steered_sockets :
  rn_sockets (rw_runtime (s_world runtime_started)) = [3; 4] /\ rn_sockets (fst steered) = [5; 6].
Proof. split; vm_compute; reflexivity. Qed.

Lemma steering_moves_sockets_witness :
  owns ∅ (fst steered) (snd steered) /\
  Forall2 (moved (rw_os (s_world runtime_started)) (snd steered)) [3; 4] [5; 6].
Proof.
  destruct steered_sockets as [E1 E2].
  destruct (steering_moves_sockets ∅ false (rw_runtime (s_world runtime_started)) (rw_os (s_world runtime_started))
    (fst steered) (snd steered) (ru_owned _ _ _ runtime_running) ltac:(unfold steered; by destruct (runtime_on_steering_feedback _ _ _)))
    as (Hw & _ & Hr).
  split; [exact Hw|]. destruct Hr as [Hr|(_ & _ & Hm)].
  - apply (f_equal rn_sockets) in Hr. rewrite E1, E2 in Hr. discriminate.
  - rewrite E1, E2 in Hm. exact Hm.
Defined.

(** A storage whose request was admitted. *)
Definition admitted_demo : r_admission_request := set_ad_admitted true admission_zero.
Definition runtime_admitted : sys (rworld demo_os) :=
  set_adms (<[demo_storage := admitted_demo]> (s_adms runtime_started)) runtime_started.
#[global] Strategy expand [runtime_admitted].

Lemma runtime_admitted_inv : client_inv ∅ runtime_admitted.
Proof.
  refine (proj1 (client_inv_mark ∅ runtime_started demo_storage admission_zero admitted_demo
    (ru_inv _ _ _ runtime_running) _ eq_refl eq_refl eq_refl eq_refl)). vm_compute. reflexivity.
Qed.

Lemma protected_work_once_witness :
  wp (r_runtime_admission_run_and_report true (Some demo_storage) (Some (mret RCLIENT_OK)) (Some 0))
    (fun res s' => ran ∅ demo_storage admitted_demo (mret RCLIENT_OK) (Some 0) runtime_admitted res s') runtime_admitted.
Proof.
  eapply wp_mono; [apply (protected_work_once ∅ demo_storage admitted_demo (mret RCLIENT_OK) (Some 0) runtime_admitted
    runtime_admitted_inv)|].
  - vm_compute. reflexivity.
  - intros X s HI. split; [apply kept_refl; exact HI|reflexivity].
  - vm_compute. reflexivity.
  - intros res s' [Hr _]. exact Hr.
Defined.

Lemma runtime_hooks_defined_witness :
  runtime_wf (rw_runtime (s_world runtime_started)) /\
  exists a o', runtime_resolve_srv (rw_runtime (s_world runtime_started)) demo_key (demo_machine []) = Ok (a, o').
Proof.
  pose proof (ow_wf _ _ _ (ru_owned _ _ _ runtime_running)) as Hr. split; [exact Hr|].
  exact (proj1 (runtime_hooks_defined (rw_runtime (s_world runtime_started)) (demo_machine []) Hr) demo_key).
Defined.

(** A key, a unit of 25 milliseconds and a fixed host with its port. *)
Definition demo_environment : environment := fun name =>
  if bool_decide (name = cbytes "RATELIMITLY_AUTH_KEY") then Some demo_key else
  if bool_decide (name = cbytes "RATELIMITLY_REQUEST_UNIT_MS") then Some (cstr "25") else
  if bool_decide (name = cbytes "RATELIMITLY_EXAMPLE_SERVER_HOST") then Some (cstr "127.0.0.1") else
  if bool_decide (name = cbytes "RATELIMITLY_EXAMPLE_SERVER_PORT") then Some (cstr " +39082") else None.

Lemma demo_environment_ok name :
  from_option (fun t => is_cstring t /\ zlen t <= 2 ^ 59) True (demo_environment name).
Proof.
  unfold demo_environment. repeat case_bool_decide; try exact I; [exact demo_key_cstring|..];
    (split; [split; [apply bytes_decided; vm_compute; reflexivity|apply (bool_decide_unpack _); vm_compute; exact I]|
             vm_compute; discriminate]).
Qed.

