(* ===== verification/PerfTheorems.v ===== *)
(** * Theorems on the load generator

    What its report says of a run: the percentiles, the schedule shared by the
    workers, the traffic totals and the buckets' names. *)

From Stdlib Require Import String Ascii.
From stdpp Require Import sorting.
From S2P Require Import Prelude.
From S2P Require Import Types.
From S2P Require Import Wire.
From S2P Require Import Crypto.
From S2P Require Import KeyFacts.
From S2P Require Import Ids.
From S2P Require Import DnsFacts.
From S2P Require Import Workflow.
From S2P Require Import State.
From S2P Require Import Client.
From S2P Require Import Create.
From S2P Require Import Responder.
From S2P Require Import PerfLatency.
From S2P Require Import PerfPacer.
From S2P Require Import Perf.
From S2P Require Import PerfFacts.

(** ** Percentiles *)

(** Every worker counts its latencies in a zeroed histogram of its own. *)
Lemma workers_count samples :
  Forall (Forall (fun us => 0 <= us)) samples -> Forall (fun s => zlen s <= UINT64_MAX) samples ->
  exists hists, Forall2 (fun s h => count_all s empty_histogram = Ok h) samples hists /\
    Forall2 histogram hists (map (@rev Z) samples).
Proof.
  intros Hs Hl. induction samples as [|s samples IH]; [by exists []|].
  apply Forall_cons in Hs as [Hs1 Hs]. apply Forall_cons in Hl as [Hl1 Hl].
  destruct (IH Hs Hl) as (hists & H1 & H2). destruct (count_all_spec s empty_histogram [] histogram_zero Hs1) as (h & E & Hh).
  { cbn. lia. }
  rewrite app_nil_r in Hh. exists (h :: hists). by split; constructor.
Qed.

Lemma concat_rev_perm (l : list (list Z)) : concat (map (@rev Z) l) ≡ₚ concat l.
Proof. induction l as [|x l IH]; [done|]. cbn [map concat]. by rewrite IH, <- Permutation_rev. Qed.

Lemma concat_bound (l : list (list Z)) n : zlen (concat l) <= n -> Forall (fun s => zlen s <= n) l.
Proof.
  induction l as [|x l IH]; intros Hl; constructor; cbn [concat] in Hl; rewrite length_app in Hl; [lia|]. apply IH. lia.
Qed.

(** C18. The percentiles of a report are exact to the width of a bucket: when the
    workers count their latencies and the counts are added up, the percentile
    read from them is the upper bound of the bucket of the sample that the
    nearest-rank definition takes from the sorted latencies of all workers;
    below a second it exceeds that sample by at most 1, 10 or 100 us, and
    from a second on it is a second. *)
Theorem percentiles_nearest_rank samples sorted p :
  Forall (Forall (fun us => 0 <= us)) samples -> zlen (concat samples) <= UINT64_MAX -> concat samples <> [] ->
  1 <= p <= 100 -> StronglySorted Z.le sorted -> sorted ≡ₚ concat samples ->
  exists hists merged x r,
    Forall2 (fun s h => count_all s empty_histogram = Ok h) samples hists /\
    merge_histograms hists empty_histogram = Ok merged /\
    perf_latency_percentile_upper_us (Some merged) (zlen (concat samples)) p = Ok r /\
    sorted !! Z.to_nat (rank (zlen (concat samples)) p - 1) = Some x /\
    (x < 1000000 -> x < r <= x + bucket_width x) /\ (1000000 <= x -> r = 1000000).
Proof.
  intros Hs Hl Hne Hp Hst Hperm. destruct (workers_count samples Hs (concat_bound _ _ Hl)) as (hists & Hc & Hh).
  pose proof (concat_rev_perm samples) as Hrev. pose proof (Permutation_length Hrev) as Hlen.
  destruct (merge_spec hists _ empty_histogram [] Hh histogram_zero) as (merged & Em & Hm); [cbn; lia|].
  apply (histogram_perm _ _ (concat samples)) in Hm; [|exact Hrev].
  destruct (percentile_spec merged _ sorted p Hm Hl Hne Hp Hst Hperm) as (x & Hx & H0 & Er).
  exists hists, merged, x, (perf_latency_bucket_upper_us (perf_latency_bucket x)).
  split; [done|]. split; [done|]. split; [done|]. split; [done|].
  split; intros; [apply bucket_upper; lia|by apply bucket_upper_overflow].
Qed.

(** ** The schedule *)

(** C19. A paced run keeps to its plan: for every accepted command line with a
    target rate, and for any readings of the clock by its workers, the
    pacers start and hand out slots of one schedule: no slot is handed out
    twice, a worker's slots increase, each is due no earlier than the reading it
    is handed out at and before the end, and together they are at most the
    rate times the duration. *)
Theorem paced_run_on_plan mem args c start clocks :
  Forall arg_ok args -> perf_config_from_args mem args = Ok (Next c) -> pf_target_rps c <> 0 ->
  0 <= start < 2 ^ 63 -> zlen clocks = pf_concurrent_clients c -> Forall (Forall is_u64) clocks ->
  exists dues slots,
    crew (paced_start start) (pf_target_rps c) (pf_concurrent_clients c) (paced_duration c) 0 clocks = Ok dues /\
    dues = map (map (at_slot (start + NS) (pf_target_rps c))) slots /\
    NoDup (concat slots) /\ Forall (StronglySorted Z.lt) slots /\
    Forall2 (fun c ds => exists handed left, c = handed ++ left /\ Forall2 Z.le handed ds) clocks dues /\
    (forall s, s ∈ concat slots -> 0 <= s < planned (pf_target_rps c) (pf_duration_secs c)) /\
    zlen (concat dues) <= planned (pf_target_rps c) (pf_duration_secs c).
Proof.
  intros Ha Ec Hr Hst Hn Hc. destruct (config_from_args_spec mem args Ha) as (f & E & Hf). rewrite Ec in E.
  injection E as <-. destruct Hf as [Hp _ _ _ _ _ _ _ _ _]. destruct (Hp Hr) as (Hrps & _ & Hsecs & Hcl).
  unfold paced_start, paced_duration, NS in *. unwrap.
  destruct (crew_spec (start + 1000000000) (pf_target_rps c) (pf_concurrent_clients c) (pf_duration_secs c * 1000000000) clocks 0)
    as (dues & slots & -> & -> & Hss & Hds & Hall); try (unfold NS; rlia); [done|].
  assert (forall s, s ∈ concat slots -> exists j ss, slots !! j = Some ss /\ s ∈ ss) as Hin.
  { intros s Hs. apply list_elem_of_In, in_concat in Hs as (ss & Hss' & Hs).
    apply list_elem_of_In, list_elem_of_lookup in Hss' as [j Hj]. exists j, ss. split; [done|by apply list_elem_of_In]. }
  assert (NoDup (concat slots)) as Hnd.
  { apply (residues_NoDup slots (pf_concurrent_clients c) 0).
    - eapply Forall_impl; [exact Hss|]. apply StronglySorted_lt_NoDup.
    - intros j ss s Hj Hs. by apply (Hall j ss s Hj). }
  assert (forall s, s ∈ concat slots -> 0 <= s < planned (pf_target_rps c) (pf_duration_secs c)) as Hplan.
  { intros s Hs. destruct (Hin s Hs) as (j & ss & Hj & Hs'). destruct (Hall j ss s Hj Hs') as (H0 & _ & Hend).
    split; [done|]. apply (slot_planned (start + 1000000000)); [lia|]. exact Hend. }
  eexists _, slots. split; [done|]. split; [done|]. split; [done|]. split; [done|]. split; [done|]. split; [done|].
  rewrite <- concat_map, length_map. pose proof (bounded_NoDup _ _ Hnd Hplan). unfold planned in *. nia.
Qed.

(** ** Traffic *)

(** C40. The traffic totals of a report are exact: counted by the workers in
    whatever order and merged by [main], every total is the sum over all
    datagrams (payload, payload with IP and UDP headers, number) or the 64-bit
    maximum, where the headers are 28 bytes for an IPv4 peer, a v4-mapped IPv6
    address included, and 48 for an IPv6 one; and the report is marked incomplete
    exactly when a peer's family was unknown or a total exceeded 64 bits. *)
Theorem traffic_totals_exact workers :
  Forall (Forall event_ok) workers ->
  exists counters,
    Forall2 (fun w t => count_events w traffic_zero = Ok t) workers counters /\
    foldl perf_traffic_merge traffic_zero counters = saturate (total (concat workers) traffic_zero) /\
    totals_ok (total (concat workers) traffic_zero).
Proof.
  intros Hw. assert (Hz : totals_ok traffic_zero) by (repeat split; cbn; lia).
  exists (map (fun w => saturate (total w traffic_zero)) workers). split; [|split].
  - apply Forall2_fmap_r, Forall_Forall2_diag. eapply Forall_impl; [exact Hw|]. intros w Hwk.
    by apply (count_events_spec w traffic_zero Hz Hwk).
  - rewrite <- (merged_total workers traffic_zero Hz Hw). change (saturate traffic_zero) with traffic_zero.
    assert (forall l t, foldl perf_traffic_merge t (map (fun w => saturate (total w traffic_zero)) l) =
      foldl (fun t w => perf_traffic_merge t (saturate (total w traffic_zero))) t l) as H.
    { induction l as [|w l IH]; intros t; cbn; [done|apply IH]. }
    apply H.
  - apply (count_events_spec _ traffic_zero Hz). apply Forall_concat. eapply Forall_impl; [exact Hw|]. done.
Qed.

(** ** Buckets *)

(** Clients that do not share a bucket use different buckets: with room for
    the names, the name written for a client is the prefix, an underscore and
    its number, and two clients' names are equal only when the numbers are; a
    shared bucket's name is the prefix; without room, or with an empty prefix,
    the name is refused. *)
Theorem bucket_names_distinct out prefix rest i j :
  0 ∉ prefix -> 0 < zlen out -> is_u64 i -> is_u64 j ->
  (forall id shared, exists out',
     perf_bucket_name (Some out) (zlen out) (Some (prefix ++ 0 :: rest)) id shared =
       Ok (bool_decide (prefix <> [] /\ zlen (bucket_text prefix id shared) < zlen out), Some out') /\
     length out' = length out /\
     (prefix <> [] -> zlen (bucket_text prefix id shared) < zlen out -> exists junk, out' = bucket_text prefix id shared ++ 0 :: junk)) /\
  (bucket_text prefix i false = bucket_text prefix j false <-> i = j) /\
  bucket_text prefix i true = prefix.
Proof.
  intros Hz Ho Hi Hj. split; [|split].
  - intros id shared. destruct (bucket_name_spec out prefix rest id shared Hz Ho) as (out' & E & Hl & Ht). exists out'.
    split; [exact E|]. by split.
  - split; [by apply bucket_text_inj|by intros ->].
  - apply app_nil_r.
Qed.

(** ** Witnesses *)
Definition demo_samples : list (list Z) := [[5; 12345]; [2000000]].

Lemma percentiles_nearest_rank_witness :
  exists hists merged x r,
    Forall2 (fun s h => count_all s empty_histogram = Ok h) demo_samples hists /\
    merge_histograms hists empty_histogram = Ok merged /\
    perf_latency_percentile_upper_us (Some merged) (zlen (concat demo_samples)) 50 = Ok r /\
    [5; 12345; 2000000] !! Z.to_nat (rank (zlen (concat demo_samples)) 50 - 1) = Some x /\
    (x < 1000000 -> x < r <= x + bucket_width x) /\ (1000000 <= x -> r = 1000000).
Proof.
  apply (percentiles_nearest_rank demo_samples [5; 12345; 2000000] 50);
    [by repeat constructor|done|done|lia|repeat constructor; lia|done].
Defined.

Definition demo_perf_args : list (list Z) :=
  [cbytes "--auth=" ++ R_TEST_RESPONDER_AES_KEY; cstr "--clients=2"; cstr "--duration"; cstr "3"; cstr "--target-rps=5"].
Definition demo_perf_config : perf_config :=
  mk_perf_config None (Some R_TEST_RESPONDER_AES_KEY) R_AUTH_AES_GCM 3 2 1000 true 3 5 0 (cstr "perf_bucket") 10000 false 20 1
    false false.

Definition demo_clocks : list (list Z) := [[1000; 1000000000]; [0; 2000000000; 2500000000]].

Lemma paced_run_on_plan_witness :
  exists dues slots,
    crew (paced_start 0) 5 2 (paced_duration demo_perf_config) 0 demo_clocks = Ok dues /\
    dues = map (map (at_slot (0 + NS) 5)) slots /\
    NoDup (concat slots) /\ Forall (StronglySorted Z.lt) slots /\
    Forall2 (fun c ds => exists handed left, c = handed ++ left /\ Forall2 Z.le handed ds) demo_clocks dues /\
    (forall s, s ∈ concat slots -> 0 <= s < planned 5 3) /\ zlen (concat dues) <= planned 5 3.
Proof.
  apply (paced_run_on_plan (fun _ => true) demo_perf_args demo_perf_config 0 demo_clocks).
  - repeat (apply Forall_cons; split); [..|constructor];
      (split; [split; [apply (bool_decide_unpack _); vm_compute; exact I|apply (bool_decide_unpack _); vm_compute; exact I]
              |vm_compute; discriminate]).
  - vm_compute. reflexivity.
  - done.
  - lia.
  - done.
  - by repeat constructor.
Defined.

Definition demo_peer : r_addr := mk_addr (AF_INET :: 0 :: replicate 126 0) 16.
Definition demo_traffic : list (list traffic_event) :=
  [[Datagram true demo_peer 100; SendFailure]; [Datagram false demo_peer UINT64_MAX]].

Lemma traffic_totals_exact_witness :
  exists counters,
    Forall2 (fun w t => count_events w traffic_zero = Ok t) demo_traffic counters /\
    foldl perf_traffic_merge traffic_zero counters = saturate (total (concat demo_traffic) traffic_zero) /\
    totals_ok (total (concat demo_traffic) traffic_zero).
Proof.
  apply (traffic_totals_exact demo_traffic).
  assert (wf_addr demo_peer) as Hp.
  { split; [done|]. split; [|split; done]. do 2 (constructor; [done|]). by apply Forall_replicate. }
  repeat (apply Forall_cons; split); try constructor; try done; (split; [done|rlia]).
Defined.

Lemma bucket_names_distinct_witness :
  (forall id shared, exists out',
     perf_bucket_name (Some (replicate 16 7)) 16 (Some (cbytes "perf" ++ 0 :: [])) id shared =
       Ok (bool_decide (cbytes "perf" <> [] /\ zlen (bucket_text (cbytes "perf") id shared) < 16), Some out') /\
     length out' = 16%nat /\
     (cbytes "perf" <> [] -> zlen (bucket_text (cbytes "perf") id shared) < 16 ->
      exists junk, out' = bucket_text (cbytes "perf") id shared ++ 0 :: junk)) /\
  (bucket_text (cbytes "perf") 1 false = bucket_text (cbytes "perf") 12 false <-> 1 = 12) /\
  bucket_text (cbytes "perf") 1 true = cbytes "perf".
Proof.
  apply (bucket_names_distinct (replicate 16 7) (cbytes "perf") [] 1 12);
    [apply (bool_decide_unpack _); vm_compute; exact I|done|rlia|rlia].
Defined.
