(* ===== verification/PerfWorkerTheorems.v ===== *)
(** * Theorems on the load generator's program

    From the command line to the exit status: the DNS cache the workers share,
    what each worker does, that a run of a given number of requests ends, and
    what the report says. *)

From Stdlib Require Import String Ascii.
From stdpp Require Import sorting.
From S2P Require Import Prelude.
From S2P Require Import Types.
From S2P Require Import Wire.
From S2P Require Import Crypto.
From S2P Require Import CryptoFacts.
From S2P Require Import Workflow.
From S2P Require Import State.
From S2P Require Import Hoare.
From S2P Require Import Schedule.
From S2P Require Import Steering.
From S2P Require Import Dns.
From S2P Require Import DnsFacts.
From S2P Require Import Request.
From S2P Require Import RequestFacts.
From S2P Require Import PacketFacts.
From S2P Require Import ExtractFacts.
From S2P Require Import Client.
From S2P Require Import Lifecycle.
From S2P Require Import Completion.
From S2P Require Import Datagram.
From S2P Require Import Admission.
From S2P Require Import WorkflowOps.
From S2P Require Import WorkflowFacts.
From S2P Require Import Api.
From S2P Require Import Frame.
From S2P Require Import Runtime.
From S2P Require Import RuntimeFacts.
From S2P Require Import RuntimeSockets.
From S2P Require Import RuntimeHost.
From S2P Require Import KeyFacts.
From S2P Require Import Ids.
From S2P Require Import RuntimeReceive.
From S2P Require Import Teardown.
From S2P Require Import Create.
From S2P Require Import PerfLatency.
From S2P Require Import PerfPacer.
From S2P Require Import Perf.
From S2P Require Import PerfFacts.
From S2P Require Import PerfNet.
From S2P Require Import PerfNetFacts.
From S2P Require Import PerfDns.
From S2P Require Import PerfDnsFacts.
From S2P Require Import PerfWorker.
From S2P Require Import PerfHost.
From S2P Require Import PerfWait.
From S2P Require Import RuntimeConfig.
From S2P Require Import PerfEnds.
From S2P Require Import PerfRun.

From S2P Require Import PerfThread.
From S2P Require Import PerfMain.
From S2P Require Import PerfMainFacts.
From S2P Require Import RuntimeLife.
From S2P Require Import Demo.
From S2P Require Import RuntimeDemo.
From S2P Require Import PerfDemo.

(** ** The cache *)


(** ** The workers *)



(** ** The report *)





(** The worker's run, evaluated. *)
Definition demo_run : run (option Z * sys (pworld demo_os)) := perf_worker (cached := pl_cache demo_plan) 3 40 demo_thread.
Definition demo_ended : sys (pworld demo_os) := state_of demo_run demo_thread.
Definition demo_ends : list worker_end := [mk_worker_end true (Some 0) (pw_worker (s_world demo_ended))].

#[global] Strategy expand [demo_run demo_ended demo_ends].

Lemma demo_run_ok : demo_run = Ok (Some 0, demo_ended).
Proof.
  assert (match demo_run with Ok (Some 0, _) => true | _ => false end = true) as E by (vm_compute; reflexivity).
  unfold demo_ended, state_of. by destruct demo_run as [|[[[]|] s']].
Qed.

Lemma demo_ran :
  Forall3 (ran (cached := pl_cache demo_plan) 3 40) (pl_workers demo_plan) [s_trace demo_ended] demo_ends.
Proof.
  rewrite demo_thread_worker. constructor; [|constructor].
  pose proof demo_run_ok as E. unfold demo_run in E.
  apply (ran_to_end (cached := pl_cache demo_plan) 3 40 (pw_worker (s_world demo_thread)) demo_thread 0 demo_ended true).
  - apply demo_thread_blank.
  - apply demo_polls_well.
  - reflexivity.
  - exact E.
Qed.

Lemma demo_few : Z.of_nat 3 * pf_concurrent_clients (pl_config demo_plan) <= UINT64_MAX.
Proof. vm_compute. discriminate. Qed.

