(* ===== verification/ResponderProgramTheorems.v ===== *)
(** * Theorems on the test responder's program

    Its arguments, the lines it prints and a run from start to end. *)

From Stdlib Require Import String Ascii.
From S2P Require Import Prelude.
From S2P Require Import Types.
From S2P Require Import Wire.
From S2P Require Import WireFacts.
From S2P Require Import Crypto.
From S2P Require Import CryptoFacts.
From S2P Require Import KeyFacts.
From S2P Require Import Workflow.
From S2P Require Import State.
From S2P Require Import DnsFacts.
From S2P Require Import Request.
From S2P Require Import RequestFacts.
From S2P Require Import PacketFacts.
From S2P Require Import Client.
From S2P Require Import Create.
From S2P Require Import Runtime.
From S2P Require Import Responder.
From S2P Require Import ResponderFacts.
From S2P Require Import ResponderSafety.
From S2P Require Import ResponderRequest.
From S2P Require Import Perf.
From S2P Require Import ResponderMain.
From S2P Require Import ResponderLines.
From S2P Require Import ResponderEvents.
From S2P Require Import ResponderArgs.
From S2P Require Import ResponderProgram.
From S2P Require Import Demo.

(** ** Arguments *)

(** The responder reads its command line as the reference does: an argument
    is [--help], [--print-nginx-config] or a name, the first equals sign and a
    value; numbers are decimal and fit 64 bits, and accepted options are in
    range, with a listen address given.  The listen address is
    [[host]:port], cut at the first closing bracket, or [host:port], cut at the
    last colon, with a host of 1 to 45 bytes and a port of 1 to 65535. *)
Theorem responder_arguments_exact inet_pton texts :
  Forall arg_text texts ->
  parse_options (c_args texts) = Ok (options_of texts default_options) /\
  match options_of texts default_options with
  | Return code => code = 0 \/ code = -1
  | Next o =>
      options_in_range o /\
      exists t, ro_listen o = Some (t ++ [0]) /\
        parse_listen_address inet_pton (ro_listen o) true = Ok (listen_of inet_pton t) /\
        forall a, listen_of inet_pton t = Some a ->
          1 <= la_port a <= 65535 /\ exists h, la_host a = h ++ [0] /\ h <> [] /\ 0 ∉ h
  end.
Proof.
  intros Hall. split; [by apply parse_options_spec|].
  destruct (options_of texts default_options) as [o|code] eqn:Eo; [|by eapply options_of_refused].
  destruct (options_of_ok _ _ _ Hall default_options_ok Eo) as [Hok [l El]]. split; [done|].
  destruct (ok_listen _ Hok l El) as (t & -> & Ht). exists t. split; [done|]. rewrite El.
  split; [by apply parse_listen_address_spec|]. intros a Ha. by apply (listen_of_host inet_pton t).
Qed.

(** ** Lines *)

(** C39. The lines of events can be read back: every event whose numbers have
    their widths and whose label and disposition are C strings is printed, as
    one line without a control character, and reading the line gives the
    event's kind, numbers, tracker, disposition and label back, whatever bytes
    the label holds. *)
Theorem event_lines_read_back e status label disposition :
  event_wf e label disposition -> (te_kind e = R_TEST_EVENT_INPUT_REJECTED -> is_u64 (Z.abs status)) ->
  exists out, print_event e status = Ok out /\ one_line out /\
    forall rest, read_line (out ++ rest) = Some (line_of e status label disposition, rest).
Proof. apply print_event_spec. Qed.

(** ** A run *)


(** ** Witnesses

    A system that hands out the datagrams of an inbox, remembers what was
    printed and sent, and asks the program to stop when the inbox is empty. *)
Record desk := mk_desk { dk_printed : list (list Z); dk_inbox : list (list Z); dk_sent : list (list Z) }.

Definition desk_print (l : list Z) (d : desk) : desk := mk_desk (dk_printed d ++ [l]) (dk_inbox d) (dk_sent d).
Definition deliverable (p : list Z) : bool := forallb byteb p && (0 <? zlen p) && (zlen p <=? INPUT_CAPACITY).

(** A datagram in the receive buffer. *)
Definition in_buffer (p : list Z) (cap : Z) : list Z := p ++ replicate (Z.to_nat (cap - zlen p)) 0.

Definition desk_recv (cap : Z) (d : desk) : (Z * list Z * r_addr) * desk :=
  match dk_inbox d with
  | p :: rest =>
      if deliverable p && (zlen p <=? cap)
      then ((zlen p, in_buffer p cap, demo_addr), mk_desk (dk_printed d) rest (dk_sent d))
      else ((-1, [], demo_addr), mk_desk (dk_printed d) rest (dk_sent d))
  | [] => ((-1, [], demo_addr), d)
  end.

#[export] Instance desk_system : Os desk := {|
  os_errno := fun _ => EINTR;
  os_clock_gettime := fun _ d => (Some (0, 0), d);
  os_socket := fun _ d => (3, d);
  os_getfl := fun _ d => (0, d);
  os_setfl := fun _ _ d => (0, d);
  os_ipv6_only := fun _ d => d;
  os_bind := fun _ _ _ d => (0, d);
  os_close := fun _ d => d;
  os_getsockname := fun _ d => (None, d);
  os_sendto := fun _ b _ d => (zlen b, mk_desk (dk_printed d) (dk_inbox d) (dk_sent d ++ [b]));
  os_recvfrom := fun _ d => ((-1, [], demo_addr), d);
  os_getaddrinfo := fun _ d => (None, d);
  os_query_srv := fun _ d => (None, d);
  os_stderr := fun _ d => d;
  os_alloc := fun d => (true, d);
  os_rand_bytes := fun _ d => (None, d);
  os_patience := fun _ => 0%nat;
|}.

#[export] Instance desk_server : ServerOs desk := {|
  sv_shutdown := fun d => (bool_decide (dk_inbox d = []), d);
  sv_sigaction := fun d => (true, d);
  sv_bind := fun _ _ d => (0, d);
  sv_poll := fun _ _ d => ((1, POLLIN), d);
  sv_recvfrom := fun _ cap d => desk_recv cap d;
  sv_nanosleep := fun t d => ((0, t), d);
  sv_stdout := desk_print;
  sv_crypto := fun d => (mk_crypto_env true true (Some (replicate 12 9)), d);
  sv_allocs := fun d => (fun _ => true, d);
  sv_patience := fun _ => 1%nat;
|}.

#[export] Instance desk_laws : ServerLaws desk.
Proof.
  split; cbn [sv_crypto sv_recvfrom desk_server].
  - intros o env o' [= <- _]. split; [done|]. intros r [= <-]. split; [done|]. by apply bytes_decided.
  - intros _ cap o n buf peer o'. unfold desk_recv. destruct (dk_inbox o) as [|p rest]; [intros [= <- _ _ _]; lia|].
    destruct (deliverable p && (zlen p <=? cap)) eqn:E; [|intros [= <- _ _ _]; lia]. intros [= <- <- _ _] _.
    unfold deliverable in E. breflect. unfold in_buffer. rewrite length_app, length_replicate. split; [lia|]. split; [lia|].
    apply Forall_app. split; [by apply bytes_decided|]. by apply Forall_replicate.
Qed.

#[export] Instance desk_console : Console desk dk_printed.
Proof.
  split; cbn; try done; try (by intros; simplify_eq).
  intros _ cap o r o'. unfold desk_recv. repeat case_match; by intros [= _ <-].
Qed.

Definition desk_pton (family : Z) (host : list Z) : option (list Z) :=
  if (family =? AF_INET) && bool_decide (host = cstr "127.0.0.1") then Some [127; 0; 0; 1] else None.

(** A packet that is not the client's, then one that is. *)
Definition desk_header : r_tenant_header := mk_tenant R_TLV_TENANT R_TENANT_TLV_LEN 3 (replicate 16 5) 1000 0 0 0 0.
Definition desk_query : list Z :=
  ser_tenant desk_header ++ le 2 R_TLV_AUTH_AES ++ le 2 32 ++ replicate 12 9 ++ zero_tag ++
  ser_request_pdu 100 (ser_request_body [demo_guard] [demo_resource] None).
Definition desk_start : desk := mk_desk [] [[1; 2; 3]; desk_query; desk_query; desk_query] [].
Definition desk_args : list (list Z) :=
  [cbytes "--listen=127.0.0.1:4000"; cbytes "--scenario=deny"; cbytes "--max-packets=2"].

Lemma desk_args_texts : Forall arg_text desk_args.
Proof.
  repeat (apply Forall_cons; split); [..|constructor];
    (split; [apply bytes_decided; vm_compute; reflexivity|apply (bool_decide_unpack _); vm_compute; exact I]).
Qed.

Lemma responder_arguments_exact_witness :
  parse_options (c_args desk_args) = Ok (options_of desk_args default_options) /\
  match options_of desk_args default_options with
  | Return code => code = 0 \/ code = -1
  | Next o =>
      options_in_range o /\
      exists t, ro_listen o = Some (t ++ [0]) /\
        parse_listen_address desk_pton (ro_listen o) true = Ok (listen_of desk_pton t) /\
        forall a, listen_of desk_pton t = Some a ->
          1 <= la_port a <= 65535 /\ exists h, la_host a = h ++ [0] /\ h <> [] /\ 0 ∉ h
  end.
Proof. apply (responder_arguments_exact desk_pton desk_args desk_args_texts). Defined.

(** A label with a quote, a backslash, a newline and a control character. *)
Definition awkward_label : list Z := [34; 92; 10; 1; 255; 104].
Definition awkward_event : r_test_event :=
  mk_event R_TEST_EVENT_RATE_REQUEST 7 1 2 0 (mk_observation true (replicate 16 0) 10 20 5) false 100 0
    (awkward_label ++ [0; 9]) (cstr "deny").

Lemma awkward_event_wf : event_wf awkward_event awkward_label (cbytes "deny").
Proof.
  split; unfold tracker_wf; cbn; try rlia.
  - exists [9]. split; [done|]. by repeat constructor.
  - split; [exists []; split; [done|by repeat constructor]|by repeat constructor].
Qed.

Lemma event_lines_read_back_witness :
  exists out, print_event awkward_event 0 = Ok out /\ one_line out /\
    forall rest, read_line (out ++ rest) = Some (line_of awkward_event 0 awkward_label (cbytes "deny"), rest).
Proof. apply (event_lines_read_back awkward_event 0 awkward_label (cbytes "deny") awkward_event_wf). done. Defined.

(** The run ends on its second authenticated packet, with one packet left. *)
Definition desk_end : desk :=
  match main desk_pton 10 (c_args desk_args) desk_start with Ok (Some (_, _, d)) => d | _ => desk_start end.

Lemma desk_run : main desk_pton 10 (c_args desk_args) desk_start = Ok (Some (0, Some cleansed, desk_end)).
Proof. vm_compute. reflexivity. Qed.

